(* ===== verification/_CoqProject ===== *)
-Q . S2P
Prelude.v
Riscv.v
State.v
Klib.v
Sched.v
Spinlock.v
Kalloc.v
Uart.v
Vm.v
Usercopy.v
Paging.v
Bio.v
Virtio.v
Log.v
Tx.v
Fs.v
Balloc.v
Inode.v
Dir.v
Console.v
Pipe.v
File.v
Fileio.v
Create.v
Swap.v
Swapfile.v
Demand.v
Policy.v
Pagefault.v
Proc.v
Exec.v
Syscall.v
Sysfile.v
Trap.v
Boot.v
Asm.v
Entry.v
User.v
Grep.v
Cmds.v
Umalloc.v
Shell.v
Shparse.v
Mkfs.v
Mkimage.v
Mkdisk.v
Mount.v
Grind.v
