(* ===== verification/Prelude.v ===== *)
(** * A verification development for the os212-ass3 xv6 kernel

    The program is xv6 for RISC-V with demand paging: a process above pid 2
    keeps at most [MAX_PYSC_PAGES] pages in memory and as many in a swap file
    of its own, and one of four policies, chosen when the kernel is compiled,
    picks the page that leaves memory.  The rest is the xv6 kernel (page
    allocator, page tables, processes, traps, a disk driver, a buffer cache, a
    write-ahead log, a file system, pipes, a console, system calls), the
    assembly that enters and leaves it, user programs, and the program that
    makes the disk image.

    ** How the code is modelled

    A C function is a definition of the same name in the monad [M] of this
    file, over the state [world] of [State]: the kernel's globals as one
    record [kernel], and a schedule.  A run returns, panics, gives the
    processor away for good, spins for ever, or does what C leaves undefined;
    these are the constructors of [outcome].  Integers are [Z] with the
    wrap-around of their width written out ([u32], [s32], [u64], ...).
    Physical memory is a map from addresses to bytes: the free list, page
    tables, trapframes and user pages live in it as bytes.  Elements of static
    tables are list elements and pointers to them indices.

    Concurrency has two views.  [Sched] has the view of one kernel thread:
    when it gives the processor away ([sched]), the next element of the
    schedule, any function on the kernel's state, says what the others did
    before it runs again, so that a theorem for every schedule is a theorem
    for every behaviour of the others.  [Spinlock] has all processors, one
    memory access at a time, and justifies the lock routines of [Sched].

    Loops that are not bounded by their data take fuel and have the outcome
    [NoFuel].  Their fuel is written where the loop is called and is enough:
    wait loops get the length of the schedule plus one, since each turn
    consumes an element of it; loops over a range get the number of its pages,
    blocks or entries plus one or two; [SCFIFO_algorithm] gets a bound on the
    number of second chances.  The theorems state results ([Ret], or [Panic]
    with its reason), never only what holds if there is one.

    Code that is not in the repository is a parameter with its documented
    behaviour as hypotheses, in classes: [Layout] (the addresses the linker
    chooses), [Mmio] and [Device] (device registers and the virtio disk),
    [Disk] with [DiskReads] and [DiskWrites] (what the cache needs of a disk;
    the synchronous disk [sync_disk] is an instance, and [Virtio] shows that
    the driver with its device refines it), [Selection] (the compiled-in
    policy) with [Chooser] (what page faults need of a policy; [Policy] has the
    instance for each of the four, under the condition [ages_ok] on the ages of
    the pages), [Sys] with [StreamIo] and [TestSys] (the system calls as user
    programs see them), [Host] (the calls of mkfs on the build host).

    ** The files

    - [Prelude]: integers, the monad, loops, byte memory, shared lemmas.
    - [Riscv]: riscv.h, memlayout.h, param.h, fs.h and the other headers.
    - [State]: the structs and globals; [Klib]: string.c.
    - [Sched]: spinlock.c and sleeplock.c for one thread, and [sched],
      [sleep], [wakeup] of proc.c; [Spinlock]: spinlock.c on all processors.
    - [Kalloc]: kalloc.c; [Uart]: uart.c, printf.c; [Vm], [Usercopy],
      [Paging]: the page tables, copies and paging of vm.c.
    - [Bio]: bio.c; [Virtio]: virtio_disk.c; [Log]: log.c; [Tx]: cache and log
      together; [Fs]: fs.c, with theorems in [Balloc] (block allocation),
      [Inode] (file contents), [Dir] (directories) and [Fileio] (files of a
      process, from no transaction to the next).
    - [Console]: console.c; [Pipe]: pipe.c; [File]: file.c; [Create],
      [Sysfile]: sysfile.c; [Syscall]: syscall.c, sysproc.c.
    - [Swap]: swap files (fs.c) and the swapping paths of vm.c; theorems on
      them in [Swapfile] (the file), [Demand] (page tables, entries and swap
      file together: the invariant [paging]), [Policy] (the policies as
      instances of [Chooser]) and [Pagefault] (the fault handler).
    - [Proc]: proc.c; [Exec]: exec.c; [Trap]: trap.c, plic.c; [Boot]: start.c,
      main.c; [Asm]: trampoline.S, kernelvec.S, swtch.S, entry.S; [Entry]: C
      and assembly composed.
    - [User]: ulib.c, printf.c of user/; [Grep], [Cmds], [Umalloc]: the
      programs and the allocator; [Shell]: sh.c; [Shparse]: its grammar.
    - [Mkfs]: mkfs.c; [Mkimage]: the image as a list of files; [Mkdisk]: the
      finished image in the terms of the kernel's file system; [Mount]: the
      kernel on the finished image; [Grind]: grind.c.

    ** What the theorems show

    - The file system (C1, C2, C10, C17, C23 - C26, C38): a
      transaction is atomic across power failures at any disk write, including
      failures during recovery; recovery always finishes; the buffer cache
      returns the current contents of a block, recycles the least recently
      used buffer and keeps its invariant; blocks are allocated once; a file
      holds what was written to it and a directory the names linked into it.
      Each layer is proved on the lemmas of the one below, down to the disk
      driver (C11), which is proved to refine the synchronous disk that
      the cache is proved against.
    - The disk image (C3, C4, C18): mkfs makes a file system with
      exactly the given files, on which the theorems above apply; a kernel
      that boots from it finds every file by its path and reads its bytes;
      files are bounded.
    - Memory (C9, C12, C13, C27, C32 - C35, C37): the page
      allocator, page-table mappings, copies to and from user space, the
      replacement policies against their abstract definitions, that [copyin]
      fails on pages in the swap file, and the leak in [uvmunmap].
    - Swapping (C5 - C7, C36): a page fault brings back the page with the
      contents it had, for every policy, and no page of the process is lost;
      the swap file returns what was stored; with all access counters at their
      greatest value, NFUA finds no page to swap out and the fault handler
      leaves its array.
    - Processes and traps (C14, C16, C28 - C31, C40): mutual exclusion of
      spin locks in every interleaving, register save and restore by the
      trampoline, the context switch and the trap vectors, the round trip
      through user space, and that the scheduler reaches every process under
      every policy.
    - Pipes (C21, C22): pipes refine a bounded queue, for the writer with all
      its ways to end.
    - User programs (C8, C15, C19, C20, C39): the allocator's invariant, the
      shell's parser against its grammar, grep's matcher and line loop
      against their meaning, and the random numbers of grind against their
      recurrence.

    ** Not modelled

    The test programs but grind (usertests and the like, which only call the
    system and compare what they get), ramdisk.c (not built, and written for a
    [struct buf] with other fields), and the text of initcode.S, whose bytes
    are [initcode] in [Proc].  Of mkfs its messages, of the machine the TLB and
    the memory ordering of the processors (execution is sequentially
    consistent), and device timing. *)

From Stdlib Require Import ZArith Lia.
From stdpp Require Import base gmap list strings numbers.

#[global] Open Scope Z_scope.

(** ** Machine integers

    A C integer of width [w] is a [Z]; every operation of the source that can
    leave the range of its type is followed by one of these truncations. *)

Definition u8 (z : Z) : Z := z mod 2 ^ 8.
Definition u16 (z : Z) : Z := z mod 2 ^ 16.
Definition u32 (z : Z) : Z := z mod 2 ^ 32.
Definition u64 (z : Z) : Z := z mod 2 ^ 64.

(** Two's complement reading of the low [w] bits. *)
Definition sx (w z : Z) : Z :=
  let u := z mod 2 ^ w in if u <? 2 ^ (w - 1) then u else u - 2 ^ w.
Definition s16 (z : Z) : Z := sx 16 z.
Definition s32 (z : Z) : Z := sx 32 z.

Arguments u8 : simpl never.
Arguments u16 : simpl never.
Arguments u32 : simpl never.
Arguments u64 : simpl never.
Arguments s16 : simpl never.
Arguments s32 : simpl never.

(** A C condition: an [int] is true when it is not zero. *)
Definition truth (z : Z) : bool := negb (z =? 0).

(** The [int] a C comparison or logical operator evaluates to. *)
Definition cbool (b : bool) : Z := if b then 1 else 0.

(** ** Outcomes and the state monad of kernel code

    Running a C function from a state either returns, panics (the kernel stops
    with a message), gives the processor away and is not resumed within the
    schedule it was given, spins for ever, or does something C leaves
    undefined (a null or out-of-range access).  [NoFuel] is the outcome of a
    fuelled loop that was not given enough iterations. *)

Inductive outcome (St A : Type) : Type :=
| Ret (a : A) (s : St)
| Panic (msg : string)
| Swtch (s : St)
| Hang (s : St)
| Fault (msg : string)
| NoFuel.

Arguments Ret {St A} a s.
Arguments Panic {St A} msg.
Arguments Swtch {St A} s.
Arguments Hang {St A} s.
Arguments Fault {St A} msg.
Arguments NoFuel {St A}.

Definition M (St A : Type) : Type := St -> outcome St A.

Definition ret {St A} (a : A) : M St A := fun s => Ret a s.

Definition bind {St A B} (m : M St A) (k : A -> M St B) : M St B :=
  fun s =>
    match m s with
    | Ret a s' => k a s'
    | Panic msg => Panic msg
    | Swtch s' => Swtch s'
    | Hang s' => Hang s'
    | Fault msg => Fault msg
    | NoFuel => NoFuel
    end.

Definition panic {St A} (msg : string) : M St A := fun _ => Panic msg.
Definition fault {St A} (msg : string) : M St A := fun _ => Fault msg.
Definition hang {St A} : M St A := fun s => Hang s.
Definition nofuel {St A} : M St A := fun _ => NoFuel.
Definition swtch_away {St A} : M St A := fun s => Swtch s.
Definition gets {St A} (f : St -> A) : M St A := fun s => Ret (f s) s.
Definition modify {St} (f : St -> St) : M St unit := fun s => Ret tt (f s).

Arguments bind : simpl never.
Arguments ret : simpl never.
Arguments gets : simpl never.
Arguments modify : simpl never.

Declare Scope xv6_scope.
Delimit Scope xv6_scope with xv6.

Notation "'let*' x ':=' m 'in' k" := (bind m (fun x => k))
  (at level 10, x pattern, m at level 100, k at level 200,
   format "'[v' 'let*'  x  ':='  m  'in' '/' k ']'") : xv6_scope.
Notation "m ;;; k" := (bind m (fun _ => k))
  (at level 100, k at level 200, right associativity,
   format "'[v' m  ;;; '/' k ']'") : xv6_scope.

#[global] Open Scope xv6_scope.

(** An [if] without an [else]. *)
Definition when {St} (b : bool) (m : M St unit) : M St unit :=
  if b then m else ret tt.

(** [p[i]] on a C array modelled as a list: an index outside is undefined. *)
Definition nth_or_fault {St A} (msg : string) (l : list A) (i : Z) : M St A :=
  if i <? 0 then fault msg
  else match l !! Z.to_nat i with Some a => ret a | None => fault msg end.

(** ** Loops

    [for_from n i body] runs [body i], [body (i + 1)], ... at most [n] times
    and stops at the first iteration that answers [Some r] (a [break] or a
    [return] inside the loop).  [while_ fuel body a] threads the loop's local
    variables [a]: [inl a'] goes round again, [inr r] leaves the loop. *)

Fixpoint for_from {St R} (n : nat) (i : Z) (body : Z -> M St (option R))
  : M St (option R) :=
  match n with
  | O => ret None
  | S n' =>
      let* r := body i in
      match r with
      | Some v => ret (Some v)
      | None => for_from n' (i + 1) body
      end
  end.

(** A loop whose body never leaves it early. *)
Definition for_all {St} (n : nat) (i : Z) (body : Z -> M St unit) : M St unit :=
  let* _ := for_from n i (fun j => body j ;;; ret (None : option unit)) in
  ret tt.

Fixpoint while_ {St L R} (fuel : nat) (body : L -> M St (L + R)) (a : L) : M St R :=
  match fuel with
  | O => nofuel
  | S fuel' =>
      let* r := body a in
      match r with
      | inl a' => while_ fuel' body a'
      | inr v => ret v
      end
  end.

(** ** Byte-addressed memory

    Physical memory maps an address to a byte; multi-byte objects are little
    endian, as on RISC-V.  A byte that was never written reads as 0. *)

Abbreviation memory := (gmap Z Z).

Definition ld8 (m : memory) (a : Z) : Z := u8 (default 0 (m !! a)).

Definition ld_bytes (m : memory) (a : Z) (n : nat) : list Z :=
  (fun i : nat => ld8 m (a + Z.of_nat i)) <$> seq 0 n.

Fixpoint st_bytes (m : memory) (a : Z) (l : list Z) : memory :=
  match l with
  | [] => m
  | b :: l' => st_bytes (<[a := u8 b]> m) (a + 1) l'
  end.

Fixpoint le_val (l : list Z) : Z :=
  match l with
  | [] => 0
  | b :: l' => b + 256 * le_val l'
  end.

Fixpoint le_bytes (n : nat) (v : Z) : list Z :=
  match n with
  | O => []
  | S n' => v mod 256 :: le_bytes n' (v / 256)
  end.

Definition ld16 (m : memory) (a : Z) : Z := le_val (ld_bytes m a 2).
Definition ld32 (m : memory) (a : Z) : Z := le_val (ld_bytes m a 4).
Definition ld64 (m : memory) (a : Z) : Z := le_val (ld_bytes m a 8).
Definition st16 (m : memory) (a v : Z) : memory := st_bytes m a (le_bytes 2 v).
Definition st32 (m : memory) (a v : Z) : memory := st_bytes m a (le_bytes 4 v).
Definition st64 (m : memory) (a v : Z) : memory := st_bytes m a (le_bytes 8 v).

(** A character of a C string literal. *)
Definition chr (s : string) : Z :=
  match s with
  | String.String c _ => Z.of_N (Ascii.N_of_ascii c)
  | String.EmptyString => 0
  end.

(** The bytes of a C string literal, without the terminating NUL. *)
Fixpoint cstr (s : string) : list Z :=
  match s with
  | String.String c s' => Z.of_N (Ascii.N_of_ascii c) :: cstr s'
  | String.EmptyString => []
  end.

(** A newline at the end of a message. *)
Definition nl : string := String.String (Ascii.ascii_of_nat 10) String.EmptyString.

(** ** Lemmas on the monad *)

Create HintDb xv6.

Lemma bind_ret_l {St A B} (a : A) (k : A -> M St B) s : bind (ret a) k s = k a s.
Proof. reflexivity. Qed.

Lemma bind_gets {St A B} (f : St -> A) (k : A -> M St B) s :
  bind (gets f) k s = k (f s) s.
Proof. reflexivity. Qed.

Lemma bind_modify {St B} (f : St -> St) (k : unit -> M St B) s :
  bind (modify f) k s = k tt (f s).
Proof. reflexivity. Qed.

Lemma bind_Ret {St A B} (m : M St A) (k : A -> M St B) s a s' :
  m s = Ret a s' -> bind m k s = k a s'.
Proof. unfold bind. by intros ->. Qed.

Lemma bind_Panic {St A B} (m : M St A) (k : A -> M St B) s msg :
  m s = Panic msg -> bind m k s = Panic msg.
Proof. unfold bind. by intros ->. Qed.

Lemma bind_assoc {St A B C} (m : M St A) (f : A -> M St B) (g : B -> M St C) s :
  bind (bind m f) g s = bind m (fun a => bind (f a) g) s.
Proof. unfold bind. by destruct (m s). Qed.

(** A computation returns from [s], with a result and a state in [Q]. *)
Definition runs {St A} (m : M St A) (s : St) (Q : A -> St -> Prop) : Prop :=
  exists a s', m s = Ret a s' /\ Q a s'.

Lemma runs_ret {St A} (a : A) (s : St) (Q : A -> St -> Prop) : Q a s -> runs (ret a) s Q.
Proof. intros H. by exists a, s. Qed.

Lemma runs_bind {St A B} (m : M St A) (k : A -> M St B) s Q R :
  runs m s Q -> (forall a s', Q a s' -> runs (k a) s' R) -> runs (bind m k) s R.
Proof.
  intros (a & s' & Hm & HQ) Hk. destruct (Hk a s' HQ) as (b & s'' & Hb & HR).
  exists b, s''. split; [|done]. by rewrite (bind_Ret _ _ _ _ _ Hm).
Qed.

Lemma runs_mono {St A} (m : M St A) s (Q R : A -> St -> Prop) :
  runs m s Q -> (forall a s', Q a s' -> R a s') -> runs m s R.
Proof. intros (a & s' & Hm & HQ) H. exists a, s'. eauto. Qed.

Lemma runs_eq {St A} (m : M St A) s a s' (Q : A -> St -> Prop) :
  m s = Ret a s' -> Q a s' -> runs m s Q.
Proof. intros. by exists a, s'. Qed.

Lemma runs_step {St A B} (m : M St A) (k : A -> M St B) s a s' Q :
  m s = Ret a s' -> runs (k a) s' Q -> runs (bind m k) s Q.
Proof. intros Hm. unfold runs. by rewrite (bind_Ret _ _ _ _ _ Hm). Qed.

Lemma nth_or_fault_Some {St A} msg (l : list A) i a (s : St) :
  0 <= i -> l !! Z.to_nat i = Some a -> nth_or_fault msg l i s = Ret a s.
Proof. intros Hi Ha. unfold nth_or_fault. rewrite (proj2 (Z.ltb_ge i 0)) by lia. by rewrite Ha. Qed.

(** The loop rule: an invariant indexed by the loop variable. *)
Lemma for_from_runs {St R} (I : Z -> St -> Prop) (Q : option R -> St -> Prop)
    (body : Z -> M St (option R)) n i s :
  I i s ->
  (forall j s', i <= j < i + Z.of_nat n -> I j s' ->
     runs (body j) s' (fun r s'' =>
       match r with None => I (j + 1) s'' | Some v => Q (Some v) s'' end)) ->
  (forall s', I (i + Z.of_nat n) s' -> Q None s') ->
  runs (for_from n i body) s Q.
Proof.
  revert i s. induction n as [|n IH]; intros i s HI Hbody HQ; simpl.
  - apply runs_ret, HQ. by rewrite Z.add_0_r.
  - eapply runs_bind; [apply Hbody; [lia|done]|].
    intros [v|] s' H; [by apply runs_ret|].
    apply IH; [done| |].
    + intros j s'' Hj. apply Hbody. lia.
    + intros s''. replace (i + 1 + Z.of_nat n) with (i + Z.of_nat (S n)) by lia. apply HQ.
Qed.

Lemma for_all_runs {St} (I : Z -> St -> Prop) (body : Z -> M St unit) n i s :
  I i s ->
  (forall j s', i <= j < i + Z.of_nat n -> I j s' ->
     runs (body j) s' (fun _ s'' => I (j + 1) s'')) ->
  runs (for_all n i body) s (fun _ s' => I (i + Z.of_nat n) s').
Proof.
  intros HI Hbody. unfold for_all.
  eapply runs_bind; [apply (for_from_runs I (fun _ s' => I (i + Z.of_nat n) s'))|].
  - done.
  - intros j s' Hj HIj. eapply runs_bind; [by apply Hbody|]. intros ? s'' H. by apply runs_ret.
  - done.
  - intros ? s' H. by apply runs_ret.
Qed.

(** A loop none of whose iterations leaves early or fails. *)
Lemma for_from_app {St R} (body : Z -> M St (option R)) n1 n2 i s s' :
  for_from n1 i body s = Ret None s' ->
  for_from (n1 + n2) i body s = for_from n2 (i + Z.of_nat n1) body s'.
Proof.
  revert i s. induction n1 as [|n1 IH]; intros i s; simpl.
  - intros [= ->]. by rewrite Z.add_0_r.
  - unfold bind at 1 2. destruct (body i s) as [[v|] s1| | | | |]; try discriminate.
    intros H. rewrite (IH _ _ H). f_equal. lia.
Qed.

Lemma while_S {St L R} fuel (body : L -> M St (L + R)) a s :
  while_ (S fuel) body a s =
  bind (body a) (fun r => match r with inl a' => while_ fuel body a' | inr v => ret v end) s.
Proof. reflexivity. Qed.

(** More fuel does not change a result. *)
Lemma while_mono {St L R} (body : L -> M St (L + R)) fuel fuel' a s v s' :
  while_ fuel body a s = Ret v s' -> (fuel <= fuel')%nat -> while_ fuel' body a s = Ret v s'.
Proof.
  revert fuel' a s. induction fuel as [|fuel IH]; intros [|fuel'] a s; simpl; try done; try lia.
  unfold bind. destruct (body a s) as [[a'|v'] s1| | | | |]; try done.
  intros H Hf. apply IH; [done|lia].
Qed.

Lemma for_from_S {St R} n i (body : Z -> M St (option R)) s :
  for_from (S n) i body s =
  bind (body i) (fun r => match r with
                          | Some v => ret (Some v)
                          | None => for_from n (i + 1) body
                          end) s.
Proof. reflexivity. Qed.

(** A loop that stops at its first match, and one without a match. *)
Lemma for_from_first {St A} (body : Z -> M St (option A)) n i j s r s' :
  i <= j < i + Z.of_nat n -> (forall i', i <= i' < j -> body i' s = Ret None s) -> body j s = Ret (Some r) s' ->
  for_from n i body s = Ret (Some r) s'.
Proof.
  revert i. induction n as [|n IH]; intros i Hj Hn Hb; [lia|]. rewrite for_from_S. destruct (decide (i = j)) as [->|Hne].
  - by rewrite (bind_Ret _ _ _ _ _ Hb).
  - rewrite (bind_Ret _ _ _ _ _ (Hn i ltac:(lia))). apply IH; [lia| |done]. intros i' Hi'. apply Hn. lia.
Qed.

Lemma for_from_none {St A} (body : Z -> M St (option A)) n i s :
  (forall i', i <= i' < i + Z.of_nat n -> body i' s = Ret None s) -> for_from n i body s = Ret None s.
Proof.
  revert i. induction n as [|n IH]; intros i Hn; [done|]. rewrite for_from_S.
  rewrite (bind_Ret _ _ _ _ _ (Hn i ltac:(lia))). apply IH. intros i' Hi'. apply Hn. lia.
Qed.

#[global] Arguments while_ : simpl never.
#[global] Arguments for_from : simpl never.

(** ** Lemmas on lists *)

Lemma list_alter_lookup {A} (f : A -> A) (l : list A) i x :
  l !! i = Some x -> alter f i l = <[i := f x]> l.
Proof.
  intros H. rewrite list_insert_alter. apply (list_alter_ext _ _ _ l); [|done].
  intros y Hy. by simplify_eq.
Qed.

(** A table updated slot by slot, the first [j] slots so far. *)
Definition imap_upto {A} (g : nat -> A -> A) (j : nat) (l : list A) : list A :=
  imap (fun i x => if Nat.ltb i j then g i x else x) l.

Lemma imap_upto_0 {A} (g : nat -> A -> A) l : imap_upto g 0 l = l.
Proof.
  unfold imap_upto. apply list_eq. intros i. rewrite list_lookup_imap. by destruct (l !! i).
Qed.

Lemma imap_upto_all {A} (g : nat -> A -> A) j l :
  (length l <= j)%nat -> imap_upto g j l = imap g l.
Proof.
  intros H. unfold imap_upto. apply list_eq. intros i. rewrite !list_lookup_imap.
  destruct (l !! i) eqn:E; simpl; [|done]. apply lookup_lt_Some in E.
  by rewrite (proj2 (Nat.ltb_lt i j)) by lia.
Qed.

Lemma imap_upto_S {A} (g : nat -> A -> A) j l x :
  l !! j = Some x -> imap_upto g (S j) l = <[j := g j x]> (imap_upto g j l).
Proof.
  intros H. unfold imap_upto. apply list_eq. intros i.
  destruct (decide (i = j)) as [->|Hne].
  - rewrite list_lookup_insert_eq by (rewrite length_imap; by eapply lookup_lt_Some).
    rewrite list_lookup_imap, H. simpl. by rewrite (proj2 (Nat.ltb_lt j (S j))) by lia.
  - rewrite list_lookup_insert_ne by done. rewrite !list_lookup_imap.
    destruct (l !! i); simpl; [|done]. f_equal.
    destruct (Nat.ltb_spec i (S j)), (Nat.ltb_spec i j); try lia; done.
Qed.

Lemma imap_upto_lookup_ge {A} (g : nat -> A -> A) j l i :
  (j <= i)%nat -> imap_upto g j l !! i = l !! i.
Proof.
  intros H. unfold imap_upto. rewrite list_lookup_imap. destruct (l !! i); simpl; [|done].
  by rewrite (proj2 (Nat.ltb_ge i j)) by lia.
Qed.

(** ** Lemmas on machine integers *)

Lemma u8_range z : 0 <= u8 z < 256.
Proof. apply Z.mod_pos_bound. lia. Qed.
Lemma u16_range z : 0 <= u16 z < 2 ^ 16.
Proof. apply Z.mod_pos_bound. lia. Qed.
Lemma u32_range z : 0 <= u32 z < 2 ^ 32.
Proof. apply Z.mod_pos_bound. lia. Qed.
Lemma u64_range z : 0 <= u64 z < 2 ^ 64.
Proof. apply Z.mod_pos_bound. lia. Qed.
Lemma u8_small z : 0 <= z < 256 -> u8 z = z.
Proof. apply Z.mod_small. Qed.
Lemma u16_small z : 0 <= z < 2 ^ 16 -> u16 z = z.
Proof. apply Z.mod_small. Qed.
Lemma u32_small z : 0 <= z < 2 ^ 32 -> u32 z = z.
Proof. apply Z.mod_small. Qed.
Lemma u64_small z : 0 <= z < 2 ^ 64 -> u64 z = z.
Proof. apply Z.mod_small. Qed.
Lemma u8_u8 z : u8 (u8 z) = u8 z.
Proof. apply u8_small, u8_range. Qed.

Lemma map_u8_id l : Forall (fun b => 0 <= b < 256) l -> u8 <$> l = l.
Proof.
  induction 1 as [|b l Hb Hl IH]; [done|]. rewrite fmap_cons, u8_small by done. by rewrite IH.
Qed.

Lemma sx_small w z : 0 < w -> - 2 ^ (w - 1) <= z < 2 ^ (w - 1) -> sx w z = z.
Proof.
  intros Hw Hz. unfold sx.
  assert (Hp : 2 ^ w = 2 * 2 ^ (w - 1)).
  { rewrite <- Z.pow_succ_r by lia. f_equal. lia. }
  destruct (Z.ltb_spec z 0).
  - assert (Hm : z mod 2 ^ w = z + 2 ^ w).
    { symmetry. apply (Z.mod_unique_pos _ _ (-1)); lia. }
    rewrite Hm. destruct (Z.ltb_spec (z + 2 ^ w) (2 ^ (w - 1))); lia.
  - rewrite Z.mod_small by lia. destruct (Z.ltb_spec z (2 ^ (w - 1))); lia.
Qed.

Lemma s32_small z : - 2 ^ 31 <= z < 2 ^ 31 -> s32 z = z.
Proof. intros. apply sx_small; lia. Qed.

Lemma s32_range z : - 2 ^ 31 <= s32 z < 2 ^ 31.
Proof.
  unfold s32, sx. pose proof (Z.mod_pos_bound z (2 ^ 32) ltac:(lia)).
  change (2 ^ (32 - 1)) with (2 ^ 31). destruct (Z.ltb_spec (z mod 2 ^ 32) (2 ^ 31)); lia.
Qed.

#[export] Hint Resolve u8_range u16_range u32_range u64_range s32_range : xv6.

Lemma truth_cbool b : truth (cbool b) = b.
Proof. by destruct b. Qed.

(** ** Lemmas on memory *)

Lemma ld8_range m a : 0 <= ld8 m a < 256.
Proof. apply u8_range. Qed.

Lemma length_ld_bytes m a n : length (ld_bytes m a n) = n.
Proof. unfold ld_bytes. by rewrite length_fmap, length_seq. Qed.

Lemma ld_bytes_lookup m a n i :
  (i < n)%nat -> ld_bytes m a n !! i = Some (ld8 m (a + Z.of_nat i)).
Proof.
  intros Hi. unfold ld_bytes. rewrite list_lookup_fmap, lookup_seq_lt by done. done.
Qed.

Lemma ld_bytes_ext m1 m2 a1 a2 n :
  (forall i, 0 <= i < Z.of_nat n -> ld8 m1 (a1 + i) = ld8 m2 (a2 + i)) ->
  ld_bytes m1 a1 n = ld_bytes m2 a2 n.
Proof.
  intros H. unfold ld_bytes. apply list_fmap_ext. intros i x Hx.
  apply lookup_seq in Hx. apply H. lia.
Qed.

Lemma ld_bytes_range m a n : Forall (fun b => 0 <= b < 256) (ld_bytes m a n).
Proof. apply Forall_fmap, Forall_forall. intros i _. apply ld8_range. Qed.

Lemma ld_bytes_S m a n : ld_bytes m a (S n) = ld8 m a :: ld_bytes m (a + 1) n.
Proof.
  unfold ld_bytes. simpl. rewrite Z.add_0_r. f_equal.
  rewrite <- fmap_S_seq, <- list_fmap_compose. apply list_fmap_ext.
  intros i x _. simpl. f_equal. lia.
Qed.

Lemma ld_bytes_app m a n1 n2 :
  ld_bytes m a (n1 + n2) = ld_bytes m a n1 ++ ld_bytes m (a + Z.of_nat n1) n2.
Proof.
  revert a. induction n1 as [|n1 IH]; intros a.
  - simpl. by rewrite Z.add_0_r.
  - change (S n1 + n2)%nat with (S (n1 + n2)). rewrite !ld_bytes_S, IH. simpl.
    do 3 f_equal. lia.
Qed.

Lemma ld8_insert m a b x : ld8 (<[a := b]> m) x = if decide (a = x) then u8 b else ld8 m x.
Proof. unfold ld8. rewrite lookup_insert. by case_decide. Qed.

(** What a write of the bytes [l] at [a] leaves at [x]. *)
Lemma ld8_st_bytes m a l x :
  ld8 (st_bytes m a l) x =
  if decide (a <= x < a + Z.of_nat (length l))
  then u8 (default 0 (l !! Z.to_nat (x - a))) else ld8 m x.
Proof.
  revert m a. induction l as [|b l IH]; intros m a; simpl.
  - rewrite decide_False by lia. done.
  - rewrite IH. destruct (decide (x = a)) as [->|Hne].
    + rewrite decide_False by lia. rewrite decide_True by lia.
      rewrite Z.sub_diag. simpl. rewrite ld8_insert, decide_True by done. by rewrite u8_u8.
    + destruct (decide (a + 1 <= x < a + 1 + Z.of_nat (length l))).
      * rewrite decide_True by lia.
        replace (Z.to_nat (x - a)) with (S (Z.to_nat (x - (a + 1)))) by lia. done.
      * rewrite decide_False by lia. rewrite ld8_insert, decide_False by done. done.
Qed.

Lemma st_bytes_app m a l1 l2 : st_bytes m a (l1 ++ l2) = st_bytes (st_bytes m a l1) (a + Z.of_nat (length l1)) l2.
Proof.
  revert m a. induction l1 as [|b l1 IH]; intros m a; simpl; [by rewrite Z.add_0_r|].
  rewrite IH. f_equal. lia.
Qed.

Lemma ld8_st_bytes_ne m a l x :
  ~ (a <= x < a + Z.of_nat (length l)) -> ld8 (st_bytes m a l) x = ld8 m x.
Proof. intros. rewrite ld8_st_bytes. by rewrite decide_False. Qed.

Lemma ld_bytes_sub m a n i j :
  (i + j <= n)%nat -> take j (drop i (ld_bytes m a n)) = ld_bytes m (a + Z.of_nat i) j.
Proof.
  intros H. replace n with (i + (j + (n - i - j)))%nat by lia. rewrite !ld_bytes_app.
  rewrite drop_app_length' by (by rewrite length_ld_bytes).
  by rewrite take_app_length' by (by rewrite length_ld_bytes).
Qed.

Lemma ld_bytes_st_bytes_ne m a l b n :
  b + Z.of_nat n <= a \/ a + Z.of_nat (length l) <= b ->
  ld_bytes (st_bytes m a l) b n = ld_bytes m b n.
Proof. intros H. apply ld_bytes_ext. intros i Hi. apply ld8_st_bytes_ne. lia. Qed.

Lemma ld_bytes_st_bytes_eq m a l :
  Forall (fun b => 0 <= b < 256) l -> ld_bytes (st_bytes m a l) a (length l) = l.
Proof.
  intros Hl. apply list_eq. intros i. destruct (decide (i < length l)%nat) as [Hi|Hi].
  - rewrite ld_bytes_lookup by done. rewrite ld8_st_bytes, decide_True by lia.
    replace (Z.to_nat (a + Z.of_nat i - a)) with i by lia.
    apply lookup_lt_is_Some in Hi as [b Hb]. rewrite Hb. simpl. f_equal.
    apply u8_small. exact (Forall_lookup_1 _ l i b Hl Hb).
  - rewrite !lookup_ge_None_2; [done|lia|]. rewrite length_ld_bytes. lia.
Qed.

Lemma length_le_bytes n v : length (le_bytes n v) = n.
Proof. revert v. induction n; simpl; auto. Qed.

Lemma le_bytes_range n v : Forall (fun b => 0 <= b < 256) (le_bytes n v).
Proof.
  revert v. induction n as [|n IH]; intros v; simpl; constructor; [|apply IH].
  apply Z.mod_pos_bound. lia.
Qed.

Lemma le_val_bytes n v : le_val (le_bytes n v) = v mod 256 ^ Z.of_nat n.
Proof.
  revert v. induction n as [|n IH]; intros v; simpl.
  - by rewrite Z.mod_1_r.
  - rewrite IH. rewrite Nat2Z.inj_succ, Z.pow_succ_r by lia.
    rewrite Z.rem_mul_r by (try apply Z.pow_nonzero; lia). done.
Qed.

Lemma le_val_range l : Forall (fun b => 0 <= b < 256) l ->
  0 <= le_val l < 256 ^ Z.of_nat (length l).
Proof.
  induction 1 as [|b l Hb Hl IH]; simpl; [lia|].
  rewrite Nat2Z.inj_succ, Z.pow_succ_r by lia. lia.
Qed.

Lemma le_bytes_val l : Forall (fun b => 0 <= b < 256) l -> le_bytes (length l) (le_val l) = l.
Proof.
  induction 1 as [|b l Hb Hl IH]; simpl; [done|].
  assert (Hm : (b + 256 * le_val l) mod 256 = b).
  { rewrite Z.mul_comm, Z.mod_add by lia. by apply Z.mod_small. }
  assert (Hd : (b + 256 * le_val l) / 256 = le_val l).
  { rewrite Z.mul_comm, Z.div_add by lia. rewrite Z.div_small by done. lia. }
  by rewrite Hm, Hd, IH.
Qed.

Lemma ld64_range m a : 0 <= ld64 m a < 2 ^ 64.
Proof.
  pose proof (le_val_range _ (ld_bytes_range m a 8)) as H. rewrite length_ld_bytes in H.
  exact H.
Qed.

Lemma ld64_st64_eq m a v : ld64 (st64 m a v) a = u64 v.
Proof.
  unfold ld64, st64. rewrite <- (length_le_bytes 8 v) at 2.
  rewrite ld_bytes_st_bytes_eq by apply le_bytes_range. apply le_val_bytes.
Qed.

Lemma ld64_st64_ne m a b v : b + 8 <= a \/ a + 8 <= b -> ld64 (st64 m a v) b = ld64 m b.
Proof.
  intros. unfold ld64, st64. rewrite ld_bytes_st_bytes_ne; [done|].
  rewrite length_le_bytes. lia.
Qed.

Lemma ld64_st_bytes_ne m a l b :
  b + 8 <= a \/ a + Z.of_nat (length l) <= b -> ld64 (st_bytes m a l) b = ld64 m b.
Proof. intros. unfold ld64. by rewrite ld_bytes_st_bytes_ne by lia. Qed.

Lemma ld64_ext m1 m2 a :
  (forall i, 0 <= i < 8 -> ld8 m1 (a + i) = ld8 m2 (a + i)) -> ld64 m1 a = ld64 m2 a.
Proof. intros. unfold ld64. f_equal. by apply ld_bytes_ext. Qed.

Lemma ld64_zero m a : (forall i, 0 <= i < 8 -> ld8 m (a + i) = 0) -> ld64 m a = 0.
Proof.
  intros H. unfold ld64. rewrite (ld_bytes_ext m ∅ a 0); [by vm_compute|].
  intros i Hi. rewrite H by lia. done.
Qed.

#[global] Arguments le_bytes : simpl never.
#[global] Arguments st_bytes : simpl never.
