(* ===== verification/Riscv.v ===== *)
(** * The machine: constants of the headers, page-table arithmetic, control registers

    [riscv.h], [memlayout.h], [param.h], [fs.h], [stat.h], [fcntl.h] and
    [elf.h]: the numbers the kernel is compiled with, the macros that take
    addresses and page-table entries apart, and the control and status
    registers with their accessors. *)

From Stdlib Require Import ZArith Lia.
From stdpp Require Import base gmap list strings numbers.
From S2P Require Import Prelude.

(** ** param.h *)

Definition NPROC : Z := 64.
Definition NCPU : Z := 8.
Definition NOFILE : Z := 16.
Definition NFILE : Z := 100.
Definition NINODE : Z := 50.
Definition NDEV : Z := 10.
Definition ROOTDEV : Z := 1.
Definition MAXARG : Z := 32.
Definition MAXOPBLOCKS : Z := 10.
Definition LOGSIZE : Z := MAXOPBLOCKS * 3.
Definition NBUF : Z := MAXOPBLOCKS * 3.
Definition FSSIZE : Z := 1000.
Definition MAXPATH : Z := 128.
Definition MAX_PYSC_PAGES : Z := 16.
Definition MAX_TOTAL_PAGES : Z := 32.

(** ** riscv.h: pages and page-table entries *)

Definition PGSIZE : Z := 4096.
Definition PGSHIFT : Z := 12.
Definition PGROUNDUP (sz : Z) : Z := Z.land (u64 (sz + PGSIZE - 1)) (Z.lnot (PGSIZE - 1)).
Definition PGROUNDDOWN (a : Z) : Z := Z.land a (Z.lnot (PGSIZE - 1)).

Definition PTE_V : Z := Z.shiftl 1 0.
Definition PTE_R : Z := Z.shiftl 1 1.
Definition PTE_W : Z := Z.shiftl 1 2.
Definition PTE_X : Z := Z.shiftl 1 3.
Definition PTE_U : Z := Z.shiftl 1 4.
Definition PTE_A : Z := Z.shiftl 1 6.
Definition PTE_PG : Z := Z.shiftl 1 9.

Definition PA2PTE (pa : Z) : Z := u64 (Z.shiftl (Z.shiftr pa 12) 10).
Definition PTE2PA (pte : Z) : Z := u64 (Z.shiftl (Z.shiftr pte 10) 12).
Definition PTE_FLAGS (pte : Z) : Z := Z.land pte 0x3FF.

Definition PXMASK : Z := 0x1FF.
Definition PXSHIFT (level : Z) : Z := PGSHIFT + 9 * level.
Definition PX (level va : Z) : Z := Z.land (Z.shiftr va (PXSHIFT level)) PXMASK.

Definition MAXVA : Z := Z.shiftl 1 (9 + 9 + 9 + 12 - 1).

Definition SATP_SV39 : Z := Z.shiftl 8 60.
Definition MAKE_SATP (pagetable : Z) : Z := Z.lor SATP_SV39 (Z.shiftr pagetable 12).

(** ** memlayout.h *)

Definition UART0 : Z := 0x10000000.
Definition UART0_IRQ : Z := 10.
Definition VIRTIO0 : Z := 0x10001000.
Definition VIRTIO0_IRQ : Z := 1.
Definition CLINT : Z := 0x2000000.
Definition CLINT_MTIMECMP (hartid : Z) : Z := CLINT + 0x4000 + 8 * hartid.
Definition CLINT_MTIME : Z := CLINT + 0xBFF8.
Definition PLIC : Z := 0x0c000000.
Definition PLIC_SENABLE (hart : Z) : Z := PLIC + 0x2080 + hart * 0x100.
Definition PLIC_SPRIORITY (hart : Z) : Z := PLIC + 0x201000 + hart * 0x2000.
Definition PLIC_SCLAIM (hart : Z) : Z := PLIC + 0x201004 + hart * 0x2000.
Definition KERNBASE : Z := 0x80000000.
Definition PHYSTOP : Z := KERNBASE + 128 * 1024 * 1024.
Definition TRAMPOLINE : Z := MAXVA - PGSIZE.
Definition KSTACK (p : Z) : Z := TRAMPOLINE - (p + 1) * 2 * PGSIZE.
Definition TRAPFRAME : Z := TRAMPOLINE - PGSIZE.

(** ** Addresses fixed by the linker and by the assembly files

    [kernel.ld] places [end], [etext] and the trampoline page; the addresses
    of the assembly entry points and of C functions used as values are those
    the linker gives. *)
Class Layout := {
  end_ : Z;
  etext : Z;
  trampoline : Z;
  uservec : Z;
  userret : Z;
  kernelvec : Z;
  usertrap_addr : Z;
  forkret_addr : Z;
  timervec : Z;
  main_addr : Z;
  timer_scratch : Z;
  disk_pages : Z;
}.

(** What [kernel.ld] guarantees about them. *)
Class LayoutOk (L : Layout) : Prop := {
  etext_aligned : etext mod PGSIZE = 0;
  trampoline_page : trampoline = etext - PGSIZE;
  kernbase_etext : KERNBASE + PGSIZE <= etext;
  etext_end : etext <= end_;
  end_phystop : end_ + PGSIZE <= PHYSTOP;
}.

(** ** fs.h, stat.h, fcntl.h, elf.h *)

Definition ROOTINO : Z := 1.
Definition BSIZE : Z := 1024.
Definition FSMAGIC : Z := 0x10203040.
Definition NDIRECT : Z := 12.
Definition NINDIRECT : Z := BSIZE / 4.
Definition MAXFILE : Z := NDIRECT + NINDIRECT.
(** [sizeof(struct dinode)]: four shorts, a uint, [NDIRECT+1] uints. *)
Definition sizeof_dinode : Z := 2 * 4 + 4 + 4 * (NDIRECT + 1).
Definition IPB : Z := BSIZE / sizeof_dinode.
Definition BPB : Z := BSIZE * 8.
Definition DIRSIZ : Z := 14.
(** [sizeof(struct dirent)]: a ushort and [DIRSIZ] chars. *)
Definition sizeof_dirent : Z := 2 + DIRSIZ.

Definition T_DIR : Z := 1.
Definition T_FILE : Z := 2.
Definition T_DEVICE : Z := 3.

Definition O_RDONLY : Z := 0x000.
Definition O_WRONLY : Z := 0x001.
Definition O_RDWR : Z := 0x002.
Definition O_CREATE : Z := 0x200.
Definition O_TRUNC : Z := 0x400.

Definition ELF_MAGIC : Z := 0x464C457F.
Definition ELF_PROG_LOAD : Z := 1.

(** ** Control and status registers

    A register holds 64 bits and reads back what was last written to it.
    [time] and [mhartid] are only ever read. *)

Inductive csr : Set :=
| Mhartid | Mstatus | Mepc | Sstatus | Sip | Sie | Mie | Sepc | Medeleg | Mideleg
| Stvec | Mtvec | Satp | Sscratch | Mscratch | Scause | Stval | Mcounteren | Time
| Sp | Tp | Ra.

#[export] Instance csr_eq_dec : EqDecision csr.
Proof. solve_decision. Defined.

Definition csrs : Type := csr -> Z.

Definition csrw (r : csr) (x : Z) (f : csrs) : csrs :=
  fun r' => if decide (r = r') then u64 x else f r'.

Definition r_mhartid (f : csrs) : Z := f Mhartid.
Definition MSTATUS_MPP_MASK : Z := Z.shiftl 3 11.
Definition MSTATUS_MPP_S : Z := Z.shiftl 1 11.
Definition MSTATUS_MIE : Z := Z.shiftl 1 3.
Definition r_mstatus (f : csrs) : Z := f Mstatus.
Definition w_mstatus (x : Z) (f : csrs) : csrs := csrw Mstatus x f.
Definition w_mepc (x : Z) (f : csrs) : csrs := csrw Mepc x f.
Definition SSTATUS_SPP : Z := Z.shiftl 1 8.
Definition SSTATUS_SPIE : Z := Z.shiftl 1 5.
Definition SSTATUS_SIE : Z := Z.shiftl 1 1.
Definition r_sstatus (f : csrs) : Z := f Sstatus.
Definition w_sstatus (x : Z) (f : csrs) : csrs := csrw Sstatus x f.
Definition r_sip (f : csrs) : Z := f Sip.
Definition w_sip (x : Z) (f : csrs) : csrs := csrw Sip x f.
Definition SIE_SEIE : Z := Z.shiftl 1 9.
Definition SIE_STIE : Z := Z.shiftl 1 5.
Definition SIE_SSIE : Z := Z.shiftl 1 1.
Definition r_sie (f : csrs) : Z := f Sie.
Definition w_sie (x : Z) (f : csrs) : csrs := csrw Sie x f.
Definition MIE_MTIE : Z := Z.shiftl 1 7.
Definition r_mie (f : csrs) : Z := f Mie.
Definition w_mie (x : Z) (f : csrs) : csrs := csrw Mie x f.
Definition w_sepc (x : Z) (f : csrs) : csrs := csrw Sepc x f.
Definition r_sepc (f : csrs) : Z := f Sepc.
Definition w_medeleg (x : Z) (f : csrs) : csrs := csrw Medeleg x f.
Definition w_mideleg (x : Z) (f : csrs) : csrs := csrw Mideleg x f.
Definition w_stvec (x : Z) (f : csrs) : csrs := csrw Stvec x f.
Definition w_mtvec (x : Z) (f : csrs) : csrs := csrw Mtvec x f.
Definition w_satp (x : Z) (f : csrs) : csrs := csrw Satp x f.
Definition r_satp (f : csrs) : Z := f Satp.
Definition w_mscratch (x : Z) (f : csrs) : csrs := csrw Mscratch x f.
Definition r_scause (f : csrs) : Z := f Scause.
Definition r_stval (f : csrs) : Z := f Stval.
Definition intr_on (f : csrs) : csrs := w_sstatus (Z.lor (r_sstatus f) SSTATUS_SIE) f.
Definition intr_off (f : csrs) : csrs :=
  w_sstatus (Z.land (r_sstatus f) (Z.lnot SSTATUS_SIE)) f.
Definition intr_get (f : csrs) : bool := negb (Z.land (r_sstatus f) SSTATUS_SIE =? 0).
Definition r_tp (f : csrs) : Z := f Tp.
Definition w_tp (x : Z) (f : csrs) : csrs := csrw Tp x f.
(** Flushing the TLB changes no register; the model has no stale translations. *)
Definition sfence_vma (f : csrs) : csrs := f.

(** ** Lemmas on pages and page-table entries *)

Lemma PGSIZE_pow : PGSIZE = 2 ^ 12.
Proof. reflexivity. Qed.

Lemma land_lnot_page a : Z.land a (Z.lnot (PGSIZE - 1)) = a - a mod PGSIZE.
Proof.
  change (PGSIZE - 1) with (Z.ones 12). rewrite <- Z.ldiff_land.
  rewrite Z.ldiff_ones_r by lia. rewrite Z.shiftl_mul_pow2, Z.shiftr_div_pow2 by lia.
  change (2 ^ 12) with PGSIZE. pose proof (Z.div_mod a PGSIZE). unfold PGSIZE in *. lia.
Qed.

Lemma PGROUNDDOWN_spec a : PGROUNDDOWN a = a - a mod PGSIZE.
Proof. apply land_lnot_page. Qed.

Lemma PGROUNDDOWN_aligned a : PGROUNDDOWN a mod PGSIZE = 0.
Proof. rewrite PGROUNDDOWN_spec. unfold PGSIZE. Z.to_euclidean_division_equations. lia. Qed.

Lemma PGROUNDDOWN_id a : a mod PGSIZE = 0 -> PGROUNDDOWN a = a.
Proof. rewrite PGROUNDDOWN_spec. lia. Qed.

Lemma PGROUNDDOWN_bounds a : PGROUNDDOWN a <= a < PGROUNDDOWN a + PGSIZE.
Proof. rewrite PGROUNDDOWN_spec. pose proof (Z.mod_pos_bound a PGSIZE). unfold PGSIZE in *. lia. Qed.

Lemma PGROUNDUP_spec sz :
  0 <= sz <= 2 ^ 64 - PGSIZE ->
  PGROUNDUP sz mod PGSIZE = 0 /\ sz <= PGROUNDUP sz < sz + PGSIZE.
Proof.
  intros H. unfold PGROUNDUP. rewrite land_lnot_page. rewrite u64_small by (unfold PGSIZE in *; lia).
  unfold PGSIZE in *. split; Z.to_euclidean_division_equations; lia.
Qed.

Lemma PGROUNDUP_id sz : 0 <= sz <= 2 ^ 64 - PGSIZE -> sz mod PGSIZE = 0 -> PGROUNDUP sz = sz.
Proof.
  intros H Ha. destruct (PGROUNDUP_spec sz H) as [H1 H2].
  unfold PGSIZE in *. Z.to_euclidean_division_equations. lia.
Qed.

Lemma PX_range level va : 0 <= PX level va < 512.
Proof.
  unfold PX, PXMASK. change 0x1FF with (Z.ones 9). rewrite Z.land_ones by lia.
  apply Z.mod_pos_bound. lia.
Qed.

Lemma PX_spec level va :
  0 <= level -> PX level va = (va / 2 ^ (12 + 9 * level)) mod 512.
Proof.
  intros. unfold PX, PXMASK, PXSHIFT, PGSHIFT. change 0x1FF with (Z.ones 9).
  rewrite Z.land_ones by lia. by rewrite Z.shiftr_div_pow2 by lia.
Qed.

(** Two page-aligned addresses below [MAXVA] with the same three indices are equal. *)
Lemma PX_inj va va' :
  0 <= va < MAXVA -> 0 <= va' < MAXVA -> va mod PGSIZE = 0 -> va' mod PGSIZE = 0 ->
  PX 2 va = PX 2 va' -> PX 1 va = PX 1 va' -> PX 0 va = PX 0 va' -> va = va'.
Proof.
  intros Hva Hva' Ha Ha' H2 H1 H0. rewrite !PX_spec in * by lia.
  change MAXVA with (2 ^ 38) in *. unfold PGSIZE in *.
  change (2 ^ (12 + 9 * 2)) with 1073741824 in *. change (2 ^ (12 + 9 * 1)) with 2097152 in *.
  change (2 ^ (12 + 9 * 0)) with 4096 in *. change (2 ^ 38) with 274877906944 in *.
  Z.to_euclidean_division_equations. lia.
Qed.

Lemma testbit_flag x n : 0 <= n -> truth (Z.land x (Z.shiftl 1 n)) = Z.testbit x n.
Proof.
  intros Hn. unfold truth. rewrite Z.shiftl_1_l. destruct (Z.testbit x n) eqn:E.
  - destruct (Z.eqb_spec (Z.land x (2 ^ n)) 0) as [H|H]; [|done].
    assert (Z.testbit (Z.land x (2 ^ n)) n = false) as E' by (by rewrite H, Z.testbit_0_l).
    rewrite Z.land_spec, E, Z.pow2_bits_true in E' by lia. done.
  - destruct (Z.eqb_spec (Z.land x (2 ^ n)) 0) as [H|H]; [done|].
    exfalso. apply H. apply Z.bits_inj'. intros i Hi.
    rewrite Z.land_spec, Z.testbit_0_l, Z.pow2_bits_eqb by lia.
    destruct (Z.eqb_spec n i) as [->|]; [by rewrite E|]. apply andb_false_r.
Qed.

Lemma testbit_high x n i : 0 <= x < 2 ^ n -> n <= i -> 0 <= n -> Z.testbit x i = false.
Proof.
  intros Hx Hi Hn. rewrite <- (Z.mod_small x (2 ^ n)) by done.
  by apply Z.mod_pow2_bits_high.
Qed.

Lemma PTE2PA_range pte : 0 <= PTE2PA pte < 2 ^ 64.
Proof. apply u64_range. Qed.

Lemma PTE2PA_aligned pte : PTE2PA pte mod PGSIZE = 0.
Proof.
  unfold PTE2PA, u64. rewrite Z.shiftl_mul_pow2 by lia.
  change (2 ^ 64) with (2 ^ 12 * 2 ^ 52) . rewrite (Z.mul_comm _ (2 ^ 12)).
  rewrite Z.mul_mod_distr_l by lia. rewrite Z.mul_comm, PGSIZE_pow. apply Z.mod_mul. lia.
Qed.

(** Building an entry and taking it apart again. *)
Section pte_roundtrip.
Context (pa flags : Z).
Context (Hpa : 0 <= pa < 2 ^ 56) (Hal : pa mod PGSIZE = 0) (Hfl : 0 <= flags < 2 ^ 10).

Lemma PA2PTE_div : PA2PTE pa = pa / 4096 * 1024.
Proof.
  unfold PA2PTE. rewrite Z.shiftl_mul_pow2, Z.shiftr_div_pow2 by lia.
  apply u64_small. change (2 ^ 12) with 4096. change (2 ^ 10) with 1024.
  assert (pa / 4096 < 2 ^ 44) by (apply Z.div_lt_upper_bound; lia).
  assert (0 <= pa / 4096) by (apply Z.div_pos; lia). lia.
Qed.

Lemma PTE_lor : Z.lor (PA2PTE pa) flags = pa / 4096 * 1024 + flags.
Proof.
  rewrite PA2PTE_div. symmetry.
  rewrite <- Z.lxor_lor, Z.add_nocarry_lxor; try done.
  all: apply Z.bits_inj'; intros i Hi; rewrite Z.land_spec, Z.testbit_0_l;
    change 1024 with (2 ^ 10); rewrite <- Z.shiftl_mul_pow2, Z.shiftl_spec by lia;
    destruct (Z.ltb_spec i 10);
    [rewrite Z.testbit_neg_r by lia; done
    |rewrite (testbit_high flags 10) by lia; apply andb_false_r].
Qed.

Lemma PTE_range : 0 <= Z.lor (PA2PTE pa) flags < 2 ^ 64.
Proof.
  rewrite PTE_lor. assert (pa / 4096 < 2 ^ 44) by (apply Z.div_lt_upper_bound; lia).
  assert (0 <= pa / 4096) by (apply Z.div_pos; lia). lia.
Qed.

Lemma PTE2PA_PA2PTE : PTE2PA (Z.lor (PA2PTE pa) flags) = pa.
Proof.
  rewrite PTE_lor. unfold PTE2PA. rewrite Z.shiftl_mul_pow2, Z.shiftr_div_pow2 by lia.
  change (2 ^ 10) with 1024 in *. rewrite Z.div_add_l by lia. rewrite (Z.div_small flags) by lia.
  unfold PGSIZE in Hal. change (2 ^ 12) with 4096.
  rewrite u64_small; Z.to_euclidean_division_equations; lia.
Qed.

Lemma PTE_FLAGS_PA2PTE : PTE_FLAGS (Z.lor (PA2PTE pa) flags) = flags.
Proof.
  rewrite PTE_lor. unfold PTE_FLAGS. change 0x3FF with (Z.ones 10).
  rewrite Z.land_ones by lia. change (2 ^ 10) with 1024 in *.
  rewrite Z.add_comm, Z.mod_add by lia. by apply Z.mod_small.
Qed.

Lemma PTE_testbit i : 0 <= i < 10 -> Z.testbit (Z.lor (PA2PTE pa) flags) i = Z.testbit flags i.
Proof.
  intros Hi. rewrite Z.lor_spec. rewrite PA2PTE_div. change 1024 with (2 ^ 10).
  rewrite Z.mul_pow2_bits_low by lia. done.
Qed.
End pte_roundtrip.

Lemma csrw_eq r x f : csrw r x f r = u64 x.
Proof. unfold csrw. by rewrite decide_True. Qed.
Lemma csrw_ne r r' x f : r <> r' -> csrw r x f r' = f r'.
Proof. intros. unfold csrw. by rewrite decide_False. Qed.

(** ** A layout that satisfies the laws

    The addresses of one build of the kernel, for evaluating the definitions on
    concrete states. *)
Definition sample_layout : Layout :=
  {| end_ := KERNBASE + 0x26000; etext := KERNBASE + 0x8000;
     trampoline := KERNBASE + 0x7000; uservec := KERNBASE + 0x7000;
     userret := KERNBASE + 0x7090; kernelvec := KERNBASE + 0x5c40;
     usertrap_addr := KERNBASE + 0x1d00; forkret_addr := KERNBASE + 0x1900;
     timervec := KERNBASE + 0x5cd0; main_addr := KERNBASE + 0xe00;
     timer_scratch := KERNBASE + 0x9000; disk_pages := KERNBASE + 0x1c000 |}.

Lemma sample_layout_ok : LayoutOk sample_layout.
Proof. by constructor; vm_compute. Qed.
