(* ===== verification/State.v ===== *)
(** * The kernel's state

    The structs of [proc.h], [file.h], [fs.h], [buf.h], [sleeplock.h] and of
    the [.c] files that own a global, as records; [kernel] gathers the globals.
    Pointers to elements of a static table ([proc], [itable.inode],
    [ftable.file], [bcache.buf]) are indices into that table, [option nat]
    where the source allows a null pointer.  Pages handed out by [kalloc] live
    in the byte memory [k_mem]; page tables, user pages and trapframes are
    bytes there.  [set_f v r] is the C assignment [r.f = v]. *)

From Stdlib Require Import ZArith Lia.
From stdpp Require Import base gmap list strings numbers.
From S2P Require Import Prelude Riscv.

(** ** Names of locks and sleep channels

    A spin lock is named by the object it is a field of; a channel is the
    address the source passes to [sleep] and [wakeup]. *)

Inductive slname : Set :=
| SLbuf (b : nat)
| SLinode (i : nat).

Inductive lockname : Set :=
| Lkmem | Lbcache | Llog | Litable | Lftable | Lpid | Lwait | Lproc (p : nat)
| Lpipe (pi : Z) | Lcons | Luart | Lticks | Lvdisk | Lpr | Lsleep (s : slname).

Inductive channel : Set :=
| Cnull | Cproc (p : nat) | Clog | Csleep (s : slname) | Cnread (pi : Z) | Cnwrite (pi : Z)
| Ccons | Cticks | Cuart | Cdiskfree | Cbuf (b : nat).

#[export] Instance slname_eq_dec : EqDecision slname.
Proof. solve_decision. Defined.
#[export] Instance lockname_eq_dec : EqDecision lockname.
Proof. solve_decision. Defined.
#[export] Instance channel_eq_dec : EqDecision channel.
Proof. solve_decision. Defined.

(** ** proc.h *)

Inductive procstate : Set := UNUSED | USED | SLEEPING | RUNNABLE | RUNNING | ZOMBIE.
Inductive page_metadata_state : Set := P_UNUSED | P_USED.

#[export] Instance procstate_eq_dec : EqDecision procstate.
Proof. solve_decision. Defined.
#[export] Instance page_metadata_state_eq_dec : EqDecision page_metadata_state.
Proof. solve_decision. Defined.

(** Saved registers for kernel context switches. *)
Record context : Type := mkContext {
  c_ra : Z;
  c_sp : Z;
  c_s0 : Z;
  c_s1 : Z;
  c_s2 : Z;
  c_s3 : Z;
  c_s4 : Z;
  c_s5 : Z;
  c_s6 : Z;
  c_s7 : Z;
  c_s8 : Z;
  c_s9 : Z;
  c_s10 : Z;
  c_s11 : Z;
}.

Definition set_c_ra (v : Z) (r : context) : context :=
  mkContext v (c_sp r) (c_s0 r) (c_s1 r) (c_s2 r) (c_s3 r) (c_s4 r) (c_s5 r) (c_s6 r) (c_s7
    r) (c_s8 r) (c_s9 r) (c_s10 r) (c_s11 r).
Definition set_c_sp (v : Z) (r : context) : context :=
  mkContext (c_ra r) v (c_s0 r) (c_s1 r) (c_s2 r) (c_s3 r) (c_s4 r) (c_s5 r) (c_s6 r) (c_s7
    r) (c_s8 r) (c_s9 r) (c_s10 r) (c_s11 r).
Definition set_c_s0 (v : Z) (r : context) : context :=
  mkContext (c_ra r) (c_sp r) v (c_s1 r) (c_s2 r) (c_s3 r) (c_s4 r) (c_s5 r) (c_s6 r) (c_s7
    r) (c_s8 r) (c_s9 r) (c_s10 r) (c_s11 r).
Definition set_c_s1 (v : Z) (r : context) : context :=
  mkContext (c_ra r) (c_sp r) (c_s0 r) v (c_s2 r) (c_s3 r) (c_s4 r) (c_s5 r) (c_s6 r) (c_s7
    r) (c_s8 r) (c_s9 r) (c_s10 r) (c_s11 r).
Definition set_c_s2 (v : Z) (r : context) : context :=
  mkContext (c_ra r) (c_sp r) (c_s0 r) (c_s1 r) v (c_s3 r) (c_s4 r) (c_s5 r) (c_s6 r) (c_s7
    r) (c_s8 r) (c_s9 r) (c_s10 r) (c_s11 r).
Definition set_c_s3 (v : Z) (r : context) : context :=
  mkContext (c_ra r) (c_sp r) (c_s0 r) (c_s1 r) (c_s2 r) v (c_s4 r) (c_s5 r) (c_s6 r) (c_s7
    r) (c_s8 r) (c_s9 r) (c_s10 r) (c_s11 r).
Definition set_c_s4 (v : Z) (r : context) : context :=
  mkContext (c_ra r) (c_sp r) (c_s0 r) (c_s1 r) (c_s2 r) (c_s3 r) v (c_s5 r) (c_s6 r) (c_s7
    r) (c_s8 r) (c_s9 r) (c_s10 r) (c_s11 r).
Definition set_c_s5 (v : Z) (r : context) : context :=
  mkContext (c_ra r) (c_sp r) (c_s0 r) (c_s1 r) (c_s2 r) (c_s3 r) (c_s4 r) v (c_s6 r) (c_s7
    r) (c_s8 r) (c_s9 r) (c_s10 r) (c_s11 r).
Definition set_c_s6 (v : Z) (r : context) : context :=
  mkContext (c_ra r) (c_sp r) (c_s0 r) (c_s1 r) (c_s2 r) (c_s3 r) (c_s4 r) (c_s5 r) v (c_s7
    r) (c_s8 r) (c_s9 r) (c_s10 r) (c_s11 r).
Definition set_c_s7 (v : Z) (r : context) : context :=
  mkContext (c_ra r) (c_sp r) (c_s0 r) (c_s1 r) (c_s2 r) (c_s3 r) (c_s4 r) (c_s5 r) (c_s6 r)
    v (c_s8 r) (c_s9 r) (c_s10 r) (c_s11 r).
Definition set_c_s8 (v : Z) (r : context) : context :=
  mkContext (c_ra r) (c_sp r) (c_s0 r) (c_s1 r) (c_s2 r) (c_s3 r) (c_s4 r) (c_s5 r) (c_s6 r)
    (c_s7 r) v (c_s9 r) (c_s10 r) (c_s11 r).
Definition set_c_s9 (v : Z) (r : context) : context :=
  mkContext (c_ra r) (c_sp r) (c_s0 r) (c_s1 r) (c_s2 r) (c_s3 r) (c_s4 r) (c_s5 r) (c_s6 r)
    (c_s7 r) (c_s8 r) v (c_s10 r) (c_s11 r).
Definition set_c_s10 (v : Z) (r : context) : context :=
  mkContext (c_ra r) (c_sp r) (c_s0 r) (c_s1 r) (c_s2 r) (c_s3 r) (c_s4 r) (c_s5 r) (c_s6 r)
    (c_s7 r) (c_s8 r) (c_s9 r) v (c_s11 r).
Definition set_c_s11 (v : Z) (r : context) : context :=
  mkContext (c_ra r) (c_sp r) (c_s0 r) (c_s1 r) (c_s2 r) (c_s3 r) (c_s4 r) (c_s5 r) (c_s6 r)
    (c_s7 r) (c_s8 r) (c_s9 r) (c_s10 r) v.

Definition context0 : context := mkContext 0 0 0 0 0 0 0 0 0 0 0 0 0 0.

(** Byte offsets of the fields of [struct trapframe]. *)
Definition tf_kernel_satp : Z := 0.
Definition tf_kernel_sp : Z := 8.
Definition tf_kernel_trap : Z := 16.
Definition tf_epc : Z := 24.
Definition tf_kernel_hartid : Z := 32.
Definition tf_ra : Z := 40.
Definition tf_sp : Z := 48.
Definition tf_gp : Z := 56.
Definition tf_tp : Z := 64.
Definition tf_t0 : Z := 72.
Definition tf_t1 : Z := 80.
Definition tf_t2 : Z := 88.
Definition tf_s0 : Z := 96.
Definition tf_s1 : Z := 104.
Definition tf_a0 : Z := 112.
Definition tf_a1 : Z := 120.
Definition tf_a2 : Z := 128.
Definition tf_a3 : Z := 136.
Definition tf_a4 : Z := 144.
Definition tf_a5 : Z := 152.
Definition tf_a6 : Z := 160.
Definition tf_a7 : Z := 168.
Definition tf_s2 : Z := 176.
Definition tf_s3 : Z := 184.
Definition tf_s4 : Z := 192.
Definition tf_s5 : Z := 200.
Definition tf_s6 : Z := 208.
Definition tf_s7 : Z := 216.
Definition tf_s8 : Z := 224.
Definition tf_s9 : Z := 232.
Definition tf_s10 : Z := 240.
Definition tf_s11 : Z := 248.
Definition tf_t3 : Z := 256.
Definition tf_t4 : Z := 264.
Definition tf_t5 : Z := 272.
Definition tf_t6 : Z := 280.
Definition sizeof_trapframe : Z := 288.

(** One entry of [memory_pages] or [file_pages]. *)
Record page_metadata_struct : Type := mkPage {
  pm_state : page_metadata_state;
  pm_va : Z;
  pm_order : Z;
  pm_access : Z;
}.

Definition set_pm_state (v : page_metadata_state) (r : page_metadata_struct) : page_metadata_struct :=
  mkPage v (pm_va r) (pm_order r) (pm_access r).
Definition set_pm_va (v : Z) (r : page_metadata_struct) : page_metadata_struct :=
  mkPage (pm_state r) v (pm_order r) (pm_access r).
Definition set_pm_order (v : Z) (r : page_metadata_struct) : page_metadata_struct :=
  mkPage (pm_state r) (pm_va r) v (pm_access r).
Definition set_pm_access (v : Z) (r : page_metadata_struct) : page_metadata_struct :=
  mkPage (pm_state r) (pm_va r) (pm_order r) v.

Definition page0 : page_metadata_struct := mkPage P_UNUSED 0 0 0.

(** Per-process state. *)
Record proc : Type := mkProc {
  p_state : procstate;
  p_chan : channel;
  p_killed : Z;
  p_xstate : Z;
  p_pid : Z;
  p_parent : option nat;
  p_kstack : Z;
  p_sz : Z;
  p_pagetable : Z;
  p_trapframe : Z;
  p_context : context;
  p_ofile : list (option nat);
  p_cwd : option nat;
  p_name : list Z;
  p_page_fault_counter : Z;
  p_swapFile : option nat;
  p_file_pages : list page_metadata_struct;
  p_memory_pages : list page_metadata_struct;
  p_page_order_counter : Z;
  p_pages_in_file_counter : Z;
  p_pages_in_memory_counter : Z;
}.

Definition set_p_state (v : procstate) (r : proc) : proc :=
  mkProc v (p_chan r) (p_killed r) (p_xstate r) (p_pid r) (p_parent r) (p_kstack r) (p_sz r)
    (p_pagetable r) (p_trapframe r) (p_context r) (p_ofile r) (p_cwd r) (p_name r)
    (p_page_fault_counter r) (p_swapFile r) (p_file_pages r) (p_memory_pages r)
    (p_page_order_counter r) (p_pages_in_file_counter r) (p_pages_in_memory_counter r).
Definition set_p_chan (v : channel) (r : proc) : proc :=
  mkProc (p_state r) v (p_killed r) (p_xstate r) (p_pid r) (p_parent r) (p_kstack r) (p_sz
    r) (p_pagetable r) (p_trapframe r) (p_context r) (p_ofile r) (p_cwd r) (p_name r)
    (p_page_fault_counter r) (p_swapFile r) (p_file_pages r) (p_memory_pages r)
    (p_page_order_counter r) (p_pages_in_file_counter r) (p_pages_in_memory_counter r).
Definition set_p_killed (v : Z) (r : proc) : proc :=
  mkProc (p_state r) (p_chan r) v (p_xstate r) (p_pid r) (p_parent r) (p_kstack r) (p_sz r)
    (p_pagetable r) (p_trapframe r) (p_context r) (p_ofile r) (p_cwd r) (p_name r)
    (p_page_fault_counter r) (p_swapFile r) (p_file_pages r) (p_memory_pages r)
    (p_page_order_counter r) (p_pages_in_file_counter r) (p_pages_in_memory_counter r).
Definition set_p_xstate (v : Z) (r : proc) : proc :=
  mkProc (p_state r) (p_chan r) (p_killed r) v (p_pid r) (p_parent r) (p_kstack r) (p_sz r)
    (p_pagetable r) (p_trapframe r) (p_context r) (p_ofile r) (p_cwd r) (p_name r)
    (p_page_fault_counter r) (p_swapFile r) (p_file_pages r) (p_memory_pages r)
    (p_page_order_counter r) (p_pages_in_file_counter r) (p_pages_in_memory_counter r).
Definition set_p_pid (v : Z) (r : proc) : proc :=
  mkProc (p_state r) (p_chan r) (p_killed r) (p_xstate r) v (p_parent r) (p_kstack r) (p_sz
    r) (p_pagetable r) (p_trapframe r) (p_context r) (p_ofile r) (p_cwd r) (p_name r)
    (p_page_fault_counter r) (p_swapFile r) (p_file_pages r) (p_memory_pages r)
    (p_page_order_counter r) (p_pages_in_file_counter r) (p_pages_in_memory_counter r).
Definition set_p_parent (v : option nat) (r : proc) : proc :=
  mkProc (p_state r) (p_chan r) (p_killed r) (p_xstate r) (p_pid r) v (p_kstack r) (p_sz r)
    (p_pagetable r) (p_trapframe r) (p_context r) (p_ofile r) (p_cwd r) (p_name r)
    (p_page_fault_counter r) (p_swapFile r) (p_file_pages r) (p_memory_pages r)
    (p_page_order_counter r) (p_pages_in_file_counter r) (p_pages_in_memory_counter r).
Definition set_p_kstack (v : Z) (r : proc) : proc :=
  mkProc (p_state r) (p_chan r) (p_killed r) (p_xstate r) (p_pid r) (p_parent r) v (p_sz r)
    (p_pagetable r) (p_trapframe r) (p_context r) (p_ofile r) (p_cwd r) (p_name r)
    (p_page_fault_counter r) (p_swapFile r) (p_file_pages r) (p_memory_pages r)
    (p_page_order_counter r) (p_pages_in_file_counter r) (p_pages_in_memory_counter r).
Definition set_p_sz (v : Z) (r : proc) : proc :=
  mkProc (p_state r) (p_chan r) (p_killed r) (p_xstate r) (p_pid r) (p_parent r) (p_kstack
    r) v (p_pagetable r) (p_trapframe r) (p_context r) (p_ofile r) (p_cwd r) (p_name r)
    (p_page_fault_counter r) (p_swapFile r) (p_file_pages r) (p_memory_pages r)
    (p_page_order_counter r) (p_pages_in_file_counter r) (p_pages_in_memory_counter r).
Definition set_p_pagetable (v : Z) (r : proc) : proc :=
  mkProc (p_state r) (p_chan r) (p_killed r) (p_xstate r) (p_pid r) (p_parent r) (p_kstack
    r) (p_sz r) v (p_trapframe r) (p_context r) (p_ofile r) (p_cwd r) (p_name r)
    (p_page_fault_counter r) (p_swapFile r) (p_file_pages r) (p_memory_pages r)
    (p_page_order_counter r) (p_pages_in_file_counter r) (p_pages_in_memory_counter r).
Definition set_p_trapframe (v : Z) (r : proc) : proc :=
  mkProc (p_state r) (p_chan r) (p_killed r) (p_xstate r) (p_pid r) (p_parent r) (p_kstack
    r) (p_sz r) (p_pagetable r) v (p_context r) (p_ofile r) (p_cwd r) (p_name r)
    (p_page_fault_counter r) (p_swapFile r) (p_file_pages r) (p_memory_pages r)
    (p_page_order_counter r) (p_pages_in_file_counter r) (p_pages_in_memory_counter r).
Definition set_p_context (v : context) (r : proc) : proc :=
  mkProc (p_state r) (p_chan r) (p_killed r) (p_xstate r) (p_pid r) (p_parent r) (p_kstack
    r) (p_sz r) (p_pagetable r) (p_trapframe r) v (p_ofile r) (p_cwd r) (p_name r)
    (p_page_fault_counter r) (p_swapFile r) (p_file_pages r) (p_memory_pages r)
    (p_page_order_counter r) (p_pages_in_file_counter r) (p_pages_in_memory_counter r).
Definition set_p_ofile (v : list (option nat)) (r : proc) : proc :=
  mkProc (p_state r) (p_chan r) (p_killed r) (p_xstate r) (p_pid r) (p_parent r) (p_kstack
    r) (p_sz r) (p_pagetable r) (p_trapframe r) (p_context r) v (p_cwd r) (p_name r)
    (p_page_fault_counter r) (p_swapFile r) (p_file_pages r) (p_memory_pages r)
    (p_page_order_counter r) (p_pages_in_file_counter r) (p_pages_in_memory_counter r).
Definition set_p_cwd (v : option nat) (r : proc) : proc :=
  mkProc (p_state r) (p_chan r) (p_killed r) (p_xstate r) (p_pid r) (p_parent r) (p_kstack
    r) (p_sz r) (p_pagetable r) (p_trapframe r) (p_context r) (p_ofile r) v (p_name r)
    (p_page_fault_counter r) (p_swapFile r) (p_file_pages r) (p_memory_pages r)
    (p_page_order_counter r) (p_pages_in_file_counter r) (p_pages_in_memory_counter r).
Definition set_p_name (v : list Z) (r : proc) : proc :=
  mkProc (p_state r) (p_chan r) (p_killed r) (p_xstate r) (p_pid r) (p_parent r) (p_kstack
    r) (p_sz r) (p_pagetable r) (p_trapframe r) (p_context r) (p_ofile r) (p_cwd r) v
    (p_page_fault_counter r) (p_swapFile r) (p_file_pages r) (p_memory_pages r)
    (p_page_order_counter r) (p_pages_in_file_counter r) (p_pages_in_memory_counter r).
Definition set_p_page_fault_counter (v : Z) (r : proc) : proc :=
  mkProc (p_state r) (p_chan r) (p_killed r) (p_xstate r) (p_pid r) (p_parent r) (p_kstack
    r) (p_sz r) (p_pagetable r) (p_trapframe r) (p_context r) (p_ofile r) (p_cwd r) (p_name r)
    v (p_swapFile r) (p_file_pages r) (p_memory_pages r) (p_page_order_counter r)
    (p_pages_in_file_counter r) (p_pages_in_memory_counter r).
Definition set_p_swapFile (v : option nat) (r : proc) : proc :=
  mkProc (p_state r) (p_chan r) (p_killed r) (p_xstate r) (p_pid r) (p_parent r) (p_kstack
    r) (p_sz r) (p_pagetable r) (p_trapframe r) (p_context r) (p_ofile r) (p_cwd r) (p_name r)
    (p_page_fault_counter r) v (p_file_pages r) (p_memory_pages r) (p_page_order_counter r)
    (p_pages_in_file_counter r) (p_pages_in_memory_counter r).
Definition set_p_file_pages (v : list page_metadata_struct) (r : proc) : proc :=
  mkProc (p_state r) (p_chan r) (p_killed r) (p_xstate r) (p_pid r) (p_parent r) (p_kstack
    r) (p_sz r) (p_pagetable r) (p_trapframe r) (p_context r) (p_ofile r) (p_cwd r) (p_name r)
    (p_page_fault_counter r) (p_swapFile r) v (p_memory_pages r) (p_page_order_counter r)
    (p_pages_in_file_counter r) (p_pages_in_memory_counter r).
Definition set_p_memory_pages (v : list page_metadata_struct) (r : proc) : proc :=
  mkProc (p_state r) (p_chan r) (p_killed r) (p_xstate r) (p_pid r) (p_parent r) (p_kstack
    r) (p_sz r) (p_pagetable r) (p_trapframe r) (p_context r) (p_ofile r) (p_cwd r) (p_name r)
    (p_page_fault_counter r) (p_swapFile r) (p_file_pages r) v (p_page_order_counter r)
    (p_pages_in_file_counter r) (p_pages_in_memory_counter r).
Definition set_p_page_order_counter (v : Z) (r : proc) : proc :=
  mkProc (p_state r) (p_chan r) (p_killed r) (p_xstate r) (p_pid r) (p_parent r) (p_kstack
    r) (p_sz r) (p_pagetable r) (p_trapframe r) (p_context r) (p_ofile r) (p_cwd r) (p_name r)
    (p_page_fault_counter r) (p_swapFile r) (p_file_pages r) (p_memory_pages r) v
    (p_pages_in_file_counter r) (p_pages_in_memory_counter r).
Definition set_p_pages_in_file_counter (v : Z) (r : proc) : proc :=
  mkProc (p_state r) (p_chan r) (p_killed r) (p_xstate r) (p_pid r) (p_parent r) (p_kstack
    r) (p_sz r) (p_pagetable r) (p_trapframe r) (p_context r) (p_ofile r) (p_cwd r) (p_name r)
    (p_page_fault_counter r) (p_swapFile r) (p_file_pages r) (p_memory_pages r)
    (p_page_order_counter r) v (p_pages_in_memory_counter r).
Definition set_p_pages_in_memory_counter (v : Z) (r : proc) : proc :=
  mkProc (p_state r) (p_chan r) (p_killed r) (p_xstate r) (p_pid r) (p_parent r) (p_kstack
    r) (p_sz r) (p_pagetable r) (p_trapframe r) (p_context r) (p_ofile r) (p_cwd r) (p_name r)
    (p_page_fault_counter r) (p_swapFile r) (p_file_pages r) (p_memory_pages r)
    (p_page_order_counter r) (p_pages_in_file_counter r) v.

(** A slot of the process table as the loader leaves it: all zero. *)
Definition proc0 : proc :=
  mkProc UNUSED Cnull 0 0 0 None 0 0 0 0 context0 (replicate (Z.to_nat NOFILE) None) None
    (replicate 16 0) 0 None (replicate (Z.to_nat (MAX_TOTAL_PAGES - MAX_PYSC_PAGES)) page0)
    (replicate (Z.to_nat MAX_PYSC_PAGES) page0) 0 0 0.

(** ** sleeplock.h, buf.h *)

Record sleeplock : Type := mkSleeplock {
  sl_locked : Z;
  sl_pid : Z;
}.

Definition set_sl_locked (v : Z) (r : sleeplock) : sleeplock :=
  mkSleeplock v (sl_pid r).
Definition set_sl_pid (v : Z) (r : sleeplock) : sleeplock :=
  mkSleeplock (sl_locked r) v.

Definition sleeplock0 : sleeplock := mkSleeplock 0 0.

(** A cached block; [prev] and [next] are indices into the cache. *)
Record buf : Type := mkBuf {
  b_valid : Z;
  b_disk : Z;
  b_dev : Z;
  b_blockno : Z;
  b_lock : sleeplock;
  b_refcnt : Z;
  b_prev : nat;
  b_next : nat;
  b_data : list Z;
}.

Definition set_b_valid (v : Z) (r : buf) : buf :=
  mkBuf v (b_disk r) (b_dev r) (b_blockno r) (b_lock r) (b_refcnt r) (b_prev r) (b_next r)
    (b_data r).
Definition set_b_disk (v : Z) (r : buf) : buf :=
  mkBuf (b_valid r) v (b_dev r) (b_blockno r) (b_lock r) (b_refcnt r) (b_prev r) (b_next r)
    (b_data r).
Definition set_b_dev (v : Z) (r : buf) : buf :=
  mkBuf (b_valid r) (b_disk r) v (b_blockno r) (b_lock r) (b_refcnt r) (b_prev r) (b_next r)
    (b_data r).
Definition set_b_blockno (v : Z) (r : buf) : buf :=
  mkBuf (b_valid r) (b_disk r) (b_dev r) v (b_lock r) (b_refcnt r) (b_prev r) (b_next r)
    (b_data r).
Definition set_b_lock (v : sleeplock) (r : buf) : buf :=
  mkBuf (b_valid r) (b_disk r) (b_dev r) (b_blockno r) v (b_refcnt r) (b_prev r) (b_next r)
    (b_data r).
Definition set_b_refcnt (v : Z) (r : buf) : buf :=
  mkBuf (b_valid r) (b_disk r) (b_dev r) (b_blockno r) (b_lock r) v (b_prev r) (b_next r)
    (b_data r).
Definition set_b_prev (v : nat) (r : buf) : buf :=
  mkBuf (b_valid r) (b_disk r) (b_dev r) (b_blockno r) (b_lock r) (b_refcnt r) v (b_next r)
    (b_data r).
Definition set_b_next (v : nat) (r : buf) : buf :=
  mkBuf (b_valid r) (b_disk r) (b_dev r) (b_blockno r) (b_lock r) (b_refcnt r) (b_prev r) v
    (b_data r).
Definition set_b_data (v : list Z) (r : buf) : buf :=
  mkBuf (b_valid r) (b_disk r) (b_dev r) (b_blockno r) (b_lock r) (b_refcnt r) (b_prev r)
    (b_next r) v.

Definition block0 : list Z := replicate (Z.to_nat BSIZE) 0.
Definition buf0 : buf := mkBuf 0 0 0 0 sleeplock0 0 0 0 block0.

(** ** fs.h, file.h *)

Record superblock : Type := mkSuperblock {
  sb_magic : Z;
  sb_size : Z;
  sb_nblocks : Z;
  sb_ninodes : Z;
  sb_nlog : Z;
  sb_logstart : Z;
  sb_inodestart : Z;
  sb_bmapstart : Z;
}.

Definition set_sb_magic (v : Z) (r : superblock) : superblock :=
  mkSuperblock v (sb_size r) (sb_nblocks r) (sb_ninodes r) (sb_nlog r) (sb_logstart r)
    (sb_inodestart r) (sb_bmapstart r).
Definition set_sb_size (v : Z) (r : superblock) : superblock :=
  mkSuperblock (sb_magic r) v (sb_nblocks r) (sb_ninodes r) (sb_nlog r) (sb_logstart r)
    (sb_inodestart r) (sb_bmapstart r).
Definition set_sb_nblocks (v : Z) (r : superblock) : superblock :=
  mkSuperblock (sb_magic r) (sb_size r) v (sb_ninodes r) (sb_nlog r) (sb_logstart r)
    (sb_inodestart r) (sb_bmapstart r).
Definition set_sb_ninodes (v : Z) (r : superblock) : superblock :=
  mkSuperblock (sb_magic r) (sb_size r) (sb_nblocks r) v (sb_nlog r) (sb_logstart r)
    (sb_inodestart r) (sb_bmapstart r).
Definition set_sb_nlog (v : Z) (r : superblock) : superblock :=
  mkSuperblock (sb_magic r) (sb_size r) (sb_nblocks r) (sb_ninodes r) v (sb_logstart r)
    (sb_inodestart r) (sb_bmapstart r).
Definition set_sb_logstart (v : Z) (r : superblock) : superblock :=
  mkSuperblock (sb_magic r) (sb_size r) (sb_nblocks r) (sb_ninodes r) (sb_nlog r) v
    (sb_inodestart r) (sb_bmapstart r).
Definition set_sb_inodestart (v : Z) (r : superblock) : superblock :=
  mkSuperblock (sb_magic r) (sb_size r) (sb_nblocks r) (sb_ninodes r) (sb_nlog r)
    (sb_logstart r) v (sb_bmapstart r).
Definition set_sb_bmapstart (v : Z) (r : superblock) : superblock :=
  mkSuperblock (sb_magic r) (sb_size r) (sb_nblocks r) (sb_ninodes r) (sb_nlog r)
    (sb_logstart r) (sb_inodestart r) v.

Definition superblock0 : superblock := mkSuperblock 0 0 0 0 0 0 0 0.

(** On-disk inode. *)
Record dinode : Type := mkDinode {
  d_type : Z;
  d_major : Z;
  d_minor : Z;
  d_nlink : Z;
  d_size : Z;
  d_addrs : list Z;
}.

Definition set_d_type (v : Z) (r : dinode) : dinode :=
  mkDinode v (d_major r) (d_minor r) (d_nlink r) (d_size r) (d_addrs r).
Definition set_d_major (v : Z) (r : dinode) : dinode :=
  mkDinode (d_type r) v (d_minor r) (d_nlink r) (d_size r) (d_addrs r).
Definition set_d_minor (v : Z) (r : dinode) : dinode :=
  mkDinode (d_type r) (d_major r) v (d_nlink r) (d_size r) (d_addrs r).
Definition set_d_nlink (v : Z) (r : dinode) : dinode :=
  mkDinode (d_type r) (d_major r) (d_minor r) v (d_size r) (d_addrs r).
Definition set_d_size (v : Z) (r : dinode) : dinode :=
  mkDinode (d_type r) (d_major r) (d_minor r) (d_nlink r) v (d_addrs r).
Definition set_d_addrs (v : list Z) (r : dinode) : dinode :=
  mkDinode (d_type r) (d_major r) (d_minor r) (d_nlink r) (d_size r) v.

(** In-memory copy of an inode. *)
Record inode : Type := mkInode {
  i_dev : Z;
  i_inum : Z;
  i_ref : Z;
  i_lock : sleeplock;
  i_valid : Z;
  i_type : Z;
  i_major : Z;
  i_minor : Z;
  i_nlink : Z;
  i_size : Z;
  i_addrs : list Z;
}.

Definition set_i_dev (v : Z) (r : inode) : inode :=
  mkInode v (i_inum r) (i_ref r) (i_lock r) (i_valid r) (i_type r) (i_major r) (i_minor r)
    (i_nlink r) (i_size r) (i_addrs r).
Definition set_i_inum (v : Z) (r : inode) : inode :=
  mkInode (i_dev r) v (i_ref r) (i_lock r) (i_valid r) (i_type r) (i_major r) (i_minor r)
    (i_nlink r) (i_size r) (i_addrs r).
Definition set_i_ref (v : Z) (r : inode) : inode :=
  mkInode (i_dev r) (i_inum r) v (i_lock r) (i_valid r) (i_type r) (i_major r) (i_minor r)
    (i_nlink r) (i_size r) (i_addrs r).
Definition set_i_lock (v : sleeplock) (r : inode) : inode :=
  mkInode (i_dev r) (i_inum r) (i_ref r) v (i_valid r) (i_type r) (i_major r) (i_minor r)
    (i_nlink r) (i_size r) (i_addrs r).
Definition set_i_valid (v : Z) (r : inode) : inode :=
  mkInode (i_dev r) (i_inum r) (i_ref r) (i_lock r) v (i_type r) (i_major r) (i_minor r)
    (i_nlink r) (i_size r) (i_addrs r).
Definition set_i_type (v : Z) (r : inode) : inode :=
  mkInode (i_dev r) (i_inum r) (i_ref r) (i_lock r) (i_valid r) v (i_major r) (i_minor r)
    (i_nlink r) (i_size r) (i_addrs r).
Definition set_i_major (v : Z) (r : inode) : inode :=
  mkInode (i_dev r) (i_inum r) (i_ref r) (i_lock r) (i_valid r) (i_type r) v (i_minor r)
    (i_nlink r) (i_size r) (i_addrs r).
Definition set_i_minor (v : Z) (r : inode) : inode :=
  mkInode (i_dev r) (i_inum r) (i_ref r) (i_lock r) (i_valid r) (i_type r) (i_major r) v
    (i_nlink r) (i_size r) (i_addrs r).
Definition set_i_nlink (v : Z) (r : inode) : inode :=
  mkInode (i_dev r) (i_inum r) (i_ref r) (i_lock r) (i_valid r) (i_type r) (i_major r)
    (i_minor r) v (i_size r) (i_addrs r).
Definition set_i_size (v : Z) (r : inode) : inode :=
  mkInode (i_dev r) (i_inum r) (i_ref r) (i_lock r) (i_valid r) (i_type r) (i_major r)
    (i_minor r) (i_nlink r) v (i_addrs r).
Definition set_i_addrs (v : list Z) (r : inode) : inode :=
  mkInode (i_dev r) (i_inum r) (i_ref r) (i_lock r) (i_valid r) (i_type r) (i_major r)
    (i_minor r) (i_nlink r) (i_size r) v.

Definition inode0 : inode :=
  mkInode 0 0 0 sleeplock0 0 0 0 0 0 0 (replicate (Z.to_nat (NDIRECT + 1)) 0).

Inductive filetype : Set := FD_NONE | FD_PIPE | FD_INODE | FD_DEVICE.

#[export] Instance filetype_eq_dec : EqDecision filetype.
Proof. solve_decision. Defined.

Record file : Type := mkFile {
  f_type : filetype;
  f_ref : Z;
  f_readable : Z;
  f_writable : Z;
  f_pipe : Z;
  f_ip : option nat;
  f_off : Z;
  f_major : Z;
}.

Definition set_f_type (v : filetype) (r : file) : file :=
  mkFile v (f_ref r) (f_readable r) (f_writable r) (f_pipe r) (f_ip r) (f_off r) (f_major r).
Definition set_f_ref (v : Z) (r : file) : file :=
  mkFile (f_type r) v (f_readable r) (f_writable r) (f_pipe r) (f_ip r) (f_off r) (f_major r).
Definition set_f_readable (v : Z) (r : file) : file :=
  mkFile (f_type r) (f_ref r) v (f_writable r) (f_pipe r) (f_ip r) (f_off r) (f_major r).
Definition set_f_writable (v : Z) (r : file) : file :=
  mkFile (f_type r) (f_ref r) (f_readable r) v (f_pipe r) (f_ip r) (f_off r) (f_major r).
Definition set_f_pipe (v : Z) (r : file) : file :=
  mkFile (f_type r) (f_ref r) (f_readable r) (f_writable r) v (f_ip r) (f_off r) (f_major r).
Definition set_f_ip (v : option nat) (r : file) : file :=
  mkFile (f_type r) (f_ref r) (f_readable r) (f_writable r) (f_pipe r) v (f_off r) (f_major r).
Definition set_f_off (v : Z) (r : file) : file :=
  mkFile (f_type r) (f_ref r) (f_readable r) (f_writable r) (f_pipe r) (f_ip r) v (f_major r).
Definition set_f_major (v : Z) (r : file) : file :=
  mkFile (f_type r) (f_ref r) (f_readable r) (f_writable r) (f_pipe r) (f_ip r) (f_off r) v.

Definition file0 : file := mkFile FD_NONE 0 0 0 0 None 0 0.

(** ** pipe.c, log.c, console.c, uart.c *)

Definition PIPESIZE : Z := 512.

Record pipe : Type := mkPipe {
  pi_data : list Z;
  pi_nread : Z;
  pi_nwrite : Z;
  pi_readopen : Z;
  pi_writeopen : Z;
}.

Definition set_pi_data (v : list Z) (r : pipe) : pipe :=
  mkPipe v (pi_nread r) (pi_nwrite r) (pi_readopen r) (pi_writeopen r).
Definition set_pi_nread (v : Z) (r : pipe) : pipe :=
  mkPipe (pi_data r) v (pi_nwrite r) (pi_readopen r) (pi_writeopen r).
Definition set_pi_nwrite (v : Z) (r : pipe) : pipe :=
  mkPipe (pi_data r) (pi_nread r) v (pi_readopen r) (pi_writeopen r).
Definition set_pi_readopen (v : Z) (r : pipe) : pipe :=
  mkPipe (pi_data r) (pi_nread r) (pi_nwrite r) v (pi_writeopen r).
Definition set_pi_writeopen (v : Z) (r : pipe) : pipe :=
  mkPipe (pi_data r) (pi_nread r) (pi_nwrite r) (pi_readopen r) v.

(** [struct log] with its [struct logheader] [n] and [block]. *)
Record log : Type := mkLog {
  l_start : Z;
  l_size : Z;
  l_outstanding : Z;
  l_committing : Z;
  l_dev : Z;
  l_n : Z;
  l_block : list Z;
}.

Definition set_l_start (v : Z) (r : log) : log :=
  mkLog v (l_size r) (l_outstanding r) (l_committing r) (l_dev r) (l_n r) (l_block r).
Definition set_l_size (v : Z) (r : log) : log :=
  mkLog (l_start r) v (l_outstanding r) (l_committing r) (l_dev r) (l_n r) (l_block r).
Definition set_l_outstanding (v : Z) (r : log) : log :=
  mkLog (l_start r) (l_size r) v (l_committing r) (l_dev r) (l_n r) (l_block r).
Definition set_l_committing (v : Z) (r : log) : log :=
  mkLog (l_start r) (l_size r) (l_outstanding r) v (l_dev r) (l_n r) (l_block r).
Definition set_l_dev (v : Z) (r : log) : log :=
  mkLog (l_start r) (l_size r) (l_outstanding r) (l_committing r) v (l_n r) (l_block r).
Definition set_l_n (v : Z) (r : log) : log :=
  mkLog (l_start r) (l_size r) (l_outstanding r) (l_committing r) (l_dev r) v (l_block r).
Definition set_l_block (v : list Z) (r : log) : log :=
  mkLog (l_start r) (l_size r) (l_outstanding r) (l_committing r) (l_dev r) (l_n r) v.

Definition log0 : log := mkLog 0 0 0 0 0 0 (replicate (Z.to_nat LOGSIZE) 0).

Definition INPUT_BUF : Z := 128.

Record console : Type := mkConsole {
  cn_buf : list Z;
  cn_r : Z;
  cn_w : Z;
  cn_e : Z;
}.

Definition set_cn_buf (v : list Z) (r : console) : console :=
  mkConsole v (cn_r r) (cn_w r) (cn_e r).
Definition set_cn_r (v : Z) (r : console) : console :=
  mkConsole (cn_buf r) v (cn_w r) (cn_e r).
Definition set_cn_w (v : Z) (r : console) : console :=
  mkConsole (cn_buf r) (cn_r r) v (cn_e r).
Definition set_cn_e (v : Z) (r : console) : console :=
  mkConsole (cn_buf r) (cn_r r) (cn_w r) v.

Definition UART_TX_BUF_SIZE : Z := 32.

(** The transmit ring of [uart.c], and the device: the bytes waiting to be
    received, the answers successive reads of the line status register give
    to "transmitter idle?" (idle once they run out), the bytes sent so far,
    and the (register, value) writes made to set it up. *)
Record uart : Type := mkUart {
  u_tx_buf : list Z;
  u_tx_w : Z;
  u_tx_r : Z;
  u_in : list Z;
  u_idle : list bool;
  u_out : list Z;
  u_cfg : list (Z * Z);
}.

Definition set_u_tx_buf (v : list Z) (r : uart) : uart :=
  mkUart v (u_tx_w r) (u_tx_r r) (u_in r) (u_idle r) (u_out r) (u_cfg r).
Definition set_u_tx_w (v : Z) (r : uart) : uart :=
  mkUart (u_tx_buf r) v (u_tx_r r) (u_in r) (u_idle r) (u_out r) (u_cfg r).
Definition set_u_tx_r (v : Z) (r : uart) : uart :=
  mkUart (u_tx_buf r) (u_tx_w r) v (u_in r) (u_idle r) (u_out r) (u_cfg r).
Definition set_u_in (v : list Z) (r : uart) : uart :=
  mkUart (u_tx_buf r) (u_tx_w r) (u_tx_r r) v (u_idle r) (u_out r) (u_cfg r).
Definition set_u_idle (v : list bool) (r : uart) : uart :=
  mkUart (u_tx_buf r) (u_tx_w r) (u_tx_r r) (u_in r) v (u_out r) (u_cfg r).
Definition set_u_out (v : list Z) (r : uart) : uart :=
  mkUart (u_tx_buf r) (u_tx_w r) (u_tx_r r) (u_in r) (u_idle r) v (u_cfg r).
Definition set_u_cfg (v : list (Z * Z)) (r : uart) : uart :=
  mkUart (u_tx_buf r) (u_tx_w r) (u_tx_r r) (u_in r) (u_idle r) (u_out r) v.

Definition console0 : console := mkConsole (replicate (Z.to_nat INPUT_BUF) 0) 0 0 0.
Definition uart0 : uart := mkUart (replicate (Z.to_nat UART_TX_BUF_SIZE) 0) 0 0 [] [] [] [].

(** ** virtio.h, virtio_disk.c *)

Definition NUM : Z := 8.

(** What a descriptor's address points to: a command header [disk.ops[i]], the
    data of a buffer, or the status byte [disk.info[i].status]. *)
Inductive dmaaddr : Set := Dnull | Dop (i : nat) | Dbufdata (b : nat) | Dstatus (i : nat).

#[export] Instance dmaaddr_eq_dec : EqDecision dmaaddr.
Proof. solve_decision. Defined.

(** A descriptor. *)
Record virtq_desc : Type := mkDesc {
  vq_addr : dmaaddr;
  vq_len : Z;
  vq_flags : Z;
  vq_next : Z;
}.

Definition set_vq_addr (v : dmaaddr) (r : virtq_desc) : virtq_desc :=
  mkDesc v (vq_len r) (vq_flags r) (vq_next r).
Definition set_vq_len (v : Z) (r : virtq_desc) : virtq_desc :=
  mkDesc (vq_addr r) v (vq_flags r) (vq_next r).
Definition set_vq_flags (v : Z) (r : virtq_desc) : virtq_desc :=
  mkDesc (vq_addr r) (vq_len r) v (vq_next r).
Definition set_vq_next (v : Z) (r : virtq_desc) : virtq_desc :=
  mkDesc (vq_addr r) (vq_len r) (vq_flags r) v.

Definition desc0 : virtq_desc := mkDesc Dnull 0 0 0.

(** The header of a disk command. *)
Record virtio_blk_req : Type := mkReq {
  rq_type : Z;
  rq_reserved : Z;
  rq_sector : Z;
}.

Definition set_rq_type (v : Z) (r : virtio_blk_req) : virtio_blk_req :=
  mkReq v (rq_reserved r) (rq_sector r).
Definition set_rq_reserved (v : Z) (r : virtio_blk_req) : virtio_blk_req :=
  mkReq (rq_type r) v (rq_sector r).
Definition set_rq_sector (v : Z) (r : virtio_blk_req) : virtio_blk_req :=
  mkReq (rq_type r) (rq_reserved r) v.

Definition req0 : virtio_blk_req := mkReq 0 0 0.

(** [struct disk]: the descriptors, the rings [avail] (written by the driver) and
    [used] (written by the device; of its elements the [id]s), the free flags,
    [used_idx], and the fields [b] and [status] of [info]. *)
Record vdisk : Type := mkVdisk {
  vd_desc : list virtq_desc;
  vd_avail_idx : Z;
  vd_avail_ring : list Z;
  vd_used_idx : Z;
  vd_used_ring : list Z;
  vd_free : list Z;
  vd_seen : Z;
  vd_info_b : list (option nat);
  vd_info_status : list Z;
  vd_ops : list virtio_blk_req;
}.

Definition set_vd_desc (v : list virtq_desc) (r : vdisk) : vdisk :=
  mkVdisk v (vd_avail_idx r) (vd_avail_ring r) (vd_used_idx r) (vd_used_ring r) (vd_free r)
    (vd_seen r) (vd_info_b r) (vd_info_status r) (vd_ops r).
Definition set_vd_avail_idx (v : Z) (r : vdisk) : vdisk :=
  mkVdisk (vd_desc r) v (vd_avail_ring r) (vd_used_idx r) (vd_used_ring r) (vd_free r)
    (vd_seen r) (vd_info_b r) (vd_info_status r) (vd_ops r).
Definition set_vd_avail_ring (v : list Z) (r : vdisk) : vdisk :=
  mkVdisk (vd_desc r) (vd_avail_idx r) v (vd_used_idx r) (vd_used_ring r) (vd_free r)
    (vd_seen r) (vd_info_b r) (vd_info_status r) (vd_ops r).
Definition set_vd_used_idx (v : Z) (r : vdisk) : vdisk :=
  mkVdisk (vd_desc r) (vd_avail_idx r) (vd_avail_ring r) v (vd_used_ring r) (vd_free r)
    (vd_seen r) (vd_info_b r) (vd_info_status r) (vd_ops r).
Definition set_vd_used_ring (v : list Z) (r : vdisk) : vdisk :=
  mkVdisk (vd_desc r) (vd_avail_idx r) (vd_avail_ring r) (vd_used_idx r) v (vd_free r)
    (vd_seen r) (vd_info_b r) (vd_info_status r) (vd_ops r).
Definition set_vd_free (v : list Z) (r : vdisk) : vdisk :=
  mkVdisk (vd_desc r) (vd_avail_idx r) (vd_avail_ring r) (vd_used_idx r) (vd_used_ring r) v
    (vd_seen r) (vd_info_b r) (vd_info_status r) (vd_ops r).
Definition set_vd_seen (v : Z) (r : vdisk) : vdisk :=
  mkVdisk (vd_desc r) (vd_avail_idx r) (vd_avail_ring r) (vd_used_idx r) (vd_used_ring r)
    (vd_free r) v (vd_info_b r) (vd_info_status r) (vd_ops r).
Definition set_vd_info_b (v : list (option nat)) (r : vdisk) : vdisk :=
  mkVdisk (vd_desc r) (vd_avail_idx r) (vd_avail_ring r) (vd_used_idx r) (vd_used_ring r)
    (vd_free r) (vd_seen r) v (vd_info_status r) (vd_ops r).
Definition set_vd_info_status (v : list Z) (r : vdisk) : vdisk :=
  mkVdisk (vd_desc r) (vd_avail_idx r) (vd_avail_ring r) (vd_used_idx r) (vd_used_ring r)
    (vd_free r) (vd_seen r) (vd_info_b r) v (vd_ops r).
Definition set_vd_ops (v : list virtio_blk_req) (r : vdisk) : vdisk :=
  mkVdisk (vd_desc r) (vd_avail_idx r) (vd_avail_ring r) (vd_used_idx r) (vd_used_ring r)
    (vd_free r) (vd_seen r) (vd_info_b r) (vd_info_status r) v.

Definition vdisk0 : vdisk :=
  let n := Z.to_nat NUM in
  mkVdisk (replicate n desc0) 0 (replicate n 0) 0 (replicate n 0) (replicate n 0) 0
    (replicate n None) (replicate n 0) (replicate n req0).

(** ** Memory-mapped device registers *)

(** An access to a device register: a load, or a store of a value. *)
Inductive mmio_event : Set := MLoad (a : Z) | MStore (a v : Z).

(** A slot of [devsw]: the console's functions, or none. *)
Inductive devfn : Set := DevNone | DevConsole.

(** ** The globals *)

(** [k_held] are the spin locks the running thread holds, most recent first, and
    [k_noff] is [mycpu()->noff], the depth of [push_off] nesting;
    [k_cur] is [mycpu()->proc]; [k_pipes] holds the [struct pipe] of each page
    [pipealloc] took from [kalloc], by page address; [k_first] is the static of
    [forkret] and [k_started] the one of [main]; [k_mmio] are the accesses to
    device registers so far, latest first. *)
Record kernel : Type := mkKernel {
  k_mem : memory;
  k_freelist : Z;
  k_held : list lockname;
  k_noff : nat;
  k_procs : list proc;
  k_cur : option nat;
  k_initproc : option nat;
  k_nextpid : Z;
  k_csr : csrs;
  k_disk : gmap Z (list Z);
  k_bufs : list buf;
  k_log : log;
  k_sb : superblock;
  k_itable : list inode;
  k_ftable : list file;
  k_pipes : gmap Z pipe;
  k_cons : console;
  k_uart : uart;
  k_ticks : Z;
  k_panicked : Z;
  k_pr_locking : Z;
  k_devsw : list devfn;
  k_kernel_pagetable : Z;
  k_first : Z;
  k_started : Z;
  k_vdisk : vdisk;
  k_mmio : list mmio_event;
  k_timer_scratch : list (list Z);
}.

Definition set_k_mem (v : memory) (r : kernel) : kernel :=
  mkKernel v (k_freelist r) (k_held r) (k_noff r) (k_procs r) (k_cur r) (k_initproc r)
    (k_nextpid r) (k_csr r) (k_disk r) (k_bufs r) (k_log r) (k_sb r) (k_itable r) (k_ftable r)
    (k_pipes r) (k_cons r) (k_uart r) (k_ticks r) (k_panicked r) (k_pr_locking r) (k_devsw r)
    (k_kernel_pagetable r) (k_first r) (k_started r) (k_vdisk r) (k_mmio r) (k_timer_scratch
    r).
Definition set_k_freelist (v : Z) (r : kernel) : kernel :=
  mkKernel (k_mem r) v (k_held r) (k_noff r) (k_procs r) (k_cur r) (k_initproc r) (k_nextpid
    r) (k_csr r) (k_disk r) (k_bufs r) (k_log r) (k_sb r) (k_itable r) (k_ftable r) (k_pipes
    r) (k_cons r) (k_uart r) (k_ticks r) (k_panicked r) (k_pr_locking r) (k_devsw r)
    (k_kernel_pagetable r) (k_first r) (k_started r) (k_vdisk r) (k_mmio r) (k_timer_scratch
    r).
Definition set_k_held (v : list lockname) (r : kernel) : kernel :=
  mkKernel (k_mem r) (k_freelist r) v (k_noff r) (k_procs r) (k_cur r) (k_initproc r)
    (k_nextpid r) (k_csr r) (k_disk r) (k_bufs r) (k_log r) (k_sb r) (k_itable r) (k_ftable r)
    (k_pipes r) (k_cons r) (k_uart r) (k_ticks r) (k_panicked r) (k_pr_locking r) (k_devsw r)
    (k_kernel_pagetable r) (k_first r) (k_started r) (k_vdisk r) (k_mmio r) (k_timer_scratch
    r).
Definition set_k_noff (v : nat) (r : kernel) : kernel :=
  mkKernel (k_mem r) (k_freelist r) (k_held r) v (k_procs r) (k_cur r) (k_initproc r)
    (k_nextpid r) (k_csr r) (k_disk r) (k_bufs r) (k_log r) (k_sb r) (k_itable r) (k_ftable r)
    (k_pipes r) (k_cons r) (k_uart r) (k_ticks r) (k_panicked r) (k_pr_locking r) (k_devsw r)
    (k_kernel_pagetable r) (k_first r) (k_started r) (k_vdisk r) (k_mmio r) (k_timer_scratch
    r).
Definition set_k_procs (v : list proc) (r : kernel) : kernel :=
  mkKernel (k_mem r) (k_freelist r) (k_held r) (k_noff r) v (k_cur r) (k_initproc r)
    (k_nextpid r) (k_csr r) (k_disk r) (k_bufs r) (k_log r) (k_sb r) (k_itable r) (k_ftable r)
    (k_pipes r) (k_cons r) (k_uart r) (k_ticks r) (k_panicked r) (k_pr_locking r) (k_devsw r)
    (k_kernel_pagetable r) (k_first r) (k_started r) (k_vdisk r) (k_mmio r) (k_timer_scratch
    r).
Definition set_k_cur (v : option nat) (r : kernel) : kernel :=
  mkKernel (k_mem r) (k_freelist r) (k_held r) (k_noff r) (k_procs r) v (k_initproc r)
    (k_nextpid r) (k_csr r) (k_disk r) (k_bufs r) (k_log r) (k_sb r) (k_itable r) (k_ftable r)
    (k_pipes r) (k_cons r) (k_uart r) (k_ticks r) (k_panicked r) (k_pr_locking r) (k_devsw r)
    (k_kernel_pagetable r) (k_first r) (k_started r) (k_vdisk r) (k_mmio r) (k_timer_scratch
    r).
Definition set_k_initproc (v : option nat) (r : kernel) : kernel :=
  mkKernel (k_mem r) (k_freelist r) (k_held r) (k_noff r) (k_procs r) (k_cur r) v (k_nextpid
    r) (k_csr r) (k_disk r) (k_bufs r) (k_log r) (k_sb r) (k_itable r) (k_ftable r) (k_pipes
    r) (k_cons r) (k_uart r) (k_ticks r) (k_panicked r) (k_pr_locking r) (k_devsw r)
    (k_kernel_pagetable r) (k_first r) (k_started r) (k_vdisk r) (k_mmio r) (k_timer_scratch
    r).
Definition set_k_nextpid (v : Z) (r : kernel) : kernel :=
  mkKernel (k_mem r) (k_freelist r) (k_held r) (k_noff r) (k_procs r) (k_cur r) (k_initproc
    r) v (k_csr r) (k_disk r) (k_bufs r) (k_log r) (k_sb r) (k_itable r) (k_ftable r) (k_pipes
    r) (k_cons r) (k_uart r) (k_ticks r) (k_panicked r) (k_pr_locking r) (k_devsw r)
    (k_kernel_pagetable r) (k_first r) (k_started r) (k_vdisk r) (k_mmio r) (k_timer_scratch
    r).
Definition set_k_csr (v : csrs) (r : kernel) : kernel :=
  mkKernel (k_mem r) (k_freelist r) (k_held r) (k_noff r) (k_procs r) (k_cur r) (k_initproc
    r) (k_nextpid r) v (k_disk r) (k_bufs r) (k_log r) (k_sb r) (k_itable r) (k_ftable r)
    (k_pipes r) (k_cons r) (k_uart r) (k_ticks r) (k_panicked r) (k_pr_locking r) (k_devsw r)
    (k_kernel_pagetable r) (k_first r) (k_started r) (k_vdisk r) (k_mmio r) (k_timer_scratch
    r).
Definition set_k_disk (v : gmap Z (list Z)) (r : kernel) : kernel :=
  mkKernel (k_mem r) (k_freelist r) (k_held r) (k_noff r) (k_procs r) (k_cur r) (k_initproc
    r) (k_nextpid r) (k_csr r) v (k_bufs r) (k_log r) (k_sb r) (k_itable r) (k_ftable r)
    (k_pipes r) (k_cons r) (k_uart r) (k_ticks r) (k_panicked r) (k_pr_locking r) (k_devsw r)
    (k_kernel_pagetable r) (k_first r) (k_started r) (k_vdisk r) (k_mmio r) (k_timer_scratch
    r).
Definition set_k_bufs (v : list buf) (r : kernel) : kernel :=
  mkKernel (k_mem r) (k_freelist r) (k_held r) (k_noff r) (k_procs r) (k_cur r) (k_initproc
    r) (k_nextpid r) (k_csr r) (k_disk r) v (k_log r) (k_sb r) (k_itable r) (k_ftable r)
    (k_pipes r) (k_cons r) (k_uart r) (k_ticks r) (k_panicked r) (k_pr_locking r) (k_devsw r)
    (k_kernel_pagetable r) (k_first r) (k_started r) (k_vdisk r) (k_mmio r) (k_timer_scratch
    r).
Definition set_k_log (v : log) (r : kernel) : kernel :=
  mkKernel (k_mem r) (k_freelist r) (k_held r) (k_noff r) (k_procs r) (k_cur r) (k_initproc
    r) (k_nextpid r) (k_csr r) (k_disk r) (k_bufs r) v (k_sb r) (k_itable r) (k_ftable r)
    (k_pipes r) (k_cons r) (k_uart r) (k_ticks r) (k_panicked r) (k_pr_locking r) (k_devsw r)
    (k_kernel_pagetable r) (k_first r) (k_started r) (k_vdisk r) (k_mmio r) (k_timer_scratch
    r).
Definition set_k_sb (v : superblock) (r : kernel) : kernel :=
  mkKernel (k_mem r) (k_freelist r) (k_held r) (k_noff r) (k_procs r) (k_cur r) (k_initproc
    r) (k_nextpid r) (k_csr r) (k_disk r) (k_bufs r) (k_log r) v (k_itable r) (k_ftable r)
    (k_pipes r) (k_cons r) (k_uart r) (k_ticks r) (k_panicked r) (k_pr_locking r) (k_devsw r)
    (k_kernel_pagetable r) (k_first r) (k_started r) (k_vdisk r) (k_mmio r) (k_timer_scratch
    r).
Definition set_k_itable (v : list inode) (r : kernel) : kernel :=
  mkKernel (k_mem r) (k_freelist r) (k_held r) (k_noff r) (k_procs r) (k_cur r) (k_initproc
    r) (k_nextpid r) (k_csr r) (k_disk r) (k_bufs r) (k_log r) (k_sb r) v (k_ftable r)
    (k_pipes r) (k_cons r) (k_uart r) (k_ticks r) (k_panicked r) (k_pr_locking r) (k_devsw r)
    (k_kernel_pagetable r) (k_first r) (k_started r) (k_vdisk r) (k_mmio r) (k_timer_scratch
    r).
Definition set_k_ftable (v : list file) (r : kernel) : kernel :=
  mkKernel (k_mem r) (k_freelist r) (k_held r) (k_noff r) (k_procs r) (k_cur r) (k_initproc
    r) (k_nextpid r) (k_csr r) (k_disk r) (k_bufs r) (k_log r) (k_sb r) (k_itable r) v
    (k_pipes r) (k_cons r) (k_uart r) (k_ticks r) (k_panicked r) (k_pr_locking r) (k_devsw r)
    (k_kernel_pagetable r) (k_first r) (k_started r) (k_vdisk r) (k_mmio r) (k_timer_scratch
    r).
Definition set_k_pipes (v : gmap Z pipe) (r : kernel) : kernel :=
  mkKernel (k_mem r) (k_freelist r) (k_held r) (k_noff r) (k_procs r) (k_cur r) (k_initproc
    r) (k_nextpid r) (k_csr r) (k_disk r) (k_bufs r) (k_log r) (k_sb r) (k_itable r) (k_ftable
    r) v (k_cons r) (k_uart r) (k_ticks r) (k_panicked r) (k_pr_locking r) (k_devsw r)
    (k_kernel_pagetable r) (k_first r) (k_started r) (k_vdisk r) (k_mmio r) (k_timer_scratch
    r).
Definition set_k_cons (v : console) (r : kernel) : kernel :=
  mkKernel (k_mem r) (k_freelist r) (k_held r) (k_noff r) (k_procs r) (k_cur r) (k_initproc
    r) (k_nextpid r) (k_csr r) (k_disk r) (k_bufs r) (k_log r) (k_sb r) (k_itable r) (k_ftable
    r) (k_pipes r) v (k_uart r) (k_ticks r) (k_panicked r) (k_pr_locking r) (k_devsw r)
    (k_kernel_pagetable r) (k_first r) (k_started r) (k_vdisk r) (k_mmio r) (k_timer_scratch
    r).
Definition set_k_uart (v : uart) (r : kernel) : kernel :=
  mkKernel (k_mem r) (k_freelist r) (k_held r) (k_noff r) (k_procs r) (k_cur r) (k_initproc
    r) (k_nextpid r) (k_csr r) (k_disk r) (k_bufs r) (k_log r) (k_sb r) (k_itable r) (k_ftable
    r) (k_pipes r) (k_cons r) v (k_ticks r) (k_panicked r) (k_pr_locking r) (k_devsw r)
    (k_kernel_pagetable r) (k_first r) (k_started r) (k_vdisk r) (k_mmio r) (k_timer_scratch
    r).
Definition set_k_ticks (v : Z) (r : kernel) : kernel :=
  mkKernel (k_mem r) (k_freelist r) (k_held r) (k_noff r) (k_procs r) (k_cur r) (k_initproc
    r) (k_nextpid r) (k_csr r) (k_disk r) (k_bufs r) (k_log r) (k_sb r) (k_itable r) (k_ftable
    r) (k_pipes r) (k_cons r) (k_uart r) v (k_panicked r) (k_pr_locking r) (k_devsw r)
    (k_kernel_pagetable r) (k_first r) (k_started r) (k_vdisk r) (k_mmio r) (k_timer_scratch
    r).
Definition set_k_panicked (v : Z) (r : kernel) : kernel :=
  mkKernel (k_mem r) (k_freelist r) (k_held r) (k_noff r) (k_procs r) (k_cur r) (k_initproc
    r) (k_nextpid r) (k_csr r) (k_disk r) (k_bufs r) (k_log r) (k_sb r) (k_itable r) (k_ftable
    r) (k_pipes r) (k_cons r) (k_uart r) (k_ticks r) v (k_pr_locking r) (k_devsw r)
    (k_kernel_pagetable r) (k_first r) (k_started r) (k_vdisk r) (k_mmio r) (k_timer_scratch
    r).
Definition set_k_pr_locking (v : Z) (r : kernel) : kernel :=
  mkKernel (k_mem r) (k_freelist r) (k_held r) (k_noff r) (k_procs r) (k_cur r) (k_initproc
    r) (k_nextpid r) (k_csr r) (k_disk r) (k_bufs r) (k_log r) (k_sb r) (k_itable r) (k_ftable
    r) (k_pipes r) (k_cons r) (k_uart r) (k_ticks r) (k_panicked r) v (k_devsw r)
    (k_kernel_pagetable r) (k_first r) (k_started r) (k_vdisk r) (k_mmio r) (k_timer_scratch
    r).
Definition set_k_devsw (v : list devfn) (r : kernel) : kernel :=
  mkKernel (k_mem r) (k_freelist r) (k_held r) (k_noff r) (k_procs r) (k_cur r) (k_initproc
    r) (k_nextpid r) (k_csr r) (k_disk r) (k_bufs r) (k_log r) (k_sb r) (k_itable r) (k_ftable
    r) (k_pipes r) (k_cons r) (k_uart r) (k_ticks r) (k_panicked r) (k_pr_locking r) v
    (k_kernel_pagetable r) (k_first r) (k_started r) (k_vdisk r) (k_mmio r) (k_timer_scratch
    r).
Definition set_k_kernel_pagetable (v : Z) (r : kernel) : kernel :=
  mkKernel (k_mem r) (k_freelist r) (k_held r) (k_noff r) (k_procs r) (k_cur r) (k_initproc
    r) (k_nextpid r) (k_csr r) (k_disk r) (k_bufs r) (k_log r) (k_sb r) (k_itable r) (k_ftable
    r) (k_pipes r) (k_cons r) (k_uart r) (k_ticks r) (k_panicked r) (k_pr_locking r) (k_devsw
    r) v (k_first r) (k_started r) (k_vdisk r) (k_mmio r) (k_timer_scratch r).
Definition set_k_first (v : Z) (r : kernel) : kernel :=
  mkKernel (k_mem r) (k_freelist r) (k_held r) (k_noff r) (k_procs r) (k_cur r) (k_initproc
    r) (k_nextpid r) (k_csr r) (k_disk r) (k_bufs r) (k_log r) (k_sb r) (k_itable r) (k_ftable
    r) (k_pipes r) (k_cons r) (k_uart r) (k_ticks r) (k_panicked r) (k_pr_locking r) (k_devsw
    r) (k_kernel_pagetable r) v (k_started r) (k_vdisk r) (k_mmio r) (k_timer_scratch r).
Definition set_k_started (v : Z) (r : kernel) : kernel :=
  mkKernel (k_mem r) (k_freelist r) (k_held r) (k_noff r) (k_procs r) (k_cur r) (k_initproc
    r) (k_nextpid r) (k_csr r) (k_disk r) (k_bufs r) (k_log r) (k_sb r) (k_itable r) (k_ftable
    r) (k_pipes r) (k_cons r) (k_uart r) (k_ticks r) (k_panicked r) (k_pr_locking r) (k_devsw
    r) (k_kernel_pagetable r) (k_first r) v (k_vdisk r) (k_mmio r) (k_timer_scratch r).
Definition set_k_vdisk (v : vdisk) (r : kernel) : kernel :=
  mkKernel (k_mem r) (k_freelist r) (k_held r) (k_noff r) (k_procs r) (k_cur r) (k_initproc
    r) (k_nextpid r) (k_csr r) (k_disk r) (k_bufs r) (k_log r) (k_sb r) (k_itable r) (k_ftable
    r) (k_pipes r) (k_cons r) (k_uart r) (k_ticks r) (k_panicked r) (k_pr_locking r) (k_devsw
    r) (k_kernel_pagetable r) (k_first r) (k_started r) v (k_mmio r) (k_timer_scratch r).
Definition set_k_mmio (v : list mmio_event) (r : kernel) : kernel :=
  mkKernel (k_mem r) (k_freelist r) (k_held r) (k_noff r) (k_procs r) (k_cur r) (k_initproc
    r) (k_nextpid r) (k_csr r) (k_disk r) (k_bufs r) (k_log r) (k_sb r) (k_itable r) (k_ftable
    r) (k_pipes r) (k_cons r) (k_uart r) (k_ticks r) (k_panicked r) (k_pr_locking r) (k_devsw
    r) (k_kernel_pagetable r) (k_first r) (k_started r) (k_vdisk r) v (k_timer_scratch r).
Definition set_k_timer_scratch (v : list (list Z)) (r : kernel) : kernel :=
  mkKernel (k_mem r) (k_freelist r) (k_held r) (k_noff r) (k_procs r) (k_cur r) (k_initproc
    r) (k_nextpid r) (k_csr r) (k_disk r) (k_bufs r) (k_log r) (k_sb r) (k_itable r) (k_ftable
    r) (k_pipes r) (k_cons r) (k_uart r) (k_ticks r) (k_panicked r) (k_pr_locking r) (k_devsw
    r) (k_kernel_pagetable r) (k_first r) (k_started r) (k_vdisk r) (k_mmio r) v.

(** Boot state: every global zero, no lock held, the initial static values. *)
Definition kernel0 : kernel :=
  mkKernel ∅ 0 [] 0 (replicate (Z.to_nat NPROC) proc0) None None 1 (fun _ => 0) ∅
    (replicate (S (Z.to_nat NBUF)) buf0) log0 superblock0
    (replicate (Z.to_nat NINODE) inode0) (replicate (Z.to_nat NFILE) file0) ∅
    console0 uart0 0 0 0 (replicate (Z.to_nat NDEV) DevNone) 0 1 0 vdisk0 []
    (replicate (Z.to_nat NCPU) (replicate 5 0)).

(** ** Worlds

    A kernel thread runs from a kernel state and a schedule: each time the
    thread gives the processor away, the next element of [wenv] is what the
    rest of the system does to the state before the thread runs again.  When
    the schedule is used up the thread is not resumed ([Swtch]). *)
Record world : Type := W { wk : kernel; wenv : list (kernel -> kernel) }.

Definition K (A : Type) : Type := M world A.

Definition kget {A} (f : kernel -> A) : K A := fun w => Ret (f (wk w)) w.
Definition kmod (f : kernel -> kernel) : K unit := fun w => Ret tt (W (f (wk w)) (wenv w)).

Arguments kget : simpl never.
Arguments kmod : simpl never.

(** [p->f] and [p->f = v] on a table: an index outside it is undefined. *)
Definition proc_get (i : nat) : K proc :=
  let* ps := kget k_procs in
  match ps !! i with Some p => ret p | None => fault "proc" end.
Definition proc_mod (i : nat) (f : proc -> proc) : K unit :=
  kmod (fun k => set_k_procs (alter f i (k_procs k)) k).
Definition buf_get (i : nat) : K buf :=
  let* bs := kget k_bufs in
  match bs !! i with Some b => ret b | None => fault "buf" end.
Definition buf_mod (i : nat) (f : buf -> buf) : K unit :=
  kmod (fun k => set_k_bufs (alter f i (k_bufs k)) k).
Definition inode_get (i : nat) : K inode :=
  let* l := kget k_itable in
  match l !! i with Some p => ret p | None => fault "inode" end.
Definition inode_mod (i : nat) (f : inode -> inode) : K unit :=
  kmod (fun k => set_k_itable (alter f i (k_itable k)) k).
Definition file_get (i : nat) : K file :=
  let* l := kget k_ftable in
  match l !! i with Some p => ret p | None => fault "file" end.
Definition file_mod (i : nat) (f : file -> file) : K unit :=
  kmod (fun k => set_k_ftable (alter f i (k_ftable k)) k).
Definition pipe_get (a : Z) : K pipe :=
  let* m := kget k_pipes in
  match m !! a with Some p => ret p | None => fault "pipe" end.
Definition pipe_mod (a : Z) (f : pipe -> pipe) : K unit :=
  kmod (fun k => set_k_pipes (alter f a (k_pipes k)) k).
Definition mem_mod (f : memory -> memory) : K unit :=
  kmod (fun k => set_k_mem (f (k_mem k)) k).
Definition uart_mod (f : uart -> uart) : K unit :=
  kmod (fun k => set_k_uart (f (k_uart k)) k).
Definition cons_mod (f : console -> console) : K unit :=
  kmod (fun k => set_k_cons (f (k_cons k)) k).
Definition log_mod (f : log -> log) : K unit :=
  kmod (fun k => set_k_log (f (k_log k)) k).

Definition vdisk_mod (f : vdisk -> vdisk) : K unit :=
  kmod (fun k => set_k_vdisk (f (k_vdisk k)) k).

(** Loads and stores of device registers.  What a load gives is up to the
    device, which has seen all accesses so far. *)
Class Mmio := mmio_value : list mmio_event -> Z -> Z.
Definition mmio_load `{Mmio} (a : Z) : K Z :=
  let* h := kget k_mmio in
  kmod (fun k => set_k_mmio (MLoad a :: k_mmio k) k) ;;;
  ret (mmio_value h a).
Definition mmio_store (a v : Z) : K unit :=
  kmod (fun k => set_k_mmio (MStore a v :: k_mmio k) k).

(** A 64-bit load and store at an address the kernel can use. *)
Definition load64 (a : Z) : K Z := kget (fun k => ld64 (k_mem k) a).
Definition store64 (a v : Z) : K unit := mem_mod (fun m => st64 m a v).

Lemma bind_kget {A B} (f : kernel -> A) (c : A -> K B) k e :
  bind (kget f) c (W k e) = c (f k) (W k e).
Proof. reflexivity. Qed.

Lemma bind_kmod {B} (f : kernel -> kernel) (c : unit -> K B) k e :
  bind (kmod f) c (W k e) = c tt (W (f k) e).
Proof. reflexivity. Qed.

(** A loop whose steps do the same whatever the rest of the schedule. *)
Lemma for_all_steady (I : Z -> kernel -> Prop) (body : Z -> K unit) n i k :
  I i k ->
  (forall j k', i <= j < i + Z.of_nat n -> I j k' -> exists k'', (forall e, body j (W k' e) = Ret tt (W k'' e)) /\ I (j + 1) k'') ->
  exists k', (forall e, for_all n i body (W k e) = Ret tt (W k' e)) /\ I (i + Z.of_nat n) k'.
Proof.
  revert i k. induction n as [|n IH]; intros i k HI Hb; [exists k; by rewrite Z.add_0_r|].
  destruct (Hb i k ltac:(lia) HI) as (k1 & E1 & I1).
  destruct (IH (i + 1) k1 I1) as (k2 & E2 & I2); [intros j k' Hj; apply Hb; lia|].
  exists k2. split; [|by replace (i + Z.of_nat (S n)) with (i + 1 + Z.of_nat n) by lia].
  intros e. rewrite <- (E2 e). unfold for_all. unfold bind at 1. rewrite for_from_S.
  rewrite bind_assoc, (bind_Ret _ _ _ _ _ (E1 e)), bind_ret_l. done.
Qed.

Lemma bind_when {B} b (m : K unit) (c : unit -> K B) w :
  bind (when b m) c w = if b then bind m c w else c tt w.
Proof. by destruct b. Qed.

(** The page replacement scheme the kernel is compiled with ([-DSCFIFO], ...). *)
Inductive selection : Set := SCFIFO | NFUA | LAPA | DEBUG | NONE.
Class Selection := SELECTION : selection.

#[export] Instance selection_eq_dec : EqDecision selection.
Proof. solve_decision. Defined.
