(* ===== verification/Klib.v ===== *)
(** * string.c: memory and string routines of the kernel

    [memset], [memmove] and [memcpy] act on byte memory, byte by byte as the
    loops do.  The string routines take the characters found from a pointer on
    as a list; reading past its end gives 0.  A routine that writes a string
    returns the bytes it stores, in order. *)

From Stdlib Require Import ZArith Lia.
From stdpp Require Import base gmap list strings numbers.
From S2P Require Import Prelude Riscv State.

(** ** Definitions *)

Fixpoint memset_loop (m : memory) (cdst c : Z) (n : nat) : memory :=
  match n with
  | O => m
  | S n' => memset_loop (<[cdst := u8 c]> m) (cdst + 1) c n'
  end.

Definition memset (m : memory) (dst c n : Z) : memory :=
  memset_loop m dst c (Z.to_nat (u32 n)).

Fixpoint memcmp_loop (n : nat) (s1 s2 : list Z) : Z :=
  match n with
  | O => 0
  | S n' =>
      let a := default 0 (head s1) in
      let b := default 0 (head s2) in
      if negb (a =? b) then a - b else memcmp_loop n' (tail s1) (tail s2)
  end.

Definition memcmp (v1 v2 : list Z) (n : Z) : Z := memcmp_loop (Z.to_nat (u32 n)) v1 v2.

(** [while(n-- > 0) *d++ = *s++] *)
Fixpoint copy_up (m : memory) (d s : Z) (n : nat) : memory :=
  match n with
  | O => m
  | S n' => copy_up (<[d := ld8 m s]> m) (d + 1) (s + 1) n'
  end.

(** [while(n-- > 0) *--d = *--s] *)
Fixpoint copy_down (m : memory) (d s : Z) (n : nat) : memory :=
  match n with
  | O => m
  | S n' => copy_down (<[d - 1 := ld8 m (s - 1)]> m) (d - 1) (s - 1) n'
  end.

Definition memmove (m : memory) (dst src n : Z) : memory :=
  let k := Z.to_nat (u32 n) in
  if (src <? dst) && (dst <? src + u32 n)
  then copy_down m (dst + u32 n) (src + u32 n) k
  else copy_up m dst src k.

Definition memcpy (m : memory) (dst src n : Z) : memory := memmove m dst src n.

Fixpoint strncmp_loop (n : nat) (p q : list Z) : Z :=
  match n with
  | O => 0
  | S n' =>
      let a := default 0 (head p) in
      let b := default 0 (head q) in
      if negb (a =? 0) && (a =? b) then strncmp_loop n' (tail p) (tail q)
      else u8 a - u8 b
  end.

Definition strncmp (p q : list Z) (n : Z) : Z := strncmp_loop (Z.to_nat (u32 n)) p q.

(** The [n] bytes [strncpy] stores. *)
Fixpoint strncpy_loop (n : nat) (t : list Z) : list Z :=
  match n with
  | O => []
  | S n' =>
      let c := default 0 (head t) in
      c :: (if c =? 0 then replicate n' 0 else strncpy_loop n' (tail t))
  end.

Definition strncpy (t : list Z) (n : Z) : list Z := strncpy_loop (Z.to_nat n) t.

(** The bytes [safestrcpy] stores; nothing when [n <= 0]. *)
Fixpoint safestrcpy_loop (n : nat) (t : list Z) : list Z :=
  match n with
  | O => [0]
  | S n' =>
      let c := default 0 (head t) in
      c :: (if c =? 0 then [0] else safestrcpy_loop n' (tail t))
  end.

Definition safestrcpy (t : list Z) (n : Z) : list Z :=
  if n <=? 0 then [] else safestrcpy_loop (Z.to_nat (n - 1)) t.

(** [strlen] of the characters [s]; the list ends where the object does. *)
Fixpoint strlen (s : list Z) : Z :=
  match s with
  | [] => 0
  | c :: s' => if c =? 0 then 0 else 1 + strlen s'
  end.

(** Storing the bytes [l] at the start of the array [a]. *)
Definition splice {A} (a : list A) (l : list A) : list A := l ++ drop (length l) a.

(** The characters of a C string: up to the first NUL. *)
Fixpoint c_string (s : list Z) : list Z :=
  match s with
  | [] => []
  | c :: s' => if c =? 0 then [] else c :: c_string s'
  end.

(** ** Lemmas *)

Lemma memset_loop_st_bytes m a c n : memset_loop m a c n = st_bytes m a (replicate n c).
Proof.
  revert m a. induction n as [|n IH]; intros m a; simpl; [done|]. by rewrite IH.
Qed.

Lemma memset_st_bytes m a c n :
  memset m a c n = st_bytes m a (replicate (Z.to_nat (u32 n)) c).
Proof. apply memset_loop_st_bytes. Qed.

Lemma ld8_memset m a c n x :
  0 <= n < 2 ^ 32 ->
  ld8 (memset m a c n) x = if decide (a <= x < a + n) then u8 c else ld8 m x.
Proof.
  intros Hn. rewrite memset_st_bytes, ld8_st_bytes, u32_small, length_replicate by done.
  rewrite Z2Nat.id by lia. case_decide; [|done].
  rewrite lookup_replicate_2 by lia. done.
Qed.

Lemma ld8_copy_up m d s n x :
  ~ (s < d < s + Z.of_nat n) ->
  ld8 (copy_up m d s n) x =
  if decide (d <= x < d + Z.of_nat n) then ld8 m (s + (x - d)) else ld8 m x.
Proof.
  revert m d s. induction n as [|n IH]; intros m d s Hov; simpl.
  - rewrite decide_False by lia. done.
  - rewrite IH by lia. destruct (decide (x = d)) as [->|Hne].
    + rewrite decide_False by lia. rewrite decide_True by lia.
      rewrite ld8_insert, decide_True by done. rewrite Z.sub_diag, Z.add_0_r.
      apply u8_small, ld8_range.
    + destruct (decide (d + 1 <= x < d + 1 + Z.of_nat n)).
      * rewrite decide_True by lia. rewrite ld8_insert, decide_False by lia. f_equal. lia.
      * rewrite decide_False by lia. by rewrite ld8_insert, decide_False by lia.
Qed.

Lemma ld8_copy_down m d s n x :
  s < d \/ d = s ->
  ld8 (copy_down m d s n) x =
  if decide (d - Z.of_nat n <= x < d) then ld8 m (s - (d - x)) else ld8 m x.
Proof.
  revert m d s. induction n as [|n IH]; intros m d s Hov; simpl.
  - rewrite decide_False by lia. done.
  - rewrite IH by lia. destruct (decide (x = d - 1)) as [->|Hne].
    + rewrite decide_False by lia. rewrite decide_True by lia.
      rewrite ld8_insert, decide_True by done. replace (s - (d - (d - 1))) with (s - 1) by lia.
      apply u8_small, ld8_range.
    + destruct (decide (d - 1 - Z.of_nat n <= x < d - 1)).
      * rewrite decide_True by lia. rewrite ld8_insert, decide_False by lia. f_equal. lia.
      * rewrite decide_False by lia. by rewrite ld8_insert, decide_False by lia.
Qed.

(** [memmove] copies as if through a temporary, whatever the overlap. *)
Lemma ld8_memmove m dst src n x :
  0 <= n < 2 ^ 32 ->
  ld8 (memmove m dst src n) x =
  if decide (dst <= x < dst + n) then ld8 m (src + (x - dst)) else ld8 m x.
Proof.
  intros Hn. unfold memmove. rewrite u32_small by done.
  destruct (Z.ltb_spec src dst); [destruct (Z.ltb_spec dst (src + n))|]; simpl.
  - rewrite ld8_copy_down, Z2Nat.id by lia.
    replace (dst + n - n) with dst by lia. case_decide; [|done]. f_equal. lia.
  - rewrite ld8_copy_up, Z2Nat.id by lia. done.
  - rewrite ld8_copy_up, Z2Nat.id by lia. done.
Qed.

Lemma ld_bytes_memmove m dst src n :
  0 <= n < 2 ^ 32 ->
  ld_bytes (memmove m dst src n) dst (Z.to_nat n) = ld_bytes m src (Z.to_nat n).
Proof.
  intros Hn. apply ld_bytes_ext. intros i Hi. rewrite ld8_memmove, decide_True by lia.
  f_equal. lia.
Qed.

Lemma length_strncpy_loop n t : length (strncpy_loop n t) = n.
Proof.
  revert t. induction n as [|n IH]; intros t; simpl; [done|].
  case_match; simpl; [by rewrite length_replicate|by rewrite IH].
Qed.

Lemma c_string_replicate n : c_string (replicate n 0) = [].
Proof. by destruct n. Qed.

(** The first [n] bytes of a padded copy hold the string, cut at [n]. *)
Lemma c_string_strncpy n t : c_string (strncpy_loop n t) = take n (c_string t).
Proof.
  revert t. induction n as [|n IH]; intros [|c t]; simpl; try done.
  destruct (Z.eqb_spec c 0) as [->|]; [done|]. simpl. by rewrite IH.
Qed.

Lemma strncmp_loop_eq n p q :
  Forall (fun c => 0 <= c < 256) p -> Forall (fun c => 0 <= c < 256) q ->
  strncmp_loop n p q = 0 <-> take n (c_string p) = take n (c_string q).
Proof.
  revert p q. induction n as [|n IH]; intros p q Hp Hq; simpl; [done|].
  destruct p as [|a p], q as [|b q]; simpl; [done| | |].
  - inversion Hq; subst. change (u8 0) with 0. rewrite u8_small by done.
    destruct (Z.eqb_spec b 0) as [->|]; [done|]. split; [lia|done].
  - inversion Hp; subst. change (u8 0) with 0.
    destruct (Z.eqb_spec a 0) as [->|]; simpl; [done|].
    rewrite u8_small by done. split; [lia|done].
  - inversion Hp; inversion Hq; subst.
    destruct (Z.eqb_spec a 0) as [->|Ha]; simpl.
    + change (u8 0) with 0. rewrite u8_small by done.
      destruct (Z.eqb_spec b 0) as [->|]; [done|]. split; [lia|done].
    + destruct (Z.eqb_spec a b) as [<-|Hab].
      * rewrite IH by done. rewrite ?(proj2 (Z.eqb_neq a 0) Ha). simpl.
        split; [by intros ->|by intros [=]].
      * rewrite !u8_small by done. split; [lia|].
        destruct (Z.eqb_spec b 0); simpl; [done|]. by intros [=].
Qed.

Lemma safestrcpy_loop_spec n t :
  c_string (safestrcpy_loop n t) = take n (c_string t) /\
  (length (safestrcpy_loop n t) <= S n)%nat /\
  list.last (safestrcpy_loop n t) = Some 0.
Proof.
  revert t. induction n as [|n IH]; intros t; simpl.
  - split_and!; [done|simpl; lia|done].
  - destruct t as [|c t]; simpl.
    + split_and!; [by destruct n|simpl; lia|done].
    + destruct (Z.eqb_spec c 0) as [->|]; simpl; [split_and!; [done|lia|done]|].
      destruct (IH t) as (H1 & H2 & H3). split_and!.
      * by rewrite H1.
      * lia.
      * rewrite last_cons, H3. done.
Qed.

Lemma strlen_c_string s : strlen s = Z.of_nat (length (c_string s)).
Proof.
  induction s as [|c s IH]; simpl; [done|]. destruct (Z.eqb_spec c 0); simpl; [done|].
  rewrite IH. lia.
Qed.

(** ** Fields of a block

    A disk block in memory is a list of bytes; the kernel reads and writes
    little-endian fields of it at byte offsets. *)

Definition get_bytes (d : list Z) (off : Z) (n : Z) : list Z :=
  take (Z.to_nat n) (drop (Z.to_nat off) d).
Definition put_bytes (d : list Z) (off : Z) (bs : list Z) : list Z :=
  take (Z.to_nat off) d ++ bs ++ drop (Z.to_nat off + length bs) d.

Definition get16 (d : list Z) (off : Z) : Z := le_val (get_bytes d off 2).
Definition get32 (d : list Z) (off : Z) : Z := le_val (get_bytes d off 4).
Definition put16 (d : list Z) (off v : Z) : list Z := put_bytes d off (le_bytes 2 v).
Definition put32 (d : list Z) (off v : Z) : list Z := put_bytes d off (le_bytes 4 v).

Lemma length_put_bytes d off bs :
  0 <= off -> off + Z.of_nat (length bs) <= Z.of_nat (length d) ->
  length (put_bytes d off bs) = length d.
Proof.
  intros H0 H. unfold put_bytes. rewrite !length_app, length_take, length_drop. lia.
Qed.

Lemma get_put_bytes_eq d off bs :
  0 <= off -> off + Z.of_nat (length bs) <= Z.of_nat (length d) ->
  get_bytes (put_bytes d off bs) off (Z.of_nat (length bs)) = bs.
Proof.
  intros H0 H. unfold get_bytes, put_bytes. rewrite Nat2Z.id.
  rewrite drop_app_length' by (rewrite length_take; lia).
  by rewrite take_app_length.
Qed.

Lemma get_bytes_lookup d off n i :
  0 <= off -> (i < Z.to_nat n)%nat -> get_bytes d off n !! i = d !! (Z.to_nat off + i)%nat.
Proof.
  intros H0 Hi. unfold get_bytes. rewrite lookup_take_lt by done. by rewrite lookup_drop.
Qed.

Lemma put_bytes_lookup d off bs j :
  0 <= off -> off + Z.of_nat (length bs) <= Z.of_nat (length d) ->
  put_bytes d off bs !! j =
  if decide (Z.to_nat off <= j < Z.to_nat off + length bs)%nat
  then bs !! (j - Z.to_nat off)%nat else d !! j.
Proof.
  intros H0 H. unfold put_bytes. case_decide as Hd.
  - rewrite lookup_app_r by (rewrite length_take; lia).
    rewrite length_take, Nat.min_l by lia. by rewrite lookup_app_l by lia.
  - destruct (decide (j < Z.to_nat off)%nat).
    + rewrite lookup_app_l by (rewrite length_take; lia). by rewrite lookup_take_lt.
    + rewrite lookup_app_r by (rewrite length_take; lia).
      rewrite length_take, Nat.min_l by lia. rewrite lookup_app_r by lia.
      rewrite lookup_drop. f_equal. lia.
Qed.

Lemma get_put_bytes_ne d off bs off' n :
  0 <= off -> off + Z.of_nat (length bs) <= Z.of_nat (length d) -> 0 <= off' -> 0 <= n ->
  off' + n <= off \/ off + Z.of_nat (length bs) <= off' ->
  get_bytes (put_bytes d off bs) off' n = get_bytes d off' n.
Proof.
  intros H0 H H0' Hn Hdis. unfold get_bytes. apply list_eq. intros i.
  destruct (decide (i < Z.to_nat n)%nat) as [Hi|Hi].
  - rewrite !lookup_take_lt, !lookup_drop by done. rewrite put_bytes_lookup by done.
    rewrite decide_False; [done|]. lia.
  - by rewrite !lookup_take_ge by lia.
Qed.

Lemma get_put16_eq d off v :
  0 <= off -> off + 2 <= Z.of_nat (length d) -> get16 (put16 d off v) off = u16 v.
Proof.
  intros. unfold get16, put16. pose proof (get_put_bytes_eq d off (le_bytes 2 v)) as H1.
  rewrite length_le_bytes in H1. change (Z.of_nat 2) with 2 in H1. rewrite H1 by lia. apply (le_val_bytes 2).
Qed.

Lemma get_put32_eq d off v :
  0 <= off -> off + 4 <= Z.of_nat (length d) -> get32 (put32 d off v) off = u32 v.
Proof.
  intros. unfold get32, put32. pose proof (get_put_bytes_eq d off (le_bytes 4 v)) as H1.
  rewrite length_le_bytes in H1. change (Z.of_nat 4) with 4 in H1. rewrite H1 by lia. apply (le_val_bytes 4).
Qed.

Lemma length_put32 d off v :
  0 <= off -> off + 4 <= Z.of_nat (length d) -> length (put32 d off v) = length d.
Proof. intros. apply length_put_bytes; [done|]. rewrite length_le_bytes. lia. Qed.

Lemma length_put16 d off v :
  0 <= off -> off + 2 <= Z.of_nat (length d) -> length (put16 d off v) = length d.
Proof. intros. apply length_put_bytes; [done|]. rewrite length_le_bytes. lia. Qed.

(** From here on the lemmas above stand for the loops. *)
#[global] Opaque memset memmove memcpy.
