(* ===== verification/Sched.v ===== *)
(** * Locks, sleeping and waking: the thread's view

    [acquire] and [release] as one kernel thread sees them: the lock joins or
    leaves the set the thread holds and [mycpu()->noff] goes up or down (file
    [Spinlock] models [spinlock.c] with all processors and proves that this is
    what it does).  On top of them the part of [proc.c] that every blocking
    routine uses -- [myproc], [sched], [sleep], [wakeup], [yield] -- and
    [sleeplock.c]. *)

From Stdlib Require Import ZArith Lia.
From stdpp Require Import base gmap list strings numbers.
From S2P Require Import Prelude Riscv State.

(** ** Spin locks *)

Definition push_off : K unit := kmod (fun k => set_k_noff (S (k_noff k)) k).

Definition pop_off : K unit :=
  let* n := kget k_noff in
  match n with
  | O => panic "pop_off"
  | S n' => kmod (set_k_noff n')
  end.

Definition holding (l : lockname) : K bool :=
  kget (fun k => bool_decide (l ∈ k_held k)).

Definition acquire (l : lockname) : K unit :=
  push_off ;;;
  let* h := holding l in
  if h then panic "acquire" else kmod (fun k => set_k_held (l :: k_held k) k).

Definition release (l : lockname) : K unit :=
  let* h := holding l in
  if negb h then panic "release" else
  kmod (fun k => set_k_held (filter (fun x => x <> l) (k_held k)) k) ;;;
  pop_off.

(** [initlock]: the lock is free (its name is only for debugging). *)
Definition initlock (l : lockname) : K unit :=
  kmod (fun k => set_k_held (filter (fun x => x <> l) (k_held k)) k).

(** ** The current process *)

Definition myproc : K (option nat) :=
  push_off ;;;
  let* p := kget k_cur in
  pop_off ;;;
  ret p.

(** [myproc()] where the source dereferences the result. *)
Definition this_proc : K nat :=
  let* p := myproc in
  match p with Some i => ret i | None => fault "myproc() == 0" end.

(** What [scheduler] has done when it comes back to a thread that called
    [sched]: it holds only that thread's [p->lock] and has made it the running
    process of this processor. *)
Definition resume (p : nat) (k : kernel) : kernel :=
  set_k_cur (Some p) (set_k_held [Lproc p] (set_k_noff 1
    (set_k_procs (alter (set_p_state RUNNING) p (k_procs k)) k))).

(** [swtch(&p->context, &mycpu()->context)]: the schedule says what the others
    do meanwhile. *)
Definition swtch_to_scheduler (p : nat) : K unit :=
  fun w =>
    match wenv w with
    | [] => Swtch w
    | f :: e => Ret tt (W (resume p (f (wk w))) e)
    end.

(** A thread with [noff] 1 runs with interrupts off (see [Spinlock]), so the
    source's test of [intr_get()] cannot fail here. *)
Definition sched : K unit :=
  let* p := this_proc in
  let* h := holding (Lproc p) in
  if negb h then panic "sched p->lock" else
  let* n := kget k_noff in
  if negb (Nat.eqb n 1) then panic "sched locks" else
  let* pr := proc_get p in
  if bool_decide (p_state pr = RUNNING) then panic "sched running" else
  swtch_to_scheduler p.

Definition yield : K unit :=
  let* p := this_proc in
  acquire (Lproc p) ;;;
  proc_mod p (set_p_state RUNNABLE) ;;;
  sched ;;;
  release (Lproc p).

Definition sleep (chan : channel) (lk : lockname) : K unit :=
  let* p := this_proc in
  acquire (Lproc p) ;;;
  release lk ;;;
  proc_mod p (set_p_chan chan) ;;;
  proc_mod p (set_p_state SLEEPING) ;;;
  sched ;;;
  proc_mod p (set_p_chan Cnull) ;;;
  release (Lproc p) ;;;
  acquire lk.

(** The body of [wakeup]'s loop. *)
Definition wakeup_one (chan : channel) (i : nat) : K unit :=
  let* me := myproc in
  if bool_decide (me = Some i) then ret tt else
  acquire (Lproc i) ;;;
  let* p := proc_get i in
  when (bool_decide (p_state p = SLEEPING) && bool_decide (p_chan p = chan))
    (proc_mod i (set_p_state RUNNABLE)) ;;;
  release (Lproc i).

Definition wakeup (chan : channel) : K unit :=
  for_all (Z.to_nat NPROC) 0 (fun i => wakeup_one chan (Z.to_nat i)).

(** ** sleeplock.c *)

Definition sl_get (s : slname) : K sleeplock :=
  match s with
  | SLbuf b => let* x := buf_get b in ret (b_lock x)
  | SLinode i => let* x := inode_get i in ret (i_lock x)
  end.

Definition sl_set (s : slname) (v : sleeplock) : K unit :=
  match s with
  | SLbuf b => buf_mod b (set_b_lock v)
  | SLinode i => inode_mod i (set_i_lock v)
  end.

Definition initsleeplock (s : slname) : K unit := sl_set s (mkSleeplock 0 0).

(** [while (lk->locked) sleep(lk, &lk->lk);] -- each turn of the loop uses up
    one element of the schedule, so that its length bounds them. *)
Definition sleeplock_wait (s : slname) : K unit :=
  fun w =>
    while_ (S (length (wenv w)))
      (fun _ : unit =>
         let* l := sl_get s in
         if truth (sl_locked l)
         then sleep (Csleep s) (Lsleep s) ;;; ret (inl tt)
         else ret (inr tt)) tt w.

Definition acquiresleep (s : slname) : K unit :=
  acquire (Lsleep s) ;;;
  sleeplock_wait s ;;;
  let* l := sl_get s in
  sl_set s (set_sl_locked 1 l) ;;;
  let* me := this_proc in
  let* p := proc_get me in
  let* l := sl_get s in
  sl_set s (set_sl_pid (p_pid p) l) ;;;
  release (Lsleep s).

Definition releasesleep (s : slname) : K unit :=
  acquire (Lsleep s) ;;;
  let* l := sl_get s in
  sl_set s (set_sl_locked 0 l) ;;;
  let* l := sl_get s in
  sl_set s (set_sl_pid 0 l) ;;;
  wakeup (Csleep s) ;;;
  release (Lsleep s).

Definition holdingsleep (s : slname) : K bool :=
  acquire (Lsleep s) ;;;
  let* l := sl_get s in
  let* me := this_proc in
  let* p := proc_get me in
  let r := truth (sl_locked l) && (sl_pid l =? p_pid p) in
  release (Lsleep s) ;;;
  ret r.

(** ** Lemmas *)

(** The state inside a critical section of [l] entered from [k]. *)
Definition lockk (l : lockname) (k : kernel) : kernel :=
  set_k_held (l :: k_held k) (set_k_noff (S (k_noff k)) k).

(** The state after [l] is released in [k]. *)
Definition unlockk (l : lockname) (k : kernel) : kernel :=
  set_k_noff (pred (k_noff k)) (set_k_held (filter (fun x => x <> l) (k_held k)) k).

Lemma filter_ne_notin (l : lockname) (h : list lockname) : l ∉ h -> filter (fun x => x <> l) h = h.
Proof.
  induction h as [|x h IH]; intros Hn; [done|]. rewrite filter_cons.
  apply not_elem_of_cons in Hn as [Hx Hh]. rewrite decide_True by done. by rewrite IH.
Qed.

Lemma filter_ne_cons (l : lockname) (h : list lockname) : l ∉ h -> filter (fun x => x <> l) (l :: h) = h.
Proof. intros. rewrite filter_cons, decide_False by tauto. by apply filter_ne_notin. Qed.

Lemma acquire_eq l k e :
  l ∉ k_held k -> acquire l (W k e) = Ret tt (W (lockk l k) e).
Proof.
  intros H. unfold acquire, push_off, holding, bind, kmod, kget. simpl.
  rewrite bool_decide_false by done. done.
Qed.

Lemma acquire_held l k e : l ∈ k_held k -> acquire l (W k e) = Panic "acquire".
Proof.
  intros H. unfold acquire, push_off, holding, bind, kmod, kget. simpl.
  by rewrite bool_decide_true.
Qed.

Lemma release_eq l k e :
  l ∈ k_held k -> k_noff k <> O -> release l (W k e) = Ret tt (W (unlockk l k) e).
Proof.
  intros H Hn. unfold release, pop_off, holding, bind, kmod, kget. simpl.
  rewrite bool_decide_true by done. simpl. unfold unlockk. by destruct (k_noff k).
Qed.

Lemma unlockk_lockk l k : l ∉ k_held k -> unlockk l (lockk l k) = k.
Proof.
  intros H. unfold unlockk, lockk. simpl. rewrite filter_ne_cons by done. by destruct k.
Qed.

(** Leaving the innermost critical section. *)
Lemma release_top l h n k e :
  k_held k = l :: h -> l ∉ h -> k_noff k = S n ->
  release l (W k e) = Ret tt (W (set_k_noff n (set_k_held h k)) e).
Proof.
  intros Hk Hn Ho. rewrite release_eq; [|rewrite Hk; set_solver|by rewrite Ho].
  unfold unlockk. by rewrite Hk, Ho, filter_ne_cons.
Qed.

Lemma myproc_eq k e : myproc (W k e) = Ret (k_cur k) (W k e).
Proof. unfold myproc, push_off, pop_off, bind, kmod, kget, ret. simpl. by destruct k. Qed.

Lemma this_proc_eq k e i : k_cur k = Some i -> this_proc (W k e) = Ret i (W k e).
Proof.
  intros H. unfold this_proc. rewrite (bind_Ret _ _ _ _ _ (myproc_eq k e)). by rewrite H.
Qed.

Lemma proc_get_eq k e i p :
  k_procs k !! i = Some p -> proc_get i (W k e) = Ret p (W k e).
Proof. intros H. unfold proc_get, bind, kget. simpl. by rewrite H. Qed.

(** Entering and leaving a critical section in the middle of a routine, and at
    its end. *)
Ltac k_acquire :=
  erewrite (bind_Ret (acquire _)); [|apply acquire_eq; simpl; eassumption].
Ltac k_release :=
  first
    [ erewrite (bind_Ret (release _));
      [|eapply release_top; [simpl; reflexivity|eassumption|simpl; reflexivity]]
    | erewrite release_top; [|simpl; reflexivity|eassumption|simpl; reflexivity] ].
(** One primitive step at the head of a routine. *)
Ltac k_step :=
  unfold load64, store64, mem_mod, proc_mod, buf_mod, inode_mod, file_mod,
    pipe_mod, log_mod, uart_mod, cons_mod;
  first [rewrite bind_kget | rewrite bind_kmod | rewrite bind_ret_l | rewrite bind_when
        | rewrite bind_assoc];
  simpl.

(** What a [wakeup] on [chan] makes of one process. *)
Definition wake_proc (chan : channel) (me : option nat) (i : nat) (p : proc) : proc :=
  if bool_decide (me = Some i) then p
  else if bool_decide (p_state p = SLEEPING) && bool_decide (p_chan p = chan)
       then set_p_state RUNNABLE p else p.

Definition wake (chan : channel) (me : option nat) (ps : list proc) : list proc :=
  imap (wake_proc chan me) ps.

Lemma wakeup_one_eq chan i k e p :
  k_procs k !! i = Some p ->
  (k_cur k <> Some i -> Lproc i ∉ k_held k) ->
  wakeup_one chan i (W k e) =
  Ret tt (W (set_k_procs (<[i := wake_proc chan (k_cur k) i p]> (k_procs k)) k) e).
Proof.
  intros Hp Hh. unfold wakeup_one. rewrite (bind_Ret _ _ _ _ _ (myproc_eq k e)).
  unfold wake_proc. destruct (bool_decide_reflect (k_cur k = Some i)) as [Hc|Hc].
  - unfold ret. rewrite list_insert_id by done. by destruct k.
  - specialize (Hh Hc). rewrite (bind_Ret _ _ _ _ _ (acquire_eq _ _ _ Hh)).
    rewrite (bind_Ret (proc_get i) _ _ p (W (lockk (Lproc i) k) e)) by (by apply proc_get_eq).
    destruct (bool_decide (p_state p = SLEEPING) && bool_decide (p_chan p = chan)); simpl.
    + unfold bind, proc_mod, kmod. simpl. rewrite release_eq by (simpl; done || set_solver).
      do 2 f_equal. unfold unlockk, lockk. simpl. rewrite filter_ne_cons by done.
      rewrite (list_alter_lookup _ _ _ p) by done. by destruct k.
    + unfold bind, ret. simpl. rewrite release_eq by (simpl; done || set_solver).
      rewrite unlockk_lockk by done. rewrite list_insert_id by done. by destruct k.
Qed.

(** [wakeup] makes runnable exactly the processes asleep on [chan], the caller
    excepted, and changes nothing else. *)
Lemma wakeup_eq chan k e :
  length (k_procs k) = Z.to_nat NPROC ->
  (forall i, k_cur k <> Some i -> Lproc i ∉ k_held k) ->
  wakeup chan (W k e) = Ret tt (W (set_k_procs (wake chan (k_cur k) (k_procs k)) k) e).
Proof.
  intros Hlen Hh.
  destruct (for_all_runs
    (fun j w => w = W (set_k_procs
       (imap_upto (wake_proc chan (k_cur k)) (Z.to_nat j) (k_procs k)) k) e)
    (fun i => wakeup_one chan (Z.to_nat i)) (Z.to_nat NPROC) 0 (W k e))
    as (u & w' & Hrun & Hw').
  - rewrite imap_upto_0. by destruct k.
  - intros j w Hj ->. destruct (lookup_lt_is_Some_2 (k_procs k) (Z.to_nat j)) as [p Hp]; [lia|].
    eapply runs_eq; [apply wakeup_one_eq with (p := p)|]; simpl.
    + by rewrite imap_upto_lookup_ge.
    + apply Hh.
    + replace (Z.to_nat (j + 1)) with (S (Z.to_nat j)) by lia.
      rewrite (imap_upto_S _ _ _ p) by done. by destruct k.
  - unfold wakeup. rewrite Hrun. destruct u. simpl in Hw'. rewrite Hw'.
    rewrite imap_upto_all by lia. done.
Qed.

(** *** Sleep locks *)

Definition sl_look (k : kernel) (s : slname) : option sleeplock :=
  match s with
  | SLbuf b => b_lock <$> k_bufs k !! b
  | SLinode i => i_lock <$> k_itable k !! i
  end.

Definition sl_put (s : slname) (v : sleeplock) (k : kernel) : kernel :=
  match s with
  | SLbuf b => set_k_bufs (alter (set_b_lock v) b (k_bufs k)) k
  | SLinode i => set_k_itable (alter (set_i_lock v) i (k_itable k)) k
  end.

Lemma sl_get_eq s k e l : sl_look k s = Some l -> sl_get s (W k e) = Ret l (W k e).
Proof.
  unfold sl_get, buf_get, inode_get. destruct s as [b|i]; simpl; intros H;
    apply fmap_Some in H as (x & Hx & ->); rewrite !bind_assoc, bind_kget, Hx; done.
Qed.

Lemma sl_set_eq s v k e : sl_set s v (W k e) = Ret tt (W (sl_put s v k) e).
Proof. by destruct s. Qed.

Lemma sl_look_put s v k l : sl_look k s = Some l -> sl_look (sl_put s v k) s = Some v.
Proof.
  destruct s as [b|i]; simpl; intros H; apply fmap_Some in H as (x & Hx & ->);
    rewrite list_lookup_alter_eq, Hx; done.
Qed.

Lemma sl_put_put s u v k : sl_put s u (sl_put s v k) = sl_put s u k.
Proof. destruct s; unfold sl_put, set_k_bufs, set_k_itable; simpl; by rewrite list_alter_alter_eq. Qed.

(** Taking a sleep lock that is free does not sleep. *)
Lemma acquiresleep_free s k e l p pr :
  sl_look k s = Some l -> sl_locked l = 0 -> Lsleep s ∉ k_held k ->
  k_cur k = Some p -> k_procs k !! p = Some pr ->
  acquiresleep s (W k e) = Ret tt (W (sl_put s (mkSleeplock 1 (p_pid pr)) k) e).
Proof.
  intros Hl H0 Hh Hc Hp. unfold acquiresleep. rewrite (bind_Ret _ _ _ _ _ (acquire_eq _ _ _ Hh)).
  set (k1 := lockk (Lsleep s) k).
  assert (sl_look k1 s = Some l) as Hl1 by (by destruct s).
  assert (sleeplock_wait s (W k1 e) = Ret tt (W k1 e)) as Hw.
  { unfold sleeplock_wait. simpl wenv. rewrite while_S, bind_assoc, (bind_Ret _ _ _ _ _ (sl_get_eq _ _ _ _ Hl1)).
    unfold truth. rewrite H0. done. }
  rewrite (bind_Ret _ _ _ _ _ Hw), (bind_Ret _ _ _ _ _ (sl_get_eq _ _ _ _ Hl1)).
  rewrite (bind_Ret _ _ _ _ _ (sl_set_eq _ _ _ _)).
  set (k2 := sl_put s (set_sl_locked 1 l) k1).
  assert (k_cur k2 = Some p) as Hc2 by (by destruct s).
  assert (k_procs k2 !! p = Some pr) as Hp2 by (by destruct s).
  rewrite (bind_Ret _ _ _ _ _ (this_proc_eq _ _ _ Hc2)), (bind_Ret _ _ _ _ _ (proc_get_eq _ _ _ _ Hp2)).
  unfold k2. rewrite (bind_Ret _ _ _ _ _ (sl_get_eq _ _ _ _ (sl_look_put _ _ _ _ Hl1))).
  rewrite (bind_Ret _ _ _ _ _ (sl_set_eq _ _ _ _)), sl_put_put.
  erewrite release_top with (h := k_held k) (n := k_noff k); [|by destruct s|done|by destruct s].
  do 2 f_equal. unfold k1, lockk. destruct s, k; reflexivity.
Qed.

Lemma releasesleep_eq s k e l :
  sl_look k s = Some l -> Lsleep s ∉ k_held k ->
  length (k_procs k) = Z.to_nat NPROC -> (forall i, Lproc i ∉ k_held k) ->
  releasesleep s (W k e) =
  Ret tt (W (set_k_procs (wake (Csleep s) (k_cur k) (k_procs k)) (sl_put s (mkSleeplock 0 0) k)) e).
Proof.
  intros Hl Hh Hlen Hp. unfold releasesleep. rewrite (bind_Ret _ _ _ _ _ (acquire_eq _ _ _ Hh)).
  set (k1 := lockk (Lsleep s) k).
  assert (sl_look k1 s = Some l) as Hl1 by (by destruct s).
  rewrite (bind_Ret _ _ _ _ _ (sl_get_eq _ _ _ _ Hl1)), (bind_Ret _ _ _ _ _ (sl_set_eq _ _ _ _)).
  rewrite (bind_Ret _ _ _ _ _ (sl_get_eq _ _ _ _ (sl_look_put _ _ _ _ Hl1))).
  rewrite (bind_Ret _ _ _ _ _ (sl_set_eq _ _ _ _)), sl_put_put.
  rewrite (bind_Ret _ _ _ _ _ (wakeup_eq (Csleep s) (sl_put s (mkSleeplock 0 0) k1) e ltac:(by destruct s)
    ltac:(intros i _; destruct s; (apply not_elem_of_cons; split; [done|apply Hp])))).
  erewrite release_top with (h := k_held k) (n := k_noff k); [|by destruct s|done|by destruct s].
  do 2 f_equal. unfold k1, lockk. destruct s, k; reflexivity.
Qed.

Lemma holdingsleep_eq s k e l p pr :
  sl_look k s = Some l -> Lsleep s ∉ k_held k ->
  k_cur k = Some p -> k_procs k !! p = Some pr ->
  holdingsleep s (W k e) = Ret (truth (sl_locked l) && (sl_pid l =? p_pid pr)) (W k e).
Proof.
  intros Hl Hh Hc Hp. unfold holdingsleep. rewrite (bind_Ret _ _ _ _ _ (acquire_eq _ _ _ Hh)).
  set (k1 := lockk (Lsleep s) k).
  assert (sl_look k1 s = Some l) as Hl1 by (by destruct s).
  rewrite (bind_Ret _ _ _ _ _ (sl_get_eq _ _ _ _ Hl1)).
  rewrite (bind_Ret _ _ _ _ _ (this_proc_eq k1 _ _ Hc)), (bind_Ret _ _ _ _ _ (proc_get_eq k1 _ _ _ Hp)).
  erewrite (bind_Ret (release _)).
  2:{ apply release_top with (h := k_held k) (n := k_noff k); done. }
  unfold ret. do 2 f_equal. by destruct k.
Qed.

(** [wake] keeps the caller and the number of processes. *)
Lemma wake_length chan me ps : length (wake chan me ps) = length ps.
Proof. apply length_imap. Qed.

Lemma wake_self chan i ps : wake chan (Some i) ps !! i = ps !! i.
Proof.
  unfold wake. rewrite list_lookup_imap. destruct (ps !! i); simpl; [|done].
  unfold wake_proc. by rewrite bool_decide_true.
Qed.

(** What wakeups make of a process: a sleeper may become runnable. *)
Definition roused (pr pr' : proc) : Prop :=
  pr' = pr \/ p_state pr = SLEEPING /\ pr' = set_p_state RUNNABLE pr.
Definition woken (ps ps' : list proc) : Prop := Forall2 roused ps ps'.

#[export] Instance woken_refl : Reflexive woken.
Proof. intros ps. apply Forall_Forall2_diag, list.Forall_forall. intros pr _. by left. Qed.

#[export] Instance woken_trans : Transitive woken.
Proof.
  intros ps1 ps2 ps3 H12 H23. apply Forall2_same_length_lookup. split.
  { by rewrite (Forall2_length H12), (Forall2_length H23). }
  intros i x z Hx Hz. destruct (list.Forall2_lookup_l _ _ _ _ _ H12 Hx) as (y & Hy & Hxy).
  pose proof (list.Forall2_lookup_lr _ _ _ _ _ _ H23 Hy Hz) as Hyz.
  destruct Hxy as [->|[Hs ->]], Hyz as [->|[Hs' ->]]; try (by left); try (by right); done.
Qed.

Lemma woken_wake chan me ps : woken ps (wake chan me ps).
Proof.
  apply Forall2_same_length_lookup. rewrite wake_length. split; [done|]. intros i x y Hx.
  unfold wake. rewrite list_lookup_imap, Hx. intros [= <-]. unfold wake_proc, roused.
  repeat case_bool_decide; simpl; auto.
Qed.

(** *** Sleeping *)

(** Process [p] asleep on [chan], holding only its own lock, as the others see it. *)
Definition asleep (p : nat) (chan : channel) (k : kernel) : kernel :=
  set_k_held [Lproc p] (set_k_noff 1
    (set_k_procs (alter (set_p_state SLEEPING ∘ set_p_chan chan) p (k_procs k)) k)).

(** [p] back from its sleep in [k], with [lk] taken again. *)
Definition awake (p : nat) (lk : lockname) (k : kernel) : kernel :=
  set_k_cur (Some p) (set_k_held [lk] (set_k_noff 1
    (set_k_procs (alter (set_p_chan Cnull ∘ set_p_state RUNNING) p (k_procs k)) k))).

(** A sleep gives up the lock for one turn of the schedule; with none left the
    process stays asleep. *)
Lemma sleep_eq chan lk k p pr e :
  k_cur k = Some p -> k_procs k !! p = Some pr -> k_held k = [lk] -> k_noff k = 1%nat ->
  lk <> Lproc p ->
  sleep chan lk (W k e) =
  match e with
  | [] => Swtch (W (asleep p chan k) [])
  | f :: e' => Ret tt (W (awake p lk (f (asleep p chan k))) e')
  end.
Proof.
  intros Hc Hp Hh Hn Hne. unfold sleep.
  rewrite (bind_Ret _ _ _ _ _ (this_proc_eq k e p Hc)).
  rewrite (bind_Ret _ _ _ _ _ (acquire_eq (Lproc p) k e ltac:(rewrite Hh; set_solver))).
  set (k1 := set_k_held [Lproc p] (set_k_noff 1 k)).
  rewrite (bind_Ret (release lk) _ _ tt (W k1 e)).
  2:{ rewrite release_eq by (simpl; rewrite ?Hh; done || set_solver). do 2 f_equal.
      unfold unlockk, lockk, k1. simpl. rewrite Hh, Hn.
      rewrite list.filter_cons_True, list.filter_cons_False by (try apply not_eq_sym; tauto). by destruct k. }
  unfold proc_mod at 1 2. rewrite !bind_kmod. simpl. rewrite list_alter_alter_eq.
  assert (set_k_procs (alter (set_p_state SLEEPING ∘ set_p_chan chan) p (k_procs k))
    (set_k_procs (alter (set_p_chan chan) p (k_procs k)) k1) = asleep p chan k) as -> by done.
  assert (sched (W (asleep p chan k) e) = swtch_to_scheduler p (W (asleep p chan k) e)) as Hs.
  { unfold sched. rewrite (bind_Ret _ _ _ _ _ (this_proc_eq (asleep p chan k) e p Hc)).
    unfold holding. rewrite !bind_kget. simpl.
    rewrite bool_decide_true by set_solver. simpl. rewrite bind_kget. simpl.
    erewrite (bind_Ret (proc_get p)); [|apply proc_get_eq; simpl; by rewrite list_lookup_alter_eq, Hp].
    done. }
  destruct e as [|f e']; unfold bind at 1; rewrite Hs; [done|]. simpl. set (k2 := f (asleep p chan k)).
  unfold proc_mod. rewrite bind_kmod. simpl.
  erewrite (bind_Ret (release _)); [|eapply (release_top (Lproc p) [] 0); [done|set_solver|done]].
  rewrite acquire_eq by (simpl; set_solver). simpl. rewrite list_alter_alter_eq. done.
Qed.

(** *** Routines that may block *)

(** [m] returns from [w] in [Q], or is still asleep in [B] when the schedule ends. *)
Definition wps {A} (m : K A) (w : world) (Q : A -> world -> Prop) (B : world -> Prop) : Prop :=
  match m w with Ret a w' => Q a w' | Swtch w' => B w' | _ => False end.

Lemma wps_bind {A B} (m : K A) (f : A -> K B) w Q R X :
  wps m w Q X -> (forall a w', Q a w' -> wps (f a) w' R X) -> wps (bind m f) w R X.
Proof. unfold wps, bind. intros Hm Hf. destruct (m w); try done. by apply Hf. Qed.

Lemma wps_step {A B} (m : K A) (f : A -> K B) w a w' R X :
  m w = Ret a w' -> wps (f a) w' R X -> wps (bind m f) w R X.
Proof. intros Hm. unfold wps. by rewrite (bind_Ret _ _ _ _ _ Hm). Qed.

Lemma wps_ret {A} (a : A) w (Q : A -> world -> Prop) X : Q a w -> wps (ret a) w Q X.
Proof. done. Qed.

Lemma wps_mono {A} (m : K A) w (Q Q' : A -> world -> Prop) (X X' : world -> Prop) :
  wps m w Q X -> (forall a w', Q a w' -> Q' a w') -> (forall w', X w' -> X' w') -> wps m w Q' X'.
Proof. unfold wps. intros H HQ HX. destruct (m w); auto. Qed.

Lemma wps_runs {A} (m : K A) w Q X : runs m w Q -> wps m w Q X.
Proof. intros (a & w' & E & H). unfold wps. by rewrite E. Qed.

(** A loop whose turns have bounded number: each one returns a value or goes
    on with a smaller measure. *)
Lemma wps_while {S R} (I : S -> world -> Prop) (size : S -> world -> nat) (Q : R -> world -> Prop) X
    (body : S -> K (S + R)) fuel a w :
  I a w -> (size a w < fuel)%nat ->
  (forall a w, I a w -> wps (body a) w
     (fun r w' => match r with inl a' => I a' w' /\ (size a' w' < size a w)%nat | inr v => Q v w' end) X) ->
  wps (while_ fuel body a) w Q X.
Proof.
  revert a w. induction fuel as [|fuel IH]; intros a w HI Hf Hb; [lia|].
  unfold wps. rewrite while_S. fold (wps (bind (body a)
    (fun r => match r with inl a' => while_ fuel body a' | inr v => ret v end)) w Q X).
  eapply wps_bind; [by apply Hb|]. intros [a'|v] w' H; simpl in H; [|by apply wps_ret].
  destruct H as [H1 H2]. apply IH; [done|lia|done].
Qed.
