(* ===== verification/Spinlock.v ===== *)
(** * spinlock.c on all processors

    Each processor runs the lock routines one memory access at a time, and the
    steps of different processors interleave in any order.  A processor's
    [noff], [intena] and interrupt enable bit are its own, so [push_off] and
    [pop_off] are one step.  [c_crit] is a ghost: the locks for which the
    processor has returned from [acquire] and has not yet given up the lock
    word in [release].

    The theorems: two processors are never in the critical section of one
    lock, and what a processor sees of its own calls is what [Sched.acquire]
    and [Sched.release] say, whatever the others do. *)

From Stdlib Require Import ZArith Lia.
From stdpp Require Import base gmap list strings numbers relations.
From S2P Require Import Prelude Riscv State Sched.

(** ** Definitions *)

(** [struct spinlock]; [cpu] is a processor's number. *)
Record spinlock : Set := SpinLock { lk_locked : Z; lk_cpu : option nat }.

(** Where a processor is in the routine it called. *)
Inductive pc : Set :=
| Idle
| AcqPush (l : lockname)
| AcqLocked (l : lockname)
| AcqCpu (l : lockname)
| AcqSwap (l : lockname)
| AcqSet (l : lockname)
| RelLocked (l : lockname)
| RelCpu (l : lockname)
| RelClear (l : lockname)
| RelUnlock (l : lockname)
| RelPop (l : lockname)
| PushOff
| PopOff
| Panicked (msg : string).

Record cpu : Set := Cpu {
  c_noff : nat; c_intena : bool; c_sie : bool; c_pc : pc; c_crit : list lockname
}.

Record mstate : Type := MState { s_lock : lockname -> spinlock; s_cpu : nat -> cpu }.

Definition set_lock (l : lockname) (x : spinlock) (s : mstate) : mstate :=
  MState (fun l' => if decide (l' = l) then x else s_lock s l') (s_cpu s).
Definition set_cpu (c : nat) (x : cpu) (s : mstate) : mstate :=
  MState (s_lock s) (fun c' => if decide (c' = c) then x else s_cpu s c').

Definition at_pc (p : pc) (x : cpu) : cpu := Cpu (c_noff x) (c_intena x) (c_sie x) p (c_crit x).
Definition with_crit (h : list lockname) (x : cpu) : cpu := Cpu (c_noff x) (c_intena x) (c_sie x) (c_pc x) h.

Definition lk_init : spinlock := SpinLock 0 None.

Definition cpu_push_off (x : cpu) : cpu :=
  let old := c_sie x in
  Cpu (S (c_noff x)) (if Nat.eqb (c_noff x) 0 then old else c_intena x) false (c_pc x) (c_crit x).

Definition cpu_pop_off (x : cpu) : string + cpu :=
  if c_sie x then inl "pop_off - interruptible" else
  match c_noff x with
  | O => inl "pop_off"
  | S n => inr (Cpu n (c_intena x) (Nat.eqb n 0 && c_intena x) (c_pc x) (c_crit x))
  end.

(** The next step of processor [c] inside a routine. *)
Definition step_cpu (c : nat) (s : mstate) : mstate :=
  let x := s_cpu s c in
  let go p := set_cpu c (at_pc p x) s in
  match c_pc x with
  | Idle | Panicked _ => s
  | AcqPush l => set_cpu c (at_pc (AcqLocked l) (cpu_push_off x)) s
  | AcqLocked l => if lk_locked (s_lock s l) =? 0 then go (AcqSwap l) else go (AcqCpu l)
  | AcqCpu l => if bool_decide (lk_cpu (s_lock s l) = Some c) then go (Panicked "acquire") else go (AcqSwap l)
  | AcqSwap l =>
      let old := lk_locked (s_lock s l) in
      set_lock l (SpinLock 1 (lk_cpu (s_lock s l))) (go (if old =? 0 then AcqSet l else AcqSwap l))
  | AcqSet l =>
      set_lock l (SpinLock (lk_locked (s_lock s l)) (Some c))
        (set_cpu c (at_pc Idle (with_crit (l :: c_crit x) x)) s)
  | RelLocked l => if lk_locked (s_lock s l) =? 0 then go (Panicked "release") else go (RelCpu l)
  | RelCpu l => if bool_decide (lk_cpu (s_lock s l) = Some c) then go (RelClear l) else go (Panicked "release")
  | RelClear l => set_lock l (SpinLock (lk_locked (s_lock s l)) None) (go (RelUnlock l))
  | RelUnlock l =>
      set_lock l (SpinLock 0 (lk_cpu (s_lock s l)))
        (set_cpu c (at_pc (RelPop l) (with_crit (filter (fun l' => l' <> l) (c_crit x)) x)) s)
  | PushOff => set_cpu c (at_pc Idle (cpu_push_off x)) s
  | RelPop _ | PopOff =>
      match cpu_pop_off x with
      | inl msg => go (Panicked msg)
      | inr x' => set_cpu c (at_pc Idle x') s
      end
  end.

(** A processor between calls may call a routine, or switch its interrupts
    when no [push_off] is in force. *)
Inductive mstep : mstate -> mstate -> Prop :=
| step_call c p s :
    c_pc (s_cpu s c) = Idle ->
    (match p with AcqPush _ | RelLocked _ | PushOff | PopOff => True | _ => False end) ->
    mstep s (set_cpu c (at_pc p (s_cpu s c)) s)
| step_intr c b s :
    c_pc (s_cpu s c) = Idle -> c_noff (s_cpu s c) = 0%nat ->
    mstep s (set_cpu c (Cpu 0 (c_intena (s_cpu s c)) b Idle (c_crit (s_cpu s c))) s)
| step_run c s : mstep s (step_cpu c s).

(** All locks initialised, no processor in a routine or holding a lock. *)
Definition booted (s : mstate) : Prop :=
  (forall l, s_lock s l = lk_init) /\
  forall c, c_pc (s_cpu s c) = Idle /\ c_crit (s_cpu s c) = [] /\ c_noff (s_cpu s c) = 0%nat.

Definition reachable (s : mstate) : Prop := exists s0, booted s0 /\ rtc mstep s0 s.

(** ** The invariant *)

(** Between the swap that found the lock free and the one that frees it. *)
Definition owns (x : cpu) (l : lockname) : Prop := l ∈ c_crit x \/ c_pc x = AcqSet l.

Record lock_inv (s : mstate) (l : lockname) : Prop := {
  li_free : lk_locked (s_lock s l) = 0 -> forall c, ~ owns (s_cpu s c) l;
  li_one : forall c c', owns (s_cpu s c) l -> owns (s_cpu s c') l -> c = c';
  li_cpu : forall c, lk_cpu (s_lock s l) = Some c ->
    l ∈ c_crit (s_cpu s c) /\ c_pc (s_cpu s c) <> RelUnlock l;
  li_crit : forall c, l ∈ c_crit (s_cpu s c) -> c_pc (s_cpu s c) <> RelUnlock l -> lk_cpu (s_lock s l) = Some c;
}.

(** What a processor's position says about its own state. *)
Definition cpu_inv (x : cpu) : Prop :=
  ((0 < c_noff x)%nat -> c_sie x = false) /\ NoDup (c_crit x) /\
  match c_pc x with
  | AcqSwap l | AcqSet l => l ∉ c_crit x
  | RelClear l | RelUnlock l => l ∈ c_crit x
  | _ => True
  end.

Definition spin_inv (s : mstate) : Prop := (forall l, lock_inv s l) /\ forall c, cpu_inv (s_cpu s c).

(** ** Lemmas *)

Lemma set_cpu_eq c x s : s_cpu (set_cpu c x s) c = x.
Proof. simpl. by rewrite decide_True. Qed.
Lemma set_cpu_ne c c' x s : c' <> c -> s_cpu (set_cpu c x s) c' = s_cpu s c'.
Proof. intros. simpl. by rewrite decide_False. Qed.

(** A step of processor [c] to [x] that neither touches lock [l] nor changes
    how the processor stands to it. *)
Definition same_for (l : lockname) (x x' : cpu) : Prop :=
  (l ∈ c_crit x' <-> l ∈ c_crit x) /\ (c_pc x' = AcqSet l <-> c_pc x = AcqSet l) /\
  (c_pc x' = RelUnlock l <-> c_pc x = RelUnlock l).

Lemma lock_inv_same s s' l :
  lk_cpu (s_lock s' l) = lk_cpu (s_lock s l) -> (lk_locked (s_lock s' l) = 0 -> lk_locked (s_lock s l) = 0) ->
  (forall c, same_for l (s_cpu s c) (s_cpu s' c)) -> lock_inv s l -> lock_inv s' l.
Proof.
  intros Hl Hz Hc [H1 H2 H3 H4]. split; rewrite ?Hl.
  - intros H0 c Ho. apply (H1 (Hz H0) c). destruct (Hc c) as (A & B & _). unfold owns in *. tauto.
  - intros c c' Ho Ho'. apply H2; [destruct (Hc c) as (A & B & _)|destruct (Hc c') as (A & B & _)]; unfold owns in *; tauto.
  - intros c H. destruct (Hc c) as (A & _ & B), (H3 c H) as [H5 H6]. tauto.
  - intros c H H'. destruct (Hc c) as (A & _ & B). apply H4; tauto.
Qed.

Lemma same_for_refl l x : same_for l x x.
Proof. unfold same_for. tauto. Qed.

(** The steps that only move the program counter between places outside the
    four critical ones. *)
Definition plain (p : pc) : Prop := match p with AcqSet _ | RelUnlock _ => False | _ => True end.

Lemma same_for_plain l x x' :
  c_crit x' = c_crit x -> plain (c_pc x) -> plain (c_pc x') -> same_for l x x'.
Proof.
  intros Hh Hp Hp'. unfold same_for. rewrite Hh. split; [done|].
  split; split; intros E; rewrite E in *; done.
Qed.

Lemma inv_cpu s c x :
  spin_inv s -> (forall l, same_for l (s_cpu s c) x) -> cpu_inv x -> spin_inv (set_cpu c x s).
Proof.
  intros [Hl Hc] Hs Hx. split.
  - intros l. apply (lock_inv_same s); [done..| |done]. intros c'. simpl.
    destruct (decide (c' = c)) as [->|]; [done|apply same_for_refl].
  - intros c'. simpl. by destruct (decide (c' = c)) as [->|].
Qed.

(** A step that also changes lock [l0]: the other locks see nothing of it. *)
Lemma inv_lock s c x l0 y :
  spin_inv s -> (forall l, l <> l0 -> same_for l (s_cpu s c) x) -> cpu_inv x ->
  lock_inv (set_lock l0 y (set_cpu c x s)) l0 -> spin_inv (set_lock l0 y (set_cpu c x s)).
Proof.
  intros [Hl Hc] Hs Hx H0. split.
  - intros l. destruct (decide (l = l0)) as [->|Hne]; [done|].
    apply (lock_inv_same s); [simpl; by rewrite decide_False..| |done]. intros c'. simpl.
    destruct (decide (c' = c)) as [->|]; [by apply Hs|apply same_for_refl].
  - intros c'. simpl. by destruct (decide (c' = c)) as [->|].
Qed.

Lemma cpu_push_off_inv p x :
  cpu_inv x -> match p with AcqLocked _ | Idle => True | _ => False end -> cpu_inv (at_pc p (cpu_push_off x)).
Proof. intros (_ & Hn & _) Hp. split; [done|]. split; [done|]. by destruct p. Qed.

Lemma cpu_pop_off_inv x x' : cpu_inv x -> cpu_pop_off x = inr x' -> cpu_inv (at_pc Idle x') /\ c_crit x' = c_crit x.
Proof.
  intros (Hs & Hn & _) H. unfold cpu_pop_off in H. destruct (c_sie x); [done|].
  destruct (c_noff x) as [|n]; [done|]. injection H as <-. split; [|done].
  split; [|split; [done|done]]. simpl. intros H. by destruct n; [lia|].
Qed.

Lemma cpu_inv_pc p x :
  cpu_inv x ->
  match p with
  | AcqSwap l | AcqSet l => l ∉ c_crit x
  | RelClear l | RelUnlock l => l ∈ c_crit x
  | _ => True
  end -> cpu_inv (at_pc p x).
Proof. intros (H1 & H2 & _) Hp. by split_and!. Qed.

(** Facts about a processor and a lock from the invariant. *)
Lemma inv_not_crit s c l : spin_inv s -> lk_locked (s_lock s l) = 0 -> l ∉ c_crit (s_cpu s c).
Proof. intros [Hl _] H0 H. apply (li_free _ _ (Hl l) H0 c). by left. Qed.

Lemma inv_holding s c l :
  spin_inv s -> c_pc (s_cpu s c) <> RelUnlock l -> lk_cpu (s_lock s l) = Some c <-> l ∈ c_crit (s_cpu s c).
Proof.
  intros [Hl _] Hp. split.
  - intros H. by apply (li_cpu _ _ (Hl l)).
  - intros H. by apply (li_crit _ _ (Hl l)).
Qed.

(** The swap that takes the lock. *)
Lemma inv_take s c l :
  spin_inv s -> c_pc (s_cpu s c) = AcqSwap l -> lk_locked (s_lock s l) = 0 ->
  spin_inv (set_lock l (SpinLock 1 (lk_cpu (s_lock s l))) (set_cpu c (at_pc (AcqSet l) (s_cpu s c)) s)).
Proof.
  intros Hi Hp H0. pose proof Hi as [Hl Hc]. pose proof (inv_not_crit s c l Hi H0) as Hn.
  apply inv_lock; [done| |by apply cpu_inv_pc|].
  - intros l' Hne. unfold same_for. simpl. rewrite Hp. split_and!; [done|..]; split; congruence.
  - assert (forall c', ~ owns (s_cpu s c') l) as Hno by apply (li_free _ _ (Hl l) H0).
    assert (forall c', lk_cpu (s_lock s l) <> Some c') as Hcpu.
    { intros c' E. apply (Hno c'). left. by apply (li_cpu _ _ (Hl l)). }
    split; simpl; rewrite ?decide_True by done; simpl.
    + done.
    + intros c1 c2. destruct (decide (c1 = c)), (decide (c2 = c)); subst; try done; intros A B; exfalso;
        [by apply (Hno c2)|by apply (Hno c1)|by apply (Hno c1)].
    + intros c' E. by apply Hcpu in E.
    + intros c' Hin. exfalso. apply (Hno c'). left. by destruct (decide (c' = c)) as [->|].
Qed.

(** [lk->cpu = mycpu()]: the end of [acquire]. *)
Lemma inv_enter s c l :
  spin_inv s -> c_pc (s_cpu s c) = AcqSet l ->
  spin_inv (set_lock l (SpinLock (lk_locked (s_lock s l)) (Some c))
    (set_cpu c (at_pc Idle (with_crit (l :: c_crit (s_cpu s c)) (s_cpu s c))) s)).
Proof.
  intros Hi Hp. pose proof Hi as [Hl Hc]. pose proof (Hc c) as (I1 & I2 & I3). rewrite Hp in I3.
  assert (owns (s_cpu s c) l) as Ho by (by right).
  apply inv_lock; [done| | |].
  - intros l' Hne. unfold same_for. simpl. rewrite Hp, elem_of_cons. split_and!; [|split; congruence..]. tauto.
  - split_and!; [done|by apply list.NoDup_cons|done].
  - destruct (Hl l) as [H1 H2 H3 H4]. split; simpl; rewrite ?decide_True by done; simpl.
    + intros H0. by destruct (H1 H0 c).
    + assert (forall c', owns (if decide (c' = c) then at_pc Idle (with_crit (l :: c_crit (s_cpu s c)) (s_cpu s c))
        else s_cpu s c') l -> c' = c) as Hown.
      { intros c' Ho'. destruct (decide (c' = c)); [done|]. by apply H2. }
      intros c1 c2 A B. by rewrite (Hown c1 A), (Hown c2 B).
    + intros c' [= <-]. rewrite decide_True by done. simpl. split; [apply list_elem_of_here|done].
    + intros c' Hin _. destruct (decide (c' = c)) as [->|]; [done|]. f_equal. symmetry. apply H2; [by left|done].
Qed.

(** [lk->cpu = 0] in [release]. *)
Lemma inv_clear s c l :
  spin_inv s -> c_pc (s_cpu s c) = RelClear l ->
  spin_inv (set_lock l (SpinLock (lk_locked (s_lock s l)) None) (set_cpu c (at_pc (RelUnlock l) (s_cpu s c)) s)).
Proof.
  intros Hi Hp. pose proof Hi as [Hl Hc]. pose proof (Hc c) as (I1 & I2 & I3). rewrite Hp in I3.
  apply inv_lock; [done| |by apply cpu_inv_pc|].
  - intros l' Hne. unfold same_for. simpl. rewrite Hp. split_and!; [done|..]; split; congruence.
  - destruct (Hl l) as [H1 H2 H3 H4]. split; simpl; rewrite ?decide_True by done; simpl.
    + intros H0. destruct (H1 H0 c). by left.
    + assert (forall c', owns (if decide (c' = c) then at_pc (RelUnlock l) (s_cpu s c) else s_cpu s c') l ->
        owns (s_cpu s c') l) as Hown.
      { intros c' Ho'. destruct (decide (c' = c)) as [->|]; [|done]. by left. }
      intros c1 c2 A B. apply H2; by apply Hown.
    + done.
    + intros c' Hin Hne. destruct (decide (c' = c)) as [->|Hc']; [done|].
      destruct Hc'. apply H2; by left.
Qed.

(** The swap that frees the lock. *)
Lemma inv_free s c l :
  spin_inv s -> c_pc (s_cpu s c) = RelUnlock l ->
  spin_inv (set_lock l (SpinLock 0 (lk_cpu (s_lock s l)))
    (set_cpu c (at_pc (RelPop l) (with_crit (filter (fun l' => l' <> l) (c_crit (s_cpu s c))) (s_cpu s c))) s)).
Proof.
  intros Hi Hp. pose proof Hi as [Hl Hc]. pose proof (Hc c) as (I1 & I2 & I3). rewrite Hp in I3.
  apply inv_lock; [done| | |].
  - intros l' Hne. unfold same_for. simpl. rewrite Hp, list_elem_of_filter.
    split_and!; [tauto|split; congruence..].
  - split_and!; [done|by apply NoDup_filter|done].
  - destruct (Hl l) as [H1 H2 H3 H4].
    assert (forall c', ~ owns (if decide (c' = c) then
      at_pc (RelPop l) (with_crit (filter (fun l' => l' <> l) (c_crit (s_cpu s c))) (s_cpu s c)) else s_cpu s c') l) as Hno.
    { intros c' Ho'. destruct (decide (c' = c)) as [->|Hne].
      - destruct Ho' as [Ho'|Ho']; [|done]. simpl in Ho'. by apply list_elem_of_filter in Ho' as [? _].
      - apply Hne, H2; [done|by left]. }
    split; simpl; rewrite ?decide_True by done; simpl.
    + done.
    + intros c1 c2 A. by apply Hno in A.
    + intros c' E. exfalso. destruct (H3 c' E) as [A B]. destruct (decide (c' = c)) as [->|Hne]; [done|].
      apply Hne, H2; by left.
    + intros c' Hin. exfalso. apply (Hno c'). by left.
Qed.

Lemma inv_run s c : spin_inv s -> spin_inv (step_cpu c s).
Proof.
  intros Hi. pose proof (proj2 Hi c) as Hc. pose proof Hc as (I1 & I2 & I3).
  unfold step_cpu. destruct (c_pc (s_cpu s c)) as [|l|l|l|l|l|l|l|l|l|l| | |msg] eqn:Hp; try done.
  - apply inv_cpu; [done| |by apply cpu_push_off_inv]. intros l'. apply same_for_plain; [done|by rewrite Hp|done].
  - destruct (Z.eqb_spec (lk_locked (s_lock s l)) 0) as [H0|H0];
      (apply inv_cpu; [done|intros l'; apply same_for_plain; [done|by rewrite Hp|done]|apply cpu_inv_pc; [done|]]).
    + by apply inv_not_crit.
    + done.
  - case_bool_decide as Hh;
      (apply inv_cpu; [done|intros l'; apply same_for_plain; [done|by rewrite Hp|done]|apply cpu_inv_pc; [done|]]);
      [done|]. rewrite <- inv_holding; [done|done|congruence].
  - destruct (Z.eqb_spec (lk_locked (s_lock s l)) 0) as [H0|H0]; [by apply inv_take|].
    apply inv_lock; [done| |by apply cpu_inv_pc|].
    + intros l' _. apply same_for_plain; [done|by rewrite Hp|done].
    + apply (lock_inv_same s); [simpl; by rewrite decide_True|simpl; by rewrite decide_True| |apply Hi].
      intros c'. simpl. destruct (decide (c' = c)) as [->|]; [|apply same_for_refl].
      apply same_for_plain; [done|by rewrite Hp|done].
  - by apply inv_enter.
  - case_match;
      (apply inv_cpu; [done|intros l'; apply same_for_plain; [done|by rewrite Hp|done]|by apply cpu_inv_pc]).
  - case_bool_decide as Hh;
      (apply inv_cpu; [done|intros l'; apply same_for_plain; [done|by rewrite Hp|done]|apply cpu_inv_pc; [done|]]);
      [|done]. apply inv_holding in Hh; [done|done|congruence].
  - by apply inv_clear.
  - by apply inv_free.
  - destruct (cpu_pop_off (s_cpu s c)) as [msg|x'] eqn:E.
    + apply inv_cpu; [done|intros l'; apply same_for_plain; [done|by rewrite Hp|done]|by apply cpu_inv_pc].
    + destruct (cpu_pop_off_inv _ _ Hc E) as [Hx' Hh].
      apply inv_cpu; [done|intros l'; apply same_for_plain; [done|by rewrite Hp|done]|done].
  - apply inv_cpu; [done| |by apply cpu_push_off_inv]. intros l'. apply same_for_plain; [done|by rewrite Hp|done].
  - destruct (cpu_pop_off (s_cpu s c)) as [msg|x'] eqn:E.
    + apply inv_cpu; [done|intros l'; apply same_for_plain; [done|by rewrite Hp|done]|by apply cpu_inv_pc].
    + destruct (cpu_pop_off_inv _ _ Hc E) as [Hx' Hh].
      apply inv_cpu; [done|intros l'; apply same_for_plain; [done|by rewrite Hp|done]|done].
Qed.

Lemma inv_step s s' : spin_inv s -> mstep s s' -> spin_inv s'.
Proof.
  intros Hi Hs. destruct Hs as [c p s Hp Hop|c b s Hp Hn|c s]; [| |by apply inv_run].
  - pose proof (proj2 Hi c) as Hc. apply inv_cpu; [done| |].
    + intros l. apply same_for_plain; [done|by rewrite Hp|by destruct p].
    + apply cpu_inv_pc; [done|]. by destruct p.
  - pose proof (proj2 Hi c) as (H1 & H2 & _). apply inv_cpu; [done| |].
    + intros l. apply same_for_plain; [done|by rewrite Hp|done].
    + split_and!; [simpl; lia|done|done].
Qed.

Lemma inv_booted s : booted s -> spin_inv s.
Proof.
  intros [Hl Hc]. split.
  - intros l. split; rewrite ?Hl; simpl.
    + intros _ c [H|H]; destruct (Hc c) as (E1 & E2 & _); [rewrite E2 in H; by apply elem_of_nil in H|congruence].
    + intros c c' [H|H]; destruct (Hc c) as (E1 & E2 & _); [rewrite E2 in H; by apply elem_of_nil in H|congruence].
    + done.
    + intros c H. destruct (Hc c) as (_ & E2 & _). rewrite E2 in H. by apply elem_of_nil in H.
  - intros c. destruct (Hc c) as (E1 & E2 & E3). split_and!; rewrite ?E1, ?E2, ?E3; [lia|constructor|done].
Qed.

Lemma inv_reachable s : reachable s -> spin_inv s.
Proof.
  intros (s0 & Hb & Hr). apply inv_booted in Hb. induction Hr as [|s s' s'' Hs _ IH]; [done|].
  apply IH. by eapply inv_step.
Qed.

(** ** Simulation of the thread's view *)

(** The call processor [x] is in the middle of, as [Sched] states it. *)
Definition pending (p : pc) : option (K unit) :=
  match p with
  | AcqPush l | AcqLocked l | AcqCpu l | AcqSwap l | AcqSet l => Some (acquire l)
  | RelLocked l | RelCpu l | RelClear l | RelUnlock l | RelPop l => Some (release l)
  | PushOff => Some push_off
  | PopOff => Some pop_off
  | Idle | Panicked _ => None
  end.

(** [k] is how the processor's thread sees its locks: the state before the
    pending call. *)
Definition sees (x : cpu) (k : kernel) : Prop :=
  match c_pc x with
  | AcqLocked _ | AcqCpu _ | AcqSwap _ | AcqSet _ => c_noff x = S (k_noff k) /\ c_crit x = k_held k
  | RelPop l => c_noff x = k_noff k /\ c_crit x = filter (fun l' => l' <> l) (k_held k) /\ l ∈ k_held k
  | _ => c_noff x = k_noff k /\ c_crit x = k_held k
  end.

Lemma release_panics l k e : l ∉ k_held k -> release l (W k e) = Panic "release".
Proof. intros H. unfold release, holding. rewrite bind_kget. by rewrite bool_decide_false. Qed.

Lemma release_pop_panics l k e : l ∈ k_held k -> k_noff k = 0%nat -> release l (W k e) = Panic "pop_off".
Proof.
  intros H Hn. unfold release, holding. rewrite bind_kget, bool_decide_true by done.
  cbn [negb]. rewrite bind_kmod. unfold pop_off. rewrite bind_kget.
  replace (k_noff (set_k_held _ k)) with 0%nat by (by destruct k). done.
Qed.

(** How a step of the processor itself ends. *)
Inductive steps_to (e : list (kernel -> kernel)) (op : K unit) (k : kernel) (x : cpu) : Prop :=
| still_in : pending (c_pc x) = Some op -> sees x k -> steps_to e op k x
| returns k' : c_pc x = Idle -> op (W k e) = Ret tt (W k' e) -> sees x k' -> steps_to e op k x
| panics msg msg' : c_pc x = Panicked msg -> op (W k e) = Panic msg' -> steps_to e op k x.

Lemma cpu_pop_off_spec x :
  cpu_inv x ->
  (exists msg, cpu_pop_off x = inl msg /\ c_noff x = 0%nat) \/
  (exists x' n, cpu_pop_off x = inr x' /\ c_noff x = S n /\ c_noff x' = n /\ c_crit x' = c_crit x).
Proof.
  intros (Hs & _ & _). unfold cpu_pop_off. destruct (c_noff x) as [|n] eqn:Hn.
  - left. destruct (c_sie x); eauto.
  - right. rewrite Hs by lia. eexists _, n. by split_and!.
Qed.

Lemma run_simulates s c k e op :
  spin_inv s -> sees (s_cpu s c) k -> pending (c_pc (s_cpu s c)) = Some op ->
  steps_to e op k (s_cpu (step_cpu c s) c).
Proof.
  intros Hi Hk Hop. pose proof (proj2 Hi c) as Hc. pose proof Hc as (I1 & I2 & I3).
  unfold sees in Hk. unfold step_cpu.
  destruct (c_pc (s_cpu s c)) as [|l|l|l|l|l|l|l|l|l|l| | |msg] eqn:Hp; try done; simpl in Hop; injection Hop as <-;
    try destruct Hk as [Hn Hh].
  - rewrite set_cpu_eq. apply still_in; [done|]. split; [simpl; congruence|done].
  - destruct (lk_locked (s_lock s l) =? 0); rewrite set_cpu_eq; (apply still_in; [done|done]).
  - case_bool_decide as Hb; rewrite set_cpu_eq; [|by apply still_in; [done|]].
    apply inv_holding in Hb; [|done|congruence]. rewrite Hh in Hb.
    eapply panics; [done|by apply acquire_held].
  - simpl. rewrite decide_True by done. destruct (lk_locked (s_lock s l) =? 0); (apply still_in; [done|done]).
  - simpl. rewrite decide_True by done. rewrite Hh in I3. eapply returns; [done|by apply acquire_eq|].
    unfold sees. simpl. split; [done|by rewrite Hh].
  - destruct (Z.eqb_spec (lk_locked (s_lock s l)) 0) as [H0|H0]; rewrite set_cpu_eq; [|by apply still_in; [done|]].
    eapply panics; [done|apply release_panics]. rewrite <- Hh. by apply inv_not_crit.
  - case_bool_decide as Hb; rewrite set_cpu_eq; [by apply still_in; [done|]|].
    eapply panics; [done|apply release_panics]. rewrite <- Hh.
    intros Hin. apply Hb. apply inv_holding; [done|congruence|done].
  - simpl. rewrite decide_True by done. apply still_in; [done|done].
  - simpl. rewrite decide_True by done. apply still_in; [done|]. unfold sees. simpl.
    split_and!; [done|by rewrite Hh|by rewrite <- Hh].
  - destruct Hh as [Hh Hl]. destruct (cpu_pop_off_spec _ Hc) as [(msg & -> & H0)|(x' & n & -> & HS & Hx1 & Hx2)];
      rewrite set_cpu_eq.
    + eapply panics; [done|by apply release_pop_panics; [|congruence]].
    + eapply returns; [done|by apply release_eq; [|congruence]|]. unfold sees. simpl.
      split; [by rewrite <- Hn, HS|congruence].
  - rewrite set_cpu_eq. eapply returns; [done|done|]. split; simpl; congruence.
  - destruct (cpu_pop_off_spec _ Hc) as [(msg & -> & H0)|(x' & n & -> & HS & Hx1 & Hx2)]; rewrite set_cpu_eq.
    + eapply panics; [done|]. unfold pop_off. rewrite bind_kget. replace (k_noff k) with 0%nat by congruence. done.
    + eapply returns; [done| |].
      * unfold pop_off. rewrite bind_kget. replace (k_noff k) with (S n) by congruence. done.
      * unfold sees. simpl. split; [done|congruence].
Qed.

(** ** Properties *)

(** C14: mutual exclusion.  However the steps of the processors interleave,
    two of them are never in the critical section of the same lock; while one
    is, the lock word is taken, and a processor with a lock routine in force
    has its interrupts off. *)
Theorem spinlock_mutual_exclusion s c c' l :
  reachable s -> l ∈ c_crit (s_cpu s c) ->
  (l ∈ c_crit (s_cpu s c') -> c' = c) /\ lk_locked (s_lock s l) <> 0 /\
  ((0 < c_noff (s_cpu s c))%nat -> c_sie (s_cpu s c) = false).
Proof.
  intros Hr Hin. apply inv_reachable in Hr. pose proof (proj1 Hr l) as Hl. split_and!.
  - intros Hin'. apply (li_one _ _ Hl); by left.
  - intros H0. apply (li_free _ _ Hl H0 c). by left.
  - apply (proj2 Hr c).
Qed.

(** Processor 0 calls [acquire] on the lock of the page allocator and runs for
    [n] steps. *)
Definition boot_state : mstate := MState (fun _ => lk_init) (fun _ => Cpu 0 false true Idle []).
Definition sample_run (n : nat) : mstate :=
  Nat.iter n (step_cpu 0) (set_cpu 0 (at_pc (AcqPush Lkmem) (s_cpu boot_state 0)) boot_state).

Lemma sample_run_reachable n : reachable (sample_run n).
Proof.
  exists boot_state. split; [by split|]. unfold sample_run. eapply rtc_l; [apply (step_call 0 (AcqPush Lkmem)); done|].
  induction n as [|n IH]; [done|]. simpl. eapply rtc_r; [exact IH|apply step_run].
Qed.

Lemma spinlock_mutual_exclusion_witness : lk_locked (s_lock (sample_run 4) Lkmem) <> 0.
Proof.
  refine (proj1 (proj2 (spinlock_mutual_exclusion (sample_run 4) 0 1 Lkmem (sample_run_reachable 4) _))).
  apply (bool_decide_unpack _). by vm_compute.
Defined.

(** C28: the thread's view is right.  In every reachable state, a step of
    another processor leaves what a processor sees unchanged, and a step of its
    own either stays in the pending call, or returns exactly when
    [Sched.acquire], [Sched.release], [Sched.push_off] or [Sched.pop_off]
    returns, with the same resulting state, or panics when that panics. *)
Theorem spinlock_refines_thread_view s c k e op :
  reachable s -> sees (s_cpu s c) k -> pending (c_pc (s_cpu s c)) = Some op ->
  steps_to e op k (s_cpu (step_cpu c s) c) /\
  forall c', c' <> c -> s_cpu (step_cpu c' s) c = s_cpu s c.
Proof.
  intros Hr Hk Hop. apply inv_reachable in Hr. split; [by apply run_simulates|].
  intros c' Hne. unfold step_cpu.
  repeat match goal with
  | |- context [match ?x with _ => _ end] => destruct x
  | |- context [set_lock _ _ _] => cbn [set_lock s_cpu]
  | |- s_cpu (set_cpu _ _ _) _ = _ => rewrite set_cpu_ne by done
  end; try done; simpl; by rewrite ?decide_False by done.
Qed.

Lemma spinlock_refines_thread_view_witness :
  exists k', acquire Lkmem (W kernel0 []) = Ret tt (W k' []) /\ sees (s_cpu (sample_run 4) 0) k'.
Proof.
  destruct (proj1 (spinlock_refines_thread_view (sample_run 3) 0 kernel0 [] (acquire Lkmem)
    (sample_run_reachable 3) ltac:(by split) eq_refl)) as [H|k' H1 H2 H3|msg msg' H].
  - by vm_compute in H.
  - by exists k'.
  - by vm_compute in H.
Defined.
