(* ===== verification/Kalloc.v ===== *)
(** * kalloc.c: the physical page allocator

    The free list threads through the free pages themselves: the first eight
    bytes of a free page hold the address of the next one, as in the source.
    [kmem_inv k l] says that the list in memory is [l]; [kalloc] and [kfree]
    pop and push it, and [kinit] builds it. *)

From Stdlib Require Import ZArith Lia.
From stdpp Require Import base gmap list strings numbers.
From S2P Require Import Prelude Riscv State Klib Sched.

(** ** Definitions *)

Section kalloc.
Context `{L : Layout}.

Definition kfree (pa : Z) : K unit :=
  if negb (pa mod PGSIZE =? 0) || (pa <? end_) || (PHYSTOP <=? pa) then panic "kfree" else
  mem_mod (fun m => memset m pa 1 PGSIZE) ;;;
  acquire Lkmem ;;;
  let* fl := kget k_freelist in
  store64 pa fl ;;;
  kmod (set_k_freelist pa) ;;;
  release Lkmem.

Definition kalloc : K Z :=
  acquire Lkmem ;;;
  let* r := kget k_freelist in
  when (truth r) (let* next := load64 r in kmod (set_k_freelist next)) ;;;
  release Lkmem ;;;
  when (truth r) (mem_mod (fun m => memset m r 5 PGSIZE)) ;;;
  ret r.

(** [for(; p + PGSIZE <= pa_end; p += PGSIZE) kfree(p);] *)
Definition freerange (pa_start pa_end : Z) : K unit :=
  while_ (S (Z.to_nat ((pa_end - PGROUNDUP pa_start) / PGSIZE)))
    (fun p =>
       if p + PGSIZE <=? pa_end
       then kfree p ;;; ret (inl (p + PGSIZE))
       else ret (inr tt))
    (PGROUNDUP pa_start).

Definition kinit : K unit :=
  initlock Lkmem ;;;
  freerange end_ PHYSTOP.

(** ** The invariant *)

(** An address [kfree] accepts. *)
Definition page_ok (p : Z) : Prop := p mod PGSIZE = 0 /\ end_ <= p < PHYSTOP.

Definition in_page (p a : Z) : Prop := p <= a < p + PGSIZE.

(** The list of pages reached from [p] through the words at their start. *)
Fixpoint chain (m : memory) (p : Z) (l : list Z) : Prop :=
  match l with
  | [] => p = 0
  | x :: l' => p = x /\ chain m (ld64 m x) l'
  end.

Definition kmem_inv (k : kernel) (l : list Z) : Prop :=
  chain (k_mem k) (k_freelist k) l /\ NoDup l /\ Forall page_ok l.

(** Two memories that agree on every byte outside the pages [ps]. *)
Definition same_off (ps : list Z) (m m' : memory) : Prop :=
  forall a, (forall p, p ∈ ps -> ~ in_page p a) -> ld8 m' a = ld8 m a.

(** ** Lemmas *)

Lemma in_page_disjoint p q a :
  p mod PGSIZE = 0 -> q mod PGSIZE = 0 -> in_page p a -> in_page q a -> p = q.
Proof.
  unfold in_page, PGSIZE. intros. Z.to_euclidean_division_equations. lia.
Qed.

Lemma page_ok_range `{!LayoutOk L} p : page_ok p -> KERNBASE < p /\ p + PGSIZE <= PHYSTOP.
Proof.
  intros [Ha [H1 H2]]. pose proof kernbase_etext. pose proof etext_end.
  unfold PGSIZE, PHYSTOP, KERNBASE in *. split; [lia|]. Z.to_euclidean_division_equations. lia.
Qed.

Lemma same_off_refl ps m : same_off ps m m.
Proof. by intros a _. Qed.

Lemma same_off_trans ps qs m m' m'' :
  same_off ps m m' -> same_off qs m' m'' -> same_off (ps ++ qs) m m''.
Proof.
  intros H1 H2 a Ha. rewrite H2, H1; [done|..]; intros p Hp; apply Ha, elem_of_app; auto.
Qed.

Lemma same_off_ld64 ps m m' a q :
  same_off ps m m' -> q mod PGSIZE = 0 -> q ∉ ps ->
  Forall (fun p => p mod PGSIZE = 0) ps ->
  q <= a -> a + 8 <= q + PGSIZE -> ld64 m' a = ld64 m a.
Proof.
  intros H Hq Hn Hal Ha1 Ha2. apply ld64_ext. intros i Hi. apply H.
  intros p Hp Hin. apply Hn. rewrite list.Forall_forall in Hal.
  rewrite <- (in_page_disjoint p q (a + i)); [done|by apply Hal|done|done|].
  unfold in_page. lia.
Qed.

Lemma same_off_st64 p m a v : p <= a -> a + 8 <= p + PGSIZE -> same_off [p] m (st64 m a v).
Proof.
  intros H1 H2 x Hx. unfold st64. apply ld8_st_bytes_ne. rewrite length_le_bytes.
  specialize (Hx p (list_elem_of_here _ _)). unfold in_page in Hx. lia.
Qed.

Lemma same_off_memset p m c : same_off [p] m (memset m p c PGSIZE).
Proof.
  intros x Hx. rewrite ld8_memset by (unfold PGSIZE; lia). rewrite decide_False; [done|].
  intros Hin. by apply (Hx p (list_elem_of_here _ _)).
Qed.

Lemma chain_frame ps m m' p l :
  same_off ps m m' -> Forall page_ok l -> Forall (fun p => p mod PGSIZE = 0) ps ->
  (forall x, x ∈ l -> x ∉ ps) -> chain m p l -> chain m' p l.
Proof.
  intros Hs Hl Hps. revert p. induction l as [|x l IH]; intros p Hn; simpl; [done|].
  intros [-> Hc]. inversion Hl as [|? ? [Hx _] Hl']; subst. split; [done|].
  rewrite (same_off_ld64 ps m m' x x); [apply IH; [done|set_solver|done]|done..| |done| |].
  - apply Hn. set_solver.
  - lia.
  - unfold PGSIZE. lia.
Qed.

Lemma page_nonzero `{!LayoutOk L} p : page_ok p -> p <> 0.
Proof. intros H. apply page_ok_range in H. unfold KERNBASE in H. lia. Qed.

(** The state after the page [p] was taken off, or put on, the free list. *)
Definition popped (p : Z) (k : kernel) : kernel :=
  set_k_mem (memset (k_mem k) p 5 PGSIZE) (set_k_freelist (ld64 (k_mem k) p) k).
Definition pushed (p : Z) (k : kernel) : kernel :=
  set_k_mem (st64 (memset (k_mem k) p 1 PGSIZE) p (k_freelist k)) (set_k_freelist p k).

Lemma kalloc_pop `{!LayoutOk L} k e p l :
  Lkmem ∉ k_held k -> kmem_inv k (p :: l) ->
  kalloc (W k e) = Ret p (W (popped p k) e) /\ kmem_inv (popped p k) l.
Proof.
  intros Hh ([Hp Hc] & Hnd & Hok). inversion Hok as [|? ? Hpok Hok']; subst.
  inversion Hnd as [|? ? Hnin Hnd']; subst.
  assert (truth (k_freelist k) = true) as Ht.
  { unfold truth. apply page_nonzero in Hpok. by destruct (Z.eqb_spec (k_freelist k) 0). }
  split.
  - unfold kalloc. k_acquire. k_step. k_step. rewrite Ht. repeat k_step. k_release.
    repeat k_step. by destruct k.
  - split_and!; [|done|done]. simpl.
    eapply (chain_frame [k_freelist k]); [apply same_off_memset|done| | |done].
    + repeat constructor. by destruct Hpok.
    + intros x Hx Hin%list_elem_of_singleton. by subst.
Qed.

Lemma kalloc_none k e :
  Lkmem ∉ k_held k -> kmem_inv k [] -> kalloc (W k e) = Ret 0 (W k e).
Proof.
  intros Hh (Hc & _). simpl in Hc. unfold kalloc. k_acquire. k_step. rewrite Hc.
  repeat k_step. k_release. repeat k_step. by destruct k.
Qed.

Lemma kfree_run k e p :
  Lkmem ∉ k_held k -> page_ok p -> kfree p (W k e) = Ret tt (W (pushed p k) e).
Proof.
  intros Hh [Hal [Hlo Hhi]]. unfold kfree. rewrite Hal.
  rewrite (proj2 (Z.ltb_ge p end_)) by done. rewrite (proj2 (Z.leb_gt PHYSTOP p)) by done. simpl.
  k_step. k_acquire. repeat k_step. k_release. by destruct k.
Qed.

Lemma kfree_push `{!LayoutOk L} k e p l :
  Lkmem ∉ k_held k -> kmem_inv k l -> page_ok p -> p ∉ l ->
  kfree p (W k e) = Ret tt (W (pushed p k) e) /\ kmem_inv (pushed p k) (p :: l).
Proof.
  intros Hh (Hc & Hnd & Hok) Hp Hnin. split; [by apply kfree_run|].
  assert (0 <= k_freelist k < 2 ^ 64) as Hfl.
  { destruct l as [|x l]; simpl in Hc; [lia|]. destruct Hc as [-> _].
    inversion Hok as [|? ? Hx _]; subst. apply page_ok_range in Hx.
    unfold KERNBASE, PHYSTOP, PGSIZE, KERNBASE in *. lia. }
  split_and!; [|by constructor|by constructor]. simpl. split; [done|].
  rewrite ld64_st64_eq, u64_small by done.
  eapply (chain_frame ([p] ++ [p])); [|done| | |done].
  - eapply same_off_trans; [apply same_off_memset|]. apply same_off_st64; [lia|].
    unfold PGSIZE. lia.
  - destruct Hp. by repeat constructor.
  - intros x Hx Hin. apply elem_of_app in Hin as [Hin|Hin];
      apply list_elem_of_singleton in Hin; by subst.
Qed.

Lemma kfree_bad p w : ~ page_ok p -> kfree p w = Panic "kfree".
Proof.
  intros Hn. unfold kfree. destruct (Z.eqb_spec (p mod PGSIZE) 0); simpl; [|done].
  destruct (Z.ltb_spec p end_); simpl; [done|]. destruct (Z.leb_spec PHYSTOP p); [done|].
  exfalso. apply Hn. split; [done|lia].
Qed.

(** The pages of [pa_start, pa_start + n * PGSIZE), last first. *)
Fixpoint pages_down (p : Z) (n : nat) : list Z :=
  match n with
  | O => []
  | S n' => pages_down (p + PGSIZE) n' ++ [p]
  end.

Lemma pages_down_elem p n x :
  x ∈ pages_down p n -> exists i, 0 <= i < Z.of_nat n /\ x = p + i * PGSIZE.
Proof.
  revert p. induction n as [|n IH]; intros p; simpl; [by intros ?%not_elem_of_nil|].
  intros [Hx|Hx%list_elem_of_singleton]%elem_of_app.
  - destruct (IH _ Hx) as (i & Hi & ->). exists (i + 1). lia.
  - exists 0. lia.
Qed.

Lemma pages_down_in p n x i :
  0 <= i < Z.of_nat n -> x = p + i * PGSIZE -> x ∈ pages_down p n.
Proof.
  revert p i. induction n as [|n IH]; intros p i Hi ->; simpl; [lia|].
  apply elem_of_app. destruct (decide (i = 0)) as [->|]; [right|left].
  - apply list_elem_of_singleton. lia.
  - apply (IH _ (i - 1)); lia.
Qed.

(** Freeing [n] consecutive pages from [p] on pushes them in order. *)
Lemma freerange_loop_push `{!LayoutOk L} n fuel p pa_end k e l :
  (n < fuel)%nat -> p + Z.of_nat n * PGSIZE <= pa_end < p + (Z.of_nat n + 1) * PGSIZE ->
  p mod PGSIZE = 0 -> end_ <= p -> pa_end <= PHYSTOP ->
  Lkmem ∉ k_held k -> kmem_inv k l -> Forall (fun x => x < p) l ->
  exists k',
    while_ fuel
      (fun q => if q + PGSIZE <=? pa_end then kfree q ;;; ret (inl (q + PGSIZE))
                else ret (inr tt)) p (W k e) = Ret tt (W k' e) /\
    kmem_inv k' (pages_down p n ++ l) /\ k_held k' = k_held k.
Proof.
  revert fuel p k l. induction n as [|n IH]; intros [|fuel] p k l Hf Hb Ha Hlo Hhi Hh Hinv Hl;
    try lia; rewrite while_S.
  - rewrite (proj2 (Z.leb_gt (p + PGSIZE) pa_end)) by lia. unfold bind, ret. simpl. by exists k.
  - rewrite (proj2 (Z.leb_le (p + PGSIZE) pa_end)) by (unfold PGSIZE in *; lia).
    assert (page_ok p) as Hok by (split; [done|unfold PGSIZE in *; lia]).
    assert (p ∉ l) as Hnin.
    { intros Hin. rewrite list.Forall_forall in Hl. specialize (Hl p Hin). lia. }
    destruct (kfree_push k e p l Hh Hinv Hok Hnin) as [Hfree Hinv'].
    unfold bind at 1 2. rewrite Hfree. unfold ret.
    destruct (IH fuel (p + PGSIZE) (pushed p k) (p :: l)) as (k' & Hrun & Hinv'' & Hheld);
      [lia|lia| |unfold PGSIZE in *; lia|done|done|done| |].
    + unfold PGSIZE in *. rewrite Z.add_mod, Ha by lia. done.
    + constructor; [unfold PGSIZE; lia|].
      eapply Forall_impl; [|exact Hl]. intros x Hx. simpl in *. unfold PGSIZE. lia.
    + exists k'. simpl pages_down. rewrite <- app_assoc. simpl. done.
Qed.

(** [kinit] from any state: the free list is every page between [end] and
    [PHYSTOP], highest address first. *)
Lemma kinit_builds `{!LayoutOk L} k e :
  k_freelist k = 0 ->
  exists k' n,
    kinit (W k e) = Ret tt (W k' e) /\
    kmem_inv k' (pages_down (PGROUNDUP end_) n) /\
    PGROUNDUP end_ + Z.of_nat n * PGSIZE = PHYSTOP.
Proof.
  intros Hfl. pose proof kernbase_etext. pose proof etext_end. pose proof end_phystop.
  destruct (PGROUNDUP_spec end_) as [Hal Hrd].
  { unfold PHYSTOP, KERNBASE, PGSIZE in *. lia. }
  set (p := PGROUNDUP end_) in *. set (n := Z.to_nat ((PHYSTOP - p) / PGSIZE)).
  assert (p + Z.of_nat n * PGSIZE = PHYSTOP) as Hn.
  { unfold n. unfold PHYSTOP, KERNBASE, PGSIZE in *. Z.to_euclidean_division_equations. lia. }
  set (k1 := set_k_held (filter (fun x => x <> Lkmem) (k_held k)) k).
  destruct (freerange_loop_push n (S n) p PHYSTOP k1 e []) as (k' & Hrun & Hinv & _).
  - lia.
  - unfold PGSIZE in *. lia.
  - done.
  - lia.
  - lia.
  - simpl. intros [Hne _]%list_elem_of_filter. done.
  - split_and!; [done|constructor|constructor].
  - constructor.
  - exists k', n. split_and!; [|by rewrite app_nil_r in Hinv|done].
    unfold kinit, initlock, freerange. fold p. fold n. by rewrite bind_kmod.
Qed.
End kalloc.

(** ** Properties *)

Section properties.
Context `{L : Layout} `{!LayoutOk L}.

(** [kalloc] on a non-empty free list returns its first page, filled with
    the byte 5, and leaves the rest of the list free; no byte outside that page
    and no other global changes, and the page is no longer on the list.  On an
    empty list it returns 0 and changes nothing. *)
Theorem kalloc_correct k e l :
  Lkmem ∉ k_held k -> kmem_inv k l ->
  match l with
  | [] => kalloc (W k e) = Ret 0 (W k e)
  | p :: l' =>
      exists m fl,
        let k' := set_k_mem m (set_k_freelist fl k) in
        kalloc (W k e) = Ret p (W k' e) /\ kmem_inv k' l' /\ (p ∉ l') /\ page_ok p /\
        (forall a, in_page p a -> ld8 m a = 5) /\ same_off [p] (k_mem k) m
  end.
Proof.
  intros Hh Hinv. destruct l as [|p l]; [by apply kalloc_none|].
  destruct (kalloc_pop k e p l Hh Hinv) as [Hrun Hinv'].
  destruct Hinv as (_ & Hnd & Hok). inversion Hnd; inversion Hok; subst.
  eexists _, _. split_and!; [exact Hrun|exact Hinv'|done|done| |apply same_off_memset].
  intros a Ha. rewrite ld8_memset by (unfold PGSIZE; lia). by rewrite decide_True.
Qed.

(** C37: freeing an allocated page and allocating again gives the same page
    back, with the free list as before; [kfree] keeps the free list a
    duplicate-free chain of pages, and panics exactly on an address that is
    unaligned or outside [end, PHYSTOP). *)
Theorem kfree_kalloc_roundtrip k e p l :
  Lkmem ∉ k_held k -> kmem_inv k l -> page_ok p -> p ∉ l ->
  exists k1 k2,
    kfree p (W k e) = Ret tt (W k1 e) /\ kmem_inv k1 (p :: l) /\
    kalloc (W k1 e) = Ret p (W k2 e) /\ kmem_inv k2 l /\
    same_off [p] (k_mem k) (k_mem k1) /\
    (forall q k' e', kfree q (W k' e') = Panic "kfree" <-> ~ page_ok q).
Proof.
  intros Hh Hinv Hp Hnin. destruct (kfree_push k e p l Hh Hinv Hp Hnin) as [H1 I1].
  destruct (kalloc_pop (pushed p k) e p l Hh I1) as [H2 I2].
  exists (pushed p k), (popped p (pushed p k)).
  split_and!; [exact H1|exact I1|exact H2|exact I2| |].
  - intros a Ha. simpl. rewrite same_off_st64 with (p := p) by (try done; unfold PGSIZE; lia).
    by apply same_off_memset.
  - intros q k' e'. split; [|apply kfree_bad]. intros Hpan Hq.
    destruct (decide (Lkmem ∈ k_held k')) as [Hin|Hnot].
    + revert Hpan. unfold kfree. destruct Hq as [Hal [Hlo Hhi]]. rewrite Hal.
      rewrite (proj2 (Z.ltb_ge q end_)) by done. rewrite (proj2 (Z.leb_gt PHYSTOP q)) by done.
      simpl. k_step. rewrite (bind_Panic (acquire _) _ _ "acquire") by (by apply acquire_held).
      done.
    + by rewrite kfree_run in Hpan.
Qed.

(** [kinit] terminates and makes free every whole page between [end] and
    [PHYSTOP], each exactly once. *)
Theorem kinit_frees_all_memory k e :
  k_freelist k = 0 ->
  exists k' l,
    kinit (W k e) = Ret tt (W k' e) /\ kmem_inv k' l /\
    (forall p, p ∈ l <-> page_ok p).
Proof.
  intros Hfl. destruct (kinit_builds k e Hfl) as (k' & n & Hrun & Hinv & Hn).
  exists k', (pages_down (PGROUNDUP end_) n). split_and!; [done|done|].
  intros p. pose proof Hinv as (_ & _ & Hok). rewrite list.Forall_forall in Hok.
  split; [apply Hok|]. intros [Hal Hp].
  apply pages_down_in with (i := (p - PGROUNDUP end_) / PGSIZE).
  - destruct (PGROUNDUP_spec end_) as [Hal' Hrd].
    { pose proof end_phystop. pose proof kernbase_etext. pose proof etext_end.
      unfold PHYSTOP, KERNBASE, PGSIZE in *. lia. }
    unfold PGSIZE in *. Z.to_euclidean_division_equations. lia.
  - destruct (PGROUNDUP_spec end_) as [Hal' Hrd].
    { pose proof end_phystop. pose proof kernbase_etext. pose proof etext_end.
      unfold PHYSTOP, KERNBASE, PGSIZE in *. lia. }
    unfold PGSIZE in *. Z.to_euclidean_division_equations. lia.
Qed.
End properties.

(** ** Witnesses *)

(** A state whose only free page is [p]. *)
Definition one_free (p : Z) : kernel := set_k_freelist p kernel0.

Lemma one_free_inv :
  @kmem_inv sample_layout (one_free (PHYSTOP - PGSIZE)) [PHYSTOP - PGSIZE].
Proof.
  split_and!; [by vm_compute|apply NoDup_singleton|].
  by apply Forall_singleton; vm_compute.
Qed.

Lemma kalloc_correct_witness :
  exists m fl,
    kalloc (W (one_free (PHYSTOP - PGSIZE)) []) =
    Ret (PHYSTOP - PGSIZE)
      (W (set_k_mem m (set_k_freelist fl (one_free (PHYSTOP - PGSIZE)))) []).
Proof.
  destruct (@kalloc_correct sample_layout sample_layout_ok (one_free (PHYSTOP - PGSIZE)) []
    [PHYSTOP - PGSIZE]) as (m & fl & H & _).
  - by apply not_elem_of_nil.
  - apply one_free_inv.
  - exists m, fl. exact H.
Defined.

Lemma kfree_kalloc_roundtrip_witness :
  exists k1 k2,
    @kfree sample_layout (PHYSTOP - PGSIZE) (W kernel0 []) = Ret tt (W k1 []) /\
    kalloc (W k1 []) = Ret (PHYSTOP - PGSIZE) (W k2 []).
Proof.
  destruct (@kfree_kalloc_roundtrip sample_layout sample_layout_ok kernel0 []
    (PHYSTOP - PGSIZE) []) as (k1 & k2 & H1 & _ & H2 & _).
  - by apply not_elem_of_nil.
  - split_and!; [by vm_compute|apply NoDup_nil_2|apply Forall_nil_2].
  - by vm_compute.
  - by apply not_elem_of_nil.
  - exists k1, k2. split; [exact H1|exact H2].
Defined.

Lemma kinit_frees_all_memory_witness :
  exists k' l, @kinit sample_layout (W kernel0 []) = Ret tt (W k' []) /\ (PHYSTOP - PGSIZE ∈ (l : list Z)).
Proof.
  destruct (@kinit_frees_all_memory sample_layout sample_layout_ok kernel0 [])
    as (k' & l & H & _ & Hl); [reflexivity|].
  exists k', l. split; [exact H|]. apply Hl. clear. by vm_compute.
Defined.
