(* ===== verification/Uart.v ===== *)
(** * uart.c and printf.c: the serial port and kernel output

    The 16550a registers the driver uses, the transmit ring that [write()] to
    the console goes through, the polled output of [printf], and the number
    formatting of [printf]. *)

From Stdlib Require Import ZArith Lia.
From stdpp Require Import base gmap list strings numbers.
From S2P Require Import Prelude Riscv State Klib Sched.

(** ** The device registers *)

Definition IER : Z := 1.
Definition IER_RX_ENABLE : Z := Z.shiftl 1 0.
Definition IER_TX_ENABLE : Z := Z.shiftl 1 1.
Definition FCR : Z := 2.
Definition FCR_FIFO_ENABLE : Z := Z.shiftl 1 0.
Definition FCR_FIFO_CLEAR : Z := Z.shiftl 3 1.
Definition LCR : Z := 3.
Definition LCR_EIGHT_BITS : Z := Z.shiftl 3 0.
Definition LCR_BAUD_LATCH : Z := Z.shiftl 1 7.
Definition LSR_RX_READY : Z := Z.shiftl 1 0.
Definition LSR_TX_IDLE : Z := Z.shiftl 1 5.

(** Reading the line status register: bit 0 when input waits, bit 5 when the
    transmitter can take a byte. *)
Definition lsr_val (u : uart) : Z :=
  Z.lor (if bool_decide (u_in u = []) then 0 else LSR_RX_READY)
        (if default true (head (u_idle u)) then LSR_TX_IDLE else 0).

Definition ReadLSR : K Z :=
  let* u := kget k_uart in
  uart_mod (set_u_idle (tail (u_idle u))) ;;;
  ret (lsr_val u).

(** Reading the receive holding register takes the next byte of input. *)
Definition ReadRHR : K Z :=
  let* u := kget k_uart in
  uart_mod (set_u_in (tail (u_in u))) ;;;
  ret (u8 (default 0 (head (u_in u)))).

Definition WriteTHR (c : Z) : K unit :=
  uart_mod (fun u => set_u_out (u_out u ++ [u8 c]) u).

Definition WriteCfg (reg v : Z) : K unit :=
  uart_mod (fun u => set_u_cfg (u_cfg u ++ [(reg, v)]) u).

(** ** uart.c *)

Definition uartinit : K unit :=
  WriteCfg IER 0x00 ;;;
  WriteCfg LCR LCR_BAUD_LATCH ;;;
  WriteCfg 0 0x03 ;;;
  WriteCfg 1 0x00 ;;;
  WriteCfg LCR LCR_EIGHT_BITS ;;;
  WriteCfg FCR (Z.lor FCR_FIFO_ENABLE FCR_FIFO_CLEAR) ;;;
  WriteCfg IER (Z.lor IER_TX_ENABLE IER_RX_ENABLE) ;;;
  initlock Luart.

(** Every turn that does not return moves [uart_tx_r] one closer to
    [uart_tx_w]: their distance bounds the turns. *)
Definition uartstart : K unit :=
  fun w =>
    let u0 := k_uart (wk w) in
    while_ (S (Z.to_nat (u64 (u_tx_w u0 - u_tx_r u0))))
      (fun _ : unit =>
         let* u := kget k_uart in
         if u_tx_w u =? u_tx_r u then ret (inr tt) else
         let* lsr := ReadLSR in
         if negb (truth (Z.land lsr LSR_TX_IDLE)) then ret (inr tt) else
         let* c := nth_or_fault "uart_tx_buf" (u_tx_buf u) (u_tx_r u mod UART_TX_BUF_SIZE) in
         uart_mod (set_u_tx_r (u64 (u_tx_r u + 1))) ;;;
         wakeup Cuart ;;;
         WriteTHR c ;;;
         ret (inl tt)) tt w.

(** The wait for space uses up one element of the schedule per turn. *)
Definition uartputc (c : Z) : K unit :=
  acquire Luart ;;;
  let* pk := kget k_panicked in
  if truth pk then hang else
  fun w =>
    while_ (S (length (wenv w)))
      (fun _ : unit =>
         let* u := kget k_uart in
         if u_tx_w u =? u64 (u_tx_r u + UART_TX_BUF_SIZE)
         then sleep Cuart Luart ;;; ret (inl tt)
         else
           uart_mod (set_u_tx_buf
             (<[Z.to_nat (u_tx_w u mod UART_TX_BUF_SIZE) := u8 c]> (u_tx_buf u))) ;;;
           uart_mod (set_u_tx_w (u64 (u_tx_w u + 1))) ;;;
           uartstart ;;;
           release Luart ;;;
           ret (inr tt)) tt w.

(** [while((ReadReg(LSR) & LSR_TX_IDLE) == 0) ;]: each turn uses up one answer
    of the device. *)
Definition uart_wait_idle : K unit :=
  fun w =>
    while_ (S (length (u_idle (k_uart (wk w)))))
      (fun _ : unit =>
         let* lsr := ReadLSR in
         if truth (Z.land lsr LSR_TX_IDLE) then ret (inr tt) else ret (inl tt)) tt w.

Definition uartputc_sync (c : Z) : K unit :=
  push_off ;;;
  let* pk := kget k_panicked in
  if truth pk then hang else
  uart_wait_idle ;;;
  WriteTHR c ;;;
  pop_off.

Definition uartgetc : K Z :=
  let* lsr := ReadLSR in
  if truth (Z.land lsr 0x01) then ReadRHR else ret (-1).

(** ** console.c: consputc *)

Definition BACKSPACE : Z := 0x100.

Definition consputc (c : Z) : K unit :=
  if c =? BACKSPACE
  then uartputc_sync 8 ;;; uartputc_sync (chr " ") ;;; uartputc_sync 8
  else uartputc_sync c.

(** ** printf.c *)

Definition digits : list Z := cstr "0123456789abcdef".

(** [do { buf[i++] = digits[x % base]; } while((x /= base) != 0);] -- the
    digits stored, least significant first; [room] is what is left of [buf]. *)
Fixpoint digit_loop (digits : list Z) (room : nat) (x base : Z) : option (list Z) :=
  match room with
  | O => None
  | S room' =>
      let d := default 0 (digits !! Z.to_nat (x mod base)) in
      if x / base =? 0 then Some [d]
      else match digit_loop digits room' (x / base) base with
           | Some l => Some (d :: l)
           | None => None
           end
  end.

(** The contents of [buf] when [printint] starts to print, [buf[0]] first. *)
Definition printint_buf (xx base sign : Z) : option (list Z) :=
  let neg := truth sign && (s32 xx <? 0) in
  let x := if neg then u32 (- s32 xx) else u32 xx in
  match digit_loop digits 16 x base with
  | None => None
  | Some l =>
      if neg then (if Nat.ltb (length l) 16 then Some (l ++ [chr "-"]) else None) else Some l
  end.

Fixpoint put_all (l : list Z) : K unit :=
  match l with
  | [] => ret tt
  | c :: l' => consputc c ;;; put_all l'
  end.

Definition printint (xx base sign : Z) : K unit :=
  match printint_buf xx base sign with
  | None => fault "printint: buf overflow"
  | Some b => put_all (reverse b)
  end.

(** [for (i = 0; i < 16; i++, x <<= 4) consputc(digits[x >> 60]);] *)
Fixpoint printptr_loop (n : nat) (x : Z) : K unit :=
  match n with
  | O => ret tt
  | S n' =>
      consputc (default 0 (digits !! Z.to_nat (Z.shiftr x 60))) ;;;
      printptr_loop n' (u64 (Z.shiftl x 4))
  end.

Definition printptr (x : Z) : K unit :=
  consputc (chr "0") ;;; consputc (chr "x") ;;; printptr_loop 16 (u64 x).

(** An argument of [printf]: an integer or pointer, or a string (a null
    pointer is [None]). *)
Inductive parg : Type := PInt (z : Z) | PStr (s : option (list Z)).

(** The loop of [printf] over the rest of the format. *)
Fixpoint printf_loop (fmt : list Z) (args : list parg) : K unit :=
  match fmt with
  | [] => ret tt
  | c :: fmt1 =>
      if c =? 0 then ret tt
      else if negb (c =? chr "%") then consputc c ;;; printf_loop fmt1 args
      else
        match fmt1 with
        | [] => ret tt
        | c :: fmt' =>
            if c =? 0 then ret tt
            else if c =? chr "d" then
              match args with
              | PInt z :: args' => printint z 10 1 ;;; printf_loop fmt' args'
              | _ => fault "va_arg"
              end
            else if c =? chr "x" then
              match args with
              | PInt z :: args' => printint z 16 1 ;;; printf_loop fmt' args'
              | _ => fault "va_arg"
              end
            else if c =? chr "u" then
              match args with
              | PInt z :: args' => printint z 10 0 ;;; printf_loop fmt' args'
              | _ => fault "va_arg"
              end
            else if c =? chr "p" then
              match args with
              | PInt z :: args' => printptr z ;;; printf_loop fmt' args'
              | _ => fault "va_arg"
              end
            else if c =? chr "s" then
              match args with
              | PStr s :: args' =>
                  put_all (c_string (default (cstr "(null)") s)) ;;; printf_loop fmt' args'
              | _ => fault "va_arg"
              end
            else if c =? chr "%" then consputc (chr "%") ;;; printf_loop fmt' args
            else consputc (chr "%") ;;; consputc c ;;; printf_loop fmt' args
        end
  end.

(** [fmt] is [None] for a null format. *)
Definition vprintf (fmt : option (list Z)) (args : list parg) : K unit :=
  let* locking := kget k_pr_locking in
  when (truth locking) (acquire Lpr) ;;;
  match fmt with
  | None => panic "null fmt"
  | Some f => printf_loop f args
  end ;;;
  when (truth locking) (release Lpr).

Definition printf (fmt : list Z) (args : list parg) : K unit := vprintf (Some fmt) args.

(** What [panic] does before the machine stops; the outcome [Panic] of the
    other definitions stands for calling it. *)
Definition panic_body (s : list Z) : K unit :=
  kmod (set_k_pr_locking 0) ;;;
  printf (cstr "panic: ") [] ;;;
  printf s [] ;;;
  printf [10] [] ;;;
  kmod (set_k_panicked 1) ;;;
  hang.

Definition printfinit : K unit :=
  initlock Lpr ;;;
  kmod (set_k_pr_locking 1).

(** ** Lemmas *)

(** The answers left once the transmitter has been seen idle. *)
Fixpoint after_idle (l : list bool) : list bool :=
  match l with
  | [] => []
  | b :: l' => if b then l' else after_idle l'
  end.

Definition sent (c : Z) (u : uart) : uart :=
  set_u_out (u_out u ++ [u8 c]) (set_u_idle (after_idle (u_idle u)) u).

Lemma lsr_idle u : truth (Z.land (lsr_val u) LSR_TX_IDLE) = default true (head (u_idle u)).
Proof. unfold lsr_val. by destruct (bool_decide _), (default _ _). Qed.

Lemma lsr_ready u : truth (Z.land (lsr_val u) 0x01) = negb (bool_decide (u_in u = [])).
Proof. unfold lsr_val. by destruct (bool_decide _), (default _ _). Qed.

Lemma ReadLSR_eq k e :
  ReadLSR (W k e) =
  Ret (lsr_val (k_uart k)) (W (set_k_uart (set_u_idle (tail (u_idle (k_uart k))) (k_uart k)) k) e).
Proof. unfold ReadLSR. by repeat k_step. Qed.

Lemma uart_wait_idle_eq k e :
  uart_wait_idle (W k e) =
  Ret tt (W (set_k_uart (set_u_idle (after_idle (u_idle (k_uart k))) (k_uart k)) k) e).
Proof.
  unfold uart_wait_idle. simpl wk. remember (u_idle (k_uart k)) as l eqn:Hl.
  revert k Hl. induction l as [|b l IH]; intros k Hl.
  - rewrite while_S, bind_assoc, (bind_Ret _ _ _ _ _ (ReadLSR_eq k e)).
    rewrite lsr_idle, <- Hl. simpl. by repeat k_step.
  - cbn [length]. rewrite while_S, bind_assoc, (bind_Ret _ _ _ _ _ (ReadLSR_eq k e)).
    rewrite lsr_idle, <- Hl. simpl.
    destruct b; [by repeat k_step|]. k_step. rewrite IH by done. by destruct k.
Qed.

Lemma uartputc_sync_eq c k e :
  k_panicked k = 0 ->
  uartputc_sync c (W k e) = Ret tt (W (set_k_uart (sent c (k_uart k)) k) e).
Proof.
  intros Hp. unfold uartputc_sync, push_off. repeat k_step. rewrite Hp. simpl.
  rewrite (bind_Ret _ _ _ _ _ (uart_wait_idle_eq _ _)). unfold WriteTHR. repeat k_step.
  unfold pop_off. repeat k_step. by destruct k.
Qed.

(** Sending several bytes, first to last. *)
Definition sent_all (l : list Z) (u : uart) : uart := fold_left (fun u c => sent c u) l u.

Lemma u_out_sent_all l u : u_out (sent_all l u) = u_out u ++ (u8 <$> l).
Proof.
  revert u. induction l as [|c l IH]; intros u; simpl; [by rewrite app_nil_r|].
  rewrite IH. simpl. by rewrite <- app_assoc.
Qed.

Lemma sent_all_frame l u :
  u_tx_buf (sent_all l u) = u_tx_buf u /\ u_tx_w (sent_all l u) = u_tx_w u /\
  u_tx_r (sent_all l u) = u_tx_r u /\ u_in (sent_all l u) = u_in u.
Proof. revert u. induction l as [|c l IH]; intros u; simpl; [done|]. apply (IH (sent c u)). Qed.

Lemma consputc_eq c k e :
  k_panicked k = 0 -> c <> BACKSPACE ->
  consputc c (W k e) = Ret tt (W (set_k_uart (sent c (k_uart k)) k) e).
Proof.
  intros Hp Hc. unfold consputc. destruct (Z.eqb_spec c BACKSPACE); [done|].
  by apply uartputc_sync_eq.
Qed.

Lemma put_all_eq l k e :
  k_panicked k = 0 -> Forall (fun c => c <> BACKSPACE) l ->
  put_all l (W k e) = Ret tt (W (set_k_uart (sent_all l (k_uart k)) k) e).
Proof.
  intros Hp Hl. revert k Hp. induction Hl as [|c l Hc Hl IH]; intros k Hp; simpl.
  - by destruct k.
  - rewrite (bind_Ret _ _ _ _ _ (consputc_eq c k e Hp Hc)). rewrite IH by done. by destruct k.
Qed.

(** The state after the text [l] has been printed. *)
Definition say (l : list Z) (k : kernel) : kernel := set_k_uart (sent_all l (k_uart k)) k.

Lemma say_nil k : say [] k = k.
Proof. by destruct k. Qed.

Lemma say_app a b k : say (a ++ b) k = say b (say a k).
Proof. unfold say, sent_all. rewrite fold_left_app. by destruct k. Qed.

(** The kernel can print: nobody has panicked, and the caller does not hold
    the lock of [printf]. *)
Definition can_print (k : kernel) : Prop := k_panicked k = 0 /\ Lpr ∉ k_held k.

Lemma printf_loop_text fmt args k e :
  k_panicked k = 0 -> Forall (fun c => c <> 0 /\ c <> chr "%" /\ c <> BACKSPACE) fmt ->
  printf_loop fmt args (W k e) = Ret tt (W (say fmt k) e).
Proof.
  intros Hp Hf. revert k Hp. induction Hf as [|c l (H0 & H1 & H2) Hl IH]; intros k Hp; cbn [printf_loop].
  - by rewrite say_nil.
  - rewrite (proj2 (Z.eqb_neq c 0)), (proj2 (Z.eqb_neq c (chr "%"))) by done. cbn [negb].
    rewrite (bind_Ret _ _ _ _ _ (consputc_eq c k e Hp H2)). rewrite IH by done.
    change (c :: l) with ([c] ++ l). by rewrite say_app.
Qed.

(** A text without conversions. *)
Lemma printf_text fmt args k e :
  can_print k -> Forall (fun c => c <> 0 /\ c <> chr "%" /\ c <> BACKSPACE) fmt ->
  printf fmt args (W k e) = Ret tt (W (say fmt k) e).
Proof.
  intros [Hp Hl] Hf. unfold printf, vprintf. rewrite bind_kget. simpl wk.
  destruct (truth (k_pr_locking k)); unfold when.
  - rewrite (bind_Ret _ _ _ _ _ (acquire_eq Lpr k e Hl)).
    rewrite (bind_Ret _ _ _ _ _ (printf_loop_text fmt args (lockk Lpr k) e Hp Hf)).
    rewrite release_eq by (simpl; done || set_solver). do 2 f_equal.
    change (unlockk Lpr (say fmt (lockk Lpr k))) with (say fmt (unlockk Lpr (lockk Lpr k))). by rewrite unlockk_lockk.
  - rewrite bind_ret_l. by rewrite (bind_Ret _ _ _ _ _ (printf_loop_text fmt args k e Hp Hf)).
Qed.

(** The number a string of digits stands for, most significant digit first. *)
Definition digit_val (c : Z) : Z :=
  if (chr "0" <=? c) && (c <=? chr "9") then c - chr "0"
  else if (chr "a" <=? c) && (c <=? chr "f") then c - chr "a" + 10 else 0.

Definition read_digits (base : Z) (l : list Z) : Z :=
  fold_left (fun n c => n * base + digit_val c) l 0.

(** ... with an optional sign. *)
Definition read_number (base : Z) (l : list Z) : Z :=
  match l with
  | c :: l' => if c =? chr "-" then - read_digits base l' else read_digits base l
  | [] => 0
  end.

Lemma digits_lookup d :
  0 <= d < 16 ->
  exists c, digits !! Z.to_nat d = Some c /\ digit_val c = d /\ 48 <= c < 128.
Proof.
  intros Hd.
  assert (Forall (fun i => match digits !! i with
                           | Some c => digit_val c = Z.of_nat i /\ 48 <= c < 128
                           | None => False end) (seq 0 16)) as H.
  { repeat constructor; vm_compute; intuition congruence. }
  rewrite list.Forall_forall in H. specialize (H (Z.to_nat d)).
  destruct (digits !! Z.to_nat d) as [c|].
  - exists c. destruct H as [H1 H2]; [apply elem_of_seq; lia|]. split_and!; [done|lia|lia..].
  - destruct H. apply elem_of_seq. lia.
Qed.

Lemma digit_loop_spec base room x :
  2 <= base <= 16 -> 0 <= x < base ^ Z.of_nat room -> (0 < room)%nat ->
  exists l, digit_loop digits room x base = Some l /\ l <> [] /\ (length l <= room)%nat /\
    Forall (fun c => 48 <= c < 128) l /\ read_digits base (reverse l) = x.
Proof.
  intros Hb. revert x. induction room as [|room IH]; intros x Hx Hr; [lia|]. simpl.
  destruct (digits_lookup (x mod base)) as (c & Hc & Hv & Hrange).
  { pose proof (Z.mod_pos_bound x base). lia. }
  rewrite Hc. simpl. pose proof (Z.div_mod x base). destruct (Z.eqb_spec (x / base) 0) as [Hq|Hq].
  - exists [c]. split_and!; [done|done|simpl; lia|constructor; [lia|constructor]|].
    unfold read_digits. simpl. lia.
  - assert (0 <= x / base) by (apply Z.div_pos; lia).
    destruct (IH (x / base)) as (l & Hl & Hne & Hlen & Hf & Hval).
    + split; [done|]. apply Z.div_lt_upper_bound; [lia|].
      rewrite Nat2Z.inj_succ, Z.pow_succ_r in Hx by lia. lia.
    + destruct room; [|lia]. exfalso. apply Hq. apply Z.div_small.
      change (Z.of_nat 1) with 1 in Hx. rewrite Z.pow_1_r in Hx. lia.
    + exists (c :: l). rewrite Hl. split_and!; [done|done|simpl; lia|by constructor|].
      rewrite reverse_cons. unfold read_digits in *. rewrite fold_left_app. simpl.
      rewrite Hval. lia.
Qed.

(** The room given does not change the digits. *)
Lemma digit_loop_room ds base r1 r2 x l1 l2 :
  digit_loop ds r1 x base = Some l1 -> digit_loop ds r2 x base = Some l2 -> l1 = l2.
Proof.
  revert r2 x l1 l2. induction r1 as [|r1 IH]; intros [|r2] x l1 l2; simpl; try done.
  destruct (x / base =? 0); [congruence|].
  destruct (digit_loop ds r1 (x / base) base) eqn:E1; [|done].
  destruct (digit_loop ds r2 (x / base) base) eqn:E2; [|done].
  intros [= <-] [= <-]. f_equal. eauto.
Qed.

Lemma printint_buf_spec xx base :
  base = 10 \/ base = 16 -> - 2 ^ 31 <= xx < 2 ^ 31 ->
  exists l, printint_buf xx base 1 = Some l /\
    Forall (fun c => 0 <= c < 256) (reverse l) /\ read_number base (reverse l) = xx.
Proof.
  intros Hb Hx. unfold printint_buf. rewrite s32_small by done. change (truth 1) with true.
  rewrite andb_true_l. cbv zeta.
  set (x := if xx <? 0 then u32 (- xx) else u32 xx).
  assert (x = Z.abs xx) as Hax.
  { unfold x. destruct (Z.ltb_spec xx 0); rewrite u32_small; lia. }
  clearbody x.
  destruct (digit_loop_spec base 16 x) as (l & Hl & Hne & Hlen & Hf & Hval).
  { lia. } { rewrite Hax. destruct Hb as [-> | ->]; change (Z.of_nat 16) with 16; lia. } { lia. }
  assert (Forall (fun c => 0 <= c < 256) (reverse l)) as Hrev.
  { apply Forall_reverse. eapply Forall_impl; [|exact Hf]. simpl. lia. }
  rewrite Hl. destruct (Z.ltb_spec xx 0) as [Hneg|Hpos].
  - destruct (digit_loop_spec base 15 x) as (l' & Hl' & _ & Hlen' & _).
    { lia. } { rewrite Hax. destruct Hb as [-> | ->]; change (Z.of_nat 15) with 15; lia. } { lia. }
    assert (l' = l) as -> by (eapply digit_loop_room; [exact Hl'|exact Hl]).
    rewrite (proj2 (Nat.ltb_lt _ _)) by lia. eexists. split; [done|].
    rewrite reverse_app. change (reverse [chr "-"] ++ reverse l) with (chr "-" :: reverse l).
    split; [constructor; [vm_compute; intuition congruence|done]|].
    unfold read_number. rewrite Z.eqb_refl. cbv iota. rewrite Hval. lia.
  - exists l. split_and!; [done|done|]. unfold read_number. rewrite <- Hval in Hax.
    destruct (reverse l) as [|c r] eqn:Er.
    { apply (f_equal reverse) in Er. by rewrite reverse_involutive in Er. }
    assert (48 <= c) as Hc.
    { assert (c ∈ l) as Hin by (apply elem_of_reverse; rewrite Er; apply list_elem_of_here).
      rewrite list.Forall_forall in Hf. specialize (Hf c Hin). lia. }
    destruct (Z.eqb_spec c (chr "-")) as [->|]; [vm_compute in Hc; congruence|]. lia.
Qed.

(** ** Properties *)

(** The kernel's [printint] in base 10 or 16 prints a text that reads back
    as the number it was given, sign included, for every [int]; it returns,
    appends to the serial output and changes nothing else. *)
Theorem printint_roundtrip xx base k e :
  base = 10 \/ base = 16 -> - 2 ^ 31 <= xx < 2 ^ 31 -> k_panicked k = 0 ->
  exists u l,
    printint xx base 1 (W k e) = Ret tt (W (set_k_uart u k) e) /\
    u_out u = u_out (k_uart k) ++ l /\ read_number base l = xx /\
    u_tx_buf u = u_tx_buf (k_uart k) /\ u_tx_w u = u_tx_w (k_uart k) /\
    u_tx_r u = u_tx_r (k_uart k) /\ u_in u = u_in (k_uart k).
Proof.
  intros Hb Hx Hp. destruct (printint_buf_spec xx base Hb Hx) as (l & Hl & Hf & Hv).
  exists (sent_all (reverse l) (k_uart k)), (reverse l).
  unfold printint. rewrite Hl. rewrite put_all_eq; [|done|].
  - split_and!; [done| |done|apply sent_all_frame..].
    rewrite u_out_sent_all. f_equal. by apply map_u8_id.
  - eapply Forall_impl; [|exact Hf]. unfold BACKSPACE. simpl. lia.
Qed.

Lemma printint_roundtrip_witness :
  (16 = 10 \/ 16 = 16) /\ - 2 ^ 31 <= -255 < 2 ^ 31 /\ k_panicked kernel0 = 0 /\
  exists u l,
    printint (-255) 16 1 (W kernel0 []) = Ret tt (W (set_k_uart u kernel0) []) /\
    u_out u = u_out (k_uart kernel0) ++ l /\ read_number 16 l = -255.
Proof.
  split_and!; [by right|lia|lia|done|].
  destruct (printint_roundtrip (-255) 16 kernel0 []) as (u & l & H1 & H2 & H3 & _);
    [by right|lia|reflexivity|]. exists u, l. split_and!; [exact H1|exact H2|exact H3].
Defined.
