(* ===== verification/Vm.v ===== *)
(** * vm.c: page tables

    Sv39 page tables as the bytes [walk] reads and writes: a table is a page
    of 512 little-endian words, an entry holds a physical page number and
    flags.  [page_at m root path] follows valid entries from the root and
    [leaf m root va] is the entry a page table gives for a virtual address,
    0 when a level is missing: the table as an abstract map, which the theorems
    below say what the routines do to.  The part of [vm.c] that works with the
    swap file is in [Paging] and [Swap]. *)

From Stdlib Require Import ZArith Lia.
From stdpp Require Import base gmap list strings numbers.
From S2P Require Import Prelude Riscv State Klib Sched Kalloc Uart.

(** ** Definitions *)

Section vm.
Context `{L : Layout}.

(** The levels [walk]'s loop goes through are those of [levels]. *)
Fixpoint walk_loop (levels : list Z) (pagetable va : Z) (alloc : bool) : K Z :=
  match levels with
  | [] => ret (pagetable + 8 * PX 0 va)
  | level :: levels' =>
      let pte := pagetable + 8 * PX level va in
      let* v := load64 pte in
      if truth (Z.land v PTE_V) then walk_loop levels' (PTE2PA v) va alloc
      else if negb alloc then ret 0 else
      let* pagetable' := kalloc in
      if pagetable' =? 0 then ret 0 else
      mem_mod (fun m => memset m pagetable' 0 PGSIZE) ;;;
      store64 pte (Z.lor (PA2PTE pagetable') PTE_V) ;;;
      walk_loop levels' pagetable' va alloc
  end.

(** The address of the entry for [va], 0 for none. *)
Definition walk (pagetable va : Z) (alloc : bool) : K Z :=
  if MAXVA <=? va then panic "walk" else walk_loop [2; 1] pagetable va alloc.

Definition walkaddr (pagetable va : Z) : K Z :=
  if MAXVA <=? va then ret 0 else
  let* pte := walk pagetable va false in
  if pte =? 0 then ret 0 else
  let* v := load64 pte in
  when (truth (Z.land v PTE_PG)) (printf (cstr "walkaddr(): pte PTE_PG is on" ++ [10]) []) ;;;
  if Z.land v PTE_V =? 0 then ret 0 else
  if Z.land v PTE_U =? 0 then ret 0 else
  let pa := PTE2PA v in
  when (pa =? 0) (printf (cstr " walkaddr(): pa == 0" ++ [10]) []) ;;;
  ret pa.

(** Turns of a loop over the pages from [a] to [last] that [walk] stops with a
    panic at [MAXVA]. *)
Definition map_fuel (a last : Z) : nat :=
  S (S (Z.to_nat ((if a <=? last then last - a else MAXVA - a) / PGSIZE))).

Definition mappages_body (pagetable perm last : Z) : Z * Z -> K (Z * Z + Z) :=
  fun '(a, pa) =>
    let* pte := walk pagetable a true in
    if pte =? 0 then ret (inr (-1)) else
    let* v := load64 pte in
    if truth (Z.land v PTE_V) then panic "remap" else
    store64 pte (Z.lor (Z.lor (PA2PTE pa) perm) PTE_V) ;;;
    if a =? last then ret (inr 0)
    else ret (inl (u64 (a + PGSIZE), u64 (pa + PGSIZE))).

Definition mappages (pagetable va size pa perm : Z) : K Z :=
  let a := PGROUNDDOWN va in
  let last := PGROUNDDOWN (u64 (va + size - 1)) in
  while_ (map_fuel a last) (mappages_body pagetable perm last) (a, pa).

Definition mappages2 (pagetable va size pa perm : Z) : K Z :=
  let a := PGROUNDDOWN va in
  let last := PGROUNDDOWN (u64 (va + size - 1)) in
  while_ (map_fuel a last)
    (fun '(a, pa) =>
       let* pte := walk pagetable a false in
       if pte =? 0 then ret (inr (-1)) else
       store64 pte (Z.lor (Z.lor (PA2PTE pa) perm) PTE_V) ;;;
       if a =? last then ret (inr 0)
       else ret (inl (u64 (a + PGSIZE), u64 (pa + PGSIZE))))
    (a, pa).

Definition kvmmap (kpgtbl va pa sz perm : Z) : K unit :=
  let* r := mappages kpgtbl va sz pa perm in
  when (negb (r =? 0)) (panic "kvmmap").

(** [memset] of a page whose allocation was not checked. *)
Definition clear_page (p : Z) : K unit :=
  if p =? 0 then fault "memset(0)" else mem_mod (fun m => memset m p 0 PGSIZE).

Definition proc_mapstacks (kpgtbl : Z) : K unit :=
  for_all (Z.to_nat NPROC) 0 (fun p =>
    let* pa := kalloc in
    if pa =? 0 then panic "kalloc" else
    kvmmap kpgtbl (KSTACK p) pa PGSIZE (Z.lor PTE_R PTE_W)).

Definition kvmmake : K Z :=
  let* kpgtbl := kalloc in
  clear_page kpgtbl ;;;
  kvmmap kpgtbl UART0 UART0 PGSIZE (Z.lor PTE_R PTE_W) ;;;
  kvmmap kpgtbl VIRTIO0 VIRTIO0 PGSIZE (Z.lor PTE_R PTE_W) ;;;
  kvmmap kpgtbl PLIC PLIC 0x400000 (Z.lor PTE_R PTE_W) ;;;
  kvmmap kpgtbl KERNBASE KERNBASE (etext - KERNBASE) (Z.lor PTE_R PTE_X) ;;;
  kvmmap kpgtbl etext etext (PHYSTOP - etext) (Z.lor PTE_R PTE_W) ;;;
  kvmmap kpgtbl TRAMPOLINE trampoline PGSIZE (Z.lor PTE_R PTE_X) ;;;
  proc_mapstacks kpgtbl ;;;
  ret kpgtbl.

Definition kvminit : K unit :=
  let* p := kvmmake in
  kmod (set_k_kernel_pagetable p).

Definition csr_mod (f : csrs -> csrs) : K unit := kmod (fun k => set_k_csr (f (k_csr k)) k).

Definition kvminithart : K unit :=
  let* p := kget k_kernel_pagetable in
  csr_mod (w_satp (MAKE_SATP p)) ;;;
  csr_mod sfence_vma.

Definition uvmcreate : K Z :=
  let* pagetable := kalloc in
  if pagetable =? 0 then ret 0 else
  mem_mod (fun m => memset m pagetable 0 PGSIZE) ;;;
  ret pagetable.

Definition uvminit (pagetable : Z) (src : list Z) : K unit :=
  if PGSIZE <=? Z.of_nat (length src) then panic "inituvm: more than a page" else
  let* mem := kalloc in
  clear_page mem ;;;
  let* _ := mappages pagetable 0 PGSIZE mem
              (Z.lor (Z.lor (Z.lor PTE_W PTE_R) PTE_X) PTE_U) in
  mem_mod (fun m => st_bytes m mem src).

(** The recursion goes down one level per step: [depth] bounds the levels. *)
Fixpoint freewalk (depth : nat) (pagetable : Z) : K unit :=
  match depth with
  | O => nofuel
  | S depth' =>
      for_all 512 0 (fun i =>
        let* pte := load64 (pagetable + 8 * i) in
        if truth (Z.land pte PTE_V) &&
           (Z.land pte (Z.lor (Z.lor PTE_R PTE_W) PTE_X) =? 0)
        then
          freewalk depth' (PTE2PA pte) ;;;
          store64 (pagetable + 8 * i) 0
        else when (truth (Z.land pte PTE_V)) (panic "freewalk: leaf")) ;;;
      kfree pagetable
  end.

Definition uvmclear (pagetable va : Z) : K unit :=
  let* pte := walk pagetable va false in
  if pte =? 0 then panic "uvmclear" else
  let* v := load64 pte in
  store64 pte (Z.land v (Z.lnot PTE_U)).

(** ** The abstract page table *)

(** The page reached from the table at [p] through the indices [path]. *)
Fixpoint page_at (m : memory) (p : Z) (path : list Z) : option Z :=
  match path with
  | [] => Some p
  | i :: path' =>
      let v := ld64 m (p + 8 * i) in
      if truth (Z.land v PTE_V) then page_at m (PTE2PA v) path' else None
  end.

Definition path_of (va : Z) : list Z := [PX 2 va; PX 1 va].

(** The entry for [va]. *)
Definition leaf (m : memory) (root va : Z) : Z :=
  match page_at m root (path_of va) with
  | Some q => ld64 m (q + 8 * PX 0 va)
  | None => 0
  end.

(** A path that stays inside the two upper levels. *)
Definition path_ok (path : list Z) : Prop :=
  (length path <= 2)%nat /\ Forall (fun i => 0 <= i < 512) path.

(** The tables reached from [root] are distinct pages of RAM, none of them on
    the free list [l]: no page of the tree is shared or free. *)
Definition pt_ok (m : memory) (root : Z) (l : list Z) : Prop :=
  (forall path q, path_ok path -> page_at m root path = Some q -> page_ok q /\ (q ∉ l)) /\
  (forall path path' q, path_ok path -> path_ok path' ->
     page_at m root path = Some q -> page_at m root path' = Some q -> path = path').

(** ** Lemmas: following a path *)

Lemma page_at_app m p path path' :
  page_at m p (path ++ path') =
  match page_at m p path with Some q => page_at m q path' | None => None end.
Proof.
  revert p. induction path as [|i path IH]; intros p; [done|]. simpl.
  destruct (truth _); [apply IH|done].
Qed.

Lemma path_of_ok va : path_ok (path_of va).
Proof.
  split; [simpl; lia|]. repeat (constructor; [apply PX_range|]). constructor.
Qed.

Lemma path_ok_app_l path path' : path_ok (path ++ path') -> path_ok path.
Proof.
  intros [Hl Hf]. rewrite length_app in Hl. apply Forall_app in Hf as [Hf _].
  split; [lia|done].
Qed.

Lemma path_ok_idx path i : path_ok (path ++ [i]) -> 0 <= i < 512.
Proof. intros [_ Hf]. apply Forall_app in Hf as [_ Hf]. by inversion Hf. Qed.

(** Without [alloc], [walk] only looks. *)
Lemma walk_loop_look levels p va k e :
  walk_loop levels p va false (W k e) =
  Ret (match page_at (k_mem k) p ((fun l => PX l va) <$> levels) with
       | Some q => q + 8 * PX 0 va
       | None => 0
       end) (W k e).
Proof.
  revert p. induction levels as [|l levels IH]; intros p; [done|].
  simpl walk_loop. k_step. simpl. destruct (truth _); [apply IH|done].
Qed.

Lemma walk_look p va k e :
  va < MAXVA ->
  walk p va false (W k e) =
  Ret (match page_at (k_mem k) p (path_of va) with
       | Some q => q + 8 * PX 0 va
       | None => 0
       end) (W k e).
Proof.
  intros H. unfold walk. rewrite (proj2 (Z.leb_gt MAXVA va)) by done. apply walk_loop_look.
Qed.

(** Two entries of aligned pages are the same word or do not overlap. *)
Lemma entry_disjoint p q i j :
  p mod PGSIZE = 0 -> q mod PGSIZE = 0 -> 0 <= i < 512 -> 0 <= j < 512 ->
  (p <> q \/ i <> j) -> p + 8 * i + 8 <= q + 8 * j \/ q + 8 * j + 8 <= p + 8 * i.
Proof. unfold PGSIZE. intros. Z.to_euclidean_division_equations. lia. Qed.

Lemma entry_in_page p i a : 0 <= i < 512 -> p + 8 * i <= a < p + 8 * i + 8 -> in_page p a.
Proof. unfold in_page, PGSIZE. lia. Qed.

(** *** Hanging a fresh, zeroed table page [n] at entry [i] of the table [p] *)
Section install.
Context (m m' : memory) (root : Z) (l : list Z) (pre : list Z) (p i n : Z).
Hypothesis Hok : pt_ok m root (n :: l).
Hypothesis Hpre : page_at m root pre = Some p.
Hypothesis Hpath : path_ok (pre ++ [i]).
Hypothesis Hinv : truth (Z.land (ld64 m (p + 8 * i)) PTE_V) = false.
Hypothesis Hn : page_ok n.
Hypothesis Hnl : n ∉ l.
Hypothesis Hframe : forall a, ~ in_page n a -> ~ (p + 8 * i <= a < p + 8 * i + 8) ->
  ld8 m' a = ld8 m a.
Hypothesis Hzero : forall a, in_page n a -> ld8 m' a = 0.
Hypothesis Hent : truth (Z.land (ld64 m' (p + 8 * i)) PTE_V) = true.
Hypothesis Hpa : PTE2PA (ld64 m' (p + 8 * i)) = n.

Lemma install_ld64 pre' q j :
  path_ok pre' -> page_at m root pre' = Some q -> 0 <= j < 512 ->
  (pre' <> pre \/ j <> i) -> ld64 m' (q + 8 * j) = ld64 m (q + 8 * j).
Proof.
  intros Hp' Hq Hj Hne. destruct Hok as [Hok1 Hok2].
  destruct (Hok1 _ _ Hp' Hq) as [[Hqa _] Hqn].
  destruct (Hok1 _ _ (path_ok_app_l _ _ Hpath) Hpre) as [[Hpal _] _].
  pose proof (path_ok_idx _ _ Hpath) as Hi.
  assert (p <> q \/ i <> j) as Hpq.
  { destruct Hne as [Hne|Hne]; [left|right; congruence]. intros ->. apply Hne.
    by apply (Hok2 _ _ q Hp' (path_ok_app_l _ _ Hpath)). }
  apply ld64_ext. intros x Hx. apply Hframe.
  - intros Hin. apply Hqn. rewrite <- (in_page_disjoint n q (q + 8 * j + x)); try done.
    + apply list_elem_of_here.
    + apply Hn.
    + apply (entry_in_page q j); lia.
  - pose proof (entry_disjoint p q i j Hpal Hqa Hi Hj Hpq). lia.
Qed.

(** Paths that do not go through the new entry lead where they led. *)
Lemma install_other path' pre' q :
  page_at m root pre' = Some q -> path_ok (pre' ++ path') ->
  (forall suf, pre' ++ path' <> (pre ++ [i]) ++ suf) ->
  page_at m' q path' = page_at m q path'.
Proof.
  revert pre' q. induction path' as [|j path' IH]; intros pre' q Hq Hp' Hne; [done|].
  simpl. assert (path_ok (pre' ++ [j])) as Hp1.
  { apply (path_ok_app_l _ path'). by rewrite <- app_assoc. }
  rewrite (install_ld64 pre').
  - destruct (truth (Z.land (ld64 m (q + 8 * j)) PTE_V)) eqn:E; [|done]. apply (IH (pre' ++ [j])).
    + rewrite page_at_app, Hq. simpl. by rewrite E.
    + by rewrite <- app_assoc.
    + intros suf. rewrite <- app_assoc. apply Hne.
  - by apply path_ok_app_l in Hp1.
  - done.
  - by apply path_ok_idx in Hp1.
  - destruct (decide (pre' = pre)) as [->|]; [right|by left]. intros ->.
    apply (Hne path'). by rewrite <- app_assoc.
Qed.

Lemma install_pre : page_at m' root pre = Some p.
Proof.
  rewrite (install_other pre [] root); [done|done| |].
  - by apply path_ok_app_l in Hpath.
  - intros suf Heq. apply (f_equal length) in Heq. simpl in Heq.
    rewrite !length_app in Heq. simpl in Heq. lia.
Qed.

Lemma install_zero j : 0 <= j < 512 -> ld64 m' (n + 8 * j) = 0.
Proof.
  intros Hj. apply ld64_zero. intros x Hx. apply Hzero.
  apply (entry_in_page n j); lia.
Qed.

(** Paths through the new entry end at the new page. *)
Lemma install_new suf :
  Forall (fun j => 0 <= j < 512) suf ->
  page_at m' root ((pre ++ [i]) ++ suf) = match suf with [] => Some n | _ => None end.
Proof.
  intros Hf. rewrite !page_at_app, install_pre. simpl. rewrite Hent, Hpa.
  destruct suf as [|j suf]; [done|]. simpl. apply Forall_inv in Hf.
  by rewrite install_zero.
Qed.

Lemma install_cases path :
  path_ok path ->
  (page_at m' root path = page_at m root path /\
   (forall suf, path <> (pre ++ [i]) ++ suf)) \/
  (exists suf, path = (pre ++ [i]) ++ suf /\ page_at m root path = None /\
     page_at m' root path = match suf with [] => Some n | _ => None end).
Proof.
  intros Hp. destruct (decide (take (length (pre ++ [i])) path = pre ++ [i])) as [Ht|Ht].
  - right. exists (drop (length (pre ++ [i])) path).
    assert (path = (pre ++ [i]) ++ drop (length (pre ++ [i])) path) as Heq.
    { rewrite <- Ht at 1. symmetry. apply take_drop. }
    split_and!; [done| |].
    + rewrite Heq, !page_at_app, Hpre. simpl. by rewrite Hinv.
    + rewrite Heq at 1. apply install_new. apply Forall_drop, Hp.
  - left. assert (forall suf, path <> (pre ++ [i]) ++ suf) as Hne.
    { intros suf ->. apply Ht. by rewrite take_app_length. }
    split; [|done]. by apply (install_other path []).
Qed.

Lemma install_pt_ok : pt_ok m' root l.
Proof.
  destruct Hok as [Hok1 Hok2]. split.
  - intros path q Hp Hq.
    destruct (install_cases path Hp) as [[Heq _]|(suf & -> & _ & Heq)]; rewrite Heq in Hq.
    + destruct (Hok1 _ _ Hp Hq) as [H1 H2]. split; [done|].
      by apply not_elem_of_cons in H2 as [_ H2].
    + destruct suf; [|done]. by injection Hq as <-.
  - intros path path' q Hp Hp' Hq Hq'.
    destruct (install_cases path Hp) as [[Heq _]|(suf & -> & _ & Heq)]; rewrite Heq in Hq;
    destruct (install_cases path' Hp') as [[Heq' _]|(suf' & -> & _ & Heq')]; rewrite Heq' in Hq'.
    + by apply (Hok2 _ _ q).
    + destruct suf'; [|done]. injection Hq' as <-. destruct (Hok1 _ _ Hp Hq) as [_ Hx].
      exfalso. apply Hx, list_elem_of_here.
    + destruct suf; [|done]. injection Hq as <-. destruct (Hok1 _ _ Hp' Hq') as [_ Hx].
      exfalso. apply Hx, list_elem_of_here.
    + destruct suf, suf'; done.
Qed.

(** No address gets another entry. *)
Lemma install_leaf va : leaf m' root va = leaf m root va.
Proof.
  unfold leaf. destruct (install_cases _ (path_of_ok va)) as [[Heq Hne]|(suf & Hs & Hm & Heq)].
  - rewrite Heq. destruct (page_at m root (path_of va)) as [q|] eqn:Hq; [|done].
    apply (install_ld64 (path_of va)); [apply path_of_ok|done|apply PX_range|].
    left. intros Hpp. destruct Hpath as [Hlen _]. rewrite length_app, <- Hpp in Hlen.
    simpl in Hlen. lia.
  - rewrite Heq, Hm. destruct suf; [|done]. apply install_zero, PX_range.
Qed.

Lemma install_mono path q :
  path_ok path -> page_at m root path = Some q -> page_at m' root path = Some q.
Proof.
  intros Hp Hq. destruct (install_cases path Hp) as [[-> _]|(suf & _ & Hm & _)]; [done|].
  congruence.
Qed.
End install.

(** *** What [walk] with [alloc] does to the tables

    From [k] with free pages [l] to [k'] with free pages [l']: the tables grow
    by pages of [l], and outside the tables and the pages of [l] memory is
    unchanged. *)
Record pt_grow (root : Z) (k k' : kernel) (l l' : list Z) : Prop := {
  pg_kmem : kmem_inv k' l';
  pg_ok : pt_ok (k_mem k') root l';
  pg_state : exists m fl, k' = set_k_mem m (set_k_freelist fl k);
  pg_used : exists used, l = used ++ l';
  pg_mono : forall path q, path_ok path ->
    page_at (k_mem k) root path = Some q -> page_at (k_mem k') root path = Some q;
  pg_frame : forall a,
    (forall path q, path_ok path -> page_at (k_mem k') root path = Some q -> ~ in_page q a) ->
    (forall p, p ∈ l -> ~ in_page p a) -> ld8 (k_mem k') a = ld8 (k_mem k) a;
}.

Lemma pt_grow_refl root k l : kmem_inv k l -> pt_ok (k_mem k) root l -> pt_grow root k k l l.
Proof.
  intros H1 H2. constructor; try done.
  - exists (k_mem k), (k_freelist k). by destruct k.
  - by exists [].
Qed.

Lemma pt_grow_trans root k k1 k2 l l1 l2 :
  pt_grow root k k1 l l1 -> pt_grow root k1 k2 l1 l2 -> pt_grow root k k2 l l2.
Proof.
  intros [A1 A2 (m & fl & ->) [u ->] A6 A7] [B1 B2 (m' & fl' & ->) [u' ->] B6 B7].
  constructor; try done.
  - exists m', fl'. by destruct k.
  - exists (u ++ u'). by rewrite app_assoc.
  - eauto.
  - intros a H1 H2. rewrite B7, A7; [done| |done|done|].
    + intros path q Hp Hq. apply (H1 path q Hp). by apply B6.
    + intros p Hp. apply H2, elem_of_app. by right.
Qed.

Lemma pt_grow_held root k k' l l' : pt_grow root k k' l l' -> k_held k' = k_held k.
Proof. intros [_ _ (m & fl & ->) _ _ _]. done. Qed.

Lemma kmem_inv_frame k l ps m' :
  kmem_inv k l -> same_off ps (k_mem k) m' -> Forall (fun p => p mod PGSIZE = 0) ps ->
  (forall x, x ∈ l -> x ∉ ps) -> kmem_inv (set_k_mem m' k) l.
Proof.
  intros (H1 & H2 & H3) Hs Hps Hx. split_and!; [|done|done]. simpl.
  by apply (chain_frame ps (k_mem k)).
Qed.

Lemma PTE_V_entry n :
  0 <= n < 2 ^ 56 -> n mod PGSIZE = 0 ->
  truth (Z.land (u64 (Z.lor (PA2PTE n) PTE_V)) PTE_V) = true /\
  PTE2PA (u64 (Z.lor (PA2PTE n) PTE_V)) = n.
Proof.
  intros Hn Ha. rewrite u64_small by (apply PTE_range; [done..|by vm_compute]).
  split; [|by apply PTE2PA_PA2PTE].
  change PTE_V with (Z.shiftl 1 0). rewrite testbit_flag by lia.
  rewrite Z.lor_spec. apply orb_true_r.
Qed.

Lemma page_ok_small `{!LayoutOk L} n : page_ok n -> 0 <= n < 2 ^ 56.
Proof.
  intros H. apply page_ok_range in H. unfold PHYSTOP, KERNBASE, PGSIZE in *. lia.
Qed.

(** The state after a missing table was added at entry [i] of [p]. *)
Definition tabled (p i n : Z) (k : kernel) : kernel :=
  set_k_mem (st64 (memset (k_mem (popped n k)) n 0 PGSIZE) (p + 8 * i)
    (Z.lor (PA2PTE n) PTE_V)) (popped n k).

Lemma pt_grow_install `{!LayoutOk L} root k l pre p i n :
  kmem_inv k (n :: l) -> Lkmem ∉ k_held k -> pt_ok (k_mem k) root (n :: l) ->
  page_at (k_mem k) root pre = Some p -> path_ok (pre ++ [i]) ->
  truth (Z.land (ld64 (k_mem k) (p + 8 * i)) PTE_V) = false ->
  pt_grow root k (tabled p i n k) (n :: l) l /\
  (forall va, leaf (k_mem (tabled p i n k)) root va = leaf (k_mem k) root va) /\
  page_at (k_mem (tabled p i n k)) root (pre ++ [i]) = Some n.
Proof.
  intros Hk Hh Hpt Hpre Hpath Hinv.
  destruct (kalloc_pop k [] n l Hh Hk) as [_ Hk1].
  destruct Hk as (_ & Hnd & Hok). apply list.NoDup_cons in Hnd as [Hnl _].
  apply Forall_inv in Hok as Hn.
  destruct (proj1 Hpt _ _ (path_ok_app_l _ _ Hpath) Hpre) as [Hp Hpn].
  pose proof (path_ok_idx _ _ Hpath) as Hi.
  assert (n <> p) as Hnp by (intros ->; apply Hpn, list_elem_of_here).
  unfold tabled. set (k1 := popped n k) in *.
  set (m' := st64 (memset (k_mem k1) n 0 PGSIZE) (p + 8 * i) (Z.lor (PA2PTE n) PTE_V)).
  change (k_mem (set_k_mem m' k1)) with m'.
  assert (same_off [n; p] (k_mem k1) m') as Hs.
  { intros a Ha. unfold m'. rewrite same_off_st64 with (p := p).
    - apply same_off_memset. intros q ->%list_elem_of_singleton.
      apply Ha. apply list_elem_of_here.
    - lia.
    - unfold PGSIZE. lia.
    - intros q ->%list_elem_of_singleton. apply Ha. apply list_elem_of_further, list_elem_of_here. }
  assert (forall a, ~ in_page n a -> ~ (p + 8 * i <= a < p + 8 * i + 8) ->
            ld8 m' a = ld8 (k_mem k) a) as Hframe.
  { intros a Hna Hpa. unfold m', st64.
    rewrite ld8_st_bytes_ne by (rewrite length_le_bytes; lia).
    unfold in_page in Hna. unfold k1. simpl. rewrite !ld8_memset by (unfold PGSIZE; lia).
    rewrite !decide_False by done. done. }
  assert (forall a, in_page n a -> ld8 m' a = 0) as Hzero.
  { intros a Hna. unfold m', st64. rewrite ld8_st_bytes_ne.
    - rewrite ld8_memset by (unfold PGSIZE; lia). by rewrite decide_True.
    - rewrite length_le_bytes. intros Hin. apply Hnp.
      apply (in_page_disjoint n p a); [apply Hn|apply Hp|done|].
      apply (entry_in_page p i); lia. }
  destruct (PTE_V_entry n (page_ok_small n Hn) (proj1 Hn)) as [He1 He2].
  rewrite <- (ld64_st64_eq (memset (k_mem k1) n 0 PGSIZE) (p + 8 * i)) in He1, He2.
  fold m' in He1, He2.
  split_and!.
  - constructor.
    + apply (kmem_inv_frame k1 l [n; p] m' Hk1 Hs).
      * constructor; [apply Hn|]. constructor; [apply Hp|constructor].
      * intros x Hx [->|Hxp%list_elem_of_singleton]%elem_of_cons; [exact (Hnl Hx)|subst x].
        apply Hpn. by apply list_elem_of_further.
    + by apply (install_pt_ok (k_mem k) m' root l pre p i n).
    + eexists m', (k_freelist k1). unfold k1, popped. destruct k. reflexivity.
    + by exists [n].
    + intros path q. by apply (install_mono (k_mem k) m' root l pre p i n).
    + intros a Ha Hal. apply Hframe.
      * apply Hal, list_elem_of_here.
      * intros Hin. apply (Ha pre p (path_ok_app_l _ _ Hpath)).
        -- by apply (install_pre (k_mem k) m' root l pre p i n).
        -- by apply (entry_in_page p i).
  - intros va. by apply (install_leaf (k_mem k) m' root l pre p i n).
  - rewrite <- (app_nil_r (pre ++ [i])).
    by apply (install_new (k_mem k) m' root l pre p i n).
Qed.

Lemma kalloc_installs `{!LayoutOk L} k e n l :
  kmem_inv k (n :: l) -> Lkmem ∉ k_held k ->
  kalloc (W k e) = Ret n (W (popped n k) e) /\ (n =? 0) = false.
Proof.
  intros Hk Hh. destruct (kalloc_pop k e n l Hh Hk) as [Hrun _]. split; [exact Hrun|].
  destruct Hk as (_ & _ & Hok). apply Z.eqb_neq, page_nonzero. by apply Forall_inv in Hok.
Qed.

Lemma mem2_run {A} (f g : memory -> memory) k e (c : K A) :
  (mem_mod f ;;; mem_mod g ;;; c) (W k e) = c (W (set_k_mem (g (f (k_mem k))) k) e).
Proof. by destruct k. Qed.

Lemma tabled_run {A} p i n k e (c : K A) :
  (mem_mod (fun m => memset m n 0 PGSIZE) ;;;
   store64 (p + 8 * i) (Z.lor (PA2PTE n) PTE_V) ;;; c) (W (popped n k) e) =
  c (W (tabled p i n k) e).
Proof. unfold store64. rewrite mem2_run. reflexivity. Qed.

(** [walk] with [alloc]: it gives the entry's address, or 0 once memory has run
    out; either way the page table as a map is what it was. *)
Lemma walk_loop_alloc `{!LayoutOk L} root va e levels pre p k l :
  kmem_inv k l -> Lkmem ∉ k_held k -> pt_ok (k_mem k) root l ->
  page_at (k_mem k) root pre = Some p ->
  pre ++ ((fun l => PX l va) <$> levels) = path_of va ->
  exists r k' l',
    walk_loop levels p va true (W k e) = Ret r (W k' e) /\ pt_grow root k k' l l' /\
    (forall va', leaf (k_mem k') root va' = leaf (k_mem k) root va') /\
    ((exists q, r = q + 8 * PX 0 va /\ page_at (k_mem k') root (path_of va) = Some q) \/
     (r = 0 /\ l' = [])).
Proof.
  revert pre p k l. induction levels as [|lv levels IH]; intros pre p k l Hk Hh Hpt Hpre Hpath.
  - rewrite app_nil_r in Hpath. subst pre. eexists _, k, l.
    split_and!; [reflexivity|by apply pt_grow_refl|done|]. left. by exists p.
  - rewrite fmap_cons in Hpath.
    assert (pre ++ [PX lv va] ++ ((fun l => PX l va) <$> levels) = path_of va) as Hpath' by done.
    rewrite app_assoc in Hpath'.
    assert (path_ok (pre ++ [PX lv va])) as Hpok.
    { eapply path_ok_app_l. rewrite Hpath'. apply path_of_ok. }
    simpl walk_loop. unfold load64. rewrite bind_kget.
    destruct (truth (Z.land (ld64 (k_mem k) (p + 8 * PX lv va)) PTE_V)) eqn:Ev; cbn [negb].
    + apply (IH (pre ++ [PX lv va])); try done.
      rewrite page_at_app, Hpre. simpl. by rewrite Ev.
    + destruct l as [|n l].
      * rewrite (bind_Ret _ _ _ _ _ (kalloc_none k e Hh Hk)). eexists 0, k, [].
        split_and!; [reflexivity|by apply pt_grow_refl|done|by right].
      * destruct (kalloc_installs k e n l Hk Hh) as [Hrun Hnz].
        rewrite (bind_Ret _ _ _ _ _ Hrun), Hnz, tabled_run.
        destruct (pt_grow_install root k l pre p (PX lv va) n) as (Hg & Hleaf & Hat); try done.
        destruct (IH (pre ++ [PX lv va]) n (tabled p (PX lv va) n k) l)
          as (r & k' & l' & Hrun' & Hg' & Hleaf' & Hr).
        -- apply Hg.
        -- done.
        -- apply Hg.
        -- done.
        -- done.
        -- exists r, k', l'. split_and!; [exact Hrun'| | |done].
           ++ eapply pt_grow_trans; [exact Hg|exact Hg'].
           ++ intros va'. by rewrite Hleaf'.
Qed.

Lemma walk_alloc `{!LayoutOk L} root va e k l :
  va < MAXVA -> kmem_inv k l -> Lkmem ∉ k_held k -> pt_ok (k_mem k) root l ->
  exists r k' l',
    walk root va true (W k e) = Ret r (W k' e) /\ pt_grow root k k' l l' /\
    (forall va', leaf (k_mem k') root va' = leaf (k_mem k) root va') /\
    ((exists q, r = q + 8 * PX 0 va /\ page_at (k_mem k') root (path_of va) = Some q) \/
     (r = 0 /\ l' = [])).
Proof.
  intros Hva Hk Hh Hpt. unfold walk. rewrite (proj2 (Z.leb_gt MAXVA va)) by done.
  by apply (walk_loop_alloc root va e [2; 1] []).
Qed.

(** *** Storing a leaf entry *)

Lemma page_at_leaf_store m root l q path' pre' p' va v :
  pt_ok m root l -> page_at m root (path_of va) = Some q ->
  page_at m root pre' = Some p' -> path_ok (pre' ++ path') ->
  page_at (st64 m (q + 8 * PX 0 va) v) p' path' = page_at m p' path'.
Proof.
  intros [Hok1 Hok2] Hq. revert pre' p'.
  induction path' as [|j path' IH]; intros pre' p' Hp' Hpo; [done|]. simpl.
  assert (path_ok (pre' ++ [j])) as Hp1.
  { apply (path_ok_app_l _ path'). by rewrite <- app_assoc. }
  assert (ld64 (st64 m (q + 8 * PX 0 va) v) (p' + 8 * j) = ld64 m (p' + 8 * j)) as ->.
  { apply ld64_st64_ne.
    destruct (Hok1 _ _ (path_of_ok va) Hq) as [[Hqa _] _].
    destruct (Hok1 _ _ (path_ok_app_l _ _ Hp1) Hp') as [[Hpa _] _].
    apply (entry_disjoint p' q j (PX 0 va)); try done; [by apply path_ok_idx in Hp1|apply PX_range|].
    left. intros ->. assert (pre' = path_of va) as ->.
    { by apply (Hok2 _ _ q); [apply (path_ok_app_l _ _ Hp1)|apply path_of_ok|..]. }
    destruct Hp1 as [Hlen _]. rewrite length_app in Hlen. simpl in Hlen. lia. }
  destruct (truth (Z.land (ld64 m (p' + 8 * j)) PTE_V)) eqn:E; [|done].
  apply (IH (pre' ++ [j])); [|by rewrite <- app_assoc].
  rewrite page_at_app, Hp'. simpl. by rewrite E.
Qed.

(** Two addresses have the same entry when they lie in the same page. *)
Definition same_page (va va' : Z) : bool := PGROUNDDOWN va =? PGROUNDDOWN va'.

Lemma PX_rounddown level va : 0 <= level -> PX level (PGROUNDDOWN va) = PX level va.
Proof.
  intros. rewrite !PX_spec by done. f_equal. rewrite PGROUNDDOWN_spec.
  rewrite Z.pow_add_r by lia. change (2 ^ 12) with PGSIZE.
  rewrite <- !Z.div_div by (unfold PGSIZE; lia). f_equal.
  unfold PGSIZE. Z.to_euclidean_division_equations. lia.
Qed.

Lemma leaf_rounddown m root va : leaf m root (PGROUNDDOWN va) = leaf m root va.
Proof. unfold leaf, path_of. by rewrite !PX_rounddown by lia. Qed.

Lemma same_page_PX va va' :
  0 <= va < MAXVA -> 0 <= va' < MAXVA ->
  same_page va va' = true <-> path_of va = path_of va' /\ PX 0 va = PX 0 va'.
Proof.
  intros Hva Hva'. unfold same_page. rewrite Z.eqb_eq. split.
  - intros H. unfold path_of.
    rewrite <- (PX_rounddown 2 va), <- (PX_rounddown 1 va), <- (PX_rounddown 0 va), H by lia.
    by rewrite !PX_rounddown by lia.
  - unfold path_of. intros [H1 H0]. injection H1 as H2 H1.
    pose proof (PGROUNDDOWN_bounds va). pose proof (PGROUNDDOWN_bounds va').
    pose proof (PGROUNDDOWN_aligned va). pose proof (PGROUNDDOWN_aligned va').
    apply PX_inj; try done; try (rewrite !PX_rounddown by lia; done).
    all: unfold PGSIZE in *; Z.to_euclidean_division_equations; lia.
Qed.

Lemma leaf_store m root l q va v va' :
  pt_ok m root l -> page_at m root (path_of va) = Some q ->
  0 <= va < MAXVA -> 0 <= va' < MAXVA ->
  leaf (st64 m (q + 8 * PX 0 va) v) root va' =
  if same_page va va' then u64 v else leaf m root va'.
Proof.
  intros Hok Hq Hva Hva'. unfold leaf.
  rewrite (page_at_leaf_store m root l q (path_of va') [] root va v)
    by (try done; apply path_of_ok).
  destruct (same_page va va') eqn:E.
  - apply same_page_PX in E as [Hp H0]; [|done..]. rewrite <- Hp, Hq, <- H0. apply ld64_st64_eq.
  - destruct (page_at m root (path_of va')) as [q'|] eqn:Hq'; [|done].
    apply ld64_st64_ne. destruct Hok as [Hok1 Hok2].
    destruct (Hok1 _ _ (path_of_ok va) Hq) as [[Hqa _] _].
    destruct (Hok1 _ _ (path_of_ok va') Hq') as [[Hqa' _] _].
    apply entry_disjoint; try done; [apply PX_range..|].
    destruct (decide (q' = q)) as [->|]; [right|by left]. intros H0.
    enough (same_page va va' = true) by congruence.
    apply same_page_PX; [done..|]. split; [|done].
    apply (Hok2 _ _ q); try done; apply path_of_ok.
Qed.

(** Writing an entry keeps the tables as they are. *)
Lemma pt_grow_store root k l q va v :
  kmem_inv k l -> pt_ok (k_mem k) root l ->
  page_at (k_mem k) root (path_of va) = Some q ->
  pt_grow root k (set_k_mem (st64 (k_mem k) (q + 8 * PX 0 va) v) k) l l.
Proof.
  intros Hk Hpt Hq. pose proof (PX_range 0 va) as Hi.
  destruct (proj1 Hpt _ _ (path_of_ok va) Hq) as [Hqok Hql].
  assert (forall path, path_ok path ->
    page_at (st64 (k_mem k) (q + 8 * PX 0 va) v) root path = page_at (k_mem k) root path) as Hpa.
  { intros path Hp. by apply (page_at_leaf_store (k_mem k) root l q path [] root va v). }
  set (m' := st64 (k_mem k) (q + 8 * PX 0 va) v) in *.
  assert (same_off [q] (k_mem k) m') as Hs.
  { apply same_off_st64; [lia|unfold PGSIZE; lia]. }
  clearbody m'.
  constructor.
  - apply (kmem_inv_frame k l [q] m' Hk Hs).
    + constructor; [apply Hqok|constructor].
    + intros x Hx ->%list_elem_of_singleton. exact (Hql Hx).
  - destruct Hpt as [H1 H2]. split.
    + intros path q' Hp Hq'. rewrite Hpa in Hq' by done. by apply (H1 path).
    + intros path path' q' Hp Hp' Hq1 Hq2. rewrite Hpa in Hq1, Hq2 by done.
      by apply (H2 path path' q').
  - exists m', (k_freelist k). by destruct k.
  - by exists [].
  - intros path q' Hp Hq'. by rewrite Hpa.
  - intros a Ha _. apply Hs. intros p ->%list_elem_of_singleton.
    apply (Ha (path_of va) q (path_of_ok va)). by rewrite Hpa by apply path_of_ok.
Qed.

(** The entry [mappages] writes. *)
Definition mk_pte (pa perm : Z) : Z := u64 (Z.lor (Z.lor (PA2PTE pa) perm) PTE_V).

(** Its fields. *)
Lemma mk_pte_spec pa perm :
  0 <= pa < 2 ^ 56 -> pa mod PGSIZE = 0 -> 0 <= perm < 2 ^ 10 ->
  PTE2PA (mk_pte pa perm) = pa /\ truth (Z.land (mk_pte pa perm) PTE_V) = true /\
  (forall i, 0 < i < 10 ->
     truth (Z.land (mk_pte pa perm) (Z.shiftl 1 i)) = Z.testbit perm i).
Proof.
  intros Hpa Hal Hp. unfold mk_pte. rewrite <- Z.lor_assoc.
  assert (0 <= Z.lor perm PTE_V < 2 ^ 10) as Hf.
  { split; [apply Z.lor_nonneg; split; [lia|by vm_compute]|].
    destruct (decide (Z.lor perm PTE_V = 0)) as [->|]; [lia|].
    apply Z.log2_lt_pow2; [pose proof (proj2 (Z.lor_nonneg perm PTE_V)); unfold PTE_V in *;
      assert (0 <= Z.shiftl 1 0) by (by vm_compute); lia|].
    rewrite Z.log2_lor by (try lia; by vm_compute). apply Z.max_lub_lt; [|by vm_compute].
    destruct (decide (perm = 0)) as [->|]; [by vm_compute|]. apply Z.log2_lt_pow2; lia. }
  rewrite u64_small by (by apply PTE_range). split_and!.
  - by apply PTE2PA_PA2PTE.
  - change PTE_V with (Z.shiftl 1 0) at 2. rewrite testbit_flag, PTE_testbit by (done || lia).
    rewrite Z.lor_spec. apply orb_true_r.
  - intros i Hi. rewrite testbit_flag, PTE_testbit by (done || lia).
    rewrite Z.lor_spec. change PTE_V with (2 ^ 0). rewrite Z.pow2_bits_false by lia.
    apply orb_false_r.
Qed.

(** The page table of [m'] is that of [m] with the [n] pages from [a] on
    mapped to consecutive physical pages from [pa] on. *)
Definition mapped (m m' : memory) (root a pa perm n : Z) : Prop :=
  forall va, 0 <= va < MAXVA ->
    leaf m' root va =
    if (a <=? PGROUNDDOWN va) && (PGROUNDDOWN va <? a + n * PGSIZE)
    then mk_pte (u64 (pa + (PGROUNDDOWN va - a))) perm else leaf m root va.

Lemma PGROUNDDOWN_va va : 0 <= va < MAXVA -> 0 <= PGROUNDDOWN va < MAXVA.
Proof.
  intros H. rewrite PGROUNDDOWN_spec. change MAXVA with (2 ^ 38) in *. unfold PGSIZE.
  Z.to_euclidean_division_equations. lia.
Qed.

Lemma mapped_S m m1 m2 root a pa perm j :
  a mod PGSIZE = 0 -> 0 <= a -> 0 <= j -> a + j * PGSIZE < MAXVA ->
  mapped m m1 root a pa perm j ->
  (forall va, 0 <= va < MAXVA -> leaf m2 root va =
     if same_page (a + j * PGSIZE) va
     then mk_pte (u64 (pa + j * PGSIZE)) perm else leaf m1 root va) ->
  mapped m m2 root a pa perm (j + 1).
Proof.
  intros Ha Ha0 Hj0 Hj Hm H2 va Hva. rewrite H2 by done. unfold same_page.
  assert ((a + j * PGSIZE) mod PGSIZE = 0) as Hal.
  { unfold PGSIZE in *. by rewrite Z.mod_add. }
  rewrite (PGROUNDDOWN_id (a + j * PGSIZE)) by done.
  pose proof (PGROUNDDOWN_aligned va) as Hav.
  destruct (Z.eqb_spec (a + j * PGSIZE) (PGROUNDDOWN va)) as [<-|Hne].
  - rewrite (proj2 (Z.leb_le _ _)) by (unfold PGSIZE; lia).
    rewrite (proj2 (Z.ltb_lt _ _)) by (unfold PGSIZE; lia). simpl. do 2 f_equal. lia.
  - rewrite (Hm va Hva). destruct (Z.leb_spec a (PGROUNDDOWN va)); simpl; [|done].
    destruct (Z.ltb_spec (PGROUNDDOWN va) (a + j * PGSIZE)),
      (Z.ltb_spec (PGROUNDDOWN va) (a + (j + 1) * PGSIZE)); try done; exfalso;
      unfold PGSIZE in *; Z.to_euclidean_division_equations; lia.
Qed.

Lemma u64_add_l x y : u64 (u64 x + y) = u64 (x + y).
Proof. unfold u64. by rewrite Zplus_mod_idemp_l. Qed.

(** The loop of [mappages] from its [j]-th page on. *)
Section mappages.
Context `{!LayoutOk L} (root a pa perm n : Z) (k0 : kernel) (l0 : list Z).
Hypothesis Ha : a mod PGSIZE = 0.
Hypothesis Ha0 : 0 <= a.
Hypothesis Hend : a + n * PGSIZE <= MAXVA.
Hypothesis Hun : forall va, a <= va < a + n * PGSIZE ->
  truth (Z.land (leaf (k_mem k0) root va) PTE_V) = false.
Hypothesis Hh : Lkmem ∉ k_held k0.

Lemma mappages_step j k l e :
  0 <= j < n -> pt_grow root k0 k l0 l -> mapped (k_mem k0) (k_mem k) root a pa perm j ->
  exists res k' l' i,
    mappages_body root perm (a + (n - 1) * PGSIZE) (a + j * PGSIZE, u64 (pa + j * PGSIZE))
      (W k e) = Ret res (W k' e) /\
    pt_grow root k0 k' l0 l' /\ mapped (k_mem k0) (k_mem k') root a pa perm i /\
    ((res = inr (-1) /\ i = j /\ l' = []) \/
     (res = inr 0 /\ i = n /\ j = n - 1) \/
     (res = inl (a + (j + 1) * PGSIZE, u64 (pa + (j + 1) * PGSIZE)) /\ i = j + 1 /\ j < n - 1)).
Proof.
  intros Hj Hg Hm.
  assert (0 <= a + j * PGSIZE < MAXVA) as Hva by (unfold PGSIZE in *; lia).
  pose proof (pt_grow_held _ _ _ _ _ Hg) as Hhk.
  destruct (walk_alloc root (a + j * PGSIZE) e k l) as (r & k1 & l1 & Hrun & Hg1 & Hl1 & Hr);
    [lia|apply Hg|by rewrite Hhk|apply Hg|].
  assert (mapped (k_mem k0) (k_mem k1) root a pa perm j) as Hm1.
  { intros va Hv. rewrite Hl1. by apply Hm. }
  pose proof (pt_grow_trans _ _ _ _ _ _ _ Hg Hg1) as Hg2.
  unfold mappages_body. rewrite (bind_Ret _ _ _ _ _ Hrun).
  destruct Hr as [(q & -> & Hq)|[-> ->]]; cycle 1.
  { eexists _, k1, [], j. split_and!; [reflexivity|done|done|by left]. }
  assert (leaf (k_mem k1) root (a + j * PGSIZE) =
          ld64 (k_mem k1) (q + 8 * PX 0 (a + j * PGSIZE))) as Hleaf.
  { unfold leaf. by rewrite Hq. }
  destruct (proj1 (pg_ok _ _ _ _ _ Hg1) _ _ (path_of_ok _) Hq) as [Hqok _].
  pose proof (PX_range 0 (a + j * PGSIZE)). pose proof (page_ok_range q Hqok) as [Hq0 _].
  rewrite (proj2 (Z.eqb_neq _ 0)) by (unfold KERNBASE in *; lia).
  unfold load64. rewrite bind_kget, <- Hleaf, Hl1.
  assert (truth (Z.land (leaf (k_mem k) root (a + j * PGSIZE)) PTE_V) = false) as Hinv.
  { rewrite Hm by done. rewrite PGROUNDDOWN_id.
    - rewrite (proj2 (Z.ltb_ge _ _)) by lia. rewrite andb_false_r. apply Hun.
      unfold PGSIZE in *; lia.
    - unfold PGSIZE in *. by rewrite Z.mod_add. }
  rewrite Hinv. unfold store64, mem_mod. rewrite bind_kmod.
  set (k2 := set_k_mem _ k1).
  assert (pt_grow root k0 k2 l0 l1) as Hg3.
  { eapply pt_grow_trans; [exact Hg2|]. apply pt_grow_store; [apply Hg1|apply Hg1|done]. }
  assert (mapped (k_mem k0) (k_mem k2) root a pa perm (j + 1)) as Hm2.
  { eapply (mapped_S _ (k_mem k1)); [done|done|lia|lia|done|]. intros va Hv.
    apply (leaf_store _ _ l1); [apply Hg1|done..]. }
  clearbody k2.
  destruct (Z.eqb_spec (a + j * PGSIZE) (a + (n - 1) * PGSIZE)) as [Heq|Hne].
  - eexists _, k2, l1, (j + 1). split_and!; [reflexivity|done|done|].
    right. left. unfold PGSIZE in *. split_and!; [done|lia|lia].
  - eexists _, k2, l1, (j + 1). split_and!; [reflexivity|done|done|]. right. right.
    split_and!; [|done|unfold PGSIZE in *; lia]. do 2 f_equal.
    + rewrite u64_small; [lia|]. change MAXVA with (2 ^ 38) in *. unfold PGSIZE in *. lia.
    + rewrite u64_add_l. f_equal. lia.
Qed.

Lemma mappages_loop r e : forall fuel j k l,
  Z.of_nat r = n - j -> 0 <= j < n -> (r <= fuel)%nat ->
  pt_grow root k0 k l0 l -> mapped (k_mem k0) (k_mem k) root a pa perm j ->
  exists res k' l' i,
    while_ fuel (mappages_body root perm (a + (n - 1) * PGSIZE))
      (a + j * PGSIZE, u64 (pa + j * PGSIZE)) (W k e) = Ret res (W k' e) /\
    pt_grow root k0 k' l0 l' /\ mapped (k_mem k0) (k_mem k') root a pa perm i /\
    ((res = 0 /\ i = n) \/ (res = -1 /\ 0 <= i < n /\ l' = [])).
Proof.
  induction r as [|r IH]; intros [|fuel] j k l Hr Hj Hf Hg Hm; try lia.
  destruct (mappages_step j k l e Hj Hg Hm) as (res & k1 & l1 & i & Hrun & Hg1 & Hm1 & Hcase).
  rewrite while_S, (bind_Ret _ _ _ _ _ Hrun).
  destruct Hcase as [(-> & -> & ->)|[(-> & -> & _)|(-> & -> & Hlt)]].
  - eexists _, k1, [], j. split_and!; [reflexivity|done|done|by right].
  - eexists _, k1, l1, n. split_and!; [reflexivity|done|done|by left].
  - apply (IH fuel (j + 1) k1 l1); [lia|lia|lia|done|done].
Qed.
End mappages.

(** [mappages] on an unmapped range of [n] pages below [MAXVA]. *)
Lemma mappages_run `{!LayoutOk L} root va size pa perm n e k l :
  0 <= va -> 0 < size -> va + size <= MAXVA ->
  n = (PGROUNDDOWN (va + size - 1) - PGROUNDDOWN va) / PGSIZE + 1 ->
  (forall va', PGROUNDDOWN va <= va' < PGROUNDDOWN va + n * PGSIZE ->
     truth (Z.land (leaf (k_mem k) root va') PTE_V) = false) ->
  Lkmem ∉ k_held k -> kmem_inv k l -> pt_ok (k_mem k) root l -> 0 <= pa < 2 ^ 64 ->
  exists res k' l' i,
    mappages root va size pa perm (W k e) = Ret res (W k' e) /\
    pt_grow root k k' l l' /\
    mapped (k_mem k) (k_mem k') root (PGROUNDDOWN va) pa perm i /\
    ((res = 0 /\ i = n) \/ (res = -1 /\ 0 <= i < n /\ l' = [])).
Proof.
  intros Hva Hsz Hend Hn Hun Hh Hk Hpt Hpa.
  pose proof (PGROUNDDOWN_aligned va) as Ha1. pose proof (PGROUNDDOWN_aligned (va + size - 1)) as Ha2.
  pose proof (PGROUNDDOWN_bounds va) as Hb1. pose proof (PGROUNDDOWN_bounds (va + size - 1)) as Hb2.
  assert (MAXVA mod PGSIZE = 0) as HM by (by vm_compute).
  unfold mappages. rewrite (u64_small (va + size - 1)) by (change MAXVA with (2 ^ 38) in *; lia).
  set (a := PGROUNDDOWN va) in *. set (b := PGROUNDDOWN (va + size - 1)) in *.
  assert (b = a + (n - 1) * PGSIZE) as Hb.
  { rewrite Hn. unfold PGSIZE in *. Z.to_euclidean_division_equations. lia. }
  assert (0 <= a /\ 1 <= n /\ a + n * PGSIZE <= MAXVA) as (Ha0 & Hn1 & Hle).
  { unfold PGSIZE in *. split_and!; [|..]; Z.to_euclidean_division_equations; lia. }
  rewrite Hb.
  destruct (mappages_loop root a pa perm n k l Ha1 Ha0 Hle Hun Hh (Z.to_nat n) e
    (map_fuel a (a + (n - 1) * PGSIZE)) 0 k l) as (res & k' & l' & i & Hrun & Hrest).
  - lia.
  - lia.
  - unfold map_fuel. rewrite (proj2 (Z.leb_le _ _)) by (unfold PGSIZE; lia).
    replace (a + (n - 1) * PGSIZE - a) with ((n - 1) * PGSIZE) by lia.
    rewrite Z.div_mul by (unfold PGSIZE; lia). lia.
  - by apply pt_grow_refl.
  - intros va' Hv. rewrite Z.mul_0_l, Z.add_0_r.
    destruct (Z.leb_spec a (PGROUNDDOWN va')), (Z.ltb_spec (PGROUNDDOWN va') a); try done; lia.
  - exists res, k', l', i. split; [|exact Hrest].
    rewrite Z.mul_0_l, !Z.add_0_r, (u64_small pa) in Hrun by done. exact Hrun.
Qed.

(** A change outside the table pages keeps the page table. *)
Lemma pt_frame_at m m' root :
  (forall path q a, path_ok path -> page_at m root path = Some q -> in_page q a ->
     ld8 m' a = ld8 m a) ->
  forall path pre q, page_at m root pre = Some q -> path_ok (pre ++ path) ->
  page_at m' q path = page_at m q path.
Proof.
  intros Hf. induction path as [|j path IH]; intros pre q Hq Hp; [done|]. simpl.
  assert (path_ok (pre ++ [j])) as Hp1.
  { apply (path_ok_app_l _ path). by rewrite <- app_assoc. }
  assert (ld64 m' (q + 8 * j) = ld64 m (q + 8 * j)) as ->.
  { apply ld64_ext. intros x Hx. apply (Hf pre q); [by eapply path_ok_app_l|done|].
    apply path_ok_idx in Hp1. apply (entry_in_page q j); lia. }
  destruct (truth (Z.land (ld64 m (q + 8 * j)) PTE_V)) eqn:E; [|done].
  apply (IH (pre ++ [j])); [|by rewrite <- app_assoc].
  rewrite page_at_app, Hq. simpl. by rewrite E.
Qed.

Lemma pt_frame m m' root :
  (forall path q a, path_ok path -> page_at m root path = Some q -> in_page q a ->
     ld8 m' a = ld8 m a) ->
  (forall path, path_ok path -> page_at m' root path = page_at m root path) /\
  (forall va, leaf m' root va = leaf m root va).
Proof.
  intros Hf. assert (forall path, path_ok path -> page_at m' root path = page_at m root path) as Hp.
  { intros path Hp. by apply (pt_frame_at m m' root Hf path []). }
  split; [done|]. intros va. unfold leaf. rewrite Hp by apply path_of_ok.
  destruct (page_at m root (path_of va)) as [q|] eqn:Hq; [|done].
  apply ld64_ext. intros x Hx. apply (Hf (path_of va) q); [apply path_of_ok|done|].
  pose proof (PX_range 0 va). apply (entry_in_page q (PX 0 va)); lia.
Qed.

Lemma pt_ok_frame m m' root l :
  (forall path, path_ok path -> page_at m' root path = page_at m root path) ->
  pt_ok m root l -> pt_ok m' root l.
Proof.
  intros Hp [H1 H2]. split.
  - intros path q Hpo Hq. rewrite Hp in Hq by done. by apply (H1 path).
  - intros path path' q Hp1 Hp2 Hq1 Hq2. rewrite Hp in Hq1, Hq2 by done.
    by apply (H2 path path' q).
Qed.

(** A zeroed page is an empty page table. *)
Lemma page_at_empty m root path q :
  (forall j, 0 <= j < 512 -> ld64 m (root + 8 * j) = 0) -> path_ok path ->
  page_at m root path = Some q -> path = [] /\ q = root.
Proof.
  intros Hz [_ Hf]. destruct path as [|j path]; simpl; [by intros [= ->]|].
  by rewrite Hz by (by apply Forall_inv in Hf).
Qed.

Lemma pt_ok_empty m root l :
  (forall j, 0 <= j < 512 -> ld64 m (root + 8 * j) = 0) -> page_ok root -> root ∉ l ->
  pt_ok m root l /\ forall va, leaf m root va = 0.
Proof.
  intros Hz Hr Hl. split; [split|].
  - intros path q Hp Hq. apply page_at_empty in Hq as [_ ->]; done.
  - intros path path' q Hp Hp' Hq Hq'.
    apply page_at_empty in Hq as [-> _]; [|done..].
    by apply page_at_empty in Hq' as [-> _].
  - intros va. unfold leaf, path_of. simpl. by rewrite Hz by apply PX_range.
Qed.

(** Three tables, one per level, with a single entry each. *)
Section chain.
Context (m : memory) (root t1 t0 i2 i1 : Z).
Hypothesis Hz2 : forall j, 0 <= j < 512 -> j <> i2 -> ld64 m (root + 8 * j) = 0.
Hypothesis Hz1 : forall j, 0 <= j < 512 -> j <> i1 -> ld64 m (t1 + 8 * j) = 0.
Hypothesis He2 : truth (Z.land (ld64 m (root + 8 * i2)) PTE_V) = true.
Hypothesis Hp2 : PTE2PA (ld64 m (root + 8 * i2)) = t1.
Hypothesis He1 : truth (Z.land (ld64 m (t1 + 8 * i1)) PTE_V) = true.
Hypothesis Hp1 : PTE2PA (ld64 m (t1 + 8 * i1)) = t0.

Lemma page_at_chain path q :
  path_ok path -> page_at m root path = Some q ->
  (path = [] /\ q = root) \/ (path = [i2] /\ q = t1) \/ (path = [i2; i1] /\ q = t0).
Proof.
  intros [Hlen Hf]. destruct path as [|j path]; simpl; [by intros [= ->]; left|].
  apply Forall_cons_iff in Hf as [Hj Hf]. destruct (decide (j = i2)) as [->|Hne];
    [|by rewrite Hz2]. rewrite He2, Hp2.
  destruct path as [|j' path]; simpl; [by intros [= ->]; right; left|].
  apply Forall_cons_iff in Hf as [Hj' Hf]. destruct (decide (j' = i1)) as [->|Hne];
    [|by rewrite Hz1]. rewrite He1, Hp1.
  destruct path; [|simpl in Hlen; lia]. intros [= ->]. by right; right.
Qed.

Lemma pt_ok_chain l :
  page_ok root -> page_ok t1 -> page_ok t0 -> NoDup [root; t1; t0] ->
  (forall x, x ∈ [root; t1; t0] -> x ∉ l) -> pt_ok m root l.
Proof.
  intros Hr H1 H0 Hnd Hl.
  apply list.NoDup_cons in Hnd as [Hn1 Hnd]. apply list.NoDup_cons in Hnd as [Hn2 _].
  assert (root <> t1 /\ root <> t0 /\ t1 <> t0) as (Hne1 & Hne2 & Hne3).
  { split_and!; intros Heq.
    - apply Hn1. rewrite Heq. apply list_elem_of_here.
    - apply Hn1. rewrite Heq. apply list_elem_of_further, list_elem_of_here.
    - apply Hn2. rewrite Heq. apply list_elem_of_here. }
  split.
  - intros path q Hp Hq.
    destruct (page_at_chain path q Hp Hq) as [[_ ->]|[[_ ->]|[_ ->]]]; (split; [done|apply Hl]).
    + apply list_elem_of_here.
    + apply list_elem_of_further, list_elem_of_here.
    + apply list_elem_of_further, list_elem_of_further, list_elem_of_here.
  - intros path path' q Hp Hp' Hq Hq'.
    destruct (page_at_chain path q Hp Hq) as [[-> ->]|[[-> ->]|[-> ->]]];
      destruct (page_at_chain path' _ Hp' Hq') as [[-> ?]|[[-> ?]|[-> ?]]]; congruence.
Qed.
End chain.

End vm.

(** ** Properties *)

Section properties.
Context `{L : Layout} `{!LayoutOk L}.

(** C13: [mappages] on a range below [MAXVA] that has no valid entry terminates.
    It returns 0 with exactly the pages of the range mapped, each to the next
    physical page with the permissions asked for; or -1 once no page is free,
    with a prefix of the range mapped.  Every other address keeps its entry,
    the tables stay a tree of distinct pages off the free list, and memory
    outside the tables and the pages taken from the free list is unchanged. *)
Theorem mappages_maps_range root va size pa perm n e k l :
  0 <= va -> 0 < size -> va + size <= MAXVA ->
  n = (PGROUNDDOWN (va + size - 1) - PGROUNDDOWN va) / PGSIZE + 1 ->
  (forall va', PGROUNDDOWN va <= va' < PGROUNDDOWN va + n * PGSIZE ->
     truth (Z.land (leaf (k_mem k) root va') PTE_V) = false) ->
  Lkmem ∉ k_held k -> kmem_inv k l -> pt_ok (k_mem k) root l -> 0 <= pa < 2 ^ 64 ->
  exists res m fl l' i,
    let k' := set_k_mem m (set_k_freelist fl k) in
    mappages root va size pa perm (W k e) = Ret res (W k' e) /\
    ((res = 0 /\ i = n) \/ (res = -1 /\ 0 <= i < n /\ l' = [])) /\
    mapped (k_mem k) m root (PGROUNDDOWN va) pa perm i /\
    kmem_inv k' l' /\ pt_ok m root l' /\ (exists used, l = used ++ l') /\
    (forall a,
       (forall path q, path_ok path -> page_at m root path = Some q -> ~ in_page q a) ->
       (forall p, p ∈ l -> ~ in_page p a) -> ld8 m a = ld8 (k_mem k) a).
Proof.
  intros Hva Hsz Hend Hn Hun Hh Hk Hpt Hpa.
  destruct (mappages_run root va size pa perm n e k l Hva Hsz Hend Hn Hun Hh Hk Hpt Hpa)
    as (res & k' & l' & i & Hrun & [G1 G2 (m & fl & ->) G4 _ G6] & Hm & Hres).
  exists res, m, fl, l', i. split_and!; try done.
Qed.
End properties.

(** ** Witnesses *)

(** A state with two free pages and an empty page table. *)
Definition pg (i : Z) : Z := PHYSTOP - i * PGSIZE.
Definition sample_vm : kernel :=
  set_k_mem (st64 ∅ (pg 1) (pg 2)) (set_k_freelist (pg 1) kernel0).

Lemma sample_vm_inv : @kmem_inv sample_layout sample_vm [pg 1; pg 2].
Proof.
  split_and!.
  - by vm_compute.
  - refine (bool_decide_unpack _ _). by vm_compute.
  - repeat (apply Forall_cons_2; [by vm_compute|]). apply Forall_nil_2.
Qed.

Lemma sample_vm_zero j : 0 <= j < 512 -> ld64 (k_mem sample_vm) (pg 3 + 8 * j) = 0.
Proof.
  intros Hj. unfold sample_vm. cbn [k_mem set_k_mem].
  rewrite ld64_st64_ne; [by vm_compute|].
  unfold pg, PGSIZE. lia.
Qed.

Lemma mappages_maps_range_witness :
  exists res m fl,
    mappages (pg 3) 0 PGSIZE (pg 4) 22 (W sample_vm []) =
      Ret res (W (set_k_mem m (set_k_freelist fl sample_vm)) []) /\
    (res = 0 -> leaf m (pg 3) 0 = mk_pte (pg 4) 22).
Proof.
  destruct (@pt_ok_empty sample_layout (k_mem sample_vm) (pg 3) [pg 1; pg 2]) as [Hpt Hz].
  - apply sample_vm_zero.
  - by vm_compute.
  - refine (bool_decide_unpack _ _). by vm_compute.
  - destruct (@mappages_maps_range sample_layout sample_layout_ok (pg 3) 0 PGSIZE (pg 4) 22 1 []
      sample_vm [pg 1; pg 2]) as (res & m & fl & l' & i & Hrun & Hres & Hm & _).
    + lia.
    + by vm_compute.
    + by vm_compute.
    + reflexivity.
    + intros va' _. by rewrite Hz.
    + by apply not_elem_of_nil.
    + apply sample_vm_inv.
    + exact Hpt.
    + by vm_compute.
    + exists res, m, fl. split; [exact Hrun|]. intros ->.
      destruct Hres as [[_ ->]|[Hc _]]; [|discriminate Hc].
      rewrite (Hm 0) by (clear; by vm_compute). clear. by vm_compute.
Defined.
