(* ===== verification/Usercopy.v ===== *)
(** * vm.c: copying between the kernel and user space

    [copyout], [copyin] and [copyinstr] go through the page table page by page.
    [ubyte m root va] is the byte a user address denotes; the theorems say that
    [copyin] reads those bytes, that [copyout] writes them and nothing else,
    and when the two fail. *)

From Stdlib Require Import ZArith Lia.
From stdpp Require Import base gmap list strings numbers.
From S2P Require Import Prelude Riscv State Klib Sched Kalloc Uart Vm.

(** ** Definitions *)

Section copy.
Context `{L : Layout}.

(** Each turn but the first and the last copies a whole page. *)
Definition copy_fuel (len : Z) : nat := S (S (S (Z.to_nat (len / PGSIZE)))).

Definition copyout_body (pagetable : Z) : Z * list Z -> K (Z * list Z + Z) :=
  fun '(dstva, src) =>
    let len := Z.of_nat (length src) in
    if negb (0 <? len) then ret (inr 0) else
    let va0 := PGROUNDDOWN dstva in
    let* pa0 := walkaddr pagetable va0 in
    if pa0 =? 0 then ret (inr (-1)) else
    let n := PGSIZE - (dstva - va0) in
    let n := if len <? n then len else n in
    mem_mod (fun m => st_bytes m (pa0 + (dstva - va0)) (take (Z.to_nat n) src)) ;;;
    ret (inl (va0 + PGSIZE, drop (Z.to_nat n) src)).

Definition copyout (pagetable dstva : Z) (src : list Z) : K Z :=
  while_ (copy_fuel (Z.of_nat (length src))) (copyout_body pagetable) (dstva, src).

Definition copyin_body (pagetable : Z) : Z * Z * list Z -> K (Z * Z * list Z + Z * list Z) :=
  fun '(srcva, len, dst) =>
    if negb (0 <? len) then ret (inr (0, dst)) else
    let va0 := PGROUNDDOWN srcva in
    let* pa0 := walkaddr pagetable va0 in
    if pa0 =? 0 then ret (inr (-1, dst)) else
    let n := PGSIZE - (srcva - va0) in
    let n := if len <? n then len else n in
    let* bs := kget (fun k => ld_bytes (k_mem k) (pa0 + (srcva - va0)) (Z.to_nat n)) in
    ret (inl (va0 + PGSIZE, len - n, dst ++ bs)).

(** Also gives the bytes that reached the destination, all [len] of them when
    the result is 0. *)
Definition copyin (pagetable srcva len : Z) : K (Z * list Z) :=
  while_ (copy_fuel len) (copyin_body pagetable) (srcva, len, []).

(** The inner loop of [copyinstr]: at most [n] bytes of [p], up to a NUL.
    Gives what was stored at [dst] and whether a NUL was among it. *)
Fixpoint copystr_loop (m : memory) (p : Z) (n : nat) : list Z * bool :=
  match n with
  | O => ([], false)
  | S n' =>
      if ld8 m p =? 0 then ([0], true)
      else let '(l, b) := copystr_loop m (p + 1) n' in (ld8 m p :: l, b)
  end.

Definition copyinstr (pagetable srcva max : Z) : K (Z * list Z) :=
  while_ (copy_fuel max)
    (fun '(srcva, max, dst) =>
       if negb (0 <? max) then ret (inr (-1, dst)) else
       let va0 := PGROUNDDOWN srcva in
       let* pa0 := walkaddr pagetable va0 in
       if pa0 =? 0 then ret (inr (-1, dst)) else
       let n := PGSIZE - (srcva - va0) in
       let n := if max <? n then max else n in
       let* m := kget k_mem in
       let '(bs, got_null) := copystr_loop m (pa0 + (srcva - va0)) (Z.to_nat n) in
       if got_null then ret (inr (0, dst ++ bs))
       else ret (inl (va0 + PGSIZE, max - n, dst ++ bs)))
    (srcva, max, []).

(** ** proc.c: either_copyout, either_copyin

    Where the kernel copies to or from: a user address of the current process,
    an address of kernel memory, or a local variable of the caller.  Bytes
    copied to a local are those the caller gets back; bytes copied from a local
    are in the constructor. *)

Inductive dest : Type := DUser (va : Z) | DKern (pa : Z) | DLocal.
Inductive source : Type := SUser (va : Z) | SKern (pa : Z) | SLocal (bs : list Z).

Definition either_copyout (dst : dest) (src : list Z) : K Z :=
  let* p := this_proc in
  match dst with
  | DUser va => let* pr := proc_get p in copyout (p_pagetable pr) va src
  | DKern pa => mem_mod (fun m => st_bytes m pa src) ;;; ret 0
  | DLocal => ret 0
  end.

Definition either_copyin (src : source) (len : Z) : K (Z * list Z) :=
  let* p := this_proc in
  match src with
  | SUser va => let* pr := proc_get p in copyin (p_pagetable pr) va len
  | SKern pa => kget (fun k => (0, ld_bytes (k_mem k) pa (Z.to_nat len)))
  | SLocal bs => ret (0, take (Z.to_nat len) bs)
  end.

(** [dst += m] and [src += m]. *)
Definition dest_add (dst : dest) (m : Z) : dest :=
  match dst with DUser va => DUser (va + m) | DKern pa => DKern (pa + m) | DLocal => DLocal end.
Definition source_add (src : source) (m : Z) : source :=
  match src with
  | SUser va => SUser (va + m)
  | SKern pa => SKern (pa + m)
  | SLocal bs => SLocal (drop (Z.to_nat m) bs)
  end.

(** ** Lemmas *)

(** *** User addresses *)

(** [va] is mapped for the user. *)
Definition user_ok (m : memory) (root va : Z) : bool :=
  (va <? MAXVA) && truth (Z.land (leaf m root va) PTE_V) && truth (Z.land (leaf m root va) PTE_U).

(** [walkaddr] has nothing to complain about at [va]: the entry is not that of
    a page in the swap file, nor maps physical page 0. *)
Definition quiet (m : memory) (root va : Z) : Prop :=
  truth (Z.land (leaf m root va) PTE_PG) = false /\
  (user_ok m root va = true -> PTE2PA (leaf m root va) <> 0).

(** The physical address behind [va] and the byte there. *)
Definition upa (m : memory) (root va : Z) : Z :=
  PTE2PA (leaf m root va) + (va - PGROUNDDOWN va).
Definition ubyte (m : memory) (root va : Z) : Z := ld8 m (upa m root va).

Lemma MAXVA_rounddown va : (PGROUNDDOWN va <? MAXVA) = (va <? MAXVA).
Proof.
  rewrite PGROUNDDOWN_spec. change MAXVA with (2 ^ 38). unfold PGSIZE.
  destruct (Z.ltb_spec (va - va mod 4096) (2 ^ 38)), (Z.ltb_spec va (2 ^ 38)); try done;
    exfalso; Z.to_euclidean_division_equations; lia.
Qed.

(** What [walkaddr] prints. *)
Definition pg_text : list Z := cstr "walkaddr(): pte PTE_PG is on" ++ [10].
Definition pa_text : list Z := cstr " walkaddr(): pa == 0" ++ [10].
Definition walk_says (m : memory) (root va : Z) : list Z :=
  (if (va <? MAXVA) && truth (Z.land (leaf m root va) PTE_PG) then pg_text else []) ++
  (if user_ok m root va && (PTE2PA (leaf m root va) =? 0) then pa_text else []).

Lemma quiet_says m root va : quiet m root va -> walk_says m root va = [].
Proof.
  intros [H1 H2]. unfold walk_says. rewrite H1, andb_false_r. destruct (user_ok m root va); [|done].
  by rewrite (proj2 (Z.eqb_neq _ 0)) by auto.
Qed.

Lemma say_when (b : bool) text k e :
  can_print k \/ b = false -> Forall (fun c => c <> 0 /\ c <> chr "%" /\ c <> BACKSPACE) text ->
  when b (printf text []) (W k e) = Ret tt (W (say (if b then text else []) k) e).
Proof. destruct b; intros [Hc| ?] Ht; try done; [by apply printf_text|by rewrite say_nil..]. Qed.

(** [walkaddr], with what it prints. *)
Lemma walkaddr_says `{!LayoutOk L} root va l k e :
  pt_ok (k_mem k) root l -> can_print k \/ quiet (k_mem k) root va ->
  walkaddr root va (W k e) =
  Ret (if user_ok (k_mem k) root va then PTE2PA (leaf (k_mem k) root va) else 0)
    (W (say (walk_says (k_mem k) root va) k) e).
Proof.
  intros Hpt Hor. assert (Forall (fun c => c <> 0 /\ c <> chr "%" /\ c <> BACKSPACE) pg_text) as Ht1
    by (refine (bool_decide_unpack _ _); by vm_compute).
  assert (Forall (fun c => c <> 0 /\ c <> chr "%" /\ c <> BACKSPACE) pa_text) as Ht2
    by (refine (bool_decide_unpack _ _); by vm_compute).
  unfold walkaddr, walk_says, quiet, user_ok in *. destruct (Z.leb_spec MAXVA va) as [Hge|Hlt].
  { rewrite (proj2 (Z.ltb_ge va MAXVA)) by done. cbn [andb app]. by rewrite say_nil. }
  rewrite (proj2 (Z.ltb_lt va MAXVA)) in * by done. cbn [andb] in *.
  rewrite (bind_Ret _ _ _ _ _ (walk_look root va k e Hlt)). unfold leaf in *.
  destruct (page_at (k_mem k) root (path_of va)) as [q|] eqn:Hq; [|by rewrite say_nil].
  destruct (proj1 Hpt _ _ (path_of_ok _) Hq) as [Hqok _].
  pose proof (PX_range 0 va). pose proof (page_ok_range q Hqok) as [Hq0 _].
  rewrite (proj2 (Z.eqb_neq (q + _) 0)) by (unfold KERNBASE in *; lia).
  unfold load64. rewrite bind_kget. set (v := ld64 (k_mem k) (q + 8 * PX 0 va)) in *.
  fold pg_text pa_text. rewrite (bind_Ret _ _ _ _ _ (say_when (truth (Z.land v PTE_PG)) pg_text k e ltac:(tauto) Ht1)).
  rewrite say_app. set (k1 := say _ k). unfold truth in *.
  destruct (Z.land v PTE_V =? 0); [by rewrite say_nil|]. destruct (Z.land v PTE_U =? 0); [by rewrite say_nil|].
  cbn [negb andb] in *. assert (can_print k1 \/ (PTE2PA v =? 0) = false) as Hor1.
  { destruct Hor as [Hc|[_ Hnz]]; [by left|right]. by apply Z.eqb_neq, Hnz. }
  by rewrite (bind_Ret _ _ _ _ _ (say_when (PTE2PA v =? 0) pa_text k1 e Hor1 Ht2)).
Qed.

Lemma walkaddr_run `{!LayoutOk L} root va l k e :
  pt_ok (k_mem k) root l -> quiet (k_mem k) root va ->
  walkaddr root va (W k e) =
  Ret (if user_ok (k_mem k) root va then PTE2PA (leaf (k_mem k) root va) else 0) (W k e).
Proof. intros Hpt Hq. rewrite (walkaddr_says root va l k e Hpt) by auto. by rewrite quiet_says, say_nil. Qed.

Lemma user_ok_rounddown m root va : user_ok m root (PGROUNDDOWN va) = user_ok m root va.
Proof. unfold user_ok. by rewrite MAXVA_rounddown, leaf_rounddown. Qed.

Lemma walkaddr_page `{!LayoutOk L} root va l k e :
  pt_ok (k_mem k) root l -> quiet (k_mem k) root va ->
  walkaddr root (PGROUNDDOWN va) (W k e) =
  Ret (if user_ok (k_mem k) root va then PTE2PA (leaf (k_mem k) root va) else 0) (W k e).
Proof.
  intros Hpt Hq. rewrite (walkaddr_run root (PGROUNDDOWN va) l k e Hpt).
  - by rewrite user_ok_rounddown, leaf_rounddown.
  - unfold quiet in *. by rewrite user_ok_rounddown, leaf_rounddown.
Qed.

(** Inside one page physical addresses follow virtual ones. *)
Lemma upa_page m root va i :
  0 <= i -> va + i < PGROUNDDOWN va + PGSIZE ->
  PGROUNDDOWN (va + i) = PGROUNDDOWN va /\ upa m root (va + i) = upa m root va + i /\
  leaf m root (va + i) = leaf m root va.
Proof.
  intros Hi Hlt. pose proof (PGROUNDDOWN_bounds va).
  assert (PGROUNDDOWN (va + i) = PGROUNDDOWN va) as Heq.
  { rewrite !PGROUNDDOWN_spec in *. unfold PGSIZE in *. Z.to_euclidean_division_equations. lia. }
  assert (leaf m root (va + i) = leaf m root va) as Hl.
  { by rewrite <- (leaf_rounddown m root (va + i)), Heq, leaf_rounddown. }
  split_and!; [done| |done]. unfold upa. rewrite Hl, Heq. lia.
Qed.

Definition ubytes (m : memory) (root va : Z) (n : nat) : list Z :=
  (fun i : nat => ubyte m root (va + Z.of_nat i)) <$> seq 0 n.

Lemma ubytes_app m root va n1 n2 :
  ubytes m root va (n1 + n2) =
  ubytes m root va n1 ++ ubytes m root (va + Z.of_nat n1) n2.
Proof.
  unfold ubytes. rewrite seq_app, fmap_app. f_equal.
  replace (0 + n1)%nat with (n1 + 0)%nat by lia. rewrite <- (fmap_add_seq n1 0 n2).
  rewrite <- list_fmap_compose. apply list_fmap_ext. intros i x Hx. simpl. f_equal. lia.
Qed.

(** The bytes of a chunk inside one page. *)
Lemma ubytes_page m root va n :
  va + Z.of_nat n <= PGROUNDDOWN va + PGSIZE ->
  ld_bytes m (PTE2PA (leaf m root va) + (va - PGROUNDDOWN va)) n = ubytes m root va n.
Proof.
  intros Hn. unfold ubytes, ld_bytes. apply list_fmap_ext. intros i x Hx.
  apply lookup_seq in Hx as [-> Hi]. simpl. unfold ubyte.
  destruct (upa_page m root va (Z.of_nat i)) as (_ & -> & _); [lia|lia|done].
Qed.

(** The size of the chunk the copy loops take at [va] with [len] to go. *)
Lemma chunk_spec va len :
  0 < len ->
  let n := if len <? PGSIZE - (va - PGROUNDDOWN va) then len
           else PGSIZE - (va - PGROUNDDOWN va) in
  0 < n <= len /\ va + n <= PGROUNDDOWN va + PGSIZE /\
  (n = len \/ va + n = PGROUNDDOWN va + PGSIZE).
Proof.
  intros Hl n. pose proof (PGROUNDDOWN_bounds va). unfold n.
  destruct (Z.ltb_spec len (PGSIZE - (va - PGROUNDDOWN va))); split_and!; lia.
Qed.

(** [copyin] can read at [va]: it is mapped for the user, to a page that is not
    physical page 0. *)
Definition user_page (m : memory) (root va : Z) : bool :=
  user_ok m root va && negb (PTE2PA (leaf m root va) =? 0).

Lemma user_page_chunk m root va va' :
  va <= va' < PGROUNDDOWN va + PGSIZE -> user_page m root va' = user_page m root va.
Proof.
  intros Hva. destruct (upa_page m root va (va' - va)) as (Heq & _ & Hl); [lia|lia|].
  replace (va + (va' - va)) with va' in * by lia. unfold user_page.
  by rewrite <- (user_ok_rounddown m root va'), Heq, user_ok_rounddown, Hl.
Qed.

Lemma walk_says_page m root va : walk_says m root (PGROUNDDOWN va) = walk_says m root va.
Proof. unfold walk_says. by rewrite user_ok_rounddown, leaf_rounddown, MAXVA_rounddown. Qed.

(** [copyin] succeeds when every address of the range can be read, and gives
    the bytes there; it fails when one cannot.  It prints nothing when no page
    of the range gives [walkaddr] a reason to. *)
Lemma copyin_says `{!LayoutOk L} root l e : forall fuel srcva len dst k,
  pt_ok (k_mem k) root l -> 0 <= len ->
  can_print k \/ (forall va, srcva <= va < srcva + len -> quiet (k_mem k) root va) ->
  (srcva - PGROUNDDOWN srcva) + len <= (Z.of_nat fuel - 1) * PGSIZE ->
  exists r bs out,
    while_ fuel (copyin_body root) (srcva, len, dst) (W k e) = Ret (r, dst ++ bs) (W (say out k) e) /\
    ((forall va, srcva <= va < srcva + len -> walk_says (k_mem k) root va = []) -> out = []) /\
    ((r = 0 /\ bs = ubytes (k_mem k) root srcva (Z.to_nat len) /\
      forall va, srcva <= va < srcva + len -> user_page (k_mem k) root va = true) \/
     (r = -1 /\ exists va, srcva <= va < srcva + len /\ user_page (k_mem k) root va = false)).
Proof.
  induction fuel as [|fuel IH]; intros srcva len dst k Hpt Hlen Hpq Hfuel;
    pose proof (PGROUNDDOWN_bounds srcva).
  { unfold PGSIZE in *. lia. }
  rewrite while_S. unfold copyin_body at 1.
  destruct (Z.ltb_spec 0 len) as [Hpos|Hz]; cbn [negb]; cycle 1.
  { exists 0, [], []. replace len with 0 by lia. split; [by rewrite app_nil_r, say_nil|].
    split; [done|]. left. split_and!; [done|done|lia]. }
  assert (can_print k \/ quiet (k_mem k) root (PGROUNDDOWN srcva)) as Hpq0.
  { destruct Hpq as [|Hq]; [by left|right]. specialize (Hq srcva ltac:(lia)).
    unfold quiet in *. by rewrite user_ok_rounddown, leaf_rounddown. }
  rewrite bind_assoc, (bind_Ret _ _ _ _ _ (walkaddr_says root _ l k e Hpt Hpq0)).
  rewrite walk_says_page, user_ok_rounddown, leaf_rounddown.
  set (k1 := say (walk_says (k_mem k) root srcva) k).
  destruct ((if user_ok (k_mem k) root srcva then PTE2PA (leaf (k_mem k) root srcva) else 0) =? 0) eqn:Hu.
  { exists (-1), [], (walk_says (k_mem k) root srcva). split; [by rewrite app_nil_r|].
    split; [intros Hw; apply Hw; lia|]. right. split; [done|]. exists srcva. split; [lia|].
    unfold user_page. destruct (user_ok (k_mem k) root srcva); [|done]. cbn [andb]. by rewrite Hu. }
  destruct (user_ok (k_mem k) root srcva) eqn:Hok; [|done].
  assert (user_page (k_mem k) root srcva = true) as Hup by (unfold user_page; by rewrite Hok, Hu).
  pose proof (chunk_spec srcva len Hpos) as (Hn & Hend & Hlast).
  set (n := if len <? _ then _ else _) in *. clearbody n.
  rewrite bind_assoc, bind_kget, bind_ret_l. simpl wk. change (k_mem k1) with (k_mem k).
  rewrite ubytes_page by lia.
  assert (forall va, srcva <= va < srcva + n -> user_page (k_mem k) root va = true) as Hchunk.
  { intros va Hva. rewrite <- Hup. apply user_page_chunk. lia. }
  assert (Hcat : Z.to_nat len = (Z.to_nat n + Z.to_nat (len - n))%nat) by lia.
  destruct (decide (n = len)) as [->|Hne].
  - rewrite Z.sub_diag. destruct fuel as [|fuel]; [unfold PGSIZE in *; lia|].
    rewrite while_S. unfold copyin_body. cbn. rewrite bind_ret_l.
    eexists 0, _, _. split; [reflexivity|]. split; [intros Hw; apply Hw; lia|]. left. done.
  - destruct Hlast as [|Hlast]; [done|].
    destruct (IH (PGROUNDDOWN srcva + PGSIZE) (len - n)
      (dst ++ ubytes (k_mem k) root srcva (Z.to_nat n)) k1) as (r & bs & out & Hrun & Hout & Hres).
    + done.
    + lia.
    + destruct Hpq as [|Hq]; [by left|right]. intros va Hva. apply Hq. lia.
    + assert (PGROUNDDOWN (PGROUNDDOWN srcva + PGSIZE) = PGROUNDDOWN srcva + PGSIZE) as ->.
      { apply PGROUNDDOWN_id. pose proof (PGROUNDDOWN_aligned srcva).
        unfold PGSIZE in *. rewrite Z.add_mod by lia. by rewrite H0. }
      unfold PGSIZE in *. lia.
    + exists r, (ubytes (k_mem k) root srcva (Z.to_nat n) ++ bs), (walk_says (k_mem k) root srcva ++ out).
      rewrite app_assoc, say_app. split; [exact Hrun|]. split.
      { intros Hw. rewrite (Hw srcva) by lia. apply Hout. intros va Hva. apply Hw. lia. }
      destruct Hres as [(-> & -> & Hall)|(-> & va & Hva & Hno)].
      * left. split_and!; [done| |].
        -- rewrite Hcat, ubytes_app. do 2 f_equal. change (k_mem k1) with (k_mem k). lia.
        -- intros va Hva. destruct (decide (va < srcva + n)); [apply Hchunk; lia|apply Hall; lia].
      * right. split; [done|]. exists va. split; [lia|done].
Qed.

Lemma copyin_loop `{!LayoutOk L} root l k e fuel srcva len dst :
  pt_ok (k_mem k) root l -> 0 <= len ->
  (forall va, srcva <= va < srcva + len -> quiet (k_mem k) root va) ->
  (srcva - PGROUNDDOWN srcva) + len <= (Z.of_nat fuel - 1) * PGSIZE ->
  exists r bs,
    while_ fuel (copyin_body root) (srcva, len, dst) (W k e) = Ret (r, dst ++ bs) (W k e) /\
    ((r = 0 /\ bs = ubytes (k_mem k) root srcva (Z.to_nat len) /\
      forall va, srcva <= va < srcva + len -> user_ok (k_mem k) root va = true) \/
     (r = -1 /\ exists va, srcva <= va < srcva + len /\ user_ok (k_mem k) root va = false)).
Proof.
  intros Hpt Hlen Hq Hf.
  destruct (copyin_says root l e fuel srcva len dst k Hpt Hlen (or_intror Hq) Hf) as (r & bs & out & Hrun & Hout & Hres).
  exists r, bs. rewrite Hout, say_nil in Hrun by (intros va Hva; by apply quiet_says, Hq). split; [done|].
  assert (forall va, srcva <= va < srcva + len -> user_page (k_mem k) root va = user_ok (k_mem k) root va) as Hup.
  { intros va Hva. unfold user_page. destruct (user_ok (k_mem k) root va) eqn:Hu; [|done].
    by rewrite (proj2 (Z.eqb_neq _ 0)) by (by apply (Hq va Hva)). }
  destruct Hres as [(-> & -> & Hall)|(-> & va & Hva & Hno)]; [left|right].
  - split_and!; [done|done|]. intros va Hva. rewrite <- Hup by done. by apply Hall.
  - split; [done|]. exists va. by rewrite <- Hup.
Qed.

(** The pages behind the user addresses of [lo, hi) hold no page table and no
    two of them are the same. *)
Definition user_apart (m : memory) (root lo hi : Z) : Prop :=
  (forall va path q, lo <= va < hi -> user_ok m root va = true ->
     path_ok path -> page_at m root path = Some q -> PTE2PA (leaf m root va) <> q) /\
  (forall va va', lo <= va < hi -> lo <= va' < hi ->
     user_ok m root va = true -> user_ok m root va' = true ->
     PTE2PA (leaf m root va) = PTE2PA (leaf m root va') -> PGROUNDDOWN va = PGROUNDDOWN va').

Lemma upa_in_page m root va : in_page (PTE2PA (leaf m root va)) (upa m root va).
Proof. unfold in_page, upa. pose proof (PGROUNDDOWN_bounds va). lia. Qed.

Lemma upa_inj m root lo hi va va' :
  user_apart m root lo hi -> lo <= va < hi -> lo <= va' < hi ->
  user_ok m root va = true -> user_ok m root va' = true ->
  upa m root va = upa m root va' -> va = va'.
Proof.
  intros [_ Hinj] H1 H2 Hu1 Hu2 Heq.
  assert (PTE2PA (leaf m root va) = PTE2PA (leaf m root va')) as Hpa.
  { apply (in_page_disjoint _ _ (upa m root va)); [apply PTE2PA_aligned..|apply upa_in_page|].
    rewrite Heq. apply upa_in_page. }
  pose proof (Hinj va va' H1 H2 Hu1 Hu2 Hpa). unfold upa in Heq. lia.
Qed.

(** Memory [m'] is [m] with the bytes [src] at the user addresses from [lo] on. *)
Record user_stored (root lo : Z) (src : list Z) (m m' : memory) : Prop := {
  us_page : forall path, path_ok path -> page_at m' root path = page_at m root path;
  us_leaf : forall va, leaf m' root va = leaf m root va;
  us_in : forall i b, src !! i = Some b -> ubyte m' root (lo + Z.of_nat i) = u8 b;
  us_out : forall x, (forall va, lo <= va < lo + Z.of_nat (length src) -> x <> upa m root va) ->
    ld8 m' x = ld8 m x;
}.

Lemma user_stored_nil root lo m : user_stored root lo [] m m.
Proof. constructor; try done. Qed.

Lemma user_stored_ok root lo src m m' va :
  user_stored root lo src m m' -> user_ok m' root va = user_ok m root va.
Proof. intros Hs. unfold user_ok. by rewrite (us_leaf _ _ _ _ _ Hs). Qed.

Lemma user_stored_upa root lo src m m' va :
  user_stored root lo src m m' -> upa m' root va = upa m root va.
Proof. intros Hs. unfold upa. by rewrite (us_leaf _ _ _ _ _ Hs). Qed.

Lemma user_stored_page m root l lo hi src :
  pt_ok m root l -> user_apart m root lo hi -> user_ok m root lo = true ->
  lo + Z.of_nat (length src) <= hi ->
  lo + Z.of_nat (length src) <= PGROUNDDOWN lo + PGSIZE -> src <> [] ->
  user_stored root lo src m (st_bytes m (upa m root lo) src).
Proof.
  intros Hpt Hap Hok Hhi Hpg Hne. set (m' := st_bytes m (upa m root lo) src).
  assert (0 < Z.of_nat (length src)) as Hlen by (destruct src; simpl; [done|lia]).
  assert (forall va, lo <= va < lo + Z.of_nat (length src) ->
    upa m root va = upa m root lo + (va - lo)) as Hupa.
  { intros va Hva. destruct (upa_page m root lo (va - lo)) as (_ & H & _); [lia|lia|].
    replace (lo + (va - lo)) with va in H by lia. done. }
  destruct (pt_frame m m' root) as [Hp Hl].
  { intros path q a Hp Hq Hin. apply ld8_st_bytes_ne. intros Hr.
    apply (proj1 Hap lo path q); [lia|done|done|done|].
    apply (in_page_disjoint _ _ a); [apply PTE2PA_aligned| | |done].
    - by destruct (proj1 Hpt _ _ Hp Hq) as [[Hal _] _].
    - unfold in_page. unfold upa in *. pose proof (PGROUNDDOWN_bounds lo). lia. }
  constructor; [done|done| |].
  - intros i b Hi. unfold ubyte, upa. rewrite Hl. fold (upa m root (lo + Z.of_nat i)).
    apply lookup_lt_Some in Hi as Hi'. rewrite Hupa by lia. unfold m'. rewrite ld8_st_bytes.
    rewrite decide_True by lia.
    replace (Z.to_nat (upa m root lo + (lo + Z.of_nat i - lo) - upa m root lo)) with i by lia.
    by rewrite Hi.
  - intros x Hx. apply ld8_st_bytes_ne. intros Hr.
    apply (Hx (lo + (x - upa m root lo))); [lia|]. rewrite Hupa by lia. lia.
Qed.

Lemma user_stored_app m m1 m2 root lo hi s1 s2 :
  user_apart m root lo hi -> lo + Z.of_nat (length (s1 ++ s2)) <= hi ->
  (forall va, lo <= va < lo + Z.of_nat (length (s1 ++ s2)) -> user_ok m root va = true) ->
  user_stored root lo s1 m m1 -> user_stored root (lo + Z.of_nat (length s1)) s2 m1 m2 ->
  user_stored root lo (s1 ++ s2) m m2.
Proof.
  intros Hap Hhi Hok H1 H2. rewrite length_app in *. constructor.
  - intros path Hp. by rewrite (us_page _ _ _ _ _ H2), (us_page _ _ _ _ _ H1).
  - intros va. by rewrite (us_leaf _ _ _ _ _ H2), (us_leaf _ _ _ _ _ H1).
  - intros i b Hi. apply lookup_lt_Some in Hi as Hlt. rewrite length_app in Hlt.
    apply lookup_app_Some in Hi as [Hi|[Hge Hi]].
    + apply lookup_lt_Some in Hi as Hlt1. unfold ubyte. rewrite (us_out _ _ _ _ _ H2).
      * rewrite (user_stored_upa _ _ _ _ _ _ H2). by apply (us_in _ _ _ _ _ H1).
      * intros va Hva. rewrite !(user_stored_upa _ _ _ _ _ _ H2), !(user_stored_upa _ _ _ _ _ _ H1).
        intros Heq. apply (upa_inj m root lo hi) in Heq; [lia|done|lia|lia|apply Hok; lia..].
    + replace (lo + Z.of_nat i)
        with (lo + Z.of_nat (length s1) + Z.of_nat (i - length s1)) by lia.
      by apply (us_in _ _ _ _ _ H2).
  - intros x Hx. rewrite (us_out _ _ _ _ _ H2), (us_out _ _ _ _ _ H1); [done| |].
    + intros va Hva. apply Hx. rewrite length_app. lia.
    + intros va Hva. rewrite (user_stored_upa _ _ _ _ _ _ H1). apply Hx. rewrite length_app. lia.
Qed.

Lemma quiet_stored root lo src m m' va :
  user_stored root lo src m m' -> quiet m root va -> quiet m' root va.
Proof.
  intros Hs. unfold quiet. rewrite (user_stored_ok _ _ _ _ _ _ Hs).
  by rewrite (us_leaf _ _ _ _ _ Hs).
Qed.

Lemma user_apart_stored root lo src m m' a b :
  user_stored root lo src m m' -> user_apart m root a b -> user_apart m' root a b.
Proof.
  intros Hs [H1 H2]. split.
  - intros va path q Hva Hu Hp Hq. rewrite (us_leaf _ _ _ _ _ Hs).
    rewrite (us_page _ _ _ _ _ Hs) in Hq by done. rewrite (user_stored_ok _ _ _ _ _ _ Hs) in Hu.
    by apply (H1 va path).
  - intros va va' Hva Hva'. rewrite !(us_leaf _ _ _ _ _ Hs), !(user_stored_ok _ _ _ _ _ _ Hs).
    by apply H2.
Qed.

Lemma user_apart_mono m root a b a' b' :
  a <= a' -> b' <= b -> user_apart m root a b -> user_apart m root a' b'.
Proof.
  intros Ha Hb [H1 H2]. split.
  - intros va path q Hva. apply H1. lia.
  - intros va va' Hva Hva'. apply H2; lia.
Qed.

Lemma page_next va : PGROUNDDOWN (PGROUNDDOWN va + PGSIZE) = PGROUNDDOWN va + PGSIZE.
Proof.
  apply PGROUNDDOWN_id. pose proof (PGROUNDDOWN_aligned va) as H.
  unfold PGSIZE in *. rewrite Z.add_mod by lia. by rewrite H.
Qed.

Lemma user_ok_chunk m root va n :
  user_ok m root va = true -> va + n <= PGROUNDDOWN va + PGSIZE ->
  forall va', va <= va' < va + n -> user_ok m root va' = true.
Proof.
  intros Hu Hn va' Hva. rewrite <- user_ok_rounddown.
  destruct (upa_page m root va (va' - va)) as (Heq & _); [lia|lia|].
  replace (va + (va' - va)) with va' in Heq by lia.
  by rewrite Heq, user_ok_rounddown.
Qed.

(** [copyout] succeeds when every address of the range is mapped for the user,
    and has then stored the bytes there; when one is not it fails. *)
Lemma copyout_loop `{!LayoutOk L} root l e : forall fuel dstva src k,
  pt_ok (k_mem k) root l ->
  user_apart (k_mem k) root dstva (dstva + Z.of_nat (length src)) ->
  (forall va, dstva <= va < dstva + Z.of_nat (length src) -> quiet (k_mem k) root va) ->
  (dstva - PGROUNDDOWN dstva) + Z.of_nat (length src) <= (Z.of_nat fuel - 1) * PGSIZE ->
  exists r m',
    while_ fuel (copyout_body root) (dstva, src) (W k e) = Ret r (W (set_k_mem m' k) e) /\
    ((r = 0 /\ user_stored root dstva src (k_mem k) m' /\
      forall va, dstva <= va < dstva + Z.of_nat (length src) -> user_ok (k_mem k) root va = true) \/
     (r = -1 /\ exists va, dstva <= va < dstva + Z.of_nat (length src) /\
        user_ok (k_mem k) root va = false)).
Proof.
  induction fuel as [|fuel IH]; intros dstva src k Hpt Hap Hquiet Hfuel;
    pose proof (PGROUNDDOWN_bounds dstva).
  { unfold PGSIZE in *. lia. }
  rewrite while_S. unfold copyout_body at 1.
  destruct (Z.ltb_spec 0 (Z.of_nat (length src))) as [Hpos|Hz]; cbn [negb]; cycle 1.
  { destruct src; [|simpl in Hz; lia]. exists 0, (k_mem k). split; [by destruct k|].
    left. split_and!; [done|apply user_stored_nil|simpl; lia]. }
  assert (quiet (k_mem k) root dstva) as Hq by (apply Hquiet; lia).
  rewrite bind_assoc, (bind_Ret _ _ _ _ _ (walkaddr_page root dstva l k e Hpt Hq)).
  destruct (user_ok (k_mem k) root dstva) eqn:Hu; cycle 1.
  { rewrite Z.eqb_refl. exists (-1), (k_mem k). split; [by destruct k|].
    right. split; [done|]. exists dstva. split; [lia|done]. }
  rewrite (proj2 (Z.eqb_neq _ 0)) by (by apply Hq).
  pose proof (chunk_spec dstva (Z.of_nat (length src)) Hpos) as (Hn & Hend & Hlast).
  set (n := if _ <? _ then _ else _) in *. clearbody n.
  unfold mem_mod. rewrite bind_assoc, bind_kmod, bind_ret_l.
  set (s1 := take (Z.to_nat n) src). set (s2 := drop (Z.to_nat n) src).
  assert (Hcat : src = s1 ++ s2) by (symmetry; apply take_drop).
  assert (Hl1 : Z.of_nat (length s1) = n) by (unfold s1; rewrite length_take; lia).
  assert (Hlen : Z.of_nat (length src) = n + Z.of_nat (length s2)).
  { rewrite Hcat, length_app. lia. }
  fold (upa (k_mem k) root dstva). set (m1 := st_bytes (k_mem k) (upa (k_mem k) root dstva) s1).
  assert (user_stored root dstva s1 (k_mem k) m1) as Hs1.
  { apply (user_stored_page _ _ l _ (dstva + Z.of_nat (length src))); try done; try lia.
    intros Hnil. rewrite Hnil in Hl1. simpl in Hl1. lia. }
  pose proof (user_ok_chunk _ _ _ n Hu Hend) as Hchunk.
  clearbody m1 s1 s2. subst src. rewrite length_app, Nat2Z.inj_add, Hl1 in *.
  destruct (decide (length s2 = 0%nat)) as [H0|Hne].
  - destruct s2; [|done]. rewrite app_nil_r in *. destruct fuel as [|fuel]; [unfold PGSIZE in *; lia|].
    rewrite while_S.
    exists 0, m1. split; [reflexivity|]. left. split_and!; [done|done|].
    intros va Hva. apply Hchunk. simpl in Hva. lia.
  - destruct Hlast as [|Hlast]; [lia|].
    destruct (IH (PGROUNDDOWN dstva + PGSIZE) s2 (set_k_mem m1 k)) as (r & m2 & Hrun & Hres).
    + apply (pt_ok_frame (k_mem k)); [apply Hs1|done].
    + eapply user_apart_stored; [exact Hs1|]. eapply user_apart_mono; [..|exact Hap]; lia.
    + intros va Hva. eapply quiet_stored; [exact Hs1|]. apply Hquiet. lia.
    + rewrite page_next. unfold PGSIZE in *. lia.
    + exists r, m2. split; [rewrite Hrun; by destruct k|]. simpl in Hres.
      destruct Hres as [(-> & Hs2 & Hall)|(-> & va & Hva & Hno)].
      * left. assert (forall va, dstva <= va < dstva + (n + Z.of_nat (length s2)) ->
          user_ok (k_mem k) root va = true) as Hall'.
        { intros va Hva. destruct (decide (va < dstva + n)); [apply Hchunk; lia|].
          rewrite <- (user_stored_ok _ _ _ _ _ _ Hs1). apply Hall. lia. }
        split_and!; [done| |done].
        eapply (user_stored_app _ m1); [exact Hap|rewrite length_app; lia| |exact Hs1|].
        -- intros va Hva. apply Hall'. rewrite length_app in Hva. lia.
        -- by rewrite Hl1, Hlast.
      * right. split; [done|]. exists va. rewrite <- (user_stored_ok _ _ _ _ _ _ Hs1).
        split; [lia|done].
Qed.

Lemma copy_fuel_enough va len :
  0 <= len -> (va - PGROUNDDOWN va) + len <= (Z.of_nat (copy_fuel len) - 1) * PGSIZE.
Proof.
  intros. pose proof (PGROUNDDOWN_bounds va). unfold copy_fuel, PGSIZE in *.
  Z.to_euclidean_division_equations. lia.
Qed.

(** What a whole [copyout] has stored is what [copyin] reads back. *)
Lemma user_stored_ubytes root lo src m m' :
  Forall (fun b => 0 <= b < 256) src -> user_stored root lo src m m' ->
  ubytes m' root lo (length src) = src.
Proof.
  intros Hf Hs. apply list_eq. intros i. unfold ubytes.
  destruct (src !! i) as [b|] eqn:Hi.
  - apply lookup_lt_Some in Hi as Hlt. rewrite list_lookup_fmap, lookup_seq_lt by done. simpl.
    rewrite (us_in _ _ _ _ _ Hs i b) by done. f_equal. apply u8_small.
    by apply (Forall_lookup_1 _ _ _ _ Hf Hi).
  - apply lookup_ge_None in Hi. rewrite list_lookup_fmap, lookup_seq_ge by done. done.
Qed.

End copy.

(** ** Properties *)

Section properties.
Context `{L : Layout} `{!LayoutOk L}.

(** After [mappages] has mapped a range with [PTE_U], every address of the
    range is accessible to the user; [walkaddr] translates it to the physical
    page it was mapped to, and leaves the state alone. *)
Theorem mappages_walkaddr_roundtrip root va size pa perm n e k l :
  0 <= va -> 0 < size -> va + size <= MAXVA ->
  n = (PGROUNDDOWN (va + size - 1) - PGROUNDDOWN va) / PGSIZE + 1 ->
  (forall va', PGROUNDDOWN va <= va' < PGROUNDDOWN va + n * PGSIZE ->
     truth (Z.land (leaf (k_mem k) root va') PTE_V) = false) ->
  Lkmem ∉ k_held k -> kmem_inv k l -> pt_ok (k_mem k) root l ->
  0 < pa -> pa mod PGSIZE = 0 -> pa + n * PGSIZE <= 2 ^ 56 ->
  0 <= perm < 2 ^ 10 -> Z.testbit perm 4 = true -> Z.testbit perm 9 = false ->
  exists res k',
    mappages root va size pa perm (W k e) = Ret res (W k' e) /\
    (res = 0 -> forall va' e',
       PGROUNDDOWN va <= va' < PGROUNDDOWN va + n * PGSIZE ->
       user_ok (k_mem k') root va' = true /\
       walkaddr root va' (W k' e') = Ret (pa + (PGROUNDDOWN va' - PGROUNDDOWN va)) (W k' e')).
Proof.
  intros Hva Hsz Hend Hn Hun Hh Hk Hpt Hpa Hal Hhi Hperm HU HPG.
  assert (1 <= n) as Hn1.
  { rewrite Hn. pose proof (PGROUNDDOWN_bounds va). pose proof (PGROUNDDOWN_bounds (va + size - 1)).
    pose proof (PGROUNDDOWN_aligned va). pose proof (PGROUNDDOWN_aligned (va + size - 1)).
    unfold PGSIZE in *. Z.to_euclidean_division_equations. lia. }
  assert (0 <= pa < 2 ^ 64) as Hpa64 by (unfold PGSIZE in *; lia).
  destruct (mappages_run root va size pa perm n e k l Hva Hsz Hend Hn Hun Hh Hk Hpt Hpa64)
    as (res & k' & l' & i & Hrun & Hg & Hm & Hres).
  exists res, k'. split; [exact Hrun|]. intros -> va' e' Hva'.
  destruct Hres as [[_ ->]|[Hc _]]; [|discriminate Hc].
  assert (PGROUNDDOWN va + n * PGSIZE <= MAXVA) as HM.
  { rewrite Hn. pose proof (PGROUNDDOWN_bounds (va + size - 1)).
    pose proof (PGROUNDDOWN_aligned va). pose proof (PGROUNDDOWN_aligned (va + size - 1)).
    change MAXVA with (2 ^ 38) in *. unfold PGSIZE in *.
    Z.to_euclidean_division_equations. lia. }
  pose proof (PGROUNDDOWN_aligned va) as Hav. pose proof (PGROUNDDOWN_aligned va') as Hav'.
  pose proof (PGROUNDDOWN_bounds va) as Hb. pose proof (PGROUNDDOWN_bounds va') as Hb'.
  assert (PGROUNDDOWN va <= PGROUNDDOWN va') as Hle.
  { unfold PGSIZE in *. Z.to_euclidean_division_equations. lia. }
  assert (0 <= va') as Hva0 by (unfold PGSIZE in *; Z.to_euclidean_division_equations; lia).
  assert (leaf (k_mem k') root va' =
    mk_pte (pa + (PGROUNDDOWN va' - PGROUNDDOWN va)) perm) as Hleaf.
  { rewrite (Hm va') by lia. rewrite (proj2 (Z.leb_le _ _)) by done.
    rewrite (proj2 (Z.ltb_lt _ _)) by (unfold PGSIZE in *; lia). simpl.
    by rewrite u64_small by (unfold PGSIZE in *; lia). }
  destruct (mk_pte_spec (pa + (PGROUNDDOWN va' - PGROUNDDOWN va)) perm) as (HPA & HV & Hbits).
  { unfold PGSIZE in *. lia. }
  { unfold PGSIZE in *. Z.to_euclidean_division_equations. lia. }
  { done. }
  assert (user_ok (k_mem k') root va' = true) as Hok.
  { unfold user_ok. rewrite Hleaf, HV. change PTE_U with (Z.shiftl 1 4).
    rewrite Hbits, HU by lia. by rewrite (proj2 (Z.ltb_lt va' MAXVA)) by lia. }
  split; [done|]. rewrite (walkaddr_run root va' l' k' e'); [|apply Hg|].
  - by rewrite Hok, Hleaf, HPA.
  - unfold quiet. rewrite Hok, Hleaf, HPA. change PTE_PG with (Z.shiftl 1 9).
    rewrite Hbits, HPG by lia. split; [done|lia].
Qed.

(** C27: [copyin] returns 0 exactly when every address of the range is mapped
    for the user, to another page than physical page 0, and then gives the
    bytes those addresses denote; otherwise it returns -1.  So it fails when a
    page of the range is in the swap file: its entry is not valid, and
    [walkaddr] does not bring the page back, it only prints a message.
    [copyin] changes nothing but the console output, and prints nothing when no
    entry of the range has [PTE_PG] or maps physical page 0. *)
Theorem copyin_correct root srcva len l k e :
  pt_ok (k_mem k) root l -> 0 <= len -> can_print k ->
  exists r bs out,
    copyin root srcva len (W k e) = Ret (r, bs) (W (say out k) e) /\
    (r = 0 \/ r = -1) /\
    (r = 0 -> bs = ubytes (k_mem k) root srcva (Z.to_nat len)) /\
    (r = 0 <-> forall va, srcva <= va < srcva + len -> user_page (k_mem k) root va = true) /\
    ((forall va, srcva <= va < srcva + len -> quiet (k_mem k) root va) -> out = []).
Proof.
  intros Hpt Hlen Hc.
  destruct (copyin_says root l e (copy_fuel len) srcva len [] k Hpt Hlen (or_introl Hc))
    as (r & bs & out & Hrun & Hout & Hres); [by apply copy_fuel_enough|].
  exists r, bs, out. split; [exact Hrun|].
  assert ((forall va, srcva <= va < srcva + len -> quiet (k_mem k) root va) -> out = []) as Ho.
  { intros Hq. apply Hout. intros va Hva. by apply quiet_says, Hq. }
  destruct Hres as [(-> & -> & Hall)|(-> & va & Hva & Hno)]; split_and!; try done; try (by left);
    try (by right). split; [done|]. intros Hall. rewrite (Hall va Hva) in Hno. done.
Qed.

(** C12: [copyout] to a range mapped for the user returns 0, stores the bytes
    there and changes no byte of memory outside the range and no page-table
    entry; [copyin] of the same range then gives the bytes back.  If an address
    of the range is not mapped for the user, it returns -1. *)
Theorem copyout_copyin_roundtrip root dstva src l k e :
  pt_ok (k_mem k) root l ->
  user_apart (k_mem k) root dstva (dstva + Z.of_nat (length src)) ->
  (forall va, dstva <= va < dstva + Z.of_nat (length src) -> quiet (k_mem k) root va) ->
  Forall (fun b => 0 <= b < 256) src ->
  exists r m',
    copyout root dstva src (W k e) = Ret r (W (set_k_mem m' k) e) /\
    ((exists va, dstva <= va < dstva + Z.of_nat (length src) /\
        user_ok (k_mem k) root va = false) -> r = -1) /\
    ((forall va, dstva <= va < dstva + Z.of_nat (length src) ->
        user_ok (k_mem k) root va = true) ->
     r = 0 /\ user_stored root dstva src (k_mem k) m' /\
     copyin root dstva (Z.of_nat (length src)) (W (set_k_mem m' k) e) =
       Ret (0, src) (W (set_k_mem m' k) e)).
Proof.
  intros Hpt Hap Hq Hby.
  destruct (copyout_loop root l e (copy_fuel (Z.of_nat (length src))) dstva src k Hpt Hap Hq)
    as (r & m' & Hrun & Hres); [apply copy_fuel_enough; lia|].
  exists r, m'. split; [exact Hrun|].
  destruct Hres as [(-> & Hs & Hall)|(-> & va & Hva & Hno)]; split.
  - intros (va & Hva & Hno). rewrite (Hall va Hva) in Hno. discriminate Hno.
  - intros _. split_and!; [done|done|].
    destruct (copyin_loop root l (set_k_mem m' k) e (copy_fuel (Z.of_nat (length src))) dstva
      (Z.of_nat (length src)) []) as (r & bs & Hrun' & Hres).
    + apply (pt_ok_frame (k_mem k)); [apply Hs|done].
    + lia.
    + intros va Hva. eapply quiet_stored; [exact Hs|by apply Hq].
    + apply copy_fuel_enough. lia.
    + destruct Hres as [(-> & -> & _)|(-> & va & Hva & Hno)].
      * unfold copyin. rewrite Hrun'. simpl. rewrite Nat2Z.id.
        by rewrite (user_stored_ubytes _ _ _ _ _ Hby Hs).
      * simpl in Hno. rewrite (user_stored_ok _ _ _ _ _ _ Hs), (Hall va Hva) in Hno.
        discriminate Hno.
  - done.
  - intros Hall. rewrite (Hall va Hva) in Hno. discriminate Hno.
Qed.
End properties.

(** ** Witnesses *)

Lemma mappages_walkaddr_roundtrip_witness :
  exists res k',
    mappages (pg 3) 0 PGSIZE (pg 4) 22 (W sample_vm []) = Ret res (W k' []) /\
    (res = 0 -> walkaddr (pg 3) 100 (W k' []) = Ret (pg 4) (W k' [])).
Proof.
  destruct (@pt_ok_empty sample_layout (k_mem sample_vm) (pg 3) [pg 1; pg 2]) as [Hpt Hz].
  - apply sample_vm_zero.
  - by vm_compute.
  - refine (bool_decide_unpack _ _). by vm_compute.
  - destruct (@mappages_walkaddr_roundtrip sample_layout sample_layout_ok
      (pg 3) 0 PGSIZE (pg 4) 22 1 [] sample_vm [pg 1; pg 2]) as (res & k' & Hrun & Hw).
    + lia.
    + by vm_compute.
    + by vm_compute.
    + reflexivity.
    + intros va' _. by rewrite Hz.
    + by apply not_elem_of_nil.
    + apply sample_vm_inv.
    + exact Hpt.
    + by vm_compute.
    + by vm_compute.
    + by vm_compute.
    + by vm_compute.
    + by vm_compute.
    + by vm_compute.
    + exists res, k'. split; [exact Hrun|]. intros H0.
      refine (proj2 (Hw H0 100 [] _)). clear. by vm_compute.
Defined.

(** One user page, at address 0, behind three tables. *)
Definition sample_user : kernel :=
  set_k_mem (st64 (st64 (st64 ∅ (pg 3) (mk_pte (pg 4) 0)) (pg 4) (mk_pte (pg 5) 0))
    (pg 5) (mk_pte (pg 6) 22)) kernel0.

Lemma sample_user_zero t j :
  (t = pg 3 \/ t = pg 4) -> 0 <= j < 512 -> j <> 0 -> ld64 (k_mem sample_user) (t + 8 * j) = 0.
Proof.
  intros Ht Hj H0. unfold sample_user. cbn [k_mem set_k_mem].
  rewrite !ld64_st64_ne; [by vm_compute|..]; unfold pg, PGSIZE in *; lia.
Qed.

Lemma sample_user_pages path q :
  path_ok path -> page_at (k_mem sample_user) (pg 3) path = Some q ->
  q = pg 3 \/ q = pg 4 \/ q = pg 5.
Proof.
  intros Hp Hq.
  destruct (page_at_chain (k_mem sample_user) (pg 3) (pg 4) (pg 5) 0 0) with (path := path) (q := q)
    as [[_ ->]|[[_ ->]|[_ ->]]]; auto.
  - intros j. apply sample_user_zero. by left.
  - intros j. apply sample_user_zero. by right.
Qed.

Lemma sample_user_ok : @pt_ok sample_layout (k_mem sample_user) (pg 3) [].
Proof.
  apply (pt_ok_chain (k_mem sample_user) (pg 3) (pg 4) (pg 5) 0 0).
  - intros j. apply sample_user_zero. by left.
  - intros j. apply sample_user_zero. by right.
  - by vm_compute.
  - by vm_compute.
  - by vm_compute.
  - by vm_compute.
  - by vm_compute.
  - by vm_compute.
  - by vm_compute.
  - refine (bool_decide_unpack _ _). by vm_compute.
  - intros x _. apply not_elem_of_nil.
Qed.

Lemma sample_user_leaf va :
  0 <= va < 3 -> leaf (k_mem sample_user) (pg 3) va = mk_pte (pg 6) 22.
Proof.
  intros Hva. assert (va = 0 \/ va = 1 \/ va = 2) as [->|[->| ->]] by lia; by vm_compute.
Qed.

Lemma sample_user_quiet va : 0 <= va < 3 -> quiet (k_mem sample_user) (pg 3) va.
Proof.
  intros Hva. unfold quiet. rewrite sample_user_leaf by done. split; [by vm_compute|].
  intros _. by vm_compute.
Qed.

Lemma sample_user_access va : 0 <= va < 3 -> user_ok (k_mem sample_user) (pg 3) va = true.
Proof.
  intros Hva. unfold user_ok. rewrite sample_user_leaf by exact Hva.
  rewrite (proj2 (Z.ltb_lt va MAXVA)) by (change MAXVA with (2 ^ 38); lia).
  clear. by vm_compute.
Qed.

Lemma sample_user_apart : user_apart (k_mem sample_user) (pg 3) 0 3.
Proof.
  split.
  - intros va path q Hva _ Hp Hq Heq. rewrite sample_user_leaf in Heq by exact Hva.
    destruct (sample_user_pages path q Hp Hq) as [H|[H|H]]; rewrite H in Heq;
      vm_compute in Heq; discriminate Heq.
  - intros va va' Hva Hva' _ _ _. rewrite !PGROUNDDOWN_spec. unfold PGSIZE.
    rewrite !Z.mod_small by lia. lia.
Qed.

Lemma copyin_correct_witness :
  copyin (pg 3) 0 3 (W sample_user []) = Ret (0, [0; 0; 0]) (W sample_user []).
Proof.
  destruct (@copyin_correct sample_layout sample_layout_ok (pg 3) 0 3 [] sample_user [])
    as (r & bs & out & Hrun & _ & Hbs & Hr & Hout).
  - apply sample_user_ok.
  - lia.
  - split; [reflexivity|apply not_elem_of_nil].
  - assert (r = 0) as H0.
    { apply Hr. intros va Hva. unfold user_page. rewrite (sample_user_access va Hva).
      by rewrite (proj2 (Z.eqb_neq _ 0)) by (by apply (sample_user_quiet va Hva), sample_user_access). }
    rewrite (Hbs H0), H0, (Hout sample_user_quiet), say_nil in Hrun. rewrite Hrun. reflexivity.
Defined.

Lemma copyout_copyin_roundtrip_witness :
  exists m', copyout (pg 3) 0 [7; 8; 9] (W sample_user []) =
               Ret 0 (W (set_k_mem m' sample_user) []) /\
             copyin (pg 3) 0 3 (W (set_k_mem m' sample_user) []) =
               Ret (0, [7; 8; 9]) (W (set_k_mem m' sample_user) []).
Proof.
  destruct (@copyout_copyin_roundtrip sample_layout sample_layout_ok (pg 3) 0 [7; 8; 9] []
    sample_user []) as (r & m' & Hrun & _ & Hr).
  - apply sample_user_ok.
  - exact sample_user_apart.
  - apply sample_user_quiet.
  - repeat (apply Forall_cons_2; [lia|]). apply Forall_nil_2.
  - destruct Hr as (H0 & _ & Hin).
    { exact sample_user_access. }
    exists m'. rewrite H0 in Hrun. split; [exact Hrun|exact Hin].
Defined.
