(* ===== verification/Paging.v ===== *)
(** * vm.c: page metadata, replacement policies, and unmapping

    Each process above pid 2 keeps, for at most [MAX_PYSC_PAGES] pages in
    memory and as many in its swap file, an entry with the page's address, its
    place in the queue and its access counter.  This file has the routines on
    those entries, the policies that choose the page to swap out, and the
    routines that remove, copy and free user mappings.  Which policy the kernel
    was compiled with is the class [Selection]. *)

From Stdlib Require Import ZArith Lia Sorting.Sorted.
From stdpp Require Import base gmap list strings numbers.
From S2P Require Import Prelude Riscv State Klib Sched Kalloc Uart Vm Usercopy.

(** ** Definitions *)

(** [p->memory_pages[i]] and [p->file_pages[i]], reading and writing. *)
Definition mp_get (p : nat) (i : Z) : K page_metadata_struct :=
  let* pr := proc_get p in nth_or_fault "memory_pages" (p_memory_pages pr) i.
Definition mp_mod (p : nat) (i : Z) (f : page_metadata_struct -> page_metadata_struct) : K unit :=
  let* _ := mp_get p i in
  proc_mod p (fun pr => set_p_memory_pages (alter f (Z.to_nat i) (p_memory_pages pr)) pr).
Definition fp_get (p : nat) (i : Z) : K page_metadata_struct :=
  let* pr := proc_get p in nth_or_fault "file_pages" (p_file_pages pr) i.
Definition fp_mod (p : nat) (i : Z) (f : page_metadata_struct -> page_metadata_struct) : K unit :=
  let* _ := fp_get p i in
  proc_mod p (fun pr => set_p_file_pages (alter f (Z.to_nat i) (p_file_pages pr)) pr).

(** An update of the entry at [pte], which the source does not check for null. *)
Definition pte_mod (pte : Z) (f : Z -> Z) : K unit :=
  if pte =? 0 then fault "*pte" else
  let* v := load64 pte in store64 pte (f v).
Definition pte_get (pte : Z) : K Z := if pte =? 0 then fault "*pte" else load64 pte.

(** [for(int i = 0; i < n; i++) if(cond(i)) return i; return -1;] *)
Definition find_index (n : Z) (cond : Z -> K bool) : K Z :=
  let* r := for_from (Z.to_nat n) 0 (fun i =>
    let* b := cond i in ret (if b then Some i else None)) in
  ret (default (-1) r).

(** A loop over the entries of [pages] from index [i] on, threading [a]. *)
Fixpoint scan {A} (step : Z -> page_metadata_struct -> A -> A) (i : Z)
    (pages : list page_metadata_struct) (a : A) : A :=
  match pages with
  | [] => a
  | pg :: pages' => scan step (i + 1) pages' (step i pg a)
  end.

Section paging.
Context `{L : Layout} `{Sel : Selection}.

Definition is_none_policy : bool := bool_decide (SELECTION = NONE).

Definition get_free_memory_page_index : K Z :=
  let* p := myproc in
  match p with
  | None => ret (-1)
  | Some p =>
      find_index MAX_PYSC_PAGES (fun i =>
        let* pg := mp_get p i in ret (bool_decide (pm_state pg = P_UNUSED)))
  end.

Definition update_page_out_pte (pagetable user_page_va : Z) : K unit :=
  let* pte := walk pagetable user_page_va false in
  if pte =? 0 then panic ("PTE of swapped out page is missing" +:+ nl) else
  pte_mod pte (fun v => Z.land v (PTE_FLAGS v)) ;;;
  pte_mod pte (fun v => Z.lor v PTE_PG) ;;;
  pte_mod pte (fun v => Z.land v (Z.lnot PTE_V)) ;;;
  csr_mod sfence_vma.

(** [access_count] of a page that comes into memory, by policy; the other
    policies leave the field alone. *)
Definition initial_access : option Z :=
  match SELECTION with
  | NFUA => Some 0
  | LAPA => Some 0xFFFFFFFF
  | _ => None
  end.

Definition set_initial_access (index : Z) : K unit :=
  match initial_access with
  | Some a => let* p := this_proc in mp_mod p index (set_pm_access a)
  | None => ret tt
  end.

Definition update_page_in_pte (pagetable user_page_va page_pa index : Z) : K unit :=
  let* pte := walk pagetable user_page_va false in
  if pte =? 0 then panic ("PTE of swapped in page is missing" +:+ nl) else
  let* v := load64 pte in
  if truth (Z.land v PTE_V) then panic ("in update_paged_in_flags page is Valid!" +:+ nl) else
  pte_mod pte (fun v => Z.lor v (PA2PTE page_pa)) ;;;
  pte_mod pte (fun v => Z.lor v
    (Z.lor (Z.lor (Z.lor (Z.lor PTE_W PTE_X) PTE_R) PTE_U) PTE_V)) ;;;
  pte_mod pte (fun v => Z.land v (Z.lnot PTE_PG)) ;;;
  set_initial_access index ;;;
  csr_mod sfence_vma.

Definition add_to_memory_page_metadata (pagetable user_page_va : Z) : K unit :=
  let* p := this_proc in
  let* free_index := get_free_memory_page_index in
  mp_mod p free_index (set_pm_state P_USED) ;;;
  mp_mod p free_index (set_pm_va user_page_va) ;;;
  let* pr := proc_get p in
  mp_mod p free_index (set_pm_order (u32 (p_page_order_counter pr))) ;;;
  proc_mod p (fun pr => set_p_page_order_counter (u64 (p_page_order_counter pr + 1)) pr) ;;;
  proc_mod p (fun pr => set_p_pages_in_memory_counter (u64 (p_pages_in_memory_counter pr + 1)) pr) ;;;
  set_initial_access free_index.

Definition page_in_file (user_page_va pagetable : Z) : K Z :=
  let* pte := walk pagetable user_page_va false in
  let* v := pte_get pte in
  ret (Z.land v PTE_PG).

Definition remove_from_memory_meta_data (user_page_va pagetable : Z) : K unit :=
  let* p := this_proc in
  let* _ := for_from (Z.to_nat MAX_PYSC_PAGES) 0 (fun i =>
    let* pg := mp_get p i in
    let* pr := proc_get p in
    if bool_decide (pm_state pg = P_USED) && (pm_va pg =? user_page_va) &&
       (p_pagetable pr =? pagetable)
    then
      mp_mod p i (set_pm_access 0) ;;;
      mp_mod p i (set_pm_order 0) ;;;
      proc_mod p (fun pr =>
        set_p_pages_in_memory_counter (u64 (p_pages_in_memory_counter pr - 1)) pr) ;;;
      mp_mod p i (set_pm_state P_UNUSED) ;;;
      ret (Some tt)
    else ret None) in
  ret tt.

Definition remove_from_file_meta_data (user_page_va pagetable : Z) : K unit :=
  let* p := this_proc in
  let* _ := for_from (Z.to_nat (MAX_TOTAL_PAGES - MAX_PYSC_PAGES)) 0 (fun i =>
    let* pg := fp_get p i in
    let* pr := proc_get p in
    if bool_decide (pm_state pg = P_USED) && (pm_va pg =? user_page_va) &&
       (p_pagetable pr =? pagetable)
    then
      fp_mod p i (set_pm_access 0) ;;;
      fp_mod p i (set_pm_order 0) ;;;
      proc_mod p (fun pr =>
        set_p_pages_in_file_counter (u64 (p_pages_in_file_counter pr - 1)) pr) ;;;
      fp_mod p i (set_pm_state P_UNUSED) ;;;
      ret (Some tt)
    else ret None) in
  ret tt.

(** *** Choosing a page *)

(** The body of [update_access_counter]'s loop. *)
Definition access_turn (p : nat) (i : Z) : K unit :=
  let* pg := mp_get p i in
  when (bool_decide (pm_state pg = P_USED))
    (mp_mod p i (fun g => set_pm_access (Z.shiftr (pm_access g) 1) g) ;;;
     let* pr := proc_get p in
     let* pte := walk (p_pagetable pr) (pm_va pg) false in
     let* v := pte_get pte in
     when (truth (Z.land v PTE_A))
       (mp_mod p i (fun g => set_pm_access (Z.lor (pm_access g) 0x80000000) g) ;;;
        pte_mod pte (fun v => Z.land v (Z.lnot PTE_A)))).

Definition update_access_counter (p : nat) : K unit := for_all (Z.to_nat MAX_PYSC_PAGES) 0 (access_turn p).

(** [while (access_count)]: a [uint] is 0 after at most 32 halvings. *)
Fixpoint num_of_ones_loop (fuel : nat) (access_count n : Z) : Z :=
  match fuel with
  | O => n
  | S fuel' =>
      if access_count =? 0 then n
      else num_of_ones_loop fuel' (access_count / 2)
             (if negb (access_count mod 2 =? 0) then n + 1 else n)
  end.

Definition num_of_ones (access_count : Z) : Z := num_of_ones_loop 33 (u32 access_count) 0.

(** The scan of [SCFIFO_algorithm]: index and order of the page so far. *)
Definition scfifo_scan (pages : list page_metadata_struct) : Z * Z :=
  scan (fun i pg '(page_index, page_order) =>
    if bool_decide (pm_state pg = P_USED) && (pm_order pg <=? page_order)
    then (i, pm_order pg) else (page_index, page_order)) 0 pages (-1, 0xffffffff).

(** From [recheck] to the [goto] or the [return]. *)
Definition scfifo_turn (p : nat) : unit -> K (unit + Z) :=
  fun _ : unit =>
    let* pr := proc_get p in
    let '(page_index, _) := scfifo_scan (p_memory_pages pr) in
    let* pg := mp_get p page_index in
    let* pte := walk (p_pagetable pr) (pm_va pg) false in
    let* v := pte_get pte in
    if truth (Z.land v PTE_A) then
      pte_mod pte (fun v => Z.land v (Z.lnot PTE_A)) ;;;
      mp_mod p page_index (set_pm_order (u32 (p_page_order_counter pr))) ;;;
      proc_mod p (fun pr => set_p_page_order_counter (u64 (p_page_order_counter pr + 1)) pr) ;;;
      ret (inl tt)
    else ret (inr page_index).

(** Each turn of [recheck] clears the [PTE_A] of a page in memory, of which
    there are at most [MAX_PYSC_PAGES]. *)
Definition SCFIFO_algorithm : K Z :=
  let* p := this_proc in
  while_ (S (Z.to_nat MAX_PYSC_PAGES)) (scfifo_turn p) tt.

(** The scan of [NFUA_algorithm]. *)
Definition nfua_scan (pages : list page_metadata_struct) : Z * Z :=
  scan (fun i pg '(page_index, best) =>
    if bool_decide (pm_state pg = P_USED) && (pm_access pg <? best)
    then (i, pm_access pg) else (page_index, best)) 0 pages (-1, 0xFFFFFFFF).

Definition NFUA_algorithm : K Z :=
  let* p := this_proc in
  let* pr := proc_get p in
  ret (fst (nfua_scan (p_memory_pages pr))).

(** The body of [LAPA_algorithm]'s loop; the comparison with
    [memory_pages[page_index]] is evaluated only when [curr == best]. *)
Definition lapa_step (pages : list page_metadata_struct) (i : Z) (pg : page_metadata_struct)
    (st : Z * Z) : option (Z * Z) :=
  let '(page_index, best) := st in
  if bool_decide (pm_state pg = P_USED) then
    let curr := num_of_ones (pm_access pg) in
    if curr <? best then Some (i, curr)
    else if curr =? best then
      if page_index <? 0 then None
      else match pages !! Z.to_nat page_index with
           | None => None
           | Some g => if pm_access pg <? pm_access g then Some (i, curr) else Some st
           end
    else Some st
  else Some st.

Definition lapa_scan (pages : list page_metadata_struct) : option (Z * Z) :=
  scan (fun i pg acc => match acc with Some st => lapa_step pages i pg st | None => None end)
    0 pages (Some (-1, 0xFFFFFFFF)).

Definition LAPA_algorithm : K Z :=
  let* p := this_proc in
  let* pr := proc_get p in
  match lapa_scan (p_memory_pages pr) with
  | Some (page_index, _) => ret page_index
  | None => fault "memory_pages"
  end.

Definition first_only_algorithm : K Z := ret 0.

Definition get_swap_out_page_index : K Z :=
  when (bool_decide (SELECTION = NFUA) || bool_decide (SELECTION = LAPA))
    (let* p := this_proc in update_access_counter p) ;;;
  match SELECTION with
  | SCFIFO => SCFIFO_algorithm
  | LAPA => LAPA_algorithm
  | NFUA => NFUA_algorithm
  | DEBUG => first_only_algorithm
  | NONE => panic "Unrecognized paging machanism"
  end.

(** *** Unmapping, freeing, copying *)

Definition uvmunmap_body (pagetable stop : Z) (do_free : bool) (a : Z) : K (Z + unit) :=
  if negb (a <? stop) then ret (inr tt) else
  let* pte := walk pagetable a false in
  if pte =? 0 then panic "uvmunmap: walk" else
  let* v := load64 pte in
  if (Z.land v PTE_V =? 0) && (Z.land v PTE_PG =? 0) then panic "uvmunmap: not mapped" else
  if PTE_FLAGS v =? PTE_V then panic "uvmunmap: not a leaf" else
  when (do_free && (Z.land v PTE_V =? 0))
    (let pa := PTE2PA v in when (negb (pa =? 0)) (kfree pa)) ;;;
  let* v := load64 pte in
  when (negb is_none_policy && negb (Z.land v PTE_V =? 0))
    (remove_from_memory_meta_data a pagetable) ;;;
  store64 pte 0 ;;;
  ret (inl (u64 (a + PGSIZE))).

Definition uvmunmap (pagetable va npages : Z) (do_free : bool) : K unit :=
  if negb (va mod PGSIZE =? 0) then panic "uvmunmap: not aligned" else
  while_ (S (Z.to_nat npages))
    (uvmunmap_body pagetable (u64 (va + npages * PGSIZE)) do_free) va.

Definition uvmdealloc (pagetable oldsz newsz : Z) : K Z :=
  if oldsz <=? newsz then ret oldsz else
  when (PGROUNDUP newsz <? PGROUNDUP oldsz)
    (let npages := s32 ((PGROUNDUP oldsz - PGROUNDUP newsz) / PGSIZE) in
     uvmunmap pagetable (PGROUNDUP newsz) (u64 npages) true) ;;;
  ret newsz.

(** The page tables have three levels; one more than that is allowed for. *)
Definition uvmfree (pagetable sz : Z) : K unit :=
  when (0 <? sz) (uvmunmap pagetable 0 (PGROUNDUP sz / PGSIZE) true) ;;;
  freewalk 4 pagetable.

Definition uvmcopy_body (old new sz : Z) (i : Z) : K (Z + Z) :=
  if negb (i <? sz) then ret (inr 0) else
  let* pte := walk old i false in
  if pte =? 0 then panic "uvmcopy: pte should exist" else
  let* v := load64 pte in
  if truth (Z.land v PTE_PG) then
    update_page_out_pte new i ;;; ret (inl (u64 (i + PGSIZE)))
  else
  if Z.land v PTE_V =? 0 then panic "uvmcopy: page not present" else
  let pa := PTE2PA v in
  let flags := PTE_FLAGS v in
  let* mem := kalloc in
  if mem =? 0 then uvmunmap new 0 (i / PGSIZE) true ;;; ret (inr (-1)) else
  mem_mod (fun m => memmove m mem pa PGSIZE) ;;;
  let* r := mappages new i PGSIZE mem flags in
  if negb (r =? 0) then
    kfree mem ;;;
    uvmunmap new 0 (i / PGSIZE) true ;;;
    ret (inr (-1))
  else ret (inl (u64 (i + PGSIZE))).

Definition uvmcopy (old new sz : Z) : K Z :=
  while_ (S (S (Z.to_nat (sz / PGSIZE)))) (uvmcopy_body old new sz) 0.

End paging.

(** ** Lemmas: scans *)

Lemma scan_ind {A} (P : Z -> A -> Prop) step pages a :
  P 0 a ->
  (forall j pg a, pages !! j = Some pg -> P (Z.of_nat j) a ->
     P (Z.of_nat j + 1) (step (Z.of_nat j) pg a)) ->
  P (Z.of_nat (length pages)) (scan step 0 pages a).
Proof.
  intros H0 Hstep.
  assert (forall rest pre a, pages = pre ++ rest -> P (Z.of_nat (length pre)) a ->
    P (Z.of_nat (length pages)) (scan step (Z.of_nat (length pre)) rest a)) as H.
  { intros rest. induction rest as [|pg rest IH]; intros pre a' Heq Hp; simpl.
    - rewrite app_nil_r in Heq. by subst.
    - specialize (IH (pre ++ [pg])). rewrite length_app, Nat2Z.inj_add in IH. simpl in IH.
      apply IH; [by rewrite <- app_assoc|]. apply Hstep; [|done].
      rewrite Heq. by apply list_lookup_middle. }
  by apply (H pages []).
Qed.

Definition used (pg : page_metadata_struct) : bool := bool_decide (pm_state pg = P_USED).

(** *** NFUA *)

(** What a scan for the least [key] below [top] has found among the first [j]
    pages: nothing, or the first used page with the least key. *)
Definition least_so_far (key : page_metadata_struct -> Z) (top : Z)
    (pages : list page_metadata_struct) (j idx best : Z) : Prop :=
  (idx = -1 /\ best = top /\
   forall n pg, Z.of_nat n < j -> pages !! n = Some pg -> used pg = true -> top <= key pg) \/
  (exists n pg, idx = Z.of_nat n /\ Z.of_nat n < j /\ pages !! n = Some pg /\ used pg = true /\
     key pg = best /\ best < top /\
     forall n' pg', Z.of_nat n' < j -> pages !! n' = Some pg' -> used pg' = true ->
       best <= key pg' /\ ((n' < n)%nat -> best < key pg')).

Lemma least_take key top pages j pg idx best :
  pages !! j = Some pg -> used pg = true -> key pg < best ->
  least_so_far key top pages (Z.of_nat j) idx best ->
  least_so_far key top pages (Z.of_nat j + 1) (Z.of_nat j) (key pg).
Proof.
  intros Hj Hu Hlt Hinv. right. exists j, pg. split_and!; try done; [lia| |].
  { destruct Hinv as [(_ & -> & _)|(n & g & _ & _ & _ & _ & _ & ? & _)]; lia. }
  intros n' pg' Hn' Hl' Hu'. destruct (decide (n' = j)) as [->|Hne].
  - rewrite Hj in Hl'. injection Hl' as <-. lia.
  - destruct Hinv as [(_ & -> & Hall)|(n & g & _ & _ & _ & _ & _ & Hb & Hall)].
    + assert (top <= key pg') by (apply (Hall n'); [lia|done..]). lia.
    + destruct (Hall n' pg') as [H1 _]; [lia|done|done|]. lia.
Qed.

Lemma least_skip key top pages j pg idx best :
  pages !! j = Some pg -> (used pg = true -> best <= key pg) ->
  least_so_far key top pages (Z.of_nat j) idx best ->
  least_so_far key top pages (Z.of_nat j + 1) idx best.
Proof.
  intros Hj Hge [(-> & -> & Hall)|(n & g & -> & Hn & Hl & Hug & Hk & Hb & Hall)].
  - left. split_and!; [done|done|]. intros n' pg' Hn' Hl' Hu'.
    destruct (decide (n' = j)) as [->|Hne]; [|apply (Hall n'); [lia|done..]].
    rewrite Hj in Hl'. injection Hl' as <-. auto.
  - right. exists n, g. split_and!; try done; [lia|]. intros n' pg' Hn' Hl' Hu'.
    destruct (decide (n' = j)) as [->|Hne]; [|apply Hall; [lia|done..]].
    rewrite Hj in Hl'. injection Hl' as <-. split; [auto|lia].
Qed.

Lemma nfua_scan_least pages :
  least_so_far pm_access 0xFFFFFFFF pages (Z.of_nat (length pages))
    (fst (nfua_scan pages)) (snd (nfua_scan pages)).
Proof.
  unfold nfua_scan.
  apply (scan_ind (fun j st => least_so_far pm_access 0xFFFFFFFF pages j (fst st) (snd st))).
  - left. split_and!; [done|done|]. intros n pg Hn. lia.
  - intros j pg [idx best] Hj Hinv. simpl in Hinv. fold (used pg).
    destruct (used pg) eqn:Hu; simpl.
    + destruct (Z.ltb_spec (pm_access pg) best); simpl; [by eapply least_take|].
      by apply (least_skip _ _ _ _ pg).
    + by apply (least_skip _ _ _ _ pg); [|congruence|].
Qed.

(** *** LAPA *)

Fixpoint popcount (n : nat) (x : Z) : Z :=
  match n with
  | O => 0
  | S n' => popcount n' x + Z.b2z (Z.testbit x (Z.of_nat n'))
  end.

Lemma popcount_range n x : 0 <= popcount n x <= Z.of_nat n.
Proof.
  induction n as [|n IH]; simpl popcount; [lia|]. destruct (Z.testbit x (Z.of_nat n)); simpl; lia.
Qed.

Lemma popcount_S n x :
  popcount (S n) x = popcount n x + Z.b2z (Z.testbit x (Z.of_nat n)).
Proof. done. Qed.

#[local] Arguments popcount : simpl never.

Lemma popcount_half n x :
  popcount (S n) x = Z.b2z (Z.testbit x 0) + popcount n (x / 2).
Proof.
  induction n as [|n IH]; [rewrite popcount_S; unfold popcount; change (Z.of_nat 0) with 0; lia|].
  rewrite popcount_S, IH, (popcount_S n). rewrite <- Z.div2_div, Z.div2_spec, Z.shiftr_spec by lia.
  replace (Z.of_nat n + 1) with (Z.of_nat (S n)) by lia. lia.
Qed.

Lemma popcount_0 n : popcount n 0 = 0.
Proof. induction n as [|n IH]; [done|]. by rewrite popcount_S, IH, Z.testbit_0_l. Qed.

Lemma num_of_ones_loop_spec fuel x n :
  0 <= x < 2 ^ Z.of_nat fuel -> num_of_ones_loop fuel x n = n + popcount fuel x.
Proof.
  revert x n. induction fuel as [|fuel IH]; intros x n Hx.
  - unfold popcount. simpl. lia.
  - simpl num_of_ones_loop. destruct (Z.eqb_spec x 0) as [->|Hne].
    + rewrite popcount_0. lia.
    + rewrite IH.
      * rewrite popcount_half, Z.bit0_mod. rewrite Zmod_even.
        destruct (Z.even x); simpl; lia.
      * rewrite Nat2Z.inj_succ, Z.pow_succ_r in Hx by lia. Z.to_euclidean_division_equations. lia.
Qed.

Lemma num_of_ones_spec x : num_of_ones x = popcount 32 (u32 x).
Proof.
  unfold num_of_ones. pose proof (u32_range x). rewrite num_of_ones_loop_spec by (simpl; lia).
  rewrite popcount_S. change (Z.of_nat 32) with 32.
  rewrite (testbit_high (u32 x) 32) by lia. cbn [Z.b2z]. lia.
Qed.

(** The order LAPA minimises: number of ones first, counter second. *)
Definition lapa_key (pg : page_metadata_struct) : Z :=
  num_of_ones (pm_access pg) * 2 ^ 32 + pm_access pg.

Definition access_ok (pg : page_metadata_struct) : Prop := 0 <= pm_access pg < 2 ^ 32.

Lemma num_of_ones_range x : 0 <= num_of_ones x <= 32.
Proof. rewrite num_of_ones_spec. apply (popcount_range 32). Qed.

#[global] Opaque num_of_ones popcount.

Lemma lapa_key_lt pg g :
  access_ok pg -> access_ok g ->
  lapa_key pg < lapa_key g <->
  num_of_ones (pm_access pg) < num_of_ones (pm_access g) \/
  (num_of_ones (pm_access pg) = num_of_ones (pm_access g) /\ pm_access pg < pm_access g).
Proof. unfold access_ok, lapa_key. lia. Qed.

(** The state of the scan: [best] is the number of ones of the page found. *)
Definition lapa_inv (pages : list page_metadata_struct) (j : Z) (st : option (Z * Z)) : Prop :=
  exists idx best bk, st = Some (idx, best) /\
    least_so_far lapa_key (2 ^ 40) pages j idx bk /\
    ((idx = -1 /\ best = 0xFFFFFFFF) \/
     (exists g, pages !! Z.to_nat idx = Some g /\ 0 <= idx /\ bk = lapa_key g /\
        best = num_of_ones (pm_access g) /\ access_ok g)).

Lemma lapa_scan_inv pages :
  Forall access_ok pages -> lapa_inv pages (Z.of_nat (length pages)) (lapa_scan pages).
Proof.
  intros Hok. unfold lapa_scan. apply (scan_ind (lapa_inv pages)).
  - exists (-1), 0xFFFFFFFF, (2 ^ 40). split_and!; [done| |by left].
    left. split_and!; [done|done|]. intros n pg Hn. lia.
  - intros j pg st Hj (idx & best & bk & -> & Hleast & Hst).
    pose proof (Forall_lookup_1 _ _ _ _ Hok Hj) as Hpg.
    pose proof (num_of_ones_range (pm_access pg)) as Hr.
    assert (least_so_far lapa_key (2 ^ 40) pages (Z.of_nat j) idx bk ->
      used pg = true -> lapa_key pg < bk ->
      lapa_inv pages (Z.of_nat j + 1) (Some (Z.of_nat j, num_of_ones (pm_access pg)))) as Htake.
    { intros _ Hu Hlt. eexists _, _, (lapa_key pg). split_and!; [reflexivity|by eapply least_take|].
      right. exists pg. rewrite Nat2Z.id. split_and!; try done. lia. }
    assert ((used pg = true -> bk <= lapa_key pg) ->
      lapa_inv pages (Z.of_nat j + 1) (Some (idx, best))) as Hskip.
    { intros Hge. exists idx, best, bk. split_and!; [done|by apply (least_skip _ _ _ _ pg)|done]. }
    unfold lapa_step. fold (used pg). destruct (used pg) eqn:Hu; [|apply Hskip; congruence].
    destruct Hst as [[-> ->]|(g & Hg & Hidx & -> & -> & Hgok)].
    + rewrite (proj2 (Z.ltb_lt _ _)) by lia. apply Htake; [done|done|].
      destruct Hleast as [(_ & -> & _)|(n & ? & Hc & _)]; [|lia].
      unfold lapa_key, access_ok in *. lia.
    + pose proof (lapa_key_lt pg g Hpg Hgok) as Hlt.
      destruct (Z.ltb_spec (num_of_ones (pm_access pg)) (num_of_ones (pm_access g))).
      { apply Htake; [done|done|]. apply Hlt. by left. }
      destruct (Z.eqb_spec (num_of_ones (pm_access pg)) (num_of_ones (pm_access g))).
      2: { apply Hskip. intros _. lia. }
      rewrite (proj2 (Z.ltb_ge idx 0)) by lia. rewrite Hg.
      destruct (Z.ltb_spec (pm_access pg) (pm_access g)).
      * apply Htake; [done|done|]. apply Hlt. by right.
      * apply Hskip. intros _. lia.
Qed.

(** Page [n] is a better choice than page [n'] for LAPA: fewer ones in the
    32-bit counter, or as many and a smaller counter, or an equal counter and a
    smaller index. *)
Definition lapa_before (n : nat) (pg : page_metadata_struct) (n' : nat)
    (pg' : page_metadata_struct) : Prop :=
  let c := popcount 32 (pm_access pg) in
  let c' := popcount 32 (pm_access pg') in
  c < c' \/
  (c = c' /\ (pm_access pg < pm_access pg' \/ (pm_access pg = pm_access pg' /\ (n < n')%nat))).

Lemma num_of_ones_ok pg : access_ok pg -> num_of_ones (pm_access pg) = popcount 32 (pm_access pg).
Proof. intros H. rewrite num_of_ones_spec. by rewrite u32_small by exact H. Qed.

Lemma lapa_key_small pg : access_ok pg -> lapa_key pg < 2 ^ 40.
Proof.
  intros H. pose proof (num_of_ones_range (pm_access pg)). unfold access_ok in H.
  unfold lapa_key. lia.
Qed.

Lemma lapa_key_before n pg n' pg' :
  access_ok pg -> access_ok pg' -> n' <> n -> lapa_key pg <= lapa_key pg' ->
  ((n' < n)%nat -> lapa_key pg < lapa_key pg') -> lapa_before n pg n' pg'.
Proof.
  intros Hp Hp' Hne Hle Hlt. unfold lapa_before. rewrite <- !num_of_ones_ok by done.
  unfold lapa_key in Hle, Hlt. unfold access_ok in Hp, Hp'.
  generalize dependent (num_of_ones (pm_access pg)).
  generalize dependent (num_of_ones (pm_access pg')). lia.
Qed.

Lemma lapa_scan_least pages :
  Forall access_ok pages ->
  exists idx best, lapa_scan pages = Some (idx, best) /\
    ((idx = -1 /\ forall n pg, pages !! n = Some pg -> used pg = false) \/
     (exists n pg, idx = Z.of_nat n /\ pages !! n = Some pg /\ used pg = true /\
        forall n' pg', pages !! n' = Some pg' -> used pg' = true -> n' <> n ->
          lapa_before n pg n' pg')).
Proof.
  intros Hok. destruct (lapa_scan_inv _ Hok) as (idx & best & bk & -> & Hleast & _).
  exists idx, best. split; [reflexivity|].
  assert (forall n pg, pages !! n = Some pg ->
    Z.of_nat n < Z.of_nat (length pages) /\ access_ok pg) as Hlt.
  { intros n pg Hn. split; [apply lookup_lt_Some in Hn; lia|].
    by apply (Forall_lookup_1 _ _ _ _ Hok Hn). }
  destruct Hleast as [(-> & _ & Hall)|(n & pg & -> & _ & Hn & Hu & Hk & _ & Hall)].
  - left. split; [done|]. intros n pg Hn. destruct (Hlt n pg Hn) as [H1 H2].
    destruct (used pg) eqn:Hu; [|reflexivity]. specialize (Hall n pg H1 Hn Hu).
    pose proof (lapa_key_small pg H2). exfalso. clear -Hall H. lia.
  - right. exists n, pg. split_and!; [done|done|done|]. intros n' pg' Hn' Hu' Hne.
    destruct (Hlt n pg Hn) as [_ Hpg]. destruct (Hlt n' pg' Hn') as [H1 Hpg'].
    destruct (Hall n' pg' H1 Hn' Hu') as [Hle Hlt'].
    rewrite <- Hk in Hle, Hlt'. by apply lapa_key_before.
Qed.

(** ** Lemmas: the state of one process *)

(** The state with process [p] replaced. *)
Definition with_proc (p : nat) (pr : proc) (k : kernel) : kernel :=
  set_k_procs (<[p := pr]> (k_procs k)) k.

Lemma with_proc_lookup p pr pr' k :
  k_procs k !! p = Some pr -> k_procs (with_proc p pr' k) !! p = Some pr'.
Proof. intros H. simpl. apply list_lookup_insert_eq. by apply lookup_lt_Some in H. Qed.

Lemma with_proc_twice p pr1 pr2 k : with_proc p pr2 (with_proc p pr1 k) = with_proc p pr2 k.
Proof. unfold with_proc. destruct k. simpl. by rewrite list_insert_insert_eq. Qed.

Lemma with_proc_same p pr k : k_procs k !! p = Some pr -> with_proc p pr k = k.
Proof. intros H. unfold with_proc. rewrite list_insert_id by done. by destruct k. Qed.

Lemma proc_mod_eq p f k e pr :
  k_procs k !! p = Some pr -> proc_mod p f (W k e) = Ret tt (W (with_proc p (f pr) k) e).
Proof.
  intros H. unfold proc_mod, kmod. simpl. by rewrite (list_alter_lookup _ _ _ pr).
Qed.

Lemma mp_get_eq p i k e pr pg :
  k_procs k !! p = Some pr -> p_memory_pages pr !! i = Some pg ->
  mp_get p (Z.of_nat i) (W k e) = Ret pg (W k e).
Proof.
  intros Hp Hi. unfold mp_get. rewrite (bind_Ret _ _ _ _ _ (proc_get_eq _ _ _ _ Hp)).
  unfold nth_or_fault. rewrite (proj2 (Z.ltb_ge _ 0)) by lia. rewrite Nat2Z.id, Hi. done.
Qed.

Definition with_page (i : nat) (f : page_metadata_struct -> page_metadata_struct) (pr : proc) : proc :=
  set_p_memory_pages (alter f i (p_memory_pages pr)) pr.

Lemma with_page_lookup i h pr g :
  p_memory_pages pr !! i = Some g -> p_memory_pages (with_page i h pr) !! i = Some (h g).
Proof. intros Hi. simpl. by rewrite list_lookup_alter_eq, Hi. Qed.

Lemma mp_mod_eq p i f k e pr pg :
  k_procs k !! p = Some pr -> p_memory_pages pr !! i = Some pg ->
  mp_mod p (Z.of_nat i) f (W k e) = Ret tt (W (with_proc p (with_page i f pr) k) e).
Proof.
  intros Hp Hi. unfold mp_mod. rewrite (bind_Ret _ _ _ _ _ (mp_get_eq _ _ _ _ _ _ Hp Hi)).
  rewrite (proc_mod_eq _ _ _ _ _ Hp). by rewrite Nat2Z.id.
Qed.

Lemma u64_land v x : 0 <= v < 2 ^ 64 -> u64 (Z.land v x) = Z.land v x.
Proof.
  intros Hv. unfold u64. rewrite <- !Z.land_ones by lia.
  rewrite <- Z.land_assoc, (Z.land_comm x), Z.land_assoc, Z.land_ones by lia.
  by rewrite Z.mod_small.
Qed.

(** *** SCFIFO *)

Definition order_of (pages : list page_metadata_struct) (n : nat) : Z :=
  from_option pm_order 0 (pages !! n).
Definition va_of (pages : list page_metadata_struct) (n : nat) : Z :=
  from_option pm_va 0 (pages !! n).

Lemma scfifo_scan_first pages h g :
  pages !! h = Some g -> used g = true -> pm_order g <= 0xffffffff ->
  (forall n pg, pages !! n = Some pg -> used pg = true -> n <> h -> pm_order g < pm_order pg) ->
  scfifo_scan pages = (Z.of_nat h, pm_order g).
Proof.
  intros Hg Hu Htop Hmin. apply lookup_lt_Some in Hg as Hlen.
  assert (if Z.of_nat h <? Z.of_nat (length pages)
          then scfifo_scan pages = (Z.of_nat h, pm_order g)
          else pm_order g <= snd (scfifo_scan pages)) as H.
  { apply (scan_ind (fun j st => if Z.of_nat h <? j
      then st = (Z.of_nat h, pm_order g) else pm_order g <= snd st)).
    - rewrite (proj2 (Z.ltb_ge _ _)) by lia. done.
    - intros j pg [idx o] Hj. fold (used pg). destruct (decide (j = h)) as [->|Hne].
      + rewrite (proj2 (Z.ltb_ge _ _)), (proj2 (Z.ltb_lt _ _)) by lia. simpl. intros Ho.
        rewrite Hg in Hj. injection Hj as <-. rewrite Hu. simpl.
        by rewrite (proj2 (Z.leb_le _ _)) by lia.
      + destruct (Z.ltb_spec (Z.of_nat h) (Z.of_nat j)) as [Hlt'|Hge].
        * rewrite (proj2 (Z.ltb_lt _ _)) by lia. intros [= -> ->].
          destruct (used pg) eqn:Hup; [|done]. specialize (Hmin j pg Hj Hup Hne). simpl.
          by rewrite (proj2 (Z.leb_gt _ _)) by lia.
        * rewrite (proj2 (Z.ltb_ge _ _)) by lia. simpl. intros Ho.
          destruct (used pg) eqn:Hup; [|done]. specialize (Hmin j pg Hj Hup Hne).
          destruct (Z.leb_spec (pm_order pg) o); simpl; lia. }
  by rewrite (proj2 (Z.ltb_lt _ _)) in H by lia.
Qed.

(** The pages in memory of process [p] form the queue [q], oldest first: [q]
    lists the used entries in the order of their [page_order], which is below
    the counter that numbers the next one; each has an entry in the page table
    and no two are for the same page. *)
Record sc_state `{L : Layout} (p : nat) (l : list Z) (k : kernel) (pr : proc)
    (q : list nat) : Prop := {
  sc_cur : k_cur k = Some p;
  sc_proc : k_procs k !! p = Some pr;
  sc_pt : pt_ok (k_mem k) (p_pagetable pr) l;
  sc_used : forall n, n ∈ q <-> exists pg, p_memory_pages pr !! n = Some pg /\ used pg = true;
  sc_nodup : NoDup q;
  sc_sorted : StronglySorted
    (fun a b => order_of (p_memory_pages pr) a < order_of (p_memory_pages pr) b) q;
  sc_ord : forall n, n ∈ q ->
    0 <= order_of (p_memory_pages pr) n < p_page_order_counter pr;
  sc_va : forall n, n ∈ q -> 0 <= va_of (p_memory_pages pr) n < MAXVA /\
    is_Some (page_at (k_mem k) (p_pagetable pr) (path_of (va_of (p_memory_pages pr) n)));
  sc_distinct : forall n n', n ∈ q -> n' ∈ q ->
    same_page (va_of (p_memory_pages pr) n) (va_of (p_memory_pages pr) n') = true -> n = n';
}.

(** Only the bits [PTE_A] of entries have changed. *)
Record touched (root : Z) (m m' : memory) : Prop := {
  to_page : forall path, path_ok path -> page_at m' root path = page_at m root path;
  to_leaf : forall va, 0 <= va < MAXVA -> leaf m' root va = leaf m root va \/
    leaf m' root va = Z.land (leaf m root va) (Z.lnot PTE_A);
  to_rest : forall a, (forall path q, path_ok path -> page_at m root path = Some q -> ~ in_page q a) -> ld8 m' a = ld8 m a;
}.

(** Only the ages of the pages in memory have changed: the numbers and access
    counters in their entries, and the counter of the numbers. *)
Record aged (pr pr' : proc) : Prop := {
  ag_rest : exists pages n, pr' = set_p_memory_pages pages (set_p_page_order_counter n pr);
  ag_mem : forall i, (fun g => (pm_state g, pm_va g)) <$> p_memory_pages pr' !! i =
    (fun g => (pm_state g, pm_va g)) <$> p_memory_pages pr !! i;
}.

Lemma ag_table pr pr' : aged pr pr' -> p_pagetable pr' = p_pagetable pr.
Proof. by intros [(? & ? & ->) _]. Qed.
Lemma ag_swap pr pr' : aged pr pr' -> p_swapFile pr' = p_swapFile pr.
Proof. by intros [(? & ? & ->) _]. Qed.
Lemma ag_file pr pr' : aged pr pr' -> p_file_pages pr' = p_file_pages pr.
Proof. by intros [(? & ? & ->) _]. Qed.

Lemma aged_pages pages pr :
  (forall i, (fun g => (pm_state g, pm_va g)) <$> pages !! i = (fun g => (pm_state g, pm_va g)) <$> p_memory_pages pr !! i) ->
  aged pr (set_p_memory_pages pages pr).
Proof. intros Hp. split; [|done]. exists pages, (p_page_order_counter pr). by destruct pr. Qed.

Lemma touched_refl root m : touched root m m.
Proof. split; auto. Qed.

Lemma touched_trans root m m1 m2 : touched root m m1 -> touched root m1 m2 -> touched root m m2.
Proof.
  intros [A1 A2 A3] [B1 B2 B3]. split.
  - intros path Hp. by rewrite B1, A1.
  - intros va Hva. destruct (B2 va Hva) as [->| ->], (A2 va Hva) as [->| ->]; auto.
    right. by rewrite <- Z.land_assoc, Z.land_diag.
  - intros a Ha. rewrite B3, A3; [done|done|]. intros path q Hp. rewrite A1 by done. by apply Ha.
Qed.

Lemma aged_refl pr : aged pr pr.
Proof. split; [|done]. exists (p_memory_pages pr), (p_page_order_counter pr). by destruct pr. Qed.

Lemma aged_trans pr pr1 pr2 : aged pr pr1 -> aged pr1 pr2 -> aged pr pr2.
Proof.
  intros [(g1 & n1 & ->) H1] [(g2 & n2 & ->) H2]. split; [|intros i; by rewrite H2, H1].
  exists g2, n2. by destruct pr.
Qed.

(** A change of age at one index. *)
Lemma aged_page i h pr :
  (forall g, pm_state (h g) = pm_state g /\ pm_va (h g) = pm_va g) -> aged pr (with_page i h pr).
Proof.
  intros Hh. apply aged_pages. intros i'. simpl. destruct (decide (i' = i)) as [->|Hne]; [|by rewrite list_lookup_alter_ne].
  rewrite list_lookup_alter_eq. destruct (p_memory_pages pr !! i) as [g|]; simpl; [|done]. by destruct (Hh g) as [-> ->].
Qed.

(** Clearing the bit in the table [t] of [va]. *)
Lemma touched_store `{L : Layout} `{!LayoutOk L} root l va t m :
  pt_ok m root l -> 0 <= va < MAXVA -> page_at m root (path_of va) = Some t ->
  touched root m (st64 m (t + 8 * PX 0 va) (Z.land (ld64 m (t + 8 * PX 0 va)) (Z.lnot PTE_A))).
Proof.
  intros Hpt Hva Ht. split.
  - intros path Hpo. by apply (page_at_leaf_store m root l t path [] root).
  - intros va' Hva'. rewrite (leaf_store _ _ l t) by done. destruct (same_page va va') eqn:E; [right|by left].
    rewrite u64_land by apply ld64_range. f_equal. rewrite <- leaf_rounddown. apply Z.eqb_eq in E. rewrite <- E, leaf_rounddown.
    unfold leaf. by rewrite Ht.
  - intros a Ha. specialize (Ha _ _ (path_of_ok va) Ht). pose proof (PX_range 0 va). unfold st64.
    apply ld8_st_bytes_ne. rewrite length_le_bytes. unfold in_page, PGSIZE in Ha. lia.
Qed.

(** The [PTE_A] bit of the page with index [n]. *)
Definition accessed (k : kernel) (pr : proc) (n : nat) : bool :=
  truth (Z.land (leaf (k_mem k) (p_pagetable pr) (va_of (p_memory_pages pr) n)) PTE_A).

Section scfifo.
Context `{L : Layout} `{!LayoutOk L} (p : nat) (l : list Z).

Lemma sc_first k pr h t :
  sc_state p l k pr (h :: t) -> p_page_order_counter pr < 2 ^ 32 ->
  exists g, p_memory_pages pr !! h = Some g /\ used g = true /\
    scfifo_scan (p_memory_pages pr) = (Z.of_nat h, pm_order g).
Proof.
  intros Hs Hc. destruct (proj1 (sc_used _ _ _ _ _ Hs h) (list_elem_of_here _ _)) as (g & Hg & Hu).
  exists g. split_and!; [done|done|]. pose proof (sc_ord _ _ _ _ _ Hs h (list_elem_of_here _ _)) as Ho.
  unfold order_of in Ho. rewrite Hg in Ho. simpl in Ho.
  apply scfifo_scan_first; [done|done|lia|].
  intros n pg Hn Hun Hne.
  assert (n ∈ h :: t) as Hin by (apply (sc_used _ _ _ _ _ Hs); eauto).
  apply elem_of_cons in Hin as [?|Hin]; [done|].
  pose proof (sc_sorted _ _ _ _ _ Hs) as Hsort. inversion Hsort as [|? ? _ Hall]; subst.
  rewrite list.Forall_forall in Hall. specialize (Hall n Hin). unfold order_of in Hall.
  rewrite Hg, Hn in Hall. done.
Qed.

(** The entry of the first page of the queue, and where it is. *)
Lemma sc_entry k pr n q e :
  sc_state p l k pr q -> n ∈ q ->
  exists t, page_at (k_mem k) (p_pagetable pr) (path_of (va_of (p_memory_pages pr) n)) = Some t /\
    let pte := t + 8 * PX 0 (va_of (p_memory_pages pr) n) in
    walk (p_pagetable pr) (va_of (p_memory_pages pr) n) false (W k e) = Ret pte (W k e) /\
    (pte =? 0) = false /\
    ld64 (k_mem k) pte = leaf (k_mem k) (p_pagetable pr) (va_of (p_memory_pages pr) n).
Proof.
  intros Hs Hn. destruct (sc_va _ _ _ _ _ Hs n Hn) as [Hva [t Ht]]. exists t.
  cbv zeta. split_and!; [done|..].
  - rewrite walk_look, Ht by lia. reflexivity.
  - destruct (proj1 (sc_pt _ _ _ _ _ Hs) _ _ (path_of_ok _) Ht) as [Hok _].
    pose proof (page_ok_range t Hok). pose proof (PX_range 0 (va_of (p_memory_pages pr) n)).
    apply Z.eqb_neq. unfold KERNBASE in *. lia.
  - unfold leaf. by rewrite Ht.
Qed.

Lemma scfifo_turn_found k pr h t e :
  sc_state p l k pr (h :: t) -> p_page_order_counter pr < 2 ^ 32 ->
  accessed k pr h = false ->
  scfifo_turn p tt (W k e) = Ret (inr (Z.of_nat h)) (W k e).
Proof.
  intros Hs Hc Ha. destruct (sc_first k pr h t Hs Hc) as (g & Hg & Hu & Hscan).
  unfold scfifo_turn. rewrite (bind_Ret _ _ _ _ _ (proc_get_eq _ _ _ _ (sc_proc _ _ _ _ _ Hs))).
  rewrite Hscan. rewrite (bind_Ret _ _ _ _ _ (mp_get_eq _ _ _ _ _ _ (sc_proc _ _ _ _ _ Hs) Hg)).
  destruct (sc_entry k pr h (h :: t) e Hs (list_elem_of_here _ _)) as (tb & _ & Hw & Hnz & Hld).
  unfold accessed in Ha. unfold va_of in *. rewrite Hg in *. simpl in *.
  rewrite (bind_Ret _ _ _ _ _ Hw). unfold pte_get. rewrite Hnz. unfold load64.
  by rewrite bind_kget, Hld, Ha.
Qed.

(** The first page moves to the end of the queue with its bit cleared. *)
Definition requeued (h : nat) (pr : proc) : proc :=
  set_p_page_order_counter (p_page_order_counter pr + 1)
    (with_page h (set_pm_order (p_page_order_counter pr)) pr).

Lemma requeued_lookup h pr n :
  p_memory_pages (requeued h pr) !! n =
  if decide (n = h) then set_pm_order (p_page_order_counter pr) <$> p_memory_pages pr !! n
  else p_memory_pages pr !! n.
Proof.
  simpl. case_decide as Hd.
  - subst. apply list_lookup_alter_eq.
  - by apply list_lookup_alter_ne.
Qed.

Lemma requeued_va h pr n :
  va_of (p_memory_pages (requeued h pr)) n = va_of (p_memory_pages pr) n.
Proof.
  unfold va_of. rewrite requeued_lookup. case_decide; [|done].
  by destruct (p_memory_pages pr !! n).
Qed.

Lemma requeued_order h pr n :
  is_Some (p_memory_pages pr !! h) ->
  order_of (p_memory_pages (requeued h pr)) n =
  if decide (n = h) then p_page_order_counter pr else order_of (p_memory_pages pr) n.
Proof.
  intros [g Hg]. unfold order_of. rewrite requeued_lookup. case_decide as Hd; [|done].
  subst. by rewrite Hg.
Qed.

Lemma sorted_requeue (f f' : nat -> Z) h c t :
  h ∉ t -> (forall n, f' n = if decide (n = h) then c else f n) ->
  (forall n, n ∈ t -> f n < c) ->
  StronglySorted (fun a b => f a < f b) t -> StronglySorted (fun a b => f' a < f' b) (t ++ [h]).
Proof.
  intros Hh Hf Hc Hs. induction Hs as [|a t Hs IH Hall]; simpl.
  - constructor; constructor.
  - apply not_elem_of_cons in Hh as [Hha Hht]. constructor.
    + apply IH; [done|]. intros n Hn. apply Hc. by apply list_elem_of_further.
    + apply Forall_app. rewrite !list.Forall_forall in *. split.
      * intros b Hb. rewrite !Hf, !decide_False; [by apply Hall|congruence|congruence].
      * intros b ->%list_elem_of_singleton. rewrite !Hf, decide_False, decide_True by congruence.
        apply Hc, list_elem_of_here.
Qed.

Lemma land_lnot_A v : truth (Z.land (Z.land v (Z.lnot PTE_A)) PTE_A) = false.
Proof.
  rewrite <- Z.land_assoc. change (Z.land (Z.lnot PTE_A) PTE_A) with 0. by rewrite Z.land_0_r.
Qed.

Lemma scfifo_turn_again k pr h t e :
  sc_state p l k pr (h :: t) -> p_page_order_counter pr < 2 ^ 32 - 1 ->
  accessed k pr h = true ->
  exists m',
    let k' := with_proc p (requeued h pr) (set_k_mem m' k) in
    scfifo_turn p tt (W k e) = Ret (inl tt) (W k' e) /\
    sc_state p l k' (requeued h pr) (t ++ [h]) /\
    accessed k' (requeued h pr) h = false /\
    (forall n, n ∈ t -> accessed k' (requeued h pr) n = accessed k pr n) /\
    (forall va, 0 <= va < MAXVA -> leaf m' (p_pagetable pr) va =
       if same_page (va_of (p_memory_pages pr) h) va
       then Z.land (leaf (k_mem k) (p_pagetable pr) va) (Z.lnot PTE_A)
       else leaf (k_mem k) (p_pagetable pr) va) /\
    touched (p_pagetable pr) (k_mem k) m'.
Proof.
  intros Hs Hc Ha. destruct (sc_first k pr h t Hs) as (g & Hg & Hu & Hscan); [lia|].
  pose proof (sc_proc _ _ _ _ _ Hs) as Hp. pose proof (sc_pt _ _ _ _ _ Hs) as Hpt.
  pose proof (list_elem_of_here h t) as Hhq.
  pose proof (sc_nodup _ _ _ _ _ Hs) as Hnd. apply list.NoDup_cons in Hnd as [Hht Hndt].
  pose proof (sc_ord _ _ _ _ _ Hs) as Hord. pose proof (Hord h Hhq) as Hoh.
  destruct (sc_va _ _ _ _ _ Hs h Hhq) as [Hvah _].
  destruct (sc_entry k pr h (h :: t) e Hs Hhq) as (tb & Htb & Hw & Hnz & Hld).
  set (pte := tb + 8 * PX 0 (va_of (p_memory_pages pr) h)) in *.
  set (m' := st64 (k_mem k) pte (Z.land (ld64 (k_mem k) pte) (Z.lnot PTE_A))).
  assert (forall path, path_ok path ->
    page_at m' (p_pagetable pr) path = page_at (k_mem k) (p_pagetable pr) path) as Hpa.
  { intros path Hpo. unfold m', pte.
    by apply (page_at_leaf_store (k_mem k) (p_pagetable pr) l tb path [] (p_pagetable pr)). }
  assert (forall va, 0 <= va < MAXVA -> leaf m' (p_pagetable pr) va =
       if same_page (va_of (p_memory_pages pr) h) va
       then Z.land (leaf (k_mem k) (p_pagetable pr) va) (Z.lnot PTE_A)
       else leaf (k_mem k) (p_pagetable pr) va) as Hleaf.
  { intros va Hva. unfold m', pte. rewrite (leaf_store _ _ l tb) by done.
    destruct (same_page _ va) eqn:E; [|done].
    rewrite u64_land by apply ld64_range. fold pte. rewrite Hld. f_equal.
    rewrite <- leaf_rounddown. apply Z.eqb_eq in E. by rewrite E, leaf_rounddown. }
  assert (scfifo_turn p tt (W k e) =
    Ret (inl tt) (W (with_proc p (requeued h pr) (set_k_mem m' k)) e)) as Hrun.
  { unfold scfifo_turn. rewrite (bind_Ret _ _ _ _ _ (proc_get_eq _ _ _ _ Hp)), Hscan.
    rewrite (bind_Ret _ _ _ _ _ (mp_get_eq _ _ _ _ _ _ Hp Hg)).
    assert (pm_va g = va_of (p_memory_pages pr) h) as -> by (unfold va_of; by rewrite Hg).
    rewrite (bind_Ret _ _ _ _ _ Hw). unfold pte_get, pte_mod. rewrite Hnz. unfold load64.
    rewrite bind_kget, Hld. unfold accessed in Ha. rewrite Ha. rewrite bind_assoc, bind_kget.
    fold m'. unfold store64, mem_mod. rewrite bind_kmod. fold m'.
    erewrite (bind_Ret (mp_mod p _ _)); [|by eapply mp_mod_eq].
    erewrite (bind_Ret (proc_mod p _)); [|eapply proc_mod_eq, with_proc_lookup; exact Hp].
    rewrite with_proc_twice. unfold requeued, ret. simpl p_page_order_counter.
    rewrite u32_small, u64_small by lia. done. }
  assert (touched (p_pagetable pr) (k_mem k) m') as Hto by (by eapply touched_store).
  exists m'. cbv zeta. clearbody m' pte. split_and!; [exact Hrun| | | |exact Hleaf|exact Hto].
  - constructor.
    + apply Hs.
    + by apply (with_proc_lookup p pr).
    + apply (pt_ok_frame (k_mem k)); [exact Hpa|exact Hpt].
    + intros n. rewrite elem_of_app, list_elem_of_singleton.
      rewrite requeued_lookup. pose proof (sc_used _ _ _ _ _ Hs n) as Hun.
      rewrite elem_of_cons in Hun. case_decide as Hd.
      * subst n. rewrite Hg. simpl. split; [|by right]. intros _. eexists. split; [reflexivity|done].
      * rewrite <- Hun. tauto.
    + apply list.NoDup_app. split_and!; [done| |apply NoDup_singleton].
      intros x Hx ->%list_elem_of_singleton. done.
    + eapply (sorted_requeue _ _ h (p_page_order_counter pr) t Hht).
      * intros n. by apply requeued_order.
      * intros n Hn. apply Hord. by apply list_elem_of_further.
      * pose proof (sc_sorted _ _ _ _ _ Hs) as Hsort. by inversion Hsort.
    + intros n Hn. rewrite requeued_order by done. simpl p_page_order_counter.
      case_decide; [lia|]. apply elem_of_app in Hn as [Hn|Hn%list_elem_of_singleton]; [|done].
      specialize (Hord n (list_elem_of_further _ _ _ Hn)). lia.
    + intros n Hn. rewrite requeued_va. simpl k_mem. rewrite Hpa by apply path_of_ok.
      apply (sc_va _ _ _ _ _ Hs). apply elem_of_cons.
      apply elem_of_app in Hn as [Hn|Hn%list_elem_of_singleton]; tauto.
    + intros n n' Hn Hn'. rewrite !requeued_va. apply (sc_distinct _ _ _ _ _ Hs);
        apply elem_of_cons; rewrite elem_of_app, list_elem_of_singleton in *; tauto.
  - unfold accessed. rewrite requeued_va. simpl k_mem. simpl p_pagetable.
    rewrite Hleaf by done. unfold same_page. rewrite Z.eqb_refl. apply land_lnot_A.
  - intros n Hn. unfold accessed. rewrite requeued_va. simpl k_mem. simpl p_pagetable.
    pose proof (list_elem_of_further n h t Hn) as Hnq.
    destruct (sc_va _ _ _ _ _ Hs n Hnq) as [Hvan _]. rewrite Hleaf by done.
    destruct (same_page _ _) eqn:E; [|done].
    apply (sc_distinct _ _ _ _ _ Hs) in E; [|done|done]. congruence.
Qed.

(** The bits and the ages have changed, and nothing else. *)
Definition moved (k : kernel) (pr : proc) (k' : kernel) (pr' : proc) : Prop :=
  exists m', k' = with_proc p pr' (set_k_mem m' k) /\ touched (p_pagetable pr) (k_mem k) m' /\ aged pr pr'.

Lemma moved_refl k pr : k_procs k !! p = Some pr -> moved k pr k pr.
Proof.
  intros Hp. exists (k_mem k). split; [|split; [apply touched_refl|apply aged_refl]].
  rewrite with_proc_same by done. by destruct k.
Qed.

Lemma moved_trans k pr k1 pr1 k2 pr2 : moved k pr k1 pr1 -> moved k1 pr1 k2 pr2 -> moved k pr k2 pr2.
Proof.
  intros (m1 & -> & T1 & A1) (m2 & -> & T2 & A2). exists m2. split_and!.
  - unfold with_proc. simpl. by rewrite list_insert_insert_eq.
  - rewrite (ag_table _ _ A1) in T2. by eapply touched_trans.
  - by eapply aged_trans.
Qed.

Lemma aged_requeued h pr : aged pr (requeued h pr).
Proof.
  destruct (aged_page h (set_pm_order (p_page_order_counter pr)) pr) as [_ Hm]; [done|]. split; [|exact Hm].
  eexists _, _. unfold requeued, with_page. by destruct pr.
Qed.

Lemma scfifo_loop e i post : forall pre fuel k pr,
  sc_state p l k pr (pre ++ i :: post) ->
  p_page_order_counter pr + Z.of_nat (length pre) < 2 ^ 32 ->
  (forall n, n ∈ pre -> accessed k pr n = true) -> accessed k pr i = false ->
  (length pre < fuel)%nat ->
  exists k' pr',
    while_ fuel (scfifo_turn p) tt (W k e) = Ret (Z.of_nat i) (W k' e) /\ moved k pr k' pr' /\
    sc_state p l k' pr' (i :: post ++ pre) /\
    (forall n, n ∈ pre -> accessed k' pr' n = false) /\
    (forall n, n ∈ i :: post -> accessed k' pr' n = accessed k pr n).
Proof.
  intros pre. revert post. induction pre as [|h pre IH]; intros post fuel k pr Hs Hc Hpre Hi Hf.
  - destruct fuel as [|fuel]; [simpl in Hf; lia|]. exists k, pr. rewrite app_nil_r.
    split_and!; [|by apply moved_refl, Hs|done|by intros n ?%not_elem_of_nil|done].
    assert (p_page_order_counter pr < 2 ^ 32) as Hc' by (simpl in Hc; lia).
    by rewrite while_S, (bind_Ret _ _ _ _ _ (scfifo_turn_found k pr i post e Hs Hc' Hi)).
  - destruct fuel as [|fuel]; [simpl in Hf; lia|]. simpl length in *.
    destruct (scfifo_turn_again k pr h (pre ++ i :: post) e) as (m' & Hrun & Hs' & Hh & Hrest & _ & Hto).
    { done. }
    { lia. }
    { apply Hpre, list_elem_of_here. }
    cbv zeta in *. set (k1 := with_proc _ _ _) in *.
    assert (moved k pr k1 (requeued h pr)) as Hmv by (exists m'; split_and!; [done|done|apply aged_requeued]). clearbody k1.
    rewrite <- app_assoc in Hs'. simpl in Hs'.
    pose proof (sc_nodup _ _ _ _ _ Hs) as Hnd. simpl in Hnd. apply list.NoDup_cons in Hnd as [Hnh _].
    destruct (IH (post ++ [h]) fuel k1 (requeued h pr)) as (k' & pr' & Hloop & Hmv2 & Hs2 & Hp2 & Hr2).
    { done. }
    { simpl. lia. }
    { intros n Hn. rewrite Hrest by (apply elem_of_app; by left).
      apply Hpre. by apply list_elem_of_further. }
    { rewrite Hrest; [done|]. apply elem_of_app. right. apply list_elem_of_here. }
    { lia. }
    exists k', pr'. split_and!.
    + rewrite while_S. by rewrite (bind_Ret _ _ _ _ _ Hrun).
    + by eapply moved_trans.
    + rewrite <- app_assoc in Hs2. exact Hs2.
    + intros n [->|Hn]%elem_of_cons; [|by apply Hp2]. rewrite Hr2; [done|].
      apply elem_of_cons. right. apply elem_of_app. right. by apply list_elem_of_singleton.
    + intros n Hn. assert (n ∈ pre ++ i :: post) by (apply elem_of_app; by right).
      rewrite Hr2; [by apply Hrest|].
      apply elem_of_cons in Hn as [->|Hn]; [apply list_elem_of_here|].
      apply list_elem_of_further, elem_of_app. by left.
Qed.

Lemma sc_length k pr q :
  sc_state p l k pr q -> (length q <= length (p_memory_pages pr))%nat.
Proof.
  intros Hs. rewrite <- (length_seq (length (p_memory_pages pr)) 0).
  apply submseteq_length, NoDup_submseteq; [apply Hs|]. intros n Hn.
  apply (sc_used _ _ _ _ _ Hs) in Hn as (pg & Hn & _). apply lookup_lt_Some in Hn.
  apply elem_of_seq. lia.
Qed.
End scfifo.

(** ** Lemmas: entries of pages going out and coming in *)

Section entries.
Context `{L : Layout} `{!LayoutOk L} `{Sel : Selection}.

(** [m'] is [m] with the entry of [va] changed to [v]. *)
Record leaf_set (root va v : Z) (m m' : memory) : Prop := {
  ls_page : forall path, path_ok path -> page_at m' root path = page_at m root path;
  ls_leaf : forall va', 0 <= va' < MAXVA ->
    leaf m' root va' = if same_page va va' then v else leaf m root va';
  ls_off : forall t, page_at m root (path_of va) = Some t -> same_off [t] m m';
}.

Lemma leaf_set_trans root va v1 v2 m m1 m2 :
  leaf_set root va v1 m m1 -> leaf_set root va v2 m1 m2 -> leaf_set root va v2 m m2.
Proof.
  intros [A1 A2 A3] [B1 B2 B3]. constructor.
  - intros path Hp. by rewrite B1, A1.
  - intros va' Hva'. rewrite B2, A2 by done. by destruct (same_page va va').
  - intros t Ht a Ha. rewrite (B3 t), (A3 t); [done..|by rewrite A1 by apply path_of_ok|done].
Qed.

Lemma leaf_set_here root va v m m' : 0 <= va < MAXVA -> leaf_set root va v m m' -> leaf m' root va = v.
Proof. intros Hva [_ H _]. rewrite H by done. unfold same_page. by rewrite Z.eqb_refl. Qed.

Lemma pte_mod_leaf root l va t f k e :
  pt_ok (k_mem k) root l -> 0 <= va < MAXVA ->
  page_at (k_mem k) root (path_of va) = Some t ->
  exists m',
    pte_mod (t + 8 * PX 0 va) f (W k e) = Ret tt (W (set_k_mem m' k) e) /\
    leaf_set root va (u64 (f (leaf (k_mem k) root va))) (k_mem k) m'.
Proof.
  intros Hpt Hva Ht. unfold pte_mod.
  destruct (proj1 Hpt _ _ (path_of_ok _) Ht) as [Hok _].
  pose proof (page_ok_range t Hok). pose proof (PX_range 0 va).
  rewrite (proj2 (Z.eqb_neq _ 0)) by (unfold KERNBASE in *; lia).
  unfold load64. rewrite bind_kget. eexists. split; [reflexivity|].
  constructor.
  - intros path Hp. by apply (page_at_leaf_store (k_mem k) root l t path [] root).
  - intros va' Hva'. rewrite (leaf_store _ _ l t) by done. unfold leaf at 2. by rewrite Ht.
  - intros t' Ht'. rewrite Ht in Ht'. injection Ht' as <-. apply same_off_st64; [lia|]. unfold PGSIZE. lia.
Qed.

Lemma pt_ok_leaf_set root va v m m' l : leaf_set root va v m m' -> pt_ok m root l -> pt_ok m' root l.
Proof. intros Hs. apply pt_ok_frame, Hs. Qed.

(** The entry [update_page_out_pte] leaves, and the one [update_page_in_pte]
    makes of an entry [v]. *)
Definition pte_out (v : Z) : Z :=
  Z.land (Z.lor (Z.land v (PTE_FLAGS v)) PTE_PG) (Z.lnot PTE_V).
Definition pte_in (v pa : Z) : Z :=
  Z.land (Z.lor (Z.lor v (PA2PTE pa))
    (Z.lor (Z.lor (Z.lor (Z.lor PTE_W PTE_X) PTE_R) PTE_U) PTE_V)) (Z.lnot PTE_PG).

Lemma land_range x y n : 0 <= x < 2 ^ n -> 0 <= n -> 0 <= Z.land x y < 2 ^ n.
Proof.
  intros Hx Hn. assert (Z.land x y = Z.land x y mod 2 ^ n) as ->.
  { rewrite <- Z.land_ones by done. rewrite <- Z.land_assoc, (Z.land_comm y), Z.land_assoc.
    rewrite Z.land_ones by done. by rewrite (Z.mod_small x). }
  apply Z.mod_pos_bound. lia.
Qed.

Lemma lor_range x y n : 0 <= x < 2 ^ n -> 0 <= y < 2 ^ n -> 0 <= n -> 0 <= Z.lor x y < 2 ^ n.
Proof.
  intros Hx Hy Hn. assert (Z.lor x y = Z.lor x y mod 2 ^ n) as ->.
  { rewrite <- Z.land_ones by done. rewrite Z.land_lor_distr_l, !Z.land_ones by done.
    by rewrite !Z.mod_small. }
  apply Z.mod_pos_bound. lia.
Qed.

Lemma pte_out_spec v :
  0 <= pte_out v < 2 ^ 10 /\
  (forall i, 0 < i < 9 -> Z.testbit (pte_out v) i = Z.testbit v i) /\
  Z.testbit (pte_out v) 0 = false /\ Z.testbit (pte_out v) 9 = true.
Proof.
  assert (forall i, 0 <= i < 10 -> Z.testbit 0x3FF i = true) as H3.
  { intros i Hi. change 0x3FF with (Z.ones 10). by apply Z.ones_spec_low. }
  unfold pte_out, PTE_FLAGS. split; [|split_and!].
  - apply land_range; [|lia]. apply lor_range; [|by vm_compute|lia].
    rewrite Z.land_assoc, Z.land_diag. rewrite Z.land_comm. apply land_range; [by vm_compute|lia].
  - intros i Hi. rewrite Z.land_spec, Z.lor_spec, !Z.land_spec, Z.lnot_spec, H3 by lia.
    change PTE_PG with (2 ^ 9). change PTE_V with (2 ^ 0).
    rewrite !Z.pow2_bits_false by lia. simpl. rewrite orb_false_r, !andb_true_r.
    apply andb_diag.
  - rewrite Z.land_spec, Z.lnot_spec by lia. apply andb_false_r.
  - rewrite Z.land_spec, Z.lor_spec, Z.lnot_spec by lia.
    change PTE_PG with (2 ^ 9). change PTE_V with (2 ^ 0).
    rewrite Z.pow2_bits_true, Z.pow2_bits_false by lia. by rewrite orb_true_r.
Qed.

Lemma pte_in_spec v pa :
  0 <= v < 2 ^ 10 -> 0 <= pa < 2 ^ 56 -> pa mod PGSIZE = 0 ->
  0 <= pte_in v pa < 2 ^ 64 /\ PTE2PA (pte_in v pa) = pa /\
  (forall i, 0 <= i < 5 -> Z.testbit (pte_in v pa) i = true) /\
  (forall i, 5 <= i < 9 -> Z.testbit (pte_in v pa) i = Z.testbit v i) /\
  Z.testbit (pte_in v pa) 9 = false.
Proof.
  intros Hv Hpa Hal.
  set (F := Z.lor (Z.lor (Z.lor (Z.lor PTE_W PTE_X) PTE_R) PTE_U) PTE_V).
  assert (pte_in v pa = Z.lor (PA2PTE pa) (Z.land (Z.lor v F) (Z.lnot PTE_PG))) as ->.
  { unfold pte_in. fold F. rewrite (Z.lor_comm v), <- Z.lor_assoc, Z.land_lor_distr_l. f_equal.
    rewrite PA2PTE_div by done. apply Z.bits_inj'. intros i Hi. rewrite Z.land_spec, Z.lnot_spec by lia.
    change PTE_PG with (2 ^ 9). rewrite Z.pow2_bits_eqb by lia.
    destruct (Z.eqb_spec 9 i) as [<-|]; [|apply andb_true_r].
    change 1024 with (2 ^ 10). by rewrite Z.mul_pow2_bits_low by lia. }
  assert (0 <= Z.land (Z.lor v F) (Z.lnot PTE_PG) < 2 ^ 10) as Hf.
  { apply land_range; [|lia]. apply lor_range; [done|by vm_compute|lia]. }
  assert (forall i, 0 <= i < 10 ->
    Z.testbit (Z.lor (PA2PTE pa) (Z.land (Z.lor v F) (Z.lnot PTE_PG))) i =
    (Z.testbit v i || Z.testbit F i) && negb (9 =? i)) as Hbit.
  { intros i Hi. rewrite PTE_testbit by done. rewrite Z.land_spec, Z.lor_spec, Z.lnot_spec by lia.
    change PTE_PG with (2 ^ 9). by rewrite Z.pow2_bits_eqb by lia. }
  split; [by apply PTE_range|]. split_and!.
  - by apply PTE2PA_PA2PTE.
  - intros i Hi. rewrite Hbit by lia.
    assert (i = 0 \/ i = 1 \/ i = 2 \/ i = 3 \/ i = 4) as [->|[->|[->|[->| ->]]]] by lia;
      change F with 31; by rewrite orb_true_r.
  - intros i Hi. rewrite Hbit by lia. rewrite (proj2 (Z.eqb_neq 9 i)) by lia.
    change F with (Z.ones 5). rewrite Z.ones_spec_high by lia. by rewrite orb_false_r, andb_true_r.
  - rewrite Hbit by lia. by rewrite andb_false_r.
Qed.

Lemma sfence_run k e : csr_mod sfence_vma (W k e) = Ret tt (W k e).
Proof. by destruct k. Qed.

Lemma leaf_range m root va : 0 <= leaf m root va < 2 ^ 64.
Proof. unfold leaf. destruct (page_at m root (path_of va)); [apply ld64_range|lia]. Qed.

(** Three updates of one entry in a row. *)
Lemma pte_mod3_leaf {A} root l va t f g h k e (c : K A) :
  pt_ok (k_mem k) root l -> 0 <= va < MAXVA ->
  page_at (k_mem k) root (path_of va) = Some t ->
  let pte := t + 8 * PX 0 va in
  exists m',
    (pte_mod pte f ;;; pte_mod pte g ;;; pte_mod pte h ;;; c) (W k e) =
      c (W (set_k_mem m' k) e) /\
    leaf_set root va (u64 (h (u64 (g (u64 (f (leaf (k_mem k) root va))))))) (k_mem k) m'.
Proof.
  intros Hpt Hva Ht. cbv zeta.
  destruct (pte_mod_leaf root l va t f k e Hpt Hva Ht) as (m1 & Hr1 & Hs1).
  destruct (pte_mod_leaf root l va t g (set_k_mem m1 k) e) as (m2 & Hr2 & Hs2);
    [by eapply pt_ok_leaf_set|done|by rewrite (ls_page _ _ _ _ _ Hs1) by apply path_of_ok|].
  pose proof (leaf_set_trans _ _ _ _ _ _ _ Hs1 Hs2) as Hs12.
  destruct (pte_mod_leaf root l va t h (set_k_mem m2 k) e) as (m3 & Hr3 & Hs3);
    [by eapply pt_ok_leaf_set|done|by rewrite (ls_page _ _ _ _ _ Hs12) by apply path_of_ok|].
  exists m3. split.
  - rewrite (bind_Ret _ _ _ _ _ Hr1), (bind_Ret _ _ _ _ _ Hr2).
    change (set_k_mem m2 (set_k_mem m1 k)) with (set_k_mem m2 k).
    rewrite (bind_Ret _ _ _ _ _ Hr3). done.
  - simpl k_mem in *. rewrite (leaf_set_here _ _ _ _ _ Hva Hs12) in Hs3.
    rewrite (leaf_set_here _ _ _ _ _ Hva Hs1) in Hs3.
    by eapply leaf_set_trans.
Qed.

Lemma walk_entry root l va t k e :
  pt_ok (k_mem k) root l -> 0 <= va < MAXVA ->
  page_at (k_mem k) root (path_of va) = Some t ->
  walk root va false (W k e) = Ret (t + 8 * PX 0 va) (W k e) /\
  (t + 8 * PX 0 va =? 0) = false /\
  ld64 (k_mem k) (t + 8 * PX 0 va) = leaf (k_mem k) root va.
Proof.
  intros Hpt Hva Ht. split_and!.
  - rewrite walk_look, Ht by lia. done.
  - destruct (proj1 Hpt _ _ (path_of_ok _) Ht) as [Hok _].
    pose proof (page_ok_range t Hok). pose proof (PX_range 0 va).
    apply Z.eqb_neq. unfold KERNBASE in *. lia.
  - unfold leaf. by rewrite Ht.
Qed.

Lemma update_page_out_pte_run root l va t k e :
  pt_ok (k_mem k) root l -> 0 <= va < MAXVA ->
  page_at (k_mem k) root (path_of va) = Some t ->
  exists m', update_page_out_pte root va (W k e) = Ret tt (W (set_k_mem m' k) e) /\
    leaf_set root va (pte_out (leaf (k_mem k) root va)) (k_mem k) m'.
Proof.
  intros Hpt Hva Ht. destruct (walk_entry root l va t k e Hpt Hva Ht) as (Hw & Hnz & _).
  unfold update_page_out_pte. rewrite (bind_Ret _ _ _ _ _ Hw), Hnz.
  destruct (pte_mod3_leaf root l va t (fun v => Z.land v (PTE_FLAGS v))
    (fun v => Z.lor v PTE_PG) (fun v => Z.land v (Z.lnot PTE_V)) k e
    (csr_mod sfence_vma) Hpt Hva Ht) as (m' & Hrun & Hs).
  exists m'. split; [by rewrite Hrun, sfence_run|].
  pose proof (leaf_range (k_mem k) root va) as Hr.
  rewrite (u64_land (leaf (k_mem k) root va)) in Hs by done.
  assert (0 <= Z.land (leaf (k_mem k) root va) (PTE_FLAGS (leaf (k_mem k) root va)) < 2 ^ 64) as H1.
  { apply land_range; [done|lia]. }
  assert (0 <= Z.lor (Z.land (leaf (k_mem k) root va) (PTE_FLAGS (leaf (k_mem k) root va))) PTE_PG
            < 2 ^ 64) as H2.
  { apply lor_range; [done|by vm_compute|lia]. }
  rewrite (u64_small (Z.lor _ _)), u64_land in Hs by done. exact Hs.
Qed.

(** What the policy stores for a page that comes in at [index]. *)
Definition with_initial_access (index : nat) (pr : proc) : proc :=
  match initial_access with
  | Some a => with_page index (set_pm_access a) pr
  | None => pr
  end.

Lemma set_initial_access_run p pr index pg k e :
  k_cur k = Some p -> k_procs k !! p = Some pr -> p_memory_pages pr !! index = Some pg ->
  set_initial_access (Z.of_nat index) (W k e) =
  Ret tt (W (with_proc p (with_initial_access index pr) k) e).
Proof.
  intros Hc Hp Hi. unfold set_initial_access, with_initial_access.
  destruct initial_access as [a|]; [|by rewrite with_proc_same].
  rewrite (bind_Ret _ _ _ _ _ (this_proc_eq k e p Hc)). by apply (mp_mod_eq _ _ _ _ _ _ pg).
Qed.

Lemma update_page_in_pte_run root l va t pa p pr index pg k e :
  pt_ok (k_mem k) root l -> 0 <= va < MAXVA ->
  page_at (k_mem k) root (path_of va) = Some t ->
  k_cur k = Some p -> k_procs k !! p = Some pr -> p_memory_pages pr !! index = Some pg ->
  0 <= leaf (k_mem k) root va < 2 ^ 10 -> Z.testbit (leaf (k_mem k) root va) 0 = false ->
  0 <= pa < 2 ^ 56 -> pa mod PGSIZE = 0 ->
  exists m',
    update_page_in_pte root va pa (Z.of_nat index) (W k e) =
      Ret tt (W (with_proc p (with_initial_access index pr) (set_k_mem m' k)) e) /\
    leaf_set root va (pte_in (leaf (k_mem k) root va) pa) (k_mem k) m'.
Proof.
  intros Hpt Hva Ht Hc Hp Hi Hv H0 Hpa Hal.
  destruct (walk_entry root l va t k e Hpt Hva Ht) as (Hw & Hnz & Hld).
  unfold update_page_in_pte. rewrite (bind_Ret _ _ _ _ _ Hw), Hnz.
  unfold load64. rewrite bind_kget, Hld. change PTE_V with (Z.shiftl 1 0).
  rewrite testbit_flag, H0 by lia. change (Z.shiftl 1 0) with PTE_V.
  destruct (pte_mod3_leaf root l va t (fun v => Z.lor v (PA2PTE pa))
    (fun v => Z.lor v (Z.lor (Z.lor (Z.lor (Z.lor PTE_W PTE_X) PTE_R) PTE_U) PTE_V))
    (fun v => Z.land v (Z.lnot PTE_PG)) k e
    (set_initial_access (Z.of_nat index) ;;; csr_mod sfence_vma) Hpt Hva Ht) as (m' & Hrun & Hs).
  exists m'. split.
  - rewrite Hrun. erewrite bind_Ret; [|by apply (set_initial_access_run p pr index pg)].
    by rewrite sfence_run.
  - assert (0 <= PA2PTE pa < 2 ^ 64) as Hpp by (apply u64_range).
    assert (0 <= Z.lor (leaf (k_mem k) root va) (PA2PTE pa) < 2 ^ 64) as H1.
    { apply lor_range; [lia|done|lia]. }
    rewrite (u64_small (Z.lor (leaf _ _ _) _)) in Hs by done.
    rewrite (u64_small (Z.lor _ _)) in Hs by (apply lor_range; [done|by vm_compute|lia]).
    rewrite u64_land in Hs by (apply lor_range; [done|by vm_compute|lia]). exact Hs.
Qed.
End entries.

(** ** Lemmas: unmapping *)

Section unmap.
Context `{L : Layout} `{!LayoutOk L} `{Sel : Selection}.

(** A page of memory is mapped at [va] by a leaf entry. *)
Definition resident (m : memory) (root va : Z) : Prop :=
  truth (Z.land (leaf m root va) PTE_V) = true /\ (PTE_FLAGS (leaf m root va) =? PTE_V) = false.

Lemma resident_page m root va : resident m root va -> is_Some (page_at m root (path_of va)).
Proof.
  unfold resident, leaf. destruct (page_at m root (path_of va)); [done|].
  rewrite Z.land_0_l. by intros [? _].
Qed.

Lemma truth_false v : truth v = true -> (v =? 0) = false.
Proof. unfold truth. by destruct (v =? 0). Qed.

(** The entry [g] of the process [pr] lists the page at [a] of the page table
    [root]. *)
Definition listed (root a : Z) (pr : proc) (g : page_metadata_struct) : bool :=
  used g && (pm_va g =? a) && (p_pagetable pr =? root).

(** [pr] without its first entry for that page. *)
Definition forget (root a : Z) (pr : proc) : proc :=
  match list_find (fun g => listed root a pr g = true) (p_memory_pages pr) with
  | Some (i, _) =>
      with_page i (fun g => set_pm_state P_UNUSED (set_pm_order 0 (set_pm_access 0 g)))
        (set_p_pages_in_memory_counter (u64 (p_pages_in_memory_counter pr - 1)) pr)
  | None => pr
  end.

Lemma remove_from_memory_meta_data_run root a p pr k e :
  k_cur k = Some p -> k_procs k !! p = Some pr -> Z.of_nat (length (p_memory_pages pr)) = MAX_PYSC_PAGES ->
  remove_from_memory_meta_data a root (W k e) = Ret tt (W (with_proc p (forget root a pr) k) e).
Proof.
  intros Hc Hp Hl. assert (MAX_PYSC_PAGES = 16) as E16 by done. unfold remove_from_memory_meta_data. rewrite (bind_Ret _ _ _ _ _ (this_proc_eq k e p Hc)). unfold forget.
  match goal with |- bind (for_from _ _ ?b) _ _ = _ => set (body := b) end.
  assert (forall i g, p_memory_pages pr !! i = Some g -> listed root a pr g = false -> body (Z.of_nat i) (W k e) = Ret None (W k e)) as Hno.
  { intros i g Hg Hn. unfold body. rewrite (bind_Ret _ _ _ _ _ (mp_get_eq _ _ _ _ _ _ Hp Hg)).
    rewrite (bind_Ret _ _ _ _ _ (proc_get_eq _ _ _ _ Hp)). fold (used g). fold (listed root a pr g). by rewrite Hn. }
  assert (forall i : Z, 0 <= i < MAX_PYSC_PAGES -> exists g, p_memory_pages pr !! Z.to_nat i = Some g) as Hall.
  { intros i Hi. apply lookup_lt_is_Some_2. lia. }
  destruct (list_find _ _) as [[i g]|] eqn:Ef.
  - apply list_find_Some in Ef as (Hg & Hy & Hb). pose proof (lookup_lt_Some _ _ _ Hg) as Hi.
    eassert (for_from (Z.to_nat MAX_PYSC_PAGES) 0 body (W k e) = Ret (Some tt) (W (with_proc p _ k) e)) as E;
      [apply (for_from_first body _ 0 (Z.of_nat i)); [lia| |]|by rewrite (bind_Ret _ _ _ _ _ E)].
    + intros i' Hi'. destruct (Hall i' ltac:(lia)) as [g' Hg']. rewrite <- (Z2Nat.id i') by lia. apply (Hno _ g' Hg').
      apply not_true_is_false. apply (Hb (Z.to_nat i') g' Hg'). lia.
    + unfold body. rewrite (bind_Ret _ _ _ _ _ (mp_get_eq _ _ _ _ _ _ Hp Hg)).
      rewrite (bind_Ret _ _ _ _ _ (proc_get_eq _ _ _ _ Hp)). fold (used g). fold (listed root a pr g). rewrite Hy.
      rewrite (bind_Ret _ _ _ _ _ (mp_mod_eq p i _ k e pr g Hp Hg)).
      pose proof (with_page_lookup i (set_pm_access 0) pr g Hg) as Hg1. set (pr1 := with_page i _ pr) in *.
      pose proof (with_proc_lookup p pr pr1 k Hp) as Hp1.
      rewrite (bind_Ret _ _ _ _ _ (mp_mod_eq p i _ _ e pr1 _ Hp1 Hg1)), with_proc_twice.
      pose proof (with_page_lookup i (set_pm_order 0) pr1 _ Hg1) as Hg2. set (pr2 := with_page i _ pr1) in *.
      pose proof (with_proc_lookup p pr pr2 k Hp) as Hp2.
      rewrite (bind_Ret _ _ _ _ _ (proc_mod_eq p _ _ e pr2 Hp2)), with_proc_twice. set (pr3 := set_p_pages_in_memory_counter _ pr2).
      pose proof (with_proc_lookup p pr pr3 k Hp) as Hp3.
      rewrite (bind_Ret _ _ _ _ _ (mp_mod_eq p i _ _ e pr3 _ Hp3 Hg2)), with_proc_twice. unfold ret. do 3 f_equal.
      unfold pr3, pr2, pr1, with_page. simpl. destruct pr; simpl. by rewrite !list_alter_alter_eq.
  - apply list_find_None in Ef. rewrite list.Forall_lookup in Ef.
    assert (for_from (Z.to_nat MAX_PYSC_PAGES) 0 body (W k e) = Ret None (W k e)) as E;
      [apply for_from_none|by rewrite (bind_Ret _ _ _ _ _ E), with_proc_same].
    intros i Hi. destruct (Hall i ltac:(lia)) as [g Hg]. rewrite <- (Z2Nat.id i) by lia.
    apply (Hno _ g Hg). apply not_true_is_false, (Ef _ _ Hg).
Qed.

(** What [uvmunmap] does to the metadata for the [n] pages from [a] on: nothing
    without a policy. *)
Fixpoint unlisted (root a : Z) (n : nat) (pr : proc) : proc :=
  match n with
  | O => pr
  | S n => unlisted root (a + PGSIZE) n (if is_none_policy then pr else forget root a pr)
  end.

Lemma forget_length root a pr : length (p_memory_pages (forget root a pr)) = length (p_memory_pages pr).
Proof. unfold forget. destruct (list_find _ _) as [[i g]|]; [|done]. simpl. apply length_alter. Qed.

(** One turn of [uvmunmap]'s loop at a page in memory: its entry in the page
    table is cleared, and the policy's entry as well. *)
Lemma uvmunmap_body_resident root l stop do_free va p pr k e :
  pt_ok (k_mem k) root l -> 0 <= va < stop -> stop <= MAXVA ->
  k_cur k = Some p -> k_procs k !! p = Some pr -> Z.of_nat (length (p_memory_pages pr)) = MAX_PYSC_PAGES ->
  resident (k_mem k) root va ->
  exists m',
    uvmunmap_body root stop do_free va (W k e) =
      Ret (inl (va + PGSIZE)) (W (with_proc p (if is_none_policy then pr else forget root va pr) (set_k_mem m' k)) e) /\
    leaf_set root va 0 (k_mem k) m'.
Proof.
  intros Hpt Hva Hstop Hc Hp Hlen Hres. destruct (resident_page _ _ _ Hres) as [t Ht].
  destruct Hres as [HV HF].
  assert (0 <= va < MAXVA) as Hva' by lia.
  destruct (walk_entry root l va t k e Hpt Hva' Ht) as (Hw & Hnz & Hld).
  unfold uvmunmap_body. rewrite (proj2 (Z.ltb_lt va stop)) by lia. cbn [negb].
  rewrite (bind_Ret _ _ _ _ _ Hw), Hnz. unfold load64. rewrite bind_kget, Hld.
  rewrite (truth_false _ HV), HF, andb_false_r. cbn [andb]. rewrite bind_when, bind_kget, Hld, (truth_false _ HV). cbn [negb].
  rewrite andb_true_r.
  assert (when (negb is_none_policy) (remove_from_memory_meta_data va root) (W k e) =
    Ret tt (W (with_proc p (if is_none_policy then pr else forget root va pr) k) e)) as Er.
  { destruct is_none_policy; simpl; [by rewrite with_proc_same|by apply remove_from_memory_meta_data_run]. }
  rewrite (bind_Ret _ _ _ _ _ Er). unfold store64, mem_mod. rewrite bind_kmod.
  rewrite u64_small by (change MAXVA with (2 ^ 38) in *; unfold PGSIZE; lia).
  exists (st64 (k_mem k) (t + 8 * PX 0 va) 0). split; [reflexivity|]. constructor.
  - intros path Hpa. by apply (page_at_leaf_store (k_mem k) root l t path [] root).
  - intros va1 Hva1. by rewrite (leaf_store _ _ l t) by done.
  - intros t' Ht'. rewrite Ht in Ht'. injection Ht' as <-. pose proof (PX_range 0 va).
    apply same_off_st64; [lia|]. unfold PGSIZE. lia.
Qed.

(** Entries of the [n] pages from [a] on are cleared. *)
Definition unmapped (m m' : memory) (root a n : Z) : Prop :=
  (forall path, path_ok path -> page_at m' root path = page_at m root path) /\
  forall va, 0 <= va < MAXVA ->
    leaf m' root va =
    if (a <=? PGROUNDDOWN va) && (PGROUNDDOWN va <? a + n * PGSIZE) then 0 else leaf m root va.

Lemma uvmunmap_loop root l do_free p e : forall n fuel a pr k,
  k_cur k = Some p -> k_procs k !! p = Some pr -> Z.of_nat (length (p_memory_pages pr)) = MAX_PYSC_PAGES -> pt_ok (k_mem k) root l -> a mod PGSIZE = 0 -> 0 <= a ->
  a + Z.of_nat n * PGSIZE <= MAXVA -> (n < fuel)%nat ->
  (forall va, a <= va < a + Z.of_nat n * PGSIZE -> resident (k_mem k) root va) ->
  exists m',
    while_ fuel (uvmunmap_body root (a + Z.of_nat n * PGSIZE) do_free) a (W k e) =
      Ret tt (W (with_proc p (unlisted root a n pr) (set_k_mem m' k)) e) /\
    unmapped (k_mem k) m' root a (Z.of_nat n).
Proof.
  induction n as [|n IH]; intros [|fuel] a pr k Hc Hp Hlen Hpt Hal Ha0 Hend Hf Hres; try lia; rewrite while_S.
  - exists (k_mem k). split.
    + unfold uvmunmap_body. rewrite (proj2 (Z.ltb_ge _ _)) by lia. simpl. rewrite with_proc_same by done. by destruct k.
    + split; [done|]. intros va Hva. destruct (Z.leb_spec a (PGROUNDDOWN va)); [|done].
      rewrite (proj2 (Z.ltb_ge _ _)) by lia. done.
  - destruct (uvmunmap_body_resident root l (a + Z.of_nat (S n) * PGSIZE) do_free a p pr k e)
      as (m1 & Hrun & Hs); try done; try (unfold PGSIZE in *; lia).
    { apply Hres. unfold PGSIZE in *. lia. }
    assert ((a + PGSIZE) mod PGSIZE = 0) as Hal'.
    { unfold PGSIZE in *. rewrite Z.add_mod by lia. by rewrite Hal. }
    rewrite (bind_Ret _ _ _ _ _ Hrun).
    set (pr1 := if is_none_policy then pr else forget root a pr) in *.
    destruct (IH fuel (a + PGSIZE) pr1 (with_proc p pr1 (set_k_mem m1 k))) as (m2 & Hrun2 & Hp2 & Hl2);
      try done; try (unfold PGSIZE in *; lia).
    { by apply (with_proc_lookup p pr). }
    { unfold pr1. destruct is_none_policy; [done|]. by rewrite forget_length. }
    { by eapply pt_ok_leaf_set. }
    { intros va Hva. simpl. unfold resident. rewrite (ls_leaf _ _ _ _ _ Hs).
      - assert (same_page a va = false) as ->; [|apply Hres; unfold PGSIZE in *; lia].
        unfold same_page. rewrite PGROUNDDOWN_id by done. apply Z.eqb_neq.
        pose proof (PGROUNDDOWN_bounds va). pose proof (PGROUNDDOWN_aligned va).
        unfold PGSIZE in *. Z.to_euclidean_division_equations. lia.
      - unfold PGSIZE in *. lia. }
    replace (a + PGSIZE + Z.of_nat n * PGSIZE) with (a + Z.of_nat (S n) * PGSIZE) in Hrun2 by lia.
    exists m2. split; [rewrite Hrun2; fold pr1; simpl unlisted; fold pr1; unfold with_proc; destruct k; simpl; by rewrite list_insert_insert_eq|]. split.
    + intros path Hpa. rewrite Hp2 by done. by apply Hs.
    + intros va Hva. rewrite Hl2 by done. simpl. rewrite (ls_leaf _ _ _ _ _ Hs) by done.
      unfold same_page. rewrite (PGROUNDDOWN_id a) by done.
      pose proof (PGROUNDDOWN_aligned va) as Hav.
      destruct (Z.leb_spec (a + PGSIZE) (PGROUNDDOWN va)), (Z.leb_spec a (PGROUNDDOWN va)),
        (Z.eqb_spec a (PGROUNDDOWN va)); try (unfold PGSIZE in *; lia); simpl;
        try (rewrite (proj2 (Z.ltb_lt (PGROUNDDOWN va) _)) by (unfold PGSIZE in *; lia)); try done.
      * replace (a + PGSIZE + Z.of_nat n * PGSIZE) with (a + Z.of_nat (S n) * PGSIZE) by lia.
        done.
      * exfalso. unfold PGSIZE in *. Z.to_euclidean_division_equations. lia.
Qed.
End unmap.

(** ** Properties *)

Lemma split_first {A} (f : A -> bool) q :
  (forall n, n ∈ q -> f n = true) \/
  (exists pre i post, q = pre ++ i :: post /\ (forall n, n ∈ pre -> f n = true) /\ f i = false).
Proof.
  induction q as [|h q [IH|(pre & i & post & -> & Hp & Hi)]].
  - left. by intros n ?%not_elem_of_nil.
  - destruct (f h) eqn:E.
    + left. intros n [->|Hn]%elem_of_cons; auto.
    + right. exists [], h, q. split_and!; [done|by intros n ?%not_elem_of_nil|done].
  - destruct (f h) eqn:E.
    + right. exists (h :: pre), i, post. split_and!; [done| |done].
      intros n [->|Hn]%elem_of_cons; auto.
    + right. exists [], h, (pre ++ i :: post).
      split_and!; [done|by intros n ?%not_elem_of_nil|done].
Qed.

Section scfifo_run.
Context `{L : Layout} `{!LayoutOk L}.

Lemma scfifo_run p l k pr q e :
  sc_state p l k pr q -> q <> [] ->
  Z.of_nat (length (p_memory_pages pr)) = MAX_PYSC_PAGES ->
  p_page_order_counter pr + MAX_PYSC_PAGES < 2 ^ 32 ->
  exists i k' pr',
    SCFIFO_algorithm (W k e) = Ret (Z.of_nat i) (W k' e) /\ moved p k pr k' pr' /\
    ((exists pre post, q = pre ++ i :: post /\
        (forall n, n ∈ pre -> accessed k pr n = true) /\ accessed k pr i = false /\
        sc_state p l k' pr' (i :: post ++ pre) /\
        (forall n, n ∈ pre -> accessed k' pr' n = false) /\
        (forall n, n ∈ i :: post -> accessed k' pr' n = accessed k pr n)) \/
     (exists post, q = i :: post /\ (forall n, n ∈ q -> accessed k pr n = true) /\
        sc_state p l k' pr' q /\ (forall n, n ∈ q -> accessed k' pr' n = false))).
Proof.
  intros Hs Hne Hlen Hc. pose proof (sc_length p l k pr q Hs) as Hq.
  unfold MAX_PYSC_PAGES in *. unfold SCFIFO_algorithm.
  rewrite (bind_Ret _ _ _ _ _ (this_proc_eq k e p (sc_cur _ _ _ _ _ Hs))).
  destruct (split_first (accessed k pr) q) as [Hall|(pre & i & post & -> & Hpre & Hi)].
  - destruct q as [|h t]; [done|]. simpl length in Hq.
    destruct (scfifo_turn_again p l k pr h t e Hs) as (m' & Hrun & Hs' & Hh & Hrest & _ & Hto);
      [lia|apply Hall, list_elem_of_here|].
    cbv zeta in *. set (k1 := with_proc _ _ _) in *.
    assert (moved p k pr k1 (requeued h pr)) as Hmv by (exists m'; split_and!; [done|done|apply aged_requeued]). clearbody k1.
    destruct (scfifo_loop p l e h [] t (Z.to_nat MAX_PYSC_PAGES) k1 (requeued h pr))
      as (k' & pr' & Hloop & Hmv2 & Hs2 & Hp2 & Hr2); try done.
    { simpl. lia. }
    { intros n Hn. rewrite Hrest by done. apply Hall. by apply list_elem_of_further. }
    { unfold MAX_PYSC_PAGES. lia. }
    exists h, k', pr'. split; [by rewrite while_S, (bind_Ret _ _ _ _ _ Hrun)|].
    split; [by eapply moved_trans|].
    right. exists t. split_and!; [done|done|done|].
    intros n [->|Hn]%elem_of_cons; [|by apply Hp2].
    rewrite Hr2 by apply list_elem_of_here. done.
  - rewrite length_app in Hq. simpl in Hq.
    destruct (scfifo_loop p l e i post pre (S (Z.to_nat 16)) k pr)
      as (k' & pr' & Hloop & Hmv2 & Hs2 & Hp2 & Hr2); try done; try lia.
    exists i, k', pr'. split; [exact Hloop|]. split; [done|]. left. exists pre, post. done.
Qed.

End scfifo_run.

Section properties.
Context `{L : Layout} `{!LayoutOk L} `{Sel : Selection}.

(** C9: [SCFIFO_algorithm] is second-chance FIFO.  On a queue of pages in the
    order of their [page_order] it terminates and returns the first page whose
    [PTE_A] is clear; the pages before it get their bit cleared and move to the
    end of the queue, in order, and the rest of the queue is unchanged.  If
    every page has the bit set, all bits are cleared, the queue is as before
    and its first page is returned.  Apart from those bits and the pages'
    order, nothing changes.  The process has all its 16 entries, and its counter
    of page numbers is not within 16 of [2 ^ 32]: the numbers that the pages get
    do not wrap around. *)
Theorem scfifo_second_chance p l k pr q e :
  sc_state p l k pr q -> q <> [] ->
  Z.of_nat (length (p_memory_pages pr)) = MAX_PYSC_PAGES ->
  p_page_order_counter pr + MAX_PYSC_PAGES < 2 ^ 32 ->
  exists i k' pr',
    SCFIFO_algorithm (W k e) = Ret (Z.of_nat i) (W k' e) /\ moved p k pr k' pr' /\
    ((exists pre post, q = pre ++ i :: post /\
        (forall n, n ∈ pre -> accessed k pr n = true) /\ accessed k pr i = false /\
        sc_state p l k' pr' (i :: post ++ pre) /\
        (forall n, n ∈ pre -> accessed k' pr' n = false) /\
        (forall n, n ∈ i :: post -> accessed k' pr' n = accessed k pr n)) \/
     (exists post, q = i :: post /\ (forall n, n ∈ q -> accessed k pr n = true) /\
        sc_state p l k' pr' q /\ (forall n, n ∈ q -> accessed k' pr' n = false))).
Proof. apply scfifo_run. Qed.

(** C33: [NFUA_algorithm] returns the first page in memory whose access counter
    is least, when that counter is below [0xFFFFFFFF]; it returns -1 exactly
    when no page in memory has a counter below [0xFFFFFFFF].  It changes
    nothing. *)
Theorem nfua_chooses_least p pr k e :
  k_cur k = Some p -> k_procs k !! p = Some pr ->
  exists i, NFUA_algorithm (W k e) = Ret i (W k e) /\
    ((i = -1 /\ forall n pg, p_memory_pages pr !! n = Some pg -> used pg = true ->
        0xFFFFFFFF <= pm_access pg) \/
     (exists n pg, i = Z.of_nat n /\ p_memory_pages pr !! n = Some pg /\ used pg = true /\
        pm_access pg < 0xFFFFFFFF /\
        forall n' pg', p_memory_pages pr !! n' = Some pg' -> used pg' = true ->
          pm_access pg <= pm_access pg' /\ ((n' < n)%nat -> pm_access pg < pm_access pg'))).
Proof.
  intros Hc Hp. unfold NFUA_algorithm. rewrite (bind_Ret _ _ _ _ _ (this_proc_eq k e p Hc)).
  rewrite (bind_Ret _ _ _ _ _ (proc_get_eq _ _ _ _ Hp)). eexists. split; [reflexivity|].
  assert (forall n pg, p_memory_pages pr !! n = Some pg ->
    Z.of_nat n < Z.of_nat (length (p_memory_pages pr))) as Hlt.
  { intros n pg Hn. apply lookup_lt_Some in Hn. lia. }
  destruct (nfua_scan_least (p_memory_pages pr))
    as [(-> & _ & Hall)|(n & pg & -> & _ & Hn & Hu & Hk & Hb & Hall)].
  - left. split; [done|]. intros n pg Hn. apply (Hall n); [by eapply Hlt|done].
  - right. exists n, pg. split_and!; [done|done|done|by rewrite Hk|]. intros n' pg' Hn' Hu'.
    rewrite Hk. apply Hall; [by eapply Hlt|done|done].
Qed.

(** C32: [LAPA_algorithm] returns a page in memory whose counter has the fewest
    ones, among those one with the smallest counter, the first such; with no
    page in memory it returns -1.  It never indexes outside the table and
    changes nothing. *)
Theorem lapa_chooses_least p pr k e :
  k_cur k = Some p -> k_procs k !! p = Some pr -> Forall access_ok (p_memory_pages pr) ->
  exists i, LAPA_algorithm (W k e) = Ret i (W k e) /\
    ((i = -1 /\ forall n pg, p_memory_pages pr !! n = Some pg -> used pg = false) \/
     (exists n pg, i = Z.of_nat n /\ p_memory_pages pr !! n = Some pg /\ used pg = true /\
        forall n' pg', p_memory_pages pr !! n' = Some pg' -> used pg' = true -> n' <> n ->
          lapa_before n pg n' pg')).
Proof.
  intros Hc Hp Hok. unfold LAPA_algorithm. rewrite (bind_Ret _ _ _ _ _ (this_proc_eq k e p Hc)).
  rewrite (bind_Ret _ _ _ _ _ (proc_get_eq _ _ _ _ Hp)).
  destruct (lapa_scan_least _ Hok) as (idx & best & -> & Hres). by exists idx.
Qed.

(** C34: swapping a page out of the page table and in again.
    [update_page_out_pte] clears the entry's physical address and [PTE_V], sets
    [PTE_PG] and keeps the other flags; [update_page_in_pte] then maps the page
    it is given, valid and with all user permissions, with [PTE_PG] clear.  Both
    leave the entries of all other pages, and the tables, as they are. *)
Theorem page_out_in_roundtrip root l va t pa p pr index pg k e :
  pt_ok (k_mem k) root l -> 0 <= va < MAXVA ->
  page_at (k_mem k) root (path_of va) = Some t ->
  k_cur k = Some p -> k_procs k !! p = Some pr -> p_memory_pages pr !! index = Some pg ->
  0 <= pa < 2 ^ 56 -> pa mod PGSIZE = 0 ->
  exists k1 k2 v1 v2,
    update_page_out_pte root va (W k e) = Ret tt (W k1 e) /\
    leaf_set root va v1 (k_mem k) (k_mem k1) /\
    PTE2PA v1 = 0 /\ Z.testbit v1 0 = false /\ Z.testbit v1 9 = true /\
    (forall i, 0 < i < 9 -> Z.testbit v1 i = Z.testbit (leaf (k_mem k) root va) i) /\
    update_page_in_pte root va pa (Z.of_nat index) (W k1 e) = Ret tt (W k2 e) /\
    leaf_set root va v2 (k_mem k1) (k_mem k2) /\
    PTE2PA v2 = pa /\ (forall i, 0 <= i < 5 -> Z.testbit v2 i = true) /\
    Z.testbit v2 9 = false.
Proof.
  intros Hpt Hva Ht Hc Hp Hi Hpa Hal.
  destruct (update_page_out_pte_run root l va t k e Hpt Hva Ht) as (m1 & Hr1 & Hs1).
  destruct (pte_out_spec (leaf (k_mem k) root va)) as (Hrng & Hkeep & H0 & H9).
  pose proof (leaf_set_here _ _ _ _ _ Hva Hs1) as Hl1.
  destruct (update_page_in_pte_run root l va t pa p pr index pg (set_k_mem m1 k) e)
    as (m2 & Hr2 & Hs2); [by eapply pt_ok_leaf_set|done| |done|done|done| | |done|done|].
  { cbn [k_mem set_k_mem]. rewrite (ls_page _ _ _ _ _ Hs1) by apply path_of_ok. exact Ht. }
  { cbn [k_mem set_k_mem]. rewrite Hl1. exact Hrng. }
  { cbn [k_mem set_k_mem]. rewrite Hl1. exact H0. }
  simpl k_mem in Hs2. rewrite Hl1 in Hs2.
  destruct (pte_in_spec (pte_out (leaf (k_mem k) root va)) pa Hrng Hpa Hal)
    as (_ & HPA & Hset & _ & H9').
  eexists _, _, _, _. split_and!; [exact Hr1|exact Hs1| |exact H0|exact H9|exact Hkeep
    |exact Hr2|exact Hs2|exact HPA|exact Hset|exact H9'].
  unfold PTE2PA. rewrite Z.shiftr_div_pow2, Z.div_small by lia. done.
Qed.

End properties.

(** ** Witnesses *)

(** Process 0 runs with one page in memory, at address 0. *)
Definition sample_proc : proc :=
  set_p_pagetable (pg 3) (set_p_page_order_counter 6
    (set_p_memory_pages (<[0%nat := mkPage P_USED 0 5 7]> (p_memory_pages proc0)) proc0)).
Definition sample_paging : kernel :=
  set_k_cur (Some 0%nat) (with_proc 0 sample_proc sample_user).

Lemma sample_pages_lookup n g :
  p_memory_pages sample_proc !! n = Some g ->
  (n = 0%nat /\ g = mkPage P_USED 0 5 7) \/ g = page0.
Proof.
  unfold sample_proc. cbn [p_memory_pages set_p_pagetable set_p_page_order_counter
    set_p_memory_pages proc0]. destruct n as [|n]; simpl; [intros [= <-]; by left|].
  intros Hn. right.
  change (replicate 15 page0 !! n = Some g) in Hn. by apply lookup_replicate in Hn as [-> _].
Qed.

Lemma sample_sc_state : @sc_state sample_layout 0 [] sample_paging sample_proc [0%nat].
Proof.
  constructor.
  - reflexivity.
  - reflexivity.
  - apply sample_user_ok.
  - intros n. rewrite list_elem_of_singleton. split.
    + intros ->. eexists. split; reflexivity.
    + intros (g & Hg & Hu). apply sample_pages_lookup in Hg as [[-> _]| ->]; [done|discriminate Hu].
  - apply NoDup_singleton.
  - constructor; constructor.
  - intros n ->%list_elem_of_singleton. by vm_compute.
  - intros n ->%list_elem_of_singleton. split; [by vm_compute|]. exists (pg 5). by vm_compute.
  - intros n n' ->%list_elem_of_singleton ->%list_elem_of_singleton _. reflexivity.
Qed.

Lemma scfifo_second_chance_witness :
  exists i k', SCFIFO_algorithm (W sample_paging []) = Ret (Z.of_nat i) (W k' []).
Proof.
  destruct (@scfifo_second_chance sample_layout sample_layout_ok 0 [] sample_paging sample_proc
    [0%nat] []) as (i & k' & pr' & Hrun & _).
  - apply sample_sc_state.
  - discriminate.
  - reflexivity.
  - by vm_compute.
  - exists i, k'. exact Hrun.
Defined.

Lemma nfua_chooses_least_witness :
  exists i, NFUA_algorithm (W sample_paging []) = Ret i (W sample_paging []).
Proof.
  destruct (nfua_chooses_least 0 sample_proc sample_paging []) as (i & Hrun & _).
  - reflexivity.
  - reflexivity.
  - exists i. exact Hrun.
Defined.

Lemma lapa_chooses_least_witness :
  exists i, LAPA_algorithm (W sample_paging []) = Ret i (W sample_paging []).
Proof.
  destruct (lapa_chooses_least 0 sample_proc sample_paging []) as (i & Hrun & _).
  - reflexivity.
  - reflexivity.
  - apply Forall_lookup_2. intros n g Hg. unfold access_ok.
    apply sample_pages_lookup in Hg as [[_ ->]| ->]; clear; by vm_compute.
  - exists i. exact Hrun.
Defined.

Lemma page_out_in_roundtrip_witness :
  exists k1 k2,
    update_page_out_pte (pg 3) 0 (W sample_paging []) = Ret tt (W k1 []) /\
    @update_page_in_pte NFUA (pg 3) 0 (pg 7) 0 (W k1 []) = Ret tt (W k2 []).
Proof.
  destruct (@page_out_in_roundtrip sample_layout sample_layout_ok NFUA (pg 3) [] 0 (pg 5) (pg 7)
    0 sample_proc 0 (mkPage P_USED 0 5 7) sample_paging [])
    as (k1 & k2 & v1 & v2 & H1 & _ & _ & _ & _ & _ & H2 & _).
  - apply sample_user_ok.
  - by vm_compute.
  - by vm_compute.
  - reflexivity.
  - reflexivity.
  - reflexivity.
  - by vm_compute.
  - by vm_compute.
  - exists k1, k2. split; [exact H1|exact H2].
Defined.

