(* ===== verification/Bio.v ===== *)
(** * bio.c: the buffer cache

    [NBUF] buffers on a doubly linked list through [prev] and [next], most
    recently used first; the list head is one more element of [k_bufs], with
    index [HEAD].  The disk driver is the class [Disk], with its promises to the
    cache in [DiskReads] and [DiskWrites]; [sync_disk] is the driver as a thread that waits for its
    request sees it. *)

From Stdlib Require Import ZArith Lia.
From stdpp Require Import base gmap list strings numbers.
From S2P Require Import Prelude Riscv State Klib Sched.

(** ** The disk *)

(** The contents of block [n]. *)
Definition disk_block (k : kernel) (n : Z) : list Z := default block0 (k_disk k !! n).

(** [virtio_disk_rw(b, write)]. *)
Class Disk := virtio_disk_rw : nat -> bool -> K unit.

(** A read fills the buffer with its block, a write stores the buffer in its
    block; nothing else changes. *)
Class DiskReads (D : Disk) : Prop :=
  disk_read_ok : forall b k e x,
    k_bufs k !! b = Some x -> Lvdisk ∉ k_held k ->
    virtio_disk_rw b false (W k e) =
    Ret tt (W (set_k_bufs (<[b := set_b_data (disk_block k (b_blockno x)) x]> (k_bufs k)) k) e).
Class DiskWrites (D : Disk) : Prop :=
  disk_write_ok : forall b k e x,
    k_bufs k !! b = Some x -> Lvdisk ∉ k_held k ->
    virtio_disk_rw b true (W k e) =
    Ret tt (W (set_k_disk (<[b_blockno x := b_data x]> (k_disk k)) k) e).

Definition sync_disk : Disk := fun b write =>
  acquire Lvdisk ;;;
  let* x := buf_get b in
  (if write then kmod (fun k => set_k_disk (<[b_blockno x := b_data x]> (k_disk k)) k)
   else let* d := kget (fun k => disk_block k (b_blockno x)) in buf_mod b (set_b_data d)) ;;;
  release Lvdisk.

(** ** Definitions *)

Definition HEAD : nat := Z.to_nat NBUF.

Section bio.
Context `{D : Disk}.

Definition binit : K unit :=
  initlock Lbcache ;;;
  buf_mod HEAD (set_b_prev HEAD) ;;;
  buf_mod HEAD (set_b_next HEAD) ;;;
  for_all (Z.to_nat NBUF) 0 (fun i =>
    let b := Z.to_nat i in
    let* h := buf_get HEAD in
    buf_mod b (set_b_next (b_next h)) ;;;
    buf_mod b (set_b_prev HEAD) ;;;
    initsleeplock (SLbuf b) ;;;
    let* h := buf_get HEAD in
    buf_mod (b_next h) (set_b_prev b) ;;;
    buf_mod HEAD (set_b_next b)).

(** [for(b = start; b != &bcache.head; b = step(b)) if(test(b)) ...]: the
    buffer the loop stops at, [None] at the head.  The list has at most [NBUF]
    buffers. *)
Definition buf_search (step : buf -> nat) (test : buf -> bool) (start : nat) : K (option nat) :=
  while_ (S HEAD)
    (fun b : nat =>
       if Nat.eqb b HEAD then ret (inr None) else
       let* x := buf_get b in
       if test x then ret (inr (Some b)) else ret (inl (step x))) start.

Definition bget (dev blockno : Z) : K nat :=
  acquire Lbcache ;;;
  let* h := buf_get HEAD in
  let* cached := buf_search b_next
    (fun x => (b_dev x =? dev) && (b_blockno x =? blockno)) (b_next h) in
  match cached with
  | Some b =>
      buf_mod b (fun x => set_b_refcnt (u32 (b_refcnt x + 1)) x) ;;;
      release Lbcache ;;;
      acquiresleep (SLbuf b) ;;;
      ret b
  | None =>
      let* h := buf_get HEAD in
      let* unused := buf_search b_prev (fun x => b_refcnt x =? 0) (b_prev h) in
      match unused with
      | Some b =>
          buf_mod b (set_b_dev dev) ;;;
          buf_mod b (set_b_blockno blockno) ;;;
          buf_mod b (set_b_valid 0) ;;;
          buf_mod b (set_b_refcnt 1) ;;;
          release Lbcache ;;;
          acquiresleep (SLbuf b) ;;;
          ret b
      | None => panic "bget: no buffers"
      end
  end.

Definition bread (dev blockno : Z) : K nat :=
  let* b := bget dev blockno in
  let* x := buf_get b in
  when (negb (truth (b_valid x)))
    (virtio_disk_rw b false ;;;
     buf_mod b (set_b_valid 1)) ;;;
  ret b.

Definition bwrite (b : nat) : K unit :=
  let* h := holdingsleep (SLbuf b) in
  if negb h then panic "bwrite" else
  virtio_disk_rw b true.

Definition brelse (b : nat) : K unit :=
  let* h := holdingsleep (SLbuf b) in
  if negb h then panic "brelse" else
  releasesleep (SLbuf b) ;;;
  acquire Lbcache ;;;
  buf_mod b (fun x => set_b_refcnt (u32 (b_refcnt x - 1)) x) ;;;
  let* x := buf_get b in
  when (b_refcnt x =? 0)
    (buf_mod (b_next x) (set_b_prev (b_prev x)) ;;;
     let* x := buf_get b in
     buf_mod (b_prev x) (set_b_next (b_next x)) ;;;
     let* h := buf_get HEAD in
     buf_mod b (set_b_next (b_next h)) ;;;
     buf_mod b (set_b_prev HEAD) ;;;
     let* h := buf_get HEAD in
     buf_mod (b_next h) (set_b_prev b) ;;;
     buf_mod HEAD (set_b_next b)) ;;;
  release Lbcache.

Definition bpin (b : nat) : K unit :=
  acquire Lbcache ;;;
  buf_mod b (fun x => set_b_refcnt (u32 (b_refcnt x + 1)) x) ;;;
  release Lbcache.

Definition bunpin (b : nat) : K unit :=
  acquire Lbcache ;;;
  buf_mod b (fun x => set_b_refcnt (u32 (b_refcnt x - 1)) x) ;;;
  release Lbcache.

End bio.

(** ** Lemmas *)

Lemma sync_disk_reads : DiskReads sync_disk.
Proof.
  intros b k e x Hx Hv. unfold virtio_disk_rw, sync_disk. k_acquire.
  unfold buf_get at 1. rewrite bind_assoc, bind_kget. simpl. rewrite Hx, bind_ret_l.
  rewrite bind_assoc, bind_kget. unfold buf_mod. rewrite bind_kmod. simpl. k_release.
  do 2 f_equal. rewrite (list_alter_lookup _ _ _ _ Hx). by destruct k.
Qed.

Lemma sync_disk_writes : DiskWrites sync_disk.
Proof.
  intros b k e x Hx Hv. unfold virtio_disk_rw, sync_disk. k_acquire.
  unfold buf_get. rewrite bind_assoc, bind_kget. simpl. rewrite Hx, bind_ret_l.
  rewrite bind_kmod. simpl. k_release. by destruct k.
Qed.

#[export] Existing Instance sync_disk_reads.
#[export] Existing Instance sync_disk_writes.

(** *** The list of buffers *)

Section links.
Implicit Types nx pv : nat -> nat.

(** From [i] through the nodes of [l] to [j], following [nx]; [pv] leads back. *)
Fixpoint seg nx pv (i : nat) (l : list nat) (j : nat) : Prop :=
  match l with
  | [] => nx i = j /\ pv j = i
  | x :: l' => nx i = x /\ pv x = i /\ seg nx pv x l' j
  end.

Definition fset (f : nat -> nat) (i v : nat) : nat -> nat :=
  fun j => if decide (j = i) then v else f j.

Lemma seg_app nx pv i l1 b l2 j :
  seg nx pv i (l1 ++ b :: l2) j <-> seg nx pv i l1 b /\ seg nx pv b l2 j.
Proof. revert i. induction l1 as [|x l1 IH]; intros i; simpl; [tauto|]. rewrite IH. tauto. Qed.

Lemma seg_ext nx pv nx' pv' i l j :
  (forall x, x ∈ i :: l -> nx' x = nx x) -> (forall x, x ∈ l ++ [j] -> pv' x = pv x) ->
  seg nx pv i l j -> seg nx' pv' i l j.
Proof.
  revert i. induction l as [|x l IH]; intros i Hn Hp; simpl in *.
  - rewrite Hn, Hp by set_solver. done.
  - rewrite Hn, Hp by set_solver. intros (H1 & H2 & H3). split_and!; [done..|].
    apply IH; [intros; apply Hn; set_solver|intros; apply Hp; set_solver|done].
Qed.

Lemma seg_first nx pv i l j : seg nx pv i l j -> nx i = hd j l /\ pv (hd j l) = i.
Proof. destruct l; simpl; tauto. Qed.

Lemma seg_last nx pv i l j : seg nx pv i l j -> pv j = List.last l i /\ nx (List.last l i) = j.
Proof.
  revert i. induction l as [|x l IH]; intros i; [simpl; tauto|].
  intros (H1 & H2 & H3). destruct (IH _ H3) as [H4 H5].
  destruct l as [|y l]; [simpl in *; tauto|]. split; [|].
  - rewrite H4. clear. revert y. induction l; intros; simpl; [done|]. apply IHl.
  - rewrite <- H5. f_equal. clear. revert y. induction l; intros; simpl; [done|]. apply IHl.
Qed.

Lemma last_in (x : nat) l : List.last l x ∈ x :: l.
Proof.
  revert x. induction l as [|y l IH]; intros x; [set_solver|].
  destruct l as [|z l]; [set_solver|]. specialize (IH x). simpl in *. set_solver.
Qed.

(** Taking [b] out of the list. *)
Lemma seg_unlink nx pv i l1 b l2 j :
  seg nx pv i (l1 ++ b :: l2) j -> NoDup (i :: l1 ++ b :: l2) -> j ∉ l1 ++ b :: l2 ->
  seg (fset nx (pv b) (nx b)) (fset pv (nx b) (pv b)) i (l1 ++ l2) j.
Proof.
  intros Hs Hn Hj. apply seg_app in Hs as Hs'. destruct Hs' as [Ha Hb].
  destruct (seg_first _ _ _ _ _ Hb) as [Hb1 _]. destruct (seg_last _ _ _ _ _ Ha) as [Ha1 _].
  rewrite Ha1, Hb1. clear Ha1 Hb1 Hs.
  revert i Hn Ha. induction l1 as [|x l1 IH]; intros i Hn Ha.
  - simpl in *. apply list.NoDup_cons in Hn as [Hi Hn]. apply list.NoDup_cons in Hn as [Hbl Hn].
    destruct l2 as [|y l2]; simpl in *; unfold fset at 1; rewrite decide_True by done.
    { unfold fset. by rewrite decide_True. }
    unfold fset at 1. rewrite decide_True by done. destruct Hb as (H1 & H2 & H3).
    split_and!; [done..|]. apply list.NoDup_cons in Hn as [Hy Hn].
    eapply seg_ext; [| |exact H3]; intros x Hx; unfold fset;
      rewrite decide_False by (clear - Hx Hi Hy Hj; set_solver); done.
  - simpl in Ha. destruct Ha as (H1 & H2 & H3).
    rewrite app_comm_cons in Hn. simpl in Hn.
    apply list.NoDup_cons in Hn as [Hi Hn].
    assert (List.last (x :: l1) i = List.last l1 x) as Hl.
    { destruct l1 as [|y l1]; [done|]. clear. simpl. revert y. induction l1; intros; [done|]. apply IHl1. }
    rewrite Hl. clear Hl. simpl app. simpl seg. split_and!.
    + unfold fset. rewrite decide_False; [done|]. intros E. apply Hi.
      pose proof (last_in x l1) as Hm. rewrite <- E in Hm. revert Hm. clear.
      rewrite !elem_of_cons, elem_of_app. tauto.
    + unfold fset. rewrite decide_False; [done|]. simpl in Hj. apply list.NoDup_cons in Hn as [Hx _].
      clear - Hx Hj. destruct l2; simpl; set_solver.
    + apply IH; [clear - Hj; set_solver|done|done].
Qed.

(** Putting [b] at the front. *)
Lemma seg_push nx pv h l b :
  seg nx pv h l h -> NoDup (h :: l) -> b ∉ h :: l ->
  seg (fset (fset nx b (nx h)) h b) (fset (fset pv b h) (nx h) b) h (b :: l) h.
Proof.
  intros Hs Hn Hb. destruct (seg_first _ _ _ _ _ Hs) as [H1 H2].
  apply not_elem_of_cons in Hb as [Hbh Hbl]. apply list.NoDup_cons in Hn as [Hh Hn].
  assert (b <> nx h) as Hbn by (rewrite H1; destruct l; simpl; set_solver).
  simpl. split_and!.
  - unfold fset. by rewrite decide_True.
  - unfold fset. by rewrite decide_False, decide_True by done.
  - rewrite H1 in *. destruct l as [|y l]; simpl in *; unfold fset.
    + rewrite decide_False by done. by rewrite !decide_True.
    + rewrite (decide_False (P := b = h)), (decide_True (P := b = b)), (decide_True (P := y = y)) by done.
      split_and!; [done..|]. destruct Hs as (_ & _ & Hs). apply list.NoDup_cons in Hn as [Hy Hn].
      eapply seg_ext; [| |exact Hs]; intros x Hx;
        rewrite !decide_False by (clear - Hx Hy Hh Hbl Hbh; set_solver); done.
Qed.
End links.

(** Buffer [i], its links, and the rest of it. *)
Definition bufat (bs : list buf) (i : nat) : buf := default buf0 (bs !! i).
Definition nxt (bs : list buf) (i : nat) : nat := b_next (bufat bs i).
Definition prv (bs : list buf) (i : nat) : nat := b_prev (bufat bs i).
Definition payload (x : buf) : buf := set_b_prev 0 (set_b_next 0 x).

(** The buffers of [l], most recently used first, are exactly the [NBUF]
    buffers of the cache, linked in this order around the list head. *)
Record ring (bs : list buf) (l : list nat) : Prop := {
  ring_length : length bs = S HEAD;
  ring_seg : seg (nxt bs) (prv bs) HEAD l HEAD;
  ring_nodup : NoDup (HEAD :: l);
  ring_all : forall i, i ∈ l <-> (i < HEAD)%nat;
}.

Lemma bufat_alter f b bs i :
  (b < length bs)%nat ->
  bufat (alter f b bs) i = if decide (i = b) then f (bufat bs b) else bufat bs i.
Proof.
  intros Hb. unfold bufat. destruct (decide (i = b)) as [->|Hi].
  - rewrite list_lookup_alter_eq. destruct (lookup_lt_is_Some_2 bs b Hb) as [x ->]. done.
  - by rewrite list_lookup_alter_ne.
Qed.

Lemma bufat_lookup bs i : (i < length bs)%nat -> bs !! i = Some (bufat bs i).
Proof. intros Hi. unfold bufat. destruct (lookup_lt_is_Some_2 bs i Hi) as [x ->]. done. Qed.

Lemma buf_get_run k e i :
  (i < length (k_bufs k))%nat -> buf_get i (W k e) = Ret (bufat (k_bufs k) i) (W k e).
Proof. intros Hi. unfold buf_get. rewrite bind_kget, (bufat_lookup _ _ Hi). done. Qed.

(** What [brelse] does to the list when the last reference goes. *)
Definition unlink_buf (b : nat) (bs : list buf) : list buf :=
  let bs := alter (set_b_prev (prv bs b)) (nxt bs b) bs in
  alter (set_b_next (nxt bs b)) (prv bs b) bs.
Definition push_buf (b : nat) (bs : list buf) : list buf :=
  let bs := alter (set_b_next (nxt bs HEAD)) b bs in
  let bs := alter (set_b_prev HEAD) b bs in
  let bs := alter (set_b_prev b) (nxt bs HEAD) bs in
  alter (set_b_next b) HEAD bs.
Definition move_front (b : nat) (bs : list buf) : list buf := push_buf b (unlink_buf b bs).

Lemma nxt_set_prev v b bs i : nxt (alter (set_b_prev v) b bs) i = nxt bs i.
Proof.
  unfold nxt, bufat. destruct (decide (b = i)) as [->|].
  - rewrite list_lookup_alter_eq. by destruct (bs !! i).
  - by rewrite list_lookup_alter_ne.
Qed.

Lemma prv_set_next v b bs i : prv (alter (set_b_next v) b bs) i = prv bs i.
Proof.
  unfold prv, bufat. destruct (decide (b = i)) as [->|].
  - rewrite list_lookup_alter_eq. by destruct (bs !! i).
  - by rewrite list_lookup_alter_ne.
Qed.

Lemma nxt_set_next v b bs i :
  (b < length bs)%nat -> nxt (alter (set_b_next v) b bs) i = fset (nxt bs) b v i.
Proof. intros Hb. unfold nxt, fset. rewrite bufat_alter by done. by destruct (decide (i = b)). Qed.

Lemma prv_set_prev v b bs i :
  (b < length bs)%nat -> prv (alter (set_b_prev v) b bs) i = fset (prv bs) b v i.
Proof. intros Hb. unfold prv, fset. rewrite bufat_alter by done. by destruct (decide (i = b)). Qed.

Lemma payload_alter f b bs i :
  (forall x, payload (f x) = payload x) -> payload (bufat (alter f b bs) i) = payload (bufat bs i).
Proof.
  intros Hf. unfold bufat. destruct (decide (b = i)) as [->|].
  - rewrite list_lookup_alter_eq. destruct (bs !! i); simpl; [apply Hf|done].
  - by rewrite list_lookup_alter_ne.
Qed.

Lemma move_front_payload b bs i : payload (bufat (move_front b bs) i) = payload (bufat bs i).
Proof. unfold move_front, push_buf, unlink_buf. by rewrite !payload_alter. Qed.

Lemma move_front_length b bs : length (move_front b bs) = length bs.
Proof. unfold move_front, push_buf, unlink_buf. by rewrite !length_alter. Qed.

Lemma seg_bound nx pv i l j n :
  seg nx pv i l j -> (forall x, x ∈ i :: l ++ [j] -> (x < n)%nat) ->
  forall b, b ∈ l -> (nx b < n /\ pv b < n)%nat.
Proof.
  intros Hs Hb b Hin. apply list_elem_of_split in Hin as (l1 & l2 & ->).
  apply seg_app in Hs as [H1 H2].
  destruct (seg_first _ _ _ _ _ H2) as [-> _]. destruct (seg_last _ _ _ _ _ H1) as [-> _]. split.
  - apply Hb. destruct l2; simpl; set_solver.
  - apply Hb. pose proof (last_in i l1). set_solver.
Qed.

Lemma unlink_buf_seg b bs l1 l2 :
  length bs = S HEAD -> seg (nxt bs) (prv bs) HEAD (l1 ++ b :: l2) HEAD ->
  NoDup (HEAD :: l1 ++ b :: l2) -> (forall x, x ∈ l1 ++ b :: l2 -> (x < HEAD)%nat) ->
  seg (nxt (unlink_buf b bs)) (prv (unlink_buf b bs)) HEAD (l1 ++ l2) HEAD.
Proof.
  intros Hlen Hs Hn Hall.
  assert (Hn' := Hn). apply list.NoDup_cons in Hn' as [Hh Hn'].
  assert (forall x, x ∈ HEAD :: (l1 ++ b :: l2) ++ [HEAD] -> (x < S HEAD)%nat) as Hlt.
  { intros x Hx. assert (x = HEAD \/ x ∈ l1 ++ b :: l2) as [->|Hx'] by (clear -Hx; set_solver); [lia|].
    apply Hall in Hx'. lia. }
  assert (b ∈ l1 ++ b :: l2) as Hb by set_solver.
  destruct (seg_bound _ _ _ _ _ _ Hs Hlt b Hb) as [Hnb Hpb]. apply Hall in Hb.
  pose proof Hs as Hs'. apply seg_app in Hs' as [_ Hs2].
  destruct (seg_first _ _ _ _ _ Hs2) as [Enb _].
  assert (nxt bs b <> b) as Hnbb.
  { rewrite Enb. apply list.NoDup_app in Hn' as (_ & _ & Hn2). apply list.NoDup_cons in Hn2 as [Hn2 _].
    destruct l2; simpl; [lia|]. clear -Hn2. set_solver. }
  unfold unlink_buf. set (bs1 := alter (set_b_prev (prv bs b)) (nxt bs b) bs).
  assert (forall x, nxt bs1 x = nxt bs x) as E1n by (intros; apply nxt_set_prev).
  assert (forall x, prv bs1 x = fset (prv bs) (nxt bs b) (prv bs b) x) as E1p.
  { intros. apply prv_set_prev. lia. }
  assert (prv bs1 b = prv bs b) as Epb by (rewrite E1p; unfold fset; by rewrite decide_False).
  eapply seg_ext; [| |exact (seg_unlink _ _ _ _ _ _ _ Hs Hn Hh)]; intros x _.
  - rewrite nxt_set_next by (rewrite Epb; unfold bs1; rewrite length_alter; lia).
    rewrite Epb, E1n. unfold fset. by rewrite E1n.
  - by rewrite prv_set_next.
Qed.

Lemma push_buf_seg b bs l :
  length bs = S HEAD -> seg (nxt bs) (prv bs) HEAD l HEAD -> NoDup (HEAD :: l) ->
  (forall x, x ∈ l -> (x < HEAD)%nat) -> b ∉ l -> (b < HEAD)%nat ->
  seg (nxt (push_buf b bs)) (prv (push_buf b bs)) HEAD (b :: l) HEAD.
Proof.
  intros Hlen Hs Hn Hall Hbl Hb. unfold push_buf.
  assert (b ∉ HEAD :: l) as Hbn by (apply not_elem_of_cons; split; [lia|done]).
  set (bs4 := alter (set_b_prev HEAD) b (alter (set_b_next (nxt bs HEAD)) b bs)).
  assert (forall x, nxt bs4 x = fset (nxt bs) b (nxt bs HEAD) x) as E4n.
  { intros. unfold bs4. rewrite nxt_set_prev. apply nxt_set_next. lia. }
  assert (forall x, prv bs4 x = fset (prv bs) b HEAD x) as E4p.
  { intros. unfold bs4. rewrite prv_set_prev by (rewrite length_alter; lia).
    unfold fset. by rewrite prv_set_next. }
  assert (nxt bs4 HEAD = nxt bs HEAD) as E4h.
  { rewrite E4n. unfold fset. rewrite decide_False by lia. done. }
  assert (nxt bs HEAD < S HEAD)%nat as Hh2.
  { destruct (seg_first _ _ _ _ _ Hs) as [-> _]. destruct l as [|y l]; simpl; [lia|].
    specialize (Hall y). set_solver by lia. }
  assert (length bs4 = S HEAD) as L4 by (unfold bs4; by rewrite !length_alter).
  eapply seg_ext; [| |exact (seg_push _ _ _ _ b Hs Hn Hbn)]; intros x _.
  - rewrite nxt_set_next by (rewrite length_alter; lia). unfold fset at 1 2.
    rewrite nxt_set_prev, E4n. done.
  - rewrite prv_set_next, prv_set_prev by lia. unfold fset at 1 2. rewrite E4h, E4p. done.
Qed.

(** [brelse] makes [b] the most recently used buffer and keeps the order of
    the others. *)
Lemma move_front_ring b bs l1 l2 :
  ring bs (l1 ++ b :: l2) -> ring (move_front b bs) (b :: l1 ++ l2).
Proof.
  intros [Hlen Hs Hn Hall].
  assert (NoDup (HEAD :: l1 ++ l2) /\ b ∉ HEAD :: l1 ++ l2) as [Hnd Hbn].
  { clear -Hn. assert (b :: HEAD :: l1 ++ l2 ≡ₚ HEAD :: l1 ++ b :: l2) as HP.
    { rewrite Permutation_swap. constructor. apply Permutation_middle. }
    rewrite <- HP in Hn. by apply list.NoDup_cons in Hn as [? ?]. }
  apply not_elem_of_cons in Hbn as [HbH Hbn].
  assert (b < HEAD)%nat as Hb by (apply Hall; set_solver).
  split.
  - by rewrite move_front_length.
  - apply push_buf_seg; [unfold unlink_buf; by rewrite !length_alter| |done| |done|done].
    + apply unlink_buf_seg; [done..|]. intros. by apply Hall.
    + intros x Hx. apply Hall. clear -Hx. set_solver.
  - rewrite Permutation_swap. constructor; [|done]. by apply not_elem_of_cons.
  - intros i. rewrite <- Hall. clear. set_solver.
Qed.

Lemma ring_perm bs l : ring bs l -> l ≡ₚ seq 0 HEAD.
Proof.
  intros [_ _ Hn Hall]. apply list.NoDup_cons in Hn as [_ Hn].
  apply NoDup_Permutation; [done|apply NoDup_seq|]. intros x. rewrite Hall, elem_of_seq. lia.
Qed.

Lemma seg_rev nx pv i l j : seg nx pv i l j -> seg pv nx j (rev l) i.
Proof.
  revert i. induction l as [|x l IH]; intros i; simpl; [tauto|].
  intros (H1 & H2 & H3). apply seg_app. split; [by apply IH|]. done.
Qed.

(** The first buffer of [l] that passes the test. *)
Definition first_buf (bs : list buf) (test : buf -> bool) (l : list nat) : option nat :=
  List.find (fun b => test (bufat bs b)) l.

(** *** Running the routines *)

(** What the routines of the cache assume of the running thread: it is the
    process [pr] in slot [p], and holds none of the spin locks they take. *)
Record calm (p : nat) (pr : proc) (k : kernel) : Prop := {
  calm_cur : k_cur k = Some p;
  calm_proc : k_procs k !! p = Some pr;
  calm_nproc : length (k_procs k) = Z.to_nat NPROC;
  calm_bcache : Lbcache ∉ k_held k;
  calm_vdisk : Lvdisk ∉ k_held k;
  calm_sleep : forall s, Lsleep s ∉ k_held k;
  calm_procs : forall i, Lproc i ∉ k_held k;
}.

Lemma buf_search_run (step : buf -> nat) pv (test : buf -> bool) k e i (l : list nat) (fuel : nat) :
  seg (fun i => step (bufat (k_bufs k) i)) pv i l HEAD ->
  (forall x, x ∈ l -> (x < HEAD)%nat) -> (HEAD < length (k_bufs k))%nat ->
  (length l < fuel)%nat ->
  while_ fuel
    (fun b : nat =>
       if Nat.eqb b HEAD then ret (inr None) else
       let* x := buf_get b in
       if test x then ret (inr (Some b)) else ret (inl (step x))) (hd HEAD l) (W k e) =
  @Ret world (option nat) (first_buf (k_bufs k) test l) (W k e).
Proof.
  revert i fuel. induction l as [|x l IH]; intros i fuel Hs Hlt Hlen Hf;
    (destruct fuel as [|fuel]; [simpl in Hf; lia|]); rewrite while_S; simpl hd.
  - by rewrite Nat.eqb_refl.
  - destruct Hs as (H1 & H2 & Hs). assert (x < HEAD)%nat as Hx by (apply Hlt; set_solver).
    rewrite (proj2 (Nat.eqb_neq x HEAD)) by lia.
    rewrite bind_assoc, (bind_Ret _ _ _ _ _ (buf_get_run k e x ltac:(lia))).
    unfold first_buf. simpl. destruct (test (bufat (k_bufs k) x)); [done|].
    rewrite bind_ret_l. destruct (seg_first _ _ _ _ _ Hs) as [-> _].
    apply (IH x); [done| |done|simpl in Hf; lia]. intros y Hy. apply Hlt. set_solver.
Qed.

Lemma search_next test k e l :
  ring (k_bufs k) l ->
  buf_search b_next test (nxt (k_bufs k) HEAD) (W k e) = Ret (first_buf (k_bufs k) test l) (W k e).
Proof.
  intros Hr. pose proof Hr as [Hlen Hs Hn Hall]. destruct (seg_first _ _ _ _ _ Hs) as [-> _].
  unfold buf_search. apply (buf_search_run b_next (prv (k_bufs k)) test k e HEAD).
  - exact Hs.
  - intros. by apply Hall.
  - lia.
  - rewrite (ring_perm _ _ Hr), length_seq. lia.
Qed.

Lemma search_prev test k e l :
  ring (k_bufs k) l ->
  buf_search b_prev test (prv (k_bufs k) HEAD) (W k e) =
  Ret (first_buf (k_bufs k) test (rev l)) (W k e).
Proof.
  intros Hr. pose proof Hr as [Hlen Hs Hn Hall]. apply seg_rev in Hs.
  destruct (seg_first _ _ _ _ _ Hs) as [-> _].
  unfold buf_search. apply (buf_search_run b_prev (nxt (k_bufs k)) test k e HEAD).
  - exact Hs.
  - intros x Hx. apply Hall, list_elem_of_In, in_rev. by apply list_elem_of_In.
  - lia.
  - rewrite length_rev, (ring_perm _ _ Hr), length_seq. lia.
Qed.

Definition is_block (dev blockno : Z) (x : buf) : bool :=
  (b_dev x =? dev) && (b_blockno x =? blockno).
Definition is_unused (x : buf) : bool := b_refcnt x =? 0.

(** A buffer as [bget] returns it when the block is cached, and when the
    buffer is recycled for it. *)
Definition got (pid : Z) (x : buf) : buf :=
  set_b_lock (mkSleeplock 1 pid) (set_b_refcnt (u32 (b_refcnt x + 1)) x).
Definition recycled (pid dev blockno : Z) (x : buf) : buf :=
  set_b_lock (mkSleeplock 1 pid)
    (set_b_refcnt 1 (set_b_valid 0 (set_b_blockno blockno (set_b_dev dev x)))).

Lemma first_buf_in bs test l b :
  first_buf bs test l = Some b -> b ∈ l /\ test (bufat bs b) = true.
Proof. intros H. apply List.find_some in H as [H1 H2]. by rewrite list_elem_of_In. Qed.

(** Setting the fields of a buffer one after the other. *)
Lemma bind_buf_mod {B} b f (c : unit -> K B) k e :
  bind (buf_mod b f) c (W k e) = c tt (W (set_k_bufs (alter f b (k_bufs k)) k) e).
Proof. reflexivity. Qed.

Lemma set_k_bufs_twice bs bs' k : set_k_bufs bs (set_k_bufs bs' k) = set_k_bufs bs k.
Proof. reflexivity. Qed.

Section routines.
Context `{D : Disk} {p : nat} {pr : proc} {k : kernel} {l : list nat}.
Hypothesis Hcalm : calm p pr k.
Hypothesis Hring : ring (k_bufs k) l.

Lemma buf_lock_free b e f :
  (b < HEAD)%nat -> (forall x, b_lock (f x) = b_lock x) ->
  sl_locked (b_lock (bufat (k_bufs k) b)) = 0 ->
  acquiresleep (SLbuf b) (W (set_k_bufs (alter f b (k_bufs k)) k) e) =
  Ret tt (W (set_k_bufs (alter (fun x => set_b_lock (mkSleeplock 1 (p_pid pr)) (f x)) b (k_bufs k)) k) e).
Proof.
  intros Hb Hf H0. destruct Hcalm. pose proof (ring_length _ _ Hring) as Hlen.
  erewrite (acquiresleep_free (SLbuf b)); simpl; [| |done|done|done|done].
  - unfold sl_put. simpl. rewrite list_alter_alter_eq. done.
  - simpl. rewrite list_lookup_alter_eq, (bufat_lookup _ b) by lia. simpl. f_equal. apply Hf.
Qed.

Lemma bget_start {A} (f : option nat -> K A) test e :
  (acquire Lbcache ;;; let* h := buf_get HEAD in
   let* c := buf_search b_next test (b_next h) in f c) (W k e) =
  f (first_buf (k_bufs k) test l) (W (lockk Lbcache k) e).
Proof.
  destruct Hcalm. rewrite (bind_Ret _ _ _ _ _ (acquire_eq _ _ _ calm_bcache0)).
  pose proof (ring_length _ _ Hring) as Hlen.
  rewrite (bind_Ret _ _ _ _ _ (buf_get_run (lockk Lbcache k) e HEAD ltac:(simpl; lia))).
  by rewrite (bind_Ret _ _ _ _ _ (search_next test (lockk Lbcache k) e l Hring)).
Qed.

Lemma release_bcache {A} (c : unit -> K A) bs e :
  (release Lbcache ;;; c tt) (W (set_k_bufs bs (lockk Lbcache k)) e) = c tt (W (set_k_bufs bs k) e).
Proof.
  destruct Hcalm. erewrite (bind_Ret (release _)).
  2:{ apply release_top with (h := k_held k) (n := k_noff k); done. }
  reflexivity.
Qed.

Lemma bget_hit dev blockno e b :
  first_buf (k_bufs k) (is_block dev blockno) l = Some b ->
  sl_locked (b_lock (bufat (k_bufs k) b)) = 0 ->
  bget dev blockno (W k e) = Ret b (W (set_k_bufs (alter (got (p_pid pr)) b (k_bufs k)) k) e).
Proof.
  intros Hf H0. apply first_buf_in in Hf as Hb. destruct Hb as [Hb _].
  apply (ring_all _ _ Hring) in Hb. unfold bget. rewrite bget_start.
  fold (is_block dev blockno). rewrite Hf. rewrite bind_buf_mod. simpl.
  rewrite (release_bcache (fun _ => acquiresleep (SLbuf b) ;;; ret b)).
  erewrite bind_Ret; [|by apply buf_lock_free]. done.
Qed.

Lemma bget_miss dev blockno e b :
  first_buf (k_bufs k) (is_block dev blockno) l = None ->
  first_buf (k_bufs k) is_unused (rev l) = Some b ->
  sl_locked (b_lock (bufat (k_bufs k) b)) = 0 ->
  bget dev blockno (W k e) =
  Ret b (W (set_k_bufs (alter (recycled (p_pid pr) dev blockno) b (k_bufs k)) k) e).
Proof.
  intros Hf Hu H0. apply first_buf_in in Hu as Hb. destruct Hb as [Hb _].
  apply list_elem_of_In, in_rev, list_elem_of_In, (ring_all _ _ Hring) in Hb.
  unfold bget. rewrite bget_start. fold (is_block dev blockno). rewrite Hf.
  pose proof (ring_length _ _ Hring) as Hlen.
  rewrite (bind_Ret _ _ _ _ _ (buf_get_run (lockk Lbcache k) e HEAD ltac:(simpl; lia))).
  rewrite (bind_Ret _ _ _ _ _ (search_prev is_unused (lockk Lbcache k) e l Hring)).
  simpl. rewrite Hu. rewrite !bind_buf_mod, !set_k_bufs_twice. simpl k_bufs. rewrite !list_alter_alter_eq.
  rewrite (release_bcache (fun _ => acquiresleep (SLbuf b) ;;; ret b)).
  erewrite bind_Ret; [|by apply buf_lock_free]. done.
Qed.

Lemma bget_full dev blockno e :
  first_buf (k_bufs k) (is_block dev blockno) l = None ->
  first_buf (k_bufs k) is_unused (rev l) = None ->
  bget dev blockno (W k e) = Panic "bget: no buffers".
Proof.
  intros Hf Hu. unfold bget. rewrite bget_start. fold (is_block dev blockno). rewrite Hf.
  pose proof (ring_length _ _ Hring) as Hlen.
  rewrite (bind_Ret _ _ _ _ _ (buf_get_run (lockk Lbcache k) e HEAD ltac:(simpl; lia))).
  rewrite (bind_Ret _ _ _ _ _ (search_prev is_unused (lockk Lbcache k) e l Hring)).
  simpl. by rewrite Hu.
Qed.
End routines.

(** [buf_get] of a buffer of the cache. *)
Ltac k_buf_get :=
  erewrite (bind_Ret (buf_get _)); [|apply buf_get_run; simpl; rewrite ?length_alter; lia];
  simpl k_bufs.

Section more_routines.
Context `{D : Disk} {DR : DiskReads D} {p : nat} {pr : proc} {k : kernel} {l : list nat}.
Hypothesis Hcalm : calm p pr k.
Hypothesis Hring : ring (k_bufs k) l.

(** A buffer filled from the disk. *)
Definition filled (k : kernel) (x : buf) : buf :=
  set_b_valid 1 (set_b_data (disk_block k (b_blockno x)) x).
Definition fill (k : kernel) (x : buf) : buf := if truth (b_valid x) then x else filled k x.

(** [bread] after [bget] has returned [b], changed by [f]. *)
Lemma bread_from f dev blockno e b :
  (b < HEAD)%nat ->
  bget dev blockno (W k e) = Ret b (W (set_k_bufs (alter f b (k_bufs k)) k) e) ->
  bread dev blockno (W k e) =
  Ret b (W (set_k_bufs (alter (fun x => fill k (f x)) b (k_bufs k)) k) e).
Proof.
  intros Hb Hg. unfold bread. rewrite (bind_Ret _ _ _ _ _ Hg).
  pose proof (ring_length _ _ Hring) as Hlen.
  rewrite (bind_Ret _ _ _ _ _ (buf_get_run (set_k_bufs (alter f b (k_bufs k)) k) e b
    ltac:(simpl; rewrite length_alter; lia))). simpl k_bufs.
  rewrite bufat_alter, decide_True by (done || lia).
  rewrite bind_when. pose proof (bufat_lookup (k_bufs k) b ltac:(lia)) as Hx.
  destruct (truth (b_valid (f (bufat (k_bufs k) b)))) eqn:Hv; simpl.
  - unfold ret. do 3 f_equal. apply list_alter_ext; [|done]. intros x Hx'.
    rewrite Hx in Hx'. injection Hx' as <-. unfold fill. by rewrite Hv.
  - rewrite bind_assoc. destruct Hcalm.
    erewrite bind_Ret.
    2:{ apply disk_read_ok; [simpl; rewrite list_lookup_alter_eq, Hx; reflexivity|done]. }
    rewrite bind_buf_mod, !set_k_bufs_twice. unfold ret. do 3 f_equal. simpl.
    apply list_eq. intros i. destruct (decide (i = b)) as [->|Hi].
    + rewrite list_lookup_alter_eq, list_lookup_insert_eq by (rewrite length_alter; lia).
      rewrite list_lookup_alter_eq, Hx. simpl. unfold fill. by rewrite Hv.
    + by rewrite list_lookup_alter_ne, list_lookup_insert_ne, !list_lookup_alter_ne by done.
Qed.

(** A buffer after [releasesleep] and the decrement of [brelse]. *)
Definition released (x : buf) : buf :=
  set_b_refcnt (u32 (b_refcnt x - 1)) (set_b_lock (mkSleeplock 0 0) x).

Definition after_release (b : nat) (bs : list buf) : list buf :=
  let bs := alter released b bs in
  if b_refcnt (bufat bs b) =? 0 then move_front b bs else bs.

Lemma brelse_eq b e :
  (b < HEAD)%nat -> b_lock (bufat (k_bufs k) b) = mkSleeplock 1 (p_pid pr) ->
  brelse b (W k e) =
  Ret tt (W (set_k_procs (wake (Csleep (SLbuf b)) (k_cur k) (k_procs k))
    (set_k_bufs (after_release b (k_bufs k)) k)) e).
Proof.
  intros Hb Hl. pose proof (ring_length _ _ Hring) as Hlen.
  pose proof (bufat_lookup (k_bufs k) b ltac:(lia)) as Hx. pose proof Hcalm as [].
  assert (sl_look k (SLbuf b) = Some (mkSleeplock 1 (p_pid pr))) as Hlook.
  { simpl. rewrite Hx. simpl. by rewrite Hl. }
  unfold brelse.
  rewrite (bind_Ret _ _ _ _ _ (holdingsleep_eq _ _ _ _ _ _ Hlook (calm_sleep0 _) calm_cur0 calm_proc0)).
  simpl. rewrite Z.eqb_refl. simpl.
  rewrite (bind_Ret _ _ _ _ _ (releasesleep_eq _ _ _ _ Hlook (calm_sleep0 _) calm_nproc0 calm_procs0)).
  set (ps := wake _ _ _). simpl sl_put.
  erewrite (bind_Ret (acquire _)); [|by apply acquire_eq].
  rewrite bind_buf_mod. simpl k_bufs. rewrite list_alter_alter_eq.
  set (bs1 := alter _ b (k_bufs k)). assert (length bs1 = S HEAD) as L1 by (unfold bs1; by rewrite length_alter).
  set (k1 := set_k_bufs bs1 _).
  assert (k1 = set_k_bufs bs1 (lockk Lbcache (set_k_procs ps k))) as -> by reflexivity.
  rewrite (bind_Ret _ _ _ _ _ (buf_get_run (set_k_bufs bs1 _) e b ltac:(simpl; lia))).
  simpl k_bufs. rewrite bind_when.
  assert (after_release b (k_bufs k) =
    if b_refcnt (bufat bs1 b) =? 0 then move_front b bs1 else bs1) as -> by reflexivity.
  assert (forall bs, release Lbcache (W (set_k_bufs bs (lockk Lbcache (set_k_procs ps k))) e) =
    Ret tt (W (set_k_procs ps (set_k_bufs bs k)) e)) as Hrel.
  { intros bs. erewrite release_top with (h := k_held k) (n := k_noff k); done. }
  clearbody bs1. destruct (b_refcnt (bufat bs1 b) =? 0); [|apply Hrel].
  repeat first [rewrite bind_assoc | rewrite bind_buf_mod; rewrite ?set_k_bufs_twice; simpl k_bufs | k_buf_get].
  apply Hrel.
Qed.
End more_routines.

(** *** The cache as a map of blocks *)

(** Number of buffers in use. *)
Definition inuse (bs : list buf) (i : nat) : nat := if is_unused (bufat bs i) then 0 else 1.
Definition nused (bs : list buf) : nat := sum_list_with (inuse bs) (seq 0 HEAD).

(** The invariant of the cache between operations on it: every buffer belongs
    to the root device or was never used, no block has two buffers, a buffer
    nobody refers to is unlocked and, if valid, agrees with the disk. *)
Record cache_inv (k : kernel) (l : list nat) : Prop := {
  ci_ring : ring (k_bufs k) l;
  ci_ref : forall i, (i < HEAD)%nat -> 0 <= b_refcnt (bufat (k_bufs k) i) < 2 ^ 32;
  ci_dev : forall i, (i < HEAD)%nat -> b_dev (bufat (k_bufs k) i) = ROOTDEV \/
    (b_dev (bufat (k_bufs k) i) = 0 /\ b_refcnt (bufat (k_bufs k) i) = 0);
  ci_uniq : forall i j, (i < HEAD)%nat -> (j < HEAD)%nat ->
    b_dev (bufat (k_bufs k) i) = ROOTDEV -> b_dev (bufat (k_bufs k) j) = ROOTDEV ->
    b_blockno (bufat (k_bufs k) i) = b_blockno (bufat (k_bufs k) j) -> i = j;
  ci_idle : forall i, (i < HEAD)%nat -> b_refcnt (bufat (k_bufs k) i) = 0 ->
    sl_locked (b_lock (bufat (k_bufs k) i)) = 0;
  ci_clean : forall i, (i < HEAD)%nat -> b_refcnt (bufat (k_bufs k) i) = 0 ->
    b_dev (bufat (k_bufs k) i) = ROOTDEV -> b_valid (bufat (k_bufs k) i) <> 0 ->
    b_data (bufat (k_bufs k) i) = disk_block k (b_blockno (bufat (k_bufs k) i));
}.

(** The buffer of block [n], and what the cache and the disk together say of
    the block: its contents, the references to it, whether it is locked. *)
Definition slot (k : kernel) (n : Z) : option nat :=
  first_buf (k_bufs k) (is_block ROOTDEV n) (seq 0 HEAD).
Definition content (k : kernel) (n : Z) (x : buf) : list Z :=
  if truth (b_valid x) then b_data x else disk_block k n.
Definition lblk (k : kernel) (n : Z) : list Z :=
  match slot k n with Some b => content k n (bufat (k_bufs k) b) | None => disk_block k n end.
Definition lref (k : kernel) (n : Z) : Z :=
  match slot k n with Some b => b_refcnt (bufat (k_bufs k) b) | None => 0 end.
Definition llock (k : kernel) (n : Z) : Z :=
  match slot k n with Some b => sl_locked (b_lock (bufat (k_bufs k) b)) | None => 0 end.

(** [k'] differs from [k], as far as blocks are concerned, at most in block [n]. *)
Definition others_same (n : Z) (k k' : kernel) : Prop :=
  forall m, m <> n -> lblk k' m = lblk k m /\ lref k' m = lref k m /\ llock k' m = llock k m.

Lemma is_block_spec dev n x : is_block dev n x = true <-> b_dev x = dev /\ b_blockno x = n.
Proof. unfold is_block. rewrite andb_true_iff, !Z.eqb_eq. done. Qed.

Lemma first_buf_unique bs test l b :
  b ∈ l -> test (bufat bs b) = true ->
  (forall i, i ∈ l -> test (bufat bs i) = true -> i = b) -> first_buf bs test l = Some b.
Proof.
  intros Hb Ht Hu. destruct (first_buf bs test l) as [i|] eqn:E.
  - apply first_buf_in in E as [Hi Hti]. f_equal. by apply Hu.
  - pose proof (List.find_none _ _ E b) as H. rewrite list_elem_of_In in Hb.
    specialize (H Hb). simpl in H. congruence.
Qed.

Lemma first_buf_none bs test l :
  first_buf bs test l = None <-> forall b, b ∈ l -> test (bufat bs b) = false.
Proof.
  split.
  - intros H b Hb. apply (List.find_none _ _ H). by apply list_elem_of_In.
  - induction l as [|x l IH]; intros H; [done|]. unfold first_buf. simpl.
    rewrite (H x) by set_solver. apply IH. intros b Hb. apply H. set_solver.
Qed.

Lemma lblk_none k n bs : slot k n = None -> lblk k n = disk_block (set_k_bufs bs k) n.
Proof. unfold lblk. by intros ->. Qed.

Lemma is_unused_spec x : is_unused x = true -> b_refcnt x = 0.
Proof. apply Z.eqb_eq. Qed.

Lemma first_buf_split bs test l b :
  first_buf bs test l = Some b ->
  exists l1 l2, l = l1 ++ b :: l2 /\ test (bufat bs b) = true /\
    forall c, c ∈ l1 -> test (bufat bs c) = false.
Proof.
  induction l as [|x l IH]; [done|]. unfold first_buf. simpl.
  destruct (test (bufat bs x)) eqn:E.
  - intros [= ->]. exists [], l. split_and!; [done..|]. set_solver.
  - intros H. destruct (IH H) as (l1 & l2 & -> & Hb & Hl). exists (x :: l1), l2.
    split_and!; [done..|]. intros c Hc. apply elem_of_cons in Hc as [->|Hc]; auto.
Qed.

Section view.
Context {k : kernel} {l : list nat}.
Hypothesis Hinv : cache_inv k l.

Lemma slot_spec n b :
  slot k n = Some b <->
  (b < HEAD)%nat /\ b_dev (bufat (k_bufs k) b) = ROOTDEV /\ b_blockno (bufat (k_bufs k) b) = n.
Proof.
  unfold slot. split.
  - intros H. apply first_buf_in in H as [H1 H2]. apply is_block_spec in H2. apply elem_of_seq in H1.
    split; [lia|done].
  - intros (H1 & H2 & H3). apply first_buf_unique.
    + apply elem_of_seq. lia.
    + by apply is_block_spec.
    + intros i Hi Ht. apply is_block_spec in Ht as [Ht1 Ht2]. apply elem_of_seq in Hi.
      apply (ci_uniq _ _ Hinv); [lia|done..|congruence].
Qed.

Lemma slot_none n :
  slot k n = None <-> forall b, (b < HEAD)%nat -> b_dev (bufat (k_bufs k) b) = ROOTDEV ->
    b_blockno (bufat (k_bufs k) b) <> n.
Proof.
  unfold slot. rewrite first_buf_none. split.
  - intros H b Hb Hd Hn. specialize (H b ltac:(apply elem_of_seq; lia)).
    assert (is_block ROOTDEV n (bufat (k_bufs k) b) = true) by (by apply is_block_spec). congruence.
  - intros H b Hb. apply elem_of_seq in Hb. apply not_true_is_false. intros Ht.
    apply is_block_spec in Ht as [H1 H2]. by apply (H b); [lia|..].
Qed.

(** The order of the list does not matter to the search for a block. *)
Lemma first_buf_slot n : first_buf (k_bufs k) (is_block ROOTDEV n) l = slot k n.
Proof.
  pose proof (ci_ring _ _ Hinv) as Hr. destruct (slot k n) as [b|] eqn:E.
  - apply slot_spec in E as (H1 & H2 & H3). apply first_buf_unique.
    + by apply (ring_all _ _ Hr).
    + by apply is_block_spec.
    + intros i Hi Ht. apply is_block_spec in Ht as [Ht1 Ht2]. apply (ring_all _ _ Hr) in Hi.
      apply (ci_uniq _ _ Hinv); [done..|congruence].
  - apply first_buf_none. intros b Hb. apply (ring_all _ _ Hr) in Hb.
    pose proof (proj1 (slot_none n) E b Hb) as H. apply not_true_is_false. intros Ht.
    apply is_block_spec in Ht as [H1 H2]. by apply H.
Qed.
End view.

(** Counting. *)
Lemma sum_list_with_change (f g : nat -> nat) l b :
  NoDup l -> b ∈ l -> (forall i, i ∈ l -> i <> b -> f i = g i) ->
  (sum_list_with f l + g b = sum_list_with g l + f b)%nat.
Proof.
  induction l as [|x l IH]; intros Hn Hb He; [set_solver|]. apply list.NoDup_cons in Hn as [Hx Hn].
  simpl. destruct (decide (x = b)) as [->|Hxb].
  - assert (sum_list_with f l = sum_list_with g l) as ->; [|lia].
    clear IH Hb Hn. assert (forall i, i ∈ l -> f i = g i) as H.
    { intros i Hi. apply He; set_solver. }
    clear He Hx. induction l as [|y l IH]; [done|]. simpl. rewrite (H y), IH by set_solver. done.
  - rewrite (He x) by set_solver. assert (b ∈ l) as Hb' by set_solver.
    specialize (IH Hn Hb'). rewrite <- Nat.add_assoc, IH by set_solver. lia.
Qed.

Lemma unused_exists bs l :
  ring bs l -> (nused bs < HEAD)%nat -> exists b, first_buf bs is_unused (rev l) = Some b.
Proof.
  intros Hr Hu. destruct (first_buf bs is_unused (rev l)) as [b|] eqn:E; [by exists b|exfalso].
  assert (forall i, i ∈ seq 0 HEAD -> inuse bs i = 1%nat) as H.
  { intros i Hi. unfold inuse. rewrite (proj1 (first_buf_none _ _ _) E); [done|].
    apply list_elem_of_In. rewrite <- in_rev. apply list_elem_of_In. by rewrite (ring_perm _ _ Hr). }
  unfold nused in Hu. assert (sum_list_with (inuse bs) (seq 0 HEAD) = length (seq 0 HEAD)) as Hs.
  { clear -H. induction (seq 0 HEAD) as [|x xs IH]; [done|]. simpl. rewrite H, IH by set_solver. done. }
  rewrite Hs, length_seq in Hu. lia.
Qed.

(** The views and the invariant depend on the buffers and the disk alone, and
    not on the links. *)
Lemma view_frame k k' :
  (forall i, payload (bufat (k_bufs k') i) = payload (bufat (k_bufs k) i)) -> k_disk k' = k_disk k ->
  forall n, slot k' n = slot k n /\ lblk k' n = lblk k n /\ lref k' n = lref k n /\ llock k' n = llock k n.
Proof.
  intros Hp Hd n.
  assert (slot k' n = slot k n) as Hs.
  { unfold slot, first_buf. induction (seq 0 HEAD) as [|x xs IH]; [done|]. simpl. rewrite IH.
    assert (is_block ROOTDEV n (bufat (k_bufs k') x) = is_block ROOTDEV n (bufat (k_bufs k) x)) as ->; [|done].
    change (is_block ROOTDEV n (payload (bufat (k_bufs k') x)) =
            is_block ROOTDEV n (payload (bufat (k_bufs k) x))). by rewrite Hp. }
  unfold lblk, lref, llock. rewrite Hs. destruct (slot k n) as [b|].
  - specialize (Hp b). pose proof (f_equal b_refcnt Hp) as H1. pose proof (f_equal b_lock Hp) as H2.
    pose proof (f_equal b_valid Hp) as H3. pose proof (f_equal b_data Hp) as H4. simpl in *.
    unfold content, disk_block. rewrite H1, H2, H3, H4, Hd. done.
  - unfold disk_block. by rewrite Hd.
Qed.

Lemma nused_frame bs bs' :
  (forall i, payload (bufat bs' i) = payload (bufat bs i)) -> nused bs' = nused bs.
Proof.
  intros Hp. unfold nused. induction (seq 0 HEAD) as [|x xs IH]; [done|]. simpl. rewrite IH.
  f_equal. unfold inuse, is_unused. by rewrite (f_equal b_refcnt (Hp x) : b_refcnt (bufat bs' x) = _).
Qed.

Lemma cache_inv_frame k k' l l' :
  cache_inv k l -> ring (k_bufs k') l' ->
  (forall i, payload (bufat (k_bufs k') i) = payload (bufat (k_bufs k) i)) -> k_disk k' = k_disk k ->
  cache_inv k' l'.
Proof.
  intros [] Hr Hp Hd.
  assert (forall i, b_refcnt (bufat (k_bufs k') i) = b_refcnt (bufat (k_bufs k) i)) as Er
    by (intros i; exact (f_equal b_refcnt (Hp i))).
  assert (forall i, b_dev (bufat (k_bufs k') i) = b_dev (bufat (k_bufs k) i)) as Ed
    by (intros i; exact (f_equal b_dev (Hp i))).
  assert (forall i, b_blockno (bufat (k_bufs k') i) = b_blockno (bufat (k_bufs k) i)) as Eb
    by (intros i; exact (f_equal b_blockno (Hp i))).
  assert (forall i, b_lock (bufat (k_bufs k') i) = b_lock (bufat (k_bufs k) i)) as El
    by (intros i; exact (f_equal b_lock (Hp i))).
  assert (forall i, b_valid (bufat (k_bufs k') i) = b_valid (bufat (k_bufs k) i)) as Ev
    by (intros i; exact (f_equal b_valid (Hp i))).
  assert (forall i, b_data (bufat (k_bufs k') i) = b_data (bufat (k_bufs k) i)) as Ea
    by (intros i; exact (f_equal b_data (Hp i))).
  split; [done|..]; intros i; rewrite ?Er, ?Ed, ?Eb, ?El, ?Ev, ?Ea; auto.
  - intros j. rewrite ?Ed, ?Eb. auto.
  - unfold disk_block. rewrite Hd. apply ci_clean0.
Qed.

(** The process with this [pid] holds the lock of buffer [b], which has the
    contents of block [n]. *)
Record holds (pid : Z) (k : kernel) (n : Z) (b : nat) : Prop := {
  h_slot : slot k n = Some b;
  h_lock : b_lock (bufat (k_bufs k) b) = mkSleeplock 1 pid;
  h_valid : b_valid (bufat (k_bufs k) b) <> 0;
}.

(** Whoever holds a block other than [n] in [k] still does in [k']. *)
Definition keeps (n : Z) (k k' : kernel) : Prop :=
  forall pid m c, m <> n -> holds pid k m c -> holds pid k' m c.

(** Changing one buffer. *)
Section change.
Context {k : kernel} {l : list nat} (n : Z) (b : nat) (f : buf -> buf).
Hypothesis Hinv : cache_inv k l.
Hypothesis Hb : (b < HEAD)%nat.
Let x := bufat (k_bufs k) b.
Let k' := set_k_bufs (alter f b (k_bufs k)) k.
Hypothesis Hlinks : forall y, b_next (f y) = b_next y /\ b_prev (f y) = b_prev y.
(** The buffer already had block [n], or nobody used it and no other has. *)
Hypothesis Hwas : slot k n = Some b \/ (slot k n = None /\ b_refcnt x = 0).
Hypothesis Hdev : b_dev (f x) = ROOTDEV.
Hypothesis Hblk : b_blockno (f x) = n.
Hypothesis Href : 0 <= b_refcnt (f x) < 2 ^ 32.
Hypothesis Hfree : b_refcnt (f x) = 0 ->
  sl_locked (b_lock (f x)) = 0 /\ (b_valid (f x) <> 0 -> b_data (f x) = disk_block k n).

Lemma change_at i : bufat (k_bufs k') i = if decide (i = b) then f x else bufat (k_bufs k) i.
Proof using Hinv Hb.
  apply bufat_alter. rewrite (ring_length _ _ (ci_ring _ _ Hinv)). clear -Hb. lia.
Qed.

Lemma change_other i :
  (i < HEAD)%nat -> i <> b -> b_dev (bufat (k_bufs k) i) = ROOTDEV -> b_blockno (bufat (k_bufs k) i) <> n.
Proof.
  intros Hi Hib Hd Hn. destruct Hwas as [Hs|[Hs _]].
  - apply (slot_spec Hinv) in Hs as (_ & H1 & H2). apply Hib. apply (ci_uniq _ _ Hinv); congruence.
  - by apply (proj1 (slot_none n) Hs i).
Qed.

Lemma change_inv : cache_inv k' l.
Proof.
  pose proof change_at as Hat. pose proof (ci_ring _ _ Hinv) as [Hlen Hs Hn Hall]. split.
  - split; [by unfold k'; simpl; rewrite length_alter| |done|done].
    eapply seg_ext; [| |exact Hs]; intros i _; unfold nxt, prv; rewrite Hat;
      destruct (decide (i = b)) as [->|]; [apply Hlinks|done|apply Hlinks|done].
  - intros i Hi. rewrite Hat. destruct (decide (i = b)); [done|by apply (ci_ref _ _ Hinv)].
  - intros i Hi. rewrite Hat. destruct (decide (i = b)); [by left|by apply (ci_dev _ _ Hinv)].
  - intros i j Hi Hj. rewrite !Hat.
    destruct (decide (i = b)) as [->|Hib], (decide (j = b)) as [->|Hjb]; [done|..].
    + intros _ Hd. rewrite Hblk. intros E. by destruct (change_other j Hj Hjb Hd).
    + intros Hd _. rewrite Hblk. intros E. by destruct (change_other i Hi Hib Hd).
    + by apply (ci_uniq _ _ Hinv).
  - intros i Hi. rewrite Hat. destruct (decide (i = b)); [by apply Hfree|by apply (ci_idle _ _ Hinv)].
  - intros i Hi. rewrite Hat. destruct (decide (i = b)).
    + rewrite Hblk. intros H0 _ Hv. by apply Hfree.
    + by apply (ci_clean _ _ Hinv).
Qed.

Lemma change_slot : slot k' n = Some b.
Proof. apply (slot_spec change_inv). rewrite change_at, decide_True by done. done. Qed.

Lemma change_self :
  lblk k' n = content k n (f x) /\ lref k' n = b_refcnt (f x) /\ llock k' n = sl_locked (b_lock (f x)).
Proof. unfold lblk, lref, llock. rewrite change_slot, change_at, decide_True by done. done. Qed.

Lemma change_others : others_same n k k'.
Proof.
  intros m Hm. pose proof change_at as Hat. unfold lblk, lref, llock.
  destruct (slot k m) as [i|] eqn:Hs.
  - apply (slot_spec Hinv) in Hs as Hs'. destruct Hs' as (Hi & Hd & Hn).
    destruct (decide (i = b)) as [->|Hib].
    + assert (slot k' m = None) as ->.
      { apply slot_none. intros j Hj. rewrite Hat. destruct (decide (j = b)); [by rewrite Hblk|].
        intros Hdj Hnj. assert (j = b); [|done]. apply (ci_uniq _ _ Hinv); congruence. }
      destruct Hwas as [Hsn|[Hsn H0]].
      { apply (slot_spec Hinv) in Hsn as (_ & _ & H). congruence. }
      pose proof (ci_idle _ _ Hinv b Hb H0) as Hl0. fold x in Hl0 |- *. rewrite H0, Hl0.
      split_and!; [|done..].
      unfold content, truth. destruct (Z.eqb_spec (b_valid x) 0); [done|]. simpl.
      rewrite <- Hn. symmetry. by apply (ci_clean _ _ Hinv).
    + assert (slot k' m = Some i) as ->; [|by rewrite Hat, decide_False].
      apply (slot_spec change_inv). rewrite Hat, decide_False by done. done.
  - assert (slot k' m = None) as ->; [|done].
    apply slot_none. intros j Hj. rewrite Hat. destruct (decide (j = b)); [by rewrite Hblk|].
    by apply (proj1 (slot_none m) Hs j).
Qed.

Lemma change_keeps : keeps n k k'.
Proof.
  intros pid m c Hm [Hs Hl Hv]. pose proof change_at as Hat.
  apply (slot_spec Hinv) in Hs as Hs'. destruct Hs' as (Hc & Hd & Hn).
  assert (c <> b) as Hcb.
  { intros ->. destruct Hwas as [Hsn|[_ H0]].
    - apply (slot_spec Hinv) in Hsn as (_ & _ & E). congruence.
    - pose proof (ci_idle _ _ Hinv b Hb H0) as H1. rewrite Hl in H1. done. }
  split; [apply (slot_spec change_inv)|..]; rewrite Hat, decide_False by done; done.
Qed.

Lemma change_nused :
  (nused (k_bufs k') + inuse (k_bufs k) b = nused (k_bufs k) + (if is_unused (f x) then 0 else 1))%nat.
Proof using Hinv Hb.
  unfold nused. replace (if is_unused (f x) then 0 else 1)%nat with (inuse (k_bufs k') b).
  - apply sum_list_with_change; [apply NoDup_seq|apply elem_of_seq; clear -Hb; lia|].
    intros i _ Hi. unfold inuse. rewrite change_at. by rewrite decide_False.
  - unfold inuse. rewrite change_at. by rewrite decide_True.
Qed.
End change.

(** *** What the routines do to the blocks *)

(** Only block [n] changed: its contents, references and lock are now these. *)
Record at_block (n : Z) (k k' : kernel) (c : list Z) (r lk : Z) : Prop := {
  ab_blk : lblk k' n = c;
  ab_ref : lref k' n = r;
  ab_lock : llock k' n = lk;
  ab_others : others_same n k k';
  ab_keeps : keeps n k k';
}.

Lemma holds_data pid k n b : holds pid k n b -> b_data (bufat (k_bufs k) b) = lblk k n.
Proof.
  intros [Hs _ Hv]. unfold lblk, content, truth. rewrite Hs.
  by destruct (Z.eqb_spec (b_valid (bufat (k_bufs k) b)) 0).
Qed.

Lemma calm_set_bufs p pr k bs : calm p pr k -> calm p pr (set_k_bufs bs k).
Proof. by intros []. Qed.

Lemma calm_wake p pr k ch :
  calm p pr k -> calm p pr (set_k_procs (wake ch (k_cur k) (k_procs k)) k).
Proof.
  intros []. split; simpl; try done.
  - by rewrite calm_cur0, wake_self.
  - by rewrite wake_length.
Qed.

Lemma filter_ne_nat (b : nat) (h : list nat) : b ∉ h -> filter (.≠ b) h = h.
Proof.
  induction h as [|x h IH]; intros Hn; [done|]. rewrite filter_cons.
  apply not_elem_of_cons in Hn as [Hx Hh]. rewrite decide_True by done. by rewrite IH.
Qed.

Lemma after_release_ring b bs l :
  ring bs l -> (b < HEAD)%nat ->
  ring (after_release b bs)
    (if b_refcnt (released (bufat bs b)) =? 0 then b :: filter (.≠ b) l else l) /\
  (forall i, payload (bufat (after_release b bs) i) = payload (bufat (alter released b bs) i)).
Proof.
  intros Hr Hb. unfold after_release. pose proof (ring_length _ _ Hr) as Hlen.
  rewrite bufat_alter, decide_True by (done || lia).
  assert (ring (alter released b bs) l) as R1.
  { destruct Hr as [_ Hs Hn Hall]. split; [by rewrite length_alter| |done|done].
    eapply seg_ext; [| |exact Hs]; intros i _; unfold nxt, prv; rewrite bufat_alter by lia;
      by destruct (decide (i = b)) as [->|]. }
  destruct (b_refcnt (released (bufat bs b)) =? 0); [|done].
  split; [|intros; apply move_front_payload].
  assert (b ∈ l) as Hbl by (by apply (ring_all _ _ Hr)).
  apply list_elem_of_split in Hbl as (l1 & l2 & ->).
  pose proof (ring_nodup _ _ Hr) as Hnd. apply list.NoDup_cons in Hnd as [_ Hnd].
  apply list.NoDup_app in Hnd as (_ & Hnd1 & Hnd2). apply list.NoDup_cons in Hnd2 as [Hnd2 _].
  rewrite list.filter_app, filter_cons_False, !filter_ne_nat by
    (done || (intros H; apply (Hnd1 b H); set_solver) || (intros H; by apply H)).
  by apply move_front_ring.
Qed.

Lemma holds_frame pid k k' m c :
  (forall i, payload (bufat (k_bufs k') i) = payload (bufat (k_bufs k) i)) -> k_disk k' = k_disk k ->
  holds pid k m c -> holds pid k' m c.
Proof.
  intros Hp Hd [H1 H2 H3]. destruct (view_frame k k' Hp Hd m) as (Hs & _).
  split; [by rewrite Hs|..].
  - by rewrite (f_equal b_lock (Hp c) : b_lock (bufat (k_bufs k') c) = _).
  - by rewrite (f_equal b_valid (Hp c) : b_valid (bufat (k_bufs k') c) = _).
Qed.

Section specs.
Context `{D : Disk} {DR : DiskReads D} {p : nat} {pr : proc} {k : kernel} {l : list nat}.
Hypothesis Hcalm : calm p pr k.
Hypothesis Hinv : cache_inv k l.

(** The change [bread] makes to the buffer it returns, in both cases. *)
Lemma bread_change n e b f :
  (b < HEAD)%nat -> bget ROOTDEV n (W k e) = Ret b (W (set_k_bufs (alter f b (k_bufs k)) k) e) ->
  let x := bufat (k_bufs k) b in
  (forall y, b_next (f y) = b_next y /\ b_prev (f y) = b_prev y) ->
  slot k n = Some b \/ (slot k n = None /\ b_refcnt x = 0) ->
  b_dev (f x) = ROOTDEV -> b_blockno (f x) = n -> b_refcnt (f x) = lref k n + 1 ->
  b_lock (f x) = mkSleeplock 1 (p_pid pr) -> content k n (f x) = lblk k n ->
  0 < lref k n + 1 < 2 ^ 32 ->
  inuse (k_bufs k) b = (if (lref k n =? 0)%Z then 0 else 1)%nat ->
  exists bs, let k' := set_k_bufs bs k in
    bread ROOTDEV n (W k e) = Ret b (W k' e) /\ cache_inv k' l /\
    at_block n k k' (lblk k n) (lref k n + 1) 1 /\ holds (p_pid pr) k' n b /\
    nused bs = (nused (k_bufs k) + (if (lref k n =? 0)%Z then 1 else 0))%nat.
Proof.
  intros Hb Hg x Hlinks Hwas Hdev Hblk Href Hlock Hcont Hr Hin.
  pose proof (ci_ring _ _ Hinv) as Hring.
  exists (alter (fun y => fill k (f y)) b (k_bufs k)).
  set (g := fun y => fill k (f y)).
  assert (b_refcnt (g x) = lref k n + 1) as Eref by (unfold g, fill; by destruct (truth _)).
  assert (b_lock (g x) = mkSleeplock 1 (p_pid pr)) as Elock by (unfold g, fill; by destruct (truth _)).
  assert (forall y, b_next (g y) = b_next y /\ b_prev (g y) = b_prev y) as Elinks.
  { intros y. unfold g, fill. destruct (truth _); [done|apply Hlinks]. }
  assert (b_dev (g x) = ROOTDEV) as Edev by (unfold g, fill; by destruct (truth _)).
  assert (b_blockno (g x) = n) as Eblk by (unfold g, fill; by destruct (truth _)).
  assert (content k n (g x) = lblk k n) as Econt.
  { rewrite <- Hcont. unfold g, fill, content. destruct (truth (b_valid (f x))) eqn:E; [by rewrite E|].
    simpl. by rewrite Hblk. }
  assert (b_valid (g x) <> 0) as Evalid.
  { unfold g, fill. destruct (truth (b_valid (f x))) eqn:E; [|done]. unfold truth in E.
    destruct (Z.eqb_spec (b_valid (f x)) 0); done. }
  assert (b_refcnt (g x) = 0 -> sl_locked (b_lock (g x)) = 0 /\
    (b_valid (g x) <> 0 -> b_data (g x) = disk_block k n)) as Efree by lia.
  assert (0 <= b_refcnt (g x) < 2 ^ 32) as Erange by lia.
  assert (H1 := change_inv n b g Hinv Hb Elinks Hwas Edev Eblk Erange Efree).
  assert (H2 := change_slot n b g Hinv Hb Elinks Hwas Edev Eblk Erange Efree).
  destruct (change_self n b g Hinv Hb Elinks Hwas Edev Eblk Erange Efree) as (H3 & H4 & H5).
  fold x in H3, H4, H5. split; [exact (bread_from Hcalm Hring f ROOTDEV n e b Hb Hg)|].
  split; [exact H1|]. split_and!.
  - split; [by rewrite H3|by rewrite H4|by rewrite H5, Elock|..].
    + exact (change_others n b g Hinv Hb Elinks Hwas Edev Eblk Erange Efree).
    + exact (change_keeps n b g Hinv Hb Elinks Hwas Edev Eblk Erange Efree).
  - split; [exact H2|..]; rewrite (change_at b g Hinv Hb), decide_True by done; done.
  - pose proof (change_nused b g Hinv Hb) as H6. fold x in H6. simpl k_bufs in H6.
    unfold is_unused in H6. rewrite Eref, (proj2 (Z.eqb_neq (lref k n + 1) 0)) in H6 by lia.
    rewrite Hin in H6. destruct (lref k n =? 0); lia.
Qed.

(** Postcondition of [bread(ROOTDEV, n)] returning [b] in [k']. *)
Record bread_post (n : Z) (b : nat) (k' : kernel) : Prop := {
  br_inv : cache_inv k' l;
  br_block : at_block n k k' (lblk k n) (lref k n + 1) 1;
  br_holds : holds (p_pid pr) k' n b;
  br_nused : nused (k_bufs k') = (nused (k_bufs k) + (if (lref k n =? 0)%Z then 1 else 0))%nat;
}.

Lemma bread_run n e :
  llock k n = 0 -> lref k n + 1 < 2 ^ 32 -> (nused (k_bufs k) < HEAD)%nat \/ 0 < lref k n ->
  exists b bs, bread ROOTDEV n (W k e) = Ret b (W (set_k_bufs bs k) e) /\
    bread_post n b (set_k_bufs bs k).
Proof.
  intros Hl Hr Hu. pose proof (ci_ring _ _ Hinv) as Hring.
  pose proof (first_buf_slot Hinv n) as Hfs. unfold lref, llock in Hl, Hr, Hu.
  destruct (slot k n) as [b|] eqn:Hs.
  - apply (slot_spec Hinv) in Hs as Hs'. destruct Hs' as (Hb & Hd & Hn).
    pose proof (ci_ref _ _ Hinv b Hb) as Hrb.
    assert (lref k n = b_refcnt (bufat (k_bufs k) b)) as El by (unfold lref; by rewrite Hs).
    destruct (bread_change n e b (got (p_pid pr)) Hb) as (bs & H1 & H2 & H3 & H4 & H5); simpl.
    + by apply (bget_hit Hcalm Hring).
    + done.
    + by left.
    + done.
    + done.
    + rewrite El. apply u32_small. lia.
    + done.
    + unfold lblk. by rewrite Hs.
    + lia.
    + unfold inuse, is_unused. by rewrite El.
    + exists b, bs. split; [exact H1|by split].
  - destruct Hu as [Hu|Hu]; [|lia]. destruct (unused_exists _ _ Hring Hu) as [b Hfu].
    apply first_buf_in in Hfu as Hb. destruct Hb as [Hb H0].
    apply list_elem_of_In, in_rev, list_elem_of_In, (ring_all _ _ Hring) in Hb.
    apply Z.eqb_eq in H0 as H0'. assert (lref k n = 0) as El by (unfold lref; by rewrite Hs).
    destruct (bread_change n e b (recycled (p_pid pr) ROOTDEV n) Hb) as (bs & H1 & H2 & H3 & H4 & H5); simpl.
    + apply (bget_miss Hcalm Hring); [done..|]. by apply (ci_idle _ _ Hinv).
    + done.
    + by right.
    + done.
    + done.
    + by rewrite El.
    + done.
    + unfold lblk. by rewrite Hs.
    + lia.
    + unfold inuse. by rewrite H0, El.
    + exists b, bs. split; [exact H1|by split].
Qed.

(** [brelse] of a buffer whose contents are safe on disk, or pinned. *)
Record brelse_post (n : Z) (b : nat) (l' : list nat) (k' : kernel) : Prop := {
  bl_inv : cache_inv k' l';
  bl_block : at_block n k k' (lblk k n) (lref k n - 1) 0;
  bl_slot : slot k' n = Some b;
  bl_nused : (nused (k_bufs k') + (if (lref k n =? 1)%Z then 1 else 0) = nused (k_bufs k))%nat;
  bl_order : l' = if lref k n =? 1 then b :: filter (.≠ b) l else l;
}.

Lemma brelse_run n b e :
  holds (p_pid pr) k n b -> 0 < lref k n -> (lref k n = 1 -> lblk k n = disk_block k n) ->
  exists bs ps l', brelse b (W k e) = Ret tt (W (set_k_procs ps (set_k_bufs bs k)) e) /\
    woken (k_procs k) ps /\ calm p pr (set_k_procs ps (set_k_bufs bs k)) /\
    brelse_post n b l' (set_k_procs ps (set_k_bufs bs k)).
Proof.
  intros Hh Hr Hclean. pose proof Hh as [Hs Hlk Hv]. pose proof (ci_ring _ _ Hinv) as Hring.
  apply (slot_spec Hinv) in Hs as Hs'. destruct Hs' as (Hb & Hd & Hn).
  set (x := bufat (k_bufs k) b) in *.
  assert (lref k n = b_refcnt x) as El by (unfold lref; by rewrite Hs).
  pose proof (ci_ref _ _ Hinv b Hb) as Hrb. fold x in Hrb.
  assert (b_refcnt (released x) = lref k n - 1) as Er by (rewrite El; apply u32_small; lia).
  assert (b_refcnt (released x) = 0 -> sl_locked (b_lock (released x)) = 0 /\
    (b_valid (released x) <> 0 -> b_data (released x) = disk_block k n)) as Hfree.
  { rewrite Er. intros H0. split; [done|]. intros _.
    rewrite <- Hclean by lia. exact (holds_data _ _ _ _ Hh). }
  assert (forall y, b_next (released y) = b_next y /\ b_prev (released y) = b_prev y) as Hlinks by done.
  assert (0 <= b_refcnt (released x) < 2 ^ 32) as Hrange by lia.
  set (k1 := set_k_bufs (alter released b (k_bufs k)) k).
  assert (cache_inv k1 l) as I1 by (apply (change_inv n); auto).
  assert (slot k1 n = Some b) as S1 by (eapply change_slot; eauto).
  destruct (change_self n b released Hinv Hb Hlinks (or_introl Hs) Hd Hn Hrange Hfree) as (V1 & V2 & V3).
  pose proof (change_others n b released Hinv Hb Hlinks (or_introl Hs) Hd Hn Hrange Hfree) as V4.
  pose proof (change_keeps n b released Hinv Hb Hlinks (or_introl Hs) Hd Hn Hrange Hfree) as V6.
  pose proof (change_nused b released Hinv Hb) as V5. fold k1 x in V1, V2, V3, V4, V5, V6.
  destruct (after_release_ring b (k_bufs k) l Hring Hb) as [R2 P2].
  fold x in R2. rewrite Er in R2. set (l' := if lref k n - 1 =? 0 then _ else _) in R2.
  set (k2 := set_k_procs (wake (Csleep (SLbuf b)) (k_cur k) (k_procs k))
    (set_k_bufs (after_release b (k_bufs k)) k)).
  pose proof (view_frame k1 k2 P2 eq_refl) as VF.
  exists (after_release b (k_bufs k)), (wake (Csleep (SLbuf b)) (k_cur k) (k_procs k)), l'.
  split; [exact (brelse_eq Hcalm Hring b e Hb Hlk)|]. split; [apply woken_wake|].
  split; [exact (calm_wake _ _ (set_k_bufs _ k) _ (calm_set_bufs _ _ _ _ Hcalm))|]. fold k2.
  assert ((lref k n - 1 =? 0) = (lref k n =? 1)) as E1.
  { destruct (Z.eqb_spec (lref k n) 1), (Z.eqb_spec (lref k n - 1) 0); done || lia. }
  split.
  - by apply (cache_inv_frame k1 k2 l).
  - destruct (VF n) as (_ & W1 & W2 & W3). split.
    + rewrite W1, V1. unfold lblk. by rewrite Hs.
    + by rewrite W2, V2.
    + by rewrite W3, V3.
    + intros m Hm. destruct (VF m) as (_ & -> & -> & ->). by apply V4.
    + intros pid m c Hm Hc. exact (holds_frame _ k1 k2 m c P2 eq_refl (V6 pid m c Hm Hc)).
  - by rewrite (proj1 (VF n)).
  - simpl k_bufs. rewrite (nused_frame _ _ P2). unfold inuse, is_unused in V5. fold x in V5. simpl k_bufs in V5.
    rewrite Er, <- El, E1, (proj2 (Z.eqb_neq (lref k n) 0)) in V5 by lia.
    destruct (lref k n =? 1); lia.
  - unfold l'. by rewrite E1.
Qed.
End specs.

(** Changing a buffer somebody refers to, but not which block it holds. *)
Lemma touch_run k l n b f :
  cache_inv k l -> slot k n = Some b -> 0 < lref k n ->
  (forall y, b_next (f y) = b_next y /\ b_prev (f y) = b_prev y /\
    b_dev (f y) = b_dev y /\ b_blockno (f y) = b_blockno y) ->
  let x := f (bufat (k_bufs k) b) in
  let k' := set_k_bufs (alter f b (k_bufs k)) k in
  0 < b_refcnt x < 2 ^ 32 ->
  cache_inv k' l /\ at_block n k k' (content k n x) (b_refcnt x) (sl_locked (b_lock x)) /\
  slot k' n = Some b /\ bufat (k_bufs k') b = x /\ nused (k_bufs k') = nused (k_bufs k).
Proof.
  intros Hinv Hs H0 Hid x k' Hr. apply (slot_spec Hinv) in Hs as Hs'. destruct Hs' as (Hb & Hd & Hn).
  assert (lref k n = b_refcnt (bufat (k_bufs k) b)) as El by (unfold lref; by rewrite Hs).
  assert (forall y, b_next (f y) = b_next y /\ b_prev (f y) = b_prev y) as Hlinks
    by (intros y; destruct (Hid y) as (? & ? & _); done).
  destruct (Hid (bufat (k_bufs k) b)) as (_ & _ & Hd' & Hn'). rewrite Hd in Hd'. rewrite Hn in Hn'.
  assert (0 <= b_refcnt x < 2 ^ 32) as Hrange by lia.
  assert (b_refcnt x = 0 -> sl_locked (b_lock x) = 0 /\
    (b_valid x <> 0 -> b_data x = disk_block k n)) as Hfree by lia.
  destruct (change_self n b f Hinv Hb Hlinks (or_introl Hs) Hd' Hn' Hrange Hfree) as (V1 & V2 & V3).
  pose proof (change_nused b f Hinv Hb) as V5. fold k' x in V1, V2, V3, V5. split_and!.
  - exact (change_inv n b f Hinv Hb Hlinks (or_introl Hs) Hd' Hn' Hrange Hfree).
  - split; [done|done|done|..].
    + exact (change_others n b f Hinv Hb Hlinks (or_introl Hs) Hd' Hn' Hrange Hfree).
    + exact (change_keeps n b f Hinv Hb Hlinks (or_introl Hs) Hd' Hn' Hrange Hfree).
  - exact (change_slot n b f Hinv Hb Hlinks (or_introl Hs) Hd' Hn' Hrange Hfree).
  - unfold k'. rewrite (change_at b f Hinv Hb). by rewrite decide_True.
  - unfold inuse, is_unused in V5.
    rewrite (proj2 (Z.eqb_neq (b_refcnt x) 0)), (proj2 (Z.eqb_neq (b_refcnt (bufat _ _)) 0)) in V5 by lia.
    lia.
Qed.

(** Storing in a buffer that is held. *)
Lemma store_run k l pid n b d :
  cache_inv k l -> holds pid k n b -> 0 < lref k n ->
  let k' := set_k_bufs (alter (set_b_data d) b (k_bufs k)) k in
  cache_inv k' l /\ at_block n k k' d (lref k n) (llock k n) /\ holds pid k' n b /\
  nused (k_bufs k') = nused (k_bufs k).
Proof.
  intros Hinv [Hs Hlk Hv] Hr k'. apply (slot_spec Hinv) in Hs as Hs'. destruct Hs' as (Hb & _).
  assert (lref k n = b_refcnt (bufat (k_bufs k) b)) as El by (unfold lref; by rewrite Hs).
  pose proof (ci_ref _ _ Hinv b Hb) as Hrange.
  destruct (touch_run k l n b (set_b_data d) Hinv Hs Hr) as (H1 & H2 & H3 & H4 & H5);
    [done|simpl; lia|]. fold k' in H1, H2, H3, H4, H5. split_and!; [done| | |done].
  - destruct H2 as [V1 V2 V3 V4 V5]. split; [|by rewrite V2|by rewrite V3; unfold llock; rewrite Hs|done..].
    rewrite V1. unfold content, truth. simpl. by destruct (Z.eqb_spec (b_valid (bufat (k_bufs k) b)) 0).
  - split; [done|by rewrite H4|by rewrite H4].
Qed.

(** A write to the disk of a buffer that is held. *)
Lemma disk_store_run k l pid n b :
  cache_inv k l -> holds pid k n b ->
  let k' := set_k_disk (<[n := b_data (bufat (k_bufs k) b)]> (k_disk k)) k in
  cache_inv k' l /\ at_block n k k' (lblk k n) (lref k n) (llock k n) /\ holds pid k' n b /\
  (forall m, disk_block k' m = if decide (m = n) then lblk k n else disk_block k m).
Proof.
  intros Hinv Hh k'. pose proof Hh as [Hs Hlk Hv]. pose proof (holds_data _ _ _ _ Hh) as Hdat.
  apply (slot_spec Hinv) in Hs as Hs'. destruct Hs' as (Hb & Hd & Hn).
  assert (forall m, disk_block k' m = if decide (m = n) then lblk k n else disk_block k m) as Hdb.
  { intros m. unfold disk_block, k'. simpl. destruct (decide (m = n)) as [->|Hm].
    - by rewrite lookup_insert_eq.
    - by rewrite lookup_insert_ne. }
  split_and!; [| |by split|done].
  - destruct Hinv. split; try done. simpl. intros i Hi H0 Hdi Hvi. rewrite Hdb.
    destruct (decide (b_blockno (bufat (k_bufs k) i) = n)) as [E|E]; [|by apply ci_clean0].
    assert (i = b) as -> by (apply ci_uniq0; congruence). done.
  - split; [|done|done|..].
    + unfold lblk. change (slot k' n) with (slot k n). rewrite Hs. unfold content, truth.
      change (bufat (k_bufs k') b) with (bufat (k_bufs k) b).
      by destruct (Z.eqb_spec (b_valid (bufat (k_bufs k) b)) 0).
    + intros m Hm. split; [|done]. unfold lblk. change (slot k' m) with (slot k m).
      destruct (slot k m); unfold content; rewrite Hdb, decide_False by done; done.
    + intros pid' m c Hm [H1 H2 H3]. by split.
Qed.

Section writes.
Context `{D : Disk} {DW : DiskWrites D} {p : nat} {pr : proc} {k : kernel} {l : list nat}.
Hypothesis Hcalm : calm p pr k.
Hypothesis Hinv : cache_inv k l.

Lemma held_run n b e :
  holds (p_pid pr) k n b -> holdingsleep (SLbuf b) (W k e) = Ret true (W k e).
Proof.
  intros [Hs Hlk Hv]. apply (slot_spec Hinv) in Hs as (Hb & Hd & Hn). destruct Hcalm.
  rewrite (holdingsleep_eq (SLbuf b) _ _ (mkSleeplock 1 (p_pid pr)) p pr); [|simpl|done..].
  - simpl. by rewrite Z.eqb_refl.
  - simpl. rewrite bufat_lookup, <- Hlk by (rewrite (ring_length _ _ (ci_ring _ _ Hinv)); lia). done.
Qed.

Lemma bwrite_eq n b e :
  holds (p_pid pr) k n b ->
  bwrite b (W k e) = Ret tt (W (set_k_disk (<[n := b_data (bufat (k_bufs k) b)]> (k_disk k)) k) e).
Proof.
  intros Hh. unfold bwrite. rewrite (bind_Ret _ _ _ _ _ (held_run n b e Hh)). simpl.
  destruct Hh as [Hs Hlk Hv]. apply (slot_spec Hinv) in Hs as (Hb & Hd & Hn). destruct Hcalm.
  rewrite (disk_write_ok b k e (bufat (k_bufs k) b)); [|by apply bufat_lookup;
    rewrite (ring_length _ _ (ci_ring _ _ Hinv)); lia|done]. by rewrite Hn.
Qed.

(** Pinning and unpinning a block change its reference count alone. *)
Lemma repin_run n b (r : Z) :
  slot k n = Some b -> 0 < r < 2 ^ 32 -> 0 < lref k n ->
  let k' := set_k_bufs (alter (set_b_refcnt r) b (k_bufs k)) k in
  cache_inv k' l /\ at_block n k k' (lblk k n) r (llock k n) /\
  (forall pid, holds pid k n b -> holds pid k' n b) /\ nused (k_bufs k') = nused (k_bufs k).
Proof.
  intros Hs Hr H0 k'.
  destruct (touch_run k l n b (set_b_refcnt r) Hinv Hs H0) as (H1 & H2 & H3 & H4 & H5);
    [done|done|]. fold k' in H1, H2, H3, H4, H5. split_and!; [done| | |done].
  - destruct H2 as [V1 V2 V3 V4 V5]. split; [|done|by rewrite V3; unfold llock; rewrite Hs|done..].
    rewrite V1. unfold lblk. by rewrite Hs.
  - intros pid [_ Hlk Hv]. split; [done|by rewrite H4|by rewrite H4].
Qed.

Lemma locked_buf_mod f b e :
  (acquire Lbcache ;;; buf_mod b f ;;; release Lbcache) (W k e) =
  Ret tt (W (set_k_bufs (alter f b (k_bufs k)) k) e).
Proof. destruct Hcalm. k_acquire. rewrite bind_buf_mod. k_release. by destruct k. Qed.

Lemma pin_eq n b (d : Z) e :
  slot k n = Some b -> 0 <= lref k n + d < 2 ^ 32 ->
  (acquire Lbcache ;;; buf_mod b (fun x => set_b_refcnt (u32 (b_refcnt x + d)) x) ;;;
   release Lbcache) (W k e) =
  Ret tt (W (set_k_bufs (alter (set_b_refcnt (lref k n + d)) b (k_bufs k)) k) e).
Proof.
  intros Hs Hr. rewrite locked_buf_mod. do 3 f_equal. apply list_alter_ext; [|done].
  intros x Hx. f_equal. unfold lref in *. rewrite Hs in *. unfold bufat in *. rewrite Hx in *.
  by apply u32_small.
Qed.

Lemma bpin_eq n b e :
  slot k n = Some b -> 0 <= lref k n + 1 < 2 ^ 32 ->
  bpin b (W k e) = Ret tt (W (set_k_bufs (alter (set_b_refcnt (lref k n + 1)) b (k_bufs k)) k) e).
Proof. apply pin_eq. Qed.

Lemma bunpin_eq n b e :
  slot k n = Some b -> 0 <= lref k n - 1 < 2 ^ 32 ->
  bunpin b (W k e) = Ret tt (W (set_k_bufs (alter (set_b_refcnt (lref k n - 1)) b (k_bufs k)) k) e).
Proof. apply (pin_eq n b (-1)). Qed.
End writes.

(** *** binit *)

Definition zeroed (bs : list buf) : Prop :=
  length bs = S HEAD /\ forall i, (i < HEAD)%nat -> payload (bufat bs i) = payload buf0.

(** One turn of [binit]'s loop. *)
Lemma binit_step k e b :
  length (k_bufs k) = S HEAD -> (b < HEAD)%nat ->
  (let* h := buf_get HEAD in
   buf_mod b (set_b_next (b_next h)) ;;;
   buf_mod b (set_b_prev HEAD) ;;;
   initsleeplock (SLbuf b) ;;;
   let* h := buf_get HEAD in
   buf_mod (b_next h) (set_b_prev b) ;;;
   buf_mod HEAD (set_b_next b)) (W k e) =
  Ret tt (W (set_k_bufs (push_buf b (alter (set_b_lock sleeplock0) b (k_bufs k))) k) e).
Proof.
  intros Hlen Hb. k_buf_get. rewrite !bind_buf_mod, set_k_bufs_twice. simpl k_bufs.
  unfold initsleeplock, sl_set. rewrite bind_buf_mod, set_k_bufs_twice. simpl k_bufs. k_buf_get.
  rewrite bind_buf_mod, set_k_bufs_twice. unfold buf_mod, kmod. do 2 f_equal. simpl wk. simpl wenv.
  rewrite set_k_bufs_twice. simpl k_bufs. unfold push_buf.
  rewrite !(list_alter_alter_eq _ _ _ b).
  assert (nxt (alter (set_b_lock sleeplock0) b (k_bufs k)) HEAD = nxt (k_bufs k) HEAD) as ->.
  { unfold nxt. rewrite bufat_alter, decide_False by lia. done. }
  reflexivity.
Qed.

Lemma push_zeroed b bs :
  zeroed bs -> (b < HEAD)%nat -> zeroed (push_buf b (alter (set_b_lock sleeplock0) b bs)).
Proof.
  intros [Hlen Hz] Hb. split.
  - unfold push_buf. by rewrite !length_alter.
  - intros i Hi. unfold push_buf. rewrite !payload_alter by done.
    rewrite bufat_alter by lia. destruct (decide (i = b)) as [->|]; [|by apply Hz].
    specialize (Hz b Hb). change (set_b_lock sleeplock0 (payload (bufat bs b)) = payload buf0).
    by rewrite Hz.
Qed.

Lemma binit_run k e :
  k_bufs k = replicate (S HEAD) buf0 -> Lbcache ∉ k_held k ->
  exists bs, binit (W k e) = Ret tt (W (set_k_bufs bs k) e) /\
    ring bs (rev (seq 0 HEAD)) /\ zeroed bs.
Proof.
  intros Hz Hh. unfold binit, initlock. rewrite bind_kmod.
  rewrite (filter_ne_notin _ _ Hh).
  assert (set_k_held (k_held k) k = k) as -> by (by destruct k).
  rewrite !bind_buf_mod, set_k_bufs_twice. simpl k_bufs. rewrite Hz.
  set (bs0 := alter _ HEAD (alter _ HEAD _)).
  assert (length bs0 = S HEAD) as L0 by (unfold bs0; by rewrite !length_alter, length_replicate).
  destruct (for_all_runs
    (fun j w => exists bs, w = W (set_k_bufs bs k) e /\ zeroed bs /\
       seg (nxt bs) (prv bs) HEAD (rev (seq 0 (Z.to_nat j))) HEAD)
    (fun i => let b := Z.to_nat i in
       let* h := buf_get HEAD in
       buf_mod b (set_b_next (b_next h)) ;;;
       buf_mod b (set_b_prev HEAD) ;;;
       initsleeplock (SLbuf b) ;;;
       let* h := buf_get HEAD in
       buf_mod (b_next h) (set_b_prev b) ;;;
       buf_mod HEAD (set_b_next b)) (Z.to_nat NBUF) 0 (W (set_k_bufs bs0 k) e))
    as (u & w' & Hrun & bs & Hw & Hzb & Hs).
  - exists bs0. split; [done|]. split; [split; [done|]|].
    + intros i Hi. unfold bs0. rewrite !payload_alter by done. unfold bufat.
      rewrite lookup_replicate_2 by lia. done.
    + simpl. unfold nxt, prv, bs0.
      rewrite !bufat_alter, !decide_True by (done || rewrite ?length_alter, ?length_replicate; lia). done.
  - intros j w Hj (bs & -> & Hzb & Hs). assert (Z.to_nat j < HEAD)%nat as Hb by (unfold HEAD; lia).
    eapply runs_eq; [apply binit_step; [apply Hzb|done]|]. eexists. split; [done|].
    split; [by apply push_zeroed|]. destruct Hzb as [Hlen _].
    replace (Z.to_nat (j + 1)) with (S (Z.to_nat j)) by lia.
    rewrite seq_S, rev_app_distr. simpl.
    assert (forall x, x ∈ rev (seq 0 (Z.to_nat j)) -> (x < Z.to_nat j)%nat) as Hin.
    { intros x Hx. apply list_elem_of_In, in_rev, list_elem_of_In, elem_of_seq in Hx. lia. }
    apply push_buf_seg.
    + by rewrite length_alter.
    + eapply seg_ext; [| |exact Hs]; intros x _; unfold nxt, prv; rewrite bufat_alter by lia;
        by destruct (decide (x = Z.to_nat j)) as [->|].
    + apply list.NoDup_cons. split; [intros Hx; apply Hin in Hx; lia|].
      rewrite <- Permutation_rev. apply NoDup_seq.
    + intros x Hx. apply Hin in Hx. lia.
    + intros Hx. apply Hin in Hx. lia.
    + done.
  - exists bs. split; [destruct u; rewrite Hw in Hrun; exact Hrun|]. split; [|done].
    split; [apply Hzb|exact Hs| |].
    + apply list.NoDup_cons. rewrite <- Permutation_rev. split; [|apply NoDup_seq].
      rewrite elem_of_seq. lia.
    + intros i. rewrite <- Permutation_rev, elem_of_seq. lia.
Qed.

Lemma zeroed_inv k l : ring (k_bufs k) l -> zeroed (k_bufs k) -> cache_inv k l /\ nused (k_bufs k) = 0%nat.
Proof.
  intros Hr [_ Hz].
  assert (forall i, (i < HEAD)%nat -> b_refcnt (bufat (k_bufs k) i) = 0 /\ b_dev (bufat (k_bufs k) i) = 0 /\
    sl_locked (b_lock (bufat (k_bufs k) i)) = 0) as H.
  { intros i Hi. specialize (Hz i Hi). split_and!.
    - exact (f_equal b_refcnt Hz).
    - exact (f_equal b_dev Hz).
    - exact (f_equal (fun x => sl_locked (b_lock x)) Hz). }
  split.
  - split; [done|..].
    + intros i Hi. destruct (H i Hi) as (-> & _). lia.
    + intros i Hi. destruct (H i Hi) as (-> & -> & _). by right.
    + intros i j Hi Hj Hd. destruct (H i Hi) as (_ & E & _). rewrite E in Hd. done.
    + intros i Hi _. apply (H i Hi).
    + intros i Hi _ Hd. destruct (H i Hi) as (_ & E & _). rewrite E in Hd. done.
  - unfold nused. assert (forall i, i ∈ seq 0 HEAD -> inuse (k_bufs k) i = 0%nat) as Hi.
    { intros i Hi. apply elem_of_seq in Hi. unfold inuse, is_unused.
      destruct (H i ltac:(lia)) as (-> & _). done. }
    induction (seq 0 HEAD) as [|x xs IH]; [done|]. simpl. rewrite Hi, IH by set_solver. done.
Qed.

(** ** Properties *)

(** C25: [bread] returns a buffer, locked by the caller, that holds the current
    contents of the block -- from the cache if the block is there, else from
    the disk -- takes one reference to it, and changes the contents,
    references and locks of no other block. *)
Theorem bread_returns_contents `{D : Disk} {DR : DiskReads D} p pr k l n e :
  calm p pr k -> cache_inv k l -> llock k n = 0 -> lref k n + 1 < 2 ^ 32 ->
  (nused (k_bufs k) < HEAD)%nat \/ 0 < lref k n ->
  exists b bs, let k' := set_k_bufs bs k in
    bread ROOTDEV n (W k e) = Ret b (W k' e) /\
    b_data (bufat bs b) = lblk k n /\ b_lock (bufat bs b) = mkSleeplock 1 (p_pid pr) /\
    lref k' n = lref k n + 1 /\ (forall m, lblk k' m = lblk k m) /\
    (forall m, m <> n -> lref k' m = lref k m /\ llock k' m = llock k m) /\
    cache_inv k' l.
Proof.
  intros Hc Hi Hl Hr Hu. destruct (bread_run Hc Hi n e Hl Hr Hu) as (b & bs & Hrun & [H1 [B1 B2 B3 B4 _] H3 H4]).
  exists b, bs. split_and!; [done| |apply H3|done| | |done].
  - rewrite <- B1. exact (holds_data _ _ _ _ H3).
  - intros m. destruct (decide (m = n)) as [->|Hm]; [done|by apply B4].
  - intros m Hm. by destruct (B4 m Hm) as (_ & ? & ?).
Qed.

(** C26: when the block is not cached, [bget] recycles the least recently used
    buffer that nobody refers to -- every buffer used less recently is
    referred to -- and panics exactly when there is no such buffer. *)
Theorem bget_recycles_lru p pr k l n e :
  calm p pr k -> cache_inv k l -> slot k n = None ->
  (exists l1 b l2 bs, l = l1 ++ b :: l2 /\ b_refcnt (bufat (k_bufs k) b) = 0 /\
     (forall c, c ∈ l2 -> b_refcnt (bufat (k_bufs k) c) <> 0) /\
     bget ROOTDEV n (W k e) = Ret b (W (set_k_bufs bs k) e) /\
     slot (set_k_bufs bs k) n = Some b /\ b_valid (bufat bs b) = 0 /\ b_refcnt (bufat bs b) = 1) \/
  ((forall i, (i < HEAD)%nat -> b_refcnt (bufat (k_bufs k) i) <> 0) /\
   bget ROOTDEV n (W k e) = Panic "bget: no buffers").
Proof.
  intros Hc Hi Hs. pose proof (ci_ring _ _ Hi) as Hring. pose proof (ring_length _ _ Hring) as Hlen.
  pose proof (first_buf_slot Hi n) as Hf. rewrite Hs in Hf.
  destruct (first_buf (k_bufs k) is_unused (rev l)) as [b|] eqn:Hu.
  - left. destruct (first_buf_split _ _ _ _ Hu) as (l1 & l2 & El & Hb & Hl1).
    apply Z.eqb_eq in Hb. exists (rev l2), b, (rev l1), (alter (recycled (p_pid pr) ROOTDEV n) b (k_bufs k)).
    assert (l = rev l2 ++ b :: rev l1) as E.
    { rewrite <- (rev_involutive l), El, rev_app_distr. simpl. by rewrite <- app_assoc. }
    assert (b < HEAD)%nat as HbH by (apply (ring_all _ _ Hring); rewrite E; set_solver).
    split_and!.
    + exact E.
    + done.
    + intros c Hin. apply list_elem_of_In, in_rev, list_elem_of_In in Hin.
      specialize (Hl1 c Hin). by apply Z.eqb_neq in Hl1.
    + apply (bget_miss Hc Hring); [done..|]. by apply (ci_idle _ _ Hi).
    + eapply (change_slot (k := k) n b (recycled (p_pid pr) ROOTDEV n)); eauto; simpl; lia.
    + rewrite bufat_alter, decide_True by (done || lia). done.
    + rewrite bufat_alter, decide_True by (done || lia). done.
  - right. split; [|by apply (bget_full Hc Hring)].
    intros i Hlt. apply Z.eqb_neq, (proj1 (first_buf_none _ _ _) Hu).
    apply list_elem_of_In. rewrite <- in_rev. apply list_elem_of_In. by apply (ring_all _ _ Hring).
Qed.

(** [brelse] drops the caller's lock and one reference and changes the
    contents of no block; when the last reference goes the buffer becomes the
    most recently used one, and otherwise the order stays. *)
Theorem brelse_keeps_contents p pr k l n b e :
  calm p pr k -> cache_inv k l -> holds (p_pid pr) k n b ->
  0 < lref k n -> (lref k n = 1 -> lblk k n = disk_block k n) ->
  exists k', brelse b (W k e) = Ret tt (W k' e) /\
    (forall m, lblk k' m = lblk k m) /\ (forall m, m <> n -> lref k' m = lref k m /\ llock k' m = llock k m) /\
    lref k' n = lref k n - 1 /\ llock k' n = 0 /\
    cache_inv k' (if lref k n =? 1 then b :: filter (.≠ b) l else l).
Proof.
  intros Hc Hi Hh Hr Hcl. destruct (brelse_run Hc Hi n b e Hh Hr Hcl)
    as (bs & ps & l' & Hrun & _ & _ & [H1 [B1 B2 B3 B4 _] H3 H4 H5]).
  eexists. split_and!; [exact Hrun| | |done|done|by rewrite <- H5].
  - intros m. destruct (decide (m = n)) as [->|Hm]; [done|by apply B4].
  - intros m Hm. by destruct (B4 m Hm) as (_ & ? & ?).
Qed.

(** [binit] turns the zeroed buffers the loader leaves into a cache: all
    [NBUF] buffers on the list, the last one first, none in use, and every
    block's contents those of the disk. *)
Theorem binit_establishes_cache k e :
  k_bufs k = replicate (S HEAD) buf0 -> Lbcache ∉ k_held k ->
  exists bs, let k' := set_k_bufs bs k in
    binit (W k e) = Ret tt (W k' e) /\ cache_inv k' (rev (seq 0 HEAD)) /\
    nused bs = 0%nat /\ forall n, lblk k' n = disk_block k n /\ lref k' n = 0 /\ llock k' n = 0.
Proof.
  intros Hz Hh. destruct (binit_run k e Hz Hh) as (bs & Hrun & Hring & Hzb). exists bs.
  destruct (zeroed_inv (set_k_bufs bs k) _ Hring Hzb) as [Hi Hu].
  split_and!; [done..|]. intros n. unfold lblk, lref, llock.
  assert (slot (set_k_bufs bs k) n = None) as ->; [|done].
  apply slot_none. intros b Hb Hd. exfalso. destruct Hzb as [_ Hz'].
  pose proof (f_equal b_dev (Hz' b Hb)) as H. simpl in H. simpl in Hd. by rewrite H in Hd.
Qed.

(** ** Examples *)

(** The state a routine leaves. *)
Definition after {A} (m : K A) (k : kernel) : kernel :=
  match m (W k []) with Ret _ w => wk w | _ => k end.

Lemma after_eq {A} (m : K A) k a k' : m (W k []) = Ret a (W k' []) -> after m k = k'.
Proof. unfold after. by intros ->. Qed.

(** Process 1 with pid 2 runs, block 7 of the disk holds ones. *)
Definition sample_bproc : proc := set_p_pid 2 (set_p_state RUNNING proc0).
Definition sample_boot : kernel :=
  set_k_cur (Some 1%nat) (set_k_procs (<[1%nat := sample_bproc]> (k_procs kernel0))
    (set_k_disk {[7 := replicate (Z.to_nat BSIZE) 1]} kernel0)).
Definition sample_bio : kernel := after binit sample_boot.

Lemma sample_bio_ok :
  calm 1 sample_bproc sample_bio /\ cache_inv sample_bio (rev (seq 0 HEAD)) /\
  nused (k_bufs sample_bio) = 0%nat /\ forall n, slot sample_bio n = None.
Proof.
  destruct (binit_run sample_boot [] eq_refl) as (bs & Hrun & Hring & Hz); [apply not_elem_of_nil|].
  unfold sample_bio. rewrite (after_eq _ _ _ _ Hrun).
  destruct (zeroed_inv (set_k_bufs bs sample_boot) _ Hring Hz) as [Hi Hu].
  split; [|split; [exact Hi|split; [exact Hu|]]].
  - split; [reflexivity|reflexivity|reflexivity|intros; apply not_elem_of_nil..].
  - intros n. apply slot_none. intros b Hb Hd. destruct Hz as [_ Hz].
    pose proof (f_equal b_dev (Hz b Hb)) as H. simpl in H. simpl in Hd. by rewrite H in Hd.
Qed.

Lemma bread_returns_contents_witness :
  exists b bs, bread (D := sync_disk) ROOTDEV 7 (W sample_bio []) = Ret b (W (set_k_bufs bs sample_bio) []) /\
    b_data (bufat bs b) = lblk sample_bio 7.
Proof.
  destruct sample_bio_ok as (Hc & Hi & Hu & Hs).
  assert (lref sample_bio 7 = 0 /\ llock sample_bio 7 = 0) as [E1 E2]
    by (unfold lref, llock; rewrite !Hs; split; reflexivity).
  destruct (bread_returns_contents (D := sync_disk) 1 sample_bproc sample_bio _ 7 [] Hc Hi E2)
    as (b & bs & H1 & H2 & _).
  - rewrite E1. reflexivity.
  - left. rewrite Hu. apply Nat.ltb_lt. reflexivity.
  - exists b, bs. split; [exact H1|exact H2].
Defined.

Lemma bget_recycles_lru_witness :
  exists b bs, bget ROOTDEV 7 (W sample_bio []) = Ret b (W (set_k_bufs bs sample_bio) []) /\
    b_refcnt (bufat (k_bufs sample_bio) b) = 0.
Proof.
  destruct sample_bio_ok as (Hc & Hi & Hu & Hs).
  destruct (bget_recycles_lru 1 sample_bproc sample_bio _ 7 [] Hc Hi (Hs 7))
    as [(l1 & b & l2 & bs & _ & H0 & _ & Hr & _)|[Hall _]].
  - exists b, bs. split; [exact Hr|exact H0].
  - exfalso. destruct (unused_exists _ _ (ci_ring _ _ Hi)) as [b Hb].
    + rewrite Hu. apply Nat.ltb_lt. reflexivity.
    + apply first_buf_in in Hb as [Hb Ht].
      apply list_elem_of_In, in_rev, list_elem_of_In, (ring_all _ _ (ci_ring _ _ Hi)) in Hb.
      exact (Hall b Hb (is_unused_spec _ Ht)).
Defined.

Lemma brelse_keeps_contents_witness :
  exists k b k', holds 2 k 7 b /\ brelse b (W k []) = Ret tt (W k' []) /\ lblk k' 7 = lblk k 7.
Proof.
  destruct sample_bio_ok as (Hc & Hi & Hu & Hs).
  assert (lref sample_bio 7 = 0 /\ llock sample_bio 7 = 0) as [E1 E2]
    by (unfold lref, llock; rewrite !Hs; split; reflexivity).
  destruct (bread_run (D := sync_disk) Hc Hi 7 []) as (b & bs & _ & [P1 [B1 B2 _ _ _] P3 _]).
  - exact E2.
  - rewrite E1. reflexivity.
  - left. rewrite Hu. apply Nat.ltb_lt. reflexivity.
  - set (k := set_k_bufs bs sample_bio) in *.
    destruct (brelse_keeps_contents 1 sample_bproc k _ 7 b [] (calm_set_bufs _ _ _ _ Hc) P1 P3)
      as (k' & H1 & H2 & _).
    + rewrite B2, E1. reflexivity.
    + intros _. rewrite B1. exact (lblk_none _ 7 bs (Hs 7)).
    + exists k, b, k'. split; [exact P3|]. split; [exact H1|apply H2].
Defined.

Lemma binit_establishes_cache_witness :
  exists bs, binit (W sample_boot []) = Ret tt (W (set_k_bufs bs sample_boot) []) /\ nused bs = 0%nat.
Proof.
  destruct (binit_establishes_cache sample_boot [] eq_refl) as (bs & H1 & _ & H2 & _).
  - apply not_elem_of_nil.
  - exists bs. split; [exact H1|exact H2].
Defined.
