(* ===== verification/Virtio.v ===== *)
(** * virtio_disk.c: the disk driver

    The descriptors, the rings and the driver's book-keeping are the fields of
    [k_vdisk]; the device's registers are reached through [mmio_load] and
    [mmio_store].  The device works while the driver sleeps; what it does there
    is a parameter, with the behaviour that section 5.2 of the virtio
    specification documents as hypothesis.  With such a device, the driver is
    proved to do what the synchronous disk of [Bio] does. *)

From Stdlib Require Import ZArith Lia.
From stdpp Require Import base gmap list strings numbers.
From S2P Require Import Prelude Riscv State Klib Sched Bio.

(** ** Definitions *)

(** virtio.h *)
Definition VIRTIO_MMIO_MAGIC_VALUE : Z := 0x000.
Definition VIRTIO_MMIO_VERSION : Z := 0x004.
Definition VIRTIO_MMIO_DEVICE_ID : Z := 0x008.
Definition VIRTIO_MMIO_VENDOR_ID : Z := 0x00c.
Definition VIRTIO_MMIO_DEVICE_FEATURES : Z := 0x010.
Definition VIRTIO_MMIO_DRIVER_FEATURES : Z := 0x020.
Definition VIRTIO_MMIO_GUEST_PAGE_SIZE : Z := 0x028.
Definition VIRTIO_MMIO_QUEUE_SEL : Z := 0x030.
Definition VIRTIO_MMIO_QUEUE_NUM_MAX : Z := 0x034.
Definition VIRTIO_MMIO_QUEUE_NUM : Z := 0x038.
Definition VIRTIO_MMIO_QUEUE_PFN : Z := 0x040.
Definition VIRTIO_MMIO_QUEUE_NOTIFY : Z := 0x050.
Definition VIRTIO_MMIO_INTERRUPT_STATUS : Z := 0x060.
Definition VIRTIO_MMIO_INTERRUPT_ACK : Z := 0x064.
Definition VIRTIO_MMIO_STATUS : Z := 0x070.

Definition VIRTIO_CONFIG_S_ACKNOWLEDGE : Z := 1.
Definition VIRTIO_CONFIG_S_DRIVER : Z := 2.
Definition VIRTIO_CONFIG_S_DRIVER_OK : Z := 4.
Definition VIRTIO_CONFIG_S_FEATURES_OK : Z := 8.

Definition VIRTIO_BLK_F_RO : Z := 5.
Definition VIRTIO_BLK_F_SCSI : Z := 7.
Definition VIRTIO_BLK_F_CONFIG_WCE : Z := 11.
Definition VIRTIO_BLK_F_MQ : Z := 12.
Definition VIRTIO_F_ANY_LAYOUT : Z := 27.
Definition VIRTIO_RING_F_INDIRECT_DESC : Z := 28.
Definition VIRTIO_RING_F_EVENT_IDX : Z := 29.

Definition VRING_DESC_F_NEXT : Z := 1.
Definition VRING_DESC_F_WRITE : Z := 2.
Definition VIRTIO_BLK_T_IN : Z := 0.
Definition VIRTIO_BLK_T_OUT : Z := 1.
(** [sizeof(struct virtio_blk_req)]. *)
Definition sizeof_virtio_blk_req : Z := 16.

(** The address of register [r]. *)
Definition R (r : Z) : Z := VIRTIO0 + r.

(** [features &= ~(1 << bit)]. *)
Definition clear_feature (features bit : Z) : Z := Z.ldiff features (Z.shiftl 1 bit).

Definition desc_mod (i : Z) (f : virtq_desc -> virtq_desc) : K unit :=
  vdisk_mod (fun v => set_vd_desc (alter f (Z.to_nat i) (vd_desc v)) v).

Section virtio.
Context `{L : Layout} `{Mm : Mmio}.

(** The four tests of [virtio_disk_init]; a later one is made only if the
    earlier ones hold. *)
Definition virtio_present : K bool :=
  let* magic := mmio_load (R VIRTIO_MMIO_MAGIC_VALUE) in
  if negb (magic =? 0x74726976) then ret false else
  let* version := mmio_load (R VIRTIO_MMIO_VERSION) in
  if negb (version =? 1) then ret false else
  let* id := mmio_load (R VIRTIO_MMIO_DEVICE_ID) in
  if negb (id =? 2) then ret false else
  let* vendor := mmio_load (R VIRTIO_MMIO_VENDOR_ID) in
  ret (vendor =? 0x554d4551).

Definition virtio_disk_init : K unit :=
  initlock Lvdisk ;;;
  let* ok := virtio_present in
  if negb ok then panic "could not find virtio disk" else
  let status := VIRTIO_CONFIG_S_ACKNOWLEDGE in
  mmio_store (R VIRTIO_MMIO_STATUS) status ;;;
  let status := Z.lor status VIRTIO_CONFIG_S_DRIVER in
  mmio_store (R VIRTIO_MMIO_STATUS) status ;;;
  let* features := mmio_load (R VIRTIO_MMIO_DEVICE_FEATURES) in
  let features := clear_feature features VIRTIO_BLK_F_RO in
  let features := clear_feature features VIRTIO_BLK_F_SCSI in
  let features := clear_feature features VIRTIO_BLK_F_CONFIG_WCE in
  let features := clear_feature features VIRTIO_BLK_F_MQ in
  let features := clear_feature features VIRTIO_F_ANY_LAYOUT in
  let features := clear_feature features VIRTIO_RING_F_EVENT_IDX in
  let features := clear_feature features VIRTIO_RING_F_INDIRECT_DESC in
  mmio_store (R VIRTIO_MMIO_DRIVER_FEATURES) (u32 features) ;;;
  let status := Z.lor status VIRTIO_CONFIG_S_FEATURES_OK in
  mmio_store (R VIRTIO_MMIO_STATUS) status ;;;
  let status := Z.lor status VIRTIO_CONFIG_S_DRIVER_OK in
  mmio_store (R VIRTIO_MMIO_STATUS) status ;;;
  mmio_store (R VIRTIO_MMIO_GUEST_PAGE_SIZE) PGSIZE ;;;
  mmio_store (R VIRTIO_MMIO_QUEUE_SEL) 0 ;;;
  let* max := mmio_load (R VIRTIO_MMIO_QUEUE_NUM_MAX) in
  if max =? 0 then panic "virtio disk has no queue 0" else
  if max <? NUM then panic "virtio disk max queue too short" else
  mmio_store (R VIRTIO_MMIO_QUEUE_NUM) NUM ;;;
  vdisk_mod (set_vd_desc (replicate (Z.to_nat NUM) desc0)) ;;;
  vdisk_mod (set_vd_avail_idx 0) ;;;
  vdisk_mod (set_vd_avail_ring (replicate (Z.to_nat NUM) 0)) ;;;
  vdisk_mod (set_vd_used_idx 0) ;;;
  vdisk_mod (set_vd_used_ring (replicate (Z.to_nat NUM) 0)) ;;;
  mmio_store (R VIRTIO_MMIO_QUEUE_PFN) (u32 (Z.shiftr disk_pages PGSHIFT)) ;;;
  for_all (Z.to_nat NUM) 0 (fun i =>
    vdisk_mod (fun v => set_vd_free (<[Z.to_nat i := 1]> (vd_free v)) v)).

Definition alloc_desc : K Z :=
  let* r := for_from (Z.to_nat NUM) 0 (fun i =>
    let* v := kget k_vdisk in
    let* f := nth_or_fault "disk.free" (vd_free v) i in
    if truth f then
      vdisk_mod (fun v => set_vd_free (<[Z.to_nat i := 0]> (vd_free v)) v) ;;;
      ret (Some i)
    else ret None) in
  ret (default (-1) r).

Definition free_desc (i : Z) : K unit :=
  if NUM <=? i then panic "free_desc 1" else
  let* v := kget k_vdisk in
  let* f := nth_or_fault "disk.free" (vd_free v) i in
  if truth f then panic "free_desc 2" else
  desc_mod i (set_vq_addr Dnull) ;;;
  desc_mod i (set_vq_len 0) ;;;
  desc_mod i (set_vq_flags 0) ;;;
  desc_mod i (set_vq_next 0) ;;;
  vdisk_mod (fun v => set_vd_free (<[Z.to_nat i := 1]> (vd_free v)) v) ;;;
  wakeup Cdiskfree.

(** No descriptor is freed twice, so [NUM] turns are enough. *)
Definition free_chain (i : Z) : K unit :=
  while_ (S (Z.to_nat NUM))
    (fun i =>
       let* v := kget k_vdisk in
       let* d := nth_or_fault "disk.desc" (vd_desc v) i in
       free_desc i ;;;
       if truth (Z.land (vq_flags d) VRING_DESC_F_NEXT) then ret (inl (vq_next d)) else ret (inr tt)) i.

(** The loop of [alloc3_desc], with [got] the elements of [idx] set so far. *)
Fixpoint alloc_descs (n : nat) (got : list Z) : K (option (list Z)) :=
  match n with
  | O => ret (Some got)
  | S n' =>
      let* d := alloc_desc in
      if d <? 0 then
        for_all (length got) 0 (fun j => let* x := nth_or_fault "idx" got j in free_desc x) ;;;
        ret None
      else alloc_descs n' (got ++ [d])
  end.
Definition alloc3_desc : K (option (list Z)) := alloc_descs 3 [].

(** [while(1) { if(alloc3_desc(idx) == 0) break; sleep(&disk.free[0], ...); }] *)
Definition wait_descs : K (list Z) :=
  fun w =>
    while_ (S (length (wenv w)))
      (fun _ : unit =>
         let* r := alloc3_desc in
         match r with
         | Some idx => ret (inr idx)
         | None => sleep Cdiskfree Lvdisk ;;; ret (inl tt)
         end) tt w.

(** Formatting the three descriptors. *)
Definition format_descs (b : nat) (write : bool) (sector i0 i1 i2 : Z) : K unit :=
  let n0 := Z.to_nat i0 in
  vdisk_mod (fun v => set_vd_ops
    (<[n0 := mkReq (if write then VIRTIO_BLK_T_OUT else VIRTIO_BLK_T_IN) 0 sector]> (vd_ops v)) v) ;;;
  desc_mod i0 (set_vq_addr (Dop n0)) ;;;
  desc_mod i0 (set_vq_len sizeof_virtio_blk_req) ;;;
  desc_mod i0 (set_vq_flags VRING_DESC_F_NEXT) ;;;
  desc_mod i0 (set_vq_next i1) ;;;
  desc_mod i1 (set_vq_addr (Dbufdata b)) ;;;
  desc_mod i1 (set_vq_len BSIZE) ;;;
  (if write then desc_mod i1 (set_vq_flags 0) else desc_mod i1 (set_vq_flags VRING_DESC_F_WRITE)) ;;;
  desc_mod i1 (fun d => set_vq_flags (Z.lor (vq_flags d) VRING_DESC_F_NEXT) d) ;;;
  desc_mod i1 (set_vq_next i2) ;;;
  vdisk_mod (fun v => set_vd_info_status (<[n0 := 0xff]> (vd_info_status v)) v) ;;;
  desc_mod i2 (set_vq_addr (Dstatus n0)) ;;;
  desc_mod i2 (set_vq_len 1) ;;;
  desc_mod i2 (set_vq_flags VRING_DESC_F_WRITE) ;;;
  desc_mod i2 (set_vq_next 0).

(** [while(b->disk == 1) sleep(b, &disk.vdisk_lock);] *)
Definition wait_disk (b : nat) : K unit :=
  fun w =>
    while_ (S (length (wenv w)))
      (fun _ : unit =>
         let* x := buf_get b in
         if b_disk x =? 1 then sleep (Cbuf b) Lvdisk ;;; ret (inl tt) else ret (inr tt)) tt w.

Definition virtio_disk_rw (b : nat) (write : bool) : K unit :=
  let* x := buf_get b in
  let sector := u32 (b_blockno x * (BSIZE / 512)) in
  acquire Lvdisk ;;;
  let* idx := wait_descs in
  match idx with
  | [i0; i1; i2] =>
      let n0 := Z.to_nat i0 in
      format_descs b write sector i0 i1 i2 ;;;
      buf_mod b (set_b_disk 1) ;;;
      vdisk_mod (fun v => set_vd_info_b (<[n0 := Some b]> (vd_info_b v)) v) ;;;
      vdisk_mod (fun v => set_vd_avail_ring
        (<[Z.to_nat (vd_avail_idx v mod NUM) := u16 i0]> (vd_avail_ring v)) v) ;;;
      vdisk_mod (fun v => set_vd_avail_idx (u16 (vd_avail_idx v + 1)) v) ;;;
      mmio_store (R VIRTIO_MMIO_QUEUE_NOTIFY) 0 ;;;
      wait_disk b ;;;
      vdisk_mod (fun v => set_vd_info_b (<[n0 := None]> (vd_info_b v)) v) ;;;
      free_chain i0 ;;;
      release Lvdisk
  | _ => fault "idx"
  end.

(** [disk.used->idx] is at most [2^16 - 1] ahead. *)
Definition virtio_disk_intr : K unit :=
  acquire Lvdisk ;;;
  let* st := mmio_load (R VIRTIO_MMIO_INTERRUPT_STATUS) in
  mmio_store (R VIRTIO_MMIO_INTERRUPT_ACK) (Z.land st 0x3) ;;;
  let* v := kget k_vdisk in
  while_ (S (Z.to_nat (u16 (vd_used_idx v - vd_seen v))))
    (fun _ : unit =>
       let* v := kget k_vdisk in
       if vd_seen v =? vd_used_idx v then ret (inr tt) else
       let* id := nth_or_fault "used->ring" (vd_used_ring v) (vd_seen v mod NUM) in
       let* st := nth_or_fault "disk.info" (vd_info_status v) id in
       if truth st then panic "virtio_disk_intr status" else
       let* ob := nth_or_fault "disk.info" (vd_info_b v) id in
       match ob with
       | None => fault "disk.info[id].b"
       | Some b =>
           buf_mod b (set_b_disk 0) ;;;
           wakeup (Cbuf b) ;;;
           vdisk_mod (fun v => set_vd_seen (u16 (vd_seen v + 1)) v) ;;;
           ret (inl tt)
       end) tt ;;;
  release Lvdisk.

End virtio.

(** ** Lemmas *)

(** *** Descriptors *)

Lemma bind_vdisk_mod {B} (f : vdisk -> vdisk) (c : unit -> K B) k e :
  bind (vdisk_mod f) c (W k e) = c tt (W (set_k_vdisk (f (k_vdisk k)) k) e).
Proof. reflexivity. Qed.

(** [alloc_desc] takes the first free descriptor. *)
Lemma alloc_desc_eq k e l1 f l2 :
  vd_free (k_vdisk k) = l1 ++ f :: l2 -> Forall (fun x => x = 0) l1 -> f <> 0 ->
  length (l1 ++ f :: l2) = Z.to_nat NUM ->
  alloc_desc (W k e) = Ret (Z.of_nat (length l1))
    (W (set_k_vdisk (set_vd_free (l1 ++ 0 :: l2) (k_vdisk k)) k) e).
Proof.
  intros Hfree H0 Hf Hlen. unfold alloc_desc. rewrite length_app in Hlen. simpl in Hlen.
  set (body := fun i : Z => _).
  assert (forall m, (m <= length l1)%nat -> for_from m 0 body (W k e) = Ret None (W k e)) as Hskip.
  { induction m as [|m IH]; intros Hm; [done|].
    replace (S m) with (m + 1)%nat by lia. rewrite (for_from_app body m 1 0 (W k e) (W k e)) by (apply IH; lia).
    rewrite for_from_S. unfold body at 1. rewrite bind_assoc, bind_kget, bind_assoc.
    destruct (lookup_lt_is_Some_2 l1 m) as [x Hx]; [lia|].
    erewrite (bind_Ret (nth_or_fault _ _ _)).
    2:{ apply nth_or_fault_Some; [lia|]. rewrite Hfree, lookup_app_l by lia.
        replace (Z.to_nat (0 + Z.of_nat m)) with m by lia. exact Hx. }
    rewrite (proj1 (Forall_lookup _ _) H0 m x Hx). done. }
  rewrite (bind_Ret _ _ _ (Some (Z.of_nat (length l1)))
    (W (set_k_vdisk (set_vd_free (l1 ++ 0 :: l2) (k_vdisk k)) k) e)); [done|].
  replace (Z.to_nat NUM) with (length l1 + S (length l2))%nat by lia.
  rewrite (for_from_app body _ _ 0 (W k e) (W k e)) by (by apply Hskip).
  rewrite for_from_S. unfold body. rewrite bind_assoc, bind_kget, bind_assoc.
  erewrite (bind_Ret (nth_or_fault _ _ _)).
  2:{ apply nth_or_fault_Some; [lia|]. rewrite Hfree.
      replace (Z.to_nat (0 + Z.of_nat (length l1))) with (length l1) by lia. by apply list_lookup_middle. }
  unfold truth. rewrite (proj2 (Z.eqb_neq f 0)) by done. simpl negb. cbv iota.
  rewrite bind_assoc, bind_vdisk_mod, bind_ret_l. simpl. rewrite Hfree.
  rewrite Z.add_0_l, Nat2Z.id, insert_app_r_alt, Nat.sub_diag by lia. done.
Qed.

(** The running process [p] can call [wakeup]. *)
Record can_wake (p : nat) (k : kernel) : Prop := {
  cw_cur : k_cur k = Some p;
  cw_nproc : length (k_procs k) = Z.to_nat NPROC;
  cw_held : forall i, Lproc i ∉ k_held k;
}.

Lemma can_wakeup p chan k e :
  can_wake p k -> wakeup chan (W k e) = Ret tt (W (set_k_procs (wake chan (Some p) (k_procs k)) k) e).
Proof. intros [Hc Hn Hh]. rewrite <- Hc. apply wakeup_eq; auto. Qed.

Lemma wake_twice chan me ps : wake chan me (wake chan me ps) = wake chan me ps.
Proof.
  unfold wake. apply list_eq. intros i. rewrite !list_lookup_imap. destruct (ps !! i) as [pr|]; [|done]. simpl. f_equal.
  unfold wake_proc. destruct (bool_decide (me = Some i)); [done|].
  destruct (bool_decide (p_state pr = SLEEPING) && bool_decide (p_chan pr = chan)) eqn:E; [done|]. by rewrite E.
Qed.

(** A process that sleeps on [chan] until it is woken with all others. *)
Lemma wake_asleep chan p ps :
  alter (set_p_chan Cnull ∘ set_p_state RUNNING) p (wake chan None (alter (set_p_state SLEEPING ∘ set_p_chan chan) p ps)) =
  wake chan (Some p) (alter (set_p_chan Cnull ∘ set_p_state RUNNING) p ps).
Proof.
  unfold wake. apply list_eq. intros i. rewrite list_lookup_imap. destruct (decide (i = p)) as [->|Hne].
  - rewrite !list_lookup_alter_eq, list_lookup_imap, list_lookup_alter_eq. destruct (ps !! p) as [pr|]; [|done]. simpl.
    unfold wake_proc. rewrite (bool_decide_true (Some p = Some p)) by done. rewrite bool_decide_false by done. by destruct (_ && _).
  - rewrite !list_lookup_alter_ne, list_lookup_imap, list_lookup_alter_ne by done. destruct (ps !! i) as [pr|]; [|done]. simpl.
    unfold wake_proc. by rewrite (bool_decide_false (None = Some i)), (bool_decide_false (Some p = Some i)) by congruence.
Qed.

(** [free_desc] clears a descriptor in use and marks it free. *)
Definition freed (i : nat) (v : vdisk) : vdisk :=
  set_vd_free (<[i := 1]> (vd_free v)) (set_vd_desc (<[i := desc0]> (vd_desc v)) v).

Lemma free_desc_eq p k e i :
  can_wake p k -> (i < Z.to_nat NUM)%nat -> vd_free (k_vdisk k) !! i = Some 0 ->
  (i < length (vd_desc (k_vdisk k)))%nat ->
  free_desc (Z.of_nat i) (W k e) =
    Ret tt (W (set_k_procs (wake Cdiskfree (Some p) (k_procs k)) (set_k_vdisk (freed i (k_vdisk k)) k)) e).
Proof.
  intros Hw Hi Hf Hd. unfold free_desc. rewrite (proj2 (Z.leb_gt _ _)) by (unfold NUM in *; lia).
  rewrite bind_kget. erewrite (bind_Ret (nth_or_fault _ _ _)).
  2:{ apply nth_or_fault_Some; [lia|]. by rewrite Nat2Z.id. }
  change (truth 0) with false. cbv iota. unfold desc_mod. rewrite !bind_vdisk_mod. simpl.
  rewrite (can_wakeup p) by (by destruct Hw). do 2 f_equal. unfold freed.
  rewrite !list_alter_alter_eq, Nat2Z.id. clear -Hd.
  destruct (lookup_lt_is_Some_2 _ _ Hd) as [d Hx]. rewrite (list_alter_lookup _ _ _ d Hx).
  destruct k as [? ? ? ? ? ? ? ? ? ? ? ? ? ? ? ? ? ? ? ? ? ? ? ? ? v ? ?]. by destruct v.
Qed.

(** An assignment to all fields does not depend on the old ones. *)
Lemma alter_const (f : virtq_desc -> virtq_desc) l i :
  (forall x, f x = f desc0) -> (i < length l)%nat -> alter f i l = <[i := f desc0]> l.
Proof.
  intros Hf Hi. destruct (lookup_lt_is_Some_2 _ _ Hi) as [x Hx].
  by rewrite (list_alter_lookup _ _ _ x Hx), Hf.
Qed.

(** The state with the request of buffer [b] in descriptors [i0], [i1], [i2]. *)
Definition rw_type (write : bool) : Z := if write then VIRTIO_BLK_T_OUT else VIRTIO_BLK_T_IN.
Definition data_flags (write : bool) : Z :=
  Z.lor (if write then 0 else VRING_DESC_F_WRITE) VRING_DESC_F_NEXT.
Definition formatted (b : nat) (write : bool) (sector : Z) (i0 i1 i2 : nat) (v : vdisk) : vdisk :=
  set_vd_info_status (<[i0 := 0xff]> (vd_info_status v))
    (set_vd_ops (<[i0 := mkReq (rw_type write) 0 sector]> (vd_ops v))
      (set_vd_desc
         (<[i2 := mkDesc (Dstatus i0) 1 VRING_DESC_F_WRITE 0]>
           (<[i1 := mkDesc (Dbufdata b) BSIZE (data_flags write) (Z.of_nat i2)]>
             (<[i0 := mkDesc (Dop i0) sizeof_virtio_blk_req VRING_DESC_F_NEXT (Z.of_nat i1)]>
               (vd_desc v)))) v)).

Lemma desc_mod_twice {B} i f g (c : unit -> K B) w :
  bind (desc_mod i f) (fun _ => bind (desc_mod i g) c) w = bind (desc_mod i (g ∘ f)) c w.
Proof.
  destruct w as [k e]. unfold desc_mod. rewrite !bind_vdisk_mod. simpl. rewrite list_alter_alter_eq.
  by do 2 f_equal.
Qed.

Lemma desc_mod_last i f g w :
  bind (desc_mod i f) (fun _ => desc_mod i g) w = desc_mod i (g ∘ f) w.
Proof.
  destruct w as [k e]. unfold desc_mod. rewrite bind_vdisk_mod. unfold vdisk_mod, kmod. simpl.
  rewrite list_alter_alter_eq. by do 2 f_equal.
Qed.

Lemma bind_vdisk_set {B} (f : vdisk -> vdisk) (c : unit -> K B) v k e :
  bind (vdisk_mod f) c (W (set_k_vdisk v k) e) = c tt (W (set_k_vdisk (f v) k) e).
Proof. reflexivity. Qed.

Lemma vdisk_mod_set f v k e :
  vdisk_mod f (W (set_k_vdisk v k) e) = Ret tt (W (set_k_vdisk (f v) k) e).
Proof. reflexivity. Qed.

Lemma format_descs_eq b write sector (i0 i1 i2 : nat) k e :
  (i0 < length (vd_desc (k_vdisk k)))%nat -> (i1 < length (vd_desc (k_vdisk k)))%nat ->
  (i2 < length (vd_desc (k_vdisk k)))%nat ->
  format_descs b write sector (Z.of_nat i0) (Z.of_nat i1) (Z.of_nat i2) (W k e) =
  Ret tt (W (set_k_vdisk (formatted b write sector i0 i1 i2 (k_vdisk k)) k) e).
Proof.
  assert (exists v, k_vdisk k = v /\ W k e = W (set_k_vdisk v k) e) as (v & Hv & ->).
  { exists (k_vdisk k). split; [done|]. by destruct k. }
  intros H0 H1 H2. rewrite Hv in *.
  unfold format_descs, formatted, data_flags, rw_type.
  destruct v as [ds ai ar ui ur fr se ib ist os]. simpl in *.
  destruct write; rewrite bind_vdisk_set, !desc_mod_twice; unfold desc_mod at 1;
    rewrite bind_vdisk_set, !desc_mod_twice; unfold desc_mod at 1;
    rewrite !bind_vdisk_set, !desc_mod_twice, desc_mod_last;
    unfold desc_mod; rewrite vdisk_mod_set, !Nat2Z.id; simpl;
    unfold set_vd_info_status, set_vd_ops, set_vd_desc; simpl; do 4 f_equal;
    rewrite !alter_const by (intros; rewrite ?length_insert, ?length_alter; done); done.
Qed.

(** *** The device *)

(** The device has one request to serve: the chain from descriptor [h] asks for
    a transfer between [sector] and the data of buffer [b], with the status to
    go to [disk.info[h].status]. *)
Record pending (v : vdisk) (h b : nat) (write : bool) (sector : Z) : Prop := {
  pe_avail : vd_avail_idx v = u16 (vd_used_idx v + 1);
  pe_ring : vd_avail_ring v !! Z.to_nat (vd_used_idx v mod NUM) = Some (Z.of_nat h);
  pe_op : vd_ops v !! h = Some (mkReq (rw_type write) 0 sector);
  pe_chain : exists i1 i2 : nat,
    vd_desc v !! h = Some (mkDesc (Dop h) sizeof_virtio_blk_req VRING_DESC_F_NEXT (Z.of_nat i1)) /\
    vd_desc v !! i1 = Some (mkDesc (Dbufdata b) BSIZE (data_flags write) (Z.of_nat i2)) /\
    vd_desc v !! i2 = Some (mkDesc (Dstatus h) 1 VRING_DESC_F_WRITE 0);
}.

(** What serving it means: the 1024 bytes are transferred, the status is 0, and
    the chain's head is in the used ring. *)
Definition transfer (b : nat) (write : bool) (n : Z) (x : buf) (k : kernel) : kernel :=
  if write then set_k_disk (<[n := b_data x]> (k_disk k)) k
  else set_k_bufs (alter (set_b_data (disk_block k n)) b (k_bufs k)) k.
Definition completed (h : nat) (v : vdisk) : vdisk :=
  set_vd_used_idx (u16 (vd_used_idx v + 1))
    (set_vd_used_ring (<[Z.to_nat (vd_used_idx v mod NUM) := Z.of_nat h]> (vd_used_ring v))
      (set_vd_info_status (<[h := 0]> (vd_info_status v)) v)).

Class Device (dev : kernel -> kernel) : Prop :=
  device_serves : forall k h b write n x,
    pending (k_vdisk k) h b write (n * (BSIZE / 512)) -> k_bufs k !! b = Some x ->
    dev k = set_k_vdisk (completed h (k_vdisk k)) (transfer b write n x k).

(** While the process that asked sleeps, the device serves the request and
    raises an interrupt, which the processor takes in [scheduler]. *)
Definition irq_turn `{Mm : Mmio} (dev : kernel -> kernel) (k : kernel) : kernel :=
  let k1 := set_k_cur None (set_k_held [] (set_k_noff 0 (dev k))) in
  match virtio_disk_intr (W k1 []) with Ret _ w => wk w | _ => k1 end.

Section driver.
Context `{L : Layout} `{Mm : Mmio}.

(** [virtio_disk_intr] with one completion. *)
Lemma intr_one k e (h b : nat) :
  k_cur k = None -> k_held k = [] -> length (k_procs k) = Z.to_nat NPROC ->
  let v := k_vdisk k in
  vd_used_idx v = u16 (vd_seen v + 1) -> 0 <= vd_seen v < 2 ^ 16 ->
  vd_used_ring v !! Z.to_nat (vd_seen v mod NUM) = Some (Z.of_nat h) ->
  vd_info_status v !! h = Some 0 -> vd_info_b v !! h = Some (Some b) ->
  exists io, virtio_disk_intr (W k e) =
    Ret tt (W (set_k_mmio io (set_k_vdisk (set_vd_seen (vd_used_idx v) v)
      (set_k_procs (wake (Cbuf b) None (k_procs k)) (set_k_bufs (alter (set_b_disk 0) b (k_bufs k)) k)))) e).
Proof.
  intros Hc Hh Hn v Hu Hs Hr Hst Hb. unfold virtio_disk_intr.
  erewrite (bind_Ret (acquire _)); [|apply acquire_eq; rewrite Hh; set_solver].
  unfold mmio_load. rewrite bind_assoc, bind_kget, bind_assoc, bind_kmod, bind_ret_l.
  unfold mmio_store. rewrite bind_kmod, bind_kget. simpl.
  assert (vd_seen v <> vd_used_idx v) as Hne.
  { rewrite Hu. unfold u16. Z.to_euclidean_division_equations. lia. }
  assert (u16 (vd_used_idx v - vd_seen v) = 1) as E1.
  { rewrite Hu. unfold u16. Z.to_euclidean_division_equations. lia. }
  fold v. rewrite E1. change (S (Z.to_nat 1)) with 2%nat.
  set (k1 := set_k_mmio _ _).
  erewrite (bind_Ret (while_ 2 _ tt)).
  2:{ rewrite while_S, bind_assoc, bind_kget. change (k_vdisk k1) with v.
      rewrite (proj2 (Z.eqb_neq _ _) Hne), bind_assoc.
      erewrite (bind_Ret (nth_or_fault _ _ _)); [|apply nth_or_fault_Some; [apply Z.mod_pos_bound; done|exact Hr]].
      rewrite bind_assoc.
      erewrite (bind_Ret (nth_or_fault _ _ _)); [|apply nth_or_fault_Some; [lia|rewrite Nat2Z.id; exact Hst]].
      change (truth 0) with false. cbv iota. rewrite bind_assoc.
      erewrite (bind_Ret (nth_or_fault _ _ _)); [|apply nth_or_fault_Some; [lia|rewrite Nat2Z.id; exact Hb]].
      cbv iota. rewrite bind_assoc. unfold buf_mod. rewrite bind_kmod, bind_assoc.
      erewrite (bind_Ret (wakeup _)).
      2:{ apply wakeup_eq; [exact Hn|]. intros i _. simpl. rewrite Hh. set_solver. }
      rewrite bind_assoc, bind_vdisk_mod, bind_ret_l, while_S, bind_assoc, bind_kget. simpl.
      fold v. rewrite Hu, Z.eqb_refl. reflexivity. }
  simpl. erewrite release_top; [|simpl; rewrite Hh; reflexivity|set_solver|reflexivity].
  exists (k_mmio k1). rewrite Hc. do 2 f_equal. unfold k1. subst v. destruct k. simpl in *. subst. rewrite Hu. reflexivity.
Qed.

(** No request is going on. *)
Record driver_idle (v : vdisk) : Prop := {
  di_desc : length (vd_desc v) = 8%nat;
  di_avail : length (vd_avail_ring v) = 8%nat;
  di_used : length (vd_used_ring v) = 8%nat;
  di_info_b : length (vd_info_b v) = 8%nat;
  di_status : length (vd_info_status v) = 8%nat;
  di_ops : length (vd_ops v) = 8%nat;
  di_free : vd_free v = replicate 8 1;
  di_seen : vd_seen v = vd_used_idx v;
  di_idx : vd_avail_idx v = vd_used_idx v;
  di_range : 0 <= vd_used_idx v < 2 ^ 16;
}.

Definition taken3 (v : vdisk) : vdisk := set_vd_free [0; 0; 0; 1; 1; 1; 1; 1] v.

Lemma alloc3_eq k e :
  vd_free (k_vdisk k) = replicate 8 1 ->
  alloc3_desc (W k e) = Ret (Some [0; 1; 2]) (W (set_k_vdisk (taken3 (k_vdisk k)) k) e).
Proof.
  intros Hf. unfold alloc3_desc. simpl.
  rewrite (bind_Ret _ _ _ _ _ (alloc_desc_eq k e [] 1 (replicate 7 1) Hf ltac:(constructor)
    ltac:(done) ltac:(done))). simpl.
  set (k1 := set_k_vdisk _ k).
  rewrite (bind_Ret _ _ _ _ _ (alloc_desc_eq k1 e [0] 1 (replicate 6 1) ltac:(done)
    ltac:(by repeat constructor) ltac:(done) ltac:(done))). simpl.
  set (k2 := set_k_vdisk _ k1).
  rewrite (bind_Ret _ _ _ _ _ (alloc_desc_eq k2 e [0; 0] 1 (replicate 5 1) ltac:(done)
    ltac:(by repeat constructor) ltac:(done) ltac:(done))). simpl. done.
Qed.

Definition issued (b : nat) (write : bool) (sector : Z) (v : vdisk) : vdisk :=
  let v1 := formatted b write sector 0 1 2 (taken3 v) in
  set_vd_avail_idx (u16 (vd_avail_idx v + 1))
    (set_vd_avail_ring (<[Z.to_nat (vd_avail_idx v mod NUM) := 0]> (vd_avail_ring v))
      (set_vd_info_b (<[0%nat := Some b]> (vd_info_b v)) v1)).

Lemma issued_pending b write sector v :
  driver_idle v -> pending (issued b write sector v) 0 b write sector.
Proof.
  intros []. pose proof (Z.mod_pos_bound (vd_used_idx v) NUM ltac:(done)).
  assert (NUM = 8) as EN by done. split.
  - simpl. by rewrite di_idx0.
  - simpl. rewrite di_idx0. apply list_lookup_insert_eq. lia.
  - simpl. apply list_lookup_insert_eq. lia.
  - exists 1%nat, 2%nat. simpl. split_and!.
    + rewrite !list_lookup_insert_ne by done. apply list_lookup_insert_eq. lia.
    + rewrite list_lookup_insert_ne by done. apply list_lookup_insert_eq. rewrite length_insert. lia.
    + apply list_lookup_insert_eq. rewrite !length_insert. lia.
Qed.

(** One turn of [free_chain]. *)
Lemma free_turn p k e (i : nat) d n :
  can_wake p k -> vd_free (k_vdisk k) !! i = Some 0 -> vd_desc (k_vdisk k) !! i = Some d ->
  (i < Z.to_nat NUM)%nat ->
    let k' := set_k_procs (wake Cdiskfree (Some p) (k_procs k)) (set_k_vdisk (freed i (k_vdisk k)) k) in
    while_ (S n)
      (fun i =>
         let* v := kget k_vdisk in
         let* d := nth_or_fault "disk.desc" (vd_desc v) i in
         free_desc i ;;;
         if truth (Z.land (vq_flags d) VRING_DESC_F_NEXT) then ret (inl (vq_next d)) else ret (inr tt))
      (Z.of_nat i) (W k e) =
    if truth (Z.land (vq_flags d) VRING_DESC_F_NEXT) then
      while_ n
        (fun i =>
           let* v := kget k_vdisk in
           let* d := nth_or_fault "disk.desc" (vd_desc v) i in
           free_desc i ;;;
           if truth (Z.land (vq_flags d) VRING_DESC_F_NEXT) then ret (inl (vq_next d)) else ret (inr tt))
        (vq_next d) (W k' e)
    else Ret tt (W k' e).
Proof.
  intros Hw Hf Hd Hi.
  pose proof (free_desc_eq p k e i Hw Hi Hf ltac:(by eapply lookup_lt_Some)) as Hr. cbv zeta. rewrite while_S, bind_assoc, bind_kget, bind_assoc.
  erewrite (bind_Ret (nth_or_fault _ _ _)); [|apply nth_or_fault_Some; [lia|rewrite Nat2Z.id; exact Hd]].
  rewrite bind_assoc, (bind_Ret _ _ _ _ _ Hr). by destruct (truth _).
Qed.

(** The chain is freed when the request is over. *)
Lemma free_chain_eq p k e d0 d1 d2 ds :
  can_wake p k -> vd_free (k_vdisk k) = [0; 0; 0; 1; 1; 1; 1; 1] ->
  vd_desc (k_vdisk k) = d0 :: d1 :: d2 :: ds -> length ds = 5%nat ->
  vq_flags d0 = VRING_DESC_F_NEXT -> vq_next d0 = 1 ->
  truth (Z.land (vq_flags d1) VRING_DESC_F_NEXT) = true -> vq_next d1 = 2 ->
  vq_flags d2 = VRING_DESC_F_WRITE ->
  free_chain 0 (W k e) = Ret tt (W (set_k_procs (wake Cdiskfree (Some p) (k_procs k)) (set_k_vdisk
    (set_vd_free (replicate 8 1) (set_vd_desc (desc0 :: desc0 :: desc0 :: ds) (k_vdisk k))) k)) e).
Proof.
  intros Hw Hf Hd Hl F0 N0 F1 N1 F2. unfold free_chain. change (S (Z.to_nat NUM)) with 9%nat.
  pose proof (free_turn p k e 0 d0 8 Hw ltac:(by rewrite Hf) ltac:(by rewrite Hd) ltac:(by apply Nat.ltb_lt)) as E1.
  change (Z.of_nat 0) with 0 in E1. rewrite E1, F0, N0. change (truth (Z.land VRING_DESC_F_NEXT VRING_DESC_F_NEXT)) with true. cbv iota. set (k1 := set_k_procs _ _).
  assert (can_wake p k1) as Hw1 by (destruct Hw; split; [done|simpl; by rewrite wake_length|done]).
  pose proof (free_turn p k1 e 1 d1 7 Hw1 ltac:(simpl; by rewrite Hf) ltac:(simpl; by rewrite Hd) ltac:(by apply Nat.ltb_lt)) as E2.
  change (Z.of_nat 1) with 1 in E2. rewrite E2, F1, N1. cbv iota. set (k2 := set_k_procs _ (set_k_vdisk _ k1)).
  assert (can_wake p k2) as Hw2 by (destruct Hw1; split; [done|simpl; by rewrite wake_length|done]).
  pose proof (free_turn p k2 e 2 d2 6 Hw2 ltac:(simpl; by rewrite Hf) ltac:(simpl; by rewrite Hd) ltac:(by apply Nat.ltb_lt)) as E3.
  change (Z.of_nat 2) with 2 in E3. rewrite E3, F2. change (truth (Z.land VRING_DESC_F_WRITE VRING_DESC_F_NEXT)) with false. cbv iota.
  do 2 f_equal. unfold k2, k1, freed. simpl. rewrite !wake_twice, Hf, Hd. simpl. clear -Hl.
  destruct k as [? ? ? ? ? ? ? ? ? ? ? ? ? ? ? ? ? ? ? ? ? ? ? ? ? [] ? ?]. reflexivity.
Qed.

(** The buffers and the disk after the transfer of buffer [b], which is [x]. *)
Definition bufs_after (b : nat) (write : bool) (x : buf) (k : kernel) : list buf :=
  let x' := set_b_disk 0 x in
  <[b := if write then x' else set_b_data (disk_block k (b_blockno x)) x']> (k_bufs k).
Definition disk_after (write : bool) (x : buf) (k : kernel) : gmap Z (list Z) :=
  if write then <[b_blockno x := b_data x]> (k_disk k) else k_disk k.

Context (dev : kernel -> kernel) `{!Device dev}.

(** The turn of the device and the interrupt handler. *)
Lemma irq_run k b write x v :
  driver_idle v -> k_vdisk k = issued b write (b_blockno x * (BSIZE / 512)) v ->
  k_bufs k !! b = Some (set_b_disk 1 x) -> length (k_procs k) = Z.to_nat NPROC ->
  exists io, irq_turn dev k = set_k_cur None (set_k_held [] (set_k_noff 0 (set_k_procs (wake (Cbuf b) None (k_procs k)) (set_k_mmio io
      (set_k_vdisk (set_vd_seen (u16 (vd_used_idx v + 1)) (completed 0 (k_vdisk k)))
        (set_k_bufs (bufs_after b write x k) (set_k_disk (disk_after write x k) k))))))).
Proof.
  intros Hi Hv Hb Hn. unfold irq_turn.
  rewrite (device_serves k 0 b write (b_blockno x) (set_b_disk 1 x)); [|by rewrite Hv; apply issued_pending|done].
  set (k1 := set_k_cur _ _).
  destruct (intr_one k1 [] 0 b) as (io & Hrun).
  - done.
  - done.
  - unfold k1. by destruct write.
  - simpl. rewrite Hv. simpl. by destruct Hi as [_ _ _ _ _ _ _ -> _ _].
  - simpl. rewrite Hv. simpl. destruct Hi as [_ _ _ _ _ _ _ -> _ ?]. done.
  - simpl. rewrite Hv. simpl. destruct Hi as [_ _ Hu _ _ _ _ -> _ ?]. apply list_lookup_insert_eq.
    pose proof (Z.mod_pos_bound (vd_used_idx v) NUM ltac:(done)). assert (NUM = 8) by done. lia.
  - simpl. rewrite Hv. simpl. apply list_lookup_insert_eq. rewrite length_insert.
    destruct Hi as [_ _ _ _ -> _ _ _ _ _]. lia.
  - simpl. rewrite Hv. simpl. apply list_lookup_insert_eq. destruct Hi as [_ _ _ -> _ _ _ _ _ _]. lia.
  - rewrite Hrun. exists io. simpl wk. unfold k1, bufs_after, disk_after, transfer.
    destruct write; simpl; rewrite ?list_alter_alter_eq, (list_alter_lookup _ _ _ _ Hb), Hv; by destruct k.
Qed.

(** Up to the wait: the request is made. *)
Lemma issue_run k e b write x :
  driver_idle (k_vdisk k) -> k_bufs k !! b = Some x -> 0 <= b_blockno x < 2 ^ 31 -> k_held k = [] ->
  let k1 := set_k_mmio (MStore (R VIRTIO_MMIO_QUEUE_NOTIFY) 0 :: k_mmio k)
    (set_k_vdisk (issued b write (b_blockno x * (BSIZE / 512)) (k_vdisk k))
      (set_k_bufs (<[b := set_b_disk 1 x]> (k_bufs k)) (lockk Lvdisk k))) in
  virtio_disk_rw b write (W k e) =
  (wait_disk b ;;;
   vdisk_mod (fun v => set_vd_info_b (<[0%nat := None]> (vd_info_b v)) v) ;;;
   free_chain 0 ;;;
   release Lvdisk) (W k1 e).
Proof.
  intros Hi Hb Hn Hh k1. pose proof Hi as []. unfold virtio_disk_rw.
  rewrite (bind_Ret (buf_get b) _ _ x (W k e)) by (unfold buf_get; by rewrite bind_kget, Hb).
  rewrite (bind_Ret _ _ _ _ _ (acquire_eq Lvdisk k e ltac:(rewrite Hh; set_solver))).
  rewrite (bind_Ret wait_descs _ _ [0; 1; 2] (W (set_k_vdisk (taken3 (k_vdisk k)) (lockk Lvdisk k)) e)).
  2:{ unfold wait_descs. rewrite while_S, bind_assoc.
      by rewrite (bind_Ret _ _ _ _ _ (alloc3_eq (lockk Lvdisk k) e di_free0)). }
  assert (u32 (b_blockno x * (BSIZE / 512)) = b_blockno x * (BSIZE / 512)) as ->.
  { apply u32_small. change (BSIZE / 512) with 2. lia. }
  set (sector := b_blockno x * (BSIZE / 512)) in *.
  set (k2 := set_k_vdisk (taken3 (k_vdisk k)) (lockk Lvdisk k)).
  pose proof (format_descs_eq b write sector 0 1 2 k2 e) as Hf. simpl in Hf.
  rewrite (bind_Ret _ _ _ _ _ (Hf ltac:(rewrite di_desc0; lia) ltac:(rewrite di_desc0; lia)
    ltac:(rewrite di_desc0; lia))). clear Hf.
  unfold buf_mod. rewrite bind_kmod, !bind_vdisk_mod. unfold mmio_store. rewrite bind_kmod. simpl.
  rewrite (list_alter_lookup _ _ _ _ Hb). reflexivity.
Qed.

(** The wait: the device's turn and the interrupt end it. *)
Lemma wait_run k1 e p pr b write x v :
  driver_idle v -> k_vdisk k1 = issued b write (b_blockno x * (BSIZE / 512)) v ->
  k_bufs k1 !! b = Some (set_b_disk 1 x) -> k_held k1 = [Lvdisk] -> k_noff k1 = 1%nat ->
  k_cur k1 = Some p -> k_procs k1 !! p = Some pr -> length (k_procs k1) = Z.to_nat NPROC ->
  exists io, wait_disk b (W k1 (irq_turn dev :: e)) = Ret tt (W
    (set_k_procs (wake (Cbuf b) (Some p) (alter (set_p_chan Cnull ∘ set_p_state RUNNING) p (k_procs k1))) (set_k_mmio io
      (set_k_vdisk (set_vd_seen (u16 (vd_used_idx v + 1)) (completed 0 (k_vdisk k1)))
        (set_k_bufs (bufs_after b write x k1) (set_k_disk (disk_after write x k1) k1))))) e).
Proof.
  intros Hi Hv Hb Hh Hoff Hc Hp Hnp.
  destruct (irq_run (asleep p (Cbuf b) k1) b write x v Hi) as (io & Hirq).
  { exact Hv. } { exact Hb. } { simpl. by rewrite length_alter. }
  exists io. unfold wait_disk. simpl length. rewrite while_S, bind_assoc.
  erewrite (bind_Ret (buf_get b)); [|unfold buf_get; rewrite bind_kget, Hb; reflexivity].
  change (b_disk (set_b_disk 1 x) =? 1) with true. cbv iota. rewrite bind_assoc.
  erewrite (bind_Ret (sleep (Cbuf b) Lvdisk)); [|by rewrite (sleep_eq _ _ k1 p pr)].
  rewrite bind_ret_l, while_S, bind_assoc.
  unfold buf_get at 1. rewrite bind_assoc, bind_kget, Hirq. simpl.
  unfold bufs_after. rewrite list_lookup_insert_eq by (by eapply lookup_lt_Some).
  rewrite bind_ret_l.
  replace (b_disk _ =? 1) with false by (by destruct write). unfold ret. do 2 f_equal. unfold awake.
  rewrite <- wake_asleep. clear -Hh Hoff Hc. destruct k1; simpl in *; by subst.
Qed.

(** After the wait: the chain is freed. *)
Lemma finish_run k3 e p b write sector v :
  driver_idle v ->
  k_vdisk k3 = set_vd_seen (u16 (vd_used_idx v + 1)) (completed 0 (issued b write sector v)) ->
  k_held k3 = [Lvdisk] -> k_noff k3 = 1%nat -> k_cur k3 = Some p -> length (k_procs k3) = Z.to_nat NPROC ->
  exists v', (vdisk_mod (fun v => set_vd_info_b (<[0%nat := None]> (vd_info_b v)) v) ;;;
     free_chain 0 ;;; release Lvdisk) (W k3 e) =
    Ret tt (W (set_k_noff 0 (set_k_held [] (set_k_procs (wake Cdiskfree (Some p) (k_procs k3)) (set_k_vdisk v' k3)))) e) /\
    driver_idle v'.
Proof.
  intros Hi Hv Hh Hoff Hc Hnp. rewrite bind_vdisk_mod. set (k4 := set_k_vdisk _ k3).
  assert (exists ds, length ds = 5%nat /\ vd_desc (k_vdisk k3) =
    mkDesc (Dop 0) sizeof_virtio_blk_req VRING_DESC_F_NEXT 1 ::
    mkDesc (Dbufdata b) BSIZE (data_flags write) 2 :: mkDesc (Dstatus 0) 1 VRING_DESC_F_WRITE 0 :: ds)
    as (ds & Hds & Hd).
  { rewrite Hv. simpl. pose proof (di_desc _ Hi) as H.
    destruct (vd_desc v) as [|? [|? [|? ds]]]; try done. exists ds. simpl in *. split; [lia|done]. }
  assert (can_wake p k4) as Hw4 by (split; simpl; [done|done|rewrite Hh; set_solver]).
  epose proof (free_chain_eq p k4 e _ _ _ _ Hw4 ltac:(simpl; rewrite Hv; reflexivity) Hd Hds eq_refl eq_refl
    ltac:(by destruct write) eq_refl eq_refl) as Hr5.
  rewrite (bind_Ret _ _ _ _ _ Hr5). eexists. split; [eapply (release_top Lvdisk [] 0)|].
  - exact Hh.
  - set_solver.
  - exact Hoff.
  - destruct Hi. split; simpl; rewrite ?Hv; simpl; rewrite ?length_insert; try done; try lia.
    + by rewrite di_idx0.
    + unfold u16. apply Z.mod_pos_bound. lia.
Qed.

(** The process table after process [p] has slept on buffer [b] and freed its
    descriptors: [p] runs, and those that slept on [b] or waited for descriptors
    are runnable. *)
Definition procs_after (p b : nat) (ps : list proc) : list proc :=
  wake Cdiskfree (Some p) (wake (Cbuf b) (Some p) (alter (set_p_chan Cnull ∘ set_p_state RUNNING) p ps)).

Lemma virtio_disk_rw_run k e p pr b write x :
  driver_idle (k_vdisk k) -> k_bufs k !! b = Some x -> 0 <= b_blockno x < 2 ^ 31 ->
  k_held k = [] -> k_noff k = 0%nat -> k_cur k = Some p -> k_procs k !! p = Some pr ->
  length (k_procs k) = Z.to_nat NPROC ->
  exists v io, virtio_disk_rw b write (W k (irq_turn dev :: e)) = Ret tt (W
      (set_k_procs (procs_after p b (k_procs k)) (set_k_mmio io (set_k_vdisk v
        (set_k_bufs (bufs_after b write x k) (set_k_disk (disk_after write x k) k))))) e) /\
    driver_idle v.
Proof.
  intros Hi Hb Hn Hh Hoff Hc Hp Hnp. rewrite (issue_run k _ b write x Hi Hb Hn Hh).
  set (k1 := set_k_mmio _ _).
  destruct (wait_run k1 e p pr b write x (k_vdisk k) Hi) as (io & Hr3); try done.
  { apply list_lookup_insert_eq. by eapply lookup_lt_Some. }
  { simpl. by rewrite Hh. } { simpl. by rewrite Hoff. }
  rewrite (bind_Ret _ _ _ _ _ Hr3). set (k3 := set_k_procs _ _).
  destruct (finish_run k3 e p b write (b_blockno x * (BSIZE / 512)) (k_vdisk k) Hi) as (v & Hr & Hid); try done.
  { simpl. by rewrite Hh. } { simpl. by rewrite Hoff. } { simpl. by rewrite wake_length, length_alter. }
  exists v, io. split; [|exact Hid]. rewrite Hr. do 2 f_equal. unfold k3, k1, procs_after, bufs_after. simpl.
  rewrite list_insert_insert_eq. unfold disk_after, disk_block. clear -Hh Hoff. destruct k; simpl in *; by subst.
Qed.
End driver.

(** *** virtio_disk_init *)

(** Steps on a state of the form [set_k_mmio h (set_k_vdisk v k)]. *)
Definition at_io (h : list mmio_event) (v : vdisk) (k : kernel) : kernel := set_k_mmio h (set_k_vdisk v k).

Lemma bind_mmio_load `{Mm : Mmio} {B} a (c : Z -> K B) h v k e :
  bind (mmio_load a) c (W (at_io h v k) e) = c (mmio_value h a) (W (at_io (MLoad a :: h) v k) e).
Proof. reflexivity. Qed.

Lemma bind_mmio_store {B} a x (c : unit -> K B) h v k e :
  bind (mmio_store a x) c (W (at_io h v k) e) = c tt (W (at_io (MStore a x :: h) v k) e).
Proof. reflexivity. Qed.

Lemma bind_vdisk_io {B} f (c : unit -> K B) h v k e :
  bind (vdisk_mod f) c (W (at_io h v k) e) = c tt (W (at_io h (f v) k) e).
Proof. reflexivity. Qed.

(** A device that identifies itself as a legacy virtio disk with a queue of at
    least [NUM] descriptors; its features are [features]. *)
Record virtio_device (Mm : Mmio) (features : Z) : Prop := {
  vr_magic : forall h, mmio_value h (R VIRTIO_MMIO_MAGIC_VALUE) = 0x74726976;
  vr_version : forall h, mmio_value h (R VIRTIO_MMIO_VERSION) = 1;
  vr_id : forall h, mmio_value h (R VIRTIO_MMIO_DEVICE_ID) = 2;
  vr_vendor : forall h, mmio_value h (R VIRTIO_MMIO_VENDOR_ID) = 0x554d4551;
  vr_features : forall h, mmio_value h (R VIRTIO_MMIO_DEVICE_FEATURES) = features;
  vr_max : forall h, NUM <= mmio_value h (R VIRTIO_MMIO_QUEUE_NUM_MAX);
}.

(** The stores of a history, oldest first. *)
Fixpoint stores (h : list mmio_event) : list (Z * Z) :=
  match h with
  | [] => []
  | MLoad _ :: h' => stores h'
  | MStore a v :: h' => stores h' ++ [(a, v)]
  end.

(** The seven features the driver does not want. *)
Definition unwanted : Z :=
  Z.lor (Z.lor (Z.lor (Z.shiftl 1 VIRTIO_BLK_F_RO) (Z.shiftl 1 VIRTIO_BLK_F_SCSI))
    (Z.lor (Z.shiftl 1 VIRTIO_BLK_F_CONFIG_WCE) (Z.shiftl 1 VIRTIO_BLK_F_MQ)))
    (Z.lor (Z.shiftl 1 VIRTIO_F_ANY_LAYOUT)
      (Z.lor (Z.shiftl 1 VIRTIO_RING_F_EVENT_IDX) (Z.shiftl 1 VIRTIO_RING_F_INDIRECT_DESC))).

Section init.
Context `{L : Layout} {Mm : Mmio} {features : Z} (Hdev : virtio_device Mm features).

Lemma virtio_present_eq h v k e :
  exists h', virtio_present (W (at_io h v k) e) = Ret true (W (at_io h' v k) e) /\ stores h' = stores h.
Proof.
  unfold virtio_present. rewrite bind_mmio_load, (vr_magic _ _ Hdev). simpl.
  rewrite bind_mmio_load, (vr_version _ _ Hdev). simpl.
  rewrite bind_mmio_load, (vr_id _ _ Hdev). simpl.
  rewrite bind_mmio_load, (vr_vendor _ _ Hdev). simpl. eexists. split; [reflexivity|]. done.
Qed.

Lemma init_free_eq h v k e :
  length (vd_free v) = 8%nat ->
  for_all (Z.to_nat NUM) 0 (fun i =>
    vdisk_mod (fun v => set_vd_free (<[Z.to_nat i := 1]> (vd_free v)) v)) (W (at_io h v k) e) =
  Ret tt (W (at_io h (set_vd_free (replicate 8 1) v) k) e).
Proof.
  intros Hl. destruct v as [? ? ? ? ? f ? ? ? ?].
  simpl in Hl. do 8 (destruct f as [|? f]; [done|]). destruct f; [|done]. reflexivity.
Qed.

(** The state [virtio_disk_init] leaves of the driver. *)
Definition inited (v : vdisk) : vdisk :=
  set_vd_free (replicate 8 1) (set_vd_used_ring (replicate 8 0) (set_vd_used_idx 0
    (set_vd_avail_ring (replicate 8 0) (set_vd_avail_idx 0 (set_vd_desc (replicate 8 desc0) v))))).

Lemma virtio_disk_init_run k e :
  length (vd_free (k_vdisk k)) = 8%nat -> Lvdisk ∉ k_held k ->
  exists h, virtio_disk_init (W k e) =
    Ret tt (W (set_k_mmio h (set_k_vdisk (inited (k_vdisk k)) k)) e) /\
  stores h = stores (k_mmio k) ++
    [(R VIRTIO_MMIO_STATUS, 1); (R VIRTIO_MMIO_STATUS, 3);
     (R VIRTIO_MMIO_DRIVER_FEATURES, u32 (Z.ldiff features unwanted));
     (R VIRTIO_MMIO_STATUS, 11); (R VIRTIO_MMIO_STATUS, 15);
     (R VIRTIO_MMIO_GUEST_PAGE_SIZE, PGSIZE); (R VIRTIO_MMIO_QUEUE_SEL, 0); (R VIRTIO_MMIO_QUEUE_NUM, NUM);
     (R VIRTIO_MMIO_QUEUE_PFN, u32 (Z.shiftr disk_pages PGSHIFT))].
Proof.
  intros Hl Hh. unfold virtio_disk_init, initlock. rewrite bind_kmod.
  rewrite (filter_ne_notin _ _ Hh). assert (set_k_held (k_held k) k = k) as -> by (by destruct k).
  assert (W k e = W (at_io (k_mmio k) (k_vdisk k) k) e) as -> by (by destruct k).
  destruct (virtio_present_eq (k_mmio k) (k_vdisk k) k e) as (h1 & Hp & Hs1).
  rewrite (bind_Ret _ _ _ _ _ Hp). cbv zeta. change (negb true) with false. cbv iota.
  rewrite !bind_mmio_store, bind_mmio_load, (vr_features _ _ Hdev), !bind_mmio_store, bind_mmio_load.
  match goal with |- context [mmio_value ?h ?a] => pose proof (vr_max _ _ Hdev h) as Hm; set (m := mmio_value h a) in * end.
  rewrite (proj2 (Z.eqb_neq m 0)) by (unfold NUM in *; lia). rewrite (proj2 (Z.ltb_ge m NUM)) by lia.
  rewrite bind_mmio_store, !bind_vdisk_io, bind_mmio_store, init_free_eq by done.
  eexists. split; [reflexivity|]. simpl. rewrite Hs1, <- !app_assoc. simpl. do 4 f_equal.
  unfold clear_feature, unwanted. rewrite !Z.ldiff_ldiff_l, !Z.lor_assoc. done.
Qed.
End init.

(** ** Properties *)

(** C11: the driver refines the synchronous disk of [Bio], which the buffer cache
    is proved against.  The driver has no request going on and the caller holds
    no lock; while it sleeps, the device serves the request and interrupts.  Then
    [virtio_disk_rw] returns in the state that [sync_disk] gives, except that
    [b->disk] is 0, that every descriptor is free again, that the accesses to the
    device's registers have been recorded, and that the processes which slept on
    the buffer or waited for a descriptor are runnable. *)
Theorem virtio_disk_rw_refines `{Mm : Mmio} dev `{!Device dev} k e p pr b write x :
  driver_idle (k_vdisk k) -> k_bufs k !! b = Some x -> 0 <= b_blockno x < 2 ^ 31 ->
  k_held k = [] -> k_noff k = 0%nat -> k_cur k = Some p -> k_procs k !! p = Some pr ->
  length (k_procs k) = Z.to_nat NPROC ->
  exists ks v io, sync_disk b write (W k e) = Ret tt (W ks e) /\ driver_idle v /\
    virtio_disk_rw b write (W k (irq_turn dev :: e)) = Ret tt (W
      (set_k_procs (procs_after p b (k_procs ks)) (set_k_mmio io (set_k_vdisk v
        (set_k_bufs (alter (set_b_disk 0) b (k_bufs ks)) ks)))) e).
Proof.
  intros Hi Hb Hn Hh Hoff Hc Hp Hnp.
  destruct (virtio_disk_rw_run dev k e p pr b write x) as (v & io & Hr & Hv); try done. rewrite Hr.
  assert (Lvdisk ∉ k_held k) as Hl by (rewrite Hh; set_solver). destruct write.
  - eexists _, v, io. split; [exact (sync_disk_writes b k e x Hb Hl)|]. split; [done|].
    do 2 f_equal. simpl. rewrite (list_alter_lookup _ _ _ _ Hb). by destruct k.
  - eexists _, v, io. split; [exact (sync_disk_reads b k e x Hb Hl)|]. split; [done|].
    do 2 f_equal. simpl. unfold bufs_after.
    erewrite list_alter_lookup by (apply list_lookup_insert_eq; by eapply lookup_lt_Some).
    rewrite list_insert_insert_eq. by destruct k.
Qed.

(** With a device that identifies itself as a legacy virtio disk,
    [virtio_disk_init] leaves the driver idle with every descriptor free, and
    the stores it has made to the device are the initialisation sequence of
    the specification in its order: acknowledge, driver, the features without
    the unwanted ones, features ok, driver ok, then the queue. *)
Theorem virtio_disk_init_ready `{L : Layout} `{Mm : Mmio} features k e :
  virtio_device Mm features -> k_vdisk k = vdisk0 -> k_mmio k = [] -> Lvdisk ∉ k_held k ->
  exists k', virtio_disk_init (W k e) = Ret tt (W k' e) /\ driver_idle (k_vdisk k') /\
    stores (k_mmio k') =
      [(R VIRTIO_MMIO_STATUS, 1); (R VIRTIO_MMIO_STATUS, 3);
       (R VIRTIO_MMIO_DRIVER_FEATURES, u32 (Z.ldiff features unwanted));
       (R VIRTIO_MMIO_STATUS, 11); (R VIRTIO_MMIO_STATUS, 15);
       (R VIRTIO_MMIO_GUEST_PAGE_SIZE, PGSIZE); (R VIRTIO_MMIO_QUEUE_SEL, 0); (R VIRTIO_MMIO_QUEUE_NUM, NUM);
       (R VIRTIO_MMIO_QUEUE_PFN, u32 (Z.shiftr disk_pages PGSHIFT))].
Proof.
  intros Hdev Hv Hm Hh.
  destruct (virtio_disk_init_run Hdev k e) as (h & Hr & Hs); [by rewrite Hv|done|].
  eexists. split; [exact Hr|]. rewrite Hm in Hs. split; [|exact Hs].
  simpl. rewrite Hv. by split.
Qed.

(** ** Examples *)

(** A device that does what the specification says. *)
Definition spec_device (k : kernel) : kernel :=
  let v := k_vdisk k in
  match vd_avail_ring v !! Z.to_nat (vd_used_idx v mod NUM) with
  | None => k
  | Some h =>
      match vd_ops v !! Z.to_nat h, vd_desc v !! Z.to_nat h with
      | Some op, Some d0 =>
          match vd_desc v !! Z.to_nat (vq_next d0) with
          | Some (mkDesc (Dbufdata b) _ _ _) =>
              match k_bufs k !! b with
              | Some x => set_k_vdisk (completed (Z.to_nat h) v)
                  (transfer b (rq_type op =? VIRTIO_BLK_T_OUT) (rq_sector op / (BSIZE / 512)) x k)
              | None => k
              end
          | _ => k
          end
      | _, _ => k
      end
  end.

#[export] Instance spec_device_ok : Device spec_device.
Proof.
  intros k h b write n x [Ha Hr Ho (i1 & i2 & H0 & H1 & H2)] Hb. unfold spec_device.
  rewrite Hr, Nat2Z.id, Ho, H0. simpl. rewrite Nat2Z.id, H1, Hb.
  rewrite Z.div_mul by done. by destruct write.
Qed.

(** The registers of qemu's disk. *)
Definition qemu_regs : Mmio := fun _ a =>
  if a =? R VIRTIO_MMIO_MAGIC_VALUE then 0x74726976
  else if a =? R VIRTIO_MMIO_VERSION then 1
  else if a =? R VIRTIO_MMIO_DEVICE_ID then 2
  else if a =? R VIRTIO_MMIO_VENDOR_ID then 0x554d4551
  else if a =? R VIRTIO_MMIO_DEVICE_FEATURES then 0x31006ed4
  else if a =? R VIRTIO_MMIO_QUEUE_NUM_MAX then 1024
  else 0.

Lemma qemu_device : virtio_device qemu_regs 0x31006ed4.
Proof. split; intros h; by vm_compute. Qed.

Lemma virtio_disk_init_ready_witness :
  exists k', @virtio_disk_init sample_layout qemu_regs (W kernel0 []) = Ret tt (W k' []) /\
    driver_idle (k_vdisk k') /\ length (stores (k_mmio k')) = 9%nat.
Proof.
  destruct (@virtio_disk_init_ready sample_layout qemu_regs 0x31006ed4 kernel0 [] qemu_device)
    as (k' & H1 & H2 & H3).
  - reflexivity.
  - reflexivity.
  - apply not_elem_of_nil.
  - exists k'. split; [exact H1|]. split; [exact H2|]. rewrite H3. reflexivity.
Defined.

(** Process 1 reads block 7 into buffer 0. *)
Definition sample_virtio : kernel :=
  set_k_vdisk (inited vdisk0) (set_k_bufs (<[0%nat := set_b_blockno 7 buf0]> (k_bufs kernel0)) sample_boot).

Lemma virtio_disk_rw_refines_witness :
  exists ks v io, sync_disk 0%nat false (W sample_virtio []) = Ret tt (W ks []) /\ driver_idle v /\
    virtio_disk_rw 0 false (W sample_virtio [@irq_turn qemu_regs spec_device]) = Ret tt (W
      (set_k_procs (procs_after 1 0 (k_procs ks)) (set_k_mmio io (set_k_vdisk v
        (set_k_bufs (alter (set_b_disk 0) 0%nat (k_bufs ks)) ks)))) []).
Proof.
  apply (@virtio_disk_rw_refines qemu_regs spec_device spec_device_ok sample_virtio [] 1
    sample_bproc 0 false (set_b_blockno 7 buf0)).
  - by split.
  - reflexivity.
  - simpl. lia.
  - reflexivity.
  - reflexivity.
  - reflexivity.
  - reflexivity.
  - reflexivity.
Defined.
