(* ===== verification/Log.v ===== *)
(** * log.c: the write-ahead log

    A transaction's blocks are first written to the log area, then the header
    block with their numbers -- the commit point -- and only then to their home
    locations.  The header block holds [n] at offset 0 and the block numbers
    after it. *)

From Stdlib Require Import ZArith Lia.
From stdpp Require Import base gmap list strings numbers.
From S2P Require Import Prelude Riscv State Klib Sched Bio.

(** ** Definitions *)

(** [sizeof(struct logheader)]. *)
Definition sizeof_logheader : Z := 4 + 4 * LOGSIZE.

(** [log.lh.block[i]], reading and writing. *)
Definition lh_get (i : Z) : K Z :=
  let* l := kget k_log in nth_or_fault "log.lh.block" (l_block l) i.
Definition lh_set (i v : Z) : K unit :=
  let* _ := lh_get i in
  log_mod (fun l => set_l_block (<[Z.to_nat i := v]> (l_block l)) l).

Section log.
Context `{D : Disk}.

(** The body of [install_trans]'s loop. *)
Definition install_one (recovering : bool) (tail : Z) : K unit :=
  let* l := kget k_log in
  let* lbuf := bread (u32 (l_dev l)) (u32 (l_start l + tail + 1)) in
  let* bn := lh_get tail in
  let* dbuf := bread (u32 (l_dev l)) (u32 bn) in
  let* x := buf_get lbuf in
  buf_mod dbuf (set_b_data (b_data x)) ;;;
  bwrite dbuf ;;;
  when (negb recovering) (bunpin dbuf) ;;;
  brelse lbuf ;;;
  brelse dbuf.

Definition install_trans (recovering : bool) : K unit :=
  let* l := kget k_log in
  for_all (Z.to_nat (l_n l)) 0 (install_one recovering).

Definition read_head : K unit :=
  let* l := kget k_log in
  let* buf := bread (u32 (l_dev l)) (u32 (l_start l)) in
  let* x := buf_get buf in
  let n := s32 (get32 (b_data x) 0) in
  log_mod (set_l_n n) ;;;
  for_all (Z.to_nat n) 0 (fun i => lh_set i (s32 (get32 (b_data x) (4 + 4 * i)))) ;;;
  brelse buf.

(** [hb->block[i] = log.lh.block[i];] for [i] from 0 to [n]. *)
Definition put_head (l : log) (d : list Z) : list Z :=
  fold_left (fun d i => put32 d (4 + 4 * Z.of_nat i) (default 0 (l_block l !! i)))
    (seq 0 (Z.to_nat (l_n l))) (put32 d 0 (l_n l)).

Definition write_head : K unit :=
  let* l := kget k_log in
  let* buf := bread (u32 (l_dev l)) (u32 (l_start l)) in
  let* l := kget k_log in
  buf_mod buf (fun x => set_b_data (put_head l (b_data x)) x) ;;;
  bwrite buf ;;;
  brelse buf.

Definition recover_from_log : K unit :=
  read_head ;;;
  install_trans true ;;;
  log_mod (set_l_n 0) ;;;
  write_head.

Definition initlog (dev : Z) (sb : superblock) : K unit :=
  if BSIZE <=? sizeof_logheader then panic "initlog: too big logheader" else
  initlock Llog ;;;
  log_mod (set_l_start (s32 (sb_logstart sb))) ;;;
  log_mod (set_l_size (s32 (sb_nlog sb))) ;;;
  log_mod (set_l_dev dev) ;;;
  recover_from_log.

(** Each turn that sleeps uses up one element of the schedule. *)
Definition begin_op : K unit :=
  acquire Llog ;;;
  fun w =>
    while_ (S (length (wenv w)))
      (fun _ : unit =>
         let* l := kget k_log in
         if truth (l_committing l) then sleep Clog Llog ;;; ret (inl tt)
         else if LOGSIZE <? l_n l + (l_outstanding l + 1) * MAXOPBLOCKS
         then sleep Clog Llog ;;; ret (inl tt)
         else
           log_mod (fun l => set_l_outstanding (l_outstanding l + 1) l) ;;;
           release Llog ;;;
           ret (inr tt)) tt w.

(** The body of [write_log]'s loop. *)
Definition log_one (tail : Z) : K unit :=
  let* l := kget k_log in
  let* to := bread (u32 (l_dev l)) (u32 (l_start l + tail + 1)) in
  let* bn := lh_get tail in
  let* from := bread (u32 (l_dev l)) (u32 bn) in
  let* x := buf_get from in
  buf_mod to (set_b_data (b_data x)) ;;;
  bwrite to ;;;
  brelse from ;;;
  brelse to.

Definition write_log : K unit :=
  let* l := kget k_log in
  for_all (Z.to_nat (l_n l)) 0 log_one.

Definition commit : K unit :=
  let* l := kget k_log in
  when (0 <? l_n l)
    (write_log ;;;
     write_head ;;;
     install_trans false ;;;
     log_mod (set_l_n 0) ;;;
     write_head).

Definition end_op : K unit :=
  acquire Llog ;;;
  log_mod (fun l => set_l_outstanding (l_outstanding l - 1) l) ;;;
  let* l := kget k_log in
  if truth (l_committing l) then panic "log.committing" else
  let do_commit := l_outstanding l =? 0 in
  (if do_commit then log_mod (set_l_committing 1) else wakeup Clog) ;;;
  release Llog ;;;
  when do_commit
    (commit ;;;
     acquire Llog ;;;
     log_mod (set_l_committing 0) ;;;
     wakeup Clog ;;;
     release Llog).

(** The first of the [n] logged blocks with number [blockno], [n] if none. *)
Fixpoint log_index (blocks : list Z) (n : nat) (blockno : Z) : nat :=
  match n, blocks with
  | S n', b :: blocks' => if b =? blockno then 0%nat else S (log_index blocks' n' blockno)
  | _, _ => 0%nat
  end.

Definition log_write (b : nat) : K unit :=
  acquire Llog ;;;
  let* l := kget k_log in
  if (LOGSIZE <=? l_n l) || (l_size l - 1 <=? l_n l) then panic "too big a transaction" else
  if l_outstanding l <? 1 then panic "log_write outside of trans" else
  let* x := buf_get b in
  let i := Z.of_nat (log_index (l_block l) (Z.to_nat (l_n l)) (s32 (b_blockno x))) in
  lh_set i (s32 (b_blockno x)) ;;;
  when (i =? l_n l)
    (bpin b ;;;
     log_mod (fun l => set_l_n (l_n l + 1) l)) ;;;
  release Llog.

End log.

(** ** Lemmas *)

(** *** Running with power failures *)

(** A driver during whose writes the power may fail: [stop b k] says whether it
    fails when buffer [b] is about to be written in state [k].  The machine
    then stops in that state; a block is written whole or not at all. *)
Definition power_disk (stop : nat -> kernel -> bool) : Disk := fun b write w =>
  if write && stop b (wk w) then Hang w else sync_disk b write w.

#[export] Instance power_disk_reads stop : DiskReads (power_disk stop).
Proof. intros b k e x. apply (sync_disk_reads b k e x). Qed.

(** [m] returns from [w] in [Q], or the power fails in [C]. *)
Definition wpc (stop : nat -> kernel -> bool) {A} (m : K A) (w : world)
    (Q : A -> world -> Prop) (C : world -> Prop) : Prop :=
  match m w with
  | Ret a w' => Q a w'
  | Hang w' => C w' /\ exists b k, stop b k = true
  | _ => False
  end.

Lemma wpc_bind {stop} {A B} (m : K A) (f : A -> K B) w Q R C :
  wpc stop m w Q C -> (forall a w', Q a w' -> wpc stop (f a) w' R C) -> wpc stop (bind m f) w R C.
Proof.
  unfold wpc, bind. intros Hm Hf. destruct (m w); try done. by apply Hf.
Qed.

Lemma wpc_step {stop} {A B} (m : K A) (f : A -> K B) w a w' R C :
  m w = Ret a w' -> wpc stop (f a) w' R C -> wpc stop (bind m f) w R C.
Proof. intros Hm. unfold wpc. by rewrite (bind_Ret _ _ _ _ _ Hm). Qed.

Lemma wpc_ret {stop} {A} (m : K A) w Q C a w' : wpc stop m w Q C -> m w = Ret a w' -> Q a w'.
Proof. unfold wpc. intros H E. by rewrite E in H. Qed.

Lemma wpc_hang {stop} {A} (m : K A) w Q C w' : wpc stop m w Q C -> m w = Hang w' -> C w'.
Proof. unfold wpc. intros H E. rewrite E in H. by destruct H. Qed.

Lemma wpc_mono {stop} {A} (m : K A) w (Q Q' : A -> world -> Prop) (C C' : world -> Prop) :
  wpc stop m w Q C -> (forall a w', Q a w' -> Q' a w') -> (forall w', C w' -> C' w') -> wpc stop m w Q' C'.
Proof. unfold wpc. intros H HQ HC. destruct (m w); auto. destruct H. auto. Qed.

(** What [wpc] says of the outcome. *)
Lemma wpc_outcome {stop} {A} (m : K A) w (Q Q' : A -> world -> Prop) (C C' : world -> Prop) :
  wpc stop m w Q C -> (forall a w', Q a w' -> Q' a w') -> (forall w', C w' -> C' w') ->
  match m w with Ret a w' => Q' a w' | Hang w' => C' w' | _ => False end.
Proof. unfold wpc. intros H HQ HC. destruct (m w); auto. destruct H. auto. Qed.

Lemma wpc_for_from {stop} {R} (I : Z -> world -> Prop) (C : world -> Prop)
    (body : Z -> K (option R)) n i w :
  I i w ->
  (forall j w', i <= j < i + Z.of_nat n -> I j w' ->
     wpc stop (body j) w' (fun r w'' => r = None /\ I (j + 1) w'') C) ->
  wpc stop (for_from n i body) w (fun r w' => r = None /\ I (i + Z.of_nat n) w') C.
Proof.
  revert i w. induction n as [|n IH]; intros i w HI Hb.
  - unfold wpc. simpl. by rewrite Z.add_0_r.
  - unfold wpc. rewrite for_from_S. fold (wpc stop (A := option R)).
    eapply wpc_bind; [apply Hb; [lia|done]|]. intros r w' [-> HI'].
    replace (i + Z.of_nat (S n)) with (i + 1 + Z.of_nat n) by lia.
    apply IH; [done|]. intros j w'' Hj. apply Hb. lia.
Qed.

Lemma wpc_for_all {stop} (I : Z -> world -> Prop) (C : world -> Prop) (body : Z -> K unit) n i w :
  I i w ->
  (forall j w', i <= j < i + Z.of_nat n -> I j w' -> wpc stop (body j) w' (fun _ w'' => I (j + 1) w'') C) ->
  wpc stop (for_all n i body) w (fun _ w' => I (i + Z.of_nat n) w') C.
Proof.
  intros HI Hb. unfold for_all. eapply wpc_bind; [apply (wpc_for_from I C)|].
  - done.
  - intros j w' Hj HIj. eapply wpc_bind; [by apply Hb|]. intros u w'' H. by split.
  - intros r w' [-> H]. exact H.
Qed.

(** *** The header block *)

Definition hdr_n (h : list Z) : Z := s32 (get32 h 0).
Definition hdr_block (h : list Z) (i : Z) : Z := s32 (get32 h (4 + 4 * i)).

Lemma get_put32_ne d off v off' :
  0 <= off -> off + 4 <= Z.of_nat (length d) -> 0 <= off' -> off' + 4 <= off \/ off + 4 <= off' ->
  get32 (put32 d off v) off' = get32 d off'.
Proof.
  intros. unfold get32, put32. f_equal. apply get_put_bytes_ne; rewrite ?length_le_bytes; lia.
Qed.

Lemma s32_u32 z : s32 (u32 z) = s32 z.
Proof. unfold s32, sx, u32. by rewrite Z.mod_mod. Qed.

(** [write_head] stores what [read_head] will find. *)
Lemma put_head_spec l d :
  length d = Z.to_nat BSIZE -> 0 <= l_n l <= LOGSIZE ->
  length (put_head l d) = Z.to_nat BSIZE /\ hdr_n (put_head l d) = s32 (l_n l) /\
  forall i, 0 <= i < l_n l ->
    hdr_block (put_head l d) i = s32 (default 0 (l_block l !! Z.to_nat i)).
Proof.
  intros Hd Hn. unfold put_head. set (d0 := put32 d 0 (l_n l)).
  assert (length d0 = Z.to_nat BSIZE /\ hdr_n d0 = s32 (l_n l)) as [L0 N0].
  { unfold d0. rewrite length_put32 by (rewrite ?Hd; unfold BSIZE; lia). split; [done|].
    unfold hdr_n. rewrite get_put32_eq by (rewrite ?Hd; unfold BSIZE; lia). apply s32_u32. }
  clearbody d0. set (f := fun (d : list Z) (i : nat) => put32 d (4 + 4 * Z.of_nat i) (default 0 (l_block l !! i))).
  assert (forall n, (n <= Z.to_nat (l_n l))%nat ->
    length (fold_left f (seq 0 n) d0) = Z.to_nat BSIZE /\ hdr_n (fold_left f (seq 0 n) d0) = s32 (l_n l) /\
    forall i, 0 <= i < Z.of_nat n ->
      hdr_block (fold_left f (seq 0 n) d0) i = s32 (default 0 (l_block l !! Z.to_nat i))) as H.
  2:{ destruct (H (Z.to_nat (l_n l))) as (H1 & H2 & H3); [lia|].
      split_and!; [done..|]. intros i Hi. apply H3. lia. }
  induction n as [|n IH]; intros Hle; [split_and!; [done..|]; lia|].
  rewrite seq_S, fold_left_app. simpl. destruct IH as (H1 & H2 & H3); [lia|].
  set (d1 := fold_left f (seq 0 n) d0) in *. clearbody d1. unfold f. unfold LOGSIZE, MAXOPBLOCKS in Hn.
  rewrite length_put32 by (rewrite ?H1; unfold BSIZE; lia). split; [done|]. split.
  - unfold hdr_n. rewrite get_put32_ne by (rewrite ?H1; unfold BSIZE; lia). exact H2.
  - intros i Hi. unfold hdr_block. destruct (decide (i = Z.of_nat n)) as [->|Hne].
    + rewrite get_put32_eq by (rewrite ?H1; unfold BSIZE; lia). rewrite s32_u32. by rewrite Nat2Z.id.
    + rewrite get_put32_ne by (rewrite ?H1; unfold BSIZE; lia). apply H3. lia.
Qed.

(** *** States of the cache during a commit *)

Definition zupd {A} (f : Z -> A) (n : Z) (v : A) : Z -> A := fun m => if decide (m = n) then v else f m.

Lemma zupd_eq {A} (f : Z -> A) n v : zupd f n v n = v.
Proof. unfold zupd. by rewrite decide_True. Qed.

Lemma zupd_ne {A} (f : Z -> A) n v m : m <> n -> zupd f n v m = f m.
Proof. intros. unfold zupd. by rewrite decide_False. Qed.

(** Process [pr] runs with the log record [lg]; block [m] has [R m] references,
    lock [Lk m] and contents [C m], the disk has [D m]; at most [U] buffers
    are in use. *)
Record st (p : nat) (pr : proc) (lg : log) (k : kernel)
    (R Lk : Z -> Z) (C D : Z -> list Z) (U : nat) : Prop := {
  st_calm : calm p pr k;
  st_inv : exists l, cache_inv k l;
  st_log : k_log k = lg;
  st_ref : forall m, lref k m = R m;
  st_lock : forall m, llock k m = Lk m;
  st_blk : forall m, lblk k m = C m;
  st_disk : forall m, disk_block k m = D m;
  st_used : (nused (k_bufs k) <= U)%nat;
  st_free : Llog ∉ k_held k;
}.

Lemma st_ext p pr lg k R Lk C D U R' Lk' C' D' U' :
  st p pr lg k R Lk C D U ->
  (forall m, R m = R' m) -> (forall m, Lk m = Lk' m) -> (forall m, C m = C' m) ->
  (forall m, D m = D' m) -> (U <= U')%nat -> st p pr lg k R' Lk' C' D' U'.
Proof.
  intros [] HR HL HC HD HU. split; try done.
  - intros m. by rewrite <- HR.
  - intros m. by rewrite <- HL.
  - intros m. by rewrite <- HC.
  - intros m. by rewrite <- HD.
  - lia.
Qed.

(** The state but for the cache, the log record and the disk; sleeping
    processes may have been woken. *)
Definition same_io (k k' : kernel) : Prop :=
  exists bs ps lg dk, woken (k_procs k) ps /\ k' = set_k_disk dk (set_k_log lg (set_k_procs ps (set_k_bufs bs k))).

#[export] Instance same_io_refl : Reflexive same_io.
Proof. intros k. exists (k_bufs k), (k_procs k), (k_log k), (k_disk k). split; [done|]. by destruct k. Qed.
#[export] Instance same_io_trans : Transitive same_io.
Proof.
  intros k1 k2 k3 (b1 & p1 & l1 & d1 & W1 & ->) (b2 & p2 & l2 & d2 & W2 & ->). exists b2, p2, l2, d2.
  split; [by rewrite W1|]. by destruct k1.
Qed.

Lemma same_io_bufs bs k : same_io k (set_k_bufs bs k).
Proof. exists bs, (k_procs k), (k_log k), (k_disk k). split; [done|]. by destruct k. Qed.
Lemma same_io_log lg k : same_io k (set_k_log lg k).
Proof. exists (k_bufs k), (k_procs k), lg, (k_disk k). split; [done|]. by destruct k. Qed.

(** The view after a change at block [n] alone. *)
Lemma at_block_view n k k' c r lk R Lk C :
  at_block n k k' c r lk ->
  (forall m, lref k m = R m) -> (forall m, llock k m = Lk m) -> (forall m, lblk k m = C m) ->
  (forall m, lref k' m = zupd R n r m) /\ (forall m, llock k' m = zupd Lk n lk m) /\
  (forall m, lblk k' m = zupd C n c m).
Proof.
  intros [H1 H2 H3 H4 _] HR HL HC. split_and!; intros m; unfold zupd;
    destruct (decide (m = n)) as [->|Hm]; try done; destruct (H4 m Hm) as (E1 & E2 & E3); congruence.
Qed.

Section triples.
Context `{D : Disk} {DR : DiskReads D} {p : nat} {pr : proc} {lg : log}.
Context {k : kernel} {R Lk : Z -> Z} {C Dk : Z -> list Z} {U : nat}.
Hypothesis Hst : st p pr lg k R Lk C Dk U.

Lemma bread_st n e :
  Lk n = 0 -> R n + 1 < 2 ^ 32 -> (U < HEAD)%nat \/ 0 < R n ->
  exists b k', bread ROOTDEV n (W k e) = Ret b (W k' e) /\
    st p pr lg k' (zupd R n (R n + 1)) (zupd Lk n 1) C Dk (U + (if (R n =? 0)%Z then 1 else 0)) /\
    holds (p_pid pr) k' n b /\ keeps n k k' /\ same_io k k'.
Proof.
  intros Hl Hr Hu. destruct Hst as [Hc [l Hi] Hg HR HL HC HD HU Hf].
  destruct (bread_run Hc Hi n e) as (b & bs & Hrun & [H1 H2 H3 H4]).
  - by rewrite HL.
  - by rewrite HR.
  - rewrite HR. destruct Hu; [left; lia|by right].
  - exists b, (set_k_bufs bs k). split; [done|].
    destruct (at_block_view _ _ _ _ _ _ R Lk C H2 HR HL HC) as (V1 & V2 & V3).
    split; [|split_and!; [done|apply H2|apply same_io_bufs]]. split.
    + by apply calm_set_bufs.
    + by exists l.
    + done.
    + intros m. by rewrite V1, HR.
    + done.
    + intros m. rewrite V3. unfold zupd. destruct (decide (m = n)) as [->|]; [apply HC|done].
    + done.
    + rewrite H4, HR. lia.
    + done.
Qed.

Lemma brelse_st n b e :
  holds (p_pid pr) k n b -> 0 < R n -> (R n = 1 -> C n = Dk n) ->
  exists k', brelse b (W k e) = Ret tt (W k' e) /\
    st p pr lg k' (zupd R n (R n - 1)) (zupd Lk n 0) C Dk (U - (if (R n =? 1)%Z then 1 else 0)) /\
    keeps n k k' /\ same_io k k'.
Proof.
  intros Hh Hr Hcl. destruct Hst as [Hc [l Hi] Hg HR HL HC HD HU Hf].
  destruct (brelse_run Hc Hi n b e Hh) as (bs & ps & l' & Hrun & Hw & Hc' & [H1 H2 H3 H4 _]).
  - by rewrite HR.
  - by rewrite HR, HC, HD.
  - eexists. split; [exact Hrun|]. split; [|split; [apply H2|]].
    2:{ exists bs, ps, (k_log k), (k_disk k). split; [done|]. by destruct k. }
    destruct (at_block_view _ _ _ _ _ _ R Lk C H2 HR HL HC) as (V1 & V2 & V3). split.
    + done.
    + by exists l'.
    + done.
    + intros m. by rewrite V1, HR.
    + done.
    + intros m. rewrite V3. unfold zupd. destruct (decide (m = n)) as [->|]; [apply HC|done].
    + done.
    + rewrite HR in H4. destruct (R n =? 1); lia.
    + done.
Qed.

Lemma store_st n b d e :
  holds (p_pid pr) k n b -> 0 < R n ->
  exists k', buf_mod b (set_b_data d) (W k e) = Ret tt (W k' e) /\
    st p pr lg k' R Lk (zupd C n d) Dk U /\ holds (p_pid pr) k' n b /\ keeps n k k' /\ same_io k k'.
Proof.
  intros Hh Hr. destruct Hst as [Hc [l Hi] Hg HR HL HC HD HU Hf].
  destruct (store_run k l (p_pid pr) n b d Hi Hh) as (H1 & H2 & H3 & H4); [by rewrite HR|].
  eexists. split; [reflexivity|]. simpl. split; [|split_and!; [done|apply H2|apply same_io_bufs]].
  destruct (at_block_view _ _ _ _ _ _ R Lk C H2 HR HL HC) as (V1 & V2 & V3). split.
  - by apply calm_set_bufs.
  - by exists l.
  - done.
  - intros m. rewrite V1, HR. unfold zupd. by destruct (decide (m = n)) as [->|].
  - intros m. rewrite V2, HL. unfold zupd. by destruct (decide (m = n)) as [->|].
  - done.
  - done.
  - simpl in *. lia.
  - done.
Qed.

Lemma bunpin_st n b e :
  holds (p_pid pr) k n b -> 1 < R n ->
  exists k', bunpin b (W k e) = Ret tt (W k' e) /\
    st p pr lg k' (zupd R n (R n - 1)) Lk C Dk U /\ holds (p_pid pr) k' n b /\ keeps n k k' /\ same_io k k'.
Proof.
  intros Hh Hr. destruct Hst as [Hc [l Hi] Hg HR HL HC HD HU Hf].
  assert (lref k n < 2 ^ 32) as Hlt.
  { unfold lref. rewrite (h_slot _ _ _ _ Hh). apply (ci_ref _ _ Hi).
    apply (slot_spec Hi n b). apply Hh. }
  rewrite HR in Hlt. pose proof (h_slot _ _ _ _ Hh) as Hs.
  destruct (repin_run Hi n b (lref k n - 1) Hs) as (H1 & H2 & H3 & H4); [rewrite HR; lia..|].
  eexists. split; [apply (bunpin_eq Hc Hi n b e Hs); rewrite HR; lia|].
  split; [|split_and!; [by apply H3|apply H2|apply same_io_bufs]].
  destruct (at_block_view _ _ _ _ _ _ R Lk C H2 HR HL HC) as (V1 & V2 & V3). split.
  - by apply calm_set_bufs.
  - by exists l.
  - done.
  - intros m. by rewrite V1, HR.
  - intros m. rewrite V2, HL. unfold zupd. by destruct (decide (m = n)) as [->|].
  - intros m. rewrite V3. unfold zupd. destruct (decide (m = n)) as [->|]; [apply HC|done].
  - done.
  - simpl in *. lia.
  - done.
Qed.

Lemma held_data n b e :
  holds (p_pid pr) k n b -> exists x, buf_get b (W k e) = Ret x (W k e) /\ b_data x = C n.
Proof.
  intros Hh. destruct Hst as [Hc [l Hi] Hg HR HL HC HD HU Hf].
  exists (bufat (k_bufs k) b). split.
  - apply buf_get_run. rewrite (ring_length _ _ (ci_ring _ _ Hi)).
    pose proof (proj1 (slot_spec Hi n b) (h_slot _ _ _ _ Hh)) as (H & _). lia.
  - rewrite (holds_data _ _ _ _ Hh). apply HC.
Qed.
End triples.

(** A write to the disk, with and without power failures. *)
Section bwrite.
Context {p : nat} {pr : proc} {lg : log}.
Context {k : kernel} {R Lk : Z -> Z} {C Dk : Z -> list Z} {U : nat}.
Hypothesis Hst : st p pr lg k R Lk C Dk U.

Definition sync_st (n : Z) (b : nat) (k' : kernel) : Prop :=
  st p pr lg k' R Lk C (zupd Dk n (C n)) U /\ holds (p_pid pr) k' n b /\ keeps n k k' /\ same_io k k'.

Lemma bwrite_st `{D : Disk} {DW : DiskWrites D} n b e :
  holds (p_pid pr) k n b -> exists k', bwrite b (W k e) = Ret tt (W k' e) /\ sync_st n b k'.
Proof.
  intros Hh. destruct Hst as [Hc [l Hi] Hg HR HL HC HD HU Hf].
  destruct (disk_store_run k l (p_pid pr) n b Hi Hh) as (H1 & H2 & H3 & H4).
  eexists. split; [exact (bwrite_eq Hc Hi n b e Hh)|]. split; [|split_and!; [done|apply H2|]].
  2:{ eexists (k_bufs k), (k_procs k), (k_log k), _. by destruct k. }
  destruct (at_block_view _ _ _ _ _ _ R Lk C H2 HR HL HC) as (V1 & V2 & V3). split.
  - by destruct Hc.
  - by exists l.
  - done.
  - intros m. rewrite V1, HR. unfold zupd. by destruct (decide (m = n)) as [->|].
  - intros m. rewrite V2, HL. unfold zupd. by destruct (decide (m = n)) as [->|].
  - intros m. rewrite V3. unfold zupd. destruct (decide (m = n)) as [->|]; [apply HC|done].
  - intros m. rewrite H4. unfold zupd. destruct (decide (m = n)) as [->|]; [apply HC|apply HD].
  - exact HU.
  - done.
Qed.

Lemma bwrite_power stop n b e :
  holds (p_pid pr) k n b ->
  wpc stop (bwrite (D := power_disk stop) b) (W k e)
    (fun _ w => exists k', w = W k' e /\ sync_st n b k') (fun w => w = W k e).
Proof.
  intros Hh. destruct (bwrite_st (D := sync_disk) n b e Hh) as (k' & Hrun & Hk').
  destruct Hst as [Hc [l Hi] Hg HR HL HC HD HU Hf].
  unfold bwrite in *. rewrite (bind_Ret _ _ _ _ _ (held_run Hc Hi n b e Hh)) in Hrun.
  eapply wpc_step; [exact (held_run Hc Hi n b e Hh)|]. simpl in *.
  unfold wpc, virtio_disk_rw, power_disk. simpl. destruct (stop b k) eqn:Es; simpl; [split; [done|by exists b, k]|].
  unfold virtio_disk_rw in Hrun. rewrite Hrun. by exists k'.
Qed.
End bwrite.

(** *** The loops *)

Definition in_log (lg : log) (b : Z) : Prop := l_start lg <= b < l_start lg + l_size lg.
(** The [i]th logged block, and where the log keeps its copy. *)
Definition home (lg : log) (i : Z) : Z := default 0 (l_block lg !! Z.to_nat i).
Definition area (lg : log) (i : Z) : Z := l_start lg + 1 + i.

(** A log record that fits its area on disk and lists distinct blocks outside it. *)
Record log_ok (lg : log) : Prop := {
  lo_dev : l_dev lg = ROOTDEV;
  lo_start : 0 <= l_start lg;
  lo_size : l_start lg + l_size lg < 2 ^ 31;
  lo_n : 0 <= l_n lg <= LOGSIZE;
  lo_fits : l_n lg < l_size lg;
  lo_len : length (l_block lg) = Z.to_nat LOGSIZE;
  lo_home : forall i, 0 <= i < l_n lg -> 0 <= home lg i < 2 ^ 31 /\ ~ in_log lg (home lg i);
  lo_distinct : forall i j, 0 <= i < l_n lg -> 0 <= j < l_n lg -> home lg i = home lg j -> i = j;
}.

Lemma lh_get_in lg k i e :
  k_log k = lg -> 0 <= i < Z.of_nat (length (l_block lg)) -> lh_get i (W k e) = Ret (home lg i) (W k e).
Proof.
  intros Hg Hi. unfold lh_get. rewrite bind_kget, Hg. unfold nth_or_fault.
  destruct (Z.ltb_spec i 0); [lia|]. unfold home.
  destruct (l_block lg !! Z.to_nat i) eqn:E; [done|]. apply lookup_ge_None in E. lia.
Qed.

Lemma lh_get_eq lg k i e :
  log_ok lg -> k_log k = lg -> 0 <= i < l_n lg -> lh_get i (W k e) = Ret (home lg i) (W k e).
Proof.
  intros Hok Hg Hi. apply lh_get_in; [done|]. rewrite (lo_len _ Hok). pose proof (lo_n _ Hok). lia.
Qed.

Lemma area_spec lg i :
  log_ok lg -> 0 <= i < l_n lg ->
  u32 (l_start lg + i + 1) = area lg i /\ u32 (home lg i) = home lg i /\ u32 (l_dev lg) = ROOTDEV /\
  area lg i <> home lg i /\ in_log lg (area lg i) /\ area lg i <> l_start lg.
Proof.
  intros [] Hi. destruct (lo_home0 i Hi) as [Hh Hn]. unfold area, in_log in *. split_and!.
  - rewrite u32_small by lia. lia.
  - apply u32_small. lia.
  - by rewrite lo_dev0.
  - lia.
  - lia.
  - lia.
  - lia.
Qed.

(** Two descriptions of a state agree. *)
Ltac zupd_cases :=
  unfold zupd; repeat (case_decide; subst; try congruence);
  repeat match goal with |- context [Z.eqb ?x ?y] => destruct (Z.eqb_spec x y) end;
  try congruence; try lia.
Ltac st_close H := eapply st_ext; [exact H|intros m; zupd_cases..|zupd_cases].

Section loops.
Context {p : nat} {pr : proc} {lg : log} (Hok : log_ok lg).

(** Only the disk survives a power failure. *)
Definition disk_is (Dk : Z -> list Z) (e : list (kernel -> kernel)) (w : world) : Prop :=
  exists k, w = W k e /\ forall m, disk_block k m = Dk m.

Lemma log_one_st stop i k R C Dk U e :
  0 <= i < l_n lg -> st p pr lg k R (fun _ => 0) C Dk U -> (U < HEAD)%nat ->
  R (area lg i) = 0 -> 0 < R (home lg i) < 2 ^ 31 ->
  wpc stop (log_one (D := power_disk stop) i) (W k e)
    (fun _ w => exists k', w = W k' e /\ same_io k k' /\
       st p pr lg k' R (fun _ => 0) (zupd C (area lg i) (C (home lg i)))
         (zupd Dk (area lg i) (C (home lg i))) U)
    (disk_is Dk e).
Proof.
  intros Hi H0 HU Ra Rh. destruct (area_spec lg i Hok Hi) as (Ea & Eh & Ed & Hne & _).
  set (a := area lg i) in *. set (h := home lg i) in *.
  unfold log_one. eapply wpc_step; [reflexivity|]. simpl. rewrite (st_log _ _ _ _ _ _ _ _ _ H0), Ea, Ed.
  destruct (bread_st (D := power_disk stop) H0 a e) as (to & k1 & Hr1 & H1 & Hh1 & _ & I1); [done|lia|by left|].
  eapply wpc_step; [exact Hr1|].
  eapply wpc_step; [apply (lh_get_eq lg); [done|apply H1|done]|]. fold h. rewrite Eh.
  destruct (bread_st (D := power_disk stop) H1 h e) as (from & k2 & Hr2 & H2 & Hh2 & Kp2 & I2).
  { by rewrite zupd_ne. } { rewrite zupd_ne by done. lia. } { right. rewrite zupd_ne by done. lia. }
  eapply wpc_step; [exact Hr2|].
  destruct (held_data H2 h from e Hh2) as (x & Hx & Ex). eapply wpc_step; [exact Hx|].
  assert (holds (p_pid pr) k2 a to) as Hto2 by (by apply Kp2).
  destruct (store_st H2 a to (b_data x) e Hto2) as (k3 & Hr3 & H3 & Hto3 & Kp3 & I3).
  { rewrite zupd_ne, zupd_eq by done. lia. }
  eapply wpc_step; [exact Hr3|].
  eapply wpc_bind.
  { eapply wpc_mono; [exact (bwrite_power H3 stop a to e Hto3)|intros ? ? H; exact H|].
    intros w ->. exists k3. split; [done|apply H3]. }
  intros _ w (k4 & -> & H4 & Hto4 & Kp4 & I4).
  assert (holds (p_pid pr) k4 h from) as Hf4 by (apply Kp4; [done|]; apply Kp3; done).
  destruct (brelse_st H4 h from e Hf4) as (k5 & Hr5 & H5 & Kp5 & I5).
  { rewrite zupd_eq, zupd_ne by done. lia. } { rewrite zupd_eq, zupd_ne by done. lia. }
  eapply wpc_step; [exact Hr5|].
  assert (holds (p_pid pr) k5 a to) as Hto5 by (by apply Kp5).
  destruct (brelse_st H5 a to e Hto5) as (k6 & Hr6 & H6 & _ & I6).
  { rewrite !zupd_ne, zupd_eq by done. lia. } { intros _. by rewrite !zupd_eq. }
  unfold wpc. rewrite Hr6. exists k6. split; [done|]. rewrite Ex in H6.
  split; [by rewrite I1, I2, I3, I4, I5|].
  st_close H6.
Qed.

Lemma install_one_st stop (rec : bool) i k R C Dk U e :
  0 <= i < l_n lg -> st p pr lg k R (fun _ => 0) C Dk U -> (U < HEAD)%nat ->
  R (area lg i) = 0 -> C (area lg i) = Dk (area lg i) -> R (home lg i) < 2 ^ 31 ->
  (rec = false /\ 0 < R (home lg i) \/ rec = true /\ (S U < HEAD)%nat /\ 0 <= R (home lg i)) ->
  wpc stop (install_one (D := power_disk stop) rec i) (W k e)
    (fun _ w => exists k', w = W k' e /\ same_io k k' /\
       st p pr lg k' (zupd R (home lg i) (R (home lg i) - (if rec then 0 else 1))) (fun _ => 0)
         (zupd C (home lg i) (C (area lg i))) (zupd Dk (home lg i) (C (area lg i))) U)
    (disk_is Dk e).
Proof.
  intros Hi H0 HU Ra Ca Rh Hrec. destruct (area_spec lg i Hok Hi) as (Ea & Eh & Ed & Hne & _).
  set (a := area lg i) in *. set (h := home lg i) in *.
  unfold install_one. eapply wpc_step; [reflexivity|]. simpl. rewrite (st_log _ _ _ _ _ _ _ _ _ H0), Ea, Ed.
  destruct (bread_st (D := power_disk stop) H0 a e) as (lb & k1 & Hr1 & H1 & Hh1 & _ & I1); [done|lia|by left|].
  eapply wpc_step; [exact Hr1|].
  eapply wpc_step; [apply (lh_get_eq lg); [done|apply H1|done]|]. fold h. rewrite Eh.
  destruct (bread_st (D := power_disk stop) H1 h e) as (db & k2 & Hr2 & H2 & Hh2 & Kp2 & I2).
  { by rewrite zupd_ne. } { rewrite zupd_ne by done. lia. }
  { rewrite zupd_ne, Ra by done. simpl. destruct Hrec as [[_ ?]|(_ & ? & _)]; [by right|left; lia]. }
  eapply wpc_step; [exact Hr2|].
  assert (holds (p_pid pr) k2 a lb) as Hlb2 by (by apply Kp2).
  destruct (held_data H2 a lb e Hlb2) as (x & Hx & Ex). eapply wpc_step; [exact Hx|].
  destruct (store_st H2 h db (b_data x) e Hh2) as (k3 & Hr3 & H3 & Hdb3 & Kp3 & I3).
  { zupd_cases. }
  eapply wpc_step; [exact Hr3|]. rewrite Ex in H3.
  eapply wpc_bind.
  { eapply wpc_mono; [exact (bwrite_power H3 stop h db e Hdb3)|intros ? ? H; exact H|].
    intros w ->. exists k3. split; [done|apply H3]. }
  intros _ w (k4 & -> & H4 & Hdb4 & Kp4 & I4).
  assert (holds (p_pid pr) k4 a lb) as Hlb4 by (apply Kp4; [done|]; by apply Kp3).
  assert (exists k5, (when (negb rec) (bunpin db)) (W k4 e) = Ret tt (W k5 e) /\
    st p pr lg k5 (zupd (zupd R a 1) h (R h + (if rec then 1 else 0)))
      (zupd (zupd (fun _ => 0) a 1) h 1) (zupd C h (C a)) (zupd Dk h (C a)) (U + 1 + (if R h =? 0 then 1 else 0)) /\
    holds (p_pid pr) k5 h db /\ keeps h k4 k5 /\ same_io k4 k5) as (k5 & Hr5 & H5 & Hdb5 & Kp5 & I5).
  { destruct rec; simpl.
    - exists k4. split; [done|]. split; [st_close H4|]. split; [done|]. split; [by intros pid m c _ Hc|done].
    - destruct (bunpin_st H4 h db e Hdb4) as (k5 & Hr5 & H5 & Hdb5 & Kp5 & I5); [zupd_cases|].
      exists k5. split; [done|]. split; [|by split_and!]. st_close H5. }
  eapply wpc_step; [exact Hr5|].
  destruct (brelse_st H5 a lb e (Kp5 _ _ _ Hne Hlb4)) as (k6 & Hr6 & H6 & Kp6 & I6).
  { zupd_cases. } { intros _. zupd_cases. }
  eapply wpc_step; [exact Hr6|].
  destruct (brelse_st H6 h db e) as (k7 & Hr7 & H7 & _ & I7).
  { apply Kp6; done. } { destruct Hrec as [[-> ?]|(-> & ? & ?)]; zupd_cases. } { intros _. zupd_cases. }
  unfold wpc. rewrite Hr7. exists k7. split; [done|]. split; [by rewrite I1, I2, I3, I4, I5, I6|].
  destruct Hrec as [[-> ?]|(-> & ? & ?)]; st_close H7.
Qed.

(** The first [j] log blocks hold the contents [C] of the blocks they stand for. *)
Definition logcopy (j : Z) (C f : Z -> list Z) : Z -> list Z := fun m =>
  if decide (area lg 0 <= m < area lg j) then C (home lg (m - area lg 0)) else f m.

Lemma logcopy_S j C f m :
  0 <= j -> logcopy (j + 1) C f m = zupd (logcopy j C f) (area lg j) (C (home lg j)) m.
Proof.
  intros Hj. unfold logcopy, zupd, area. repeat case_decide; subst; try lia; try done.
  do 2 f_equal. lia.
Qed.

Lemma logcopy_area j C f i : 0 <= i < j -> logcopy j C f (area lg i) = C (home lg i).
Proof. intros. unfold logcopy, area. rewrite decide_True by lia. do 2 f_equal. lia. Qed.

Lemma logcopy_other j C f m :
  j < l_size lg -> ~ in_log lg m \/ m = l_start lg -> logcopy j C f m = f m.
Proof. intros Hj Hm. unfold logcopy, area, in_log in *. rewrite decide_False by lia. done. Qed.

Lemma write_log_st stop k R C Dk U e :
  st p pr lg k R (fun _ => 0) C Dk U -> (U < HEAD)%nat ->
  (forall i, 0 <= i < l_n lg -> R (area lg i) = 0 /\ 0 < R (home lg i) < 2 ^ 31) ->
  wpc stop (write_log (D := power_disk stop)) (W k e)
    (fun _ w => exists k', w = W k' e /\ same_io k k' /\
       st p pr lg k' R (fun _ => 0) (logcopy (l_n lg) C C) (logcopy (l_n lg) C Dk) U)
    (fun w => exists j, 0 <= j <= l_n lg /\ disk_is (logcopy j C Dk) e w).
Proof.
  intros H0 HU HR. pose proof (lo_n _ Hok) as Hn. pose proof (lo_fits _ Hok) as Hf.
  unfold write_log. eapply wpc_step; [reflexivity|]. simpl. rewrite (st_log _ _ _ _ _ _ _ _ _ H0).
  eapply wpc_mono.
  - apply (wpc_for_all (fun j w => exists k', w = W k' e /\ same_io k k' /\
      st p pr lg k' R (fun _ => 0) (logcopy j C C) (logcopy j C Dk) U)
      (fun w => exists j, 0 <= j <= l_n lg /\ disk_is (logcopy j C Dk) e w)).
    + exists k. split; [done|]. split; [done|]. eapply st_ext; [exact H0|done..| | |done].
      * intros m. unfold logcopy, area. by rewrite decide_False by lia.
      * intros m. unfold logcopy, area. by rewrite decide_False by lia.
    + intros j w Hj (k' & -> & Io & Hk'). assert (0 <= j < l_n lg) as Hj' by lia.
      destruct (HR j Hj') as [Ra Rh].
      eapply wpc_mono; [apply (log_one_st stop j k' R _ _ U e Hj' Hk' HU Ra Rh)|..].
      * intros _ w' (k2 & -> & I2 & H2). exists k2. split; [done|]. split; [by rewrite Io|].
        assert (logcopy j C C (home lg j) = C (home lg j)) as E.
        { apply logcopy_other; [lia|]. left. by apply (lo_home _ Hok). }
        rewrite E in H2. eapply st_ext; [exact H2|done..| | |done].
        -- intros m. by rewrite logcopy_S by lia.
        -- intros m. by rewrite logcopy_S by lia.
      * intros w' Hw'. exists j. split; [lia|done].
  - intros _ w (k' & -> & Io & Hk'). exists k'. split; [done|]. split; [done|].
    by replace (0 + Z.of_nat (Z.to_nat (l_n lg))) with (l_n lg) in Hk' by lia.
  - done.
Qed.

Lemma write_head_st stop k R C Dk U e :
  st p pr lg k R (fun _ => 0) C Dk U -> (U < HEAD)%nat -> R (l_start lg) = 0 ->
  wpc stop (write_head (D := power_disk stop)) (W k e)
    (fun _ w => exists k', w = W k' e /\ same_io k k' /\
       let h := put_head lg (C (l_start lg)) in
       st p pr lg k' R (fun _ => 0) (zupd C (l_start lg) h) (zupd Dk (l_start lg) h) U)
    (disk_is Dk e).
Proof.
  intros H0 HU Rs. set (s := l_start lg) in *.
  assert (u32 (l_dev lg) = ROOTDEV /\ u32 s = s) as [Ed Es].
  { pose proof (lo_start _ Hok). pose proof (lo_size _ Hok). pose proof (lo_n _ Hok).
    pose proof (lo_fits _ Hok). split; [by rewrite (lo_dev _ Hok)|]. apply u32_small. unfold s. lia. }
  unfold write_head. eapply wpc_step; [reflexivity|]. simpl.
  rewrite (st_log _ _ _ _ _ _ _ _ _ H0). fold s. rewrite Ed, Es.
  destruct (bread_st (D := power_disk stop) H0 s e) as (b & k1 & Hr1 & H1 & Hb1 & _ & I1); [done|lia|by left|].
  eapply wpc_step; [exact Hr1|]. eapply wpc_step; [reflexivity|]. simpl.
  rewrite (st_log _ _ _ _ _ _ _ _ _ H1).
  destruct (store_st H1 s b (put_head lg (C s)) e Hb1) as (k2 & Hr2 & H2 & Hb2 & _ & I2); [zupd_cases|].
  eapply wpc_step.
  { rewrite <- Hr2. unfold buf_mod, kmod. do 3 f_equal. apply list_alter_ext; [|done].
    intros x Hx. simpl in Hx. do 2 f_equal. destruct (held_data H1 s b e Hb1) as (y & Hy & Ey).
    unfold buf_get in Hy. rewrite bind_kget, Hx in Hy. by injection Hy as <-. }
  eapply wpc_bind.
  { eapply wpc_mono; [exact (bwrite_power H2 stop s b e Hb2)|intros ? ? H; exact H|].
    intros w ->. exists k2. split; [done|apply H2]. }
  intros _ w (k3 & -> & H3 & Hb3 & _ & I3).
  destruct (brelse_st H3 s b e Hb3) as (k4 & Hr4 & H4 & _ & I4); [zupd_cases|intros _; zupd_cases|].
  unfold wpc. rewrite Hr4. exists k4. split; [done|]. split; [by rewrite I1, I2, I3|]. simpl. st_close H4.
Qed.

(** [f] with the values [v 0], ..., [v (j - 1)] at the first [j] logged blocks. *)
Fixpoint patch {A} (j : nat) (v : Z -> A) (f : Z -> A) : Z -> A :=
  match j with
  | O => f
  | S j' => zupd (patch j' v f) (home lg (Z.of_nat j')) (v (Z.of_nat j'))
  end.

Lemma patch_other {A} j (v f : Z -> A) m :
  (forall i, 0 <= i < Z.of_nat j -> m <> home lg i) -> patch j v f m = f m.
Proof.
  induction j as [|j IH]; intros H; [done|]. simpl. rewrite zupd_ne by (apply H; lia).
  apply IH. intros i Hi. apply H. lia.
Qed.

Lemma patch_home {A} j (v f : Z -> A) i :
  Z.of_nat j <= l_n lg -> 0 <= i < Z.of_nat j -> patch j v f (home lg i) = v i.
Proof.
  induction j as [|j IH]; intros Hj Hi; [lia|]. simpl.
  destruct (decide (i = Z.of_nat j)) as [->|Hne]; [apply zupd_eq|].
  rewrite zupd_ne; [apply IH; lia|]. intros E. apply Hne. apply (lo_distinct _ Hok); [lia..|done].
Qed.

Lemma patch_fresh {A} j (v f : Z -> A) :
  Z.of_nat j < l_n lg -> patch j v f (home lg (Z.of_nat j)) = f (home lg (Z.of_nat j)).
Proof.
  intros Hj. apply patch_other. intros i Hi E.
  assert (Z.of_nat j = i) by (apply (lo_distinct _ Hok); [lia..|done]). lia.
Qed.

Lemma patch_log {A} j (v f : Z -> A) m :
  Z.of_nat j <= l_n lg -> in_log lg m -> patch j v f m = f m.
Proof.
  intros Hj Hm. apply patch_other. intros i Hi ->.
  by apply (proj2 (lo_home _ Hok i ltac:(lia))).
Qed.

Lemma install_trans_st stop (rec : bool) k R C Dk U e :
  st p pr lg k R (fun _ => 0) C Dk U -> (U < HEAD)%nat ->
  (forall i, 0 <= i < l_n lg -> R (area lg i) = 0 /\ C (area lg i) = Dk (area lg i) /\
     R (home lg i) < 2 ^ 31 /\
     (rec = false /\ 0 < R (home lg i) \/ rec = true /\ (S U < HEAD)%nat /\ 0 <= R (home lg i))) ->
  let v := fun i => C (area lg i) in
  let r := fun i => R (home lg i) - (if rec then 0 else 1) in
  wpc stop (install_trans (D := power_disk stop) rec) (W k e)
    (fun _ w => exists k', w = W k' e /\ same_io k k' /\
       st p pr lg k' (patch (Z.to_nat (l_n lg)) r R) (fun _ => 0)
         (patch (Z.to_nat (l_n lg)) v C) (patch (Z.to_nat (l_n lg)) v Dk) U)
    (fun w => exists j, Z.of_nat j <= l_n lg /\ disk_is (patch j v Dk) e w).
Proof.
  intros H0 HU HR v r. pose proof (lo_n _ Hok) as Hn.
  unfold install_trans. eapply wpc_step; [reflexivity|]. simpl. rewrite (st_log _ _ _ _ _ _ _ _ _ H0).
  eapply wpc_mono.
  - apply (wpc_for_all (fun j w => exists k', w = W k' e /\ same_io k k' /\
      st p pr lg k' (patch (Z.to_nat j) r R) (fun _ => 0) (patch (Z.to_nat j) v C) (patch (Z.to_nat j) v Dk) U)
      (fun w => exists j, Z.of_nat j <= l_n lg /\ disk_is (patch j v Dk) e w)).
    + by exists k.
    + intros j w Hj (k' & -> & Io & Hk'). assert (0 <= j < l_n lg) as Hj' by lia.
      destruct (HR j Hj') as (Ra & Ca & Rh & Hrec).
      destruct (area_spec lg j Hok Hj') as (_ & _ & _ & _ & Hal & _).
      assert (Hfresh : forall A (v f : Z -> A), patch (Z.to_nat j) v f (home lg j) = f (home lg j)).
      { intros A v' f. replace j with (Z.of_nat (Z.to_nat j)) at 2 3 by lia. apply patch_fresh. lia. }
      eapply wpc_mono; [apply (install_one_st stop rec j k' _ _ _ U e Hj' Hk' HU)|..].
      * by rewrite patch_log by (done || lia).
      * rewrite !patch_log by (done || lia). done.
      * by rewrite Hfresh.
      * by rewrite Hfresh.
      * intros _ w' (k2 & -> & I2 & H2). exists k2. split; [done|]. split; [by rewrite Io|].
        rewrite (patch_log _ v C) in H2 by (done || lia). rewrite Hfresh in H2.
        replace (Z.to_nat (j + 1)) with (S (Z.to_nat j)) by lia. simpl.
        rewrite Z2Nat.id by lia. exact H2.
      * intros w' Hw'. exists (Z.to_nat j). split; [lia|done].
  - intros _ w (k' & -> & Io & Hk'). exists k'. split; [done|]. split; [done|].
    by replace (Z.to_nat (0 + Z.of_nat (Z.to_nat (l_n lg)))) with (Z.to_nat (l_n lg)) in Hk' by lia.
  - done.
Qed.
End loops.

(** *** Commit and recovery *)

(** Changing the log record. *)
Lemma st_set_log p pr lg lg' k R Lk C D U :
  st p pr lg k R Lk C D U -> st p pr lg' (set_k_log lg' k) R Lk C D U.
Proof.
  intros [Hc [l Hi] Hg HR HL HC HD HU Hf]. split; try done; [by destruct Hc|].
  exists l. by destruct Hi.
Qed.

Lemma log_mod_st p pr lg k R Lk C D U f e :
  st p pr lg k R Lk C D U ->
  exists k', log_mod f (W k e) = Ret tt (W k' e) /\ st p pr (f lg) k' R Lk C D U /\ same_io k k'.
Proof.
  intros H. eexists. split; [reflexivity|]. simpl. rewrite (st_log _ _ _ _ _ _ _ _ _ H).
  split; [by eapply st_set_log|apply same_io_log].
Qed.

(** An idle block's cached contents are those of the disk. *)
Lemma st_idle p pr lg k R Lk C D U m :
  st p pr lg k R Lk C D U -> R m = 0 -> C m = D m.
Proof.
  intros [_ [l Hi] _ HR _ HC HD _ _] Hm. rewrite <- HC, <- HD. rewrite <- HR in Hm.
  unfold lblk, lref in *. destruct (slot k m) as [b|] eqn:Hs; [|done].
  destruct (proj1 (slot_spec Hi m b) Hs) as (Hb & Hd & Hn). unfold content, truth.
  destruct (Z.eqb_spec (b_valid (bufat (k_bufs k) b)) 0) as [E|E]; [done|]. simpl.
  rewrite (ci_clean _ _ Hi b Hb Hm Hd E). by rewrite Hn.
Qed.

(** A log record that is empty. *)
Lemma log_ok_clear lg : log_ok lg -> log_ok (set_l_n 0 lg).
Proof. intros []. split; try done; simpl; lia. Qed.

(** Block [m] is one of the logged blocks. *)
Definition logged (lg : log) (m : Z) : bool :=
  bool_decide (m ∈ take (Z.to_nat (l_n lg)) (l_block lg)).

Lemma logged_spec lg m :
  log_ok lg -> if logged lg m then exists i, 0 <= i < l_n lg /\ m = home lg i
               else forall i, 0 <= i < l_n lg -> m <> home lg i.
Proof.
  intros Hok. pose proof (lo_n _ Hok) as Hn. pose proof (lo_len _ Hok) as Hl.
  unfold logged. case_bool_decide as H.
  - apply list_elem_of_lookup in H as [i Hi]. apply lookup_take_Some in Hi as [Hi Hlt].
    exists (Z.of_nat i). split; [lia|]. unfold home. by rewrite Nat2Z.id, Hi.
  - intros i Hi ->. apply H. apply list_elem_of_lookup. exists (Z.to_nat i).
    apply lookup_take_Some. split; [|lia]. unfold home.
    destruct (l_block lg !! Z.to_nat i) eqn:E; [done|]. apply lookup_ge_None in E. lia.
Qed.

(** The disk [d] stands for the blocks [t]: what its log's header lists is in
    the log area, the rest is in place. *)
Record recoverable (s size : Z) (d t : Z -> list Z) : Prop := {
  rc_len : length (d s) = Z.to_nat BSIZE;
  rc_n : 0 <= hdr_n (d s) <= LOGSIZE;
  rc_fits : hdr_n (d s) < size;
  rc_home : forall i, 0 <= i < hdr_n (d s) ->
    0 <= hdr_block (d s) i < 2 ^ 31 /\ ~ (s <= hdr_block (d s) i < s + size);
  rc_distinct : forall i j, 0 <= i < hdr_n (d s) -> 0 <= j < hdr_n (d s) ->
    hdr_block (d s) i = hdr_block (d s) j -> i = j;
  rc_logged : forall i, 0 <= i < hdr_n (d s) -> t (hdr_block (d s) i) = d (s + 1 + i);
  rc_rest : forall m, ~ (s <= m < s + size) ->
    (forall i, 0 <= i < hdr_n (d s) -> m <> hdr_block (d s) i) -> t m = d m;
}.

(** With an empty log, the disk stands for itself. *)
Lemma recoverable_clean s size d t :
  length (d s) = Z.to_nat BSIZE -> hdr_n (d s) = 0 -> 0 < size ->
  (forall m, ~ (s <= m < s + size) -> t m = d m) -> recoverable s size d t.
Proof.
  intros Hl Hn Hs Ht. split; try lia; [|by intros; apply Ht].
  rewrite Hn. unfold LOGSIZE, MAXOPBLOCKS. lia.
Qed.

(** With [lg] in the header and its blocks in the log, the disk stands for the
    committed transaction. *)
Lemma recoverable_full lg d t :
  log_ok lg -> length (d (l_start lg)) = Z.to_nat BSIZE -> hdr_n (d (l_start lg)) = l_n lg ->
  (forall i, 0 <= i < l_n lg -> hdr_block (d (l_start lg)) i = home lg i) ->
  (forall i, 0 <= i < l_n lg -> t (home lg i) = d (area lg i)) ->
  (forall m, ~ in_log lg m -> (forall i, 0 <= i < l_n lg -> m <> home lg i) -> t m = d m) ->
  recoverable (l_start lg) (l_size lg) d t.
Proof.
  intros Hok Hl Hn Hb Ht Hr. destruct Hok. split; rewrite ?Hn; try done.
  - intros i Hi. rewrite Hb by done. by apply lo_home0.
  - intros i j Hi Hj. rewrite !Hb by done. by apply lo_distinct0.
  - intros i Hi. rewrite Hb by done. by apply Ht.
  - intros m Hm Hne. apply Hr; [done|]. intros i Hi. rewrite <- Hb by done. by apply Hne.
Qed.

(** The blocks of the transaction in [lg], with the contents [C], on disk [D]. *)
Definition committed (lg : log) (C D : Z -> list Z) : Z -> list Z := fun m =>
  if logged lg m then C m else D m.

(** The logged blocks are pinned in the cache, the log's own are idle. *)
Record pinned (lg : log) (R : Z -> Z) : Prop := {
  pin_home : forall i, 0 <= i < l_n lg -> 0 < R (home lg i) < 2 ^ 31;
  pin_log : forall m, in_log lg m -> R m = 0;
}.

(** The log on disk is empty. *)
Definition log_empty (s : Z) (D : Z -> list Z) : Prop :=
  length (D s) = Z.to_nat BSIZE /\ hdr_n (D s) = 0.

Section commit.
Context {p : nat} {pr : proc} {lg : log} (Hok : log_ok lg).
Context {k : kernel} {R : Z -> Z} {C Dk : Z -> list Z} {U : nat}.
Hypothesis Hst : st p pr lg k R (fun _ => 0) C Dk U.
Hypothesis HU : (U < HEAD)%nat.
Hypothesis Hpin : pinned lg R.
Hypothesis Hempty : log_empty (l_start lg) Dk.

Local Abbreviation s := (l_start lg).
Local Abbreviation n := (l_n lg).
Local Abbreviation h := (put_head lg (C s)).

Lemma start_in_log : in_log lg s.
Proof using Hok. clear -Hok. unfold in_log. destruct Hok. lia. Qed.

(** Before the header is written, the disk stands for the old contents. *)
Lemma logcopy_old j :
  0 <= j <= n -> recoverable s (l_size lg) (logcopy (lg := lg) j C Dk) Dk.
Proof.
  intros Hj. destruct Hempty as [El En]. pose proof (lo_fits _ Hok).
  assert (logcopy (lg := lg) j C Dk s = Dk s) as E by (apply logcopy_other; [lia|by right]).
  apply recoverable_clean; [by rewrite E..|lia|].
  intros m Hm. symmetry. apply logcopy_other; [lia|by left].
Qed.

Lemma head_spec :
  length h = Z.to_nat BSIZE /\ hdr_n h = n /\ forall i, 0 <= i < n -> hdr_block h i = home lg i.
Proof.
  pose proof (lo_n _ Hok) as Hn. destruct Hempty as [El _].
  assert (C s = Dk s) as Ec by (apply (st_idle _ _ _ _ _ _ _ _ _ s Hst), Hpin, start_in_log).
  destruct (put_head_spec lg (C s)) as (H1 & H2 & H3); [by rewrite Ec|done|].
  split; [done|]. split.
  - rewrite H2. apply s32_small. unfold LOGSIZE, MAXOPBLOCKS in Hn. lia.
  - intros i Hi. rewrite H3 by done. apply s32_small. destruct (lo_home _ Hok i Hi) as [? _].
    unfold home in *. lia.
Qed.

(** Once it is written, the disk stands for the transaction, whatever number of
    blocks has been installed. *)
Lemma patch_new j (v : Z -> list Z) :
  Z.of_nat j <= n -> (forall i, 0 <= i < n -> v i = C (home lg i)) ->
  recoverable s (l_size lg) (patch (lg := lg) j v (zupd (logcopy (lg := lg) n C Dk) s h)) (committed lg C Dk).
Proof.
  intros Hj Hv. destruct head_spec as (H1 & H2 & H3). pose proof (lo_fits _ Hok) as Hf.
  set (d := patch _ _ _).
  assert (d s = h) as Es by (unfold d; rewrite (patch_log Hok) by (done || apply start_in_log); apply zupd_eq).
  apply recoverable_full; rewrite ?Es; try done.
  - intros i Hi. unfold committed. destruct (area_spec lg i Hok Hi) as (_ & _ & _ & _ & Hal & Has).
    pose proof (logged_spec lg (home lg i) Hok) as Hl. destruct (logged lg (home lg i)).
    + unfold d. rewrite (patch_log Hok), zupd_ne, logcopy_area by done. done.
    + by destruct (Hl i Hi).
  - intros m Hm Hne. unfold committed. pose proof (logged_spec lg m Hok) as Hl. destruct (logged lg m).
    + destruct Hl as (i & Hi & ->). by destruct (Hne i Hi).
    + unfold d. rewrite patch_other by (intros i Hi; apply Hne; lia).
      rewrite zupd_ne by (intros ->; apply Hm, start_in_log).
      symmetry. apply logcopy_other; [done|by left].
Qed.

(** What a commit that returns has done. *)
Definition commit_done (e : list (kernel -> kernel)) (w : world) : Prop :=
  exists k' R' C' D', w = W k' e /\ same_io k k' /\ st p pr (set_l_n 0 lg) k' R' (fun _ => 0) C' D' U /\
    log_empty s D' /\ (forall m, in_log lg m -> R' m = R m) /\ forall m, ~ in_log lg m ->
      D' m = committed lg C Dk m /\ C' m = C m /\ R' m = R m - (if logged lg m then 1 else 0).

(** What a power failure during a commit leaves on the disk. *)
Definition commit_torn (e : list (kernel -> kernel)) (w : world) : Prop :=
  exists d, disk_is d e w /\
    (recoverable s (l_size lg) d Dk \/ recoverable s (l_size lg) d (committed lg C Dk)).

Lemma commit_nothing e : n = 0 -> commit_done e (W k e).
Proof.
  intros H0. exists k, R, C, Dk. split; [done|]. split; [done|].
  assert (set_l_n 0 lg = lg) as E by (clear -H0; destruct lg; simpl in *; by subst).
  rewrite E. split; [done|]. split; [done|]. split; [done|]. intros m Hm. unfold committed.
  pose proof (logged_spec lg m Hok) as Hl. destruct (logged lg m); [|split_and!; [done..|lia]].
  destruct Hl as (i & Hi & _). lia.
Qed.

Lemma commit_finish e k' (v : Z -> list Z) (C2 D2 : Z -> list Z) :
  (forall i, 0 <= i < n -> v i = C (home lg i)) ->
  (forall m, ~ in_log lg m -> C2 m = C m /\ D2 m = Dk m) -> length (C2 s) = Z.to_nat BSIZE ->
  let h' := put_head (set_l_n 0 lg) (patch (lg := lg) (Z.to_nat n) v C2 s) in
  st p pr (set_l_n 0 lg) k' (patch (lg := lg) (Z.to_nat n) (fun i => R (home lg i) - 1) R) (fun _ => 0)
    (zupd (patch (lg := lg) (Z.to_nat n) v C2) s h') (zupd (patch (lg := lg) (Z.to_nat n) v D2) s h') U ->
  same_io k k' -> commit_done e (W k' e).
Proof.
  intros Hv H2 Hl h' H Hio. pose proof (lo_n _ Hok) as Hn. do 4 eexists. split; [done|]. split; [done|]. split; [exact H|].
  split.
  - unfold log_empty. rewrite zupd_eq. unfold h'.
    rewrite (patch_log Hok) by (apply start_in_log || lia).
    destruct (put_head_spec (set_l_n 0 lg) (C2 s)) as (L1 & L2 & _); [done|simpl; lia|done].
  - split; [intros m Hm; apply (patch_log Hok); [lia|done]|]. intros m Hm. rewrite !zupd_ne by (intros ->; apply Hm, start_in_log). unfold committed.
    pose proof (logged_spec lg m Hok) as Hlg. destruct (logged lg m).
    + destruct Hlg as (i & Hi & ->). rewrite !(patch_home Hok) by lia. by rewrite Hv.
    + rewrite !patch_other by (intros i Hi; apply Hlg; lia). destruct (H2 m Hm) as [-> ->].
      split_and!; [done..|lia].
Qed.

Lemma commit_st stop e :
  wpc stop (commit (D := power_disk stop)) (W k e) (fun _ w => commit_done e w) (commit_torn e).
Proof.
  pose proof (lo_n _ Hok) as Hn. pose proof (lo_fits _ Hok) as Hf.
  unfold commit. eapply wpc_step; [reflexivity|]. simpl. rewrite (st_log _ _ _ _ _ _ _ _ _ Hst).
  destruct (Z.ltb_spec 0 n) as [Hpos|]; [|apply commit_nothing; lia]. simpl when.
  eapply wpc_bind.
  { eapply wpc_mono; [apply (write_log_st Hok stop k R C Dk U e Hst HU)|intros ? ? H; exact H|].
    - intros i Hi. destruct (area_spec lg i Hok Hi) as (_ & _ & _ & _ & Ha & _).
      split; [by apply Hpin|by apply Hpin].
    - intros w (j & Hj & Hd). eexists. split; [exact Hd|]. left. by apply logcopy_old. }
  intros _ w (k1 & -> & I1 & H1). eapply wpc_bind.
  { eapply wpc_mono; [apply (write_head_st Hok stop k1 _ _ _ U e H1 HU)|intros ? ? H; exact H|].
    - apply Hpin, start_in_log.
    - intros w Hd. eexists. split; [exact Hd|]. left. apply logcopy_old. lia. }
  intros _ w (k2 & -> & I2 & H2). cbv zeta in H2. rewrite logcopy_other in H2 by (done || by right).
  set (C2 := zupd (logcopy n C C) s h) in *. set (D2 := zupd (logcopy n C Dk) s h) in *.
  assert (forall i, 0 <= i < n -> C2 (area lg i) = C (home lg i) /\ D2 (area lg i) = C (home lg i)) as Ha.
  { intros i Hi. destruct (area_spec lg i Hok Hi) as (_ & _ & _ & _ & _ & Hs).
    unfold C2, D2. by rewrite !zupd_ne, !logcopy_area by done. }
  assert (forall i, 0 <= i < n -> C2 (area lg i) = C (home lg i)) as Hv by (intros; by apply Ha).
  eapply wpc_bind.
  { eapply wpc_mono; [apply (install_trans_st Hok stop false k2 _ _ _ U e H2 HU)|intros ? ? H; exact H|].
    - intros i Hi. destruct (area_spec lg i Hok Hi) as (_ & _ & _ & _ & Hal & _).
      destruct (Ha i Hi) as [-> ->]. split_and!; [by apply Hpin|done|by apply Hpin|].
      left. split; [done|by apply Hpin].
    - intros w (j & Hj & Hd). eexists. split; [exact Hd|]. right. by apply patch_new. }
  intros _ w (k3 & -> & I3 & H3).
  destruct (log_mod_st _ _ _ _ _ _ _ _ _ (set_l_n 0) e H3) as (k4 & Hr4 & H4 & I4).
  eapply wpc_step; [exact Hr4|].
  eapply wpc_mono; [apply (write_head_st (log_ok_clear _ Hok) stop k4 _ _ _ U e H4 HU)|..].
  - simpl. rewrite (patch_log Hok) by (apply start_in_log || lia). apply Hpin, start_in_log.
  - intros _ w (k5 & -> & I5 & H5). eapply commit_finish; [exact Hv| | |exact H5|].
    + intros m Hm. unfold C2, D2. rewrite !zupd_ne by (intros ->; apply Hm, start_in_log).
      rewrite !logcopy_other by (done || by left). done.
    + unfold C2. rewrite zupd_eq. apply head_spec.
    + by rewrite I1, I2, I3, I4.
  - intros w Hd. eexists. split; [exact Hd|]. right. apply patch_new; [lia|done].
Qed.

End commit.

(** *** Recovery *)

(** The parts of a log record that [initlog] sets. *)
Record log_at (s size : Z) (lg : log) : Prop := {
  la_dev : l_dev lg = ROOTDEV;
  la_start : l_start lg = s;
  la_size : l_size lg = size;
  la_len : length (l_block lg) = Z.to_nat LOGSIZE;
}.

Lemma set_log_holds pid k lg n b : holds pid k n b -> holds pid (set_k_log lg k) n b.
Proof. intros []. by split. Qed.

Lemma lh_set_eq k lg i v e :
  k_log k = lg -> 0 <= i < Z.of_nat (length (l_block lg)) ->
  lh_set i v (W k e) = Ret tt (W (set_k_log (set_l_block (<[Z.to_nat i := v]> (l_block lg)) lg) k) e).
Proof.
  intros Hg Hi. unfold lh_set. rewrite (bind_Ret _ _ _ _ _ (lh_get_in lg k i e Hg Hi)).
  unfold log_mod, kmod. simpl. by rewrite Hg.
Qed.

Section recovery.
Context {p : nat} {pr : proc} {s size : Z}.
Hypothesis Hs : 0 <= s.
Hypothesis Hsize : s + size < 2 ^ 31.

(** [lg] after [read_head] has found the header [h]. *)
Record head_read (h : list Z) (lg : log) : Prop := {
  hr_at : log_at s size lg;
  hr_n : l_n lg = hdr_n h;
  hr_home : forall i, 0 <= i < hdr_n h -> home lg i = hdr_block h i;
}.

Lemma read_head_st `{D : Disk} {DR : DiskReads D} lg k R C Dk U e :
  log_at s size lg -> st p pr lg k R (fun _ => 0) C Dk U -> (U < HEAD)%nat -> R s = 0 ->
  0 <= hdr_n (C s) <= LOGSIZE -> 0 < size ->
  exists k' lg', read_head (W k e) = Ret tt (W k' e) /\
    st p pr lg' k' R (fun _ => 0) C Dk U /\ head_read (C s) lg'.
Proof.
  intros [Ld Ls Lz Ll] H0 HU Rs Hn Hz. unfold read_head. rewrite bind_kget. simpl.
  rewrite (st_log _ _ _ _ _ _ _ _ _ H0), Ld, Ls, (u32_small s) by lia.
  destruct (bread_st H0 s e) as (b & k1 & Hr1 & H1 & Hb1 & _ & _); [done|lia|by left|].
  rewrite (bind_Ret _ _ _ _ _ Hr1).
  destruct (held_data H1 s b e Hb1) as (x & Hx & Ex). rewrite (bind_Ret _ _ _ _ _ Hx), Ex. clear x Hx Ex.
  unfold log_mod at 1. rewrite bind_kmod. simpl.
  rewrite (st_log _ _ _ _ _ _ _ _ _ H1). fold (hdr_n (C s)).
  set (n := hdr_n (C s)) in *.
  set (R1 := zupd R s (R s + 1)) in *. set (Lk1 := zupd (fun _ => 0) s 1) in *.
  set (I := fun j (w : world) => exists k' lg', w = W k' e /\ holds (p_pid pr) k' s b /\
    st p pr lg' k' R1 Lk1 C Dk (U + (if R s =? 0 then 1 else 0)) /\ log_at s size lg' /\ l_n lg' = n /\
    forall i, 0 <= i < j -> home lg' i = hdr_block (C s) i).
  destruct (for_all_runs I (fun i => lh_set i (s32 (get32 (C s) (4 + 4 * i)))) (Z.to_nat n) 0
    (W (set_k_log (set_l_n n lg) k1) e)) as (u & w' & Hrun & k2 & lg2 & -> & Hb2 & H2 & L2 & N2 & Hh2).
  - do 2 eexists. split; [done|]. split; [by apply set_log_holds|].
    split; [by eapply st_set_log|]. split; [by split|]. split; [done|]. lia.
  - intros j w Hj (k' & lg' & -> & Hb & Hst & La & Nn & Hh).
    assert (0 <= j < Z.of_nat (length (l_block lg'))) as Hlen by (rewrite (la_len _ _ _ La); lia).
    eapply runs_eq; [apply (lh_set_eq k' lg'); [apply Hst|done]|].
    do 2 eexists. split; [done|]. split; [by apply set_log_holds|]. split; [by eapply st_set_log|].
    split; [destruct La; split; simpl; rewrite ?length_insert; done|]. split; [done|].
    intros i Hi. unfold home. simpl. destruct (decide (i = j)) as [->|Hne].
    + by rewrite list_lookup_insert_eq by lia.
    + rewrite list_lookup_insert_ne by lia. apply Hh. lia.
  - rewrite (bind_Ret _ _ _ _ _ Hrun).
    destruct (brelse_st H2 s b e Hb2) as (k3 & Hr3 & H3 & _ & _); [unfold R1; zupd_cases|..].
    { intros _. by apply (st_idle _ _ _ _ _ _ _ _ _ s H0). }
    exists k3, lg2. split; [done|]. split; [unfold R1, Lk1 in H3; st_close H3|].
    split; [done..|]. intros i Hi. apply Hh2. lia.
Qed.

Lemma head_read_ok lg d t :
  recoverable s size d t -> head_read (d s) lg -> log_ok lg.
Proof.
  intros [] [[Ld Ls Lz Ll] Hn Hh]. split; rewrite ?Ls, ?Lz, ?Hn; try done.
  - intros i Hi. unfold in_log. rewrite Ls, Lz, Hh by done. by apply rc_home0.
  - intros i j Hi Hj. rewrite !Hh by done. by apply rc_distinct0.
Qed.

(** Installing logged blocks does not change what the disk stands for. *)
Lemma patch_recoverable lg j (v d t : Z -> list Z) :
  recoverable s size d t -> head_read (d s) lg -> Z.of_nat j <= l_n lg ->
  (forall i, v i = d (area lg i)) -> recoverable s size (patch (lg := lg) j v d) t.
Proof.
  intros Hr Hh Hj Hv. pose proof (head_read_ok lg d t Hr Hh) as Hok.
  destruct Hh as [[Ld Ls Lz Ll] Hn Hh]. destruct Hr as [].
  assert (patch (lg := lg) j v d s = d s) as E.
  { apply (patch_log Hok); [done|]. unfold in_log. lia. }
  cut (recoverable (l_start lg) (l_size lg) (patch (lg := lg) j v d) t); [by rewrite Ls, Lz|].
  apply recoverable_full; rewrite ?Ls, ?E; try done.
  - intros i Hi. by rewrite Hh by lia.
  - intros i Hi. rewrite (patch_log Hok) by (done || by apply area_spec).
    unfold area. rewrite Hh, Ls by lia. apply rc_logged0. lia.
  - intros m Hm Hne. rewrite patch_other by (intros i Hi; apply Hne; lia).
    apply rc_rest0; [unfold in_log in Hm; lia|]. intros i Hi. rewrite <- Hh by done. apply Hne. lia.
Qed.

(** A finished recovery has put the blocks [t] in place and emptied the log. *)
Definition recovered (t d : Z -> list Z) : Prop :=
  log_empty s d /\ forall m, ~ (s <= m < s + size) -> d m = t m.

Lemma recover_finish lg d t (C2 : Z -> list Z) :
  recoverable s size d t -> head_read (d s) lg -> C2 s = d s ->
  recovered t (zupd (patch (lg := lg) (Z.to_nat (l_n lg)) (fun i => d (area lg i)) d) s
    (put_head (set_l_n 0 lg) (C2 s))).
Proof.
  intros Hr Hh Hc. pose proof (head_read_ok lg d t Hr Hh) as Hok.
  destruct Hh as [[Ld Ls Lz Ll] Hn Hh]. destruct Hr as []. split.
  - unfold log_empty. rewrite zupd_eq, Hc.
    destruct (put_head_spec (set_l_n 0 lg) (d s)) as (L1 & L2 & _); [done|simpl; lia|done].
  - intros m Hm. rewrite zupd_ne by lia. pose proof (logged_spec lg m Hok) as Hl.
    destruct (logged lg m).
    + destruct Hl as (i & Hi & ->). rewrite (patch_home Hok) by lia.
      unfold area. rewrite Hh, Ls by lia. symmetry. apply rc_logged0. lia.
    + rewrite patch_other by (intros i Hi; apply Hl; lia). symmetry. apply rc_rest0; [done|].
      intros i Hi. rewrite <- Hh by done. apply Hl. lia.
Qed.

Lemma recover_st stop lg k C Dk U t e :
  log_at s size lg -> st p pr lg k (fun _ => 0) (fun _ => 0) C Dk U -> (S U < HEAD)%nat ->
  recoverable s size Dk t ->
  wpc stop (recover_from_log (D := power_disk stop)) (W k e)
    (fun _ w => exists d, disk_is d e w /\ recovered t d)
    (fun w => exists d, disk_is d e w /\ recoverable s size d t).
Proof.
  intros Hat H0 HU Hr. pose proof Hr as [_ Hn Hf _ _ _ _].
  assert (forall m, C m = Dk m) as Ec by (intros m; by apply (st_idle _ _ _ _ _ _ _ _ _ m H0)).
  assert (st p pr lg k (fun _ => 0) (fun _ => 0) Dk Dk U) as H1 by (eapply st_ext; [exact H0|done..|exact Ec|done|done]).
  unfold recover_from_log.
  destruct (read_head_st (D := power_disk stop) lg k _ _ _ U e Hat H1) as (k2 & lg2 & Hr2 & H2 & Hh);
    [lia|done|done|lia|].
  eapply wpc_step; [exact Hr2|]. pose proof (head_read_ok lg2 Dk t Hr Hh) as Hok.
  pose proof (la_start _ _ _ (hr_at _ _ Hh)) as Es.
  eapply wpc_bind.
  { eapply wpc_mono; [apply (install_trans_st Hok stop true k2 _ _ _ U e H2); [lia|]|intros ? ? H; exact H|].
    - intros i Hi. split_and!; [done..|right; split_and!; done].
    - intros w (j & Hj & Hd). eexists. split; [exact Hd|]. by apply patch_recoverable. }
  intros _ w (k3 & -> & _ & H3).
  destruct (log_mod_st _ _ _ _ _ _ _ _ _ (set_l_n 0) e H3) as (k4 & Hr4 & H4 & _).
  eapply wpc_step; [exact Hr4|]. rewrite <- Es in Hh, Hr |- *.
  assert (in_log lg2 (l_start lg2)) as Hin by (apply (start_in_log Hok)).
  pose proof (lo_n _ Hok) as Hn2.
  eapply wpc_mono; [apply (write_head_st (log_ok_clear _ Hok) stop k4 _ _ _ U e H4); [lia|]|..].
  - simpl. by rewrite (patch_log Hok) by (done || lia).
  - intros _ w (k5 & -> & _ & H5). eexists. split; [exists k5; split; [done|apply H5]|].
    simpl. rewrite Es in Hh, Hr |- *. apply recover_finish; [done..|].
    rewrite (patch_log Hok); [done|lia|]. by rewrite <- Es.
  - intros w Hd. eexists. split; [exact Hd|]. rewrite Es in *. apply patch_recoverable; [done..|lia|done].
Qed.

End recovery.

(** The kernel has booted from disk [d]: process [p] runs, nothing is cached. *)
Record booted (p : nat) (pr : proc) (k : kernel) (d : Z -> list Z) : Prop := {
  bt_calm : calm p pr k;
  bt_inv : exists l, cache_inv k l;
  bt_idle : forall m, lref k m = 0 /\ llock k m = 0;
  bt_used : nused (k_bufs k) = 0%nat;
  bt_len : length (l_block (k_log k)) = Z.to_nat LOGSIZE;
  bt_disk : forall m, disk_block k m = d m;
  bt_free : Llog ∉ k_held k;
}.

Definition logstart (sb : superblock) : Z := s32 (sb_logstart sb).
Definition logsize (sb : superblock) : Z := s32 (sb_nlog sb).

Lemma initlock_st p pr k R Lk C D U l e :
  st p pr (k_log k) k R Lk C D U ->
  exists k', initlock l (W k e) = Ret tt (W k' e) /\ st p pr (k_log k) k' R Lk C D U.
Proof.
  intros [[] [l' Hi] Hg HR HL HC HD HU Hf]. eexists. split; [reflexivity|]. split; try done.
  - split; try done; simpl; intros; intros Hin; apply list_elem_of_filter in Hin as [_ Hin]; naive_solver.
  - exists l'. by destruct Hi.
  - simpl. intros Hin. by apply list_elem_of_filter in Hin as [_ Hin].
Qed.

Lemma initlog_st stop p pr k sb d t e :
  booted p pr k d -> 0 <= logstart sb -> logstart sb + logsize sb < 2 ^ 31 ->
  recoverable (logstart sb) (logsize sb) d t ->
  wpc stop (initlog (D := power_disk stop) ROOTDEV sb) (W k e)
    (fun _ w => exists d', disk_is d' e w /\ recovered (s := logstart sb) (size := logsize sb) t d')
    (fun w => exists d', disk_is d' e w /\ recoverable (logstart sb) (logsize sb) d' t).
Proof.
  intros [Hc Hi Hid Hu Hl Hd Hf] Hs Hz Hr.
  assert (st p pr (k_log k) k (fun _ => 0) (fun _ => 0) (lblk k) d 0) as H0.
  { split; try done; [intros m; apply Hid|intros m; apply Hid|lia]. }
  unfold initlog. change (BSIZE <=? sizeof_logheader) with false.
  destruct (initlock_st _ _ _ _ _ _ _ _ Llog e H0) as (k1 & Hr1 & H1). eapply wpc_step; [exact Hr1|].
  destruct (log_mod_st _ _ _ _ _ _ _ _ _ (set_l_start (s32 (sb_logstart sb))) e H1) as (k2 & Hr2 & H2 & _).
  eapply wpc_step; [exact Hr2|].
  destruct (log_mod_st _ _ _ _ _ _ _ _ _ (set_l_size (s32 (sb_nlog sb))) e H2) as (k3 & Hr3 & H3 & _).
  eapply wpc_step; [exact Hr3|].
  destruct (log_mod_st _ _ _ _ _ _ _ _ _ (set_l_dev ROOTDEV) e H3) as (k4 & Hr4 & H4 & _).
  eapply wpc_step; [exact Hr4|].
  eapply (recover_st Hs Hz); [|exact H4|by apply Nat.ltb_lt|done]. by split.
Qed.

(** Restarting from disk [d], as often as the power fails, until [initlog]
    returns with disk [d']. *)
Inductive restarts (sb : superblock) : (Z -> list Z) -> (Z -> list Z) -> Prop :=
| restart_done p pr k d stop e u k' e' :
    booted p pr k d ->
    initlog (D := power_disk stop) ROOTDEV sb (W k e) = Ret u (W k' e') ->
    restarts sb d (disk_block k')
| restart_again p pr k d stop e k' e' d' :
    booted p pr k d ->
    initlog (D := power_disk stop) ROOTDEV sb (W k e) = Hang (W k' e') ->
    restarts sb (disk_block k') d' ->
    restarts sb d d'.

Lemma recoverable_ext s size d d' t :
  (forall m, d m = d' m) -> recoverable s size d t -> recoverable s size d' t.
Proof.
  intros He []. split; rewrite <- ?(He s); try done.
  - intros i Hi. rewrite <- He. by apply rc_logged0.
  - intros m Hm Hn. rewrite <- He. by apply rc_rest0.
Qed.

Lemma restarts_recovered sb d t d' :
  0 <= logstart sb -> logstart sb + logsize sb < 2 ^ 31 ->
  recoverable (logstart sb) (logsize sb) d t -> restarts sb d d' ->
  recovered (s := logstart sb) (size := logsize sb) t d'.
Proof.
  intros Hs Hz Hr H. revert Hr.
  induction H as [p pr k d stop e u k' e' Hb Hrun|p pr k d stop e k' e' d' Hb Hrun _ IH]; intros Hr;
    pose proof (initlog_st stop p pr k sb d t e Hb Hs Hz Hr) as Hw.
  - apply (wpc_ret _ _ _ _ _ _ Hw) in Hrun as (d1 & (k1 & [= <- <-] & Hd) & [[H1 H2] H3]).
    split; [split|]; intros; rewrite ?Hd; auto.
  - apply (wpc_hang _ _ _ _ _ Hw) in Hrun as (d1 & (k1 & [= <- <-] & Hd) & Hd1).
    apply IH. eapply recoverable_ext; [|exact Hd1]. intros m. by rewrite Hd.
Qed.

(** *** log_write *)

Lemma log_index_spec (l : list Z) (n : nat) x :
  (n <= length l)%nat ->
  if bool_decide (x ∈ take n l) then (log_index l n x < n)%nat /\ l !! log_index l n x = Some x
  else log_index l n x = n.
Proof.
  revert n. induction l as [|y l IH]; intros [|n] Hn; simpl in *; try lia; try done.
  destruct (Z.eqb_spec y x) as [->|Hne].
  - rewrite bool_decide_true by set_solver. split; [lia|done].
  - specialize (IH n ltac:(lia)). rewrite (bool_decide_ext _ (x ∈ take n l)) by set_solver.
    case_bool_decide; simpl; [|by rewrite IH]. split; [lia|apply IH].
Qed.

(** The log record after [log_write] of block [n]. *)
Definition log_add (lg : log) (n : Z) : log :=
  if logged lg n then lg
  else set_l_n (l_n lg + 1) (set_l_block (<[Z.to_nat (l_n lg) := n]> (l_block lg)) lg).

Section log_write.
Context {p : nat} {pr : proc} {lg : log} (Hok : log_ok lg).
Context {k : kernel} {R Lk : Z -> Z} {C Dk : Z -> list Z} {U : nat}.
Hypothesis Hst : st p pr lg k R Lk C Dk U.
Context {n : Z} {b : nat}.
Hypothesis Hb : holds (p_pid pr) k n b.
Hypothesis Hn : 0 <= n < 2 ^ 31.
Hypothesis HR : 0 < R n < 2 ^ 31 - 1.
Hypothesis Hroom : l_n lg < LOGSIZE /\ l_n lg < l_size lg - 1.

Lemma log_write_eq e :
  1 <= l_outstanding lg ->
  log_write b (W k e) = Ret tt (W (set_k_log (log_add lg n)
    (if logged lg n then k else set_k_bufs (alter (set_b_refcnt (R n + 1)) b (k_bufs k)) k)) e).
Proof.
  intros Ho. pose proof (lo_n _ Hok) as Hlgn. pose proof (lo_len _ Hok) as Hlen.
  destruct Hst as [Hc [l Hi] Hg HR' HL HC HD HUs Hf].
  unfold log_write. k_acquire. rewrite bind_kget. simpl. rewrite Hg.
  destruct (Z.leb_spec LOGSIZE (l_n lg)); [lia|]. destruct (Z.leb_spec (l_size lg - 1) (l_n lg)); [lia|].
  simpl. destruct (Z.ltb_spec (l_outstanding lg) 1); [lia|].
  destruct (proj1 (slot_spec Hi n b) (h_slot _ _ _ _ Hb)) as (Hbl & Hbd & Hbn).
  erewrite (bind_Ret (buf_get b)); [|apply buf_get_run; simpl; rewrite (ring_length _ _ (ci_ring _ _ Hi)); lia].
  simpl. rewrite Hbn, (s32_small n) by lia.
  pose proof (log_index_spec (l_block lg) (Z.to_nat (l_n lg)) n ltac:(lia)) as Hidx.
  set (i := log_index _ _ _) in *. unfold log_add, logged.
  assert (calm p pr (lockk Llog k)) as Hc'.
  { destruct Hc. split; try done; simpl; set_solver. }
  erewrite (bind_Ret (lh_set _ _)); [|apply (lh_set_eq _ lg); [done|]].
  2:{ case_bool_decide; [lia|]. rewrite Hidx. lia. }
  rewrite Nat2Z.id. case_bool_decide as Hin.
  - destruct Hidx as [Hlt Hix]. rewrite (proj2 (Z.eqb_neq _ _)) by lia. simpl when.
    rewrite bind_ret_l, (list_insert_id _ _ _ Hix). k_release. do 2 f_equal.
    clear -Hg. destruct k, lg; simpl in *. done.
  - rewrite Hidx, Z2Nat.id, Z.eqb_refl by lia. simpl when. rewrite bind_assoc.
    set (lg1 := set_l_block _ lg). set (k1 := set_k_log lg1 (lockk Llog k)).
    assert (calm p pr k1) as Hc1 by (by destruct Hc'). assert (cache_inv k1 l) as Hi1 by (by destruct Hi).
    assert (slot k1 n = Some b) as Hs1 by apply Hb. assert (lref k1 n = R n) as E1 by apply HR'.
    rewrite (bind_Ret _ _ _ _ _ (bpin_eq Hc1 Hi1 n b e Hs1 ltac:(rewrite E1; lia))), E1.
    k_step. k_release. by destruct k.
Qed.

(** The pin keeps the block's buffer in the cache. *)
Lemma log_write_st :
  let k' := set_k_log (log_add lg n)
    (if logged lg n then k else set_k_bufs (alter (set_b_refcnt (R n + 1)) b (k_bufs k)) k) in
  st p pr (log_add lg n) k' (if logged lg n then R else zupd R n (R n + 1)) Lk C Dk U.
Proof using Hst Hb HR.
  intros k'. apply (st_set_log _ _ lg). destruct (logged lg n); [done|].
  clear k'. destruct Hst as [Hc [l Hi] Hg HR' HL HC HD HUs Hf].
  destruct (repin_run Hi n b (R n + 1) (h_slot _ _ _ _ Hb)) as (H1 & H2 & _ & H4); [lia|rewrite HR'; lia|].
  destruct (at_block_view _ _ _ _ _ _ R Lk C H2 HR' HL HC) as (V1 & V2 & V3). split; try done.
  - by apply calm_set_bufs.
  - by exists l.
  - intros m. rewrite V2, HL. unfold zupd. by destruct (decide (m = n)) as [->|].
  - intros m. rewrite V3. unfold zupd. destruct (decide (m = n)) as [->|]; [apply HC|done].
  - simpl in *. lia.
Qed.

Lemma log_add_home i :
  0 <= i < l_n (log_add lg n) ->
  home (log_add lg n) i = (if decide (i = l_n lg) then n else home lg i).
Proof using Hok Hroom.
  pose proof (lo_n _ Hok). pose proof (lo_len _ Hok) as Hlen. unfold log_add, home.
  destruct (logged lg n); simpl; intros Hi; case_decide as E; try lia; try done.
  - subst i. by rewrite list_lookup_insert_eq by lia.
  - by rewrite list_lookup_insert_ne by lia.
Qed.

Lemma log_add_ok : ~ in_log lg n -> log_ok (log_add lg n).
Proof using Hok Hn Hroom.
  intros Hnl. pose proof log_add_home as Hh. pose proof (logged_spec lg n Hok) as Hl.
  pose proof Hok as [H1 H2 H3 H4 H5 H6 H7 H8]. unfold log_add in *. destruct (logged lg n); [done|].
  split; simpl in *; try done; try lia.
  - by rewrite length_insert.
  - intros i Hi. unfold in_log in *. simpl. rewrite Hh by done. case_decide; [done|apply H7; lia].
  - intros i j Hi Hj. rewrite !Hh by done. repeat case_decide; subst; intros E; try done.
    + by destruct (Hl j ltac:(lia)).
    + by destruct (Hl i ltac:(lia)).
    + apply H8; [lia..|done].
Qed.

Lemma log_add_logged m : ~ in_log lg n -> logged (log_add lg n) m = logged lg m || (m =? n).
Proof using Hok Hn Hroom.
  intros Hnl. pose proof (logged_spec _ m (log_add_ok Hnl)) as H1. pose proof (logged_spec lg m Hok) as H2.
  pose proof log_add_home as Hh. pose proof (lo_n _ Hok). pose proof (logged_spec lg n Hok) as H3.
  assert (l_n (log_add lg n) = l_n lg + (if logged lg n then 0 else 1)) as En.
  { unfold log_add. destruct (logged lg n); simpl; lia. }
  destruct (logged lg m) eqn:E2; simpl.
  - destruct H2 as (i & Hi & ->). destruct (logged (log_add lg n) _); [done|].
    assert (0 <= i < l_n (log_add lg n)) as Hi' by (destruct (logged lg n); lia).
    specialize (H1 i Hi'). rewrite Hh, decide_False in H1 by (done || lia). done.
  - destruct (Z.eqb_spec m n) as [->|Hne].
    + rewrite E2 in En. destruct (logged (log_add lg n) n); [done|].
      assert (0 <= l_n lg < l_n (log_add lg n)) as Hi' by lia.
      specialize (H1 _ Hi'). by rewrite Hh, decide_True in H1.
    + destruct (logged (log_add lg n) m); [|done]. destruct H1 as (i & Hi & ->).
      rewrite Hh in * by done. case_decide; [done|].
      assert (0 <= i < l_n lg) as Hi' by (destruct (logged lg n); lia). by destruct (H2 i Hi').
Qed.

Lemma log_add_pinned :
  pinned lg R -> ~ in_log lg n ->
  pinned (log_add lg n) (if logged lg n then R else zupd R n (R n + 1)).
Proof using Hok Hn HR Hroom.
  intros [P1 P2] Hnl. pose proof log_add_home as Hh. unfold log_add in *.
  destruct (logged lg n); [by split|]. split; simpl in *.
  - intros i Hi. rewrite Hh by done. case_decide; [rewrite zupd_eq; lia|].
    unfold zupd. case_decide as E; [lia|]. apply P1. lia.
  - intros m Hm. rewrite zupd_ne by (intros ->; apply Hnl, Hm). by apply P2.
Qed.

End log_write.

(** *** end_op *)

(** The critical section that ends a commit. *)
Lemma wake_section_st p pr lg k R Lk C D U (f : log -> log) e :
  st p pr lg k R Lk C D U ->
  exists k', (acquire Llog ;;; log_mod f ;;; wakeup Clog ;;; release Llog) (W k e) = Ret tt (W k' e) /\
    st p pr (f lg) k' R Lk C D U /\ same_io k k'.
Proof.
  intros [Hc [l Hi] Hg HR HL HC HD HU Hf].
  exists (set_k_log (f lg) (set_k_procs (wake Clog (k_cur k) (k_procs k)) k)). split.
  - k_acquire. k_step. erewrite (bind_Ret (wakeup _)).
    2:{ apply wakeup_eq; [by destruct Hc|]. intros i _. simpl. apply not_elem_of_cons.
        split; [done|apply (calm_procs _ _ _ Hc)]. }
    k_release. simpl. rewrite Hg. by destruct k.
  - split; [|exists (k_bufs k), (wake Clog (k_cur k) (k_procs k)), (f lg), (k_disk k); split; [apply woken_wake|by destruct k]].
    pose proof (calm_wake p pr k Clog Hc) as []. split; try done. exists l. by destruct Hi.
Qed.

(** [begin_op] has counted this operation and no other is left, so [end_op] commits. *)
Definition last_op (lg : log) : Prop := l_outstanding lg = 1 /\ l_committing lg = 0.

Lemma end_op_st stop p pr lg k R C Dk U e :
  log_ok lg -> st p pr lg k R (fun _ => 0) C Dk U -> (U < HEAD)%nat -> pinned lg R ->
  log_empty (l_start lg) Dk -> last_op lg ->
  wpc stop (end_op (D := power_disk stop)) (W k e)
    (fun _ w => exists k' R' C' D', w = W k' e /\ same_io k k' /\
       st p pr (set_l_outstanding 0 (set_l_n 0 lg)) k' R' (fun _ => 0) C' D' U /\
       log_empty (l_start lg) D' /\ (forall m, in_log lg m -> R' m = R m) /\ forall m, ~ in_log lg m ->
         D' m = committed lg C Dk m /\ C' m = C m /\ R' m = R m - (if logged lg m then 1 else 0))
    (fun w => exists d, disk_is d e w /\
       (recoverable (l_start lg) (l_size lg) d Dk \/
        recoverable (l_start lg) (l_size lg) d (committed lg C Dk))).
Proof.
  intros Hok Hst HU Hpin Hempty [Ho Hcm].
  set (lg1 := set_l_committing 1 (set_l_outstanding 0 lg)).
  assert (st p pr lg1 (set_k_log lg1 k) R (fun _ => 0) C Dk U) as H1 by (by eapply st_set_log).
  unfold end_op. pose proof (st_free _ _ _ _ _ _ _ _ _ Hst) as Hf.
  eapply wpc_step; [by apply acquire_eq|]. eapply wpc_step; [reflexivity|]. eapply wpc_step; [reflexivity|].
  simpl. rewrite (st_log _ _ _ _ _ _ _ _ _ Hst). simpl. rewrite Hcm, Ho. simpl.
  eapply wpc_step; [reflexivity|].
  eapply wpc_step; [eapply release_top; [simpl; reflexivity|exact Hf|simpl; reflexivity]|].
  match goal with |- wpc _ _ (W ?x _) _ _ => replace x with (set_k_log lg1 k) end.
  2:{ pose proof (st_log _ _ _ _ _ _ _ _ _ Hst) as Hg. unfold lg1. clear -Hg Ho. destruct k; simpl in *.
      by subst. }
  simpl when. assert (log_ok lg1) as Hok1 by (destruct Hok; by split).
  assert (pinned lg1 R) as Hpin1 by (destruct Hpin; by split).
  eapply wpc_bind; [apply (commit_st Hok1 H1 HU Hpin1 Hempty stop e)|].
  intros _ w (k2 & R2 & C2 & D2 & -> & I2 & H2 & He2 & Hl2 & Hm2).
  destruct (wake_section_st _ _ _ _ _ _ _ _ _ (set_l_committing 0) e H2) as (k3 & Hr3 & H3 & I3).
  unfold wpc. rewrite Hr3. exists k3, R2, C2, D2. split; [done|]. split; [by rewrite (same_io_log lg1 k), I2|]. split; [|by split].
  assert (set_l_committing 0 (set_l_n 0 lg1) = set_l_outstanding 0 (set_l_n 0 lg)) as E
    by (unfold lg1; clear -Hcm; destruct lg; simpl in *; by subst).
  by rewrite <- E.
Qed.

(** ** Properties *)

(** C1: a transaction is atomic in the face of power failures.  When the last
    operation ends, [end_op] returns with every logged block at its home
    location; if the power fails at any of its disk writes, then however often
    the machine is restarted and fails again before [initlog] returns, all
    blocks outside the log are the old ones or all are the new ones. *)
Theorem end_op_crash_atomic p pr lg k R C D U sb stop e :
  log_ok lg -> st p pr lg k R (fun _ => 0) C D U -> (U < HEAD)%nat -> pinned lg R ->
  log_empty (l_start lg) D -> last_op lg ->
  l_start lg = logstart sb -> l_size lg = logsize sb ->
  match end_op (D := power_disk stop) (W k e) with
  | Ret _ w => (forall m, ~ in_log lg m -> disk_block (wk w) m = committed lg C D m) /\
      k_log (wk w) = set_l_outstanding 0 (set_l_n 0 lg)
  | Hang w => forall d, restarts sb (disk_block (wk w)) d ->
      (forall m, ~ in_log lg m -> d m = D m) \/
      (forall m, ~ in_log lg m -> d m = committed lg C D m)
  | _ => False
  end.
Proof.
  intros Hok Hst HU Hpin Hempty Hlast Hs Hz.
  pose proof (end_op_st stop _ _ _ _ _ _ _ _ e Hok Hst HU Hpin Hempty Hlast) as Hw.
  apply (wpc_outcome _ _ _ _ _ _ Hw).
  - intros u w (k' & R' & C' & D' & -> & _ & H1 & _ & H2). simpl. split; [|apply H1].
    intros m Hm. rewrite (st_disk _ _ _ _ _ _ _ _ _ H1). by apply H2.
  - intros w (d & (k' & -> & Hd) & Hrec). simpl. intros d' Hd'.
    assert (forall t, recoverable (l_start lg) (l_size lg) d t ->
      forall m, ~ in_log lg m -> d' m = t m) as H.
    { intros t Ht. unfold in_log. destruct Hok. rewrite Hs, Hz in *.
      apply (restarts_recovered sb (disk_block k') t d'); [done..| |done].
      eapply recoverable_ext; [|exact Ht]. intros m. by rewrite Hd. }
    destruct Hrec as [Hr|Hr]; [left|right]; intros m Hm; by apply (H _ Hr).
Qed.

(** C23: recovery is safe to interrupt and always gets to its end.  From a disk
    that stands for the blocks [t], [initlog] returns with [t] in place and
    an empty log; if the power fails on the way, the disk still stands for [t]. *)
Theorem initlog_recovers p pr k sb d t stop e :
  booted p pr k d -> 0 <= logstart sb -> logstart sb + logsize sb < 2 ^ 31 ->
  recoverable (logstart sb) (logsize sb) d t ->
  match initlog (D := power_disk stop) ROOTDEV sb (W k e) with
  | Ret _ w => log_empty (logstart sb) (disk_block (wk w)) /\
      forall m, ~ (logstart sb <= m < logstart sb + logsize sb) -> disk_block (wk w) m = t m
  | Hang w => recoverable (logstart sb) (logsize sb) (disk_block (wk w)) t
  | _ => False
  end.
Proof.
  intros Hb Hs Hz Hr. pose proof (initlog_st stop p pr k sb d t e Hb Hs Hz Hr) as Hw.
  apply (wpc_outcome _ _ _ _ _ _ Hw); [intros u w|intros w]; intros (d' & (k' & -> & Hd) & H); simpl.
  - destruct H as [[H1 H2] H3]. split; [split; by rewrite Hd|]. intros m Hm. rewrite Hd. by apply H3.
  - eapply recoverable_ext; [|exact H]. intros m. by rewrite Hd.
Qed.

(** C24: [log_write] adds the caller's block to the transaction: a block logged
    before is absorbed -- its slot in the log is reused and nothing is pinned
    twice --, a new one takes the next slot and is pinned in the cache.  The
    log stays well formed, and no block's contents change. *)
Theorem log_write_adds p pr lg k R Lk C D U n b e :
  log_ok lg -> st p pr lg k R Lk C D U -> pinned lg R -> holds (p_pid pr) k n b ->
  0 <= n < 2 ^ 31 -> ~ in_log lg n -> 0 < R n < 2 ^ 31 - 1 ->
  l_n lg < LOGSIZE /\ l_n lg < l_size lg - 1 -> 1 <= l_outstanding lg ->
  exists k' lg', log_write b (W k e) = Ret tt (W k' e) /\
    let R' := if logged lg n then R else zupd R n (R n + 1) in
    st p pr lg' k' R' Lk C D U /\ log_ok lg' /\ pinned lg' R' /\
    l_n lg' = l_n lg + (if logged lg n then 0 else 1) /\
    forall m, logged lg' m = logged lg m || (m =? n).
Proof.
  intros Hok Hst Hpin Hh Hn Hnl HR Hroom Ho. do 2 eexists.
  split; [exact (log_write_eq Hok Hst Hh Hn HR Hroom e Ho)|]. cbv zeta.
  split; [exact (log_write_st Hst Hh HR)|]. split; [exact (log_add_ok Hok Hn Hroom Hnl)|].
  split; [exact (log_add_pinned Hok Hn HR Hroom Hpin Hnl)|].
  split; [unfold log_add; destruct (logged lg n); simpl; lia|].
  intros m. exact (log_add_logged Hok Hn Hroom m Hnl).
Qed.

(** ** Examples *)

(** The cache [binit] makes of zeroed buffers is the one [initlog] starts with. *)
Lemma binit_booted p pr k e :
  k_bufs k = replicate (S HEAD) buf0 -> calm p pr k -> Llog ∉ k_held k ->
  length (l_block (k_log k)) = Z.to_nat LOGSIZE ->
  exists bs, binit (W k e) = Ret tt (W (set_k_bufs bs k) e) /\
    booted p pr (set_k_bufs bs k) (disk_block k).
Proof.
  intros Hz Hc Hf Hl. destruct (binit_run k e Hz (calm_bcache _ _ _ Hc)) as (bs & Hrun & Hring & Hzb).
  exists bs. split; [done|]. destruct (zeroed_inv (set_k_bufs bs k) _ Hring Hzb) as [Hi Hu].
  split; [by apply calm_set_bufs|by eexists| |done..].
  intros n. unfold lref, llock. assert (slot (set_k_bufs bs k) n = None) as ->; [|done].
  apply slot_none. intros b Hb Hd. exfalso. destruct Hzb as [_ Hz'].
  pose proof (f_equal b_dev (Hz' b Hb)) as H. simpl in H. simpl in Hd. by rewrite H in Hd.
Qed.

Lemma booted_st p pr k d lg :
  booted p pr k d -> st p pr lg (set_k_log lg k) (fun _ => 0) (fun _ => 0) d d 0.
Proof.
  intros [Hc Hi Hid Hu Hl Hd Hf].
  assert (st p pr (k_log k) k (fun _ => 0) (fun _ => 0) (lblk k) d 0) as H
    by (split; try done; [intros m; apply Hid|intros m; apply Hid|lia]).
  eapply st_set_log, st_ext; [exact H|done..| |done|done].
  intros m. by apply (st_idle _ _ _ _ _ _ _ _ _ m H).
Qed.

(** A log of 31 blocks from block 2 on, empty, with one operation going on. *)
Definition sample_log : log := mkLog 2 31 1 0 ROOTDEV 0 (replicate (Z.to_nat LOGSIZE) 0).
Definition sample_sb : superblock := mkSuperblock 0 1000 941 200 31 2 33 46.

Lemma sample_log_ok : log_ok sample_log.
Proof. split; try done; simpl; unfold LOGSIZE, MAXOPBLOCKS; lia. Qed.

Definition sample_disk : Z -> list Z := disk_block sample_boot.

Lemma sample_st :
  exists k, st 1 sample_bproc sample_log k (fun _ => 0) (fun _ => 0) sample_disk sample_disk 0.
Proof.
  destruct (binit_booted 1 sample_bproc sample_boot []) as (bs & _ & Hb).
  - reflexivity.
  - split; [reflexivity|reflexivity|reflexivity|intros; apply not_elem_of_nil..].
  - apply not_elem_of_nil.
  - reflexivity.
  - eexists. exact (booted_st _ _ _ _ sample_log Hb).
Qed.

(** The first [j] blocks from 40 on are in the transaction. *)
Definition first_from (j : Z) (m : Z) : Z := if decide (40 <= m < 40 + j) then 1 else 0.

Record filled (j : Z) (lg : log) : Prop := {
  fi_ok : log_ok lg;
  fi_n : l_n lg = j;
  fi_size : l_start lg = 2 /\ l_size lg = 31;
  fi_op : last_op lg;
  fi_logged : forall m, logged lg m = bool_decide (40 <= m < 40 + j);
}.

Lemma filled_pinned j lg R :
  filled j lg -> (forall m, 0 <= m < 40 + j -> R m = first_from j m) -> pinned lg R.
Proof.
  intros [Hok Hn [Hs Hz] _ Hl] HR. unfold first_from in HR. split.
  - intros i Hi. pose proof (Hl (home lg i)) as H. pose proof (logged_spec lg (home lg i) Hok) as Hg.
    destruct (logged lg (home lg i)); [|by destruct (Hg i Hi)].
    symmetry in H. apply bool_decide_eq_true in H. rewrite HR, decide_True by lia. lia.
  - intros m. unfold in_log. rewrite Hs, Hz. intros Hm. pose proof (lo_n _ Hok).
    rewrite HR, decide_False by lia. done.
Qed.

(** One operation's write to block [40 + j]: read it, store [d], log it, release it. *)
Lemma fill_step j lg k C Dk U d :
  filled j lg -> 0 <= j < 30 -> st 1 sample_bproc lg k (first_from j) (fun _ => 0) C Dk U ->
  (U < HEAD)%nat ->
  exists k' lg', filled (j + 1) lg' /\
    st 1 sample_bproc lg' k' (first_from (j + 1)) (fun _ => 0) (zupd C (40 + j) d) Dk (S U).
Proof.
  intros Hfi Hj H0 HU. pose proof Hfi as [Hok Hn [Hs Hz] [Ho Hcm] Hl].
  assert (first_from j (40 + j) = 0) as E0 by (unfold first_from; rewrite decide_False by lia; done).
  destruct (bread_st (D := sync_disk) H0 (40 + j) []) as (b & k1 & _ & H1 & Hb1 & _); [done|lia|by left|].
  rewrite E0 in H1. simpl in H1.
  destruct (store_st H1 (40 + j) b d [] Hb1) as (k2 & _ & H2 & Hb2 & _); [rewrite zupd_eq; lia|].
  set (R1 := zupd (first_from j) (40 + j) 1) in *.
  assert (0 < R1 (40 + j) < 2 ^ 31 - 1) as HR1 by (unfold R1; rewrite zupd_eq; lia).
  assert (l_n lg < LOGSIZE /\ l_n lg < l_size lg - 1) as Hroom by (rewrite Hn, Hz; unfold LOGSIZE, MAXOPBLOCKS; lia).
  assert (~ in_log lg (40 + j)) as Hnl by (unfold in_log; lia).
  assert (0 <= 40 + j < 2 ^ 31) as Hr by lia.
  pose proof (log_write_st H2 Hb2 HR1) as H3. cbv zeta in H3.
  assert (logged lg (40 + j) = false) as En by (rewrite Hl; apply bool_decide_eq_false; lia).
  rewrite En in H3. set (k3 := set_k_log _ _) in H3.
  assert (holds (p_pid sample_bproc) k3 (40 + j) b) as Hb3.
  { apply set_log_holds. destruct H2 as [Hc [l Hi] _ HR _ _ _ _ _].
    destruct (repin_run Hi (40 + j) b (R1 (40 + j) + 1) (h_slot _ _ _ _ Hb2)) as (_ & _ & HH & _);
      [lia|rewrite HR; apply HR1|by apply HH]. }
  destruct (brelse_st H3 (40 + j) b [] Hb3) as (k4 & _ & H4 & _); [unfold R1; rewrite !zupd_eq; lia|..].
  { rewrite zupd_eq. unfold R1. rewrite zupd_eq. lia. }
  exists k4, (log_add lg (40 + j)). split.
  - split.
    + exact (log_add_ok Hok Hr Hroom Hnl).
    + unfold log_add. rewrite En. simpl. lia.
    + unfold log_add. by rewrite En.
    + unfold log_add. by rewrite En.
    + intros m. rewrite (log_add_logged Hok Hr Hroom m Hnl), Hl. apply eq_true_iff_eq.
      rewrite orb_true_iff, !bool_decide_eq_true, Z.eqb_eq. lia.
  - eapply st_ext; [exact H4| | |done|done|].
    + intros m. unfold R1, first_from. zupd_cases.
    + intros m. zupd_cases.
    + rewrite zupd_eq. unfold R1. rewrite zupd_eq. simpl. lia.
Qed.

Lemma fill n :
  (n <= 30)%nat -> exists k lg C, filled (Z.of_nat n) lg /\
    st 1 sample_bproc lg k (first_from (Z.of_nat n)) (fun _ => 0) C sample_disk n.
Proof.
  induction n as [|n IH]; intros Hn.
  - destruct sample_st as (k & H). exists k, sample_log, sample_disk. split.
    + split; [apply sample_log_ok|done..|]. intros m. symmetry. apply bool_decide_eq_false. simpl. lia.
    + eapply st_ext; [exact H| |done..]. intros m. unfold first_from. rewrite decide_False by lia. done.
  - destruct IH as (k & lg & C & Hf & Hst); [lia|].
    destruct (fill_step (Z.of_nat n) lg k C sample_disk n block0 Hf) as (k' & lg' & H1 & H2); [lia|done| |].
    + assert (HEAD = 30%nat) as -> by reflexivity. lia.
    + exists k', lg'. eexists. replace (Z.of_nat (S n)) with (Z.of_nat n + 1) by lia. split; [exact H1|exact H2].
Qed.

Lemma sample_empty : log_empty 2 sample_disk.
Proof. split; vm_compute; reflexivity. Qed.

Lemma end_op_crash_atomic_witness :
  exists k lg C, l_n lg = 2 /\ forall stop,
  match end_op (D := power_disk stop) (W k []) with
  | Ret _ w => (forall m, ~ in_log lg m -> disk_block (wk w) m = committed lg C sample_disk m) /\
      k_log (wk w) = set_l_outstanding 0 (set_l_n 0 lg)
  | Hang w => forall d, restarts sample_sb (disk_block (wk w)) d ->
      (forall m, ~ in_log lg m -> d m = sample_disk m) \/
      (forall m, ~ in_log lg m -> d m = committed lg C sample_disk m)
  | _ => False
  end.
Proof.
  destruct (fill 2) as (k & lg & C & Hf & Hst); [lia|]. exists k, lg, C. split; [exact (fi_n _ _ Hf)|].
  intros stop. destruct (fi_size _ _ Hf) as [Hs Hz].
  apply (end_op_crash_atomic 1 sample_bproc lg k (first_from 2) C sample_disk 2 sample_sb stop []).
  - exact (fi_ok _ _ Hf).
  - exact Hst.
  - apply Nat.ltb_lt. reflexivity.
  - apply (filled_pinned _ _ _ Hf). reflexivity.
  - rewrite Hs. exact sample_empty.
  - exact (fi_op _ _ Hf).
  - exact Hs.
  - exact Hz.
Defined.

(** A disk on which the power failed after a commit of block 40: the header
    lists it, its new contents are in the log. *)
Definition torn_log : log := mkLog 2 31 0 0 ROOTDEV 1 (40 :: replicate 29 0).
Definition torn_boot : kernel :=
  set_k_disk {[2 := put_head torn_log block0; 3 := replicate (Z.to_nat BSIZE) 2]} sample_boot.
Definition torn_target : Z -> list Z :=
  zupd (disk_block torn_boot) 40 (replicate (Z.to_nat BSIZE) 2).

Lemma torn_recoverable : recoverable 2 31 (disk_block torn_boot) torn_target.
Proof.
  apply (recoverable_full torn_log).
  - split; try done; simpl.
    + intros i Hi. replace i with 0 by lia. unfold in_log, home. simpl. lia.
    + intros i j Hi Hj _. lia.
  - vm_compute. reflexivity.
  - vm_compute. reflexivity.
  - intros i Hi. simpl in Hi. replace i with 0 by lia. vm_compute. reflexivity.
  - intros i Hi. simpl in Hi. replace i with 0 by lia. reflexivity.
  - intros m _ Hm. apply zupd_ne. exact (Hm 0 ltac:(simpl; lia)).
Qed.

Lemma initlog_recovers_witness :
  exists k, booted 1 sample_bproc k (disk_block torn_boot) /\ forall stop,
  match initlog (D := power_disk stop) ROOTDEV sample_sb (W k []) with
  | Ret _ w => log_empty 2 (disk_block (wk w)) /\
      forall m, ~ (2 <= m < 33) -> disk_block (wk w) m = torn_target m
  | Hang w => recoverable 2 31 (disk_block (wk w)) torn_target
  | _ => False
  end.
Proof.
  destruct (binit_booted 1 sample_bproc torn_boot []) as (bs & _ & Hb).
  - reflexivity.
  - split; [reflexivity|reflexivity|reflexivity|intros; apply not_elem_of_nil..].
  - apply not_elem_of_nil.
  - reflexivity.
  - exists (set_k_bufs bs torn_boot). split; [exact Hb|]. intros stop.
    apply (initlog_recovers 1 sample_bproc (set_k_bufs bs torn_boot) sample_sb
      (disk_block torn_boot) torn_target stop [] Hb).
    + vm_compute. discriminate.
    + vm_compute. reflexivity.
    + exact torn_recoverable.
Defined.

Lemma log_write_adds_witness :
  exists k b k' lg', log_write b (W k []) = Ret tt (W k' []) /\ l_n lg' = 1 /\ k_log k' = lg' /\
    logged lg' 40 = true.
Proof.
  destruct sample_st as (k0 & H0).
  destruct (bread_st (D := sync_disk) H0 40 []) as (b & k1 & _ & H1 & Hb1 & _).
  - reflexivity.
  - reflexivity.
  - left. apply Nat.ltb_lt. reflexivity.
  - destruct (log_write_adds 1 sample_bproc sample_log k1 _ _ sample_disk sample_disk _ 40 b []
      sample_log_ok H1) as (k' & lg' & H2 & H3 & _ & _ & H4 & H5).
    + split; [intros i Hi; simpl in Hi; lia|]. intros m Hm. apply zupd_ne. unfold in_log in Hm. simpl in Hm. lia.
    + exact Hb1.
    + lia.
    + unfold in_log. simpl. lia.
    + rewrite zupd_eq. lia.
    + vm_compute. split; reflexivity.
    + vm_compute. discriminate.
    + exists k1, b, k', lg'. split; [exact H2|]. split; [exact H4|].
      split; [apply H3|]. rewrite H5. reflexivity.
Defined.
