(* ===== verification/Tx.v ===== *)
(** * Inside a transaction

    The cache and the log together, as the file system layer uses them: blocks
    are read, changed, logged and released one after the other, and what
    counts is each block's contents.  [tx] is the state of a process between
    such steps: [C] gives the contents, [D] the disk, [H] the buffers the
    process has locked.  Every logged block is pinned once. *)

From Stdlib Require Import ZArith Lia.
From stdpp Require Import base gmap list strings numbers.
From S2P Require Import Prelude Riscv State Klib Sched Bio Log.

(** ** The state *)

(** Only the cache and the log record may differ, and sleeping processes may
    have been woken. *)
Definition same_fs (k k' : kernel) : Prop :=
  exists bs ps lg, woken (k_procs k) ps /\ k' = set_k_log lg (set_k_procs ps (set_k_bufs bs k)).

#[export] Instance same_fs_refl : Reflexive same_fs.
Proof. intros k. exists (k_bufs k), (k_procs k), (k_log k). split; [done|]. by destruct k. Qed.
#[export] Instance same_fs_trans : Transitive same_fs.
Proof.
  intros k1 k2 k3 (b1 & p1 & l1 & W1 & ->) (b2 & p2 & l2 & W2 & ->). exists b2, p2, l2.
  split; [by rewrite W1|]. by destruct k1.
Qed.

Definition refs (lg : log) (H : list (Z * nat)) (m : Z) : Z :=
  (if logged lg m then 1 else 0) + (if decide (m ∈ H.*1) then 1 else 0).
Definition locks (H : list (Z * nat)) (m : Z) : Z := if decide (m ∈ H.*1) then 1 else 0.

(** The buffers in use. *)
Definition usage (lg : log) (H : list (Z * nat)) : nat :=
  (Z.to_nat (l_n lg) + length (filter (fun x => logged lg x.1 = false) H))%nat.

Record tx (p : nat) (pr : proc) (lg : log) (k : kernel) (C D : Z -> list Z) (H : list (Z * nat)) : Prop := {
  tx_st : st p pr lg k (refs lg H) (locks H) C D (usage lg H);
  tx_ok : log_ok lg;
  tx_clean : forall m, m ∉ H.*1 -> logged lg m = false -> C m = D m;
  tx_nodup : NoDup H.*1;
  tx_holds : forall n b, (n, b) ∈ H -> holds (p_pid pr) k n b;
}.

Lemma usage_bound lg H : (usage lg H <= Z.to_nat (l_n lg) + length H)%nat.
Proof. unfold usage. pose proof (length_filter (fun x : Z * nat => logged lg x.1 = false) H). lia. Qed.

(** The running operation can log [n] more blocks. *)
Definition log_room (lg : log) (n : Z) : Prop :=
  l_n lg + n <= LOGSIZE /\ l_n lg + n <= l_size lg - 1 /\ 1 <= l_outstanding lg.

(** ** Lemmas *)

Lemma tx_log p pr lg k C D H : tx p pr lg k C D H -> k_log k = lg.
Proof. intros Ht. apply (st_log _ _ _ _ _ _ _ _ _ (tx_st _ _ _ _ _ _ _ Ht)). Qed.

(** Logging a block, with [log_room]. *)
Lemma log_added lg n :
  log_ok lg -> ~ in_log lg n -> 0 <= n < 2 ^ 31 -> log_room lg 1 ->
  log_ok (log_add lg n) /\ forall m, logged (log_add lg n) m = logged lg m || (m =? n).
Proof.
  intros Hok Hnl Hn (R1 & R2 & R3). assert (l_n lg < LOGSIZE /\ l_n lg < l_size lg - 1) as Hroom by lia.
  split; [exact (log_add_ok Hok Hn Hroom Hnl)|]. intros m. exact (log_add_logged Hok Hn Hroom m Hnl).
Qed.

Section steps.
Context {p : nat} {pr : proc} {lg : log} {k : kernel} {C Dk : Z -> list Z} {H : list (Z * nat)}.
Hypothesis Ht : tx p pr lg k C Dk H.

Lemma tx_bread `{D : Disk} {DR : DiskReads D} n e :
  n ∉ H.*1 -> (usage lg H < HEAD)%nat ->
  exists b k', bread ROOTDEV n (W k e) = Ret b (W k' e) /\ tx p pr lg k' C Dk ((n, b) :: H) /\ same_fs k k'.
Proof.
  intros Hn Hu. destruct Ht as [Hst Hok Hcl Hnd Hh].
  assert (refs lg H n + 1 < 2 ^ 32) as Hr by (unfold refs; destruct (logged lg n); case_decide; lia).
  assert (locks H n = 0) as Hl by (unfold locks; by rewrite decide_False).
  destruct (bread_st Hst n e Hl Hr ltac:(left; lia)) as (b & k' & Hrun & Hst' & Hb & Hk & _).
  exists b, k'. split; [done|]. split.
  - split; [|done| |by apply list.NoDup_cons|].
    + eapply st_ext; [exact Hst'| | |done|done|].
      * intros m. unfold refs. simpl. unfold zupd. destruct (decide (m = n)) as [->|Hm].
        -- rewrite (decide_True (P := n ∈ _ :: _)) by apply list_elem_of_here. rewrite (decide_False (P := n ∈ H.*1)) by done. lia.
        -- f_equal. apply decide_ext. rewrite elem_of_cons. tauto.
      * intros m. unfold locks. simpl. unfold zupd. destruct (decide (m = n)) as [->|Hm].
        -- by rewrite decide_True by apply list_elem_of_here.
        -- apply decide_ext. rewrite elem_of_cons. tauto.
      * unfold usage, refs. rewrite filter_cons, (decide_False (P := n ∈ H.*1)) by done. simpl.
        destruct (logged lg n); simpl; lia.
    + intros m Hm Hlg. simpl in Hm. apply not_elem_of_cons in Hm as [_ Hm]. by apply Hcl.
    + intros n' b' Hin. apply elem_of_cons in Hin as [[= -> ->]|Hin]; [done|]. apply Hk; [|by apply Hh].
      intros ->. apply Hn. apply list_elem_of_fmap. by exists (n, b').
  - destruct Hst as [Hc [l Hi] Hg HR HL HC HD HU Hf].
    destruct (bread_run Hc Hi n e) as (b0 & bs & Hrun' & _).
    + by rewrite HL.
    + by rewrite HR.
    + left. lia.
    + rewrite Hrun in Hrun'. injection Hrun' as _ ->. exists bs, (k_procs k), (k_log k). by destruct k.
Qed.

Lemma tx_get n b e : (n, b) ∈ H -> exists x, buf_get b (W k e) = Ret x (W k e) /\ b_data x = C n.
Proof. intros Hin. destruct Ht. eapply held_data; [done|by apply tx_holds0]. Qed.

Lemma refs_held n b : (n, b) ∈ H -> 0 < refs lg H n < 2 ^ 31 - 1 /\ n ∈ H.*1.
Proof using.
  intros Hin. assert (n ∈ H.*1) as Hn by (apply list_elem_of_fmap; by exists (n, b)). split; [|done].
  unfold refs. rewrite decide_True by done. destruct (logged lg n); lia.
Qed.

(** Two buffers hold different blocks. *)
Lemma held_ne n b n' b' : (n, b) ∈ H -> (n', b') ∈ H -> n' = n -> b' = b.
Proof.
  intros Hin Hin' ->. destruct Ht as [_ _ _ _ Hh].
  pose proof (h_slot _ _ _ _ (Hh _ _ Hin)). pose proof (h_slot _ _ _ _ (Hh _ _ Hin')). congruence.
Qed.

(** Holders of the other blocks after a change that keeps them. *)
Lemma held_kept n b k' :
  (n, b) ∈ H -> keeps n k k' -> holds (p_pid pr) k' n b ->
  forall n' b', (n', b') ∈ H -> holds (p_pid pr) k' n' b'.
Proof.
  intros Hin Hk Hb n' b' Hin'. destruct (decide (n' = n)) as [->|Hne].
  - by rewrite (held_ne n b n b' Hin Hin' eq_refl).
  - apply Hk; [done|]. by apply (tx_holds _ _ _ _ _ _ _ Ht).
Qed.

Lemma tx_store n b d e :
  (n, b) ∈ H ->
  exists k', buf_mod b (set_b_data d) (W k e) = Ret tt (W k' e) /\ tx p pr lg k' (zupd C n d) Dk H /\ same_fs k k'.
Proof.
  intros Hin. destruct (refs_held n b Hin) as [Hr Hn]. pose proof Ht as [Hst Hok Hcl Hnd Hh].
  destruct (store_st Hst n b d e (Hh _ _ Hin) ltac:(lia)) as (k' & Hrun & Hst' & Hb & Hk & _).
  exists k'. split; [done|]. split.
  - split; try done.
    + intros m Hm Hl. rewrite zupd_ne by congruence. by apply Hcl.
    + by apply (held_kept n b).
  - unfold buf_mod, kmod in Hrun. injection Hrun as <-.
    exists (alter (set_b_data d) b (k_bufs k)), (k_procs k), (k_log k). by destruct k.
Qed.

Lemma refs_log_add n m :
  ~ in_log lg n -> 0 <= n < 2 ^ 31 -> log_room lg 1 ->
  (if logged lg n then refs lg H else zupd (refs lg H) n (refs lg H n + 1)) m = refs (log_add lg n) H m.
Proof.
  intros Hnl Hn (R1 & R2 & R3). destruct Ht as [_ Hok _ _ _]. unfold refs.
  assert (l_n lg < LOGSIZE /\ l_n lg < l_size lg - 1) as Hroom by lia.
  rewrite (log_add_logged Hok Hn Hroom m Hnl). unfold zupd.
  destruct (logged lg n) eqn:E.
  - destruct (Z.eqb_spec m n) as [->|]; [by rewrite E|by rewrite orb_false_r].
  - destruct (Z.eqb_spec m n) as [->|]; [rewrite decide_True, E by done; simpl; lia|].
    by rewrite decide_False, orb_false_r by done.
Qed.

(** Logging a held block moves its buffer from the one count to the other. *)
Lemma usage_log_add n b :
  (n, b) ∈ H -> ~ in_log lg n -> 0 <= n < 2 ^ 31 -> log_room lg 1 -> usage (log_add lg n) H = usage lg H.
Proof.
  intros Hin Hnl Hn (R1 & R2 & R3). destruct Ht as [_ Hok _ Hnd _]. pose proof (lo_n _ Hok) as Hl0.
  assert (l_n lg < LOGSIZE /\ l_n lg < l_size lg - 1) as Hroom by lia.
  destruct (logged lg n) eqn:E; [unfold log_add; by rewrite E|]. unfold usage.
  assert (l_n (log_add lg n) = l_n lg + 1) as -> by (unfold log_add; by rewrite E).
  enough (length (filter (fun x => logged lg x.1 = false) H) =
    S (length (filter (fun x => logged (log_add lg n) x.1 = false) H))) by lia.
  assert (forall m, logged (log_add lg n) m = false <-> logged lg m = false /\ m <> n) as Hadd.
  { intros m. rewrite (log_add_logged Hok Hn Hroom m Hnl), orb_false_iff, Z.eqb_neq. done. }
  clear Ht. induction H as [|[m c] H' IH]; [by apply elem_of_nil in Hin|].
  simpl in Hnd. apply list.NoDup_cons in Hnd as [Hm Hnd]. rewrite !filter_cons. simpl.
  apply elem_of_cons in Hin as [[= <- <-]|Hin].
  - rewrite decide_True, (decide_False (P := logged (log_add _ _) _ = _)) by (done || (rewrite Hadd; tauto)).
    simpl. do 2 f_equal. clear -Hadd Hm. induction H' as [|[m c] H' IH]; [done|].
    simpl in Hm. apply not_elem_of_cons in Hm as [Hne Hm]. rewrite !filter_cons, (IH Hm). simpl.
    rewrite (decide_ext (logged (log_add lg n) m = false) (logged lg m = false)); [done|].
    rewrite Hadd. intuition congruence.
  - assert (m <> n) as Hne by (intros ->; apply Hm; apply list_elem_of_fmap; by exists (n, b)).
    rewrite (decide_ext (logged (log_add lg n) m = false) (logged lg m = false)) by (rewrite Hadd; tauto).
    case_decide; simpl; rewrite IH by done; done.
Qed.

Lemma tx_log_write n b e :
  (n, b) ∈ H -> ~ in_log lg n -> 0 <= n < 2 ^ 31 -> log_room lg 1 ->
  exists k', log_write b (W k e) = Ret tt (W k' e) /\ tx p pr (log_add lg n) k' C Dk H /\ same_fs k k'.
Proof.
  intros Hin Hnl Hn (R1 & R2 & R3). destruct (refs_held n b Hin) as [Hr Hm]. pose proof Ht as [Hst Hok Hcl Hnd Hh].
  assert (l_n lg < LOGSIZE /\ l_n lg < l_size lg - 1) as Hroom by lia.
  eexists. split; [exact (log_write_eq Hok Hst (Hh _ _ Hin) Hn Hr Hroom e R3)|]. split.
  - pose proof (log_write_st Hst (Hh _ _ Hin) Hr) as Hst'. cbv zeta in Hst'.
    set (k' := set_k_log _ _) in *. split; [| | |done|].
    + eapply st_ext; [exact Hst'| |done..|].
      * intros m. by apply refs_log_add.
      * by rewrite (usage_log_add n b).
    + exact (log_add_ok Hok Hn Hroom Hnl).
    + intros m Hmh Hl. rewrite (log_add_logged Hok Hn Hroom m Hnl) in Hl. apply Hcl; [done|].
      by destruct (logged lg m).
    + apply (held_kept n b); [done| |].
      * intros pid m c Hne Hc. unfold k'. apply set_log_holds. destruct (logged lg n); [done|].
        destruct Hst as [Hca [l Hi] _ HR _ _ _ _ _].
        destruct (repin_run Hi n b (refs lg H n + 1) (h_slot _ _ _ _ (Hh _ _ Hin))) as (_ & Hab & _);
          [lia|rewrite HR; lia|]. by apply (ab_keeps _ _ _ _ _ _ Hab).
      * unfold k'. apply set_log_holds. destruct (logged lg n); [by apply Hh|].
        destruct Hst as [Hca [l Hi] _ HR _ _ _ _ _].
        destruct (repin_run Hi n b (refs lg H n + 1) (h_slot _ _ _ _ (Hh _ _ Hin))) as (_ & _ & HH & _);
          [lia|rewrite HR; lia|by apply HH, Hh].
  - exists (if logged lg n then k_bufs k else alter (set_b_refcnt (refs lg H n + 1)) b (k_bufs k)),
      (k_procs k), (log_add lg n). by destruct (logged lg n), k.
Qed.
End steps.

Lemma tx_brelse p pr lg k C Dk H n b e :
  tx p pr lg k C Dk ((n, b) :: H) -> C n = Dk n \/ logged lg n = true ->
  exists k', brelse b (W k e) = Ret tt (W k' e) /\ tx p pr lg k' C Dk H /\ same_fs k k'.
Proof.
  intros Ht Hor. pose proof Ht as [Hst Hok Hcl Hnd Hh].
  assert ((n, b) ∈ (n, b) :: H) as Hin by apply list_elem_of_here.
  destruct (refs_held (lg := lg) n b Hin) as [Hr _]. simpl in Hnd. apply list.NoDup_cons in Hnd as [Hn Hnd].
  assert (refs lg ((n, b) :: H) n = (if logged lg n then 2 else 1)) as Er.
  { unfold refs. simpl. rewrite decide_True by apply list_elem_of_here. by destruct (logged lg n). }
  destruct (brelse_st Hst n b e (Hh _ _ Hin) ltac:(lia)) as (k' & Hrun & Hst' & Hk & _).
  { rewrite Er. destruct Hor as [?|Hl]; [done|]. rewrite Hl. lia. }
  exists k'. split; [done|]. split.
  - split; [|done| |done|].
    + eapply st_ext; [exact Hst'| | |done|done|].
      * intros m. unfold zupd. destruct (decide (m = n)) as [->|Hm].
        -- rewrite Er. unfold refs. rewrite decide_False by done. destruct (logged lg n); lia.
        -- unfold refs. simpl. f_equal. apply decide_ext. rewrite elem_of_cons. tauto.
      * intros m. unfold zupd, locks. simpl. destruct (decide (m = n)) as [->|Hm].
        -- by rewrite decide_False.
        -- apply decide_ext. rewrite elem_of_cons. tauto.
      * rewrite Er. unfold usage. rewrite filter_cons. simpl. destruct (logged lg n); simpl; lia.
    + intros m Hm Hl. destruct (decide (m = n)) as [->|Hne]; [destruct Hor; congruence|].
      apply Hcl; [|done]. simpl. rewrite elem_of_cons. tauto.
    + intros n' b' Hin'. apply Hk; [|apply Hh; by apply list_elem_of_further].
      intros ->. apply Hn. apply list_elem_of_fmap. by exists (n, b').
  - destruct Hst as [Hc [l Hi] Hg HR HL HC HD HU Hf].
    destruct (brelse_run Hc Hi n b e (Hh _ _ Hin)) as (bs & ps & l' & Hrun' & Hw & _).
    + rewrite HR. lia.
    + rewrite HR, HC, HD, Er. destruct Hor as [?|Hl]; [done|]. rewrite Hl. lia.
    + rewrite Hrun in Hrun'. injection Hrun' as ->. exists bs, ps, (k_log k). split; [done|]. by destruct k.
Qed.

(** Changing the data in place. *)
Lemma tx_modify p pr lg k C Dk H n b (f : list Z -> list Z) e :
  tx p pr lg k C Dk H -> (n, b) ∈ H ->
  exists k', buf_mod b (fun x => set_b_data (f (b_data x)) x) (W k e) = Ret tt (W k' e) /\
    tx p pr lg k' (zupd C n (f (C n))) Dk H /\ same_fs k k'.
Proof.
  intros Ht Hin. destruct (tx_store Ht n b (f (C n)) e Hin) as (k' & Hrun & Hk).
  exists k'. split; [|done]. rewrite <- Hrun. unfold buf_mod, kmod. simpl. do 3 f_equal.
  destruct (tx_get Ht n b e Hin) as (x & Hx & <-). apply list_alter_ext; [|done].
  intros y Hy. unfold buf_get in Hx. rewrite bind_kget in Hx. rewrite Hy in Hx.
  unfold ret in Hx. injection Hx as ->. done.
Qed.

(** A block read, changed, logged and released. *)
Lemma tx_update `{D : Disk} {DR : DiskReads D} p pr lg k C Dk H n (f : list Z -> list Z) e :
  tx p pr lg k C Dk H -> n ∉ H.*1 -> (usage lg H < HEAD)%nat ->
  ~ in_log lg n -> 0 <= n < 2 ^ 31 -> log_room lg 1 ->
  exists k', (let* bp := bread ROOTDEV n in
              buf_mod bp (fun x => set_b_data (f (b_data x)) x) ;;; log_write bp ;;; brelse bp) (W k e) = Ret tt (W k' e) /\
    tx p pr (log_add lg n) k' (zupd C n (f (C n))) Dk H /\ same_fs k k'.
Proof.
  intros Ht Hn Hu Hnl Hr Hroom.
  destruct (tx_bread Ht n e Hn Hu) as (b & k1 & E1 & T1 & S1).
  assert ((n, b) ∈ (n, b) :: H) as Hin by apply list_elem_of_here.
  destruct (tx_modify _ _ _ _ _ _ _ n b f e T1 Hin) as (k2 & E2 & T2 & S2).
  destruct (tx_log_write T2 n b e Hin Hnl Hr Hroom) as (k3 & E3 & T3 & S3).
  assert (logged (log_add lg n) n = true) as Hlg.
  { destruct (log_added lg n (tx_ok _ _ _ _ _ _ _ Ht) Hnl Hr Hroom) as [_ ->]. by rewrite Z.eqb_refl, orb_true_r. }
  destruct (tx_brelse _ _ _ _ _ _ _ n b e T3) as (k4 & E4 & T4 & S4); [by right|].
  exists k4. split; [|split; [done|by rewrite S1, S2, S3, S4]].
  by rewrite (bind_Ret _ _ _ _ _ E1), (bind_Ret _ _ _ _ _ E2), (bind_Ret _ _ _ _ _ E3).
Qed.

(** *** What logging a block leaves of the log *)

Lemma log_add_in lg n m : in_log (log_add lg n) m <-> in_log lg m.
Proof. unfold log_add, in_log. by destruct (logged lg n). Qed.

Lemma log_add_room lg n a : log_room lg (a + 1) -> log_room (log_add lg n) a.
Proof. unfold log_add, log_room. intros (H1 & H2 & H3). destruct (logged lg n); simpl; lia. Qed.

Lemma log_add_usage lg n H :
  log_ok lg -> ~ in_log lg n -> 0 <= n < 2 ^ 31 -> log_room lg 1 -> (usage (log_add lg n) H <= S (usage lg H))%nat.
Proof.
  intros Hok Hnl Hn Hroom. pose proof (lo_n _ Hok) as Hl0. destruct (log_added lg n Hok Hnl Hn Hroom) as [_ Hadd].
  assert (l_n (log_add lg n) <= l_n lg + 1) by (unfold log_add; destruct (logged lg n); simpl; lia).
  unfold usage. enough (length (filter (fun x => logged (log_add lg n) x.1 = false) H) <=
    length (filter (fun x => logged lg x.1 = false) H))%nat by lia.
  induction H as [|[m c] H IH]; [done|]. rewrite !filter_cons. simpl.
  rewrite Hadd. destruct (logged lg m); simpl; [done|]. case_decide; simpl; lia.
Qed.

(** ** A sample transaction *)

Lemma tx_set_sb p pr lg k C D H sb : tx p pr lg k C D H -> tx p pr lg (set_k_sb sb k) C D H.
Proof.
  intros [[Hc [l Hi] ? ? ? ? ? ? ?] Hok Hcl Hnd Hh]. split; try done.
  - split; try done; [by destruct Hc|exists l; by destruct Hi].
  - intros n b Hin. by destruct (Hh n b Hin).
Qed.

Lemma tx_set_mem p pr lg k C D H m : tx p pr lg k C D H -> tx p pr lg (set_k_mem m k) C D H.
Proof.
  intros [[Hc [l Hi] ? ? ? ? ? ? ?] Hok Hcl Hnd Hh]. split; try done.
  - split; try done; [by destruct Hc|exists l; by destruct Hi].
  - intros n b Hin. by destruct (Hh n b Hin).
Qed.

(** Nothing logged yet, and block 40 logged with contents [d]. *)
Lemma sample_tx sb : exists k, tx 1 sample_bproc sample_log k sample_disk sample_disk [] /\ k_sb k = sb.
Proof.
  destruct sample_st as (k & Hst). exists (set_k_sb sb k). split; [|done]. apply tx_set_sb.
  split; [|apply sample_log_ok|done|constructor|by intros n b ?%elem_of_nil].
  eapply st_ext; [exact Hst| |done..].
  intros m. unfold refs. rewrite decide_False by apply not_elem_of_nil. done.
Qed.

Lemma sample_tx_40 sb d :
  exists k, tx 1 sample_bproc (log_add sample_log 40) k (zupd sample_disk 40 d) sample_disk [] /\ k_sb k = sb.
Proof.
  destruct (sample_tx sb) as (k & Ht & Hsb).
  destruct (tx_update (D := sync_disk) _ _ _ _ _ _ _ 40 (fun _ => d) [] Ht) as (k' & _ & Ht' & (bs & ps & lg & _ & ->)).
  - apply not_elem_of_nil.
  - unfold HEAD. vm_compute. lia.
  - unfold in_log. simpl. lia.
  - lia.
  - unfold log_room, LOGSIZE, MAXOPBLOCKS. simpl. lia.
  - by eexists.
Qed.
