(* ===== verification/Fs.v ===== *)
(** * fs.c: blocks, inodes, directories, paths

    The layers of the file system above the log: the block allocator and its
    bitmap, inodes on disk and in the table, the contents of an inode through
    [bmap], directories as arrays of [dirent], and path lookup.  The routines
    for swap files at the end of [fs.c] are in [Swap]. *)

From Stdlib Require Import ZArith Lia.
From stdpp Require Import base gmap list strings numbers.
From S2P Require Import Prelude Riscv State Klib Sched Usercopy Bio Log.

(** ** On-disk formats *)

Definition superblock_of (d : list Z) : superblock :=
  mkSuperblock (get32 d 0) (get32 d 4) (get32 d 8) (get32 d 12)
    (get32 d 16) (get32 d 20) (get32 d 24) (get32 d 28).

(** Byte offset of inode [inum] in its block. *)
Definition dinode_off (inum : Z) : Z := (inum mod IPB) * sizeof_dinode.

Definition dinode_get (d : list Z) (off : Z) : dinode :=
  mkDinode (s16 (get16 d off)) (s16 (get16 d (off + 2))) (s16 (get16 d (off + 4)))
    (s16 (get16 d (off + 6))) (get32 d (off + 8))
    ((fun i : nat => get32 d (off + 12 + 4 * Z.of_nat i)) <$> seq 0 (Z.to_nat (NDIRECT + 1))).

Definition put_addrs (d : list Z) (off : Z) (addrs : list Z) : list Z :=
  put_bytes d off (concat (le_bytes 4 <$> addrs)).

Definition dinode_put (d : list Z) (off : Z) (x : dinode) : list Z :=
  let d := put16 d off (d_type x) in
  let d := put16 d (off + 2) (d_major x) in
  let d := put16 d (off + 4) (d_minor x) in
  let d := put16 d (off + 6) (d_nlink x) in
  let d := put32 d (off + 8) (d_size x) in
  put_addrs d (off + 12) (d_addrs x).

Definition IBLOCK (i : Z) (sb : superblock) : Z := u32 (i / IPB + sb_inodestart sb).
Definition BBLOCK (b : Z) (sb : superblock) : Z := u32 (b / BPB + sb_bmapstart sb).

(** A directory entry: the inode number and the [DIRSIZ] bytes of the name. *)
Definition dirent_inum (de : list Z) : Z := get16 de 0.
Definition dirent_name (de : list Z) : list Z := get_bytes de 2 DIRSIZ.
Definition mk_dirent (inum : Z) (name : list Z) : list Z := le_bytes 2 inum ++ name.

(** ** Blocks *)

Section fs.
Context `{D : Disk}.

Definition readsb (dev : Z) : K unit :=
  let* bp := bread (u32 dev) 1 in
  let* x := buf_get bp in
  kmod (set_k_sb (superblock_of (b_data x))) ;;;
  brelse bp.

Definition fsinit (dev : Z) : K unit :=
  readsb dev ;;;
  let* sb := kget k_sb in
  if negb (sb_magic sb =? FSMAGIC) then panic "invalid file system" else
  initlog dev sb.

Definition bzero (dev bno : Z) : K unit :=
  let* bp := bread (u32 dev) (u32 bno) in
  buf_mod bp (set_b_data block0) ;;;
  log_write bp ;;;
  brelse bp.

(** Bit [bi] of a bitmap block, and the block with the bit set or cleared. *)
Definition bit_mask (bi : Z) : Z := Z.shiftl 1 (bi mod 8).
Definition bitmap_byte (d : list Z) (bi : Z) : Z := default 0 (d !! Z.to_nat (bi / 8)).
Definition bitmap_set (d : list Z) (bi : Z) : list Z :=
  <[Z.to_nat (bi / 8) := u8 (Z.lor (bitmap_byte d bi) (bit_mask bi))]> d.
Definition bitmap_clear (d : list Z) (bi : Z) : list Z :=
  <[Z.to_nat (bi / 8) := u8 (Z.land (bitmap_byte d bi) (Z.lnot (bit_mask bi)))]> d.

(** The inner loop of [balloc]: the first clear bit from [bi] on, of [n]. *)
Fixpoint free_bit (d : list Z) (bi : Z) (n : nat) : option Z :=
  match n with
  | O => None
  | S n' =>
      if Z.land (bitmap_byte d bi) (bit_mask bi) =? 0 then Some bi
      else free_bit d (bi + 1) n'
  end.

(** One bitmap block of the search, whose first bit is that of block [b]. *)
Definition balloc_body (dev : Z) (sb : superblock) (b : Z) : K (Z + Z) :=
  if negb (b <? sb_size sb) then panic "balloc: out of blocks" else
  let* bp := bread dev (BBLOCK b sb) in
  let* x := buf_get bp in
  match free_bit (b_data x) 0 (Z.to_nat (Z.min BPB (sb_size sb - b))) with
  | Some bi =>
      buf_mod bp (fun x => set_b_data (bitmap_set (b_data x) bi) x) ;;;
      log_write bp ;;;
      brelse bp ;;;
      bzero dev (b + bi) ;;;
      ret (inr (b + bi))
  | None => brelse bp ;;; ret (inl (b + BPB))
  end.

Definition balloc (dev : Z) : K Z :=
  let* sb := kget k_sb in
  while_ (S (S (Z.to_nat (sb_size sb / BPB)))) (balloc_body dev sb) 0.

Definition bfree (dev b : Z) : K unit :=
  let* sb := kget k_sb in
  let* bp := bread (u32 dev) (BBLOCK b sb) in
  let bi := b mod BPB in
  let* x := buf_get bp in
  if Z.land (bitmap_byte (b_data x) bi) (bit_mask bi) =? 0 then panic "freeing free block" else
  buf_mod bp (fun x => set_b_data (bitmap_clear (b_data x) bi) x) ;;;
  log_write bp ;;;
  brelse bp.

(** ** Inodes *)

Definition iinit : K unit :=
  initlock Litable ;;;
  for_all (Z.to_nat NINODE) 0 (fun i => initsleeplock (SLinode (Z.to_nat i))).

(** The loop of [iget]: the entry for the inode, or the first free one. *)
Fixpoint iget_scan (l : list inode) (i : nat) (dev inum : Z) (empty : option nat)
  : nat + option nat :=
  match l with
  | [] => inr empty
  | ip :: l' =>
      if (0 <? i_ref ip) && (i_dev ip =? dev) && (i_inum ip =? inum) then inl i
      else iget_scan l' (S i) dev inum
             (match empty with
              | None => if i_ref ip =? 0 then Some i else None
              | Some _ => empty
              end)
  end.

Definition iget (dev inum : Z) : K nat :=
  acquire Litable ;;;
  let* l := kget k_itable in
  match iget_scan l 0 dev inum None with
  | inl ip =>
      inode_mod ip (fun x => set_i_ref (i_ref x + 1) x) ;;;
      release Litable ;;;
      ret ip
  | inr None => panic "iget: no inodes"
  | inr (Some ip) =>
      inode_mod ip (set_i_dev dev) ;;;
      inode_mod ip (set_i_inum inum) ;;;
      inode_mod ip (set_i_ref 1) ;;;
      inode_mod ip (set_i_valid 0) ;;;
      release Litable ;;;
      ret ip
  end.

Definition ialloc (dev type : Z) : K nat :=
  let* sb := kget k_sb in
  let* r := for_from (Z.to_nat (sb_ninodes sb - 1)) 1 (fun inum =>
    let* bp := bread dev (IBLOCK inum sb) in
    let* x := buf_get bp in
    let off := dinode_off inum in
    if d_type (dinode_get (b_data x) off) =? 0 then
      buf_mod bp (fun x => set_b_data
        (put16 (put_bytes (b_data x) off (replicate (Z.to_nat sizeof_dinode) 0)) off type) x) ;;;
      log_write bp ;;;
      brelse bp ;;;
      let* ip := iget dev inum in
      ret (Some ip)
    else brelse bp ;;; ret None) in
  match r with Some ip => ret ip | None => panic "ialloc: no inodes" end.

(** The fields of an in-memory inode that live on disk. *)
Definition to_dinode (ip : inode) : dinode :=
  mkDinode (i_type ip) (i_major ip) (i_minor ip) (i_nlink ip) (i_size ip) (i_addrs ip).

Definition iupdate (ip : nat) : K unit :=
  let* x := inode_get ip in
  let* sb := kget k_sb in
  let* bp := bread (i_dev x) (IBLOCK (i_inum x) sb) in
  let* x := inode_get ip in
  buf_mod bp (fun b => set_b_data (dinode_put (b_data b) (dinode_off (i_inum x)) (to_dinode x)) b) ;;;
  log_write bp ;;;
  brelse bp.

Definition idup (ip : nat) : K nat :=
  acquire Litable ;;;
  inode_mod ip (fun x => set_i_ref (i_ref x + 1) x) ;;;
  release Litable ;;;
  ret ip.

(** The in-memory copy after [ilock] has read [d] from disk. *)
Definition of_dinode (d : dinode) (x : inode) : inode :=
  set_i_type (d_type d) (set_i_major (d_major d) (set_i_minor (d_minor d)
    (set_i_nlink (d_nlink d) (set_i_size (d_size d) (set_i_addrs (d_addrs d) x))))).

Definition ilock (ip : nat) : K unit :=
  let* x := inode_get ip in
  if i_ref x <? 1 then panic "ilock" else
  acquiresleep (SLinode ip) ;;;
  let* x := inode_get ip in
  when (i_valid x =? 0)
    (let* sb := kget k_sb in
     let* bp := bread (i_dev x) (IBLOCK (i_inum x) sb) in
     let* b := buf_get bp in
     inode_mod ip (of_dinode (dinode_get (b_data b) (dinode_off (i_inum x)))) ;;;
     brelse bp ;;;
     inode_mod ip (set_i_valid 1) ;;;
     let* x := inode_get ip in
     when (i_type x =? 0) (panic "ilock: no type")).

Definition iunlock (ip : nat) : K unit :=
  let* h := holdingsleep (SLinode ip) in
  if negb h then panic "iunlock" else
  let* x := inode_get ip in
  if i_ref x <? 1 then panic "iunlock" else
  releasesleep (SLinode ip).

(** [ilock] and [iunlock] of a pointer that may be null. *)
Definition ilock_ptr (ip : option nat) : K unit :=
  match ip with None => panic "ilock" | Some i => ilock i end.
Definition iunlock_ptr (ip : option nat) : K unit :=
  match ip with None => panic "iunlock" | Some i => iunlock i end.

(** *** Contents *)

Definition addr_get (ip : nat) (i : Z) : K Z :=
  let* x := inode_get ip in nth_or_fault "addrs" (i_addrs x) i.
Definition addr_set (ip : nat) (i v : Z) : K unit :=
  inode_mod ip (fun x => set_i_addrs (<[Z.to_nat i := v]> (i_addrs x)) x).

(** [ip->addrs[i]], allocated when it is 0. *)
Definition addr_alloc (ip : nat) (i : Z) : K Z :=
  let* addr := addr_get ip i in
  if addr =? 0 then
    let* x := inode_get ip in
    let* addr := balloc (i_dev x) in
    addr_set ip i addr ;;;
    ret addr
  else ret addr.

(** Entry [bn] of the indirect block [addr], allocated when it is 0. *)
Definition bmap_indirect (ip : nat) (bn addr : Z) : K Z :=
  let* x := inode_get ip in
  let* bp := bread (i_dev x) addr in
  let* b := buf_get bp in
  let addr := get32 (b_data b) (4 * bn) in
  let* addr :=
    (if addr =? 0 then
       let* addr := balloc (i_dev x) in
       buf_mod bp (fun b => set_b_data (put32 (b_data b) (4 * bn) addr) b) ;;;
       log_write bp ;;;
       ret addr
     else ret addr) in
  brelse bp ;;;
  ret addr.

Definition bmap (ip : nat) (bn : Z) : K Z :=
  if bn <? NDIRECT then addr_alloc ip bn else
  let bn := bn - NDIRECT in
  if bn <? NINDIRECT then
    let* addr := addr_alloc ip NDIRECT in
    bmap_indirect ip bn addr
  else panic "bmap: out of range".

Definition itrunc (ip : nat) : K unit :=
  let* x := inode_get ip in
  for_all (Z.to_nat NDIRECT) 0 (fun i =>
    let* a := addr_get ip i in
    when (truth a) (bfree (i_dev x) a ;;; addr_set ip i 0)) ;;;
  let* a := addr_get ip NDIRECT in
  when (truth a)
    (let* bp := bread (i_dev x) a in
     for_all (Z.to_nat NINDIRECT) 0 (fun j =>
       let* b := buf_get bp in
       let aj := get32 (b_data b) (4 * j) in
       when (truth aj) (bfree (i_dev x) aj)) ;;;
     brelse bp ;;;
     let* a := addr_get ip NDIRECT in
     bfree (i_dev x) a ;;;
     addr_set ip NDIRECT 0) ;;;
  inode_mod ip (set_i_size 0) ;;;
  iupdate ip.

Definition iput (ip : nat) : K unit :=
  acquire Litable ;;;
  let* x := inode_get ip in
  when ((i_ref x =? 1) && truth (i_valid x) && (i_nlink x =? 0))
    (acquiresleep (SLinode ip) ;;;
     release Litable ;;;
     itrunc ip ;;;
     inode_mod ip (set_i_type 0) ;;;
     iupdate ip ;;;
     inode_mod ip (set_i_valid 0) ;;;
     releasesleep (SLinode ip) ;;;
     acquire Litable) ;;;
  inode_mod ip (fun x => set_i_ref (i_ref x - 1) x) ;;;
  release Litable.

Definition iunlockput (ip : nat) : K unit := iunlock ip ;;; iput ip.

(** The bytes of [struct stat]: [dev], [ino], [type], [nlink], padding, [size]. *)
Definition stati (x : inode) : list Z :=
  le_bytes 4 (i_dev x) ++ le_bytes 4 (i_inum x) ++ le_bytes 2 (i_type x) ++
  le_bytes 2 (i_nlink x) ++ replicate 4 0 ++ le_bytes 8 (i_size x).

(** Every turn but the first and last moves a whole block. *)
Definition rw_fuel (n : Z) : nat := S (S (S (Z.to_nat (n / BSIZE)))).

(** The result and, for a local destination, the bytes read. *)
Definition readi_body (ip : nat) (n : Z)
  : Z * Z * dest * list Z -> K (Z * Z * dest * list Z + Z * list Z) :=
  fun '(tot, off, dst, acc) =>
    if negb (tot <? n) then ret (inr (s32 tot, acc)) else
    let* a := bmap ip (off / BSIZE) in
    let* x := inode_get ip in
    let* bp := bread (i_dev x) a in
    let m := Z.min (n - tot) (BSIZE - off mod BSIZE) in
    let* b := buf_get bp in
    let bs := get_bytes (b_data b) (off mod BSIZE) m in
    let* r := either_copyout dst bs in
    if r =? -1 then brelse bp ;;; ret (inr (-1, acc))
    else brelse bp ;;; ret (inl (tot + m, off + m, dest_add dst m, acc ++ bs)).

Definition readi (ip : nat) (dst : dest) (off n : Z) : K (Z * list Z) :=
  let* x := inode_get ip in
  if (i_size x <? off) || (u32 (off + n) <? off) then ret (0, []) else
  let n := if i_size x <? u32 (off + n) then i_size x - off else n in
  while_ (rw_fuel n) (readi_body ip n) (0, off, dst, []).

Definition writei_body (ip : nat) (n : Z) : Z * Z * source -> K (Z * Z * source + Z * Z) :=
  fun '(tot, off, src) =>
    if negb (tot <? n) then ret (inr (tot, off)) else
    let* a := bmap ip (off / BSIZE) in
    let* x := inode_get ip in
    let* bp := bread (i_dev x) a in
    let m := Z.min (n - tot) (BSIZE - off mod BSIZE) in
    let* r := either_copyin src m in
    buf_mod bp (fun b => set_b_data (put_bytes (b_data b) (off mod BSIZE) (snd r)) b) ;;;
    if fst r =? -1 then brelse bp ;;; ret (inr (tot, off))
    else
      log_write bp ;;;
      brelse bp ;;;
      ret (inl (tot + m, off + m, source_add src m)).

Definition writei (ip : nat) (src : source) (off n : Z) : K Z :=
  let* x := inode_get ip in
  if (i_size x <? off) || (u32 (off + n) <? off) then ret (-1) else
  if MAXFILE * BSIZE <? u32 (off + n) then ret (-1) else
  let* r := while_ (rw_fuel n) (writei_body ip n) (0, off, src) in
  let* x := inode_get ip in
  when (i_size x <? snd r) (inode_mod ip (set_i_size (snd r))) ;;;
  iupdate ip ;;;
  ret (s32 (fst r)).

(** ** Directories *)

Definition namecmp (s t : list Z) : Z := strncmp s t DIRSIZ.

(** The entry for [name], if any, and its offset. *)
Definition dirlookup (dp : nat) (name : list Z) : K (option (nat * Z)) :=
  let* x := inode_get dp in
  if negb (i_type x =? T_DIR) then panic "dirlookup not DIR" else
  while_ (S (S (Z.to_nat (i_size x / sizeof_dirent))))
    (fun off =>
       let* x := inode_get dp in
       if negb (off <? i_size x) then ret (inr None) else
       let* r := readi dp DLocal off sizeof_dirent in
       if negb (fst r =? sizeof_dirent) then panic "dirlookup read" else
       let de := snd r in
       if dirent_inum de =? 0 then ret (inl (off + sizeof_dirent)) else
       if namecmp name (dirent_name de) =? 0 then
         let* ip := iget (i_dev x) (dirent_inum de) in
         ret (inr (Some (ip, off)))
       else ret (inl (off + sizeof_dirent))) 0.

(** One round of the search for an empty entry. *)
Definition dirlink_scan (dp : nat) (off : Z) : K (Z + Z) :=
  let* x := inode_get dp in
  if negb (off <? i_size x) then ret (inr off) else
  let* r := readi dp DLocal off sizeof_dirent in
  if negb (fst r =? sizeof_dirent) then panic "dirlink read" else
  if dirent_inum (snd r) =? 0 then ret (inr off)
  else ret (inl (off + sizeof_dirent)).

Definition dirlink (dp : nat) (name : list Z) (inum : Z) : K Z :=
  let* r := dirlookup dp name in
  match r with
  | Some (ip, _) => iput ip ;;; ret (-1)
  | None =>
      let* x := inode_get dp in
      let* off := while_ (S (S (Z.to_nat (i_size x / sizeof_dirent)))) (dirlink_scan dp) 0 in
      let de := mk_dirent inum (strncpy name DIRSIZ) in
      let* r := writei dp (SLocal de) off sizeof_dirent in
      if negb (r =? sizeof_dirent) then panic "dirlink" else ret 0
  end.

(** ** Paths *)

Fixpoint skip_slashes (path : list Z) : list Z :=
  match path with
  | c :: path' => if c =? chr "/" then skip_slashes path' else path
  | [] => []
  end.

(** The characters up to the next slash or the end, and what follows them. *)
Fixpoint path_elem (path : list Z) : list Z * list Z :=
  match path with
  | c :: path' =>
      if (c =? chr "/") || (c =? 0) then ([], path)
      else let '(s, rest) := path_elem path' in (c :: s, rest)
  | [] => ([], [])
  end.

(** What is left of the path, and the element as stored in [name]. *)
Definition skipelem (path : list Z) : option (list Z * list Z) :=
  let path := skip_slashes path in
  if hd 0 path =? 0 then None else
  let '(s, rest) := path_elem path in
  let name := if DIRSIZ <=? Z.of_nat (length s) then take (Z.to_nat DIRSIZ) s else s ++ [0] in
  Some (skip_slashes rest, name).

(** Also gives the last element stored in [name]. *)
Definition namex (path : list Z) (nameiparent : bool) : K (option nat * list Z) :=
  let* ip :=
    (if hd 0 path =? chr "/" then iget ROOTDEV ROOTINO
     else
       let* p := this_proc in
       let* pr := proc_get p in
       match p_cwd pr with Some cwd => idup cwd | None => fault "cwd" end) in
  while_ (S (length path))
    (fun '(ip, path, name) =>
       match skipelem path with
       | None =>
           if (nameiparent : bool) then iput ip ;;; ret (inr (None, name))
           else ret (inr (Some ip, name))
       | Some (path, name) =>
           ilock ip ;;;
           let* x := inode_get ip in
           if negb (i_type x =? T_DIR) then iunlockput ip ;;; ret (inr (None, name)) else
           if nameiparent && (hd 0 path =? 0) then iunlock ip ;;; ret (inr (Some ip, name)) else
           let* next := dirlookup ip name in
           match next with
           | None => iunlockput ip ;;; ret (inr (None, name))
           | Some (next, _) => iunlockput ip ;;; ret (inl (next, path, name))
           end
       end) (ip, path, []).

Definition namei (path : list Z) : K (option nat) :=
  let* r := namex path false in ret (fst r).

Definition nameiparent (path : list Z) : K (option nat * list Z) := namex path true.

End fs.
