(* ===== verification/Balloc.v ===== *)
(** * The block allocator

    [bzero], [balloc] and [bfree] of fs.c inside a transaction, against the
    bitmap they maintain: block [b] is in use when its bit is set. *)

From Stdlib Require Import ZArith Lia.
From stdpp Require Import base gmap list strings numbers.
From S2P Require Import Prelude Riscv State Klib Sched Bio Log Tx Fs.

(** ** The bitmap *)

Definition bit_at (d : list Z) (bi : Z) : bool := negb (Z.land (bitmap_byte d bi) (bit_mask bi) =? 0).

(** The bit of block [b], with the blocks' contents [C]. *)
Definition in_use (C : Z -> list Z) (sb : superblock) (b : Z) : bool := bit_at (C (BBLOCK b sb)) (b mod BPB).

Lemma land_bit x i : 0 <= i -> (Z.land x (Z.shiftl 1 i) =? 0) = negb (Z.testbit x i).
Proof.
  intros Hi. destruct (Z.testbit x i) eqn:E; simpl.
  - apply Z.eqb_neq. intros H. apply (f_equal (fun z => Z.testbit z i)) in H.
    rewrite Z.land_spec, E, Z.shiftl_1_l, Z.pow2_bits_true, Z.bits_0 in H by done. done.
  - apply Z.eqb_eq, Z.bits_inj'. intros n Hn. rewrite Z.land_spec, Z.shiftl_1_l, Z.bits_0.
    destruct (decide (n = i)) as [->|Hne]; [by rewrite E|]. by rewrite Z.pow2_bits_false, andb_false_r.
Qed.

Lemma bit_at_testbit d bi : bit_at d bi = Z.testbit (bitmap_byte d bi) (bi mod 8).
Proof. unfold bit_at, bit_mask. rewrite land_bit by (apply Z.mod_pos_bound; lia). by rewrite negb_involutive. Qed.

(** A change of byte [bi / 8] seen from bit [bj]. *)
Lemma bitmap_byte_insert d bi bj v :
  0 <= bi -> 0 <= bj -> bi / 8 < Z.of_nat (length d) ->
  bitmap_byte (<[Z.to_nat (bi / 8) := v]> d) bj = (if bj / 8 =? bi / 8 then v else bitmap_byte d bj).
Proof.
  intros Hi Hj Hl. unfold bitmap_byte. assert (0 <= bi / 8 /\ 0 <= bj / 8) as [? ?] by (split; apply Z.div_pos; lia).
  destruct (Z.eqb_spec (bj / 8) (bi / 8)) as [->|Hne].
  - rewrite list_lookup_insert_eq by lia. done.
  - by rewrite list_lookup_insert_ne by lia.
Qed.

Lemma bit_same bi bj : 0 <= bi -> 0 <= bj -> bj / 8 = bi / 8 -> (bj mod 8 =? bi mod 8) = (bj =? bi).
Proof.
  intros Hi Hj E. destruct (Z.eqb_spec bj bi) as [->|Hne]; [apply Z.eqb_refl|]. apply Z.eqb_neq. intros E'.
  apply Hne. rewrite (Z.div_mod bj 8), (Z.div_mod bi 8) by lia. congruence.
Qed.

Lemma testbit_u8 x n : 0 <= n < 8 -> Z.testbit (u8 x) n = Z.testbit x n.
Proof. intros Hn. unfold u8. by rewrite Z.mod_pow2_bits_low by lia. Qed.

Lemma testbit_mask i n : 0 <= i -> Z.testbit (Z.shiftl 1 i) n = (n =? i).
Proof. intros Hi. rewrite Z.shiftl_1_l, Z.pow2_bits_eqb by done. apply Z.eqb_sym. Qed.

Lemma bit_at_set d bi bj :
  0 <= bi -> 0 <= bj -> bi / 8 < Z.of_nat (length d) -> bit_at (bitmap_set d bi) bj = (bj =? bi) || bit_at d bj.
Proof.
  intros Hi Hj Hl. rewrite !bit_at_testbit. unfold bitmap_set. rewrite bitmap_byte_insert by done.
  destruct (Z.eqb_spec (bj / 8) (bi / 8)) as [E|Hne].
  - assert (0 <= bj mod 8 < 8) by (apply Z.mod_pos_bound; lia). assert (0 <= bi mod 8 < 8) by (apply Z.mod_pos_bound; lia).
    rewrite testbit_u8, Z.lor_spec by done. unfold bit_mask. rewrite testbit_mask, bit_same by (done || lia).
    unfold bitmap_byte. rewrite E. apply orb_comm.
  - destruct (Z.eqb_spec bj bi) as [->|]; [done|]. done.
Qed.

Lemma bit_at_clear d bi bj :
  0 <= bi -> 0 <= bj -> bi / 8 < Z.of_nat (length d) -> bit_at (bitmap_clear d bi) bj = negb (bj =? bi) && bit_at d bj.
Proof.
  intros Hi Hj Hl. rewrite !bit_at_testbit. unfold bitmap_clear. rewrite bitmap_byte_insert by done.
  destruct (Z.eqb_spec (bj / 8) (bi / 8)) as [E|Hne].
  - assert (0 <= bj mod 8 < 8) by (apply Z.mod_pos_bound; lia). assert (0 <= bi mod 8 < 8) by (apply Z.mod_pos_bound; lia).
    rewrite testbit_u8, Z.land_spec by done. unfold bit_mask.
    rewrite Z.lnot_spec, testbit_mask, bit_same by (done || lia). unfold bitmap_byte. rewrite E. apply andb_comm.
  - destruct (Z.eqb_spec bj bi) as [->|]; [done|]. done.
Qed.

(** The inner loop of [balloc] finds the first clear bit. *)
Lemma free_bit_spec d n : forall bi,
  match free_bit d bi n with
  | Some j => bi <= j < bi + Z.of_nat n /\ bit_at d j = false /\ forall i, bi <= i < j -> bit_at d i = true
  | None => forall i, bi <= i < bi + Z.of_nat n -> bit_at d i = true
  end.
Proof.
  induction n as [|n IH]; intros bi; simpl free_bit; [intros i Hi; lia|].
  destruct (Z.land (bitmap_byte d bi) (bit_mask bi) =? 0) eqn:E.
  - split; [lia|]. split; [unfold bit_at; by rewrite E|intros i Hi; lia].
  - assert (bit_at d bi = true) as Hb by (unfold bit_at; by rewrite E). specialize (IH (bi + 1)).
    destruct (free_bit d (bi + 1) n) as [j|].
    + destruct IH as (H1 & H2 & H3). split; [lia|]. split; [done|]. intros i Hi.
      destruct (decide (i = bi)) as [->|]; [done|apply H3; lia].
    + intros i Hi. destruct (decide (i = bi)) as [->|]; [done|apply IH; lia].
Qed.

(** ** The allocator *)

(** The bitmap of a file system of [sb_size sb] blocks: outside the log, held
    by nobody in [H]; a block that is free is neither in the log nor part of
    the bitmap, and nobody holds it. *)
Record bitmap_ok (lg : log) (sb : superblock) (C : Z -> list Z) (H : list (Z * nat)) : Prop := {
  bo_size : 0 <= sb_size sb < 2 ^ 31;
  bo_start : 0 <= sb_bmapstart sb /\ sb_bmapstart sb + sb_size sb / BPB < 2 ^ 31;
  bo_log : forall b, 0 <= b < sb_size sb -> ~ in_log lg (BBLOCK b sb);
  bo_held : forall b, 0 <= b < sb_size sb -> BBLOCK b sb ∉ H.*1;
  bo_len : forall b, 0 <= b < sb_size sb -> length (C (BBLOCK b sb)) = Z.to_nat BSIZE;
  bo_free : forall b, 0 <= b < sb_size sb -> in_use C sb b = false ->
    ~ in_log lg b /\ b ∉ H.*1 /\ forall b', 0 <= b' < sb_size sb -> BBLOCK b' sb <> b;
}.

Lemma BBLOCK_eq lg sb C H b :
  bitmap_ok lg sb C H -> 0 <= b < sb_size sb ->
  BBLOCK b sb = b / BPB + sb_bmapstart sb /\ 0 <= BBLOCK b sb < 2 ^ 31.
Proof.
  intros [Hs Hst _ _ _ _] Hb. unfold BBLOCK.
  assert (0 <= b / BPB <= sb_size sb / BPB) by (split; [apply Z.div_pos; [lia|done]|apply Z.div_le_mono; [done|lia]]).
  rewrite u32_small by lia. lia.
Qed.

(** The bit of [b] is in the byte [b mod BPB / 8] of its bitmap block. *)
Lemma bit_index b : 0 <= b -> 0 <= b mod BPB < BPB /\ b mod BPB / 8 < Z.of_nat (Z.to_nat BSIZE).
Proof.
  intros Hb. assert (0 <= b mod BPB < BPB) as Hm by (by apply Z.mod_pos_bound). split; [done|].
  apply Z.div_lt_upper_bound; [lia|]. exact (proj2 Hm).
Qed.

(** Two blocks share a bit only if they are the same. *)
Lemma same_bit b b' : 0 <= b -> 0 <= b' -> b / BPB = b' / BPB -> (b mod BPB =? b' mod BPB) = (b =? b').
Proof.
  intros Hb Hb' E. destruct (Z.eqb_spec b b') as [->|Hne]; [apply Z.eqb_refl|]. apply Z.eqb_neq. intros E'.
  apply Hne. rewrite (Z.div_mod b BPB), (Z.div_mod b' BPB) by done. congruence.
Qed.

(** What setting or clearing the bit of [b] does to every other bit. *)
Lemma in_use_upd lg sb C H b b' (f : list Z -> Z -> list Z) (g : bool -> bool -> bool) :
  bitmap_ok lg sb C H -> 0 <= b < sb_size sb -> 0 <= b' < sb_size sb ->
  (forall d bi bj, 0 <= bi -> 0 <= bj -> bi / 8 < Z.of_nat (length d) -> bit_at (f d bi) bj = g (bj =? bi) (bit_at d bj)) ->
  (forall x, g false x = x) ->
  in_use (zupd C (BBLOCK b sb) (f (C (BBLOCK b sb)) (b mod BPB))) sb b' = g (b' =? b) (in_use C sb b').
Proof.
  intros Hok Hb Hb' Hf Hg. unfold in_use.
  destruct (BBLOCK_eq _ _ _ _ _ Hok Hb) as [E _], (BBLOCK_eq _ _ _ _ _ Hok Hb') as [E' _].
  destruct (bit_index b ltac:(lia)) as [I1 I2], (bit_index b' ltac:(lia)) as [I1' I2'].
  unfold zupd. destruct (decide (BBLOCK b' sb = BBLOCK b sb)) as [Eq|Hne].
  - rewrite Hf, Eq; [|lia|lia|by rewrite (bo_len _ _ _ _ Hok b Hb)].
    by rewrite same_bit by lia.
  - destruct (Z.eqb_spec b' b) as [->|]; [done|]. by rewrite Hg.
Qed.

Section balloc.
Context `{D : Disk} {DR : DiskReads D}.

Lemma bzero_tx p pr lg k C Dk H n e :
  tx p pr lg k C Dk H -> n ∉ H.*1 -> (usage lg H < HEAD)%nat ->
  ~ in_log lg n -> 0 <= n < 2 ^ 31 -> log_room lg 1 ->
  exists k', bzero ROOTDEV n (W k e) = Ret tt (W k' e) /\
    tx p pr (log_add lg n) k' (zupd C n block0) Dk H /\ same_fs k k'.
Proof.
  intros Ht Hn Hu Hnl Hr Hroom.
  destruct (tx_update _ _ _ _ _ _ _ n (fun _ => block0) e Ht Hn Hu Hnl Hr Hroom) as (k' & E & T).
  exists k'. split; [|done]. rewrite <- E. unfold bzero. by rewrite (u32_small n) by lia.
Qed.

(** Reading one bitmap block and releasing it. *)
Lemma tx_peek p pr lg k C Dk H n e :
  tx p pr lg k C Dk H -> n ∉ H.*1 -> (usage lg H < HEAD)%nat ->
  exists k' b, bread ROOTDEV n (W k e) = Ret b (W k' e) /\ tx p pr lg k' C Dk ((n, b) :: H) /\ same_fs k k' /\
    (exists x, buf_get b (W k' e) = Ret x (W k' e) /\ b_data x = C n) /\
    exists k'', brelse b (W k' e) = Ret tt (W k'' e) /\ tx p pr lg k'' C Dk H /\ same_fs k k''.
Proof.
  intros Ht Hn Hu. destruct (tx_bread Ht n e Hn Hu) as (b & k1 & E1 & T1 & S1).
  exists k1, b. split; [done|]. split; [done|]. split; [done|].
  split; [apply (tx_get T1 n b); apply list_elem_of_here|].
  destruct (tx_brelse _ _ _ _ _ _ _ n b e T1) as (k2 & E2 & T2 & S2).
  { destruct (logged lg n) eqn:El; [by right|left]. by apply (tx_clean _ _ _ _ _ _ _ Ht). }
  exists k2. split; [done|]. split; [done|]. by rewrite S1.
Qed.

(** The loop's rounds, at a multiple [b] of [BPB]: the bits of one bitmap block. *)
Lemma block_bits lg sb C H b i :
  bitmap_ok lg sb C H -> b mod BPB = 0 -> 0 <= b < sb_size sb -> 0 <= i < BPB -> b + i < sb_size sb ->
  BBLOCK (b + i) sb = BBLOCK b sb /\ (b + i) mod BPB = i.
Proof.
  intros Hok Hb Hr Hi Hl. assert (0 < BPB) as H0 by done.
  destruct (BBLOCK_eq _ _ _ _ _ Hok Hr) as [E _], (BBLOCK_eq _ _ _ _ (b + i) Hok ltac:(lia)) as [E' _].
  rewrite E, E'. apply Z.mod_divide in Hb as [q ->]; [|lia]. split.
  - rewrite Z.div_add_l, Z.div_mul, (Z.div_small i) by lia. lia.
  - rewrite Z.add_comm, Z.mod_add, Z.mod_small by lia. done.
Qed.

Lemma balloc_skip p pr lg k C Dk H sb b e :
  tx p pr lg k C Dk H -> bitmap_ok lg sb C H -> (usage lg H < HEAD)%nat ->
  b mod BPB = 0 -> 0 <= b < sb_size sb ->
  free_bit (C (BBLOCK b sb)) 0 (Z.to_nat (Z.min BPB (sb_size sb - b))) = None ->
  exists k', balloc_body ROOTDEV sb b (W k e) = Ret (inl (b + BPB)) (W k' e) /\ tx p pr lg k' C Dk H /\ same_fs k k'.
Proof.
  intros Ht Hok Hu Hb Hr Hf.
  destruct (tx_peek _ _ _ _ _ _ _ (BBLOCK b sb) e Ht (bo_held _ _ _ _ Hok b Hr) Hu)
    as (k1 & bp & E1 & T1 & S1 & (x & Ex & Hx) & k2 & E2 & T2 & S2).
  exists k2. split; [|done]. unfold balloc_body. rewrite (proj2 (Z.ltb_lt b _)) by lia. cbn [negb].
  rewrite (bind_Ret _ _ _ _ _ E1), (bind_Ret _ _ _ _ _ Ex), Hx, Hf.
  by rewrite (bind_Ret _ _ _ _ _ E2).
Qed.

(** The block [n = b + bi] gets its bit set and is zeroed. *)
Definition taken (sb : superblock) (n : Z) (C : Z -> list Z) : Z -> list Z :=
  zupd (zupd C (BBLOCK n sb) (bitmap_set (C (BBLOCK n sb)) (n mod BPB))) n block0.

Lemma balloc_take p pr lg k C Dk H sb b bi e :
  tx p pr lg k C Dk H -> bitmap_ok lg sb C H -> (S (usage lg H) < HEAD)%nat -> log_room lg 2 ->
  b mod BPB = 0 -> 0 <= b < sb_size sb ->
  free_bit (C (BBLOCK b sb)) 0 (Z.to_nat (Z.min BPB (sb_size sb - b))) = Some bi ->
  exists k', balloc_body ROOTDEV sb b (W k e) = Ret (inr (b + bi)) (W k' e) /\
    tx p pr (log_add (log_add lg (BBLOCK b sb)) (b + bi)) k' (taken sb (b + bi) C) Dk H /\ same_fs k k'.
Proof.
  intros Ht Hok Hu Hroom Hb Hr Hf. pose proof (free_bit_spec (C (BBLOCK b sb)) (Z.to_nat (Z.min BPB (sb_size sb - b))) 0) as Hs.
  rewrite Hf in Hs. destruct Hs as (Hbi & Hclear & _).
  destruct (block_bits _ _ _ _ b bi Hok Hb Hr ltac:(lia) ltac:(lia)) as [EB EM].
  assert (in_use C sb (b + bi) = false) as Hfree by (unfold in_use; by rewrite EB, EM).
  destruct (bo_free _ _ _ _ Hok (b + bi) ltac:(lia) Hfree) as (F1 & F2 & F3).
  destruct (BBLOCK_eq _ _ _ _ _ Hok Hr) as [_ Hbb]. pose proof (bo_log _ _ _ _ Hok b Hr) as Hbl.
  pose proof (bo_size _ _ _ _ Hok). pose proof (tx_ok _ _ _ _ _ _ _ Ht) as Hlok.
  assert (log_room lg 1) as Hroom1 by (unfold log_room in *; lia).
  destruct (tx_bread Ht (BBLOCK b sb) e (bo_held _ _ _ _ Hok b Hr) ltac:(lia)) as (bp & k1 & E1 & T1 & S1).
  assert ((BBLOCK b sb, bp) ∈ (BBLOCK b sb, bp) :: H) as Hin by apply list_elem_of_here.
  destruct (tx_get T1 _ _ e Hin) as (x & Ex & Hx).
  destruct (tx_modify _ _ _ _ _ _ _ _ bp (fun d => bitmap_set d bi) e T1 Hin) as (k2 & E2 & T2 & S2).
  destruct (tx_log_write T2 _ bp e Hin Hbl Hbb Hroom1) as (k3 & E3 & T3 & S3).
  assert (logged (log_add lg (BBLOCK b sb)) (BBLOCK b sb) = true) as Hlg.
  { destruct (log_added lg _ Hlok Hbl Hbb Hroom1) as [_ ->]. by rewrite Z.eqb_refl, orb_true_r. }
  destruct (tx_brelse _ _ _ _ _ _ _ _ bp e T3) as (k4 & E4 & T4 & S4); [by right|].
  destruct (bzero_tx _ _ _ _ _ _ _ (b + bi) e T4) as (k5 & E5 & T5 & S5).
  - done.
  - pose proof (log_add_usage lg (BBLOCK b sb) H Hlok Hbl Hbb Hroom1). lia.
  - by rewrite log_add_in.
  - lia.
  - by apply log_add_room.
  - exists k5. split; [|split; [|by rewrite S1, S2, S3, S4, S5]].
    + unfold balloc_body. rewrite (proj2 (Z.ltb_lt b _)) by lia. cbn [negb].
      rewrite (bind_Ret _ _ _ _ _ E1), (bind_Ret _ _ _ _ _ Ex), Hx, Hf.
      by rewrite (bind_Ret _ _ _ _ _ E2), (bind_Ret _ _ _ _ _ E3), (bind_Ret _ _ _ _ _ E4), (bind_Ret _ _ _ _ _ E5).
    + unfold taken. by rewrite EB, EM.
Qed.

(** The whole search, from block [b] on. *)
Lemma balloc_loop p pr lg C Dk H sb e fuel : forall k b,
  tx p pr lg k C Dk H -> bitmap_ok lg sb C H -> (S (usage lg H) < HEAD)%nat -> log_room lg 2 ->
  b mod BPB = 0 -> 0 <= b -> (sb_size sb - b) / BPB + 1 < Z.of_nat fuel \/ sb_size sb <= b ->
  (0 < fuel)%nat -> (forall i, 0 <= i < b -> i < sb_size sb -> in_use C sb i = true) ->
  (exists n lg' k', while_ fuel (balloc_body ROOTDEV sb) b (W k e) = Ret n (W k' e) /\
     0 <= n < sb_size sb /\ in_use C sb n = false /\ (forall i, 0 <= i < n -> in_use C sb i = true) /\
     tx p pr lg' k' (taken sb n C) Dk H /\ lg' = log_add (log_add lg (BBLOCK n sb)) n /\ same_fs k k') \/
  ((forall i, 0 <= i < sb_size sb -> in_use C sb i = true) /\
   while_ fuel (balloc_body ROOTDEV sb) b (W k e) = Panic "balloc: out of blocks").
Proof.
  assert (0 < BPB) as H0 by done.
  induction fuel as [|fuel IH]; intros k b Ht Hok Hu Hroom Hb Hb0 Hfuel Hf0 Hused; [lia|].
  rewrite while_S. destruct (decide (sb_size sb <= b)) as [Hend|Hlt].
  { right. split; [intros i Hi; apply Hused; lia|]. apply bind_Panic. unfold balloc_body.
    by rewrite (proj2 (Z.ltb_ge b _)) by lia. }
  pose proof (free_bit_spec (C (BBLOCK b sb)) (Z.to_nat (Z.min BPB (sb_size sb - b))) 0) as Hs.
  assert (forall i, 0 <= i < Z.min BPB (sb_size sb - b) -> in_use C sb (b + i) = bit_at (C (BBLOCK b sb)) i) as Hbits.
  { intros i Hi. destruct (block_bits _ _ _ _ b i Hok Hb ltac:(lia) ltac:(lia) ltac:(lia)) as [E1 E2].
    unfold in_use. by rewrite E1, E2. }
  destruct (free_bit _ _ _) as [bi|] eqn:Hf.
  - left. destruct Hs as (Hr & Hc & Hbefore).
    destruct (balloc_take _ _ _ _ _ _ _ sb b bi e Ht Hok Hu Hroom Hb ltac:(lia) Hf) as (k' & E & T & S).
    destruct (block_bits _ _ _ _ b bi Hok Hb ltac:(lia) ltac:(lia) ltac:(lia)) as [EB _].
    exists (b + bi). eexists _, k'. split; [by rewrite (bind_Ret _ _ _ _ _ E)|]. split; [lia|].
    split; [rewrite Hbits by lia; done|]. split; [|split; [exact T|split; [by rewrite EB|done]]].
    intros i Hi. destruct (decide (i < b)); [apply Hused; lia|].
    replace i with (b + (i - b)) by lia. rewrite Hbits by lia. apply Hbefore. lia.
  - destruct (balloc_skip _ _ _ _ _ _ _ sb b e Ht Hok ltac:(lia) Hb ltac:(lia) Hf) as (k' & E & T & S).
    rewrite (bind_Ret _ _ _ _ _ E).
    assert ((sb_size sb - (b + BPB)) / BPB = (sb_size sb - b) / BPB - 1) as Ediv.
    { replace (sb_size sb - (b + BPB)) with ((sb_size sb - b) + (-1) * BPB) by lia. rewrite Z.div_add by lia. lia. }
    destruct (IH k' (b + BPB) T Hok Hu Hroom) as [(n & lg' & k2 & R1 & R2 & R3 & R4 & R5 & R6 & R7)|[R1 R2]].
    + rewrite Z.add_mod, Hb, Z.mod_same by lia. done.
    + lia.
    + lia.
    + assert (0 <= (sb_size sb - b) / BPB) by (apply Z.div_pos; lia). lia.
    + intros i Hi Hi'. destruct (decide (i < b)); [apply Hused; lia|].
      replace i with (b + (i - b)) by lia. rewrite Hbits by lia. apply Hs. lia.
    + left. exists n, lg', k2. split_and!; try done; try lia. by rewrite S.
    + by right.
Qed.
End balloc.

(** The bitmap and the blocks after an allocation. *)
Lemma taken_facts lg sb C H n :
  bitmap_ok lg sb C H -> 0 <= n < sb_size sb -> in_use C sb n = false ->
  (forall i, 0 <= i < sb_size sb -> in_use (taken sb n C) sb i = (i =? n) || in_use C sb i) /\
  taken sb n C n = block0 /\ (forall m, m <> n -> m <> BBLOCK n sb -> taken sb n C m = C m) /\
  bitmap_ok lg sb (taken sb n C) H.
Proof.
  intros Hok Hn Hf. destruct (bo_free _ _ _ _ Hok n Hn Hf) as (F1 & F2 & F3).
  assert (forall i, 0 <= i < sb_size sb -> in_use (taken sb n C) sb i = (i =? n) || in_use C sb i) as Hiu.
  { intros i Hi. unfold taken. unfold in_use at 1. rewrite zupd_ne by (by apply F3).
    fold (in_use (zupd C (BBLOCK n sb) (bitmap_set (C (BBLOCK n sb)) (n mod BPB))) sb i).
    rewrite (in_use_upd lg sb C H n i bitmap_set orb); [done|done|done|done| |by intros []].
    intros d bi bj. apply bit_at_set. }
  split; [done|]. split; [unfold taken; by rewrite zupd_eq|].
  split; [intros m M1 M2; unfold taken; by rewrite !zupd_ne|].
  destruct Hok as [O1 O2 O3 O4 O5 O6]. split; try done.
  - intros b Hb. unfold taken. rewrite zupd_ne by (by apply F3). unfold zupd. case_decide as E; [|by apply O5].
    unfold bitmap_set. rewrite length_insert, <- E. by apply O5.
  - intros b Hb Hfree. rewrite Hiu in Hfree by done. apply orb_false_iff in Hfree as [_ Hfree]. by apply O6.
Qed.

Lemma balloc_tx `{Dr : Disk} {DR : DiskReads Dr} p pr lg k C D H sb e :
  tx p pr lg k C D H -> k_sb k = sb -> bitmap_ok lg sb C H -> (S (usage lg H) < HEAD)%nat -> log_room lg 2 ->
  (exists n k', balloc ROOTDEV (W k e) = Ret n (W k' e) /\
     0 <= n < sb_size sb /\ in_use C sb n = false /\ (forall i, 0 <= i < n -> in_use C sb i = true) /\
     tx p pr (log_add (log_add lg (BBLOCK n sb)) n) k' (taken sb n C) D H /\ same_fs k k') \/
  ((forall i, 0 <= i < sb_size sb -> in_use C sb i = true) /\ balloc ROOTDEV (W k e) = Panic "balloc: out of blocks").
Proof.
  intros Ht Hsb Hok Hu Hroom. pose proof (bo_size _ _ _ _ Hok) as Hsz. assert (0 < BPB) as H0 by done.
  unfold balloc. rewrite bind_kget, Hsb.
  assert (0 <= sb_size sb / BPB) by (apply Z.div_pos; lia).
  destruct (balloc_loop _ _ _ _ _ _ sb e (S (S (Z.to_nat (sb_size sb / BPB)))) k 0 Ht Hok Hu Hroom)
    as [(n & lg' & k' & R1 & R2 & R3 & R4 & R5 & -> & R7)|R]; [done|done|rewrite Z.sub_0_r; lia|lia|lia| |by right].
  left. exists n, k'. by split_and!; try lia.
Qed.

(** ** Properties *)

(** C17: [balloc] allocates the first free block.  When some block is free, it
    returns the lowest free one, sets its bit and no other, zeroes its
    contents, and changes no other block; all of it is part of the running
    transaction.  When no block is free it panics. *)
Theorem balloc_allocates `{Dr : Disk} {DR : DiskReads Dr} p pr lg k C D H sb e :
  tx p pr lg k C D H -> k_sb k = sb -> bitmap_ok lg sb C H -> (S (usage lg H) < HEAD)%nat -> log_room lg 2 ->
  (exists n C' lg' k', balloc ROOTDEV (W k e) = Ret n (W k' e) /\
     0 <= n < sb_size sb /\ in_use C sb n = false /\ (forall i, 0 <= i < n -> in_use C sb i = true) /\
     tx p pr lg' k' C' D H /\ same_fs k k' /\
     (forall i, 0 <= i < sb_size sb -> in_use C' sb i = (i =? n) || in_use C sb i) /\
     C' n = block0 /\ (forall m, m <> n -> m <> BBLOCK n sb -> C' m = C m) /\
     logged lg' n = true /\ logged lg' (BBLOCK n sb) = true) \/
  ((forall i, 0 <= i < sb_size sb -> in_use C sb i = true) /\ balloc ROOTDEV (W k e) = Panic "balloc: out of blocks").
Proof.
  intros Ht Hsb Hok Hu Hroom. destruct (balloc_tx _ _ _ _ _ _ _ _ e Ht Hsb Hok Hu Hroom)
    as [(n & k' & R1 & R2 & R3 & R4 & R5 & R6)|R]; [|by right].
  destruct (taken_facts _ _ _ _ n Hok R2 R3) as (R7 & R8 & R9 & _).
  left. exists n, (taken sb n C), (log_add (log_add lg (BBLOCK n sb)) n), k'.
  destruct (bo_free _ _ _ _ Hok n R2 R3) as (F1 & F2 & F3).
  destruct (BBLOCK_eq _ _ _ _ _ Hok R2) as [_ Hbb]. pose proof (bo_log _ _ _ _ Hok n R2) as Hbl.
  pose proof (bo_size _ _ _ _ Hok).
  destruct (log_added lg (BBLOCK n sb) (tx_ok _ _ _ _ _ _ _ Ht) Hbl Hbb) as [O1 A1]; [unfold log_room in *; lia|].
  destruct (log_added _ n O1) as [O2 A2]; [by rewrite log_add_in|lia|by apply log_add_room|].
  split_and!; try done; try lia; by rewrite A2, ?A1, Z.eqb_refl, ?orb_true_r.
Qed.

(** A file system of two blocks whose bitmap block, 45, is clear. *)
Definition balloc_sb : superblock := mkSuperblock FSMAGIC 2 0 0 0 0 0 45.

Lemma balloc_sb_ok : bitmap_ok sample_log balloc_sb sample_disk [].
Proof.
  assert (forall b, 0 <= b < 2 -> BBLOCK b balloc_sb = 45) as E.
  { intros b Hb. assert (b = 0 \/ b = 1) as [->| ->] by lia; reflexivity. }
  split; try (intros b Hb; simpl in Hb; rewrite ?E by done).
  - simpl. lia.
  - simpl. by vm_compute.
  - unfold in_log. simpl. lia.
  - apply not_elem_of_nil.
  - by vm_compute.
  - intros _. split; [unfold in_log; simpl; lia|]. split; [apply not_elem_of_nil|].
    intros b' Hb'. simpl in Hb'. rewrite E by done. lia.
Qed.

Lemma balloc_allocates_witness :
  exists k k', balloc (D := sync_disk) ROOTDEV (W k []) = Ret 0 (W k' []).
Proof.
  destruct (sample_tx balloc_sb) as (k & Ht & Hsb).
  destruct (balloc_allocates (Dr := sync_disk) _ _ _ _ _ _ _ _ [] Ht Hsb balloc_sb_ok)
    as [(n & C' & lg' & k' & Hrun & Hn & Hfree & Hlow & _)|[Hall _]].
  - vm_compute. lia.
  - unfold log_room, LOGSIZE, MAXOPBLOCKS. simpl. lia.
  - assert (n = 0) as ->.
    { destruct (decide (n = 0)) as [|Hne]; [done|]. exfalso.
      pose proof (Hlow 0 ltac:(lia)) as H0. vm_compute in H0. done. }
    by exists k, k'.
  - exfalso. pose proof (Hall 0 ltac:(simpl; lia)) as H0. vm_compute in H0. done.
Defined.

(** C38: [bfree] is the inverse.  On a block in use it clears that bit and no
    other, as part of the transaction; on a free block it panics. *)
Theorem bfree_frees `{Dr : Disk} {DR : DiskReads Dr} p pr lg k C D H sb b e :
  tx p pr lg k C D H -> k_sb k = sb -> bitmap_ok lg sb C H -> 0 <= b < sb_size sb ->
  (usage lg H < HEAD)%nat -> log_room lg 1 ->
  if in_use C sb b then
    exists C' lg' k', bfree ROOTDEV b (W k e) = Ret tt (W k' e) /\ tx p pr lg' k' C' D H /\ same_fs k k' /\
      (forall i, 0 <= i < sb_size sb -> in_use C' sb i = negb (i =? b) && in_use C sb i) /\
      (forall m, m <> BBLOCK b sb -> C' m = C m) /\ logged lg' (BBLOCK b sb) = true
  else bfree ROOTDEV b (W k e) = Panic "freeing free block".
Proof.
  intros Ht Hsb Hok Hb Hu Hroom. destruct (BBLOCK_eq _ _ _ _ _ Hok Hb) as [_ Hbb].
  pose proof (bo_log _ _ _ _ Hok b Hb) as Hbl.
  destruct (tx_bread Ht (BBLOCK b sb) e (bo_held _ _ _ _ Hok b Hb) ltac:(lia)) as (bp & k1 & E1 & T1 & S1).
  assert ((BBLOCK b sb, bp) ∈ (BBLOCK b sb, bp) :: H) as Hin by apply list_elem_of_here.
  destruct (tx_get T1 _ _ e Hin) as (x & Ex & Hx).
  unfold bfree. rewrite bind_kget, Hsb. change (u32 ROOTDEV) with ROOTDEV.
  rewrite (bind_Ret _ _ _ _ _ E1), (bind_Ret _ _ _ _ _ Ex), Hx.
  unfold in_use at 1. unfold bit_at. destruct (Z.land _ _ =? 0) eqn:Ebit; cbn [negb]; [done|].
  destruct (tx_modify _ _ _ _ _ _ _ _ bp (fun d => bitmap_clear d (b mod BPB)) e T1 Hin) as (k2 & E2 & T2 & S2).
  destruct (tx_log_write T2 _ bp e Hin Hbl Hbb Hroom) as (k3 & E3 & T3 & S3).
  destruct (log_added lg _ (tx_ok _ _ _ _ _ _ _ Ht) Hbl Hbb Hroom) as [_ Hadd].
  destruct (tx_brelse _ _ _ _ _ _ _ _ bp e T3) as (k4 & E4 & T4 & S4).
  { right. by rewrite Hadd, Z.eqb_refl, orb_true_r. }
  eexists _, _, k4. split_and!; [| | | | |].
  - by rewrite (bind_Ret _ _ _ _ _ E2), (bind_Ret _ _ _ _ _ E3).
  - exact T4.
  - by rewrite S1, S2, S3, S4.
  - intros i Hi. apply (in_use_upd lg sb C H b i bitmap_clear (fun x y => negb x && y)); [done|done|done| |by intros []].
    intros d bi bj. apply bit_at_clear.
  - intros m Hm. by rewrite zupd_ne.
  - by rewrite Hadd, Z.eqb_refl, orb_true_r.
Qed.

(** A file system of 1000 blocks, all in use; block 40 is its bitmap. *)
Definition bfree_sb : superblock := mkSuperblock FSMAGIC 1000 0 0 0 0 0 40.
Definition full_bitmap : list Z := replicate (Z.to_nat BSIZE) 255.

Lemma full_in_use b : 0 <= b < 1000 -> in_use (zupd sample_disk 40 full_bitmap) bfree_sb b = true /\ BBLOCK b bfree_sb = 40.
Proof.
  intros Hb. assert (BBLOCK b bfree_sb = 40) as E.
  { unfold BBLOCK. rewrite Z.div_small by (unfold BPB, BSIZE; lia). done. }
  split; [|done]. unfold in_use. rewrite E, zupd_eq, Z.mod_small by (unfold BPB, BSIZE; lia).
  rewrite bit_at_testbit. unfold bitmap_byte, full_bitmap.
  assert (0 <= b / 8 < 125) by (split; [apply Z.div_pos; lia|apply Z.div_lt_upper_bound; lia]).
  rewrite lookup_replicate_2 by (unfold BSIZE; lia). simpl.
  assert (0 <= b mod 8 < 8) as Hm by (apply Z.mod_pos_bound; lia).
  change 255 with (Z.ones 8). by apply Z.ones_spec_low.
Qed.

Lemma bfree_frees_witness :
  exists k k', bfree (D := sync_disk) ROOTDEV 500 (W k []) = Ret tt (W k' []).
Proof.
  destruct (sample_tx_40 bfree_sb full_bitmap) as (k & Ht & Hsb).
  pose proof (bfree_frees (Dr := sync_disk) _ _ _ _ _ _ _ _ 500 [] Ht Hsb) as H.
  rewrite (proj1 (full_in_use 500 ltac:(lia))) in H.
  destruct H as (C' & lg' & k' & Hrun & _).
  - split; try (intros b Hb; simpl in Hb; rewrite ?(proj2 (full_in_use b Hb))).
    + simpl. lia.
    + simpl. by vm_compute.
    + unfold in_log. simpl. lia.
    + apply not_elem_of_nil.
    + by rewrite zupd_eq.
    + intros Hf. by rewrite (proj1 (full_in_use b Hb)) in Hf.
  - simpl. lia.
  - vm_compute. lia.
  - unfold log_room, LOGSIZE, MAXOPBLOCKS. simpl. lia.
  - by exists k, k'.
Defined.
