(* ===== verification/Inode.v ===== *)
(** * The contents of a file

    [bmap], [readi], [writei], [iupdate] and [ilock] of fs.c inside a
    transaction.  The file of an inode is the function from offsets to bytes
    that its direct and indirect blocks hold; a block that is not allocated
    reads as zeroes. *)

From Stdlib Require Import ZArith Lia.
From stdpp Require Import base gmap list strings numbers.
From S2P Require Import Prelude Riscv State Klib Sched Kalloc Vm Usercopy Bio Log Tx Fs Balloc.

(** ** The blocks of a file *)

(** The indirect block. *)
Definition ind (x : inode) : Z := default 0 (i_addrs x !! Z.to_nat NDIRECT).

(** The block in slot [s]: the data blocks are slots 0 to [MAXFILE - 1], the
    indirect block is slot [MAXFILE].  0 if there is none. *)
Definition fblk (C : Z -> list Z) (x : inode) (s : Z) : Z :=
  if s <? NDIRECT then default 0 (i_addrs x !! Z.to_nat s)
  else if s =? MAXFILE then ind x
  else if ind x =? 0 then 0 else get32 (C (ind x)) (4 * (s - NDIRECT)).

(** The byte at offset [o]. *)
Definition byte_at (C : Z -> list Z) (x : inode) (o : Z) : Z :=
  let a := fblk C x (o / BSIZE) in
  if a =? 0 then 0 else default 0 (C a !! Z.to_nat (o mod BSIZE)).

(** A slot of a file. *)
Definition is_slot (s : Z) : Prop := 0 <= s <= MAXFILE.

Section file.
Context (sb : superblock).

(** A block that is not part of the bitmap. *)
Definition not_bitmap (m : Z) : Prop := forall b, 0 <= b < sb_size sb -> BBLOCK b sb <> m.

(** An allocated block outside the log and the bitmap that nobody holds. *)
Record data_block (lg : log) (C : Z -> list Z) (H : list (Z * nat)) (a : Z) : Prop := {
  db_range : 0 < a < sb_size sb;
  db_used : in_use C sb a = true;
  db_log : ~ in_log lg a;
  db_bitmap : not_bitmap a;
  db_held : a ∉ H.*1;
  db_len : length (C a) = Z.to_nat BSIZE;
}.

Record file_ok (lg : log) (C : Z -> list Z) (H : list (Z * nat)) (x : inode) : Prop := {
  fo_bitmap : bitmap_ok lg sb C H;
  fo_boot : in_use C sb 0 = true;
  fo_addrs : length (i_addrs x) = Z.to_nat (NDIRECT + 1);
  fo_data : forall s, is_slot s -> fblk C x s <> 0 -> data_block lg C H (fblk C x s);
  fo_inj : forall s s', is_slot s -> is_slot s' -> fblk C x s <> 0 -> fblk C x s = fblk C x s' -> s = s';
}.

(** Slot [s], which was empty, got the fresh block [n]. *)
Record allocates (C : Z -> list Z) (x : inode) (C' : Z -> list Z) (x' : inode) (s n : Z) : Prop := {
  al_slot : is_slot s;
  al_was : fblk C x s = 0;
  al_n : 0 < n < sb_size sb;
  al_free : in_use C sb n = false;
  al_fblk : forall s', is_slot s' -> fblk C' x' s' = if decide (s' = s) then n else fblk C x s';
  al_new : C' n = block0;
  al_same : forall m, m <> n -> not_bitmap m -> m <> ind x -> C' m = C m;
  al_ind : ind x <> 0 -> length (C' (ind x)) = length (C (ind x));
  al_use : forall i, 0 <= i < sb_size sb -> in_use C' sb i = (i =? n) || in_use C sb i;
  al_addrs : length (i_addrs x') = Z.to_nat (NDIRECT + 1);
  al_inode : x' = set_i_addrs (i_addrs x') x;
}.

(** What a client of [bmap] may rely on. *)
Record grown (C : Z -> list Z) (x : inode) (C' : Z -> list Z) (x' : inode) : Prop := {
  gr_keep : forall s, is_slot s -> fblk C x s <> 0 -> fblk C' x' s = fblk C x s;
  gr_bytes : forall o, 0 <= o < MAXFILE * BSIZE -> byte_at C' x' o = byte_at C x o;
  gr_frame : forall m, 0 < m < sb_size sb -> in_use C sb m = true -> not_bitmap m -> m <> ind x -> C' m = C m;
  gr_used : forall m, 0 <= m < sb_size sb -> in_use C sb m = true -> in_use C' sb m = true;
  gr_inode : x' = set_i_addrs (i_addrs x') x;
  gr_fresh : forall s, is_slot s -> fblk C' x' s <> fblk C x s ->
    fblk C x s = 0 /\ 0 < fblk C' x' s < sb_size sb /\ in_use C sb (fblk C' x' s) = false;
  gr_new : forall m, 0 < m < sb_size sb -> in_use C' sb m = true ->
    in_use C sb m = true \/ exists s, is_slot s /\ fblk C x s = 0 /\ fblk C' x' s = m;
}.

(** A full disk. *)
Definition all_used (C : Z -> list Z) : Prop := forall i, 0 <= i < sb_size sb -> in_use C sb i = true.

Lemma ind_slot C x : fblk C x MAXFILE = ind x.
Proof. reflexivity. Qed.

Lemma is_slot_ind : is_slot MAXFILE.
Proof. unfold is_slot. by vm_compute. Qed.

Lemma set_i_addrs_id x : x = set_i_addrs (i_addrs x) x.
Proof. by destruct x. Qed.

Lemma grown_refl C x : grown C x C x.
Proof. split; try done; [apply set_i_addrs_id|by left]. Qed.

Lemma grown_trans C x C1 x1 C2 x2 : grown C x C1 x1 -> grown C1 x1 C2 x2 -> grown C x C2 x2.
Proof.
  intros [A1 A2 A3 A4 A5 A6 A7] [B1 B2 B3 B4 B5 B6 B7]. split.
  - intros s Hs H0. rewrite B1; [by apply A1|done|]. by rewrite A1.
  - intros o Ho. by rewrite B2, A2.
  - intros m Hm Hu Hb Hi. rewrite B3; [by apply A3|done|apply A4; [lia|done]|done|].
    intros ->. destruct (decide (ind x1 = ind x)) as [|Hne]; [done|].
    destruct (A6 MAXFILE is_slot_ind) as (_ & _ & Hf); [by rewrite !ind_slot|].
    rewrite ind_slot in Hf. congruence.
  - intros m Hm Hu. apply B4; [done|by apply A4].
  - rewrite B5, A5. by destruct x.
  - intros s Hs Hne. destruct (decide (fblk C1 x1 s = fblk C x s)) as [E|Hd].
    + destruct (B6 s Hs ltac:(congruence)) as (F1 & F2 & F3). split_and!; [congruence|lia|lia|].
      destruct (in_use C sb (fblk C2 x2 s)) eqn:Hu; [|done]. rewrite A4 in F3; [done|lia|done].
    + destruct (A6 s Hs Hd) as (F1 & F2 & F3). rewrite B1 in Hne |- *; [by split_and!; try lia|done|lia|done|lia].
  - intros m Hm Hu. destruct (B7 m Hm Hu) as [Hu1|(s & Hs & Hz & E)].
    + destruct (A7 m Hm Hu1) as [|(s & Hs & Hz & E)]; [by left|right]. exists s. split_and!; [done..|].
      rewrite B1; [done|done|lia].
    + right. exists s. split_and!; [done| |done]. destruct (decide (fblk C x s = 0)) as [|Hne]; [done|].
      by rewrite A1 in Hz.
Qed.

(** A data block of a slot other than the indirect one is not the indirect block. *)
Lemma fblk_ne_ind lg C H x s :
  file_ok lg C H x -> is_slot s -> s <> MAXFILE -> fblk C x s <> 0 -> fblk C x s <> ind x.
Proof.
  intros Hok Hs Hne H0 E. apply Hne. apply (fo_inj _ _ _ _ Hok); [done|apply is_slot_ind|done|].
  by rewrite ind_slot.
Qed.

Section alloc.
Context {lg : log} {C C' : Z -> list Z} {H : list (Z * nat)} {x x' : inode} {s n : Z}.
Hypothesis Hok : file_ok lg C H x.
Hypothesis Hal : allocates C x C' x' s n.

(** The blocks the file already had are not the new one and keep their data. *)
Lemma alloc_old s' :
  is_slot s' -> fblk C x s' <> 0 -> fblk C x s' <> n /\ (s' <> MAXFILE -> C' (fblk C x s') = C (fblk C x s')).
Proof.
  intros Hs' H0. destruct (fo_data _ _ _ _ Hok s' Hs' H0) as [D1 D2 D3 D4 D5 D6].
  assert (fblk C x s' <> n) as Hne.
  { intros E. rewrite E in D2. rewrite (al_free _ _ _ _ _ _ Hal) in D2. done. }
  split; [done|]. intros Hm. apply (al_same _ _ _ _ _ _ Hal); [done|done|].
  by apply (fblk_ne_ind lg _ H).
Qed.

Lemma alloc_bytes o : 0 <= o < MAXFILE * BSIZE -> byte_at C' x' o = byte_at C x o.
Proof.
  intros Ho. unfold byte_at.
  assert (0 <= o / BSIZE < MAXFILE) as Hs by (split; [apply Z.div_pos; [lia|done]|apply Z.div_lt_upper_bound; [done|lia]]).
  assert (is_slot (o / BSIZE)) as Hsl by (unfold is_slot; lia).
  rewrite (al_fblk _ _ _ _ _ _ Hal _ Hsl). destruct (decide (o / BSIZE = s)) as [E|Hne].
  - rewrite E, (al_was _ _ _ _ _ _ Hal), (al_new _ _ _ _ _ _ Hal), Z.eqb_refl.
    pose proof (al_n _ _ _ _ _ _ Hal). rewrite (proj2 (Z.eqb_neq n 0)) by lia.
    unfold block0. destruct (replicate _ 0 !! _) as [v|] eqn:El; [|done].
    apply lookup_replicate in El as [-> _]. done.
  - destruct (Z.eqb_spec (fblk C x (o / BSIZE)) 0) as [|H0]; [done|].
    by rewrite (proj2 (alloc_old _ Hsl H0)) by lia.
Qed.

Lemma alloc_grown : grown C x C' x'.
Proof.
  split.
  - intros s' Hs' H0. rewrite (al_fblk _ _ _ _ _ _ Hal s' Hs'). case_decide as E; [|done].
    subst s'. by rewrite (al_was _ _ _ _ _ _ Hal) in H0.
  - apply alloc_bytes.
  - intros m Hm Hu Hb Hi. apply (al_same _ _ _ _ _ _ Hal); [|done..].
    intros ->. by rewrite (al_free _ _ _ _ _ _ Hal) in Hu.
  - intros m Hm Hu. rewrite (al_use _ _ _ _ _ _ Hal) by done. by rewrite Hu, orb_true_r.
  - apply (al_inode _ _ _ _ _ _ Hal).
  - intros s' Hs'. rewrite (al_fblk _ _ _ _ _ _ Hal s' Hs'). case_decide as E; [|done]. intros _.
    rewrite E. split_and!; try apply Hal.
  - intros m Hm. rewrite (al_use _ _ _ _ _ _ Hal) by lia. destruct (Z.eqb_spec m n) as [->|]; [|by left].
    intros _. right. exists s. pose proof (al_slot _ _ _ _ _ _ Hal) as Hs. split_and!; [done|apply Hal|].
    by rewrite (al_fblk _ _ _ _ _ _ Hal s Hs), decide_True.
Qed.

Lemma alloc_file_ok lg' :
  (forall m, in_log lg' m <-> in_log lg m) -> bitmap_ok lg' sb C' H -> file_ok lg' C' H x'.
Proof.
  intros Hlg Hbm. pose proof (al_n _ _ _ _ _ _ Hal) as Hn.
  pose proof (bo_free _ _ _ _ (fo_bitmap _ _ _ _ Hok) n ltac:(lia) (al_free _ _ _ _ _ _ Hal)) as (F1 & F2 & F3).
  split; [done| | | |].
  - rewrite (al_use _ _ _ _ _ _ Hal) by lia. by rewrite (fo_boot _ _ _ _ Hok), orb_true_r.
  - apply (al_addrs _ _ _ _ _ _ Hal).
  - intros s' Hs'. rewrite (al_fblk _ _ _ _ _ _ Hal s' Hs'). case_decide as E; intros H0.
    + split; [lia| |by rewrite Hlg|done|done|by rewrite (al_new _ _ _ _ _ _ Hal)].
      by rewrite (al_use _ _ _ _ _ _ Hal), Z.eqb_refl by lia.
    + destruct (fo_data _ _ _ _ Hok s' Hs' H0) as [D1 D2 D3 D4 D5 D6].
      split; [done| |by rewrite Hlg|done|done|].
      * by rewrite (al_use _ _ _ _ _ _ Hal), D2, orb_true_r by lia.
      * destruct (decide (s' = MAXFILE)) as [->|Hm].
        -- rewrite ind_slot in *. by rewrite (al_ind _ _ _ _ _ _ Hal H0).
        -- by rewrite (proj2 (alloc_old s' Hs' H0) Hm).
  - intros s1 s2 Hs1 Hs2. rewrite (al_fblk _ _ _ _ _ _ Hal s1 Hs1), (al_fblk _ _ _ _ _ _ Hal s2 Hs2).
    case_decide as E1; case_decide as E2; intros H0 Eq.
    + congruence.
    + exfalso. destruct (alloc_old s2 Hs2) as [Hne _]; congruence.
    + exfalso. destruct (alloc_old s1 Hs1 H0) as [Hne _]. congruence.
    + by apply (fo_inj _ _ _ _ Hok).
Qed.
End alloc.
End file.

(** ** The log's budget *)

(** What logging at most [n] more blocks makes of the log. *)
Record cost (H : list (Z * nat)) (n : nat) (lg lg' : log) : Prop := {
  co_n : l_n lg' <= l_n lg + Z.of_nat n;
  co_usage : (usage lg' H <= usage lg H + n)%nat;
  co_in : forall m, in_log lg' m <-> in_log lg m;
  co_size : l_size lg' = l_size lg;
  co_op : l_outstanding lg' = l_outstanding lg;
  co_start : l_start lg' = l_start lg;
  co_commit : l_committing lg' = l_committing lg;
}.

Lemma cost_refl H n lg : cost H n lg lg.
Proof. split; try done; lia. Qed.

Lemma cost_trans H n n' lg lg1 lg2 : cost H n lg lg1 -> cost H n' lg1 lg2 -> cost H (n + n') lg lg2.
Proof. intros [] []. split; try lia; try congruence. intros m. rewrite co_in1. apply co_in0. Qed.

Lemma cost_le H n n' lg lg' : cost H n lg lg' -> (n <= n')%nat -> cost H n' lg lg'.
Proof. intros [] Hn. split; try done; lia. Qed.

Lemma cost_room H n lg lg' m : cost H n lg lg' -> log_room lg (m + Z.of_nat n) -> log_room lg' m.
Proof. intros [] (R1 & R2 & R3). unfold log_room. lia. Qed.

Lemma log_add_cost H lg n :
  log_ok lg -> ~ in_log lg n -> 0 <= n < 2 ^ 31 -> log_room lg 1 -> cost H 1 lg (log_add lg n).
Proof.
  intros Hok Hnl Hn Hroom. pose proof (log_add_usage lg n H Hok Hnl Hn Hroom). split.
  - unfold log_add. destruct (logged lg n); simpl; lia.
  - lia.
  - intros m. apply log_add_in.
  - unfold log_add. by destruct (logged lg n).
  - unfold log_add. by destruct (logged lg n).
  - unfold log_add. by destruct (logged lg n).
  - unfold log_add. by destruct (logged lg n).
Qed.

(** An allocation logs the bitmap block and the new block. *)
Lemma taken_cost sb C H0 H lg n :
  bitmap_ok lg sb C H0 -> log_ok lg -> 0 <= n < sb_size sb -> in_use C sb n = false -> log_room lg 2 ->
  cost H 2 lg (log_add (log_add lg (BBLOCK n sb)) n) /\ log_ok (log_add (log_add lg (BBLOCK n sb)) n).
Proof.
  intros Hok Hlok Hn Hf Hroom. destruct (bo_free _ _ _ _ Hok n Hn Hf) as (F1 & F2 & F3).
  destruct (BBLOCK_eq _ _ _ _ _ Hok Hn) as [_ Hbb]. pose proof (bo_log _ _ _ _ Hok n Hn) as Hbl.
  pose proof (bo_size _ _ _ _ Hok). assert (log_room lg 1) as Hroom1 by (unfold log_room in *; lia).
  destruct (log_added lg (BBLOCK n sb) Hlok Hbl Hbb Hroom1) as [O1 _].
  assert (log_room (log_add lg (BBLOCK n sb)) 1) as Hroom2 by (by apply log_add_room).
  assert (~ in_log (log_add lg (BBLOCK n sb)) n) as F1' by (by rewrite log_add_in).
  split; [|by apply (log_added _ n O1 F1' ltac:(lia) Hroom2)].
  apply (cost_trans _ 1 1 _ (log_add lg (BBLOCK n sb))); apply log_add_cost; (done || lia).
Qed.

Lemma bitmap_ok_log lg lg' sb C H :
  (forall m, in_log lg' m <-> in_log lg m) -> bitmap_ok lg sb C H -> bitmap_ok lg' sb C H.
Proof.
  intros Hl [O1 O2 O3 O4 O5 O6]. split; try done.
  - intros b Hb. rewrite Hl. by apply O3.
  - intros b Hb Hf. rewrite Hl. by apply O6.
Qed.

Lemma file_ok_log sb lg lg' C H x :
  (forall m, in_log lg' m <-> in_log lg m) -> file_ok sb lg C H x -> file_ok sb lg' C H x.
Proof.
  intros Hl [O1 O2 O3 O4 O5]. split; try done; [by eapply bitmap_ok_log|].
  intros s Hs H0. destruct (O4 s Hs H0) as [D1 D2 D3 D4 D5 D6]. split; try done. by rewrite Hl.
Qed.

(** ** The inode table *)

Definition put_inode (ip : nat) (x : inode) (k : kernel) : kernel := set_k_itable (<[ip := x]> (k_itable k)) k.

(** Beside the cache and the log, only entry [ip] of the inode table differs. *)
Definition same_but (ip : nat) (k k' : kernel) : Prop := exists x, same_fs (put_inode ip x k) k'.

Lemma same_fs_but ip k k' x : k_itable k !! ip = Some x -> same_fs k k' -> same_but ip k k'.
Proof.
  intros Hx Hs. exists x. unfold put_inode. rewrite list_insert_id by done. by destruct k.
Qed.

Lemma same_but_trans ip k k1 k2 : same_but ip k k1 -> same_but ip k1 k2 -> same_but ip k k2.
Proof.
  intros (x1 & b1 & p1 & l1 & W1 & ->) (x2 & b2 & p2 & l2 & W2 & ->). exists x2, b2, p2, l2. split; [by etrans; [exact W1|exact W2]|].
  unfold put_inode. simpl. by rewrite list_insert_insert_eq.
Qed.

Lemma alter_insert {A} (f : A -> A) i (l : list A) x : l !! i = Some x -> alter f i l = <[i := f x]> l.
Proof.
  intros Hx. apply list_eq. intros j. destruct (decide (j = i)) as [->|Hne].
  - rewrite list_lookup_alter_eq, Hx, list_lookup_insert_eq by (by eapply lookup_lt_Some). done.
  - by rewrite list_lookup_alter_ne, list_lookup_insert_ne by done.
Qed.

Lemma inode_get_eq ip k e x : k_itable k !! ip = Some x -> inode_get ip (W k e) = Ret x (W k e).
Proof. intros Hx. unfold inode_get. rewrite bind_kget. by rewrite Hx. Qed.

Lemma inode_mod_eq ip f k e x :
  k_itable k !! ip = Some x -> inode_mod ip f (W k e) = Ret tt (W (put_inode ip (f x) k) e).
Proof. intros Hx. unfold inode_mod, kmod, put_inode. simpl. by rewrite (alter_insert f ip _ x Hx). Qed.

Lemma put_inode_lookup ip x y k : k_itable k !! ip = Some y -> k_itable (put_inode ip x k) !! ip = Some x.
Proof. intros Hy. simpl. apply list_lookup_insert_eq. by eapply lookup_lt_Some. Qed.

Lemma tx_put_inode p pr lg k C D H ip x : tx p pr lg k C D H -> tx p pr lg (put_inode ip x k) C D H.
Proof.
  intros [[Hc [l Hi] ? ? ? ? ? ? ?] Hok Hcl Hnd Hh]. split; try done.
  - split; try done; [by destruct Hc|exists l; by destruct Hi].
  - intros n b Hin. by destruct (Hh n b Hin).
Qed.

Lemma same_fs_itable k k' : same_fs k k' -> k_itable k' = k_itable k /\ k_sb k' = k_sb k.
Proof. by intros (bs & ps & lg & _ & ->). Qed.

(** ** A process working on the file of inode [ip] *)

Record on_file (sb : superblock) (ip : nat) (p : nat) (pr : proc) (lg : log) (k : kernel)
    (C D : Z -> list Z) (H : list (Z * nat)) (x : inode) : Prop := {
  of_tx : tx p pr lg k C D H;
  of_file : file_ok sb lg C H x;
  of_sb : k_sb k = sb;
  of_ip : k_itable k !! ip = Some x;
  of_dev : i_dev x = ROOTDEV;
}.

Lemma le_val_zeros n : le_val (replicate n 0) = 0.
Proof. induction n as [|n IH]; [done|]. simpl. lia. Qed.

Section bmap.
Context `{Dr : Disk} {DR : DiskReads Dr} (sb : superblock) (ip : nat) (p : nat) (pr : proc).

(** The slot of [ip->addrs[i]]. *)
Definition addr_slot (i : Z) : Z := if i =? NDIRECT then MAXFILE else i.

Lemma addr_slot_is i : 0 <= i <= NDIRECT -> is_slot (addr_slot i).
Proof.
  intros Hi. unfold addr_slot, is_slot. assert (NDIRECT < MAXFILE) by done.
  destruct (Z.eqb_spec i NDIRECT); unfold NDIRECT in *; lia.
Qed.

Lemma fblk_addr C x i :
  0 <= i <= NDIRECT -> fblk C x (addr_slot i) = default 0 (i_addrs x !! Z.to_nat i).
Proof.
  intros Hi. unfold fblk, addr_slot. destruct (Z.eqb_spec i NDIRECT) as [->|Hne]; [reflexivity|].
  by rewrite (proj2 (Z.ltb_lt i NDIRECT)) by lia.
Qed.

Lemma ind_data lg C H x : file_ok sb lg C H x -> ind x <> 0 -> data_block sb lg C H (ind x).
Proof. intros Hok H0. exact (fo_data _ _ _ _ _ Hok MAXFILE is_slot_ind H0). Qed.

(** An allocation leaves the data of the blocks in use. *)
Lemma taken_old lg C H n a :
  bitmap_ok lg sb C H -> data_block sb lg C H a -> 0 <= n < sb_size sb -> in_use C sb n = false -> taken sb n C a = C a.
Proof.
  intros Hok [D1 D2 D3 D4 D5 D6] Hn Hf. destruct (taken_facts _ _ _ _ n Hok Hn Hf) as (_ & _ & T3 & _).
  apply T3; [congruence|]. intros E. symmetry in E. revert E. apply D4. lia.
Qed.

(** The file when [ip->addrs[i]] becomes the fresh block [n]. *)
Lemma addr_fblk lg C H x i n s :
  file_ok sb lg C H x -> 0 <= i <= NDIRECT -> fblk C x (addr_slot i) = 0 ->
  0 < n < sb_size sb -> in_use C sb n = false -> is_slot s ->
  fblk (taken sb n C) (set_i_addrs (<[Z.to_nat i := n]> (i_addrs x)) x) s =
  if decide (s = addr_slot i) then n else fblk C x s.
Proof.
  intros Hok Hi Hz Hn Hf Hs. set (x' := set_i_addrs _ x).
  destruct (taken_facts _ _ _ _ n (fo_bitmap _ _ _ _ _ Hok) ltac:(lia) Hf) as (_ & T2 & T3 & _).
  assert (0 < NDIRECT /\ NDIRECT < MAXFILE) as [N1 N2] by done.
  pose proof (fo_addrs _ _ _ _ _ Hok) as Hlen. rewrite fblk_addr in Hz by done.
  assert (ind x' = if i =? NDIRECT then n else ind x) as Eind.
  { unfold ind, x'. simpl. destruct (Z.eqb_spec i NDIRECT) as [->|Hne].
    - rewrite list_lookup_insert_eq by (rewrite Hlen; unfold NDIRECT; lia). done.
    - by rewrite list_lookup_insert_ne by lia. }
  unfold addr_slot in *. unfold fblk at 1. destruct (Z.ltb_spec s NDIRECT) as [Hlt|Hge].
  - unfold x'. simpl. unfold is_slot in Hs. destruct (Z.eqb_spec i NDIRECT) as [Ei|Ei].
    + rewrite decide_False by lia. rewrite list_lookup_insert_ne by lia.
      unfold fblk. by rewrite (proj2 (Z.ltb_lt s NDIRECT)) by lia.
    + case_decide as Es; [subst s; by rewrite list_lookup_insert_eq by (rewrite Hlen; lia)|].
      rewrite list_lookup_insert_ne by lia. unfold fblk. by rewrite (proj2 (Z.ltb_lt s NDIRECT)) by lia.
  - destruct (Z.eqb_spec s MAXFILE) as [->|Hsm].
    + rewrite Eind. destruct (Z.eqb_spec i NDIRECT) as [->|Hne]; [by rewrite decide_True|].
      by rewrite decide_False by lia.
    + rewrite Eind. unfold fblk. rewrite (proj2 (Z.ltb_ge s NDIRECT)), (proj2 (Z.eqb_neq s MAXFILE)) by lia.
      destruct (Z.eqb_spec i NDIRECT) as [->|Hne].
      * rewrite decide_False by lia. rewrite (proj2 (Z.eqb_neq n 0)), T2 by lia.
        change (ind x = 0) in Hz. rewrite Hz. simpl. unfold get32, get_bytes, block0. rewrite drop_replicate, take_replicate. apply le_val_zeros.
      * rewrite decide_False by lia. destruct (Z.eqb_spec (ind x) 0) as [|H0]; [done|].
        by rewrite (taken_old lg C H n (ind x)) by (done || lia || apply Hok || by apply ind_data).
Qed.

Lemma addr_allocates lg C H x i n :
  file_ok sb lg C H x -> 0 <= i <= NDIRECT -> fblk C x (addr_slot i) = 0 ->
  0 < n < sb_size sb -> in_use C sb n = false ->
  allocates sb C x (taken sb n C) (set_i_addrs (<[Z.to_nat i := n]> (i_addrs x)) x) (addr_slot i) n.
Proof.
  intros Hok Hi Hz Hn Hf.
  destruct (taken_facts _ _ _ _ n (fo_bitmap _ _ _ _ _ Hok) ltac:(lia) Hf) as (T1 & T2 & T3 & _).
  split; try done.
  - by apply addr_slot_is.
  - intros s Hs. by eapply addr_fblk.
  - intros m Hm Hb _. apply T3; [done|]. intros ->. by apply (Hb n); [lia|].
  - intros H0. by rewrite (taken_old lg C H n (ind x)) by (done || lia || apply Hok || by apply ind_data).
  - simpl. rewrite length_insert. apply Hok.
Qed.

(** The file when entry [s] of the indirect block becomes the fresh block [n]. *)
Definition ind_put (C : Z -> list Z) (x : inode) (s n : Z) : Z -> list Z :=
  zupd (taken sb n C) (ind x) (put32 (taken sb n C (ind x)) (4 * (s - NDIRECT)) n).

Lemma ind_allocates lg C H x s n :
  file_ok sb lg C H x -> NDIRECT <= s < MAXFILE -> ind x <> 0 -> fblk C x s = 0 ->
  0 < n < sb_size sb -> in_use C sb n = false -> allocates sb C x (ind_put C x s n) x s n.
Proof.
  intros Hok Hs H0 Hz Hn Hf. pose proof (ind_data _ _ _ _ Hok H0) as Hd. pose proof Hd as [D1 D2 D3 D4 D5 D6].
  pose proof (bo_size _ _ _ _ (fo_bitmap _ _ _ _ _ Hok)) as Hsz.
  destruct (taken_facts _ _ _ _ n (fo_bitmap _ _ _ _ _ Hok) ltac:(lia) Hf) as (T1 & T2 & T3 & _).
  assert (taken sb n C (ind x) = C (ind x)) as Et by (apply (taken_old lg C H); try done; [apply Hok|lia]).
  assert (n <> ind x) as Hne by congruence. assert (0 < NDIRECT) as Hnd by done.
  assert (Z.of_nat (length (C (ind x))) = BSIZE) as El by (rewrite D6; by vm_compute).
  assert (MAXFILE * 4 = 4 * NDIRECT + BSIZE) as EM by done.
  unfold ind_put. rewrite Et. split.
  - unfold is_slot. lia.
  - done.
  - done.
  - done.
  - intros s' Hs'. unfold is_slot in Hs'. unfold fblk. destruct (Z.ltb_spec s' NDIRECT); [by rewrite decide_False by lia|].
    destruct (Z.eqb_spec s' MAXFILE) as [->|]; [by rewrite decide_False by lia|].
    rewrite (proj2 (Z.eqb_neq (ind x) 0)), zupd_eq by done. case_decide as E.
    + subst s'. rewrite get_put32_eq; [apply u32_small; lia|lia|lia].
    + rewrite get_put32_ne; [done|lia|lia|lia|lia].
  - by rewrite zupd_ne.
  - intros m Hm Hb Hi. rewrite zupd_ne by done. apply T3; [done|]. intros ->. by apply (Hb n); [lia|].
  - intros _. rewrite zupd_eq. apply length_put32; lia.
  - intros i Hi. unfold in_use. rewrite zupd_ne by (by apply D4). by apply T1.
  - apply Hok.
  - apply set_i_addrs_id.
Qed.

(** *** The routines *)

Lemma addr_mapped lg k C D H x i e :
  on_file sb ip p pr lg k C D H x -> 0 <= i <= NDIRECT -> fblk C x (addr_slot i) <> 0 ->
  addr_alloc ip i (W k e) = Ret (fblk C x (addr_slot i)) (W k e).
Proof.
  intros [Ht Hf Hsb Hip Hdev] Hi H0. unfold addr_alloc, addr_get.
  rewrite bind_assoc, (bind_Ret _ _ _ _ _ (inode_get_eq _ _ _ _ Hip)). rewrite fblk_addr in * by done.
  destruct (i_addrs x !! Z.to_nat i) as [a|] eqn:Ea; [|done]. simpl in H0 |- *.
  rewrite (bind_Ret _ _ _ _ _ (nth_or_fault_Some _ _ _ _ _ (proj1 Hi) Ea)).
  by rewrite (proj2 (Z.eqb_neq a 0)).
Qed.

Lemma addr_alloc_run lg k C D H x i e :
  on_file sb ip p pr lg k C D H x -> 0 <= i <= NDIRECT -> (S (usage lg H) < HEAD)%nat -> log_room lg 2 ->
  (exists lg' k' C' x', addr_alloc ip i (W k e) = Ret (fblk C' x' (addr_slot i)) (W k' e) /\
     on_file sb ip p pr lg' k' C' D H x' /\ grown sb C x C' x' /\ fblk C' x' (addr_slot i) <> 0 /\
     cost H 2 lg lg' /\ same_but ip k k') \/
  (fblk C x (addr_slot i) = 0 /\ all_used sb C /\ addr_alloc ip i (W k e) = Panic "balloc: out of blocks").
Proof.
  intros Hof Hi Hu Hroom. destruct (decide (fblk C x (addr_slot i) = 0)) as [Hz|H0].
  2:{ left. exists lg, k, C, x. split_and!; [by eapply addr_mapped|done|apply grown_refl|done|apply cost_refl|].
      eapply same_fs_but; [apply Hof|reflexivity]. }
  pose proof Hof as [Ht Hf Hsb Hip Hdev]. unfold addr_alloc, addr_get.
  rewrite bind_assoc, (bind_Ret _ _ _ _ _ (inode_get_eq _ _ _ _ Hip)).
  pose proof Hz as Hz'. rewrite fblk_addr in Hz' by done.
  destruct (lookup_lt_is_Some_2 (i_addrs x) (Z.to_nat i)) as [a Ha].
  { rewrite (fo_addrs _ _ _ _ _ Hf). unfold NDIRECT in *. lia. }
  rewrite Ha in Hz'. simpl in Hz'. subst a.
  rewrite (bind_Ret _ _ _ _ _ (nth_or_fault_Some _ _ _ _ _ (proj1 Hi) Ha)), Z.eqb_refl.
  rewrite (bind_Ret _ _ _ _ _ (inode_get_eq _ _ _ _ Hip)), Hdev.
  destruct (balloc_tx _ _ _ _ _ _ _ _ e Ht Hsb (fo_bitmap _ _ _ _ _ Hf) Hu Hroom)
    as [(n & k' & R1 & R2 & R3 & R4 & R5 & R6)|[Hall R]]; [left|right; split_and!; [done|done|by apply bind_Panic]].
  assert (n <> 0) as Hn0 by (intros ->; by rewrite (fo_boot _ _ _ _ _ Hf) in R3).
  rewrite (bind_Ret _ _ _ _ _ R1). destruct (same_fs_itable _ _ R6) as [Eit Esb].
  assert (k_itable k' !! ip = Some x) as Hip' by (by rewrite Eit).
  unfold addr_set. rewrite (bind_Ret _ _ _ _ _ (inode_mod_eq _ _ _ _ _ Hip')).
  set (x' := set_i_addrs _ x).
  pose proof (addr_allocates lg C H x i n Hf Hi Hz ltac:(lia) R3) as Hal. fold x' in Hal.
  destruct (taken_cost sb C H H lg n (fo_bitmap _ _ _ _ _ Hf) (tx_ok _ _ _ _ _ _ _ Ht) R2 R3 Hroom) as [Hco _].
  destruct (taken_facts _ _ _ _ n (fo_bitmap _ _ _ _ _ Hf) R2 R3) as (_ & _ & _ & Hbm).
  assert (fblk (taken sb n C) x' (addr_slot i) = n) as En.
  { rewrite (al_fblk _ _ _ _ _ _ _ Hal) by (by apply addr_slot_is). by rewrite decide_True. }
  eexists _, _, (taken sb n C), x'. rewrite En. split_and!; [reflexivity| | |done|exact Hco|].
  - split.
    + by apply tx_put_inode.
    + apply (alloc_file_ok sb Hf Hal); [apply Hco|]. eapply bitmap_ok_log; [|exact Hbm]. apply Hco.
    + simpl. congruence.
    + by eapply put_inode_lookup.
    + done.
  - exact (alloc_grown sb Hf Hal).
  - destruct R6 as (bs & ps & l' & Hw & ->). exists x', bs, ps, l'. split; [exact Hw|]. by destruct k.
Qed.

(** The bitmap while the data block [a] is held. *)
Lemma bitmap_ok_push lg C H a b :
  bitmap_ok lg sb C H -> data_block sb lg C H a -> bitmap_ok lg sb C ((a, b) :: H).
Proof.
  intros [O1 O2 O3 O4 O5 O6] [D1 D2 D3 D4 D5 D6]. split; try done.
  - intros c Hc. simpl. apply not_elem_of_cons. split; [by apply D4|by apply O4].
  - intros c Hc Hf. destruct (O6 c Hc Hf) as (F1 & F2 & F3). split_and!; try done.
    simpl. apply not_elem_of_cons. split; [congruence|done].
Qed.

(** Reading the indirect block. *)
Lemma ind_read lg k C D H x s e :
  on_file sb ip p pr lg k C D H x -> ind x <> 0 -> NDIRECT <= s < MAXFILE -> (usage lg H < HEAD)%nat ->
  exists b k' y, bread ROOTDEV (ind x) (W k e) = Ret b (W k' e) /\ tx p pr lg k' C D ((ind x, b) :: H) /\
    same_fs k k' /\ buf_get b (W k' e) = Ret y (W k' e) /\ get32 (b_data y) (4 * (s - NDIRECT)) = fblk C x s.
Proof.
  intros [Ht Hf Hsb Hip Hdev] H0 Hs Hu. pose proof (ind_data _ _ _ _ Hf H0) as Hd.
  destruct (tx_bread Ht (ind x) e (db_held _ _ _ _ _ Hd) Hu) as (b & k' & E1 & T1 & S1).
  destruct (tx_get T1 (ind x) b e (list_elem_of_here _ _)) as (y & Ey & Hy).
  exists b, k', y. split_and!; try done. rewrite Hy. unfold fblk.
  rewrite (proj2 (Z.ltb_ge s NDIRECT)), (proj2 (Z.eqb_neq s MAXFILE)), (proj2 (Z.eqb_neq (ind x) 0)) by lia. done.
Qed.

Lemma on_file_same lg k k' C D H x :
  on_file sb ip p pr lg k C D H x -> tx p pr lg k' C D H -> same_fs k k' -> on_file sb ip p pr lg k' C D H x.
Proof.
  intros [Ht Hf Hsb Hip Hdev] Ht' Hs. destruct (same_fs_itable _ _ Hs) as [E1 E2].
  split; try done; congruence.
Qed.

(** The indirect block's entry, when it is allocated. *)
Lemma bmap_indirect_mapped lg k C D H x s e :
  on_file sb ip p pr lg k C D H x -> ind x <> 0 -> NDIRECT <= s < MAXFILE -> fblk C x s <> 0 -> (usage lg H < HEAD)%nat ->
  exists k', bmap_indirect ip (s - NDIRECT) (ind x) (W k e) = Ret (fblk C x s) (W k' e) /\
    on_file sb ip p pr lg k' C D H x /\ same_fs k k'.
Proof.
  intros Hof Hind Hs H0 Hu. unfold bmap_indirect.
  rewrite (bind_Ret _ _ _ _ _ (inode_get_eq _ _ _ _ (of_ip _ _ _ _ _ _ _ _ _ _ Hof))), (of_dev _ _ _ _ _ _ _ _ _ _ Hof).
  destruct (ind_read _ _ _ _ _ _ s e Hof Hind ltac:(lia) Hu) as (b & k1 & y & E1 & T1 & S1 & Ey & Hy).
  rewrite (bind_Ret _ _ _ _ _ E1), (bind_Ret _ _ _ _ _ Ey), Hy, (proj2 (Z.eqb_neq _ 0) H0), bind_ret_l.
  destruct (tx_brelse _ _ _ _ _ _ _ _ _ e T1) as (k2 & E2 & T2 & S2).
  { destruct (logged lg (ind x)) eqn:El; [by right|left]. apply (tx_clean _ _ _ _ _ _ _ (of_tx _ _ _ _ _ _ _ _ _ _ Hof)); [|done].
    apply (db_held _ _ _ _ _ (ind_data _ _ _ _ (of_file _ _ _ _ _ _ _ _ _ _ Hof) Hind)). }
  exists k2. rewrite (bind_Ret _ _ _ _ _ E2). split; [done|]. assert (same_fs k k2) as S3 by (by rewrite S1).
  split; [|done]. by eapply on_file_same.
Qed.

(** The indirect block's entry, when a block is found for it. *)
Lemma bmap_indirect_alloc lg k C D H x s e :
  on_file sb ip p pr lg k C D H x -> ind x <> 0 -> NDIRECT <= s < MAXFILE -> fblk C x s = 0 ->
  (2 + usage lg H < HEAD)%nat -> log_room lg 3 ->
  (exists lg' k' C', bmap_indirect ip (s - NDIRECT) (ind x) (W k e) = Ret (fblk C' x s) (W k' e) /\
     on_file sb ip p pr lg' k' C' D H x /\ grown sb C x C' x /\ fblk C' x s <> 0 /\
     cost H 3 lg lg' /\ same_fs k k') \/
  (all_used sb C /\ bmap_indirect ip (s - NDIRECT) (ind x) (W k e) = Panic "balloc: out of blocks").
Proof.
  intros Hof Hind Hs Hz Hu Hroom. pose proof Hof as [Ht Hf Hsb Hip Hdev]. unfold bmap_indirect.
  pose proof (ind_data _ _ _ _ Hf Hind) as Hd. pose proof (bo_size _ _ _ _ (fo_bitmap _ _ _ _ _ Hf)) as Hsz.
  rewrite (bind_Ret _ _ _ _ _ (inode_get_eq _ _ _ _ Hip)), Hdev.
  destruct (ind_read _ _ _ _ _ _ s e Hof Hind ltac:(lia) ltac:(lia)) as (b & k1 & y & E1 & T1 & S1 & Ey & Hy).
  rewrite (bind_Ret _ _ _ _ _ E1), (bind_Ret _ _ _ _ _ Ey), Hy, Hz, Z.eqb_refl, bind_assoc.
  set (H1 := (ind x, b) :: H) in *. assert ((ind x, b) ∈ H1) as Hin by apply list_elem_of_here.
  assert (usage lg H1 <= S (usage lg H))%nat as Hu1 by (unfold usage, H1; rewrite filter_cons; case_decide; simpl; lia).
  assert (log_room lg 2) as Hroom2 by (unfold log_room in *; lia).
  destruct (same_fs_itable _ _ S1) as [_ Esb1].
  destruct (balloc_tx p pr lg k1 C D H1 sb e T1 ltac:(congruence) (bitmap_ok_push _ _ _ _ b (fo_bitmap _ _ _ _ _ Hf) Hd)
    ltac:(lia) Hroom2) as [(n & k2 & R1 & R2 & R3 & R4 & T2 & S2)|[Hall R]]; [left|right; split; [done|by apply bind_Panic]].
  assert (n <> 0) as Hn0 by (intros ->; by rewrite (fo_boot _ _ _ _ _ Hf) in R3).
  destruct (taken_cost sb C H H lg n (fo_bitmap _ _ _ _ _ Hf) (tx_ok _ _ _ _ _ _ _ Ht) R2 R3 Hroom2) as [Hco Hlok2].
  set (lg2 := log_add (log_add lg (BBLOCK n sb)) n) in *.
  assert (log_room lg2 1) as Hroom3 by (by apply (cost_room H 2 lg)).
  assert (~ in_log lg2 (ind x)) as Hnl by (rewrite (co_in _ _ _ _ Hco); apply Hd).
  assert (0 <= ind x < 2 ^ 31) as Hir by (pose proof (db_range _ _ _ _ _ Hd); lia).
  destruct (tx_modify _ _ _ _ _ _ _ _ b (fun d => put32 d (4 * (s - NDIRECT)) n) e T2 Hin) as (k3 & E3 & T3 & S3).
  destruct (tx_log_write T3 _ b e Hin Hnl Hir Hroom3) as (k4 & E4 & T4 & S4).
  destruct (log_added lg2 (ind x) Hlok2 Hnl Hir Hroom3) as [_ Hadd].
  destruct (tx_brelse _ _ _ _ _ _ _ _ b e T4) as (k5 & E5 & T5 & S5).
  { right. by rewrite Hadd, Z.eqb_refl, orb_true_r. }
  rewrite (bind_Ret _ _ _ _ _ R1), bind_assoc, (bind_Ret _ _ _ _ _ E3), bind_assoc, (bind_Ret _ _ _ _ _ E4), bind_ret_l.
  rewrite (bind_Ret _ _ _ _ _ E5). fold (ind_put C x s n) in T5.
  pose proof (ind_allocates lg C H x s n Hf Hs Hind Hz ltac:(lia) R3) as Hal.
  assert (fblk (ind_put C x s n) x s = n) as En.
  { rewrite (al_fblk _ _ _ _ _ _ _ Hal) by (unfold is_slot; assert (0 < NDIRECT) by done; lia). by rewrite decide_True. }
  assert (cost H 3 lg (log_add lg2 (ind x))) as Hco3.
  { apply (cost_trans H 2 1 lg lg2); [done|]. by apply log_add_cost. }
  assert (same_fs k k5) as S6 by (by rewrite S1, S2, S3, S4, S5).
  destruct (same_fs_itable _ _ S6) as [Eit Esb].
  exists (log_add lg2 (ind x)), k5, (ind_put C x s n). rewrite En. split_and!; try done.
  - split; [done| |congruence|congruence|done]. apply (alloc_file_ok sb Hf Hal); [apply Hco3|].
    destruct (taken_facts _ _ _ _ n (fo_bitmap _ _ _ _ _ Hf) R2 R3) as (_ & _ & _ & Hbm).
    apply (bitmap_ok_log lg); [apply Hco3|]. destruct Hbm as [O1 O2 O3 O4 O5 O6]. split; try done.
    + intros c Hc. unfold ind_put. rewrite zupd_ne by (by apply (db_bitmap _ _ _ _ _ Hd)). by apply O5.
    + intros c Hc. unfold in_use, ind_put. rewrite zupd_ne by (by apply (db_bitmap _ _ _ _ _ Hd)). by apply O6.
  - exact (alloc_grown sb Hf Hal).
Qed.

(** A block that is allocated. *)
Lemma bmap_mapped lg k C D H x bn e :
  on_file sb ip p pr lg k C D H x -> 0 <= bn < MAXFILE -> fblk C x bn <> 0 -> (usage lg H < HEAD)%nat ->
  exists k', bmap ip bn (W k e) = Ret (fblk C x bn) (W k' e) /\ on_file sb ip p pr lg k' C D H x /\ same_fs k k'.
Proof.
  intros Hof Hbn H0 Hu. unfold bmap. destruct (Z.ltb_spec bn NDIRECT) as [Hd|Hi].
  - exists k. split; [|by split]. assert (addr_slot bn = bn) as Es.
    { unfold addr_slot. by rewrite (proj2 (Z.eqb_neq bn NDIRECT)) by lia. }
    rewrite <- Es in H0. rewrite (addr_mapped _ _ _ _ _ _ bn e Hof ltac:(lia) H0). by rewrite Es.
  - assert (MAXFILE = NDIRECT + NINDIRECT) as EM by done.
    rewrite (proj2 (Z.ltb_lt (bn - NDIRECT) NINDIRECT)) by lia.
    assert (ind x <> 0) as Hind.
    { intros Ez. apply H0. unfold fblk. rewrite (proj2 (Z.ltb_ge bn NDIRECT)), (proj2 (Z.eqb_neq bn MAXFILE)), Ez by lia. done. }
    assert (fblk C x (addr_slot NDIRECT) <> 0) as H1 by exact Hind.
    rewrite (bind_Ret _ _ _ _ _ (addr_mapped _ _ _ _ _ _ NDIRECT e Hof ltac:(by vm_compute) H1)).
    apply bmap_indirect_mapped; (done || lia).
Qed.

(** Any block of the file. *)
Lemma bmap_run lg k C D H x bn e :
  on_file sb ip p pr lg k C D H x -> 0 <= bn < MAXFILE -> (4 + usage lg H < HEAD)%nat -> log_room lg 5 ->
  (exists lg' k' C' x', bmap ip bn (W k e) = Ret (fblk C' x' bn) (W k' e) /\
     on_file sb ip p pr lg' k' C' D H x' /\ grown sb C x C' x' /\ fblk C' x' bn <> 0 /\
     cost H 5 lg lg' /\ same_but ip k k') \/
  (fblk C x bn = 0 /\ (exists C' x', grown sb C x C' x' /\ all_used sb C') /\
   bmap ip bn (W k e) = Panic "balloc: out of blocks").
Proof.
  intros Hof Hbn Hu Hroom. assert (log_room lg 2) as Hroom2 by (unfold log_room in *; lia). unfold bmap.
  destruct (Z.ltb_spec bn NDIRECT) as [Hd|Hi].
  - assert (addr_slot bn = bn) as Es by (unfold addr_slot; by rewrite (proj2 (Z.eqb_neq bn NDIRECT)) by lia).
    destruct (addr_alloc_run _ _ _ _ _ _ bn e Hof ltac:(lia) ltac:(lia) Hroom2)
      as [(lg' & k' & C' & x' & E & H1 & H2 & H3 & H4 & H5)|(Hz & Hall & E)]; rewrite Es in *.
    2:{ right. split_and!; [done|by exists C, x; split; [apply grown_refl|]|done]. }
    left. exists lg', k', C', x'. split_and!; try done. by apply (cost_le H 2); [|lia].
  - assert (MAXFILE = NDIRECT + NINDIRECT) as EM by done.
    rewrite (proj2 (Z.ltb_lt (bn - NDIRECT) NINDIRECT)) by lia.
    destruct (addr_alloc_run _ _ _ _ _ _ NDIRECT e Hof ltac:(by vm_compute) ltac:(lia) Hroom2)
      as [(lg1 & k1 & C1 & x1 & E1 & F1 & G1 & N1 & Co1 & S1)|(Hz & Hall & E)].
    2:{ right. split_and!; [|by exists C, x; split; [apply grown_refl|]|by apply bind_Panic].
        change (fblk C x (addr_slot NDIRECT)) with (ind x) in Hz. unfold fblk.
        by rewrite (proj2 (Z.ltb_ge bn NDIRECT)), (proj2 (Z.eqb_neq bn MAXFILE)), Hz by lia. }
    change (fblk C1 x1 (addr_slot NDIRECT)) with (ind x1) in *. rewrite (bind_Ret _ _ _ _ _ E1).
    pose proof (co_usage _ _ _ _ Co1) as Hu1.
    destruct (decide (fblk C1 x1 bn = 0)) as [Hz|Hz].
    + destruct (bmap_indirect_alloc _ _ _ _ _ _ bn e F1 N1 ltac:(lia) Hz ltac:(lia))
        as [(lg2 & k2 & C2 & E2 & F2 & G2 & N2 & Co2 & S2)|[Hall E]]; [by apply (cost_room H 2 lg)| |].
      2:{ right. split_and!; [|by exists C1, x1|done]. destruct (decide (fblk C x bn = 0)) as [|Hne]; [done|].
          rewrite (gr_keep _ _ _ _ _ G1) in Hz; [done|unfold is_slot; lia|done]. }
      left. exists lg2, k2, C2, x1. split_and!; try done; [by eapply grown_trans|by apply (cost_trans H 2 3 lg lg1)|].
      eapply same_but_trans; [exact S1|]. eapply same_fs_but; [apply F1|done].
    + destruct (bmap_indirect_mapped _ _ _ _ _ _ bn e F1 N1 ltac:(lia) Hz ltac:(lia)) as (k2 & E2 & F2 & S2).
      left. exists lg1, k2, C1, x1. split_and!; try done; [by apply (cost_le H 2); [|lia]|].
      eapply same_but_trans; [exact S1|]. eapply same_fs_but; [apply F1|done].
Qed.
End bmap.

(** ** Reading *)

(** [n] bytes of the file from offset [off] on. *)
Definition file_bytes (C : Z -> list Z) (x : inode) (off n : Z) : list Z :=
  (fun i : nat => byte_at C x (off + Z.of_nat i)) <$> seq 0 (Z.to_nat n).

(** No holes below the size. *)
Definition full (C : Z -> list Z) (x : inode) : Prop :=
  0 <= i_size x <= MAXFILE * BSIZE /\ forall bn, 0 <= bn -> bn * BSIZE < i_size x -> fblk C x bn <> 0.

Lemma length_file_bytes C x off n : 0 <= n -> Z.of_nat (length (file_bytes C x off n)) = n.
Proof. intros Hn. unfold file_bytes. rewrite length_fmap, length_seq. lia. Qed.

Lemma file_bytes_lookup C x off n (i : nat) :
  Z.of_nat i < n -> file_bytes C x off n !! i = Some (byte_at C x (off + Z.of_nat i)).
Proof. intros Hi. unfold file_bytes. rewrite list_lookup_fmap, lookup_seq_lt by lia. done. Qed.

Lemma file_bytes_app C x off a b :
  0 <= a -> 0 <= b -> file_bytes C x off (a + b) = file_bytes C x off a ++ file_bytes C x (off + a) b.
Proof.
  intros Ha Hb. unfold file_bytes. rewrite Z2Nat.inj_add, seq_app, fmap_app by lia. f_equal.
  apply list_eq. intros i. rewrite !list_lookup_fmap. destruct (decide (i < Z.to_nat b)%nat) as [Hi|Hi].
  - rewrite !lookup_seq_lt by done. simpl. f_equal. f_equal. lia.
  - by rewrite !lookup_seq_ge by lia.
Qed.

(** Offsets in one block. *)
Lemma same_block off i :
  0 <= off -> 0 <= i < BSIZE - off mod BSIZE ->
  (off + i) / BSIZE = off / BSIZE /\ (off + i) mod BSIZE = off mod BSIZE + i.
Proof.
  intros Ho Hi. assert (0 < BSIZE) as HB by done. pose proof (Z.mod_pos_bound off BSIZE HB) as Hm.
  pose proof (Z.div_mod off BSIZE ltac:(lia)) as E.
  rewrite E at 1 3. rewrite <- Z.add_assoc, (Z.mul_comm BSIZE), Z.div_add_l, (Z.div_small (_ + i)) by lia.
  rewrite (Z.add_comm (_ * BSIZE)), Z.mod_add, Z.mod_small by lia. lia.
Qed.

(** The part of the file in one block. *)
Lemma block_bytes C x off m :
  0 <= off -> 0 <= m -> m <= BSIZE - off mod BSIZE -> fblk C x (off / BSIZE) <> 0 ->
  length (C (fblk C x (off / BSIZE))) = Z.to_nat BSIZE ->
  get_bytes (C (fblk C x (off / BSIZE))) (off mod BSIZE) m = file_bytes C x off m.
Proof.
  intros Ho Hm Hle H0 Hl. assert (0 < BSIZE) as HB by done. pose proof (Z.mod_pos_bound off BSIZE HB) as Hmod.
  apply list_eq. intros i. destruct (decide (Z.of_nat i < m)) as [Hi|Hi].
  - rewrite get_bytes_lookup, file_bytes_lookup by lia. unfold byte_at.
    assert ((off + Z.of_nat i) / BSIZE = off / BSIZE /\ (off + Z.of_nat i) mod BSIZE = off mod BSIZE + Z.of_nat i) as [-> ->].
    { apply same_block; lia. }
    rewrite (proj2 (Z.eqb_neq _ 0) H0).
    destruct (lookup_lt_is_Some_2 (C (fblk C x (off / BSIZE))) (Z.to_nat (off mod BSIZE + Z.of_nat i))) as [v Hv]; [lia|].
    replace (Z.to_nat (off mod BSIZE) + i)%nat with (Z.to_nat (off mod BSIZE + Z.of_nat i)) by lia. by rewrite Hv.
  - rewrite !lookup_ge_None_2; [done|pose proof (length_file_bytes C x off m Hm); lia|].
    unfold get_bytes. rewrite length_take. lia.
Qed.

(** The number of blocks that [r] bytes from [off] on touch. *)
Definition rounds (off r : Z) : Z := (off mod BSIZE + r + (BSIZE - 1)) / BSIZE.

Lemma rounds_pos off r : 0 < r -> 1 <= rounds off r.
Proof.
  intros Hr. assert (0 < BSIZE) as HB by done. pose proof (Z.mod_pos_bound off BSIZE HB).
  unfold rounds. apply Z.div_le_lower_bound; lia.
Qed.

Lemma rounds_next off r :
  0 <= off -> BSIZE - off mod BSIZE < r ->
  (off + (BSIZE - off mod BSIZE)) mod BSIZE = 0 /\
  rounds (off + (BSIZE - off mod BSIZE)) (r - (BSIZE - off mod BSIZE)) = rounds off r - 1.
Proof.
  intros Ho Hr. assert (0 < BSIZE) as HB by done. pose proof (Z.div_mod off BSIZE ltac:(lia)) as E.
  assert ((off + (BSIZE - off mod BSIZE)) mod BSIZE = 0) as E0.
  { replace (off + (BSIZE - off mod BSIZE)) with ((off / BSIZE + 1) * BSIZE) by lia. apply Z.mod_mul. lia. }
  split; [done|]. unfold rounds. rewrite E0.
  replace (0 + (r - (BSIZE - off mod BSIZE)) + (BSIZE - 1)) with (off mod BSIZE + r + (BSIZE - 1) + (-1) * BSIZE) by lia.
  rewrite Z.div_add by lia. lia.
Qed.

Lemma rounds_fuel off n : 0 <= n -> rounds off n < Z.of_nat (rw_fuel n).
Proof.
  intros Hn. assert (0 < BSIZE) as HB by done. pose proof (Z.mod_pos_bound off BSIZE HB).
  assert (0 <= n / BSIZE) by (apply Z.div_pos; lia).
  assert (rounds off n <= n / BSIZE + 2).
  { unfold rounds. replace (n / BSIZE + 2) with ((n + 2 * BSIZE) / BSIZE) by (rewrite Z.div_add by lia; lia).
    apply Z.div_le_mono; lia. }
  unfold rw_fuel. lia.
Qed.

Section readi.
Context `{Dr : Disk} {DR : DiskReads Dr} (sb : superblock) (ip : nat) (p : nat) (pr : proc).

(** [bs] stored at a destination in the kernel. *)
Definition dst_put (dst : dest) (bs : list Z) (k : kernel) : kernel :=
  match dst with DKern pa => set_k_mem (st_bytes (k_mem k) pa bs) k | _ => k end.
Definition dst_kernel (dst : dest) : bool := match dst with DUser _ => false | _ => true end.

Lemma either_copyout_kernel k e dst bs :
  k_cur k = Some p -> dst_kernel dst = true -> either_copyout dst bs (W k e) = Ret 0 (W (dst_put dst bs k) e).
Proof.
  intros Hc Hd. unfold either_copyout. rewrite (bind_Ret _ _ _ _ _ (this_proc_eq _ _ _ Hc)). by destruct dst.
Qed.

Lemma dst_put_app dst a b k :
  dst_put (dest_add dst (Z.of_nat (length a))) b (dst_put dst a k) = dst_put dst (a ++ b) k.
Proof. destruct dst; [done| |done]. simpl. by rewrite st_bytes_app. Qed.

Lemma dst_put_nil dst k : dst_put dst [] k = k.
Proof. destruct dst; [done| |done]. by destruct k. Qed.

Lemma dest_add_kernel dst m : dst_kernel (dest_add dst m) = dst_kernel dst.
Proof. by destruct dst. Qed.

Lemma dest_add_add dst m n : dest_add (dest_add dst m) n = dest_add dst (m + n).
Proof. destruct dst; simpl; [f_equal; lia|f_equal; lia|done]. Qed.

Lemma dst_put_same dst bs k k' : same_fs k k' -> same_fs (dst_put dst bs k) (dst_put dst bs k').
Proof. intros (b & ps & lg & Hw & ->). exists b, ps, lg. split; [by destruct dst|]. by destruct dst, k. Qed.

Lemma tx_dst_put dst bs lg k C D H : tx p pr lg k C D H -> tx p pr lg (dst_put dst bs k) C D H.
Proof. destruct dst; [done|apply tx_set_mem|done]. Qed.

Lemma on_file_put dst bs lg k C D H x :
  on_file sb ip p pr lg k C D H x -> on_file sb ip p pr lg (dst_put dst bs k) C D H x.
Proof. intros [Ht Hf Hsb Hip Hdev]. split; try done; [by apply tx_dst_put|by destruct dst|by destruct dst]. Qed.

Lemma on_file_cur lg k C D H x : on_file sb ip p pr lg k C D H x -> k_cur k = Some p.
Proof. intros [[[Hc _ _ _ _ _ _ _ _] _ _ _ _] _ _ _ _]. apply Hc. Qed.

(** One turn of the loop of [readi]. *)
Lemma readi_turn dst lg k C D H x n tot off acc e :
  on_file sb ip p pr lg k C D H x -> dst_kernel dst = true -> (usage lg H < HEAD)%nat -> 0 <= off -> tot < n ->
  off / BSIZE < MAXFILE -> fblk C x (off / BSIZE) <> 0 ->
  let m := Z.min (n - tot) (BSIZE - off mod BSIZE) in
  exists k', readi_body ip n (tot, off, dst, acc) (W k e) =
    Ret (inl (tot + m, off + m, dest_add dst m, acc ++ file_bytes C x off m)) (W k' e) /\
    on_file sb ip p pr lg k' C D H x /\ same_fs (dst_put dst (file_bytes C x off m) k) k'.
Proof.
  intros Hof Hdst Hu Ho Ht Hb H0 m. assert (0 < BSIZE) as HB by done.
  pose proof (Z.mod_pos_bound off BSIZE HB) as Hmod. assert (0 <= off / BSIZE) as Hb0 by (apply Z.div_pos; lia).
  pose proof (fo_data _ _ _ _ _ (of_file _ _ _ _ _ _ _ _ _ _ Hof) (off / BSIZE) ltac:(unfold is_slot; lia) H0) as Hd.
  unfold readi_body. rewrite (proj2 (Z.ltb_lt tot n)) by lia. cbn [negb].
  destruct (bmap_mapped sb ip p pr _ _ _ _ _ _ (off / BSIZE) e Hof ltac:(lia) H0 Hu) as (k1 & E1 & F1 & S1).
  rewrite (bind_Ret _ _ _ _ _ E1), (bind_Ret _ _ _ _ _ (inode_get_eq _ _ _ _ (of_ip _ _ _ _ _ _ _ _ _ _ F1))).
  rewrite (of_dev _ _ _ _ _ _ _ _ _ _ F1).
  pose proof (of_tx _ _ _ _ _ _ _ _ _ _ F1) as T1.
  destruct (tx_bread T1 _ e (db_held _ _ _ _ _ Hd) Hu) as (b & k2 & E2 & T2 & S2).
  destruct (tx_get T2 _ b e (list_elem_of_here _ _)) as (y & Ey & Hy).
  rewrite (bind_Ret _ _ _ _ _ E2), (bind_Ret _ _ _ _ _ Ey), Hy.
  fold m. rewrite (block_bytes C x off m) by (done || lia || apply Hd).
  assert (k_cur k2 = Some p) as Hc2 by (destruct T2 as [[Hc _ _ _ _ _ _ _ _] _ _ _ _]; apply Hc).
  rewrite (bind_Ret _ _ _ _ _ (either_copyout_kernel _ e dst (file_bytes C x off m) Hc2 Hdst)). change (0 =? -1) with false. cbn [negb].
  destruct (tx_brelse _ _ _ _ _ _ _ _ b e (tx_dst_put dst (file_bytes C x off m) _ _ _ _ _ T2)) as (k3 & E3 & T3 & S3).
  { destruct (logged lg (fblk C x (off / BSIZE))) eqn:El; [by right|left].
    apply (tx_clean _ _ _ _ _ _ _ T1); [apply Hd|done]. }
  exists k3. rewrite (bind_Ret _ _ _ _ _ E3). split; [done|].
  assert (same_fs (dst_put dst (file_bytes C x off m) k1) k3) as S4 by (by rewrite <- S3; apply dst_put_same).
  split; [eapply on_file_same; [by apply on_file_put|done|done]|]. rewrite <- S4. by apply dst_put_same.
Qed.

Lemma readi_loop lg C D H x n off0 e fuel : forall dst k tot,
  on_file sb ip p pr lg k C D H x -> dst_kernel dst = true -> (usage lg H < HEAD)%nat -> full C x -> 0 <= off0 -> off0 + n <= i_size x ->
  0 <= tot <= n -> (0 < fuel)%nat -> (tot < n -> rounds (off0 + tot) (n - tot) < Z.of_nat fuel) ->
  exists k', while_ fuel (readi_body ip n) (tot, off0 + tot, dst, file_bytes C x off0 tot) (W k e) =
    Ret (s32 n, file_bytes C x off0 n) (W k' e) /\ on_file sb ip p pr lg k' C D H x /\
    same_fs (dst_put dst (file_bytes C x (off0 + tot) (n - tot)) k) k'.
Proof.
  induction fuel as [|fuel IH]; intros dst k tot Hof Hdst Hu Hfull Ho Hsz Htot Hf0 Hfuel; [lia|].
  rewrite while_S. destruct (decide (tot < n)) as [Hlt|Hge].
  2:{ assert (tot = n) as -> by lia. exists k. rewrite Z.sub_diag. change (file_bytes C x (off0 + n) 0) with (@nil Z).
      rewrite dst_put_nil. split; [|by split].
      erewrite bind_Ret; [|unfold readi_body; rewrite (proj2 (Z.ltb_ge n n)) by lia; reflexivity]. done. }
  assert (0 < BSIZE) as HB by done. destruct Hfull as [Hs Hfull].
  pose proof (Z.div_mod (off0 + tot) BSIZE ltac:(lia)) as Ed.
  pose proof (Z.mod_pos_bound (off0 + tot) BSIZE HB) as Hm.
  assert (0 <= (off0 + tot) / BSIZE) as Hq by (apply Z.div_pos; lia).
  assert ((off0 + tot) / BSIZE < MAXFILE) as Hq2 by (apply Z.div_lt_upper_bound; lia).
  destruct (readi_turn dst _ _ _ _ _ _ n tot (off0 + tot) (file_bytes C x off0 tot) e Hof Hdst Hu ltac:(lia) Hlt Hq2)
    as (k1 & E1 & F1 & S1).
  { apply Hfull; lia. }
  cbv zeta in E1, S1. set (m := Z.min _ _) in E1, S1. rewrite (bind_Ret _ _ _ _ _ E1).
  rewrite <- file_bytes_app by lia. rewrite <- Z.add_assoc.
  destruct (IH (dest_add dst m) k1 (tot + m) F1 ltac:(by rewrite dest_add_kernel) Hu (conj Hs Hfull) Ho Hsz) as (k2 & E2 & F2 & S2).
  - lia.
  - specialize (Hfuel Hlt). pose proof (rounds_pos (off0 + tot) (n - tot) ltac:(lia)). lia.
  - intros Hlt'. specialize (Hfuel Hlt).
    assert (m = BSIZE - (off0 + tot) mod BSIZE) as Em by lia.
    destruct (rounds_next (off0 + tot) (n - tot)) as [_ Er]; [lia|lia|].
    replace (off0 + (tot + m)) with (off0 + tot + (BSIZE - (off0 + tot) mod BSIZE)) by lia.
    replace (n - (tot + m)) with (n - tot - (BSIZE - (off0 + tot) mod BSIZE)) by lia. lia.
  - exists k2. split; [done|]. split; [done|]. rewrite <- S2.
    replace (n - tot) with (m + (n - (tot + m))) by lia. rewrite file_bytes_app by lia.
    rewrite <- dst_put_app. pose proof (length_file_bytes C x (off0 + tot) m ltac:(lia)) as El.
    replace (Z.of_nat (length (file_bytes C x (off0 + tot) m))) with m by lia.
    rewrite <- Z.add_assoc. by apply dst_put_same.
Qed.

(** [readi] into the kernel's memory or a local buffer. *)
Lemma readi_run dst lg k C D H x off n e :
  on_file sb ip p pr lg k C D H x -> dst_kernel dst = true -> (usage lg H < HEAD)%nat -> full C x -> 0 <= off <= i_size x -> 0 <= n ->
  off + n < 2 ^ 32 ->
  let n' := Z.min n (i_size x - off) in
  exists k', readi ip dst off n (W k e) = Ret (n', file_bytes C x off n') (W k' e) /\
    on_file sb ip p pr lg k' C D H x /\ same_fs (dst_put dst (file_bytes C x off n') k) k'.
Proof.
  intros Hof Hdst Hu Hfull Ho Hn Hr n'. unfold readi.
  rewrite (bind_Ret _ _ _ _ _ (inode_get_eq _ _ _ _ (of_ip _ _ _ _ _ _ _ _ _ _ Hof))).
  rewrite u32_small by lia. rewrite (proj2 (Z.ltb_ge (i_size x) off)), (proj2 (Z.ltb_ge (off + n) off)) by lia. cbn [orb].
  assert ((if i_size x <? off + n then i_size x - off else n) = n') as ->.
  { destruct (Z.ltb_spec (i_size x) (off + n)); lia. }
  pose proof Hfull as [Hs _]. assert (MAXFILE * BSIZE < 2 ^ 31) by done.
  destruct (readi_loop lg C D H x n' off e (rw_fuel n') dst k 0 Hof Hdst Hu Hfull) as (k' & E & F & S); try lia.
  - unfold rw_fuel. lia.
  - intros _. rewrite Z.add_0_r, Z.sub_0_r. apply rounds_fuel. lia.
  - exists k'. rewrite Z.add_0_r, Z.sub_0_r in S. rewrite Z.add_0_r in E. change (file_bytes C x off 0) with (@nil Z) in E. rewrite E.
    split; [|done]. rewrite s32_small by lia. done.
Qed.
End readi.

(** ** Writing *)

Section wrote.
Context (sb : superblock).

(** The bytes [bs] were written at [off]. *)
Record wrote (C : Z -> list Z) (x : inode) (C' : Z -> list Z) (x' : inode) (off : Z) (bs : list Z) : Prop := {
  wr_bytes : forall o, 0 <= o < MAXFILE * BSIZE ->
    byte_at C' x' o = if decide (off <= o < off + Z.of_nat (length bs))
                      then default 0 (bs !! Z.to_nat (o - off)) else byte_at C x o;
  wr_keep : forall s, is_slot s -> fblk C x s <> 0 -> fblk C' x' s = fblk C x s;
  wr_frame : forall m, 0 < m < sb_size sb -> in_use C sb m = true -> not_bitmap sb m ->
    (forall s, is_slot s -> fblk C x s <> m) -> C' m = C m;
  wr_used : forall m, 0 <= m < sb_size sb -> in_use C sb m = true -> in_use C' sb m = true;
  wr_inode : x' = set_i_addrs (i_addrs x') x;
  wr_fresh : forall s, is_slot s -> fblk C' x' s <> fblk C x s ->
    fblk C x s = 0 /\ 0 < fblk C' x' s < sb_size sb /\ in_use C sb (fblk C' x' s) = false;
  wr_new : forall m, 0 < m < sb_size sb -> in_use C' sb m = true ->
    in_use C sb m = true \/ exists s, is_slot s /\ fblk C x s = 0 /\ fblk C' x' s = m;
  wr_mapped : forall o, off <= o < off + Z.of_nat (length bs) -> fblk C' x' (o / BSIZE) <> 0;
}.

Lemma grown_wrote C x C' x' off : grown sb C x C' x' -> wrote C x C' x' off [].
Proof.
  intros [G1 G2 G3 G4 G5 G6 G7]. split; try done.
  - intros o Ho. rewrite decide_False by (simpl; lia). by apply G2.
  - intros m Hm Hu Hb Hs. apply G3; try done. intros ->. by apply (Hs MAXFILE is_slot_ind).
  - simpl. lia.
Qed.

Lemma wrote_app C x C1 x1 C2 x2 off a b off' :
  0 <= off -> off' = off + Z.of_nat (length a) -> off' + Z.of_nat (length b) <= MAXFILE * BSIZE ->
  wrote C x C1 x1 off a -> wrote C1 x1 C2 x2 off' b -> wrote C x C2 x2 off (a ++ b).
Proof.
  intros Ho -> Hm [A1 A2 A3 A4 A5 A6 A8 A7] [B1 B2 B3 B4 B5 B6 B8 B7]. split.
  - intros o Hr. rewrite B1, A1 by done. rewrite length_app.
    destruct (decide (off + Z.of_nat (length a) <= o < off + Z.of_nat (length a) + Z.of_nat (length b))) as [H|H].
    + rewrite decide_True by lia. rewrite lookup_app_r by lia. do 2 f_equal. lia.
    + destruct (decide (off <= o < off + Z.of_nat (length a))) as [H'|H'].
      * rewrite decide_True by lia. by rewrite lookup_app_l by lia.
      * by rewrite decide_False by lia.
  - intros s Hs H0. rewrite B2; [by apply A2|done|by rewrite A2].
  - intros m Hr Hu Hb Hs. rewrite B3; [by apply A3|done|apply A4; [lia|done]|done|].
    intros s Hsl E. destruct (decide (fblk C1 x1 s = fblk C x s)) as [Es|Hne]; [apply (Hs s Hsl); congruence|].
    destruct (A6 s Hsl Hne) as (_ & _ & Hf). congruence.
  - intros m Hr Hu. apply B4; [done|by apply A4].
  - rewrite B5, A5. by destruct x.
  - intros s Hs Hne. destruct (decide (fblk C1 x1 s = fblk C x s)) as [E|Hd].
    + destruct (B6 s Hs ltac:(congruence)) as (F1 & F2 & F3). split_and!; [congruence|lia|lia|].
      destruct (in_use C sb (fblk C2 x2 s)) eqn:Hu; [|done]. rewrite A4 in F3; [done|lia|done].
    + destruct (A6 s Hs Hd) as (F1 & F2 & F3). rewrite B2 in Hne |- *; [by split_and!; try lia|done|lia|done|lia].
  - intros m Hr Hu. destruct (B8 m Hr Hu) as [Hu1|(s & Hs & Hz & E)].
    + destruct (A8 m Hr Hu1) as [|(s & Hs & Hz & E)]; [by left|right]. exists s. split_and!; [done..|].
      rewrite B2; [done|done|lia].
    + right. exists s. split_and!; [done| |done]. destruct (decide (fblk C x s = 0)) as [|Hne]; [done|].
      by rewrite A2 in Hz.
  - intros o Hr. rewrite length_app in Hr. assert (0 < BSIZE) as HB by done.
    assert (is_slot (o / BSIZE)) as Hsl.
    { split; [apply Z.div_pos; lia|]. assert (o / BSIZE < MAXFILE) by (apply Z.div_lt_upper_bound; lia). lia. }
    destruct (decide (o < off + Z.of_nat (length a))) as [H|H].
    + pose proof (A7 o ltac:(lia)) as H7. by rewrite B2.
    + apply B7. lia.
Qed.

(** A store into one block of the file. *)
Lemma put_wrote lg C H x off bs :
  file_ok sb lg C H x -> 0 <= off -> Z.of_nat (length bs) <= BSIZE - off mod BSIZE ->
  off / BSIZE < MAXFILE -> fblk C x (off / BSIZE) <> 0 ->
  let a := fblk C x (off / BSIZE) in
  let C' := zupd C a (put_bytes (C a) (off mod BSIZE) bs) in
  wrote C x C' x off bs /\ file_ok sb lg C' H x.
Proof.
  intros Hok Ho Hl Hlt H0 a C'. assert (0 < BSIZE) as HB by done. pose proof (Z.mod_pos_bound off BSIZE HB) as Hmod.
  assert (0 <= off / BSIZE) as Hq by (apply Z.div_pos; lia).
  assert (is_slot (off / BSIZE)) as Hsl by (unfold is_slot; lia).
  pose proof (fo_data _ _ _ _ _ Hok _ Hsl H0) as Hd. fold a in Hd. pose proof Hd as [D1 D2 D3 D4 D5 D6].
  assert (a <> ind x) as Hni by (apply (fblk_ne_ind sb lg C H); (done || lia)).
  assert (forall s, fblk C' x s = fblk C x s) as Ef.
  { intros s. unfold fblk, C'. by rewrite zupd_ne. }
  assert (forall m, 0 <= m < sb_size sb -> in_use C' sb m = in_use C sb m) as Hiu'.
  { intros m Hm. unfold in_use, C'. rewrite zupd_ne; [done|by apply D4]. }
  assert (Z.of_nat (length (C a)) = BSIZE) as El by (rewrite D6; by vm_compute).
  assert (length (C' a) = Z.to_nat BSIZE) as El'.
  { unfold C'. rewrite zupd_eq, length_put_bytes; [done|lia|lia]. }
  split.
  - split.
    + intros o Hor. unfold byte_at. rewrite Ef.
      destruct (decide (off <= o < off + Z.of_nat (length bs))) as [Hin|Hout].
      * destruct (same_block off (o - off)) as [E1 E2]; [lia|lia|]. rewrite Zplus_minus in E1, E2.
        rewrite E1, E2. fold a. rewrite (proj2 (Z.eqb_neq a 0) H0). unfold C'. rewrite zupd_eq.
        rewrite put_bytes_lookup by lia. rewrite decide_True by lia. do 2 f_equal. lia.
      * destruct (Z.eqb_spec (fblk C x (o / BSIZE)) 0) as [|Hne]; [done|].
        unfold C'. unfold zupd. case_decide as E; [|done]. unfold a in E.
        assert (o / BSIZE = off / BSIZE) as Eb.
        { apply (fo_inj _ _ _ _ _ Hok); [|done|done|done]. split; [apply Z.div_pos; lia|].
          assert (o / BSIZE < MAXFILE) by (apply Z.div_lt_upper_bound; lia). lia. }
        rewrite put_bytes_lookup by lia. pose proof (Z.mod_pos_bound o BSIZE HB).
        pose proof (Z.div_mod o BSIZE ltac:(lia)). pose proof (Z.div_mod off BSIZE ltac:(lia)).
        rewrite decide_False by lia. unfold a. by rewrite E.
    + intros s Hs _. apply Ef.
    + intros m Hm Hu Hb Hs. unfold C'. rewrite zupd_ne; [done|]. intros ->. by apply (Hs _ Hsl).
    + intros m Hm Hu. by rewrite Hiu'.
    + apply set_i_addrs_id.
    + intros s Hs Hne. by rewrite Ef in Hne.
    + intros m Hm Hu. left. by rewrite <- Hiu' by lia.
    + intros o Hor. destruct (same_block off (o - off)) as [E1 _]; [lia|lia|]. rewrite Zplus_minus in E1.
      by rewrite Ef, E1.
  - destruct Hok as [O1 O2 O3 O4 O5]. split.
    + destruct O1 as [P1 P2 P3 P4 P5 P6]. split; try done.
      * intros b Hb. unfold C'. rewrite zupd_ne by (by apply D4). by apply P5.
      * intros b Hb Hf. rewrite Hiu' in Hf by done. by apply P6.
    + rewrite Hiu'; [done|]. lia.
    + done.
    + intros s Hs. rewrite Ef. intros Hne. destruct (O4 s Hs Hne) as [Q1 Q2 Q3 Q4 Q5 Q6]. split; try done.
      * by rewrite Hiu' by lia.
      * unfold C', zupd. case_decide as E; [|done]. rewrite length_put_bytes; [done|lia|lia].
    + intros s s' Hs Hs'. rewrite !Ef. by apply O5.
Qed.
End wrote.

(** Writing [bs] at [off] runs out of disk: some of the blocks are not
    allocated, and after a part of the write every block of the disk is in use. *)
Definition out_of_blocks (sb : superblock) (C : Z -> list Z) (x : inode) (off : Z) (bs : list Z) : Prop :=
  (exists o, off <= o < off + Z.of_nat (length bs) /\ fblk C x (o / BSIZE) = 0) /\
  exists j C' x', wrote sb C x C' x' off (take j bs) /\ all_used sb C'.

Section writei.
Context `{Dr : Disk} {DR : DiskReads Dr} (sb : superblock) (ip : nat) (p : nat) (pr : proc).

(** [bs] is at [src], in memory [m] and in the process [p]. *)
Definition src_gives (m : memory) (src : source) (bs : list Z) : Prop := forall k e i n,
  calm p pr k -> k_mem k = m -> 0 <= i -> 0 <= n -> i + n <= Z.of_nat (length bs) ->
  either_copyin (source_add src i) n (W k e) = Ret (0, take (Z.to_nat n) (drop (Z.to_nat i) bs)) (W k e).

Lemma local_gives m bs : src_gives m (SLocal bs) bs.
Proof.
  intros k e i n Hc Hm Hi Hn Hl. unfold either_copyin.
  by rewrite (bind_Ret _ _ _ _ _ (this_proc_eq _ _ _ (calm_cur _ _ _ Hc))).
Qed.

Lemma kern_gives m pa n : src_gives m (SKern pa) (ld_bytes m pa n).
Proof.
  intros k e i n' Hc <- Hi Hn Hl. unfold either_copyin. rewrite length_ld_bytes in Hl.
  rewrite (bind_Ret _ _ _ _ _ (this_proc_eq _ _ _ (calm_cur _ _ _ Hc))). simpl. unfold kget, gets. simpl.
  by rewrite <- (Z2Nat.id i Hi) at 1; rewrite ld_bytes_sub by lia.
Qed.

(** [src] denotes [bs]: bytes of the kernel, or of pages that the process has in
    memory. *)
Definition src_holds `{L : Layout} (m : memory) (src : source) (bs : list Z) : Prop :=
  match src with
  | SLocal b => b = bs
  | SKern pa => bs = ld_bytes m pa (length bs)
  | SUser va =>
      bs = ubytes m (p_pagetable pr) va (length bs) /\ (exists l, pt_ok m (p_pagetable pr) l) /\
      forall a, va <= a < va + Z.of_nat (length bs) -> quiet m (p_pagetable pr) a /\ user_ok m (p_pagetable pr) a = true
  end.

Lemma ubytes_sub m root va i n t :
  (i + n <= t)%nat -> ubytes m root (va + Z.of_nat i) n = take n (drop i (ubytes m root va t)).
Proof.
  intros Hl. replace t with (i + (n + (t - i - n)))%nat by lia. rewrite !ubytes_app.
  assert (forall v q, length (ubytes m root v q) = q) as El by (intros v q; unfold ubytes; by rewrite length_fmap, length_seq).
  rewrite drop_app_length' by (by rewrite El). by rewrite take_app_length' by (by rewrite El).
Qed.

Lemma holds_gives `{L : Layout} `{!LayoutOk L} m src bs : src_holds m src bs -> src_gives m src bs.
Proof.
  destruct src as [va|pa|b]; [intros (Hb & [l Hpt] & Hq)|intros ->; apply kern_gives|intros ->; apply local_gives].
  intros k e i n Hc <- Hi Hn Hl. unfold either_copyin.
  rewrite (bind_Ret _ _ _ _ _ (this_proc_eq _ _ _ (calm_cur _ _ _ Hc))). cbn [source_add].
  rewrite (bind_Ret _ _ _ _ _ (proc_get_eq _ _ _ _ (calm_proc _ _ _ Hc))).
  destruct (copyin_loop (p_pagetable pr) l k e (copy_fuel n) (va + i) n []) as (r & d & Hrun & Hr);
    [done|lia|intros a Ha; apply Hq; lia|by apply copy_fuel_enough|].
  unfold copyin. rewrite Hrun. destruct Hr as [(-> & -> & _)|(_ & a & Ha & Hno)].
  - rewrite Hb. simpl app. do 2 f_equal. rewrite <- (Z2Nat.id i) at 1 by lia. apply ubytes_sub. lia.
  - by rewrite (proj2 (Hq a ltac:(lia))) in Hno.
Qed.

Lemma source_add_0 src : source_add src 0 = src.
Proof. destruct src; simpl; by rewrite ?Z.add_0_r. Qed.

Lemma source_add_add src a b : 0 <= a -> 0 <= b -> source_add (source_add src a) b = source_add src (a + b).
Proof. intros Ha Hb. destruct src; simpl; f_equal; [lia|lia|]. rewrite drop_drop. f_equal. lia. Qed.

Lemma gives_drop m src bs j :
  src_gives m src bs -> 0 <= j <= Z.of_nat (length bs) -> src_gives m (source_add src j) (drop (Z.to_nat j) bs).
Proof.
  intros Hs Hj k e i n Hc Hm Hi Hn Hl. rewrite length_drop in Hl. rewrite source_add_add, (Hs k e) by (done || lia).
  rewrite drop_drop. by replace (Z.to_nat (j + i)) with (Z.to_nat j + Z.to_nat i)%nat by lia.
Qed.

Lemma same_but_mem k k' : same_but ip k k' -> k_mem k' = k_mem k.
Proof. by intros (x & b & ps & lg & _ & ->). Qed.

(** One turn of the loop of [writei]. *)
Lemma writei_turn src lg k C D H x n tot off bs e :
  on_file sb ip p pr lg k C D H x -> src_gives (k_mem k) src bs -> (5 + usage lg H < HEAD)%nat -> log_room lg 6 ->
  0 <= off -> off / BSIZE < MAXFILE -> tot < n -> Z.of_nat (length bs) = n - tot ->
  let m := Z.min (n - tot) (BSIZE - off mod BSIZE) in
  (exists lg' k' C' x', writei_body ip n (tot, off, src) (W k e) =
     Ret (inl (tot + m, off + m, source_add src m)) (W k' e) /\
     on_file sb ip p pr lg' k' C' D H x' /\ wrote sb C x C' x' off (take (Z.to_nat m) bs) /\
     cost H 6 lg lg' /\ same_but ip k k') \/
  (out_of_blocks sb C x off bs /\ writei_body ip n (tot, off, src) (W k e) = Panic "balloc: out of blocks").
Proof.
  intros Hof Hsrc Hu Hroom Ho Hb Ht Hl m. assert (0 < BSIZE) as HB by done.
  pose proof (Z.mod_pos_bound off BSIZE HB) as Hmod. assert (0 <= off / BSIZE) as Hb0 by (apply Z.div_pos; lia).
  unfold writei_body. rewrite (proj2 (Z.ltb_lt tot n)) by lia. cbn [negb].
  destruct (bmap_run sb ip p pr _ _ _ _ _ _ (off / BSIZE) e Hof ltac:(lia) ltac:(lia))
    as [(lg1 & k1 & C1 & x1 & E1 & F1 & G1 & N1 & Co1 & S1)|(Hz & (C1 & x1 & G1 & Hall) & E)]; [unfold log_room in *; lia|left|].
  2:{ right. split; [|by apply bind_Panic]. split; [exists off; split; [lia|done]|].
      exists 0%nat, C1, x1. split; [by apply grown_wrote|done]. }
  rewrite (bind_Ret _ _ _ _ _ E1), (bind_Ret _ _ _ _ _ (inode_get_eq _ _ _ _ (of_ip _ _ _ _ _ _ _ _ _ _ F1))).
  rewrite (of_dev _ _ _ _ _ _ _ _ _ _ F1). set (a := fblk C1 x1 (off / BSIZE)) in *.
  pose proof (of_tx _ _ _ _ _ _ _ _ _ _ F1) as T1. pose proof (of_file _ _ _ _ _ _ _ _ _ _ F1) as O1.
  pose proof (fo_data _ _ _ _ _ O1 (off / BSIZE) ltac:(unfold is_slot; lia) N1) as Hd. fold a in Hd.
  pose proof (co_usage _ _ _ _ Co1) as Hu1. pose proof (bo_size _ _ _ _ (fo_bitmap _ _ _ _ _ O1)) as Hsz.
  destruct (tx_bread T1 a e (db_held _ _ _ _ _ Hd) ltac:(lia)) as (b & k2 & E2 & T2 & S2).
  assert (either_copyin src m (W k2 e) = Ret (0, take (Z.to_nat m) bs) (W k2 e)) as Ein.
  { rewrite <- (source_add_0 src), (Hsrc k2 e); try lia; [done|apply T2|].
    rewrite <- (same_but_mem k k1 S1). by destruct S2 as (? & ? & ? & _ & ->). }
  assert ((a, b) ∈ (a, b) :: H) as Hin by apply list_elem_of_here.
  destruct (tx_modify _ _ _ _ _ _ _ a b (fun d => put_bytes d (off mod BSIZE) (take (Z.to_nat m) bs)) e T2 Hin)
    as (k3 & E3 & T3 & S3).
  assert (log_room lg1 1) as Hroom1 by (by apply (cost_room H 5 lg)).
  assert (0 <= a < 2 ^ 31) as Har by (pose proof (db_range _ _ _ _ _ Hd); lia).
  destruct (tx_log_write T3 a b e Hin (db_log _ _ _ _ _ Hd) Har Hroom1) as (k4 & E4 & T4 & S4).
  destruct (log_added lg1 a (tx_ok _ _ _ _ _ _ _ T1) (db_log _ _ _ _ _ Hd) Har Hroom1) as [_ Hadd].
  destruct (tx_brelse _ _ _ _ _ _ _ a b e T4) as (k5 & E5 & T5 & S5); [right; by rewrite Hadd, Z.eqb_refl, orb_true_r|].
  rewrite (bind_Ret _ _ _ _ _ E2). fold m. rewrite (bind_Ret _ _ _ _ _ Ein).
  cbn [fst snd]. rewrite (bind_Ret _ _ _ _ _ E3). change (0 =? -1) with false. cbv iota.
  rewrite (bind_Ret _ _ _ _ _ E4), (bind_Ret _ _ _ _ _ E5).
  destruct (put_wrote sb lg1 C1 H x1 off (take (Z.to_nat m) bs) O1 Ho) as [Hw Hfo]; [rewrite length_take; lia|done|done|].
  fold a in Hw, Hfo. assert (same_fs k1 k5) as S6 by (by rewrite S2, S3, S4, S5).
  destruct (same_fs_itable _ _ S6) as [Eit Esb].
  assert (cost H 1 lg1 (log_add lg1 a)) as Co2 by (apply log_add_cost; [apply T1|apply Hd|done|done]).
  exists (log_add lg1 a), k5, (zupd C1 a (put_bytes (C1 a) (off mod BSIZE) (take (Z.to_nat m) bs))), x1.
  split_and!; [done| | |by apply (cost_trans H 5 1 lg lg1)|].
  - destruct F1 as [_ _ Fs Fi Fd]. split; [done| |congruence|congruence|done].
    apply (file_ok_log sb lg1); [apply Co2|done].
  - apply (wrote_app sb C x C1 x1 _ _ off [] (take (Z.to_nat m) bs) off); [lia|simpl; lia| |by apply grown_wrote|done].
    rewrite length_take. pose proof (Z.div_mod off BSIZE ltac:(lia)).
    assert (BSIZE * (off / BSIZE) <= BSIZE * (MAXFILE - 1)) by (apply Z.mul_le_mono_nonneg_l; lia). lia.
  - eapply same_but_trans; [exact S1|]. eapply same_fs_but; [apply F1|done].
Qed.

(** The whole loop, with room in the log for six blocks a turn. *)
Lemma writei_loop D H n off0 src bs e fuel : forall lg k C x tot,
  on_file sb ip p pr lg k C D H x -> src_gives (k_mem k) src bs ->
  0 <= off0 -> off0 + n <= MAXFILE * BSIZE -> 0 <= tot <= n -> Z.of_nat (length bs) = n - tot -> (0 < fuel)%nat ->
  let r := if decide (tot < n) then rounds (off0 + tot) (n - tot) else 0 in
  r < Z.of_nat fuel -> (Z.to_nat (6 * r) + usage lg H < HEAD)%nat -> log_room lg (6 * r) ->
  (exists lg' k' C' x', while_ fuel (writei_body ip n) (tot, off0 + tot, src) (W k e) =
     Ret (n, off0 + n) (W k' e) /\
     on_file sb ip p pr lg' k' C' D H x' /\ wrote sb C x C' x' (off0 + tot) bs /\
     cost H (Z.to_nat (6 * r)) lg lg' /\ same_but ip k k') \/
  (out_of_blocks sb C x (off0 + tot) bs /\
   while_ fuel (writei_body ip n) (tot, off0 + tot, src) (W k e) = Panic "balloc: out of blocks").
Proof.
  revert src bs. induction fuel as [|fuel IH]; intros src bs lg k C x tot Hof Hsrc Ho Hmax Htot Hl Hf0 r Hfuel Hu Hroom; [lia|].
  rewrite while_S. unfold r in *. clear r. destruct (decide (tot < n)) as [Hlt|Hge].
  2:{ left. assert (tot = n) as -> by lia. assert (bs = []) as -> by (apply nil_length_inv; lia).
      exists lg, k, C, x. split_and!; [|done|apply grown_wrote, grown_refl|apply cost_refl|].
      - erewrite bind_Ret; [|unfold writei_body; rewrite (proj2 (Z.ltb_ge n n)) by lia; reflexivity]. done.
      - eapply same_fs_but; [apply Hof|reflexivity]. }
  assert (0 < BSIZE) as HB by done. pose proof (Z.mod_pos_bound (off0 + tot) BSIZE HB) as Hm.
  pose proof (rounds_pos (off0 + tot) (n - tot) ltac:(lia)) as Hrp.
  destruct (writei_turn src lg k C D H x n tot (off0 + tot) bs e Hof Hsrc ltac:(lia))
    as [(lg1 & k1 & C1 & x1 & E1 & F1 & W1 & Co1 & S1)|[Hfull E]]; try done; try lia.
  { unfold log_room in *. lia. }
  { apply Z.div_lt_upper_bound; lia. }
  2:{ right. split; [done|by apply bind_Panic]. }
  set (m := Z.min _ _) in *. rewrite (bind_Ret _ _ _ _ _ E1), <- Z.add_assoc.
  set (r' := if decide (tot + m < n) then rounds (off0 + (tot + m)) (n - (tot + m)) else 0).
  assert (0 <= r' <= rounds (off0 + tot) (n - tot) - 1) as Hr'.
  { unfold r'. case_decide as Hlt'; [|lia]. assert (m = BSIZE - (off0 + tot) mod BSIZE) as Em by lia.
    destruct (rounds_next (off0 + tot) (n - tot)) as [_ Er]; [lia|lia|].
    replace (off0 + (tot + m)) with (off0 + tot + (BSIZE - (off0 + tot) mod BSIZE)) by lia.
    replace (n - (tot + m)) with (n - tot - (BSIZE - (off0 + tot) mod BSIZE)) by lia.
    pose proof (rounds_pos (off0 + tot + (BSIZE - (off0 + tot) mod BSIZE)) (n - tot - (BSIZE - (off0 + tot) mod BSIZE)) ltac:(lia)). lia. }
  pose proof (co_usage _ _ _ _ Co1) as Hu1.
  destruct (IH (source_add src m) (drop (Z.to_nat m) bs) lg1 k1 C1 x1 (tot + m) F1 ltac:(rewrite (same_but_mem _ _ S1); apply gives_drop; [done|lia]) Ho Hmax)
    as [(lg2 & k2 & C2 & x2 & E2 & F2 & W2 & Co2 & S2)|[Hfull E]]; try lia.
  - rewrite length_drop. lia.
  - fold r'. apply (cost_room H 6 lg); [done|]. unfold log_room in *. lia.
  - left. exists lg2, k2, C2, x2. split_and!; [done|done| | |by eapply same_but_trans].
    + rewrite <- (take_drop (Z.to_nat m) bs). eapply wrote_app; [lia| | |exact W1|].
      * reflexivity.
      * rewrite length_take, length_drop. lia.
      * rewrite length_take, Nat.min_l by lia. rewrite Z2Nat.id, <- Z.add_assoc by lia. exact W2.
    + eapply cost_le; [apply (cost_trans H _ _ lg lg1 lg2 Co1 Co2)|]. fold r'. lia.
  - right. split; [|done]. destruct Hfull as [(o & Hor & Hz) (j & C2 & x2 & W2 & Hall)]. rewrite length_drop in Hor. split.
    + exists o. split; [lia|]. destruct (decide (fblk C x (o / BSIZE) = 0)) as [|Hne]; [done|].
      rewrite (wr_keep _ _ _ _ _ _ _ W1) in Hz; [done| |done].
      split; [apply Z.div_pos; lia|]. assert (o / BSIZE < MAXFILE) by (apply Z.div_lt_upper_bound; lia). lia.
    + exists (Z.to_nat m + j)%nat, C2, x2. split; [|done]. rewrite <- take_take_drop.
      eapply wrote_app; [lia|reflexivity| |exact W1|].
      * rewrite !length_take, length_drop. lia.
      * rewrite length_take, Nat.min_l by lia. rewrite Z2Nat.id, <- Z.add_assoc by lia. exact W2.
Qed.
End writei.

(** ** Inodes on disk *)

Lemma put_bytes_app d off a b :
  0 <= off -> off + Z.of_nat (length a + length b) <= Z.of_nat (length d) ->
  put_bytes (put_bytes d off a) (off + Z.of_nat (length a)) b = put_bytes d off (a ++ b).
Proof.
  intros H0 Hl. apply list_eq. intros j.
  assert (length (put_bytes d off a) = length d) as E by (apply length_put_bytes; lia).
  rewrite !put_bytes_lookup; [|lia|rewrite length_app; lia|lia|lia|lia|rewrite E; lia]. rewrite length_app.
  destruct (decide (Z.to_nat off + length a <= j < Z.to_nat off + length a + length b)%nat) as [H|H].
  - rewrite !decide_True by lia. rewrite lookup_app_r by lia. f_equal. lia.
  - rewrite (decide_False (P := (Z.to_nat (off + _) <= _ < _)%nat)) by lia.
    destruct (decide (Z.to_nat off <= j < Z.to_nat off + length a)%nat) as [H'|H'].
    + rewrite decide_True by lia. by rewrite lookup_app_l by lia.
    + by rewrite decide_False by lia.
Qed.

(** A part of what was put. *)
Lemma get_put_bytes_sub d off bs i n :
  0 <= off -> off + Z.of_nat (length bs) <= Z.of_nat (length d) -> 0 <= i -> 0 <= n -> i + n <= Z.of_nat (length bs) ->
  get_bytes (put_bytes d off bs) (off + i) n = get_bytes bs i n.
Proof.
  intros H0 Hl Hi Hn Hle. apply list_eq. intros j. destruct (decide (j < Z.to_nat n)%nat) as [Hj|Hj].
  - rewrite !get_bytes_lookup, put_bytes_lookup by lia. rewrite decide_True by lia. f_equal. lia.
  - rewrite !lookup_ge_None_2; [done|unfold get_bytes; rewrite length_take; lia..].
Qed.

Lemma concat_le_bytes_length l : length (concat (le_bytes 4 <$> l)) = (4 * length l)%nat.
Proof.
  induction l as [|v l IH]; [done|]. rewrite fmap_cons. cbn [concat]. rewrite length_app, IH, length_le_bytes. simpl. lia.
Qed.

Lemma concat_le_bytes_get l (i : nat) v :
  l !! i = Some v -> get_bytes (concat (le_bytes 4 <$> l)) (4 * Z.of_nat i) 4 = le_bytes 4 v.
Proof.
  revert i. induction l as [|w l IH]; intros i Hi; [done|]. rewrite fmap_cons. cbn [concat].
  destruct i as [|i]; simpl in Hi.
  - injection Hi as ->. unfold get_bytes. simpl Z.of_nat. rewrite Z.mul_0_r, drop_0.
    change (Z.to_nat 4) with (length (le_bytes 4 v)). apply take_app_length.
  - rewrite <- (IH i Hi). unfold get_bytes. f_equal.
    replace (Z.to_nat (4 * Z.of_nat (S i))) with (length (le_bytes 4 w) + Z.to_nat (4 * Z.of_nat i))%nat
      by (rewrite length_le_bytes; lia).
    rewrite <- drop_drop. by rewrite drop_app_length.
Qed.

(** The bytes of a [struct dinode]. *)
Definition dinode_bytes (x : dinode) : list Z :=
  le_bytes 2 (d_type x) ++ le_bytes 2 (d_major x) ++ le_bytes 2 (d_minor x) ++ le_bytes 2 (d_nlink x) ++
  le_bytes 4 (d_size x) ++ concat (le_bytes 4 <$> d_addrs x).

(** A [struct dinode]: shorts, an unsigned size, [NDIRECT + 1] addresses. *)
Record dinode_ok (x : dinode) : Prop := {
  do_type : - 2 ^ 15 <= d_type x < 2 ^ 15;
  do_major : - 2 ^ 15 <= d_major x < 2 ^ 15;
  do_minor : - 2 ^ 15 <= d_minor x < 2 ^ 15;
  do_nlink : - 2 ^ 15 <= d_nlink x < 2 ^ 15;
  do_size : 0 <= d_size x < 2 ^ 32;
  do_len : length (d_addrs x) = Z.to_nat (NDIRECT + 1);
  do_addrs : Forall (fun a => 0 <= a < 2 ^ 32) (d_addrs x);
}.

Lemma dinode_bytes_length x : length (d_addrs x) = Z.to_nat (NDIRECT + 1) -> Z.of_nat (length (dinode_bytes x)) = sizeof_dinode.
Proof. intros Hl. unfold dinode_bytes. rewrite !length_app, concat_le_bytes_length, Hl, !length_le_bytes. by vm_compute. Qed.

Lemma dinode_put_eq d off x :
  0 <= off -> off + sizeof_dinode <= Z.of_nat (length d) -> length (d_addrs x) = Z.to_nat (NDIRECT + 1) ->
  dinode_put d off x = put_bytes d off (dinode_bytes x).
Proof.
  intros H0 Hl Ha. unfold dinode_put, put_addrs, put16, put32, dinode_bytes.
  change sizeof_dinode with 64 in Hl. pose proof (concat_le_bytes_length (d_addrs x)) as Hc. rewrite Ha in Hc.
  change (Z.to_nat (NDIRECT + 1)) with 13%nat in Hc. set (ad := concat _) in *.
  assert (forall d' o a b n, length d' = length d -> length a = n -> 0 <= o -> o + Z.of_nat (n + length b) <= Z.of_nat (length d) ->
    put_bytes d' o (a ++ b) = put_bytes (put_bytes d' o a) (o + Z.of_nat n) b /\ length (put_bytes d' o a) = length d) as Hstep.
  { intros d' o a b n E <- Ho Hle. split; [symmetry; apply put_bytes_app|rewrite length_put_bytes]; lia. }
  destruct (Hstep d off (le_bytes 2 (d_type x)) (le_bytes 2 (d_major x) ++ le_bytes 2 (d_minor x) ++
    le_bytes 2 (d_nlink x) ++ le_bytes 4 (d_size x) ++ ad) 2%nat) as [-> L1];
    [done|apply length_le_bytes|lia|rewrite !length_app, !length_le_bytes; lia|].
  destruct (Hstep _ (off + Z.of_nat 2) (le_bytes 2 (d_major x)) (le_bytes 2 (d_minor x) ++
    le_bytes 2 (d_nlink x) ++ le_bytes 4 (d_size x) ++ ad) 2%nat L1) as [-> L2];
    [apply length_le_bytes|lia|rewrite !length_app, !length_le_bytes; lia|].
  destruct (Hstep _ (off + Z.of_nat 2 + Z.of_nat 2) (le_bytes 2 (d_minor x))
    (le_bytes 2 (d_nlink x) ++ le_bytes 4 (d_size x) ++ ad) 2%nat L2) as [-> L3];
    [apply length_le_bytes|lia|rewrite !length_app, !length_le_bytes; lia|].
  destruct (Hstep _ (off + Z.of_nat 2 + Z.of_nat 2 + Z.of_nat 2) (le_bytes 2 (d_nlink x))
    (le_bytes 4 (d_size x) ++ ad) 2%nat L3) as [-> L4];
    [apply length_le_bytes|lia|rewrite !length_app, !length_le_bytes; lia|].
  destruct (Hstep _ (off + Z.of_nat 2 + Z.of_nat 2 + Z.of_nat 2 + Z.of_nat 2) (le_bytes 4 (d_size x)) ad 4%nat L4) as [-> _];
    [apply length_le_bytes|lia|lia|].
  replace (off + Z.of_nat 2 + Z.of_nat 2 + Z.of_nat 2 + Z.of_nat 2 + Z.of_nat 4) with (off + 12) by lia.
  replace (off + Z.of_nat 2 + Z.of_nat 2 + Z.of_nat 2 + Z.of_nat 2) with (off + 8) by lia.
  replace (off + Z.of_nat 2 + Z.of_nat 2 + Z.of_nat 2) with (off + 6) by lia.
  replace (off + Z.of_nat 2 + Z.of_nat 2) with (off + 4) by lia.
  by replace (off + Z.of_nat 2) with (off + 2) by lia.
Qed.

(** A field of a [struct dinode] in a block. *)
Lemma dinode_field d off x i n v (k : nat) :
  0 <= off -> off + sizeof_dinode <= Z.of_nat (length d) -> length (d_addrs x) = Z.to_nat (NDIRECT + 1) ->
  0 <= i -> 0 <= n -> i + n <= sizeof_dinode -> get_bytes (dinode_bytes x) i n = le_bytes k v ->
  get_bytes (dinode_put d off x) (off + i) n = le_bytes k v.
Proof.
  intros H0 Hl Ha Hi Hn Hle E. rewrite dinode_put_eq by done. pose proof (dinode_bytes_length x Ha) as Hb.
  by rewrite get_put_bytes_sub by lia.
Qed.

Lemma s16_le v : - 2 ^ 15 <= v < 2 ^ 15 -> s16 (le_val (le_bytes 2 v)) = v.
Proof.
  intros Hv. rewrite le_val_bytes. change (256 ^ Z.of_nat 2) with (2 ^ 16). unfold s16, sx.
  rewrite Zmod_mod. exact (sx_small 16 v ltac:(lia) Hv).
Qed.

Lemma dinode_get_put d off x :
  dinode_ok x -> 0 <= off -> off + sizeof_dinode <= Z.of_nat (length d) -> dinode_get (dinode_put d off x) off = x.
Proof.
  intros [T1 T2 T3 T4 T5 T6 T7] H0 Hl. unfold dinode_get, get16, get32.
  rewrite <- (Z.add_0_r off) at 2.
  rewrite (dinode_field d off x 0 2 (d_type x) 2) by (done || reflexivity).
  rewrite (dinode_field d off x 2 2 (d_major x) 2) by (done || reflexivity).
  rewrite (dinode_field d off x 4 2 (d_minor x) 2) by (done || reflexivity).
  rewrite (dinode_field d off x 6 2 (d_nlink x) 2) by (done || reflexivity).
  rewrite (dinode_field d off x 8 4 (d_size x) 4) by (done || reflexivity).
  rewrite !s16_le by done. rewrite le_val_bytes, Z.mod_small by done.
  destruct x as [ty ma mi nl sz ad]. cbn [d_type d_major d_minor d_nlink d_size d_addrs] in *. f_equal.
  apply list_eq. intros i. rewrite list_lookup_fmap.
  destruct (decide (i < Z.to_nat (NDIRECT + 1))%nat) as [Hi|Hi].
  - rewrite lookup_seq_lt by done. destruct (lookup_lt_is_Some_2 ad i) as [v Hv]; [lia|]. rewrite Hv. cbn [fmap option_fmap option_map]. f_equal.
    rewrite <- Z.add_assoc.
    rewrite (dinode_field d off _ (12 + 4 * Z.of_nat i) 4 v 4); [| |done|done|lia|lia| |].
    + rewrite le_val_bytes. apply Z.mod_small. exact (Forall_lookup_1 _ ad i v T7 Hv).
    + done.
    + change sizeof_dinode with 64. change (Z.to_nat (NDIRECT + 1)) with 13%nat in Hi. lia.
    + rewrite <- (concat_le_bytes_get ad i v Hv). unfold get_bytes, dinode_bytes. f_equal.
      replace (Z.to_nat (12 + 4 * Z.of_nat i)) with (12 + Z.to_nat (4 * Z.of_nat i))%nat by lia. done.
  - rewrite lookup_seq_ge by lia. symmetry. apply lookup_ge_None_2. lia.
Qed.

(** Another inode of the block. *)
Lemma dinode_get_put_ne d off off' x :
  length (d_addrs x) = Z.to_nat (NDIRECT + 1) ->
  0 <= off -> off + sizeof_dinode <= Z.of_nat (length d) -> 0 <= off' ->
  off' + sizeof_dinode <= off \/ off + sizeof_dinode <= off' -> dinode_get (dinode_put d off x) off' = dinode_get d off'.
Proof.
  intros Ha H0 Hl H0' Hd. rewrite dinode_put_eq by done. pose proof (dinode_bytes_length x Ha) as Hb.
  change sizeof_dinode with 64 in *. unfold dinode_get, get16, get32. rewrite !get_put_bytes_ne by lia.
  f_equal. apply list_fmap_ext. intros i j Hj. apply lookup_seq in Hj as [-> Hj].
  change (Z.to_nat (NDIRECT + 1)) with 13%nat in Hj. by rewrite get_put_bytes_ne by lia.
Qed.

(** The block and the place in it of inode number [i]. *)
Lemma dinode_off_range i : 0 <= dinode_off i /\ dinode_off i + sizeof_dinode <= BSIZE.
Proof.
  unfold dinode_off. assert (0 <= i mod IPB < IPB) as H by (by apply Z.mod_pos_bound).
  change IPB with 16 in *. change sizeof_dinode with 64. change BSIZE with 1024. lia.
Qed.

Lemma dinode_off_apart i j :
  i mod IPB <> j mod IPB -> dinode_off i + sizeof_dinode <= dinode_off j \/ dinode_off j + sizeof_dinode <= dinode_off i.
Proof. unfold dinode_off. change sizeof_dinode with 64. intros H. lia. Qed.

(** The addresses in an inode fit in 32 bits. *)
Lemma file_ok_addrs sb lg C H x : file_ok sb lg C H x -> Forall (fun a => 0 <= a < 2 ^ 32) (i_addrs x).
Proof.
  intros Hok. apply Forall_lookup. intros i a Hi. pose proof (lookup_lt_Some _ _ _ Hi) as Hlt.
  rewrite (fo_addrs _ _ _ _ _ Hok) in Hlt. pose proof (bo_size _ _ _ _ (fo_bitmap _ _ _ _ _ Hok)) as Hs.
  assert (0 <= Z.of_nat i <= NDIRECT) as Hr by (unfold NDIRECT in *; lia).
  pose proof (fblk_addr C x (Z.of_nat i) Hr) as E. rewrite Nat2Z.id, Hi in E. simpl in E.
  destruct (decide (a = 0)) as [->|Hne]; [lia|].
  pose proof (fo_data _ _ _ _ _ Hok (addr_slot (Z.of_nat i)) (addr_slot_is _ Hr) ltac:(congruence)) as Hd.
  rewrite E in Hd. pose proof (db_range _ _ _ _ _ Hd). lia.
Qed.

(** A change to a block that is not the file's. *)
Lemma file_other sb lg C H x a d :
  file_ok sb lg C H x -> data_block sb lg C H a -> (forall s, is_slot s -> fblk C x s <> a) ->
  length d = Z.to_nat BSIZE ->
  file_ok sb lg (zupd C a d) H x /\ (forall s, fblk (zupd C a d) x s = fblk C x s) /\
  (forall o, 0 <= o < MAXFILE * BSIZE -> byte_at (zupd C a d) x o = byte_at C x o).
Proof.
  intros Hok Ha Hs Hd. pose proof Ha as [D1 D2 D3 D4 D5 D6]. set (C' := zupd C a d).
  assert (ind x <> a) as Hi by exact (Hs MAXFILE is_slot_ind).
  assert (forall s, fblk C' x s = fblk C x s) as Ef by (intros s; unfold fblk, C'; by rewrite zupd_ne).
  assert (forall m, 0 <= m < sb_size sb -> in_use C' sb m = in_use C sb m) as Hiu.
  { intros m Hm. unfold in_use, C'. rewrite zupd_ne; [done|by apply D4]. }
  destruct Hok as [O1 O2 O3 O4 O5]. split; [split|split].
  - destruct O1 as [P1 P2 P3 P4 P5 P6]. split; try done.
    + intros b Hb. unfold C'. rewrite zupd_ne by (by apply D4). by apply P5.
    + intros b Hb Hf. rewrite Hiu in Hf by done. by apply P6.
  - rewrite Hiu; [done|lia].
  - done.
  - intros s Hsl. rewrite Ef. intros Hne. destruct (O4 s Hsl Hne) as [Q1 Q2 Q3 Q4 Q5 Q6]. split; try done.
    + by rewrite Hiu by lia.
    + unfold C'. rewrite zupd_ne; [done|by apply Hs].
  - intros s s' Hsl Hsl'. rewrite !Ef. by apply O5.
  - done.
  - intros o Ho. unfold byte_at. rewrite Ef. destruct (fblk C x (o / BSIZE) =? 0); [done|].
    unfold C'. rewrite zupd_ne; [done|]. apply Hs. split; [apply Z.div_pos; [lia|done]|].
    assert (o / BSIZE < MAXFILE) by (apply Z.div_lt_upper_bound; [done|lia]). lia.
Qed.

(** The block of the inode: allocated, and not one of the file's own. *)
Record inode_block (sb : superblock) (lg : log) (C : Z -> list Z) (H : list (Z * nat)) (x : inode) : Prop := {
  ib_data : data_block sb lg C H (IBLOCK (i_inum x) sb);
  ib_other : forall s, is_slot s -> fblk C x s <> IBLOCK (i_inum x) sb;
}.

Section iupdate.
Context `{Dr : Disk} {DR : DiskReads Dr} (sb : superblock) (ip : nat) (p : nat) (pr : proc).

(** The blocks after the inode has been stored. *)
Definition stored (C : Z -> list Z) (x : inode) : Z -> list Z :=
  zupd C (IBLOCK (i_inum x) sb) (dinode_put (C (IBLOCK (i_inum x) sb)) (dinode_off (i_inum x)) (to_dinode x)).

Lemma iupdate_run lg k C D H x e :
  on_file sb ip p pr lg k C D H x -> inode_block sb lg C H x -> (usage lg H < HEAD)%nat -> log_room lg 1 ->
  exists k', iupdate ip (W k e) = Ret tt (W k' e) /\
    on_file sb ip p pr (log_add lg (IBLOCK (i_inum x) sb)) k' (stored C x) D H x /\
    cost H 1 lg (log_add lg (IBLOCK (i_inum x) sb)) /\ same_fs k k'.
Proof.
  intros [Ht Hf Hsb Hip Hdev] [Hd Ho] Hu Hroom. set (ib := IBLOCK (i_inum x) sb) in *.
  pose proof (bo_size _ _ _ _ (fo_bitmap _ _ _ _ _ Hf)) as Hs.
  assert (0 <= ib < 2 ^ 31) as Hr by (pose proof (db_range _ _ _ _ _ Hd); lia).
  destruct (tx_bread Ht ib e (db_held _ _ _ _ _ Hd) Hu) as (b & k1 & E1 & T1 & S1).
  assert ((ib, b) ∈ (ib, b) :: H) as Hin by apply list_elem_of_here.
  destruct (same_fs_itable _ _ S1) as [Eit1 _]. assert (k_itable k1 !! ip = Some x) as Hip1 by congruence.
  destruct (tx_modify _ _ _ _ _ _ _ ib b (fun d => dinode_put d (dinode_off (i_inum x)) (to_dinode x)) e T1 Hin)
    as (k2 & E2 & T2 & S2).
  destruct (tx_log_write T2 ib b e Hin (db_log _ _ _ _ _ Hd) Hr Hroom) as (k3 & E3 & T3 & S3).
  destruct (log_added lg ib (tx_ok _ _ _ _ _ _ _ Ht) (db_log _ _ _ _ _ Hd) Hr Hroom) as [_ Hadd].
  destruct (tx_brelse _ _ _ _ _ _ _ ib b e T3) as (k4 & E4 & T4 & S4); [right; by rewrite Hadd, Z.eqb_refl, orb_true_r|].
  assert (same_fs k k4) as S5 by (by rewrite S1, S2, S3, S4). destruct (same_fs_itable _ _ S5) as [Eit Esb].
  assert (cost H 1 lg (log_add lg ib)) as Hco by (apply log_add_cost; [apply Ht|apply Hd|done|done]).
  exists k4. split_and!; [|split|done|done].
  - unfold iupdate. rewrite (bind_Ret _ _ _ _ _ (inode_get_eq _ _ _ _ Hip)), bind_kget, Hdev. simpl wk. rewrite Hsb.
    fold ib. rewrite (bind_Ret _ _ _ _ _ E1), (bind_Ret _ _ _ _ _ (inode_get_eq _ _ _ _ Hip1)).
    by rewrite (bind_Ret _ _ _ _ _ E2), (bind_Ret _ _ _ _ _ E3).
  - exact T4.
  - apply (file_ok_log sb lg); [apply Hco|]. apply (file_other sb lg C H x ib); try done.
    pose proof (dinode_off_range (i_inum x)) as [R1 R2]. pose proof (db_len _ _ _ _ _ Hd) as Hl.
    assert (length (d_addrs (to_dinode x)) = Z.to_nat (NDIRECT + 1)) as Ha by apply (fo_addrs _ _ _ _ _ Hf).
    assert (Z.of_nat (length (C ib)) = BSIZE) as El by (rewrite Hl; by vm_compute).
    fold ib. rewrite dinode_put_eq by (done || lia). pose proof (dinode_bytes_length _ Ha) as Hb.
    rewrite length_put_bytes by lia. done.
  - congruence.
  - congruence.
  - done.
Qed.
End iupdate.

(** The file's inode block after a write to the file. *)
Lemma inode_block_wrote sb lg lg' C H x C' x' off bs :
  inode_block sb lg C H x -> wrote sb C x C' x' off bs -> (forall m, in_log lg' m <-> in_log lg m) ->
  inode_block sb lg' C' H x' /\ C' (IBLOCK (i_inum x) sb) = C (IBLOCK (i_inum x) sb) /\ i_inum x' = i_inum x.
Proof.
  intros [Hd Ho] Hw Hl. pose proof Hd as [D1 D2 D3 D4 D5 D6].
  assert (i_inum x' = i_inum x) as En by (rewrite (wr_inode _ _ _ _ _ _ _ Hw); by destruct x).
  assert (C' (IBLOCK (i_inum x) sb) = C (IBLOCK (i_inum x) sb)) as Ec by (by apply (wr_frame _ _ _ _ _ _ _ Hw)).
  split; [|done]. split; rewrite En.
  - split; try done.
    + apply (wr_used _ _ _ _ _ _ _ Hw); [lia|done].
    + by rewrite Hl.
    + by rewrite Ec.
  - intros s Hs E. destruct (decide (fblk C' x' s = fblk C x s)) as [Es|Hne]; [apply (Ho s Hs); congruence|].
    destruct (wr_fresh _ _ _ _ _ _ _ Hw s Hs Hne) as (_ & _ & Hf). congruence.
Qed.

Lemma wrote_full sb C x C' x' off bs v :
  wrote sb C x C' x' off bs -> full C x -> 0 <= off <= i_size x -> off + Z.of_nat (length bs) <= MAXFILE * BSIZE ->
  v = Z.max (i_size x) (off + Z.of_nat (length bs)) -> full C' (set_i_size v x').
Proof.
  intros Hw [Hs Hf] Ho Hm ->. split; [simpl; lia|]. intros bn Hbn Hlt.
  change (fblk C' (set_i_size ?v x') bn) with (fblk C' x' bn). simpl in Hlt. assert (0 < BSIZE) as HB by done.
  assert (is_slot bn) as Hsl.
  { split; [done|]. assert (bn < MAXFILE) by nia. lia. }
  destruct (decide (bn * BSIZE < i_size x)) as [H|H].
  - pose proof (Hf bn Hbn H) as H0. by rewrite (wr_keep _ _ _ _ _ _ _ Hw).
  - pose proof (wr_mapped _ _ _ _ _ _ _ Hw (bn * BSIZE) ltac:(lia)) as H0. rewrite Z.div_mul in H0 by lia. done.
Qed.

Section writei_run.
Context `{Dr : Disk} {DR : DiskReads Dr} (sb : superblock) (ip : nat) (p : nat) (pr : proc).

(** What [writei] has done to the blocks and to the inode. *)
Record written (C : Z -> list Z) (x : inode) (off : Z) (bs : list Z) (C' : Z -> list Z) (x' : inode) : Prop := {
  wn_bytes : forall o, 0 <= o < MAXFILE * BSIZE ->
    byte_at C' x' o = if decide (off <= o < off + Z.of_nat (length bs))
                      then default 0 (bs !! Z.to_nat (o - off)) else byte_at C x o;
  wn_size : i_size x' = Z.max (i_size x) (off + Z.of_nat (length bs));
  wn_inode : x' = set_i_size (i_size x') (set_i_addrs (i_addrs x') x);
  wn_full : full C x -> full C' x';
  wn_disk : dinode_ok (to_dinode x) ->
    dinode_get (C' (IBLOCK (i_inum x) sb)) (dinode_off (i_inum x)) = to_dinode x';
  wn_frame : forall m, 0 < m < sb_size sb -> in_use C sb m = true -> not_bitmap sb m ->
    (forall s, is_slot s -> fblk C x s <> m) -> m <> IBLOCK (i_inum x) sb -> C' m = C m;
  wn_used : forall m, 0 <= m < sb_size sb -> in_use C sb m = true -> in_use C' sb m = true;
  wn_fresh : forall s, is_slot s -> fblk C' x' s <> fblk C x s ->
    fblk C x s = 0 /\ 0 < fblk C' x' s < sb_size sb /\ in_use C sb (fblk C' x' s) = false;
  wn_new : forall m, 0 < m < sb_size sb -> in_use C' sb m = true ->
    in_use C sb m = true \/ exists s, is_slot s /\ fblk C x s = 0 /\ fblk C' x' s = m;
  wn_iblock : C' (IBLOCK (i_inum x) sb) =
    dinode_put (C (IBLOCK (i_inum x) sb)) (dinode_off (i_inum x)) (to_dinode x');
}.

Lemma writei_run src lg k C D H x off bs e :
  on_file sb ip p pr lg k C D H x -> src_gives p pr (k_mem k) src bs -> inode_block sb lg C H x ->
  0 <= off <= i_size x -> off + Z.of_nat (length bs) <= MAXFILE * BSIZE ->
  (Z.to_nat (6 * rounds off (Z.of_nat (length bs)) + 1) + usage lg H < HEAD)%nat ->
  log_room lg (6 * rounds off (Z.of_nat (length bs)) + 1) ->
  (exists lg' k' C' x', writei ip src off (Z.of_nat (length bs)) (W k e) = Ret (Z.of_nat (length bs)) (W k' e) /\
     on_file sb ip p pr lg' k' C' D H x' /\ inode_block sb lg' C' H x' /\ written C x off bs C' x' /\
     cost H (Z.to_nat (6 * rounds off (Z.of_nat (length bs)) + 1)) lg lg' /\ same_but ip k k') \/
  (out_of_blocks sb C x off bs /\
   writei ip src off (Z.of_nat (length bs)) (W k e) = Panic "balloc: out of blocks").
Proof.
  set (n := Z.of_nat (length bs)). intros Hof Hsrc Hib Ho Hmax Hu Hroom.
  assert (MAXFILE * BSIZE < 2 ^ 31) as HM by done. assert (0 < BSIZE) as HB by done.
  assert (0 <= rounds off n) as Hr0.
  { unfold rounds. pose proof (Z.mod_pos_bound off BSIZE HB). apply Z.div_pos; lia. }
  unfold writei. rewrite (bind_Ret _ _ _ _ _ (inode_get_eq _ _ _ _ (of_ip _ _ _ _ _ _ _ _ _ _ Hof))).
  rewrite u32_small by lia. rewrite (proj2 (Z.ltb_ge (i_size x) off)), (proj2 (Z.ltb_ge (off + n) off)) by lia. cbn [orb].
  rewrite (proj2 (Z.ltb_ge (MAXFILE * BSIZE) (off + n))) by lia.
  destruct (writei_loop sb ip p pr D H n off src bs e (rw_fuel n) lg k C x 0 Hof Hsrc)
    as [(lg1 & k1 & C1 & x1 & E1 & F1 & W1 & Co1 & S1)|[Hout E]]; try lia.
  { unfold rw_fuel. lia. }
  { rewrite Z.add_0_r, Z.sub_0_r. case_decide; [apply rounds_fuel; lia|unfold rw_fuel; lia]. }
  { rewrite Z.add_0_r, Z.sub_0_r. case_decide; lia. }
  { rewrite Z.add_0_r, Z.sub_0_r. unfold log_room in *. case_decide; lia. }
  2:{ right. rewrite Z.add_0_r in *. split; [done|by apply bind_Panic]. }
  rewrite Z.add_0_r, ?Z.sub_0_r in *. rewrite (bind_Ret _ _ _ _ _ E1).
  pose proof (of_ip _ _ _ _ _ _ _ _ _ _ F1) as Hip1. rewrite (bind_Ret _ _ _ _ _ (inode_get_eq _ _ _ _ Hip1)). cbn [fst snd].
  assert (i_size x1 = i_size x) as Esz by (rewrite (wr_inode _ _ _ _ _ _ _ W1); by destruct x).
  set (x2 := set_i_size (Z.max (i_size x) (off + n)) x1). set (k2 := put_inode ip x2 k1).
  assert (when (i_size x1 <? off + n) (inode_mod ip (set_i_size (off + n))) (W k1 e) = Ret tt (W k2 e)) as E2.
  { rewrite Esz. destruct (Z.ltb_spec (i_size x) (off + n)) as [Hlt|Hge]; unfold when.
    - rewrite (inode_mod_eq _ _ _ _ _ Hip1). unfold k2, x2. by rewrite Z.max_r by lia.
    - unfold ret, k2, x2. rewrite Z.max_l by lia. rewrite <- Esz. unfold put_inode.
      rewrite list_insert_id; [by destruct k1|]. rewrite Hip1. by destruct x1. }
  rewrite (bind_Ret _ _ _ _ _ E2).
  assert (on_file sb ip p pr lg1 k2 C1 D H x2) as F2.
  { destruct F1 as [Q1 Q2 Q3 Q4 Q5]. split; [by apply tx_put_inode| |done|by eapply put_inode_lookup|done].
    by destruct Q2. }
  destruct (inode_block_wrote sb lg lg1 C H x C1 x1 off bs Hib W1 (co_in _ _ _ _ Co1)) as (Hib1 & Ec1 & En1).
  assert (inode_block sb lg1 C1 H x2) as Hib2 by (by destruct Hib1).
  pose proof (co_usage _ _ _ _ Co1) as Hu1.
  set (R := if decide (0 < n) then rounds off n else 0) in *.
  assert (0 <= R <= rounds off n) as HR by (unfold R; case_decide; lia). clearbody R.
  destruct (iupdate_run sb ip p pr lg1 k2 C1 D H x2 e F2 Hib2) as (k3 & E3 & F3 & Co3 & S3); [lia| |].
  { eapply cost_room; [exact Co1|]. unfold log_room in *. lia. }
  left. exists (log_add lg1 (IBLOCK (i_inum x2) sb)), k3, (stored sb C1 x2), x2.
  assert (i_inum x2 = i_inum x) as En2 by exact En1.
  pose proof Hib2 as [Hd2 Ho2]. rewrite En2 in Hd2, Ho2.
  assert (Z.of_nat (length (C1 (IBLOCK (i_inum x) sb))) = BSIZE) as El by (rewrite (db_len _ _ _ _ _ Hd2); by vm_compute).
  pose proof (dinode_off_range (i_inum x)) as [R1 R2].
  assert (length (d_addrs (to_dinode x2)) = Z.to_nat (NDIRECT + 1)) as Ha by apply (fo_addrs _ _ _ _ _ (of_file _ _ _ _ _ _ _ _ _ _ F2)).
  set (d := dinode_put (C1 (IBLOCK (i_inum x) sb)) (dinode_off (i_inum x)) (to_dinode x2)).
  assert (stored sb C1 x2 = zupd C1 (IBLOCK (i_inum x) sb) d) as Est by (unfold stored, d; by rewrite En2).
  assert (length d = Z.to_nat BSIZE) as Eld.
  { unfold d. rewrite dinode_put_eq by (done || lia). pose proof (dinode_bytes_length _ Ha).
    rewrite length_put_bytes by lia. apply Hd2. }
  destruct (file_other sb lg1 C1 H x2 _ d (of_file _ _ _ _ _ _ _ _ _ _ F2) Hd2 Ho2 Eld) as (O1 & O2 & O3).
  split_and!.
  - rewrite (bind_Ret _ _ _ _ _ E3). rewrite s32_small by lia. done.
  - exact F3.
  - rewrite Est, En2. split; rewrite En2.
    + destruct Hd2 as [Q1 Q2 Q3 Q4 Q5 Q6]. split; try done.
      * unfold in_use. rewrite zupd_ne by (apply Q4; lia). exact Q2.
      * by rewrite log_add_in.
      * by rewrite zupd_eq.
    + intros s Hs. rewrite O2. by apply Ho2.
  - rewrite Est. split.
    + intros o Hor. rewrite O3 by done. exact (wr_bytes _ _ _ _ _ _ _ W1 o Hor).
    + done.
    + unfold x2. rewrite (wr_inode _ _ _ _ _ _ _ W1). by destruct x.
    + intros Hfull. pose proof (wrote_full sb C x C1 x1 off bs _ W1 Hfull Ho Hmax eq_refl) as [Q1 Q2].
      split; [done|]. intros bn Hb Hlt. rewrite O2. by apply Q2.
    + intros Hdi. rewrite zupd_eq. unfold d. apply dinode_get_put; [|done|lia].
      pose proof (file_ok_addrs _ _ _ _ _ (of_file _ _ _ _ _ _ _ _ _ _ F2)) as Hfa.
      assert (to_dinode x2 = mkDinode (i_type x) (i_major x) (i_minor x) (i_nlink x) (i_size x2) (i_addrs x2)) as Etd.
      { unfold to_dinode, x2. rewrite (wr_inode _ _ _ _ _ _ _ W1). by destruct x. }
      rewrite Etd. destruct Hdi as [Q1 Q2 Q3 Q4 Q5 Q6 Q7]. split; try done. simpl in *. lia.
    + intros m Hm Hmu Hb Hs Hne. rewrite zupd_ne by done. by apply (wr_frame _ _ _ _ _ _ _ W1).
    + intros m Hm Hmu. unfold in_use. rewrite zupd_ne by (by apply (db_bitmap _ _ _ _ _ Hd2)).
      by apply (wr_used _ _ _ _ _ _ _ W1).
    + intros s Hs. rewrite O2. by apply (wr_fresh _ _ _ _ _ _ _ W1).
    + intros m Hm Hmu. unfold in_use in Hmu. rewrite zupd_ne in Hmu by (apply (db_bitmap _ _ _ _ _ Hd2); lia).
      destruct (wr_new _ _ _ _ _ _ _ W1 m Hm Hmu) as [|(s & Hs & Hz & E)]; [by left|right].
      exists s. by rewrite O2.
    + rewrite zupd_eq. unfold d. by rewrite Ec1.
  - eapply cost_le; [exact (cost_trans H _ 1 _ _ _ Co1 Co3)|]. lia.
  - eapply same_but_trans; [exact S1|]. exists x2. exact S3.
Qed.
End writei_run.

Lemma written_bytes sb C x off bs C' x' :
  written sb C x off bs C' x' -> 0 <= off -> off + Z.of_nat (length bs) <= MAXFILE * BSIZE ->
  file_bytes C' x' off (Z.of_nat (length bs)) = bs.
Proof.
  intros Hw Ho Hm. apply list_eq. intros i. destruct (decide (i < length bs)%nat) as [Hi|Hi].
  - rewrite file_bytes_lookup, (wn_bytes _ _ _ _ _ _ _ Hw) by lia. rewrite decide_True by lia.
    replace (Z.to_nat (off + Z.of_nat i - off)) with i by lia. destruct (bs !! i) eqn:E; [done|].
    apply lookup_ge_None in E. lia.
  - rewrite !lookup_ge_None_2; [done|lia|]. pose proof (length_file_bytes C' x' off (Z.of_nat (length bs)) ltac:(lia)). lia.
Qed.

(** ** Properties *)

(** C2: files hold what is written to them.  [writei] at an offset up to the
    file's size, inside a transaction with room for it, from kernel memory or
    from pages that the process has in memory, returns the number of bytes and
    stores them there ([written]): no other byte of the file changes; the file
    grows as needed, by zeroed blocks that were free; of the inode only the
    size and the addresses change; the inode's place in its block holds the
    inode in memory, and the rest of that block is as before; the bitmap
    changes in the new blocks alone, and no other block that is in use changes.
    Of the kernel's state only the cache, the log and the inode in memory
    change, and sleeping processes may be woken ([same_but]).  [readi] then
    returns the bytes written.  [writei] panics only when a block must be
    allocated and the disk is full. *)
Theorem writei_readi_roundtrip `{Dr : Disk} {DR : DiskReads Dr} `{L : Layout} `{!LayoutOk L} sb ip p pr lg k C D H x src off bs e :
  on_file sb ip p pr lg k C D H x -> inode_block sb lg C H x -> full C x -> dinode_ok (to_dinode x) ->
  src_holds pr (k_mem k) src bs ->
  0 <= off <= i_size x -> let n := Z.of_nat (length bs) in off + n <= MAXFILE * BSIZE ->
  (Z.to_nat (6 * rounds off n + 1) + usage lg H < HEAD)%nat -> log_room lg (6 * rounds off n + 1) ->
  (exists lg' k' C' x', writei ip src off n (W k e) = Ret n (W k' e) /\
     on_file sb ip p pr lg' k' C' D H x' /\ full C' x' /\ written sb C x off bs C' x' /\ same_but ip k k' /\
     dinode_get (C' (IBLOCK (i_inum x) sb)) (dinode_off (i_inum x)) = to_dinode x' /\
     exists k'', readi ip DLocal off n (W k' e) = Ret (n, bs) (W k'' e)) \/
  (out_of_blocks sb C x off bs /\ writei ip src off n (W k e) = Panic "balloc: out of blocks").
Proof.
  intros Hof Hib Hfull Hdi Hsrc Ho n Hm Hu Hroom. assert (MAXFILE * BSIZE < 2 ^ 31) by done.
  destruct (writei_run sb ip p pr src lg k C D H x off bs e Hof (holds_gives p pr _ _ _ Hsrc) Hib Ho Hm Hu Hroom)
    as [(lg' & k' & C' & x' & E & F & I & Wn & Co & S)|R]; [left|by right].
  pose proof (wn_full _ _ _ _ _ _ _ Wn Hfull) as Hfull'. pose proof (wn_size _ _ _ _ _ _ _ Wn) as Hsz. fold n in Hsz.
  pose proof (co_usage _ _ _ _ Co) as Hu'. fold n in Hu'.
  destruct (readi_run sb ip p pr DLocal lg' k' C' D H x' off n e F) as (k'' & Er & _); try done; try lia.
  exists lg', k', C', x'. split_and!; try done; [by apply (wn_disk _ _ _ _ _ _ _ Wn)|].
  exists k''. rewrite Er. rewrite Z.min_l by lia. unfold n. by rewrite (written_bytes sb C x off bs C' x') by (done || lia).
Qed.

(** Block 50 is the only block of the file of inode 1; the inodes are in block
    60; the bitmap, block 40, says that all 1000 blocks are in use. *)
Definition sample_file_sb : superblock := mkSuperblock FSMAGIC 1000 0 0 0 0 60 40.
Definition sample_file (type size : Z) : inode :=
  mkInode ROOTDEV 1 1 (mkSleeplock 0 0) 1 type 0 0 1 size (50 :: replicate 12 0).

Lemma sample_fblk C t n s : is_slot s -> fblk C (sample_file t n) s = if s =? 0 then 50 else 0.
Proof.
  intros [Hs _]. unfold fblk. destruct (Z.ltb_spec s NDIRECT) as [Hlt|Hge].
  - unfold NDIRECT in Hlt. destruct (Z.eqb_spec s 0) as [->|Hne]; [done|].
    assert (exists i, Z.to_nat s = S i /\ (i < 12)%nat) as (i & -> & Hi) by (exists (Z.to_nat s - 1)%nat; lia).
    change (default 0 (replicate 12 0 !! i) = 0). by rewrite (lookup_replicate_2 12 0 i Hi).
  - unfold NDIRECT in Hge. rewrite (proj2 (Z.eqb_neq s 0)) by lia. by destruct (s =? MAXFILE).
Qed.

Lemma sample_data_block lg a :
  (forall m, in_log lg m <-> in_log sample_log m) -> a = 50 \/ a = 60 ->
  data_block sample_file_sb lg (zupd sample_disk 40 full_bitmap) [] a.
Proof.
  intros Hl Ha. split.
  - simpl. lia.
  - apply full_in_use. lia.
  - rewrite Hl. unfold in_log. simpl. lia.
  - intros b Hb. change (BBLOCK b sample_file_sb) with (BBLOCK b bfree_sb). simpl in Hb.
    rewrite (proj2 (full_in_use b Hb)). lia.
  - apply not_elem_of_nil.
  - rewrite zupd_ne by lia. by destruct Ha as [-> | ->]; vm_compute.
Qed.

Lemma sample_on_file t n :
  exists k, on_file sample_file_sb 0 1 sample_bproc (log_add sample_log 40) k
    (zupd sample_disk 40 full_bitmap) sample_disk [] (sample_file t n).
Proof.
  destruct (sample_tx_40 sample_file_sb full_bitmap) as (k & Ht & Hsb).
  exists (set_k_itable [sample_file t n] k).
  assert (forall m, in_log (log_add sample_log 40) m <-> in_log sample_log m) as Hl by (intros m; apply log_add_in).
  split; [| |done|done|done].
  - destruct Ht as [[Hc [l Hi] ? ? ? ? ? ? ?] Hok Hcl Hnd Hh]. split; try done.
    + split; try done; [by destruct Hc|exists l; by destruct Hi].
    + intros m b Hin. by apply elem_of_nil in Hin.
  - split.
    + split; try (intros b Hb; change (BBLOCK b sample_file_sb) with (BBLOCK b bfree_sb); simpl in Hb;
        rewrite (proj2 (full_in_use b Hb))).
      * simpl. lia.
      * simpl. by vm_compute.
      * rewrite Hl. unfold in_log. simpl. lia.
      * apply not_elem_of_nil.
      * by rewrite zupd_eq.
      * intros b Hb Hf. simpl in Hb. change (in_use ?c sample_file_sb b) with (in_use c bfree_sb b) in Hf.
        by rewrite (proj1 (full_in_use b Hb)) in Hf.
    + apply full_in_use. lia.
    + done.
    + intros s Hs. rewrite sample_fblk by done. destruct (s =? 0); [|done]. intros _. apply sample_data_block; [done|by left].
    + intros s s' Hs Hs'. rewrite !sample_fblk by done.
      destruct (Z.eqb_spec s 0), (Z.eqb_spec s' 0); intros; congruence.
Qed.

Lemma sample_inode_block t n :
  inode_block sample_file_sb (log_add sample_log 40) (zupd sample_disk 40 full_bitmap) [] (sample_file t n).
Proof.
  split; [apply sample_data_block; [intros m; apply log_add_in|by right]|].
  intros s Hs. rewrite sample_fblk by done. destruct (s =? 0); done.
Qed.

Lemma sample_full C t n : 0 <= n <= BSIZE -> full C (sample_file t n).
Proof.
  intros Hn. unfold BSIZE in Hn. assert (BSIZE <= MAXFILE * BSIZE) as Hm by done. unfold BSIZE at 1 in Hm.
  split; [simpl; lia|]. intros bn Hb Hlt. simpl in Hlt. unfold BSIZE in Hlt.
  replace bn with 0 by lia. by rewrite sample_fblk.
Qed.

Lemma writei_readi_roundtrip_witness :
  exists k k' k'', writei (D := sync_disk) 0 (SLocal [7; 8; 9]) 2 3 (W k []) = Ret 3 (W k' []) /\
    readi (D := sync_disk) 0 DLocal 2 3 (W k' []) = Ret (3, [7; 8; 9]) (W k'' []).
Proof.
  destruct (sample_on_file T_FILE 10) as (k & Hof).
  destruct (writei_readi_roundtrip (Dr := sync_disk) (L := sample_layout) (LayoutOk0 := sample_layout_ok) _ _ _ _ _ _ _ _ _ _ (SLocal [7; 8; 9]) 2 [7; 8; 9] [] Hof)
    as [(lg' & k' & C' & x' & E & _ & _ & _ & _ & _ & k'' & Er)|[[(o & Ho & Hz) _] _]].
  - apply sample_inode_block.
  - by apply sample_full.
  - split; simpl; try lia; try done. repeat constructor; done.
  - reflexivity.
  - simpl. lia.
  - by vm_compute.
  - vm_compute. lia.
  - by vm_compute.
  - exists k, k', k''. split; [exact E|exact Er].
  - exfalso. simpl in Ho. assert (o / BSIZE = 0) as Eo by (apply Z.div_small; unfold BSIZE; lia).
    by rewrite Eo, sample_fblk in Hz.
Defined.
