(* ===== verification/Dir.v ===== *)
(** * Directories

    [dirlookup] and [dirlink] of fs.c over the contents of the directory's
    file: an array of entries, of which those with inode number 0 are free. *)

From Stdlib Require Import ZArith Lia.
From stdpp Require Import base gmap list strings numbers.
From S2P Require Import Prelude Riscv State Klib Sched Usercopy Bio Log Tx Fs Balloc Inode.

(** ** The entries *)

(** Entry [i] of the directory. *)
Definition entry (C : Z -> list Z) (x : inode) (i : Z) : list Z := file_bytes C x (sizeof_dirent * i) sizeof_dirent.

Definition is_free (de : list Z) : bool := dirent_inum de =? 0.
Definition has_name (name de : list Z) : bool := negb (is_free de) && (namecmp name (dirent_name de) =? 0).

(** The first index from [i] on, of [n], with the property. *)
Fixpoint first_index (f : Z -> bool) (i : Z) (n : nat) : option Z :=
  match n with
  | O => None
  | S n' => if f i then Some i else first_index f (i + 1) n'
  end.

(** A directory: a whole number of entries and no holes. *)
Record dir_ok (C : Z -> list Z) (x : inode) : Prop := {
  dk_type : i_type x = T_DIR;
  dk_full : full C x;
  dk_size : i_size x mod sizeof_dirent = 0;
}.

Definition nentries (x : inode) : Z := i_size x / sizeof_dirent.

Lemma first_index_spec f n : forall i,
  match first_index f i n with
  | Some j => i <= j < i + Z.of_nat n /\ f j = true /\ forall h, i <= h < j -> f h = false
  | None => forall h, i <= h < i + Z.of_nat n -> f h = false
  end.
Proof.
  induction n as [|n IH]; intros i; simpl first_index; [intros h Hh; lia|].
  destruct (f i) eqn:E; [split; [lia|split; [done|intros h Hh; lia]]|].
  specialize (IH (i + 1)). destruct (first_index f (i + 1) n) as [j|].
  - destruct IH as (H1 & H2 & H3). split; [lia|]. split; [done|]. intros h Hh.
    destruct (decide (h = i)) as [->|]; [done|apply H3; lia].
  - intros h Hh. destruct (decide (h = i)) as [->|]; [done|apply IH; lia].
Qed.

Lemma dir_size C x : dir_ok C x -> i_size x = sizeof_dirent * nentries x /\ 0 <= nentries x.
Proof.
  intros [_ [Hs _] Hm]. assert (0 < sizeof_dirent) as H0 by done. unfold nentries.
  pose proof (Z.div_mod (i_size x) sizeof_dirent ltac:(lia)). split; [lia|]. apply Z.div_pos; lia.
Qed.

Section dir.
Context `{Dr : Disk} {DR : DiskReads Dr} (sb : superblock) (dp : nat) (p : nat) (pr : proc).

(** Reading one entry. *)
Lemma read_entry lg k C D H x i e :
  on_file sb dp p pr lg k C D H x -> dir_ok C x -> (usage lg H < HEAD)%nat -> 0 <= i < nentries x ->
  exists k', readi dp DLocal (sizeof_dirent * i) sizeof_dirent (W k e) = Ret (sizeof_dirent, entry C x i) (W k' e) /\
    on_file sb dp p pr lg k' C D H x /\ same_fs k k'.
Proof.
  intros Hof Hd Hu Hi. destruct (dir_size C x Hd) as [Es En]. pose proof (dk_full _ _ Hd) as Hfull.
  assert (0 < sizeof_dirent) as H0 by done. pose proof Hfull as [Hs _]. assert (MAXFILE * BSIZE < 2 ^ 31) by done.
  assert (sizeof_dirent * i + sizeof_dirent <= i_size x) by nia.
  destruct (readi_run sb dp p pr DLocal lg k C D H x (sizeof_dirent * i) sizeof_dirent e Hof eq_refl Hu Hfull) as (k' & E & F & S); try lia.
  exists k'. rewrite Z.min_l in E by lia. done.
Qed.

(** [dirlookup] finds the first entry with the name. *)
Lemma dirlookup_run lg k C D H x name e :
  on_file sb dp p pr lg k C D H x -> dir_ok C x -> (usage lg H < HEAD)%nat ->
  exists k', dirlookup dp name (W k e) =
    match first_index (fun i => has_name name (entry C x i)) 0 (Z.to_nat (nentries x)) with
    | Some i => (let* ip := iget ROOTDEV (dirent_inum (entry C x i)) in ret (Some (ip, sizeof_dirent * i))) (W k' e)
    | None => Ret None (W k' e)
    end /\ on_file sb dp p pr lg k' C D H x /\ same_fs k k'.
Proof.
  intros Hof Hd Hu. destruct (dir_size C x Hd) as [Es En]. unfold dirlookup.
  rewrite (bind_Ret _ _ _ _ _ (inode_get_eq _ _ _ _ (of_ip _ _ _ _ _ _ _ _ _ _ Hof))), (dk_type _ _ Hd), Z.eqb_refl. cbn [negb].
  fold (nentries x). set (body := fun off : Z => _).
  enough (forall n i k0 fuel, on_file sb dp p pr lg k0 C D H x -> 0 <= i -> i + Z.of_nat n = nentries x -> (n < fuel)%nat ->
    exists k', while_ fuel body (sizeof_dirent * i) (W k0 e) =
      match first_index (fun i => has_name name (entry C x i)) i n with
      | Some i => (let* ip := iget ROOTDEV (dirent_inum (entry C x i)) in ret (Some (ip, sizeof_dirent * i))) (W k' e)
      | None => Ret None (W k' e)
      end /\ on_file sb dp p pr lg k' C D H x /\ same_fs k0 k') as Hloop.
  { destruct (Hloop (Z.to_nat (nentries x)) 0 k (S (S (Z.to_nat (nentries x)))) Hof) as (k' & E & F); [lia|lia|lia|].
    by exists k'. }
  induction n as [|n IH]; intros i k0 fuel Hof0 Hi Hn Hf; (destruct fuel as [|fuel]; [lia|]); rewrite while_S.
  - assert (body (sizeof_dirent * i) (W k0 e) = Ret (inr None) (W k0 e)) as Eb.
    { unfold body. rewrite (bind_Ret _ _ _ _ _ (inode_get_eq _ _ _ _ (of_ip _ _ _ _ _ _ _ _ _ _ Hof0))).
      rewrite (proj2 (Z.ltb_ge (sizeof_dirent * i) (i_size x))); [done|].
      rewrite Es. replace i with (nentries x) by lia. lia. }
    exists k0. by rewrite (bind_Ret _ _ _ _ _ Eb).
  - destruct (read_entry lg k0 C D H x i e Hof0 Hd Hu ltac:(lia)) as (k1 & E1 & F1 & S1).
    assert (body (sizeof_dirent * i) (W k0 e) =
      if has_name name (entry C x i)
      then (let* ip := iget ROOTDEV (dirent_inum (entry C x i)) in ret (inr (Some (ip, sizeof_dirent * i)))) (W k1 e)
      else Ret (inl (sizeof_dirent * (i + 1))) (W k1 e)) as Eb.
    { unfold body. rewrite (bind_Ret _ _ _ _ _ (inode_get_eq _ _ _ _ (of_ip _ _ _ _ _ _ _ _ _ _ Hof0))).
      assert (0 < sizeof_dirent) as H0 by done.
      rewrite (proj2 (Z.ltb_lt (sizeof_dirent * i) (i_size x))) by (rewrite Es; nia). cbn [negb].
      rewrite (bind_Ret _ _ _ _ _ E1). cbn [fst snd]. rewrite Z.eqb_refl. cbn [negb].
      rewrite (of_dev _ _ _ _ _ _ _ _ _ _ Hof0). replace (sizeof_dirent * i + sizeof_dirent) with (sizeof_dirent * (i + 1)) by lia.
      unfold has_name, is_free. destruct (dirent_inum (entry C x i) =? 0); [done|]. cbn [negb andb].
      by destruct (namecmp name (dirent_name (entry C x i)) =? 0). }
    unfold bind at 1. rewrite Eb. simpl first_index. destruct (has_name name (entry C x i)).
    + exists k1. split; [|done]. unfold bind. by destruct (iget _ _ _).
    + destruct (IH (i + 1) k1 fuel F1) as (k2 & E2 & F2 & S2); [lia|lia|lia|].
      exists k2. split; [done|]. split; [done|by rewrite S1].
Qed.

(** The offset at which [dirlink] stores the new entry. *)
Definition free_slot (C : Z -> list Z) (x : inode) : Z :=
  default (nentries x) (first_index (fun i => is_free (entry C x i)) 0 (Z.to_nat (nentries x))).

Lemma free_slot_run lg k C D H x e :
  on_file sb dp p pr lg k C D H x -> dir_ok C x -> (usage lg H < HEAD)%nat ->
  exists k', while_ (S (S (Z.to_nat (i_size x / sizeof_dirent)))) (dirlink_scan dp) 0 (W k e) =
    Ret (sizeof_dirent * free_slot C x) (W k' e) /\ on_file sb dp p pr lg k' C D H x /\ same_fs k k'.
Proof.
  intros Hof Hd Hu. destruct (dir_size C x Hd) as [Es En]. fold (nentries x).
  enough (forall n i k0 fuel, on_file sb dp p pr lg k0 C D H x -> 0 <= i -> i + Z.of_nat n = nentries x -> (n < fuel)%nat ->
    exists k', while_ fuel (dirlink_scan dp) (sizeof_dirent * i) (W k0 e) =
      Ret (sizeof_dirent * default (nentries x) (first_index (fun i => is_free (entry C x i)) i n)) (W k' e) /\
      on_file sb dp p pr lg k' C D H x /\ same_fs k0 k') as Hloop.
  { destruct (Hloop (Z.to_nat (nentries x)) 0 k (S (S (Z.to_nat (nentries x)))) Hof) as (k' & E & F); [lia|lia|lia|].
    by exists k'. }
  induction n as [|n IH]; intros i k0 fuel Hof0 Hi Hn Hf; (destruct fuel as [|fuel]; [lia|]); rewrite while_S.
  - assert (dirlink_scan dp (sizeof_dirent * i) (W k0 e) = Ret (inr (sizeof_dirent * i)) (W k0 e)) as Eb.
    { unfold dirlink_scan. rewrite (bind_Ret _ _ _ _ _ (inode_get_eq _ _ _ _ (of_ip _ _ _ _ _ _ _ _ _ _ Hof0))).
      rewrite (proj2 (Z.ltb_ge (sizeof_dirent * i) (i_size x))); [done|].
      rewrite Es. replace i with (nentries x) by lia. lia. }
    exists k0. rewrite (bind_Ret _ _ _ _ _ Eb). simpl. by replace (nentries x) with i by lia.
  - destruct (read_entry lg k0 C D H x i e Hof0 Hd Hu ltac:(lia)) as (k1 & E1 & F1 & S1).
    assert (dirlink_scan dp (sizeof_dirent * i) (W k0 e) =
      Ret (if is_free (entry C x i) then inr (sizeof_dirent * i) else inl (sizeof_dirent * (i + 1))) (W k1 e)) as Eb.
    { unfold dirlink_scan. rewrite (bind_Ret _ _ _ _ _ (inode_get_eq _ _ _ _ (of_ip _ _ _ _ _ _ _ _ _ _ Hof0))).
      assert (0 < sizeof_dirent) as H0 by done.
      rewrite (proj2 (Z.ltb_lt (sizeof_dirent * i) (i_size x))) by (rewrite Es; nia). cbn [negb].
      rewrite (bind_Ret _ _ _ _ _ E1). cbn [fst snd]. rewrite Z.eqb_refl. cbn [negb].
      replace (sizeof_dirent * i + sizeof_dirent) with (sizeof_dirent * (i + 1)) by lia.
      unfold is_free. by destruct (dirent_inum (entry C x i) =? 0). }
    rewrite (bind_Ret _ _ _ _ _ Eb). simpl first_index. destruct (is_free (entry C x i)); [by exists k1|].
    destruct (IH (i + 1) k1 fuel F1) as (k2 & E2 & F2 & S2); [lia|lia|lia|].
    exists k2. split; [done|]. split; [done|by rewrite S1].
Qed.

Lemma free_slot_range C x : 0 <= nentries x -> 0 <= free_slot C x <= nentries x.
Proof.
  intros Hn. unfold free_slot. pose proof (first_index_spec (fun i => is_free (entry C x i)) (Z.to_nat (nentries x)) 0) as Hs.
  destruct (first_index _ _ _); simpl; [|lia]. destruct Hs as (? & _). lia.
Qed.

Lemma free_slot_free C x : free_slot C x < nentries x -> dirent_inum (entry C x (free_slot C x)) = 0.
Proof.
  unfold free_slot. pose proof (first_index_spec (fun i => is_free (entry C x i)) (Z.to_nat (nentries x)) 0) as Hf.
  destruct (first_index _ _ _) as [j|]; cbn [default]; [|simpl; lia]. intros _. apply Z.eqb_eq, Hf.
Qed.
End dir.

(** ** The entry written *)

Lemma strncmp_strncpy n t : strncmp_loop n t (strncpy_loop n t) = 0.
Proof.
  revert t. induction n as [|n IH]; intros t; simpl; [done|].
  destruct (Z.eqb_spec (default 0 (head t)) 0) as [E|E].
  - rewrite E. simpl. done.
  - simpl. rewrite Z.eqb_refl. simpl. apply IH.
Qed.

Definition new_entry (inum : Z) (name : list Z) : list Z := mk_dirent inum (strncpy name DIRSIZ).

Lemma length_new_entry inum name : Z.of_nat (length (new_entry inum name)) = sizeof_dirent.
Proof. unfold new_entry, mk_dirent, strncpy. by rewrite length_app, length_le_bytes, length_strncpy_loop. Qed.

Lemma new_entry_inum inum name : 0 <= inum < 2 ^ 16 -> dirent_inum (new_entry inum name) = inum.
Proof.
  intros Hi. unfold dirent_inum, new_entry, mk_dirent, get16, get_bytes. change (Z.to_nat 0) with 0%nat. rewrite drop_0.
  change (Z.to_nat 2) with 2%nat. rewrite <- (length_le_bytes 2 inum) at 1. rewrite take_app_length, le_val_bytes.
  apply Z.mod_small. done.
Qed.

Lemma new_entry_name inum name : 0 < inum < 2 ^ 16 -> has_name name (new_entry inum name) = true.
Proof.
  intros Hi. unfold has_name, is_free. rewrite new_entry_inum by lia. rewrite (proj2 (Z.eqb_neq inum 0)) by lia. simpl.
  apply Z.eqb_eq. unfold namecmp, dirent_name, new_entry, mk_dirent, get_bytes.
  change (Z.to_nat 2) with 2%nat. rewrite <- (length_le_bytes 2 inum) at 1. rewrite drop_app_length.
  rewrite take_ge by (unfold strncpy; rewrite length_strncpy_loop; lia).
  unfold strncmp, strncpy. change (Z.to_nat (u32 DIRSIZ)) with (Z.to_nat DIRSIZ). apply strncmp_strncpy.
Qed.

(** An entry lies in one block. *)
Lemma rounds_entry i : rounds (sizeof_dirent * i) sizeof_dirent = 1.
Proof.
  unfold rounds. change BSIZE with (sizeof_dirent * 64). rewrite Z.mul_mod_distr_l by done.
  pose proof (Z.mod_pos_bound i 64 ltac:(lia)). set (r := i mod 64) in *. change sizeof_dirent with 16.
  symmetry. apply (Z.div_unique _ _ _ (16 * r + 15)); lia.
Qed.

(** Writing an entry changes that entry only. *)
Lemma written_entry sb C x slot de C' x' i :
  written sb C x (sizeof_dirent * slot) de C' x' -> Z.of_nat (length de) = sizeof_dirent ->
  0 <= i -> sizeof_dirent * (i + 1) <= MAXFILE * BSIZE -> i <> slot -> entry C' x' i = entry C x i.
Proof.
  intros Hw Hde Hi Hm Hne. assert (0 < sizeof_dirent) as H0 by done.
  apply list_eq. intros j. destruct (decide (Z.of_nat j < sizeof_dirent)) as [Hj|Hj].
  - unfold entry. rewrite !file_bytes_lookup, (wn_bytes _ _ _ _ _ _ _ Hw) by nia. rewrite Hde, decide_False by nia. done.
  - unfold entry. rewrite !lookup_ge_None_2; [done| |].
    + pose proof (length_file_bytes C x (sizeof_dirent * i) sizeof_dirent ltac:(lia)). lia.
    + pose proof (length_file_bytes C' x' (sizeof_dirent * i) sizeof_dirent ltac:(lia)). lia.
Qed.

Lemma written_dir sb C x slot de C' x' :
  written sb C x (sizeof_dirent * slot) de C' x' -> Z.of_nat (length de) = sizeof_dirent -> dir_ok C x ->
  0 <= slot <= nentries x -> dir_ok C' x' /\ nentries x' = Z.max (nentries x) (slot + 1).
Proof.
  intros Hw Hde Hd Hs. assert (0 < sizeof_dirent) as H0 by done. destruct (dir_size C x Hd) as [Es En].
  assert (i_size x' = sizeof_dirent * Z.max (nentries x) (slot + 1)) as Es'.
  { rewrite (wn_size _ _ _ _ _ _ _ Hw), Hde, Es, <- Z.mul_max_distr_nonneg_l by lia. f_equal. lia. }
  split; [split|].
  - rewrite (wn_inode _ _ _ _ _ _ _ Hw). apply Hd.
  - apply (wn_full _ _ _ _ _ _ _ Hw), Hd.
  - rewrite Es', Z.mul_comm. by apply Z.mod_mul.
  - unfold nentries at 1. rewrite Es', Z.mul_comm. by apply Z.div_mul.
Qed.

Lemma first_index_at f n i j :
  i <= j < i + Z.of_nat n -> f j = true -> (forall h, i <= h < j -> f h = false) -> first_index f i n = Some j.
Proof.
  intros Hj Ht Hf. pose proof (first_index_spec f n i) as Hs. destruct (first_index f i n) as [j'|].
  - destruct Hs as (Hj' & Ht' & Hf'). destruct (Z.lt_trichotomy j j') as [Hl|[->|Hl]]; [|done|].
    + rewrite Hf' in Ht by lia. done.
    + rewrite Hf in Ht' by lia. done.
  - rewrite Hs in Ht by lia. done.
Qed.

Section dirlink.
Context `{Dr : Disk} {DR : DiskReads Dr} (sb : superblock) (dp : nat) (p : nat) (pr : proc).

(** [dirlink] of a new name stores the entry in the first free slot. *)
Lemma dirlink_run lg k C D H x name inum e :
  on_file sb dp p pr lg k C D H x -> inode_block sb lg C H x -> dir_ok C x ->
  first_index (fun i => has_name name (entry C x i)) 0 (Z.to_nat (nentries x)) = None ->
  i_size x + sizeof_dirent <= MAXFILE * BSIZE -> (7 + usage lg H < HEAD)%nat -> log_room lg 7 ->
  let off := sizeof_dirent * free_slot C x in
  (exists lg' k' C' x', dirlink dp name inum (W k e) = Ret 0 (W k' e) /\
     on_file sb dp p pr lg' k' C' D H x' /\ inode_block sb lg' C' H x' /\
     written sb C x off (new_entry inum name) C' x' /\ cost H 7 lg lg' /\ same_but dp k k') \/
  (out_of_blocks sb C x off (new_entry inum name) /\ dirlink dp name inum (W k e) = Panic "balloc: out of blocks").
Proof.
  intros Hof Hib Hd Hnone Hmax Hu Hroom off. destruct (dir_size C x Hd) as [Es En].
  destruct (dirlookup_run sb dp p pr lg k C D H x name e Hof Hd ltac:(lia)) as (k1 & E1 & F1 & S1). rewrite Hnone in E1.
  destruct (free_slot_run sb dp p pr lg k1 C D H x e F1 Hd ltac:(lia)) as (k2 & E2 & F2 & S2). fold off in E2.
  pose proof (free_slot_range C x En) as Hs. assert (0 < sizeof_dirent) as H0 by done.
  pose proof (writei_run sb dp p pr (SLocal (new_entry inum name)) lg k2 C D H x off (new_entry inum name) e F2 (local_gives p pr (k_mem k2) _) Hib) as Hw.
  rewrite length_new_entry in Hw. unfold off in Hw. rewrite rounds_entry in Hw. fold off in Hw.
  unfold dirlink. rewrite (bind_Ret _ _ _ _ _ E1).
  rewrite (bind_Ret _ _ _ _ _ (inode_get_eq _ _ _ _ (of_ip _ _ _ _ _ _ _ _ _ _ F1))), (bind_Ret _ _ _ _ _ E2).
  fold (new_entry inum name).
  destruct Hw as [(lg' & k' & C' & x' & E & F & I & Wn & Co & S)|[Ho E]]; try done; try (unfold off; nia).
  - left. exists lg', k', C', x'. rewrite (bind_Ret _ _ _ _ _ E). split_and!; try done.
    eapply same_but_trans; [|exact S]. eapply same_fs_but; [apply Hof|by rewrite S1].
  - right. split; [done|]. by rewrite (bind_Panic _ _ _ _ E).
Qed.
End dirlink.

(** ** Properties *)

(** C10: directories hold the names linked into them.  [dirlink] of a name the
    directory does not have, with room in the transaction, stores the name and
    inode number in the first free entry, or in a new one at the end, and
    changes no other entry.  [dirlookup] of the name then returns the inode
    with that number and the offset of the entry. *)
Theorem dirlink_dirlookup `{Dr : Disk} {DR : DiskReads Dr} sb dp p pr lg k C D H x name inum e :
  on_file sb dp p pr lg k C D H x -> inode_block sb lg C H x -> dir_ok C x ->
  0 < inum < 2 ^ 16 -> (forall i, 0 <= i < nentries x -> has_name name (entry C x i) = false) ->
  i_size x + sizeof_dirent <= MAXFILE * BSIZE -> (7 + usage lg H < HEAD)%nat -> log_room lg 7 ->
  let slot := free_slot C x in
  (exists lg' k' C' x', dirlink dp name inum (W k e) = Ret 0 (W k' e) /\
     on_file sb dp p pr lg' k' C' D H x' /\ dir_ok C' x' /\ nentries x' = Z.max (nentries x) (slot + 1) /\
     (forall i, 0 <= i < nentries x -> i <> slot -> entry C' x' i = entry C x i) /\
     (slot < nentries x -> dirent_inum (entry C x slot) = 0) /\
     exists k'', dirlookup dp name (W k' e) =
       (let* ip := iget ROOTDEV inum in ret (Some (ip, sizeof_dirent * slot))) (W k'' e) /\ same_fs k' k'') \/
  (out_of_blocks sb C x (sizeof_dirent * slot) (new_entry inum name) /\
   dirlink dp name inum (W k e) = Panic "balloc: out of blocks").
Proof.
  intros Hof Hib Hd Hin Hnew Hmax Hu Hroom slot. destruct (dir_size C x Hd) as [Es En].
  assert (0 < sizeof_dirent) as H0 by done. pose proof (free_slot_range C x En) as Hs. fold slot in Hs.
  assert (first_index (fun i => has_name name (entry C x i)) 0 (Z.to_nat (nentries x)) = None) as Hnone.
  { pose proof (first_index_spec (fun i => has_name name (entry C x i)) (Z.to_nat (nentries x)) 0) as Hf.
    destruct (first_index _ _ _) as [j|]; [|done]. destruct Hf as (Hj & Ht & _). by rewrite Hnew in Ht by lia. }
  destruct (dirlink_run sb dp p pr lg k C D H x name inum e Hof Hib Hd Hnone Hmax Hu Hroom)
    as [(lg' & k' & C' & x' & E & F & I & Wn & Co & S)|R]; [left|by right]. fold slot in Wn.
  pose proof (length_new_entry inum name) as Hl. destruct (written_dir _ _ _ _ _ _ _ Wn Hl Hd Hs) as [Hd' Hn'].
  assert (forall i, 0 <= i < nentries x -> i <> slot -> entry C' x' i = entry C x i) as Hsame.
  { intros i Hi Hne. apply (written_entry _ _ _ _ _ _ _ _ Wn Hl); [lia|nia|done]. }
  assert (entry C' x' slot = new_entry inum name) as Eslot.
  { unfold entry. rewrite <- Hl at 2. apply (written_bytes _ _ _ _ _ _ _ Wn); [nia|rewrite Hl; nia]. }
  pose proof (co_usage _ _ _ _ Co).
  destruct (dirlookup_run sb dp p pr lg' k' C' D H x' name e F Hd' ltac:(lia)) as (k'' & Er & _ & Sr).
  rewrite (first_index_at _ _ _ slot) in Er; [rewrite Eslot, new_entry_inum in Er by lia|lia| |].
  - exists lg', k', C', x'. split_and!; try done; [|by exists k'']. apply free_slot_free.
  - rewrite Eslot. by apply new_entry_name.
  - intros i Hi. rewrite Hsame by lia. apply Hnew. lia.
Qed.

(** A directory with one entry, which is free. *)
Lemma sample_dir_ok : dir_ok (zupd sample_disk 40 full_bitmap) (sample_file T_DIR 16).
Proof. split; [done|by apply sample_full|done]. Qed.

Lemma sample_dir_free i : 0 <= i < nentries (sample_file T_DIR 16) ->
  is_free (entry (zupd sample_disk 40 full_bitmap) (sample_file T_DIR 16) i) = true.
Proof. intros Hi. change (nentries _) with 1 in Hi. replace i with 0 by lia. by vm_compute. Qed.

Lemma sample_slot : free_slot (zupd sample_disk 40 full_bitmap) (sample_file T_DIR 16) = 0.
Proof. by vm_compute. Qed.

Lemma dirlink_dirlookup_witness :
  exists k k' k'', dirlink (D := sync_disk) 0 [97] 7 (W k []) = Ret 0 (W k' []) /\
    dirlookup (D := sync_disk) 0 [97] (W k' []) =
      (let* ip := iget ROOTDEV 7 in ret (Some (ip, 0))) (W k'' []).
Proof.
  destruct (sample_on_file T_DIR 16) as (k & Hof).
  destruct (dirlink_dirlookup (Dr := sync_disk) _ _ _ _ _ _ _ _ _ _ [97] 7 [] Hof)
    as [(lg' & k' & C' & x' & E & _ & _ & _ & _ & _ & k'' & Er & _)|[[(o & Ho & Hz) _] _]].
  - apply sample_inode_block.
  - apply sample_dir_ok.
  - lia.
  - intros i Hi. unfold has_name. by rewrite sample_dir_free.
  - by vm_compute.
  - vm_compute. lia.
  - by vm_compute.
  - exists k, k', k''. split; [exact E|]. rewrite sample_slot in Er. exact Er.
  - exfalso. rewrite sample_slot, length_new_entry in Ho. change sizeof_dirent with 16 in Ho.
    assert (o / BSIZE = 0) as Eo by (apply Z.div_small; unfold BSIZE; lia). by rewrite Eo, sample_fblk in Hz.
Defined.
