(* ===== verification/Console.v ===== *)
(** * console.c: line editing, and the UART's interrupt handler

    The console's input ring [cons.buf] has three [uint] indices that only
    their remainder by [INPUT_BUF] matters for: [r] up to where the reader has
    consumed, [w] up to where lines are complete, [e] up to where the user has
    typed. *)

From Stdlib Require Import ZArith Lia.
From stdpp Require Import base gmap list strings numbers.
From S2P Require Import Prelude Riscv State Klib Sched Kalloc Uart Vm Usercopy.

(** ** Definitions *)

Definition CONSOLE : Z := 1.

(** [C(x)]: control-x. *)
Definition Ctrl (x : string) : Z := chr x - chr "@".

(** *** proc.c: procdump *)

(** [states[p->state]]; the array has no name for [USED]. *)
Definition state_name (s : procstate) : list Z :=
  match s with
  | UNUSED => cstr "unused"
  | USED => cstr "???"
  | SLEEPING => cstr "sleep "
  | RUNNABLE => cstr "runble"
  | RUNNING => cstr "run   "
  | ZOMBIE => cstr "zombie"
  end.

Definition procdump : K unit :=
  printf [10] [] ;;;
  for_all (Z.to_nat NPROC) 0 (fun i =>
    let* p := proc_get (Z.to_nat i) in
    if bool_decide (p_state p = UNUSED) then ret tt else
    printf (cstr "%d %s %s") [PInt (p_pid p); PStr (Some (state_name (p_state p))); PStr (Some (p_name p))] ;;;
    printf [10] []).

(** *** console.c *)

Definition consolewrite (src : source) (n : Z) : K Z :=
  let* r := for_from (Z.to_nat n) 0 (fun i =>
    let* c := either_copyin (source_add src i) 1 in
    if fst c =? -1 then ret (Some i) else
    uartputc (hd 0 (snd c)) ;;; ret None) in
  ret (match r with Some i => i | None => Z.max 0 n end).

(** [while(cons.r == cons.w)]: [Some] is an early return. *)
Definition cons_wait : K (option Z) :=
  fun w =>
    while_ (S (length (wenv w)))
      (fun _ : unit =>
         let* c := kget k_cons in
         if negb (cn_r c =? cn_w c) then ret (inr None) else
         let* p := this_proc in
         let* pr := proc_get p in
         if truth (p_killed pr) then release Lcons ;;; ret (inr (Some (-1))) else
         sleep Ccons Lcons ;;; ret (inl tt)) tt w.

(** The outer loop's turn: [inr (inl r)] returns [r] without the final
    [release], [inr (inr n)] leaves the loop with [n] bytes missing. *)
Definition consoleread_body (target : Z) : dest * Z -> K (dest * Z + (Z + Z)) :=
  fun '(dst, n) =>
    if negb (0 <? n) then ret (inr (inr n)) else
    let* early := cons_wait in
    match early with
    | Some r => ret (inr (inl r))
    | None =>
        let* cn := kget k_cons in
        let* c := nth_or_fault "cons.buf" (cn_buf cn) (cn_r cn mod INPUT_BUF) in
        cons_mod (set_cn_r (u32 (cn_r cn + 1))) ;;;
        if c =? Ctrl "D" then
          when (u32 n <? target) (cons_mod (fun cn => set_cn_r (u32 (cn_r cn - 1)) cn)) ;;;
          ret (inr (inr n))
        else
        let* r := either_copyout dst [c] in
        if r =? -1 then ret (inr (inr n)) else
        if c =? 10 then ret (inr (inr (n - 1)))
        else ret (inl (dest_add dst 1, n - 1))
    end.

Definition consoleread (dst : dest) (n : Z) : K Z :=
  let target := u32 n in
  acquire Lcons ;;;
  let* r := while_ (S (Z.to_nat n)) (consoleread_body target) (dst, n) in
  match r with
  | inl r => ret r
  | inr n => release Lcons ;;; ret (s32 (target - n))
  end.

(** [case C('U')]: each turn moves [e] towards [w]. *)
Definition kill_line : K unit :=
  fun w =>
    let cn0 := k_cons (wk w) in
    while_ (S (Z.to_nat (u32 (cn_e cn0 - cn_w cn0))))
      (fun _ : unit =>
         let* cn := kget k_cons in
         if cn_e cn =? cn_w cn then ret (inr tt) else
         let* c := nth_or_fault "cons.buf" (cn_buf cn) (u32 (cn_e cn - 1) mod INPUT_BUF) in
         if c =? 10 then ret (inr tt) else
         cons_mod (set_cn_e (u32 (cn_e cn - 1))) ;;;
         consputc BACKSPACE ;;;
         ret (inl tt)) tt w.

Definition cons_backspace : K unit :=
  let* cn := kget k_cons in
  when (negb (cn_e cn =? cn_w cn))
    (cons_mod (set_cn_e (u32 (cn_e cn - 1))) ;;;
     consputc BACKSPACE).

Definition cons_insert (c : Z) : K unit :=
  let* cn := kget k_cons in
  when (negb (c =? 0) && (u32 (cn_e cn - cn_r cn) <? INPUT_BUF))
    (let c := if c =? 13 then 10 else c in
     consputc c ;;;
     cons_mod (set_cn_buf (<[Z.to_nat (cn_e cn mod INPUT_BUF) := u8 c]> (cn_buf cn))) ;;;
     cons_mod (set_cn_e (u32 (cn_e cn + 1))) ;;;
     let* cn := kget k_cons in
     when ((c =? 10) || (c =? Ctrl "D") || (cn_e cn =? u32 (cn_r cn + INPUT_BUF)))
       (cons_mod (set_cn_w (cn_e cn)) ;;;
        wakeup Ccons)).

Definition consoleintr (c : Z) : K unit :=
  acquire Lcons ;;;
  (if c =? Ctrl "P" then procdump
   else if c =? Ctrl "U" then kill_line
   else if (c =? Ctrl "H") || (c =? 0x7f) then cons_backspace
   else cons_insert c) ;;;
  release Lcons.

Definition consoleinit : K unit :=
  initlock Lcons ;;;
  uartinit ;;;
  kmod (fun k => set_k_devsw (<[Z.to_nat CONSOLE := DevConsole]> (k_devsw k)) k).

(** *** uart.c: uartintr *)

(** Each turn takes one byte from the device. *)
Definition uartintr : K unit :=
  let* u0 := kget k_uart in
  while_ (S (length (u_in u0)))
    (fun _ : unit =>
       let* c := uartgetc in
       if c =? -1 then ret (inr tt) else
       consoleintr c ;;; ret (inl tt)) tt ;;;
  acquire Luart ;;;
  uartstart ;;;
  release Luart.
