(* ===== verification/Pipe.v ===== *)
(** * pipe.c: pipes

    A ring of [PIPESIZE] bytes with two [uint] counters of the bytes written and
    read so far, which wrap around.  [pipealloc], which also works on the file
    table, is in [File]. *)

From Stdlib Require Import ZArith Lia.
From stdpp Require Import base gmap list strings numbers.
From S2P Require Import Prelude Riscv State Klib Sched Kalloc Vm Usercopy.

(** ** Definitions *)

Section pipe.
Context `{L : Layout}.

Definition pipeclose (pi : Z) (writable : Z) : K unit :=
  acquire (Lpipe pi) ;;;
  (if truth writable
   then pipe_mod pi (set_pi_writeopen 0) ;;; wakeup (Cnread pi)
   else pipe_mod pi (set_pi_readopen 0) ;;; wakeup (Cnwrite pi)) ;;;
  let* x := pipe_get pi in
  if (pi_readopen x =? 0) && (pi_writeopen x =? 0)
  then
    release (Lpipe pi) ;;;
    kmod (fun k => set_k_pipes (delete pi (k_pipes k)) k) ;;;
    kfree pi
  else release (Lpipe pi).

(** A turn of the loop stores a byte or waits for the reader; [inr (inl r)]
    returns [r] at once, [inr (inr i)] goes on after the loop. *)
Definition pipewrite_body (pi addr n : Z) (pr : nat) (i : Z) : K (Z + (Z + Z)) :=
  if negb (i <? n) then ret (inr (inr i)) else
  let* x := pipe_get pi in
  let* p := proc_get pr in
  if (pi_readopen x =? 0) || truth (p_killed p) then
    release (Lpipe pi) ;;; ret (inr (inl (-1)))
  else if pi_nwrite x =? u32 (pi_nread x + PIPESIZE) then
    wakeup (Cnread pi) ;;;
    sleep (Cnwrite pi) (Lpipe pi) ;;;
    ret (inl i)
  else
    let* ch := copyin (p_pagetable p) (addr + i) 1 in
    if fst ch =? -1 then ret (inr (inr i)) else
    pipe_mod pi (fun x => set_pi_data
      (<[Z.to_nat (pi_nwrite x mod PIPESIZE) := hd 0 (snd ch)]> (pi_data x)) x) ;;;
    pipe_mod pi (fun x => set_pi_nwrite (u32 (pi_nwrite x + 1)) x) ;;;
    ret (inl (i + 1)).

(** Turns that wait use up the schedule, the others move [i]. *)
Definition pipewrite (pi addr n : Z) : K Z :=
  let* pr := this_proc in
  acquire (Lpipe pi) ;;;
  let* r := (fun w => while_ (S (Z.to_nat n + length (wenv w))) (pipewrite_body pi addr n pr) 0 w) in
  match r with
  | inl r => ret r
  | inr i =>
      wakeup (Cnread pi) ;;;
      release (Lpipe pi) ;;;
      ret i
  end.

(** [while(pi->nread == pi->nwrite && pi->writeopen)]: [Some] is an early return. *)
Definition pipe_wait (pi : Z) (pr : nat) : K (option Z) :=
  fun w =>
    while_ (S (length (wenv w)))
      (fun _ : unit =>
         let* x := pipe_get pi in
         if negb ((pi_nread x =? pi_nwrite x) && truth (pi_writeopen x)) then ret (inr None) else
         let* p := proc_get pr in
         if truth (p_killed p) then release (Lpipe pi) ;;; ret (inr (Some (-1))) else
         sleep (Cnread pi) (Lpipe pi) ;;; ret (inl tt)) tt w.

Definition piperead_body (pi addr : Z) (pr : nat) (i : Z) : K (option Z) :=
  let* x := pipe_get pi in
  if pi_nread x =? pi_nwrite x then ret (Some i) else
  let* ch := nth_or_fault "pi->data" (pi_data x) (pi_nread x mod PIPESIZE) in
  pipe_mod pi (fun x => set_pi_nread (u32 (pi_nread x + 1)) x) ;;;
  let* p := proc_get pr in
  let* r := copyout (p_pagetable p) (addr + i) [ch] in
  if r =? -1 then ret (Some i) else ret None.

Definition piperead (pi addr n : Z) : K Z :=
  let* pr := this_proc in
  acquire (Lpipe pi) ;;;
  let* early := pipe_wait pi pr in
  match early with
  | Some r => ret r
  | None =>
      let* r := for_from (Z.to_nat n) 0 (piperead_body pi addr pr) in
      let i := match r with Some i => i | None => Z.max 0 n end in
      wakeup (Cnwrite pi) ;;;
      release (Lpipe pi) ;;;
      ret i
  end.

End pipe.

(** ** Lemmas *)

(** *** The ring as a queue *)

(** The bytes written and not read yet, oldest first. *)
Definition pcount (x : pipe) : Z := u32 (pi_nwrite x - pi_nread x).
Definition pslot (x : pipe) (i : Z) : nat := Z.to_nat ((pi_nread x + i) mod PIPESIZE).
Definition pqueue (x : pipe) : list Z :=
  (fun i : nat => default 0 (pi_data x !! pslot x (Z.of_nat i))) <$> seq 0 (Z.to_nat (pcount x)).

Record pipe_ok (x : pipe) : Prop := {
  po_len : length (pi_data x) = Z.to_nat PIPESIZE;
  po_nread : 0 <= pi_nread x < 2 ^ 32;
  po_nwrite : 0 <= pi_nwrite x < 2 ^ 32;
  po_count : pcount x <= PIPESIZE;
}.

Lemma pcount_nonneg x : 0 <= pcount x.
Proof. unfold pcount, u32. apply Z.mod_pos_bound. lia. Qed.

Lemma pqueue_length x : Z.of_nat (length (pqueue x)) = pcount x.
Proof. unfold pqueue. rewrite length_fmap, length_seq. pose proof (pcount_nonneg x). lia. Qed.

(** The two tests of the code on the counters, which wrap around. *)
Lemma pipe_empty x : pipe_ok x -> (pi_nread x =? pi_nwrite x) = (pcount x =? 0).
Proof.
  intros [_ Hr Hw _]. unfold pcount, u32.
  destruct (Z.eqb_spec (pi_nread x) (pi_nwrite x)), (Z.eqb_spec ((pi_nwrite x - pi_nread x) mod 2 ^ 32) 0);
    try done; exfalso; Z.to_euclidean_division_equations; lia.
Qed.

Lemma pipe_full x : pipe_ok x -> (pi_nwrite x =? u32 (pi_nread x + PIPESIZE)) = (pcount x =? PIPESIZE).
Proof.
  intros [_ Hr Hw _]. unfold pcount, u32, PIPESIZE.
  destruct (Z.eqb_spec (pi_nwrite x) ((pi_nread x + 512) mod 2 ^ 32)),
    (Z.eqb_spec ((pi_nwrite x - pi_nread x) mod 2 ^ 32) 512);
    try done; exfalso; Z.to_euclidean_division_equations; lia.
Qed.

(** Writing a byte appends it to the queue. *)
Definition push (c : Z) (x : pipe) : pipe :=
  set_pi_nwrite (u32 (pi_nwrite x + 1))
    (set_pi_data (<[Z.to_nat (pi_nwrite x mod PIPESIZE) := c]> (pi_data x)) x).

Lemma push_count c x : pipe_ok x -> pcount x < PIPESIZE -> pcount (push c x) = pcount x + 1.
Proof.
  intros [_ Hr Hw _]. unfold pcount, push, u32, PIPESIZE. simpl. intros H.
  Z.to_euclidean_division_equations. lia.
Qed.

Lemma push_slot x i :
  pipe_ok x -> 0 <= i < PIPESIZE ->
  (pslot x i = Z.to_nat (pi_nwrite x mod PIPESIZE) <-> i = pcount x \/ i = pcount x - PIPESIZE).
Proof.
  intros [_ Hr Hw Hc] Hi. pose proof (pcount_nonneg x) as H0. unfold pcount, u32, pslot, PIPESIZE in *.
  pose proof (Z.mod_pos_bound (pi_nread x + i) 512 ltac:(lia)).
  pose proof (Z.mod_pos_bound (pi_nwrite x) 512 ltac:(lia)).
  rewrite Z2Nat.inj_iff by lia. Z.to_euclidean_division_equations. lia.
Qed.

Lemma push_ok c x :
  pipe_ok x -> pcount x < PIPESIZE -> pipe_ok (push c x) /\ pqueue (push c x) = pqueue x ++ [c].
Proof.
  intros Hok Hlt. pose proof (push_count c x Hok Hlt) as Hc. pose proof (pcount_nonneg x) as H0.
  pose proof Hok as [Hl Hr Hw _]. split.
  - split; [simpl; by rewrite length_insert|done| |lia].
    simpl. unfold u32. apply Z.mod_pos_bound. lia.
  - unfold pqueue at 1. rewrite Hc.
    replace (Z.to_nat (pcount x + 1)) with (S (Z.to_nat (pcount x))) by lia.
    rewrite seq_S, fmap_app. f_equal.
    + apply list_fmap_ext. intros i j Hj. apply lookup_seq in Hj as [-> Hj]. simpl.
      rewrite list_lookup_insert_ne; [done|]. intros E. symmetry in E.
      apply (push_slot x (Z.of_nat i) Hok) in E; lia.
    + simpl. f_equal. assert (pslot x (Z.of_nat (Z.to_nat (pcount x))) = Z.to_nat (pi_nwrite x mod PIPESIZE)) as E.
      { apply (push_slot x _ Hok); lia. }
      unfold pslot in E |- *. simpl. rewrite E, list_lookup_insert_eq; [done|].
      rewrite Hl. pose proof (Z.mod_pos_bound (pi_nwrite x) PIPESIZE ltac:(done)). lia.
Qed.

(** Reading a byte takes it off the front. *)
Definition pop (x : pipe) : pipe := set_pi_nread (u32 (pi_nread x + 1)) x.

Lemma pop_ok x :
  pipe_ok x -> 0 < pcount x ->
  exists c, pi_data x !! Z.to_nat (pi_nread x mod PIPESIZE) = Some c /\
    pipe_ok (pop x) /\ pqueue x = c :: pqueue (pop x).
Proof.
  intros Hok H0. pose proof Hok as [Hl Hr Hw Hc].
  pose proof (Z.mod_pos_bound (pi_nread x) PIPESIZE ltac:(done)) as Hm.
  destruct (lookup_lt_is_Some_2 (pi_data x) (Z.to_nat (pi_nread x mod PIPESIZE))) as [c Hx]; [lia|].
  assert (pcount (pop x) = pcount x - 1) as E.
  { unfold pcount, pop, u32 in *. simpl. Z.to_euclidean_division_equations. lia. }
  exists c. split; [done|]. split.
  - split; [done| |done|lia]. simpl. unfold u32. apply Z.mod_pos_bound. lia.
  - unfold pqueue. rewrite E. replace (Z.to_nat (pcount x)) with (S (Z.to_nat (pcount x - 1))) by lia.
    simpl. f_equal; [unfold pslot; by rewrite Z.add_0_r, Hx|].
    rewrite <- fmap_S_seq, <- list_fmap_compose. apply list_fmap_ext. intros i j _. unfold compose.
    assert (pslot x (Z.of_nat (S j)) = pslot (pop x) (Z.of_nat j)) as ->; [|done].
    unfold pslot, pop, u32, PIPESIZE. simpl. f_equal. Z.to_euclidean_division_equations. lia.
Qed.

(** *** The writer and its readers *)

(** What happens to a full pipe while the writer sleeps: the readers take the
    first [ev_take] bytes off the queue, other writers add [ev_add], and at the
    end the writer has to give up, or not. *)
Record event : Type := mkEvent { ev_take : nat; ev_add : list Z; ev_gone : bool }.

(** What a writer promises: all bytes are in the queue; or it has given up; or
    it waits for room. *)
Inductive sending (A : Type) : Type :=
  | Sent (gone : bool) (q : list Z) (rest : list (event * A))
  | Refused (q : list Z) (rest : list (event * A))
  | Blocked (q : list Z).
Arguments Sent {A}.
Arguments Refused {A}.
Arguments Blocked {A}.

(** A writer of the bytes [data] to a bounded queue [q].  It fills the queue, and
    waits when there is something left to do and no room.  [bad] is for a writer
    that would go on to a byte it cannot read: it waits for room for that one
    too, and then stops. *)
Fixpoint send {A} (bad gone : bool) (q data : list Z) (evs : list (event * A)) : sending A :=
  if bool_decide (data = []) && negb bad then Sent gone q evs
  else if gone then Refused q evs
  else
    let n := (Z.to_nat PIPESIZE - length q)%nat in
    let q := q ++ take n data in
    let data := drop n data in
    if bool_decide (data = []) && (negb bad || (length q <? Z.to_nat PIPESIZE)%nat) then Sent gone q evs
    else match evs with
    | [] => Blocked q
    | (ev, _) :: evs => send bad (ev_gone ev) (drop (ev_take ev) q ++ ev_add ev) data evs
    end.

(** With room, the first byte goes into the queue. *)
Lemma send_byte {A} bad q c data (evs : list (event * A)) :
  (length q < Z.to_nat PIPESIZE)%nat -> send bad false q (c :: data) evs = send bad false (q ++ [c]) data evs.
Proof.
  intros Hlt. set (n := (Z.to_nat PIPESIZE - length q - 1)%nat).
  assert (Z.to_nat PIPESIZE - length q = S n)%nat as E1 by lia.
  assert (Z.to_nat PIPESIZE - length (q ++ [c]) = n)%nat as E2 by (rewrite length_app; simpl; lia).
  destruct evs as [|[ev f] evs]; cbn [send]; rewrite E1, E2, bool_decide_false by done; cbn [andb take drop];
    replace (q ++ c :: take n data) with ((q ++ [c]) ++ take n data) by (by rewrite <- app_assoc);
    (destruct (bool_decide (data = [])) eqn:Ed; [|done]); apply bool_decide_eq_true in Ed as ->; destruct bad; try done;
    rewrite take_nil, drop_nil, app_nil_r; done.
Qed.

(** Without room, the writer waits. *)
Lemma send_full {A} bad q data (evs : list (event * A)) :
  length q = Z.to_nat PIPESIZE -> data <> [] \/ bad = true ->
  send bad false q data evs =
  match evs with
  | [] => Blocked q
  | (ev, _) :: evs => send bad (ev_gone ev) (drop (ev_take ev) q ++ ev_add ev) data evs
  end.
Proof.
  intros Hl Hd. assert (bool_decide (data = []) && negb bad = false) as E.
  { destruct Hd as [Hd| ->]; [by rewrite bool_decide_false|apply andb_false_r]. }
  destruct evs as [|[ev f] evs]; cbn [send]; rewrite E, Hl, Nat.sub_diag; rewrite take_0, drop_0, app_nil_r, Hl, Nat.ltb_irrefl, orb_false_r, E; done.
Qed.

(** The user's [n] bytes at [addr] can be read as far as [data] goes, and the
    next one cannot; none of them is in the swap file. *)
Definition readable `{L : Layout} (m : memory) (root : Z) (l : list Z) (addr n : Z) (data : list Z) : Prop :=
  pt_ok m root l /\
  (forall va, addr <= va < addr + Z.of_nat (length data) -> quiet m root va /\ user_ok m root va = true) /\
  ubytes m root addr (length data) = data /\ Z.of_nat (length data) <= Z.max 0 n /\
  (Z.of_nat (length data) < n ->
     quiet m root (addr + Z.of_nat (length data)) /\ user_ok m root (addr + Z.of_nat (length data)) = false).

Lemma copyin_byte `{L : Layout} `{!LayoutOk L} k root l addr n data i c e :
  readable (k_mem k) root l addr n data -> data !! i = Some c ->
  copyin root (addr + Z.of_nat i) 1 (W k e) = Ret (0, [c]) (W k e).
Proof.
  intros (Hpt & Hva & Hb & _) Hi. apply lookup_lt_Some in Hi as Hlt.
  destruct (copyin_loop root l k e (copy_fuel 1) (addr + Z.of_nat i) 1 []) as (r & bs & Hrun & Hr).
  - done.
  - lia.
  - intros va H. apply Hva. lia.
  - by apply copy_fuel_enough.
  - unfold copyin. rewrite Hrun. destruct Hr as [(-> & -> & _)|(_ & va & H & Hno)].
    + do 2 f_equal. assert (ubytes (k_mem k) root addr (length data) !! i = Some c) as E by (by rewrite Hb).
      unfold ubytes in E. rewrite list_lookup_fmap, lookup_seq_lt in E by done. simpl in E.
      injection E as E. simpl app.
      change (ubytes (k_mem k) root (addr + Z.of_nat i) (Z.to_nat 1))
        with [ubyte (k_mem k) root (addr + Z.of_nat i + 0)]. by rewrite Z.add_0_r, E.
    + rewrite (proj2 (Hva va ltac:(lia))) in Hno. done.
Qed.

Lemma copyin_fails `{L : Layout} `{!LayoutOk L} k root l addr n data e :
  readable (k_mem k) root l addr n data -> Z.of_nat (length data) < n ->
  exists bs, copyin root (addr + Z.of_nat (length data)) 1 (W k e) = Ret (-1, bs) (W k e).
Proof.
  intros (Hpt & _ & _ & _ & Hbad) Hn. destruct (Hbad Hn) as [Hq Hu].
  assert (forall va, addr + Z.of_nat (length data) <= va < addr + Z.of_nat (length data) + 1 -> va = addr + Z.of_nat (length data)) as Hone by lia.
  destruct (copyin_loop root l k e (copy_fuel 1) (addr + Z.of_nat (length data)) 1 []) as (r & bs & Hrun & Hr).
  - done.
  - lia.
  - intros va H. by rewrite (Hone va H).
  - by apply copy_fuel_enough.
  - exists bs. unfold copyin. rewrite Hrun. destruct Hr as [(_ & _ & Hok)|(-> & _)]; [|done].
    rewrite (Hok (addr + Z.of_nat (length data)) ltac:(lia)) in Hu. done.
Qed.

(** Process [p] is inside [pipewrite] on pipe [pi], which is [x]; [gone] says
    that the pipe has no reader or that the process has been killed. *)
Record writing `{L : Layout} (pi : Z) (p : nat) (root : Z) (l : list Z) (addr n : Z) (data : list Z)
    (gone : bool) (x : pipe) (k : kernel) : Prop := {
  wr_cur : k_cur k = Some p;
  wr_proc : exists pr, k_procs k !! p = Some pr /\ p_pagetable pr = root /\
    gone = (pi_readopen x =? 0) || truth (p_killed pr);
  wr_nproc : length (k_procs k) = Z.to_nat NPROC;
  wr_held : k_held k = [Lpipe pi];
  wr_noff : k_noff k = 1%nat;
  wr_user : readable (k_mem k) root l addr n data;
  wr_pipe : k_pipes k !! pi = Some x;
  wr_ok : pipe_ok x;
}.

Section writer.
Context `{L : Layout} `{!LayoutOk L} (pi : Z) (p : nat) (root : Z) (l : list Z) (addr n : Z) (data : list Z).

Local Abbreviation writing := (writing pi p root l addr n data).
Local Abbreviation bad := (Z.of_nat (length data) <? n).

(** The turn [f] of the others while the writer sleeps on a full pipe is the
    event [ev]: they leave the writer's memory alone. *)
Definition acts (t : event * (kernel -> kernel)) : Prop :=
  forall x k, writing false x k -> pcount x = PIPESIZE -> exists x',
    writing (ev_gone (fst t)) x' (awake p (Lpipe pi) (snd t (asleep p (Cnwrite pi) k))) /\
    pqueue x' = drop (ev_take (fst t)) (pqueue x) ++ ev_add (fst t).

Lemma wakeup_writing chan gone x k e :
  writing gone x k -> exists k', wakeup chan (W k e) = Ret tt (W k' e) /\ writing gone x k'.
Proof.
  intros []. eexists. split; [apply wakeup_eq; [done|]|].
  - intros i _. rewrite wr_held0. set_solver.
  - split; try done; simpl.
    + rewrite wr_cur0, wake_self. done.
    + by rewrite wake_length.
Qed.

Lemma unlocked_writing gone x k e :
  writing gone x k -> exists k', release (Lpipe pi) (W k e) = Ret tt (W k' e) /\ writing gone x (lockk (Lpipe pi) k').
Proof.
  intros []. eexists. split; [eapply (release_top (Lpipe pi) [] 0); [done|set_solver|done]|].
  by split.
Qed.

(** The tests at the head of the loop. *)
Lemma write_head i gone x k e :
  writing gone x k -> Z.of_nat i < n ->
  pipewrite_body pi addr n p (Z.of_nat i) (W k e) =
  (if gone then release (Lpipe pi) ;;; ret (inr (inl (-1)))
   else if pcount x =? PIPESIZE then
     wakeup (Cnread pi) ;;; sleep (Cnwrite pi) (Lpipe pi) ;;; ret (inl (Z.of_nat i))
   else
     let* ch := copyin root (addr + Z.of_nat i) 1 in
     if fst ch =? -1 then ret (inr (inr (Z.of_nat i))) else
     pipe_mod pi (fun x => set_pi_data (<[Z.to_nat (pi_nwrite x mod PIPESIZE) := hd 0 (snd ch)]> (pi_data x)) x) ;;;
     pipe_mod pi (fun x => set_pi_nwrite (u32 (pi_nwrite x + 1)) x) ;;;
     ret (inl (Z.of_nat i + 1))) (W k e).
Proof.
  intros [Hc (pr & Hp & Hroot & Hg) Hnp Hh Hn Hu Hpi Hok] Hi. unfold pipewrite_body.
  rewrite (proj2 (Z.ltb_lt _ _) Hi). cbn [negb].
  assert (pipe_get pi (W k e) = Ret x (W k e)) as E by (unfold pipe_get; by rewrite bind_kget, Hpi).
  rewrite (bind_Ret _ _ _ _ _ E), (bind_Ret _ _ _ _ _ (proc_get_eq _ _ _ _ Hp)), <- Hg, (pipe_full x Hok), Hroot. done.
Qed.

(** A writer that has to give up. *)
Lemma write_gone i x k e :
  writing true x k -> Z.of_nat i < n -> exists k',
    pipewrite_body pi addr n p (Z.of_nat i) (W k e) = Ret (inr (inl (-1))) (W k' e) /\ writing true x (lockk (Lpipe pi) k').
Proof.
  intros Hw Hi. rewrite (write_head i true x k e Hw Hi). destruct (unlocked_writing true x k e Hw) as (k' & E & Hw').
  exists k'. split; [|done]. by rewrite (bind_Ret _ _ _ _ _ E).
Qed.

(** A writer that sleeps. *)
Lemma write_waits i x k e :
  writing false x k -> Z.of_nat i < n -> pcount x = PIPESIZE -> exists k1, writing false x k1 /\
    pipewrite_body pi addr n p (Z.of_nat i) (W k e) =
    match e with
    | [] => Swtch (W (asleep p (Cnwrite pi) k1) [])
    | f :: e' => Ret (inl (Z.of_nat i)) (W (awake p (Lpipe pi) (f (asleep p (Cnwrite pi) k1))) e')
    end.
Proof.
  intros Hw Hi Hfull. rewrite (write_head i false x k e Hw Hi), (proj2 (Z.eqb_eq _ _) Hfull).
  destruct (wakeup_writing (Cnread pi) false x k e Hw) as (k1 & E & Hw1). exists k1. split; [done|].
  rewrite (bind_Ret _ _ _ _ _ E). destruct Hw1 as [Hc (pr & Hp & _) _ Hh Hn _ _ _].
  unfold bind. rewrite (sleep_eq _ _ _ _ _ e Hc Hp Hh Hn) by done. by destruct e.
Qed.

(** A writer with room for a byte. *)
Lemma write_byte i c x k e :
  writing false x k -> Z.of_nat i < n -> pcount x <> PIPESIZE -> data !! i = Some c -> exists k',
    pipewrite_body pi addr n p (Z.of_nat i) (W k e) = Ret (inl (Z.of_nat (S i))) (W k' e) /\ writing false (push c x) k'.
Proof.
  intros Hw Hi Hroom Hci. rewrite (write_head i false x k e Hw Hi), (proj2 (Z.eqb_neq _ _) Hroom).
  destruct Hw as [Hc (pr & Hp & Hroot & Hg) Hnp Hh Hn Hu Hpi Hok].
  rewrite (bind_Ret _ _ _ _ _ (copyin_byte k root l addr n data i c e Hu Hci)). cbn [fst snd hd]. change (0 =? -1) with false. cbv iota.
  unfold pipe_mod. rewrite !bind_kmod. eexists. split; [unfold ret; do 2 f_equal; lia|].
  destruct (push_ok c x Hok) as [Hok' _]; [pose proof (po_count _ Hok); lia|].
  split; try done; simpl; [by exists pr|]. by rewrite !lookup_alter_eq, Hpi.
Qed.

(** A writer that cannot read the next byte. *)
Lemma write_stops x k e :
  writing false x k -> Z.of_nat (length data) < n -> pcount x <> PIPESIZE ->
  pipewrite_body pi addr n p (Z.of_nat (length data)) (W k e) = Ret (inr (inr (Z.of_nat (length data)))) (W k e).
Proof.
  intros Hw Hi Hroom. rewrite (write_head _ false x k e Hw Hi), (proj2 (Z.eqb_neq _ _) Hroom).
  destruct (copyin_fails k root l addr n data e (wr_user _ _ _ _ _ _ _ _ _ _ Hw) Hi) as (bs & E). by rewrite (bind_Ret _ _ _ _ _ E).
Qed.

(** What the loop of [pipewrite] does, and what [pipewrite] does, when the
    specification says [o]. *)
Definition loop_does (o : sending (kernel -> kernel)) (m : outcome world (Z + Z)) : Prop :=
  match o with
  | Sent gone q evs => exists k x, m = Ret (inr (Z.of_nat (length data))) (W k (snd <$> evs)) /\ writing gone x k /\ pqueue x = q
  | Refused q evs => exists k x, m = Ret (inl (-1)) (W k (snd <$> evs)) /\ writing true x (lockk (Lpipe pi) k) /\ pqueue x = q
  | Blocked q => exists k x, m = Swtch (W (asleep p (Cnwrite pi) k) []) /\ writing false x k /\ pqueue x = q
  end.

Definition write_does (o : sending (kernel -> kernel)) (m : outcome world Z) : Prop :=
  match o with
  | Sent gone q evs => exists k x, m = Ret (Z.of_nat (length data)) (W k (snd <$> evs)) /\
      writing gone x (lockk (Lpipe pi) k) /\ pqueue x = q
  | Refused q evs => exists k x, m = Ret (-1) (W k (snd <$> evs)) /\ writing true x (lockk (Lpipe pi) k) /\ pqueue x = q
  | Blocked q => exists k x, m = Swtch (W (asleep p (Cnwrite pi) k) []) /\ writing false x k /\ pqueue x = q
  end.

Lemma write_loop fuel : forall i gone x k evs,
  writing gone x k -> Forall acts evs -> (i <= length data)%nat -> (length data - i + length evs < fuel)%nat ->
  loop_does (send bad gone (pqueue x) (drop i data) evs)
    (while_ fuel (pipewrite_body pi addr n p) (Z.of_nat i) (W k (snd <$> evs))).
Proof.
  induction fuel as [|fuel IH]; intros i gone x k evs Hw He Hi Hf; [lia|]. rewrite while_S.
  pose proof (wr_user _ _ _ _ _ _ _ _ _ _ Hw) as (_ & _ & _ & Hnl & _). pose proof (wr_ok _ _ _ _ _ _ _ _ _ _ Hw) as Hok.
  pose proof (pqueue_length x) as Hql. pose proof (po_count _ Hok) as Hcnt.
  destruct (Z.lt_ge_cases (Z.of_nat i) n) as [Hin|Hin].
  2:{ assert (i = length data) as -> by lia. rewrite drop_all. rewrite (proj2 (Z.ltb_ge _ _) Hin).
      assert (send false gone (pqueue x) [] evs = Sent gone (pqueue x) evs) as -> by (by destruct evs as [|[]]).
      exists k, x. split; [|done]. unfold pipewrite_body at 1. by rewrite (proj2 (Z.ltb_ge _ _) Hin). }
  assert (drop i data <> [] \/ bad = true) as Hmore.
  { destruct (decide (i = length data)) as [->|Hne]; [right; by apply Z.ltb_lt|].
    left. intros E. apply (f_equal length) in E. rewrite length_drop in E. simpl in E. lia. }
  destruct gone.
  { assert (send bad true (pqueue x) (drop i data) evs = Refused (pqueue x) evs) as ->.
    { assert (bool_decide (drop i data = []) && negb bad = false) as E
        by (destruct Hmore as [Hd| ->]; [by rewrite bool_decide_false|apply andb_false_r]).
      destruct evs as [|[]]; cbn [send]; by rewrite E. }
    destruct (write_gone i x k (snd <$> evs) Hw Hin) as (k' & E & Hw'). exists k', x. by rewrite (bind_Ret _ _ _ _ _ E). }
  destruct (decide (pcount x = PIPESIZE)) as [Hfull|Hroom].
  - rewrite send_full; [|lia|done]. destruct (write_waits i x k (snd <$> evs) Hw Hin Hfull) as (k1 & Hw1 & E).
    destruct evs as [|[ev f] evs]; simpl in E.
    + exists k1, x. split; [|done]. cbn [fmap list_fmap]. unfold bind. by rewrite E.
    + cbn [fmap list_fmap snd]. rewrite (bind_Ret _ _ _ _ _ E). apply list.Forall_cons in He as [Hf1 He].
      destruct (Hf1 x k1 Hw1 Hfull) as (x' & Hw' & Hq'). simpl in Hq'. rewrite <- Hq'. apply IH; [exact Hw'|done|done|simpl in Hf; lia].
  - destruct (decide (i = length data)) as [->|Hne].
    + rewrite drop_all. rewrite (bind_Ret _ _ _ _ _ (write_stops x k _ Hw Hin Hroom)).
      assert (send bad false (pqueue x) [] evs = Sent false (pqueue x) evs) as ->; [|by exists k, x].
      assert ((length (pqueue x) <? Z.to_nat PIPESIZE)%nat = true) as El by (apply Nat.ltb_lt; lia).
      destruct evs as [|[]]; cbn [send]; rewrite (proj2 (Z.ltb_lt _ _) Hin), take_nil, drop_nil, app_nil_r, El; done.
    + destruct (lookup_lt_is_Some_2 data i ltac:(lia)) as [c Hc].
      destruct (write_byte i c x k (snd <$> evs) Hw Hin Hroom Hc) as (k' & E & Hw').
      rewrite (drop_S _ _ _ Hc), send_byte by lia. rewrite (bind_Ret _ _ _ _ _ E).
      destruct (push_ok c x Hok ltac:(lia)) as [_ <-]. apply IH; [done|done|lia|lia].
Qed.

Lemma pipewrite_run gone x k evs :
  writing gone x (lockk (Lpipe pi) k) -> Forall acts evs ->
  write_does (send bad gone (pqueue x) data evs) (pipewrite pi addr n (W k (snd <$> evs))).
Proof.
  intros Hw He. unfold pipewrite. pose proof (wr_held _ _ _ _ _ _ _ _ _ _ Hw) as Hh. simpl in Hh. injection Hh as Hh.
  pose proof (wr_user _ _ _ _ _ _ _ _ _ _ Hw) as (_ & _ & _ & Hnl & _).
  rewrite (bind_Ret _ _ _ _ _ (this_proc_eq k _ p (wr_cur _ _ _ _ _ _ _ _ _ _ Hw))).
  rewrite (bind_Ret _ _ _ _ _ (acquire_eq (Lpipe pi) k _ ltac:(rewrite Hh; set_solver))).
  pose proof (write_loop (S (Z.to_nat n + length (snd <$> evs))) 0 gone x _ evs Hw He ltac:(lia) ltac:(rewrite length_fmap; lia)) as HL.
  rewrite drop_0 in HL. unfold bind at 1. cbv beta. cbn [wenv].
  destruct (send _ _ _ _ _) as [gone' q evs'|q evs'|q]; destruct HL as (k1 & x1 & E & Hw1 & Hq); change (Z.of_nat 0) with 0 in E; rewrite E.
  - destruct (wakeup_writing (Cnread pi) gone' x1 k1 (snd <$> evs') Hw1) as (k2 & E2 & Hw2).
    destruct (unlocked_writing gone' x1 k2 (snd <$> evs') Hw2) as (k3 & E3 & Hw3).
    exists k3, x1. by rewrite (bind_Ret _ _ _ _ _ E2), (bind_Ret _ _ _ _ _ E3).
  - by exists k1, x1.
  - by exists k1, x1.
Qed.

End writer.

(** *** The reader and its writers *)

(** The user's addresses from [addr] on can be written. *)
Definition writable `{L : Layout} (m : memory) (root : Z) (l : list Z) (addr n : Z) : Prop :=
  pt_ok m root l /\ user_apart m root addr (addr + n) /\
  forall va, addr <= va < addr + n -> quiet m root va /\ user_ok m root va = true.

Lemma writable_stored `{L : Layout} m m' root l addr n lo src :
  user_stored root lo src m m' -> writable m root l addr n -> writable m' root l addr n.
Proof.
  intros Hs (Hpt & Hap & Hva). split; [|split].
  - destruct Hpt as [H1 H2]. split.
    + intros path q Hp. rewrite (us_page _ _ _ _ _ Hs) by done. by apply H1.
    + intros path path' q Hp Hp'. rewrite !(us_page _ _ _ _ _ Hs) by done. by apply H2.
  - by apply (user_apart_stored root lo src m).
  - intros va H. destruct (Hva va H). split; [by apply (quiet_stored root lo src m)|].
    by rewrite (user_stored_ok _ _ _ _ _ _ Hs).
Qed.

Lemma copyout_byte `{L : Layout} `{!LayoutOk L} k root l addr n i c e :
  writable (k_mem k) root l addr n -> 0 <= i < n ->
  exists m', copyout root (addr + i) [c] (W k e) = Ret 0 (W (set_k_mem m' k) e) /\
    user_stored root (addr + i) [c] (k_mem k) m'.
Proof.
  intros (Hpt & Hap & Hva) Hi.
  destruct (copyout_loop root l e (copy_fuel (Z.of_nat (length [c]))) (addr + i) [c] k) as (r & m' & Hrun & Hr).
  - done.
  - eapply user_apart_mono; [| |exact Hap]; simpl; lia.
  - intros va H. apply Hva. simpl in H. lia.
  - by apply copy_fuel_enough.
  - exists m'. unfold copyout. rewrite Hrun. destruct Hr as [(-> & Hs & _)|(_ & va & H & Hno)]; [done|].
    simpl in H. rewrite (proj2 (Hva va ltac:(lia))) in Hno. done.
Qed.

(** Process [p] is inside [piperead] on pipe [pi], which is [x]. *)
Record reading `{L : Layout} (pi : Z) (p : nat) (root : Z) (l : list Z) (addr n : Z)
    (x : pipe) (k : kernel) : Prop := {
  rd_cur : k_cur k = Some p;
  rd_proc : exists pr, k_procs k !! p = Some pr /\ p_pagetable pr = root /\ p_killed pr = 0;
  rd_nproc : length (k_procs k) = Z.to_nat NPROC;
  rd_held : k_held k = [Lpipe pi];
  rd_noff : k_noff k = 1%nat;
  rd_user : writable (k_mem k) root l addr n;
  rd_pipe : k_pipes k !! pi = Some x;
  rd_ok : pipe_ok x;
}.

Section reader.
Context `{L : Layout} `{!LayoutOk L} (pi : Z) (p : nat) (root : Z) (l : list Z) (addr n : Z).

Local Abbreviation reading := (reading pi p root l addr n).

(** One turn of the others while the reader sleeps: they may write to the pipe
    or close it, and leave the reader alone. *)
Definition fills (f : kernel -> kernel) : Prop :=
  forall x k, reading x k -> exists a x',
    reading x' (awake p (Lpipe pi) (f (asleep p (Cnread pi) k))) /\ pqueue x' = pqueue x ++ a.

(** The reader is asleep because the pipe is empty. *)
Definition read_blocked (q : list Z) (w : world) : Prop :=
  exists k x, wk w = asleep p (Cnread pi) k /\ reading x k /\ q = [] /\ pqueue x = [].

Definition wait_inv (q : list Z) (w : world) : Prop :=
  Forall fills (wenv w) /\ exists a x, reading x (wk w) /\ pqueue x = q ++ a.

Lemma pipe_wait_st q w :
  wait_inv q w ->
  wps (pipe_wait pi p) w
    (fun r w' => r = None /\ exists a x, reading x (wk w') /\ pqueue x = q ++ a /\
       (0 < pcount x \/ pi_writeopen x = 0)) (read_blocked q).
Proof.
  intros Hw. unfold pipe_wait. unfold wps at 1.
  match goal with |- context [while_ ?f ?b ?s w] => change (wps (while_ f b s) w
    (fun r w' => r = None /\ exists a x, reading x (wk w') /\ pqueue x = q ++ a /\
       (0 < pcount x \/ pi_writeopen x = 0)) (read_blocked q)) end.
  eapply (wps_while (fun _ => wait_inv q) (fun _ w => length (wenv w))); [done|lia|].
  clear w Hw. intros _ [k e] (He & a & x & Hr & Hq). simpl in *.
  pose proof Hr as [Hc (pr & Hp & Hroot & Hk) Hnp Hh Hn Hu Hpi Hok].
  eapply wps_step; [unfold pipe_get; rewrite bind_kget, Hpi; reflexivity|].
  rewrite (pipe_empty x Hok). pose proof (pcount_nonneg x) as H0. pose proof (pqueue_length x) as Hlen.
  destruct (Z.eqb_spec (pcount x) 0) as [He0|Hne].
  2:{ apply wps_ret. split; [done|]. exists a, x. split_and!; [done..|left; lia]. }
  unfold truth. destruct (Z.eqb_spec (pi_writeopen x) 0) as [Hwo|Hwo]; simpl.
  { apply wps_ret. split; [done|]. exists a, x. split_and!; [done..|by right]. }
  eapply wps_step; [apply proc_get_eq; exact Hp|]. rewrite Hk. simpl.
  unfold wps, bind. rewrite (sleep_eq _ _ _ _ _ e Hc Hp Hh Hn) by done.
  rewrite He0 in Hlen. destruct (pqueue x) eqn:Hq0; [|done]. symmetry in Hq. apply app_nil in Hq as [-> ->].
  destruct e as [|f e]; simpl.
  - by exists k, x.
  - apply list.Forall_cons in He as [Hf He]. destruct (Hf x k Hr) as (a & x' & Hr' & Hq'). simpl.
    split; [|lia]. split; [done|]. exists a, x'. split; [done|]. by rewrite Hq', Hq0.
Qed.

(** The loop that takes bytes off the queue [q] into the user's memory, [m] at first. *)
Definition taken (q : list Z) (m : memory) (wo i : Z) (e : list (kernel -> kernel)) (w : world) : Prop :=
  exists k x, w = W k e /\ reading x k /\ 0 <= i <= Z.of_nat (length q) /\
    user_stored root addr (take (Z.to_nat i) q) m (k_mem k) /\ pqueue x = drop (Z.to_nat i) q /\
    pi_writeopen x = wo.

Lemma read_turn q m wo i e w :
  writable m root l addr n -> taken q m wo i e w -> i < n ->
  runs (piperead_body pi addr p i) w (fun r w' =>
    match r with
    | None => taken q m wo (i + 1) e w'
    | Some j => j = Z.of_nat (length q) /\ i = j /\ taken q m wo j e w'
    end).
Proof.
  intros Hm (k & x & -> & Hr & Hi & Hs & Hq & Hwo) Hin. unfold piperead_body.
  pose proof Hr as [Hc (pr & Hp & Hroot & Hk) Hnp Hh Hn Hu Hpi Hok].
  pose proof (pcount_nonneg x) as H0. pose proof (pqueue_length x) as Hlen.
  rewrite Hq, length_drop in Hlen.
  eapply runs_step; [unfold pipe_get; rewrite bind_kget, Hpi; reflexivity|].
  rewrite (pipe_empty x Hok). destruct (Z.eqb_spec (pcount x) 0) as [E|E].
  { apply runs_ret. assert (i = Z.of_nat (length q)) as -> by lia. split; [done|]. split; [done|].
    exists k, x. split_and!; done || lia. }
  destruct (pop_ok x Hok ltac:(lia)) as (c & Hx & Hok' & Hpop).
  assert (q !! Z.to_nat i = Some c /\ pqueue (pop x) = drop (S (Z.to_nat i)) q) as [Hqi Hq'].
  { rewrite Hq in Hpop. pose proof (lookup_drop q (Z.to_nat i) 0) as H. rewrite Hpop, Nat.add_0_r in H.
    split; [by rewrite <- H|]. replace (S (Z.to_nat i)) with (Z.to_nat i + 1)%nat by lia.
    by rewrite <- drop_drop, Hpop. }
  eapply runs_step; [apply nth_or_fault_Some; [apply Z.mod_pos_bound; done|exact Hx]|].
  unfold pipe_mod. eapply runs_step; [reflexivity|]. simpl.
  set (k1 := set_k_pipes _ k). eapply runs_step; [apply (proc_get_eq k1); exact Hp|]. rewrite Hroot.
  destruct (copyout_byte k1 root l addr n i c e Hu) as (m' & Hrun & Hs'); [lia|].
  eapply runs_step; [exact Hrun|]. simpl. apply runs_ret. exists (set_k_mem m' k1), (pop x). split; [done|].
  split; [|split; [lia|split; [|split; [|done]]]].
  - split; try done; simpl; [by exists pr| |by rewrite lookup_alter_eq, Hpi].
    by apply (writable_stored (k_mem k) m' root l addr n (addr + i) [c]).
  - replace (Z.to_nat (i + 1)) with (S (Z.to_nat i)) by lia. rewrite (take_S_r _ _ _ Hqi). simpl.
    assert (length (take (Z.to_nat i) q) = Z.to_nat i) as El by (rewrite length_take; lia).
    destruct Hm as (Hpt & Hap & Hva).
    eapply (user_stored_app m (k_mem k) m' root addr (addr + n)); [done| | |done|].
    + rewrite length_app, El. simpl. lia.
    + intros va H. rewrite length_app, El in H. apply Hva. simpl in H. lia.
    + rewrite El, Z2Nat.id by lia. exact Hs'.
  - rewrite Hq'. f_equal. lia.
Qed.

(** What a [piperead] that returns [r] has done: [a] has come into the pipe
    meanwhile. *)
Definition read_done (q : list Z) (r : Z) (w : world) : Prop :=
  exists a x, k_held (wk w) = [] /\ k_pipes (wk w) !! pi = Some x /\ pipe_ok x /\
    r = Z.min n (Z.of_nat (length (q ++ a))) /\ (r = 0 -> n = 0 \/ pi_writeopen x = 0) /\
    ubytes (k_mem (wk w)) root addr (Z.to_nat r) = u8 <$> take (Z.to_nat r) (q ++ a) /\
    pqueue x = drop (Z.to_nat r) (q ++ a).

Lemma user_stored_bytes lo src m m' :
  user_stored root lo src m m' -> ubytes m' root lo (length src) = u8 <$> src.
Proof.
  intros Hs. apply list_eq. intros i. unfold ubytes. rewrite !list_lookup_fmap.
  destruct (src !! i) as [b|] eqn:Hi.
  - apply lookup_lt_Some in Hi as Hlt. rewrite lookup_seq_lt by done. simpl. f_equal.
    by apply (us_in _ _ _ _ _ Hs).
  - apply lookup_ge_None in Hi. by rewrite lookup_seq_ge.
Qed.

Lemma wakeup_reading chan x k e :
  reading x k -> exists k', wakeup chan (W k e) = Ret tt (W k' e) /\ reading x k' /\ k_mem k' = k_mem k.
Proof.
  intros []. eexists. split; [apply wakeup_eq; [done|]|split; [|done]].
  - intros i _. rewrite rd_held0. set_solver.
  - split; try done; simpl.
    + rewrite rd_cur0, wake_self. done.
    + by rewrite wake_length.
Qed.

Lemma read_loop q x k e :
  reading x k -> pqueue x = q -> 0 <= n ->
  runs (for_from (Z.to_nat n) 0 (piperead_body pi addr p)) (W k e) (fun r w' =>
    taken q (k_mem k) (pi_writeopen x) (Z.min n (Z.of_nat (length q))) e w' /\
    match r with Some i => i | None => Z.max 0 n end = Z.min n (Z.of_nat (length q))).
Proof.
  intros Hr Hq Hn. pose proof (rd_user _ _ _ _ _ _ _ _ Hr) as Hm.
  apply (for_from_runs (fun i w' => i <= Z.of_nat (length q) /\ taken q (k_mem k) (pi_writeopen x) i e w')).
  - split; [lia|]. exists k, x. split_and!; try done; try lia; apply user_stored_nil.
  - intros j w' Hj [_ Ht]. eapply runs_mono; [apply (read_turn q (k_mem k) _ j e w' Hm Ht); lia|].
    intros [i|] w2.
    + intros (-> & -> & H). by rewrite Z.min_r by lia.
    + intros H. split; [|done]. destruct H as (? & ? & _ & _ & H & _). lia.
  - intros w' [Hle Ht]. replace (0 + Z.of_nat (Z.to_nat n)) with n in * by lia.
    rewrite Z.min_l by done. split; [done|lia].
Qed.

Lemma piperead_st x k e :
  reading x (lockk (Lpipe pi) k) -> Forall fills e -> 0 <= n ->
  wps (piperead pi addr n) (W k e) (read_done (pqueue x)) (read_blocked (pqueue x)).
Proof.
  intros Hr He Hn. unfold piperead. pose proof (rd_held _ _ _ _ _ _ _ _ Hr) as Hh. simpl in Hh.
  injection Hh as Hh.
  eapply wps_step; [apply this_proc_eq; exact (rd_cur _ _ _ _ _ _ _ _ Hr)|].
  eapply wps_step; [apply acquire_eq; rewrite Hh; set_solver|]. eapply wps_bind.
  { apply (pipe_wait_st (pqueue x)). split; [done|]. exists [], x. by rewrite app_nil_r. }
  intros ? [k1 e1] (-> & a & x1 & Hr1 & Hq1 & Hw1). simpl in *. eapply wps_bind.
  { apply wps_runs. apply (read_loop _ x1 k1 e1 Hr1 Hq1 Hn). }
  intros r ? [(k2 & x2 & -> & Hr2 & Hi & Hs & Hq2 & Hwo) Hres]. cbv zeta. rewrite Hres.
  set (i := Z.min n (Z.of_nat (length (pqueue x ++ a)))) in *.
  destruct (wakeup_reading (Cnwrite pi) x2 k2 e1 Hr2) as (k3 & Hrun3 & Hr3 & Hm3).
  eapply wps_step; [exact Hrun3|].
  eapply wps_step; [eapply (release_top (Lpipe pi) [] 0); [apply Hr3|set_solver|apply Hr3]|].
  apply wps_ret. exists a, x2. split; [done|]. split; [apply Hr3|]. split; [apply Hr3|]. split; [done|]. split.
  - intros Hi0. pose proof (pqueue_length x1) as Hl. rewrite Hq1 in Hl. rewrite Hwo.
    destruct Hw1 as [Hw1|Hw1]; [left; lia|by right].
  - split; [|done]. simpl. rewrite Hm3. rewrite <- (user_stored_bytes _ _ _ _ Hs). f_equal.
    rewrite length_take. lia.
Qed.

End reader.

(** ** Properties *)

Section properties.
Context `{L : Layout} `{!LayoutOk L}.

(** C21: [pipewrite] is the writer of a bounded queue.  Each time it sleeps on a
    full pipe the others have a turn, in which readers take a number of bytes off
    the front of the queue, other writers may add bytes, and the last reader may
    close the pipe or somebody may kill the process.  Given these turns,
    [pipewrite] does exactly what [send] says.  It returns the number of bytes it
    could read from the user, all of which it has appended to the queue, in
    order and each as soon as there is room; the queue, and the turns that are
    left, are those of [send].  It returns -1 when at a test of the loop the pipe
    has no reader or the process has been killed; the bytes sent so far are in
    the queue.  It sleeps on a full queue when the turns end.  When the user's
    memory ends early, at a byte that [copyin] refuses, it waits for room for
    that byte as well, stops, and returns the number of bytes before it.  None of
    the bytes is on a page in the swap file.  The counters of the pipe may wrap
    around.  Whenever it returns the pipe is unlocked and as the next call needs
    it. *)
Theorem pipewrite_appends pi p root l addr n data gone x k evs :
  writing pi p root l addr n data gone x (lockk (Lpipe pi) k) -> Forall (acts pi p root l addr n data) evs ->
  write_does pi p root l addr n data (send (Z.of_nat (length data) <? n) gone (pqueue x) data evs)
    (pipewrite pi addr n (W k (snd <$> evs))).
Proof. apply pipewrite_run. Qed.

(** C22: a pipe is a queue for its reader.  [piperead] waits until the pipe is
    not empty or has no writer, then moves the first [min n length] bytes of
    the queue, in order, to the user's memory; it returns 0 for a positive
    [n] only at the end of the stream.  If the schedule ends first, it sleeps
    on an empty pipe. *)
Theorem piperead_takes pi p root l addr n x k e :
  reading pi p root l addr n x (lockk (Lpipe pi) k) -> 0 <= n ->
  Forall (fills pi p root l addr n) e ->
  match piperead pi addr n (W k e) with
  | Ret r w => k_held (wk w) = [] /\ exists a x', let q := pqueue x ++ a in
      k_pipes (wk w) !! pi = Some x' /\ pipe_ok x' /\
      r = Z.min n (Z.of_nat (length q)) /\ (r = 0 -> n = 0 \/ pi_writeopen x' = 0) /\
      ubytes (k_mem (wk w)) root addr (Z.to_nat r) = u8 <$> take (Z.to_nat r) q /\
      pqueue x' = drop (Z.to_nat r) q
  | Swtch w => exists k' x', wk w = asleep p (Cnread pi) k' /\ k_pipes k' !! pi = Some x' /\
      pqueue x' = [] /\ pqueue x = []
  | _ => False
  end.
Proof.
  intros Hr Hn He. pose proof (piperead_st pi p root l addr n x k e Hr He Hn) as H.
  unfold wps in H. destruct (piperead _ _ _ _); try done.
  - destruct H as (a' & x' & Hh & H). split; [done|]. by exists a', x'.
  - destruct H as (k' & x' & Hk & Hr' & Hq & Hq'). exists k', x'. split_and!; [done|apply Hr'|done..].
Qed.
End properties.

(** ** Examples *)

(** Process 1 with the page table of [sample_user], and a pipe that is full and
    whose counters are about to wrap around. *)
Definition sample_full : pipe :=
  mkPipe (replicate (Z.to_nat PIPESIZE) 7) (2 ^ 32 - 300) 212 1 1.
Definition sample_pipe (x : pipe) : kernel :=
  set_k_cur (Some 1%nat) (set_k_procs (<[1%nat := set_p_pagetable (pg 3) (set_p_state RUNNING proc0)]>
    (k_procs kernel0)) (set_k_pipes {[pg 9 := x]} sample_user)).

(** A reader that takes one byte, a writer that adds one. *)
Definition one_read (k : kernel) : kernel :=
  set_k_pipes (alter (fun x => if 0 <? pcount x then pop x else x) (pg 9) (k_pipes k)) k.
Definition one_written (k : kernel) : kernel :=
  set_k_pipes (alter (fun x => if pcount x <? PIPESIZE then push 65 x else x) (pg 9) (k_pipes k)) k.

#[local] Existing Instance sample_layout.
#[local] Existing Instance sample_layout_ok.

Lemma sample_full_ok : pipe_ok sample_full.
Proof. split; vm_compute; try done; split; done. Qed.

Lemma sample_readable : readable (k_mem sample_user) (pg 3) [] 0 3 [0; 0; 0].
Proof.
  split; [exact sample_user_ok|]. split; [|split; [by vm_compute|split; [simpl; lia|simpl; lia]]].
  intros va Hva. split; [by apply sample_user_quiet|by apply sample_user_access].
Qed.

Lemma sample_writable : writable (k_mem sample_user) (pg 3) [] 0 3.
Proof.
  split; [exact sample_user_ok|]. split; [exact sample_user_apart|].
  intros va Hva. split; [by apply sample_user_quiet|by apply sample_user_access].
Qed.

Lemma one_read_acts : acts (pg 9) 1 (pg 3) [] 0 3 [0; 0; 0] (mkEvent 1 [] false, one_read).
Proof.
  intros x k [Hc (pr & Hp & Hroot & Hg) Hnp Hh Hn Hu Hpi Hok] Hfull.
  destruct (pop_ok x Hok ltac:(rewrite Hfull; done)) as (c & _ & Hok' & Hq).
  exists (pop x). split; [|by rewrite Hq, app_nil_r]. split; try done; simpl.
  - exists (set_p_chan Cnull (set_p_state RUNNING (set_p_state SLEEPING (set_p_chan (Cnwrite (pg 9)) pr)))).
    by rewrite !list_lookup_alter_eq, Hp.
  - by rewrite !length_alter.
  - rewrite lookup_alter_eq, Hpi. cbn [fmap option_fmap option_map]. by rewrite Hfull.
Qed.

Lemma one_written_fills : fills (pg 9) 1 (pg 3) [] 0 3 one_written.
Proof.
  intros x k [Hc (pr & Hp & Hroot & Hk) Hnp Hh Hn Hu Hpi Hok].
  assert (exists a x', (if pcount x <? PIPESIZE then push 65 x else x) = x' /\ pqueue x' = pqueue x ++ a /\
    pipe_ok x') as (a & x' & E & Hq & Hok').
  { destruct (Z.ltb_spec (pcount x) PIPESIZE) as [H0|H0].
    - destruct (push_ok 65 x Hok H0) as (Hok' & Hq). by exists [65], (push 65 x).
    - exists [], x. by rewrite app_nil_r. }
  exists a, x'. split; [|done]. split; try done; simpl.
  - exists (set_p_chan Cnull (set_p_state RUNNING (set_p_state SLEEPING (set_p_chan (Cnread (pg 9)) pr)))).
    by rewrite !list_lookup_alter_eq, Hp.
  - by rewrite !length_alter.
  - by rewrite lookup_alter_eq, Hpi, <- E.
Qed.

(** Three bytes into the full pipe, with two readers' turns: the third must wait. *)
Lemma pipewrite_appends_witness :
  exists k x, pipewrite (pg 9) 0 3 (W (sample_pipe sample_full) [one_read; one_read]) =
      Swtch (W (asleep 1 (Cnwrite (pg 9)) k) []) /\
    k_pipes k !! pg 9 = Some x /\ pqueue x = replicate 510 7 ++ [0; 0].
Proof.
  pose proof (pipewrite_appends (pg 9) 1 (pg 3) [] 0 3 [0; 0; 0] false sample_full (sample_pipe sample_full)
    [(mkEvent 1 [] false, one_read); (mkEvent 1 [] false, one_read)]) as H.
  assert (send false false (pqueue sample_full) [0; 0; 0] [(mkEvent 1 [] false, one_read); (mkEvent 1 [] false, one_read)] =
    Blocked (replicate 510 7 ++ [0; 0])) as E by (by vm_compute).
  change (Z.of_nat (length [0; 0; 0]) <? 3) with false in H. rewrite E in H. destruct H as (k & x & Hr & Hw & Hq).
  - split; try reflexivity.
    + eexists. split; [reflexivity|]. split; reflexivity.
    + exact sample_readable.
    + exact sample_full_ok.
  - apply Forall_cons_2; [exact one_read_acts|]. apply Forall_cons_2; [exact one_read_acts|].
    apply Forall_nil_2.
  - exists k, x. split; [exact Hr|]. split; [apply Hw|exact Hq].
Defined.

(** A read from the empty pipe, with one writer's turn. *)
Definition sample_none : pipe := mkPipe (replicate (Z.to_nat PIPESIZE) 0) 100 100 1 1.

Lemma piperead_takes_witness :
  match piperead (pg 9) 0 3 (W (sample_pipe sample_none) [one_written]) with
  | Ret r w => k_held (wk w) = [] /\ exists a x', let q := pqueue sample_none ++ a in
      k_pipes (wk w) !! pg 9 = Some x' /\ pipe_ok x' /\
      r = Z.min 3 (Z.of_nat (length q)) /\ (r = 0 -> 3 = 0 \/ pi_writeopen x' = 0) /\
      ubytes (k_mem (wk w)) (pg 3) 0 (Z.to_nat r) = u8 <$> take (Z.to_nat r) q /\
      pqueue x' = drop (Z.to_nat r) q
  | Swtch w => exists k' x', wk w = asleep 1 (Cnread (pg 9)) k' /\ k_pipes k' !! pg 9 = Some x' /\
      pqueue x' = [] /\ pqueue sample_none = []
  | _ => False
  end.
Proof.
  apply (piperead_takes (pg 9) 1 (pg 3) [] 0 3 sample_none (sample_pipe sample_none)).
  - split; try reflexivity.
    + eexists. split; [reflexivity|]. split; reflexivity.
    + exact sample_writable.
    + split; vm_compute; try done; split; done.
  - lia.
  - apply Forall_cons_2; [exact one_written_fills|]. apply Forall_nil_2.
Defined.
