(* ===== verification/File.v ===== *)
(** * file.c: open files, and pipe.c's pipealloc

    The table of open files with their reference counts, and the dispatch of
    read, write, stat and close to pipes, devices and inodes. *)

From Stdlib Require Import ZArith Lia.
From stdpp Require Import base gmap list strings numbers.
From S2P Require Import Prelude Riscv State Klib Sched Kalloc Uart Vm Usercopy Console Bio Log Fs Pipe.

(** ** Definitions *)

Section file.
Context `{L : Layout} `{D : Disk}.

Definition fileinit : K unit := initlock Lftable.

Definition filealloc : K (option nat) :=
  acquire Lftable ;;;
  let* r := for_from (Z.to_nat NFILE) 0 (fun i =>
    let* f := file_get (Z.to_nat i) in
    if f_ref f =? 0 then
      file_mod (Z.to_nat i) (set_f_ref 1) ;;;
      ret (Some (Z.to_nat i))
    else ret None) in
  release Lftable ;;;
  ret r.

Definition filedup (f : nat) : K nat :=
  acquire Lftable ;;;
  let* x := file_get f in
  if f_ref x <? 1 then panic "filedup" else
  file_mod f (fun x => set_f_ref (f_ref x + 1) x) ;;;
  release Lftable ;;;
  ret f.

Definition fileclose (f : nat) : K unit :=
  acquire Lftable ;;;
  let* x := file_get f in
  if f_ref x <? 1 then panic "fileclose" else
  file_mod f (fun x => set_f_ref (f_ref x - 1) x) ;;;
  let* x := file_get f in
  if 0 <? f_ref x then release Lftable else
  let ff := x in
  file_mod f (set_f_ref 0) ;;;
  file_mod f (set_f_type FD_NONE) ;;;
  release Lftable ;;;
  match f_type ff with
  | FD_PIPE => pipeclose (f_pipe ff) (f_writable ff)
  | FD_INODE | FD_DEVICE =>
      begin_op ;;;
      match f_ip ff with Some ip => iput ip | None => fault "iput(0)" end ;;;
      end_op
  | FD_NONE => ret tt
  end.

Definition filestat (f : nat) (addr : Z) : K Z :=
  let* p := this_proc in
  let* x := file_get f in
  match f_type x with
  | FD_INODE | FD_DEVICE =>
      ilock_ptr (f_ip x) ;;;
      match f_ip x with
      | None => fault "f->ip"
      | Some ip =>
          let* i := inode_get ip in
          let st := stati i in
          iunlock ip ;;;
          let* pr := proc_get p in
          let* r := copyout (p_pagetable pr) addr st in
          if r <? 0 then ret (-1) else ret 0
      end
  | _ => ret (-1)
  end.

(** [devsw[major].read] and [.write], if the device has them. *)
Definition devsw_get (major : Z) : K devfn :=
  if (major <? 0) || (NDEV <=? major) then ret DevNone else
  let* d := kget k_devsw in
  ret (default DevNone (d !! Z.to_nat major)).

(** [fileread] for a user address ([user] set), [kfileread] for a kernel one:
    the two differ only in what they pass to [readi]. *)
Definition fileread_gen (user : bool) (f : nat) (addr n : Z) : K Z :=
  let* x := file_get f in
  if f_readable x =? 0 then ret (-1) else
  match f_type x with
  | FD_PIPE => piperead (f_pipe x) addr n
  | FD_DEVICE =>
      let* d := devsw_get (f_major x) in
      match d with
      | DevNone => ret (-1)
      | DevConsole => consoleread (DUser addr) n
      end
  | FD_INODE =>
      ilock_ptr (f_ip x) ;;;
      match f_ip x with
      | None => fault "f->ip"
      | Some ip =>
          let* x := file_get f in
          let* r := readi ip (if user then DUser addr else DKern addr) (f_off x) (u32 n) in
          when (0 <? fst r) (file_mod f (fun x => set_f_off (u32 (f_off x + fst r)) x)) ;;;
          iunlock ip ;;;
          ret (fst r)
      end
  | FD_NONE => panic "fileread"
  end.

Definition fileread (f : nat) (addr n : Z) : K Z := fileread_gen true f addr n.
Definition kfileread (f : nat) (addr n : Z) : K Z := fileread_gen false f addr n.

Definition max_write : Z := ((MAXOPBLOCKS - 1 - 1 - 2) / 2) * BSIZE.

(** One transaction of [filewrite]'s loop. *)
Definition filewrite_body (user : bool) (f ip : nat) (addr n : Z) (i : Z) : K (Z + Z) :=
  if negb (i <? n) then ret (inr i) else
  let n1 := if max_write <? n - i then max_write else n - i in
  begin_op ;;;
  ilock ip ;;;
  let* x := file_get f in
  let* r := writei ip (if user then SUser (addr + i) else SKern (addr + i)) (f_off x) n1 in
  when (0 <? r) (file_mod f (fun x => set_f_off (u32 (f_off x + r)) x)) ;;;
  iunlock ip ;;;
  end_op ;;;
  if negb (r =? n1) then ret (inr i) else ret (inl (i + r)).

(** Every turn but the last writes [max_write] bytes. *)
Definition filewrite_gen (user : bool) (f : nat) (addr n : Z) : K Z :=
  let* x := file_get f in
  if f_writable x =? 0 then ret (-1) else
  match f_type x with
  | FD_PIPE => pipewrite (f_pipe x) addr n
  | FD_DEVICE =>
      let* d := devsw_get (f_major x) in
      match d with
      | DevNone => ret (-1)
      | DevConsole => consolewrite (SUser addr) n
      end
  | FD_INODE =>
      match f_ip x with
      | None => if 0 <? n then begin_op ;;; panic "ilock" else ret (if n =? 0 then n else -1)
      | Some ip =>
          let* i := while_ (S (S (Z.to_nat (n / max_write)))) (filewrite_body user f ip addr n) 0 in
          ret (if i =? n then n else -1)
      end
  | FD_NONE => panic "filewrite"
  end.

Definition filewrite (f : nat) (addr n : Z) : K Z := filewrite_gen true f addr n.
Definition kfilewrite (f : nat) (addr n : Z) : K Z := filewrite_gen false f addr n.

(** *** pipe.c: pipealloc *)

(** [bad:] of [pipealloc], when the pipe itself was not allocated. *)
Definition pipealloc_bad (f0 f1 : option nat) : K (option (nat * nat)) :=
  match f0 with Some f => fileclose f | None => ret tt end ;;;
  match f1 with Some f => fileclose f | None => ret tt end ;;;
  ret None.

Definition pipealloc : K (option (nat * nat)) :=
  let* f0 := filealloc in
  match f0 with
  | None => pipealloc_bad None None
  | Some r =>
      let* f1 := filealloc in
      match f1 with
      | None => pipealloc_bad (Some r) None
      | Some w =>
          let* pi := kalloc in
          if pi =? 0 then pipealloc_bad (Some r) (Some w) else
          kmod (fun k => set_k_pipes
            (<[pi := mkPipe (replicate (Z.to_nat PIPESIZE) 5) 0 0 1 1]> (k_pipes k)) k) ;;;
          initlock (Lpipe pi) ;;;
          file_mod r (set_f_type FD_PIPE) ;;;
          file_mod r (set_f_readable 1) ;;;
          file_mod r (set_f_writable 0) ;;;
          file_mod r (set_f_pipe pi) ;;;
          file_mod w (set_f_type FD_PIPE) ;;;
          file_mod w (set_f_readable 0) ;;;
          file_mod w (set_f_writable 1) ;;;
          file_mod w (set_f_pipe pi) ;;;
          ret (Some (r, w))
      end
  end.

End file.
