(* ===== verification/Fileio.v ===== *)
(** * Whole operations on files

    [fileread] and [filewrite] from end to end, by a process that is alone in
    the file system: the transactions of [filewrite], each of which locks the
    inode, writes a part and commits, and the log and the cache that every one
    of them leaves behind. *)

From Stdlib Require Import ZArith Lia.
From stdpp Require Import base gmap list strings numbers.
From S2P Require Import Prelude Riscv State Klib Sched Vm Usercopy Bio Log Tx Fs Balloc Inode File.

(** ** Definitions *)

(** A disk that does not lose power. *)
Definition steady : Disk := power_disk (fun _ _ => false).

(** No operation is going on: the log is empty, in memory and on disk, nothing
    is locked or referenced in the cache, which agrees with the disk [D]. *)
Record idle (p : nat) (pr : proc) (lg : log) (k : kernel) (D : Z -> list Z) : Prop := {
  id_st : st p pr lg k (fun _ => 0) (fun _ => 0) D D 0;
  id_ok : log_ok lg;
  id_n : l_n lg = 0;
  id_out : l_outstanding lg = 0;
  id_com : l_committing lg = 0;
  id_empty : log_empty (l_start lg) D;
}.

Definition unlocked : sleeplock := mkSleeplock 0 0.

(** [y], in slot [f] of the file table, is an open file on the inode [x] in
    slot [ip], which is in memory and not locked. *)
Record open_file (sb : superblock) (p : nat) (pr : proc) (lg : log) (k : kernel) (D : Z -> list Z)
    (f : nat) (y : file) (ip : nat) (x : inode) : Prop := {
  op_idle : idle p pr lg k D;
  op_room : LOGSIZE <= l_size lg;
  op_file : file_ok sb lg D [] x;
  op_inode : inode_block sb lg D [] x;
  op_full : full D x;
  op_sb : k_sb k = sb;
  op_ip : k_itable k !! ip = Some x;
  op_dev : i_dev x = ROOTDEV;
  op_valid : i_valid x = 1;
  op_ref : 1 <= i_ref x;
  op_lock : i_lock x = unlocked;
  op_slot : k_ftable k !! f = Some y;
  op_type : f_type y = FD_INODE;
  op_ptr : f_ip y = Some ip;
}.

(** What does not belong to the file system, to slot [f] of the file table or
    to slot [ip] of the inode table is the same. *)
Definition same_file (f ip : nat) (k k' : kernel) : Prop :=
  exists k1 x y, same_io k k1 /\
    k' = set_k_ftable (<[f := y]> (k_ftable k)) (set_k_itable (<[ip := x]> (k_itable k)) k1).

(** The inode on disk is the one in memory. *)
Definition on_disk (sb : superblock) (D : Z -> list Z) (x : inode) : Prop :=
  dinode_ok (to_dinode x) /\ dinode_get (D (IBLOCK (i_inum x) sb)) (dinode_off (i_inum x)) = to_dinode x.

(** The bytes [bs] are at [off] and the rest of the file is as it was.  Only the
    size and the addresses of the inode have changed, in memory and on disk,
    and the other inodes of its block are as they were; the file's new blocks
    were free and are the only ones newly in use; and every other block in use,
    outside the log, has its contents. *)
Record rewritten (sb : superblock) (lg : log) (D : Z -> list Z) (x : inode) (off : Z) (bs : list Z)
    (D' : Z -> list Z) (x' : inode) : Prop := {
  rw_bytes : forall o, 0 <= o < MAXFILE * BSIZE ->
    byte_at D' x' o = if decide (off <= o < off + Z.of_nat (length bs))
                      then default 0 (bs !! Z.to_nat (o - off)) else byte_at D x o;
  rw_size : i_size x' = Z.max (i_size x) (off + Z.of_nat (length bs));
  rw_inode : x' = set_i_size (i_size x') (set_i_addrs (i_addrs x') x);
  rw_used : forall m, 0 <= m < sb_size sb -> in_use D sb m = true -> in_use D' sb m = true;
  rw_fresh : forall s, is_slot s -> fblk D' x' s <> fblk D x s ->
    fblk D x s = 0 /\ 0 < fblk D' x' s < sb_size sb /\ in_use D sb (fblk D' x' s) = false;
  rw_frame : forall m, 0 < m < sb_size sb -> in_use D sb m = true -> ~ in_log lg m -> not_bitmap sb m ->
    (forall s, is_slot s -> fblk D x s <> m) -> m <> IBLOCK (i_inum x) sb -> D' m = D m;
  rw_new : forall m, 0 < m < sb_size sb -> in_use D' sb m = true ->
    in_use D sb m = true \/ exists s, is_slot s /\ fblk D x s = 0 /\ fblk D' x' s = m;
  rw_disk : on_disk sb D x -> on_disk sb D' x';
  rw_others : forall i : nat, ~ (dinode_off (i_inum x) <= Z.of_nat i < dinode_off (i_inum x) + sizeof_dinode) ->
    D' (IBLOCK (i_inum x) sb) !! i = D (IBLOCK (i_inum x) sb) !! i;
}.

(** Writing [bs] at [off] runs out of disk in one of the transactions, with the
    part [a] of [bs] already in the file. *)
Definition ran_out (sb : superblock) (lg : log) (D : Z -> list Z) (x : inode) (off : Z) (bs : list Z) : Prop :=
  exists a b c D1 x1, bs = a ++ b ++ c /\ rewritten sb lg D x off a D1 x1 /\
    out_of_blocks sb D1 x1 (off + Z.of_nat (length a)) b.

(** ** Lemmas *)

(** *** Between operations *)

Lemma sum_zero (f : nat -> nat) l : (forall i, i ∈ l -> f i = 0%nat) -> sum_list_with f l = 0%nat.
Proof.
  induction l as [|a l IH]; intros H; simpl; [done|]. rewrite (H a) by left. apply IH. intros i Hi. apply H. by right.
Qed.

(** With no reference to any block, no buffer is in use. *)
Lemma unref_unused k l : cache_inv k l -> (forall m, lref k m = 0) -> nused (k_bufs k) = 0%nat.
Proof.
  intros Hi Hr. apply sum_zero. intros i Hin. apply elem_of_seq in Hin. unfold inuse, is_unused.
  destruct (ci_dev _ _ Hi i) as [Hd|[_ H0]]; [lia| |by rewrite H0].
  specialize (Hr (b_blockno (bufat (k_bufs k) i))). unfold lref in Hr.
  assert (slot k (b_blockno (bufat (k_bufs k) i)) = Some i) as Hs by (apply (slot_spec Hi); split_and!; [lia|done|done]).
  rewrite Hs in Hr. by rewrite Hr.
Qed.

Lemma logged_none lg m : l_n lg = 0 -> logged lg m = false.
Proof. intros H0. unfold logged. by rewrite H0. Qed.

Lemma refs_nil lg m : refs lg [] m = if logged lg m then 1 else 0.
Proof. unfold refs. rewrite decide_False by apply not_elem_of_nil. lia. Qed.

Lemma idle_tx p pr lg k D : idle p pr lg k D -> tx p pr lg k D D [].
Proof.
  intros [Hst Hok Hn _ _ _]. split; try done; [|by apply NoDup_nil_2|by intros n b H%not_elem_of_nil].
  eapply st_ext; [exact Hst|..]; try done.
  - intros m. by rewrite refs_nil, logged_none.
  - unfold usage. lia.
Qed.

(** [begin_op] when nothing else goes on. *)
Lemma begin_op_idle p pr lg k D e :
  idle p pr lg k D ->
  let lg1 := set_l_outstanding 1 lg in
  begin_op (W k e) = Ret tt (W (set_k_log lg1 k) e) /\ tx p pr lg1 (set_k_log lg1 k) D D [].
Proof.
  intros Hid lg1. pose proof Hid as [Hst Hok Hn Ho Hc _]. split.
  - pose proof (st_free _ _ _ _ _ _ _ _ _ Hst) as Hf. pose proof (st_log _ _ _ _ _ _ _ _ _ Hst) as Hg.
    unfold begin_op. k_acquire. simpl wenv. rewrite while_S, bind_assoc, bind_kget. simpl.
    rewrite Hg, Hc, Ho, Hn. change (LOGSIZE <? 0 + (0 + 1) * MAXOPBLOCKS) with false. simpl.
    rewrite !bind_assoc. k_step. rewrite bind_assoc. k_release. unfold lg1. rewrite Hg, Ho. by destruct k.
  - pose proof (idle_tx _ _ _ _ _ Hid) as [Hs Hk Hcl Hnd Hh]. split; try done.
    + by apply (st_set_log _ _ lg lg1).
    + by destruct Hk.
    + intros n b Hin. by apply not_elem_of_nil in Hin.
Qed.

(** [end_op] of the only operation commits and leaves the file system idle. *)
Lemma end_op_idle p pr lg k C D e :
  tx p pr lg k C D [] -> last_op lg -> log_empty (l_start lg) D -> l_n lg < LOGSIZE ->
  exists k' D', end_op (D := steady) (W k e) = Ret tt (W k' e) /\ same_io k k' /\
    idle p pr (set_l_outstanding 0 (set_l_n 0 lg)) k' D' /\ forall m, ~ in_log lg m -> D' m = C m.
Proof.
  intros [Hst Hok Hcl _ _] Hlast He Hn. pose proof (lo_n _ Hok) as Hn0.
  assert (st p pr lg k (refs lg []) (fun _ => 0) C D (usage lg [])) as H0.
  { eapply st_ext; [exact Hst|..]; try done. }
  assert (forall m, in_log lg m -> refs lg [] m = 0) as Hrl.
  { intros m Hm. rewrite refs_nil. pose proof (logged_spec lg m Hok) as Hl. destruct (logged lg m); [|done].
    destruct Hl as (i & Hi & ->). by destruct (lo_home _ Hok i Hi). }
  assert (pinned lg (refs lg [])) as Hpin.
  { split; [|done]. intros i Hi. rewrite refs_nil. pose proof (logged_spec lg (home lg i) Hok) as Hl.
    destruct (logged lg (home lg i)); [lia|]. by destruct (Hl i Hi). }
  assert (usage lg [] < HEAD)%nat as HU by (assert (Z.of_nat HEAD = LOGSIZE) by done; unfold usage; simpl; lia).
  pose proof (end_op_st (fun _ _ => false) p pr lg k _ C D _ e Hok H0 HU Hpin He Hlast) as Hw.
  unfold wpc in Hw. fold steady in Hw. destruct (end_op (W k e)) as [[] w| | |w| |] eqn:E; try done.
  2:{ by destruct Hw as (_ & ? & ? & ?). }
  destruct Hw as (k' & R' & C' & D' & -> & Io & H1 & He' & Hl' & Hm').
  assert (forall m, R' m = 0) as HR.
  { intros m. destruct (decide (in_log lg m)) as [Hm|Hm]; [rewrite Hl' by done; by apply Hrl|].
    destruct (Hm' m Hm) as (_ & _ & ->). rewrite refs_nil. destruct (logged lg m); lia. }
  exists k', D'. split; [done|]. split; [done|]. split.
  - split; [|by destruct (log_ok_clear _ Hok)|done|done|apply Hlast|done].
    pose proof H1 as [Q1 [l Q2] Q3 Q4 Q5 Q6 Q7 Q8 Q9]. split; try done.
    + by exists l.
    + intros m. by rewrite Q4.
    + intros m. rewrite Q6. apply (st_idle _ _ _ _ _ _ _ _ _ m H1), HR.
    + rewrite (unref_unused k' l Q2); [done|]. intros m. by rewrite Q4.
  - intros m Hm. destruct (Hm' m Hm) as (-> & _ & _). unfold committed. destruct (logged lg m) eqn:El; [done|].
    symmetry. apply Hcl; [apply not_elem_of_nil|done].
Qed.

(** Contents that agree outside the log are the same file. *)
Section agree.
Context {sb : superblock} {lg : log} {C D : Z -> list Z} {H : list (Z * nat)} {x : inode}.
Hypothesis Hag : forall m, ~ in_log lg m -> D m = C m.
Hypothesis Hok : file_ok sb lg C H x.

Lemma agree_fblk s : fblk D x s = fblk C x s.
Proof using Hag Hok.
  unfold fblk. destruct (s <? NDIRECT); [done|]. destruct (s =? MAXFILE); [done|].
  destruct (Z.eqb_spec (ind x) 0) as [|H0]; [done|].
  rewrite Hag; [done|]. by apply (db_log _ _ _ _ _ (ind_data _ _ _ _ _ Hok H0)).
Qed.

Lemma agree_use m : 0 <= m < sb_size sb -> in_use D sb m = in_use C sb m.
Proof using Hag Hok. intros Hm. unfold in_use. rewrite Hag; [done|]. by apply (bo_log _ _ _ _ (fo_bitmap _ _ _ _ _ Hok)). Qed.

Lemma agree_block a : data_block sb lg C H a -> data_block sb lg D H a.
Proof using Hag Hok. intros [D1 D2 D3 D4 D5 D6]. split; try done; [by rewrite agree_use by lia|by rewrite Hag]. Qed.

Lemma agree_file : 0 < sb_size sb -> file_ok sb lg D H x.
Proof using Hag Hok.
  intros Hs. pose proof Hok as [[B1 B2 B3 B4 B5 B6] O2 O3 O4 O5]. split; try done.
  - split; try done; intros b Hb; [rewrite Hag by (by apply B3); by apply B5|].
    rewrite agree_use by done. by apply B6.
  - by rewrite agree_use by lia.
  - intros s Hsl. rewrite agree_fblk. intros H0. by apply agree_block, O4.
  - intros s s' Hsl Hsl'. rewrite !agree_fblk. by apply O5.
Qed.

Lemma agree_inode : inode_block sb lg C H x -> inode_block sb lg D H x.
Proof using Hag Hok. intros [I1 I2]. split; [by apply agree_block|]. intros s Hs. rewrite agree_fblk. by apply I2. Qed.

Lemma agree_full : full C x -> full D x.
Proof using Hag Hok. intros [F1 F2]. split; [done|]. intros bn Hb Hlt. rewrite agree_fblk. by apply F2. Qed.

Lemma agree_byte o : 0 <= o < MAXFILE * BSIZE -> byte_at D x o = byte_at C x o.
Proof using Hag Hok.
  intros Ho. unfold byte_at. rewrite agree_fblk. destruct (Z.eqb_spec (fblk C x (o / BSIZE)) 0) as [|H0]; [done|].
  assert (0 < BSIZE) as HB by done. assert (is_slot (o / BSIZE)) as Hs.
  { split; [apply Z.div_pos; lia|]. assert (o / BSIZE < MAXFILE) by (apply Z.div_lt_upper_bound; lia). lia. }
  rewrite Hag; [done|]. apply (db_log _ _ _ _ _ (fo_data _ _ _ _ _ Hok _ Hs H0)).
Qed.
End agree.

(** [rewritten] by parts. *)
Lemma rewritten_nil sb lg D x off : 0 <= off <= i_size x -> rewritten sb lg D x off [] D x.
Proof.
  intros Ho. split; try done; simpl.
  - intros o _. by rewrite decide_False by lia.
  - lia.
  - by destruct x.
  - by left.
Qed.

Lemma rewritten_app sb lg D x D1 x1 D2 x2 off a b :
  0 <= off -> off + Z.of_nat (length (a ++ b)) <= MAXFILE * BSIZE ->
  rewritten sb lg D x off a D1 x1 -> rewritten sb lg D1 x1 (off + Z.of_nat (length a)) b D2 x2 ->
  rewritten sb lg D x off (a ++ b) D2 x2.
Proof.
  intros Ho Hm [A1 A2 A3 A4 A5 A6 A7 A8 A9] [B1 B2 B3 B4 B5 B6 B7 B8 B9]. rewrite length_app in Hm.
  assert (i_inum x1 = i_inum x) as En by (rewrite A3; by destruct x).
  split; rewrite ?length_app.
  - intros o Hor. rewrite B1 by done. case_decide as Hb.
    + rewrite decide_True by lia. rewrite lookup_app_r by lia. do 2 f_equal. lia.
    + rewrite A1 by done. case_decide as Ha.
      * rewrite decide_True by lia. by rewrite lookup_app_l by lia.
      * by rewrite decide_False by lia.
  - rewrite B2, A2. lia.
  - rewrite B3. rewrite A3 at 1. by destruct x.
  - intros m Hr Hu. by apply B4, A4.
  - intros s Hs Hne. destruct (decide (fblk D1 x1 s = fblk D x s)) as [E|Hne'].
    + destruct (B5 s Hs ltac:(congruence)) as (F1 & F2 & F3). split_and!; [congruence|lia|lia|].
      destruct (in_use D sb (fblk D2 x2 s)) eqn:Eu; [|done]. rewrite A4 in F3 by (done || lia). done.
    + destruct (A5 s Hs Hne') as (F1 & F2 & F3). destruct (decide (fblk D2 x2 s = fblk D1 x1 s)) as [->|Hne2]; [done|].
      destruct (B5 s Hs Hne2) as (G1 & _). lia.
  - intros m Hr Hu Hl Hb Hs Hi. rewrite B6; try done; [by apply A6|apply A4; [lia|done]| |by rewrite En].
    intros s Hsl E. destruct (decide (fblk D1 x1 s = fblk D x s)) as [E'|Hne]; [apply (Hs s Hsl); congruence|].
    destruct (A5 s Hsl Hne) as (_ & _ & F3). congruence.
  - intros m Hr Hu. destruct (B7 m Hr Hu) as [Hu1|(s & Hs & Hz & E)].
    + destruct (A7 m Hr Hu1) as [|(s & Hs & Hz & E)]; [by left|right]. exists s. split_and!; [done..|].
      destruct (decide (fblk D2 x2 s = fblk D1 x1 s)) as [->|Hne2]; [done|]. destruct (B5 s Hs Hne2) as (G1 & _). lia.
    + right. exists s. split_and!; [done| |done]. destruct (decide (fblk D1 x1 s = fblk D x s)) as [<-|Hne]; [done|].
      by destruct (A5 s Hs Hne).
  - intros Hd. by apply B8, A8.
  - intros i Hi. rewrite En in B9. by rewrite B9, A9.
Qed.

(** *** Locking the inode *)

Definition locked_by (pr : proc) (x : inode) : inode := set_i_lock (mkSleeplock 1 (p_pid pr)) x.

Section lock.
Context (p : nat) (pr : proc) (ip : nat) (x : inode) (k : kernel) (e : list (kernel -> kernel)).
Hypothesis Hc : calm p pr k.

Lemma ilock_run `{Dr : Disk} :
  k_itable k !! ip = Some x -> 1 <= i_ref x -> i_valid x = 1 -> sl_locked (i_lock x) = 0 ->
  ilock ip (W k e) = Ret tt (W (put_inode ip (locked_by pr x) k) e).
Proof using Hc.
  intros Hx Hr Hv Hl. unfold ilock. rewrite (bind_Ret _ _ _ _ _ (inode_get_eq _ _ _ _ Hx)).
  rewrite (proj2 (Z.ltb_ge (i_ref x) 1)) by lia.
  erewrite (bind_Ret (acquiresleep _)).
  2:{ eapply acquiresleep_free; [simpl; by rewrite Hx|done|apply Hc..]. }
  assert (sl_put (SLinode ip) (mkSleeplock 1 (p_pid pr)) k = put_inode ip (locked_by pr x) k) as ->.
  { unfold put_inode. simpl. by rewrite (alter_insert _ _ _ x Hx). }
  rewrite (bind_Ret _ _ _ _ _ (inode_get_eq _ _ _ _ (put_inode_lookup _ _ _ _ Hx))). simpl. by rewrite Hv.
Qed.

(** The state after [iunlock]: sleepers on the lock are woken. *)
Definition unlock_inode : kernel :=
  set_k_procs (wake (Csleep (SLinode ip)) (k_cur k) (k_procs k)) (put_inode ip (set_i_lock unlocked x) k).

Lemma iunlock_run :
  k_itable k !! ip = Some x -> 1 <= i_ref x -> i_lock x = mkSleeplock 1 (p_pid pr) ->
  iunlock ip (W k e) = Ret tt (W unlock_inode e).
Proof using Hc.
  intros Hx Hr Hl. unfold iunlock. erewrite (bind_Ret (holdingsleep _)).
  2:{ eapply holdingsleep_eq; [simpl; by rewrite Hx|apply Hc..]. }
  rewrite Hl. simpl. rewrite Z.eqb_refl. simpl. rewrite (bind_Ret _ _ _ _ _ (inode_get_eq _ _ _ _ Hx)).
  rewrite (proj2 (Z.ltb_ge (i_ref x) 1)) by lia.
  erewrite releasesleep_eq; [|simpl; by rewrite Hx|apply Hc..].
  unfold unlock_inode, put_inode. simpl. by rewrite (alter_insert _ _ _ x Hx).
Qed.
End lock.

Lemma unlock_same ip x k : same_but ip k (unlock_inode ip x k).
Proof.
  exists (set_i_lock unlocked x), (k_bufs k), (wake (Csleep (SLinode ip)) (k_cur k) (k_procs k)), (k_log k).
  split; [apply woken_wake|]. by destruct k.
Qed.

Lemma tx_wake p pr lg k C D H ch :
  tx p pr lg k C D H -> tx p pr lg (set_k_procs (wake ch (k_cur k) (k_procs k)) k) C D H.
Proof.
  intros [[Hc [l Hi] ? ? ? ? ? ? ?] Hok Hcl Hnd Hh]. split; try done.
  - split; try done; [by apply calm_wake|exists l; by destruct Hi].
  - intros n b Hin. by destruct (Hh n b Hin).
Qed.

Lemma tx_set_ftable p pr lg k C D H t : tx p pr lg k C D H -> tx p pr lg (set_k_ftable t k) C D H.
Proof.
  intros [[Hc [l Hi] ? ? ? ? ? ? ?] Hok Hcl Hnd Hh]. split; try done.
  - split; try done; [by destruct Hc|exists l; by destruct Hi].
  - intros n b Hin. by destruct (Hh n b Hin).
Qed.

(** *** The rest of the kernel *)

Lemma same_file_io f ip k k' y x :
  k_ftable k !! f = Some y -> k_itable k !! ip = Some x -> same_io k k' -> same_file f ip k k'.
Proof.
  intros Hy Hx Hs. exists k', x, y. split; [done|]. rewrite !list_insert_id by done.
  destruct Hs as (b & ps & l & d & _ & ->). by destruct k.
Qed.

Lemma same_file_but f ip k k' y : k_ftable k !! f = Some y -> same_but ip k k' -> same_file f ip k k'.
Proof.
  intros Hy (x & b & ps & l & Hw & ->). eexists (set_k_log l (set_k_procs ps (set_k_bufs b k))), x, y.
  split; [exists b, ps, l, (k_disk k); split; [done|by destruct k]|]. rewrite list_insert_id by done. by destruct k.
Qed.

Lemma same_file_slot f ip k y x :
  k_itable k !! ip = Some x -> same_file f ip k (set_k_ftable (<[f := y]> (k_ftable k)) k).
Proof. intros Hx. exists k, x, y. split; [done|]. rewrite (list_insert_id (k_itable k)) by done. by destruct k. Qed.

Lemma same_file_trans f ip k k1 k2 : same_file f ip k k1 -> same_file f ip k1 k2 -> same_file f ip k k2.
Proof.
  intros (? & x1 & y1 & (b1 & p1 & l1 & d1 & W1 & ->) & ->) (? & x2 & y2 & (b2 & p2 & l2 & d2 & W2 & ->) & ->).
  eexists _, x2, y2. split; [exists b2, p2, l2, d2; split; [by etrans; [exact W1|exact W2]|reflexivity]|]. simpl. rewrite !list_insert_insert_eq. by destruct k.
Qed.

(** The bytes that were written. *)
Lemma rewritten_bytes sb lg D x off bs D' x' :
  rewritten sb lg D x off bs D' x' -> 0 <= off -> off + Z.of_nat (length bs) <= MAXFILE * BSIZE ->
  file_bytes D' x' off (Z.of_nat (length bs)) = bs.
Proof.
  intros Hr Hoff Hmax. apply list_eq. intros i. destruct (decide (i < length bs)%nat) as [Hi|Hi].
  - rewrite file_bytes_lookup by lia. rewrite (rw_bytes _ _ _ _ _ _ _ _ Hr) by lia. rewrite decide_True by lia.
    replace (off + Z.of_nat i - off) with (Z.of_nat i) by lia. rewrite Nat2Z.id.
    destruct (lookup_lt_is_Some_2 bs i Hi) as [b Hb]. by rewrite Hb.
  - rewrite !lookup_ge_None_2; [done|lia|]. pose proof (length_file_bytes D' x' off (Z.of_nat (length bs))). lia.
Qed.

Lemma same_file_same_mem f ip k k' : same_file f ip k k' -> k_mem k' = k_mem k.
Proof. by intros (? & x & y & (b & ps & l & d & _ & ->) & ->). Qed.

Lemma same_file_mem f ip k k' m : same_file f ip k k' -> same_file f ip (set_k_mem m k) (set_k_mem m k').
Proof.
  intros (? & x & y & (b & ps & l & d & Hw & ->) & ->).
  eexists _, x, y. split; [exists b, ps, l, d; split; [exact Hw|reflexivity]|]. by destruct k.
Qed.

Lemma file_get_eq f k e y : k_ftable k !! f = Some y -> file_get f (W k e) = Ret y (W k e).
Proof. intros Hy. unfold file_get. by rewrite bind_kget, Hy. Qed.

Lemma file_mod_eq f g k e y :
  k_ftable k !! f = Some y -> file_mod f g (W k e) = Ret tt (W (set_k_ftable (<[f := g y]> (k_ftable k)) k) e).
Proof. intros Hy. unfold file_mod, kmod. by rewrite (alter_insert _ _ _ _ Hy). Qed.

(** The lock of an inode has no part in its contents. *)
Lemma out_of_blocks_lock sb C x v off bs : out_of_blocks sb C (set_i_lock v x) off bs -> out_of_blocks sb C x off bs.
Proof.
  intros [Hz (j & C' & x' & [W1 W2 W3 W4 W5 W6 W7 W8] & Hall)]. split; [done|].
  exists j, C', (set_i_lock (i_lock x) x'). split; [|done]. split; try done. rewrite W5. by destruct x.
Qed.

Lemma file_ok_lock sb lg C H x v : file_ok sb lg C H x -> file_ok sb lg C H (set_i_lock v x).
Proof. by intros []. Qed.

(** *** Writing *)

Section filewrite.
#[local] Existing Instance steady.
Context (sb : superblock) (p : nat) (pr : proc) (f ip : nat).

(** What [filewrite] passes to [writei]. *)
Definition source_at (user : bool) (addr : Z) : source := if user then SUser addr else SKern addr.

Lemma rounds_write off n : 0 <= n <= max_write -> 0 <= rounds off n <= 4.
Proof.
  intros Hn. pose proof (Z.mod_pos_bound off BSIZE eq_refl) as Hm. unfold rounds, max_write, BSIZE, MAXOPBLOCKS in *.
  change ((10 - 1 - 1 - 2) / 2 * 1024) with 3072 in Hn.
  split; [apply Z.div_pos; lia|]. assert ((off mod 1024 + n + (1024 - 1)) / 1024 < 5) by (apply Z.div_lt_upper_bound; lia). lia.
Qed.

(** What [writei] wrote to the locked inode is in the file once the transaction
    is committed and the inode unlocked. *)
Lemma written_rewritten lg C D D' x off bs x' :
  written sb D (locked_by pr x) off bs C x' -> i_lock x = unlocked -> file_ok sb lg C [] x' -> inode_block sb lg D [] x ->
  full C x' -> (forall m, ~ in_log lg m -> D' m = C m) ->
  rewritten sb lg D x off bs D' (set_i_lock unlocked x').
Proof.
  intros [W1 W2 W3 _ W5 W6 W7 W8 W9 W10] Hl Hok [Hd _] [Hsz _] Hag.
  change (i_inum (locked_by pr x)) with (i_inum x) in *. change (to_dinode (locked_by pr x)) with (to_dinode x) in *.
  change (fblk D (locked_by pr x)) with (fblk D x) in *.
  assert (i_inum x' = i_inum x) as En by (rewrite W3; by destruct x).
  assert (length (i_addrs x') = Z.to_nat (NDIRECT + 1)) as Ha by apply Hok.
  pose proof (Hag _ (db_log _ _ _ _ _ Hd)) as Eb. assert (MAXFILE * BSIZE < 2 ^ 31) as HM by done.
  assert (forall s, fblk D' (set_i_lock unlocked x') s = fblk C x' s) as Ef by (intros s; exact (agree_fblk Hag Hok s)).
  split; try done.
  - intros o Ho. rewrite <- W1 by done. exact (agree_byte Hag Hok o Ho).
  - rewrite W3. destruct x. simpl in *. by subst.
  - intros m Hm Hu. rewrite (agree_use Hag Hok) by done. by apply W7.
  - intros s Hs. rewrite Ef. by apply W8.
  - intros m Hm Hu Hnl Hb Hs Hi. rewrite Hag by done. by apply W6.
  - intros m Hm Hu. rewrite (agree_use Hag Hok) in Hu by lia. destruct (W9 m Hm Hu) as [|(s & Hs & Hz & E)]; [by left|right].
    exists s. by rewrite Ef.
  - intros [Hdi _]. unfold on_disk. simpl i_inum. rewrite En, Eb. split; [|by apply W5].
    pose proof (file_ok_addrs _ _ _ _ _ Hok) as Hfa. destruct Hdi as [Q1 Q2 Q3 Q4 Q5 Q6 Q7].
    rewrite W3 in Hfa, Ha, Hsz |- *. destruct x. simpl in *. split; simpl in *; done || lia.
  - intros i Hi. rewrite Eb, W10. pose proof (dinode_off_range (i_inum x)) as [R1 R2].
    assert (Z.of_nat (length (D (IBLOCK (i_inum x) sb))) = BSIZE) as El by (rewrite (db_len _ _ _ _ _ Hd); by vm_compute).
    rewrite dinode_put_eq by (done || lia). pose proof (dinode_bytes_length (to_dinode x') Ha).
    rewrite put_bytes_lookup by lia. by rewrite decide_False by lia.
Qed.

Lemma open_log lg k D y x : open_file sb p pr lg k D f y ip x ->
  let lg1 := set_l_outstanding 1 lg in
  on_file sb ip p pr lg1 (put_inode ip (locked_by pr x) (set_k_log lg1 k)) D D [] (locked_by pr x) /\
  inode_block sb lg1 D [] (locked_by pr x) /\ (forall e, begin_op (W k e) = Ret tt (W (set_k_log lg1 k) e)) /\
  forall e, ilock ip (W (set_k_log lg1 k) e) = Ret tt (W (put_inode ip (locked_by pr x) (set_k_log lg1 k)) e).
Proof.
  intros [Hid Hroom Hfo Hib Hfull Hsb Hip Hdev Hv Hr Hl Hf Hty Hptr] lg1.
  destruct (begin_op_idle p pr lg k D [] Hid) as [_ T1]. fold lg1 in T1.
  split_and!.
  - split; [by apply tx_put_inode| |done|by eapply put_inode_lookup|done].
    by apply file_ok_lock, (file_ok_log sb lg).
  - destruct Hib as [[] ?]. by split.
  - intros e. apply (begin_op_idle p pr lg k D e Hid).
  - intros e. eapply ilock_run; [apply T1|done|done|done|by rewrite Hl].
Qed.

(** The end of a transaction that wrote [bs] at [off] and moved the file to [y']:
    the inode is unlocked and the log committed. *)
Lemma close_log lg k D y x lg3 k3 C3 x3 off bs y' n e :
  open_file sb p pr lg k D f y ip x -> on_file sb ip p pr lg3 k3 C3 D [] x3 -> inode_block sb lg3 C3 [] x3 ->
  written sb D (locked_by pr x) off bs C3 x3 -> cost [] n (set_l_outstanding 1 lg) lg3 -> Z.of_nat n < LOGSIZE ->
  same_but ip k k3 -> f_type y' = FD_INODE -> f_ip y' = Some ip ->
  let k4 := set_k_ftable (<[f := y']> (k_ftable k3)) k3 in
  exists k5 k6 lg6 D6 x6, iunlock ip (W k4 e) = Ret tt (W k5 e) /\ end_op (W k5 e) = Ret tt (W k6 e) /\
    open_file sb p pr lg6 k6 D6 f y' ip x6 /\ rewritten sb lg D x off bs D6 x6 /\
    (forall m, in_log lg6 m <-> in_log lg m) /\ same_file f ip k k6.
Proof.
  intros [Hid Hroom Hfo Hib Hfull Hsb Hip Hdev Hv Hr Hl Hf Hty Hptr] F3 I3 Wn Co Hn S3 Hty' Hptr' k4.
  assert (k_ftable k3 !! f = Some y) as Hf3 by (by destruct S3 as (? & ? & ? & ? & _ & ->)).
  pose proof (of_tx _ _ _ _ _ _ _ _ _ _ F3) as T3. pose proof (tx_set_ftable _ _ _ _ _ _ _ (<[f := y']> (k_ftable k3)) T3) as T4.
  fold k4 in T4. pose proof (of_ip _ _ _ _ _ _ _ _ _ _ F3) as Hip3.
  assert (i_ref x3 = i_ref x /\ i_valid x3 = i_valid x /\ i_dev x3 = i_dev x /\
    i_lock x3 = mkSleeplock 1 (p_pid pr)) as (X1 & X2 & X3 & X4).
  { rewrite (wn_inode _ _ _ _ _ _ _ Wn). by destruct x. }
  pose proof (iunlock_run p pr ip x3 k4 e (st_calm _ _ _ _ _ _ _ _ _ (tx_st _ _ _ _ _ _ _ T4)) Hip3 ltac:(lia) X4) as E5.
  set (k5 := unlock_inode ip x3 k4) in *.
  assert (tx p pr lg3 k5 C3 D []) as T5 by (apply (tx_wake _ _ _ (put_inode ip (set_i_lock unlocked x3) k4)), tx_put_inode, T4).
  pose proof (co_start _ _ _ _ Co) as Est. simpl in Est.
  destruct (end_op_idle p pr lg3 k5 C3 D e T5) as (k6 & D6 & E6 & Io & Hid6 & Hag).
  { split; [apply (co_op _ _ _ _ Co)|]. rewrite (co_commit _ _ _ _ Co). apply (id_com _ _ _ _ _ Hid). }
  { rewrite Est. apply (id_empty _ _ _ _ _ Hid). }
  { pose proof (co_n _ _ _ _ Co) as Hc. pose proof (id_n _ _ _ _ _ Hid). simpl in Hc. lia. }
  set (lg6 := set_l_outstanding 0 (set_l_n 0 lg3)) in *. set (x6 := set_i_lock unlocked x3).
  assert (forall m, in_log lg6 m <-> in_log lg m) as Hin6 by (intros m; exact (co_in _ _ _ _ Co m)).
  assert (forall m, ~ in_log lg6 m -> D6 m = C3 m) as Hag6 by done.
  assert (file_ok sb lg6 C3 [] x3) as Hfo6 by (by apply (file_ok_log sb lg3), F3).
  assert (k_itable k5 !! ip = Some x6) as Hip5 by (by eapply (put_inode_lookup ip x6 x3 k4)).
  assert (k_ftable k5 !! f = Some y') as Hf5 by (apply list_lookup_insert_eq; by eapply lookup_lt_Some).
  exists k5, k6, lg6, D6, x6. split; [done|]. split; [done|]. split; [|split; [|split; [done|]]].
  - assert (k_sb k5 = sb) as Hsb5 by apply (of_sb _ _ _ _ _ _ _ _ _ _ F3).
    destruct Io as (? & ? & ? & ? & _ & ->). split; try done; try (simpl; congruence || lia).
    + pose proof (co_size _ _ _ _ Co) as Hsz. unfold lg6. simpl in *. lia.
    + apply (file_ok_lock sb lg6 D6 [] x3), (agree_file Hag6 Hfo6).
      pose proof (db_range _ _ _ _ _ (ib_data _ _ _ _ _ Hib)). lia.
    + destruct (agree_inode Hag6 Hfo6) as [J1 J2]; [|by split].
      destruct I3 as [[J1 J2 J3 J4 J5 J6] J7]. by split.
    + apply (agree_full Hag6 Hfo6). by apply (wn_full _ _ _ _ _ _ _ Wn).
  - apply (written_rewritten lg C3 D D6 x off bs x3 Wn Hl).
    + eapply file_ok_log; [|exact Hfo6]. intros m. by rewrite Hin6.
    + done.
    + by apply (wn_full _ _ _ _ _ _ _ Wn).
    + intros m Hm. apply Hag. intros Hin. apply Hm. by apply Hin6.
  - eapply same_file_trans; [by eapply same_file_but|].
    eapply same_file_trans; [by eapply (same_file_slot f ip k3 y')|].
    eapply same_file_trans; [eapply same_file_but; [|exact (unlock_same ip x3 k4)]|by eapply same_file_io]. exact Hf5.
Qed.

(** One turn of the loop of [filewrite], a whole transaction. *)
Lemma filewrite_turn user lg k D y x addr n i bs e :
  open_file sb p pr lg k D f y ip x -> src_gives p pr (k_mem k) (source_at user (addr + i)) bs ->
  0 <= i < n -> let n1 := Z.min max_write (n - i) in Z.of_nat (length bs) = n1 ->
  0 <= f_off y <= i_size x -> f_off y + n1 <= MAXFILE * BSIZE ->
  (exists lg' k' D' x', filewrite_body user f ip addr n i (W k e) = Ret (inl (i + n1)) (W k' e) /\
     open_file sb p pr lg' k' D' f (set_f_off (f_off y + n1) y) ip x' /\
     rewritten sb lg D x (f_off y) bs D' x' /\ (forall m, in_log lg' m <-> in_log lg m) /\ same_file f ip k k') \/
  (out_of_blocks sb D x (f_off y) bs /\ filewrite_body user f ip addr n i (W k e) = Panic "balloc: out of blocks").
Proof.
  intros Hop Hsrc Hi n1 Hlen Hoff Hmax. destruct (open_log lg k D y x Hop) as (F0 & I0 & E0 & E1).
  pose proof (op_slot _ _ _ _ _ _ _ _ _ _ Hop) as Hf. pose proof (op_room _ _ _ _ _ _ _ _ _ _ Hop) as Hroom.
  pose proof (id_n _ _ _ _ _ (op_idle _ _ _ _ _ _ _ _ _ _ Hop)) as Hn0.
  set (lg1 := set_l_outstanding 1 lg) in *. set (k2 := put_inode ip (locked_by pr x) (set_k_log lg1 k)) in *.
  assert (max_write = 3072) as Hmw by done. assert (MAXFILE * BSIZE < 2 ^ 31) as HM by done.
  assert (LOGSIZE = 30 /\ HEAD = 30%nat) as [HL HH] by done.
  unfold filewrite_body. rewrite (proj2 (Z.ltb_lt i n)) by lia. cbn [negb].
  assert ((if max_write <? n - i then max_write else n - i) = n1) as ->.
  { destruct (Z.ltb_spec max_write (n - i)); lia. }
  rewrite (bind_Ret _ _ _ _ _ (E0 e)), (bind_Ret _ _ _ _ _ (E1 e)), (bind_Ret _ _ _ _ _ (file_get_eq f k2 e y Hf)).
  change (if user then SUser (addr + i) else SKern (addr + i)) with (source_at user (addr + i)).
  pose proof (rounds_write (f_off y) n1 ltac:(lia)) as Hrd.
  pose proof (writei_run sb ip p pr (source_at user (addr + i)) lg1 k2 D D [] (locked_by pr x) (f_off y) bs e F0 Hsrc I0) as Hw.
  rewrite Hlen in Hw. destruct Hw as [(lg3 & k3 & C3 & x3 & E3 & F3 & I3 & Wn & Co & S3)|[Ho E3]]; try done.
  { unfold usage. simpl. lia. }
  { unfold log_room. simpl. lia. }
  2:{ right. split; [by eapply out_of_blocks_lock|by apply bind_Panic]. }
  left. rewrite (bind_Ret _ _ _ _ _ E3). unfold when. rewrite (proj2 (Z.ltb_lt 0 n1)) by lia.
  assert (k_ftable k3 !! f = Some y) as Hf3 by (by destruct S3 as (? & ? & ? & ? & _ & ->)).
  rewrite (bind_Ret _ _ _ _ _ (file_mod_eq f _ k3 e y Hf3)). rewrite u32_small by lia.
  assert (same_but ip k k2) as S2.
  { exists (locked_by pr x), (k_bufs k), (k_procs k), lg1. split; [done|]. by destruct k. }
  destruct (close_log lg k D y x lg3 k3 C3 x3 (f_off y) bs (set_f_off (f_off y + n1) y) _ e Hop F3 I3 Wn Co)
    as (k5 & k6 & lg6 & D6 & x6 & E5 & E6 & O6 & R6 & L6 & S6); [lia|by eapply same_but_trans|apply Hop|apply Hop|].
  exists lg6, k6, D6, x6. rewrite (bind_Ret _ _ _ _ _ E5), (bind_Ret _ _ _ _ _ E6), Z.eqb_refl. done.
Qed.

Lemma gives_take m src bs j : src_gives p pr m src bs -> src_gives p pr m src (take j bs).
Proof.
  intros Hs k e i n Hc Hm Hi Hn Hl. rewrite length_take in Hl. rewrite (Hs k e) by (done || lia).
  rewrite !take_drop_commute, take_take. do 4 f_equal. lia.
Qed.

Lemma rewritten_log lg lg' D x off bs D' x' :
  (forall m, in_log lg' m <-> in_log lg m) -> rewritten sb lg' D x off bs D' x' -> rewritten sb lg D x off bs D' x'.
Proof.
  intros Hl [R1 R2 R3 R4 R5 R6 R7 R8 R9]. split; try done. intros m Hm Hu Hin. apply R6; try done. by rewrite Hl.
Qed.

(** The whole loop. *)
Lemma filewrite_loop user addr n e fuel : forall lg k D y x i bs,
  open_file sb p pr lg k D f y ip x -> src_gives p pr (k_mem k) (source_at user (addr + i)) bs ->
  0 <= i <= n -> Z.of_nat (length bs) = n - i -> 0 <= f_off y <= i_size x -> f_off y + (n - i) <= MAXFILE * BSIZE ->
  (0 < fuel)%nat -> n - i <= (Z.of_nat fuel - 1) * max_write ->
  (exists lg' k' D' x', while_ fuel (filewrite_body user f ip addr n) i (W k e) = Ret n (W k' e) /\
     open_file sb p pr lg' k' D' f (set_f_off (f_off y + (n - i)) y) ip x' /\
     rewritten sb lg D x (f_off y) bs D' x' /\ same_file f ip k k') \/
  (ran_out sb lg D x (f_off y) bs /\ while_ fuel (filewrite_body user f ip addr n) i (W k e) = Panic "balloc: out of blocks").
Proof.
  assert (max_write = 3072) as Hmw by done.
  induction fuel as [|fuel IH]; intros lg k D y x i bs Hop Hsrc Hi Hlen Hoff Hmax Hf0 Hfuel; [lia|].
  rewrite while_S. destruct (decide (i < n)) as [Hlt|Hge].
  2:{ left. assert (i = n) as -> by lia. assert (bs = []) as -> by (apply nil_length_inv; lia).
      exists lg, k, D, x. rewrite Z.sub_diag, Z.add_0_r. split_and!.
      - erewrite bind_Ret; [|unfold filewrite_body; rewrite (proj2 (Z.ltb_ge n n)) by lia; reflexivity]. done.
      - by destruct y.
      - by apply rewritten_nil.
      - eapply same_file_io; [apply Hop|apply Hop|reflexivity]. }
  set (n1 := Z.min max_write (n - i)). set (a := take (Z.to_nat n1) bs). set (b := drop (Z.to_nat n1) bs).
  assert (Z.of_nat (length a) = n1) as Hla by (unfold a; rewrite length_take; lia).
  assert (bs = a ++ b) as Hab by (symmetry; apply take_drop).
  destruct (filewrite_turn user lg k D y x addr n i a e Hop) as [(lg1 & k1 & D1 & x1 & E1 & O1 & R1 & L1 & S1)|[Ho E1]].
  { by apply gives_take. } { lia. } { done. } { done. } { lia. }
  2:{ right. split; [|by apply bind_Panic]. exists [], a, b, D, x. split; [done|].
      split; [by apply rewritten_nil|]. by rewrite Z.add_0_r. }
  fold n1 in E1, O1. rewrite (bind_Ret _ _ _ _ _ E1).
  assert (src_gives p pr (k_mem k1) (source_at user (addr + (i + n1))) b) as Hsrc1.
  { assert (k_mem k1 = k_mem k) as -> by (by destruct S1 as (? & ? & ? & (? & ? & ? & ? & _ & ->) & ->)).
    replace (source_at user (addr + (i + n1))) with (source_add (source_at user (addr + i)) n1)
      by (destruct user; simpl; f_equal; lia).
    apply gives_drop; [done|lia]. }
  pose proof (rw_size _ _ _ _ _ _ _ _ R1) as Hsz.
  destruct (IH lg1 k1 D1 _ x1 (i + n1) b O1 Hsrc1) as [(lg2 & k2 & D2 & x2 & E2 & O2 & R2 & S2)|[Ho E2]];
    try (simpl; lia); try lia.
  { unfold b. rewrite length_drop. lia. }
  - left. exists lg2, k2, D2, x2. split; [done|]. split_and!.
    + simpl in O2. replace (f_off y + (n - i)) with (f_off y + n1 + (n - (i + n1))) by lia. by destruct y.
    + rewrite Hab. eapply rewritten_app; [lia| |exact R1|].
      * rewrite <- Hab. lia.
      * rewrite Hla. by apply (rewritten_log lg lg1).
    + by eapply same_file_trans.
  - right. split; [|done]. destruct Ho as (a' & b' & c' & D3 & x3 & Eb & R3 & Ho). simpl in R3, Ho.
    exists (a ++ a'), b', c', D3, x3. split; [rewrite Hab, Eb; by rewrite <- app_assoc|].
    rewrite length_app, Nat2Z.inj_add, Hla, Z.add_assoc. split; [|done].
    apply (f_equal length) in Eb. rewrite !length_app in Eb. unfold b in Eb. rewrite length_drop in Eb.
    eapply rewritten_app; [lia| |exact R1|].
    + rewrite length_app. lia.
    + rewrite Hla. by apply (rewritten_log lg lg1).
Qed.

(** [filewrite] and [kfilewrite]. *)
Lemma filewrite_run user lg k D y x addr bs e :
  open_file sb p pr lg k D f y ip x -> f_writable y <> 0 -> src_gives p pr (k_mem k) (source_at user addr) bs ->
  0 <= f_off y <= i_size x -> let n := Z.of_nat (length bs) in f_off y + n <= MAXFILE * BSIZE ->
  (exists lg' k' D' x', filewrite_gen user f addr n (W k e) = Ret n (W k' e) /\
     open_file sb p pr lg' k' D' f (set_f_off (f_off y + n) y) ip x' /\
     rewritten sb lg D x (f_off y) bs D' x' /\ same_file f ip k k') \/
  (ran_out sb lg D x (f_off y) bs /\ filewrite_gen user f addr n (W k e) = Panic "balloc: out of blocks").
Proof.
  intros Hop Hw Hsrc Hoff n Hmax. unfold filewrite_gen.
  rewrite (bind_Ret _ _ _ _ _ (file_get_eq f k e y (op_slot _ _ _ _ _ _ _ _ _ _ Hop))).
  rewrite (proj2 (Z.eqb_neq _ _) Hw), (op_type _ _ _ _ _ _ _ _ _ _ Hop), (op_ptr _ _ _ _ _ _ _ _ _ _ Hop).
  assert (max_write = 3072) as Hmw by done. pose proof (Z.div_mod n max_write ltac:(lia)) as Hd.
  pose proof (Z.mod_pos_bound n max_write ltac:(lia)) as Hm. assert (0 <= n / max_write) by (apply Z.div_pos; lia).
  destruct (filewrite_loop user addr n e (S (S (Z.to_nat (n / max_write)))) lg k D y x 0 bs Hop)
    as [(lg' & k' & D' & x' & E & O & R & S)|[Ho E]]; try lia.
  - by rewrite Z.add_0_r.
  - left. exists lg', k', D', x'. rewrite (bind_Ret _ _ _ _ _ E), Z.eqb_refl. rewrite Z.sub_0_r in O. done.
  - right. split; [done|]. by apply bind_Panic.
Qed.
End filewrite.

(** *** Reading *)

Lemma tx_idle p pr lg k k' D : idle p pr lg k D -> tx p pr lg k' D D [] -> idle p pr lg k' D.
Proof.
  intros [_ Hok Hn Ho Hc He] Ht. split; try done. pose proof (tx_st _ _ _ _ _ _ _ Ht) as Hst.
  eapply st_ext; [exact Hst|..]; try done; [|unfold usage; simpl; lia]. intros m. by rewrite refs_nil, logged_none.
Qed.

Section fileread.
#[local] Existing Instance steady.
Context (sb : superblock) (p : nat) (pr : proc) (f ip : nat).

(** A change of the file's slot and of memory. *)
Lemma open_file_slot lg k D y x y' :
  open_file sb p pr lg k D f y ip x -> f_type y' = FD_INODE -> f_ip y' = Some ip ->
  open_file sb p pr lg (set_k_ftable (<[f := y']> (k_ftable k)) k) D f y' ip x.
Proof.
  intros [Hid Hroom Hfo Hib Hfull Hsb Hip Hdev Hv Hr Hl Hf Hty Hptr] Hty' Hptr'. split; try done.
  - eapply tx_idle; [done|]. by apply tx_set_ftable, idle_tx.
  - apply list_lookup_insert_eq. by eapply lookup_lt_Some.
Qed.

Lemma kfileread_run lg k D y x addr n e :
  open_file sb p pr lg k D f y ip x -> f_readable y <> 0 -> 0 <= f_off y <= i_size x ->
  0 <= n -> f_off y + n < 2 ^ 32 ->
  let n' := Z.min n (i_size x - f_off y) in
  exists k', kfileread f addr n (W k e) = Ret n' (W k' e) /\
    open_file sb p pr lg k' D f (set_f_off (f_off y + n') y) ip x /\
    same_file f ip (set_k_mem (st_bytes (k_mem k) addr (file_bytes D x (f_off y) n')) k) k'.
Proof.
  intros Hop Hrd Hoff Hn Hlt n'. pose proof Hop as [Hid Hroom Hfo Hib Hfull Hsb Hip Hdev Hv Hr Hl Hf Hty Hptr].
  unfold kfileread, fileread_gen. rewrite (bind_Ret _ _ _ _ _ (file_get_eq f k e y Hf)).
  rewrite (proj2 (Z.eqb_neq _ _) Hrd), Hty, Hptr. unfold ilock_ptr.
  pose proof (idle_tx _ _ _ _ _ Hid) as T0.
  rewrite (bind_Ret _ _ _ _ _ (ilock_run p pr ip x k e (st_calm _ _ _ _ _ _ _ _ _ (tx_st _ _ _ _ _ _ _ T0)) Hip Hr Hv
    ltac:(by rewrite Hl))).
  set (k1 := put_inode ip (locked_by pr x) k).
  assert (on_file sb ip p pr lg k1 D D [] (locked_by pr x)) as F1.
  { split; [by apply tx_put_inode|by apply file_ok_lock|done|by eapply put_inode_lookup|done]. }
  assert (usage lg [] < HEAD)%nat as Hu by (unfold usage; rewrite (id_n _ _ _ _ _ Hid); simpl; apply Nat.ltb_lt; done).
  destruct (readi_run sb ip p pr (DKern addr) lg k1 D D [] (locked_by pr x) (f_off y) n e F1 eq_refl Hu Hfull Hoff Hn Hlt)
    as (k2 & E2 & F2 & S2). simpl i_size in E2, S2. fold n' in E2, S2. rewrite u32_small by lia.
  rewrite (bind_Ret _ _ _ _ _ (file_get_eq f k1 e y Hf)), (bind_Ret _ _ _ _ _ E2). cbn [fst].
  change (file_bytes D (locked_by pr x)) with (file_bytes D x) in *. set (bs := file_bytes D x (f_off y) n') in *.
  assert (k_ftable k2 !! f = Some y) as Hf2 by (by destruct S2 as (? & ? & ? & _ & ->)).
  set (y3 := set_f_off (f_off y + n') y). set (k3 := set_k_ftable (<[f := y3]> (k_ftable k2)) k2).
  assert (when (0 <? n') (file_mod f (fun x => set_f_off (u32 (f_off x + n')) x)) (W k2 e) = Ret tt (W k3 e)) as E3.
  { unfold when, k3, y3. pose proof (op_full _ _ _ _ _ _ _ _ _ _ Hop) as [Hsz _]. assert (MAXFILE * BSIZE < 2 ^ 31) by done.
    destruct (Z.ltb_spec 0 n') as [Hpos|Hz]; [by rewrite (file_mod_eq f _ k2 e y Hf2), u32_small by lia|].
    assert (n' = 0) as -> by lia. rewrite Z.add_0_r. destruct y. unfold set_f_off. simpl.
    rewrite list_insert_id by done. by destruct k2. }
  rewrite (bind_Ret _ _ _ _ _ E3).
  pose proof (tx_set_ftable _ _ _ _ _ _ _ (<[f := y3]> (k_ftable k2)) (of_tx _ _ _ _ _ _ _ _ _ _ F2)) as T3. fold k3 in T3.
  assert (k_itable k3 !! ip = Some (locked_by pr x)) as Hip3 by apply F2.
  rewrite (bind_Ret _ _ _ _ _ (iunlock_run p pr ip (locked_by pr x) k3 e (st_calm _ _ _ _ _ _ _ _ _ (tx_st _ _ _ _ _ _ _ T3)) Hip3 Hr eq_refl)).
  assert (set_i_lock unlocked (locked_by pr x) = x) as Ex by (destruct x; simpl in *; by subst).
  exists (unlock_inode ip (locked_by pr x) k3). split; [done|]. split.
  - split; try done; try apply F2.
    + apply (tx_idle _ _ _ k); [done|]. unfold unlock_inode. apply (tx_wake _ _ _ (put_inode ip _ k3)). by apply tx_put_inode.
    + unfold unlock_inode. rewrite Ex. by eapply (put_inode_lookup ip x _ k3).
    + apply list_lookup_insert_eq. by eapply lookup_lt_Some.
  - eapply same_file_trans; [|eapply same_file_but; [|apply unlock_same]].
    2:{ apply list_lookup_insert_eq. by eapply lookup_lt_Some. }
    eapply same_file_trans; [|by eapply same_file_slot; apply F2].
    eapply same_file_but; [exact Hf|]. exists (locked_by pr x). exact S2.
Qed.
End fileread.
