(* ===== verification/Create.v ===== *)
(** * sysfile.c: creating and removing names

    [create] and [isdirempty] of [sysfile.c], which both the system calls and
    the swap-file routines of [fs.c] use, and the common part of the two
    routines that remove a directory entry. *)

From Stdlib Require Import ZArith Lia.
From stdpp Require Import base gmap list strings numbers.
From S2P Require Import Prelude Riscv State Klib Sched Usercopy Bio Log Fs.

(** ** Definitions *)

Section create.
Context `{D : Disk}.

Definition isdirempty (dp : nat) : K bool :=
  let* x := inode_get dp in
  while_ (S (S (Z.to_nat (i_size x / sizeof_dirent))))
    (fun off =>
       let* x := inode_get dp in
       if negb (off <? i_size x) then ret (inr true) else
       let* r := readi dp DLocal off sizeof_dirent in
       if negb (fst r =? sizeof_dirent) then panic "isdirempty: readi" else
       if negb (dirent_inum (snd r) =? 0) then ret (inr false)
       else ret (inl (off + sizeof_dirent))) (2 * sizeof_dirent).

Definition create (path : list Z) (type major minor : Z) : K (option nat) :=
  let* r := nameiparent path in
  match r with
  | (None, _) => ret None
  | (Some dp, name) =>
      ilock dp ;;;
      let* r := dirlookup dp name in
      match r with
      | Some (ip, _) =>
          iunlockput dp ;;;
          ilock ip ;;;
          let* x := inode_get ip in
          if (type =? T_FILE) && ((i_type x =? T_FILE) || (i_type x =? T_DEVICE))
          then ret (Some ip)
          else iunlockput ip ;;; ret None
      | None =>
          let* d := inode_get dp in
          let* ip := ialloc (i_dev d) type in
          ilock ip ;;;
          inode_mod ip (set_i_major major) ;;;
          inode_mod ip (set_i_minor minor) ;;;
          inode_mod ip (set_i_nlink 1) ;;;
          iupdate ip ;;;
          when (type =? T_DIR)
            (inode_mod dp (fun x => set_i_nlink (s16 (i_nlink x + 1)) x) ;;;
             iupdate dp ;;;
             let* x := inode_get ip in
             let* r := dirlink ip (cstr ".") (i_inum x) in
             if r <? 0 then panic "create dots" else
             let* d := inode_get dp in
             let* r := dirlink ip (cstr "..") (i_inum d) in
             when (r <? 0) (panic "create dots")) ;;;
          let* x := inode_get ip in
          let* r := dirlink dp name (i_inum x) in
          if r <? 0 then panic "create: dirlink" else
          iunlockput dp ;;;
          ret (Some ip)
      end
  end.

(** The body [sys_unlink] and [removeSwapFile] share, between [begin_op] and
    the [return]. *)
Definition unlink_path (path : list Z) : K Z :=
  let* r := nameiparent path in
  match r with
  | (None, _) => end_op ;;; ret (-1)
  | (Some dp, name) =>
      ilock dp ;;;
      if (namecmp name (cstr ".") =? 0) || (namecmp name (cstr "..") =? 0)
      then iunlockput dp ;;; end_op ;;; ret (-1)
      else
      let* r := dirlookup dp name in
      match r with
      | None => iunlockput dp ;;; end_op ;;; ret (-1)
      | Some (ip, off) =>
          ilock ip ;;;
          let* x := inode_get ip in
          if i_nlink x <? 1 then panic "unlink: nlink < 1" else
          let* busy :=
            (if i_type x =? T_DIR then let* b := isdirempty ip in ret (negb b) else ret false) in
          if (busy : bool) then
            iunlockput ip ;;;
            iunlockput dp ;;; end_op ;;; ret (-1)
          else
          let* r := writei dp (SLocal (replicate (Z.to_nat sizeof_dirent) 0)) off sizeof_dirent in
          if negb (r =? sizeof_dirent) then panic "unlink: writei" else
          let* x := inode_get ip in
          when (i_type x =? T_DIR)
            (inode_mod dp (fun x => set_i_nlink (s16 (i_nlink x - 1)) x) ;;; iupdate dp) ;;;
          iunlockput dp ;;;
          inode_mod ip (fun x => set_i_nlink (s16 (i_nlink x - 1)) x) ;;;
          iupdate ip ;;;
          iunlockput ip ;;;
          end_op ;;;
          ret 0
      end
  end.

End create.
