(* ===== verification/Swap.v ===== *)
(** * Swap files: the end of fs.c, and the part of vm.c that swaps

    A process above pid 2 has a swap file ["/.swap<pid>"] with room for
    [MAX_TOTAL_PAGES - MAX_PYSC_PAGES] pages.  [swap] and [get_page_from_file]
    move pages between memory and that file; [uvmalloc] calls [swap] when the
    process has no room for another page in memory. *)

From Stdlib Require Import ZArith Lia.
From stdpp Require Import base gmap list strings numbers.
From S2P Require Import Prelude Riscv State Klib Sched Kalloc Uart Vm Usercopy Paging Bio Log Fs Pipe File Create.

(** ** Definitions *)

Definition DIGITS : Z := 14.

(** The digits of a number, as the second loop of [itoa] stores them from the
    end backwards; the first loop only counts them. *)
Fixpoint itoa_loop (fuel : nat) (i : Z) (b : list Z) : list Z :=
  match fuel with
  | O => b
  | S fuel' =>
      let b := (chr "0" + i mod 10) :: b in
      if i / 10 =? 0 then b else itoa_loop fuel' (i / 10) b
  end.

(** An [int] has at most ten digits. *)
Definition itoa (i : Z) : list Z :=
  if i <? 0 then chr "-" :: itoa_loop 10 (- i) [] else itoa_loop 10 i [].

(** [path]: an array of [DIGITS] chars that also holds the final NUL. *)
Definition swap_path (pid : Z) : K (list Z) :=
  let path := cstr "/.swap" ++ itoa pid in
  if DIGITS <=? Z.of_nat (length path) then fault "path overflow" else ret path.

Section swap.
Context `{L : Layout} `{D : Disk} `{Sel : Selection}.

Definition removeSwapFile (p : nat) : K Z :=
  let* pr := proc_get p in
  let* path := swap_path (p_pid pr) in
  match p_swapFile pr with
  | None => ret (-1)
  | Some f =>
      fileclose f ;;;
      begin_op ;;;
      unlink_path path
  end.

Definition createSwapFile (p : nat) : K Z :=
  let* pr := proc_get p in
  let* path := swap_path (p_pid pr) in
  begin_op ;;;
  let* ip := create path T_FILE 0 0 in
  iunlock_ptr ip ;;;
  let* f := filealloc in
  proc_mod p (set_p_swapFile f) ;;;
  match f with
  | None => panic "no slot for files on /store"
  | Some f =>
      file_mod f (set_f_ip ip) ;;;
      file_mod f (set_f_type FD_INODE) ;;;
      file_mod f (set_f_off 0) ;;;
      file_mod f (set_f_readable O_WRONLY) ;;;
      file_mod f (set_f_writable O_RDWR) ;;;
      end_op ;;;
      ret 0
  end.

Definition swap_file (p : nat) : K nat :=
  let* pr := proc_get p in
  match p_swapFile pr with Some f => ret f | None => fault "p->swapFile" end.

Definition writeToSwapFile (p : nat) (buffer placeOnFile size : Z) : K Z :=
  let* f := swap_file p in
  file_mod f (set_f_off placeOnFile) ;;;
  kfilewrite f buffer size.

Definition readFromSwapFile (p : nat) (buffer placeOnFile size : Z) : K Z :=
  let* f := swap_file p in
  file_mod f (set_f_off placeOnFile) ;;;
  kfileread f buffer size.

Definition copy_swap_file (p_source p_target : nat) : K unit :=
  let* ps := proc_get p_source in
  if p_pid ps <? 3 then ret tt else
  let* buffer := kalloc in
  for_all (Z.to_nat (MAX_TOTAL_PAGES - MAX_PYSC_PAGES)) 0 (fun i =>
    let* pg := fp_get p_source i in
    when (bool_decide (pm_state pg = P_USED))
      (if buffer =? 0 then fault "buffer" else
       let* result := readFromSwapFile p_source buffer (PGSIZE * i) PGSIZE in
       when (negb (result =? PGSIZE))
         (printf (cstr "CopySwapFile readFromSwapFile error, read: %d bits" ++ [10]) [PInt result]) ;;;
       let* result := writeToSwapFile p_target buffer (PGSIZE * i) PGSIZE in
       when (negb (result =? PGSIZE))
         (printf (cstr "CopySwapFile writeToSwapFile error, write: %d bits" ++ [10]) [PInt result]))) ;;;
  kfree buffer.

Definition get_free_file_index (p : nat) : K Z :=
  find_index (MAX_TOTAL_PAGES - MAX_PYSC_PAGES) (fun i =>
    let* pg := fp_get p i in ret (bool_decide (pm_state pg = P_UNUSED))).

Definition write_page_to_file (p : nat) (user_page_VA pagetable : Z) : K Z :=
  let* free_index := get_free_file_index p in
  let* pte := walk pagetable user_page_VA false in
  let* v := pte_get pte in
  let user_page_pa := PTE2PA v in
  let* result := writeToSwapFile p user_page_pa (u32 (PGSIZE * free_index)) PGSIZE in
  if result =? -1 then ret (-1) else
  fp_mod p free_index (set_pm_state P_USED) ;;;
  fp_mod p free_index (set_pm_va user_page_VA) ;;;
  fp_mod p free_index (set_pm_order 0) ;;;
  proc_mod p (fun pr => set_p_pages_in_file_counter (u64 (p_pages_in_file_counter pr + 1)) pr) ;;;
  proc_mod p (fun pr => set_p_pages_in_memory_counter (u64 (p_pages_in_memory_counter pr - 1)) pr) ;;;
  ret result.

(** [break] after an error in the read gives -1, as no entry at all does. *)
Definition read_page_from_file (p : nat) (memory_index user_page_VA buff : Z) : K Z :=
  let* r := for_from (Z.to_nat (MAX_TOTAL_PAGES - MAX_PYSC_PAGES)) 0 (fun i =>
    let* pg := fp_get p i in
    if pm_va pg =? user_page_VA then
      let* result := readFromSwapFile p buff (i * PGSIZE) PGSIZE in
      if result =? -1 then ret (Some (-1)) else
      mp_mod p memory_index (fun _ => pg) ;;;
      let* pr := proc_get p in
      mp_mod p memory_index (set_pm_order (u32 (p_page_order_counter pr))) ;;;
      proc_mod p (fun pr => set_p_page_order_counter (u64 (p_page_order_counter pr + 1)) pr) ;;;
      fp_mod p i (set_pm_state P_UNUSED) ;;;
      proc_mod p (fun pr => set_p_pages_in_file_counter (u64 (p_pages_in_file_counter pr - 1)) pr) ;;;
      proc_mod p (fun pr => set_p_pages_in_memory_counter (u64 (p_pages_in_memory_counter pr + 1)) pr) ;;;
      ret (Some result)
    else ret None) in
  ret (default (-1) r).

(** *** vm.c *)

Definition swap (pagetable user_page_va : Z) : K unit :=
  let* p := this_proc in
  let* out_index := get_swap_out_page_index in
  let* out := mp_get p out_index in
  let* pr := proc_get p in
  let* pte := walk (p_pagetable pr) (pm_va out) false in
  let* v := pte_get pte in
  let out_page_pa := PTE2PA v in
  let* _ := write_page_to_file p (pm_va out) (p_pagetable pr) in
  kfree out_page_pa ;;;
  mp_mod p out_index (set_pm_state P_UNUSED) ;;;
  update_page_out_pte (p_pagetable pr) (pm_va out) ;;;
  add_to_memory_page_metadata pagetable user_page_va.

(** A turn of [uvmalloc]'s loop at address [a], after [cnt] new pages. *)
Definition uvmalloc_body (p : nat) (pagetable oldsz newsz old_num : Z)
  : Z * Z -> K (Z * Z + Z) :=
  fun '(a, cnt) =>
    if negb (a <? newsz) then ret (inr newsz) else
    let cnt := cnt + 1 in
    let* mem := kalloc in
    if mem =? 0 then
      let* _ := uvmdealloc pagetable a oldsz in ret (inr 0)
    else
    mem_mod (fun m => memset m mem 0 PGSIZE) ;;;
    let* r := mappages pagetable a PGSIZE mem (Z.lor (Z.lor (Z.lor PTE_W PTE_X) PTE_R) PTE_U) in
    if negb (r =? 0) then
      kfree mem ;;;
      let* _ := uvmdealloc pagetable a oldsz in ret (inr 0)
    else
    let* pr := proc_get p in
    when ((2 <? p_pid pr) && negb is_none_policy)
      (if u64 (p_pages_in_memory_counter pr + p_pages_in_file_counter pr) =? MAX_TOTAL_PAGES then
         printf (cstr "PID: %d inisde uvmalloc(): try to kalloc more then 32 pages" ++ [10])
           [PInt (p_pid pr)] ;;;
         kfree mem ;;;
         let* _ := uvmdealloc pagetable a oldsz in
         panic ("uvmalloc(): Proc is too big" +:+ nl)
       else if MAX_PYSC_PAGES <? old_num + cnt then swap pagetable a
       else add_to_memory_page_metadata pagetable a) ;;;
    ret (inl (u64 (a + PGSIZE), cnt)).

Definition uvmalloc (pagetable oldsz newsz : Z) : K Z :=
  let* p := this_proc in
  if newsz <? oldsz then ret oldsz else
  let oldsz := PGROUNDUP oldsz in
  let* pr := proc_get p in
  while_ (S (S (Z.to_nat ((newsz - oldsz) / PGSIZE))))
    (uvmalloc_body p pagetable oldsz newsz (s32 (p_pages_in_memory_counter pr))) (oldsz, 0).

Definition get_page_from_file (r_stval : Z) : K Z :=
  let* p := this_proc in
  proc_mod p (fun pr => set_p_page_fault_counter (p_page_fault_counter pr + 1) pr) ;;;
  let user_page_va := PGROUNDDOWN r_stval in
  let* new_page := kalloc in
  if new_page =? 0 then ret 0 else
  mem_mod (fun m => memset m new_page 0 PGSIZE) ;;;
  let* free_index := get_free_memory_page_index in
  let* pr := proc_get p in
  if 0 <=? free_index then
    update_page_in_pte (p_pagetable pr) user_page_va new_page free_index ;;;
    let* _ := read_page_from_file p free_index user_page_va new_page in
    ret 1
  else
    let* out_index := get_swap_out_page_index in
    let* out_page := mp_get p out_index in
    update_page_in_pte (p_pagetable pr) user_page_va new_page out_index ;;;
    let* _ := read_page_from_file p out_index user_page_va new_page in
    let* _ := write_page_to_file p (pm_va out_page) (p_pagetable pr) in
    update_page_out_pte (p_pagetable pr) (pm_va out_page) ;;;
    let* pte := walk (p_pagetable pr) (pm_va out_page) false in
    let* v := pte_get pte in
    let out_page_pa := PTE2PA v in
    when (negb (out_page_pa =? 0)) (kfree out_page_pa) ;;;
    ret 1.

(** [print_memory_metadata_state]: the used entries of one table. *)
Definition print_pages (label : list Z) (get : Z -> K page_metadata_struct) (fmt : list Z) : K unit :=
  for_all 16 0 (fun i =>
    let* pg := get i in
    when (bool_decide (pm_state pg = P_USED))
      (printf (label ++ cstr " page num: %d, state is P_USED" ++ [10]) [PInt i] ;;;
       printf fmt [PInt (pm_va pg); PInt (pm_access pg); PInt (pm_order pg)])).

Definition print_memory_metadata_state (p : nat) : K unit :=
  let* pr := proc_get p in
  when (2 <? p_pid pr)
    (printf (cstr "PID: %d num of pages in MEM: %d" ++ [10])
       [PInt (p_pid pr); PInt (p_pages_in_memory_counter pr)] ;;;
     printf (cstr "PID: %d num of pages in FILE: %d" ++ [10])
       [PInt (p_pid pr); PInt (p_pages_in_file_counter pr)] ;;;
     printf (cstr "########### memory PAGES ###########" ++ [10]) [] ;;;
     print_pages (cstr "memory") (mp_get p)
       (cstr "user_page_VA: %p, access_count: %u page_order: %d " ++ [10]) ;;;
     printf (cstr "########### file PAGES ###########" ++ [10]) [] ;;;
     print_pages (cstr "FILE") (fp_get p)
       (cstr "user_page_VA: %p, access_count: %u, page_order: %d " ++ [10])).

End swap.
