(* ===== verification/Swapfile.v ===== *)
(** * Swap files: reading and writing pages

    [writeToSwapFile] and [readFromSwapFile] of fs.c on an open swap file: the
    bytes read are those last written at the same place. *)

From Stdlib Require Import ZArith Lia.
From stdpp Require Import base gmap list strings numbers.
From S2P Require Import Prelude Riscv State Klib Sched Vm Usercopy Paging Bio Log Tx Fs Balloc Inode File Fileio Swap.

(** ** Definitions *)

(** Slot [f] of the file table is the swap file of process [p]: an open file
    on inode [x] that can be read and written. *)
Record swap_open (sb : superblock) (p : nat) (pr : proc) (lg : log) (k : kernel) (D : Z -> list Z)
    (f : nat) (y : file) (ip : nat) (x : inode) : Prop := {
  so_open : open_file sb p pr lg k D f y ip x;
  so_proc : p_swapFile pr = Some f;
  so_read : f_readable y <> 0;
  so_write : f_writable y <> 0;
}.

(** ** Lemmas *)

Section swapfile.
#[local] Existing Instance steady.
Context (sb : superblock) (p : nat) (pr : proc) (f ip : nat).

Lemma swap_proc lg k D y x : swap_open sb p pr lg k D f y ip x -> k_procs k !! p = Some pr.
Proof. intros [Ho _ _ _]. apply (id_st _ _ _ _ _ (op_idle _ _ _ _ _ _ _ _ _ _ Ho)). Qed.

Lemma swap_file_run lg k D y x e : swap_open sb p pr lg k D f y ip x -> swap_file p (W k e) = Ret f (W k e).
Proof.
  intros Hs. unfold swap_file. rewrite (bind_Ret _ _ _ _ _ (proc_get_eq _ _ _ _ (swap_proc _ _ _ _ _ Hs))).
  by rewrite (so_proc _ _ _ _ _ _ _ _ _ _ Hs).
Qed.

(** The file is moved to [off] first. *)
Lemma swap_seek lg k D y x off e :
  swap_open sb p pr lg k D f y ip x ->
  exists k1, file_mod f (set_f_off off) (W k e) = Ret tt (W k1 e) /\
    swap_open sb p pr lg k1 D f (set_f_off off y) ip x /\ same_file f ip k k1 /\ k_mem k1 = k_mem k.
Proof.
  intros [Ho Hp Hr Hw]. eexists. split; [apply file_mod_eq, Ho|]. split_and!; [|eapply same_file_slot, Ho|done].
  split; try done. eapply open_file_slot; [done|apply Ho|apply Ho].
Qed.

Lemma set_off_twice a b y : set_f_off a (set_f_off b y) = set_f_off a y.
Proof. by destruct y. Qed.

Lemma writeToSwapFile_run lg k D y x buffer off n e :
  swap_open sb p pr lg k D f y ip x -> 0 <= off <= i_size x -> 0 <= n -> off + n <= MAXFILE * BSIZE ->
  let bs := ld_bytes (k_mem k) buffer (Z.to_nat n) in
  (exists lg' k' D' x', writeToSwapFile p buffer off n (W k e) = Ret n (W k' e) /\
     swap_open sb p pr lg' k' D' f (set_f_off (off + n) y) ip x' /\ rewritten sb lg D x off bs D' x' /\
     same_file f ip k k') \/
  (ran_out sb lg D x off bs /\ writeToSwapFile p buffer off n (W k e) = Panic "balloc: out of blocks").
Proof.
  intros Hs Hoff Hn Hmax bs. unfold writeToSwapFile. rewrite (bind_Ret _ _ _ _ _ (swap_file_run _ _ _ _ _ _ Hs)).
  destruct (swap_seek lg k D y x off e Hs) as (k1 & E1 & H1 & S1 & M1). rewrite (bind_Ret _ _ _ _ _ E1).
  assert (Z.of_nat (length bs) = n) as Hl by (unfold bs; rewrite length_ld_bytes; lia).
  pose proof (filewrite_run sb p pr f ip false lg k1 D (set_f_off off y) x buffer bs e (so_open _ _ _ _ _ _ _ _ _ _ H1)
    (so_write _ _ _ _ _ _ _ _ _ _ H1)) as Hw. rewrite M1, Hl in Hw. cbv zeta in Hw.
  destruct Hw as [(lg' & k' & D' & x' & E & O & R & S)|[Ho E]]; [apply kern_gives|done|done| |by right].
  left. exists lg', k', D', x'. split; [done|]. split; [|split; [done|by eapply same_file_trans]].
  rewrite set_off_twice in O. destruct Hs. by split.
Qed.

Lemma readFromSwapFile_run lg k D y x buffer off n e :
  swap_open sb p pr lg k D f y ip x -> 0 <= off -> 0 <= n -> off + n <= i_size x ->
  exists k', readFromSwapFile p buffer off n (W k e) = Ret n (W k' e) /\
    swap_open sb p pr lg k' D f (set_f_off (off + n) y) ip x /\
    same_file f ip (set_k_mem (st_bytes (k_mem k) buffer (file_bytes D x off n)) k) k'.
Proof.
  intros Hs Hoff Hn Hmax. unfold readFromSwapFile. rewrite (bind_Ret _ _ _ _ _ (swap_file_run _ _ _ _ _ _ Hs)).
  destruct (swap_seek lg k D y x off e Hs) as (k1 & E1 & H1 & S1 & M1). rewrite (bind_Ret _ _ _ _ _ E1).
  pose proof (op_full _ _ _ _ _ _ _ _ _ _ (so_open _ _ _ _ _ _ _ _ _ _ Hs)) as [Hsz _].
  assert (MAXFILE * BSIZE < 2 ^ 31) by done.
  destruct (kfileread_run sb p pr f ip lg k1 D (set_f_off off y) x buffer n e (so_open _ _ _ _ _ _ _ _ _ _ H1)
    (so_read _ _ _ _ _ _ _ _ _ _ H1)) as (k' & E & O & S); [simpl; lia|done|simpl; lia|].
  simpl in E, O, S. rewrite Z.min_l in E, O, S by lia. exists k'. split; [done|].
  split; [destruct Hs; by split|]. rewrite M1 in S.
  eapply same_file_trans; [by apply same_file_mem|exact S].
Qed.
End swapfile.

(** ** Properties *)

Section properties.
#[local] Existing Instance steady.

(** C7: what [writeToSwapFile] writes is what [readFromSwapFile] reads.  From an
    open swap file and with no operation under way, writing [n] bytes at an
    offset inside the file, or at its end, runs the transactions of [filewrite]
    one after the other and returns [n].  Afterwards the file has these bytes
    there and its other bytes as before; its inode, in memory and on disk, has
    changed in its size and addresses only; the other inodes of its block, and
    every other block in use outside the log, are as they were; the blocks newly
    in use are the file's ([rewritten]).  Nothing is left in the log.  Reading
    at the same place then puts the same bytes at any address.  Of the rest of
    the kernel neither call changes anything, but the memory that is read into,
    the caches, the log, the offset of the file, and which sleeping processes
    are runnable ([same_file]).  The only other outcome is the panic of [balloc]
    on a full disk. *)
Theorem swap_file_roundtrip sb p pr f ip lg k D y x buffer off n e :
  swap_open sb p pr lg k D f y ip x -> 0 <= off <= i_size x -> 0 <= n -> off + n <= MAXFILE * BSIZE ->
  let bs := ld_bytes (k_mem k) buffer (Z.to_nat n) in
  (exists lg' k' D' x', writeToSwapFile p buffer off n (W k e) = Ret n (W k' e) /\
     swap_open sb p pr lg' k' D' f (set_f_off (off + n) y) ip x' /\ rewritten sb lg D x off bs D' x' /\ same_file f ip k k' /\
     forall buffer', exists k'', readFromSwapFile p buffer' off n (W k' e) = Ret n (W k'' e) /\
       swap_open sb p pr lg' k'' D' f (set_f_off (off + n) y) ip x' /\ same_file f ip (set_k_mem (st_bytes (k_mem k) buffer' bs) k) k'') \/
  (ran_out sb lg D x off bs /\ writeToSwapFile p buffer off n (W k e) = Panic "balloc: out of blocks").
Proof.
  intros Hs Hoff Hn Hmax bs. assert (Z.of_nat (length bs) = n) as Hl by (unfold bs; rewrite length_ld_bytes; lia).
  destruct (writeToSwapFile_run sb p pr f ip lg k D y x buffer off n e Hs Hoff Hn Hmax)
    as [(lg' & k' & D' & x' & E & O & R & S)|Ho]; [|by right]. left. fold bs in R.
  exists lg', k', D', x'. pose proof (same_file_same_mem _ _ _ _ S) as Em.
  split; [done|]. split; [done|]. split; [done|]. split; [done|]. intros buffer'.
  destruct (readFromSwapFile_run sb p pr f ip lg' k' D' _ x' buffer' off n e O) as (k'' & E2 & O2 & S2); [lia|lia| |].
  { rewrite (rw_size _ _ _ _ _ _ _ _ R). lia. }
  exists k''. rewrite set_off_twice in O2. split; [done|]. split; [done|].
  assert (file_bytes D' x' off n = bs) as Eb by (rewrite <- Hl; eapply rewritten_bytes; [done|lia|lia]).
  rewrite Eb, Em in S2. eapply same_file_trans; [by apply same_file_mem|exact S2].
Qed.
End properties.

(** ** Witnesses *)

(** Blocks 50 to 61 belong to the swap file of inode 1; the inodes are in block
    70, and the bitmap, block 40, says that all 1000 blocks are in use. *)
Definition swap_sb : superblock := mkSuperblock FSMAGIC 1000 0 0 0 0 70 40.
Definition swap_log : log := set_l_outstanding 0 sample_log.
Definition swap_disk : Z -> list Z := zupd sample_disk 40 full_bitmap.
Definition swap_inode (size : Z) : inode :=
  mkInode ROOTDEV 1 1 unlocked 1 T_FILE 0 0 1 size [50; 51; 52; 53; 54; 55; 56; 57; 58; 59; 60; 61; 0].
Definition swap_fd : file := mkFile FD_INODE 1 1 1 0 (Some 0%nat) 0 0.
Definition swap_boot (pr : proc) (m : memory) (freelist size : Z) : kernel :=
  set_k_cur (Some 1%nat) (set_k_procs (<[1%nat := pr]> (k_procs kernel0))
    (set_k_disk {[7 := replicate (Z.to_nat BSIZE) 1; 40 := full_bitmap]}
    (set_k_sb swap_sb (set_k_itable [swap_inode size] (set_k_ftable [swap_fd]
    (set_k_mem m (set_k_freelist freelist kernel0))))))).

Lemma swap_fblk C n s : is_slot s -> fblk C (swap_inode n) s = if decide (s < NDIRECT) then 50 + s else 0.
Proof.
  intros [Hs _]. unfold fblk. destruct (Z.ltb_spec s NDIRECT) as [Hlt|Hge].
  - rewrite decide_True by done. unfold NDIRECT in Hlt.
    assert (s ∈ (Z.of_nat <$> seq 0 12)) as Hin.
    { apply list_elem_of_fmap. exists (Z.to_nat s). rewrite elem_of_seq. lia. }
    clear -Hin. repeat (apply elem_of_cons in Hin as [->|Hin]; [done|]). by apply not_elem_of_nil in Hin.
  - rewrite decide_False by lia. by destruct (s =? MAXFILE).
Qed.

Lemma swap_data_block a : 50 <= a < 62 \/ a = 70 -> data_block swap_sb swap_log swap_disk [] a.
Proof.
  intros Ha. split.
  - simpl. lia.
  - apply full_in_use. lia.
  - unfold in_log. simpl. lia.
  - intros b Hb. change (BBLOCK b swap_sb) with (BBLOCK b bfree_sb). simpl in Hb.
    rewrite (proj2 (full_in_use b Hb)). lia.
  - apply not_elem_of_nil.
  - unfold swap_disk. rewrite zupd_ne by lia. unfold sample_disk, disk_block. simpl.
    rewrite lookup_singleton_ne by lia. done.
Qed.

Lemma swap_file_ok n : file_ok swap_sb swap_log swap_disk [] (swap_inode n).
Proof.
  split.
  - split; try (intros b Hb; change (BBLOCK b swap_sb) with (BBLOCK b bfree_sb); simpl in Hb;
      rewrite (proj2 (full_in_use b Hb))).
    + simpl. lia.
    + simpl. by vm_compute.
    + unfold in_log. simpl. lia.
    + apply not_elem_of_nil.
    + unfold swap_disk. by rewrite zupd_eq.
    + intros b Hb Hf. simpl in Hb. change (in_use ?c swap_sb b) with (in_use c bfree_sb b) in Hf.
      unfold swap_disk in Hf. by rewrite (proj1 (full_in_use b Hb)) in Hf.
  - apply full_in_use. lia.
  - done.
  - intros s Hs. rewrite swap_fblk by done. case_decide as Hd; [|done]. intros _. apply swap_data_block.
    destruct Hs as [Hs _]. unfold NDIRECT in Hd. lia.
  - intros s s' Hs Hs'. rewrite !swap_fblk by done. destruct Hs as [Hs _], Hs' as [Hs' _]. repeat case_decide; lia.
Qed.

Lemma swap_full C n : 0 <= n <= NDIRECT * BSIZE -> full C (swap_inode n).
Proof.
  assert (NDIRECT * BSIZE <= MAXFILE * BSIZE) as Hm by done. intros Hn. split; [simpl; lia|].
  intros bn Hb Hlt. simpl in Hlt. assert (bn < NDIRECT) as Hd by (unfold NDIRECT, BSIZE in *; lia). assert (NDIRECT < MAXFILE) by done.
  rewrite swap_fblk by (split; lia). rewrite decide_True by done. lia.
Qed.

Lemma sample_swap_empty : log_empty (l_start swap_log) swap_disk.
Proof. split; vm_compute; reflexivity. Qed.

(** A kernel with a swap file of [size] bytes, with the memory [m]. *)
Lemma sample_swap pr m freelist size :
  p_swapFile pr = Some 0%nat -> 0 <= size <= NDIRECT * BSIZE ->
  exists k, swap_open swap_sb 1 pr swap_log k swap_disk 0 swap_fd 0 (swap_inode size) /\
    k_mem k = m /\ k_freelist k = freelist /\ k_held k = [].
Proof.
  intros Hsw Hsz. destruct (binit_booted 1 pr (swap_boot pr m freelist size) []) as (bs & _ & Hb).
  { reflexivity. }
  { split; [reflexivity|reflexivity|reflexivity|intros; apply not_elem_of_nil..]. }
  { apply not_elem_of_nil. }
  { reflexivity. }
  exists (set_k_log swap_log (set_k_bufs bs (swap_boot pr m freelist size))).
  split; [|done]. split; [|done..]. pose proof (booted_st _ _ _ _ swap_log Hb) as Hst.
  assert (forall n, disk_block (swap_boot pr m freelist size) n = swap_disk n) as Hd.
  { intros n. unfold swap_disk. destruct (decide (n = 40)) as [->|Hne]; [by rewrite zupd_eq|rewrite zupd_ne by done].
    unfold sample_disk, disk_block. simpl. destruct (decide (n = 7)) as [->|Hn7]; [done|].
    by rewrite lookup_insert_ne, !lookup_singleton_ne by done. }
  split; [|by vm_compute| | | |reflexivity|reflexivity|reflexivity|reflexivity|by vm_compute|reflexivity..].
  - split; [| |reflexivity|reflexivity|reflexivity|by apply sample_swap_empty].
    + eapply st_ext; [exact Hst|done|done|exact Hd|exact Hd|done].
    + split; try done; simpl; unfold LOGSIZE, MAXOPBLOCKS; lia.
  - apply swap_file_ok.
  - split; [apply swap_data_block; by right|]. intros s Hs. rewrite swap_fblk by done.
    change (IBLOCK _ _) with 70. destruct Hs as [Hs _]. unfold NDIRECT. case_decide; lia.
  - by apply swap_full.
Qed.

(** The blocks of the file are there, so that there is no need for others. *)
Lemma swap_not_full n off bs :
  0 <= off -> off + Z.of_nat (length bs) <= NDIRECT * BSIZE -> ~ ran_out swap_sb swap_log swap_disk (swap_inode n) off bs.
Proof.
  intros Hoff Hl (a & b & c & D1 & x1 & -> & Hr & [(o & Ho & Hz) _]). rewrite !length_app in Hl.
  assert (0 <= o / BSIZE < NDIRECT) as Hs by (unfold BSIZE, NDIRECT in *; Z.to_euclidean_division_equations; lia).
  assert (is_slot (o / BSIZE)) as Hsl by (assert (NDIRECT < MAXFILE) by done; split; lia).
  assert (fblk swap_disk (swap_inode n) (o / BSIZE) <> 0) as Hn by (rewrite swap_fblk, decide_True by (done || lia); lia).
  destruct (rw_fresh _ _ _ _ _ _ _ _ Hr _ Hsl) as [H0 _]; [|done]. rewrite Hz. congruence.
Qed.

Lemma swap_file_roundtrip_witness :
  exists k k' k'', writeToSwapFile (D := steady) 1 (pg 1) 0 PGSIZE (W k []) = Ret PGSIZE (W k' []) /\
    readFromSwapFile (D := steady) 1 (pg 2) 0 PGSIZE (W k' []) = Ret PGSIZE (W k'' []).
Proof.
  destruct (sample_swap (set_p_swapFile (Some 0%nat) sample_bproc) ∅ 0 0 eq_refl) as (k & Hs & _); [done|].
  destruct (swap_file_roundtrip swap_sb 1 _ 0 0 swap_log k swap_disk swap_fd (swap_inode 0) (pg 1) 0 PGSIZE [] Hs)
    as [(lg' & k' & D' & x' & E & _ & _ & _ & Hr)|[Ho _]]; [done|done|done| |].
  - destruct (Hr (pg 2)) as (k'' & E' & _). exists k, k', k''. split; [exact E|exact E'].
  - exfalso. revert Ho. apply swap_not_full; [done|]. rewrite length_ld_bytes. by vm_compute.
Defined.
