(* ===== verification/Demand.v ===== *)
(** * Demand paging: where the pages of a process are

    The pages of a process are in frames of memory or in slots of its swap
    file.  This file states that as an invariant and proves that the routines
    of vm.c and proc.c that move pages -- [read_page_from_file],
    [write_page_to_file], [swap] and [get_page_from_file] -- keep it, and that
    no page's contents change on the way. *)

From Stdlib Require Import ZArith Lia.
From stdpp Require Import base gmap list strings numbers.
From S2P Require Import Prelude Riscv State Klib Sched Kalloc Vm Usercopy Paging Bio Log Tx Fs Balloc.
From S2P Require Import Inode File Fileio Swap Swapfile.

(** ** Definitions *)

(** The contents of the page at physical address [pa], and of slot [j] of the
    swap file. *)
Definition page_bytes (m : memory) (pa : Z) : list Z := ld_bytes m pa (Z.to_nat PGSIZE).
Definition slot_bytes (D : Z -> list Z) (x : inode) (j : nat) : list Z := file_bytes D x (PGSIZE * Z.of_nat j) PGSIZE.

Lemma page_bytes_eq m pa : page_bytes m pa = ld_bytes m pa (Z.to_nat PGSIZE).
Proof. done. Qed.
Lemma slot_bytes_eq D x j : slot_bytes D x j = file_bytes D x (PGSIZE * Z.of_nat j) PGSIZE.
Proof. done. Qed.
Lemma length_page_bytes m pa : length (page_bytes m pa) = Z.to_nat PGSIZE.
Proof. apply length_ld_bytes. Qed.
Lemma length_slot_bytes D x j : length (slot_bytes D x j) = Z.to_nat PGSIZE.
Proof. pose proof (length_file_bytes D x (PGSIZE * Z.of_nat j) PGSIZE ltac:(done)). unfold slot_bytes. lia. Qed.

#[global] Opaque page_bytes slot_bytes.

(** The frame of [va]. *)
Definition frame (m : memory) (root va : Z) : Z := PTE2PA (leaf m root va).

Section paging.
Context `{L : Layout}.

(** The entry of [va] exists. *)
Record user_va (m : memory) (root va : Z) : Prop := {
  uv_range : 0 <= va < MAXVA;
  uv_page : va mod PGSIZE = 0;
  uv_table : is_Some (page_at m root (path_of va));
}.

(** A page that is not one of the tables. *)
Definition no_table (m : memory) (root q : Z) : Prop := forall path, path_ok path -> page_at m root path <> Some q.

(** The pages [R] are in memory, each in a frame of its own; those of [F] are in
    the swap file, and their entries have no frame.  The pages [own] belong to
    the kernel: no table and no frame is among them. *)
Record tables (m : memory) (root : Z) (own : list Z) (R : gset Z) (F : gmap Z nat) : Prop := {
  tb_pt : pt_ok m root own;
  tb_nodup : NoDup own;
  tb_own : Forall page_ok own;
  tb_in : forall va, va ∈ R -> user_va m root va /\ Z.testbit (leaf m root va) 0 = true /\
    page_ok (frame m root va) /\ frame m root va ∉ own /\ no_table m root (frame m root va);
  tb_inj : forall va va', va ∈ R -> va' ∈ R -> frame m root va = frame m root va' -> va = va';
  tb_out : forall va, is_Some (F !! va) -> user_va m root va /\ 0 <= leaf m root va < 2 ^ 10 /\
    Z.testbit (leaf m root va) 0 = false /\ Z.testbit (leaf m root va) 9 = true;
}.

(** The contents [A] of the pages. *)
Definition holds_page (m : memory) (root : Z) (D : Z -> list Z) (x : inode) (R : gset Z) (F : gmap Z nat)
    (va : Z) (bs : list Z) : Prop :=
  (va ∈ R /\ page_bytes m (frame m root va) = bs) \/ (exists j, F !! va = Some j /\ slot_bytes D x j = bs).

(** The pages of process [p]: [R] in memory, [F] in the slots of the swap file
    [x], with contents [A]; [l] is the free list and [sp] the pages that are
    neither free nor mapped. *)
Record paging (sb : superblock) (p : nat) (pr : proc) (lg : log) (k : kernel) (D : Z -> list Z)
    (f : nat) (y : file) (ip : nat) (x : inode) (l sp : list Z) (R : gset Z) (F : gmap Z nat)
    (A : gmap Z (list Z)) : Prop := {
  pg_swap : swap_open sb p pr lg k D f y ip x;
  pg_lock : Lkmem ∉ k_held k;
  pg_list : kmem_inv k l;
  pg_tables : tables (k_mem k) (p_pagetable pr) (l ++ sp) R F;
  pg_size : forall va j, F !! va = Some j -> PGSIZE * (Z.of_nat j + 1) <= i_size x;
  pg_data : forall va bs, A !! va = Some bs -> holds_page (k_mem k) (p_pagetable pr) D x R F va bs;
  pg_byte : forall va bs, A !! va = Some bs -> Forall (fun b => 0 <= b < 256) bs;
}.

(** The entries of process [pr] list the pages [R] in memory, and the slots
    [F].  A slot is found by looking for its page from slot 0 on. *)
Record meta (pr : proc) (R : gset Z) (F : gmap Z nat) : Prop := {
  me_mem_len : Z.of_nat (length (p_memory_pages pr)) = MAX_PYSC_PAGES;
  me_file_len : Z.of_nat (length (p_file_pages pr)) = MAX_TOTAL_PAGES - MAX_PYSC_PAGES;
  me_mem : forall va, va ∈ R <-> exists i g, p_memory_pages pr !! i = Some g /\ used g = true /\ pm_va g = va;
  me_inj : forall i i' g g', p_memory_pages pr !! i = Some g -> p_memory_pages pr !! i' = Some g' ->
    used g = true -> used g' = true -> pm_va g = pm_va g' -> i = i';
  me_file : forall va j, F !! va = Some j <-> exists g, p_file_pages pr !! j = Some g /\ used g = true /\ pm_va g = va;
  me_first : forall va j j' g, F !! va = Some j -> (j' < j)%nat -> p_file_pages pr !! j' = Some g -> pm_va g <> va;
}.
End paging.

(** ** Lemmas: memory *)

Section memory.
Context `{L : Layout} `{!LayoutOk L}.

(** Bytes of a page that is not among the pages [ps] that changed. *)
Lemma page_bytes_off ps m m' q :
  same_off ps m m' -> Forall (fun q => q mod PGSIZE = 0) ps -> q mod PGSIZE = 0 -> q ∉ ps ->
  page_bytes m' q = page_bytes m q.
Proof.
  intros Hs Hps Hq Hn. rewrite !page_bytes_eq. apply ld_bytes_ext. intros i Hi. apply Hs. intros r Hr Hin. apply Hn.
  rewrite list.Forall_forall in Hps.
  rewrite <- (in_page_disjoint r q (q + i)); [done|by apply Hps|done|done|]. unfold in_page, PGSIZE in *. lia.
Qed.

(** A change of pages that are not tables. *)
Lemma tables_off ps m m' root own R F :
  same_off ps m m' -> (forall q, q ∈ ps -> q mod PGSIZE = 0 /\ no_table m root q) -> tables m root own R F ->
  tables m' root own R F /\ (forall va, leaf m' root va = leaf m root va) /\
  (forall path, path_ok path -> page_at m' root path = page_at m root path).
Proof.
  intros Hs Hps [T1 T2 T3 T4 T5 T6].
  destruct (pt_frame m m' root) as [Hpa Hlf].
  { intros path q a Hp Hq Ha. apply Hs. intros r Hr Hin. destruct (Hps r Hr) as [Hal Hnt].
    apply (Hnt path Hp). rewrite Hq. f_equal. destruct (proj1 T1 path q Hp Hq) as [[Hq0 _] _].
    by apply (in_page_disjoint q r a). }
  assert (forall va, frame m' root va = frame m root va) as Hfr by (intros va; unfold frame; by rewrite Hlf).
  assert (forall q, no_table m root q -> no_table m' root q) as Hnt.
  { intros q Hq path Hp. rewrite Hpa by done. by apply Hq. }
  assert (forall va, user_va m root va -> user_va m' root va) as Hva.
  { intros va [V1 V2 V3]. split; [done|done|]. by rewrite Hpa by apply path_of_ok. }
  split; [|done]. split; try done.
  - by apply (pt_ok_frame m).
  - intros va Hin. rewrite Hfr, Hlf. destruct (T4 va Hin) as (? & ? & ? & ? & ?). split_and!; auto.
  - intros va va'. rewrite !Hfr. by apply T5.
  - intros va Hin. rewrite Hlf. destruct (T6 va Hin) as (? & ? & ? & ?). split_and!; auto; lia.
Qed.

(** The pages of the kernel are not tables. *)
Lemma own_no_table m root own R F q : tables m root own R F -> q ∈ own -> q mod PGSIZE = 0 /\ no_table m root q.
Proof.
  intros [T1 _ T3 _ _ _] Hq. rewrite list.Forall_forall in T3. split; [apply (T3 q Hq)|].
  intros path Hp E. by destruct (proj1 T1 path q Hp E).
Qed.

Lemma tables_perm m root own own' R F : Permutation own own' -> tables m root own R F -> tables m root own' R F.
Proof.
  intros Hp [[T1 T1'] T2 T3 T4 T5 T6]. split; try done.
  - split; [|done]. intros path q Hpo Hq. rewrite <- Hp. by apply (T1 path).
  - by rewrite <- Hp.
  - by rewrite <- Hp.
  - intros va Hin. rewrite <- Hp. by apply T4.
Qed.

(** Changing the entry of [va] changes no page but a table. *)
Lemma leaf_set_bytes root va v m m' own R F q :
  leaf_set root va v m m' -> tables m root own R F -> user_va m root va -> q mod PGSIZE = 0 -> no_table m root q ->
  page_bytes m' q = page_bytes m q.
Proof.
  intros Hl Ht [_ _ [t Hta]] Hq Hn.
  destruct (proj1 (tb_pt _ _ _ _ _ Ht) _ _ (path_of_ok va) Hta) as [[Hal _] _].
  apply (page_bytes_off [t]); [by apply (ls_off _ _ _ _ _ Hl)|by constructor|done|].
  intros ->%list_elem_of_singleton. by apply (Hn _ (path_of_ok va)).
Qed.

Lemma same_page_eq va va' : va mod PGSIZE = 0 -> va' mod PGSIZE = 0 -> same_page va va' = true -> va = va'.
Proof.
  intros H1 H2 Hs. unfold same_page in Hs. apply Z.eqb_eq in Hs.
  assert (forall v, v mod PGSIZE = 0 -> PGROUNDDOWN v = v) as E.
  { intros v Hv. by apply PGROUNDDOWN_id. }
  rewrite !E in Hs by done. done.
Qed.

(** The entries of the other pages after the one of [va] has changed. *)
Record only_entry (root va : Z) (m m' : memory) : Prop := {
  oe_leaf : forall va', user_va m root va' -> va' <> va -> leaf m' root va' = leaf m root va';
  oe_va : forall va', user_va m root va' -> user_va m' root va';
  oe_table : forall q, no_table m root q -> no_table m' root q;
}.

Lemma leaf_set_only root va v m m' : leaf_set root va v m m' -> user_va m root va -> only_entry root va m m'.
Proof.
  intros [L1 L2 _] [V1 V2 _]. split.
  - intros va' [U1 U2 _] Hne. rewrite L2 by done. destruct (same_page va va') eqn:E; [|done].
    by apply same_page_eq in E.
  - intros va' [U1 U2 U3]. split; [done|done|]. by rewrite L1 by apply path_of_ok.
  - intros q Hq path Hp. rewrite L1 by done. by apply Hq.
Qed.

(** What remains of [tables] for the pages whose entries did not change. *)
Lemma tables_only root va m m' own R F :
  only_entry root va m m' -> pt_ok m' root own -> va ∉ R -> F !! va = None -> tables m root own R F ->
  tables m' root own R F /\ forall va', va' ∈ R -> frame m' root va' = frame m root va'.
Proof.
  intros [O1 O2 O3] Hpt HR HF [T1 T2 T3 T4 T5 T6].
  assert (forall va', va' ∈ R -> leaf m' root va' = leaf m root va') as Hlf.
  { intros va' Hin. apply O1; [by apply T4|set_solver]. }
  assert (forall va', va' ∈ R -> frame m' root va' = frame m root va') as Hfr.
  { intros va' Hin. unfold frame. by rewrite Hlf. }
  split; [|done]. split; try done.
  - intros va' Hin. rewrite Hlf, Hfr by done. destruct (T4 va' Hin) as (? & ? & ? & ? & ?). split_and!; auto.
  - intros a b Ha Hb. rewrite !Hfr by done. by apply T5.
  - intros va' Hin. destruct (T6 va' Hin) as (? & ? & ? & ?). rewrite O1; [split_and!; auto; lia|done|].
    intros ->. rewrite HF in Hin. by destruct Hin.
Qed.

(** A page that comes into the frame [pa]. *)
Lemma tables_map root va pa m m' own R F :
  tables m root (pa :: own) R F -> va ∉ R -> F !! va = None -> user_va m root va -> 0 <= leaf m root va < 2 ^ 10 ->
  leaf_set root va (pte_in (leaf m root va) pa) m m' ->
  tables m' root own ({[va]} ∪ R) F /\ frame m' root va = pa /\
  forall va', va' ∈ R -> frame m' root va' = frame m root va'.
Proof.
  intros Ht HR HF Hva Hlf Hl. pose proof (leaf_set_only _ _ _ _ _ Hl Hva) as Ho.
  pose proof (tb_own _ _ _ _ _ Ht) as Hown. apply list.Forall_cons in Hown as [Hpa Hown].
  pose proof (tb_nodup _ _ _ _ _ Ht) as Hnd. apply list.NoDup_cons in Hnd as [Hn Hnd].
  destruct (own_no_table _ _ _ _ _ pa Ht (list_elem_of_here _ _)) as [Hal Hnt].
  assert (pt_ok m' root (pa :: own)) as Hpt by (eapply pt_ok_leaf_set; [done|apply Ht]).
  destruct (tables_only _ _ _ _ _ _ _ Ho Hpt HR HF Ht) as [[T1 T2 T3 T4 T5 T6] Hfr].
  destruct (pte_in_spec (leaf m root va) pa Hlf (page_ok_small pa Hpa) Hal) as (_ & HPA & Hset & _ & _).
  assert (leaf m' root va = pte_in (leaf m root va) pa) as Elf by (by apply (leaf_set_here _ _ _ _ _ (uv_range _ _ _ Hva) Hl)).
  assert (frame m' root va = pa) as Efr by (unfold frame; by rewrite Elf).
  split; [|done]. split; try done.
  - split; [|apply Hpt]. intros path q Hp Hq. destruct (proj1 Hpt path q Hp Hq) as [? Hni]. split; [done|set_solver].
  - intros va' [->%elem_of_singleton|Hin]%elem_of_union.
    + rewrite Efr, Elf. split_and!; [by apply Ho|by apply Hset|done|done|by apply (oe_table _ _ _ _ Ho)].
    + destruct (T4 va' Hin) as (? & ? & ? & Hni & ?). split_and!; try done. set_solver.
  - intros a b [->%elem_of_singleton|Ha]%elem_of_union [->%elem_of_singleton|Hb]%elem_of_union E; [done|..].
    + destruct (T4 b Hb) as (_ & _ & _ & Hni & _). rewrite <- E, Efr in Hni. set_solver.
    + destruct (T4 a Ha) as (_ & _ & _ & Hni & _). rewrite E, Efr in Hni. set_solver.
    + by apply T5.
Qed.

(** A page that goes to slot [j]. *)
Lemma tables_unmap root va j m m' own R F :
  tables m root own R F -> va ∉ R -> F !! va = None -> user_va m root va ->
  leaf_set root va (pte_out (leaf m root va)) m m' ->
  tables m' root own R (<[va := j]> F) /\ forall va', va' ∈ R -> frame m' root va' = frame m root va'.
Proof.
  intros Ht HR HF Hva Hl. pose proof (leaf_set_only _ _ _ _ _ Hl Hva) as Ho.
  assert (pt_ok m' root own) as Hpt by (eapply pt_ok_leaf_set; [done|apply Ht]).
  destruct (tables_only _ _ _ _ _ _ _ Ho Hpt HR HF Ht) as [[T1 T2 T3 T4 T5 T6] Hfr].
  destruct (pte_out_spec (leaf m root va)) as (P1 & _ & P2 & P3).
  split; [|done]. split; try done. intros va' [j' Hj]. destruct (decide (va' = va)) as [->|Hne].
  - rewrite (leaf_set_here _ _ _ _ _ (uv_range _ _ _ Hva) Hl). split_and!; try done; [by apply Ho|lia|lia].
  - rewrite lookup_insert_ne in Hj by done. by apply T6.
Qed.

(** A page whose entry is about to change: its frame is the kernel's. *)
Lemma tables_drop root va m own R F :
  tables m root own R F -> va ∈ R -> tables m root (frame m root va :: own) (R ∖ {[va]}) F.
Proof.
  intros [T1 T2 T3 T4 T5 T6] Hva. destruct (T4 va Hva) as (_ & _ & P1 & P2 & P3). split.
  - split; [|apply T1]. intros path q Hp Hq. destruct (proj1 T1 path q Hp Hq) as [Hok Hni]. split; [done|].
    intros [->|Hin]%elem_of_cons; [by apply (P3 path)|done].
  - by apply list.NoDup_cons.
  - by constructor.
  - intros va' [Hin Hne]%elem_of_difference. destruct (T4 va' Hin) as (? & ? & ? & ? & ?). split_and!; try done.
    intros [E|?]%elem_of_cons; [|done]. apply Hne. rewrite (T5 _ _ Hin Hva E). set_solver.
  - intros a b [Ha _]%elem_of_difference [Hb _]%elem_of_difference. by apply T5.
  - done.
Qed.

Lemma tables_forget root va m own R F : tables m root own R F -> tables m root own R (delete va F).
Proof.
  intros [T1 T2 T3 T4 T5 T6]. split; try done. intros va' [j Hj]. apply lookup_delete_Some in Hj as [_ Hj].
  apply T6. by exists j.
Qed.
End memory.

(** ** Lemmas: steps *)

Section steps.
Context `{L : Layout} `{!LayoutOk L}.
Context {sb : superblock} {p f ip : nat}.

(** The file system does not depend on memory, and on a process only through
    its swap file. *)
Lemma swap_open_mem pr lg k D y x m :
  swap_open sb p pr lg k D f y ip x -> swap_open sb p pr lg (set_k_mem m k) D f y ip x.
Proof.
  intros [[Hid ? ? ? ? ? ? ? ? ? ? ? ? ?] ? ? ?]. split; try done. split; try done.
  eapply tx_idle; [done|]. by apply tx_set_mem, idle_tx.
Qed.

Lemma tx_set_freelist pr lg k C D H v : tx p pr lg k C D H -> tx p pr lg (set_k_freelist v k) C D H.
Proof.
  intros [[Hc [l Hi] ? ? ? ? ? ? ?] Hok Hcl Hnd Hh]. split; try done.
  - split; try done; [by destruct Hc|exists l; by destruct Hi].
  - intros n b Hin. by destruct (Hh n b Hin).
Qed.

Lemma swap_open_freelist pr lg k D y x v :
  swap_open sb p pr lg k D f y ip x -> swap_open sb p pr lg (set_k_freelist v k) D f y ip x.
Proof.
  intros [[Hid ? ? ? ? ? ? ? ? ? ? ? ? ?] ? ? ?]. split; try done. split; try done.
  eapply tx_idle; [done|]. by apply tx_set_freelist, idle_tx.
Qed.

Lemma swap_open_proc pr pr' lg k D y x :
  swap_open sb p pr lg k D f y ip x -> p_swapFile pr' = p_swapFile pr ->
  swap_open sb p pr' lg (with_proc p pr' k) D f y ip x.
Proof.
  intros [[[Hst ? ? ? ? ?] ? ? ? ? ? ? ? ? ? ? ? ? ?] ? ? ?] Hs. split; try done; [|congruence]. split; try done.
  split; try done. destruct Hst as [[] [l Hi] ? ? ? ? ? ? ?]. split; try done; [|exists l; by destruct Hi].
  split; try done; [by eapply with_proc_lookup|]. simpl. by rewrite length_insert.
Qed.

Lemma paging_proc pr pr' lg k D y x l sp R F A :
  paging sb p pr lg k D f y ip x l sp R F A -> p_swapFile pr' = p_swapFile pr -> p_pagetable pr' = p_pagetable pr ->
  paging sb p pr' lg (with_proc p pr' k) D f y ip x l sp R F A.
Proof.
  intros [P1 P2 P3 P4 P5 P6 P7] Hs Hp. split; try done; [by eapply swap_open_proc|by rewrite Hp|by rewrite Hp].
Qed.

(** A change of pages that are neither tables nor free nor frames of [R]. *)
Lemma paging_mem ps pr lg k D y x l sp R F A m' :
  paging sb p pr lg k D f y ip x l sp R F A -> same_off ps (k_mem k) m' ->
  (forall q, q ∈ ps -> q mod PGSIZE = 0 /\ no_table (k_mem k) (p_pagetable pr) q /\ q ∉ l) ->
  (forall va, va ∈ R -> is_Some (A !! va) -> frame (k_mem k) (p_pagetable pr) va ∉ ps) ->
  paging sb p pr lg (set_k_mem m' k) D f y ip x l sp R F A /\
  (forall va, leaf m' (p_pagetable pr) va = leaf (k_mem k) (p_pagetable pr) va) /\
  (forall va, user_va (k_mem k) (p_pagetable pr) va -> user_va m' (p_pagetable pr) va).
Proof.
  intros [P1 P2 P3 P4 P5 P6 P7] Hs Hps HR.
  assert (Forall (fun q => q mod PGSIZE = 0) ps) as Hal by (apply list.Forall_forall; intros q Hq; by apply Hps).
  destruct (tables_off ps _ m' _ _ _ _ Hs ltac:(intros q Hq; split; apply (Hps q Hq)) P4) as (Ht & Hlf & Hpa).
  split; [|split; [done|intros va [U1 U2 U3]; split; [done|done|by rewrite Hpa by apply path_of_ok]]].
  split; try done.
  - by apply swap_open_mem.
  - destruct P3 as (C1 & C2 & C3). split_and!; [|done|done].
    apply (chain_frame ps (k_mem k)); try done. intros q Hq Hin. by destruct (Hps q Hin) as (_ & _ & ?).
  - intros va bs Hva. destruct (P6 va bs Hva) as [[Hin Hb]|Hj]; [left|by right]. split; [done|].
    simpl. unfold frame. rewrite Hlf. fold (frame (k_mem k) (p_pagetable pr) va). rewrite <- Hb.
    apply (page_bytes_off ps); [done|done|apply PTE2PA_aligned|]. apply HR; [done|by exists bs].
Qed.

(** [kalloc] takes the first page of the free list. *)
Lemma paging_alloc pr lg k D y x pa l sp R F A e :
  paging sb p pr lg k D f y ip x (pa :: l) sp R F A ->
  exists k', kalloc (W k e) = Ret pa (W k' e) /\ paging sb p pr lg k' D f y ip x l (pa :: sp) R F A /\
    (forall va, leaf (k_mem k') (p_pagetable pr) va = leaf (k_mem k) (p_pagetable pr) va) /\
    (forall va, user_va (k_mem k) (p_pagetable pr) va -> user_va (k_mem k') (p_pagetable pr) va) /\
    exists m v, k' = set_k_mem m (set_k_freelist v k).
Proof.
  intros Hp. pose proof Hp as [P1 P2 P3 P4 P5 P6 P7].
  destruct (kalloc_pop k e pa l P2 P3) as [E Hinv].
  assert (tables (k_mem k) (p_pagetable pr) (l ++ pa :: sp) R F) as P4'.
  { eapply tables_perm; [|exact P4]. simpl. by rewrite Permutation_middle. }
  assert (paging sb p pr lg (set_k_freelist (ld64 (k_mem k) pa) k) D f y ip x l (pa :: sp) R F A) as Hp1.
  { split; try done; [by apply swap_open_freelist|]. destruct P3 as ([_ C1] & C2 & C3).
    apply list.NoDup_cons in C2 as [_ C2]. apply list.Forall_cons in C3 as [_ C3]. by split_and!. }
  exists (popped pa k). split; [done|].
  destruct (paging_mem [pa] _ _ _ _ _ _ _ _ _ _ _ (memset (k_mem k) pa 5 PGSIZE) Hp1) as (H1 & H2 & H3).
  - apply same_off_memset.
  - intros q ->%list_elem_of_singleton. destruct (own_no_table _ _ _ _ _ pa P4') as [Hal Hnt]; [set_solver|].
    split_and!; [done|done|]. pose proof (tb_nodup _ _ _ _ _ P4) as Hnd. simpl in Hnd.
    apply list.NoDup_cons in Hnd as [Hnd _]. set_solver.
  - intros va Hva _ Hin%list_elem_of_singleton. destruct (tb_in _ _ _ _ _ P4 va Hva) as (_ & _ & _ & Hni & _).
    simpl in Hin. rewrite Hin in Hni. set_solver.
  - split; [done|]. split; [done|]. split; [done|]. do 2 eexists. reflexivity.
Qed.

(** A change of a page that is neither free nor mapped. *)
Lemma paging_spare pr lg k D y x pa l sp R F A m' :
  paging sb p pr lg k D f y ip x l (pa :: sp) R F A -> same_off [pa] (k_mem k) m' ->
  paging sb p pr lg (set_k_mem m' k) D f y ip x l (pa :: sp) R F A /\
  (forall va, leaf m' (p_pagetable pr) va = leaf (k_mem k) (p_pagetable pr) va) /\
  (forall va, user_va (k_mem k) (p_pagetable pr) va -> user_va m' (p_pagetable pr) va).
Proof.
  intros Hp Hs. pose proof (pg_tables _ _ _ _ _ _ _ _ _ _ _ _ _ _ _ Hp) as Ht. apply (paging_mem [pa]); [done|done|..].
  - intros q ->%list_elem_of_singleton. destruct (own_no_table _ _ _ _ _ pa Ht) as [Hal Hnt]; [set_solver|].
    split_and!; [done|done|]. pose proof (tb_nodup _ _ _ _ _ Ht) as Hnd. apply list.NoDup_app in Hnd as (_ & Hd & _). set_solver.
  - intros va Hva _ Hin%list_elem_of_singleton. destruct (tb_in _ _ _ _ _ Ht va Hva) as (_ & _ & _ & Hni & _).
    rewrite Hin in Hni. set_solver.
Qed.

(** [kfree] of such a page. *)
Lemma paging_free pr lg k D y x pa l sp R F A e :
  paging sb p pr lg k D f y ip x l (pa :: sp) R F A ->
  exists k', kfree pa (W k e) = Ret tt (W k' e) /\ paging sb p pr lg k' D f y ip x (pa :: l) sp R F A /\
    (forall va, leaf (k_mem k') (p_pagetable pr) va = leaf (k_mem k) (p_pagetable pr) va) /\
    (forall va, user_va (k_mem k) (p_pagetable pr) va -> user_va (k_mem k') (p_pagetable pr) va) /\
    exists m v, k' = set_k_mem m (set_k_freelist v k).
Proof.
  intros Hp. pose proof Hp as [P1 P2 P3 P4 P5 P6 P7]. pose proof (tb_own _ _ _ _ _ P4) as Hown.
  assert (page_ok pa) as Hpa by (rewrite list.Forall_forall in Hown; apply Hown; set_solver).
  pose proof (tb_nodup _ _ _ _ _ P4) as Hnd. apply list.NoDup_app in Hnd as (_ & Hd & _).
  destruct (kfree_push k e pa l P2 P3 Hpa ltac:(intros Hin; apply (Hd pa Hin); set_solver)) as [E Hinv].
  exists (pushed pa k). split; [done|].
  destruct (paging_spare _ _ _ _ _ _ _ _ _ _ _ _ (st64 (memset (k_mem k) pa 1 PGSIZE) pa (k_freelist k)) Hp) as ([Q1 _ _ Q4 Q5 Q6 Q7] & H2 & H3).
  { assert (same_off ([pa] ++ [pa]) (k_mem k) (st64 (memset (k_mem k) pa 1 PGSIZE) pa (k_freelist k))) as H.
    { eapply same_off_trans; [apply same_off_memset|]. apply same_off_st64; [lia|]. unfold PGSIZE. lia. }
    intros a Ha. apply H. intros q Hq. apply Ha. set_solver. }
  split; [|split; [done|split; [done|by eexists _, pa]]].
  split; [|done|done| |done|done|done].
  - by apply (swap_open_freelist _ _ (set_k_mem _ k)).
  - eapply tables_perm; [|exact Q4]. simpl. symmetry. apply Permutation_middle.
Qed.

(** Forgetting a page of the swap file, and giving up the frame of a page in
    memory, ahead of the change of their entries. *)
Lemma paging_forget pr lg k D y x l sp R F A va :
  paging sb p pr lg k D f y ip x l sp R F A -> va ∉ R ->
  paging sb p pr lg k D f y ip x l sp R (delete va F) (delete va A).
Proof.
  intros [P1 P2 P3 P4 P5 P6 P7] HR. split; try done.
  - by apply tables_forget.
  - intros va' j Hj. apply lookup_delete_Some in Hj as [_ Hj]. by eapply P5.
  - intros va' bs Hb. apply lookup_delete_Some in Hb as [Hne Hb]. destruct (P6 va' bs Hb) as [?|(j & Hj & E)]; [by left|right].
    exists j. by rewrite lookup_delete_ne.
  - intros va' bs Hb. apply lookup_delete_Some in Hb as [_ Hb]. by eapply P7.
Qed.

Lemma paging_drop pr lg k D y x l sp R F A va :
  paging sb p pr lg k D f y ip x l sp R F A -> va ∈ R ->
  paging sb p pr lg k D f y ip x l (frame (k_mem k) (p_pagetable pr) va :: sp) (R ∖ {[va]}) F (delete va A).
Proof.
  intros [P1 P2 P3 P4 P5 P6 P7] HR. split; try done.
  - eapply tables_perm; [apply Permutation_middle|]. by apply tables_drop.
  - intros va' bs Hb. apply lookup_delete_Some in Hb as [Hne Hb]. destruct (P6 va' bs Hb) as [[Hin E]|?]; [left|by right].
    split; [set_solver|done].
  - intros va' bs Hb. apply lookup_delete_Some in Hb as [_ Hb]. by eapply P7.
Qed.

(** The entry of a page changes. *)
Lemma paging_map pr lg k D y x pa l sp R F A va m' :
  paging sb p pr lg k D f y ip x l (pa :: sp) R F A -> va ∉ R -> F !! va = None -> A !! va = None ->
  user_va (k_mem k) (p_pagetable pr) va -> 0 <= leaf (k_mem k) (p_pagetable pr) va < 2 ^ 10 ->
  leaf_set (p_pagetable pr) va (pte_in (leaf (k_mem k) (p_pagetable pr) va) pa) (k_mem k) m' ->
  paging sb p pr lg (set_k_mem m' k) D f y ip x l sp ({[va]} ∪ R) F A /\ frame m' (p_pagetable pr) va = pa /\
  only_entry (p_pagetable pr) va (k_mem k) m'.
Proof.
  intros [P1 P2 P3 P4 P5 P6 P7] HR HF HA Hva Hlf Hl.
  assert (tables (k_mem k) (p_pagetable pr) (pa :: l ++ sp) R F) as P4'.
  { eapply tables_perm; [|exact P4]. symmetry. apply Permutation_middle. }
  destruct (tables_map _ _ _ _ _ _ _ _ P4' HR HF Hva Hlf Hl) as (Ht & Hfr & Hfr').
  split; [|split; [done|by eapply leaf_set_only]]. split; try done.
  - by apply swap_open_mem.
  - destruct P3 as (C1 & C2 & C3). split_and!; [|done|done]. destruct (uv_table _ _ _ Hva) as [t Hta].
    destruct (proj1 (tb_pt _ _ _ _ _ P4) _ _ (path_of_ok va) Hta) as [[Hal Hrg] Hni].
    apply (chain_frame [t] (k_mem k)); [by apply (ls_off _ _ _ _ _ Hl)|done|by constructor| |done].
    intros q Hq ->%list_elem_of_singleton. apply Hni. set_solver.
  - intros va' bs Hb. destruct (P6 va' bs Hb) as [[Hin E]|?]; [left|by right]. split; [set_solver|].
    simpl. rewrite Hfr' by done. rewrite <- E. destruct (tb_in _ _ _ _ _ P4 va' Hin) as (_ & _ & Hok & _ & Hnt).
    by eapply leaf_set_bytes; [exact Hl|exact P4|exact Hva|apply Hok|].
Qed.

Lemma paging_unmap pr lg k D y x l sp R F A va j m' :
  paging sb p pr lg k D f y ip x l sp R F A -> va ∉ R -> F !! va = None -> A !! va = None ->
  user_va (k_mem k) (p_pagetable pr) va -> PGSIZE * (Z.of_nat j + 1) <= i_size x ->
  Forall (fun b => 0 <= b < 256) (slot_bytes D x j) ->
  leaf_set (p_pagetable pr) va (pte_out (leaf (k_mem k) (p_pagetable pr) va)) (k_mem k) m' ->
  paging sb p pr lg (set_k_mem m' k) D f y ip x l sp R (<[va := j]> F) (<[va := slot_bytes D x j]> A).
Proof.
  intros [P1 P2 P3 P4 P5 P6 P7] HR HF HA Hva Hsz Hbr Hl.
  destruct (tables_unmap _ _ j _ _ _ _ _ P4 HR HF Hva Hl) as (Ht & Hfr').
  split; try done.
  - by apply swap_open_mem.
  - destruct P3 as (C1 & C2 & C3). split_and!; [|done|done]. destruct (uv_table _ _ _ Hva) as [t Hta].
    destruct (proj1 (tb_pt _ _ _ _ _ P4) _ _ (path_of_ok va) Hta) as [[Hal Hrg] Hni].
    apply (chain_frame [t] (k_mem k)); [by apply (ls_off _ _ _ _ _ Hl)|done|by constructor| |done].
    intros q Hq ->%list_elem_of_singleton. apply Hni. set_solver.
  - intros va' j'. destruct (decide (va' = va)) as [->|Hne].
    + rewrite lookup_insert_eq. by intros [= <-].
    + rewrite lookup_insert_ne by done. apply P5.
  - intros va' bs. destruct (decide (va' = va)) as [->|Hne].
    + rewrite lookup_insert_eq. intros [= <-]. right. exists j. by rewrite lookup_insert_eq.
    + rewrite lookup_insert_ne by done. intros Hb. destruct (P6 va' bs Hb) as [[Hin E]|(j' & Hj & E)]; [left|right].
      * split; [done|]. simpl. rewrite Hfr' by done. rewrite <- E.
        destruct (tb_in _ _ _ _ _ P4 va' Hin) as (_ & _ & Hok & _ & Hnt).
        by eapply leaf_set_bytes; [exact Hl|exact P4|exact Hva|apply Hok|].
      * exists j'. by rewrite lookup_insert_ne.
  - intros va' bs. destruct (decide (va' = va)) as [->|Hne]; [rewrite lookup_insert_eq; by intros [= <-]|].
    rewrite lookup_insert_ne by done. apply P7.
Qed.

(** The rest of the kernel is the same after an operation on the file. *)
Lemma same_file_rest k k' :
  same_file f ip k k' -> k_mem k' = k_mem k /\ k_held k' = k_held k /\ k_freelist k' = k_freelist k.
Proof. by intros (? & ? & ? & (? & ? & ? & ? & _ & ->) & ->). Qed.

(** A slot read into the frame of [va]. *)
Lemma paging_read pr lg k D y x l sp R F A va j e :
  paging sb p pr lg k D f y ip x l sp R F A -> va ∈ R -> A !! va = None ->
  PGSIZE * (Z.of_nat j + 1) <= i_size x -> Forall (fun b => 0 <= b < 256) (slot_bytes D x j) ->
  exists k' y', readFromSwapFile (D := steady) p (frame (k_mem k) (p_pagetable pr) va) (PGSIZE * Z.of_nat j) PGSIZE (W k e) =
      Ret PGSIZE (W k' e) /\ paging sb p pr lg k' D f y' ip x l sp R F (<[va := slot_bytes D x j]> A) /\
    (forall va, leaf (k_mem k') (p_pagetable pr) va = leaf (k_mem k) (p_pagetable pr) va) /\
    (forall va, user_va (k_mem k) (p_pagetable pr) va -> user_va (k_mem k') (p_pagetable pr) va).
Proof.
  intros Hp HR HA Hsz Hb. set (pa := frame (k_mem k) (p_pagetable pr) va).
  pose proof (pg_tables _ _ _ _ _ _ _ _ _ _ _ _ _ _ _ Hp) as Ht.
  destruct (tb_in _ _ _ _ _ Ht va HR) as (Hva & _ & Hok & Hni & Hnt). fold pa in Hok, Hni, Hnt.
  assert (PGSIZE = 4096) as EP by done.
  destruct (readFromSwapFile_run sb p pr f ip lg k D y x pa (PGSIZE * Z.of_nat j) PGSIZE e (pg_swap _ _ _ _ _ _ _ _ _ _ _ _ _ _ _ Hp))
    as (k' & E & Ho & Hs); [lia|lia|lia|]. rewrite <- slot_bytes_eq in Hs.
  set (m' := st_bytes (k_mem k) pa (slot_bytes D x j)) in *.
  destruct (paging_mem [pa] _ _ _ _ _ _ _ _ _ _ _ m' Hp) as ([Q1 Q2 Q3 Q4 Q5 Q6 Q7] & Hlf & Huv).
  { intros a Ha. unfold m'. apply ld8_st_bytes_ne. rewrite length_slot_bytes. specialize (Ha pa (list_elem_of_here _ _)).
    unfold in_page in Ha. lia. }
  { intros q ->%list_elem_of_singleton. split_and!; [apply Hok|done|set_solver]. }
  { intros va' Hin HA' E'%list_elem_of_singleton. rewrite (tb_inj _ _ _ _ _ Ht va' va Hin HR E') in HA'.
    rewrite HA in HA'. by destruct HA'. }
  assert (page_bytes m' pa = slot_bytes D x j) as Hpb.
  { unfold m'. rewrite page_bytes_eq, <- (length_slot_bytes D x j). by apply ld_bytes_st_bytes_eq. }
  destruct (same_file_rest _ _ Hs) as (M1 & M2 & M3). simpl in M1, M2, M3, Q2, Q4, Q6. clearbody m'.
  exists k', (set_f_off (PGSIZE * Z.of_nat j + PGSIZE) y). split; [done|]. rewrite M1. split; [|by split].
  split; [exact Ho|by rewrite M2| |by rewrite M1|exact Q5| |].
  - unfold kmem_inv in *. rewrite M1, M3. exact Q3.
  - rewrite M1. intros va' bs. destruct (decide (va' = va)) as [->|Hne]; [|rewrite lookup_insert_ne by done; apply Q6].
    rewrite lookup_insert_eq. intros [= <-]. left. split; [done|]. unfold frame. rewrite Hlf.
    exact Hpb.
  - intros va' bs. destruct (decide (va' = va)) as [->|Hne]; [rewrite lookup_insert_eq; by intros [= <-]|].
    rewrite lookup_insert_ne by done. apply Q7.
Qed.

(** A page written to a slot that is not in use. *)
Lemma slot_apart lg D x D' x' j j' bs :
  rewritten sb lg D x (PGSIZE * Z.of_nat j) bs D' x' -> length bs = Z.to_nat PGSIZE ->
  PGSIZE * (Z.of_nat j' + 1) <= MAXFILE * BSIZE -> j' <> j -> slot_bytes D' x' j' = slot_bytes D x j'.
Proof.
  intros Hr Hl Hm Hne. assert (PGSIZE = 4096) as EP by done. rewrite !slot_bytes_eq. apply list_fmap_ext. intros i o Ho.
  apply lookup_seq in Ho as [-> Hi]. rewrite (rw_bytes _ _ _ _ _ _ _ _ Hr) by lia. rewrite decide_False; [done|]. lia.
Qed.

Lemma slot_written lg D x D' x' j bs :
  rewritten sb lg D x (PGSIZE * Z.of_nat j) bs D' x' -> length bs = Z.to_nat PGSIZE ->
  PGSIZE * (Z.of_nat j + 1) <= MAXFILE * BSIZE -> slot_bytes D' x' j = bs.
Proof.
  intros Hr Hl Hm. pose proof (rewritten_bytes _ _ _ _ _ _ _ _ Hr) as E. rewrite Hl, Z2Nat.id in E by done.
  rewrite slot_bytes_eq. assert (PGSIZE = 4096) as EP by done. apply E; lia.
Qed.

Lemma paging_write pr lg k D y x l sp R F A pa j e :
  paging sb p pr lg k D f y ip x l sp R F A -> (j < 16)%nat -> PGSIZE * Z.of_nat j <= i_size x ->
  (forall va, F !! va <> Some j) ->
  let bs := page_bytes (k_mem k) pa in
  (exists lg' k' D' y' x', writeToSwapFile (D := steady) p pa (PGSIZE * Z.of_nat j) PGSIZE (W k e) = Ret PGSIZE (W k' e) /\
     paging sb p pr lg' k' D' f y' ip x' l sp R F A /\ slot_bytes D' x' j = bs /\ k_mem k' = k_mem k /\
     PGSIZE * (Z.of_nat j + 1) <= i_size x') \/
  (ran_out sb lg D x (PGSIZE * Z.of_nat j) bs /\
   writeToSwapFile (D := steady) p pa (PGSIZE * Z.of_nat j) PGSIZE (W k e) = Panic "balloc: out of blocks").
Proof.
  intros [P1 P2 P3 P4 P5 P6 P7] Hj Hsz HF bs. assert (PGSIZE = 4096) as EP by done.
  assert (MAXFILE * BSIZE = 274432) as EM by done. assert (length bs = Z.to_nat PGSIZE) as Hl by apply length_page_bytes.
  destruct (writeToSwapFile_run sb p pr f ip lg k D y x pa (PGSIZE * Z.of_nat j) PGSIZE e P1)
    as [(lg' & k' & D' & x' & E & Ho & Hr & Hs)|[Ho E]]; rewrite <- ?page_bytes_eq in *; [lia|lia|lia|left|by right]. fold bs in Hr.
  destruct (same_file_rest _ _ Hs) as (M1 & M2 & M3). pose proof (rw_size _ _ _ _ _ _ _ _ Hr) as Hsz'.
  exists lg', k', D', (set_f_off (PGSIZE * Z.of_nat j + PGSIZE) y), x'. split; [done|].
  split; [|split; [eapply slot_written; [exact Hr|done|lia]|split; [done|lia]]].
  split; [exact Ho|by rewrite M2| |by rewrite M1| |rewrite M1|exact P7].
  - unfold kmem_inv in *. rewrite M1, M3. exact P3.
  - intros va j' Hj'. specialize (P5 va j' Hj'). lia.
  - intros va bs' Hb. destruct (P6 va bs' Hb) as [?|(j' & Hj' & E')]; [by left|right]. exists j'. split; [done|].
    rewrite <- E'. pose proof (op_full _ _ _ _ _ _ _ _ _ _ (so_open _ _ _ _ _ _ _ _ _ _ P1)) as [Hfs _].
    specialize (P5 va j' Hj'). eapply slot_apart; [exact Hr|done|lia|]. intros ->. by apply (HF va).
Qed.
End steps.

(** ** Lemmas: the entries *)

Section entries.

(** The entry of a page that comes to index [i]. *)
Definition without (g : page_metadata_struct) (R : gset Z) : gset Z := if used g then R ∖ {[pm_va g]} else R.

Lemma without_spec g R va : va ∈ without g R <-> va ∈ R /\ (used g = true -> va <> pm_va g).
Proof. unfold without. destruct (used g); set_solver. Qed.

Lemma meta_mem_put pr pr' R F i g g' :
  meta pr R F -> p_memory_pages pr !! i = Some g -> used g' = true -> pm_va g' ∉ without g R ->
  p_memory_pages pr' = <[i := g']> (p_memory_pages pr) -> p_file_pages pr' = p_file_pages pr ->
  meta pr' ({[pm_va g']} ∪ without g R) F.
Proof.
  intros [M1 M2 M3 M4 M5 M6] Hi Hu Hni Hm Hf. assert (i < length (p_memory_pages pr))%nat as Hlt by (by eapply lookup_lt_Some).
  assert (forall i' g1, <[i := g']> (p_memory_pages pr) !! i' = Some g1 -> used g1 = true ->
    (i' = i /\ g1 = g') \/ (i' <> i /\ p_memory_pages pr !! i' = Some g1 /\ pm_va g1 ∈ without g R)) as Hc.
  { intros i' g1 H1 Hu1. destruct (decide (i' = i)) as [->|Hne].
    - rewrite list_lookup_insert_eq in H1 by done. left. by injection H1 as <-.
    - rewrite list_lookup_insert_ne in H1 by done. right. split_and!; [done|done|]. apply without_spec. split.
      + apply M3. by exists i', g1.
      + intros Hug E. apply Hne. by apply (M4 i' i g1 g). }
  split; rewrite ?Hm, ?Hf, ?length_insert; try done.
  - intros va. rewrite elem_of_union, elem_of_singleton. split.
    + intros [->|[Hva Hne]%without_spec]; [exists i, g'; by rewrite list_lookup_insert_eq|].
      apply M3 in Hva as (i' & g1 & H1 & Hu1 & <-). exists i', g1. split; [|done]. rewrite list_lookup_insert_ne; [done|].
      intros ->. rewrite Hi in H1. injection H1 as ->. by apply Hne.
    + intros (i' & g1 & H1 & Hu1 & <-). destruct (Hc i' g1 H1 Hu1) as [[_ ->]|(_ & _ & ?)]; [by left|by right].
  - intros i1 i2 g1 g2 H1 H2 Hu1 Hu2 E.
    destruct (Hc i1 g1 H1 Hu1) as [[-> ->]|(N1 & L1 & W1)], (Hc i2 g2 H2 Hu2) as [[-> ->]|(N2 & L2 & W2)]; try done.
    + by rewrite <- E in W2.
    + by rewrite E in W1.
    + by apply (M4 i1 i2 g1 g2).
Qed.

(** The entry at [i] is given up. *)
Lemma meta_mem_clear pr pr' R F i g g' :
  meta pr R F -> p_memory_pages pr !! i = Some g -> used g' = false ->
  p_memory_pages pr' = <[i := g']> (p_memory_pages pr) -> p_file_pages pr' = p_file_pages pr ->
  meta pr' (without g R) F.
Proof.
  intros [M1 M2 M3 M4 M5 M6] Hi Hu Hm Hf. assert (i < length (p_memory_pages pr))%nat as Hlt by (by eapply lookup_lt_Some).
  assert (forall i' g1, <[i := g']> (p_memory_pages pr) !! i' = Some g1 -> used g1 = true ->
    i' <> i /\ p_memory_pages pr !! i' = Some g1) as Hc.
  { intros i' g1 H1 Hu1. destruct (decide (i' = i)) as [->|Hne].
    - rewrite list_lookup_insert_eq in H1 by done. injection H1 as <-. congruence.
    - by rewrite list_lookup_insert_ne in H1. }
  split; rewrite ?Hm, ?Hf, ?length_insert; try done.
  - intros va. rewrite without_spec. split.
    + intros [Hva Hne]. apply M3 in Hva as (i' & g1 & H1 & Hu1 & <-). exists i', g1. split; [|done].
      rewrite list_lookup_insert_ne; [done|]. intros ->. rewrite Hi in H1. injection H1 as ->. by apply Hne.
    + intros (i' & g1 & H1 & Hu1 & <-). destruct (Hc i' g1 H1 Hu1) as [Hne H]. split; [apply M3; by exists i', g1|].
      intros Hug E. apply Hne. by apply (M4 i' i g1 g).
  - intros i1 i2 g1 g2 H1 H2 Hu1 Hu2 E. destruct (Hc i1 g1 H1 Hu1) as [_ L1], (Hc i2 g2 H2 Hu2) as [_ L2].
    by apply (M4 i1 i2 g1 g2).
Qed.

(** A slot is given up: its entry keeps the address. *)
Lemma meta_file_clear pr pr' R F va j :
  meta pr R F -> F !! va = Some j -> p_memory_pages pr' = p_memory_pages pr ->
  p_file_pages pr' = alter (set_pm_state P_UNUSED) j (p_file_pages pr) -> meta pr' R (delete va F).
Proof.
  intros [M1 M2 M3 M4 M5 M6] Hj Hm Hf. pose proof (proj1 (M5 va j) Hj) as (g & Hg & Hu & Hva).
  assert (forall j' g1, alter (set_pm_state P_UNUSED) j (p_file_pages pr) !! j' = Some g1 ->
    exists g2, p_file_pages pr !! j' = Some g2 /\ pm_va g1 = pm_va g2 /\ (used g1 = true -> j' <> j /\ g1 = g2)) as Hc.
  { intros j' g1 H1. destruct (decide (j' = j)) as [->|Hne].
    - rewrite list_lookup_alter_eq, Hg in H1. injection H1 as <-. exists g. split_and!; [done|done|]. done.
    - rewrite list_lookup_alter_ne in H1 by done. exists g1. by split_and!. }
  split; rewrite ?Hm, ?Hf, ?length_alter; try done.
  - intros va' j'. rewrite lookup_delete_Some, M5. split.
    + intros (Hne & g1 & H1 & Hu1 & E). exists g1. split; [|done]. rewrite list_lookup_alter_ne; [done|].
      intros ->. apply Hne. rewrite Hg in H1. injection H1 as <-. congruence.
    + intros (g1 & H1 & Hu1 & E). destruct (Hc j' g1 H1) as (g2 & H2 & _ & H3). destruct (H3 Hu1) as [Hne ->].
      split; [|by exists g2]. intros ->. apply Hne.
      assert (F !! va' = Some j') as E' by (apply M5; by exists g2). congruence.
  - intros va' j' j2 g1 Hj' Hlt H1. apply lookup_delete_Some in Hj' as [_ Hj'].
    destruct (Hc j2 g1 H1) as (g2 & H2 & -> & _). by apply (M6 va' j' j2).
Qed.

(** A page takes the first slot that is not in use. *)
Lemma meta_file_put pr pr' R F va j g :
  meta pr R F -> F !! va = None -> (j < length (p_file_pages pr))%nat ->
  (forall j' g', (j' <= j)%nat -> p_file_pages pr !! j' = Some g' -> used g' = true <-> (j' < j)%nat) ->
  used g = true -> pm_va g = va ->
  p_memory_pages pr' = p_memory_pages pr -> p_file_pages pr' = <[j := g]> (p_file_pages pr) ->
  meta pr' R (<[va := j]> F).
Proof.
  intros [M1 M2 M3 M4 M5 M6] Hva Hlt Hfree Hu Hg Hm Hf.
  assert (forall j' g', p_file_pages pr !! j' = Some g' -> used g' = true -> pm_va g' <> va /\ j' <> j) as Hno.
  { intros j' g' H' Hu'. split.
    - intros E. assert (F !! va = Some j') by (apply M5; by exists g'). congruence.
    - intros ->. apply (Hfree j g') in Hu'; [lia|lia|done]. }
  split; rewrite ?Hm, ?Hf, ?length_insert; try done.
  - intros va' j'. destruct (decide (va' = va)) as [->|Hne].
    + rewrite lookup_insert_eq. split; [intros [= <-]; exists g; by rewrite list_lookup_insert_eq|].
      intros (g' & H' & Hu' & E). destruct (decide (j' = j)) as [->|Hne]; [done|].
      rewrite list_lookup_insert_ne in H' by done. by destruct (Hno j' g' H' Hu').
    + rewrite lookup_insert_ne, M5 by done. split; intros (g' & H' & Hu' & E); exists g'.
      * split; [|done]. rewrite list_lookup_insert_ne; [done|]. destruct (Hno j' g' H' Hu'). congruence.
      * destruct (decide (j' = j)) as [->|Hnj]; [|by rewrite list_lookup_insert_ne in H'].
        rewrite list_lookup_insert_eq in H' by done. injection H' as <-. congruence.
  - intros va' j' j2 g' Hj' Hlt' H'. destruct (decide (va' = va)) as [->|Hne].
    + rewrite lookup_insert_eq in Hj'. injection Hj' as <-. rewrite list_lookup_insert_ne in H' by lia.
      assert (used g' = true) as Hu' by (apply (Hfree j2 g'); [lia|done|done]). by destruct (Hno j2 g' H' Hu').
    + rewrite lookup_insert_ne in Hj' by done. destruct (decide (j2 = j)) as [->|Hnj].
      * rewrite list_lookup_insert_eq in H' by done. injection H' as <-. congruence.
      * rewrite list_lookup_insert_ne in H' by done. by apply (M6 va' j' j2).
Qed.
End entries.

(** ** Lemmas: the routines *)

Section routines.
Context `{L : Layout} `{!LayoutOk L} `{Sel : Selection}.

Lemma unused_test g : bool_decide (pm_state g = P_UNUSED) = negb (used g).
Proof. unfold used. by destruct (pm_state g). Qed.

(** The first index with the property [b], -1 when there is none. *)
Lemma find_index_run n cond (b : nat -> bool) k e :
  (forall i : nat, Z.of_nat i < n -> cond (Z.of_nat i) (W k e) = Ret (b i) (W k e)) ->
  exists r, find_index n cond (W k e) = Ret r (W k e) /\
    ((r = -1 /\ forall i : nat, Z.of_nat i < n -> b i = false) \/
     (exists i : nat, r = Z.of_nat i /\ Z.of_nat i < n /\ b i = true /\ forall i', (i' < i)%nat -> b i' = false)).
Proof.
  intros Hc. unfold find_index.
  assert (forall m j, (Z.of_nat j + Z.of_nat m <= n) -> (forall i, (i < j)%nat -> b i = false) ->
    exists r, for_from m (Z.of_nat j) (fun i => let* b0 := cond i in ret (if b0 then Some i else None)) (W k e) = Ret r (W k e) /\
      ((r = None /\ forall i, (i < j + m)%nat -> b i = false) \/
       (exists i : nat, r = Some (Z.of_nat i) /\ Z.of_nat i < n /\ b i = true /\ forall i', (i' < i)%nat -> b i' = false))) as H.
  { induction m as [|m IH]; intros j Hj Hb.
    - exists None. split; [done|]. left. split; [done|]. intros i Hi. apply Hb. lia.
    - rewrite for_from_S, bind_assoc, (bind_Ret _ _ _ _ _ (Hc j ltac:(lia))), bind_ret_l.
      destruct (b j) eqn:Ej.
      + exists (Some (Z.of_nat j)). split; [done|]. right. exists j. split_and!; [done|lia|done|done].
      + replace (Z.of_nat j + 1) with (Z.of_nat (S j)) by lia. destruct (IH (S j)) as (r & E & Hr); [lia| |].
        { intros i Hi. destruct (decide (i = j)) as [->|]; [done|]. apply Hb. lia. }
        exists r. split; [done|]. destruct Hr as [[-> Hr]|Hr]; [left|by right]. split; [done|].
        intros i Hi. apply Hr. lia. }
  destruct (decide (0 <= n)) as [Hn|Hn].
  - destruct (H (Z.to_nat n) 0%nat) as (r & E & Hr); [lia|lia|]. simpl Z.of_nat in E.
    rewrite (bind_Ret _ _ _ _ _ E). exists (default (-1) r). split; [done|].
    destruct Hr as [[-> Hr]|(i & -> & ? & ? & ?)]; [left|right; exists i; by split_and!].
    split; [done|]. intros i Hi. apply Hr. lia.
  - exists (-1). split; [by replace (Z.to_nat n) with 0%nat by lia|]. left. split; [done|]. intros i Hi. lia.
Qed.

Context (p : nat) (pr : proc).

Lemma fp_get_eq i k e g :
  k_procs k !! p = Some pr -> p_file_pages pr !! i = Some g -> fp_get p (Z.of_nat i) (W k e) = Ret g (W k e).
Proof.
  intros Hp Hi. unfold fp_get. rewrite (bind_Ret _ _ _ _ _ (proc_get_eq _ _ _ _ Hp)).
  unfold nth_or_fault. rewrite (proj2 (Z.ltb_ge _ 0)) by lia. by rewrite Nat2Z.id, Hi.
Qed.

Definition with_slot (i : nat) (h : page_metadata_struct -> page_metadata_struct) (pr : proc) : proc :=
  set_p_file_pages (alter h i (p_file_pages pr)) pr.

Lemma fp_mod_eq i h k e g :
  k_procs k !! p = Some pr -> p_file_pages pr !! i = Some g ->
  fp_mod p (Z.of_nat i) h (W k e) = Ret tt (W (with_proc p (with_slot i h pr) k) e).
Proof.
  intros Hp Hi. unfold fp_mod. rewrite (bind_Ret _ _ _ _ _ (fp_get_eq _ _ _ _ Hp Hi)).
  rewrite (proc_mod_eq _ _ _ _ _ Hp). by rewrite Nat2Z.id.
Qed.

(** The first free entry, in memory and in the file. *)
Lemma free_memory_index R F k e :
  k_cur k = Some p -> k_procs k !! p = Some pr -> meta pr R F ->
  exists r, get_free_memory_page_index (W k e) = Ret r (W k e) /\
    ((r = -1 /\ forall i g, p_memory_pages pr !! i = Some g -> used g = true) \/
     (exists i g, r = Z.of_nat i /\ p_memory_pages pr !! i = Some g /\ used g = false)).
Proof.
  intros Hc Hp Hm. unfold get_free_memory_page_index. rewrite (bind_Ret _ _ _ _ _ (myproc_eq k e)), Hc.
  pose proof (me_mem_len _ _ _ Hm) as Hl.
  destruct (find_index_run MAX_PYSC_PAGES (fun i => let* pg := mp_get p i in ret (bool_decide (pm_state pg = P_UNUSED)))
    (fun i => negb (used (default page0 (p_memory_pages pr !! i)))) k e) as (r & E & Hr).
  { intros i Hi. destruct (lookup_lt_is_Some_2 (p_memory_pages pr) i ltac:(lia)) as [g Hg].
    rewrite (bind_Ret _ _ _ _ _ (mp_get_eq _ _ _ _ _ _ Hp Hg)), Hg. unfold ret. by rewrite unused_test. }
  exists r. split; [done|]. destruct Hr as [[-> Hr]|(i & -> & Hi & Hb & _)]; [left|right].
  - split; [done|]. intros i g Hg. pose proof (lookup_lt_Some _ _ _ Hg). specialize (Hr i ltac:(lia)). rewrite Hg in Hr.
    simpl in Hr. by destruct (used g).
  - destruct (lookup_lt_is_Some_2 (p_memory_pages pr) i ltac:(lia)) as [g Hg]. exists i, g. rewrite Hg in Hb. simpl in Hb.
    split_and!; [done|done|by destruct (used g)].
Qed.

Lemma free_file_index R F k e :
  k_procs k !! p = Some pr -> meta pr R F -> (exists j g, p_file_pages pr !! j = Some g /\ used g = false) ->
  exists j, get_free_file_index p (W k e) = Ret (Z.of_nat j) (W k e) /\ (j < length (p_file_pages pr))%nat /\
    (forall j' g', (j' <= j)%nat -> p_file_pages pr !! j' = Some g' -> used g' = true <-> (j' < j)%nat).
Proof.
  intros Hp Hm (j0 & g0 & Hj0 & Hu0). unfold get_free_file_index. pose proof (me_file_len _ _ _ Hm) as Hl.
  destruct (find_index_run (MAX_TOTAL_PAGES - MAX_PYSC_PAGES) (fun i => let* pg := fp_get p i in ret (bool_decide (pm_state pg = P_UNUSED)))
    (fun i => negb (used (default page0 (p_file_pages pr !! i)))) k e) as (r & E & Hr).
  { intros i Hi. destruct (lookup_lt_is_Some_2 (p_file_pages pr) i ltac:(lia)) as [g Hg].
    rewrite (bind_Ret _ _ _ _ _ (fp_get_eq _ _ _ _ Hp Hg)), Hg. unfold ret. by rewrite unused_test. }
  destruct Hr as [[-> Hr]|(i & -> & Hi & Hb & Hlt)].
  - pose proof (lookup_lt_Some _ _ _ Hj0). specialize (Hr j0 ltac:(lia)). rewrite Hj0 in Hr. simpl in Hr. by rewrite Hu0 in Hr.
  - exists i. split; [done|]. split; [lia|]. intros j' g' Hle Hg'. destruct (decide (j' = i)) as [->|Hne].
    + rewrite Hg' in Hb. simpl in Hb. destruct (used g'); [done|]. split; [done|lia].
    + specialize (Hlt j' ltac:(lia)). rewrite Hg' in Hlt. simpl in Hlt. destruct (used g'); [|done]. split; [lia|done].
Qed.
End routines.

(** The process after its page in slot [j] came to index [i]. *)
Definition paged_in (i j : nat) (g : page_metadata_struct) (pr : proc) : proc :=
  let pr := with_page i (fun _ => g) pr in
  let pr := with_page i (set_pm_order (u32 (p_page_order_counter pr))) pr in
  let pr := set_p_page_order_counter (u64 (p_page_order_counter pr + 1)) pr in
  let pr := with_slot j (set_pm_state P_UNUSED) pr in
  let pr := set_p_pages_in_file_counter (u64 (p_pages_in_file_counter pr - 1)) pr in
  set_p_pages_in_memory_counter (u64 (p_pages_in_memory_counter pr + 1)) pr.

(** The process after its page [va] went to slot [j]. *)
Definition paged_out (j : nat) (va : Z) (pr : proc) : proc :=
  let pr := with_slot j (set_pm_state P_USED) pr in
  let pr := with_slot j (set_pm_va va) pr in
  let pr := with_slot j (set_pm_order 0) pr in
  let pr := set_p_pages_in_file_counter (u64 (p_pages_in_file_counter pr + 1)) pr in
  set_p_pages_in_memory_counter (u64 (p_pages_in_memory_counter pr - 1)) pr.

Section moves.
Context `{L : Layout} `{!LayoutOk L} `{Sel : Selection}.
Context (p : nat).

Lemma paged_in_run {A} pr i j gi g k e (c : K A) :
  k_procs k !! p = Some pr -> p_memory_pages pr !! i = Some gi -> p_file_pages pr !! j = Some g ->
  (mp_mod p (Z.of_nat i) (fun _ => g) ;;;
   let* pr := proc_get p in
   mp_mod p (Z.of_nat i) (set_pm_order (u32 (p_page_order_counter pr))) ;;;
   proc_mod p (fun pr => set_p_page_order_counter (u64 (p_page_order_counter pr + 1)) pr) ;;;
   fp_mod p (Z.of_nat j) (set_pm_state P_UNUSED) ;;;
   proc_mod p (fun pr => set_p_pages_in_file_counter (u64 (p_pages_in_file_counter pr - 1)) pr) ;;;
   proc_mod p (fun pr => set_p_pages_in_memory_counter (u64 (p_pages_in_memory_counter pr + 1)) pr) ;;;
   c) (W k e) = c (W (with_proc p (paged_in i j g pr) k) e).
Proof.
  intros Hp Hi Hj. rewrite (bind_Ret _ _ _ _ _ (mp_mod_eq p i _ k e pr gi Hp Hi)).
  set (pr1 := with_page i (fun _ => g) pr). pose proof (with_proc_lookup p pr pr1 k Hp) as Hp1.
  rewrite (bind_Ret _ _ _ _ _ (proc_get_eq _ _ _ _ Hp1)).
  assert (p_memory_pages pr1 !! i = Some g) as Hi1 by (unfold pr1; simpl; by rewrite list_lookup_alter_eq, Hi).
  rewrite (bind_Ret _ _ _ _ _ (mp_mod_eq p i _ _ e pr1 g Hp1 Hi1)), with_proc_twice.
  set (pr2 := with_page i _ pr1). pose proof (with_proc_lookup p pr pr2 k Hp) as Hp2.
  rewrite (bind_Ret _ _ _ _ _ (proc_mod_eq p _ _ e pr2 Hp2)), with_proc_twice.
  set (pr3 := set_p_page_order_counter _ pr2). pose proof (with_proc_lookup p pr pr3 k Hp) as Hp3.
  rewrite (bind_Ret _ _ _ _ _ (fp_mod_eq p pr3 j _ _ e g Hp3 Hj)), with_proc_twice.
  set (pr4 := with_slot j _ pr3). pose proof (with_proc_lookup p pr pr4 k Hp) as Hp4.
  rewrite (bind_Ret _ _ _ _ _ (proc_mod_eq p _ _ e pr4 Hp4)), with_proc_twice.
  set (pr5 := set_p_pages_in_file_counter _ pr4). pose proof (with_proc_lookup p pr pr5 k Hp) as Hp5.
  by rewrite (bind_Ret _ _ _ _ _ (proc_mod_eq p _ _ e pr5 Hp5)), with_proc_twice.
Qed.

Lemma paged_out_run {A} pr j g va k e (c : K A) :
  k_procs k !! p = Some pr -> p_file_pages pr !! j = Some g ->
  (fp_mod p (Z.of_nat j) (set_pm_state P_USED) ;;;
   fp_mod p (Z.of_nat j) (set_pm_va va) ;;;
   fp_mod p (Z.of_nat j) (set_pm_order 0) ;;;
   proc_mod p (fun pr => set_p_pages_in_file_counter (u64 (p_pages_in_file_counter pr + 1)) pr) ;;;
   proc_mod p (fun pr => set_p_pages_in_memory_counter (u64 (p_pages_in_memory_counter pr - 1)) pr) ;;;
   c) (W k e) = c (W (with_proc p (paged_out j va pr) k) e).
Proof.
  intros Hp Hj. rewrite (bind_Ret _ _ _ _ _ (fp_mod_eq p pr j _ k e g Hp Hj)).
  set (pr1 := with_slot j (set_pm_state P_USED) pr). pose proof (with_proc_lookup p pr pr1 k Hp) as Hp1.
  assert (p_file_pages pr1 !! j = Some (set_pm_state P_USED g)) as Hj1 by (unfold pr1; simpl; by rewrite list_lookup_alter_eq, Hj).
  rewrite (bind_Ret _ _ _ _ _ (fp_mod_eq p pr1 j _ _ e _ Hp1 Hj1)), with_proc_twice.
  set (pr2 := with_slot j (set_pm_va va) pr1). pose proof (with_proc_lookup p pr pr2 k Hp) as Hp2.
  assert (p_file_pages pr2 !! j = Some (set_pm_va va (set_pm_state P_USED g))) as Hj2
    by (unfold pr2; simpl in *; by rewrite list_lookup_alter_eq, Hj1).
  rewrite (bind_Ret _ _ _ _ _ (fp_mod_eq p pr2 j _ _ e _ Hp2 Hj2)), with_proc_twice.
  set (pr3 := with_slot j (set_pm_order 0) pr2). pose proof (with_proc_lookup p pr pr3 k Hp) as Hp3.
  rewrite (bind_Ret _ _ _ _ _ (proc_mod_eq p _ _ e pr3 Hp3)), with_proc_twice.
  set (pr4 := set_p_pages_in_file_counter _ pr3). pose proof (with_proc_lookup p pr pr4 k Hp) as Hp4.
  by rewrite (bind_Ret _ _ _ _ _ (proc_mod_eq p _ _ e pr4 Hp4)), with_proc_twice.
Qed.

(** What that does to the lists. *)
Lemma meta_paged_in pr R F i j gi g va :
  meta pr R F -> p_memory_pages pr !! i = Some gi -> p_file_pages pr !! j = Some g -> F !! va = Some j -> va ∉ without gi R ->
  meta (paged_in i j g pr) ({[va]} ∪ without gi R) (delete va F).
Proof.
  intros Hm Hi Hj HF Hni. pose proof (proj1 (me_file _ _ _ Hm va j) HF) as (g' & Hg' & Hu & Hva).
  rewrite Hj in Hg'. injection Hg' as <-. set (h := set_pm_order (u32 (p_page_order_counter pr)) g).
  assert (meta (set_p_memory_pages (<[i := h]> (p_memory_pages pr)) pr) ({[va]} ∪ without gi R) F) as H1.
  { rewrite <- Hva. change (pm_va g) with (pm_va h). eapply meta_mem_put; [done|done|done| |done|done].
    simpl. by rewrite Hva. }
  eapply (meta_file_clear _ _ _ _ va j H1 HF); [|done].
  simpl. rewrite list_alter_alter_eq. rewrite (alter_insert _ _ _ _ Hi). done.
Qed.

Lemma meta_paged_out pr R F j va :
  meta pr R F -> F !! va = None -> (j < length (p_file_pages pr))%nat ->
  (forall j' g', (j' <= j)%nat -> p_file_pages pr !! j' = Some g' -> used g' = true <-> (j' < j)%nat) ->
  meta (paged_out j va pr) R (<[va := j]> F).
Proof.
  intros Hm HF Hlt Hfree. destruct (lookup_lt_is_Some_2 _ _ Hlt) as [g Hg].
  eapply (meta_file_put pr _ R F va j (set_pm_order 0 (set_pm_va va (set_pm_state P_USED g)))); try done.
  simpl. rewrite !list_alter_alter_eq. by rewrite (alter_insert _ _ _ _ Hg).
Qed.
End moves.
