(* ===== verification/Policy.v ===== *)
(** * What the paging code relies on from the replacement policies

    The class [Chooser] says that the policy the kernel was compiled with picks
    a page of the process and does no harm.  [SCFIFO], [LAPA], [NFUA] and the
    debugging policy are instances; each says what it needs to know of the
    pages' ages. *)

From Stdlib Require Import ZArith Lia Sorting.Sorted.
From stdpp Require Import base gmap list strings numbers sorting.
From S2P Require Import Prelude Riscv State Klib Sched Kalloc Vm Usercopy Paging Bio Log Tx Fs Balloc.
From S2P Require Import Inode File Fileio Swap Swapfile Demand.

(** ** Definitions *)

Section policy.
Context `{L : Layout} `{Sel : Selection}.

(** When all entries are in use, the policy picks the entry of a page, and does
    no more than look at the [PTE_A] bits, clear some and change ages.  [ord] is
    what it needs to know of the bits and the ages. *)
Class Chooser (ord : memory -> proc -> Prop) : Prop := {
  ch_fault : forall m pr v, ord m pr -> ord m (set_p_page_fault_counter v pr);
  ch_leaf : forall m m' pr, (forall va, leaf m' (p_pagetable pr) va = leaf m (p_pagetable pr) va) -> ord m pr -> ord m' pr;
  ch_picks : forall p pr k e own R F, k_cur k = Some p -> k_procs k !! p = Some pr -> ord (k_mem k) pr ->
    tables (k_mem k) (p_pagetable pr) own R F -> meta pr R F ->
    (forall i g, p_memory_pages pr !! i = Some g -> used g = true) ->
    exists i g k' pr', get_swap_out_page_index (W k e) = Ret (Z.of_nat i) (W k' e) /\ moved p k pr k' pr' /\
      p_memory_pages pr' !! i = Some g;
}.

(** The pages in memory have distinct numbers below the counter, which is far
    from its end. *)
Record fifo_ages (pr : proc) : Prop := {
  fa_inj : forall i i' g g', p_memory_pages pr !! i = Some g -> p_memory_pages pr !! i' = Some g' ->
    used g = true -> used g' = true -> pm_order g = pm_order g' -> i = i';
  fa_range : forall i g, p_memory_pages pr !! i = Some g -> used g = true -> 0 <= pm_order g < p_page_order_counter pr;
  fa_counter : p_page_order_counter pr + MAX_PYSC_PAGES < 2 ^ 32;
}.

(** The access counters are [uint]s. *)
Definition lapa_ages (pr : proc) : Prop := forall i g, p_memory_pages pr !! i = Some g -> access_ok g.

(** The page of the entry [g] has been accessed. *)
Definition bit_A (m : memory) (pr : proc) (g : page_metadata_struct) : bool :=
  truth (Z.land (leaf m (p_pagetable pr) (pm_va g)) PTE_A).

(** The next ageing gives the entry [g] the greatest counter. *)
Definition saturates (m : memory) (pr : proc) (g : page_metadata_struct) : bool :=
  (2 ^ 32 - 2 <=? pm_access g) && bit_A m pr g.

(** ... and not all pages are about to have the greatest counter. *)
Definition nfua_ages (m : memory) (pr : proc) : Prop :=
  lapa_ages pr /\ exists i g, p_memory_pages pr !! i = Some g /\ used g = true /\ saturates m pr g = false.

(** What the policy that the kernel was compiled with needs. *)
Definition ages_ok (m : memory) (pr : proc) : Prop :=
  match SELECTION with
  | SCFIFO => fifo_ages pr
  | LAPA => lapa_ages pr
  | NFUA => nfua_ages m pr
  | DEBUG => True
  | NONE => False
  end.
End policy.

(** ** Lemmas *)

Section entries.
Context `{L : Layout}.

Lemma moved_entry p k pr k' pr' i :
  moved p k pr k' pr' -> is_Some (p_memory_pages pr' !! i) <-> is_Some (p_memory_pages pr !! i).
Proof.
  intros (m' & _ & _ & Ha). pose proof (ag_mem _ _ Ha i) as E.
  destruct (p_memory_pages pr' !! i), (p_memory_pages pr !! i); simpl in E; try done; split; intros []; done.
Qed.

Lemma moved_used p k pr k' pr' i g :
  moved p k pr k' pr' -> p_memory_pages pr !! i = Some g -> exists g', p_memory_pages pr' !! i = Some g' /\ used g' = used g.
Proof.
  intros Hmv Hg. destruct (proj2 (moved_entry _ _ _ _ _ i Hmv) (ex_intro _ g Hg)) as [g' Hg']. exists g'. split; [done|].
  destruct Hmv as (m' & _ & _ & Ha). pose proof (ag_mem _ _ Ha i) as E. rewrite Hg, Hg' in E. injection E as E _. unfold used. by rewrite E.
Qed.

Lemma user_va_same m root va va' : user_va m root va -> user_va m root va' -> same_page va va' = true -> va = va'.
Proof.
  intros [_ H2 _] [_ H4 _] E%Z.eqb_eq. rewrite !PGROUNDDOWN_spec in E. unfold PGSIZE in *. lia.
Qed.
End entries.

(** ** The debugging policy *)

Section debug.
Context `{L : Layout}.

Lemma debug_chooser : Chooser (Sel := DEBUG) (ages_ok (Sel := DEBUG)).
Proof.
  assert (@SELECTION DEBUG = DEBUG) as Hsel by done. split; [done|done|]. intros p pr k e own R F Hc Hp _ _ Hm _. pose proof (me_mem_len _ _ _ Hm) as Hl.
  assert (MAX_PYSC_PAGES = 16) as EM by done.
  destruct (lookup_lt_is_Some_2 (p_memory_pages pr) 0 ltac:(lia)) as [g Hg].
  exists 0%nat, g, k, pr. split; [|split; [by apply moved_refl|done]].
  done.
Qed.
End debug.

(** ** SCFIFO *)

Section scfifo.
Context `{L : Layout} `{!LayoutOk L}.

#[local] Definition older (pages : list page_metadata_struct) (a b : nat) : Prop := order_of pages a <= order_of pages b.

#[local] Instance older_dec pages a b : Decision (older pages a b).
Proof. unfold older. apply _. Defined.

#[local] Instance older_total pages : Total (older pages).
Proof. intros a b. unfold older. lia. Qed.

#[local] Instance older_trans pages : Transitive (older pages).
Proof. intros a b c. unfold older. lia. Qed.

Lemma fifo_queue pages (q : list nat) :
  NoDup q -> (forall a b, a ∈ q -> b ∈ q -> order_of pages a = order_of pages b -> a = b) ->
  StronglySorted (older pages) q -> StronglySorted (fun a b => order_of pages a < order_of pages b) q.
Proof.
  intros Hnd Hinj Hs. induction Hs as [|a q Hs IH Hall]; [constructor|]. apply list.NoDup_cons in Hnd as [Ha Hnd]. constructor.
  - apply IH; [done|]. intros b c Hb Hc. apply Hinj; by right.
  - rewrite list.Forall_forall in *. intros b Hb. specialize (Hall b Hb). unfold older in Hall.
    destruct (decide (order_of pages a = order_of pages b)) as [E|]; [|lia].
    rewrite (Hinj a b) in Ha; [done|by left|by right|done].
Qed.

Lemma scfifo_chooser : Chooser (Sel := SCFIFO) (ages_ok (Sel := SCFIFO)).
Proof.
  assert (@SELECTION SCFIFO = SCFIFO) as Hsel by done. split; [intros m pr v []; by split|done|]. intros p pr k e own R F Hc Hp [O1 O2 O3] Ht Hm Hall.
  set (pages := p_memory_pages pr) in *.
  set (q := merge_sort (older pages) (seq 0 (length pages))).
  assert (forall n, n ∈ q <-> (n < length pages)%nat) as Hq.
  { intros n. unfold q. rewrite merge_sort_Permutation, elem_of_seq. lia. }
  assert (forall n, n ∈ q -> exists g, pages !! n = Some g /\ used g = true /\ order_of pages n = pm_order g /\
    va_of pages n = pm_va g /\ user_va (k_mem k) (p_pagetable pr) (pm_va g)) as Hin.
  { intros n [g Hg]%Hq%lookup_lt_is_Some_2. pose proof (Hall n g Hg) as Hu. exists g. unfold order_of, va_of. rewrite Hg.
    split_and!; try done. apply (tb_in _ _ _ _ _ Ht). apply (me_mem _ _ _ Hm). eauto. }
  assert (sc_state p own k pr q) as Hs.
  { split.
    - done.
    - done.
    - apply Ht.
    - intros n. split; [intros (g & ? & ? & _)%Hin; eauto|]. intros (g & Hg & _). apply Hq. by eapply lookup_lt_Some.
    - unfold q. rewrite merge_sort_Permutation. apply NoDup_seq.
    - apply fifo_queue.
      + unfold q. rewrite merge_sort_Permutation. apply NoDup_seq.
      + intros a b (g & Hg & Hu & Eo & _)%Hin (g' & Hg' & Hu' & Eo' & _)%Hin. fold pages. rewrite Eo, Eo'. by eapply O1.
      + unfold q. apply (StronglySorted_merge_sort (older pages)).
    - intros n (g & Hg & Hu & Ho & _)%Hin. fold pages. rewrite Ho. by eapply O2.
    - intros n (g & Hg & Hu & _ & Hv & Hva)%Hin. fold pages. rewrite Hv. split; [apply Hva|apply Hva].
    - intros n n' (g & Hg & Hu & _ & Hv & Hva)%Hin (g' & Hg' & Hu' & _ & Hv' & Hva')%Hin E. fold pages in E. rewrite Hv, Hv' in E.
      eapply (me_inj _ _ _ Hm); try done. by eapply user_va_same. }
  pose proof (me_mem_len _ _ _ Hm) as Hl. fold pages in Hl. assert (MAX_PYSC_PAGES = 16) as EM by done.
  destruct (scfifo_run p own k pr q e Hs) as (i & k' & pr' & Hrun & Hmv & Hres); [|done|done|].
  { intros E. assert (0%nat ∈ q) as H0 by (apply Hq; lia). rewrite E in H0. by apply not_elem_of_nil in H0. }
  assert (i ∈ q) as (g & Hg & _)%Hin.
  { destruct Hres as [(pre & post & -> & _)|(post & -> & _)]; [|by left]. apply elem_of_app. right. by left. }
  destruct (proj2 (moved_entry _ _ _ _ _ i Hmv) (ex_intro _ g Hg)) as [g' Hg'].
  exists i, g', k', pr'. split; [|done]. done.
Qed.
End scfifo.

(** ** LAPA and NFUA *)

Section ageing.
Context `{L : Layout} `{!LayoutOk L} `{Sel : Selection} (p : nat) (own : list Z).

(** The counter of an entry after [update_access_counter] has dealt with it. *)
Definition aged_count (bit : bool) (a b : Z) (g : page_metadata_struct) : Prop :=
  if used g then b = if bit then Z.lor (Z.shiftr a 1) 0x80000000 else Z.shiftr a 1 else b = a.

Lemma shift_in a : 0 <= a < 2 ^ 32 ->
  0 <= Z.shiftr a 1 < 2 ^ 31 /\ Z.lor (Z.shiftr a 1) 0x80000000 = Z.shiftr a 1 + 2 ^ 31.
Proof.
  intros Ha. rewrite Z.shiftr_div_pow2 by lia. assert (0 <= a / 2 ^ 1 < 2 ^ 31) as Hr by (Z.to_euclidean_division_equations; lia).
  split; [done|]. change 0x80000000 with (2 ^ 31).
  rewrite <- Z.add_nocarry_lor; [done|]. apply Z.bits_inj'. intros i Hi. rewrite Z.land_spec, Z.bits_0.
  destruct (decide (i = 31)) as [->|Hne]; [by rewrite (testbit_high _ 31) by lia|].
  rewrite Z.pow2_bits_false, andb_false_r by lia. done.
Qed.

Lemma access_step k pr i g :
  k_procs k !! p = Some pr -> pt_ok (k_mem k) (p_pagetable pr) own -> p_memory_pages pr !! i = Some g ->
  (used g = true -> user_va (k_mem k) (p_pagetable pr) (pm_va g)) ->
  exists k' h, (forall e, access_turn p (Z.of_nat i) (W k e) = Ret tt (W k' e)) /\ moved p k pr k' (with_page i h pr) /\
    k_procs k' !! p = Some (with_page i h pr) /\ aged_count (bit_A (k_mem k) pr g) (pm_access g) (pm_access (h g)) g /\
    forall va, 0 <= va < MAXVA -> used g && same_page (pm_va g) va = false -> leaf (k_mem k') (p_pagetable pr) va = leaf (k_mem k) (p_pagetable pr) va.
Proof.
  intros Hp Hpt Hg Huv. unfold aged_count. destruct (used g) eqn:Hu.
  2: { exists k, id. assert (with_page i id pr = pr) as -> by (destruct pr; unfold with_page; simpl; by rewrite list_alter_id).
       split_and!; [|by apply moved_refl|done|done|done]. intros e. unfold access_turn.
       rewrite (bind_Ret _ _ _ _ _ (mp_get_eq _ _ _ _ _ _ Hp Hg)). fold (used g). by rewrite Hu. }
  destruct (Huv eq_refl) as [Hva Hal [t Ht]].
  set (h1 := fun g => set_pm_access (Z.shiftr (pm_access g) 1) g). set (k1 := with_proc p (with_page i h1 pr) k).
  set (h2 := fun g => set_pm_access (Z.lor (pm_access g) 0x80000000) g).
  assert (forall e, access_turn p (Z.of_nat i) (W k e) = when (bit_A (k_mem k) pr g)
    (mp_mod p (Z.of_nat i) h2 ;;; pte_mod (t + 8 * PX 0 (pm_va g)) (fun v => Z.land v (Z.lnot PTE_A))) (W k1 e)) as Hturn.
  { intros e. unfold access_turn. rewrite (bind_Ret _ _ _ _ _ (mp_get_eq _ _ _ _ _ _ Hp Hg)). fold (used g). rewrite Hu. unfold when at 1.
    rewrite (bind_Ret _ _ _ _ _ (mp_mod_eq p i h1 k e pr g Hp Hg)).
    rewrite (bind_Ret _ _ _ _ _ (proc_get_eq _ _ _ _ (with_proc_lookup p pr _ k Hp))). fold k1.
    destruct (walk_entry (p_pagetable pr) own (pm_va g) t k1 e Hpt Hva Ht) as (Hw & Hnz & _).
    change (p_pagetable (with_page i h1 pr)) with (p_pagetable pr).
    rewrite (bind_Ret _ _ _ _ _ Hw). unfold pte_get. rewrite Hnz. unfold load64. rewrite bind_kget.
    replace (bit_A (k_mem k) pr g) with (truth (Z.land (ld64 (k_mem k1) (t + 8 * PX 0 (pm_va g))) PTE_A)); [done|].
    unfold bit_A, leaf. by rewrite Ht. }
  assert (p_memory_pages (with_page i h1 pr) !! i = Some (h1 g)) as Hg1 by (by apply with_page_lookup).
  destruct (bit_A _ _ _).
  - exists (with_proc p (with_page i (h2 ∘ h1) pr)
      (set_k_mem (st64 (k_mem k) (t + 8 * PX 0 (pm_va g)) (Z.land (ld64 (k_mem k) (t + 8 * PX 0 (pm_va g))) (Z.lnot PTE_A))) k)), (h2 ∘ h1).
    split_and!.
    + intros e. rewrite Hturn. destruct (walk_entry (p_pagetable pr) own (pm_va g) t k e Hpt Hva Ht) as (_ & Hnz & _). unfold when.
      rewrite (bind_Ret _ _ _ _ _ (mp_mod_eq p i h2 k1 e _ _ (with_proc_lookup p pr _ k Hp) Hg1)).
      unfold pte_mod, load64. rewrite Hnz, bind_kget.
      unfold store64, mem_mod, k1. rewrite with_proc_twice. unfold with_page. simpl. by rewrite list_alter_alter_eq.
    + eexists. split; [reflexivity|]. split; [by eapply touched_store|]. by apply aged_page.
    + by apply (with_proc_lookup p pr).
    + done.
    + intros va Hva' Hs. simpl in Hs |- *. rewrite (leaf_store _ _ own t) by done. by rewrite Hs.
  - exists k1, h1. split_and!; [exact Hturn| |by apply (with_proc_lookup p pr)|done|done].
    exists (k_mem k). split_and!; [|apply touched_refl|by apply aged_page]. by destruct k.
Qed.

(** The counters of the entries below [j] have been dealt with. *)
Definition counted (m : memory) (pr pr' : proc) (j : Z) : Prop :=
  forall i g g', p_memory_pages pr !! i = Some g -> p_memory_pages pr' !! i = Some g' ->
    if decide (Z.of_nat i < j) then aged_count (bit_A m pr g) (pm_access g) (pm_access g') g else pm_access g' = pm_access g.

(** The entries from [j] on have their bits. *)
Definition bits_from (m : memory) (pr : proc) (j : Z) (m' : memory) : Prop :=
  forall i g, p_memory_pages pr !! i = Some g -> used g = true -> j <= Z.of_nat i ->
    leaf m' (p_pagetable pr) (pm_va g) = leaf m (p_pagetable pr) (pm_va g).

Lemma update_access_counter_run k pr R F :
  k_procs k !! p = Some pr -> tables (k_mem k) (p_pagetable pr) own R F -> meta pr R F ->
  exists k' pr', (forall e, update_access_counter p (W k e) = Ret tt (W k' e)) /\ moved p k pr k' pr' /\
    k_procs k' !! p = Some pr' /\ counted (k_mem k) pr pr' MAX_PYSC_PAGES.
Proof.
  intros Hp Ht Hm. unfold update_access_counter.
  destruct (for_all_steady (fun j k' => exists pr', moved p k pr k' pr' /\ k_procs k' !! p = Some pr' /\
      counted (k_mem k) pr pr' j /\ bits_from (k_mem k) pr j (k_mem k'))
    (access_turn p) (Z.to_nat MAX_PYSC_PAGES) 0 k) as (k' & Hrun & pr' & H1 & H2 & H3 & _); [| |by exists k', pr'].
  { exists pr. split_and!; [by apply moved_refl|done| |done]. intros i g g' Hg Hg'. case_decide; [lia|]. congruence. }
  intros j k1 Hj (pr1 & Hmv & Hp1 & Hcnt & Hbits).
  assert (MAX_PYSC_PAGES = 16) as EM by done. pose proof (me_mem_len _ _ _ Hm) as Hl.
  destruct (lookup_lt_is_Some_2 (p_memory_pages pr) (Z.to_nat j) ltac:(lia)) as [g Hg].
  destruct (proj2 (moved_entry _ _ _ _ _ (Z.to_nat j) Hmv) (ex_intro _ g Hg)) as [g1 Hg1].
  pose proof Hmv as (m1 & Ek1 & Hto & Hag). pose proof (ag_mem _ _ Hag (Z.to_nat j)) as Eg. rewrite Hg, Hg1 in Eg. injection Eg as Es Ev.
  assert (k_mem k1 = m1) as Em1 by (by rewrite Ek1). pose proof (ag_table _ _ Hag) as Etb.
  assert (used g1 = used g) as Hug by (unfold used; by rewrite Es).
  assert (forall i g, p_memory_pages pr !! i = Some g -> used g = true -> user_va (k_mem k) (p_pagetable pr) (pm_va g)) as Huv.
  { intros i g2 Hg2 Hu2. apply (tb_in _ _ _ _ _ Ht (pm_va g2)), (me_mem _ _ _ Hm). eauto. }
  destruct (access_step k1 pr1 (Z.to_nat j) g1) as (k2 & h & Hs & Hmv2 & Hp2 & Hc2 & Hl2).
  { done. }
  { rewrite Em1, Etb. eapply pt_ok_frame; [|apply Ht]. apply Hto. }
  { done. }
  { rewrite Hug, Em1, Etb, Ev. intros Hu. destruct (Huv _ _ Hg Hu).
    split; [done|done|]. rewrite (to_page _ _ _ Hto) by apply path_of_ok. done. }
  rewrite Z2Nat.id in Hs by lia. exists k2. split; [done|]. exists (with_page (Z.to_nat j) h pr1).
  split_and!; [by eapply moved_trans|done| |].
  - intros i gi gi' Hgi Hgi'. specialize (Hcnt i gi). destruct (decide (i = Z.to_nat j)) as [->|Hne].
    + rewrite (with_page_lookup _ _ _ _ Hg1) in Hgi'. specialize (Hcnt g1 Hgi Hg1).
      injection Hgi' as <-. assert (gi = g) as -> by congruence. rewrite decide_False in Hcnt by lia. rewrite decide_True by lia. unfold aged_count in *. rewrite <- Hug, <- Hcnt.
      destruct (used g1) eqn:Hu; [|done]. replace (bit_A (k_mem k) pr g) with (bit_A (k_mem k1) pr1 g1); [done|].
      unfold bit_A. rewrite Etb, Ev, (Hbits _ _ Hg); [done|congruence|lia].
    + simpl in Hgi'. rewrite list_lookup_alter_ne in Hgi' by done. specialize (Hcnt gi' Hgi Hgi').
      repeat case_decide; try done; lia.
  - intros i gi Hgi Hu Hi. rewrite <- (Hbits _ _ Hgi Hu) by lia. rewrite Etb, Ev in Hl2.
    pose proof (Huv _ _ Hgi Hu) as Hvi. apply Hl2; [apply Hvi|]. rewrite Hug. destruct (used g) eqn:Hug'; [|done].
    destruct (same_page (pm_va g) (pm_va gi)) eqn:E; [exfalso|done]. assert (Z.to_nat j = i) as Eij; [|lia].
    apply (me_inj _ _ _ Hm _ _ g gi); try done. eapply user_va_same; [by eapply Huv|exact Hvi|done].
Qed.
End ageing.

Section counters.
Context `{L : Layout} `{!LayoutOk L}.

Lemma counted_ok m pr pr' : lapa_ages pr -> counted m pr pr' MAX_PYSC_PAGES ->
  Z.of_nat (length (p_memory_pages pr)) = MAX_PYSC_PAGES -> (forall i, is_Some (p_memory_pages pr' !! i) -> is_Some (p_memory_pages pr !! i)) ->
  Forall access_ok (p_memory_pages pr').
Proof.
  intros Ha Hc Hl Hs. apply Forall_lookup_2. intros i g' Hg'. destruct (Hs i) as [g Hg]; [eauto|].
  specialize (Hc i g g' Hg Hg'). apply lookup_lt_Some in Hg as Hlt. rewrite decide_True in Hc by lia.
  specialize (Ha i g Hg). unfold access_ok, aged_count in *. destruct (shift_in (pm_access g) Ha) as [Hr E].
  destruct (used g); [|lia]. destruct (bit_A m pr g); rewrite Hc, ?E; lia.
Qed.

(** The entries that get the greatest counter. *)
Lemma counted_top m pr pr' i g g' : lapa_ages pr -> counted m pr pr' MAX_PYSC_PAGES ->
  Z.of_nat (length (p_memory_pages pr)) = MAX_PYSC_PAGES ->
  p_memory_pages pr !! i = Some g -> p_memory_pages pr' !! i = Some g' -> used g = true ->
  (0xFFFFFFFF <=? pm_access g') = saturates m pr g.
Proof.
  intros Ha Hc Hl Hg Hg' Hu. specialize (Hc i g g' Hg Hg'). apply lookup_lt_Some in Hg as Hi.
  rewrite decide_True in Hc by lia. unfold aged_count, saturates in *. rewrite Hu in Hc. clear Hi.
  destruct (shift_in (pm_access g) (Ha i g Hg)) as [Hr E]. rewrite Z.shiftr_div_pow2 in Hr, E, Hc by lia.
  destruct (bit_A m pr g); rewrite Hc, ?E, ?andb_true_r, ?andb_false_r.
  - destruct (Z.leb_spec 0xFFFFFFFF (pm_access g / 2 ^ 1 + 2 ^ 31)), (Z.leb_spec (2 ^ 32 - 2) (pm_access g)); try done;
      exfalso; Z.to_euclidean_division_equations; lia.
  - apply Z.leb_gt. lia.
Qed.

(** Both policies first deal with the counters, and then choose. *)
Lemma counting_policy `{Sel : Selection} p pr k e own R F :
  SELECTION = LAPA \/ SELECTION = NFUA -> k_cur k = Some p -> k_procs k !! p = Some pr -> lapa_ages pr ->
  tables (k_mem k) (p_pagetable pr) own R F -> meta pr R F ->
  exists k' pr', moved p k pr k' pr' /\ counted (k_mem k) pr pr' MAX_PYSC_PAGES /\ Forall access_ok (p_memory_pages pr') /\
    k_procs k' !! p = Some pr' /\
    get_swap_out_page_index (W k e) =
    match SELECTION with
    | LAPA => match lapa_scan (p_memory_pages pr') with Some (i, _) => Ret i (W k' e) | None => Fault "memory_pages" end
    | _ => Ret (fst (nfua_scan (p_memory_pages pr'))) (W k' e)
    end.
Proof.
  intros Hsel Hc Hp Ho Ht Hm.
  destruct (update_access_counter_run p own k pr R F Hp Ht Hm) as (k' & pr' & Hrun & Hmv & Hp' & Hcnt).
  pose proof (counted_ok _ pr pr' Ho Hcnt (me_mem_len _ _ _ Hm) (fun i => proj1 (moved_entry _ _ _ _ _ i Hmv))) as Hok.
  assert (k_cur k' = Some p) as Hc' by (by destruct Hmv as (m' & -> & _)).
  exists k', pr'. split_and!; [done|done|done|done|]. unfold get_swap_out_page_index.
  replace (bool_decide (SELECTION = NFUA) || bool_decide (SELECTION = LAPA)) with true by (by destruct Hsel as [-> | ->]).
  unfold when. rewrite bind_assoc, (bind_Ret _ _ _ _ _ (this_proc_eq k e p Hc)), (bind_Ret _ _ _ _ _ (Hrun e)).
  destruct Hsel as [-> | ->]; [unfold LAPA_algorithm|unfold NFUA_algorithm];
    rewrite (bind_Ret _ _ _ _ _ (this_proc_eq k' e p Hc')), (bind_Ret _ _ _ _ _ (proc_get_eq _ _ _ _ Hp')); [|done].
  by destruct (lapa_scan _) as [[]|].
Qed.

Lemma lapa_chooser : Chooser (Sel := LAPA) (ages_ok (Sel := LAPA)).
Proof.
  assert (@SELECTION LAPA = LAPA) as Hsel by done. split; [done|done|]. intros p pr k e own R F Hc Hp Ho Ht Hm Hall.
  destruct (counting_policy p pr k e own R F (or_introl Hsel) Hc Hp Ho Ht Hm) as (k' & pr' & Hmv & _ & Hok & _ & ->).
  destruct (lapa_scan_least _ Hok) as (idx & best & -> & [[_ Hno]|(n & g & -> & Hg & _)]).
  2: { by exists n, g, k', pr'. }
  pose proof (me_mem_len _ _ _ Hm) as Hl. assert (MAX_PYSC_PAGES = 16) as EM by done.
  destruct (lookup_lt_is_Some_2 (p_memory_pages pr) 0 ltac:(lia)) as [g Hg].
  destruct (moved_used _ _ _ _ _ _ _ Hmv Hg) as (g' & Hg' & Hu). rewrite (Hall _ _ Hg), (Hno _ _ Hg') in Hu. done.
Qed.

Lemma nfua_chooser : Chooser (Sel := NFUA) (ages_ok (Sel := NFUA)).
Proof.
  assert (@SELECTION NFUA = NFUA) as Hsel by done. split; [done| |].
  { intros m m' pr Hl [Ho (i & g & Hg & Hu & Hs)]. split; [done|]. exists i, g. unfold saturates, bit_A in *. by rewrite Hl. }
  intros p pr k e own R F Hc Hp [Ho (i & g & Hg & Hu & Hlt)] Ht Hm Hall.
  destruct (counting_policy p pr k e own R F (or_intror Hsel) Hc Hp Ho Ht Hm) as (k' & pr' & Hmv & Hcnt & Hok & _ & ->).
  destruct (nfua_scan_least (p_memory_pages pr')) as [(_ & _ & Hno)|(n & g' & -> & _ & Hg' & _)].
  2: { by exists n, g', k', pr'. }
  exfalso. destruct (moved_used _ _ _ _ _ _ _ Hmv Hg) as (g' & Hg' & Hu').
  pose proof (counted_top _ _ _ _ _ _ Ho Hcnt (me_mem_len _ _ _ Hm) Hg Hg' Hu) as Htop. rewrite Hlt in Htop.
  apply lookup_lt_Some in Hg' as Hi'. specialize (Hno i g' ltac:(lia) Hg'). apply Z.leb_gt in Htop.
  rewrite Hu', Hu in Hno. specialize (Hno eq_refl). lia.
Qed.

(** NFUA picks nothing when every page is about to have the greatest counter. *)
Lemma nfua_picks_none `{Sel : Selection} p pr k e own R F :
  SELECTION = NFUA -> k_cur k = Some p -> k_procs k !! p = Some pr -> lapa_ages pr ->
  tables (k_mem k) (p_pagetable pr) own R F -> meta pr R F ->
  (forall i g, p_memory_pages pr !! i = Some g -> used g = true -> saturates (k_mem k) pr g = true) ->
  exists k' pr', get_swap_out_page_index (W k e) = Ret (-1) (W k' e) /\ k_procs k' !! p = Some pr'.
Proof.
  intros Hsel Hc Hp Ho Ht Hm Hsat.
  destruct (counting_policy p pr k e own R F (or_intror Hsel) Hc Hp Ho Ht Hm) as (k' & pr' & Hmv & Hcnt & Hok & Hp' & ->).
  rewrite Hsel. exists k', pr'. split; [|done].
  destruct (nfua_scan_least (p_memory_pages pr')) as [(-> & _)|(n & g' & _ & _ & Hg' & Hu' & Hk & Hb & _)]; [done|exfalso].
  destruct (proj1 (moved_entry _ _ _ _ _ n Hmv) (ex_intro _ g' Hg')) as [g Hg].
  destruct (moved_used _ _ _ _ _ _ _ Hmv Hg) as (g2 & Hg2 & Hu2). assert (g2 = g') as -> by congruence.
  assert (used g = true) as Hu by congruence.
  pose proof (counted_top _ _ _ _ _ _ Ho Hcnt (me_mem_len _ _ _ Hm) Hg Hg' Hu) as Htop.
  rewrite (Hsat _ _ Hg Hu) in Htop. apply Z.leb_le in Htop. lia.
Qed.

(** Every policy does what the paging code relies on, when the ages are right. *)
#[export] Instance policy_chooser `{Sel : Selection} : Chooser ages_ok.
Proof.
  destruct Sel; [apply scfifo_chooser|apply nfua_chooser|apply lapa_chooser|apply debug_chooser|].
  split; done.
Qed.
End counters.
