(* ===== verification/Pagefault.v ===== *)
(** * Page faults and swapping, from end to end

    [get_page_from_file], which brings the page of a fault back from the swap
    file, and [swap], which makes room for a new page: both leave the contents
    of every page of the process as they were. *)

From Stdlib Require Import ZArith Lia.
From stdpp Require Import base gmap list strings numbers.
From S2P Require Import Prelude Riscv State Klib Sched Kalloc Vm Usercopy Paging Bio Log Tx Fs Balloc.
From S2P Require Import Inode File Fileio Swap Swapfile Demand Policy.

(** ** Lemmas *)

(** A write inside the file allocates nothing. *)
Lemma ran_out_inside sb lg D x off bs :
  ran_out sb lg D x off bs -> full D x -> 0 <= off -> i_size x < off + Z.of_nat (length bs).
Proof.
  intros (a & b & c & D1 & x1 & -> & Hr & [(o & Ho & Hz) _]) [Hs Hf] Hoff. rewrite !length_app in *.
  destruct (decide (i_size x < off + Z.of_nat (length a + (length b + length c)))) as [|Hge]; [done|exfalso].
  assert (0 < BSIZE) as HB by done. pose proof (Z.div_mod o BSIZE ltac:(lia)) as Hd. pose proof (Z.mod_pos_bound o BSIZE HB).
  assert (0 <= o / BSIZE) by (apply Z.div_pos; lia). specialize (Hf (o / BSIZE) ltac:(done) ltac:(lia)).
  assert (is_slot (o / BSIZE)) as Hsl.
  { split; [done|]. assert (o / BSIZE < MAXFILE) by (apply Z.div_lt_upper_bound; lia). lia. }
  destruct (decide (fblk D1 x1 (o / BSIZE) = fblk D x (o / BSIZE))) as [E|Hne]; [congruence|].
  by destruct (rw_fresh _ _ _ _ _ _ _ _ Hr _ Hsl Hne).
Qed.

(** Two steps in a row. *)
Lemma bind2_Ret {St A B C} (m : M St A) (n : M St B) (c : B -> M St C) s b s' :
  (m ;;; n) s = Ret b s' -> (m ;;; let* x := n in c x) s = c b s'.
Proof. unfold bind. destruct (m s) as [a s1| | | | |]; try done. intros E. by rewrite E. Qed.

(** The entry of [va] has the access counter of slot [j]. *)
Definition slot_count (pr pr' : proc) (va : Z) (j : nat) : Prop :=
  exists i g h, p_memory_pages pr' !! i = Some g /\ used g = true /\ pm_va g = va /\
    p_file_pages pr !! j = Some h /\ pm_access g = pm_access h.

(** All entries of the process are in use. *)
Definition entries_full (pr : proc) : Prop := forall i g, p_memory_pages pr !! i = Some g -> used g = true.

(** In the state [k], where the metadata is that of [pr], the policy chooses the
    page at [vo]. *)
Definition picked `{L : Layout} `{Sel : Selection} (k : kernel) (e : list (kernel -> kernel)) (pr : proc) (vo : Z) : Prop :=
  exists i g k', get_swap_out_page_index (W k e) = Ret (Z.of_nat i) (W k' e) /\ p_memory_pages pr !! i = Some g /\ pm_va g = vo.

Section moves.
Context `{L : Layout} `{!LayoutOk L} `{Sel : Selection}.
#[local] Existing Instance steady.
Context {sb : superblock} {p f ip : nat}.

Lemma paging_lookup pr lg k D y x l sp R F A :
  paging sb p pr lg k D f y ip x l sp R F A -> k_procs k !! p = Some pr /\ k_cur k = Some p.
Proof.
  intros Hp. pose proof (st_calm _ _ _ _ _ _ _ _ _ (id_st _ _ _ _ _ (op_idle _ _ _ _ _ _ _ _ _ _
    (so_open _ _ _ _ _ _ _ _ _ _ (pg_swap _ _ _ _ _ _ _ _ _ _ _ _ _ _ _ Hp))))) as [].
  done.
Qed.

Lemma paging_full pr lg k D y x l sp R F A : paging sb p pr lg k D f y ip x l sp R F A -> full D x.
Proof.
  intros Hp. apply (op_full _ _ _ _ _ _ _ _ _ _ (so_open _ _ _ _ _ _ _ _ _ _ (pg_swap _ _ _ _ _ _ _ _ _ _ _ _ _ _ _ Hp))).
Qed.

(** [read_page_from_file] into the frame of [va]. *)
Lemma read_page_run pr lg k D y x l sp R F A va i gi j Rm Fm e :
  paging sb p pr lg k D f y ip x l sp R F A -> va ∈ R -> A !! va = None ->
  PGSIZE * (Z.of_nat j + 1) <= i_size x -> Forall (fun b => 0 <= b < 256) (slot_bytes D x j) ->
  meta pr Rm Fm -> Fm !! va = Some j -> p_memory_pages pr !! i = Some gi -> va ∉ without gi Rm ->
  exists k' pr' y',
    read_page_from_file p (Z.of_nat i) va (frame (k_mem k) (p_pagetable pr) va) (W k e) = Ret PGSIZE (W k' e) /\
    paging sb p pr' lg k' D f y' ip x l sp R F (<[va := slot_bytes D x j]> A) /\
    meta pr' ({[va]} ∪ without gi Rm) (delete va Fm) /\ p_pagetable pr' = p_pagetable pr /\ slot_count pr pr' va j /\
    (forall va, leaf (k_mem k') (p_pagetable pr) va = leaf (k_mem k) (p_pagetable pr) va) /\
    (forall va, user_va (k_mem k) (p_pagetable pr) va -> user_va (k_mem k') (p_pagetable pr) va).
Proof.
  intros Hp HR HA Hsz Hb Hm HF Hi Hni. destruct (paging_lookup _ _ _ _ _ _ _ _ _ _ _ Hp) as [Hpr Hc].
  pose proof (proj1 (me_file _ _ _ Hm va j) HF) as (g & Hg & Hu & Hva).
  destruct (paging_read _ _ _ _ _ _ _ _ _ _ _ va j e Hp HR HA Hsz Hb) as (k1 & y1 & E1 & P1 & L1 & U1).
  destruct (paging_lookup _ _ _ _ _ _ _ _ _ _ _ P1) as [Hpr1 _].
  exists (with_proc p (paged_in i j g pr) k1), (paged_in i j g pr), y1. split; [|split_and!; try done].
  - unfold read_page_from_file. rewrite (bind_Ret _ _ _ (Some PGSIZE) (W (with_proc p (paged_in i j g pr) k1) e)); [done|].
    pose proof (lookup_lt_Some _ _ _ Hg) as Hlt. pose proof (me_file_len _ _ _ Hm) as Hl.
    eapply (for_from_first _ _ _ (Z.of_nat j)); [lia| |].
    + intros i' Hi'. destruct (lookup_lt_is_Some_2 (p_file_pages pr) (Z.to_nat i') ltac:(lia)) as [g' Hg'].
      pose proof (fp_get_eq p pr _ k e _ Hpr Hg') as Eg. rewrite Z2Nat.id in Eg by lia. rewrite (bind_Ret _ _ _ _ _ Eg).
      rewrite (proj2 (Z.eqb_neq _ _)); [done|]. apply (me_first _ _ _ Hm va j (Z.to_nat i') g' HF); [lia|done].
    + rewrite (bind_Ret _ _ _ _ _ (fp_get_eq p pr _ k e _ Hpr Hg)), Hva, Z.eqb_refl.
      rewrite (Z.mul_comm (Z.of_nat j)). rewrite (bind_Ret _ _ _ _ _ E1). change (PGSIZE =? -1) with false. cbv iota.
      by rewrite (paged_in_run p pr i j gi g k1 e _ Hpr1 Hi Hg).
  - by eapply paging_proc.
  - by apply meta_paged_in.
  - exists i, (set_pm_order (u32 (p_page_order_counter pr)) g), g. split_and!; [|done|done|done|done]. simpl.
    by rewrite list_lookup_alter_eq, list_lookup_alter_eq, Hi.
Qed.

(** [write_page_to_file] of the page [va] in memory. *)
Lemma write_page_run pr lg k D y x l sp R F A va Rm e :
  paging sb p pr lg k D f y ip x l sp R F A -> user_va (k_mem k) (p_pagetable pr) va ->
  meta pr Rm F -> F !! va = None -> (exists j g, p_file_pages pr !! j = Some g /\ used g = false) ->
  let bs := page_bytes (k_mem k) (frame (k_mem k) (p_pagetable pr) va) in
  exists j : nat, (forall j' g, p_file_pages pr !! j' = Some g -> used g = false -> (j <= j')%nat) /\
  ((exists lg' k' pr' D' y' x', write_page_to_file p va (p_pagetable pr) (W k e) = Ret PGSIZE (W k' e) /\
      paging sb p pr' lg' k' D' f y' ip x' l sp R F A /\ slot_bytes D' x' j = bs /\
      PGSIZE * (Z.of_nat j + 1) <= i_size x' /\ k_mem k' = k_mem k /\
      meta pr' Rm (<[va := j]> F) /\ p_pagetable pr' = p_pagetable pr /\ p_memory_pages pr' = p_memory_pages pr) \/
   (PGSIZE * Z.of_nat j <= i_size x < PGSIZE * (Z.of_nat j + 1) /\ ran_out sb lg D x (PGSIZE * Z.of_nat j) bs /\
    write_page_to_file p va (p_pagetable pr) (W k e) = Panic "balloc: out of blocks")).
Proof.
  intros Hp Hva Hm HF Hfree bs. destruct (paging_lookup _ _ _ _ _ _ _ _ _ _ _ Hp) as [Hpr Hc].
  destruct (free_file_index p pr Rm F k e Hpr Hm Hfree) as (j & Ej & Hlt & Hj).
  pose proof (me_file_len _ _ _ Hm) as Hl. assert (PGSIZE = 4096 /\ MAX_TOTAL_PAGES - MAX_PYSC_PAGES = 16) as [EP EM] by done.
  exists j. split.
  { intros j' g Hg Hu. destruct (decide (j <= j')%nat) as [|Hn]; [done|]. apply (Hj j' g) in Hg as [_ Hg]; [|lia].
    rewrite Hg in Hu by lia. done. }
  destruct Hva as [V1 V2 [t Ht]]. pose proof (tb_pt _ _ _ _ _ (pg_tables _ _ _ _ _ _ _ _ _ _ _ _ _ _ _ Hp)) as Hpt.
  destruct (walk_entry _ _ va t k e Hpt V1 Ht) as (Ew & Hnz & Hld).
  assert (forall c : Z -> K Z, (let* pte := walk (p_pagetable pr) va false in let* v := pte_get pte in c v) (W k e) =
    c (leaf (k_mem k) (p_pagetable pr) va) (W k e)) as Hwalk.
  { intros c. rewrite (bind_Ret _ _ _ _ _ Ew). unfold pte_get. rewrite Hnz. unfold load64. by rewrite bind_kget, Hld. }
  assert (PGSIZE * Z.of_nat j <= i_size x) as Hsz.
  { destruct j as [|j]; [destruct (paging_full _ _ _ _ _ _ _ _ _ _ _ Hp); lia|].
    destruct (lookup_lt_is_Some_2 (p_file_pages pr) j ltac:(lia)) as [g Hg].
    assert (used g = true) as Hu by (apply (Hj j g); [lia|done|lia]).
    assert (F !! pm_va g = Some j) as Hfj by (apply (me_file _ _ _ Hm); by exists g).
    pose proof (pg_size _ _ _ _ _ _ _ _ _ _ _ _ _ _ _ Hp _ _ Hfj). lia. }
  destruct (paging_write _ _ _ _ _ _ _ _ _ _ _ (frame (k_mem k) (p_pagetable pr) va) j e Hp) as
    [(lg' & k' & D' & y' & x' & E & P' & Hsb & Hmem & Hsz')|[Ho E]]; [lia|done| | |].
  { intros va' Hva'. apply (me_file _ _ _ Hm) in Hva' as (g & Hg & Hu & _). apply (Hj j g) in Hu; [lia|lia|done]. }
  - left. destruct (paging_lookup _ _ _ _ _ _ _ _ _ _ _ P') as [Hpr' _]. destruct (lookup_lt_is_Some_2 _ _ Hlt) as [g Hg].
    exists lg', (with_proc p (paged_out j va pr) k'), (paged_out j va pr), D', y', x'.
    split_and!; [|by eapply paging_proc|exact Hsb|exact Hsz'|exact Hmem|by apply meta_paged_out|reflexivity|reflexivity].
    unfold write_page_to_file. rewrite (bind_Ret _ _ _ _ _ Ej), Hwalk. rewrite u32_small by lia.
    fold (frame (k_mem k) (p_pagetable pr) va). rewrite (bind_Ret _ _ _ _ _ E). change (PGSIZE =? -1) with false. cbv iota.
    by rewrite (paged_out_run p pr j g va k' e _ Hpr' Hg).
  - right. split; [|split; [done|]].
    + apply ran_out_inside in Ho; [|by eapply paging_full|lia]. rewrite length_page_bytes in Ho. lia.
    + unfold write_page_to_file. rewrite (bind_Ret _ _ _ _ _ Ej), Hwalk. rewrite u32_small by lia.
      fold (frame (k_mem k) (p_pagetable pr) va). by apply bind_Panic.
Qed.

(** The ages do not matter for where the pages are. *)
Lemma meta_aged pr pr' R F : meta pr R F -> aged pr pr' -> meta pr' R F.
Proof.
  intros [M1 M2 M3 M4 M5 M6] Ha. pose proof (ag_file _ _ Ha) as A3. pose proof (ag_mem _ _ Ha) as A4.
  assert (forall i g', p_memory_pages pr' !! i = Some g' -> exists g, p_memory_pages pr !! i = Some g /\ used g = used g' /\ pm_va g = pm_va g') as H1.
  { intros i g' H. specialize (A4 i). rewrite H in A4. simpl in A4. symmetry in A4. apply fmap_Some in A4 as (g & Hg & [= E1 E2]).
    exists g. unfold used. by rewrite E1. }
  assert (forall i g, p_memory_pages pr !! i = Some g -> exists g', p_memory_pages pr' !! i = Some g' /\ used g' = used g /\ pm_va g' = pm_va g) as H2.
  { intros i g H. specialize (A4 i). rewrite H in A4. simpl in A4. apply fmap_Some in A4 as (g' & Hg & [= E1 E2]).
    exists g'. unfold used. by rewrite E1. }
  split; rewrite ?A3; try done.
  - rewrite <- M1. f_equal. apply Nat.le_antisymm.
    + destruct (le_lt_dec (length (p_memory_pages pr')) (length (p_memory_pages pr))) as [|Hlt]; [done|].
      destruct (lookup_lt_is_Some_2 _ _ Hlt) as [g' Hg']. destruct (H1 _ _ Hg') as (g & Hg & _). apply lookup_lt_Some in Hg. lia.
    + destruct (le_lt_dec (length (p_memory_pages pr)) (length (p_memory_pages pr'))) as [|Hlt]; [done|].
      destruct (lookup_lt_is_Some_2 _ _ Hlt) as [g' Hg']. destruct (H2 _ _ Hg') as (g & Hg & _). apply lookup_lt_Some in Hg. lia.
  - intros va. rewrite M3. split; intros (i & g & Hg & Hu & Hv).
    + destruct (H2 _ _ Hg) as (g' & Hg' & E1 & E2). exists i, g'. split_and!; congruence.
    + destruct (H1 _ _ Hg) as (g' & Hg' & E1 & E2). exists i, g'. split_and!; congruence.
  - intros i i' g g' Hg Hg' Hu Hu' E. destruct (H1 _ _ Hg) as (h & Hh & E1 & E2), (H1 _ _ Hg') as (h' & Hh' & E1' & E2').
    apply (M4 i i' h h'); congruence.
Qed.

Lemma pte_clear_A v : 0 <= v -> PTE2PA (Z.land v (Z.lnot PTE_A)) = PTE2PA v /\
  (forall i, 0 <= i -> i <> 6 -> Z.testbit (Z.land v (Z.lnot PTE_A)) i = Z.testbit v i) /\
  (v < 2 ^ 10 -> 0 <= Z.land v (Z.lnot PTE_A) < 2 ^ 10).
Proof.
  intros Hv. assert (forall i, 0 <= i -> i <> 6 -> Z.testbit (Z.land v (Z.lnot PTE_A)) i = Z.testbit v i) as Hb.
  { intros i Hi Hne. rewrite Z.land_spec, Z.lnot_spec by done. change PTE_A with (2 ^ 6).
    rewrite Z.pow2_bits_false by lia. by rewrite andb_true_r. }
  split_and!; [|done|intros Hr; by apply land_range].
  unfold PTE2PA. do 2 f_equal. apply Z.bits_inj'. intros i Hi. rewrite !Z.shiftr_spec by done. apply Hb; lia.
Qed.

Lemma touched_frame root m m' va : touched root m m' -> user_va m root va -> frame m' root va = frame m root va.
Proof.
  intros [_ T2 _] [V _ _]. unfold frame. destruct (T2 va V) as [->| ->]; [done|].
  pose proof (leaf_range m root va). apply pte_clear_A. lia.
Qed.

Lemma paging_touched pr lg k D y x l sp R F A m' :
  paging sb p pr lg k D f y ip x l sp R F A -> touched (p_pagetable pr) (k_mem k) m' ->
  paging sb p pr lg (set_k_mem m' k) D f y ip x l sp R F A.
Proof.
  intros [P1 P2 P3 P4 P5 P6 P7] [T1 T2 T3]. destruct P4 as [Q1 Q2 Q3 Q4 Q5 Q6]. set (root := p_pagetable pr) in *.
  assert (forall va, 0 <= va < MAXVA -> frame m' root va = frame (k_mem k) root va /\
    forall i, 0 <= i -> i <> 6 -> Z.testbit (leaf m' root va) i = Z.testbit (leaf (k_mem k) root va) i) as Hlf.
  { intros va Hva. unfold frame. destruct (T2 va Hva) as [->| ->]; [done|].
    pose proof (leaf_range (k_mem k) root va). by destruct (pte_clear_A (leaf (k_mem k) root va)) as (? & ? & _); [lia|]. }
  assert (forall q, no_table (k_mem k) root q -> no_table m' root q) as Hnt.
  { intros q Hq path Hpo. rewrite T1 by done. by apply Hq. }
  assert (forall va, user_va (k_mem k) root va -> user_va m' root va) as Huv.
  { intros va [V1 V2 V3]. split; [done|done|]. by rewrite T1 by apply path_of_ok. }
  assert (forall q a, q mod PGSIZE = 0 -> no_table (k_mem k) root q -> in_page q a -> ld8 m' a = ld8 (k_mem k) a) as Hrest.
  { intros q a Hq Hqn Ha. apply T3. intros path r Hpo Hr Hin. destruct (proj1 Q1 path r Hpo Hr) as [[Hal _] _].
    apply (Hqn path Hpo). rewrite Hr. f_equal. by apply (in_page_disjoint r q a). }
  split; [by apply swap_open_mem|done| | |done| |done].
  - destruct P3 as (C1 & C2 & C3). split_and!; [|done|done]. simpl.
    assert (forall l0 q0, (forall q, q ∈ l0 -> q mod PGSIZE = 0 /\ no_table (k_mem k) root q) -> chain (k_mem k) q0 l0 -> chain m' q0 l0) as Hch.
    { induction l0 as [|q l0 IH]; intros q0 Hl0; [done|]. simpl. intros [-> Hc]. split; [done|].
      destruct (Hl0 q ltac:(set_solver)) as [Hal Hqn].
      assert (ld64 m' q = ld64 (k_mem k) q) as ->.
      { apply ld64_ext. intros i Hi. apply (Hrest q); [done|done|]. unfold in_page, PGSIZE. lia. }
      apply IH; [|done]. intros q' Hq'. apply Hl0. set_solver. }
    apply Hch; [|done]. intros q Hq. rewrite list.Forall_forall in C3. split; [apply (C3 q Hq)|].
    intros path Hpo E. destruct (proj1 Q1 path q Hpo E) as [_ Hni]. set_solver.
  - cbn [k_mem set_k_mem]. fold root. split; try done.
    + by apply (pt_ok_frame (k_mem k)).
    + intros va Hva. destruct (Q4 va Hva) as (U & B & ? & ? & ?). destruct (Hlf va (uv_range _ _ _ U)) as [-> Hbit].
      split_and!; try done; [by apply Huv|by rewrite Hbit|by apply Hnt].
    + intros a b Ha Hb. destruct (Q4 a Ha) as (Ua & _), (Q4 b Hb) as (Ub & _).
      destruct (Hlf a (uv_range _ _ _ Ua)) as [-> _], (Hlf b (uv_range _ _ _ Ub)) as [-> _]. by apply Q5.
    + intros va Hva. destruct (Q6 va Hva) as (U & Rg & B0 & B9). destruct (Hlf va (uv_range _ _ _ U)) as [_ Hbit].
      split; [by apply Huv|]. rewrite !Hbit by lia. split_and!; try done.
      * destruct (T2 va (uv_range _ _ _ U)) as [->| ->]; [lia|]. apply pte_clear_A; lia.
      * destruct (T2 va (uv_range _ _ _ U)) as [->| ->]; [lia|]. apply pte_clear_A; lia.
  - intros va bs Hb. destruct (P6 va bs Hb) as [[Hin E]|?]; [left|by right]. split; [done|].
    destruct (Q4 va Hin) as (U & _ & [Hal _] & _ & Hn). destruct (Hlf va (uv_range _ _ _ U)) as [Hfr _].
    simpl. fold root. rewrite Hfr, <- E. rewrite !page_bytes_eq. apply ld_bytes_ext. intros i Hi. apply (Hrest (frame (k_mem k) root va)); [done|done|].
    unfold in_page, PGSIZE in *. lia.
Qed.
End moves.

Section fault.
Context `{L : Layout} `{!LayoutOk L} `{Sel : Selection}.
#[local] Existing Instance steady.
Context {sb : superblock} {p f ip : nat}.

Lemma pte_out_PA v : PTE2PA (pte_out v) = 0.
Proof.
  destruct (pte_out_spec v) as (Hr & _). unfold PTE2PA. by rewrite Z.shiftr_div_pow2, Z.div_small by lia.
Qed.

Lemma aged_initial i pr : aged pr (with_initial_access i pr).
Proof.
  unfold with_initial_access. destruct initial_access as [a|]; [|apply aged_refl]. apply aged_pages. intros i'. simpl.
  destruct (decide (i' = i)) as [->|Hne]; [rewrite list_lookup_alter_eq|by rewrite list_lookup_alter_ne].
  by destruct (p_memory_pages pr !! i).
Qed.

Lemma paging_not_both pr lg k D y x l sp R F A va j :
  paging sb p pr lg k D f y ip x l sp R F A -> F !! va = Some j -> va ∉ R.
Proof.
  intros Hp HF HR. pose proof (pg_tables _ _ _ _ _ _ _ _ _ _ _ _ _ _ _ Hp) as Ht.
  destruct (tb_in _ _ _ _ _ Ht va HR) as (_ & B & _). destruct (tb_out _ _ _ _ _ Ht va ltac:(by exists j)) as (_ & _ & B' & _).
  congruence.
Qed.

(** [va] is mapped for the user to read, write and execute. *)
Definition all_access (m : memory) (root va : Z) : Prop := forall i, 0 <= i < 5 -> Z.testbit (leaf m root va) i = true.

(** The entry of the page [va] of the file is set up for the frame [pa]. *)
Lemma map_in pr lg k D y x pa l sp R F A va j i gi e :
  paging sb p pr lg k D f y ip x l (pa :: sp) R F A -> F !! va = Some j -> p_memory_pages pr !! i = Some gi ->
  exists k' pr', update_page_in_pte (p_pagetable pr) va pa (Z.of_nat i) (W k e) = Ret tt (W k' e) /\
    paging sb p pr' lg k' D f y ip x l sp ({[va]} ∪ R) (delete va F) (delete va A) /\ aged pr pr' /\
    frame (k_mem k') (p_pagetable pr) va = pa /\ only_entry (p_pagetable pr) va (k_mem k) (k_mem k') /\
    all_access (k_mem k') (p_pagetable pr) va.
Proof.
  intros Hp HF Hi. pose proof (pg_tables _ _ _ _ _ _ _ _ _ _ _ _ _ _ _ Hp) as Ht. destruct (paging_lookup _ _ _ _ _ _ _ _ _ _ _ Hp) as [Hpr Hc].
  pose proof (paging_not_both _ _ _ _ _ _ _ _ _ _ _ _ _ Hp HF) as HR.
  destruct (tb_out _ _ _ _ _ Ht va ltac:(by exists j)) as (Hva & Hlf & B0 & B9). destruct (uv_table _ _ _ Hva) as [t Hta].
  pose proof (tb_own _ _ _ _ _ Ht) as Hown. rewrite list.Forall_forall in Hown. assert (page_ok pa) as Hpa by (apply Hown; set_solver).
  destruct (update_page_in_pte_run (p_pagetable pr) _ va t pa p pr i gi k e (tb_pt _ _ _ _ _ Ht) (uv_range _ _ _ Hva) Hta Hc Hpr Hi Hlf B0
    (page_ok_small pa Hpa) (proj1 Hpa)) as (m' & E & Hl).
  destruct (paging_map _ _ _ _ _ _ _ _ _ _ _ _ va m' (paging_forget _ _ _ _ _ _ _ _ _ _ _ va Hp HR) HR) as (P1 & Hfr & Ho);
    [by rewrite lookup_delete_eq|by rewrite lookup_delete_eq|done|done|done|].
  exists (with_proc p (with_initial_access i pr) (set_k_mem m' k)), (with_initial_access i pr).
  pose proof (aged_initial i pr) as Ha. split; [done|]. split; [eapply paging_proc; [exact P1|exact (ag_swap _ _ Ha)|exact (ag_table _ _ Ha)]|].
  split; [done|]. split; [done|]. split; [done|]. intros b Hb. cbn [k_mem with_proc set_k_mem set_k_procs].
  rewrite (leaf_set_here _ _ _ _ _ (uv_range _ _ _ Hva) Hl). by apply (pte_in_spec _ _ Hlf (page_ok_small pa Hpa) (proj1 Hpa)).
Qed.

(** The page [va] of slot [j] comes in at index [i], into the frame [pa]. *)
Lemma page_in pr lg k D y x pa l sp R F A va j i gi bs e :
  paging sb p pr lg k D f y ip x l (pa :: sp) R F A -> meta pr R F -> F !! va = Some j -> A !! va = Some bs ->
  p_memory_pages pr !! i = Some gi ->
  exists k' pr' y', (update_page_in_pte (p_pagetable pr) va pa (Z.of_nat i) ;;; read_page_from_file p (Z.of_nat i) va pa) (W k e) =
      Ret PGSIZE (W k' e) /\
    paging sb p pr' lg k' D f y' ip x l sp ({[va]} ∪ R) (delete va F) A /\ meta pr' ({[va]} ∪ without gi R) (delete va F) /\
    p_pagetable pr' = p_pagetable pr /\ slot_count pr pr' va j /\ all_access (k_mem k') (p_pagetable pr) va /\
    (forall va', user_va (k_mem k) (p_pagetable pr) va' -> user_va (k_mem k') (p_pagetable pr) va' /\
       (va' <> va -> leaf (k_mem k') (p_pagetable pr) va' = leaf (k_mem k) (p_pagetable pr) va')).
Proof.
  intros Hp Hm HF HA Hi. pose proof (paging_not_both _ _ _ _ _ _ _ _ _ _ _ _ _ Hp HF) as HR.
  destruct (map_in _ _ _ _ _ _ _ _ _ _ _ _ va j i gi e Hp HF Hi) as (k1 & pr1 & E1 & P1 & Ha & Hfr & Ho & Hacc).
  destruct (pg_data _ _ _ _ _ _ _ _ _ _ _ _ _ _ _ Hp va bs HA) as [[? _]|(j' & Hj' & Hsb)]; [done|].
  rewrite HF in Hj'. injection Hj' as <-.
  pose proof (ag_mem _ _ Ha i) as Hgi. rewrite Hi in Hgi. simpl in Hgi. apply fmap_Some in Hgi as (gi1 & Hi1 & [= E E']).
  assert (without gi1 R = without gi R) as Hw by (unfold without, used; by rewrite <- E, <- E').
  destruct (read_page_run pr1 lg k1 D y x l sp _ _ _ va i gi1 j R F e P1) as (k2 & pr2 & y2 & E2 & P2 & M2 & T2 & C2 & L2 & U2); try done.
  - set_solver.
  - by rewrite lookup_delete_eq.
  - by apply (pg_size _ _ _ _ _ _ _ _ _ _ _ _ _ _ _ Hp va).
  - rewrite Hsb. by apply (pg_byte _ _ _ _ _ _ _ _ _ _ _ _ _ _ _ Hp va).
  - by eapply meta_aged.
  - rewrite Hw, without_spec. by intros [? _].
  - rewrite (ag_table _ _ Ha) in *. rewrite Hfr in E2. exists k2, pr2, y2. rewrite (bind_Ret _ _ _ _ _ E1), E2. split; [done|].
    rewrite Hsb, insert_delete_id in P2 by done. rewrite Hw in M2. unfold slot_count in C2. rewrite (ag_file _ _ Ha) in C2. split_and!; try done.
    + intros b Hb. rewrite L2. by apply Hacc.
    + intros va' Hva'. split; [by apply U2, (oe_va _ _ _ _ Ho)|]. intros Hne. rewrite L2. by apply (oe_leaf _ _ _ _ Ho).
Qed.

(** A map with fewer pages. *)
Lemma paging_weaken pr lg k D y x l sp R F A A' :
  paging sb p pr lg k D f y ip x l sp R F A' -> A ⊆ A' -> paging sb p pr lg k D f y ip x l sp R F A.
Proof.
  intros [P1 P2 P3 P4 P5 P6 P7] Hs. split; try done; intros va bs Hb; [by apply P6, (lookup_weaken A)|].
  by apply (P7 va), (lookup_weaken A).
Qed.

(** The entry of the page [va], now in slot [j], is marked as such. *)
Lemma mark_out pr lg k D y x l sp R F A va j bs e :
  paging sb p pr lg k D f y ip x l sp (R ∖ {[va]}) F (delete va A) -> F !! va = None ->
  (forall bs', A !! va = Some bs' -> bs' = bs) -> Forall (fun b => 0 <= b < 256) bs ->
  user_va (k_mem k) (p_pagetable pr) va -> slot_bytes D x j = bs -> PGSIZE * (Z.of_nat j + 1) <= i_size x ->
  exists k', update_page_out_pte (p_pagetable pr) va (W k e) = Ret tt (W k' e) /\
    paging sb p pr lg k' D f y ip x l sp (R ∖ {[va]}) (<[va := j]> F) A /\
    leaf_set (p_pagetable pr) va (pte_out (leaf (k_mem k) (p_pagetable pr) va)) (k_mem k) (k_mem k').
Proof.
  intros Hp HF HA Hb Hva Hsb Hsz. destruct (uv_table _ _ _ Hva) as [t Ht].
  destruct (update_page_out_pte_run _ _ va t k e (tb_pt _ _ _ _ _ (pg_tables _ _ _ _ _ _ _ _ _ _ _ _ _ _ _ Hp)) (uv_range _ _ _ Hva) Ht)
    as (m' & E & Hl).
  exists (set_k_mem m' k). split; [done|]. split; [|done].
  eapply paging_weaken; [eapply (paging_unmap _ _ _ _ _ _ _ _ _ _ _ va j m' Hp); try done|].
  - set_solver.
  - by rewrite lookup_delete_eq.
  - by rewrite Hsb.
  - apply map_subseteq_spec. intros va' bs' Hb'. destruct (decide (va' = va)) as [->|Hne].
    + rewrite lookup_insert_eq, Hsb. by rewrite (HA _ Hb').
    + by rewrite lookup_insert_ne, lookup_delete_ne.
Qed.

(** [get_page_from_file] once it has a zeroed page [pa]. *)
Definition fault_rest (va pa : Z) : K Z :=
  let* free_index := get_free_memory_page_index in
  let* pr := proc_get p in
  if 0 <=? free_index then
    update_page_in_pte (p_pagetable pr) va pa free_index ;;;
    let* _ := read_page_from_file p free_index va pa in
    ret 1
  else
    let* out_index := get_swap_out_page_index in
    let* out_page := mp_get p out_index in
    update_page_in_pte (p_pagetable pr) va pa out_index ;;;
    let* _ := read_page_from_file p out_index va pa in
    let* _ := write_page_to_file p (pm_va out_page) (p_pagetable pr) in
    update_page_out_pte (p_pagetable pr) (pm_va out_page) ;;;
    let* pte := walk (p_pagetable pr) (pm_va out_page) false in
    let* v := pte_get pte in
    let out_page_pa := PTE2PA v in
    when (negb (out_page_pa =? 0)) (kfree out_page_pa) ;;;
    ret 1.

Definition fault_counted (pr : proc) : proc := set_p_page_fault_counter (p_page_fault_counter pr + 1) pr.

(** [kalloc] gives the page [pa], which is then cleared. *)
Definition zeroed (k : kernel) (e : list (kernel -> kernel)) (pa : Z) (k' : kernel) : Prop :=
  exists k1, kalloc (W k e) = Ret pa (W k1 e) /\ k' = set_k_mem (memset (k_mem k1) pa 0 PGSIZE) k1.

Lemma fault_start pr lg k D y x pa l sp R F A st e :
  paging sb p pr lg k D f y ip x (pa :: l) sp R F A ->
  exists k', get_page_from_file st (W k e) = fault_rest (PGROUNDDOWN st) pa (W k' e) /\
    zeroed (with_proc p (fault_counted pr) k) e pa k' /\
    paging sb p (fault_counted pr) lg k' D f y ip x l (pa :: sp) R F A /\
    (forall va, leaf (k_mem k') (p_pagetable pr) va = leaf (k_mem k) (p_pagetable pr) va).
Proof.
  intros Hp. destruct (paging_lookup _ _ _ _ _ _ _ _ _ _ _ Hp) as [Hpr Hc].
  assert (paging sb p (fault_counted pr) lg (with_proc p (fault_counted pr) k) D f y ip x (pa :: l) sp R F A) as P1
    by (by eapply paging_proc).
  destruct (paging_alloc _ _ _ _ _ _ _ _ _ _ _ _ e P1) as (k2 & E2 & P2 & L2 & _).
  destruct (paging_spare _ _ _ _ _ _ _ _ _ _ _ _ (memset (k_mem k2) pa 0 PGSIZE) P2 (same_off_memset pa _ 0)) as (P3 & L3 & _).
  eexists. split; [|split; [by exists k2|split; [exact P3|intros va; exact (eq_trans (L3 va) (L2 va))]]]. unfold get_page_from_file. rewrite (bind_Ret _ _ _ _ _ (this_proc_eq k e p Hc)).
  rewrite (bind_Ret _ _ _ _ _ (proc_mod_eq p _ k e pr Hpr)). fold (fault_counted pr). rewrite (bind_Ret _ _ _ _ _ E2).
  pose proof (tb_own _ _ _ _ _ (pg_tables _ _ _ _ _ _ _ _ _ _ _ _ _ _ _ P2)) as Hown. rewrite list.Forall_forall in Hown.
  rewrite (proj2 (Z.eqb_neq pa 0)) by (apply page_nonzero, Hown; set_solver). done.
Qed.

Lemma fault_nomem pr lg k D y x sp R F A st e :
  paging sb p pr lg k D f y ip x [] sp R F A ->
  get_page_from_file st (W k e) = Ret 0 (W (with_proc p (fault_counted pr) k) e).
Proof.
  intros Hp. destruct (paging_lookup _ _ _ _ _ _ _ _ _ _ _ Hp) as [Hpr Hc].
  unfold get_page_from_file. rewrite (bind_Ret _ _ _ _ _ (this_proc_eq k e p Hc)).
  rewrite (bind_Ret _ _ _ _ _ (proc_mod_eq p _ k e pr Hpr)). fold (fault_counted pr).
  rewrite (bind_Ret _ _ _ _ _ (kalloc_none (with_proc p (fault_counted pr) k) e (pg_lock _ _ _ _ _ _ _ _ _ _ _ _ _ _ _ Hp)
    (pg_list _ _ _ _ _ _ _ _ _ _ _ _ _ _ _ Hp))). done.
Qed.

(** With an entry to spare. *)
Lemma fault_free pr lg k D y x pa l sp R F A va j i gi bs e :
  paging sb p pr lg k D f y ip x l (pa :: sp) R F A -> meta pr R F -> F !! va = Some j -> A !! va = Some bs ->
  get_free_memory_page_index (W k e) = Ret (Z.of_nat i) (W k e) -> p_memory_pages pr !! i = Some gi -> used gi = false ->
  exists k' pr' y', fault_rest va pa (W k e) = Ret 1 (W k' e) /\
    paging sb p pr' lg k' D f y' ip x l sp ({[va]} ∪ R) (delete va F) A /\ meta pr' ({[va]} ∪ R) (delete va F) /\
    p_pagetable pr' = p_pagetable pr /\ slot_count pr pr' va j /\ all_access (k_mem k') (p_pagetable pr) va.
Proof.
  intros Hp Hm HF HA Ei Hi Hu. destruct (paging_lookup _ _ _ _ _ _ _ _ _ _ _ Hp) as [Hpr Hc].
  destruct (page_in _ _ _ _ _ _ _ _ _ _ _ _ va j i gi bs e Hp Hm HF HA Hi) as (k1 & pr1 & y1 & E1 & P1 & M1 & T1 & C1 & A1 & _).
  exists k1, pr1, y1. unfold without in M1. rewrite Hu in M1. split; [|done].
  unfold fault_rest. rewrite (bind_Ret _ _ _ _ _ Ei), (bind_Ret _ _ _ _ _ (proc_get_eq _ _ _ _ Hpr)).
  rewrite (proj2 (Z.leb_le 0 _)) by lia. by rewrite (bind2_Ret _ _ _ _ _ _ E1).
Qed.

(** The slot of the page that came in is free. *)
Lemma slot_freed pr pr' R R' F va j :
  meta pr R F -> meta pr' R' (delete va F) -> F !! va = Some j -> exists g, p_file_pages pr' !! j = Some g /\ used g = false.
Proof.
  intros Hm Hm' HF. apply (me_file _ _ _ Hm) in HF as (g & Hg & Hu & Hva).
  pose proof (lookup_lt_Some _ _ _ Hg) as Hlt. pose proof (me_file_len _ _ _ Hm). pose proof (me_file_len _ _ _ Hm').
  destruct (lookup_lt_is_Some_2 (p_file_pages pr') j ltac:(lia)) as [g' Hg']. exists g'. split; [done|].
  destruct (used g') eqn:Hu'; [|done]. assert (delete va F !! pm_va g' = Some j) as Hd by (apply (me_file _ _ _ Hm'); by exists g').
  apply lookup_delete_Some in Hd as [Hne Hd]. apply (me_file _ _ _ Hm) in Hd as (g2 & Hg2 & _ & E). congruence.
Qed.

(** The page at index [o] leaves for the page [va] to come in. *)
Lemma fault_evict pr lg k D y x pa l sp R F A va j bs o g e :
  paging sb p pr lg k D f y ip x l (pa :: sp) R F A -> meta pr R F -> F !! va = Some j -> A !! va = Some bs ->
  p_memory_pages pr !! o = Some g -> used g = true ->
  let vo := pm_va g in
  exists j' lg' k' pr' D' y' x', (
    update_page_in_pte (p_pagetable pr) va pa (Z.of_nat o) ;;;
    let* _ := read_page_from_file p (Z.of_nat o) va pa in
    let* _ := write_page_to_file p vo (p_pagetable pr) in
    update_page_out_pte (p_pagetable pr) vo ;;;
    let* pte := walk (p_pagetable pr) vo false in
    let* v := pte_get pte in
    let out_page_pa := PTE2PA v in
    when (negb (out_page_pa =? 0)) (kfree out_page_pa) ;;;
    ret 1) (W k e) = Ret 1 (W k' e) /\
    paging sb p pr' lg' k' D' f y' ip x' l (frame (k_mem k) (p_pagetable pr) vo :: sp) ({[va]} ∪ R ∖ {[vo]}) (<[vo := j']> (delete va F)) A /\
    meta pr' ({[va]} ∪ R ∖ {[vo]}) (<[vo := j']> (delete va F)) /\
    p_pagetable pr' = p_pagetable pr /\ slot_count pr pr' va j /\ all_access (k_mem k') (p_pagetable pr) va.
Proof.
  intros Hp Hm HF HA Ho Hu vo. assert (vo ∈ R) as Hvo by (apply (me_mem _ _ _ Hm); by exists o, g).
  pose proof (paging_not_both _ _ _ _ _ _ _ _ _ _ _ _ _ Hp HF) as HR. assert (vo <> va) as Hne by (by intros ->).
  destruct (tb_in _ _ _ _ _ (pg_tables _ _ _ _ _ _ _ _ _ _ _ _ _ _ _ Hp) vo Hvo) as (Uvo & _).
  destruct (page_in _ _ _ _ _ _ _ _ _ _ _ _ va j o g bs e Hp Hm HF HA Ho) as (k1 & pr1 & y1 & E1 & P1 & M1 & T1 & C1 & A1 & U1).
  unfold without in M1. rewrite Hu in M1. fold vo in M1. rewrite (bind2_Ret _ _ _ _ _ _ E1).
  assert (delete va F !! vo = None) as HFo.
  { destruct (F !! vo) as [jo|] eqn:E; [by destruct (paging_not_both _ _ _ _ _ _ _ _ _ _ _ _ _ Hp E)|by rewrite lookup_delete_ne]. }
  destruct (slot_freed _ _ _ _ _ _ _ Hm M1 HF) as (gj & Hgj & Huj). destruct (U1 vo Uvo) as [Uvo1 Hlf1]. specialize (Hlf1 Hne).
  rewrite <- T1 in Uvo1.
  destruct (write_page_run pr1 lg k1 D y1 x l sp _ _ _ vo _ e P1 Uvo1 M1 HFo ltac:(by exists j, gj)) as (j' & Hj' & [Hw|(Hlt & _)]).
  2:{ specialize (Hj' j gj Hgj Huj). pose proof (pg_size _ _ _ _ _ _ _ _ _ _ _ _ _ _ _ Hp _ _ HF). unfold PGSIZE in *. lia. }
  destruct Hw as (lg2 & k2 & pr2 & D2 & y2 & x2 & E2 & P2 & S2 & Z2 & Mm2 & M2 & T2 & Mp2). rewrite T1 in *.
  rewrite (bind_Ret _ _ _ _ _ E2).
  assert (vo ∈ {[va]} ∪ R) as Hvo1 by (by apply elem_of_union_r).
  pose proof (paging_drop _ _ _ _ _ _ _ _ _ _ _ vo P2 Hvo1) as P3. rewrite <- Mm2 in Uvo1. rewrite <- T2 in Uvo1.
  destruct (mark_out pr2 lg2 k2 D2 y2 x2 l _ ({[va]} ∪ R) _ A vo j' (slot_bytes D2 x2 j') e P3 HFo) as (k3 & E3 & P4 & Hl); [| |exact Uvo1|reflexivity|exact Z2|].
  { intros bs' Hb'. rewrite S2. destruct (pg_data _ _ _ _ _ _ _ _ _ _ _ _ _ _ _ P1 vo bs' Hb') as [[_ Hd]|(j0 & Hj0 & _)]; [|congruence].
    by rewrite <- Hd, T1. }
  { rewrite S2, page_bytes_eq. apply ld_bytes_range. }
  rewrite T2 in *. rewrite (bind_Ret _ _ _ _ _ E3). destruct (uv_table _ _ _ Uvo1) as [t Ht].
  rewrite <- (ls_page _ _ _ _ _ Hl) in Ht by apply path_of_ok.
  pose proof (tb_pt _ _ _ _ _ (pg_tables _ _ _ _ _ _ _ _ _ _ _ _ _ _ _ P4)) as Hpt. rewrite T2 in Hpt.
  destruct (walk_entry _ _ vo t k3 e Hpt (uv_range _ _ _ Uvo1) Ht) as (Ew & Hnz & Hld).
  rewrite (bind_Ret _ _ _ _ _ Ew). unfold pte_get. rewrite Hnz. unfold load64. rewrite bind_kget, Hld.
  rewrite (leaf_set_here _ _ _ _ _ (uv_range _ _ _ Uvo1) Hl), pte_out_PA.
  assert (({[va]} ∪ R) ∖ {[vo]} = {[va]} ∪ R ∖ {[vo]}) as Hset by (clear -Hne; set_solver). rewrite Hset in P4.
  assert (frame (k_mem k2) (p_pagetable pr) vo = frame (k_mem k) (p_pagetable pr) vo) as Hfr.
  { unfold frame. by rewrite Mm2, Hlf1. }
  rewrite Hfr in P4. exists j', lg2, k3, pr2, D2, y2, x2. split; [reflexivity|]. split; [exact P4|]. split; [exact M2|]. split; [exact T2|].
  split; [unfold slot_count; by rewrite Mp2|]. intros b Hb. rewrite (oe_leaf _ _ _ _ (leaf_set_only _ _ _ _ _ Hl Uvo1)); [rewrite Mm2; by apply A1| |done].
  pose proof (pg_tables _ _ _ _ _ _ _ _ _ _ _ _ _ _ _ P2) as Ht2. rewrite T2 in Ht2.
  by apply (tb_in _ _ _ _ _ Ht2 va), elem_of_union_l, elem_of_singleton.
Qed.

Lemma pick_is pr pr' k e o g k' :
  get_swap_out_page_index (W k e) = Ret (Z.of_nat o) (W k' e) -> aged pr pr' -> p_memory_pages pr' !! o = Some g -> picked k e pr (pm_va g).
Proof.
  intros E Ha Ho. pose proof (ag_mem _ _ Ha o) as Hg. rewrite Ho in Hg. simpl in Hg. symmetry in Hg.
  apply fmap_Some in Hg as (g0 & Hg0 & [= _ Ev]). by exists o, g0, k'.
Qed.

(** With no entry to spare: the policy picks the page that leaves. *)
Lemma fault_full `{Ch : !Chooser ord} pr lg k D y x pa l sp R F A va j bs e :
  paging sb p pr lg k D f y ip x l (pa :: sp) R F A -> meta pr R F -> ord (k_mem k) pr -> F !! va = Some j -> A !! va = Some bs ->
  get_free_memory_page_index (W k e) = Ret (-1) (W k e) -> (forall i g, p_memory_pages pr !! i = Some g -> used g = true) ->
  exists vo j' lg' k' pr' D' y' x', vo ∈ R /\ picked k e pr vo /\ fault_rest va pa (W k e) = Ret 1 (W k' e) /\
    paging sb p pr' lg' k' D' f y' ip x' l (frame (k_mem k) (p_pagetable pr) vo :: sp) ({[va]} ∪ R ∖ {[vo]}) (<[vo := j']> (delete va F)) A /\
    meta pr' ({[va]} ∪ R ∖ {[vo]}) (<[vo := j']> (delete va F)) /\
    p_pagetable pr' = p_pagetable pr /\ slot_count pr pr' va j /\ all_access (k_mem k') (p_pagetable pr) va.
Proof.
  intros Hp Hm Hord HF HA Ei Hall. destruct (paging_lookup _ _ _ _ _ _ _ _ _ _ _ Hp) as [Hpr Hc].
  pose proof (paging_not_both _ _ _ _ _ _ _ _ _ _ _ _ _ Hp HF) as HR.
  destruct (ch_picks p pr k e _ R F Hc Hpr Hord (pg_tables _ _ _ _ _ _ _ _ _ _ _ _ _ _ _ Hp) Hm Hall) as (o & g & k1' & pr1 & E1 & (m1 & -> & T1 & A1) & Ho).
  set (k1 := with_proc p pr1 (set_k_mem m1 k)) in *. set (vo := pm_va g).
  assert (paging sb p pr1 lg k1 D f y ip x l (pa :: sp) R F A) as P1.
  { eapply paging_proc; [by eapply paging_touched|exact (ag_swap _ _ A1)|exact (ag_table _ _ A1)]. }
  pose proof (meta_aged _ _ _ _ Hm A1) as M1. destruct (paging_lookup _ _ _ _ _ _ _ _ _ _ _ P1) as [Hpr1 _].
  assert (used g = true) as Hu.
  { pose proof (ag_mem _ _ A1 o) as Hg. rewrite Ho in Hg. simpl in Hg. symmetry in Hg. apply fmap_Some in Hg as (g0 & Hg0 & [= Es _]).
    specialize (Hall o g0 Hg0). unfold used in *. by rewrite Es. }
  assert (vo ∈ R) as Hvo by (apply (me_mem _ _ _ M1); by exists o, g).
  destruct (fault_evict pr1 lg k1 D y x pa l sp R F A va j bs o g e P1 M1 HF HA Ho Hu) as (j' & lg2 & k2 & pr2 & D2 & y2 & x2 & E2 & P2 & M2 & T2 & C2 & Acc).
  unfold slot_count in C2. rewrite (ag_file _ _ A1) in C2. rewrite (ag_table _ _ A1) in *. fold vo in E2, P2, M2.
  assert (frame (k_mem k1) (p_pagetable pr) vo = frame (k_mem k) (p_pagetable pr) vo) as Hfr.
  { destruct (tb_in _ _ _ _ _ (pg_tables _ _ _ _ _ _ _ _ _ _ _ _ _ _ _ Hp) vo Hvo) as (Uvo & _). exact (touched_frame _ _ _ _ T1 Uvo). }
  rewrite Hfr in P2. exists vo, j', lg2, k2, pr2, D2, y2, x2. split; [done|].
  split; [exact (pick_is _ _ _ _ _ _ _ E1 A1 Ho)|]. split; [|by split_and!].
  unfold fault_rest. rewrite (bind_Ret _ _ _ _ _ Ei), (bind_Ret _ _ _ _ _ (proc_get_eq _ _ _ _ Hpr)). change (0 <=? -1) with false. cbv iota.
  rewrite (bind_Ret _ _ _ _ _ E1), (bind_Ret _ _ _ _ _ (mp_get_eq _ _ _ _ _ _ Hpr1 Ho)). exact E2.
Qed.

(** *** Swapping a page out for a new one *)

Lemma tables_sub m root own R R' F : tables m root own R' F -> R ⊆ R' -> tables m root own R F.
Proof.
  intros [T1 T2 T3 T4 T5 T6] Hs. split; try done.
  - intros va Hva. by apply T4, Hs.
  - intros a b Ha Hb. apply T5; by apply Hs.
Qed.

(** [add_to_memory_page_metadata] with an entry to spare. *)
Lemma added_run pr R F k va e :
  k_cur k = Some p -> k_procs k !! p = Some pr -> meta pr R F -> va ∉ R ->
  (exists i g, p_memory_pages pr !! i = Some g /\ used g = false) ->
  exists pr', add_to_memory_page_metadata (p_pagetable pr) va (W k e) = Ret tt (W (with_proc p pr' k) e) /\
    p_pagetable pr' = p_pagetable pr /\ p_swapFile pr' = p_swapFile pr /\ meta pr' ({[va]} ∪ R) F.
Proof.
  intros Hc Hp Hm Hva (i0 & g0 & Hi0 & Hu0). unfold add_to_memory_page_metadata. rewrite (bind_Ret _ _ _ _ _ (this_proc_eq k e p Hc)).
  destruct (free_memory_index p pr R F k e Hc Hp Hm) as (r & Er & [[_ Hall]|(i & g & -> & Hi & Hu)]).
  { specialize (Hall i0 g0 Hi0). congruence. }
  rewrite (bind_Ret _ _ _ _ _ Er), (bind_Ret _ _ _ _ _ (mp_mod_eq p i _ k e pr g Hp Hi)).
  set (pr1 := with_page i (set_pm_state P_USED) pr). pose proof (with_proc_lookup p pr pr1 k Hp) as Hp1.
  pose proof (with_page_lookup i (set_pm_state P_USED) pr g Hi) as Hi1. fold pr1 in Hi1.
  rewrite (bind_Ret _ _ _ _ _ (mp_mod_eq p i _ _ e pr1 _ Hp1 Hi1)), with_proc_twice.
  set (pr2 := with_page i (set_pm_va va) pr1). pose proof (with_proc_lookup p pr pr2 k Hp) as Hp2.
  pose proof (with_page_lookup i (set_pm_va va) pr1 _ Hi1) as Hi2. fold pr2 in Hi2.
  rewrite (bind_Ret _ _ _ _ _ (proc_get_eq _ _ _ _ Hp2)).
  rewrite (bind_Ret _ _ _ _ _ (mp_mod_eq p i _ _ e pr2 _ Hp2 Hi2)), with_proc_twice.
  set (pr3 := with_page i _ pr2). pose proof (with_proc_lookup p pr pr3 k Hp) as Hp3.
  pose proof (with_page_lookup i (set_pm_order (u32 (p_page_order_counter pr2))) pr2 _ Hi2) as Hi3. fold pr3 in Hi3.
  rewrite (bind_Ret _ _ _ _ _ (proc_mod_eq p _ _ e pr3 Hp3)), with_proc_twice.
  set (pr4 := set_p_page_order_counter _ pr3). pose proof (with_proc_lookup p pr pr4 k Hp) as Hp4.
  rewrite (bind_Ret _ _ _ _ _ (proc_mod_eq p _ _ e pr4 Hp4)), with_proc_twice.
  set (pr5 := set_p_pages_in_memory_counter _ pr4). pose proof (with_proc_lookup p pr pr5 k Hp) as Hp5.
  rewrite (set_initial_access_run p pr5 i _ (with_proc p pr5 k) e Hc Hp5 Hi3), with_proc_twice.
  pose proof (aged_initial i pr5) as Ha. exists (with_initial_access i pr5). split; [done|].
  split; [apply (ag_table _ _ Ha)|]. split; [apply (ag_swap _ _ Ha)|]. eapply meta_aged; [|exact Ha].
  set (h := set_pm_order (u32 (p_page_order_counter pr2)) (set_pm_va va (set_pm_state P_USED g))).
  replace ({[va]} ∪ R) with ({[pm_va h]} ∪ without g R) by (unfold without; by rewrite Hu).
  apply (meta_mem_put pr pr5 R F i g h Hm Hi); [done| | |done].
  - rewrite without_spec. by intros [? _].
  - simpl. rewrite !list_alter_alter_eq. by rewrite (alter_insert _ _ _ _ Hi).
Qed.

(** [swap] once the policy has chosen the entry [o]. *)
Lemma swap_out pr lg k D y x l sp R F A a o g e :
  paging sb p pr lg k D f y ip x l sp ({[a]} ∪ R) F A -> meta pr R F -> a ∉ R -> F !! a = None ->
  p_memory_pages pr !! o = Some g -> used g = true -> (exists j g, p_file_pages pr !! j = Some g /\ used g = false) ->
  let vo := pm_va g in let po := frame (k_mem k) (p_pagetable pr) vo in
  let m := (let* _ := write_page_to_file p vo (p_pagetable pr) in
    kfree po ;;;
    mp_mod p (Z.of_nat o) (set_pm_state P_UNUSED) ;;;
    update_page_out_pte (p_pagetable pr) vo ;;;
    add_to_memory_page_metadata (p_pagetable pr) a) in
  exists j, (exists lg' k' pr' D' y' x', m (W k e) = Ret tt (W k' e) /\
    paging sb p pr' lg' k' D' f y' ip x' (po :: l) sp ({[a]} ∪ R ∖ {[vo]}) (<[vo := j]> F) A /\
    meta pr' ({[a]} ∪ R ∖ {[vo]}) (<[vo := j]> F) /\ p_pagetable pr' = p_pagetable pr) \/
  (PGSIZE * Z.of_nat j <= i_size x < PGSIZE * (Z.of_nat j + 1) /\ ran_out sb lg D x (PGSIZE * Z.of_nat j) (page_bytes (k_mem k) po) /\
   m (W k e) = Panic "balloc: out of blocks").
Proof.
  intros Hp Hm Ha HFa Ho Hu Hfree vo po m. assert (vo ∈ R) as Hvo by (apply (me_mem _ _ _ Hm); by exists o, g).
  assert (vo ∈ {[a]} ∪ R) as Hvo1 by (by apply elem_of_union_r).
  pose proof (pg_tables _ _ _ _ _ _ _ _ _ _ _ _ _ _ _ Hp) as Ht.
  destruct (tb_in _ _ _ _ _ Ht vo Hvo1) as (Uvo & B & _).
  assert (F !! vo = None) as HFo.
  { destruct (F !! vo) as [jo|] eqn:E; [|done]. by destruct (paging_not_both _ _ _ _ _ _ _ _ _ _ _ _ _ Hp E). }
  destruct (write_page_run pr lg k D y x l sp _ _ _ vo _ e Hp Uvo Hm HFo Hfree) as (j & _ & [Hw|(Hlt & Hr & E)]); exists j.
  2:{ right. split; [done|]. split; [done|]. by apply bind_Panic. }
  left. destruct Hw as (lg1 & k1 & pr1 & D1 & y1 & x1 & E1 & P1 & S1 & Z1 & Mm1 & M1 & T1 & Mp1).
  unfold m. rewrite (bind_Ret _ _ _ _ _ E1).
  pose proof (paging_drop _ _ _ _ _ _ _ _ _ _ _ vo P1 Hvo1) as P2. rewrite Mm1, T1 in P2. fold po in P2.
  destruct (paging_free _ _ _ _ _ _ _ _ _ _ _ _ e P2) as (k3 & E3 & P3 & L3 & U3 & _). rewrite (bind_Ret _ _ _ _ _ E3).
  destruct (paging_lookup _ _ _ _ _ _ _ _ _ _ _ P3) as [Hpr3 Hc3]. rewrite <- Mp1 in Ho.
  rewrite (bind_Ret _ _ _ _ _ (mp_mod_eq p o _ k3 e pr1 g Hpr3 Ho)).
  set (pr4 := with_page o (set_pm_state P_UNUSED) pr1). set (k4 := with_proc p pr4 k3).
  assert (paging sb p pr4 lg1 k4 D1 f y1 ip x1 (po :: l) sp (({[a]} ∪ R) ∖ {[vo]}) F (delete vo A)) as P4 by (by eapply paging_proc).
  assert (meta pr4 (R ∖ {[vo]}) (<[vo := j]> F)) as M4.
  { replace (R ∖ {[vo]}) with (without g R) by (unfold without; by rewrite Hu).
    apply (meta_mem_clear pr1 pr4 R _ o g (set_pm_state P_UNUSED g) M1 Ho); [done| |done]. apply (alter_insert _ _ _ _ Ho). }
  assert (user_va (k_mem k4) (p_pagetable pr4) vo) as U4 by (apply U3; by rewrite Mm1, T1).
  destruct (mark_out pr4 lg1 k4 D1 y1 x1 (po :: l) sp ({[a]} ∪ R) F A vo j (slot_bytes D1 x1 j) e P4 HFo)
    as (k5 & E5 & P5 & _); [| |exact U4|reflexivity|exact Z1|].
  { intros bs' Hb'. rewrite S1. destruct (pg_data _ _ _ _ _ _ _ _ _ _ _ _ _ _ _ Hp vo bs' Hb') as [[_ Hd]|(j0 & Hj0 & _)]; congruence. }
  { rewrite S1, page_bytes_eq. apply ld_bytes_range. }
  assert (p_pagetable pr4 = p_pagetable pr) as T4 by exact T1. rewrite T4 in E5. rewrite (bind_Ret _ _ _ _ _ E5).
  assert (({[a]} ∪ R) ∖ {[vo]} = {[a]} ∪ R ∖ {[vo]}) as Hset.
  { assert (vo <> a) as Hne by (intros Eq; apply Ha; rewrite <- Eq; exact Hvo). clear -Hne. set_solver. }
  rewrite Hset in P5. destruct (paging_lookup _ _ _ _ _ _ _ _ _ _ _ P5) as [Hpr5 Hc5].
  destruct (added_run pr4 _ _ k5 a e Hc5 Hpr5 M4) as (pr6 & E6 & T6 & W6 & M6).
  { intros [Hin _]%elem_of_difference. exact (Ha Hin). }
  { exists o, (set_pm_state P_UNUSED g). split; [by apply with_page_lookup|done]. }
  rewrite T4 in E6. exists lg1, (with_proc p pr6 k5), pr6, D1, y1, x1. split; [exact E6|].
  split; [by eapply paging_proc|]. split; [exact M6|congruence].
Qed.

(** [swap] of a page of [R] for the page at [a], which is mapped but has no
    entry yet. *)
Lemma swap_run `{Ch : !Chooser ord} pr lg k D y x l sp R F A a e :
  paging sb p pr lg k D f y ip x l sp ({[a]} ∪ R) F A -> meta pr R F -> ord (k_mem k) pr -> a ∉ R -> F !! a = None ->
  (forall i g, p_memory_pages pr !! i = Some g -> used g = true) ->
  (exists j g, p_file_pages pr !! j = Some g /\ used g = false) ->
  (exists vo j lg' k' pr' D' y' x', vo ∈ R /\ picked k e pr vo /\ swap (p_pagetable pr) a (W k e) = Ret tt (W k' e) /\
    paging sb p pr' lg' k' D' f y' ip x' (frame (k_mem k) (p_pagetable pr) vo :: l) sp ({[a]} ∪ R ∖ {[vo]}) (<[vo := j]> F) A /\
    meta pr' ({[a]} ∪ R ∖ {[vo]}) (<[vo := j]> F) /\ p_pagetable pr' = p_pagetable pr) \/
  (exists j bs, length bs = Z.to_nat PGSIZE /\ PGSIZE * Z.of_nat j <= i_size x < PGSIZE * (Z.of_nat j + 1) /\ ran_out sb lg D x (PGSIZE * Z.of_nat j) bs /\
   swap (p_pagetable pr) a (W k e) = Panic "balloc: out of blocks").
Proof.
  intros Hp Hm Hord Ha HFa Hall Hfree. destruct (paging_lookup _ _ _ _ _ _ _ _ _ _ _ Hp) as [Hpr Hc].
  pose proof (pg_tables _ _ _ _ _ _ _ _ _ _ _ _ _ _ _ Hp) as Ht.
  destruct (ch_picks p pr k e _ R F Hc Hpr Hord (tables_sub _ _ _ _ _ _ Ht (union_subseteq_r _ _)) Hm Hall)
    as (o & g & k1' & pr1 & E1 & (m1 & -> & T1 & A1) & Ho).
  set (k1 := with_proc p pr1 (set_k_mem m1 k)) in *. set (vo := pm_va g).
  assert (paging sb p pr1 lg k1 D f y ip x l sp ({[a]} ∪ R) F A) as P1.
  { eapply paging_proc; [by eapply paging_touched|exact (ag_swap _ _ A1)|exact (ag_table _ _ A1)]. }
  pose proof (meta_aged _ _ _ _ Hm A1) as M1. destruct (paging_lookup _ _ _ _ _ _ _ _ _ _ _ P1) as [Hpr1 _].
  assert (used g = true) as Hu.
  { pose proof (ag_mem _ _ A1 o) as Hg. rewrite Ho in Hg. simpl in Hg. symmetry in Hg. apply fmap_Some in Hg as (g0 & Hg0 & [= Es _]).
    specialize (Hall o g0 Hg0). unfold used in *. by rewrite Es. }
  assert (vo ∈ R) as Hvo by (apply (me_mem _ _ _ M1); by exists o, g).
  destruct (tb_in _ _ _ _ _ Ht vo ltac:(by apply elem_of_union_r)) as (Uvo & _).
  pose proof (touched_frame _ _ _ _ T1 Uvo) as Hfr. pose proof (ag_table _ _ A1) as Et. rewrite <- (ag_file _ _ A1) in Hfree.
  pose proof (pg_tables _ _ _ _ _ _ _ _ _ _ _ _ _ _ _ P1) as Ht1. rewrite Et in Ht1.
  destruct (tb_in _ _ _ _ _ Ht1 vo ltac:(by apply elem_of_union_r)) as ([V1 _ [t Hta]] & _).
  destruct (walk_entry _ _ vo t k1 e (tb_pt _ _ _ _ _ Ht1) V1 Hta) as (Ew & Hnz & Hld).
  pose proof (swap_out pr1 lg k1 D y x l sp R F A a o g e P1 M1 Ha HFa Ho Hu Hfree) as Hs. cbv zeta in Hs. rewrite Et in Hs. fold vo in Hs.
  assert (frame (k_mem k1) (p_pagetable pr) vo = frame (k_mem k) (p_pagetable pr) vo) as Hfr1 by exact Hfr.
  unfold swap. rewrite (bind_Ret _ _ _ _ _ (this_proc_eq k e p Hc)), (bind_Ret _ _ _ _ _ E1).
  rewrite (bind_Ret _ _ _ _ _ (mp_get_eq _ _ _ _ _ _ Hpr1 Ho)), (bind_Ret _ _ _ _ _ (proc_get_eq _ _ _ _ Hpr1)), Et.
  fold vo. rewrite (bind_Ret _ _ _ _ _ Ew). unfold pte_get. rewrite Hnz. unfold load64. rewrite bind_kget, Hld.
  fold (frame (k_mem k1) (p_pagetable pr) vo). rewrite Hfr1 in *.
  destruct Hs as (j & [(lg2 & k2 & pr2 & D2 & y2 & x2 & E2 & P2 & M2 & T2)|(Hlt & Hr & E2)]).
  - left. exists vo, j, lg2, k2, pr2, D2, y2, x2. split; [done|]. split; [exact (pick_is _ _ _ _ _ _ _ E1 A1 Ho)|]. split; [exact E2|]. split; [exact P2|]. by split.
  - right. eexists j, _. by split; [apply (length_page_bytes (k_mem k1) (frame (k_mem k) (p_pagetable pr) vo))|].
Qed.
End fault.

(** ** Properties *)

Section properties.
Context `{L : Layout} `{!LayoutOk L} `{Sel : Selection}.
#[local] Existing Instance steady.
Context (sb : superblock) (p f ip : nat).

(** C5: a page fault on a page in the swap file, for every replacement policy.
    With no page of physical memory left, [get_page_from_file] returns 0 and has
    only counted the fault.  Otherwise it returns 1 and never panics: the page is
    in memory, with the contents it had in its slot and with all user
    permissions; every page of the process still has its contents, in memory or
    in a slot; and the metadata lists exactly these pages.  When all 16 entries
    were in use, the page that left is the one [get_swap_out_page_index] chooses
    once [kalloc] has given the cleared page [pa]; it is now in a slot, and its
    frame belongs to nobody any more: it is not put back on the free list.  The
    page that came in has the access counter of its slot, not the one that
    [update_page_in_pte] had set.

    When all entries are in use the policy needs [ages_ok]: for SCFIFO, that the
    pages in memory have distinct numbers below the counter of the process, and
    that the counter is not within 16 of [2 ^ 32]; for LAPA, that the access
    counters are [uint]s; for NFUA, also that some page is not about to get the
    counter 0xFFFFFFFF; for DEBUG, nothing.  A kernel built with NONE has no
    policy. *)
Theorem get_page_from_file_brings_page pr lg k D y x free sp R F A st j bs e :
  let va := PGROUNDDOWN st in
  paging sb p pr lg k D f y ip x free sp R F A -> meta pr R F -> (entries_full pr -> ages_ok (k_mem k) pr) ->
  F !! va = Some j -> A !! va = Some bs ->
  match free with
  | [] => get_page_from_file st (W k e) =
      Ret 0 (W (with_proc p (set_p_page_fault_counter (p_page_fault_counter pr + 1) pr) k) e)
  | pa :: l =>
      exists lg' k' pr' D' y' x' sp' R' F', get_page_from_file st (W k e) = Ret 1 (W k' e) /\
        paging sb p pr' lg' k' D' f y' ip x' l sp' R' F' A /\ meta pr' R' F' /\
        p_pagetable pr' = p_pagetable pr /\ va ∈ R' /\ all_access (k_mem k') (p_pagetable pr) va /\ slot_count pr pr' va j /\
        if decide (Exists (fun g => used g = false) (p_memory_pages pr))
        then R' = {[va]} ∪ R /\ F' = delete va F /\ sp' = sp
        else exists vo j' k1, zeroed (with_proc p (fault_counted pr) k) e pa k1 /\ picked k1 e pr vo /\
               vo ∈ R /\ R' = {[va]} ∪ R ∖ {[vo]} /\ F' = <[vo := j']> (delete va F) /\
               sp' = frame (k_mem k) (p_pagetable pr) vo :: sp
  end.
Proof.
  intros va Hp Hm Ho HF HA. destruct free as [|pa l]; [by rewrite (fault_nomem pr lg k D y x sp R F A st e Hp)|].
  destruct (fault_start pr lg k D y x pa l sp R F A st e Hp) as (k1 & E1 & Z1 & P1 & Hl1). fold va in E1.
  assert (meta (fault_counted pr) R F) as M1 by (by destruct Hm).
  destruct (paging_lookup _ _ _ _ _ _ _ _ _ _ _ P1) as [Hpr Hc].
  destruct (free_memory_index p (fault_counted pr) R F k1 e Hc Hpr M1) as (r & Ei & [[-> Hall]|(i & g & -> & Hg & Hu)]).
  - destruct (fault_full (fault_counted pr) lg k1 D y x pa l sp R F A va j bs e P1 M1
      (ch_leaf _ _ (fault_counted pr) Hl1 (ch_fault _ _ _ (Ho Hall))) HF HA Ei Hall)
      as (vo & j' & lg' & k' & pr' & D' & y' & x' & Hvo & Hpk & E2 & P2 & M2 & T2 & C2 & Acc).
    exists lg', k', pr', D', y', x', (frame (k_mem k) (p_pagetable pr) vo :: sp), ({[va]} ∪ R ∖ {[vo]}), (<[vo := j']> (delete va F)).
    unfold frame in P2. change (p_pagetable (fault_counted pr)) with (p_pagetable pr) in *. rewrite Hl1 in P2.
    fold (frame (k_mem k) (p_pagetable pr) vo) in P2.
    split; [by rewrite E1|]. split; [exact P2|]. split; [exact M2|]. split; [exact T2|]. split; [by apply elem_of_union_l, elem_of_singleton|].
    split; [exact Acc|]. split; [exact C2|]. rewrite decide_False; [by exists vo, j', k1|]. intros (g & Hg & Hu)%list.Exists_exists.
    apply list_elem_of_lookup in Hg as [i Hi]. by rewrite (Hall i g Hi) in Hu.
  - destruct (fault_free (fault_counted pr) lg k1 D y x pa l sp R F A va j i g bs e P1 M1 HF HA Ei Hg Hu)
      as (k' & pr' & y' & E2 & P2 & M2 & T2 & C2 & Acc).
    exists lg, k', pr', D, y', x, sp, ({[va]} ∪ R), (delete va F).
    split; [by rewrite E1|]. split; [exact P2|]. split; [exact M2|]. split; [exact T2|]. split; [by apply elem_of_union_l, elem_of_singleton|].
    split; [exact Acc|]. split; [exact C2|]. rewrite decide_True; [done|]. apply list.Exists_exists. exists g. split; [|done]. by eapply list_elem_of_lookup_2.
Qed.

(** C6: [swap] makes room for the page at [a], which has just been mapped while
    all 16 entries are in use.  The page that [get_swap_out_page_index] chooses
    goes to a free slot of the swap file, its frame goes to the free list, its
    entry in the page table loses [PTE_V] and gets [PTE_PG], and its place in the
    metadata is taken by [a]; every page of the process still has its contents.
    The only other outcome is the panic of [balloc] when the swap file has to
    grow and the disk is full.  The policy needs [ages_ok]: for SCFIFO, that the
    pages in memory have distinct numbers below the counter of the process, and
    that the counter is not within 16 of [2 ^ 32]; for LAPA, that the access
    counters are [uint]s; for NFUA, also that some page is not about to get the
    counter 0xFFFFFFFF; for DEBUG, nothing. *)
Theorem swap_keeps_pages pr lg k D y x l sp R F A a e :
  paging sb p pr lg k D f y ip x l sp ({[a]} ∪ R) F A -> meta pr R F -> ages_ok (k_mem k) pr -> a ∉ R -> F !! a = None ->
  entries_full pr ->
  (exists j g, p_file_pages pr !! j = Some g /\ used g = false) ->
  (exists vo j lg' k' pr' D' y' x', vo ∈ R /\ picked k e pr vo /\ swap (p_pagetable pr) a (W k e) = Ret tt (W k' e) /\
    paging sb p pr' lg' k' D' f y' ip x' (frame (k_mem k) (p_pagetable pr) vo :: l) sp ({[a]} ∪ R ∖ {[vo]}) (<[vo := j]> F) A /\
    meta pr' ({[a]} ∪ R ∖ {[vo]}) (<[vo := j]> F) /\ p_pagetable pr' = p_pagetable pr) \/
  (exists j bs, length bs = Z.to_nat PGSIZE /\ PGSIZE * Z.of_nat j <= i_size x < PGSIZE * (Z.of_nat j + 1) /\ ran_out sb lg D x (PGSIZE * Z.of_nat j) bs /\
   swap (p_pagetable pr) a (W k e) = Panic "balloc: out of blocks").
Proof. apply swap_run. Qed.

(** C36: the NFUA policy can choose no page at all.  [NFUA_algorithm] looks for a
    counter below 0xFFFFFFFF; when all 16 entries are in use, all pages have been
    accessed since the last ageing and all counters are 0xFFFFFFFE or
    0xFFFFFFFF, the ageing leaves every counter at 0xFFFFFFFF, the index is -1
    and [get_page_from_file] reads [memory_pages[-1]], outside the array. *)
Theorem nfua_saturated_faults pr lg k D y x pa l sp R F A st e :
  SELECTION = NFUA -> paging sb p pr lg k D f y ip x (pa :: l) sp R F A -> meta pr R F -> lapa_ages pr -> entries_full pr ->
  (forall i g, p_memory_pages pr !! i = Some g -> saturates (k_mem k) pr g = true) ->
  get_page_from_file st (W k e) = Fault "memory_pages".
Proof.
  intros Hsel Hp Hm Ho Hall Hsat.
  destruct (fault_start pr lg k D y x pa l sp R F A st e Hp) as (k1 & -> & _ & P1 & Hl1).
  assert (meta (fault_counted pr) R F) as M1 by (by destruct Hm).
  destruct (paging_lookup _ _ _ _ _ _ _ _ _ _ _ P1) as [Hpr Hc].
  destruct (free_memory_index p (fault_counted pr) R F k1 e Hc Hpr M1) as (r & Ei & [[-> _]|(i & g & _ & Hg & Hu)]).
  2:{ specialize (Hall i g Hg). congruence. }
  destruct (nfua_picks_none p (fault_counted pr) k1 e _ R F Hsel Hc Hpr Ho (pg_tables _ _ _ _ _ _ _ _ _ _ _ _ _ _ _ P1) M1)
    as (k2 & pr2 & E2 & Hpr2).
  { intros i g Hg _. specialize (Hsat i g Hg). unfold saturates, bit_A in *. change (p_pagetable (fault_counted pr)) with (p_pagetable pr).
    by rewrite Hl1. }
  unfold fault_rest. rewrite (bind_Ret _ _ _ _ _ Ei), (bind_Ret _ _ _ _ _ (proc_get_eq _ _ _ _ Hpr)). change (0 <=? -1) with false. cbv iota.
  rewrite (bind_Ret _ _ _ _ _ E2).
  assert (mp_get p (-1) (W k2 e) = Fault "memory_pages") as Eg.
  { unfold mp_get. by rewrite (bind_Ret _ _ _ _ _ (proc_get_eq _ _ _ _ Hpr2)). }
  unfold bind at 1. by rewrite Eg.
Qed.
End properties.

(** ** Witnesses *)

(** A process with 16 pages in memory, from address 0 on, in the frames [pg 10]
    to [pg 25], all of them accessed, with the access counter [acc], and one more
    page behind the entry [v]. *)
Definition va_no (i : nat) : Z := Z.of_nat i * PGSIZE.
Definition full_mem (v : Z) : memory :=
  st64 (foldr (fun i m => st64 m (pg 5 + 8 * Z.of_nat i) (mk_pte (pg (10 + Z.of_nat i)) 86))
    (st64 (st64 (st64 ∅ (pg 1) (pg 2)) (pg 3) (mk_pte (pg 4) 0)) (pg 4) (mk_pte (pg 5) 0)) (seq 0 16))
    (pg 5 + 8 * 16) v.
Definition full_proc (acc : Z) (slots : list page_metadata_struct) : proc :=
  set_p_swapFile (Some 0%nat) (set_p_pagetable (pg 3) (set_p_page_order_counter 16
    (set_p_file_pages slots (set_p_memory_pages ((fun i => mkPage P_USED (va_no i) (Z.of_nat i) acc) <$> seq 0 16) sample_bproc)))).
Definition full_pages : gset Z := list_to_set (va_no <$> seq 0 16).

Lemma full_zero v t j :
  (t = pg 3 \/ t = pg 4) -> 0 <= j < 512 -> j <> 0 -> ld64 (full_mem v) (t + 8 * j) = 0.
Proof.
  intros Ht Hj H0. unfold full_mem. cbn [foldr seq].
  rewrite !ld64_st64_ne; [by vm_compute|..]; unfold pg, PGSIZE in *; lia.
Qed.

Lemma full_leaf v i : (i < 16)%nat -> leaf (full_mem v) (pg 3) (va_no i) = mk_pte (pg (10 + Z.of_nat i)) 86.
Proof.
  intros Hi. do 16 (destruct i as [|i]; [by vm_compute|]). lia.
Qed.

Lemma full_leaf_last v : 0 <= v < 2 ^ 64 -> leaf (full_mem v) (pg 3) (va_no 16) = v.
Proof.
  intros Hv. unfold leaf. assert (page_at (full_mem v) (pg 3) (path_of (va_no 16)) = Some (pg 5)) as -> by (by vm_compute).
  change (pg 5 + 8 * PX 0 (va_no 16)) with (pg 5 + 8 * 16). unfold full_mem. rewrite ld64_st64_eq. by apply u64_small.
Qed.

Lemma full_table v path q : path_ok path -> page_at (full_mem v) (pg 3) path = Some q -> q = pg 3 \/ q = pg 4 \/ q = pg 5.
Proof.
  intros Hp Hq. destruct (page_at_chain (full_mem v) (pg 3) (pg 4) (pg 5) 0 0) with (path := path) (q := q)
    as [[_ ->]|[[_ ->]|[_ ->]]]; auto.
  - intros j. apply full_zero. by left.
  - intros j. apply full_zero. by right.
Qed.

Lemma full_pt v l : (forall x, x ∈ l -> x = pg 1 \/ x = pg 2) -> @pt_ok sample_layout (full_mem v) (pg 3) l.
Proof.
  intros Hl. apply (pt_ok_chain (full_mem v) (pg 3) (pg 4) (pg 5) 0 0);
    [intros j; apply full_zero; by left|intros j; apply full_zero; by right|by vm_compute|by vm_compute|by vm_compute|
     by vm_compute|by vm_compute|by vm_compute|by vm_compute|..].
  - refine (bool_decide_unpack _ _). by vm_compute.
  - intros x Hx Hin. unfold pg, PGSIZE in *. rewrite !elem_of_cons in Hx. 
    destruct (Hl x Hin), Hx as [|[|[|Hx%elem_of_nil]]]; try done; lia.
Qed.

Lemma full_in R va : R = full_pages -> va ∈ R -> exists i, (i < 16)%nat /\ va = va_no i.
Proof.
  intros -> (i & -> & Hi)%elem_of_list_to_set%list_elem_of_fmap. apply elem_of_seq in Hi. exists i. split; [lia|done].
Qed.

Lemma full_mk i : (i < 17)%nat -> Z.testbit (mk_pte (pg (10 + Z.of_nat i)) 86) 0 = true /\
  PTE2PA (mk_pte (pg (10 + Z.of_nat i)) 86) = pg (10 + Z.of_nat i) /\ @page_ok sample_layout (pg (10 + Z.of_nat i)).
Proof. intros Hi. do 17 (destruct i as [|i]; [by vm_compute|]). lia. Qed.

Lemma full_user v i : (i < 17)%nat -> user_va (full_mem v) (pg 3) (va_no i).
Proof.
  intros Hi. split; [unfold va_no, PGSIZE; change MAXVA with (2 ^ 38); lia|unfold va_no; by apply Z.mod_mul|].
  exists (pg 5). do 17 (destruct i as [|i]; [by vm_compute|]). lia.
Qed.

Lemma full_entry acc slots i g :
  p_memory_pages (full_proc acc slots) !! i = Some g <-> (i < 16)%nat /\ g = mkPage P_USED (va_no i) (Z.of_nat i) acc.
Proof.
  change (p_memory_pages (full_proc acc slots)) with ((fun i => mkPage P_USED (va_no i) (Z.of_nat i) acc) <$> seq 0 16).
  rewrite list_lookup_fmap_Some. setoid_rewrite lookup_seq. simpl. split; [intros (? & -> & -> & ?); auto|intros [? ->]; eauto].
Qed.

(** The tables of the first [n] pages. *)
Lemma full_tables v n R F :
  n = 16%nat \/ n = 17%nat /\ v = mk_pte (pg 26) 86 -> (forall va, va ∈ R -> exists i, (i < n)%nat /\ va = va_no i) ->
  (forall va, is_Some (F !! va) -> va = va_no 16 /\ v = PTE_PG) ->
  @tables sample_layout (full_mem v) (pg 3) [pg 1; pg 2] R F.
Proof.
  intros Hn HR HF. assert (forall i, (i < n)%nat -> leaf (full_mem v) (pg 3) (va_no i) = mk_pte (pg (10 + Z.of_nat i)) 86) as Hl.
  { intros i Hi. destruct (decide (i < 16)%nat); [by apply full_leaf|].
    destruct Hn as [|[-> ->]]; [lia|]. replace i with 16%nat by lia. apply full_leaf_last. by vm_compute. }
  split.
  - apply full_pt. intros x. rewrite !elem_of_cons, elem_of_nil. tauto.
  - refine (bool_decide_unpack _ _). by vm_compute.
  - repeat (apply Forall_cons_2; [by vm_compute|]). apply Forall_nil_2.
  - intros va (i & Hi & ->)%HR. destruct (full_mk i) as (M1 & M2 & M3); [lia|]. unfold frame. rewrite Hl, M2 by done.
    split_and!; [apply full_user; lia|done|done| |].
    + rewrite !elem_of_cons, elem_of_nil. unfold pg, PGSIZE. lia.
    + intros path Hp Hq. apply full_table in Hq; [|done]. unfold pg, PGSIZE in *. lia.
  - intros va va' (i & Hi & ->)%HR (i' & Hi' & ->)%HR. unfold frame. rewrite !Hl by done.
    destruct (full_mk i) as (_ & -> & _); [lia|]. destruct (full_mk i') as (_ & -> & _); [lia|].
    unfold pg, va_no, PGSIZE. lia.
  - intros va [-> ->]%HF. split; [apply full_user; lia|]. rewrite full_leaf_last by (by vm_compute). by vm_compute.
Qed.

Lemma full_meta acc slots F :
  Z.of_nat (length slots) = MAX_TOTAL_PAGES - MAX_PYSC_PAGES ->
  (forall va j, F !! va = Some j <-> exists g, slots !! j = Some g /\ used g = true /\ pm_va g = va) ->
  (forall va j, F !! va = Some j -> j = 0%nat) ->
  meta (full_proc acc slots) full_pages F.
Proof.
  intros Hl HF Hj.
  pose proof (full_entry acc slots) as Hm.
  split; try done.
  - intros va. split.
    + intros (i & Hi & ->)%full_in; [|done]. eexists i, _. rewrite Hm. split_and!; [done|done|done|done].
    + intros (i & g & [Hi ->]%Hm & _ & <-). apply elem_of_list_to_set, list_elem_of_fmap. exists i. rewrite elem_of_seq. split; [done|lia].
  - intros i i' g g' [Hi ->]%Hm [Hi' ->]%Hm _ _. simpl. unfold va_no, PGSIZE. lia.
  - intros va j j' g H%Hj Hlt. lia.
Qed.

Lemma full_list k v : k_mem k = full_mem v -> k_freelist k = pg 1 -> @kmem_inv sample_layout k [pg 1; pg 2].
Proof.
  intros Em Ef. unfold kmem_inv. rewrite Em, Ef. split_and!.
  - by vm_compute.
  - refine (bool_decide_unpack _ _). by vm_compute.
  - repeat (apply Forall_cons_2; [by vm_compute|]). apply Forall_nil_2.
Qed.

Lemma full_ages acc slots : fifo_ages (full_proc acc slots).
Proof.
  assert (forall i g, p_memory_pages (full_proc acc slots) !! i = Some g -> (i < 16)%nat /\ pm_order g = Z.of_nat i) as Hm.
  { by intros i g [Hi ->]%full_entry. }
  split.
  - intros i i' g g' [_ E]%Hm [_ E']%Hm _ _. lia.
  - intros i g [Hi ->]%Hm _. simpl. lia.
  - done.
Qed.

Lemma zero_slot : Forall (fun b => 0 <= b < 256) (slot_bytes swap_disk (swap_inode PGSIZE) 0).
Proof.
  rewrite slot_bytes_eq. apply Forall_lookup_2. intros i b Hb.
  pose proof (lookup_lt_Some _ _ _ Hb) as Hi. pose proof (length_file_bytes swap_disk (swap_inode PGSIZE) (PGSIZE * Z.of_nat 0) PGSIZE ltac:(done)) as Hl.
  rewrite file_bytes_lookup in Hb by lia. injection Hb as <-. unfold byte_at.
  assert (PGSIZE = 4096) as EP by done. assert (NDIRECT = 12) as EN by done. assert (MAXFILE = 268) as EF by done.
  set (s := (PGSIZE * Z.of_nat 0 + Z.of_nat i) / BSIZE).
  assert (0 <= s < 4) as Hs by (unfold s, BSIZE; Z.to_euclidean_division_equations; lia). clearbody s.
  rewrite swap_fblk by (split; lia). rewrite decide_True by lia. destruct (_ =? 0); [lia|].
  unfold swap_disk, sample_disk, disk_block. rewrite zupd_ne by lia. cbn [k_disk sample_boot set_k_cur set_k_procs set_k_disk].
  rewrite lookup_singleton_ne by lia. cbn [default from_option id]. unfold block0.
  destruct (replicate _ 0 !! _) as [b|] eqn:E; simpl; [apply lookup_replicate in E as [-> _]|]; lia.
Qed.

(** Page 16 is in slot 0. *)
Definition one_slot : list page_metadata_struct := mkPage P_USED (va_no 16) 0 0 :: replicate 15 page0.

Lemma one_slot_spec va j :
  ({[va_no 16 := 0%nat]} : gmap Z nat) !! va = Some j <-> exists g, one_slot !! j = Some g /\ used g = true /\ pm_va g = va.
Proof.
  rewrite lookup_singleton_Some. split; [intros [<- <-]; by eexists|]. intros (g & Hg & Hu & <-).
  destruct j as [|j]; [by injection Hg as <-|]. change (replicate 15 page0 !! j = Some g) in Hg.
  apply lookup_replicate in Hg as [-> _]. done.
Qed.

Lemma get_page_from_file_brings_page_witness :
  exists k k', get_page_from_file (L := sample_layout) (Sel := SCFIFO) (D := steady) (va_no 16 + 5) (W k []) = Ret 1 (W k' []).
Proof.
  destruct (sample_swap (full_proc 0 one_slot) (full_mem PTE_PG) (pg 1) PGSIZE eq_refl) as (k & Hs & Em & Ef & Eh); [done|].
  assert (PGROUNDDOWN (va_no 16 + 5) = va_no 16) as Eva by (by vm_compute).
  destruct (@get_page_from_file_brings_page sample_layout sample_layout_ok SCFIFO swap_sb 1 0 0
    (full_proc 0 one_slot) swap_log k swap_disk swap_fd (swap_inode PGSIZE) [pg 1; pg 2] [] full_pages {[va_no 16 := 0%nat]}
    {[va_no 16 := slot_bytes swap_disk (swap_inode PGSIZE) 0]} (va_no 16 + 5) 0 (slot_bytes swap_disk (swap_inode PGSIZE) 0) [])
    as (lg' & k' & pr' & D' & y' & x' & sp' & R' & F' & E & _); rewrite ?Eva.
  - split.
    + exact Hs.
    + rewrite Eh. apply not_elem_of_nil.
    + by apply (full_list k PTE_PG).
    + rewrite Em. apply (full_tables PTE_PG 16); [by left| |].
      * intros va. by apply full_in.
      * intros va [j Hj]. apply lookup_singleton_Some in Hj as [<- _]. done.
    + intros va j [<- <-]%lookup_singleton_Some. done.
    + intros va bs [<- <-]%lookup_singleton_Some. right. exists 0%nat. split; [apply lookup_singleton_eq|done].
    + intros va bs [<- <-]%lookup_singleton_Some. apply zero_slot.
  - apply full_meta.
    + done.
    + apply one_slot_spec.
    + intros va j [_ <-]%lookup_singleton_Some. done.
  - intros _. apply full_ages.
  - apply lookup_singleton_eq.
  - apply lookup_singleton_eq.
  - exists k, k'. exact E.
Defined.

Lemma swap_keeps_pages_witness :
  exists k k', swap (L := sample_layout) (Sel := SCFIFO) (D := steady) (pg 3) (va_no 16) (W k []) = Ret tt (W k' []).
Proof.
  destruct (sample_swap (full_proc 0 (replicate 16 page0)) (full_mem (mk_pte (pg 26) 86)) (pg 1) 0 eq_refl)
    as (k & Hs & Em & Ef & Eh); [done|].
  destruct (@swap_keeps_pages sample_layout sample_layout_ok SCFIFO swap_sb 1 0 0
    (full_proc 0 (replicate 16 page0)) swap_log k swap_disk swap_fd (swap_inode 0)
    [pg 1; pg 2] [] full_pages ∅ {[va_no 16 := page_bytes (full_mem (mk_pte (pg 26) 86)) (pg 26)]} (va_no 16) [])
    as [(vo & j & lg' & k' & pr' & D' & y' & x' & _ & _ & E & _)|(j & bs & Hl & Hj & Ho & _)].
  - split.
    + exact Hs.
    + rewrite Eh. apply not_elem_of_nil.
    + by apply (full_list k (mk_pte (pg 26) 86)).
    + rewrite Em. apply (full_tables _ 17); [by right| |].
      * intros va [->%elem_of_singleton|Hin]%elem_of_union; [exists 16%nat; split; [lia|done]|].
        apply full_in in Hin as (i & Hi & ->); [|done]. exists i. split; [lia|done].
      * intros va [j Hj]. by rewrite lookup_empty in Hj.
    + intros va j Hj. by rewrite lookup_empty in Hj.
    + intros va bs [<- <-]%lookup_singleton_Some. left. split; [by apply elem_of_union_l, elem_of_singleton|].
      rewrite Em. unfold frame. change (p_pagetable _) with (pg 3). rewrite full_leaf_last by (by vm_compute).
      assert (PTE2PA (mk_pte (pg 26) 86) = pg 26) as -> by (by vm_compute). reflexivity.
    + intros va bs [<- <-]%lookup_singleton_Some. rewrite page_bytes_eq. apply ld_bytes_range.
  - apply full_meta; [done| |]; intros va j; rewrite lookup_empty; [|done]. split; [done|].
    intros (g & Hg & Hu & _). apply lookup_replicate in Hg as [-> _]. done.
  - apply full_ages.
  - intros (i & Hi & E)%full_in; [|done]. unfold va_no, PGSIZE in E. lia.
  - apply lookup_empty.
  - by intros i g [_ ->]%full_entry.
  - by exists 0%nat, page0.
  - exists k, k'. exact E.
  - exfalso. revert Ho. change (i_size (swap_inode 0)) with 0 in Hj. assert (PGSIZE = 4096 /\ NDIRECT * BSIZE = 12288) as [EP EN] by done.
    apply swap_not_full; rewrite ?Hl; lia.
Defined.

Lemma nfua_saturated_faults_witness :
  exists k, get_page_from_file (L := sample_layout) (Sel := NFUA) (D := steady) (va_no 16 + 5) (W k []) = Fault "memory_pages".
Proof.
  destruct (sample_swap (full_proc 0xFFFFFFFF one_slot) (full_mem PTE_PG) (pg 1) PGSIZE eq_refl) as (k & Hs & Em & Ef & Eh); [done|].
  exists k. apply (@nfua_saturated_faults sample_layout sample_layout_ok NFUA swap_sb 1 0 0
    (full_proc 0xFFFFFFFF one_slot) swap_log k swap_disk swap_fd (swap_inode PGSIZE) (pg 1) [pg 2] [] full_pages {[va_no 16 := 0%nat]} ∅).
  - done.
  - split.
    + exact Hs.
    + rewrite Eh. apply not_elem_of_nil.
    + by apply (full_list k PTE_PG).
    + rewrite Em. apply (full_tables PTE_PG 16); [by left| |].
      * intros va. by apply full_in.
      * intros va [j Hj]. apply lookup_singleton_Some in Hj as [<- _]. done.
    + intros va j [<- <-]%lookup_singleton_Some. done.
    + intros va bs Hb. by rewrite lookup_empty in Hb.
    + intros va bs Hb. by rewrite lookup_empty in Hb.
  - apply full_meta.
    + done.
    + apply one_slot_spec.
    + intros va j [_ <-]%lookup_singleton_Some. done.
  - by intros i g [_ ->]%full_entry.
  - by intros i g [_ ->]%full_entry.
  - intros i g [Hi ->]%full_entry. rewrite Em. unfold saturates, bit_A. change (p_pagetable _) with (pg 3).
    change (pm_va _) with (va_no i). rewrite full_leaf by done. do 16 (destruct i as [|i]; [by vm_compute|]). lia.
Defined.
