(* ===== verification/Proc.v ===== *)
(** * proc.c: processes

    Creating, growing, ending and collecting processes, and the scheduler.
    [myproc], [sched], [sleep], [wakeup] and [yield] are in [Sched],
    [proc_mapstacks] in [Vm], [procdump] in [Console], [either_copyout] and
    [either_copyin] in [Usercopy], [forkret] in [Trap]. *)

From Stdlib Require Import ZArith Lia.
From stdpp Require Import base gmap list strings numbers.
From S2P Require Import Prelude Riscv State Klib Sched Kalloc Uart Vm Usercopy Paging Bio Log Fs Pipe File Create Swap.
From S2P Require Import Demand Policy Pagefault.

(** ** Definitions *)

(** The channel that is the address of a [struct proc]. *)
Definition proc_chan (p : option nat) : channel :=
  match p with Some i => Cproc i | None => Cnull end.

(** A field of the trapframe page of process [p]. *)
Definition tf_addr (p : nat) (off : Z) : K Z :=
  let* pr := proc_get p in
  if p_trapframe pr =? 0 then fault "p->trapframe" else ret (p_trapframe pr + off).
Definition tf_get (p : nat) (off : Z) : K Z := let* a := tf_addr p off in load64 a.
Definition tf_set (p : nat) (off v : Z) : K unit := let* a := tf_addr p off in store64 a v.

(** [p->name = s], by [safestrcpy]. *)
Definition set_name (s : list Z) (pr : proc) : proc :=
  set_p_name (splice (p_name pr) (safestrcpy s 16)) pr.

Definition procinit : K unit :=
  initlock Lpid ;;;
  initlock Lwait ;;;
  for_all (Z.to_nat NPROC) 0 (fun i =>
    initlock (Lproc (Z.to_nat i)) ;;;
    proc_mod (Z.to_nat i) (set_p_kstack (KSTACK i))).

Definition cpuid : K Z := kget (fun k => s32 (r_tp (k_csr k))).

Definition allocpid : K Z :=
  acquire Lpid ;;;
  let* pid := kget k_nextpid in
  kmod (fun k => set_k_nextpid (pid + 1) k) ;;;
  release Lpid ;;;
  ret pid.

Section proc.
Context `{L : Layout} `{D : Disk} `{Sel : Selection}.

Definition proc_pagetable (p : nat) : K Z :=
  let* pagetable := uvmcreate in
  if pagetable =? 0 then ret 0 else
  let* r := mappages pagetable TRAMPOLINE PGSIZE trampoline (Z.lor PTE_R PTE_X) in
  if r <? 0 then uvmfree pagetable 0 ;;; ret 0 else
  let* pr := proc_get p in
  let* r := mappages pagetable TRAPFRAME PGSIZE (p_trapframe pr) (Z.lor PTE_R PTE_W) in
  if r <? 0 then
    uvmunmap pagetable TRAMPOLINE 1 false ;;;
    uvmfree pagetable 0 ;;;
    ret 0
  else ret pagetable.

Definition proc_freepagetable (pagetable sz : Z) : K unit :=
  uvmunmap pagetable TRAMPOLINE 1 false ;;;
  uvmunmap pagetable TRAPFRAME 1 false ;;;
  uvmfree pagetable sz.

Definition freeproc (p : nat) : K unit :=
  let* pr := proc_get p in
  when (truth (p_trapframe pr)) (kfree (p_trapframe pr)) ;;;
  proc_mod p (set_p_trapframe 0) ;;;
  when (truth (p_pagetable pr)) (proc_freepagetable (p_pagetable pr) (p_sz pr)) ;;;
  proc_mod p (set_p_pagetable 0) ;;;
  proc_mod p (set_p_sz 0) ;;;
  proc_mod p (set_p_pid 0) ;;;
  proc_mod p (set_p_parent None) ;;;
  proc_mod p (fun pr => set_p_name (<[0%nat := 0]> (p_name pr)) pr) ;;;
  proc_mod p (set_p_chan Cnull) ;;;
  proc_mod p (set_p_killed 0) ;;;
  proc_mod p (set_p_xstate 0) ;;;
  proc_mod p (set_p_state UNUSED).

(** The loop of [allocproc]: the first unused slot, with its lock held. *)
Definition find_unused : K (option nat) :=
  for_from (Z.to_nat NPROC) 0 (fun i =>
    let p := Z.to_nat i in
    acquire (Lproc p) ;;;
    let* pr := proc_get p in
    if bool_decide (p_state pr = UNUSED) then ret (Some p)
    else release (Lproc p) ;;; ret None).

Definition allocproc : K (option nat) :=
  let* r := find_unused in
  match r with
  | None => ret None
  | Some p =>
      let* pid := allocpid in
      proc_mod p (set_p_pid pid) ;;;
      proc_mod p (set_p_state USED) ;;;
      let* tf := kalloc in
      proc_mod p (set_p_trapframe tf) ;;;
      if tf =? 0 then freeproc p ;;; release (Lproc p) ;;; ret None else
      let* pt := proc_pagetable p in
      proc_mod p (set_p_pagetable pt) ;;;
      if pt =? 0 then freeproc p ;;; release (Lproc p) ;;; ret None else
      let* pr := proc_get p in
      when ((2 <? p_pid pr) && negb is_none_policy)
        (release (Lproc p) ;;;
         let* _ := createSwapFile p in
         acquire (Lproc p)) ;;;
      proc_mod p (set_p_context context0) ;;;
      proc_mod p (fun pr => set_p_context (set_c_ra forkret_addr (p_context pr)) pr) ;;;
      proc_mod p (fun pr => set_p_context
        (set_c_sp (u64 (p_kstack pr + PGSIZE)) (p_context pr)) pr) ;;;
      ret (Some p)
  end.

Definition initcode : list Z :=
  [0x17; 0x05; 0x00; 0x00; 0x13; 0x05; 0x45; 0x02;
   0x97; 0x05; 0x00; 0x00; 0x93; 0x85; 0x35; 0x02;
   0x93; 0x08; 0x70; 0x00; 0x73; 0x00; 0x00; 0x00;
   0x93; 0x08; 0x20; 0x00; 0x73; 0x00; 0x00; 0x00;
   0xef; 0xf0; 0x9f; 0xff; 0x2f; 0x69; 0x6e; 0x69;
   0x74; 0x00; 0x00; 0x24; 0x00; 0x00; 0x00; 0x00;
   0x00; 0x00; 0x00; 0x00].

Definition userinit : K unit :=
  let* r := allocproc in
  kmod (set_k_initproc r) ;;;
  match r with
  | None => fault "p->pagetable"
  | Some p =>
      let* pr := proc_get p in
      uvminit (p_pagetable pr) initcode ;;;
      proc_mod p (set_p_sz PGSIZE) ;;;
      tf_set p tf_epc 0 ;;;
      tf_set p tf_sp PGSIZE ;;;
      proc_mod p (set_name (cstr "initcode")) ;;;
      let* cwd := namei (cstr "/") in
      proc_mod p (set_p_cwd cwd) ;;;
      proc_mod p (set_p_state RUNNABLE) ;;;
      release (Lproc p)
  end.

(** [sz] is a 32-bit unsigned local. *)
Definition growproc (n : Z) : K Z :=
  let* p := this_proc in
  let* pr := proc_get p in
  let sz := u32 (p_sz pr) in
  if 0 <? n then
    let* r := uvmalloc (p_pagetable pr) sz (u32 (sz + n)) in
    let sz := u32 r in
    if sz =? 0 then ret (-1)
    else proc_mod p (set_p_sz sz) ;;; ret 0
  else if n <? 0 then
    let* r := uvmdealloc (p_pagetable pr) sz (u32 (sz + n)) in
    proc_mod p (set_p_sz (u32 r)) ;;; ret 0
  else proc_mod p (set_p_sz sz) ;;; ret 0.

(** What [fork] copies of the paging metadata for a process above pid 2. *)
Definition fork_metadata (p np : nat) : K unit :=
  release (Lproc np) ;;;
  copy_swap_file p np ;;;
  acquire (Lproc np) ;;;
  proc_mod np (set_p_page_fault_counter 0) ;;;
  let* pr := proc_get p in
  proc_mod np (set_p_page_order_counter (p_page_order_counter pr)) ;;;
  proc_mod np (set_p_pages_in_file_counter (p_pages_in_file_counter pr)) ;;;
  proc_mod np (set_p_pages_in_memory_counter (p_pages_in_memory_counter pr)) ;;;
  for_all (Z.to_nat MAX_PYSC_PAGES) 0 (fun i =>
    let* pg := mp_get p i in mp_mod np i (fun _ => pg)) ;;;
  for_all (Z.to_nat (MAX_TOTAL_PAGES - MAX_PYSC_PAGES)) 0 (fun i =>
    let* pg := fp_get p i in fp_mod np i (fun _ => pg)).

(** The open files of [p] and its directory, shared with [np]. *)
Definition fork_files (p np : nat) : K unit :=
  for_all (Z.to_nat NOFILE) 0 (fun i =>
    let* pr := proc_get p in
    let* fo := nth_or_fault "p->ofile" (p_ofile pr) i in
    match fo with
    | None => ret tt
    | Some f =>
        let* f := filedup f in
        proc_mod np (fun pr => set_p_ofile (<[Z.to_nat i := Some f]> (p_ofile pr)) pr)
    end) ;;;
  let* pr := proc_get p in
  match p_cwd pr with
  | None => fault "idup(0)"
  | Some cwd => let* cwd := idup cwd in proc_mod np (set_p_cwd (Some cwd))
  end.

Definition fork : K Z :=
  let* p := this_proc in
  let* r := allocproc in
  match r with
  | None => ret (-1)
  | Some np =>
      let* pr := proc_get p in
      let* npr := proc_get np in
      let* r := uvmcopy (p_pagetable pr) (p_pagetable npr) (p_sz pr) in
      if r <? 0 then freeproc np ;;; release (Lproc np) ;;; ret (-1) else
      proc_mod np (set_p_sz (p_sz pr)) ;;;
      when (2 <? p_pid pr) (fork_metadata p np) ;;;
      let* src := tf_addr p 0 in
      let* dst := tf_addr np 0 in
      mem_mod (fun m => st_bytes m dst (ld_bytes m src (Z.to_nat sizeof_trapframe))) ;;;
      tf_set np tf_a0 0 ;;;
      fork_files p np ;;;
      let* pr := proc_get p in
      proc_mod np (set_name (p_name pr)) ;;;
      let* npr := proc_get np in
      let pid := p_pid npr in
      release (Lproc np) ;;;
      acquire Lwait ;;;
      proc_mod np (set_p_parent (Some p)) ;;;
      release Lwait ;;;
      acquire (Lproc np) ;;;
      proc_mod np (set_p_state RUNNABLE) ;;;
      release (Lproc np) ;;;
      ret pid
  end.

Definition reparent (p : nat) : K unit :=
  for_all (Z.to_nat NPROC) 0 (fun i =>
    let pp := Z.to_nat i in
    let* x := proc_get pp in
    when (bool_decide (p_parent x = Some p))
      (let* init := kget k_initproc in
       proc_mod pp (set_p_parent init) ;;;
       wakeup (proc_chan init))).

Definition clear_memory_metadata : K unit :=
  let* p := this_proc in
  proc_mod p (set_p_page_order_counter 0) ;;;
  proc_mod p (set_p_pages_in_file_counter 0) ;;;
  proc_mod p (set_p_pages_in_memory_counter 0) ;;;
  proc_mod p (set_p_page_fault_counter 0) ;;;
  for_all (Z.to_nat MAX_PYSC_PAGES) 0 (fun i =>
    mp_mod p i (set_pm_state P_UNUSED) ;;;
    mp_mod p i (set_pm_va 0) ;;;
    mp_mod p i (set_pm_order 0) ;;;
    mp_mod p i (set_pm_access 0)) ;;;
  for_all (Z.to_nat (MAX_TOTAL_PAGES - MAX_PYSC_PAGES)) 0 (fun i =>
    fp_mod p i (set_pm_state P_UNUSED) ;;;
    fp_mod p i (set_pm_va 0) ;;;
    fp_mod p i (set_pm_order 0) ;;;
    fp_mod p i (set_pm_access 0)).

(** The first loop of [exit]. *)
Definition close_files (p : nat) : K unit :=
  for_all (Z.to_nat NOFILE) 0 (fun fd =>
    let* pr := proc_get p in
    let* fo := nth_or_fault "p->ofile" (p_ofile pr) fd in
    match fo with
    | None => ret tt
    | Some f =>
        fileclose f ;;;
        proc_mod p (fun pr => set_p_ofile (<[Z.to_nat fd := None]> (p_ofile pr)) pr)
    end).

Definition exit (status : Z) : K unit :=
  let* p := this_proc in
  let* init := kget k_initproc in
  if bool_decide (Some p = init) then panic "init exiting" else
  close_files p ;;;
  let* pr := proc_get p in
  when ((2 <? p_pid pr) && negb is_none_policy)
    (let* _ := removeSwapFile p in clear_memory_metadata) ;;;
  begin_op ;;;
  let* pr := proc_get p in
  match p_cwd pr with None => fault "iput(0)" | Some cwd => iput cwd end ;;;
  end_op ;;;
  proc_mod p (set_p_cwd None) ;;;
  acquire Lwait ;;;
  reparent p ;;;
  let* pr := proc_get p in
  wakeup (proc_chan (p_parent pr)) ;;;
  acquire (Lproc p) ;;;
  proc_mod p (set_p_xstate status) ;;;
  proc_mod p (set_p_state ZOMBIE) ;;;
  release Lwait ;;;
  sched ;;;
  panic "zombie exit".

(** The scan of [wait]: [inr] is the value to return, [inl] tells whether
    there are children. *)
Definition wait_scan (p : nat) (addr : Z) : K (bool + Z) :=
  while_ (S (Z.to_nat NPROC))
    (fun '(i, havekids) =>
       if Nat.eqb i (Z.to_nat NPROC) then ret (inr (inl (havekids : bool))) else
       let* np := proc_get i in
       if negb (bool_decide (p_parent np = Some p)) then ret (inl (S i, havekids)) else
       acquire (Lproc i) ;;;
       let* np := proc_get i in
       if bool_decide (p_state np = ZOMBIE) then
         let pid := p_pid np in
         let* bad :=
           (if addr =? 0 then ret false else
            let* pr := proc_get p in
            let* r := copyout (p_pagetable pr) addr (le_bytes 4 (p_xstate np)) in
            ret (r <? 0)) in
         if (bad : bool) then
           release (Lproc i) ;;; release Lwait ;;; ret (inr (inr (-1)))
         else
           freeproc i ;;;
           release (Lproc i) ;;;
           release Lwait ;;;
           ret (inr (inr pid))
       else release (Lproc i) ;;; ret (inl (S i, true))) (0%nat, false).

(** Every turn of the outer loop but the last uses up an element of the
    schedule. *)
Definition wait (addr : Z) : K Z :=
  let* p := this_proc in
  acquire Lwait ;;;
  fun w =>
    while_ (S (length (wenv w)))
      (fun _ : unit =>
         let* r := wait_scan p addr in
         match r with
         | inr v => ret (inr v)
         | inl havekids =>
             let* pr := proc_get p in
             if negb havekids || truth (p_killed pr) then release Lwait ;;; ret (inr (-1))
             else sleep (Cproc p) Lwait ;;; ret (inl tt)
         end) tt w.

(** [swtch(&c->context, &p->context)]: what the process does until it calls
    [sched] is the next element of the schedule; it comes back with its lock
    held and no other. *)
Definition swtch_to_process (p : nat) : K unit :=
  fun w =>
    match wenv w with
    | [] => Swtch w
    | f :: e => Ret tt (W (set_k_held [Lproc p] (set_k_noff 1 (f (wk w)))) e)
    end.

(** [wfi]: an interrupt handler runs. *)
Definition wfi : K unit :=
  fun w => match wenv w with [] => Swtch w | f :: e => Ret tt (W (f (wk w)) e) end.

(** One pass over the table; tells whether a process ran. *)
Definition scheduler_turn : nat * bool -> K (nat * bool + bool) :=
  fun '(p, found) =>
    if Nat.eqb p (Z.to_nat NPROC) then ret (inr found) else
    acquire (Lproc p) ;;;
    let* pr := proc_get p in
    let* found :=
      (if bool_decide (p_state pr = RUNNABLE) then
         proc_mod p (set_p_state RUNNING) ;;;
         kmod (set_k_cur (Some p)) ;;;
         swtch_to_process p ;;;
         when (bool_decide (SELECTION = NFUA) || bool_decide (SELECTION = LAPA))
           (update_access_counter p) ;;;
         kmod (set_k_cur None) ;;;
         ret true
       else ret found) in
    release (Lproc p) ;;;
    ret (inl (S p, found)).

Definition scheduler_pass : K bool := while_ (S (Z.to_nat NPROC)) scheduler_turn (0%nat, false).

(** Every pass uses up part of the schedule, in [swtch] or in [wfi]. *)
Definition scheduler : K unit :=
  kmod (set_k_cur None) ;;;
  fun w =>
    while_ (S (length (wenv w)))
      (fun _ : unit =>
         csr_mod intr_on ;;;
         let* found := scheduler_pass in
         when (negb found) (csr_mod intr_on ;;; wfi) ;;;
         ret (inl tt)) tt w.

Definition kill (pid : Z) : K Z :=
  let* r := for_from (Z.to_nat NPROC) 0 (fun i =>
    let p := Z.to_nat i in
    acquire (Lproc p) ;;;
    let* pr := proc_get p in
    if p_pid pr =? pid then
      proc_mod p (set_p_killed 1) ;;;
      when (bool_decide (p_state pr = SLEEPING)) (proc_mod p (set_p_state RUNNABLE)) ;;;
      release (Lproc p) ;;;
      ret (Some 0)
    else release (Lproc p) ;;; ret None) in
  ret (default (-1) r).

End proc.

(** ** The scheduler reaches every runnable process *)

(** The scheduler counts accesses. *)
Definition counts `{Sel : Selection} : Prop := SELECTION = NFUA \/ SELECTION = LAPA.

(** The page table of process [i] maps the pages that its entries list. *)
Definition consistent `{L : Layout} (i : nat) (k : kernel) : Prop :=
  exists pr own R F, k_procs k !! i = Some pr /\ tables (k_mem k) (p_pagetable pr) own R F /\ meta pr R F.

(** Other threads leave the table its size, and process [q] runnable while it
    is not the one that runs.  Where accesses are counted, the process that has
    run leaves its page table and its entries consistent. *)
Definition keeps_runnable `{L : Layout} `{Sel : Selection} (q : nat) (f : kernel -> kernel) : Prop :=
  forall k, length (k_procs k) = Z.to_nat NPROC -> k_cur k <> Some q ->
    length (k_procs (f k)) = Z.to_nat NPROC /\
    (p_state <$> k_procs k !! q = Some RUNNABLE -> p_state <$> k_procs (f k) !! q = Some RUNNABLE) /\
    (counts -> forall i, k_cur k = Some i -> (i < Z.to_nat NPROC)%nat -> consistent i (f k)).

(** The scheduler is about to look at process [i], and [q] is runnable. *)
Record at_turn (q : nat) (k : kernel) : Prop := {
  tn_held : k_held k = [];
  tn_noff : k_noff k = 0%nat;
  tn_procs : length (k_procs k) = Z.to_nat NPROC;
  tn_q : p_state <$> k_procs k !! q = Some RUNNABLE;
}.

(** It has switched to [q]. *)
Definition switched_to (q : nat) (k : kernel) : Prop :=
  k_cur k = Some q /\ k_held k = [Lproc q] /\ p_state <$> k_procs k !! q = Some RUNNING.

Section fair.
Context `{L : Layout} `{!LayoutOk L} `{Sel : Selection} (q : nat).

(** After another process has run, its accesses are counted. *)
Lemma count_turn i k :
  (counts -> consistent i k) -> i <> q -> exists k',
    (forall e, when (bool_decide (SELECTION = NFUA) || bool_decide (SELECTION = LAPA)) (update_access_counter i) (W k e) = Ret tt (W k' e)) /\
    k_held k' = k_held k /\ k_noff k' = k_noff k /\ length (k_procs k') = length (k_procs k) /\ k_procs k' !! q = k_procs k !! q.
Proof.
  intros Hc Hne. destruct (bool_decide _ || _) eqn:E; [|by exists k].
  destruct Hc as (pr & own & R & F & Hp & Ht & Hm).
  { by apply orb_true_iff in E as [E%bool_decide_eq_true|E%bool_decide_eq_true]; [left|right]. }
  destruct (update_access_counter_run i own k pr R F Hp Ht Hm) as (k' & pr' & Hr & (m' & -> & _) & _).
  eexists. split; [exact Hr|]. simpl. split_and!; [done|done|apply length_insert|by apply list_lookup_insert_ne].
Qed.

Lemma at_turn_proc k i : at_turn q k -> (i < Z.to_nat NPROC)%nat -> exists pr, k_procs k !! i = Some pr.
Proof. intros [_ _ Hl _] Hi. apply lookup_lt_is_Some. lia. Qed.

(** Its turn. *)
Lemma turn_reached k found :
  at_turn q k -> (q < Z.to_nat NPROC)%nat ->
  exists k1, scheduler_turn (q, found) (W k []) = Swtch (W k1 []) /\ switched_to q k1.
Proof.
  intros Ht Hq. destruct (at_turn_proc k q Ht Hq) as [pr Hpr]. destruct Ht as [H1 H2 H3 H4].
  unfold scheduler_turn. rewrite (proj2 (Nat.eqb_neq _ _)) by lia.
  erewrite (bind_Ret (acquire _)) by (apply acquire_eq; rewrite H1; set_solver).
  erewrite (bind_Ret (proc_get _)) by (apply proc_get_eq; exact Hpr).
  rewrite Hpr in H4. injection H4 as H4. rewrite bool_decide_true by done.
  eexists. split.
  - reflexivity.
  - split_and!; [done|simpl; by rewrite H1|]. simpl. rewrite list_lookup_alter_eq, Hpr. done.
Qed.

(** Another process's turn, when it is not runnable. *)
Lemma turn_skips k i found e pr :
  at_turn q k -> (i < Z.to_nat NPROC)%nat -> k_procs k !! i = Some pr -> p_state pr <> RUNNABLE ->
  scheduler_turn (i, found) (W k e) = Ret (inl (S i, found)) (W k e).
Proof.
  intros Ht Hi Hpr Hs. destruct Ht as [H1 H2 H3 H4].
  unfold scheduler_turn. rewrite (proj2 (Nat.eqb_neq _ _)) by lia.
  erewrite (bind_Ret (acquire _)) by (apply acquire_eq; rewrite H1; set_solver).
  erewrite (bind_Ret (proc_get _)) by (apply proc_get_eq; exact Hpr).
  rewrite bool_decide_false, bind_ret_l by done.
  erewrite (bind_Ret (release _)) by (apply (release_top _ [] 0); simpl; [by rewrite H1|set_solver|by rewrite H2]).
  unfold ret. do 2 f_equal. destruct k; simpl in *; by subst.
Qed.

(** Another process's turn, when it runs. *)
Lemma turn_runs k i found f pr :
  at_turn q k -> (i < Z.to_nat NPROC)%nat -> i <> q -> k_procs k !! i = Some pr -> p_state pr = RUNNABLE ->
  keeps_runnable q f ->
  exists k', at_turn q k' /\ forall e, scheduler_turn (i, found) (W k (f :: e)) = Ret (inl (S i, true)) (W k' e).
Proof.
  intros Ht Hi Hne Hpr Hs Hf. destruct Ht as [H1 H2 H3 H4]. set (k1 := set_k_cur (Some i) (set_k_procs (alter (set_p_state RUNNING) i (k_procs k)) (lockk (Lproc i) k))).
  destruct (Hf k1) as (F1 & F2 & F3).
  { simpl. by rewrite length_alter. }
  { simpl. congruence. }
  destruct (count_turn i (set_k_held [Lproc i] (set_k_noff 1 (f k1)))) as (k2 & E2 & C1 & C2 & C3 & C4).
  { intros Hct. exact (F3 Hct i eq_refl Hi). }
  { done. }
  exists (set_k_noff 0 (set_k_held [] (set_k_cur None k2))). split.
  { split; [done|done|simpl; by rewrite C3|]. simpl. rewrite C4. apply F2. simpl. by rewrite list_lookup_alter_ne. }
  intros e. unfold scheduler_turn. rewrite (proj2 (Nat.eqb_neq _ _)) by lia.
  erewrite (bind_Ret (acquire _)) by (apply acquire_eq; rewrite H1; set_solver).
  erewrite (bind_Ret (proc_get _)) by (apply proc_get_eq; exact Hpr).
  rewrite bool_decide_true by done. rewrite !bind_assoc.
  unfold proc_mod. rewrite bind_kmod, !bind_assoc, bind_kmod, !bind_assoc.
  erewrite (bind_Ret (swtch_to_process _)) by reflexivity.
  rewrite bind_assoc, (bind_Ret _ _ _ _ _ (E2 e)), bind_assoc, bind_kmod, bind_ret_l.
  erewrite (bind_Ret (release _)) by (apply (release_top _ [] 0); simpl; [by rewrite C1|set_solver|by rewrite C2]).
  reflexivity.
Qed.

(** From process [i] on, [q] gets its turn after at most [q - i] others. *)
Lemma pass_reaches d : forall i found k e fuel,
  (i + d = q)%nat -> (q < Z.to_nat NPROC)%nat -> at_turn q k -> Forall (keeps_runnable q) e ->
  (d <= length e)%nat -> (d < fuel)%nat ->
  exists n k1, (n <= d)%nat /\ while_ fuel scheduler_turn (i, found) (W k (take n e)) = Swtch (W k1 []) /\
    switched_to q k1.
Proof.
  induction d as [|d IH]; intros i found k e fuel Hi Hq Ht He Hlen Hfuel;
    (destruct fuel as [|fuel]; [lia|]).
  - replace i with q by lia. destruct (turn_reached k found Ht Hq) as (k1 & E & Hk1).
    exists 0%nat, k1. split; [lia|]. split; [|done]. rewrite while_S, take_0. unfold bind. by rewrite E.
  - destruct (at_turn_proc k i Ht ltac:(lia)) as [pr Hpr].
    destruct (decide (p_state pr = RUNNABLE)) as [Hs|Hs].
    + destruct e as [|f e]; [simpl in Hlen; lia|]. apply list.Forall_cons in He as [Hf He].
      destruct (turn_runs k i found f pr Ht ltac:(lia) ltac:(lia) Hpr Hs Hf) as (k' & Ht' & E).
      destruct (IH (S i) true k' e fuel) as (n & k1 & Hn & Hrun & Hk1); [lia|done|done|done|simpl in Hlen; lia|lia|].
      exists (S n), k1. split; [lia|]. split; [|done]. rewrite while_S. cbn [take].
      by rewrite (bind_Ret _ _ _ _ _ (E _)).
    + destruct (IH (S i) found k e fuel) as (n & k1 & Hn & Hrun & Hk1); [lia|done|done|done|lia|lia|].
      exists n, k1. split; [lia|]. split; [|done]. rewrite while_S.
      by rewrite (bind_Ret _ _ _ _ _ (turn_skips k i found _ pr Ht ltac:(lia) Hpr Hs)).
Qed.

End fair.

(** ** Properties *)

(** C31: the scheduler starves nobody.  If process [q] is runnable when the
    scheduler starts a pass, and the other threads leave it runnable, then it
    is switched to in that pass, with its lock held and its state [RUNNING],
    after at most [q] other processes have run.  This holds for every replacement
    policy; under NFUA and LAPA, where the scheduler counts the accesses of a
    process that has run, each of the others must leave its page table and its
    entries consistent, so that [update_access_counter] finds an entry in the page
    table for every page that the metadata lists. *)
Theorem scheduler_reaches `{L : Layout} `{!LayoutOk L} `{Sel : Selection} k e q :
  at_turn q k -> Forall (keeps_runnable q) e -> (q <= length e)%nat ->
  exists n k1, (n <= q)%nat /\ scheduler (W k (take n e)) = Swtch (W k1 []) /\ switched_to q k1.
Proof.
  intros Ht He Hlen.
  assert (q < Z.to_nat NPROC)%nat as Hq.
  { destruct Ht as [_ _ H3 H4]. rewrite <- H3. apply lookup_lt_is_Some.
    destruct (k_procs k !! q); [by eexists|done]. }
  set (k0 := set_k_csr (intr_on (k_csr (set_k_cur None k))) (set_k_cur None k)).
  assert (at_turn q k0) as Ht0 by (by destruct Ht).
  destruct (pass_reaches q q 0 false k0 e (S (Z.to_nat NPROC))) as (n & k1 & Hn & Hrun & Hk1);
    [done|done|done|done|done|lia|].
  exists n, k1. split; [done|]. split; [|done]. unfold scheduler. rewrite bind_kmod.
  rewrite while_S. unfold csr_mod. rewrite bind_assoc, bind_kmod, bind_assoc. unfold bind at 1.
  change (scheduler_pass (W k0 (take n e)) = Swtch (W k1 [])) in Hrun. cbv delta [k0] in Hrun. cbv beta in Hrun. by rewrite Hrun.
Qed.

(** Process 2 is runnable, and so is process 1, which runs first.  A process that
    runs ends up with the pages of [full_proc]. *)
Definition sched_kernel : kernel :=
  set_k_procs (<[2%nat := set_p_state RUNNABLE proc0]> (<[1%nat := set_p_state RUNNABLE proc0]> (k_procs kernel0))) kernel0.
Definition busy_turn (k : kernel) : kernel :=
  set_k_mem (full_mem PTE_PG) (set_k_procs (replicate (Z.to_nat NPROC) (set_p_state RUNNABLE (full_proc 5 one_slot))) k).

Lemma scheduler_reaches_witness :
  exists n k1, (n <= 2)%nat /\
    @scheduler NFUA (W sched_kernel (take n [busy_turn; busy_turn])) = Swtch (W k1 []) /\
    switched_to 2 k1.
Proof.
  assert (@keeps_runnable sample_layout NFUA 2 busy_turn) as Hk.
  { intros k _ _. split; [apply length_replicate|]. split; [done|]. intros _ i _ Hi.
    exists (set_p_state RUNNABLE (full_proc 5 one_slot)), [pg 1; pg 2], full_pages, {[va_no 16 := 0%nat]}. split_and!.
    - by apply lookup_replicate.
    - apply (full_tables PTE_PG 16); [by left| |].
      + intros va. by apply full_in.
      + intros va [j Hj]. apply lookup_singleton_Some in Hj as [<- _]. done.
    - destruct (full_meta 5 one_slot {[va_no 16 := 0%nat]}) as [M1 M2 M3 M4 M5 M6].
      + done.
      + apply one_slot_spec.
      + intros va j [_ <-]%lookup_singleton_Some. done.
      + by split. }
  apply (@scheduler_reaches sample_layout sample_layout_ok NFUA sched_kernel [busy_turn; busy_turn] 2).
  - done.
  - apply Forall_cons_2; [exact Hk|]. apply Forall_cons_2; [exact Hk|]. apply Forall_nil_2.
  - done.
Defined.
