(* ===== verification/Exec.v ===== *)
(** * exec.c: replacing a process image *)

From Stdlib Require Import ZArith Lia.
From stdpp Require Import base gmap list strings numbers.
From S2P Require Import Prelude Riscv State Klib Sched Kalloc Vm Usercopy Paging Bio Log Fs Create Swap Proc.

(** ** Definitions *)

(** The fields [exec] uses of [struct elfhdr] and [struct proghdr]. *)
Definition get64 (d : list Z) (off : Z) : Z := le_val (get_bytes d off 8).
Definition elf_magic (h : list Z) : Z := get32 h 0.
Definition elf_entry (h : list Z) : Z := get64 h 24.
Definition elf_phoff (h : list Z) : Z := get64 h 32.
Definition elf_phnum (h : list Z) : Z := get16 h 56.
Definition sizeof_elfhdr : Z := 64.
Definition ph_type (h : list Z) : Z := get32 h 0.
Definition ph_off (h : list Z) : Z := get64 h 8.
Definition ph_vaddr (h : list Z) : Z := get64 h 16.
Definition ph_filesz (h : list Z) : Z := get64 h 32.
Definition ph_memsz (h : list Z) : Z := get64 h 40.
Definition sizeof_proghdr : Z := 56.

(** The string at [a], in the page it starts. *)
Fixpoint ld_string (m : memory) (a : Z) (n : nat) : option (list Z) :=
  match n with
  | O => None
  | S n' =>
      if ld8 m a =? 0 then Some []
      else s ← ld_string m (a + 1) n'; Some (ld8 m a :: s)
  end.

(** What follows the last slash of the path [s]. *)
Fixpoint last_elem (s last : list Z) : list Z :=
  match s with
  | [] => last
  | c :: s' => if c =? 0 then last else last_elem s' (if c =? chr "/" then s' else last)
  end.

Section exec.
Context `{L : Layout} `{D : Disk} `{Sel : Selection}.

Definition loadseg (pagetable va : Z) (ip : nat) (offset sz : Z) : K Z :=
  if negb (va mod PGSIZE =? 0) then panic "loadseg: va must be page aligned" else
  while_ (S (S (Z.to_nat (sz / PGSIZE))))
    (fun i =>
       if negb (i <? sz) then ret (inr 0) else
       let* pa := walkaddr pagetable (u64 (va + i)) in
       if pa =? 0 then panic "loadseg: address should exist" else
       let n := if sz - i <? PGSIZE then sz - i else PGSIZE in
       let* r := readi ip (DKern pa) (u32 (offset + i)) n in
       if negb (u32 (fst r) =? n) then ret (inr (-1))
       else ret (inl (u32 (i + PGSIZE)))) 0.

(** The code at [bad]. *)
Definition exec_bad (pagetable sz : Z) (ip : option nat) : K Z :=
  when (truth pagetable) (proc_freepagetable pagetable sz) ;;;
  match ip with Some ip => iunlockput ip ;;; end_op | None => ret tt end ;;;
  let* p := this_proc in
  let* pr := proc_get p in
  match p_swapFile pr with
  | Some _ => let* _ := removeSwapFile p in ret (-1)
  | None => ret (-1)
  end.

(** The loop over the program headers: [inl sz] goes to [bad], [inr sz] is the
    size of the image. *)
Definition exec_load (pagetable : Z) (ip : nat) (elf : list Z) : K (Z + Z) :=
  while_ (S (Z.to_nat (elf_phnum elf)))
    (fun '(i, off, sz) =>
       if negb (i <? elf_phnum elf) then ret (inr (inr sz)) else
       let* r := readi ip DLocal (u32 off) sizeof_proghdr in
       if negb (fst r =? sizeof_proghdr) then ret (inr (inl sz)) else
       let ph := snd r in
       let next sz := ret (inl (i + 1, s32 (off + sizeof_proghdr), sz)) in
       if negb (ph_type ph =? ELF_PROG_LOAD) then next sz else
       if ph_memsz ph <? ph_filesz ph then ret (inr (inl sz)) else
       if u64 (ph_vaddr ph + ph_memsz ph) <? ph_vaddr ph then ret (inr (inl sz)) else
       let* sz1 := uvmalloc pagetable sz (u64 (ph_vaddr ph + ph_memsz ph)) in
       if sz1 =? 0 then ret (inr (inl sz)) else
       let sz := sz1 in
       if negb (ph_vaddr ph mod PGSIZE =? 0) then ret (inr (inl sz)) else
       let* r := loadseg pagetable (ph_vaddr ph) ip (u32 (ph_off ph)) (u32 (ph_filesz ph)) in
       if r <? 0 then ret (inr (inl sz)) else next sz)
    (0, s32 (elf_phoff elf), 0).

(** The loop that pushes the strings: the stack pointer and [ustack], [None]
    for a jump to [bad]. *)
Fixpoint exec_args (pagetable stackbase : Z) (argv : list Z) (argc sp : Z) (ustack : list Z)
  : K (option (Z * list Z)) :=
  match argv with
  | [] => ret (Some (sp, ustack))
  | a :: argv' =>
      if MAXARG <=? argc then ret None else
      let* m := kget k_mem in
      match ld_string m a (Z.to_nat PGSIZE) with
      | None => fault "strlen"
      | Some s =>
          let sp := u64 (sp - (strlen s + 1)) in
          let sp := sp - sp mod 16 in
          if sp <? stackbase then ret None else
          let* r := copyout pagetable sp (s ++ [0]) in
          if r <? 0 then ret None else
          exec_args pagetable stackbase argv' (argc + 1) sp (ustack ++ [sp])
      end
  end.

(** From the allocation of the stack on: [None] goes to [bad] with [sz]. *)
Definition exec_stack (pagetable sz : Z) (argv : list Z) : K (Z * option (Z * Z)) :=
  let sz := PGROUNDUP sz in
  let* sz1 := uvmalloc pagetable sz (u64 (sz + 2 * PGSIZE)) in
  if sz1 =? 0 then ret (sz, None) else
  let sz := sz1 in
  uvmclear pagetable (u64 (sz - 2 * PGSIZE)) ;;;
  let stackbase := u64 (sz - PGSIZE) in
  let* r := exec_args pagetable stackbase argv 0 sz [] in
  match r with
  | None => ret (sz, None)
  | Some (sp, ustack) =>
      let argc := Z.of_nat (length ustack) in
      let sp := u64 (sp - (argc + 1) * 8) in
      let sp := sp - sp mod 16 in
      if sp <? stackbase then ret (sz, None) else
      let* r := copyout pagetable sp (concat (le_bytes 8 <$> ustack ++ [0])) in
      if r <? 0 then ret (sz, None) else ret (sz, Some (argc, sp))
  end.

(** [argv]: the non-null pointers of the argument. *)
Definition exec (path : list Z) (argv : list Z) : K Z :=
  let* p := this_proc in
  begin_op ;;;
  let* r := namei path in
  match r with
  | None => end_op ;;; ret (-1)
  | Some ip =>
      ilock ip ;;;
      let* r := readi ip DLocal 0 sizeof_elfhdr in
      if negb (fst r =? sizeof_elfhdr) then exec_bad 0 0 (Some ip) else
      let elf := snd r in
      if negb (elf_magic elf =? ELF_MAGIC) then exec_bad 0 0 (Some ip) else
      let* pagetable := proc_pagetable p in
      if pagetable =? 0 then exec_bad 0 0 (Some ip) else
      let* pr := proc_get p in
      when (negb is_none_policy && (2 <? p_pid pr))
        (clear_memory_metadata ;;;
         let* pr := proc_get p in
         match p_swapFile pr with
         | Some _ => let* _ := removeSwapFile p in ret tt
         | None => ret tt
         end ;;;
         let* _ := createSwapFile p in ret tt) ;;;
      let* r := exec_load pagetable ip elf in
      match r with
      | inl sz => exec_bad pagetable sz (Some ip)
      | inr sz =>
          iunlockput ip ;;;
          end_op ;;;
          let* pr := proc_get p in
          let oldsz := p_sz pr in
          let* r := exec_stack pagetable sz argv in
          match r with
          | (sz, None) => exec_bad pagetable sz None
          | (sz, Some (argc, sp)) =>
              tf_set p tf_a1 sp ;;;
              proc_mod p (set_name (last_elem path path)) ;;;
              let* pr := proc_get p in
              let oldpagetable := p_pagetable pr in
              proc_mod p (set_p_pagetable pagetable) ;;;
              proc_mod p (set_p_sz sz) ;;;
              tf_set p tf_epc (elf_entry elf) ;;;
              tf_set p tf_sp sp ;;;
              proc_freepagetable oldpagetable oldsz ;;;
              ret (s32 argc)
          end
      end
  end.

End exec.
