(* ===== verification/Syscall.v ===== *)
(** * syscall.c and sysproc.c: arguments of system calls, calls on processes *)

From Stdlib Require Import ZArith Lia.
From stdpp Require Import base gmap list strings numbers.
From S2P Require Import Prelude Riscv State Klib Sched Usercopy Paging Bio Proc.

(** ** Definitions *)

(** *** syscall.c: fetching arguments *)

(** The result and the value stored at [ip]. *)
Definition fetchaddr (addr : Z) : K (option Z) :=
  let* p := this_proc in
  let* pr := proc_get p in
  if (p_sz pr <=? addr) || (p_sz pr <? u64 (addr + 8)) then ret None else
  let* r := copyin (p_pagetable pr) addr 8 in
  if negb (fst r =? 0) then ret None else ret (Some (le_val (snd r))).

(** The result and the bytes stored at [buf]. *)
Definition fetchstr (addr max : Z) : K (Z * list Z) :=
  let* p := this_proc in
  let* pr := proc_get p in
  let* r := copyinstr (p_pagetable pr) addr max in
  if fst r <? 0 then ret r else ret (strlen (snd r), snd r).

Definition argraw (n : Z) : K Z :=
  let* p := this_proc in
  match n with
  | 0 => tf_get p tf_a0
  | 1 => tf_get p tf_a1
  | 2 => tf_get p tf_a2
  | 3 => tf_get p tf_a3
  | 4 => tf_get p tf_a4
  | 5 => tf_get p tf_a5
  | _ => panic "argraw"
  end.

(** [argint] and [argaddr] always return 0; these give the value stored. *)
Definition argint (n : Z) : K Z := let* v := argraw n in ret (s32 v).
Definition argaddr (n : Z) : K Z := argraw n.

Definition argstr (n max : Z) : K (Z * list Z) :=
  let* addr := argaddr n in fetchstr addr max.

(** *** sysproc.c *)

Section sysproc.
Context `{L : Layout} `{D : Disk} `{Sel : Selection}.

Definition sys_exit : K Z :=
  let* n := argint 0 in
  exit n ;;;
  ret 0.

Definition sys_getpid : K Z :=
  let* p := this_proc in
  let* pr := proc_get p in
  ret (p_pid pr).

Definition sys_fork : K Z := fork.

Definition sys_wait : K Z := let* p := argaddr 0 in wait p.

Definition sys_sbrk : K Z :=
  let* n := argint 0 in
  let* p := this_proc in
  let* pr := proc_get p in
  let addr := s32 (p_sz pr) in
  let* r := growproc n in
  if r <? 0 then ret (-1) else ret addr.

(** [ticks - ticks0 < n] is a comparison of unsigned numbers; turns that sleep
    use up the schedule. *)
Definition sys_sleep : K Z :=
  let* n := argint 0 in
  acquire Lticks ;;;
  let* ticks0 := kget k_ticks in
  fun w =>
    while_ (S (length (wenv w)))
      (fun _ : unit =>
         let* ticks := kget k_ticks in
         if negb (u32 (ticks - ticks0) <? u32 n) then release Lticks ;;; ret (inr 0) else
         let* p := this_proc in
         let* pr := proc_get p in
         if truth (p_killed pr) then release Lticks ;;; ret (inr (-1))
         else sleep Cticks Lticks ;;; ret (inl tt)) tt w.

Definition sys_kill : K Z := let* pid := argint 0 in kill pid.

Definition sys_uptime : K Z :=
  acquire Lticks ;;;
  let* xticks := kget k_ticks in
  release Lticks ;;;
  ret xticks.

Definition sys_page_fault_num : K Z :=
  let* p := this_proc in
  let* pr := proc_get p in
  ret (p_page_fault_counter pr).

End sysproc.
