(* ===== verification/Sysfile.v ===== *)
(** * sysfile.c: the system calls on files, and the dispatch of syscall.c

    [create] and [isdirempty] are in [Create]. *)

From Stdlib Require Import ZArith Lia.
From stdpp Require Import base gmap list strings numbers.
From S2P Require Import Prelude Riscv State Klib Sched Kalloc Uart Usercopy Paging Bio Log Fs Pipe File Create Swap Proc Exec Syscall.

(** ** Definitions *)

Definition set_ofile (fd : Z) (f : option nat) (pr : proc) : proc :=
  set_p_ofile (<[Z.to_nat fd := f]> (p_ofile pr)) pr.

(** The descriptor and the file, [None] for an error. *)
Definition argfd (n : Z) : K (option (Z * nat)) :=
  let* fd := argint n in
  if (fd <? 0) || (NOFILE <=? fd) then ret None else
  let* p := this_proc in
  let* pr := proc_get p in
  let* f := nth_or_fault "ofile" (p_ofile pr) fd in
  match f with None => ret None | Some f => ret (Some (fd, f)) end.

Definition fdalloc (f : nat) : K Z :=
  let* p := this_proc in
  let* r := for_from (Z.to_nat NOFILE) 0 (fun fd =>
    let* pr := proc_get p in
    let* x := nth_or_fault "p->ofile" (p_ofile pr) fd in
    match x with
    | None => proc_mod p (set_ofile fd (Some f)) ;;; ret (Some fd)
    | Some _ => ret None
    end) in
  ret (default (-1) r).

Section sysfile.
Context `{L : Layout} `{D : Disk} `{Sel : Selection}.

Definition sys_dup : K Z :=
  let* a := argfd 0 in
  match a with
  | None => ret (-1)
  | Some (_, f) =>
      let* fd := fdalloc f in
      if fd <? 0 then ret (-1) else
      let* _ := filedup f in
      ret fd
  end.

Definition sys_read : K Z :=
  let* a := argfd 0 in
  match a with
  | None => ret (-1)
  | Some (_, f) =>
      let* n := argint 2 in
      let* p := argaddr 1 in
      fileread f p n
  end.

Definition sys_write : K Z :=
  let* a := argfd 0 in
  match a with
  | None => ret (-1)
  | Some (_, f) =>
      let* n := argint 2 in
      let* p := argaddr 1 in
      filewrite f p n
  end.

Definition sys_close : K Z :=
  let* a := argfd 0 in
  match a with
  | None => ret (-1)
  | Some (fd, f) =>
      let* p := this_proc in
      proc_mod p (set_ofile fd None) ;;;
      fileclose f ;;;
      ret 0
  end.

Definition sys_fstat : K Z :=
  let* a := argfd 0 in
  match a with
  | None => ret (-1)
  | Some (_, f) => let* st := argaddr 1 in filestat f st
  end.

(** [bad:] of [sys_link]. *)
Definition link_bad (ip : nat) : K Z :=
  ilock ip ;;;
  inode_mod ip (fun x => set_i_nlink (s16 (i_nlink x - 1)) x) ;;;
  iupdate ip ;;;
  iunlockput ip ;;;
  end_op ;;;
  ret (-1).

Definition sys_link : K Z :=
  let* old := argstr 0 MAXPATH in
  if fst old <? 0 then ret (-1) else
  let* new := argstr 1 MAXPATH in
  if fst new <? 0 then ret (-1) else
  begin_op ;;;
  let* r := namei (snd old) in
  match r with
  | None => end_op ;;; ret (-1)
  | Some ip =>
      ilock ip ;;;
      let* x := inode_get ip in
      if i_type x =? T_DIR then iunlockput ip ;;; end_op ;;; ret (-1) else
      inode_mod ip (fun x => set_i_nlink (s16 (i_nlink x + 1)) x) ;;;
      iupdate ip ;;;
      iunlock ip ;;;
      let* r := nameiparent (snd new) in
      match r with
      | (None, _) => link_bad ip
      | (Some dp, name) =>
          ilock dp ;;;
          let* d := inode_get dp in
          let* x := inode_get ip in
          let* bad :=
            (if negb (i_dev d =? i_dev x) then ret true
             else let* r := dirlink dp name (i_inum x) in ret (r <? 0)) in
          if (bad : bool) then iunlockput dp ;;; link_bad ip else
          iunlockput dp ;;;
          iput ip ;;;
          end_op ;;;
          ret 0
      end
  end.

Definition sys_unlink : K Z :=
  let* path := argstr 0 MAXPATH in
  if fst path <? 0 then ret (-1) else
  begin_op ;;;
  unlink_path (snd path).

(** [sys_open] from the point where [ip] is found and locked. *)
Definition open_inode (ip : nat) (omode : Z) : K Z :=
  let* x := inode_get ip in
  if (i_type x =? T_DEVICE) && ((i_major x <? 0) || (NDEV <=? i_major x))
  then iunlockput ip ;;; end_op ;;; ret (-1) else
  let* f := filealloc in
  match f with
  | None => iunlockput ip ;;; end_op ;;; ret (-1)
  | Some f =>
      let* fd := fdalloc f in
      if fd <? 0 then fileclose f ;;; iunlockput ip ;;; end_op ;;; ret (-1) else
      (if i_type x =? T_DEVICE then
         file_mod f (set_f_type FD_DEVICE) ;;;
         file_mod f (set_f_major (i_major x))
       else
         file_mod f (set_f_type FD_INODE) ;;;
         file_mod f (set_f_off 0)) ;;;
      file_mod f (set_f_ip (Some ip)) ;;;
      file_mod f (set_f_readable (cbool (negb (truth (Z.land omode O_WRONLY))))) ;;;
      file_mod f (set_f_writable
        (cbool (truth (Z.land omode O_WRONLY) || truth (Z.land omode O_RDWR)))) ;;;
      when (truth (Z.land omode O_TRUNC) && (i_type x =? T_FILE)) (itrunc ip) ;;;
      iunlock ip ;;;
      end_op ;;;
      ret fd
  end.

Definition sys_open : K Z :=
  let* path := argstr 0 MAXPATH in
  if fst path <? 0 then ret (-1) else
  let* omode := argint 1 in
  begin_op ;;;
  if truth (Z.land omode O_CREATE) then
    let* ip := create (snd path) T_FILE 0 0 in
    match ip with
    | None => end_op ;;; ret (-1)
    | Some ip => open_inode ip omode
    end
  else
    let* ip := namei (snd path) in
    match ip with
    | None => end_op ;;; ret (-1)
    | Some ip =>
        ilock ip ;;;
        let* x := inode_get ip in
        if (i_type x =? T_DIR) && negb (omode =? O_RDONLY)
        then iunlockput ip ;;; end_op ;;; ret (-1)
        else open_inode ip omode
    end.

Definition sys_mkdir : K Z :=
  begin_op ;;;
  let* path := argstr 0 MAXPATH in
  let* ip := (if fst path <? 0 then ret None else create (snd path) T_DIR 0 0) in
  match ip with
  | None => end_op ;;; ret (-1)
  | Some ip => iunlockput ip ;;; end_op ;;; ret 0
  end.

Definition sys_mknod : K Z :=
  begin_op ;;;
  let* path := argstr 0 MAXPATH in
  let* ip :=
    (if fst path <? 0 then ret None else
     let* major := argint 1 in
     let* minor := argint 2 in
     create (snd path) T_DEVICE (s16 major) (s16 minor)) in
  match ip with
  | None => end_op ;;; ret (-1)
  | Some ip => iunlockput ip ;;; end_op ;;; ret 0
  end.

Definition sys_chdir : K Z :=
  let* p := this_proc in
  begin_op ;;;
  let* path := argstr 0 MAXPATH in
  let* ip := (if fst path <? 0 then ret None else namei (snd path)) in
  match ip with
  | None => end_op ;;; ret (-1)
  | Some ip =>
      ilock ip ;;;
      let* x := inode_get ip in
      if negb (i_type x =? T_DIR) then iunlockput ip ;;; end_op ;;; ret (-1) else
      iunlock ip ;;;
      let* pr := proc_get p in
      match p_cwd pr with None => fault "iput(0)" | Some cwd => iput cwd end ;;;
      end_op ;;;
      proc_mod p (set_p_cwd (Some ip)) ;;;
      ret 0
  end.

(** The loop of [sys_exec] over the user's [argv]: the pages allocated, and
    whether all went well. *)
Definition exec_argv (uargv : Z) : K (bool * list Z) :=
  while_ (S (S (Z.to_nat MAXARG)))
    (fun argv =>
       let i := Z.of_nat (length argv) in
       if MAXARG <=? i then ret (inr (false, argv)) else
       let* uarg := fetchaddr (u64 (uargv + 8 * i)) in
       match uarg with
       | None => ret (inr (false, argv))
       | Some uarg =>
           if uarg =? 0 then ret (inr (true, argv)) else
           let* page := kalloc in
           if page =? 0 then ret (inr (false, argv)) else
           let argv := argv ++ [page] in
           let* r := fetchstr uarg PGSIZE in
           mem_mod (fun m => st_bytes m page (snd r)) ;;;
           if fst r <? 0 then ret (inr (false, argv)) else ret (inl argv)
       end) [].

Fixpoint free_argv (argv : list Z) : K unit :=
  match argv with
  | [] => ret tt
  | a :: argv' => kfree a ;;; free_argv argv'
  end.

Definition sys_exec : K Z :=
  let* path := argstr 0 MAXPATH in
  if fst path <? 0 then ret (-1) else
  let* uargv := argaddr 1 in
  let* r := exec_argv uargv in
  match r with
  | (false, argv) => free_argv argv ;;; ret (-1)
  | (true, argv) =>
      let* r := exec (snd path) argv in
      free_argv argv ;;;
      ret r
  end.

Definition sys_pipe : K Z :=
  let* p := this_proc in
  let* fdarray := argaddr 0 in
  let* r := pipealloc in
  match r with
  | None => ret (-1)
  | Some (rf, wf) =>
      let* fd0 := fdalloc rf in
      let* fd1 := (if fd0 <? 0 then ret (-1) else fdalloc wf) in
      if (fd0 <? 0) || (fd1 <? 0) then
        when (0 <=? fd0) (proc_mod p (set_ofile fd0 None)) ;;;
        fileclose rf ;;;
        fileclose wf ;;;
        ret (-1)
      else
      let* pr := proc_get p in
      let* r0 := copyout (p_pagetable pr) fdarray (le_bytes 4 fd0) in
      let* r1 := (if r0 <? 0 then ret (-1)
                  else copyout (p_pagetable pr) (u64 (fdarray + 4)) (le_bytes 4 fd1)) in
      if r1 <? 0 then
        proc_mod p (set_ofile fd0 None) ;;;
        proc_mod p (set_ofile fd1 None) ;;;
        fileclose rf ;;;
        fileclose wf ;;;
        ret (-1)
      else ret 0
  end.

(** *** syscall.c: the table and the dispatch *)

Definition syscalls (num : Z) : option (K Z) :=
  match num with
  | 1 => Some sys_fork
  | 2 => Some sys_exit
  | 3 => Some sys_wait
  | 4 => Some sys_pipe
  | 5 => Some sys_read
  | 6 => Some sys_kill
  | 7 => Some sys_exec
  | 8 => Some sys_fstat
  | 9 => Some sys_chdir
  | 10 => Some sys_dup
  | 11 => Some sys_getpid
  | 12 => Some sys_sbrk
  | 13 => Some sys_sleep
  | 14 => Some sys_uptime
  | 15 => Some sys_open
  | 16 => Some sys_write
  | 17 => Some sys_mknod
  | 18 => Some sys_unlink
  | 19 => Some sys_link
  | 20 => Some sys_mkdir
  | 21 => Some sys_close
  | 22 => Some sys_page_fault_num
  | _ => None
  end.

Definition syscall : K unit :=
  let* p := this_proc in
  let* a7 := tf_get p tf_a7 in
  let num := s32 a7 in
  match syscalls num with
  | Some f =>
      let* r := f in
      tf_set p tf_a0 (u64 r)
  | None =>
      let* pr := proc_get p in
      printf (cstr "%d %s: unknown sys call %d" ++ [10])
        [PInt (p_pid pr); PStr (Some (p_name pr)); PInt num] ;;;
      tf_set p tf_a0 (u64 (-1))
  end.

End sysfile.
