(* ===== verification/Trap.v ===== *)
(** * trap.c and plic.c: interrupts, exceptions and the way back to user space

    [usertrap] runs on a trap from user space, [kerneltrap] on one from the
    kernel, [usertrapret] prepares the return.  The interrupt controller is
    reached through [mmio_load] and [mmio_store].  [usertrapret] ends with a
    jump into the trampoline and gives its address and arguments. *)

From Stdlib Require Import ZArith Lia.
From stdpp Require Import base gmap list strings numbers.
From S2P Require Import Prelude Riscv State Klib Sched Kalloc Uart Vm Usercopy Paging Bio Virtio Log Fs Console Pipe File Create Swap Proc Exec Syscall Sysfile.

(** ** Definitions *)

Definition csr_get {A} (f : csrs -> A) : K A := kget (fun k => f (k_csr k)).

(** *** plic.c *)

Definition plicinit : K unit :=
  mmio_store (PLIC + UART0_IRQ * 4) 1 ;;;
  mmio_store (PLIC + VIRTIO0_IRQ * 4) 1.

Definition plicinithart : K unit :=
  let* hart := cpuid in
  mmio_store (PLIC_SENABLE hart) (Z.lor (Z.shiftl 1 UART0_IRQ) (Z.shiftl 1 VIRTIO0_IRQ)) ;;;
  mmio_store (PLIC_SPRIORITY hart) 0.

Definition plic_claim `{Mm : Mmio} : K Z :=
  let* hart := cpuid in
  let* irq := mmio_load (PLIC_SCLAIM hart) in
  ret (s32 irq).

Definition plic_complete (irq : Z) : K unit :=
  let* hart := cpuid in
  mmio_store (PLIC_SCLAIM hart) (u32 irq).

(** *** trap.c *)

Definition trapinit : K unit := initlock Lticks.

Section trap.
Context `{L : Layout} `{D : Disk} `{Sel : Selection} `{Mm : Mmio}.

Definition trapinithart : K unit := csr_mod (w_stvec kernelvec).

Definition clockintr : K unit :=
  acquire Lticks ;;;
  kmod (fun k => set_k_ticks (u32 (k_ticks k + 1)) k) ;;;
  wakeup Cticks ;;;
  release Lticks.

Definition devintr : K Z :=
  let* scause := csr_get r_scause in
  if truth (Z.land scause 0x8000000000000000) && (Z.land scause 0xff =? 9) then
    let* irq := plic_claim in
    (if irq =? UART0_IRQ then uartintr
     else if irq =? VIRTIO0_IRQ then virtio_disk_intr
     else when (truth irq) (printf (cstr "unexpected interrupt irq=%d" ++ [10]) [PInt irq])) ;;;
    when (truth irq) (plic_complete irq) ;;;
    ret 1
  else if scause =? 0x8000000000000001 then
    let* id := cpuid in
    when (id =? 0) clockintr ;;;
    csr_mod (fun c => w_sip (Z.land (r_sip c) (Z.lnot 2)) c) ;;;
    ret 2
  else ret 0.

(** The jump that ends [usertrapret]: the address and the two arguments. *)
Definition usertrapret : K (Z * Z * Z) :=
  let* p := this_proc in
  csr_mod intr_off ;;;
  csr_mod (w_stvec (TRAMPOLINE + (uservec - trampoline))) ;;;
  let* satp := csr_get r_satp in
  tf_set p tf_kernel_satp satp ;;;
  let* pr := proc_get p in
  tf_set p tf_kernel_sp (p_kstack pr + PGSIZE) ;;;
  tf_set p tf_kernel_trap usertrap_addr ;;;
  let* tp := csr_get r_tp in
  tf_set p tf_kernel_hartid tp ;;;
  let* x := csr_get r_sstatus in
  let x := Z.land x (Z.lnot SSTATUS_SPP) in
  let x := Z.lor x SSTATUS_SPIE in
  csr_mod (w_sstatus x) ;;;
  let* epc := tf_get p tf_epc in
  csr_mod (w_sepc epc) ;;;
  let satp := MAKE_SATP (p_pagetable pr) in
  let fn := TRAMPOLINE + (userret - trampoline) in
  ret (fn, TRAPFRAME, satp).

(** The messages of an unexpected trap. *)
Definition report_trap (p : nat) : K unit :=
  let* pr := proc_get p in
  let* scause := csr_get r_scause in
  printf (cstr "usertrap(): unexpected scause %d pid=%d" ++ [10]) [PInt scause; PInt (p_pid pr)] ;;;
  let* sepc := csr_get r_sepc in
  let* stval := csr_get r_stval in
  printf (cstr "            sepc=%p stval=%p" ++ [10]) [PInt sepc; PInt stval].

Definition usertrap : K (Z * Z * Z) :=
  let* sstatus := csr_get r_sstatus in
  if truth (Z.land sstatus SSTATUS_SPP) then panic "usertrap: not from user mode" else
  csr_mod (w_stvec kernelvec) ;;;
  let* p := this_proc in
  let* sepc := csr_get r_sepc in
  tf_set p tf_epc sepc ;;;
  let* scause := csr_get r_scause in
  let* which_dev :=
    (if scause =? 8 then
       let* pr := proc_get p in
       when (truth (p_killed pr)) (exit (-1)) ;;;
       let* epc := tf_get p tf_epc in
       tf_set p tf_epc (u64 (epc + 4)) ;;;
       csr_mod intr_on ;;;
       syscall ;;;
       ret 0
     else
       let* which_dev := devintr in
       if truth which_dev then ret which_dev else
       let* pr := proc_get p in
       let* scause := csr_get r_scause in
       if negb is_none_policy && (2 <? p_pid pr) &&
          ((scause =? 13) || (scause =? 15) || (scause =? 12)) then
         let* stval := csr_get r_stval in
         let* infile := page_in_file stval (p_pagetable pr) in
         (if truth infile then
            let* stval := csr_get r_stval in
            let* _ := get_page_from_file stval in
            ret tt
          else
            let* stval := csr_get r_stval in
            printf (cstr "PID: %d inside usertrap(): page: %p is not in file" ++ [10])
              [PInt (p_pid pr); PInt stval] ;;;
            report_trap p ;;;
            print_memory_metadata_state p ;;;
            proc_mod p (set_p_killed 1)) ;;;
         ret which_dev
       else
         report_trap p ;;;
         proc_mod p (set_p_killed 1) ;;;
         ret which_dev) in
  let* pr := proc_get p in
  when (truth (p_killed pr)) (exit (-1)) ;;;
  when (which_dev =? 2) yield ;;;
  usertrapret.

Definition kerneltrap : K unit :=
  let* p := myproc in
  let* sepc := csr_get r_sepc in
  let* sstatus := csr_get r_sstatus in
  let* scause := csr_get r_scause in
  if Z.land sstatus SSTATUS_SPP =? 0 then panic "kerneltrap: not from supervisor mode" else
  let* on := csr_get intr_get in
  if (on : bool) then panic "kerneltrap: interrupts enabled" else
  let* which_dev := devintr in
  if which_dev =? 0 then
    match p with
    | None => fault "p->pid"
    | Some i =>
        let* pr := proc_get i in
        printf (cstr "scause %d PID: %d" ++ [10]) [PInt scause; PInt (p_pid pr)] ;;;
        let* sepc := csr_get r_sepc in
        let* stval := csr_get r_stval in
        printf (cstr "sepc=%p stval=%p" ++ [10]) [PInt sepc; PInt stval] ;;;
        panic "kerneltrap"
    end
  else
  let* me := myproc in
  match me with
  | Some i =>
      let* pr := proc_get i in
      when ((which_dev =? 2) && bool_decide (p_state pr = RUNNING)) yield
  | None => ret tt
  end ;;;
  csr_mod (w_sepc sepc) ;;;
  csr_mod (w_sstatus sstatus).

(** *** proc.c: forkret *)

Definition forkret : K (Z * Z * Z) :=
  let* p := this_proc in
  release (Lproc p) ;;;
  let* first := kget k_first in
  when (truth first)
    (kmod (set_k_first 0) ;;;
     fsinit ROOTDEV) ;;;
  usertrapret.

End trap.

(** ** Lemmas *)

Lemma tf_get_eq k e p pr off :
  k_procs k !! p = Some pr -> p_trapframe pr <> 0 ->
  tf_get p off (W k e) = Ret (ld64 (k_mem k) (p_trapframe pr + off)) (W k e).
Proof.
  intros Hp Ht. unfold tf_get, tf_addr. rewrite bind_assoc, (bind_Ret _ _ _ _ _ (proc_get_eq _ _ _ _ Hp)).
  by rewrite (proj2 (Z.eqb_neq _ _) Ht).
Qed.

Lemma tf_set_eq k e p pr off v :
  k_procs k !! p = Some pr -> p_trapframe pr <> 0 ->
  tf_set p off v (W k e) = Ret tt (W (set_k_mem (st64 (k_mem k) (p_trapframe pr + off) v) k) e).
Proof.
  intros Hp Ht. unfold tf_set, tf_addr. rewrite bind_assoc, (bind_Ret _ _ _ _ _ (proc_get_eq _ _ _ _ Hp)).
  by rewrite (proj2 (Z.eqb_neq _ _) Ht).
Qed.

Section trapret.
Context `{L : Layout}.

(** The registers that [usertrapret] leaves. *)
Definition user_csrs (epc : Z) (c : csrs) : csrs :=
  let c1 := w_stvec (TRAMPOLINE + (uservec - trampoline)) (intr_off c) in
  w_sepc epc (w_sstatus (Z.lor (Z.land (r_sstatus c1) (Z.lnot SSTATUS_SPP)) SSTATUS_SPIE) c1).

(** The kernel's half of the trapframe at [tf]. *)
Definition user_trapframe (tf satp stack hart : Z) (m : memory) : memory :=
  st64 (st64 (st64 (st64 m (tf + tf_kernel_satp) satp) (tf + tf_kernel_sp) (stack + PGSIZE))
    (tf + tf_kernel_trap) usertrap_addr) (tf + tf_kernel_hartid) hart.

Lemma usertrapret_eq k e p pr :
  k_cur k = Some p -> k_procs k !! p = Some pr -> p_trapframe pr <> 0 ->
  let tf := p_trapframe pr in
  let m := user_trapframe tf (r_satp (k_csr k)) (p_kstack pr) (r_tp (k_csr k)) (k_mem k) in
  usertrapret (W k e) =
  Ret (TRAMPOLINE + (userret - trampoline), TRAPFRAME, MAKE_SATP (p_pagetable pr))
    (W (set_k_csr (user_csrs (ld64 m (tf + tf_epc)) (k_csr k)) (set_k_mem m k)) e).
Proof.
  intros Hc Hp Ht tf m. unfold usertrapret.
  rewrite (bind_Ret _ _ _ _ _ (this_proc_eq _ _ _ Hc)). unfold csr_mod, csr_get.
  rewrite !bind_kmod, bind_kget.
  erewrite (bind_Ret (tf_set _ _ _)) by (eapply tf_set_eq; [|exact Ht]; by destruct k).
  erewrite (bind_Ret (proc_get _)) by (eapply proc_get_eq; by destruct k).
  do 2 erewrite (bind_Ret (tf_set _ _ _)) by (eapply tf_set_eq; [|exact Ht]; by destruct k).
  rewrite bind_kget.
  erewrite (bind_Ret (tf_set _ _ _)) by (eapply tf_set_eq; [|exact Ht]; by destruct k).
  rewrite bind_kget, bind_kmod.
  erewrite (bind_Ret (tf_get _ _)) by (eapply tf_get_eq; [|exact Ht]; by destruct k).
  rewrite bind_kmod. unfold ret. f_equal.
Qed.

End trapret.
