(* ===== verification/Boot.v ===== *)
(** * start.c and main.c: booting

    [start] runs on each processor in machine mode and ends with [mret];
    [main] initialises the kernel on processor 0 while the others wait, and
    ends in the scheduler.  The timer's registers are memory-mapped. *)

From Stdlib Require Import ZArith Lia.
From stdpp Require Import base gmap list strings numbers.
From S2P Require Import Prelude Riscv State Klib Sched Kalloc Uart Vm Usercopy Paging Bio Virtio Log Fs Console Pipe File Create Swap Proc Exec Syscall Sysfile Trap.

(** ** Definitions *)

Section boot.
Context `{L : Layout} `{D : Disk} `{Sel : Selection} `{Mm : Mmio}.

(** *** start.c *)

(** [timer_scratch[id][i] = v] *)
Definition set_timer_scratch (id i v : Z) : K unit :=
  let* s := kget k_timer_scratch in
  let* _ := nth_or_fault "timer_scratch" s id in
  kmod (set_k_timer_scratch (alter (fun row => <[Z.to_nat i := u64 v]> row) (Z.to_nat id) s)).

Definition timerinit : K unit :=
  let* id := csr_get (fun c => s32 (r_mhartid c)) in
  let interval := 1000000 in
  let* now := mmio_load CLINT_MTIME in
  mmio_store (CLINT_MTIMECMP id) (u64 (now + interval)) ;;;
  set_timer_scratch id 3 (CLINT_MTIMECMP id) ;;;
  set_timer_scratch id 4 interval ;;;
  csr_mod (w_mscratch (timer_scratch + id * (5 * 8))) ;;;
  csr_mod (w_mtvec timervec) ;;;
  csr_mod (fun c => w_mstatus (Z.lor (r_mstatus c) MSTATUS_MIE) c) ;;;
  csr_mod (fun c => w_mie (Z.lor (r_mie c) MIE_MTIE) c).

(** Up to the [mret], which goes to [mepc]. *)
Definition start : K unit :=
  let* x := csr_get r_mstatus in
  let x := Z.land x (Z.lnot MSTATUS_MPP_MASK) in
  let x := Z.lor x MSTATUS_MPP_S in
  csr_mod (w_mstatus x) ;;;
  csr_mod (w_mepc main_addr) ;;;
  csr_mod (w_satp 0) ;;;
  csr_mod (w_medeleg 0xffff) ;;;
  csr_mod (w_mideleg 0xffff) ;;;
  csr_mod (fun c => w_sie (Z.lor (Z.lor (Z.lor (r_sie c) SIE_SEIE) SIE_STIE) SIE_SSIE) c) ;;;
  timerinit ;;;
  let* id := csr_get (fun c => s32 (r_mhartid c)) in
  csr_mod (w_tp id).

(** *** main.c *)

(** [while(started == 0) ;] -- between two reads the other processors run. *)
Definition wait_started : K unit :=
  fun w =>
    while_ (S (length (wenv w)))
      (fun _ : unit =>
         let* s := kget k_started in
         if s =? 0 then
           (fun w => match wenv w with [] => Swtch w | f :: e => Ret (inl tt) (W (f (wk w)) e) end)
         else ret (inr tt)) tt w.

(** The initialisation on processor 0. *)
Definition main_init : K unit :=
  consoleinit ;;;
  printfinit ;;;
  printf [10] [] ;;;
  printf (cstr "xv6 kernel is booting" ++ [10]) [] ;;;
  printf [10] [] ;;;
  kinit ;;;
  kvminit ;;;
  kvminithart ;;;
  procinit ;;;
  trapinit ;;;
  trapinithart ;;;
  plicinit ;;;
  plicinithart ;;;
  binit ;;;
  iinit ;;;
  fileinit ;;;
  virtio_disk_init ;;;
  userinit ;;;
  kmod (set_k_started 1).

Definition main : K unit :=
  let* id := cpuid in
  (if id =? 0 then main_init
   else
     wait_started ;;;
     let* id := cpuid in
     printf (cstr "hart %d starting" ++ [10]) [PInt id] ;;;
     kvminithart ;;;
     trapinithart ;;;
     plicinithart) ;;;
  scheduler.

End boot.
