(* ===== verification/Asm.v ===== *)
(** * The assembly: trampoline.S, kernelvec.S, swtch.S, entry.S

    The routines as lists of instructions, in the order of the source, and the
    few instructions they use as functions on registers, control registers and
    memory.  A virtual address is translated under the page table that [satp]
    selects; the translation is a parameter. *)

From Stdlib Require Import ZArith Lia.
From stdpp Require Import base gmap list strings numbers.
From S2P Require Import Prelude Riscv State.

(** ** Definitions *)

Inductive reg : Set :=
| ra | sp | gp | tp | t0 | t1 | t2 | s0 | s1 | a0 | a1 | a2 | a3 | a4 | a5 | a6 | a7
| s2 | s3 | s4 | s5 | s6 | s7 | s8 | s9 | s10 | s11 | t3 | t4 | t5 | t6.

#[export] Instance reg_eq_dec : EqDecision reg.
Proof. solve_decision. Defined.

(** The last instruction of a routine transfers control: [Jr r] and [Ret_] to
    the address in a register, [Sret] and [Mret] to [sepc] and [mepc]. *)
Inductive instr : Set :=
| Sd (r : reg) (off : Z) (base : reg)
| Ld (r : reg) (off : Z) (base : reg)
| Csrrw (rd : reg) (c : csr) (rs : reg)
| Csrr (rd : reg) (c : csr)
| Csrw (c : csr) (rs : reg)
| Addi (rd rs : reg) (imm : Z)
| Add (rd rs1 rs2 : reg)
| Mul (rd rs1 rs2 : reg)
| Li (rd : reg) (imm : Z)
| SfenceVma
| Jr (r : reg)
| Ret_
| Sret
| Mret.

Record machine : Type := Mach { m_x : reg -> Z; m_csr : csrs; m_mem : memory; m_pc : Z }.

Definition setx (r : reg) (v : Z) (f : reg -> Z) : reg -> Z := fun r' => if decide (r' = r) then u64 v else f r'.

Section execution.
(** [tr satp va] is the physical address of [va] under [satp]. *)
Context (tr : Z -> Z -> Z).

Definition addr (m : machine) (base : reg) (off : Z) : Z := tr (r_satp (m_csr m)) (u64 (m_x m base + off)).

Definition step (i : instr) (m : machine) : machine :=
  match i with
  | Sd r off base => Mach (m_x m) (m_csr m) (st64 (m_mem m) (addr m base off) (m_x m r)) (m_pc m)
  | Ld r off base => Mach (setx r (ld64 (m_mem m) (addr m base off)) (m_x m)) (m_csr m) (m_mem m) (m_pc m)
  | Csrrw rd c rs => Mach (setx rd (m_csr m c) (m_x m)) (csrw c (m_x m rs) (m_csr m)) (m_mem m) (m_pc m)
  | Csrr rd c => Mach (setx rd (m_csr m c) (m_x m)) (m_csr m) (m_mem m) (m_pc m)
  | Csrw c rs => Mach (m_x m) (csrw c (m_x m rs) (m_csr m)) (m_mem m) (m_pc m)
  | Addi rd rs imm => Mach (setx rd (m_x m rs + imm) (m_x m)) (m_csr m) (m_mem m) (m_pc m)
  | Add rd rs1 rs2 => Mach (setx rd (m_x m rs1 + m_x m rs2) (m_x m)) (m_csr m) (m_mem m) (m_pc m)
  | Mul rd rs1 rs2 => Mach (setx rd (m_x m rs1 * m_x m rs2) (m_x m)) (m_csr m) (m_mem m) (m_pc m)
  | Li rd imm => Mach (setx rd imm (m_x m)) (m_csr m) (m_mem m) (m_pc m)
  | SfenceVma => m
  | Jr r => Mach (m_x m) (m_csr m) (m_mem m) (m_x m r)
  | Ret_ => Mach (m_x m) (m_csr m) (m_mem m) (m_x m ra)
  | Sret => Mach (m_x m) (m_csr m) (m_mem m) (r_sepc (m_csr m))
  | Mret => Mach (m_x m) (m_csr m) (m_mem m) (m_csr m Mepc)
  end.

Definition execute (l : list instr) (m : machine) : machine := fold_left (fun m i => step i m) l m.

End execution.

(** Stores or loads of several registers at offsets from [base]. *)
Definition save (base : reg) (l : list (reg * Z)) : list instr := (fun '(r, o) => Sd r o base) <$> l.
Definition restore (base : reg) (l : list (reg * Z)) : list instr := (fun '(r, o) => Ld r o base) <$> l.

(** *** trampoline.S *)

(** The user registers and their places in the trapframe, without [a0]. *)
Definition user_regs : list (reg * Z) :=
  [(ra, 40); (sp, 48); (gp, 56); (tp, 64); (t0, 72); (t1, 80); (t2, 88); (s0, 96); (s1, 104);
   (a1, 120); (a2, 128); (a3, 136); (a4, 144); (a5, 152); (a6, 160); (a7, 168);
   (s2, 176); (s3, 184); (s4, 192); (s5, 200); (s6, 208); (s7, 216); (s8, 224); (s9, 232);
   (s10, 240); (s11, 248); (t3, 256); (t4, 264); (t5, 272); (t6, 280)].

Definition uservec_code : list instr :=
  [Csrrw a0 Sscratch a0] ++ save a0 user_regs ++
  [Csrr t0 Sscratch; Sd t0 112 a0;
   Ld sp 8 a0; Ld tp 32 a0; Ld t0 16 a0; Ld t1 0 a0; Csrw Satp t1; SfenceVma; Jr t0].

Definition userret_code : list instr :=
  [Csrw Satp a1; SfenceVma; Ld t0 112 a0; Csrw Sscratch t0] ++ restore a0 user_regs ++
  [Csrrw a0 Sscratch a0; Sret].

(** *** kernelvec.S *)

Definition kernel_regs : list (reg * Z) :=
  [(ra, 0); (sp, 8); (gp, 16); (tp, 24); (t0, 32); (t1, 40); (t2, 48); (s0, 56); (s1, 64);
   (a0, 72); (a1, 80); (a2, 88); (a3, 96); (a4, 104); (a5, 112); (a6, 120); (a7, 128);
   (s2, 136); (s3, 144); (s4, 152); (s5, 160); (s6, 168); (s7, 176); (s8, 184); (s9, 192);
   (s10, 200); (s11, 208); (t3, 216); (t4, 224); (t5, 232); (t6, 240)].

(** Up to the call of [kerneltrap], and after it ([tp] is not restored). *)
Definition kernelvec_enter : list instr := Addi sp sp (-256) :: save sp kernel_regs.
Definition kernelvec_leave : list instr :=
  restore sp (filter (fun '(r, _) => r <> tp) kernel_regs) ++ [Addi sp sp 256; Sret].

Definition timervec_code : list instr :=
  [Csrrw a0 Mscratch a0; Sd a1 0 a0; Sd a2 8 a0; Sd a3 16 a0;
   Ld a1 24 a0; Ld a2 32 a0; Ld a3 0 a1; Add a3 a3 a2; Sd a3 0 a1;
   Li a1 2; Csrw Sip a1;
   Ld a3 16 a0; Ld a2 8 a0; Ld a1 0 a0; Csrrw a0 Mscratch a0; Mret].

(** *** swtch.S *)

(** The fields of [struct context]. *)
Definition context_regs : list (reg * Z) :=
  [(ra, 0); (sp, 8); (s0, 16); (s1, 24); (s2, 32); (s3, 40); (s4, 48); (s5, 56); (s6, 64); (s7, 72);
   (s8, 80); (s9, 88); (s10, 96); (s11, 104)].

Definition swtch_code : list instr := save a0 context_regs ++ restore a1 context_regs ++ [Ret_].

(** *** entry.S, with [stack0] the address of the boot stacks *)

Definition entry_code (stack0 : Z) : list instr :=
  [Li sp stack0; Li a0 (1024 * 4); Csrr a1 Mhartid; Addi a1 a1 1; Mul a0 a0 a1; Add sp sp a0].

(** ** Lemmas *)

Lemma execute_app tr l1 l2 m : execute tr (l1 ++ l2) m = execute tr l2 (execute tr l1 m).
Proof. apply fold_left_app. Qed.

Lemma setx_eq r v f : setx r v f r = u64 v.
Proof. unfold setx. by rewrite decide_True. Qed.

Lemma setx_ne r v f r' : r' <> r -> setx r v f r' = f r'.
Proof. intros. unfold setx. by rewrite decide_False. Qed.

(** Slots of eight bytes that do not overlap. *)
Definition slots_ok (l : list (reg * Z)) : Prop :=
  NoDup l.*1 /\ NoDup l.*2 /\ Forall (fun o => o mod 8 = 0) l.*2.

#[export] Instance slots_ok_dec l : Decision (slots_ok l).
Proof. unfold slots_ok. apply _. Defined.

Lemma slots_apart l r o r' o' :
  slots_ok l -> (r, o) ∈ l -> (r', o') ∈ l -> r <> r' -> o + 8 <= o' \/ o' + 8 <= o.
Proof.
  intros (H1 & H2 & H3) Hi Hj Hne.
  assert (o <> o') as Ho.
  { intros ->. apply list_elem_of_lookup in Hi as [i Hi], Hj as [j Hj].
    assert (i = j) as ->.
    { apply (NoDup_lookup l.*2 i j o'); [done|by rewrite list_lookup_fmap, Hi|by rewrite list_lookup_fmap, Hj]. }
    congruence. }
  rewrite list.Forall_forall in H3.
  assert (o mod 8 = 0) by (apply H3; apply list_elem_of_fmap; by exists (r, o)).
  assert (o' mod 8 = 0) by (apply H3; apply list_elem_of_fmap; by exists (r', o')).
  Z.to_euclidean_division_equations. lia.
Qed.

Section blocks.
Context (tr : Z -> Z -> Z) (base : reg) (A : Z).

(** What a block of stores does. *)
Lemma execute_save l m :
  slots_ok l -> (forall r o, (r, o) ∈ l -> addr tr m base o = A + o) ->
  let m' := execute tr (save base l) m in
  m_x m' = m_x m /\ m_csr m' = m_csr m /\ m_pc m' = m_pc m /\
  (forall r o, (r, o) ∈ l -> ld64 (m_mem m') (A + o) = u64 (m_x m r)) /\
  (forall a, (forall r o, (r, o) ∈ l -> a + 8 <= A + o \/ A + o + 8 <= a) ->
     ld64 (m_mem m') a = ld64 (m_mem m) a).
Proof.
  intros Hok Ha. revert m Ha. induction l as [|[r o] l IH]; intros m Ha.
  - simpl. split_and!; try done. intros r o Hin. by apply elem_of_nil in Hin.
  - assert (slots_ok l) as Hok'.
    { destruct Hok as (H1 & H2 & H3). apply list.NoDup_cons in H1 as [_ H1], H2 as [_ H2].
      apply list.Forall_cons in H3 as [_ H3]. done. }
    set (m1 := step tr (Sd r o base) m).
    destruct (IH Hok' m1) as (X & Cs & P & Hin & Hout).
    { intros r' o' H. apply (Ha r'). by apply list_elem_of_further. }
    change (execute tr (save base ((r, o) :: l)) m) with (execute tr (save base l) m1).
    pose proof (Ha r o ltac:(apply list_elem_of_here)) as Hao.
    split_and!; [done..| |].
    + intros r' o' Hr'. destruct (decide ((r', o') ∈ l)) as [Hl|Hl]; [by rewrite (Hin _ _ Hl)|].
      apply elem_of_cons in Hr' as [[= -> ->]|Hr']; [|done].
      rewrite Hout.
      * simpl. rewrite Hao. apply ld64_st64_eq.
      * intros r2 o2 H2. assert (r <> r2) as Hne.
        { intros ->. destruct Hok as (H1 & _). apply list.NoDup_cons in H1 as [H1 _]. apply H1.
          apply list_elem_of_fmap. by exists (r2, o2). }
        destruct (slots_apart _ r o r2 o2 Hok) as [H|H];
          [apply list_elem_of_here|by apply list_elem_of_further|done|lia|lia].
    + intros a Hfar. rewrite Hout by (intros r2 o2 H2; apply (Hfar r2); by apply list_elem_of_further).
      simpl. rewrite Hao. apply ld64_st64_ne.
      destruct (Hfar r o ltac:(apply list_elem_of_here)); lia.
Qed.

(** What a block of loads does; if the base is among the registers, its slot
    holds the base. *)
Lemma execute_restore l m :
  NoDup l.*1 -> (forall r o, (r, o) ∈ l -> addr tr m base o = A + o) ->
  (forall o, (base, o) ∈ l -> u64 (ld64 (m_mem m) (A + o)) = m_x m base) ->
  let m' := execute tr (restore base l) m in
  m_mem m' = m_mem m /\ m_csr m' = m_csr m /\ m_pc m' = m_pc m /\
  (forall r o, (r, o) ∈ l -> m_x m' r = u64 (ld64 (m_mem m) (A + o))) /\
  (forall r, r ∉ l.*1 -> m_x m' r = m_x m r).
Proof.
  revert m. induction l as [|[r o] l IH]; intros m Hnd Ha Hb.
  - simpl. split_and!; try done. intros r o Hin. by apply elem_of_nil in Hin.
  - simpl in Hnd. apply list.NoDup_cons in Hnd as [Hr Hnd].
    set (m1 := step tr (Ld r o base) m).
    assert (m_x m1 base = m_x m base) as Eb.
    { simpl. unfold setx. case_decide; [|done]. subst r.
      rewrite (Ha base o) by apply list_elem_of_here. apply Hb, list_elem_of_here. }
    destruct (IH m1 Hnd) as (Me & Cs & P & Hin & Hout).
    { intros r' o' H. unfold addr. rewrite Eb. apply (Ha r'). by apply list_elem_of_further. }
    { intros o' H. rewrite Eb. apply Hb. by apply list_elem_of_further. }
    change (execute tr (restore base ((r, o) :: l)) m) with (execute tr (restore base l) m1).
    split_and!; [done..| |].
    + intros r' o' H. apply elem_of_cons in H as [[= -> ->]|H]; [|by apply Hin].
      rewrite (Hout r Hr). simpl. rewrite setx_eq, (Ha r o) by apply list_elem_of_here. done.
    + intros r' H. simpl in H. apply not_elem_of_cons in H as [H1 H2]. rewrite (Hout r' H2).
      simpl. by apply setx_ne.
Qed.

End blocks.

(** *** The trampoline *)

(** All registers and where the trapframe keeps them. *)
Definition trap_slots : list (reg * Z) := (a0, 112) :: user_regs.

Lemma trap_slots_all r : exists o, (r, o) ∈ trap_slots.
Proof.
  assert (r ∈ trap_slots.*1) as H by (destruct r; apply (bool_decide_unpack _); vm_compute; done).
  apply list_elem_of_fmap in H as ([r' o] & -> & H). by exists o.
Qed.

Lemma trap_slots_ok : slots_ok trap_slots.
Proof. apply (bool_decide_unpack _). by vm_compute. Qed.

Lemma user_regs_ok : slots_ok user_regs.
Proof. apply (bool_decide_unpack _). by vm_compute. Qed.

Lemma user_regs_ne r o : (r, o) ∈ user_regs -> r <> a0.
Proof.
  intros H. assert (Forall (fun x => x.1 <> a0) user_regs) as Hf
    by (apply (bool_decide_unpack _); by vm_compute).
  rewrite list.Forall_forall in Hf. exact (Hf _ H).
Qed.

Lemma trap_slots_range r o : (r, o) ∈ trap_slots -> 40 <= o <= 280.
Proof.
  intros H. assert (Forall (fun x => 40 <= x.2 <= 280) trap_slots) as Hf
    by (apply (bool_decide_unpack _); by vm_compute).
  rewrite list.Forall_forall in Hf. exact (Hf _ H).
Qed.

Section trampoline.
Context (tr : Z -> Z -> Z) (usatp tf : Z).
(** The user page table maps the page of the trapframe. *)
Hypothesis Htf : forall o, 0 <= o < PGSIZE -> tr usatp (TRAPFRAME + o) = tf + o.

Lemma tf_addr_eq m base o :
  m_x m base = TRAPFRAME -> r_satp (m_csr m) = usatp -> 0 <= o < PGSIZE -> addr tr m base o = tf + o.
Proof.
  intros Hb Hs Ho. unfold addr. rewrite Hb, Hs, u64_small; [by apply Htf|].
  change TRAPFRAME with (2 ^ 38 - 8192). unfold PGSIZE in Ho. lia.
Qed.

(** The part of [uservec] after the block of stores. *)
Definition uservec_tail : list instr :=
  [Csrr t0 Sscratch; Sd t0 112 a0;
   Ld sp 8 a0; Ld tp 32 a0; Ld t0 16 a0; Ld t1 0 a0; Csrw Satp t1; SfenceVma; Jr t0].

Lemma uservec_tail_run m :
  m_x m a0 = TRAPFRAME -> r_satp (m_csr m) = usatp -> 0 <= m_csr m Sscratch < 2 ^ 64 ->
  let M := st64 (m_mem m) (tf + 112) (m_csr m Sscratch) in
  execute tr uservec_tail m = Mach
    (setx t1 (ld64 M tf) (setx t0 (ld64 M (tf + 16)) (setx tp (ld64 M (tf + 32))
      (setx sp (ld64 M (tf + 8)) (setx t0 (m_csr m Sscratch) (m_x m))))))
    (csrw Satp (ld64 M tf) (m_csr m)) M (ld64 M (tf + 16)).
Proof.
  intros Ha0 Hsatp Hsc M.
  assert (forall o, 0 <= o < PGSIZE -> tr (m_csr m Satp) (u64 (m_x m a0 + o)) = tf + o) as Hadr.
  { intros o Ho. apply (tf_addr_eq m a0 o); done. }
  unfold execute, uservec_tail. cbn [fold_left step]. unfold addr. cbn [m_x m_csr m_mem m_pc]. unfold r_satp in *.
  rewrite !setx_ne by done. rewrite !Hadr by (unfold PGSIZE; lia). rewrite setx_eq.
  rewrite (u64_small (m_csr m Sscratch)) by done. fold M. rewrite Z.add_0_r.
  rewrite !setx_eq, !(u64_small (ld64 _ _)) by apply ld64_range.
  by rewrite setx_ne, setx_eq, u64_small by (done || apply ld64_range).
Qed.

(** [uservec]: every register is saved in its slot, and the kernel's stack
    pointer, hart id, page table and entry point are loaded. *)
Lemma uservec_run m :
  m_csr m Sscratch = TRAPFRAME -> r_satp (m_csr m) = usatp -> (forall r, 0 <= m_x m r < 2 ^ 64) ->
  let m' := execute tr uservec_code m in
  (forall r o, (r, o) ∈ trap_slots -> ld64 (m_mem m') (tf + o) = m_x m r) /\
  m_x m' sp = ld64 (m_mem m) (tf + 8) /\ m_x m' tp = ld64 (m_mem m) (tf + 32) /\
  r_satp (m_csr m') = ld64 (m_mem m) tf /\ m_pc m' = ld64 (m_mem m) (tf + 16).
Proof.
  intros Hsc Hsatp Hx. unfold uservec_code. rewrite !execute_app.
  set (m1 := execute tr [Csrrw a0 Sscratch a0] m).
  assert (m_x m1 a0 = TRAPFRAME) as Ha0.
  { simpl. rewrite setx_eq, Hsc. apply u64_small. change TRAPFRAME with (2 ^ 38 - 8192). lia. }
  assert (forall r, r <> a0 -> m_x m1 r = m_x m r) as Hx1 by (intros r Hr; simpl; by apply setx_ne).
  assert (m_csr m1 Sscratch = m_x m a0) as Hsc1.
  { simpl. unfold csrw. rewrite decide_True by done. apply u64_small, Hx. }
  assert (r_satp (m_csr m1) = usatp) as Hsatp1 by (unfold r_satp in *; simpl; unfold csrw; by rewrite decide_False).
  change (m_mem m) with (m_mem m1). clearbody m1.
  destruct (execute_save tr a0 tf user_regs m1 user_regs_ok) as (X & Cs & _ & Hin & Hout).
  { intros r o H. apply tf_addr_eq; [done..|].
    pose proof (trap_slots_range r o ltac:(by apply list_elem_of_further)). unfold PGSIZE. lia. }
  set (m2 := execute tr (save a0 user_regs) m1) in *.
  assert (forall o, o + 8 <= 40 -> ld64 (m_mem m2) (tf + o) = ld64 (m_mem m1) (tf + o)) as Hlow.
  { intros o Ho. apply Hout. intros r o' H.
    pose proof (trap_slots_range r o' ltac:(by apply list_elem_of_further)). lia. }
  rewrite <- X in Ha0, Hx1. rewrite <- Cs in Hsc1, Hsatp1. clearbody m2.
  fold uservec_tail. rewrite uservec_tail_run by (done || by rewrite Hsc1).
  rewrite Hsc1. set (M := st64 (m_mem m2) (tf + 112) (m_x m a0)).
  assert (forall o, o + 8 <= 40 -> ld64 M (tf + o) = ld64 (m_mem m1) (tf + o)) as HM.
  { intros o Ho. unfold M. rewrite ld64_st64_ne by lia. by apply Hlow. }
  cbn [m_x m_csr m_mem m_pc]. split; [|split_and!].
  - intros r o H. unfold M. apply elem_of_cons in H as [[= -> ->]|H].
    + rewrite ld64_st64_eq. apply u64_small, Hx.
    + pose proof (user_regs_ne r o H) as Hr.
      rewrite ld64_st64_ne.
      * rewrite (Hin r o H), <- X, Hx1 by done. apply u64_small, Hx.
      * destruct (slots_apart trap_slots r o a0 112 trap_slots_ok) as [?|?];
          [by apply list_elem_of_further|apply list_elem_of_here|done|lia|lia].
  - rewrite !setx_ne, setx_eq by done. rewrite u64_small by apply ld64_range. apply HM. lia.
  - rewrite !setx_ne, setx_eq by done. rewrite u64_small by apply ld64_range. apply HM. lia.
  - unfold r_satp, csrw. rewrite decide_True by done. rewrite u64_small by apply ld64_range.
    replace tf with (tf + 0) by lia. apply HM. lia.
  - apply HM. lia.
Qed.

(** [userret]: every register is loaded from its slot. *)
Lemma userret_run m :
  m_x m a0 = TRAPFRAME -> m_x m a1 = usatp -> 0 <= usatp < 2 ^ 64 ->
  let m' := execute tr userret_code m in
  (forall r o, (r, o) ∈ trap_slots -> m_x m' r = ld64 (m_mem m) (tf + o)) /\
  m_csr m' Sscratch = TRAPFRAME /\ r_satp (m_csr m') = usatp /\ m_pc m' = r_sepc (m_csr m) /\
  m_mem m' = m_mem m.
Proof.
  intros Ha0 Ha1 Hu. unfold userret_code. rewrite !execute_app.
  set (m1 := execute tr [Csrw Satp a1; SfenceVma; Ld t0 112 a0; Csrw Sscratch t0] m).
  assert (m1 = Mach (setx t0 (ld64 (m_mem m) (tf + 112)) (m_x m))
    (csrw Sscratch (ld64 (m_mem m) (tf + 112)) (csrw Satp usatp (m_csr m))) (m_mem m) (m_pc m)) as Em1.
  { unfold m1, execute. cbn [fold_left step]. cbn [m_x m_csr m_mem m_pc]. rewrite Ha1.
    rewrite (tf_addr_eq _ a0 112); [|done| |unfold PGSIZE; lia].
    - by rewrite setx_eq, u64_small by apply ld64_range.
    - unfold r_satp, csrw. simpl. by apply u64_small. }
  assert (m_x m1 a0 = TRAPFRAME) as Ha by (by rewrite Em1).
  assert (r_satp (m_csr m1) = usatp) as Hs.
  { rewrite Em1. unfold r_satp, csrw. simpl. by apply u64_small. }
  destruct (execute_restore tr a0 tf user_regs m1) as (Me & Cs & P & Hin & Hout).
  - apply user_regs_ok.
  - intros r o H. apply tf_addr_eq; [done..|].
    pose proof (trap_slots_range r o ltac:(by apply list_elem_of_further)). unfold PGSIZE. lia.
  - intros o H. by apply user_regs_ne in H.
  - set (m2 := execute tr (restore a0 user_regs) m1) in *. unfold execute. cbn [fold_left step].
    cbn [m_x m_csr m_mem m_pc].
    assert (m_csr m2 Sscratch = ld64 (m_mem m) (tf + 112)) as Hsc.
    { rewrite Cs, Em1. simpl. unfold csrw. rewrite decide_True by done. apply u64_small, ld64_range. }
    assert (m_x m2 a0 = TRAPFRAME) as Ha2.
    { rewrite Hout; [done|]. intros H. apply list_elem_of_fmap in H as ([r o] & E & H).
      simpl in E. subst r. by apply user_regs_ne in H. }
    split_and!.
    + intros r o H. apply elem_of_cons in H as [[= -> ->]|H].
      * rewrite setx_eq, Hsc. apply u64_small, ld64_range.
      * pose proof (user_regs_ne r o H) as Hr.
        rewrite setx_ne, (Hin r o H), Em1 by done. apply u64_small, ld64_range.
    + unfold csrw. rewrite decide_True by done. rewrite Ha2. apply u64_small.
      change TRAPFRAME with (2 ^ 38 - 8192). lia.
    + unfold r_satp, csrw. rewrite decide_False by done. by rewrite Cs.
    + unfold r_sepc, csrw. rewrite decide_False by done. rewrite Cs, Em1. done.
    + by rewrite Me, Em1.
Qed.
End trampoline.

(** *** swtch *)

Lemma context_regs_ok : slots_ok context_regs.
Proof. apply (bool_decide_unpack _). by vm_compute. Qed.

Lemma context_regs_facts r o : (r, o) ∈ context_regs -> r <> a0 /\ r <> a1 /\ 0 <= o /\ o + 8 <= 112.
Proof.
  intros H. assert (Forall (fun x => x.1 <> a0 /\ x.1 <> a1 /\ 0 <= x.2 /\ x.2 + 8 <= 112) context_regs) as Hf
    by (apply (bool_decide_unpack _); by vm_compute).
  rewrite list.Forall_forall in Hf. exact (Hf _ H).
Qed.

(** A context of 112 bytes that the current page table maps to itself. *)
Definition mapped_context (tr : Z -> Z -> Z) (m : machine) (c : Z) : Prop :=
  0 <= c /\ c + 112 <= 2 ^ 64 /\ forall o, 0 <= o < 112 -> tr (r_satp (m_csr m)) (c + o) = c + o.

Definition apart (c c' n : Z) : Prop := c + n <= c' \/ c' + n <= c.

Lemma context_addr tr m base c o :
  m_x m base = c -> mapped_context tr m c -> 0 <= o < 112 -> addr tr m base o = c + o.
Proof.
  intros Hb (H0 & H1 & H) Ho. unfold addr. rewrite Hb, u64_small by lia. by apply H.
Qed.

(** One call of [swtch]. *)
Lemma swtch_run tr m old new :
  m_x m a0 = old -> m_x m a1 = new -> mapped_context tr m old -> mapped_context tr m new ->
  apart old new 112 -> (forall r, 0 <= m_x m r < 2 ^ 64) ->
  let m' := execute tr swtch_code m in
  (forall r o, (r, o) ∈ context_regs -> ld64 (m_mem m') (old + o) = m_x m r) /\
  (forall r o, (r, o) ∈ context_regs -> m_x m' r = ld64 (m_mem m) (new + o)) /\
  m_pc m' = ld64 (m_mem m) new /\ m_csr m' = m_csr m.
Proof.
  intros Ha0 Ha1 Ho Hn Hap Hx. unfold swtch_code. rewrite !execute_app.
  destruct (execute_save tr a0 old context_regs m context_regs_ok) as (X & Cs & _ & Hin & Hout).
  { intros r o H. apply context_addr; [done..|]. apply context_regs_facts in H. lia. }
  set (m1 := execute tr (save a0 context_regs) m) in *.
  destruct (execute_restore tr a1 new context_regs m1) as (Me & Cs' & _ & Hin' & _).
  - apply context_regs_ok.
  - intros r o H. apply context_addr; [by rewrite X|by unfold mapped_context; rewrite Cs|].
    apply context_regs_facts in H. lia.
  - intros o H. by apply context_regs_facts in H as (_ & ? & _).
  - set (m2 := execute tr (restore a1 context_regs) m1) in *.
    assert (forall r o, (r, o) ∈ context_regs -> m_x m2 r = ld64 (m_mem m) (new + o)) as Hnew.
    { intros r o H. rewrite (Hin' r o H), u64_small by apply ld64_range. apply Hout.
      intros r' o' H'. apply context_regs_facts in H, H'. unfold apart in Hap. lia. }
    unfold execute. cbn [fold_left step m_x m_csr m_mem m_pc]. split_and!.
    + intros r o H. rewrite Me, (Hin r o H). by apply u64_small.
    + done.
    + rewrite (Hnew ra 0), Z.add_0_r; [done|]. apply list_elem_of_here.
    + congruence.
Qed.

(** *** kernelvec *)

Lemma kernel_regs_ok : slots_ok kernel_regs.
Proof. apply (bool_decide_unpack _). by vm_compute. Qed.

Lemma kernel_regs_range r o : (r, o) ∈ kernel_regs -> 0 <= o /\ o + 8 <= 248.
Proof.
  intros H. assert (Forall (fun x => 0 <= x.2 /\ x.2 + 8 <= 248) kernel_regs) as Hf
    by (apply (bool_decide_unpack _); by vm_compute).
  rewrite list.Forall_forall in Hf. exact (Hf _ H).
Qed.

Lemma kernel_regs_all r : exists o, (r, o) ∈ kernel_regs.
Proof.
  assert (r ∈ kernel_regs.*1) as H by (destruct r; apply (bool_decide_unpack _); vm_compute; done).
  apply list_elem_of_fmap in H as ([r' o] & -> & H). by exists o.
Qed.

Lemma kernelvec_enter_run tr m :
  256 <= m_x m sp < 2 ^ 64 -> (forall r, 0 <= m_x m r < 2 ^ 64) ->
  (forall a, m_x m sp - 256 <= a < m_x m sp -> tr (r_satp (m_csr m)) a = a) ->
  let m' := execute tr kernelvec_enter m in
  m_x m' sp = m_x m sp - 256 /\ m_csr m' = m_csr m /\
  forall r o, (r, o) ∈ kernel_regs -> ld64 (m_mem m') (m_x m sp - 256 + o) = m_x m' r /\
    (r <> sp -> m_x m' r = m_x m r).
Proof.
  intros Hsp Hx Hid. unfold kernelvec_enter.
  change (execute tr (Addi sp sp (-256) :: ?l) m) with (execute tr l (step tr (Addi sp sp (-256)) m)).
  set (m1 := step tr (Addi sp sp (-256)) m).
  assert (m_x m1 sp = m_x m sp - 256) as Esp by (simpl; rewrite setx_eq; apply u64_small; lia).
  assert (forall r, 0 <= m_x m1 r < 2 ^ 64) as Hx1.
  { intros r. destruct (decide (r = sp)) as [->|Hr]; [lia|]. simpl. by rewrite setx_ne. }
  destruct (execute_save tr sp (m_x m sp - 256) kernel_regs m1 kernel_regs_ok) as (X & Cs & _ & Hin & _).
  { intros r o H. apply kernel_regs_range in H. unfold addr. rewrite Esp, u64_small by lia. apply Hid. lia. }
  split_and!; [congruence|done|]. intros r o H. split.
  - rewrite (Hin r o H), X. apply u64_small, Hx1.
  - intros Hr. rewrite X. simpl. by apply setx_ne.
Qed.

Lemma kernelvec_leave_run tr m b :
  m_x m sp = b -> 0 <= b -> b + 256 < 2 ^ 64 -> (forall a, b <= a < b + 256 -> tr (r_satp (m_csr m)) a = a) ->
  ld64 (m_mem m) (b + 8) = b ->
  let m' := execute tr kernelvec_leave m in
  m_x m' sp = b + 256 /\ m_x m' tp = m_x m tp /\ m_pc m' = r_sepc (m_csr m) /\
  forall r o, (r, o) ∈ kernel_regs -> r <> sp -> r <> tp -> m_x m' r = ld64 (m_mem m) (b + o).
Proof.
  intros Hsp H0 H1 Hid H8. unfold kernelvec_leave. rewrite execute_app.
  set (l := filter _ _).
  assert (forall r o, (r, o) ∈ l <-> (r, o) ∈ kernel_regs /\ r <> tp) as Hl.
  { intros r o. unfold l. rewrite list_elem_of_filter. tauto. }
  destruct (execute_restore tr sp b l m) as (_ & Cs & _ & Hin & Hout).
  - apply (bool_decide_unpack _). by vm_compute.
  - intros r o H. apply Hl in H as [H _]. apply kernel_regs_range in H. unfold addr.
    rewrite Hsp, u64_small by lia. apply Hid. lia.
  - intros o H. assert (o = 8) as ->.
    { apply Hl in H as [H _]. assert (Forall (fun x => x.1 = sp -> x.2 = 8) kernel_regs) as Hf
        by (apply (bool_decide_unpack _); by vm_compute).
      rewrite list.Forall_forall in Hf. by apply (Hf _ H). }
    rewrite H8, u64_small; [done|lia].
  - set (m1 := execute tr (restore sp l) m) in *. unfold execute. cbn [fold_left step m_x m_csr m_mem m_pc].
    split_and!.
    + rewrite setx_eq, (Hin sp 8), H8 by (apply Hl; split; [apply (bool_decide_unpack _); by vm_compute|done]).
      rewrite (u64_small b), u64_small; lia.
    + rewrite setx_ne by done. apply Hout. apply (bool_decide_unpack _). by vm_compute.
    + by rewrite Cs.
    + intros r o H Hr1 Hr2. rewrite setx_ne, (Hin r o) by (done || by apply Hl). apply u64_small, ld64_range.
Qed.

(** *** entry *)

(** The boot stack of hart [h] grows down from the end of its 4096 bytes. *)
Lemma entry_stack tr stack0 m h :
  m_csr m Mhartid = h -> 0 <= h < 8 -> 0 <= stack0 -> stack0 + 4096 * 8 < 2 ^ 64 ->
  m_x (execute tr (entry_code stack0) m) sp = stack0 + 4096 * (h + 1).
Proof.
  intros Hh Hr H0 H1. unfold execute, entry_code. cbn [fold_left step m_x m_csr m_mem m_pc].
  repeat (rewrite setx_eq || rewrite setx_ne by done). rewrite Hh.
  rewrite (u64_small h), (u64_small (h + 1)), (u64_small stack0) by lia.
  change (u64 (1024 * 4)) with 4096. rewrite (u64_small (4096 * _)), u64_small by lia. done.
Qed.

(** *** timervec *)

(** The scratch area of 40 bytes at [s] and the timer's compare register are
    directly accessible and do not overlap. *)
Definition timer_area (tr : Z -> Z -> Z) (m : machine) (s cmp : Z) : Prop :=
  0 <= s /\ s + 40 <= 2 ^ 64 /\ 0 <= cmp < 2 ^ 64 /\ (cmp + 8 <= s \/ s + 40 <= cmp) /\
  (forall o, 0 <= o < 40 -> tr (r_satp (m_csr m)) (s + o) = s + o) /\ tr (r_satp (m_csr m)) cmp = cmp.

Lemma timervec_save tr x c M pc s cmp :
  timer_area tr (Mach x c M pc) s cmp -> c Mscratch = s -> (forall r, 0 <= x r < 2 ^ 64) ->
  execute tr [Csrrw a0 Mscratch a0; Sd a1 0 a0; Sd a2 8 a0; Sd a3 16 a0] (Mach x c M pc) =
  Mach (setx a0 s x) (csrw Mscratch (x a0) c)
    (st64 (st64 (st64 M s (x a1)) (s + 8) (x a2)) (s + 16) (x a3)) pc.
Proof.
  intros (H0 & H1 & H2 & Hap & Hid & Hidc) Hs Hx. unfold execute. cbn [fold_left step]. unfold addr.
  cbn [m_x m_csr m_mem m_pc] in *. unfold r_satp in *. rewrite Hs.
  rewrite !setx_eq, !setx_ne by done. rewrite (u64_small s) by lia. rewrite !(u64_small (s + _)) by lia.
  unfold csrw at 1 2 3. rewrite !decide_False by done. rewrite !Hid by lia. by rewrite Z.add_0_r.
Qed.

Lemma timervec_bump tr x c M pc s cmp :
  timer_area tr (Mach x c M pc) s cmp -> x a0 = s -> ld64 M (s + 24) = cmp ->
  exists x' : reg -> Z,
  execute tr [Ld a1 24 a0; Ld a2 32 a0; Ld a3 0 a1; Add a3 a3 a2; Sd a3 0 a1; Li a1 2; Csrw Sip a1] (Mach x c M pc) =
  Mach x' (csrw Sip 2 c) (st64 M cmp (u64 (ld64 M cmp + ld64 M (s + 32)))) pc /\
  forall r, r <> a1 -> r <> a2 -> r <> a3 -> x' r = x r.
Proof.
  intros (H0 & H1 & H2 & Hap & Hid & Hidc) Hs Hc. unfold execute. cbn [fold_left step]. unfold addr.
  cbn [m_x m_csr m_mem m_pc] in *. unfold r_satp in *.
  set (x1 := setx a1 _ x). set (x2 := setx a2 _ x1). set (x3 := setx a3 _ x2). set (x4 := setx a3 _ x3).
  assert (x1 a1 = cmp) as E1.
  { unfold x1. rewrite setx_eq, Hs, (u64_small (s + 24)), Hid, Hc by lia. by apply u64_small. }
  assert (x2 a1 = cmp) as E2 by (unfold x2; by rewrite setx_ne).
  assert (x4 a1 = cmp) as E4 by (unfold x4, x3; by rewrite !setx_ne).
  assert (x3 a2 = ld64 M (s + 32)) as E3.
  { unfold x3, x2, x1. rewrite setx_ne, setx_eq, setx_ne, Hs by done.
    rewrite (u64_small (s + 32)), Hid by lia. apply u64_small, ld64_range. }
  assert (x3 a3 = ld64 M cmp) as E3'.
  { unfold x3. by rewrite setx_eq, E2, Z.add_0_r, (u64_small cmp), Hidc, u64_small by (done || apply ld64_range). }
  assert (x4 a3 = u64 (ld64 M cmp + ld64 M (s + 32))) as E4'.
  { unfold x4. by rewrite setx_eq, E3, E3'. }
  exists (setx a1 2 x4). split.
  - by rewrite setx_eq, E4, E4', Z.add_0_r, (u64_small cmp), Hidc by done.
  - intros r R1 R2 R3. unfold x4, x3, x2, x1. by rewrite !setx_ne.
Qed.

Lemma timervec_restore tr x c M pc s cmp :
  timer_area tr (Mach x c M pc) s cmp -> x a0 = s ->
  execute tr [Ld a3 16 a0; Ld a2 8 a0; Ld a1 0 a0; Csrrw a0 Mscratch a0; Mret] (Mach x c M pc) =
  Mach (setx a0 (c Mscratch) (setx a1 (ld64 M s) (setx a2 (ld64 M (s + 8)) (setx a3 (ld64 M (s + 16)) x))))
    (csrw Mscratch s c) M (c Mepc).
Proof.
  intros (H0 & H1 & H2 & Hap & Hid & Hidc) Hs. unfold execute. cbn [fold_left step]. unfold addr.
  cbn [m_x m_csr m_mem m_pc] in *. unfold r_satp in *.
  rewrite !setx_ne by done. rewrite Hs, !u64_small, !Hid, Z.add_0_r by lia.
  unfold csrw at 2. by rewrite decide_False.
Qed.

Lemma timervec_run tr m s cmp :
  m_csr m Mscratch = s -> ld64 (m_mem m) (s + 24) = cmp -> timer_area tr m s cmp ->
  (forall r, 0 <= m_x m r < 2 ^ 64) ->
  let m' := execute tr timervec_code m in
  (forall r, m_x m' r = m_x m r) /\ m_csr m' Mscratch = s /\ m_csr m' Sip = 2 /\
  m_pc m' = m_csr m Mepc /\
  ld64 (m_mem m') cmp = u64 (ld64 (m_mem m) cmp + ld64 (m_mem m) (s + 32)).
Proof.
  intros Hs Hc Har Hx. destruct m as [x c M pc]. cbn [m_x m_csr m_mem m_pc] in *.
  pose proof Har as (H0 & H1 & H2 & Hap & _ & _).
  set (M3 := st64 (st64 (st64 M s (x a1)) (s + 8) (x a2)) (s + 16) (x a3)).
  assert (forall a, s + 24 <= a \/ a + 8 <= s -> ld64 M3 a = ld64 M a) as HM3.
  { intros a Ha. unfold M3. by rewrite !ld64_st64_ne by lia. }
  change timervec_code with ([Csrrw a0 Mscratch a0; Sd a1 0 a0; Sd a2 8 a0; Sd a3 16 a0] ++
    [Ld a1 24 a0; Ld a2 32 a0; Ld a3 0 a1; Add a3 a3 a2; Sd a3 0 a1; Li a1 2; Csrw Sip a1] ++
    [Ld a3 16 a0; Ld a2 8 a0; Ld a1 0 a0; Csrrw a0 Mscratch a0; Mret]).
  rewrite !execute_app, (timervec_save tr x c M pc s cmp Har Hs Hx). fold M3.
  destruct (timervec_bump tr (setx a0 s x) (csrw Mscratch (x a0) c) M3 pc s cmp) as (x' & -> & Hx').
  { exact Har. }
  { rewrite setx_eq. apply u64_small. lia. }
  { rewrite HM3 by lia. done. }
  rewrite (HM3 cmp), (HM3 (s + 32)) by lia.
  set (v := u64 (ld64 M cmp + ld64 M (s + 32))). set (M4 := st64 M3 cmp v).
  assert (ld64 M4 s = x a1 /\ ld64 M4 (s + 8) = x a2 /\ ld64 M4 (s + 16) = x a3) as (L1 & L2 & L3).
  { unfold M4. rewrite !(ld64_st64_ne _ cmp) by lia. unfold M3. split_and!.
    - rewrite !ld64_st64_ne by lia. rewrite ld64_st64_eq. apply u64_small, Hx.
    - rewrite ld64_st64_ne by lia. rewrite ld64_st64_eq. apply u64_small, Hx.
    - rewrite ld64_st64_eq. apply u64_small, Hx. }
  rewrite (timervec_restore tr x' (csrw Sip 2 (csrw Mscratch (x a0) c)) M4 pc s cmp).
  - cbn [m_x m_csr m_mem m_pc]. rewrite L1, L2, L3. split_and!.
    + intros r. unfold setx at 1 2 3 4. repeat case_decide; subst; try by apply u64_small.
      * unfold csrw. simpl. rewrite (u64_small (x a0)) by done. by apply u64_small.
      * rewrite Hx' by done. by apply setx_ne.
    + unfold csrw. simpl. apply u64_small. lia.
    + done.
    + done.
    + unfold M4. rewrite ld64_st64_eq. unfold v. apply u64_small, u64_range.
  - exact Har.
  - rewrite Hx', setx_eq by done. apply u64_small. lia.
Qed.

(** ** Properties *)

(** A machine with registers [x], every control register but [sscratch],
    [mscratch] and [sepc] clear. *)
Definition sample_machine (x : reg -> Z) (mem : memory) : machine :=
  Mach x (fun c => match c with Sscratch => TRAPFRAME | Mscratch => 8192 | Sepc | Mepc => 100 | _ => 0 end) mem 0.
Definition sample_tr (satp va : Z) : Z := if decide (TRAPFRAME <= va < TRAMPOLINE) then va - TRAPFRAME + 4096 else va.
Definition sample_x (r : reg) : Z :=
  match r with a0 => 20000 | a1 => 30000 | sp => 50000 | ra => 7 | s3 => 9 | _ => 1 end.

Lemma sample_x_range r : 0 <= sample_x r < 2 ^ 64.
Proof. destruct r; simpl; lia. Qed.

(** C29: the trampoline is transparent.  When a trap from user space runs
    [uservec], the kernel continues at the entry point, on the stack, hart and
    page table that the trapframe names, and every user register is in the
    trapframe.  When [userret] later runs on any machine whose trapframe still
    holds those slots (the kernel may have set the one of [a0], the return
    value of a system call), the user program continues at [sepc] under its
    own page table, with every register as it was, [a0] from the trapframe and
    [sscratch] ready for the next trap. *)
Theorem trampoline_roundtrip tr usatp tf m mk :
  (forall o, 0 <= o < PGSIZE -> tr usatp (TRAPFRAME + o) = tf + o) ->
  m_csr m Sscratch = TRAPFRAME -> r_satp (m_csr m) = usatp -> (forall r, 0 <= m_x m r < 2 ^ 64) ->
  (forall r o, (r, o) ∈ trap_slots -> r <> a0 ->
     ld64 (m_mem mk) (tf + o) = ld64 (m_mem (execute tr uservec_code m)) (tf + o)) ->
  m_x mk a0 = TRAPFRAME -> m_x mk a1 = usatp -> 0 <= usatp < 2 ^ 64 ->
  let ms := execute tr uservec_code m in
  let mu := execute tr userret_code mk in
  (m_x ms sp = ld64 (m_mem m) (tf + 8) /\ m_x ms tp = ld64 (m_mem m) (tf + 32) /\
   r_satp (m_csr ms) = ld64 (m_mem m) tf /\ m_pc ms = ld64 (m_mem m) (tf + 16)) /\
  (forall r, r <> a0 -> m_x mu r = m_x m r) /\
  m_x mu a0 = ld64 (m_mem mk) (tf + 112) /\ ld64 (m_mem ms) (tf + 112) = m_x m a0 /\
  m_pc mu = r_sepc (m_csr mk) /\ r_satp (m_csr mu) = usatp /\ m_csr mu Sscratch = TRAPFRAME.
Proof.
  intros Htf Hsc Hsatp Hx Hkeep Ha0 Ha1 Hu ms mu.
  destruct (uservec_run tr usatp tf Htf m Hsc Hsatp Hx) as (Hsave & Hk).
  destruct (userret_run tr usatp tf Htf mk Ha0 Ha1 Hu) as (Hload & Hsc' & Hs' & Hpc & _).
  split; [exact Hk|]. split_and!.
  - intros r Hr. destruct (trap_slots_all r) as [o Ho]. unfold mu.
    rewrite (Hload r o Ho), (Hkeep r o Ho Hr). by apply Hsave.
  - apply (Hload a0 112), list_elem_of_here.
  - apply (Hsave a0 112), list_elem_of_here.
  - done.
  - done.
  - done.
Qed.

Lemma trampoline_roundtrip_witness :
  let m := sample_machine sample_x ∅ in
  let mk := sample_machine (fun r => match r with a0 => TRAPFRAME | _ => 0 end)
              (m_mem (execute sample_tr uservec_code m)) in
  m_x (execute sample_tr userret_code mk) s3 = 9 /\ m_pc (execute sample_tr userret_code mk) = 100.
Proof.
  cbv zeta. generalize (eq_refl (m_mem (execute sample_tr uservec_code (sample_machine sample_x ∅)))).
  generalize (m_mem (execute sample_tr uservec_code (sample_machine sample_x ∅))) at 1 3 4 as M. intros M HM.
  destruct (trampoline_roundtrip sample_tr 0 4096 (sample_machine sample_x ∅)
    (sample_machine (fun r => match r with a0 => TRAPFRAME | _ => 0 end) M)) as (_ & Hr & _ & _ & Hpc & _).
  - intros o Ho. unfold sample_tr. rewrite decide_True; [lia|].
    unfold TRAPFRAME. lia.
  - reflexivity.
  - reflexivity.
  - exact sample_x_range.
  - intros r o _ _. rewrite <- HM. reflexivity.
  - reflexivity.
  - reflexivity.
  - lia.
  - split; [exact (Hr s3 ltac:(done))|exact Hpc].
Defined.

(** C30: context switches nest.  [swtch(old, new)] resumes the thread saved in
    [new]: its return address, stack pointer and callee-saved registers are
    those of that context.  When another thread later calls
    [swtch(other, old)] while the context [old] is as it was left, the thread
    that called first continues after its call with all its callee-saved
    registers. *)
Theorem swtch_roundtrip tr m mk old new other :
  m_x m a0 = old -> m_x m a1 = new -> mapped_context tr m old -> mapped_context tr m new ->
  apart old new 112 -> (forall r, 0 <= m_x m r < 2 ^ 64) ->
  m_x mk a0 = other -> m_x mk a1 = old -> mapped_context tr mk other -> mapped_context tr mk old ->
  apart other old 112 -> (forall r, 0 <= m_x mk r < 2 ^ 64) ->
  (forall o, 0 <= o < 112 -> ld64 (m_mem mk) (old + o) = ld64 (m_mem (execute tr swtch_code m)) (old + o)) ->
  (forall r o, (r, o) ∈ context_regs -> m_x (execute tr swtch_code m) r = ld64 (m_mem m) (new + o)) /\
  m_pc (execute tr swtch_code m) = ld64 (m_mem m) new /\
  (forall r o, (r, o) ∈ context_regs -> m_x (execute tr swtch_code mk) r = m_x m r) /\
  m_pc (execute tr swtch_code mk) = m_x m ra.
Proof.
  intros Ha Hb Ho Hn Hap Hx Ha' Hb' Ho' Hn' Hap' Hx' Hkeep.
  destruct (swtch_run tr m old new Ha Hb Ho Hn Hap Hx) as (Hsave & Hload & Hpc & _).
  destruct (swtch_run tr mk other old Ha' Hb' Ho' Hn' Hap' Hx') as (_ & Hload' & Hpc' & _).
  split_and!; [done|done| |].
  - intros r o H. rewrite (Hload' r o H), Hkeep by (apply context_regs_facts in H; lia). by apply Hsave.
  - rewrite Hpc'. rewrite <- (Z.add_0_r old), Hkeep by lia. apply (Hsave ra 0), list_elem_of_here.
Qed.

Lemma swtch_roundtrip_witness :
  let tr := fun _ a => a in
  let m := sample_machine sample_x ∅ in
  let mk := sample_machine (fun r => match r with a0 => 30000 | a1 => 20000 | _ => 3 end)
              (m_mem (execute tr swtch_code m)) in
  m_pc (execute tr swtch_code mk) = 7.
Proof.
  cbv zeta. generalize (eq_refl (m_mem (execute (fun _ a => a) swtch_code (sample_machine sample_x ∅)))).
  generalize (m_mem (execute (fun _ a => a) swtch_code (sample_machine sample_x ∅))) at 1 3 as M. intros M HM.
  refine (proj2 (proj2 (proj2 (swtch_roundtrip (fun _ a => a) (sample_machine sample_x ∅)
    (sample_machine (fun r => match r with a0 => 30000 | a1 => 20000 | _ => 3 end) M)
    20000 30000 30000 eq_refl eq_refl _ _ _ sample_x_range eq_refl eq_refl _ _ _ _ _)))).
  1, 2, 4, 5: unfold mapped_context; split_and!; [lia..|reflexivity].
  1, 2: unfold apart; lia.
  - intros r. destruct r; simpl; lia.
  - intros o _. rewrite <- HM. reflexivity.
Defined.

(** A timer interrupt in machine mode is invisible to the interrupted
    code.  [timervec] returns to the interrupted instruction with every
    register unchanged, advances the hart's compare register by the interval
    stored in the scratch area, raises a supervisor software interrupt and
    leaves [mscratch] ready for the next one. *)
Theorem timervec_transparent tr m s cmp :
  m_csr m Mscratch = s -> ld64 (m_mem m) (s + 24) = cmp -> timer_area tr m s cmp ->
  (forall r, 0 <= m_x m r < 2 ^ 64) ->
  let m' := execute tr timervec_code m in
  (forall r, m_x m' r = m_x m r) /\ m_csr m' Mscratch = s /\ m_csr m' Sip = 2 /\
  m_pc m' = m_csr m Mepc /\
  ld64 (m_mem m') cmp = u64 (ld64 (m_mem m) cmp + ld64 (m_mem m) (s + 32)).
Proof. apply timervec_run. Qed.

Lemma timervec_transparent_witness :
  let m := sample_machine sample_x (st64 (st64 (st64 ∅ 8216 9000) 8224 1000000) 9000 5) in
  ld64 (m_mem (execute (fun _ a => a) timervec_code m)) 9000 = 1000005.
Proof.
  intros m. destruct (timervec_transparent (fun _ a => a) m 8192 9000) as (_ & _ & _ & _ & H).
  - done.
  - by vm_compute.
  - unfold timer_area. split_and!; try lia; done.
  - exact sample_x_range.
  - rewrite H. by vm_compute.
Defined.

(** C40: a trap taken in the kernel is transparent.  [kernelvec] pushes the
    registers; if [kerneltrap] returns with the stack pointer and that stack
    frame as they were, the interrupted code continues at [sepc] with every
    register unchanged but [tp], which names the hart it now runs on. *)
Theorem kernelvec_transparent tr m mk :
  256 <= m_x m sp -> (forall r, 0 <= m_x m r < 2 ^ 64) ->
  (forall a, m_x m sp - 256 <= a < m_x m sp -> tr (r_satp (m_csr m)) a = a /\ tr (r_satp (m_csr mk)) a = a) ->
  m_x mk sp = m_x (execute tr kernelvec_enter m) sp ->
  (forall o, 0 <= o < 248 -> ld64 (m_mem mk) (m_x mk sp + o) = ld64 (m_mem (execute tr kernelvec_enter m)) (m_x mk sp + o)) ->
  let m' := execute tr kernelvec_leave mk in
  (forall r, r <> tp -> m_x m' r = m_x m r) /\ m_x m' tp = m_x mk tp /\ m_pc m' = r_sepc (m_csr mk).
Proof.
  intros Hsp Hx Hid Hk Hkeep m'. pose proof (Hx sp) as Hs.
  destruct (kernelvec_enter_run tr m) as (Esp & _ & Hin); [lia|done|intros a Ha; by apply Hid|].
  rewrite Esp in Hk. rewrite Hk in Hkeep.
  destruct (kernelvec_leave_run tr mk (m_x m sp - 256)) as (Lsp & Ltp & Lpc & Lr); [done|lia|lia| | |].
  - intros a Ha. apply Hid. lia.
  - rewrite Hkeep by lia. rewrite <- Esp at 2. apply (Hin sp 8), (bool_decide_unpack _). by vm_compute.
  - fold m' in Lsp, Ltp, Lpc, Lr. split_and!; [|done|done]. intros r Hr.
    destruct (decide (r = sp)) as [->|Hrs]; [rewrite Lsp; lia|].
    destruct (kernel_regs_all r) as [o Ho]. rewrite (Lr r o Ho Hrs Hr).
    rewrite Hkeep by (apply kernel_regs_range in Ho; lia).
    destruct (Hin r o Ho) as [E1 E2]. rewrite E1. by apply E2.
Qed.

Lemma kernelvec_transparent_witness :
  let tr := fun _ a => a in
  let m := sample_machine sample_x ∅ in
  let mk := sample_machine (fun r => match r with sp => 49744 | _ => 3 end) (m_mem (execute tr kernelvec_enter m)) in
  m_x (execute tr kernelvec_leave mk) s3 = 9.
Proof.
  cbv zeta. generalize (eq_refl (m_mem (execute (fun _ a => a) kernelvec_enter (sample_machine sample_x ∅)))).
  generalize (m_mem (execute (fun _ a => a) kernelvec_enter (sample_machine sample_x ∅))) at 1 3 as M. intros M HM.
  refine (proj1 (kernelvec_transparent (fun _ a => a) (sample_machine sample_x ∅)
    (sample_machine (fun r => match r with sp => 49744 | _ => 3 end) M) _ sample_x_range _ _ _) s3 _).
  - simpl. lia.
  - done.
  - reflexivity.
  - intros o Ho. rewrite <- HM. reflexivity.
  - done.
Defined.
