(* ===== verification/Entry.v ===== *)
(** * Entering and leaving user space

    [usertrapret] of trap.c and the two halves of the trampoline, composed:
    the C code prepares registers and trapframe, [userret] loads the user's
    registers from it, and the next trap runs [uservec], which comes back to
    [usertrap] with what [usertrapret] left. *)

From Stdlib Require Import ZArith Lia.
From stdpp Require Import base gmap list strings numbers.
From S2P Require Import Prelude Riscv State Sched Vm Proc Trap Asm.

(** ** Definitions *)

(** The machine at the jump that ends [usertrapret]: the first two arguments
    are in [a0] and [a1]. *)
Definition jump_machine (x : reg -> Z) (r : Z * Z * Z) (k : kernel) : machine :=
  let '(fn, v0, v1) := r in Mach (setx a1 v1 (setx a0 v0 x)) (k_csr k) (k_mem k) fn.

(** What a user program cannot change between its return to user space and
    its next trap: [sscratch], [satp], and the kernel's words in the
    trapframe, which its page table maps without [PTE_U]. *)
Definition user_ran (tf : Z) (m m' : machine) : Prop :=
  m_csr m' Sscratch = m_csr m Sscratch /\ r_satp (m_csr m') = r_satp (m_csr m) /\
  (forall o, 0 <= o <= 32 -> ld64 (m_mem m') (tf + o) = ld64 (m_mem m) (tf + o)) /\
  (forall r, 0 <= m_x m' r < 2 ^ 64).

(** ** Lemmas *)

Section entry.
Context `{L : Layout}.

(** The words of the trapframe after [usertrapret]. *)
Lemma user_trapframe_words tf satp stack hart m :
  let m' := user_trapframe tf satp stack hart m in
  ld64 m' tf = u64 satp /\ ld64 m' (tf + 8) = u64 (stack + PGSIZE) /\
  ld64 m' (tf + 16) = u64 usertrap_addr /\ ld64 m' (tf + 32) = u64 hart /\
  ld64 m' (tf + 24) = ld64 m (tf + 24) /\
  forall o, 40 <= o -> ld64 m' (tf + o) = ld64 m (tf + o).
Proof.
  unfold user_trapframe, tf_kernel_satp, tf_kernel_sp, tf_kernel_trap, tf_kernel_hartid. split_and!.
  - rewrite !(ld64_st64_ne _ _ tf) by lia. rewrite Z.add_0_r. apply ld64_st64_eq.
  - rewrite !(ld64_st64_ne _ _ (tf + 8)) by lia. apply ld64_st64_eq.
  - rewrite ld64_st64_ne by lia. apply ld64_st64_eq.
  - apply ld64_st64_eq.
  - by rewrite !ld64_st64_ne by lia.
  - intros o Ho. by rewrite !ld64_st64_ne by lia.
Qed.

(** [sret] will go to user mode with interrupts on, and they are off until then. *)
Lemma user_csrs_mode epc c :
  let c' := user_csrs epc c in
  Z.land (r_sstatus c') SSTATUS_SPP = 0 /\ Z.land (r_sstatus c') SSTATUS_SPIE = SSTATUS_SPIE /\
  intr_get c' = false /\ c' Stvec = u64 (TRAMPOLINE + (uservec - trampoline)) /\ c' Sepc = u64 epc.
Proof.
  cbv zeta. cut (Z.land (r_sstatus (user_csrs epc c)) SSTATUS_SPP = 0 /\
    Z.land (r_sstatus (user_csrs epc c)) SSTATUS_SPIE = SSTATUS_SPIE /\ intr_get (user_csrs epc c) = false).
  { intros (H1 & H2 & H3). split_and!; done. }
  assert (r_sstatus (user_csrs epc c) =
    u64 (Z.lor (Z.land (u64 (Z.land (r_sstatus c) (Z.lnot SSTATUS_SIE))) (Z.lnot SSTATUS_SPP)) SSTATUS_SPIE)) as E
    by reflexivity.
  unfold intr_get. rewrite E. unfold u64. rewrite <- !Z.land_ones by lia.
  assert (forall x, Z.land (Z.land (Z.lor (Z.land (Z.land (Z.land (r_sstatus c) (Z.lnot SSTATUS_SIE)) (Z.ones 64))
    (Z.lnot SSTATUS_SPP)) SSTATUS_SPIE) (Z.ones 64)) x =
    Z.lor (Z.land (r_sstatus c) (Z.land (Z.land (Z.land (Z.lnot SSTATUS_SIE) (Z.lnot SSTATUS_SPP)) (Z.ones 64)) x))
      (Z.land SSTATUS_SPIE x)) as Hx.
  { intros x. apply Z.bits_inj'. intros n Hn. rewrite !Z.land_spec, !Z.lor_spec, !Z.land_spec.
    destruct (decide (n < 64)) as [H|H].
    - rewrite Z.ones_spec_low by lia. by destruct (Z.testbit (r_sstatus c) n), (Z.testbit (Z.lnot SSTATUS_SIE) n),
        (Z.testbit (Z.lnot SSTATUS_SPP) n), (Z.testbit SSTATUS_SPIE n), (Z.testbit x n).
    - rewrite Z.ones_spec_high by lia.
      assert (Z.testbit SSTATUS_SPIE n = false) as ->
        by (apply Z.bits_above_log2; [done|change (Z.log2 SSTATUS_SPIE) with 5; lia]).
      by rewrite !andb_false_r. }
  rewrite !Hx.
  change (Z.land (Z.land (Z.land (Z.lnot SSTATUS_SIE) (Z.lnot SSTATUS_SPP)) (Z.ones 64)) SSTATUS_SPP) with 0.
  change (Z.land (Z.land (Z.land (Z.lnot SSTATUS_SIE) (Z.lnot SSTATUS_SPP)) (Z.ones 64)) SSTATUS_SIE) with 0.
  change (Z.land (Z.land (Z.land (Z.lnot SSTATUS_SIE) (Z.lnot SSTATUS_SPP)) (Z.ones 64)) SSTATUS_SPIE)
    with SSTATUS_SPIE.
  rewrite !Z.land_0_r, Z.land_diag. split_and!; [done| |done].
  apply Z.bits_inj'. intros n Hn. rewrite Z.lor_spec, Z.land_spec. by destruct (Z.testbit (r_sstatus c) n), (Z.testbit SSTATUS_SPIE n).
Qed.

End entry.

(** ** Properties *)

(** C16: a process enters user space and comes back.  [usertrapret] of the
    current process, followed by [userret], continues the user program at the
    pc and with the registers its trapframe holds, under its page table, in
    user mode with interrupts on and traps directed to the trampoline.  At the
    next trap, whatever the program did, [uservec] enters [usertrap] on the
    process's kernel stack, with the kernel's page table and hart id that
    [usertrapret] saved, and with every user register in the trapframe. *)
Theorem user_space_and_back `{L : Layout} tr x k e p pr :
  k_cur k = Some p -> k_procs k !! p = Some pr -> p_trapframe pr <> 0 ->
  let tf := p_trapframe pr in
  let usatp := u64 (MAKE_SATP (p_pagetable pr)) in
  (forall o, 0 <= o < PGSIZE -> tr usatp (TRAPFRAME + o) = tf + o) ->
  exists r k', usertrapret (W k e) = Ret r (W k' e) /\ k_procs k' = k_procs k /\
    let mu := execute tr userret_code (jump_machine x r k') in
    (m_pc mu = ld64 (k_mem k) (tf + tf_epc) /\ r_satp (m_csr mu) = usatp /\
     (forall r o, (r, o) ∈ trap_slots -> m_x mu r = ld64 (k_mem k) (tf + o)) /\
     Z.land (r_sstatus (k_csr k')) SSTATUS_SPP = 0 /\
     Z.land (r_sstatus (k_csr k')) SSTATUS_SPIE = SSTATUS_SPIE /\ intr_get (k_csr k') = false /\
     k_csr k' Stvec = u64 (TRAMPOLINE + (uservec - trampoline))) /\
    forall m, user_ran tf mu m ->
      let ms := execute tr uservec_code m in
      m_pc ms = u64 usertrap_addr /\ m_x ms sp = u64 (p_kstack pr + PGSIZE) /\
      r_satp (m_csr ms) = u64 (r_satp (k_csr k)) /\ m_x ms tp = u64 (r_tp (k_csr k)) /\
      forall r o, (r, o) ∈ trap_slots -> ld64 (m_mem ms) (tf + o) = m_x m r.
Proof.
  intros Hc Hp Ht tf usatp Htr. eexists _, _. split; [exact (usertrapret_eq k e p pr Hc Hp Ht)|].
  split; [done|]. fold tf.
  destruct (user_trapframe_words tf (r_satp (k_csr k)) (p_kstack pr) (r_tp (k_csr k)) (k_mem k))
    as (W0 & W8 & W16 & W32 & W24 & Wo).
  set (mem := user_trapframe _ _ _ _ _) in *. unfold tf_epc. rewrite W24.
  destruct (user_csrs_mode (ld64 (k_mem k) (tf + 24)) (k_csr k)) as (M1 & M2 & M3 & M4 & M5).
  set (cs := user_csrs _ _) in *. set (mk := jump_machine _ _ _).
  assert (m_mem mk = mem) as Em by reflexivity. assert (m_csr mk = cs) as Ec by reflexivity.
  assert (m_x mk a0 = TRAPFRAME) as Ea0.
  { change (m_x mk a0) with (u64 TRAPFRAME). apply u64_small. change TRAPFRAME with (2 ^ 38 - 8192). lia. }
  assert (m_x mk a1 = usatp) as Ea1 by reflexivity. clearbody mk.
  destruct (userret_run tr usatp tf Htr mk Ea0 Ea1 (u64_range _)) as (Hr & Hsc & Hsatp & Hpc & Hmem).
  set (mu := execute tr userret_code mk) in *. rewrite Em in *. split; [split_and!|]; try done.
  - rewrite Hpc, Ec. unfold r_sepc. rewrite M5. apply u64_small, ld64_range.
  - intros r o H. rewrite (Hr r o H). apply Wo. apply trap_slots_range in H. lia.
  - intros m (U1 & U2 & U3 & U4). rewrite Hmem in U3.
    destruct (uservec_run tr usatp tf Htr m) as (Hs & S1 & S2 & S3 & S4); [congruence|congruence|done|].
    pose proof (U3 0 ltac:(lia)) as U0. rewrite Z.add_0_r in U0.
    split_and!; [by rewrite S4, U3 by lia|by rewrite S1, U3 by lia|by rewrite S3, U0|by rewrite S2, U3 by lia|done].
Qed.

(** Process 1 runs; its trapframe is at 4096. *)
Definition entry_proc : proc := set_p_kstack 73728 (set_p_trapframe 4096 (set_p_pagetable 8192 proc0)).
Definition entry_kernel : kernel :=
  set_k_cur (Some 1%nat) (set_k_procs (<[1%nat := entry_proc]> (k_procs kernel0)) kernel0).

Lemma user_space_and_back_witness :
  exists r k', @usertrapret sample_layout (W entry_kernel []) = Ret r (W k' []) /\
    m_pc (execute sample_tr userret_code (jump_machine sample_x r k')) = ld64 (k_mem entry_kernel) 4120.
Proof.
  destruct (@user_space_and_back sample_layout sample_tr sample_x entry_kernel [] 1 entry_proc)
    as (r & k' & Hrun & _ & (Hpc & _) & _).
  - done.
  - done.
  - done.
  - intros o Ho. unfold sample_tr. rewrite decide_True; [simpl; lia|]. unfold TRAPFRAME. lia.
  - exists r, k'. split; [exact Hrun|exact Hpc].
Defined.
