(* ===== verification/User.v ===== *)
(** * The user library: ulib.c and printf.c of user/

    User programs run in the monad of the kernel's code over a state of the
    caller's choice: what the program does to it, it does through the system
    calls of [Sys].  [StreamIo] states what the programs that copy or filter
    text rely on of [read] and [write]; [stream_sys] is a system that
    behaves so, and the one that the examples run on.

    The string routines take the characters found from a pointer on as a
    list, as those of Klib do. *)

From Stdlib Require Import ZArith Lia.
From stdpp Require Import base gmap list strings numbers.
From S2P Require Import Prelude Riscv State Klib Uart.

(** ** System calls *)

(** The system calls of user.h that the programs use.  A call that fills a
    buffer of the caller returns the bytes it stored; strings and buffers are
    passed as the bytes they hold. *)
Class Sys (St : Type) := {
  u_exit : forall A, Z -> M St A;
  u_fork : M St Z;
  u_wait : M St Z;
  u_read : Z -> Z -> M St (Z * list Z);
  u_write : Z -> list Z -> M St Z;
  u_close : Z -> M St Z;
  u_kill : Z -> M St Z;
  u_exec : list Z -> list (list Z) -> M St Z;
  u_open : list Z -> Z -> M St Z;
  u_mknod : list Z -> Z -> Z -> M St Z;
  u_unlink : list Z -> M St Z;
  u_fstat : Z -> M St (Z * list Z);
  u_link : list Z -> list Z -> M St Z;
  u_mkdir : list Z -> M St Z;
  u_dup : Z -> M St Z;
  u_pipe : M St (Z * (Z * Z));
  u_chdir : list Z -> M St Z;
}.
Arguments u_exit {St _ A}.

(** ** ulib.c *)

(** The bytes [strcpy] stores, with the NUL. *)
Fixpoint u_strcpy (t : list Z) : list Z :=
  match t with
  | [] => [0]
  | c :: t' => if c =? 0 then [0] else c :: u_strcpy t'
  end.

Fixpoint u_strcmp (p q : list Z) : Z :=
  let b := default 0 (head q) in
  match p with
  | [] => 0 - u8 b
  | a :: p' => if negb (a =? 0) && (a =? b) then u_strcmp p' (tail q) else u8 a - u8 b
  end.

Fixpoint u_strlen (s : list Z) : Z :=
  match s with
  | [] => 0
  | c :: s' => if c =? 0 then 0 else 1 + u_strlen s'
  end.

Fixpoint u_memset_loop (m : memory) (cdst c : Z) (n : nat) : memory :=
  match n with
  | O => m
  | S n' => u_memset_loop (<[cdst := u8 c]> m) (cdst + 1) c n'
  end.

Definition u_memset (m : memory) (dst c n : Z) : memory := u_memset_loop m dst c (Z.to_nat (u32 n)).

(** The offset from [s] of the character found. *)
Fixpoint u_strchr (s : list Z) (c : Z) : option Z :=
  match s with
  | [] => None
  | a :: s' =>
      if a =? 0 then None
      else if a =? c then Some 0
      else match u_strchr s' c with Some i => Some (i + 1) | None => None end
  end.

(** [n] is an [int]: nothing is copied when it is negative. *)
Definition u_memmove (m : memory) (vdst vsrc n : Z) : memory :=
  let k := Z.to_nat (s32 n) in
  if vdst <? vsrc then copy_up m vdst vsrc k
  else copy_down m (vdst + s32 n) (vsrc + s32 n) k.

Definition u_memcpy (m : memory) (dst src n : Z) : memory := u_memmove m dst src n.

Fixpoint u_memcmp_loop (n : nat) (p1 p2 : list Z) : Z :=
  match n with
  | O => 0
  | S n' =>
      let a := default 0 (head p1) in
      let b := default 0 (head p2) in
      if negb (a =? b) then a - b else u_memcmp_loop n' (tail p1) (tail p2)
  end.

Definition u_memcmp (s1 s2 : list Z) (n : Z) : Z := u_memcmp_loop (Z.to_nat (u32 n)) s1 s2.

Definition is_digit (c : Z) : bool := (chr "0" <=? c) && (c <=? chr "9").

Fixpoint u_atoi_loop (s : list Z) (n : Z) : Z :=
  match s with
  | [] => n
  | c :: s' => if is_digit c then u_atoi_loop s' (s32 (n * 10 + c - chr "0")) else n
  end.

Definition u_atoi (s : list Z) : Z := u_atoi_loop s 0.

Section ulib.
Context {St : Type} `{S : Sys St}.

(** The loop of [gets]: at most [n] more characters; the bytes stored. *)
Fixpoint u_gets_loop (n : nat) : M St (list Z) :=
  match n with
  | O => ret [0]
  | Datatypes.S n' =>
      let* r := u_read 0 1 in
      if fst r <? 1 then ret [0] else
      let c := default 0 (head (snd r)) in
      if (c =? 10) || (c =? 13) then ret [c; 0] else
      let* l := u_gets_loop n' in
      ret (c :: l)
  end.

Definition u_gets (max : Z) : M St (list Z) := u_gets_loop (Z.to_nat (max - 1)).

Definition u_stat (n : list Z) : M St (Z * list Z) :=
  let* fd := u_open n O_RDONLY in
  if fd <? 0 then ret (-1, []) else
  let* r := u_fstat fd in
  let* _ := u_close fd in
  ret r.

(** ** printf.c *)

Definition u_putc (fd c : Z) : M St unit :=
  let* _ := u_write fd [u8 c] in ret tt.

Fixpoint u_put_all (fd : Z) (l : list Z) : M St unit :=
  match l with
  | [] => ret tt
  | c :: l' => u_putc fd c ;;; u_put_all fd l'
  end.
End ulib.

Definition u_digits : list Z := cstr "0123456789ABCDEF".

(** The contents of [buf] when [printint] starts to print, [buf[0]] first. *)
Definition u_printint_buf (xx base sgn : Z) : option (list Z) :=
  let neg := truth sgn && (s32 xx <? 0) in
  let x := if neg then u32 (- s32 xx) else u32 xx in
  match digit_loop u_digits 16 x base with
  | None => None
  | Some l =>
      if neg then (if Nat.ltb (length l) 16 then Some (l ++ [chr "-"]) else None) else Some l
  end.

Section printf.
Context {St : Type} `{S : Sys St}.

Definition u_printint (fd xx base sgn : Z) : M St unit :=
  match u_printint_buf xx base sgn with
  | None => fault "printint: buf overflow"
  | Some b => u_put_all fd (reverse b)
  end.

Fixpoint u_printptr_loop (fd : Z) (n : nat) (x : Z) : M St unit :=
  match n with
  | O => ret tt
  | Datatypes.S n' =>
      u_putc fd (default 0 (u_digits !! Z.to_nat (Z.shiftr x 60))) ;;;
      u_printptr_loop fd n' (u64 (Z.shiftl x 4))
  end.

Definition u_printptr (fd x : Z) : M St unit :=
  u_putc fd (chr "0") ;;; u_putc fd (chr "x") ;;; u_printptr_loop fd 16 (u64 x).

(** [va_arg] for a number and for a string. *)
Definition arg_int (args : list parg) : M St (Z * list parg) :=
  match args with PInt z :: args' => ret (z, args') | _ => fault "va_arg" end.
Definition arg_str (args : list parg) : M St (option (list Z) * list parg) :=
  match args with PStr s :: args' => ret (s, args') | _ => fault "va_arg" end.

(** [pct]: [state] is ['%']. *)
Fixpoint u_vprintf_loop (fd : Z) (pct : bool) (fmt : list Z) (args : list parg) : M St unit :=
  match fmt with
  | [] => ret tt
  | c :: fmt' =>
      if c =? 0 then ret tt
      else if negb pct then
        if c =? chr "%" then u_vprintf_loop fd true fmt' args
        else u_putc fd c ;;; u_vprintf_loop fd false fmt' args
      else if c =? chr "d" then
        let* a := arg_int args in u_printint fd (fst a) 10 1 ;;; u_vprintf_loop fd false fmt' (snd a)
      else if c =? chr "l" then
        let* a := arg_int args in u_printint fd (fst a) 10 0 ;;; u_vprintf_loop fd false fmt' (snd a)
      else if c =? chr "x" then
        let* a := arg_int args in u_printint fd (fst a) 16 0 ;;; u_vprintf_loop fd false fmt' (snd a)
      else if c =? chr "p" then
        let* a := arg_int args in u_printptr fd (fst a) ;;; u_vprintf_loop fd false fmt' (snd a)
      else if c =? chr "s" then
        let* a := arg_str args in
        u_put_all fd (c_string (default (cstr "(null)") (fst a))) ;;; u_vprintf_loop fd false fmt' (snd a)
      else if c =? chr "c" then
        let* a := arg_int args in u_putc fd (fst a) ;;; u_vprintf_loop fd false fmt' (snd a)
      else if c =? chr "%" then u_putc fd c ;;; u_vprintf_loop fd false fmt' args
      else u_putc fd (chr "%") ;;; u_putc fd c ;;; u_vprintf_loop fd false fmt' args
  end.

Definition u_vprintf (fd : Z) (fmt : list Z) (args : list parg) : M St unit := u_vprintf_loop fd false fmt args.
Definition u_fprintf (fd : Z) (fmt : list Z) (args : list parg) : M St unit := u_vprintf fd fmt args.
Definition u_printf (fmt : list Z) (args : list parg) : M St unit := u_vprintf 1 fmt args.
End printf.

(** ** Streams *)

(** Reading and writing text: [pending s fd] is what is still to be read from
    [fd] before the end of the file and [sent s fd] what was written to it.
    A read may return fewer bytes than asked for, but none only at the end;
    a write takes all the bytes. *)
Class StreamIo {St : Type} (S : Sys St) := {
  pending : St -> Z -> list Z;
  sent : St -> Z -> list Z;
  io_read s fd n : 0 <= n ->
    exists b s', u_read fd n s = Ret (Z.of_nat (length b), b) s' /\
      pending s fd = b ++ pending s' fd /\ Z.of_nat (length b) <= n /\
      (0 < n -> pending s fd <> [] -> b <> []) /\
      (forall fd', fd' <> fd -> pending s' fd' = pending s fd') /\ sent s' = sent s;
  io_write s fd bs :
    exists s', u_write fd bs s = Ret (Z.of_nat (length bs)) s' /\
      sent s' fd = sent s fd ++ bs /\ pending s' = pending s /\
      (forall fd', fd' <> fd -> sent s' fd' = sent s fd');
}.

(** A system with files to read: every [read] returns what the next of the
    choices [str_sizes] says, within the bounds of a read. *)
Record streams : Type := mkStreams {
  str_in : Z -> list Z;
  str_out : Z -> list Z;
  str_sizes : list Z;
}.

Definition stream_read (fd n : Z) : M streams (Z * list Z) := fun s =>
  let want := default n (head (str_sizes s)) in
  let b := take (Z.to_nat (Z.min n (Z.max 1 want))) (str_in s fd) in
  Ret (Z.of_nat (length b), b)
    (mkStreams (fun fd' => if fd' =? fd then drop (length b) (str_in s fd) else str_in s fd')
       (str_out s) (tail (str_sizes s))).

Definition stream_write (fd : Z) (bs : list Z) : M streams Z := fun s =>
  Ret (Z.of_nat (length bs))
    (mkStreams (str_in s) (fun fd' => if fd' =? fd then str_out s fd ++ bs else str_out s fd') (str_sizes s)).

#[export] Instance stream_sys : Sys streams := {
  u_exit := fun _ _ => swtch_away;
  u_fork := ret (-1);
  u_wait := ret (-1);
  u_read := stream_read;
  u_write := stream_write;
  u_close := fun _ => ret 0;
  u_kill := fun _ => ret (-1);
  u_exec := fun _ _ => ret (-1);
  u_open := fun _ _ => ret (-1);
  u_mknod := fun _ _ _ => ret (-1);
  u_unlink := fun _ => ret (-1);
  u_fstat := fun _ => ret (-1, []);
  u_link := fun _ _ => ret (-1);
  u_mkdir := fun _ => ret (-1);
  u_dup := fun _ => ret (-1);
  u_pipe := ret (-1, (0, 0));
  u_chdir := fun _ => ret (-1);
}.

#[export] Instance stream_io : StreamIo stream_sys.
Proof.
  refine {| pending := str_in; sent := str_out |}.
  - intros s fd n Hn. simpl. unfold stream_read. set (b := take _ (str_in s fd)). set (want := default n _) in b.
    eexists b, _. split; [reflexivity|]. simpl. rewrite Z.eqb_refl.
    split; [|split; [|split; [|split; [|done]]]].
    + unfold b. rewrite length_take. rewrite <- (take_drop (Z.to_nat (Z.min n (Z.max 1 want))) (str_in s fd)) at 1. f_equal.
      destruct (decide (Z.to_nat (Z.min n (Z.max 1 want)) <= length (str_in s fd))%nat); [f_equal; lia|].
      rewrite !drop_ge by lia. done.
    + unfold b. rewrite length_take. lia.
    + intros H0 Hne E. unfold b in E. apply (f_equal length) in E. rewrite length_take in E.
      destruct (str_in s fd); [done|]. simpl in E. lia.
    + intros fd' Hne. by rewrite (proj2 (Z.eqb_neq _ _) Hne).
  - intros s fd bs. eexists. split; [reflexivity|]. simpl. rewrite Z.eqb_refl. split; [done|]. split; [done|].
    intros fd' Hne. by rewrite (proj2 (Z.eqb_neq _ _) Hne).
Defined.

(** ** Lemmas *)

(** [memmove] copies as if through a temporary, whatever the overlap. *)
Lemma ld8_u_memmove m dst src n x :
  0 <= n < 2 ^ 31 ->
  ld8 (u_memmove m dst src n) x = if decide (dst <= x < dst + n) then ld8 m (src + (x - dst)) else ld8 m x.
Proof.
  intros Hn. unfold u_memmove. rewrite s32_small by lia. destruct (Z.ltb_spec dst src).
  - rewrite ld8_copy_up, Z2Nat.id by lia. done.
  - rewrite ld8_copy_down, Z2Nat.id by lia. replace (dst + n - n) with dst by lia.
    case_decide; [|done]. f_equal. lia.
Qed.

(** [strchr] finds the first occurrence in the string. *)
Lemma u_strchr_spec s c : c <> 0 ->
  match u_strchr s c with
  | Some i => 0 <= i /\ exists rest, s = take (Z.to_nat i) s ++ c :: rest /\ Forall (fun a => a <> c /\ a <> 0) (take (Z.to_nat i) s)
  | None => Forall (fun a => a <> c) (c_string s)
  end.
Proof.
  intros Hc. induction s as [|a s IH]; simpl; [done|].
  destruct (Z.eqb_spec a 0) as [->|H0]; [done|]. destruct (Z.eqb_spec a c) as [->|Hac].
  - split; [done|]. exists s. split; [done|]. constructor.
  - destruct (u_strchr s c) as [i|]; [|by constructor]. destruct IH as (Hi & rest & E & F).
    split; [lia|]. exists rest. rewrite Z2Nat.inj_add by lia. change (Z.to_nat 1) with 1%nat.
    rewrite Nat.add_1_r. simpl. split; [by f_equal|by constructor].
Qed.
