(* ===== verification/Grep.v ===== *)
(** * user/grep.c

    The pattern matcher, shown equal to the language a pattern denotes, and
    the loop that finds the lines of a file in the chunks [read] returns. *)

From Stdlib Require Import ZArith Lia.
From stdpp Require Import base gmap list strings numbers.
From S2P Require Import Prelude Riscv State Klib Uart User.

(** ** The matcher *)

(** [here] is [matchhere] of the rest of the pattern. *)
Fixpoint matchstar (c : Z) (here : list Z -> bool) (text : list Z) : bool :=
  if here text then true
  else match text with
       | [] => false
       | t :: text' =>
           if negb (t =? 0) && ((t =? c) || (c =? chr ".")) then matchstar c here text' else false
       end.

Fixpoint matchhere (re text : list Z) {struct re} : bool :=
  match re with
  | [] => true
  | c :: re1 =>
      if c =? 0 then true else
      match re1 with
      | c1 :: re2 =>
          if c1 =? chr "*" then matchstar c (matchhere re2) text else
          if (c =? chr "$") && (c1 =? 0) then default 0 (head text) =? 0 else
          if negb (default 0 (head text) =? 0) && ((c =? chr ".") || (c =? default 0 (head text)))
          then matchhere re1 (tail text) else false
      | [] =>
          if c =? chr "$" then default 0 (head text) =? 0 else
          if negb (default 0 (head text) =? 0) && ((c =? chr ".") || (c =? default 0 (head text)))
          then matchhere re1 (tail text) else false
      end
  end.

Fixpoint match_loop (re text : list Z) : bool :=
  if matchhere re text then true
  else match text with
       | [] => false
       | t :: text' => if negb (t =? 0) then match_loop re text' else false
       end.

Definition match_ (re text : list Z) : bool :=
  if default 0 (head re) =? chr "^" then matchhere (tail re) text else match_loop re text.

(** ** The program *)

Section grep.
Context {St : Type} `{S : Sys St}.

(** A line of the buffer, from [p] on. *)
Definition grep_line (pattern : list Z) : list Z * Z -> M St (list Z * Z + list Z * Z) :=
  fun '(buf, p) =>
    match u_strchr (drop (Z.to_nat p) buf) 10 with
    | None => ret (inr (buf, p))
    | Some i =>
        let q := p + i in
        let buf := <[Z.to_nat q := 0]> buf in
        if match_ pattern (drop (Z.to_nat p) buf) then
          let buf := <[Z.to_nat q := 10]> buf in
          let* _ := u_write 1 (get_bytes buf p (q + 1 - p)) in
          ret (inl (buf, q + 1))
        else ret (inl (buf, q + 1))
    end.

(** A turn of the loop: [buf] holds the first [m] bytes of a line. *)
Definition grep_body (pattern : list Z) (fd : Z) : list Z * Z -> M St (list Z * Z + list Z) :=
  fun '(buf, m) =>
    let* r := u_read fd (Z.of_nat (length buf) - m - 1) in
    let n := fst r in
    if negb (0 <? n) then ret (inr buf) else
    let buf := put_bytes buf m (snd r) in
    let m := m + n in
    let buf := <[Z.to_nat m := 0]> buf in
    let* bp := while_ (Datatypes.S (length buf)) (grep_line pattern) (buf, 0) in
    let '(buf, p) := bp in
    if 0 <? m then
      let m := m - p in
      ret (inl (splice buf (get_bytes buf p m), m))
    else ret (inl (buf, m)).

(** [buf], of 1024 bytes, keeps its contents from call to call. *)
Definition grep (fuel : nat) (pattern : list Z) (fd : Z) (buf : list Z) : M St (list Z) :=
  while_ fuel (grep_body pattern fd) (buf, 0).

Fixpoint grep_files (fuel : nat) (pattern : list Z) (files : list (list Z)) (buf : list Z) : M St unit :=
  match files with
  | [] => u_exit 0
  | f :: files' =>
      let* fd := u_open f 0 in
      if fd <? 0 then
        u_printf (cstr "grep: cannot open %s" ++ [10]) [PStr (Some f)] ;;; u_exit 1
      else
        let* buf := grep fuel pattern fd buf in
        let* _ := u_close fd in
        grep_files fuel pattern files' buf
  end.

Definition grep_main (fuel : nat) (argv : list (list Z)) : M St unit :=
  let buf := replicate 1024 0 in
  match argv with
  | _ :: pattern :: [] => let* _ := grep fuel pattern 0 buf in u_exit 0
  | _ :: pattern :: files => grep_files fuel pattern files buf
  | _ => u_fprintf 2 (cstr "usage: grep pattern [file ...]" ++ [10]) [] ;;; u_exit 1
  end.
End grep.

(** ** What a pattern denotes *)

Inductive item : Type :=
| One (c : Z)
| Star (c : Z).

(** The items of a pattern without its leading [^], and whether it ends in [$]. *)
Fixpoint parse (re : list Z) : list item * bool :=
  match re with
  | [] => ([], false)
  | c :: re1 =>
      match re1 with
      | [] => if c =? chr "$" then ([], true) else ([One c], false)
      | c1 :: re2 =>
          if c1 =? chr "*" then let '(l, e) := parse re2 in (Star c :: l, e)
          else let '(l, e) := parse re1 in (One c :: l, e)
      end
  end.

Definition fits (c t : Z) : Prop := c = chr "." \/ c = t.

Fixpoint denotes (l : list item) (s : list Z) : Prop :=
  match l with
  | [] => s = []
  | One c :: l' => exists t s', s = t :: s' /\ fits c t /\ denotes l' s'
  | Star c :: l' => exists a b, s = a ++ b /\ Forall (fits c) a /\ denotes l' b
  end.

(** The pattern matches a prefix of the text, all of it if it ends in [$]. *)
Definition matches_prefix (re text : list Z) : Prop :=
  let '(l, e) := parse re in
  exists a b, text = a ++ b /\ denotes l a /\ (e = true -> b = []).

Definition matches (re text : list Z) : Prop :=
  match re with
  | c :: re' =>
      if c =? chr "^" then matches_prefix re' text
      else exists a b, text = a ++ b /\ matches_prefix re b
  | [] => True
  end.

(** ** Lemmas *)

#[local] Arguments chr : simpl never.

(** Strings without a NUL inside. *)
Definition plain (s : list Z) : Prop := Forall (fun c => c <> 0) s.

Lemma plain_c_string s : plain (c_string s).
Proof. induction s as [|c s IH]; simpl; [constructor|]. destruct (Z.eqb_spec c 0); [constructor|by constructor]. Qed.

Lemma c_string_plain s : plain s -> c_string s = s.
Proof. induction 1 as [|c s Hc _ IH]; simpl; [done|]. by rewrite (proj2 (Z.eqb_neq c 0) Hc), IH. Qed.

Lemma c_string_app s x : plain s -> c_string (s ++ 0 :: x) = s.
Proof. induction 1 as [|c s Hc _ IH]; simpl; [done|]. by rewrite (proj2 (Z.eqb_neq c 0) Hc), IH. Qed.

Lemma head_c_string s : default 0 (head (c_string s)) = default 0 (head s).
Proof. destruct s as [|c s]; simpl; [done|]. by destruct (Z.eqb_spec c 0) as [->|]. Qed.

Lemma matchstar_c_string c here text :
  (forall t, here t = here (c_string t)) -> matchstar c here text = matchstar c here (c_string text).
Proof.
  intros Hh. induction text as [|t text IH]; simpl; [done|]. rewrite (Hh (t :: text)). simpl.
  destruct (Z.eqb_spec t 0) as [->|H0]; simpl; [done|]. rewrite (proj2 (Z.eqb_neq t 0) H0). simpl.
  by rewrite IH.
Qed.

(** The body of [matchhere], in the order of the source. *)
Lemma matchhere_cons c re text :
  matchhere (c :: re) text =
  if c =? 0 then true else
  if default 0 (head re) =? chr "*" then matchstar c (matchhere (tail re)) text else
  if (c =? chr "$") && (default 0 (head re) =? 0) then default 0 (head text) =? 0 else
  if negb (default 0 (head text) =? 0) && ((c =? chr ".") || (c =? default 0 (head text)))
  then matchhere re (tail text) else false.
Proof. destruct re as [|c1 re2]; [|done]. simpl. by rewrite andb_true_r. Qed.

Lemma c_string_cons c s : c <> 0 -> c_string (c :: s) = c :: c_string s.
Proof. intros Hc. simpl. by rewrite (proj2 (Z.eqb_neq c 0) Hc). Qed.

Lemma tail_c_string s : default 0 (head s) <> 0 -> tail (c_string s) = c_string (tail s).
Proof. destruct s as [|c s]; [done|]. intros Hc. by rewrite c_string_cons. Qed.

(** Only the characters before the NUL of the text count. *)
Lemma matchhere_text re : forall text, matchhere re text = matchhere re (c_string text).
Proof.
  induction re as [re IH] using (induction_ltof1 _ length). unfold ltof in IH. intros text.
  destruct re as [|c re]; [done|]. rewrite !matchhere_cons, head_c_string. destruct (c =? 0); [done|].
  destruct (default 0 (head re) =? chr "*").
  { apply matchstar_c_string, IH. destruct re; simpl; lia. }
  destruct ((c =? chr "$") && _); [done|].
  destruct (Z.eqb_spec (default 0 (head text)) 0) as [|H0]; [done|]. rewrite tail_c_string by done.
  cbn [negb andb]. destruct (_ || _); [|done]. apply IH. simpl. lia.
Qed.

Lemma matchhere_re re : forall text, matchhere re text = matchhere (c_string re) text.
Proof.
  induction re as [re IH] using (induction_ltof1 _ length). unfold ltof in IH. intros text.
  destruct re as [|c re]; [done|]. destruct (Z.eqb_spec c 0) as [->|H0]; [done|].
  rewrite (c_string_cons c re H0), !matchhere_cons, head_c_string, (proj2 (Z.eqb_neq c 0) H0).
  destruct (Z.eqb_spec (default 0 (head re)) (chr "*")) as [Hs|Hs].
  { rewrite tail_c_string by (by rewrite Hs).
    assert (forall t, matchhere (tail re) t = matchhere (c_string (tail re)) t) as Ht.
    { apply IH. destruct re; simpl; lia. }
    clear IH Hs. induction text as [|t text IH]; simpl; rewrite Ht; [done|]. by rewrite IH. }
  rewrite <- IH by (simpl; lia). done.
Qed.

Lemma matchstar_iff c here text :
  plain text ->
  matchstar c here text = true <-> exists a b, text = a ++ b /\ Forall (fits c) a /\ here b = true.
Proof.
  induction 1 as [|t text Ht _ IH]; simpl matchstar.
  - destruct (here []) eqn:E.
    + split; [|done]. intros _. by exists [], [].
    + split; [done|]. intros (a & b & Eab & _ & Hb). apply eq_sym, app_nil in Eab. destruct Eab as [-> ->]. congruence.
  - destruct (here (t :: text)) eqn:E; [split; [|done]; intros _; by exists [], (t :: text)|].
    rewrite (proj2 (Z.eqb_neq t 0) Ht). cbn [negb andb].
    assert ((t =? c) || (c =? chr ".") = true <-> fits c t) as Hfit.
    { unfold fits. rewrite orb_true_iff, !Z.eqb_eq. split; intros [|]; auto. }
    destruct ((t =? c) || (c =? chr ".")).
    + rewrite IH. split.
      * intros (a & b & -> & Ha & Hb). exists (t :: a), b. split; [done|]. split; [|done]. constructor; [by apply Hfit|done].
      * intros ([|t' a] & b & Eab & Ha & Hb); simpl in Eab; [subst b; congruence|].
        injection Eab as -> ->. apply list.Forall_cons in Ha. destruct Ha as [_ Ha]. by exists a, b.
    + split; [done|]. intros ([|t' a] & b & Eab & Ha & Hb); simpl in Eab; [subst b; congruence|].
      injection Eab as -> ->. apply list.Forall_cons in Ha. destruct Ha as [Ha _]. by apply Hfit.
Qed.

Lemma plain_app a b : plain (a ++ b) <-> plain a /\ plain b.
Proof. apply Forall_app. Qed.

Lemma matches_prefix_star c re text :
  matches_prefix (c :: chr "*" :: re) text <->
  exists a b, text = a ++ b /\ Forall (fits c) a /\ matches_prefix re b.
Proof.
  unfold matches_prefix. cbn [parse]. rewrite Z.eqb_refl. destruct (parse re) as [l e]. cbn [denotes]. split.
  - intros (a & b & -> & (a1 & a2 & -> & Ha & Hl) & He). exists a1, (a2 ++ b). split; [by rewrite app_assoc|].
    split; [done|]. by exists a2, b.
  - intros (a & b & -> & Ha & (b1 & b2 & -> & Hl & He)). exists (a ++ b1), b2. split; [by rewrite app_assoc|].
    split; [|done]. by exists a, b1.
Qed.

Lemma matches_prefix_one c re text :
  default 0 (head re) <> chr "*" -> ~ (c = chr "$" /\ re = []) ->
  matches_prefix (c :: re) text <-> exists t text', text = t :: text' /\ fits c t /\ matches_prefix re text'.
Proof.
  intros Hs Hd. unfold matches_prefix.
  assert (parse (c :: re) = let '(l, e) := parse re in (One c :: l, e)) as ->.
  { destruct re as [|c1 re].
    - cbn [parse]. destruct (Z.eqb_spec c (chr "$")) as [->|]; [|done]. exfalso. by apply Hd.
    - change (default 0 (head (c1 :: re))) with c1 in Hs. cbn [parse]. by rewrite (proj2 (Z.eqb_neq c1 (chr "*")) Hs). }
  destruct (parse re) as [l e]. cbn [denotes]. split.
  - intros (a & b & -> & (t & a' & -> & Ht & Hl) & He). exists t, (a' ++ b). split; [done|]. split; [done|]. by exists a', b.
  - intros (t & text' & -> & Ht & (a & b & -> & Hl & He)). exists (t :: a), b. split; [done|]. split; [|done]. by exists t, a.
Qed.

Lemma matches_prefix_end text : matches_prefix [chr "$"] text <-> text = [].
Proof.
  split.
  - intros (a & b & -> & -> & He). by apply He.
  - intros ->. by exists [], [].
Qed.

(** [matchhere] on strings decides whether the pattern matches a prefix. *)
Lemma matchhere_iff re : forall text, plain re -> plain text -> matchhere re text = true <-> matches_prefix re text.
Proof.
  induction re as [re IH] using (induction_ltof1 _ length). unfold ltof in IH. intros text Hre Htx.
  destruct re as [|c re]; [split; [|done]; intros _; by exists [], text|].
  apply list.Forall_cons in Hre. destruct Hre as [Hc Hre]. rewrite matchhere_cons, (proj2 (Z.eqb_neq c 0) Hc).
  destruct (Z.eqb_spec (default 0 (head re)) (chr "*")) as [Hs|Hs].
  { destruct re as [|c1 re2]; [done|]. change (c1 = chr "*") in Hs. subst c1. apply list.Forall_cons in Hre.
    rewrite matches_prefix_star, matchstar_iff by done. change (tail (chr "*" :: re2)) with re2.
    split; intros (a & b & -> & Ha & Hb); exists a, b; apply plain_app in Htx; split; try done; split; try done;
      apply (IH re2); simpl; try lia; tauto. }
  destruct (Z.eqb_spec c (chr "$")) as [Hd|Hd]; [destruct (Z.eqb_spec (default 0 (head re)) 0) as [H0|H0]|]; cbn [andb].
  { assert (re = []) as ->. { destruct re; [done|]. apply list.Forall_cons in Hre. destruct Hre. done. }
    subst c. rewrite matches_prefix_end. destruct text as [|t text]; [done|].
    apply list.Forall_cons in Htx. destruct Htx as [Ht _]. simpl. rewrite (proj2 (Z.eqb_neq t 0) Ht). done. }
  1: assert (~ (c = chr "$" /\ re = [])) as Hn by (intros [_ ->]; done).
  2: assert (~ (c = chr "$" /\ re = [])) as Hn by (intros [? _]; done).
  all: rewrite matches_prefix_one by done; (destruct text as [|t text]; [split; [done|]; intros (? & ? & [=] & _)|]);
    apply list.Forall_cons in Htx; destruct Htx as [Ht Htx]; change (default 0 (head (t :: text))) with t;
    rewrite (proj2 (Z.eqb_neq t 0) Ht); cbn [negb andb]; change (tail (t :: text)) with text;
    assert ((c =? chr ".") || (c =? t) = true <-> fits c t) as Hfit by (unfold fits; rewrite orb_true_iff, !Z.eqb_eq; done);
    destruct ((c =? chr ".") || (c =? t));
    [rewrite IH by (done || (simpl; lia)); split; [intros Hm; exists t, text; split; [done|]; split; [by apply Hfit|done]|
      intros (t' & text' & [= <- <-] & _ & Hm); done]|
     split; [done|]; intros (t' & text' & [= <- <-] & Hf & _); by apply Hfit].
Qed.

Lemma match_loop_iff re text :
  plain text -> match_loop re text = true <-> exists a b, text = a ++ b /\ matchhere re b = true.
Proof.
  induction 1 as [|t text Ht _ IH]; simpl match_loop.
  - destruct (matchhere re []) eqn:E.
    + split; [|done]. intros _. by exists [], [].
    + split; [done|]. intros (a & b & Eab & Hb). apply eq_sym, app_nil in Eab. destruct Eab as [-> ->]. congruence.
  - destruct (matchhere re (t :: text)) eqn:E; [split; [|done]; intros _; by exists [], (t :: text)|].
    rewrite (proj2 (Z.eqb_neq t 0) Ht). cbn [negb]. rewrite IH. split.
    + intros (a & b & -> & Hb). by exists (t :: a), b.
    + intros ([|t' a] & b & Eab & Hb); simpl in Eab; [subst b; congruence|]. injection Eab as -> ->. by exists a, b.
Qed.

Lemma match_loop_c_string re text : match_loop re text = match_loop (c_string re) (c_string text).
Proof.
  induction text as [|t text IH]; [simpl; by rewrite matchhere_re|].
  simpl match_loop. rewrite matchhere_text, matchhere_re. destruct (Z.eqb_spec t 0) as [->|Ht].
  - simpl. destruct (matchhere _ _) eqn:E; by rewrite ?E.
  - rewrite (c_string_cons t text Ht). simpl match_loop. rewrite (proj2 (Z.eqb_neq t 0) Ht). by rewrite IH.
Qed.

Lemma match_c_string re text : match_ re text = match_ (c_string re) (c_string text).
Proof.
  unfold match_. rewrite head_c_string. destruct (Z.eqb_spec (default 0 (head re)) (chr "^")) as [Hh|Hh].
  - rewrite tail_c_string by (by rewrite Hh). by rewrite matchhere_text, matchhere_re.
  - apply match_loop_c_string.
Qed.

Lemma match_iff re text : plain re -> plain text -> match_ re text = true <-> matches re text.
Proof.
  intros Hre Htx. unfold match_, matches. destruct re as [|c re]; [split; [done|]; intros _; by destruct text|].
  change (default 0 (head (c :: re))) with c. change (tail (c :: re)) with re.
  destruct (c =? chr "^"); [apply list.Forall_cons in Hre as [_ Hre]; by apply matchhere_iff|].
  rewrite match_loop_iff by done. split; intros (a & b & -> & Hb); exists a, b; apply plain_app in Htx as [_ Htx]; (split; [done|]);
    by apply matchhere_iff.
Qed.

(** *** The lines of a text *)

(** The complete lines of a text of which [cur] has been read, and what is left. *)
Fixpoint complete_lines (cur text : list Z) : list (list Z) :=
  match text with
  | [] => []
  | c :: text' => if c =? 10 then cur :: complete_lines [] text' else complete_lines (cur ++ [c]) text'
  end.

Fixpoint last_line (cur text : list Z) : list Z :=
  match text with
  | [] => cur
  | c :: text' => if c =? 10 then last_line [] text' else last_line (cur ++ [c]) text'
  end.

(** What [grep] prints of the lines. *)
Definition grep_out (pattern : list Z) (l : list (list Z)) : list Z :=
  concat ((fun s => if match_ pattern s then s ++ [10] else []) <$> l).

Lemma complete_lines_app cur a b :
  complete_lines cur (a ++ b) = complete_lines cur a ++ complete_lines (last_line cur a) b.
Proof. revert cur. induction a as [|c a IH]; intros cur; simpl; [done|]. destruct (c =? 10); by rewrite IH. Qed.

Lemma last_line_app cur a b : last_line cur (a ++ b) = last_line (last_line cur a) b.
Proof. revert cur. induction a as [|c a IH]; intros cur; simpl; [done|]. by destruct (c =? 10). Qed.

(** No newline inside. *)
Definition one_line (s : list Z) : Prop := Forall (fun c => c <> 10) s.

Lemma lines_one_line cur s : one_line s -> complete_lines cur s = [] /\ last_line cur s = cur ++ s.
Proof.
  intros Hs. revert cur. induction Hs as [|c s Hc _ IH]; intros cur; simpl; [by rewrite app_nil_r|].
  rewrite (proj2 (Z.eqb_neq c 10) Hc). rewrite (proj1 (IH _)), (proj2 (IH _)). by rewrite <- app_assoc.
Qed.

Lemma lines_start cur text : one_line cur ->
  complete_lines cur text = complete_lines [] (cur ++ text) /\ last_line cur text = last_line [] (cur ++ text).
Proof.
  intros Hc. destruct (lines_one_line [] cur Hc) as [E1 E2]. by rewrite complete_lines_app, last_line_app, E1, E2.
Qed.

Lemma last_line_one cur text : one_line cur -> one_line (last_line cur text).
Proof.
  revert cur. induction text as [|c text IH]; intros cur Hc; simpl; [done|].
  destruct (Z.eqb_spec c 10); apply IH; [constructor|]. apply Forall_app. by repeat constructor.
Qed.

Lemma lines_long cur text :
  complete_lines cur text <> [] -> exists l, l ∈ complete_lines cur text /\ (length cur <= length l)%nat.
Proof.
  revert cur. induction text as [|c text IH]; intros cur; simpl; [done|]. destruct (c =? 10).
  - intros _. exists cur. split; [apply list_elem_of_here|done].
  - intros Hne. destruct (IH _ Hne) as (l & Hl & Hlen). exists l. rewrite length_app in Hlen. split; [done|simpl in Hlen; lia].
Qed.

Lemma grep_out_app pattern a b : grep_out pattern (a ++ b) = grep_out pattern a ++ grep_out pattern b.
Proof. unfold grep_out. by rewrite fmap_app, concat_app. Qed.

(** A text up to its first newline. *)
Lemma first_newline text :
  one_line text \/ exists l rest, text = l ++ 10 :: rest /\ one_line l.
Proof.
  induction text as [|c text IH]; [left; constructor|]. destruct (decide (c = 10)) as [->|Hc].
  - right. exists [], text. split; [done|constructor].
  - destruct IH as [Ho|(l & rest & -> & Hl)]; [left; by constructor|]. right. exists (c :: l), rest. split; [done|by constructor].
Qed.

Lemma strchr_newline l rest : plain l -> one_line l -> u_strchr (l ++ 10 :: rest) 10 = Some (Z.of_nat (length l)).
Proof.
  intros Hp Ho. induction l as [|c l IH]; simpl; [done|].
  apply list.Forall_cons in Hp. apply list.Forall_cons in Ho. destruct Hp as [Hc Hp]. destruct Ho as [Hn Ho].
  rewrite (proj2 (Z.eqb_neq c 0) Hc), (proj2 (Z.eqb_neq c 10) Hn), IH by done. f_equal. lia.
Qed.

Lemma strchr_none l rest : one_line l -> u_strchr (l ++ 0 :: rest) 10 = None.
Proof.
  intros Ho. induction Ho as [|c l Hn _ IH]; simpl; [done|].
  destruct (c =? 0); [done|]. by rewrite (proj2 (Z.eqb_neq c 10) Hn), IH.
Qed.

(** *** The loops *)

Lemma array_put (buf l rest : list Z) (p : nat) c v :
  drop p buf = l ++ c :: rest -> drop p (<[(p + length l)%nat := v]> buf) = l ++ v :: rest.
Proof.
  intros Hb. rewrite drop_insert_ge by lia. rewrite Hb.
  replace (p + length l - p)%nat with (length l + 0)%nat by lia. by rewrite insert_app_r.
Qed.

Lemma array_rest (buf l rest : list Z) (p : nat) c :
  drop p buf = l ++ c :: rest -> drop (p + length l + 1) buf = rest.
Proof.
  intros Hb. rewrite <- Nat.add_assoc, <- drop_drop, Hb, <- drop_drop, drop_app_length. done.
Qed.

(** The buffer after [read] and the NUL. *)
Lemma read_into (buf cur b : list Z) :
  (length cur + length b < length buf)%nat -> take (length cur) buf = cur ->
  exists junk, <[Z.to_nat (Z.of_nat (length cur) + Z.of_nat (length b)) := 0]>
      (put_bytes buf (Z.of_nat (length cur)) b) = (cur ++ b) ++ 0 :: junk /\
    length ((cur ++ b) ++ 0 :: junk) = length buf.
Proof.
  intros Hlen Hcur. unfold put_bytes. rewrite !Nat2Z.id, Hcur. pose proof (length_drop buf (length cur + length b)) as Hd.
  destruct (drop (length cur + length b) buf) as [|c junk]; [simpl in Hd; lia|]. simpl in Hd. exists junk.
  replace (Z.to_nat (Z.of_nat (length cur) + Z.of_nat (length b))) with (length (cur ++ b) + 0)%nat by (rewrite length_app; lia).
  rewrite app_assoc, insert_app_r. split; [done|]. rewrite !length_app. simpl. lia.
Qed.

Section run.
Context {St : Type} {S : Sys St} {I : StreamIo S} (pattern : list Z).

(** A complete line [l] at [p]. *)
Lemma grep_line_run s buf p l rest :
  0 <= p -> drop (Z.to_nat p) buf = l ++ 10 :: rest -> plain l -> one_line l ->
  exists s' buf', grep_line pattern (buf, p) s = Ret (inl (buf', p + Z.of_nat (length l) + 1)) s' /\
    drop (Z.to_nat (p + Z.of_nat (length l) + 1)) buf' = rest /\ length buf' = length buf /\
    sent s' 1 = sent s 1 ++ (if match_ pattern l then l ++ [10] else []) /\
    pending s' = pending s /\ (forall fd, fd <> 1 -> sent s' fd = sent s fd).
Proof.
  intros Hp Hb Hl Ho. unfold grep_line. rewrite Hb, strchr_newline by done.
  set (q := p + Z.of_nat (length l)). assert (Z.to_nat q = Z.to_nat p + length l)%nat as Eq by (unfold q; lia). rewrite Eq.
  assert (Z.to_nat (q + 1) = Z.to_nat p + length l + 1)%nat as Eq1 by (unfold q; lia).
  set (buf1 := <[(Z.to_nat p + length l)%nat := 0]> buf). set (buf2 := <[(Z.to_nat p + length l)%nat := 10]> buf1).
  assert (drop (Z.to_nat p) buf1 = l ++ 0 :: rest) as H1 by (by eapply array_put).
  assert (drop (Z.to_nat p) buf2 = l ++ 10 :: rest) as H2 by (by eapply array_put).
  assert (match_ pattern (drop (Z.to_nat p) buf1) = match_ pattern l) as ->.
  { rewrite H1, match_c_string, c_string_app by done. symmetry. rewrite match_c_string. by rewrite (c_string_plain l). }
  destruct (match_ pattern l).
  - destruct (io_write s 1 (get_bytes buf2 p (q + 1 - p))) as (s' & E & Hs & Hpe & Hse).
    rewrite (bind_Ret _ _ _ _ _ E). exists s', buf2. rewrite Eq1.
    split_and!; try done; [by eapply array_rest|unfold buf2, buf1; by rewrite !length_insert|].
    rewrite Hs. f_equal. unfold get_bytes. rewrite H2.
    replace (Z.to_nat (q + 1 - p)) with (length (l ++ [10])) by (rewrite length_app; simpl; lia).
    replace (l ++ 10 :: rest) with ((l ++ [10]) ++ rest) by (by rewrite <- app_assoc). by rewrite take_app_length.
  - exists s, buf1. rewrite Eq1. split_and!; try done; [by eapply array_rest|unfold buf1; by rewrite length_insert|by rewrite app_nil_r].
Qed.

(** The loop over the lines in the buffer from [p] on, which holds [txt] and a
    NUL. *)
Lemma grep_lines_run fuel : forall s buf p txt junk,
  0 <= p -> drop (Z.to_nat p) buf = txt ++ 0 :: junk -> plain txt -> (length txt < fuel)%nat ->
  exists s' buf' p', while_ fuel (grep_line pattern) (buf, p) s = Ret (buf', p') s' /\
    0 <= p' /\ drop (Z.to_nat p') buf' = last_line [] txt ++ 0 :: junk /\ length buf' = length buf /\
    p' + Z.of_nat (length (last_line [] txt)) = p + Z.of_nat (length txt) /\
    sent s' 1 = sent s 1 ++ grep_out pattern (complete_lines [] txt) /\
    pending s' = pending s /\ (forall fd, fd <> 1 -> sent s' fd = sent s fd).
Proof.
  induction fuel as [|fuel IH]; intros s buf p txt junk Hp Hb Ht Hf; [lia|]. rewrite while_S.
  destruct (first_newline txt) as [Ho|(l & rest & -> & Ho)].
  - assert (grep_line pattern (buf, p) s = Ret (inr (buf, p)) s) as E.
    { unfold grep_line. by rewrite Hb, strchr_none. }
    rewrite (bind_Ret _ _ _ _ _ E). destruct (lines_one_line [] txt Ho) as [-> ->].
    exists s, buf, p. split_and!; try done. by rewrite app_nil_r.
  - apply plain_app in Ht as [Hl Ht]. apply list.Forall_cons in Ht as [_ Ht].
    rewrite <- app_assoc in Hb. cbn [app] in Hb. rewrite length_app in Hf |- *. simpl in Hf.
    destruct (grep_line_run s buf p l (rest ++ 0 :: junk) Hp Hb Hl Ho) as (s1 & buf1 & E1 & Hb1 & Hl1 & Hs1 & Hp1 & Ho1).
    rewrite (bind_Ret _ _ _ _ _ E1).
    destruct (IH s1 buf1 (p + Z.of_nat (length l) + 1) rest junk) as (s2 & buf2 & p2 & E2 & Hp2 & Hb2 & Hl2 & Hq2 & Hs2 & Hpe & Hse);
      [lia|done|done|lia|].
    destruct (lines_one_line [] l Ho) as [El Ell].
    assert (complete_lines [] (l ++ 10 :: rest) = l :: complete_lines [] rest) as ->.
    { rewrite complete_lines_app, El, Ell. done. }
    assert (last_line [] (l ++ 10 :: rest) = last_line [] rest) as -> by (by rewrite last_line_app, Ell).
    exists s2, buf2, p2. split_and!; try done; try congruence.
    + simpl. lia.
    + rewrite Hs2, Hs1, <- app_assoc. done.
    + intros fd Hfd. by rewrite Hse, Ho1.
Qed.

(** A read, and the lines it completes. *)
Lemma grep_body_run s fd buf m cur b s1 :
  u_read fd (Z.of_nat (length buf) - m - 1) s = Ret (Z.of_nat (length b), b) s1 -> sent s1 = sent s ->
  b <> [] -> m + Z.of_nat (length b) < Z.of_nat (length buf) ->
  m = Z.of_nat (length cur) -> take (length cur) buf = cur -> plain (cur ++ b) -> one_line cur ->
  exists s' buf', let cur' := last_line cur b in
    grep_body pattern fd (buf, m) s = Ret (inl (buf', Z.of_nat (length cur'))) s' /\
    take (length cur') buf' = cur' /\ length buf' = length buf /\
    sent s' 1 = sent s 1 ++ grep_out pattern (complete_lines cur b) /\
    pending s' = pending s1 /\ (forall fd, fd <> 1 -> sent s' fd = sent s fd).
Proof.
  intros Er Hsent Hb Hlen -> Hcur Hpl Ho. unfold grep_body. rewrite (bind_Ret _ _ _ _ _ Er). cbn [fst snd]. cbv zeta.
  rewrite (proj2 (Z.ltb_lt 0 (Z.of_nat (length b)))) by (destruct b; [done|simpl; lia]). cbn [negb].
  destruct (read_into buf cur b) as (junk & -> & Hl); [lia|done|].
  set (m := Z.of_nat (length cur) + Z.of_nat (length b)).
  destruct (grep_lines_run (Datatypes.S (length ((cur ++ b) ++ 0 :: junk))) s1 ((cur ++ b) ++ 0 :: junk) 0 (cur ++ b) junk)
    as (s2 & buf2 & p2 & E2 & Hp2 & Hb2 & Hl2 & Hq2 & Hs2 & Hpe & Hse); [done|done|done|rewrite length_app; lia|].
  rewrite (bind_Ret _ _ _ _ _ E2). destruct (lines_start cur b Ho) as [-> ->]. set (cur' := last_line [] (cur ++ b)) in *.
  rewrite length_app in Hq2. rewrite (proj2 (Z.ltb_lt 0 m)) by (destruct b; [done|simpl in *; lia]).
  assert (m - p2 = Z.of_nat (length cur')) as -> by lia.
  assert (get_bytes buf2 p2 (Z.of_nat (length cur')) = cur') as ->.
  { unfold get_bytes. by rewrite Hb2, Nat2Z.id, take_app_length. }
  exists s2, (splice buf2 cur'). split_and!; try done.
  - unfold splice. by rewrite take_app_length.
  - unfold splice. rewrite length_app, length_drop. rewrite length_app in Hl2, Hl. pose proof (f_equal length Hb2) as Hd.
    rewrite length_drop, length_app in Hd. simpl in *. lia.
  - by rewrite Hs2, Hsent.
  - intros fd' Hfd. by rewrite Hse, Hsent.
Qed.

Lemma length_last_line cur text : (length (last_line cur text) <= length cur + length text)%nat.
Proof.
  revert cur. induction text as [|c text IH]; intros cur; simpl; [lia|]. destruct (c =? 10).
  - pose proof (IH []). simpl in *. lia.
  - pose proof (IH (cur ++ [c])) as Hl. rewrite length_app in Hl. simpl in *. lia.
Qed.

Lemma last_line_plain cur text : plain (cur ++ text) -> plain (last_line cur text).
Proof.
  revert cur. induction text as [|c text IH]; intros cur Hp; simpl; [by rewrite app_nil_r in Hp|].
  destruct (c =? 10); apply IH.
  - apply plain_app in Hp as [_ Hp]. by apply list.Forall_cons in Hp as [_ Hp].
  - by rewrite <- app_assoc.
Qed.

(** The loop of [grep]: the buffer holds [cur], the start of a line. *)
Lemma grep_run fd fuel : forall s buf cur,
  take (length cur) buf = cur -> length buf = 1024%nat -> plain (cur ++ pending s fd) -> one_line cur -> (length cur <= 1023)%nat ->
  Forall (fun l => length l <= 1022)%nat (complete_lines cur (pending s fd)) -> (length (pending s fd) < fuel)%nat ->
  exists s' buf', while_ fuel (grep_body pattern fd) (buf, Z.of_nat (length cur)) s = Ret buf' s' /\ length buf' = 1024%nat /\
    sent s' 1 = sent s 1 ++ grep_out pattern (complete_lines cur (pending s fd)) /\
    (forall fd, fd <> 1 -> sent s' fd = sent s fd).
Proof.
  induction fuel as [|fuel IH]; intros s buf cur Hcur Hlen Hpl Ho Hm Hshort Hf; [lia|]. rewrite while_S.
  destruct (io_read s fd (Z.of_nat (length buf) - Z.of_nat (length cur) - 1)) as (b & s1 & Er & Hp & Hle & Hne & _ & Hs); [lia|].
  destruct b as [|c b].
  - assert (grep_body pattern fd (buf, Z.of_nat (length cur)) s = Ret (inr buf) s1) as E.
    { unfold grep_body. by rewrite (bind_Ret _ _ _ _ _ Er). }
    rewrite (bind_Ret _ _ _ _ _ E). exists s1, buf. split; [done|]. split; [done|]. rewrite Hs. split; [|done].
    assert (complete_lines cur (pending s fd) = []) as ->; [|by rewrite app_nil_r].
    destruct (pending s fd) as [|c text] eqn:Et; [done|]. destruct (decide (length cur = 1023%nat)) as [E1|E1].
    + destruct (decide (complete_lines cur (c :: text) = [])) as [|Hx]; [done|].
      destruct (lines_long _ _ Hx) as (l & Hl & Hll). rewrite list.Forall_forall in Hshort. apply Hshort in Hl. lia.
    + exfalso. by apply Hne; [lia|done|].
  - rewrite Hp in Hpl, Hshort, Hf |- *. rewrite app_assoc in Hpl. apply plain_app in Hpl as [Hpl Hpr].
    destruct (grep_body_run s fd buf (Z.of_nat (length cur)) cur (c :: b) s1 Er Hs) as (s2 & buf2 & E2 & Hc2 & Hl2 & Hs2 & Hpe & Hse);
      [done|lia|done|done|done|done|].
    rewrite (bind_Ret _ _ _ _ _ E2). rewrite complete_lines_app in Hshort |- *. apply Forall_app in Hshort as [_ Hshort].
    destruct (IH s2 buf2 (last_line cur (c :: b)) Hc2) as (s3 & buf3 & E3 & Hl3 & Hs3 & Hse3).
    + congruence.
    + rewrite Hpe. apply plain_app. split; [by apply last_line_plain|done].
    + by apply last_line_one.
    + pose proof (length_last_line cur (c :: b)). lia.
    + by rewrite Hpe.
    + rewrite Hpe. rewrite length_app in Hf. simpl in Hf. lia.
    + exists s3, buf3. split; [done|]. split; [done|]. split.
      * rewrite Hs3, Hs2, Hpe, grep_out_app, app_assoc. done.
      * intros fd' Hfd. by rewrite Hse3, Hse.
Qed.
End run.

(** ** Properties *)

(** C19: the matcher decides the language of its pattern.  [match] returns 1
    exactly when the text has a part (a prefix, if the pattern starts with
    [^]; one that reaches the end, if it ends in [$]) that is a concatenation
    of what the items of the pattern denote: a character for itself, [.] for
    any character, and a starred item for any number of them. *)
Theorem match_decides re text : match_ re text = true <-> matches (c_string re) (c_string text).
Proof. rewrite match_c_string. apply match_iff; apply plain_c_string. Qed.

(** C20: [grep] terminates and prints exactly the lines that match, in order,
    whatever the sizes of the pieces in which [read] returns the file: for a
    text without NULs whose complete lines have at most 1022 characters, what
    is written to standard output is the matching complete lines, each with
    its newline, and nothing is written elsewhere. *)
Theorem grep_prints_matching_lines {St} {S : Sys St} {I : StreamIo S} fuel pattern fd buf s :
  length buf = 1024%nat -> Forall (fun c => c <> 0) (pending s fd) ->
  Forall (fun l => length l <= 1022)%nat (complete_lines [] (pending s fd)) -> (length (pending s fd) < fuel)%nat ->
  exists s' buf', grep fuel pattern fd buf s = Ret buf' s' /\
    sent s' 1 = sent s 1 ++ concat ((fun l => if match_ pattern l then l ++ [10] else []) <$> complete_lines [] (pending s fd)) /\
    (forall fd', fd' <> 1 -> sent s' fd' = sent s fd').
Proof.
  intros Hlen Hpl Hshort Hf. unfold grep.
  destruct (grep_run pattern fd fuel s buf []) as (s' & buf' & E & _ & H); try done; [constructor|simpl; lia|].
  by exists s', buf'.
Qed.

(** The lines ["ab"], ["b"] and ["cab"], in pieces of 2, 4 and 3 bytes. *)
Definition sample_text : list Z := cstr "ab" ++ [10] ++ cstr "b" ++ [10] ++ cstr "cab" ++ [10].
Definition sample_streams : streams := mkStreams (fun _ => sample_text) (fun _ => []) [2; 4; 3].

Lemma grep_prints_matching_lines_witness :
  exists s' buf', grep 10 (cstr "a.*$") 3 (replicate 1024 0) sample_streams = Ret buf' s' /\
    str_out s' 1 = cstr "ab" ++ [10] ++ cstr "cab" ++ [10].
Proof.
  destruct (grep_prints_matching_lines 10 (cstr "a.*$") 3 (replicate 1024 0) sample_streams) as (s' & buf' & E & Hs & _).
  - done.
  - by apply (bool_decide_unpack _); vm_compute.
  - by apply (bool_decide_unpack _); vm_compute.
  - vm_compute. lia.
  - exists s', buf'. split; [exact E|]. exact Hs.
Defined.
