(* ===== verification/Cmds.v ===== *)
(** * Small user programs

    cat.c, wc.c, echo.c, kill.c, ln.c, mkdir.c, rm.c, ls.c and init.c of
    user/.  [argv] is the list of the arguments.  A loop that ends with its
    input takes the number of turns it may make. *)

From Stdlib Require Import ZArith Lia.
From stdpp Require Import base gmap list strings numbers.
From S2P Require Import Prelude Riscv State Klib Uart Fs Console User.

(** ** Definitions *)

Section cmds.
Context {St : Type} `{S : Sys St}.

Definition line (s : string) : list Z := cstr s ++ [10].

(** *** cat.c *)

Definition cat_body (fd : Z) (_ : unit) : M St (unit + Z) :=
  let* r := u_read fd 512 in
  let n := fst r in
  if negb (0 <? n) then ret (inr n) else
  let* w := u_write 1 (snd r) in
  if negb (w =? n) then u_fprintf 2 (line "cat: write error") [] ;;; u_exit 1
  else ret (inl tt).

Definition cat (fuel : nat) (fd : Z) : M St unit :=
  let* n := while_ fuel (cat_body fd) tt in
  when (n <? 0) (u_fprintf 2 (line "cat: read error") [] ;;; u_exit 1).

Fixpoint cat_files (fuel : nat) (files : list (list Z)) : M St unit :=
  match files with
  | [] => u_exit 0
  | f :: files' =>
      let* fd := u_open f 0 in
      if fd <? 0 then u_fprintf 2 (line "cat: cannot open %s") [PStr (Some f)] ;;; u_exit 1 else
      cat fuel fd ;;;
      let* _ := u_close fd in
      cat_files fuel files'
  end.

Definition cat_main (fuel : nat) (argv : list (list Z)) : M St unit :=
  match tail argv with
  | [] => cat fuel 0 ;;; u_exit 0
  | files => cat_files fuel files
  end.

(** *** wc.c *)

(** [l], [w], [c] and [inword]. *)
Definition wc_char (st : Z * Z * Z * bool) (ch : Z) : Z * Z * Z * bool :=
  let '(l, w, c, inword) := st in
  let c := c + 1 in
  let l := if ch =? 10 then l + 1 else l in
  match u_strchr [32; 13; 9; 10; 11] ch with
  | Some _ => (l, w, c, false)
  | None => if negb inword then (l, w + 1, c, true) else (l, w, c, inword)
  end.

Definition wc_body (fd : Z) (st : Z * Z * Z * bool) : M St (Z * Z * Z * bool + Z * (Z * Z * Z * bool)) :=
  let* r := u_read fd 512 in
  if negb (0 <? fst r) then ret (inr (fst r, st)) else ret (inl (foldl wc_char st (snd r))).

Definition wc (fuel : nat) (fd : Z) (name : list Z) : M St unit :=
  let* r := while_ fuel (wc_body fd) (0, 0, 0, false) in
  let '(n, (l, w, c, _)) := r in
  when (n <? 0) (u_printf (line "wc: read error") [] ;;; u_exit 1) ;;;
  u_printf (line "%d %d %d %s") [PInt l; PInt w; PInt c; PStr (Some name)].

Fixpoint wc_files (fuel : nat) (files : list (list Z)) : M St unit :=
  match files with
  | [] => u_exit 0
  | f :: files' =>
      let* fd := u_open f 0 in
      if fd <? 0 then u_printf (line "wc: cannot open %s") [PStr (Some f)] ;;; u_exit 1 else
      wc fuel fd f ;;;
      let* _ := u_close fd in
      wc_files fuel files'
  end.

Definition wc_main (fuel : nat) (argv : list (list Z)) : M St unit :=
  match tail argv with
  | [] => wc fuel 0 [] ;;; u_exit 0
  | files => wc_files fuel files
  end.

(** *** echo.c, kill.c, ln.c, mkdir.c, rm.c *)

Fixpoint echo_args (args : list (list Z)) : M St unit :=
  match args with
  | [] => u_exit 0
  | a :: args' =>
      let* _ := u_write 1 (take (Z.to_nat (u_strlen a)) a) in
      let* _ := u_write 1 (match args' with [] => [10] | _ => [32] end) in
      echo_args args'
  end.

Definition echo_main (argv : list (list Z)) : M St unit := echo_args (tail argv).

Fixpoint kill_args (args : list (list Z)) : M St unit :=
  match args with
  | [] => u_exit 0
  | a :: args' => let* _ := u_kill (u_atoi a) in kill_args args'
  end.

Definition kill_main (argv : list (list Z)) : M St unit :=
  match tail argv with
  | [] => u_fprintf 2 (line "usage: kill pid...") [] ;;; u_exit 1
  | args => kill_args args
  end.

Definition ln_main (argv : list (list Z)) : M St unit :=
  match argv with
  | [_; old; new] =>
      let* r := u_link old new in
      when (r <? 0) (u_fprintf 2 (line "link %s %s: failed") [PStr (Some old); PStr (Some new)]) ;;;
      u_exit 0
  | _ => u_fprintf 2 (line "Usage: ln old new") [] ;;; u_exit 1
  end.

Fixpoint mkdir_args (args : list (list Z)) : M St unit :=
  match args with
  | [] => u_exit 0
  | a :: args' =>
      let* r := u_mkdir a in
      if r <? 0 then u_fprintf 2 (line "mkdir: %s failed to create") [PStr (Some a)] ;;; u_exit 0
      else mkdir_args args'
  end.

Definition mkdir_main (argv : list (list Z)) : M St unit :=
  match tail argv with
  | [] => u_fprintf 2 (line "Usage: mkdir files...") [] ;;; u_exit 1
  | args => mkdir_args args
  end.

Fixpoint rm_args (args : list (list Z)) : M St unit :=
  match args with
  | [] => u_exit 0
  | a :: args' =>
      let* r := u_unlink a in
      if r <? 0 then u_fprintf 2 (line "rm: %s failed to delete") [PStr (Some a)] ;;; u_exit 0
      else rm_args args'
  end.

Definition rm_main (argv : list (list Z)) : M St unit :=
  match tail argv with
  | [] => u_fprintf 2 (line "Usage: rm files...") [] ;;; u_exit 1
  | args => rm_args args
  end.

(** *** ls.c *)

(** The characters after the last slash. *)
Fixpoint after_slash (path : list Z) : list Z :=
  match path with
  | [] => []
  | c :: path' => if existsb (Z.eqb (chr "/")) path then
                    if existsb (Z.eqb (chr "/")) path' then after_slash path' else path'
                  else path
  end.

(** The name padded with blanks, or the name itself when it is as long. *)
Definition fmtname (path : list Z) : list Z :=
  let p := after_slash (c_string path) in
  if DIRSIZ <=? u_strlen p then p else p ++ replicate (Z.to_nat (DIRSIZ - u_strlen p)) 32.

(** The fields of a [struct stat]. *)
Definition st_ino (st : list Z) : Z := get32 st 4.
Definition st_type (st : list Z) : Z := s16 (get16 st 8).
Definition st_size (st : list Z) : Z := le_val (get_bytes st 16 8).

(** An entry of the directory; [p] is the path with the slash. *)
Definition ls_entry (fd : Z) (p : list Z) (_ : unit) : M St (unit + unit) :=
  let* r := u_read fd sizeof_dirent in
  if negb (fst r =? sizeof_dirent) then ret (inr tt) else
  let de := snd r in
  if dirent_inum de =? 0 then ret (inl tt) else
  let buf := p ++ c_string (dirent_name de) in
  let* r := u_stat buf in
  if fst r <? 0 then u_printf (line "ls: cannot stat %s") [PStr (Some buf)] ;;; ret (inl tt) else
  let st := snd r in
  u_printf (line "%s %d %d %d") [PStr (Some (fmtname buf)); PInt (st_type st); PInt (st_ino st); PInt (st_size st)] ;;;
  ret (inl tt).

Definition ls (fuel : nat) (path : list Z) : M St unit :=
  let* fd := u_open path 0 in
  if fd <? 0 then u_fprintf 2 (line "ls: cannot open %s") [PStr (Some path)] else
  let* r := u_fstat fd in
  if fst r <? 0 then
    u_fprintf 2 (line "ls: cannot stat %s") [PStr (Some path)] ;;;
    let* _ := u_close fd in ret tt
  else
  let st := snd r in
  (if st_type st =? T_FILE then
     u_printf (line "%s %d %d %l") [PStr (Some (fmtname path)); PInt (st_type st); PInt (st_ino st); PInt (st_size st)]
   else if st_type st =? T_DIR then
     if 512 <? u_strlen path + 1 + DIRSIZ + 1 then u_printf (line "ls: path too long") []
     else while_ fuel (ls_entry fd (c_string path ++ [chr "/"])) tt
   else ret tt) ;;;
  let* _ := u_close fd in
  ret tt.

Fixpoint ls_args (fuel : nat) (args : list (list Z)) : M St unit :=
  match args with
  | [] => u_exit 0
  | a :: args' => ls fuel a ;;; ls_args fuel args'
  end.

Definition ls_main (fuel : nat) (argv : list (list Z)) : M St unit :=
  match tail argv with
  | [] => ls fuel (cstr ".") ;;; u_exit 0
  | args => ls_args fuel args
  end.

(** *** init.c *)

(** Waiting until the shell [pid] exits. *)
Definition init_wait (pid : Z) (_ : unit) : M St (unit + unit) :=
  let* wpid := u_wait in
  if wpid =? pid then ret (inr tt)
  else if wpid <? 0 then u_printf (line "init: wait returned an error") [] ;;; u_exit 1
  else ret (inl tt).

(** One shell. *)
Definition init_body (fuel : nat) (_ : unit) : M St (unit + unit) :=
  u_printf (line "init: starting sh") [] ;;;
  let* pid := u_fork in
  if pid <? 0 then u_printf (line "init: fork failed") [] ;;; u_exit 1 else
  if pid =? 0 then
    let* _ := u_exec (cstr "sh") [cstr "sh"] in
    u_printf (line "init: exec sh failed") [] ;;;
    u_exit 1
  else
    while_ fuel (init_wait pid) tt ;;;
    ret (inl tt).

Definition init_main (fuel : nat) : M St unit :=
  let* fd := u_open (cstr "console") O_RDWR in
  (if fd <? 0 then
     let* _ := u_mknod (cstr "console") CONSOLE 0 in
     let* _ := u_open (cstr "console") O_RDWR in
     ret tt
   else ret tt) ;;;
  let* _ := u_dup 0 in
  let* _ := u_dup 0 in
  while_ fuel (init_body fuel) tt.

End cmds.

(** ** Lemmas *)

Section io.
Context {St : Type} {S : Sys St} {I : StreamIo S}.

(** [cat] copies the file to standard output. *)
Lemma cat_copies fd fuel : forall s, (length (pending s fd) < fuel)%nat ->
  exists s', cat fuel fd s = Ret tt s' /\ sent s' 1 = sent s 1 ++ pending s fd /\
    (forall fd', fd' <> 1 -> sent s' fd' = sent s fd').
Proof.
  intros s Hf. unfold cat.
  enough (exists s', while_ fuel (cat_body fd) tt s = Ret 0 s' /\ sent s' 1 = sent s 1 ++ pending s fd /\
    (forall fd', fd' <> 1 -> sent s' fd' = sent s fd')) as (s' & E & H) by (exists s'; by rewrite (bind_Ret _ _ _ _ _ E)).
  revert s Hf. induction fuel as [|fuel IH]; intros s Hf; [lia|]. rewrite while_S.
  destruct (io_read s fd 512) as (b & s1 & Er & Hp & Hle & Hne & _ & Hs); [lia|]. rewrite Hp in Hf |- *. rewrite length_app in Hf.
  destruct b as [|c b].
  - assert (cat_body fd tt s = Ret (inr 0) s1) as E by (unfold cat_body; by rewrite (bind_Ret _ _ _ _ _ Er)).
    rewrite (bind_Ret _ _ _ _ _ E). exists s1. rewrite Hs. split; [done|].
    destruct (pending s fd) as [|x l]; [|exfalso; by apply Hne].
    simpl in Hp. rewrite <- Hp, app_nil_r. done.
  - destruct (io_write s1 1 (c :: b)) as (s2 & Ew & Hs2 & Hp2 & Hse).
    assert (cat_body fd tt s = Ret (inl tt) s2) as E.
    { unfold cat_body. rewrite (bind_Ret _ _ _ _ _ Er). cbn [fst snd].
      rewrite (proj2 (Z.ltb_lt 0 _)) by (simpl; lia). cbn [negb]. by rewrite (bind_Ret _ _ _ _ _ Ew), Z.eqb_refl. }
    rewrite (bind_Ret _ _ _ _ _ E). destruct (IH s2) as (s3 & E3 & Hs3 & Ho3); [rewrite Hp2; simpl in Hf; lia|].
    exists s3. split; [done|]. rewrite Hs3, Hs2, Hs, Hp2, app_assoc. split; [done|].
    intros fd' Hfd. by rewrite Ho3, Hse, Hs.
Qed.

(** What [wc] counts does not depend on how the file is read. *)
Lemma wc_counts fd fuel : forall s st, (length (pending s fd) < fuel)%nat ->
  exists s', while_ fuel (wc_body fd) st s = Ret (0, foldl wc_char st (pending s fd)) s' /\ sent s' = sent s.
Proof.
  induction fuel as [|fuel IH]; intros s st Hf; [lia|]. rewrite while_S.
  destruct (io_read s fd 512) as (b & s1 & Er & Hp & Hle & Hne & _ & Hs); [lia|]. rewrite Hp in Hf |- *. rewrite length_app in Hf.
  destruct b as [|c b].
  - assert (wc_body fd st s = Ret (inr (0, st)) s1) as E by (unfold wc_body; by rewrite (bind_Ret _ _ _ _ _ Er)).
    rewrite (bind_Ret _ _ _ _ _ E). exists s1. split; [|done].
    destruct (pending s fd) as [|x l]; [|exfalso; by apply Hne]. simpl in Hp. by rewrite <- Hp.
  - assert (wc_body fd st s = Ret (inl (foldl wc_char st (c :: b))) s1) as E.
    { unfold wc_body. rewrite (bind_Ret _ _ _ _ _ Er). cbn [fst snd]. by rewrite (proj2 (Z.ltb_lt 0 _)) by (simpl; lia). }
    rewrite (bind_Ret _ _ _ _ _ E). destruct (IH s1 (foldl wc_char st (c :: b))) as (s2 & E2 & Hs2); [simpl in Hf; lia|].
    exists s2. rewrite foldl_app. split; [done|congruence].
Qed.
End io.

(** The counts themselves: characters, newlines. *)
Lemma wc_chars text : forall l w c i,
  exists w' i', foldl wc_char (l, w, c, i) text =
    (l + Z.of_nat (length (filter (fun ch => ch = 10) text)), w', c + Z.of_nat (length text), i').
Proof.
  induction text as [|ch text IH]; intros l w c i; [exists w, i; simpl; by rewrite !Z.add_0_r|].
  cbn [foldl]. assert (exists w1 i1, wc_char (l, w, c, i) ch = (if ch =? 10 then l + 1 else l, w1, c + 1, i1)) as (w1 & i1 & ->).
  { unfold wc_char. destruct (u_strchr _ _); [by eexists _, _|]. destruct i; by eexists _, _. }
  destruct (IH (if ch =? 10 then l + 1 else l) w1 (c + 1) i1) as (w' & i' & ->). exists w', i'.
  destruct (Z.eqb_spec ch 10) as [->|Hne].
  - rewrite filter_cons_True by done. cbn [length]. rewrite !Nat2Z.inj_succ. by rewrite <- !Z.add_1_l, !Z.add_assoc.
  - rewrite filter_cons_False by done. cbn [length]. rewrite Nat2Z.inj_succ. by rewrite <- Z.add_1_l, !Z.add_assoc.
Qed.
