(* ===== verification/Umalloc.v ===== *)
(** * user/umalloc.c: the allocator of user programs

    The free blocks form a circular list through their headers, sorted by
    address, that starts at the static header [base].  [heap_ok] says so and
    ties it to the blocks the program holds: free and held blocks tile the
    memory obtained from [sbrk].  [malloc] and [free] keep it. *)

From Stdlib Require Import ZArith Lia.
From stdpp Require Import base gmap list numbers.
From S2P Require Import Prelude.

(** ** Definitions *)

(** [union header]; [size] counts headers. *)
Record header : Type := mkHeader {
  hd_ptr : Z;
  hd_size : Z;
}.

Definition sizeof_header : Z := 16.

(** The headers in memory, [freep] and the end of the data segment. *)
Record heap : Type := mkHeap {
  h_at : Z -> header;
  h_freep : Z;
  h_brk : Z;
}.

Definition put_header (a : Z) (f : header -> header) (h : heap) : heap :=
  mkHeap (fun x => if x =? a then f (h_at h a) else h_at h x) (h_freep h) (h_brk h).
Definition put_ptr (a v : Z) (h : heap) : heap := put_header a (fun d => mkHeader v (hd_size d)) h.
Definition put_size (a v : Z) (h : heap) : heap := put_header a (fun d => mkHeader (hd_ptr d) v) h.
Definition put_freep (v : Z) (h : heap) : heap := mkHeap (h_at h) v (h_brk h).
Definition put_brk (v : Z) (h : heap) : heap := mkHeap (h_at h) (h_freep h) v.

Definition ptr_of (a : Z) (h : heap) : Z := hd_ptr (h_at h a).
Definition size_of (a : Z) (h : heap) : Z := hd_size (h_at h a).

Definition get_ptr (a : Z) : M heap Z := gets (ptr_of a).
Definition get_size (a : Z) : M heap Z := gets (size_of a).
Definition set_ptr (a v : Z) : M heap unit := modify (put_ptr a v).
Definition set_size (a v : Z) : M heap unit := modify (put_size a v).
Definition set_freep (v : Z) : M heap unit := modify (put_freep v).

Section umalloc.
(** [base]: the address of the static header.  [avail brk n]: whether the
    kernel can add [n] bytes at [brk]. *)
Context (base : Z) (avail : Z -> Z -> bool).

(** [sbrk] returns the old end of the data segment, or -1. *)
Definition sbrk (n : Z) : M heap Z := fun h =>
  if avail (h_brk h) n then Ret (h_brk h) (put_brk (h_brk h + n) h) else Ret (-1) h.

(** A turn of the loop of [free], at [p]. *)
Definition free_step (bp p : Z) : M heap (Z + Z) :=
  let* nx := get_ptr p in
  if (p <? bp) && (bp <? nx) then ret (inr p) else
  if (nx <=? p) && ((p <? bp) || (bp <? nx)) then ret (inr p) else
  ret (inl nx).

(** Joining [bp] with the block after [p]. *)
Definition free_upper (bp p : Z) : M heap unit :=
  let* nx := get_ptr p in
  let* n := get_size bp in
  if bp + sizeof_header * n =? nx then
    let* n2 := get_size nx in
    set_size bp (u32 (n + n2)) ;;;
    let* nx2 := get_ptr nx in
    set_ptr bp nx2
  else set_ptr bp nx.

(** Joining [p] with [bp]. *)
Definition free_lower (bp p : Z) : M heap unit :=
  let* n := get_size p in
  if p + sizeof_header * n =? bp then
    let* n2 := get_size bp in
    set_size p (u32 (n + n2)) ;;;
    let* nx2 := get_ptr bp in
    set_ptr p nx2
  else set_ptr p bp.

Definition free (fuel : nat) (ap : Z) : M heap unit :=
  let bp := ap - sizeof_header in
  let* fp := gets h_freep in
  let* p := while_ fuel (free_step bp) fp in
  free_upper bp p ;;;
  free_lower bp p ;;;
  set_freep p.

Definition morecore (fuel : nat) (nu : Z) : M heap Z :=
  let nu := if nu <? 4096 then 4096 else nu in
  let* p := sbrk (s32 (nu * sizeof_header)) in
  if p =? -1 then ret 0 else
  set_size p nu ;;;
  free fuel (p + sizeof_header) ;;;
  gets h_freep.

(** A turn of the loop of [malloc]. *)
Definition malloc_step (fuel : nat) (nunits : Z) : Z * Z -> M heap (Z * Z + Z) :=
  fun '(prevp, p) =>
    let* n := get_size p in
    if nunits <=? n then
      let* p :=
        if n =? nunits then
          let* nx := get_ptr p in
          set_ptr prevp nx ;;;
          ret p
        else
          set_size p (u32 (n - nunits)) ;;;
          let p := p + sizeof_header * u32 (n - nunits) in
          set_size p nunits ;;;
          ret p in
      set_freep prevp ;;;
      ret (inr (p + sizeof_header))
    else
      let* fp := gets h_freep in
      if p =? fp then
        let* p := morecore fuel nunits in
        if p =? 0 then ret (inr 0) else
        let* nx := get_ptr p in
        ret (inl (p, nx))
      else
        let* nx := get_ptr p in
        ret (inl (p, nx)).

(** Two passes round the list, [morecore] between them. *)
Definition malloc (fuel : nat) (nbytes : Z) : M heap Z :=
  let nunits := u32 ((nbytes + sizeof_header - 1) / sizeof_header + 1) in
  let* fp := gets h_freep in
  (if fp =? 0 then
     set_freep base ;;;
     set_ptr base base ;;;
     set_size base 0
   else ret tt) ;;;
  let* prevp := gets h_freep in
  let* p := get_ptr prevp in
  while_ (2 * fuel) (malloc_step fuel nunits) (prevp, p).

End umalloc.

(** ** The invariant *)

(** A block: the address of its header and its size. *)
Local Abbreviation block := (Z * Z)%type.
Definition b_end (b : block) : Z := fst b + sizeof_header * snd b.

(** The blocks of [l] are linked from [p] on and the last one points to [e]. *)
Fixpoint chain (h : heap) (p : Z) (l : list block) (e : Z) : Prop :=
  match l with
  | [] => ptr_of p h = e
  | b :: l' => ptr_of p h = fst b /\ size_of (fst b) h = snd b /\ chain h (fst b) l' e
  end.

(** Ascending addresses, with a gap before each block. *)
Fixpoint spaced (lo : Z) (l : list block) : Prop :=
  match l with
  | [] => True
  | b :: l' => lo < fst b /\ 1 <= snd b /\ spaced (b_end b) l'
  end.

Definition apart (b c : block) : Prop := b_end b <= fst c \/ b_end c <= fst b.
Definition total (l : list block) : Z := foldr (fun b n => snd b + n) 0 l.

(** The blocks lie in the memory from [lo] to [hi], do not overlap, and fill it. *)
Record tiles (lo hi : Z) (l : list block) : Prop := {
  ti_in : Forall (fun b => lo <= fst b /\ 1 <= snd b /\ b_end b <= hi /\ (fst b - lo) mod sizeof_header = 0) l;
  ti_apart : ForallOrdPairs apart l;
  ti_total : sizeof_header * total l = hi - lo;
}.

(** [F]: the free blocks; [A]: the blocks the program holds; [lo]: where the
    heap starts. *)
Record heap_ok (base lo : Z) (h : heap) (F A : list block) : Prop := {
  hk_base : 0 < base /\ base + sizeof_header <= lo /\ lo mod sizeof_header = 0;
  hk_brk : h_brk h < 2 ^ 32;
  hk_freep : h_freep h ∈ base :: (fst <$> F);
  hk_size : size_of base h = 0;
  hk_chain : chain h base F base;
  hk_spaced : spaced base F;
  hk_held : Forall (fun b => size_of (fst b) h = snd b) A;
  hk_tiles : tiles lo (h_brk h) (F ++ A);
}.

(** ** Lemmas *)

(** *** Headers *)

Lemma ptr_put_ptr a v h x : ptr_of x (put_ptr a v h) = if x =? a then v else ptr_of x h.
Proof. unfold ptr_of, put_ptr, put_header. simpl. by destruct (x =? a). Qed.
Lemma size_put_ptr a v h x : size_of x (put_ptr a v h) = size_of x h.
Proof. unfold size_of, put_ptr, put_header. simpl. by destruct (Z.eqb_spec x a) as [->|]. Qed.
Lemma ptr_put_size a v h x : ptr_of x (put_size a v h) = ptr_of x h.
Proof. unfold ptr_of, put_size, put_header. simpl. by destruct (Z.eqb_spec x a) as [->|]. Qed.
Lemma size_put_size a v h x : size_of x (put_size a v h) = if x =? a then v else size_of x h.
Proof. unfold size_of, put_size, put_header. simpl. by destruct (x =? a). Qed.

(** *** Lists of blocks *)

(** The last block of the list that starts at [p], and the first block of a
    list that ends with [e]. *)
Definition last_of (p : Z) (l : list block) : Z := foldl (fun _ b => fst b) p l.
Definition first_of (l : list block) (e : Z) : Z := match l with [] => e | b :: _ => fst b end.

Lemma last_of_app p l1 l2 : last_of p (l1 ++ l2) = last_of (last_of p l1) l2.
Proof. apply foldl_app. Qed.

Lemma last_of_elem p l : last_of p l ∈ p :: (fst <$> l).
Proof.
  revert p. induction l as [|b l IH]; intros p; [apply list_elem_of_here|]. simpl. apply list_elem_of_further, IH.
Qed.

Lemma chain_app h p l1 l2 e :
  chain h p (l1 ++ l2) e <-> chain h p l1 (first_of l2 e) /\ chain h (last_of p l1) l2 e.
Proof.
  revert p. induction l1 as [|b l1 IH]; intros p; simpl; [destruct l2; simpl; tauto|]. rewrite IH. unfold last_of. tauto.
Qed.

(** A chain depends on where [p] points, on the pointers of its other blocks
    and on their sizes. *)
Lemma links_frame h h' p q l e :
  chain h p l e -> ptr_of q h' = ptr_of p h ->
  (forall x, x ∈ fst <$> l -> ptr_of x h' = ptr_of x h /\ size_of x h' = size_of x h) -> chain h' q l e.
Proof.
  revert p q. induction l as [|b l IH]; intros p q Hc Hp Hf; simpl in *; [congruence|].
  destruct Hc as (Hb & Hn & Hc). destruct (Hf (fst b)) as [Eb En]; [apply list_elem_of_here|].
  split; [congruence|]. split; [congruence|]. apply (IH (fst b) (fst b)); [done|done|].
  intros x Hx. apply Hf. by apply list_elem_of_further.
Qed.

(** Pointing the last block elsewhere. *)
Lemma chain_relink h h' p l e e' :
  chain h p l e -> NoDup (p :: (fst <$> l)) ->
  (forall x, x ∈ p :: (fst <$> l) -> x <> last_of p l -> ptr_of x h' = ptr_of x h) ->
  (forall x, x ∈ fst <$> l -> size_of x h' = size_of x h) -> ptr_of (last_of p l) h' = e' -> chain h' p l e'.
Proof.
  revert p. induction l as [|b l IH]; intros p Hc Hnd Hp Hs He; [done|]. simpl in Hc, Hnd. destruct Hc as (Hb & Hn & Hc).
  apply list.NoDup_cons in Hnd as [Hni Hnd]. split; [|split].
  - rewrite Hp; [done|apply list_elem_of_here|]. intros E. apply Hni. simpl in E. rewrite E. apply last_of_elem.
  - rewrite Hs; [done|apply list_elem_of_here].
  - apply IH; [done|done| | |done].
    + intros x Hx. apply Hp. by apply list_elem_of_further.
    + intros x Hx. apply Hs. by apply list_elem_of_further.
Qed.

Lemma spaced_lt lo l : spaced lo l -> forall b, b ∈ l -> lo < fst b /\ 1 <= snd b.
Proof.
  revert lo. induction l as [|c l IH]; intros lo Hs b Hb; [by apply elem_of_nil in Hb|]. destruct Hs as (H1 & H2 & Hs).
  apply elem_of_cons in Hb as [->|Hb]; [done|]. destruct (IH _ Hs b Hb). unfold b_end, sizeof_header in *. split; lia.
Qed.

Lemma spaced_mono lo lo' l : spaced lo l -> lo' <= lo -> spaced lo' l.
Proof. destruct l as [|b l]; [done|]. simpl. intros (? & ? & ?) ?. split; [lia|done]. Qed.

(** The end of the last block. *)
Definition end_of (lo : Z) (l : list block) : Z := foldl (fun _ b => b_end b) lo l.

Lemma spaced_app lo l1 l2 : spaced lo (l1 ++ l2) <-> spaced lo l1 /\ spaced (end_of lo l1) l2.
Proof. revert lo. induction l1 as [|b l1 IH]; intros lo; simpl; [tauto|]. rewrite IH. unfold end_of. tauto. Qed.

Lemma end_of_app lo l1 l2 : end_of lo (l1 ++ l2) = end_of (end_of lo l1) l2.
Proof. apply foldl_app. Qed.

Lemma spaced_end lo l : spaced lo l -> lo <= end_of lo l /\ forall b, b ∈ l -> b_end b <= end_of lo l.
Proof.
  revert lo. induction l as [|c l IH]; intros lo Hs; [split; [done|]; intros b Hb; by apply elem_of_nil in Hb|].
  destruct Hs as (H1 & H2 & Hs). destruct (IH _ Hs) as [E1 E2]. change (end_of lo (c :: l)) with (end_of (b_end c) l).
  assert (lo < b_end c) by (unfold b_end, sizeof_header; lia).
  split; [lia|]. intros b Hb. apply elem_of_cons in Hb as [->|Hb]; [lia|by apply E2].
Qed.

Lemma spaced_nodup lo l : spaced lo l -> NoDup (lo :: (fst <$> l)).
Proof.
  intros Hs. apply list.NoDup_cons. split.
  - intros Hin. apply list_elem_of_fmap in Hin as (b & E & Hb). destruct (spaced_lt _ _ Hs b Hb). lia.
  - revert lo Hs. induction l as [|c l IH]; intros lo Hs; [apply base.NoDup_nil_2|]. destruct Hs as (H1 & H2 & Hs).
    cbn [fmap list_fmap]. apply list.NoDup_cons. split; [|by eapply IH].
    intros Hin. apply list_elem_of_fmap in Hin as (b & E & Hb). destruct (spaced_lt _ _ Hs b Hb).
    unfold b_end, sizeof_header in *. lia.
Qed.

(** *** Tilings *)

Lemma apart_sym b c : apart b c -> apart c b.
Proof. unfold apart. tauto. Qed.

Lemma apart_all_perm l l' : l ≡ₚ l' -> ForallOrdPairs apart l -> ForallOrdPairs apart l'.
Proof.
  induction 1 as [|b l l' Hp IH|b c l|l l1 l2 _ IH1 _ IH2]; intros Ho; [done| | |auto].
  - inversion Ho as [|x y Hb Ho']; subst. constructor; [by rewrite <- Hp|auto].
  - inversion Ho as [|x y Hc Ho1]; subst. inversion Ho1 as [|x y Hb Ho2]; subst.
    apply list.Forall_cons in Hc as [Hbc Hc]. constructor; [|by constructor].
    constructor; [by apply apart_sym|done].
Qed.

Lemma total_perm l l' : l ≡ₚ l' -> total l = total l'.
Proof. induction 1; simpl; lia. Qed.

#[export] Instance tiles_proper lo hi : Proper ((≡ₚ) ==> iff) (tiles lo hi).
Proof.
  assert (forall l l', l ≡ₚ l' -> tiles lo hi l -> tiles lo hi l') as H.
  { intros l l' Hp [H1 H2 H3]. split; [by rewrite <- Hp|by eapply apart_all_perm|by rewrite <- (total_perm _ _ Hp)]. }
  intros l l' Hp. split; apply H; [done|by symmetry].
Qed.

Lemma total_app l l' : total (l ++ l') = total l + total l'.
Proof. induction l as [|b l IH]; simpl; lia. Qed.

(** Two adjacent blocks are as good as one. *)
Lemma tiles_merge lo hi a n m l :
  1 <= n -> 1 <= m ->
  tiles lo hi ((a, n) :: (a + sizeof_header * n, m) :: l) <-> tiles lo hi ((a, n + m) :: l).
Proof.
  unfold sizeof_header. intros Hn Hm. split.
  - intros [H1 H2 H3]. apply list.Forall_cons in H1 as [Ha H1]. apply list.Forall_cons in H1 as [Hb H1].
    inversion H2 as [|x y F1 H2']; subst. inversion H2' as [|x y F2 H2'']; subst.
    apply list.Forall_cons in F1 as [_ F1]. unfold b_end, sizeof_header in *. simpl in *.
    split.
    + constructor; [unfold b_end, sizeof_header; simpl; lia|done].
    + constructor; [|done]. rewrite list.Forall_forall in F1, F2, H1 |- *. intros c Hc.
      specialize (F1 c Hc). specialize (F2 c Hc). specialize (H1 c Hc). unfold apart, b_end, sizeof_header in *. simpl in *. lia.
    + simpl. unfold sizeof_header in *. lia.
  - intros [H1 H2 H3]. apply list.Forall_cons in H1 as [Ha H1]. inversion H2 as [|x y F1 H2']; subst.
    unfold b_end, sizeof_header in Ha. simpl in *. split.
    + repeat constructor; unfold b_end, sizeof_header; simpl; try lia; [|done].
      replace (a + 16 * n - lo) with (a - lo + n * 16) by lia. rewrite Z.mod_add by lia. tauto.
    + rewrite list.Forall_forall in F1. constructor; [|constructor; [|done]].
      * constructor; [unfold apart, b_end, sizeof_header; simpl; lia|]. rewrite list.Forall_forall. intros c Hc.
        specialize (F1 c Hc). unfold apart, b_end, sizeof_header in *. simpl in *. lia.
      * rewrite list.Forall_forall. intros c Hc. specialize (F1 c Hc). unfold apart, b_end, sizeof_header in *. simpl in *. lia.
    + simpl. unfold sizeof_header in *. lia.
Qed.

(** A new block at the end. *)
Lemma tiles_extend lo hi n l :
  lo <= hi -> (hi - lo) mod sizeof_header = 0 -> 1 <= n -> tiles lo hi l -> tiles lo (hi + sizeof_header * n) ((hi, n) :: l).
Proof.
  unfold sizeof_header. intros Hlo Hm Hn [H1 H2 H3]. rewrite list.Forall_forall in H1. split.
  - constructor; [unfold b_end, sizeof_header; simpl; lia|]. rewrite list.Forall_forall. intros c Hc. specialize (H1 c Hc). lia.
  - constructor; [|done]. rewrite list.Forall_forall. intros c Hc. specialize (H1 c Hc). unfold apart, b_end, sizeof_header in *. simpl. lia.
  - simpl. unfold sizeof_header in *. lia.
Qed.

(** Blocks are smaller than the heap. *)
Lemma tiles_size lo hi b l : tiles lo hi (b :: l) -> sizeof_header * snd b <= hi - lo.
Proof.
  intros [H1 _ H3]. simpl in H3. apply list.Forall_cons in H1 as [_ H1].
  assert (0 <= total l); [|unfold sizeof_header in *; lia]. clear H3. induction H1 as [|c l Hc _ IH]; simpl; lia.
Qed.

Lemma tiles_apart lo hi b l c : tiles lo hi (b :: l) -> c ∈ l -> apart b c /\ fst c <> fst b.
Proof.
  intros [H1 H2 _] Hc. apply list.Forall_cons in H1 as [Hb H1]. rewrite list.Forall_forall in H1. specialize (H1 c Hc).
  inversion H2 as [|x y F1 _]; subst. rewrite list.Forall_forall in F1. specialize (F1 c Hc).
  split; [done|]. unfold apart, b_end, sizeof_header in *. lia.
Qed.

Lemma tiles_distinct lo hi l l' b c : tiles lo hi (l ++ l') -> b ∈ l -> c ∈ l' -> fst c <> fst b.
Proof.
  intros Ht Hb Hc. apply elem_of_Permutation in Hb as (k & E). rewrite E in Ht.
  apply (tiles_apart _ _ _ _ c Ht). apply elem_of_app. by right.
Qed.

(** *** Walking round the list *)

Lemma chain_next h p l e i a :
  chain h p l e -> (p :: (fst <$> l)) !! i = Some a -> ptr_of a h = default e ((p :: (fst <$> l)) !! S i).
Proof.
  revert p i. induction l as [|b l IH]; intros p i Hc Hi; simpl in Hc.
  - destruct i as [|i]; [by injection Hi as <-|done].
  - destruct Hc as (Hb & _ & Hc). destruct i as [|i]; [by injection Hi as <-|]. by apply IH.
Qed.

Lemma spaced_sorted lo l i j a b :
  spaced lo l -> (lo :: (fst <$> l)) !! i = Some a -> (lo :: (fst <$> l)) !! j = Some b -> (i < j)%nat -> a < b.
Proof.
  revert lo i j. induction l as [|c l IH]; intros lo i j Hs Hi Hj Hij.
  - destruct j as [|[|j]]; [lia|done|done].
  - destruct j as [|j]; [lia|]. destruct i as [|i].
    + injection Hi as <-. change ((fst <$> c :: l) !! j = Some b) in Hj. apply list_elem_of_lookup_2 in Hj. apply list_elem_of_fmap in Hj as (d & -> & Hd).
      by apply (spaced_lt _ _ Hs).
    + apply (IH (fst c) i j); [|done|done|lia]. destruct Hs as (_ & H2 & Hs). eapply spaced_mono; [done|].
      unfold b_end, sizeof_header. lia.
Qed.

(** The steps from index [i] to index [k] of a circle of [n]. *)
Definition dist (n k i : nat) : nat := if decide (i <= k)%nat then (k - i)%nat else (n - i + k)%nat.

Section free.
Context (base : Z).

Definition circle (F : list block) : list Z := base :: (fst <$> F).

Lemma length_circle F : length (circle F) = S (length F).
Proof. unfold circle. simpl. by rewrite length_fmap. Qed.

Lemma circle_split F1 F2 i a :
  circle (F1 ++ F2) !! i = Some a ->
  ((i <= length F1)%nat /\ a ∈ circle F1) \/ ((length F1 < i)%nat /\ a ∈ fst <$> F2).
Proof.
  unfold circle. rewrite fmap_app. change (base :: ((fst <$> F1) ++ (fst <$> F2))) with ((circle F1) ++ (fst <$> F2)).
  pose proof (length_circle F1) as Hl. intros Hi. apply lookup_app_Some in Hi as [Hi|[Hle Hi]].
  - left. split; [|by apply list_elem_of_lookup_2 in Hi]. apply lookup_lt_Some in Hi. lia.
  - right. split; [lia|by apply list_elem_of_lookup_2 in Hi].
Qed.

Lemma circle_last F1 F2 : circle (F1 ++ F2) !! length F1 = Some (last_of base F1).
Proof.
  unfold circle. generalize base. induction F1 as [|b F1 IH]; intros c; [done|]. simpl. apply IH.
Qed.

(** The loop of [free] stops at the block before [bp], wherever it starts. *)
Lemma free_walk h F1 F2 bp :
  chain h base (F1 ++ F2) base -> spaced base (F1 ++ F2) -> base < bp ->
  (forall b, b ∈ F1 -> fst b < bp) -> (forall b, b ∈ F2 -> bp < fst b) ->
  forall fuel i a, circle (F1 ++ F2) !! i = Some a ->
  (dist (S (length (F1 ++ F2))) (length F1) i < fuel)%nat ->
  while_ fuel (free_step bp) a h = Ret (last_of base F1) h.
Proof.
  intros Hc Hs Hb H1 H2. set (C := circle (F1 ++ F2)). set (k := length F1). set (N := S (length (F1 ++ F2))).
  assert (length C = N) as HN by apply length_circle.
  assert (forall i a, C !! i = Some a -> base <= a /\ if decide (i <= k)%nat then a < bp else bp < a) as Hside.
  { intros i a Hi. destruct (circle_split _ _ _ _ Hi) as [[Hle Ha]|[Hlt Ha]].
    - rewrite decide_True by done. apply elem_of_cons in Ha as [->|Ha]; [lia|]. apply list_elem_of_fmap in Ha as (b & -> & Hb').
      split; [|by apply H1]. assert (b ∈ F1 ++ F2) as Hin by (apply elem_of_app; by left). destruct (spaced_lt _ _ Hs b Hin). lia.
    - rewrite decide_False by lia. apply list_elem_of_fmap in Ha as (b & -> & Hb'). specialize (H2 b Hb'). lia. }
  assert (C !! k = Some (last_of base F1)) as Hk by apply circle_last.
  assert (k < N)%nat as HkN by (apply lookup_lt_Some in Hk; lia).
  induction fuel as [|fuel IH]; intros i a Hi Hd; [lia|]. rewrite while_S.
  pose proof (chain_next _ _ _ _ _ _ Hc Hi) as Hn. fold (circle (F1 ++ F2)) in Hn. fold C in Hn.
  pose proof (lookup_lt_Some _ _ _ Hi) as Hlt. destruct (Hside _ _ Hi) as [Hba Ha].
  assert (free_step bp a h = Ret (if decide (i = k) then inr a else inl (default base (C !! S i))) h) as E.
  { unfold free_step, get_ptr. rewrite bind_gets, Hn. destruct (C !! S i) as [b|] eqn:Eb; unfold default, id.
    - pose proof (spaced_sorted _ _ _ _ _ _ Hs Hi Eb ltac:(lia)). destruct (Hside _ _ Eb) as [_ Hsb].
      destruct (Z.ltb_spec a bp), (Z.ltb_spec bp b), (Z.leb_spec b a); cbn [andb orb];
        repeat case_decide; try lia; done.
    - apply lookup_ge_None in Eb. rewrite (proj2 (Z.ltb_ge bp base)), andb_false_r, orb_false_r by lia.
      rewrite (proj2 (Z.leb_le base a)) by lia. cbn [andb].
      case_decide; case_decide; try lia.
      + by rewrite (proj2 (Z.ltb_lt a bp)) by lia.
      + by rewrite (proj2 (Z.ltb_ge a bp)) by lia. }
  rewrite (bind_Ret _ _ _ _ _ E). case_decide as Eik; [subst i; rewrite Hk in Hi; by injection Hi as <-|].
  unfold dist in Hd. destruct (C !! S i) as [b|] eqn:Eb; cbn [default].
  - apply (IH (S i) b Eb). unfold dist. case_decide; case_decide; lia.
  - apply lookup_ge_None in Eb. apply (IH 0%nat base eq_refl). unfold dist. case_decide; case_decide; lia.
Qed.

(** The header at [a] and nothing else changes. *)
Definition same_except (a : Z) (h h' : heap) : Prop :=
  (forall x, x <> a -> h_at h' x = h_at h x) /\ h_freep h' = h_freep h /\ h_brk h' = h_brk h.

Lemma same_except_put a f g h : same_except a h (put_header a f (put_header a g h)).
Proof. split; [|done]. intros x Hx. simpl. by rewrite (proj2 (Z.eqb_neq x a) Hx). Qed.

Lemma same_except_ptr a v h : same_except a h (put_ptr a v h).
Proof. split; [|done]. intros x Hx. simpl. by rewrite (proj2 (Z.eqb_neq x a) Hx). Qed.

Lemma same_except_of a h h' x : same_except a h h' -> x <> a -> ptr_of x h' = ptr_of x h /\ size_of x h' = size_of x h.
Proof. intros [Hs _] Hx. unfold ptr_of, size_of. by rewrite Hs. Qed.

(** The first half of [free]: [bp] takes over the rest of the list. *)
Lemma free_upper_run h F1 F2 bp n lo hi R :
  chain h base (F1 ++ F2) base -> spaced base (F1 ++ F2) -> tiles lo hi ((bp, n) :: F2 ++ R) ->
  base < bp -> (forall b, b ∈ F2 -> bp < fst b) -> hi - lo < 2 ^ 32 -> size_of bp h = n ->
  exists m F2' h', free_upper bp (last_of base F1) h = Ret tt h' /\ n <= m /\ size_of bp h' = m /\
    same_except bp h h' /\ chain h' bp F2' base /\ tiles lo hi ((bp, m) :: F2' ++ R) /\
    spaced (b_end (bp, m)) F2' /\ (length F2' <= length F2)%nat.
Proof.
  intros Hc Hs Ht Hb H2 Hhi Hn. apply chain_app in Hc as [Hc1 Hc2]. apply spaced_app in Hs as [_ Hs2].
  assert (1 <= n) as Hn1. { destruct Ht as [Ht _ _]. apply list.Forall_cons in Ht. simpl in Ht. tauto. }
  unfold free_upper, get_ptr, get_size, set_size, set_ptr. rewrite !bind_gets, Hn. destruct F2 as [|c F2].
  - simpl in Hc2. rewrite Hc2, (proj2 (Z.eqb_neq _ base)) by (unfold sizeof_header; lia).
    exists n, [], (put_ptr bp base h). split; [done|]. split; [done|]. split; [by rewrite size_put_ptr|].
    split; [apply same_except_ptr|]. split; [simpl; by rewrite ptr_put_ptr, Z.eqb_refl|]. done.
  - destruct Hc2 as (Hnx & Hnc & Hc2). destruct Hs2 as (_ & Hsc & Hs2). rewrite Hnx. destruct c as [c nc]. simpl in *.
    assert (bp < c) as Hbc by (apply (H2 (c, nc)), list_elem_of_here).
    destruct (tiles_apart _ _ _ _ (c, nc) Ht (list_elem_of_here _ _)) as [Hap _].
    destruct (Z.eqb_spec (bp + sizeof_header * n) c) as [E|E].
    + rewrite <- E in Ht. apply tiles_merge in Ht; [|done|done]. pose proof (tiles_size _ _ _ _ Ht) as Hsz. simpl in Hsz.
      rewrite !bind_gets, Hnc, u32_small by (unfold sizeof_header in Hsz; lia). rewrite bind_modify, bind_gets, ptr_put_size.
      eexists (n + nc), F2, _. split; [reflexivity|]. split; [lia|].
      split; [by rewrite size_put_ptr, size_put_size, Z.eqb_refl|].
      split; [apply same_except_put|]. split; [|split; [done|split; [|simpl; lia]]].
      * apply (links_frame h _ c bp); [done|by rewrite ptr_put_ptr, Z.eqb_refl|].
        intros x Hx. apply (same_except_of bp); [apply same_except_put|].
        apply list_elem_of_fmap in Hx as (d & -> & Hd). pose proof (H2 d (list_elem_of_further _ _ _ Hd)). lia.
      * unfold b_end in *. simpl in *. by replace (bp + sizeof_header * (n + nc)) with (c + sizeof_header * nc) by (unfold sizeof_header in *; lia).
    + exists n, ((c, nc) :: F2), (put_ptr bp c h). split; [done|]. split; [done|]. split; [by rewrite size_put_ptr|].
      split; [apply same_except_ptr|]. split; [|split; [done|split; [|done]]].
      * apply (links_frame h _ (last_of base F1) bp); [done|by rewrite ptr_put_ptr, Z.eqb_refl|].
        intros x Hx. apply (same_except_of bp); [apply same_except_ptr|].
        apply list_elem_of_fmap in Hx as (d & -> & Hd). pose proof (H2 d Hd). lia.
      * simpl. unfold apart, b_end in *. simpl in *. split; [|done]. unfold sizeof_header in *. lia.
Qed.

(** What the second half leaves behind. *)
Record freed (lo hi : Z) (p m : Z) (F1 F2 R F' : list block) (h h' : heap) : Prop := {
  fr_chain : chain h' base F' base;
  fr_spaced : spaced base F';
  fr_tiles : tiles lo hi (F' ++ R);
  fr_pred : p ∈ circle F';
  fr_large : exists c, c ∈ F' /\ m <= snd c;
  fr_length : (length F' <= length F1 + S (length F2))%nat;
  fr_sizes : forall x, x ∉ fst <$> F1 -> size_of x h' = size_of x h;
  fr_brk : h_brk h' = h_brk h;
}.

(** The block is linked between its neighbours. *)
Lemma freed_link lo hi bp m F1 F2 R e h :
  chain h base F1 e -> chain h bp F2 base -> size_of bp h = m -> spaced base F1 -> spaced (b_end (bp, m)) F2 ->
  tiles lo hi ((bp, m) :: F1 ++ F2 ++ R) -> end_of base F1 < bp ->
  freed lo hi (last_of base F1) m F1 F2 R (F1 ++ (bp, m) :: F2) h (put_ptr (last_of base F1) bp h).
Proof.
  intros Hc1 Hc2 Hm Hs1 Hs2 Ht He. set (p := last_of base F1).
  assert (1 <= m) as Hm1. { destruct Ht as [Ht _ _]. apply list.Forall_cons in Ht. simpl in Ht. tauto. }
  assert (p < bp) as Hp.
  { destruct (spaced_end _ _ Hs1) as [E1 E2]. pose proof (last_of_elem base F1) as Hin. fold p in Hin.
    apply elem_of_cons in Hin as [->|Hin]; [lia|]. apply list_elem_of_fmap in Hin as (c & -> & Hc). pose proof (E2 c Hc).
    destruct (spaced_lt _ _ Hs1 c Hc). unfold b_end, sizeof_header in *. lia. }
  split.
  - apply chain_app. split.
    + apply (chain_relink h _ _ _ e); [done|by apply spaced_nodup| |intros; apply size_put_ptr|by rewrite ptr_put_ptr, Z.eqb_refl].
      intros x _ Hx. rewrite ptr_put_ptr. by rewrite (proj2 (Z.eqb_neq x p) Hx).
    + split; [by rewrite ptr_put_ptr, Z.eqb_refl|]. split; [by rewrite size_put_ptr|].
      apply (links_frame h _ bp bp); [done|rewrite ptr_put_ptr; by rewrite (proj2 (Z.eqb_neq bp p)) by lia|].
      intros x Hx. rewrite ptr_put_ptr, size_put_ptr. apply list_elem_of_fmap in Hx as (c & -> & Hc).
      destruct (spaced_lt _ _ Hs2 c Hc). unfold b_end, sizeof_header in *. simpl in *. by rewrite (proj2 (Z.eqb_neq (fst c) p)) by lia.
  - apply spaced_app. split; [done|]. split; [done|]. done.
  - assert ((F1 ++ (bp, m) :: F2) ++ R ≡ₚ (bp, m) :: F1 ++ F2 ++ R) as ->; [|done].
    rewrite <- app_assoc. simpl. symmetry. apply Permutation_middle.
  - unfold circle. rewrite fmap_app. pose proof (last_of_elem base F1) as Hin. fold p in Hin.
    apply elem_of_cons in Hin as [->|Hin]; [apply list_elem_of_here|]. apply list_elem_of_further, elem_of_app. by left.
  - exists (bp, m). split; [|done]. apply elem_of_app. right. apply list_elem_of_here.
  - rewrite length_app. simpl. lia.
  - intros x _. apply size_put_ptr.
  - done.
Qed.

(** The block is joined with the one before it, [(c, nc)]. *)
Lemma freed_join lo hi c nc bp m G F2 R e h :
  chain h base (G ++ [(c, nc)]) e -> chain h bp F2 base -> spaced base (G ++ [(c, nc)]) -> spaced (b_end (bp, m)) F2 ->
  1 <= m -> c + sizeof_header * nc = bp -> tiles lo hi ((c, nc + m) :: G ++ F2 ++ R) ->
  freed lo hi c m (G ++ [(c, nc)]) F2 R (G ++ (c, nc + m) :: F2) h (put_ptr c (ptr_of bp h) (put_size c (nc + m) h)).
Proof.
  intros Hc1 Hc2 Hs1 Hs2 Hm1 E Ht. apply chain_app in Hc1 as [HcG (Hpc & _ & _)]. simpl in Hpc.
  apply spaced_app in Hs1 as [HsG (Hec & Hnc & _)]. simpl in Hec, Hnc. set (h' := put_ptr _ _ _).
  assert (same_except c h h') as Hse by apply same_except_put.
  destruct (spaced_end _ _ HsG) as [E1 E2].
  assert (forall x, x ∈ circle G -> x <> c) as HG.
  { intros x Hx. apply elem_of_cons in Hx as [->|Hx]; [lia|]. apply list_elem_of_fmap in Hx as (d & -> & Hd).
    pose proof (E2 d Hd). destruct (spaced_lt _ _ HsG d Hd). unfold b_end, sizeof_header in *. lia. }
  split.
  - apply chain_app. split.
    + apply (links_frame h _ base base); [done| |]; [apply (same_except_of c h); [done|apply HG, list_elem_of_here]|].
      intros x Hx. apply (same_except_of c h); [done|]. apply HG. by apply list_elem_of_further.
    + split; [|split]; simpl.
      * rewrite <- Hpc. apply (same_except_of c h); [done|]. apply HG, last_of_elem.
      * unfold h'. by rewrite size_put_ptr, size_put_size, Z.eqb_refl.
      * apply (links_frame h _ bp c); [done|unfold h'; by rewrite ptr_put_ptr, Z.eqb_refl|].
        intros x Hx. apply (same_except_of c h); [done|]. apply list_elem_of_fmap in Hx as (d & -> & Hd).
        destruct (spaced_lt _ _ Hs2 d Hd). unfold b_end, sizeof_header in *. simpl in *. lia.
  - apply spaced_app. split; [done|]. split; [done|]. split; [simpl; lia|]. unfold b_end in *. simpl in *.
    by replace (c + sizeof_header * (nc + m)) with (bp + sizeof_header * m) by (unfold sizeof_header in *; lia).
  - assert ((G ++ (c, nc + m) :: F2) ++ R ≡ₚ (c, nc + m) :: G ++ F2 ++ R) as ->; [|done].
    rewrite <- app_assoc. simpl. symmetry. apply Permutation_middle.
  - unfold circle. rewrite fmap_app. apply list_elem_of_further, elem_of_app. right. apply list_elem_of_here.
  - exists (c, nc + m). split; [|simpl; lia]. apply elem_of_app. right. apply list_elem_of_here.
  - rewrite !length_app. simpl. lia.
  - intros x Hx. apply (same_except_of c h); [done|]. intros ->. apply Hx. rewrite fmap_app. apply elem_of_app. right.
    apply list_elem_of_here.
  - done.
Qed.

Lemma free_lower_run lo hi bp m F1 F2 R e h :
  chain h base F1 e -> size_of base h = 0 -> chain h bp F2 base -> size_of bp h = m -> spaced base F1 ->
  spaced (b_end (bp, m)) F2 -> tiles lo hi ((bp, m) :: F1 ++ F2 ++ R) -> base < bp ->
  (forall b, b ∈ F1 -> fst b < bp) -> hi - lo < 2 ^ 32 ->
  exists F' h', free_lower bp (last_of base F1) h = Ret tt h' /\ freed lo hi (last_of base F1) m F1 F2 R F' h h'.
Proof.
  intros Hc1 H0 Hc2 Hm Hs1 Hs2 Ht Hb H1 Hhi. unfold free_lower, get_ptr, get_size, set_ptr, set_size. rewrite bind_gets.
  assert (1 <= m) as Hm1. { destruct Ht as [Ht _ _]. apply list.Forall_cons in Ht. simpl in Ht. tauto. }
  destruct F1 as [|[c nc] G _] using rev_ind.
  - change (last_of base []) with base. rewrite H0, Z.mul_0_r, Z.add_0_r, (proj2 (Z.eqb_neq base bp)) by lia.
    eexists _, _. split; [reflexivity|]. by apply (freed_link lo hi bp m [] F2 R e).
  - pose proof Hc1 as Hc1'. apply chain_app in Hc1' as [_ (_ & Hnc & _)]. simpl in Hnc.
    assert (c < bp) as Hcb by (apply (H1 (c, nc)), elem_of_app; right; apply list_elem_of_here).
    assert ((c, nc) ∈ (G ++ [(c, nc)]) ++ F2 ++ R) as Hin by (rewrite !elem_of_app; left; right; apply list_elem_of_here).
    destruct (tiles_apart _ _ _ _ (c, nc) Ht Hin) as [Hap _].
    pose proof Hs1 as Hs1'. apply spaced_app in Hs1' as [_ (_ & Hnc1 & _)]. simpl in Hnc1.
    rewrite last_of_app in *. simpl (last_of _ [_]). rewrite Hnc.
    destruct (Z.eqb_spec (c + sizeof_header * nc) bp) as [E|E].
    + assert (tiles lo hi ((c, nc + m) :: G ++ F2 ++ R)) as Ht'.
      { apply tiles_merge; [done|done|]. rewrite E. eapply tiles_proper; [|exact Ht].
        rewrite <- app_assoc. simpl. rewrite <- Permutation_middle. apply perm_swap. }
      pose proof (tiles_size _ _ _ _ Ht') as Hsz. simpl in Hsz.
      rewrite bind_gets, Hm, u32_small by (unfold sizeof_header in Hsz; lia). rewrite bind_modify, bind_gets, ptr_put_size.
      eexists _, _. split; [reflexivity|]. by apply (freed_join _ _ _ _ _ _ _ _ _ e).
    + eexists _, _. split; [reflexivity|]. pose proof (freed_link lo hi bp m (G ++ [(c, nc)]) F2 R e h) as Hl.
      rewrite last_of_app in Hl. apply Hl; try done. rewrite end_of_app. simpl. unfold apart, b_end in *. simpl in *.
      unfold sizeof_header in *. lia.
Qed.

Lemma spaced_split bp l : forall lo, spaced lo l -> (forall b, b ∈ l -> fst b <> bp) ->
  exists l1 l2, l = l1 ++ l2 /\ (forall b, b ∈ l1 -> fst b < bp) /\ (forall b, b ∈ l2 -> bp < fst b).
Proof.
  induction l as [|c l IH]; intros lo Hs Hne.
  - exists [], []. split; [done|]. split; intros b Hb; by apply elem_of_nil in Hb.
  - destruct Hs as (H1 & H2 & Hs). destruct (decide (fst c < bp)) as [Hlt|Hge].
    + destruct (IH _ Hs) as (l1 & l2 & -> & Hl1 & Hl2); [intros b Hb; apply Hne; by apply list_elem_of_further|].
      exists (c :: l1), l2. split; [done|]. split; [|done]. intros b Hb. apply elem_of_cons in Hb as [->|Hb]; [done|by apply Hl1].
    + exists [], (c :: l). split; [done|]. split; [intros b Hb; by apply elem_of_nil in Hb|].
      pose proof (Hne c (list_elem_of_here _ _)). intros b Hb. apply elem_of_cons in Hb as [->|Hb]; [lia|].
      destruct (spaced_lt _ _ Hs b Hb). unfold b_end, sizeof_header in *. lia.
Qed.

(** [free] of a held block makes it part of the free list. *)
Lemma free_run lo fuel h F A bp n :
  heap_ok base lo h F ((bp, n) :: A) -> (length F < fuel)%nat ->
  exists F' h', free fuel (bp + sizeof_header) h = Ret tt h' /\ heap_ok base lo h' F' A /\
    (length F' <= S (length F))%nat /\ (exists c, c ∈ F' /\ n <= snd c) /\ h_brk h' = h_brk h.
Proof.
  intros [[Hb0 [Hb1 Hb2]] Hbrk Hfp Hsz Hc Hs Hh Ht] Hf.
  apply list.Forall_cons in Hh as [Hbp Hh]. simpl in Hbp. rewrite <- Permutation_middle in Ht.
  assert (lo <= bp /\ b_end (bp, n) <= h_brk h /\ 1 <= n) as (Hlo & Hhi & Hn).
  { destruct Ht as [Hti _ _]. apply list.Forall_cons in Hti as [Hti _]. simpl in Hti. tauto. }
  assert (base < bp) as Hbbp by (unfold sizeof_header in Hb1; lia).
  destruct (spaced_split bp F base Hs) as (F1 & F2 & -> & H1 & H2).
  { intros b Hb. apply (tiles_apart _ _ _ _ b Ht). apply elem_of_app. by left. }
  assert (h_brk h - lo < 2 ^ 32) as Hsmall by (unfold sizeof_header in *; lia).
  unfold free. replace (bp + sizeof_header - sizeof_header) with bp by lia. rewrite bind_gets.
  apply list_elem_of_lookup_1 in Hfp as (i & Hi). set (p := last_of base F1).
  erewrite (bind_Ret (while_ _ _ _)); [|eapply (free_walk h F1 F2 bp Hc Hs Hbbp H1 H2); [exact Hi|]].
  2: { apply lookup_lt_Some in Hi. simpl in Hi. rewrite length_fmap in Hi. rewrite length_app in *. unfold dist. case_decide; lia. }
  destruct (free_upper_run h F1 F2 bp n lo (h_brk h) (F1 ++ A)) as (m & F2' & h1 & E1 & Hm & Hsz1 & Hse & Hc1 & Ht1 & Hs1 & Hl1); try done.
  { rewrite Permutation_app_swap_app. by rewrite <- app_assoc in Ht. }
  rewrite (bind_Ret _ _ _ _ _ E1). apply chain_app in Hc as [Hc _]. apply spaced_app in Hs as [Hs _].
  assert (chain h1 base F1 (first_of F2 base)) as Hc'.
  { apply (links_frame h _ base base); [done|apply (same_except_of bp h); [done|lia]|]. intros x Hx.
    apply (same_except_of bp h); [done|]. apply list_elem_of_fmap in Hx as (b & -> & Hb). specialize (H1 b Hb). lia. }
  destruct (free_lower_run lo (h_brk h) bp m F1 F2' A _ h1 Hc') as (F' & h2 & E2 & [K1 K2 K3 K4 K5 K6 K7 K8]); try done.
  { rewrite (proj2 (same_except_of bp h h1 base Hse ltac:(lia))). done. }
  { by rewrite Permutation_app_swap_app. }
  rewrite (bind_Ret _ _ _ _ _ E2). exists F', (put_freep p h2). split; [done|]. rewrite !length_app in *.
  assert (h_brk h2 = h_brk h) as Eb by (rewrite K8; apply Hse).
  pose proof Ht as Ht''. rewrite app_comm_cons in Ht''.
  split; [split; try done|split; [lia|split; [|done]]].
  - simpl. by rewrite Eb.
  - change (size_of base h2 = 0). rewrite K7; [rewrite (proj2 (same_except_of bp h h1 base Hse ltac:(lia))); done|].
    intros Hin. apply list_elem_of_fmap in Hin as (b & E & Hb). destruct (spaced_lt _ _ Hs b Hb). lia.
  - by apply (links_frame h2 _ base base).
  - rewrite list.Forall_forall in Hh |- *. intros b Hb. change (size_of (fst b) h2 = snd b). rewrite K7.
    + rewrite (proj2 (same_except_of bp h h1 (fst b) Hse (tiles_distinct _ _ _ _ (bp, n) b Ht'' (list_elem_of_here _ _) Hb))).
      by apply Hh.
    + intros Hin. apply list_elem_of_fmap in Hin as (c & E & Hc1'). apply (tiles_distinct _ _ _ _ c b Ht''); [|done|done].
      apply list_elem_of_further, elem_of_app. by left.
  - simpl. by rewrite Eb.
  - destruct K5 as (c & Hc5 & Hle). exists c. split; [done|lia].
Qed.
End free.

Section malloc.
Context (base : Z) (avail : Z -> Z -> bool) (lo : Z).

Lemma chain_size h p l e i b : chain h p l e -> l !! i = Some b -> size_of (fst b) h = snd b.
Proof.
  revert p i. induction l as [|c l IH]; intros p i Hc Hi; [done|]. destruct Hc as (_ & Hs & Hc).
  destruct i as [|i]; [by injection Hi as <-|by eapply IH].
Qed.

Lemma tiles_lo hi l : tiles lo hi l -> lo <= hi /\ (hi - lo) mod sizeof_header = 0.
Proof.
  intros [H1 _ H3]. assert (0 <= total l) as H0. { clear H3. induction H1 as [|c l Hc _ IH]; simpl; lia. }
  rewrite <- H3. split; [unfold sizeof_header in *; lia|]. rewrite Z.mul_comm. by apply Z.mod_mul.
Qed.

Lemma last_of_circle F1 F2 : last_of base F1 ∈ base :: (fst <$> F1 ++ F2).
Proof.
  rewrite fmap_app. pose proof (last_of_elem base F1) as Hin.
  apply elem_of_cons in Hin as [->|Hin]; [apply list_elem_of_here|]. apply list_elem_of_further, elem_of_app. by left.
Qed.

(** Taking a whole block off the free list. *)
Lemma take_all h F1 b m F2 A :
  heap_ok base lo h (F1 ++ (b, m) :: F2) A ->
  heap_ok base lo (put_freep (last_of base F1) (put_ptr (last_of base F1) (ptr_of b h) h)) (F1 ++ F2) ((b, m) :: A).
Proof.
  intros [Hb Hbrk Hfp Hsz Hc Hs Hh Ht]. set (p := last_of base F1). set (h' := put_ptr p _ h).
  apply chain_app in Hc as [Hc1 (Hpb & Hmb & Hc2)]. pose proof Hs as Hs0. apply spaced_app in Hs as [Hs1 (Heb & Hm1 & Hs2)].
  simpl in *. assert (b < b_end (b, m)) as Hbe by (unfold b_end, sizeof_header; simpl; lia).
  split; try done.
  - apply last_of_circle.
  - change (size_of base h' = 0). unfold h'. by rewrite size_put_ptr.
  - apply (links_frame h' _ base base); [|done|done]. apply chain_app. split.
    + apply (chain_relink h _ _ _ b); [done|by apply spaced_nodup| |intros; apply size_put_ptr|].
      * intros x _ Hx. unfold h'. rewrite ptr_put_ptr. by rewrite (proj2 (Z.eqb_neq x p) Hx).
      * unfold h'. rewrite ptr_put_ptr, Z.eqb_refl. destruct F2; [done|]. simpl in *. by destruct Hc2.
    + apply (links_frame h _ b p); [done|unfold h'; by rewrite ptr_put_ptr, Z.eqb_refl|]. intros x Hx. unfold h'.
      rewrite ptr_put_ptr, size_put_ptr. assert (x <> p) as Hxp; [|by rewrite (proj2 (Z.eqb_neq x p) Hxp)].
      intros ->. apply list_elem_of_fmap in Hx as (c & E & Hc). destruct (spaced_lt _ _ Hs2 c Hc).
      destruct (spaced_end _ _ Hs1) as [E1 E2]. pose proof (last_of_elem base F1) as Hin. fold p in Hin.
      apply elem_of_cons in Hin as [Hp|Hin]; [lia|]. apply list_elem_of_fmap in Hin as (d & Ed & Hd).
      pose proof (E2 d Hd). destruct (spaced_lt _ _ Hs1 d Hd). unfold b_end, sizeof_header in *. simpl in *. lia.
  - apply spaced_app. split; [done|]. eapply spaced_mono; [done|lia].
  - constructor; [change (size_of b h' = m); unfold h'; by rewrite size_put_ptr|].
    rewrite list.Forall_forall in Hh |- *. intros c Hc. change (size_of (fst c) h' = snd c). unfold h'. rewrite size_put_ptr. by apply Hh.
  - eapply tiles_proper; [|exact Ht]. by rewrite <- !Permutation_middle.
Qed.

(** Taking the end of a block. *)
Lemma take_part h F1 b m F2 A n :
  heap_ok base lo h (F1 ++ (b, m) :: F2) A -> 1 <= n < m ->
  let a := b + sizeof_header * (m - n) in
  heap_ok base lo (put_freep (last_of base F1) (put_size a n (put_size b (m - n) h))) (F1 ++ (b, m - n) :: F2) ((a, n) :: A).
Proof.
  intros [Hb Hbrk Hfp Hsz Hc Hs Hh Ht] Hn a. set (h' := put_size a n _).
  assert (b < a /\ a + sizeof_header * n = b_end (b, m)) as [Hba Hae] by (unfold a, b_end, sizeof_header; simpl; lia).
  apply chain_app in Hc as [Hc1 (Hpb & Hmb & Hc2)]. pose proof Hs as Hs0. apply spaced_app in Hs as [Hs1 (Heb & Hm1 & Hs2)].
  simpl in *. destruct (spaced_end _ _ Hs1) as [E1 E2].
  assert (forall x, ptr_of x h' = ptr_of x h) as Hptr by (intros x; unfold h'; by rewrite !ptr_put_size).
  assert (forall x, x <> a -> x <> b -> size_of x h' = size_of x h) as Hsize.
  { intros x Hxa Hxb. unfold h'. rewrite !size_put_size. by rewrite (proj2 (Z.eqb_neq x a) Hxa), (proj2 (Z.eqb_neq x b) Hxb). }
  assert (forall x, x ∈ fst <$> F1 -> x < b) as HF1.
  { intros x Hx. apply list_elem_of_fmap in Hx as (c & -> & Hc). pose proof (E2 c Hc). destruct (spaced_lt _ _ Hs1 c Hc).
    unfold b_end, sizeof_header in *. lia. }
  assert (forall x, x ∈ fst <$> F2 -> a < x) as HF2.
  { intros x Hx. apply list_elem_of_fmap in Hx as (c & -> & Hc). destruct (spaced_lt _ _ Hs2 c Hc).
    unfold b_end, sizeof_header in *. simpl in *. lia. }
  split; try done.
  - apply last_of_circle.
  - change (size_of base h' = 0). by rewrite Hsize by lia.
  - apply (links_frame h' _ base base); [|done|done]. apply chain_app. split.
    + apply (links_frame h _ base base); [done|done|]. intros x Hx. specialize (HF1 x Hx). split; [done|]. apply Hsize; lia.
    + simpl. split; [by rewrite Hptr|]. split.
      * unfold h'. rewrite !size_put_size, (proj2 (Z.eqb_neq b a)), Z.eqb_refl by lia. done.
      * apply (links_frame h _ b b); [done|done|]. intros x Hx. specialize (HF2 x Hx). split; [done|]. apply Hsize; lia.
  - apply spaced_app. split; [done|]. split; [done|]. split; [simpl; lia|]. eapply spaced_mono; [done|].
    unfold b_end, sizeof_header. simpl. lia.
  - constructor; [change (size_of a h' = n); unfold h'; by rewrite size_put_size, Z.eqb_refl|].
    rewrite list.Forall_forall in Hh |- *. intros c Hc. change (size_of (fst c) h' = snd c).
    rewrite <- Permutation_middle in Ht. simpl in Ht. assert (c ∈ (F1 ++ F2) ++ A) as Hin by (apply elem_of_app; by right).
    destruct (tiles_apart _ _ _ _ c Ht Hin) as [Hap Hcb]. simpl in Hcb. rewrite Hsize; [by apply Hh| |done].
    destruct Ht as [Hti _ _]. apply list.Forall_cons in Hti as [_ Hti]. rewrite list.Forall_forall in Hti. specialize (Hti c Hin).
    unfold apart, b_end, sizeof_header in *. simpl in *. lia.
  - rewrite <- Permutation_middle in Ht. simpl in Ht. replace m with ((m - n) + n) in Ht by lia.
    apply tiles_merge in Ht; [|lia|lia]. eapply tiles_proper; [|exact Ht]. fold a.
    rewrite <- !Permutation_middle. simpl. rewrite <- app_assoc. apply perm_swap.
Qed.

Lemma take_block_run fuel h F1 b m F2 A n :
  heap_ok base lo h (F1 ++ (b, m) :: F2) A -> 1 <= n <= m ->
  exists a F' h', malloc_step avail fuel n (last_of base F1, b) h = Ret (inr (a + sizeof_header)) h' /\
    heap_ok base lo h' F' ((a, n) :: A).
Proof.
  intros Hok Hn. pose proof Hok as [[Hb0 [Hb1 Hb2]] Hbrk _ _ Hc _ _ Ht].
  apply chain_app in Hc as [_ (_ & Hmb & _)]. simpl in Hmb.
  rewrite <- Permutation_middle in Ht. simpl in Ht. pose proof (tiles_size _ _ _ _ Ht) as Hmsz. simpl in Hmsz.
  unfold malloc_step, get_ptr, get_size, set_ptr, set_size, set_freep. rewrite bind_gets, Hmb, (proj2 (Z.leb_le n m)) by lia.
  destruct (Z.eqb_spec m n) as [->|Hne].
  - rewrite bind_assoc, bind_gets, bind_assoc, bind_modify, bind_ret_l, bind_modify.
    eexists b, _, _. split; [reflexivity|]. by apply take_all.
  - rewrite u32_small by (unfold sizeof_header in *; lia). rewrite bind_assoc, bind_modify, bind_assoc, bind_modify, bind_ret_l, bind_modify.
    eexists _, _, _. split; [reflexivity|]. apply take_part; [done|lia].
Qed.

(** The kernel keeps the data segment small. *)
Context (avail_small : forall brk n, avail brk n = true -> brk + n < 2 ^ 32).

Lemma morecore_run fuel h F A nu :
  heap_ok base lo h F A -> (length F < fuel)%nat -> 1 <= nu -> sizeof_header * Z.max 4096 nu < 2 ^ 31 ->
  if avail (h_brk h) (sizeof_header * Z.max 4096 nu)
  then exists F' h', morecore avail fuel nu h = Ret (h_freep h') h' /\ h_freep h' <> 0 /\ heap_ok base lo h' F' A /\
         (length F' <= S (length F))%nat /\ exists c, c ∈ F' /\ nu <= snd c
  else morecore avail fuel nu h = Ret 0 h.
Proof.
  intros Hok Hf Hnu Hmax. pose proof Hok as [[Hb0 [Hb1 Hb2]] Hbrk Hfp Hsz Hc Hs Hh Ht].
  destruct (tiles_lo _ _ Ht) as [Hlo Hmod]. set (k := Z.max 4096 nu) in *.
  unfold morecore. replace (if nu <? 4096 then 4096 else nu) with k by (destruct (Z.ltb_spec nu 4096); lia). cbv zeta.
  rewrite (Z.mul_comm k sizeof_header), s32_small by (unfold sizeof_header in *; lia).
  destruct (avail (h_brk h) (sizeof_header * k)) eqn:Ea.
  2: { assert (sbrk avail (sizeof_header * k) h = Ret (-1) h) as E by (unfold sbrk; by rewrite Ea). by rewrite (bind_Ret _ _ _ _ _ E). }
  set (h1 := put_brk (h_brk h + sizeof_header * k) h). set (h2 := put_size (h_brk h) k h1).
  assert (sbrk avail (sizeof_header * k) h = Ret (h_brk h) h1) as E by (unfold sbrk; by rewrite Ea).
  rewrite (bind_Ret _ _ _ _ _ E), (proj2 (Z.eqb_neq (h_brk h) (-1))) by (unfold sizeof_header in *; lia).
  unfold set_size. rewrite bind_modify. fold h2.
  assert (forall x, x <> h_brk h -> ptr_of x h2 = ptr_of x h /\ size_of x h2 = size_of x h) as Hsame.
  { intros x Hx. unfold h2. rewrite ptr_put_size, size_put_size. by rewrite (proj2 (Z.eqb_neq x _) Hx). }
  assert (forall b, b ∈ F ++ A -> fst b <> h_brk h) as Hne.
  { intros b Hb. destruct Ht as [Hti _ _]. rewrite list.Forall_forall in Hti. specialize (Hti b Hb). unfold b_end, sizeof_header in *. lia. }
  assert (heap_ok base lo h2 F ((h_brk h, k) :: A)) as Hok2.
  { split; try done.
    - simpl. by apply avail_small.
    - rewrite (proj2 (Hsame base ltac:(unfold sizeof_header in *; lia))). done.
    - apply (links_frame h _ base base); [done|apply Hsame; unfold sizeof_header in *; lia|].
      intros x Hx. apply list_elem_of_fmap in Hx as (b & -> & Hb). apply Hsame, Hne, elem_of_app. by left.
    - constructor; [unfold h2; by rewrite size_put_size, Z.eqb_refl|]. rewrite list.Forall_forall in Hh |- *. intros b Hb.
      rewrite (proj2 (Hsame (fst b) ltac:(apply Hne, elem_of_app; by right))). by apply Hh.
    - rewrite <- Permutation_middle. apply tiles_extend; [done|done|lia|done]. }
  destruct (free_run base lo fuel h2 F A (h_brk h) k Hok2 Hf) as (F' & h3 & E3 & Hok3 & Hl3 & (c & Hc3 & Hn3) & _).
  rewrite (bind_Ret _ _ _ _ _ E3). exists F', h3. split; [done|]. split; [|split; [done|split; [done|exists c; split; [done|lia]]]].
  destruct Hok3 as [_ _ Hfp3 _ _ Hs3 _ _]. apply elem_of_cons in Hfp3 as [->|Hfp3]; [lia|].
  apply list_elem_of_fmap in Hfp3 as (d & -> & Hd). destruct (spaced_lt _ _ Hs3 d Hd). lia.
Qed.

(** The block at index [i], when it fits, and the one before it. *)
Lemma fitting_block h F n i p prevp :
  size_of base h = 0 -> chain h base F base -> 1 <= n <= size_of p h -> circle base F !! i = Some p ->
  (forall i', i = S i' -> circle base F !! i' = Some prevp) ->
  exists F1 m F2, F = F1 ++ (p, m) :: F2 /\ n <= m /\ prevp = last_of base F1.
Proof.
  intros Hsz Hc Hn Hi Hprev. destruct i as [|i]; [injection Hi as <-; lia|]. specialize (Hprev i eq_refl).
  change ((fst <$> F) !! i = Some p) in Hi.
  apply list_lookup_fmap_Some in Hi as ([q m] & Ep & E). simpl in Ep. subst q. pose proof (chain_size _ _ _ _ _ _ Hc E) as Hm. simpl in *.
  pose proof (take_drop_middle _ _ _ E) as EF. exists (take i F), m, (drop (S i) F). split; [exact (eq_sym EF)|]. split; [lia|].
  apply lookup_lt_Some in E. rewrite <- EF in Hprev. pose proof (circle_last base (take i F) ((p, m) :: drop (S i) F)) as Hl.
  rewrite length_take_le in Hl by lia. congruence.
Qed.

(** The search from index [i] of the list up to [freep], at index [f]. *)
Lemma malloc_scan fuel h F A n f :
  heap_ok base lo h F A -> 1 <= n -> circle base F !! f = Some (h_freep h) ->
  forall d i p prevp fuel', circle base F !! i = Some p -> (forall i', i = S i' -> circle base F !! i' = Some prevp) ->
  dist (S (length F)) f i = d ->
  (exists F1 b m F2 fuel2, F = F1 ++ (b, m) :: F2 /\ n <= m /\
     while_ (S (d + fuel')) (malloc_step avail fuel n) (prevp, p) h =
     while_ (S fuel2) (malloc_step avail fuel n) (last_of base F1, b) h) \/
  ((forall j a, circle base F !! j = Some a -> (dist (S (length F)) f j <= d)%nat -> size_of a h < n) /\
   exists prevp', while_ (S (d + fuel')) (malloc_step avail fuel n) (prevp, p) h =
     while_ (S fuel') (malloc_step avail fuel n) (prevp', h_freep h) h).
Proof.
  intros [_ _ _ Hsz Hc Hs _ _] Hn Hf. pose proof (length_circle base F) as HN.
  pose proof (lookup_lt_Some _ _ _ Hf) as Hfl. intros d. induction d as [|d IH]; intros i p prevp fuel' Hi Hprev Hd;
    pose proof (lookup_lt_Some _ _ _ Hi) as Hil;
    (destruct (decide (n <= size_of p h)) as [Hfit|Hfit];
     [left; destruct (fitting_block h F n i p prevp) as (F1 & m & F2 & E1 & E2 & E3); try done;
      exists F1, p, m, F2; eexists; split; [done|]; split; [done|]; rewrite E3; reflexivity|]).
  - right. assert (i = f) as -> by (unfold dist in Hd; case_decide; lia). split.
    + intros j a Hj Hdj. pose proof (lookup_lt_Some _ _ _ Hj). assert (j = f) as -> by (unfold dist in Hdj; case_decide; lia).
      assert (a = p) as -> by congruence. lia.
    + exists prevp. simpl. assert (p = h_freep h) as -> by congruence. done.
  - assert (i <> f) as Hif by (intros ->; unfold dist in Hd; case_decide; lia).
    assert (p <> h_freep h) as Hpf.
    { intros ->. destruct (Nat.lt_total i f) as [Hlt|[?|Hlt]]; [|done|].
      - pose proof (spaced_sorted _ _ _ _ _ _ Hs Hi Hf Hlt). lia.
      - pose proof (spaced_sorted _ _ _ _ _ _ Hs Hf Hi Hlt). lia. }
    assert (malloc_step avail fuel n (prevp, p) h = Ret (inl (p, ptr_of p h)) h) as E.
    { unfold malloc_step, get_size, get_ptr. rewrite bind_gets, (proj2 (Z.leb_gt n _)), bind_gets by lia.
      by rewrite (proj2 (Z.eqb_neq _ _) Hpf), bind_gets. }
    change (S (S d + fuel')) with (S (S (d + fuel'))). rewrite while_S, (bind_Ret _ _ _ _ _ E).
    rewrite (chain_next _ _ _ _ _ _ Hc Hi). fold (circle base F).
    assert (exists i1, circle base F !! i1 = Some (default base (circle base F !! S i)) /\
      (forall i', i1 = S i' -> circle base F !! i' = Some p) /\ dist (S (length F)) f i1 = d) as (i1 & Hi1 & Hp1 & Hd1).
    { destruct (circle base F !! S i) as [b|] eqn:Eb; unfold default, id.
      - exists (S i). split; [done|]. split; [by intros i' [= <-]|]. unfold dist in *. case_decide; case_decide; lia.
      - apply lookup_ge_None in Eb. exists 0%nat. split; [done|]. split; [done|]. unfold dist in *. case_decide; case_decide; lia. }
    destruct (IH i1 _ p fuel' Hi1 Hp1 Hd1) as [H|[Hall H]]; [by left|right]. split; [|done].
    intros j a Hj Hdj. destruct (decide (dist (S (length F)) f j <= d)%nat) as [Hle|Hgt]; [by eapply Hall|].
    assert (j = i) as ->; [|assert (a = p) as -> by congruence; lia].
    pose proof (lookup_lt_Some _ _ _ Hj). unfold dist in *. repeat case_decide; lia.
Qed.

(** A pass round the list. *)
Lemma malloc_pass fuel h F A n fuel' :
  heap_ok base lo h F A -> 1 <= n ->
  (exists a F' h', while_ (S (length F + fuel')) (malloc_step avail fuel n) (h_freep h, ptr_of (h_freep h) h) h =
     Ret (a + sizeof_header) h' /\ heap_ok base lo h' F' ((a, n) :: A)) \/
  ((forall c, c ∈ F -> snd c < n) /\ size_of (h_freep h) h < n /\
   exists prevp, while_ (S (length F + fuel')) (malloc_step avail fuel n) (h_freep h, ptr_of (h_freep h) h) h =
     while_ (S fuel') (malloc_step avail fuel n) (prevp, h_freep h) h).
Proof.
  intros Hok Hn. pose proof Hok as [_ _ Hfp Hsz Hc _ _ _]. apply list_elem_of_lookup_1 in Hfp as (f & Hf). fold (circle base F) in Hf.
  pose proof (lookup_lt_Some _ _ _ Hf) as Hfl. rewrite length_circle in Hfl.
  assert (exists i, circle base F !! i = Some (ptr_of (h_freep h) h) /\
    (forall i', i = S i' -> circle base F !! i' = Some (h_freep h)) /\ dist (S (length F)) f i = length F) as (i & Hi & Hp & Hd).
  { rewrite (chain_next _ _ _ _ _ _ Hc Hf). fold (circle base F). destruct (circle base F !! S f) as [b|] eqn:Eb; unfold default, id.
    - exists (S f). split; [done|]. split; [by intros i' [= <-]|]. unfold dist. case_decide; lia.
    - apply lookup_ge_None in Eb. rewrite length_circle in Eb. exists 0%nat. split; [done|]. split; [done|].
      unfold dist. case_decide; lia. }
  destruct (malloc_scan fuel h F A n f Hok Hn Hf _ i _ _ fuel' Hi Hp Hd) as [(F1 & b & m & F2 & fuel2 & -> & Hm & E)|[Hall H]].
  - left. destruct (take_block_run fuel h F1 b m F2 A n Hok ltac:(lia)) as (a & F' & h' & E' & Hok').
    exists a, F', h'. split; [|done]. by rewrite E, while_S, (bind_Ret _ _ _ _ _ E').
  - right. split; [|split; [|done]].
    + intros c Hin. apply list_elem_of_lookup_1 in Hin as (j & Hj). rewrite <- (chain_size _ _ _ _ _ _ Hc Hj).
      pose proof (lookup_lt_Some _ _ _ Hj). apply (Hall (S j)); [|unfold dist; case_decide; lia].
      change ((fst <$> F) !! j = Some (fst c)). by rewrite list_lookup_fmap, Hj.
    + apply (Hall f); [done|]. unfold dist. case_decide; lia.
Qed.

Lemma malloc_run fuel h F A n :
  heap_ok base lo h F A -> (length F + 2 <= fuel)%nat -> 1 <= n -> sizeof_header * Z.max 4096 n < 2 ^ 31 ->
  exists r F' h', while_ (2 * fuel) (malloc_step avail fuel n) (h_freep h, ptr_of (h_freep h) h) h = Ret r h' /\
    ((r = 0 /\ h' = h /\ avail (h_brk h) (sizeof_header * Z.max 4096 n) = false) \/
     exists a, r = a + sizeof_header /\ heap_ok base lo h' F' ((a, n) :: A)).
Proof.
  intros Hok Hf Hn Hmax. replace (2 * fuel)%nat with (S (length F + (2 * fuel - length F - 1))) by lia.
  destruct (malloc_pass fuel h F A n (2 * fuel - length F - 1) Hok Hn) as [(a & F' & h' & E & Hok')|(Hsmall & Hfp & prevp & E)].
  { exists (a + sizeof_header), F', h'. split; [done|]. right. by exists a. }
  rewrite E, while_S. clear E. pose proof (morecore_run fuel h F A n Hok ltac:(lia) Hn Hmax) as Hm.
  destruct (avail (h_brk h) (sizeof_header * Z.max 4096 n)).
  - destruct Hm as (F1 & h1 & Em & Hne & Hok1 & Hl1 & c & Hc & Hcn).
    assert (malloc_step avail fuel n (prevp, h_freep h) h = Ret (inl (h_freep h1, ptr_of (h_freep h1) h1)) h1) as E.
    { unfold malloc_step, get_size, get_ptr. rewrite bind_gets, (proj2 (Z.leb_gt n _)), bind_gets, Z.eqb_refl by lia.
      rewrite (bind_Ret _ _ _ _ _ Em). by rewrite (proj2 (Z.eqb_neq _ 0) Hne), bind_gets. }
    rewrite (bind_Ret _ _ _ _ _ E).
    replace (2 * fuel - length F - 1)%nat with (S (length F1 + (2 * fuel - length F - length F1 - 2))) by lia.
    destruct (malloc_pass fuel h1 F1 A n (2 * fuel - length F - length F1 - 2) Hok1 Hn) as [(a & F' & h' & E' & Hok')|(Hs1 & _)].
    + exists (a + sizeof_header), F', h'. split; [done|]. right. by exists a.
    + specialize (Hs1 c Hc). lia.
  - assert (malloc_step avail fuel n (prevp, h_freep h) h = Ret (inr 0) h) as E.
    { unfold malloc_step, get_size, get_ptr. rewrite bind_gets, (proj2 (Z.leb_gt n _)), bind_gets, Z.eqb_refl by lia.
      by rewrite (bind_Ret _ _ _ _ _ Hm). }
    rewrite (bind_Ret _ _ _ _ _ E). exists 0, F, h. split; [done|]. by left.
Qed.

(** Before the first call nothing is initialised. *)
Definition heap_new (h : heap) : Prop :=
  h_freep h = 0 /\ h_brk h = lo /\ lo < 2 ^ 32 /\ 0 < base /\ base + sizeof_header <= lo /\ lo mod sizeof_header = 0.

Lemma heap_start h : heap_new h -> heap_ok base lo (put_size base 0 (put_ptr base base (put_freep base h))) [] [].
Proof.
  intros (Hfp & Hbrk & Hlo & Hb). split; try done; simpl.
  - by rewrite Hbrk.
  - apply list_elem_of_here.
  - by rewrite size_put_size, Z.eqb_refl.
  - by rewrite ptr_put_size, ptr_put_ptr, Z.eqb_refl.
  - rewrite Hbrk. split; [constructor|constructor|simpl; lia].
Qed.
End malloc.

Lemma heap_ok_perm base lo h F A A' : A ≡ₚ A' -> heap_ok base lo h F A -> heap_ok base lo h F A'.
Proof. intros Hp []. split; try done; by rewrite <- Hp. Qed.

Lemma heap_ok_apart base lo h F b A : heap_ok base lo h F (b :: A) -> Forall (apart b) A.
Proof.
  intros [_ _ _ _ _ _ _ Ht]. rewrite <- Permutation_middle in Ht. rewrite list.Forall_forall. intros c Hc.
  apply (tiles_apart _ _ _ _ c Ht). apply elem_of_app. by right.
Qed.

(** ** Properties *)

(** C8: the allocator keeps its invariant: the free list is circular, sorted
    by address and fully coalesced, and the free blocks and the blocks the
    program holds tile the memory obtained from [sbrk], so that no two overlap
    and no unit is lost.  [malloc] terminates and returns a block of at least
    [nbytes] that overlaps no block held, or 0 when the kernel refuses to add
    memory; it may be the first call.  [free] of a held block terminates and
    gives it back.  The heap stays below [2 ^ 32], and [nbytes] is at most
    [2 ^ 31 - 48]: the request to [sbrk], rounded up to whole units with the
    header, fits an [int]. *)
Theorem malloc_free_correct base avail lo fuel h F A nbytes :
  (forall brk n, avail brk n = true -> brk + n < 2 ^ 32) ->
  heap_ok base lo h F A \/ (heap_new base lo h /\ F = [] /\ A = []) ->
  (length F + 2 <= fuel)%nat -> 0 <= nbytes <= 2 ^ 31 - 48 ->
  (exists r h', malloc base avail fuel nbytes h = Ret r h' /\
     ((r = 0 /\ heap_ok base lo h' F A /\ exists n, avail (h_brk h) n = false) \/
      exists a n F', r = a + sizeof_header /\ nbytes <= sizeof_header * (n - 1) /\
        heap_ok base lo h' F' ((a, n) :: A) /\ Forall (apart (a, n)) A)) /\
  (forall a n A', heap_ok base lo h F A -> A ≡ₚ (a, n) :: A' ->
     exists F' h', free fuel (a + sizeof_header) h = Ret tt h' /\ heap_ok base lo h' F' A').
Proof.
  intros Hav Hh Hf Hnb. split.
  - set (n := (nbytes + sizeof_header - 1) / sizeof_header + 1).
    assert (1 <= n /\ nbytes <= sizeof_header * (n - 1) /\ sizeof_header * n < 2 ^ 31) as (Hn1 & Hn2 & Hn3).
    { unfold n, sizeof_header. pose proof (Z.div_mod (nbytes + 16 - 1) 16 ltac:(lia)).
      pose proof (Z.mod_pos_bound (nbytes + 16 - 1) 16 ltac:(lia)). lia. }
    set (h0 := if h_freep h =? 0 then put_size base 0 (put_ptr base base (put_freep base h)) else h).
    assert (heap_ok base lo h0 F A /\ h_brk h0 = h_brk h) as [Hok Eb].
    { unfold h0. destruct Hh as [Hh|(Hh & -> & ->)].
      - pose proof Hh as [Hb _ Hfp _ _ Hs _ _]. destruct (Z.eqb_spec (h_freep h) 0) as [E|]; [|done]. exfalso. rewrite E in Hfp.
        apply elem_of_cons in Hfp as [?|Hfp]; [lia|]. apply list_elem_of_fmap in Hfp as (b & E' & Hb').
        destruct (spaced_lt _ _ Hs b Hb'). lia.
      - pose proof Hh as [-> _]. split; [|done]. by apply heap_start. }
    assert (malloc base avail fuel nbytes h = while_ (2 * fuel) (malloc_step avail fuel n) (h_freep h0, ptr_of (h_freep h0) h0) h0) as ->.
    { unfold malloc. fold n. rewrite u32_small by (unfold sizeof_header in *; lia). rewrite bind_gets. unfold h0.
      by destruct (h_freep h =? 0). }
    destruct (malloc_run base avail lo Hav fuel h0 F A n Hok Hf Hn1) as (r & F' & h' & E & Hr).
    { destruct (Z.max_spec 4096 n) as [[_ ->]|[_ ->]]; [done|]. unfold sizeof_header. lia. }
    exists r, h'. split; [done|]. destruct Hr as [(-> & -> & Hno)|(a & -> & Hok')].
    + left. split; [done|]. split; [done|]. rewrite <- Eb. by eexists.
    + right. exists a, n, F'. split; [done|]. split; [done|]. split; [done|]. by eapply heap_ok_apart.
  - intros a n A' Hok Hp. destruct (free_run base lo fuel h F A' a n) as (F' & h' & E & Hok' & _); [by eapply heap_ok_perm|lia|].
    by exists F', h'.
Qed.

(** A first call, with a megabyte of memory. *)
Definition sample_avail (brk n : Z) : bool := brk + n <? 2 ^ 20.
Definition sample_heap : heap := mkHeap (fun _ => mkHeader 0 0) 0 4096.

Lemma malloc_free_correct_witness :
  exists r h', malloc 1024 sample_avail 3 100 sample_heap = Ret r h' /\ r <> 0.
Proof.
  destruct (malloc_free_correct 1024 sample_avail 4096 3 sample_heap [] [] 100) as [(r & h' & E & Hr) _].
  - intros brk n Hn. apply Z.ltb_lt in Hn. lia.
  - right. split; [|done]. by vm_compute.
  - simpl. lia.
  - lia.
  - exists r, h'. split; [exact E|]. assert (exists h1, malloc 1024 sample_avail 3 100 sample_heap = Ret 69520 h1) as (h1 & E1).
    { eexists. vm_compute. reflexivity. }
    rewrite E1 in E. injection E as <- _. lia.
Defined.
