(* ===== verification/Shell.v ===== *)
(** * The shell: sh.c

    The parser turns a line into a tree of [struct cmd]s, [runcmd] runs the
    tree.  [Shparse] has the theorem about the parser. *)

From Stdlib Require Import ZArith Lia.
From stdpp Require Import base gmap list strings numbers.
From S2P Require Import Prelude Riscv State Klib Uart User Cmds.

(** ** The state *)

Definition MAXARGS : nat := 10.

(** A [struct cmd]; the constructors are the types.  A pointer to a character
    of the line is an offset in [buf]; a pointer to a command is 0 or one more
    than its place in the heap. *)
Inductive cmd : Type :=
| EXEC (argv eargv : list (option nat))
| REDIR (sub : nat) (file efile : nat) (mode fd : Z)
| PIPE (left right : nat)
| LIST (left right : nat)
| BACK (sub : nat).

(** The shell's memory, [sh_room] being the number of commands that [malloc]
    can still make room for, and the system. *)
Record sh (St : Type) : Type := mkSh {
  sh_heap : list cmd;
  sh_room : nat;
  sh_buf : list Z;
  sh_sys : St;
}.
Arguments mkSh {St}.
Arguments sh_heap {St}.
Arguments sh_room {St}.
Arguments sh_buf {St}.
Arguments sh_sys {St}.

(** A string constant, and the string at an offset. *)
Definition ch (b : list Z) (s : nat) : Z := default 0 (b !! s).
Definition str_at (b : list Z) (s : nat) : list Z := c_string (drop s b).

(** ** Tokens *)

Definition whitespace : list Z := [32; 9; 13; 10; 11].
Definition symbols : list Z := cstr "<|>&;()".

Definition has (set : list Z) (c : Z) : bool :=
  match u_strchr set c with Some _ => true | None => false end.

(** [while(s < es && p( *s )) s++], with [n] characters before [es]. *)
Fixpoint skip (p : Z -> bool) (b : list Z) (n s : nat) : nat :=
  match n with
  | O => s
  | S n' => if p (ch b s) then skip p b n' (S s) else s
  end.

Definition skip_space (b : list Z) (es s : nat) : nat := skip (has whitespace) b (es - s) s.

(** The token at [*ps]: what [gettoken] returns, [*q], [*eq] and the new
    [*ps]. *)
Definition gettoken (b : list Z) (es s : nat) : Z * nat * nat * nat :=
  let s := skip_space b es s in
  let q := s in
  let c := ch b s in
  let '(r, s) :=
    if c =? 0 then (c, s)
    else if (c =? chr "|") || (c =? chr "(") || (c =? chr ")") || (c =? chr ";") || (c =? chr "&") || (c =? chr "<")
    then (c, S s)
    else if c =? chr ">" then
      if ch b (S s) =? chr ">" then (chr "+", S (S s)) else (c, S s)
    else (chr "a", skip (fun c => negb (has whitespace c) && negb (has symbols c)) b (es - s) s) in
  (r, q, s, skip_space b es s).

Definition peek (b : list Z) (es s : nat) (toks : list Z) : bool * nat :=
  let s := skip_space b es s in
  (negb (ch b s =? 0) && has toks (ch b s), s).

Section shell.
Context {St : Type} `{Sy : Sys St}.

(** A system call, from the shell. *)
Definition sys {A} (m : M St A) : M (sh St) A := fun w =>
  match m (sh_sys w) with
  | Ret a s => Ret a (mkSh (sh_heap w) (sh_room w) (sh_buf w) s)
  | Panic msg => Panic msg
  | Swtch s => Swtch (mkSh (sh_heap w) (sh_room w) (sh_buf w) s)
  | Hang s => Hang (mkSh (sh_heap w) (sh_room w) (sh_buf w) s)
  | Fault msg => Fault msg
  | NoFuel => NoFuel
  end.

Definition get_buf : M (sh St) (list Z) := gets sh_buf.
Definition set_buf (b : list Z) : M (sh St) unit := modify (fun w => mkSh (sh_heap w) (sh_room w) b (sh_sys w)).

Definition sh_panic {A} (s : string) : M (sh St) A :=
  sys (u_fprintf 2 (line "%s") [PStr (Some (cstr s))]) ;;; sys (u_exit 1).

Definition fork1 : M (sh St) Z :=
  let* pid := sys u_fork in
  when (pid =? -1) (sh_panic "fork") ;;;
  ret pid.

(** *** Constructors *)

(** [malloc] followed by [memset] and the assignments to the fields; without
    memory, the null pointer is written through. *)
Definition new (c : cmd) : M (sh St) nat := fun w =>
  match sh_room w with
  | O => Fault "malloc"
  | S r => Ret (S (length (sh_heap w))) (mkSh (sh_heap w ++ [c]) r (sh_buf w) (sh_sys w))
  end.

Definition get (p : nat) : M (sh St) cmd := fun w =>
  match p with
  | O => Fault "cmd"
  | S i => match sh_heap w !! i with Some c => Ret c w | None => Fault "cmd" end
  end.

Definition put (p : nat) (c : cmd) : M (sh St) unit :=
  modify (fun w => mkSh (<[pred p := c]> (sh_heap w)) (sh_room w) (sh_buf w) (sh_sys w)).

Definition execcmd : M (sh St) nat := new (EXEC (replicate MAXARGS None) (replicate MAXARGS None)).
Definition redircmd (subcmd file efile : nat) (mode fd : Z) : M (sh St) nat := new (REDIR subcmd file efile mode fd).
Definition pipecmd (left right : nat) : M (sh St) nat := new (PIPE left right).
Definition listcmd (left right : nat) : M (sh St) nat := new (LIST left right).
Definition backcmd (subcmd : nat) : M (sh St) nat := new (BACK subcmd).

(** *** Parsing *)

(** Each function returns the command and the new [*ps].  The body of the loop
    of [parseredirs]: *)
Definition redir_turn (b : list Z) (es : nat) : nat * nat -> M (sh St) (nat * nat + nat * nat) :=
  fun '(cmd, s) =>
    let '(more, s) := peek b es s (cstr "<>") in
    if negb more then ret (inr (cmd, s)) else
    let '(tok, _, _, s) := gettoken b es s in
    let '(tok', q, eq, s) := gettoken b es s in
    if negb (tok' =? chr "a") then sh_panic "missing file for redirection" else
    let* cmd :=
      if tok =? chr "<" then redircmd cmd q eq O_RDONLY 0
      else if tok =? chr ">" then redircmd cmd q eq (Z.lor (Z.lor O_WRONLY O_CREATE) O_TRUNC) 1
      else if tok =? chr "+" then redircmd cmd q eq (Z.lor O_WRONLY O_CREATE) 1
      else ret cmd in
    ret (inl (cmd, s)).

Definition parseredirs (cmd s es : nat) : M (sh St) (nat * nat) :=
  let* b := get_buf in
  while_ (S es) (redir_turn b es) (cmd, s).

(** [cmd->argv[i] = q; cmd->eargv[i] = eq]. *)
Definition set_arg (p i : nat) (q eq : option nat) : M (sh St) unit :=
  let* c := get p in
  match c with
  | EXEC argv eargv =>
      if Nat.ltb i MAXARGS then put p (EXEC (<[i := q]> argv) (<[i := eq]> eargv)) else fault "argv"
  | _ => fault "argv"
  end.

(** The body of [parseexec]'s loop; [cmd] is the [execcmd] and [r] the command
    with its redirections. *)
Definition arg_turn (b : list Z) (es cmd : nat) : nat * nat * nat -> M (sh St) (nat * nat * nat + nat * nat * nat) :=
  fun '(argc, r, s) =>
    let '(stop, s) := peek b es s (cstr "|)&;") in
    if stop then ret (inr (argc, r, s)) else
    let '(tok, q, eq, s) := gettoken b es s in
    if tok =? 0 then ret (inr (argc, r, s)) else
    if negb (tok =? chr "a") then sh_panic "syntax" else
    set_arg cmd argc (Some q) (Some eq) ;;;
    let argc := S argc in
    if Nat.leb MAXARGS argc then sh_panic "too many args" else
    let* x := parseredirs r s es in
    ret (inl (argc, fst x, snd x)).

(** The loop and what follows it. *)
Definition parseargs (cmd r s es : nat) : M (sh St) (nat * nat) :=
  let* b := get_buf in
  let* res := while_ (S es) (arg_turn b es cmd) (O, r, s) in
  let '(argc, r, s) := res in
  set_arg cmd argc None None ;;;
  ret (r, s).

(** The body of [parseline]'s loop. *)
Definition back_turn (b : list Z) (es : nat) : nat * nat -> M (sh St) (nat * nat + nat * nat) :=
  fun '(cmd, s) =>
    let '(more, s) := peek b es s (cstr "&") in
    if negb more then ret (inr (cmd, s)) else
    let '(_, _, _, s) := gettoken b es s in
    let* cmd := backcmd cmd in
    ret (inl (cmd, s)).

(** The functions call each other; each call but the first is for a part of
    the line, so that a fuel of [4 * strlen + 4] is enough. *)
Fixpoint parseline (fuel s es : nat) : M (sh St) (nat * nat) :=
  match fuel with
  | O => nofuel
  | S fuel =>
      let* x := parsepipe fuel s es in
      let* b := get_buf in
      let* x := while_ (S es) (back_turn b es) x in
      let '(cmd, s) := x in
      let '(more, s) := peek b es s (cstr ";") in
      if more then
        let '(_, _, _, s) := gettoken b es s in
        let* y := parseline fuel s es in
        let* cmd := listcmd cmd (fst y) in
        ret (cmd, snd y)
      else ret (cmd, s)
  end
with parsepipe (fuel s es : nat) : M (sh St) (nat * nat) :=
  match fuel with
  | O => nofuel
  | S fuel =>
      let* x := parseexec fuel s es in
      let* b := get_buf in
      let '(more, s) := peek b es (snd x) (cstr "|") in
      if more then
        let '(_, _, _, s) := gettoken b es s in
        let* y := parsepipe fuel s es in
        let* cmd := pipecmd (fst x) (fst y) in
        ret (cmd, snd y)
      else ret (fst x, s)
  end
with parseexec (fuel s es : nat) : M (sh St) (nat * nat) :=
  match fuel with
  | O => nofuel
  | S fuel =>
      let* b := get_buf in
      let '(block, s) := peek b es s (cstr "(") in
      if block then parseblock fuel s es else
      let* cmd := execcmd in
      let* x := parseredirs cmd s es in
      parseargs cmd (fst x) (snd x) es
  end
with parseblock (fuel s es : nat) : M (sh St) (nat * nat) :=
  match fuel with
  | O => nofuel
  | S fuel =>
      let* b := get_buf in
      let '(opened, s) := peek b es s (cstr "(") in
      if negb opened then sh_panic "parseblock" else
      let '(_, _, _, s) := gettoken b es s in
      let* x := parseline fuel s es in
      let '(closed, s) := peek b es (snd x) (cstr ")") in
      if negb closed then sh_panic "syntax - missing )" else
      let '(_, _, _, s) := gettoken b es s in
      parseredirs (fst x) s es
  end.

(** [for(i=0; argv[i]; i++) *eargv[i] = 0]. *)
Fixpoint nul_args (argv eargv : list (option nat)) (b : list Z) : option (list Z) :=
  match argv, eargv with
  | None :: _, _ => Some b
  | Some _ :: argv', Some e :: eargv' => nul_args argv' eargv' (<[e := 0]> b)
  | _, _ => None
  end.

(** A command is built from older ones: as many turns as there are commands. *)
Fixpoint nulterminate (fuel : nat) (p : nat) : M (sh St) unit :=
  match fuel with
  | O => nofuel
  | S fuel =>
      if Nat.eqb p 0 then ret tt else
      let* c := get p in
      match c with
      | EXEC argv eargv =>
          let* b := get_buf in
          match nul_args argv eargv b with Some b' => set_buf b' | None => fault "argv" end
      | REDIR sub _ efile _ _ =>
          nulterminate fuel sub ;;;
          let* b := get_buf in set_buf (<[efile := 0]> b)
      | PIPE lhs rhs => nulterminate fuel lhs ;;; nulterminate fuel rhs
      | LIST lhs rhs => nulterminate fuel lhs ;;; nulterminate fuel rhs
      | BACK sub => nulterminate fuel sub
      end
  end.

Definition parsecmd (s : nat) : M (sh St) nat :=
  let* b := get_buf in
  let es := (s + Z.to_nat (u_strlen (drop s b)))%nat in
  let* x := parseline (4 * es + 4) s es in
  let '(_, s) := peek b es (snd x) [] in
  if negb (Nat.eqb s es) then
    sys (u_fprintf 2 (line "leftovers: %s") [PStr (Some (str_at b s))]) ;;;
    sh_panic "syntax"
  else
  let* n := gets (fun w => length (sh_heap w)) in
  nulterminate (S n) (fst x) ;;;
  ret (fst x).

(** *** Running *)

(** The strings of [argv]. *)
Fixpoint arg_strs (b : list Z) (argv : list (option nat)) : list (list Z) :=
  match argv with
  | Some q :: argv' => str_at b q :: arg_strs b argv'
  | _ => []
  end.

(** [runcmd] never returns: it ends in [exit], or in a successful [exec]. *)
Fixpoint runcmd (fuel : nat) (p : nat) : M (sh St) unit :=
  match fuel with
  | O => nofuel
  | S fuel =>
      if Nat.eqb p 0 then sys (u_exit 1) else
      let* c := get p in
      let* b := get_buf in
      (match c with
       | EXEC argv _ =>
           match arg_strs b argv with
           | [] => sys (u_exit 1)
           | a :: args =>
               let* _ := sys (u_exec a (a :: args)) in
               sys (u_fprintf 2 (line "exec %s failed") [PStr (Some a)])
           end
       | REDIR sub file _ mode fd =>
           let* _ := sys (u_close fd) in
           let* r := sys (u_open (str_at b file) mode) in
           when (r <? 0)
             (sys (u_fprintf 2 (line "open %s failed") [PStr (Some (str_at b file))]) ;;; sys (u_exit 1)) ;;;
           runcmd fuel sub
       | LIST lhs rhs =>
           let* pid := fork1 in
           when (pid =? 0) (runcmd fuel lhs) ;;;
           let* _ := sys u_wait in
           runcmd fuel rhs
       | PIPE lhs rhs =>
           let* r := sys u_pipe in
           let '(p0, p1) := snd r in
           when (fst r <? 0) (sh_panic "pipe") ;;;
           let* pid := fork1 in
           when (pid =? 0)
             (let* _ := sys (u_close 1) in let* _ := sys (u_dup p1) in
              let* _ := sys (u_close p0) in let* _ := sys (u_close p1) in
              runcmd fuel lhs) ;;;
           let* pid := fork1 in
           when (pid =? 0)
             (let* _ := sys (u_close 0) in let* _ := sys (u_dup p0) in
              let* _ := sys (u_close p0) in let* _ := sys (u_close p1) in
              runcmd fuel rhs) ;;;
           let* _ := sys (u_close p0) in
           let* _ := sys (u_close p1) in
           let* _ := sys u_wait in
           let* _ := sys u_wait in
           ret tt
       | BACK sub =>
           let* pid := fork1 in
           when (pid =? 0) (runcmd fuel sub)
       end) ;;;
      sys (u_exit 0)
  end.

Definition sizeof_buf : nat := 100.

Definition getcmd (nbuf : nat) : M (sh St) Z :=
  sys (u_fprintf 2 (cstr "$ ") []) ;;;
  let* l := sys (u_gets (Z.of_nat nbuf)) in
  set_buf (l ++ replicate (nbuf - length l) 0) ;;;
  let* b := get_buf in
  ret (if ch b 0 =? 0 then -1 else 0).

(** The loop that opens the console until descriptor 3 is given out. *)
Definition open_console (fuel : nat) : M (sh St) unit :=
  while_ fuel (fun _ : unit =>
    let* fd := sys (u_open (cstr "console") O_RDWR) in
    if 0 <=? fd then
      if 3 <=? fd then let* _ := sys (u_close fd) in ret (inr tt) else ret (inl tt)
    else ret (inr tt)) tt.

(** A turn of the loop over the lines: [false] at the end of the input. *)
Definition sh_turn : M (sh St) bool :=
  let* r := getcmd sizeof_buf in
  if negb (0 <=? r) then ret false else
  let* b := get_buf in
  if (ch b 0 =? chr "c") && (ch b 1 =? chr "d") && (ch b 2 =? chr " ") then
    let b' := <[(Z.to_nat (u_strlen b) - 1)%nat := 0]> b in
    set_buf b' ;;;
    let* r := sys (u_chdir (str_at b' 3)) in
    when (r <? 0) (sys (u_fprintf 2 (line "cannot cd %s") [PStr (Some (str_at b' 3))])) ;;;
    ret true
  else
  let* pid := fork1 in
  when (pid =? 0)
    (let* p := parsecmd 0 in
     let* n := gets (fun w => length (sh_heap w)) in
     runcmd (S n) p) ;;;
  let* _ := sys u_wait in
  ret true.

Definition sh_main (fuel : nat) : M (sh St) unit :=
  open_console fuel ;;;
  while_ fuel (fun _ : unit => let* more := sh_turn in ret (if more : bool then inl tt else inr tt)) tt ;;;
  sys (u_exit 0).
End shell.
