(* ===== verification/Shparse.v ===== *)
(** * The shell's parser

    The grammar of the shell's lines and what they mean, and the proof that
    [parsecmd] builds the command a line stands for. *)

From Stdlib Require Import ZArith Lia.
From stdpp Require Import base gmap list strings numbers.
From S2P Require Import Prelude Riscv State Klib Uart User Cmds Shell.

(** ** The grammar *)

Inductive rkind : Type := Input | Output | Append.
Definition redirection : Type := rkind * list Z.

(** A line is a pipeline with some [&] after it, and maybe more after a [;]; a
    simple command has redirections and, after each word, more of them. *)
Inductive shline : Type :=
| LineEnd (p : pipeline) (back : nat)
| LineSeq (p : pipeline) (back : nat) (l : shline)
with pipeline : Type :=
| PipeEnd (e : simple)
| PipeMore (e : simple) (p : pipeline)
with simple : Type :=
| Simple (rs : list redirection) (args : list (list Z * list redirection))
| Block (l : shline) (rs : list redirection).

Scheme shline_ind3 := Induction for shline Sort Prop
  with pipeline_ind3 := Induction for pipeline Sort Prop
  with simple_ind3 := Induction for simple Sort Prop.
Combined Scheme grammar_ind from shline_ind3, pipeline_ind3, simple_ind3.

(** The command that a line stands for. *)
Inductive command : Type :=
| CExec (argv : list (list Z))
| CRedir (c : command) (file : list Z) (mode fd : Z)
| CPipe (l r : command)
| CList (l r : command)
| CBack (c : command).

Definition rmode (k : rkind) : Z :=
  match k with
  | Input => O_RDONLY
  | Output => Z.lor (Z.lor O_WRONLY O_CREATE) O_TRUNC
  | Append => Z.lor O_WRONLY O_CREATE
  end.
Definition rfd (k : rkind) : Z := match k with Input => 0 | _ => 1 end.

Definition redirected (c : command) (rs : list redirection) : command :=
  foldl (fun c r => CRedir c (snd r) (rmode (fst r)) (rfd (fst r))) c rs.

Fixpoint meaning (l : shline) : command :=
  match l with
  | LineEnd p n => Nat.iter n CBack (pipe_meaning p)
  | LineSeq p n l => CList (Nat.iter n CBack (pipe_meaning p)) (meaning l)
  end
with pipe_meaning (p : pipeline) : command :=
  match p with
  | PipeEnd e => simple_meaning e
  | PipeMore e p => CPipe (simple_meaning e) (pipe_meaning p)
  end
with simple_meaning (e : simple) : command :=
  match e with
  | Simple rs args => redirected (CExec args.*1) (rs ++ concat args.*2)
  | Block l rs => redirected (meaning l) rs
  end.

(** The number of [struct cmd]s of a command. *)
Fixpoint csize (c : command) : nat :=
  match c with
  | CExec _ => 1
  | CRedir c _ _ _ => S (csize c)
  | CPipe l r => S (csize l + csize r)
  | CList l r => S (csize l + csize r)
  | CBack c => S (csize c)
  end.

(** The tokens of a line. *)
Inductive token : Type :=
| Sym (c : Z)
| Word (w : list Z).

(** [>>] is the symbol ['+'], as in [gettoken]. *)
Definition redir_toks (r : redirection) : list token :=
  [Sym match fst r with Input => chr "<" | Output => chr ">" | Append => chr "+" end; Word (snd r)].

Definition redirs_toks (rs : list redirection) : list token := concat (redir_toks <$> rs).

Fixpoint line_toks (l : shline) : list token :=
  match l with
  | LineEnd p n => pipe_toks p ++ replicate n (Sym (chr "&"))
  | LineSeq p n l => pipe_toks p ++ replicate n (Sym (chr "&")) ++ Sym (chr ";") :: line_toks l
  end
with pipe_toks (p : pipeline) : list token :=
  match p with
  | PipeEnd e => simple_toks e
  | PipeMore e p => simple_toks e ++ Sym (chr "|") :: pipe_toks p
  end
with simple_toks (e : simple) : list token :=
  match e with
  | Simple rs args => redirs_toks rs ++ concat ((fun a => Word (fst a) :: redirs_toks (snd a)) <$> args)
  | Block l rs => Sym (chr "(") :: line_toks l ++ Sym (chr ")") :: redirs_toks rs
  end.

(** At most 9 words in a command. *)
Fixpoint few_args (l : shline) : Prop :=
  match l with
  | LineEnd p _ => few_pipe p
  | LineSeq p _ l => few_pipe p /\ few_args l
  end
with few_pipe (p : pipeline) : Prop :=
  match p with
  | PipeEnd e => few_simple e
  | PipeMore e p => few_simple e /\ few_pipe p
  end
with few_simple (e : simple) : Prop :=
  match e with
  | Simple _ args => (length args < MAXARGS)%nat
  | Block l _ => few_args l
  end.

Definition is_space (c : Z) : bool := has whitespace c.
Definition word_char (c : Z) : bool := negb (has whitespace c) && negb (has symbols c).
Definition is_word (w : list Z) : Prop := w <> [] /\ Forall (fun c => word_char c = true /\ c <> 0) w.

(** The text [u] consists of the tokens, with white space before and after
    them; it may be left out where it is not needed. *)
Inductive spells : list Z -> list token -> Prop :=
| sp_end ws : Forall (fun c => is_space c = true) ws -> spells ws []
| sp_sym ws c u toks : Forall (fun c => is_space c = true) ws -> c ∈ cstr "|();&<" ->
    spells u toks -> spells (ws ++ c :: u) (Sym c :: toks)
| sp_out ws u toks : Forall (fun c => is_space c = true) ws -> head u <> Some (chr ">") ->
    spells u toks -> spells (ws ++ chr ">" :: u) (Sym (chr ">") :: toks)
| sp_append ws u toks : Forall (fun c => is_space c = true) ws ->
    spells u toks -> spells (ws ++ chr ">" :: chr ">" :: u) (Sym (chr "+") :: toks)
| sp_word ws w u toks : Forall (fun c => is_space c = true) ws -> is_word w ->
    (forall c, head u = Some c -> word_char c = false) ->
    spells u toks -> spells (ws ++ w ++ u) (Word w :: toks).

(** The command at [p] in the heap; [wd] says what word is between two offsets
    of the line. *)
Fixpoint args_at (wd : nat -> nat -> list Z -> Prop) (argv eargv : list (option nat)) (ws : list (list Z)) {struct ws} : Prop :=
  match ws with
  | [] => head argv = Some None
  | w :: ws =>
      match argv, eargv with
      | Some q :: argv, Some e :: eargv => wd q e w /\ args_at wd argv eargv ws
      | _, _ => False
      end
  end.

Inductive tree (wd : nat -> nat -> list Z -> Prop) (h : list cmd) : nat -> command -> Prop :=
| tree_exec i argv eargv ws :
    h !! i = Some (EXEC argv eargv) -> args_at wd argv eargv ws -> tree wd h (S i) (CExec ws)
| tree_redir i sub q e mode fd c f :
    h !! i = Some (REDIR sub q e mode fd) -> (sub <= i)%nat -> wd q e f -> tree wd h sub c ->
    tree wd h (S i) (CRedir c f mode fd)
| tree_pipe i p1 p2 c1 c2 :
    h !! i = Some (PIPE p1 p2) -> (p1 <= i)%nat -> (p2 <= i)%nat -> tree wd h p1 c1 -> tree wd h p2 c2 ->
    tree wd h (S i) (CPipe c1 c2)
| tree_list i p1 p2 c1 c2 :
    h !! i = Some (LIST p1 p2) -> (p1 <= i)%nat -> (p2 <= i)%nat -> tree wd h p1 c1 -> tree wd h p2 c2 ->
    tree wd h (S i) (CList c1 c2)
| tree_back i sub c :
    h !! i = Some (BACK sub) -> (sub <= i)%nat -> tree wd h sub c -> tree wd h (S i) (CBack c).

(** ** Lemmas: tokens *)

Lemma has_spec set c : 0 ∉ set -> has set c = bool_decide (c ∈ set).
Proof.
  intros H0. unfold has. induction set as [|a set IH]; [done|]. cbn [u_strchr].
  apply not_elem_of_cons in H0 as [Ha H0]. specialize (IH H0). rewrite (proj2 (Z.eqb_neq a 0)) by done.
  destruct (Z.eqb_spec a c) as [->|Hne]; [symmetry; apply bool_decide_eq_true; by left|].
  destruct (u_strchr set c); symmetry in IH.
  - apply bool_decide_eq_true in IH. symmetry. apply bool_decide_eq_true. by right.
  - apply bool_decide_eq_false in IH. symmetry. apply bool_decide_eq_false. rewrite elem_of_cons. intros [?|?]; done.
Qed.

Lemma space_spec c : has whitespace c = bool_decide (c ∈ whitespace).
Proof. apply has_spec. by refine (bool_decide_unpack _ _). Qed.

Lemma symbol_spec c : has symbols c = bool_decide (c ∈ symbols).
Proof. apply has_spec. by refine (bool_decide_unpack _ _). Qed.

(** Symbols are not white space. *)
Lemma symbol_not_space c : c ∈ symbols -> has whitespace c = false.
Proof.
  intros Hc. rewrite space_spec. apply bool_decide_eq_false. intros Hs. revert Hc Hs. unfold symbols, whitespace. simpl.
  rewrite !elem_of_cons, !elem_of_nil. lia.
Qed.

Lemma word_not c set : word_char c = true -> set ⊆ symbols -> 0 ∉ set -> has set c = false.
Proof.
  intros [_ Hs]%andb_true_iff Hsub H0. rewrite symbol_spec in Hs. rewrite has_spec by done. apply bool_decide_eq_false.
  intros Hc%Hsub. rewrite bool_decide_eq_true_2 in Hs by done. done.
Qed.

Section text.
(** The line [t] in the buffer. *)
Context (t r : list Z).
Notation b := (t ++ 0 :: r).
Notation es := (length t).

Lemma ch_in s c u : drop s t = c :: u -> ch b s = c /\ drop (S s) t = u /\ (s < es)%nat.
Proof.
  intros E. assert (t !! s = Some c) as Hc by (by rewrite <- (Nat.add_0_r s), <- lookup_drop, E).
  pose proof (lookup_lt_Some _ _ _ Hc). unfold ch. rewrite lookup_app_l, Hc by done. split; [done|]. split; [|done].
  replace (S s) with (s + 1)%nat by lia. by rewrite <- drop_drop, E.
Qed.

Lemma ch_end : ch b es = 0.
Proof. unfold ch. by rewrite lookup_app_r, Nat.sub_diag by done. Qed.

Lemma drop_end s : (s <= es)%nat -> drop s t = [] -> s = es.
Proof. intros Hs E. apply (f_equal length) in E. rewrite length_drop in E. simpl in E. lia. Qed.

Lemma skip_run p s u v :
  (s <= es)%nat -> drop s t = u ++ v -> Forall (fun c => p c = true) u -> (forall c, head v = Some c -> p c = false) ->
  skip p b (es - s) s = (s + length u)%nat /\ drop (s + length u) t = v.
Proof.
  intros Hs E Hu Hv. revert s Hs E. induction Hu as [|c u Hc Hu IH]; intros s Hs E.
  - rewrite Nat.add_0_r. split; [|done]. simpl in E. destruct (es - s)%nat eqn:En; [done|]. simpl.
    destruct v as [|c v]; [apply drop_end in E; [lia|done]|]. destruct (ch_in s c v E) as (-> & _). by rewrite Hv.
  - destruct (ch_in s c (u ++ v) E) as (Ec & E' & Hlt). replace (es - s)%nat with (S (es - S s))%nat by lia. simpl.
    rewrite Ec, Hc. destruct (IH (S s)) as [-> E2]; [lia|done|]. rewrite Nat.add_succ_r in *. done.
Qed.

(** The tokens from [s] on. *)
Definition at_ (s : nat) (toks : list token) : Prop := (s <= es)%nat /\ spells (drop s t) toks.

(** The first character of a token. *)
Definition lead (tok : token) : Z :=
  match tok with
  | Sym c => if c =? chr "+" then chr ">" else c
  | Word w => default 0 (head w)
  end.

(** The token, from its first character on. *)
Inductive starts : token -> list Z -> list Z -> Prop :=
| st_sym c u : c ∈ cstr "|();&<" -> starts (Sym c) (c :: u) u
| st_out u : head u <> Some (chr ">") -> starts (Sym (chr ">")) (chr ">" :: u) u
| st_append u : starts (Sym (chr "+")) (chr ">" :: chr ">" :: u) u
| st_word w u : is_word w -> (forall c, head u = Some c -> word_char c = false) -> starts (Word w) (w ++ u) u.

Lemma spells_cons u tok toks :
  spells u (tok :: toks) <-> exists ws v v', u = ws ++ v /\ Forall (fun c => is_space c = true) ws /\ starts tok v v' /\ spells v' toks.
Proof.
  split.
  - intros H. inversion H; subst; eexists ws, _, _; (split; [reflexivity|]); (split; [done|]); (split; [by constructor|done]).
  - intros (ws & v & v' & -> & Hws & Hst & Hsp). destruct Hst; [by apply sp_sym|by apply sp_out|by apply sp_append|by apply sp_word].
Qed.

Lemma starts_lead tok v v' : starts tok v v' -> exists u, v = lead tok :: u /\ has whitespace (lead tok) = false /\ lead tok <> 0.
Proof.
  intros H. destruct H as [c u Hc|u _|u|w u [Hne Hw] _].
  - exists u. assert (c <> chr "+" /\ c ∈ symbols /\ c <> 0) as (Hp & Hs & H0).
    { revert Hc. unfold symbols. simpl. rewrite !elem_of_cons, !elem_of_nil. unfold chr. simpl. lia. }
    unfold lead. rewrite (proj2 (Z.eqb_neq _ _)) by done. split; [done|]. split; [by apply symbol_not_space|done].
  - by exists u.
  - by exists (chr ">" :: u).
  - destruct w as [|c w]; [done|]. exists (w ++ u). split; [done|]. apply list.Forall_cons in Hw as [[Hc H0] _].
    unfold lead. simpl. split; [|done]. apply andb_true_iff in Hc as [Hc _]. by apply negb_true_iff.
Qed.

Lemma skip_space_at s toks :
  at_ s toks -> let s' := skip_space b es s in at_ s' toks /\ (s <= s')%nat /\
  match toks with
  | [] => s' = es
  | tok :: toks => exists v v', drop s' t = v /\ starts tok v v' /\ spells v' toks
  end.
Proof.
  intros [Hs Hsp] s'. unfold s', skip_space. destruct toks as [|tok toks].
  - inversion Hsp as [ws Hws| | | |]; subst. destruct (skip_run (has whitespace) s (drop s t) []) as [-> E]; [done|by rewrite app_nil_r|done|done|].
    rewrite length_drop in *. split; [|lia]. split; [lia|]. rewrite E. by constructor.
  - apply spells_cons in Hsp as (ws & v & v' & E & Hws & Hst & Hv). destruct (starts_lead _ _ _ Hst) as (u & Ev & Hl & _).
    destruct (skip_run (has whitespace) s ws v) as [-> E']; [done|done|done|by rewrite Ev; intros c [= <-]|].
    assert (s + length ws <= es)%nat as Hle.
    { apply (f_equal length) in E. rewrite length_drop, length_app in E. lia. }
    split; [split; [done|]|split; [lia|by exists v, v']]. rewrite E'. apply spells_cons. by exists [], v, v'.
Qed.

Definition tok_ok (tok : token) : Prop := match tok with Word w => is_word w | Sym _ => True end.

Lemma spells_ok u toks : spells u toks -> (length toks <= length u)%nat /\ Forall tok_ok toks.
Proof.
  induction 1 as [| ws c u toks _ _ _ [IH F]|ws u toks _ _ _ [IH F]|ws u toks _ _ [IH F]|ws w u toks _ Hw _ _ [IH F]];
    [simpl; split; [lia|done]|..]; rewrite !length_app; simpl; (split; [|by constructor]); try lia.
  destruct Hw as [Hne _]. destruct w; [done|]. simpl. lia.
Qed.

Lemma at_length s toks : at_ s toks -> (length toks <= es)%nat.
Proof. intros [Hs [Hl _]%spells_ok]. rewrite length_drop in Hl. lia. Qed.

Lemma at_ok s toks : at_ s toks -> Forall tok_ok toks.
Proof. intros [_ [_ H]%spells_ok]. exact H. Qed.

Definition peeks (set : list Z) (toks : list token) : bool :=
  match toks with [] => false | tok :: _ => has set (lead tok) end.

Lemma peek_run s toks set :
  at_ s toks -> exists s', peek b es s set = (peeks set toks, s') /\ at_ s' toks.
Proof.
  intros Ha. destruct (skip_space_at s toks Ha) as (Ha' & _ & Hm). exists (skip_space b es s). split; [|done].
  unfold peek. f_equal. destruct toks as [|tok toks]; simpl.
  - rewrite Hm, ch_end. done.
  - destruct Hm as (v & v' & Ev & Hst & _). destruct (starts_lead _ _ _ Hst) as (u & -> & _ & H0).
    destruct (ch_in _ _ _ Ev) as (-> & _). by rewrite (proj2 (Z.eqb_neq _ _)).
Qed.

(** The word [w] is between the offsets [q] and [e], and ends there. *)
Definition word_at (q e : nat) (w : list Z) : Prop :=
  is_word w /\ exists u, drop q t = w ++ u /\ e = (q + length w)%nat /\ (forall c, head u = Some c -> word_char c = false).

Definition code (tok : token) : Z := match tok with Sym c => c | Word _ => chr "a" end.

Lemma gettoken_run s tok toks :
  at_ s (tok :: toks) -> exists q e s', gettoken b es s = (code tok, q, e, s') /\ at_ s' toks /\
    match tok with Word w => word_at q e w | Sym _ => True end.
Proof.
  intros Ha. destruct (skip_space_at s _ Ha) as ([Hs0 _] & _ & v & v' & Ev & Hst & Hv). set (s0 := skip_space b es s) in *.
  assert (forall s1 : nat, (s1 <= es)%nat -> drop s1 t = v' -> at_ (skip_space b es s1) toks) as Hend.
  { intros s1 H1 E1. apply skip_space_at. split; [done|by rewrite E1]. }
  unfold gettoken. fold s0. destruct Hst as [c u Hc|u Hu|u|w u Hw Hu].
  - destruct (ch_in _ _ _ Ev) as (-> & E' & Hlt). exists s0, (S s0), (skip_space b es (S s0)).
    split; [|split; [apply Hend; [lia|done]|done]].
    revert Hc. simpl. rewrite !elem_of_cons, elem_of_nil. by intros [->|[->|[->|[->|[->|[->|[]]]]]]].
  - destruct (ch_in _ _ _ Ev) as (-> & E' & Hlt). exists s0, (S s0), (skip_space b es (S s0)).
    split; [|split; [apply Hend; [lia|done]|done]]. 
    assert ((ch b (S s0) =? chr ">") = false) as ->; [|done]. apply Z.eqb_neq. destruct u as [|c u].
    + apply drop_end in E'; [|lia]. rewrite E', ch_end. done.
    + destruct (ch_in _ _ _ E') as (-> & _). intros ->. by apply Hu.
  - destruct (ch_in _ _ _ Ev) as (-> & E' & Hlt). destruct (ch_in _ _ _ E') as (E2 & E3 & Hlt').
    exists s0, (S (S s0)), (skip_space b es (S (S s0))).
    split; [|split; [apply Hend; [lia|done]|done]]. by rewrite E2.
  - destruct (starts_lead (Word w) (w ++ u) u) as (u' & Eu & Hsp & H0); [by constructor|].
    rewrite Eu in Ev. destruct (ch_in _ _ _ Ev) as (Ec & _ & Hlt). rewrite <- Eu in Ev. set (c := lead (Word w)) in *.
    assert (word_char c = true) as Hc.
    { destruct Hw as [Hne Hw]. destruct w as [|c0 w]; [done|]. by apply list.Forall_cons in Hw as [[Hc _] _]. }
    destruct (skip_run word_char s0 w u) as [Esk Edr]; [done|done| |done|].
    { eapply list.Forall_impl; [apply Hw|]. by intros ? [? _]. }
    exists s0, (s0 + length w)%nat, (skip_space b es (s0 + length w)).
    split; [|split; [apply Hend; [|done]|]].
    + rewrite Ec. fold word_char. rewrite Esk. rewrite (proj2 (Z.eqb_neq c 0)) by done.
      pose proof (word_not c symbols Hc) as Hn. specialize (Hn ltac:(done) ltac:(by refine (bool_decide_unpack _ _))).
      rewrite symbol_spec in Hn. apply bool_decide_eq_false in Hn. unfold symbols in Hn. simpl in Hn.
      rewrite !not_elem_of_cons in Hn. destruct Hn as (? & ? & ? & ? & ? & ? & ? & _).
      rewrite !(proj2 (Z.eqb_neq c _)) by done. done.
    + apply (f_equal length) in Ev. rewrite length_drop, length_app in Ev. lia.
    + split; [done|]. by exists u.
Qed.

Lemma gettoken_end s : at_ s [] -> gettoken b es s = (0, es, es, es).
Proof.
  intros Ha. destruct (skip_space_at s _ Ha) as (_ & _ & E). unfold gettoken. rewrite E, ch_end. simpl.
  unfold skip_space. by rewrite Nat.sub_diag.
Qed.
End text.

(** ** Lemmas: trees *)

Lemma insert_mid {A} (l1 l2 : list A) x y : <[length l1 := y]> (l1 ++ x :: l2) = l1 ++ y :: l2.
Proof. by rewrite insert_app_r_alt, Nat.sub_diag by done. Qed.

Section trees.
Context (wd : nat -> nat -> list Z -> Prop).

Lemma tree_app h h' p c : tree wd h p c -> tree wd (h ++ h') p c.
Proof. induction 1; econstructor; (eapply lookup_app_l_Some; eassumption) || done. Qed.

Lemma tree_bound h p c : tree wd h p c -> (0 < p <= length h)%nat.
Proof. destruct 1 as [i ? ? ? H|i ? ? ? ? ? ? ? H|i ? ? ? ? H|i ? ? ? ? H|i ? ? H]; apply lookup_lt_Some in H; lia. Qed.

(** [p] is the command [pe] with the redirections [rs], the last one outermost. *)
Inductive wraps (h : list cmd) (pe : nat) : nat -> list redirection -> Prop :=
| wraps_nil : wraps h pe pe []
| wraps_snoc i sub q e k f rs :
    h !! i = Some (REDIR sub q e (rmode k) (rfd k)) -> (sub <= i)%nat -> wd q e f -> wraps h pe sub rs ->
    wraps h pe (S i) (rs ++ [(k, f)]).

Lemma wraps_app h h' pe p rs : wraps h pe p rs -> wraps (h ++ h') pe p rs.
Proof. induction 1; econstructor; (eapply lookup_app_l_Some; eassumption) || done. Qed.

Lemma wraps_tree h pe p rs c : tree wd h pe c -> wraps h pe p rs -> tree wd h p (redirected c rs).
Proof.
  intros Ht. induction 1 as [|i sub q e k f rs Hi Hle Hw _ IH]; [done|]. unfold redirected in *. rewrite foldl_app. simpl.
  by eapply tree_redir.
Qed.

(** A change of the command at [pe], which is none of the redirections. *)
Lemma wraps_exec h i argv eargv argv' eargv' p rs :
  h !! i = Some (EXEC argv eargv) -> wraps h (S i) p rs -> wraps (<[i := EXEC argv' eargv']> h) (S i) p rs.
Proof.
  intros Hi. induction 1 as [|j sub q e k f rs Hj Hle Hw _ IH]; [constructor|]. econstructor; try done.
  rewrite list_lookup_insert_ne; [done|]. intros ->. by rewrite Hi in Hj.
Qed.

Lemma csize_redirected c rs : csize (redirected c rs) = (csize c + length rs)%nat.
Proof. revert c. induction rs as [|r rs IH]; intros c; simpl; [lia|]. rewrite IH. simpl. lia. Qed.
End trees.

(** ** Lemmas: the parser *)

Section parser.
Context {St : Type} `{Sy : Sys St} (t r : list Z) (w : St).
Notation b := (t ++ 0 :: r).
Notation es := (length t).
Notation stat h n := (mkSh h n b w).

Lemma new_run h n c : new c (stat h (S n)) = Ret (S (length h)) (stat (h ++ [c]) n).
Proof. done. Qed.

Definition is_redir (toks : list token) : bool := peeks (cstr "<>") toks.

Lemma redir_turn_end s rest p h n :
  at_ t s rest -> is_redir rest = false -> exists s', redir_turn b es (p, s) (stat h n) = Ret (inr (p, s')) (stat h n) /\ at_ t s' rest.
Proof.
  intros Ha Hr. destruct (peek_run t r s rest (cstr "<>") Ha) as (s' & E & Ha'). exists s'. split; [|done].
  unfold redir_turn. rewrite E. unfold is_redir in Hr. by rewrite Hr.
Qed.

Lemma redir_turn_more s k f rest p h n :
  at_ t s (redir_toks (k, f) ++ rest) -> exists s' q e, redir_turn b es (p, s) (stat h (S n)) =
    Ret (inl (S (length h), s')) (stat (h ++ [REDIR p q e (rmode k) (rfd k)]) n) /\ word_at t q e f /\ at_ t s' rest.
Proof.
  intros Ha. destruct (peek_run t r _ _ (cstr "<>") Ha) as (s1 & E1 & Ha1).
  destruct (gettoken_run t r _ _ _ Ha1) as (q1 & e1 & s2 & E2 & Ha2 & _).
  destruct (gettoken_run t r _ _ _ Ha2) as (q2 & e2 & s3 & E3 & Ha3 & Hw).
  exists s3, q2, e2. split; [|done]. unfold redir_turn. rewrite E1. simpl peeks. rewrite E2, E3. by destruct k.
Qed.

Lemma redirs_loop rs : forall fuel s rest p pe rs0 h n,
  at_ t s (redirs_toks rs ++ rest) -> is_redir rest = false -> (length rs < fuel)%nat -> (length rs <= n)%nat ->
  wraps (word_at t) h pe p rs0 -> (p <= length h)%nat ->
  exists p' s' h', while_ fuel (redir_turn b es) (p, s) (stat h n) = Ret (p', s') (stat (h ++ h') (n - length rs)) /\
    at_ t s' rest /\ wraps (word_at t) (h ++ h') pe p' (rs0 ++ rs) /\ (p' <= length (h ++ h'))%nat.
Proof.
  induction rs as [|[k f] rs IH]; intros fuel s rest p pe rs0 h n Ha Hr Hf Hn Hw Hp; (destruct fuel as [|fuel]; [simpl in Hf; lia|]); rewrite while_S.
  - destruct (redir_turn_end s rest p h n Ha Hr) as (s' & E & Ha'). rewrite (bind_Ret _ _ _ _ _ E).
    exists p, s', []. rewrite !app_nil_r, Nat.sub_0_r. done.
  - unfold redirs_toks in Ha. rewrite fmap_cons, concat_cons, <- app_assoc in Ha.
    destruct n as [|n]; [simpl in Hn; lia|]. destruct (redir_turn_more s k f _ p h n Ha) as (s' & q & e & E & Hq & Ha').
    rewrite (bind_Ret _ _ _ _ _ E).
    destruct (IH fuel s' rest (S (length h)) pe (rs0 ++ [(k, f)]) (h ++ [REDIR p q e (rmode k) (rfd k)]) n) as (p' & s2 & h' & E2 & Ha2 & Hw2 & Hp2).
    + done.
    + done.
    + simpl in Hf. lia.
    + simpl in Hn. lia.
    + econstructor; [|exact Hp|done|by apply wraps_app]. by rewrite lookup_app_r, Nat.sub_diag.
    + rewrite length_app. simpl. lia.
    + exists p', s2, ([REDIR p q e (rmode k) (rfd k)] ++ h'). rewrite <- !app_assoc in *. split; [exact E2|]. done.
Qed.

Lemma redirs_length rs : length (redirs_toks rs) = (2 * length rs)%nat.
Proof. induction rs as [|x rs IH]; [done|]. unfold redirs_toks in *. rewrite fmap_cons, concat_cons, length_app, IH. simpl. lia. Qed.

Lemma parseredirs_run s rs rest p pe rs0 h n :
  at_ t s (redirs_toks rs ++ rest) -> is_redir rest = false -> (length rs <= n)%nat ->
  wraps (word_at t) h pe p rs0 -> (p <= length h)%nat ->
  exists p' s' h', parseredirs p s es (stat h n) = Ret (p', s') (stat (h ++ h') (n - length rs)) /\
    at_ t s' rest /\ wraps (word_at t) (h ++ h') pe p' (rs0 ++ rs) /\ (p' <= length (h ++ h'))%nat.
Proof.
  intros Ha Hr Hn Hw Hp. unfold parseredirs, get_buf. rewrite bind_gets. apply redirs_loop; try done.
  pose proof (at_length _ _ _ Ha) as Hl. rewrite length_app, redirs_length in Hl. lia.
Qed.

(** The arguments so far. *)
Definition column (f : nat * nat -> nat) (qe : list (nat * nat)) : list (option nat) :=
  (Some ∘ f <$> qe) ++ replicate (MAXARGS - length qe) None.

Lemma column_snoc f qe x : (length qe < MAXARGS)%nat -> <[length qe := Some (f x)]> (column f qe) = column f (qe ++ [x]).
Proof.
  intros Hl. unfold column. replace (MAXARGS - length qe)%nat with (S (MAXARGS - length (qe ++ [x]))) by (rewrite length_app; simpl; lia).
  rewrite replicate_S, fmap_app, <- app_assoc. rewrite <- (length_fmap (Some ∘ f) qe) at 1. by rewrite insert_mid.
Qed.

Lemma column_end f qe : (length qe < MAXARGS)%nat -> <[length qe := None]> (column f qe) = column f qe.
Proof.
  intros Hl. apply list_insert_id. unfold column. rewrite lookup_app_r by (by rewrite length_fmap).
  rewrite length_fmap, Nat.sub_diag. apply lookup_replicate_2. lia.
Qed.

Lemma column_args qe ws :
  Forall2 (fun x => word_at t (fst x) (snd x)) qe ws -> (length qe < MAXARGS)%nat ->
  args_at (word_at t) (column fst qe) (column snd qe) ws.
Proof.
  assert (forall k, Forall2 (fun x => word_at t (fst x) (snd x)) qe ws -> args_at (word_at t)
    ((Some ∘ fst <$> qe) ++ replicate (S k) None) ((Some ∘ snd <$> qe) ++ replicate (S k) None) ws) as H.
  { intros k. induction 1 as [|x w' qe' ws' Hx _ IH]; [done|]. simpl. done. }
  intros Hq Hl. unfold column. replace (MAXARGS - length qe)%nat with (S (MAXARGS - S (length qe))) by lia. by apply H.
Qed.

Lemma set_arg_run h0 argv eargv h1 n i q e :
  (i < MAXARGS)%nat ->
  set_arg (S (length h0)) i q e (stat (h0 ++ EXEC argv eargv :: h1) n) =
  Ret tt (stat (h0 ++ EXEC (<[i := q]> argv) (<[i := e]> eargv) :: h1) n).
Proof.
  intros Hi. unfold set_arg. rewrite (bind_Ret (get _) _ _ (EXEC argv eargv) (stat (h0 ++ EXEC argv eargv :: h1) n)).
  2: { unfold get. simpl. by rewrite list_lookup_middle. }
  rewrite (proj2 (Nat.ltb_lt _ _)) by done. unfold put, modify. simpl. by rewrite insert_mid.
Qed.

Definition args_toks (args : list (list Z * list redirection)) : list token :=
  concat ((fun a => Word (fst a) :: redirs_toks (snd a)) <$> args).

(** Where the words of a command end. *)
Definition ends_args (rest : list token) : Prop := rest = [] \/ peeks (cstr "|)&;") rest = true.

Lemma ends_not_redir rest : ends_args rest -> is_redir rest = false.
Proof.
  intros [->|H]; [done|]. destruct rest as [|tok rest]; [done|]. unfold is_redir, peeks in *.
  rewrite has_spec in * by (by refine (bool_decide_unpack _ _)). apply bool_decide_eq_true in H. apply bool_decide_eq_false.
  revert H. simpl. rewrite !elem_of_cons, !elem_of_nil. unfold chr. simpl. lia.
Qed.

Lemma args_not_redir args rest : Forall tok_ok (args_toks args ++ rest) -> ends_args rest -> is_redir (args_toks args ++ rest) = false.
Proof.
  intros Hok He. destruct args as [|[a rs] args]; [by apply ends_not_redir|].
  unfold args_toks in Hok. simpl in Hok. apply list.Forall_cons in Hok as [[Hne Hw] _]. unfold is_redir, peeks. simpl.
  destruct a as [|c a]; [done|]. apply list.Forall_cons in Hw as [[Hc _] _]. simpl.
  apply word_not; [done|by refine (bool_decide_unpack _ _)|by refine (bool_decide_unpack _ _)].
Qed.

Lemma arg_turn_end s rest argc p pe h n :
  at_ t s rest -> ends_args rest ->
  exists s', arg_turn b es pe (argc, p, s) (stat h n) = Ret (inr (argc, p, s')) (stat h n) /\ at_ t s' rest.
Proof.
  intros Ha He. destruct (peek_run t r s rest (cstr "|)&;") Ha) as (s' & E & Ha'). unfold arg_turn. rewrite E.
  destruct He as [->|He]; [|rewrite He; by exists s']. simpl peeks. cbv iota. rewrite (gettoken_end t r s' Ha').
  exists es. split; [done|]. split; [done|]. rewrite drop_all. by constructor.
Qed.

Lemma arg_turn_word s a rs rest h0 h1 p rs0 qe ws n :
  at_ t s (Word a :: redirs_toks rs ++ rest) -> is_redir rest = false -> (length rs <= n)%nat -> (S (length qe) < MAXARGS)%nat ->
  let h := h0 ++ EXEC (column fst qe) (column snd qe) :: h1 in
  wraps (word_at t) h (S (length h0)) p rs0 -> (p <= length h)%nat ->
  Forall2 (fun x => word_at t (fst x) (snd x)) qe ws ->
  exists p' s' h2 qe', let h' := h0 ++ EXEC (column fst qe') (column snd qe') :: h2 in
    arg_turn b es (S (length h0)) (length qe, p, s) (stat h n) = Ret (inl (length qe', p', s')) (stat h' (n - length rs)) /\
    length qe' = S (length qe) /\ at_ t s' rest /\ wraps (word_at t) h' (S (length h0)) p' (rs0 ++ rs) /\ (p' <= length h')%nat /\
    Forall2 (fun x => word_at t (fst x) (snd x)) qe' (ws ++ [a]).
Proof.
  intros Ha Hr Hn Hl h Hw Hp Hq. destruct (peek_run t r s _ (cstr "|)&;") Ha) as (s1 & E1 & Ha1).
  assert (peeks (cstr "|)&;") (Word a :: redirs_toks rs ++ rest) = false) as Hpk.
  { pose proof (at_ok _ _ _ Ha) as Hok. apply list.Forall_cons in Hok as [[Hne Ho] _]. unfold peeks. simpl.
    destruct a as [|c a]; [done|]. apply list.Forall_cons in Ho as [[Hc _] _]. simpl.
    apply word_not; [done|by refine (bool_decide_unpack _ _)|by refine (bool_decide_unpack _ _)]. }
  rewrite Hpk in E1. destruct (gettoken_run t r s1 _ _ Ha1) as (q & e & s2 & E2 & Ha2 & Hqe).
  set (qe' := qe ++ [(q, e)]). set (h' := h0 ++ EXEC (column fst qe') (column snd qe') :: h1).
  assert (wraps (word_at t) h' (S (length h0)) p rs0) as Hw'.
  { unfold h'. rewrite <- (insert_mid h0 h1 (EXEC (column fst qe) (column snd qe))).
    eapply wraps_exec; [by apply list_lookup_middle|exact Hw]. }
  destruct (parseredirs_run s2 rs rest p (S (length h0)) rs0 h' n Ha2 Hr Hn Hw') as (p' & s3 & h2 & E3 & Ha3 & Hw3 & Hp3).
  { unfold h', h in *. rewrite length_app in *. simpl in *. lia. }
  exists p', s3, (h1 ++ h2), qe'. cbv zeta. unfold h' in E3, Hw3, Hp3. rewrite <- app_assoc in E3, Hw3, Hp3. simpl app in E3, Hw3, Hp3.
  assert (length qe' = S (length qe)) as El by (unfold qe'; rewrite length_app; simpl; lia).
  split; [|split; [done|split; [done|split; [done|split; [done|]]]]].
  - unfold arg_turn. rewrite E1. cbv beta iota. rewrite E2. cbv beta iota. change (code (Word a)) with (chr "a"). change (chr "a" =? 0) with false. change (negb (chr "a" =? chr "a")) with false. cbv iota.
    unfold h. rewrite (bind_Ret _ _ _ _ _ (set_arg_run h0 _ _ h1 n (length qe) (Some q) (Some e) ltac:(lia))).
    change (<[length qe := Some q]> (column fst qe)) with (<[length qe := Some (fst (q, e))]> (column fst qe)).
    change (<[length qe := Some e]> (column snd qe)) with (<[length qe := Some (snd (q, e))]> (column snd qe)).
    rewrite !column_snoc by lia. fold qe'.
    rewrite (proj2 (Nat.leb_gt _ _)) by lia. rewrite (bind_Ret _ _ _ _ _ E3). by rewrite El.
  - unfold qe'. apply Forall2_app; [done|]. by constructor.
Qed.

Lemma args_loop args : forall fuel s rest h0 h1 p rs0 qe ws n,
  at_ t s (args_toks args ++ rest) -> ends_args rest -> (length args < fuel)%nat ->
  (length (concat args.*2) <= n)%nat -> (length qe + length args < MAXARGS)%nat ->
  let h := h0 ++ EXEC (column fst qe) (column snd qe) :: h1 in
  wraps (word_at t) h (S (length h0)) p rs0 -> (p <= length h)%nat ->
  Forall2 (fun x => word_at t (fst x) (snd x)) qe ws ->
  exists p' s' h2 qe', let h' := h0 ++ EXEC (column fst qe') (column snd qe') :: h2 in
    while_ fuel (arg_turn b es (S (length h0))) (length qe, p, s) (stat h n) =
      Ret (length qe', p', s') (stat h' (n - length (concat args.*2))) /\
    (length qe' < MAXARGS)%nat /\ at_ t s' rest /\ wraps (word_at t) h' (S (length h0)) p' (rs0 ++ concat args.*2) /\
    (p' <= length h')%nat /\ Forall2 (fun x => word_at t (fst x) (snd x)) qe' (ws ++ args.*1).
Proof.
  induction args as [|[a rs] args IH]; intros fuel s rest h0 h1 p rs0 qe ws n Ha He Hf Hn Hl h Hw Hp Hq;
    (destruct fuel as [|fuel]; [simpl in Hf; lia|]); rewrite while_S.
  - destruct (arg_turn_end s rest (length qe) p (S (length h0)) h n Ha He) as (s' & E & Ha'). rewrite (bind_Ret _ _ _ _ _ E).
    exists p, s', h1, qe. simpl. rewrite !app_nil_r, Nat.sub_0_r. split; [done|]. split; [simpl in Hl; lia|]. done.
  - unfold args_toks in Ha. rewrite fmap_cons, concat_cons, <- app_assoc in Ha. simpl in Ha. fold (args_toks args) in Ha.
    simpl in Hl, Hf. rewrite fmap_cons, concat_cons, length_app in Hn. cbn [snd] in Hn.
    assert (is_redir (args_toks args ++ rest) = false) as Hr.
    { apply args_not_redir; [|done]. pose proof (at_ok _ _ _ Ha) as Hok. apply list.Forall_cons in Hok as [_ Hok].
      by apply list.Forall_app in Hok as [_ Hok]. }
    destruct (arg_turn_word s a rs (args_toks args ++ rest) h0 h1 p rs0 qe ws n Ha Hr) as (p1 & s1 & h2 & qe1 & E1 & El & Ha1 & Hw1 & Hp1 & Hq1);
      [lia|lia|done|done|done|]. rewrite (bind_Ret _ _ _ _ _ E1).
    destruct (IH fuel s1 rest h0 h2 p1 (rs0 ++ rs) qe1 (ws ++ [a]) (n - length rs)%nat) as (p2 & s2 & h3 & qe2 & E2 & El2 & Ha2 & Hw2 & Hp2 & Hq2);
      [done|done|lia|lia|lia|done|done|done|].
    exists p2, s2, h3, qe2. cbv zeta. rewrite !fmap_cons, concat_cons, length_app. cbn [fst snd]. rewrite <- !app_assoc in *.
    replace (n - (length rs + length (concat args.*2)))%nat with (n - length rs - length (concat args.*2))%nat by lia. done.
Qed.

Lemma args_length args : (length args <= length (args_toks args))%nat.
Proof.
  induction args as [|a args IH]; [done|]. unfold args_toks in *. rewrite fmap_cons, concat_cons, length_app. simpl. lia.
Qed.

Lemma parseargs_run s args rest h0 h1 p rs0 n :
  at_ t s (args_toks args ++ rest) -> ends_args rest -> (length (concat args.*2) <= n)%nat -> (length args < MAXARGS)%nat ->
  let h := h0 ++ EXEC (replicate MAXARGS None) (replicate MAXARGS None) :: h1 in
  wraps (word_at t) h (S (length h0)) p rs0 -> (p <= length h)%nat ->
  exists p' s' h2, parseargs (S (length h0)) p s es (stat h n) = Ret (p', s') (stat (h0 ++ h2) (n - length (concat args.*2))) /\
    at_ t s' rest /\ tree (word_at t) (h0 ++ h2) p' (redirected (CExec args.*1) (rs0 ++ concat args.*2)).
Proof.
  intros Ha He Hn Hl h Hw Hp. pose proof (at_length _ _ _ Ha) as Hlen. rewrite length_app in Hlen. pose proof (args_length args).
  destruct (args_loop args (S es) s rest h0 h1 p rs0 [] [] n Ha He) as (p' & s' & h2 & qe & E & Hq & Ha' & Hw' & Hp' & Hf);
    [lia|done|simpl; lia|done|done|done|].
  exists p', s', (EXEC (column fst qe) (column snd qe) :: h2). split; [|split; [done|]].
  - unfold parseargs, get_buf. rewrite bind_gets. unfold h. change (length (A := nat * nat) []) with O in E.
    rewrite (bind_Ret _ _ _ _ _ E). rewrite (bind_Ret _ _ _ _ _ (set_arg_run h0 _ _ h2 _ (length qe) None None Hq)).
    by rewrite !column_end.
  - eapply wraps_tree; [|exact Hw']. econstructor; [by apply list_lookup_middle|by apply column_args].
Qed.

Lemma back_loop k : forall fuel s rest p c h n,
  at_ t s (replicate k (Sym (chr "&")) ++ rest) -> peeks (cstr "&") rest = false -> (k < fuel)%nat -> (k <= n)%nat ->
  tree (word_at t) h p c ->
  exists p' s' h', while_ fuel (back_turn b es) (p, s) (stat h n) = Ret (p', s') (stat (h ++ h') (n - k)) /\
    at_ t s' rest /\ tree (word_at t) (h ++ h') p' (Nat.iter k CBack c).
Proof.
  induction k as [|k IH]; intros fuel s rest p c h n Ha Hr Hf Hn Hc; (destruct fuel as [|fuel]; [lia|]); rewrite while_S;
    destruct (peek_run t r s _ (cstr "&") Ha) as (s1 & E1 & Ha1).
  - exists p, s1, []. rewrite app_nil_r, Nat.sub_0_r. cbn [replicate app] in E1, Ha1. rewrite Hr in E1.
    unfold back_turn at 1. rewrite E1. done.
  - destruct (gettoken_run t r s1 _ _ Ha1) as (q & e & s2 & E2 & Ha2 & _). destruct n as [|n]; [lia|].
    destruct (IH fuel s2 rest (S (length h)) (CBack c) (h ++ [BACK p]) n) as (p' & s' & h' & E3 & Ha3 & Hc3); [done|done|lia|lia| |].
    { econstructor; [by rewrite lookup_app_r, Nat.sub_diag| |by apply tree_app]. apply tree_bound in Hc. lia. }
    exists p', s', ([BACK p] ++ h'). rewrite <- app_assoc in E3, Hc3. split; [|split; [done|by rewrite Nat.iter_succ, <- Nat.iter_swap]].
    unfold back_turn at 1. rewrite E1. change (peeks _ _) with true. cbv beta iota. rewrite E2. exact E3.
Qed.

Definition ends_pipe (rest : list token) : Prop := rest = [] \/ peeks (cstr ")&;") rest = true.
Definition ends_line (rest : list token) : Prop := rest = [] \/ peeks (cstr ")") rest = true.

(** A token that one set has and the other has not. *)
Lemma peeks_apart set set' rest :
  peeks set rest = true -> 0 ∉ set -> 0 ∉ set' -> Forall (fun c => c ∉ set') set -> peeks set' rest = false.
Proof.
  destruct rest as [|tok rest]; [done|]. unfold peeks. intros H H0 H0' Hd. rewrite has_spec in * by done.
  apply bool_decide_eq_true in H. apply bool_decide_eq_false. rewrite list.Forall_forall in Hd. by apply Hd.
Qed.

Lemma peeks_more set set' rest :
  peeks set rest = true -> 0 ∉ set -> 0 ∉ set' -> set ⊆ set' -> peeks set' rest = true.
Proof.
  destruct rest as [|tok rest]; [done|]. unfold peeks. intros H H0 H0' Hs. rewrite has_spec in * by done.
  apply bool_decide_eq_true in H. apply bool_decide_eq_true. by apply Hs.
Qed.

Lemma simple_not_block rs args rest :
  Forall tok_ok (redirs_toks rs ++ args_toks args ++ rest) -> ends_args rest ->
  peeks (cstr "(") (redirs_toks rs ++ args_toks args ++ rest) = false.
Proof.
  intros Hok He. destruct rs as [|[k f] rs]; [|by destruct k]. destruct args as [|[a rs] args].
  - destruct He as [->|He]; [done|]. eapply peeks_apart; [exact He|..]; by refine (bool_decide_unpack _ _).
  - apply list.Forall_cons in Hok as [[Hne Hw] _]. destruct a as [|c a]; [done|]. apply list.Forall_cons in Hw as [[Hc _] _].
    unfold peeks. simpl. apply word_not; [done|by refine (bool_decide_unpack _ _)|by refine (bool_decide_unpack _ _)].
Qed.

Lemma csize_back k c : csize (Nat.iter k CBack c) = (csize c + k)%nat.
Proof. induction k as [|k IH]; [simpl; lia|]. rewrite Nat.iter_succ. simpl. lia. Qed.

(** What a function of the parser does with tokens that stand for [c]. *)
Definition parses (parse : nat -> nat -> nat -> M (sh St) (nat * nat)) (need : nat) (ends : list token -> Prop)
    (toks : list token) (c : command) : Prop :=
  forall fuel s rest h n, at_ t s (toks ++ rest) -> ends rest -> (csize c <= n)%nat -> (4 * length toks + need <= fuel)%nat ->
  exists p s' h', parse fuel s es (stat h n) = Ret (p, s') (stat (h ++ h') (n - csize c)) /\
    at_ t s' rest /\ tree (word_at t) (h ++ h') p c.

(** The decisions on fixed sets of characters. *)
Ltac sets := by refine (bool_decide_unpack _ _).

Lemma pipe_end e :
  parses parseexec 2 ends_args (simple_toks e) (simple_meaning e) ->
  parses parsepipe 3 ends_pipe (pipe_toks (PipeEnd e)) (pipe_meaning (PipeEnd e)).
Proof.
  intros IH fuel s rest h n Ha He Hn Hf. destruct fuel as [|fuel]; [lia|]. simpl in Hf, Hn, Ha.
  destruct (IH fuel s rest h n Ha) as (p & s1 & h1 & E1 & Ha1 & Ht1); [|done|lia|].
  { destruct He as [->|He]; [by left|right]. eapply peeks_more; [exact He|sets..]. }
  destruct (peek_run t r s1 rest (cstr "|") Ha1) as (s2 & E2 & Ha2).
  assert (peeks (cstr "|") rest = false) as Hp.
  { destruct He as [->|He]; [done|]. eapply peeks_apart; [exact He|sets..]. }
  exists p, s2, h1. split; [|done]. cbn [parsepipe]. rewrite (bind_Ret _ _ _ _ _ E1). unfold get_buf. rewrite bind_gets.
  cbn [fst snd sh_buf]. by rewrite E2, Hp.
Qed.

Lemma pipe_more e p :
  parses parseexec 2 ends_args (simple_toks e) (simple_meaning e) ->
  parses parsepipe 3 ends_pipe (pipe_toks p) (pipe_meaning p) ->
  parses parsepipe 3 ends_pipe (pipe_toks (PipeMore e p)) (pipe_meaning (PipeMore e p)).
Proof.
  intros IHe IHp fuel s rest h n Ha He Hn Hf. destruct fuel as [|fuel]; [lia|]. cbn [pipe_toks pipe_meaning csize] in *.
  rewrite length_app in Hf. cbn [length] in Hf. rewrite <- app_assoc in Ha.
  destruct (IHe fuel s _ h n Ha) as (p1 & s1 & h1 & E1 & Ha1 & Ht1); [by right|lia|lia|].
  destruct (peek_run t r s1 _ (cstr "|") Ha1) as (s2 & E2 & Ha2). change (peeks _ _) with true in E2.
  destruct (gettoken_run t r s2 _ _ Ha2) as (q & e' & s3 & E3 & Ha3 & _).
  destruct (IHp fuel s3 rest (h ++ h1) (n - csize (simple_meaning e))%nat Ha3 He) as (p2 & s4 & h2 & E4 & Ha4 & Ht4); [lia|lia|].
  destruct (n - csize (simple_meaning e) - csize (pipe_meaning p))%nat as [|m] eqn:Em; [lia|].
  exists (S (length ((h ++ h1) ++ h2))), s4, (h1 ++ h2 ++ [PIPE p1 p2]). rewrite !app_assoc. split; [|split; [done|]].
  - cbn [parsepipe]. rewrite (bind_Ret _ _ _ _ _ E1). unfold get_buf. rewrite bind_gets. cbn [fst snd sh_buf]. rewrite E2.
    cbv beta iota. rewrite E3. cbv beta iota. rewrite (bind_Ret _ _ _ _ _ E4). cbn [fst snd]. unfold pipecmd.
    rewrite (bind_Ret _ _ _ _ _ (new_run _ _ _)). unfold ret. do 2 f_equal. lia.
  - apply tree_bound in Ht4 as Hb2. apply tree_bound in Ht1 as Hb1. rewrite length_app in Hb2.
    econstructor; [by rewrite lookup_app_r, Nat.sub_diag| | |by do 2 apply tree_app|by apply tree_app]; rewrite !length_app in *; lia.
Qed.

Lemma simple_args rs args :
  (length args < MAXARGS)%nat ->
  parses parseexec 2 ends_args (simple_toks (Simple rs args)) (simple_meaning (Simple rs args)).
Proof.
  intros Hl fuel s rest h n Ha He Hn Hf. destruct fuel as [|fuel]; [lia|]. cbn [simple_toks simple_meaning] in *.
  fold (args_toks args) in *. rewrite csize_redirected, length_app in *. cbn [csize] in *. rewrite <- app_assoc in Ha.
  destruct (peek_run t r s _ (cstr "(") Ha) as (s1 & E1 & Ha1). rewrite simple_not_block in E1 by (done || by eapply at_ok).
  destruct n as [|n]; [lia|].
  set (ex := EXEC (replicate MAXARGS None) (replicate MAXARGS None)).
  destruct (parseredirs_run s1 rs (args_toks args ++ rest) (S (length h)) (S (length h)) [] (h ++ [ex]) n Ha1)
    as (p2 & s2 & h2 & E2 & Ha2 & Hw2 & Hp2).
  { apply args_not_redir; [|done]. pose proof (at_ok _ _ _ Ha) as Hok. by apply list.Forall_app in Hok as [_ Hok]. }
  { lia. }
  { constructor. }
  { rewrite length_app. simpl. lia. }
  rewrite <- app_assoc in E2, Hw2, Hp2.
  destruct (parseargs_run s2 args rest h h2 p2 rs (n - length rs) Ha2 He) as (p3 & s3 & h3 & E3 & Ha3 & Ht3); [lia|done|done|done|].
  exists p3, s3, h3. split; [|done].
  cbn [parseexec]. unfold get_buf. rewrite bind_gets. cbn [sh_buf]. rewrite E1. cbv beta iota. unfold execcmd.
  rewrite (bind_Ret _ _ _ _ _ (new_run _ _ _)). fold ex. rewrite (bind_Ret _ _ _ _ _ E2). cbn [fst snd].
  etransitivity; [exact E3|]. do 2 f_equal. lia.
Qed.

Lemma simple_block l rs :
  parses parseline 4 ends_line (line_toks l) (meaning l) ->
  parses parseexec 2 ends_args (simple_toks (Block l rs)) (simple_meaning (Block l rs)).
Proof.
  intros IH fuel s rest h n Ha He Hn Hf. destruct fuel as [|[|fuel]]; [lia|simpl in Hf; lia|]. cbn [simple_toks simple_meaning] in *.
  rewrite csize_redirected in *. cbn [length] in Hf. rewrite length_app in Hf. cbn [length] in Hf.
  rewrite <- app_comm_cons, <- app_assoc in Ha.
  destruct (peek_run t r s _ (cstr "(") Ha) as (s1 & E1 & Ha1). change (peeks _ _) with true in E1.
  destruct (peek_run t r s1 _ (cstr "(") Ha1) as (s2 & E2 & Ha2). change (peeks _ _) with true in E2.
  destruct (gettoken_run t r s2 _ _ Ha2) as (q & e & s3 & E3 & Ha3 & _).
  destruct (IH fuel s3 _ h n Ha3) as (p4 & s4 & h4 & E4 & Ha4 & Ht4); [by right|lia|lia|].
  destruct (peek_run t r s4 _ (cstr ")") Ha4) as (s5 & E5 & Ha5). change (peeks _ _) with true in E5.
  destruct (gettoken_run t r s5 _ _ Ha5) as (q6 & e6 & s6 & E6 & Ha6 & _).
  destruct (parseredirs_run s6 rs rest p4 p4 [] (h ++ h4) (n - csize (meaning l)) Ha6) as (p7 & s7 & h7 & E7 & Ha7 & Hw7 & _).
  { by apply ends_not_redir. }
  { lia. }
  { constructor. }
  { apply tree_bound in Ht4. lia. }
  exists p7, s7, (h4 ++ h7). rewrite app_assoc. split; [|split; [done|]].
  - cbn [parseexec]. unfold get_buf. rewrite bind_gets. cbn [sh_buf]. rewrite E1. cbv beta iota. cbn [parseblock]. unfold get_buf.
    rewrite bind_gets. cbn [sh_buf]. rewrite E2. cbv beta iota. cbn [negb]. rewrite E3. cbv beta iota.
    rewrite (bind_Ret _ _ _ _ _ E4). cbn [fst snd]. rewrite E5. cbv beta iota. cbn [negb]. rewrite E6. cbv beta iota.
    etransitivity; [exact E7|]. do 2 f_equal. lia.
  - eapply wraps_tree; [by apply tree_app|exact Hw7].
Qed.

(** The pipeline and the [&]s of a line. *)
Lemma line_start p k fuel s rest h n :
  parses parsepipe 3 ends_pipe (pipe_toks p) (pipe_meaning p) ->
  at_ t s (pipe_toks p ++ replicate k (Sym (chr "&")) ++ rest) -> ends_pipe rest -> peeks (cstr "&") rest = false ->
  (csize (pipe_meaning p) + k <= n)%nat -> (4 * length (pipe_toks p) + 3 <= fuel)%nat ->
  exists x w1 p' s' h', parsepipe fuel s es (stat h n) = Ret x w1 /\ sh_buf w1 = b /\
    while_ (S es) (back_turn b es) x w1 = Ret (p', s') (stat (h ++ h') (n - (csize (pipe_meaning p) + k))) /\
    at_ t s' rest /\ tree (word_at t) (h ++ h') p' (Nat.iter k CBack (pipe_meaning p)).
Proof.
  intros IH Ha He Hp Hn Hf. destruct (IH fuel s _ h n Ha) as (p1 & s1 & h1 & E1 & Ha1 & Ht1); [|lia|lia|].
  { destruct k; [done|by right]. }
  pose proof (at_length _ _ _ Ha1) as Hl. rewrite length_app, length_replicate in Hl.
  destruct (back_loop k (S es) s1 rest p1 (pipe_meaning p) (h ++ h1) (n - csize (pipe_meaning p)) Ha1 Hp) as (p2 & s2 & h2 & E2 & Ha2 & Ht2); [lia|lia|done|].
  eexists _, _, p2, s2, (h1 ++ h2). rewrite app_assoc. split; [exact E1|]. split; [done|]. split; [|done].
  etransitivity; [exact E2|]. do 2 f_equal. lia.
Qed.

Lemma line_end p k :
  parses parsepipe 3 ends_pipe (pipe_toks p) (pipe_meaning p) ->
  parses parseline 4 ends_line (line_toks (LineEnd p k)) (meaning (LineEnd p k)).
Proof.
  intros IH fuel s rest h n Ha He Hn Hf. destruct fuel as [|fuel]; [lia|]. cbn [line_toks meaning] in *.
  rewrite csize_back in *. rewrite length_app in Hf. rewrite <- app_assoc in Ha.
  destruct (line_start p k fuel s rest h n IH Ha) as (x & w1 & p1 & s1 & h1 & E1 & Eb & E2 & Ha2 & Ht2); [| |lia|lia|].
  { destruct He as [->|He]; [by left|right]. eapply peeks_more; [exact He|sets..]. }
  { destruct He as [->|He]; [done|]. eapply peeks_apart; [exact He|sets..]. }
  destruct (peek_run t r s1 rest (cstr ";") Ha2) as (s3 & E3 & Ha3).
  assert (peeks (cstr ";") rest = false) as Hp.
  { destruct He as [->|He]; [done|]. eapply peeks_apart; [exact He|sets..]. }
  exists p1, s3, h1. split; [|done]. cbn [parseline]. rewrite (bind_Ret _ _ _ _ _ E1). unfold get_buf. rewrite bind_gets, Eb.
  rewrite (bind_Ret _ _ _ _ _ E2). cbv beta iota. by rewrite E3, Hp.
Qed.

Lemma line_seq p k l :
  parses parsepipe 3 ends_pipe (pipe_toks p) (pipe_meaning p) ->
  parses parseline 4 ends_line (line_toks l) (meaning l) ->
  parses parseline 4 ends_line (line_toks (LineSeq p k l)) (meaning (LineSeq p k l)).
Proof.
  intros IH IHl fuel s rest h n Ha He Hn Hf. destruct fuel as [|fuel]; [lia|]. cbn [line_toks meaning csize] in *.
  rewrite csize_back in *. rewrite !length_app in Hf. cbn [length] in Hf. rewrite <- !app_assoc in Ha.
  destruct (line_start p k fuel s (Sym (chr ";") :: line_toks l ++ rest) h n IH Ha)
    as (x & w1 & p1 & s1 & h1 & E1 & Eb & E2 & Ha2 & Ht2); [by right|done|lia|lia|].
  destruct (peek_run t r s1 _ (cstr ";") Ha2) as (s3 & E3 & Ha3). change (peeks _ _) with true in E3.
  destruct (gettoken_run t r s3 _ _ Ha3) as (q & e & s4 & E4 & Ha4 & _).
  destruct (IHl fuel s4 rest (h ++ h1) (n - (csize (pipe_meaning p) + k))%nat Ha4 He) as (p5 & s5 & h5 & E5 & Ha5 & Ht5); [lia|lia|].
  destruct (n - (csize (pipe_meaning p) + k) - csize (meaning l))%nat as [|m] eqn:Em; [lia|].
  exists (S (length ((h ++ h1) ++ h5))), s5, (h1 ++ h5 ++ [LIST p1 p5]). rewrite !app_assoc. split; [|split; [done|]].
  - cbn [parseline]. rewrite (bind_Ret _ _ _ _ _ E1). unfold get_buf. rewrite bind_gets, Eb. rewrite (bind_Ret _ _ _ _ _ E2).
    cbv beta iota. rewrite E3. cbv beta iota. rewrite E4. cbv beta iota. rewrite (bind_Ret _ _ _ _ _ E5). cbn [fst snd].
    unfold listcmd. rewrite (bind_Ret _ _ _ _ _ (new_run _ _ _)). unfold ret. do 2 f_equal. lia.
  - apply tree_bound in Ht5 as Hb2. apply tree_bound in Ht2 as Hb1. rewrite length_app in Hb2.
    econstructor; [by rewrite lookup_app_r, Nat.sub_diag| | |by do 2 apply tree_app|by apply tree_app]; rewrite !length_app in *; lia.
Qed.

Lemma parse_all :
  (forall l, few_args l -> parses parseline 4 ends_line (line_toks l) (meaning l)) /\
  (forall p, few_pipe p -> parses parsepipe 3 ends_pipe (pipe_toks p) (pipe_meaning p)) /\
  (forall e, few_simple e -> parses parseexec 2 ends_args (simple_toks e) (simple_meaning e)).
Proof.
  apply grammar_ind.
  - intros p IH k Hf. by apply line_end, IH.
  - intros p IHp k l IHl [Hp Hl]. apply line_seq; [by apply IHp|by apply IHl].
  - intros e IH Hf. by apply pipe_end, IH.
  - intros e IHe p IHp [He Hp]. apply pipe_more; [by apply IHe|by apply IHp].
  - intros rs args Hf. by apply simple_args.
  - intros l IH rs Hf. by apply simple_block, IH.
Qed.
End parser.

(** ** Lemmas: ending the words *)

Lemma c_string_word f x : Forall (fun c => c <> 0) f -> c_string (f ++ 0 :: x) = f.
Proof. induction 1 as [|c f Hc _ IH]; [done|]. simpl. by rewrite (proj2 (Z.eqb_neq _ _) Hc), IH. Qed.

Lemma u_strlen_text t r : 0 ∉ t -> u_strlen (t ++ 0 :: r) = Z.of_nat (length t).
Proof.
  induction t as [|c t IH]; intros H0; [done|]. apply not_elem_of_cons in H0 as [Hc H0]. simpl.
  rewrite (proj2 (Z.eqb_neq c 0)) by done. rewrite IH by done. lia.
Qed.

Lemma args_mono (P Q : nat -> nat -> list Z -> Prop) argv eargv ws :
  (forall q e f, P q e f -> Q q e f) -> args_at P argv eargv ws -> args_at Q argv eargv ws.
Proof.
  intros H. revert argv eargv. induction ws as [|f ws IH]; intros argv eargv; simpl; [done|].
  destruct argv as [|[q|] argv], eargv as [|[e|] eargv]; try done. intros [Hq Ha]. split; [by apply H|by apply IH].
Qed.

Lemma tree_mono (P Q : nat -> nat -> list Z -> Prop) h p c :
  (forall q e f, P q e f -> Q q e f) -> tree P h p c -> tree Q h p c.
Proof. intros H. induction 1; econstructor; eauto using args_mono. Qed.

Section ending.
Context {St : Type} `{Sy : Sys St} (t r : list Z) (w : St).
Notation b := (t ++ 0 :: r).
Notation es := (length t).

(** NULs have been stored, but not in words. *)
Definition between (i : nat) : Prop := i = es \/ exists c, t !! i = Some c /\ word_char c = false.
Definition cut (b' : list Z) : Prop :=
  length b' = length b /\ forall i, b' !! i = b !! i \/ (b' !! i = Some 0 /\ between i).
Definition more_cut (b1 b2 : list Z) : Prop := cut b2 /\ forall i, b1 !! i = Some 0 -> b2 !! i = Some 0.
Definition ended (b' : list Z) (q e : nat) (f : list Z) : Prop := word_at t q e f /\ b' !! e = Some 0.

Lemma word_end q e f : word_at t q e f -> (e <= es)%nat /\ between e.
Proof.
  intros ([Hne _] & u & Ed & -> & Hu). assert (drop (q + length f) t = u) as Eu by (by rewrite <- drop_drop, Ed, drop_app_length).
  assert (length f + length u = es - q)%nat as Hl by (by rewrite <- length_drop, Ed, length_app).
  assert (0 < length f)%nat by (destruct f; [done|simpl; lia]). split; [lia|]. destruct u as [|c u].
  - left. simpl in Hl. lia.
  - right. exists c. split; [|by apply Hu]. by rewrite <- (Nat.add_0_r (q + length f)), <- lookup_drop, Eu.
Qed.

Lemma more_cut_trans b1 b2 b3 : more_cut b1 b2 -> more_cut b2 b3 -> more_cut b1 b3.
Proof. intros [_ H1] [H2 H3]. split; [done|auto]. Qed.

Lemma ended_mono b1 b2 q e f : more_cut b1 b2 -> ended b1 q e f -> ended b2 q e f.
Proof. intros [_ H] [Hw He]. split; [done|by apply H]. Qed.

Lemma cut_at b1 q e f : cut b1 -> word_at t q e f -> more_cut b1 (<[e := 0]> b1) /\ ended (<[e := 0]> b1) q e f.
Proof.
  intros [Hl Hc] Hw. destruct (word_end _ _ _ Hw) as [He Hb].
  assert (e < length b1)%nat as Hlt by (rewrite Hl, length_app; simpl; lia).
  split; [split; [split; [by rewrite length_insert|]|]|split; [done|by apply list_lookup_insert_eq]].
  - intros i. destruct (decide (i = e)) as [->|Hne]; [right; by rewrite list_lookup_insert_eq|].
    rewrite list_lookup_insert_ne by done. apply Hc.
  - intros i Hi. destruct (decide (i = e)) as [->|Hne]; [by apply list_lookup_insert_eq|by rewrite list_lookup_insert_ne].
Qed.

(** A word whose end has been marked is the string at its start. *)
Lemma ended_str b1 q e f : cut b1 -> ended b1 q e f -> str_at b1 q = f.
Proof.
  intros [Hl Hc] [Hw He]. pose proof Hw as ([Hne Hf] & u & Ed & -> & Hu).
  assert (forall i c, f !! i = Some c -> b1 !! (q + i)%nat = Some c) as Hin.
  { intros i c Hi. assert (t !! (q + i)%nat = Some c) as Hti by (rewrite <- lookup_drop, Ed; by apply lookup_app_l_Some).
    destruct (Hc (q + i)%nat) as [E|[_ Hb]]; [by rewrite E; apply lookup_app_l_Some|exfalso].
    rewrite list.Forall_forall in Hf. destruct (Hf c ltac:(by eapply list_elem_of_lookup_2)) as [Hwc _].
    destruct Hb as [Hb|(c' & Hc' & Hb)]; [|congruence]. apply lookup_lt_Some in Hti. lia. }
  assert (drop q b1 = f ++ 0 :: drop (S (q + length f)) b1) as Edr.
  { rewrite <- (take_drop (length f) (drop q b1)). f_equal.
    - apply list_eq. intros i. destruct (decide (i < length f)%nat) as [Hi|Hi].
      + rewrite lookup_take_lt, lookup_drop by done. destruct (lookup_lt_is_Some_2 f i Hi) as [c E]. rewrite E. by apply Hin.
      + rewrite lookup_take_ge by lia. symmetry. apply lookup_ge_None_2. lia.
    - rewrite drop_drop. by apply drop_S. }
  unfold str_at. rewrite Edr. apply c_string_word. eapply list.Forall_impl; [exact Hf|]. by intros c [_ ?].
Qed.

Lemma nul_args_run argv eargv ws b1 :
  cut b1 -> args_at (word_at t) argv eargv ws ->
  exists b2, nul_args argv eargv b1 = Some b2 /\ more_cut b1 b2 /\ args_at (ended b2) argv eargv ws.
Proof.
  revert argv eargv b1. induction ws as [|f ws IH]; intros argv eargv b1 Hc Ha.
  - exists b1. simpl in Ha. destruct argv as [|[] argv]; try done. 
  - simpl in Ha. destruct argv as [|[q|] argv], eargv as [|[e|] eargv]; try done. destruct Ha as [Hw Ha].
    destruct (cut_at b1 q e f Hc Hw) as [Hm He]. destruct (IH argv eargv (<[e := 0]> b1) ltac:(apply Hm) Ha) as (b2 & E & Hm2 & Ha2).
    exists b2. split; [done|]. split; [by eapply more_cut_trans|]. split; [by eapply ended_mono|done].
Qed.

Lemma nulterminate_run h n c p : forall fuel b1,
  tree (word_at t) h p c -> (p < fuel)%nat -> cut b1 ->
  exists b2, nulterminate fuel p (mkSh h n b1 w) = Ret tt (mkSh h n b2 w) /\ more_cut b1 b2 /\ tree (ended b2) h p c.
Proof.
  intros fuel b1 Ht. revert fuel b1.
  induction Ht as [i argv eargv ws Hi Ha|i sub q e mode fd c f Hi Hle Hw _ IH|i p1 p2 c1 c2 Hi H1 H2 _ IH1 _ IH2
    |i p1 p2 c1 c2 Hi H1 H2 _ IH1 _ IH2|i sub c Hi Hle _ IH]; intros fuel b1 Hf Hc; (destruct fuel as [|fuel]; [lia|]);
    cbn [nulterminate Nat.eqb]; unfold get; cbn [sh_heap]; (erewrite bind_Ret; [|cbn [sh_heap]; rewrite Hi; reflexivity]); cbv beta iota.
  - destruct (nul_args_run argv eargv ws b1 Hc Ha) as (b2 & E & Hm & Ha2). exists b2. unfold get_buf. rewrite bind_gets. cbn [sh_buf]. rewrite E.
    split; [done|]. split; [done|by econstructor].
  - destruct (IH fuel b1) as (b2 & E & Hm & Ht2); [lia|done|]. destruct (cut_at b2 q e f ltac:(apply Hm) Hw) as [Hm2 He].
    exists (<[e := 0]> b2). rewrite (bind_Ret _ _ _ _ _ E). split; [done|]. split; [by eapply more_cut_trans|].
    econstructor; try done. eapply tree_mono; [|exact Ht2]. intros. by eapply ended_mono.
  - destruct (IH1 fuel b1) as (b2 & E & Hm & Ht2); [lia|done|]. destruct (IH2 fuel b2) as (b3 & E3 & Hm3 & Ht3); [lia|apply Hm|].
    exists b3. rewrite (bind_Ret _ _ _ _ _ E). split; [done|]. split; [by eapply more_cut_trans|].
    econstructor; try done. eapply tree_mono; [|exact Ht2]. intros. by eapply ended_mono.
  - destruct (IH1 fuel b1) as (b2 & E & Hm & Ht2); [lia|done|]. destruct (IH2 fuel b2) as (b3 & E3 & Hm3 & Ht3); [lia|apply Hm|].
    exists b3. rewrite (bind_Ret _ _ _ _ _ E). split; [done|]. split; [by eapply more_cut_trans|].
    econstructor; try done. eapply tree_mono; [|exact Ht2]. intros. by eapply ended_mono.
  - destruct (IH fuel b1) as (b2 & E & Hm & Ht2); [lia|done|]. exists b2. split; [done|]. split; [done|]. by econstructor.
Qed.
End ending.

Lemma peek_end t r s set : at_ t s [] -> peek (t ++ 0 :: r) (length t) s set = (false, length t).
Proof. intros Ha. destruct (skip_space_at t r s [] Ha) as (_ & _ & E). unfold peek. by rewrite E, ch_end. Qed.

(** ** Properties *)

Section properties.
Context {St : Type} `{Sy : Sys St}.

(** C15: [parsecmd] parses the shell's language.  For every line of the grammar
    (pipelines, [&], [;], parentheses, redirections in any place, at most 9
    words in a command), however it is spaced, it returns a tree of [struct
    cmd]s that is the command the line stands for: the strings its pointers
    lead to, now ended by NULs stored in the line, are the words of the line in
    their places, redirections are nested in the order they are written, with
    their modes and descriptors.  It does not call the system, needs a
    [malloc] for each node of the tree and no more, and leaves older commands
    as they are. *)
Theorem parsecmd_parses l t r h n (w : St) :
  0 ∉ t -> spells t (line_toks l) -> few_args l -> (csize (meaning l) <= n)%nat ->
  exists p h' b', parsecmd 0 (mkSh h n (t ++ 0 :: r) w) = Ret p (mkSh (h ++ h') (n - csize (meaning l)) b' w) /\
    length b' = length (t ++ 0 :: r) /\ tree (fun q _ f => str_at b' q = f) (h ++ h') p (meaning l).
Proof.
  intros H0 Hsp Hf Hn. assert (at_ t 0 (line_toks l ++ [])) as Ha by (rewrite app_nil_r; split; [lia|done]).
  pose proof (at_length _ _ _ Ha) as Hl. rewrite app_nil_r in Hl.
  destruct (proj1 (parse_all t r w) l Hf (4 * length t + 4)%nat 0%nat [] h n Ha) as (p & s & h' & E & Ha' & Htr); [by left|done|lia|].
  destruct (nulterminate_run t r w (h ++ h') (n - csize (meaning l)) (meaning l) p (S (length (h ++ h'))) (t ++ 0 :: r) Htr)
    as (b' & E2 & [Hc _] & Htr2).
  { apply tree_bound in Htr. lia. }
  { split; [done|]. intros i. by left. }
  exists p, h', b'. split; [|split; [apply Hc|]].
  - unfold parsecmd, get_buf. rewrite bind_gets. cbn [sh_buf]. rewrite drop_0, u_strlen_text, Nat2Z.id, Nat.add_0_l by done.
    rewrite (bind_Ret _ _ _ _ _ E). cbn [fst snd]. rewrite (peek_end t r s [] Ha'). cbv beta iota. rewrite Nat.eqb_refl. cbn [negb].
    rewrite bind_gets. cbn [sh_heap]. by rewrite (bind_Ret _ _ _ _ _ E2).
  - eapply tree_mono; [|exact Htr2]. intros q e f He. by eapply ended_str.
Qed.
End properties.

(** ** Witnesses *)

(** A line with a space before each token. *)
Definition print_tok (tok : token) : list Z :=
  32 :: match tok with Sym c => if c =? chr "+" then [chr ">"; chr ">"] else [c] | Word f => f end.
Definition print_toks (toks : list token) : list Z := concat (print_tok <$> toks).

Lemma print_spells toks :
  Forall (fun tok => match tok with Sym c => c ∈ cstr "|();&<>+" | Word f => is_word f end) toks ->
  spells (print_toks toks) toks.
Proof.
  induction 1 as [|tok toks Hok Hall IH]; [by constructor|].
  unfold print_toks. rewrite fmap_cons, concat_cons. fold (print_toks toks).
  assert (Forall (fun c => is_space c = true) [32]) as Hs by (by repeat constructor).
  assert (forall c, head (print_toks toks) = Some c -> c = 32) as Hh by (destruct toks as [|[] ?]; [done|by intros ? [= <-]..]).
  destruct tok as [c|f].
  - unfold print_tok. destruct (Z.eqb_spec c (chr "+")) as [->|Hne]; [by apply (sp_append [32])|].
    destruct (decide (c = chr ">")) as [->|Hne2]; [apply (sp_out [32]); [done| |done]; by intros E%Hh|].
    apply (sp_sym [32]); [done| |done]. revert Hok Hne Hne2. simpl. rewrite !elem_of_cons, !elem_of_nil. unfold chr. simpl. lia.
  - apply (sp_word [32]); [done|done| |done]. by intros c ->%Hh.
Qed.

(** [a b > x ; ( c | d & ) >> y] *)
Definition sample_line : shline :=
  LineSeq (PipeEnd (Simple [] [(cstr "a", []); (cstr "b", [(Output, cstr "x")])])) 0
    (LineEnd (PipeEnd (Block (LineEnd (PipeMore (Simple [] [(cstr "c", [])]) (PipeEnd (Simple [] [(cstr "d", [])]))) 1)
      [(Append, cstr "y")])) 0).

Lemma parsecmd_parses_witness :
  exists p h b, parsecmd 0 (mkSh [] 8 (print_toks (line_toks sample_line) ++ [0]) (mkStreams (fun _ => []) (fun _ => []) [])) =
    Ret p (mkSh h 0 b (mkStreams (fun _ => []) (fun _ => []) [])).
Proof.
  destruct (parsecmd_parses sample_line (print_toks (line_toks sample_line)) [] [] 8 (mkStreams (fun _ => []) (fun _ => []) []))
    as (p & h & b & E & _ & _).
  - by refine (bool_decide_unpack _ _).
  - apply print_spells. repeat (apply Forall_cons_2; [by (refine (bool_decide_unpack _ _) || (split; [done|by repeat constructor]))|]).
    apply Forall_nil_2.
  - by vm_compute; lia.
  - by vm_compute; lia.
  - exists p, h, b. exact E.
Defined.
