(* ===== verification/Mkfs.v ===== *)
(** * The program that makes the disk image: mkfs.c

    [mkfs] runs on the build host and writes the file system that the kernel
    starts with.  The image file is a map from sectors to blocks, as the
    kernel's disk is; the host's calls on it and on the files to copy succeed
    or fail as the class [Host] says.  Messages are left out. *)

From Stdlib Require Import ZArith Lia.
From stdpp Require Import base gmap list strings numbers.
From S2P Require Import Prelude Riscv State Klib Bio Log Fs.

(** ** The state *)

Record mk : Type := mkMk {
  mk_img : gmap Z (list Z);
  mk_freeinode : Z;
  mk_freeblock : Z;
}.

(** Whether the host can seek to a sector and transfer it. *)
Class Host := host_ok : Z -> bool.

(** [exit(1)], and an [assert] that does not hold. *)
Definition mk_exit {A} : M mk A := panic "exit(1)".
Definition mk_assert (b : bool) : M mk unit := if b then ret tt else panic "assert".

(** On a little-endian host the bytes of a number are in the order of the disk. *)
Definition xshort (x : Z) : Z := le_val (le_bytes 2 x).
Definition xint (x : Z) : Z := le_val (le_bytes 4 x).

Definition NINODES : Z := 200.
Definition nbitmap : Z := FSSIZE / (BSIZE * 8) + 1.
Definition ninodeblocks : Z := NINODES / IPB + 1.
Definition mk_nlog : Z := LOGSIZE.
Definition nmeta : Z := 2 + mk_nlog + ninodeblocks + nbitmap.
Definition nblocks : Z := FSSIZE - nmeta.

(** [sb], as [main] fills it in. *)
Definition mk_sb : superblock :=
  mkSuperblock FSMAGIC (xint FSSIZE) (xint nblocks) (xint NINODES) (xint mk_nlog)
    (xint 2) (xint (2 + mk_nlog)) (xint (2 + mk_nlog + ninodeblocks)).

Definition superblock_bytes (s : superblock) : list Z :=
  concat (le_bytes 4 <$> [sb_magic s; sb_size s; sb_nblocks s; sb_ninodes s; sb_nlog s; sb_logstart s;
    sb_inodestart s; sb_bmapstart s]).

(** ** Operations *)

Section mkfs.
Context `{H : Host}.

Definition wsect (sec : Z) (buf : list Z) : M mk unit :=
  if negb (host_ok sec) then mk_exit else
  modify (fun s => mkMk (<[sec := buf]> (mk_img s)) (mk_freeinode s) (mk_freeblock s)).

(** Reading past the end of the image gives fewer bytes. *)
Definition rsect (sec : Z) : M mk (list Z) :=
  if negb (host_ok sec) then mk_exit else
  let* img := gets mk_img in
  match img !! sec with Some b => ret b | None => mk_exit end.

Definition winode (inum : Z) (ip : dinode) : M mk unit :=
  let bn := IBLOCK inum mk_sb in
  let* buf := rsect bn in
  wsect bn (dinode_put buf (dinode_off inum) ip).

Definition rinode (inum : Z) : M mk dinode :=
  let bn := IBLOCK inum mk_sb in
  let* buf := rsect bn in
  ret (dinode_get buf (dinode_off inum)).

Definition mk_ialloc (type : Z) : M mk Z :=
  let* inum := gets mk_freeinode in
  modify (fun s => mkMk (mk_img s) (u32 (mk_freeinode s + 1)) (mk_freeblock s)) ;;;
  winode inum (mkDinode (xshort type) 0 0 (xshort 1) (xint 0) (replicate (Z.to_nat (NDIRECT + 1)) 0)) ;;;
  ret inum.

(** [buf[i/8] = buf[i/8] | (0x1 << (i%8))] for the first [used] blocks. *)
Fixpoint used_bits (n : nat) : list Z :=
  match n with
  | O => block0
  | S n' => bitmap_set (used_bits n') (Z.of_nat n')
  end.

Definition mk_balloc (used : Z) : M mk unit :=
  mk_assert (used <? BSIZE * 8) ;;;
  wsect (sb_bmapstart mk_sb) (used_bits (Z.to_nat used)).

(** [xint(freeblock++)]. *)
Definition take_block : M mk Z :=
  let* b := gets mk_freeblock in
  modify (fun s => mkMk (mk_img s) (mk_freeinode s) (u32 (mk_freeblock s + 1))) ;;;
  ret (xint b).

Definition addr_of (din : dinode) (i : Z) : Z := default 0 (d_addrs din !! Z.to_nat i).
Definition set_addr (din : dinode) (i v : Z) : dinode := set_d_addrs (<[Z.to_nat i := v]> (d_addrs din)) din.

(** Block [fbn] of the file, through the indirect block. *)
Definition indirect_block (din : dinode) (fbn : Z) : M mk Z :=
  let i := 4 * (fbn - NDIRECT) in
  let* indirect := rsect (xint (addr_of din NDIRECT)) in
  let* indirect :=
    if get32 indirect i =? 0 then
      let* b := take_block in
      let indirect := put32 indirect i b in
      wsect (xint (addr_of din NDIRECT)) indirect ;;; ret indirect
    else ret indirect in
  ret (xint (get32 indirect i)).

(** [if(xint(din.addrs[i]) == 0) din.addrs[i] = xint(freeblock++)]. *)
Definition fill_addr (din : dinode) (i : Z) : M mk dinode :=
  if xint (addr_of din i) =? 0 then let* b := take_block in ret (set_addr din i b) else ret din.

(** The block [x] of [iappend] for block [fbn] of the file. *)
Definition file_block (din : dinode) (fbn : Z) : M mk (dinode * Z) :=
  if fbn <? NDIRECT then
    let* din := fill_addr din fbn in
    ret (din, xint (addr_of din fbn))
  else
    let* din := fill_addr din NDIRECT in
    let* x := indirect_block din fbn in
    ret (din, x).

(** The body of [iappend]'s loop: [p] is what is left to append. *)
Definition iappend_turn : list Z * Z * dinode -> M mk (list Z * Z * dinode + Z * dinode) :=
  fun '(p, off, din) =>
    match p with
    | [] => ret (inr (off, din))
    | _ =>
        let fbn := off / BSIZE in
        mk_assert (fbn <? MAXFILE) ;;;
        let* r := file_block din fbn in
        let '(din, x) := r in
        let n1 := Z.min (Z.of_nat (length p)) ((fbn + 1) * BSIZE - off) in
        let* buf := rsect x in
        wsect x (put_bytes buf (off - fbn * BSIZE) (take (Z.to_nat n1) p)) ;;;
        ret (inl (drop (Z.to_nat n1) p, off + n1, din))
    end.

(** Every turn appends at least a byte. *)
Definition iappend (inum : Z) (p : list Z) : M mk unit :=
  let* din := rinode inum in
  let* r := while_ (S (length p)) iappend_turn (p, xint (d_size din), din) in
  let '(off, din) := r in
  winode inum (set_d_size (xint off) din).

(** A file to copy: its name on the command line and what the reads of it
    return, if it can be opened. *)
Definition hostfile : Type := list Z * option (list (list Z)).

(** [shortname]: without a leading ["user/"], then without a leading ['_']. *)
Definition strip_user (name : list Z) : list Z :=
  if bool_decide (take 5 name = cstr "user/") then drop 5 name else name.
Definition strip_underscore (name : list Z) : list Z :=
  match name with c :: name' => if c =? chr "_" then name' else name | [] => [] end.

(** [while((cc = read(fd, buf, sizeof(buf))) > 0) iappend(inum, buf, cc)]. *)
Fixpoint copy_file (inum : Z) (reads : list (list Z)) : M mk unit :=
  match reads with
  | [] => ret tt
  | buf :: reads' => if 0 <? Z.of_nat (length buf) then iappend inum buf ;;; copy_file inum reads' else ret tt
  end.

Definition add_file (rootino : Z) (f : hostfile) : M mk unit :=
  let shortname := strip_user (fst f) in
  mk_assert (bool_decide (chr "/" ∉ shortname)) ;;;
  match snd f with
  | None => mk_exit
  | Some reads =>
      let shortname := strip_underscore shortname in
      let* inum := mk_ialloc T_FILE in
      iappend rootino (mk_dirent (xshort inum) (strncpy shortname DIRSIZ)) ;;;
      copy_file inum reads
  end.

Fixpoint add_files (rootino : Z) (files : list hostfile) : M mk unit :=
  match files with
  | [] => ret tt
  | f :: files' => add_file rootino f ;;; add_files rootino files'
  end.

(** [for(i = 0; i < FSSIZE; i++) wsect(i, zeroes)]. *)
Definition wipe : M mk unit := for_all (Z.to_nat FSSIZE) 0 (fun i => wsect i block0).

(** [main]: [image] is the image file's argument, if there is one, and whether
    the host can create the file; [files] are the arguments after it. *)
Definition mkfs_main (image : option bool) (files : list hostfile) : M mk unit :=
  match image with
  | None | Some false => mk_exit
  | Some true =>
  mk_assert (BSIZE mod sizeof_dinode =? 0) ;;;
  mk_assert (BSIZE mod sizeof_dirent =? 0) ;;;
  modify (fun s => mkMk ∅ (mk_freeinode s) nmeta) ;;;
  wipe ;;;
  wsect 1 (put_bytes block0 0 (superblock_bytes mk_sb)) ;;;
  let* rootino := mk_ialloc T_DIR in
  mk_assert (rootino =? ROOTINO) ;;;
  iappend rootino (mk_dirent (xshort rootino) (strncpy (cstr ".") DIRSIZ)) ;;;
  iappend rootino (mk_dirent (xshort rootino) (strncpy (cstr "..") DIRSIZ)) ;;;
  add_files rootino files ;;;
  let* din := rinode rootino in
  let off := xint (d_size din) in
  let off := (off / BSIZE + 1) * BSIZE in
  winode rootino (set_d_size (xint off) din) ;;;
  let* used := gets mk_freeblock in
  mk_balloc used
  end.
End mkfs.

(** The program's variables before [main]. *)
Definition mk_start : mk := mkMk ∅ 1 0.
