(* ===== verification/Mkimage.v ===== *)
(** * The disk image that mkfs makes

    The image as an abstract file system: a list of files, each with its type
    and its contents, inode number 1 first.  [ialloc] adds an empty file,
    [iappend] extends one; blocks are handed out in order, so that the number
    of blocks in use is a function of the contents.  The finished image has
    the shape that the kernel's file system relies on. *)

From Stdlib Require Import ZArith Lia.
From stdpp Require Import base gmap list strings numbers.
From S2P Require Import Prelude Riscv State Klib Bio Log Fs Balloc Inode Dir Mkfs.

(** ** Blocks of one file *)

(** The file of [x] holds [bs] in its first [nb] blocks, which lie between
    [lo] and [fb]; what follows [bs] is zero. *)
Record held (D : Z -> list Z) (x : inode) (lo fb nb : Z) (bs : list Z) : Prop := {
  hd_addrs : length (i_addrs x) = Z.to_nat (NDIRECT + 1);
  hd_nb : 0 <= nb <= MAXFILE;
  hd_fits : Z.of_nat (length bs) <= nb * BSIZE;
  hd_slot : forall s, 0 <= s < MAXFILE -> fblk D x s <> 0 <-> s < nb;
  hd_ind : ind x <> 0 <-> NDIRECT < nb;
  hd_range : forall s, is_slot s -> fblk D x s <> 0 -> lo <= fblk D x s < fb;
  hd_inj : forall s s', is_slot s -> is_slot s' -> fblk D x s <> 0 -> fblk D x s = fblk D x s' -> s = s';
  hd_byte : forall o, 0 <= o < MAXFILE * BSIZE -> byte_at D x o = default 0 (bs !! Z.to_nat o);
}.

(** The blocks of a file of [n] bytes, without and with the indirect block. *)
Definition nblk (n : Z) : Z := (n + (BSIZE - 1)) / BSIZE.
Definition with_ind (nb : Z) : Z := nb + (if NDIRECT <? nb then 1 else 0).

(** No block of the file of [x]. *)
Definition not_of (D : Z -> list Z) (x : inode) (a : Z) : Prop :=
  forall s, is_slot s -> fblk D x s <> 0 -> fblk D x s <> a.

(** A file does not change when its blocks do not. *)
Lemma fblk_frame D D' x s : (ind x <> 0 -> D' (ind x) = D (ind x)) -> fblk D' x s = fblk D x s.
Proof.
  intros H. unfold fblk. destruct (s <? NDIRECT), (s =? MAXFILE); try done.
  destruct (Z.eqb_spec (ind x) 0); [done|]. by rewrite H.
Qed.

Lemma held_frame D D' x lo fb fb' nb bs :
  held D x lo fb nb bs -> fb <= fb' -> (forall s, is_slot s -> fblk D x s <> 0 -> D' (fblk D x s) = D (fblk D x s)) ->
  held D' x lo fb' nb bs /\ forall s, fblk D' x s = fblk D x s.
Proof.
  intros [H1 H2 H3 H4 H5 H6 H7 H8] Hle Hd.
  assert (forall s, fblk D' x s = fblk D x s) as E by (intros s; apply fblk_frame; exact (Hd MAXFILE is_slot_ind)).
  split; [|done]. split; try done.
  - intros s Hs. rewrite E. by apply H4.
  - intros s Hs. rewrite E. intros H0. specialize (H6 s Hs H0). lia.
  - intros s s' Hs Hs'. rewrite !E. by apply H7.
  - intros o Ho. rewrite <- H8 by done. unfold byte_at. rewrite E.
    destruct (Z.eqb_spec (fblk D x (o / BSIZE)) 0); [done|]. rewrite Hd; [done| |done].
    split; [apply Z.div_pos; [lia|done]|]. apply Z.lt_le_incl, Z.div_lt_upper_bound; [done|lia].
Qed.

(** The next block of the file: slot [nb], which was empty, and whose new block
    reads as zeroes. *)
Lemma held_alloc D x D' x' lo fb fb' nb bs n :
  held D x lo fb nb bs -> nb < MAXFILE -> fb <= n < fb' -> 0 < lo <= fb -> D' n = block0 ->
  length (i_addrs x') = Z.to_nat (NDIRECT + 1) -> ind x' <> 0 <-> NDIRECT < nb + 1 ->
  (ind x' = ind x \/ ind x = 0 /\ fb <= ind x' < fb' /\ ind x' <> n) ->
  (forall s, 0 <= s < MAXFILE -> fblk D' x' s = if decide (s = nb) then n else fblk D x s) ->
  (forall a, lo <= a < fb -> a <> ind x -> D' a = D a) -> held D' x' lo fb' (nb + 1) bs.
Proof.
  intros [H1 H2 H3 H4 H5 H6 H7 H8] Hnb Hn Hlo Hz Hl Hi Hii Ef Hd. assert (0 < MAXFILE) as HM by done.
  assert (forall s, is_slot s -> s = MAXFILE \/ 0 <= s < MAXFILE) as Hcase by (unfold is_slot; lia).
  assert (forall s, 0 <= s < MAXFILE -> fblk D x s <> 0 -> lo <= fblk D x s < fb /\ fblk D x s <> ind x) as Hold.
  { intros s Hs H0. split; [apply H6; [unfold is_slot; lia|done]|]. intros E.
    assert (s = MAXFILE); [|lia]. apply H7; [unfold is_slot; lia|apply is_slot_ind|done|exact E]. }
  assert (ind x <> 0 -> lo <= ind x < fb) as Hind by (exact (H6 MAXFILE is_slot_ind)).
  split; try done.
  - lia.
  - change BSIZE with 1024 in *. lia.
  - intros s Hs. rewrite Ef by done. specialize (H4 s Hs). case_decide; lia.
  - intros s Hs. destruct (Hcase s Hs) as [->|Hs'].
    + rewrite ind_slot. intros H0. destruct Hii as [E|(E & E1 & E2)]; [|lia]. rewrite E in *. specialize (Hind H0). lia.
    + rewrite Ef by done. case_decide; [lia|]. intros H0. destruct (Hold s Hs' H0). lia.
  - intros s s' Hs Hs'. destruct (Hcase s Hs) as [->|Hr], (Hcase s' Hs') as [->|Hr']; rewrite ?ind_slot, ?Ef by done.
    + done.
    + intros H0 E. exfalso. case_decide as Ed.
      * destruct Hii as [E1|(E1 & E2 & E3)]; [|done]. rewrite E1 in *. specialize (Hind H0). lia.
      * rewrite E in H0. destruct (Hold s' Hr' H0). destruct Hii as [E1|(E1 & E2 & E3)]; [congruence|lia].
    + intros H0 E. exfalso. case_decide as Ed.
      * destruct Hii as [E1|(E1 & E2 & E3)]; [|done]. rewrite E1 in *. assert (ind x <> 0) as Hx by congruence. specialize (Hind Hx). lia.
      * destruct (Hold s Hr H0). destruct Hii as [E1|(E1 & E2 & E3)]; [congruence|lia].
    + case_decide as Ed; case_decide as Ed'; intros H0 E; subst; try done.
      * destruct (decide (fblk D x s' = 0)) as [E0|E0]; [lia|]. destruct (Hold s' Hr' E0). lia.
      * destruct (Hold s Hr H0). lia.
      * apply H7; [done..|congruence].
  - intros o Ho. assert (0 <= o / BSIZE < MAXFILE) as Hr.
    { split; [apply Z.div_pos; [lia|done]|apply Z.div_lt_upper_bound; [done|lia]]. }
    unfold byte_at. rewrite Ef by done. case_decide as Ed.
    + rewrite (proj2 (Z.eqb_neq n 0)) by lia. rewrite Hz. rewrite (lookup_ge_None_2 bs).
      { unfold block0. destruct (replicate _ _ !! _) as [v|] eqn:Ev; [|done]. by apply lookup_replicate in Ev as [-> _]. }
      pose proof (Z.div_mod o BSIZE ltac:(done)). pose proof (Z.mod_pos_bound o BSIZE ltac:(done)).
      change BSIZE with 1024 in *. lia.
    + rewrite <- H8 by done. unfold byte_at. destruct (Z.eqb_spec (fblk D x (o / BSIZE)) 0) as [E0|E0]; [done|].
      destruct (Hold _ Hr E0). by rewrite Hd.
Qed.

(** The bytes [c] go to the end of the file, within one block. *)
Lemma held_put D x lo fb nb bs c off a :
  held D x lo fb nb bs -> off = Z.of_nat (length bs) -> off / BSIZE < nb -> a = fblk D x (off / BSIZE) ->
  Z.of_nat (length c) <= BSIZE - off mod BSIZE -> length (D a) = Z.to_nat BSIZE ->
  held (zupd D a (put_bytes (D a) (off mod BSIZE) c)) x lo fb nb (bs ++ c).
Proof.
  intros [H1 H2 H3 H4 H5 H6 H7 H8] Eo Hlt Ea Hc Hl. set (D' := zupd _ _ _). assert (0 < BSIZE) as HB by done.
  pose proof (Z.mod_pos_bound off BSIZE HB) as Hm. pose proof (Z.div_mod off BSIZE ltac:(lia)) as Edm.
  assert (0 <= off / BSIZE < MAXFILE) as Hfb by (split; [apply Z.div_pos; lia|lia]).
  assert (a <> 0) as Ha by (subst a; by apply H4).
  assert (forall s, is_slot s -> s <> off / BSIZE -> fblk D x s <> a) as Hne.
  { intros s Hs Hd E. apply Hd. symmetry. apply H7; [split; lia|done|congruence|congruence]. }
  assert (forall s, fblk D' x s = fblk D x s) as E.
  { intros s. apply fblk_frame. intros _. unfold D'. apply zupd_ne. apply (Hne MAXFILE is_slot_ind). lia. }
  split; try done.
  - rewrite length_app. change BSIZE with 1024 in *. lia.
  - intros s Hs. rewrite E. by apply H4.
  - intros s Hs. rewrite E. by apply H6.
  - intros s s' Hs Hs'. rewrite !E. by apply H7.
  - intros o Ho. pose proof (Z.div_mod o BSIZE ltac:(lia)) as Edo. pose proof (Z.mod_pos_bound o BSIZE HB) as Hmo.
    assert (0 <= o / BSIZE < MAXFILE) as Hr by (split; [apply Z.div_pos; lia|apply Z.div_lt_upper_bound; lia]).
    pose proof (H8 o Ho) as Hb. unfold byte_at in *. rewrite E. destruct (decide (o / BSIZE = off / BSIZE)) as [Eb|Hnb].
    + rewrite Eb, <- Ea in *. rewrite (proj2 (Z.eqb_neq a 0) Ha) in *. unfold D'. rewrite zupd_eq.
      rewrite put_bytes_lookup by (rewrite ?Hl; change BSIZE with 1024 in *; lia). case_decide as Hd.
      * rewrite lookup_app_r by (change BSIZE with 1024 in *; lia). f_equal. f_equal. change BSIZE with 1024 in *. lia.
      * rewrite Hb. f_equal. destruct (decide (Z.to_nat o < length bs)%nat); [by rewrite lookup_app_l|].
        rewrite !lookup_ge_None_2; [done|rewrite length_app; change BSIZE with 1024 in *; lia|lia].
    + assert (length bs <= Z.to_nat o \/ Z.to_nat o < length bs)%nat as [Hge|Hl'] by lia.
      * rewrite (lookup_ge_None_2 bs) in Hb by lia. rewrite (lookup_ge_None_2 (bs ++ c)).
        2:{ rewrite length_app. change BSIZE with 1024 in *. lia. }
        destruct (Z.eqb_spec (fblk D x (o / BSIZE)) 0); [done|]. unfold D'. rewrite zupd_ne; [done|].
        apply Hne; [split; lia|done].
      * rewrite lookup_app_l by done. destruct (Z.eqb_spec (fblk D x (o / BSIZE)) 0); [done|]. unfold D'.
        rewrite zupd_ne; [done|]. apply Hne; [split; lia|done].
Qed.

Lemma held_ext D D' x lo fb nb bs : (forall a, D' a = D a) -> held D x lo fb nb bs -> held D' x lo fb nb bs.
Proof. intros E H. by apply (held_frame D D' x lo fb fb nb bs H). Qed.

Lemma nblk_eq off : nblk off = off / BSIZE + (if off mod BSIZE =? 0 then 0 else 1).
Proof.
  unfold nblk. change BSIZE with 1024. destruct (Z.eqb_spec (off mod 1024) 0); Z.to_euclidean_division_equations; lia.
Qed.

Lemma nblk_mono n m : n <= m -> nblk n <= nblk m.
Proof. intros H. unfold nblk. apply Z.div_le_mono; [done|lia]. Qed.

Lemma with_ind_mono n m : n <= m -> with_ind n <= with_ind m.
Proof. intros H. unfold with_ind. destruct (Z.ltb_spec NDIRECT n), (Z.ltb_spec NDIRECT m); lia. Qed.

Lemma nblk_add off n : 0 <= off -> 0 < n <= BSIZE - off mod BSIZE -> nblk (off + n) = off / BSIZE + 1.
Proof. unfold nblk. change BSIZE with 1024. intros H0 H. Z.to_euclidean_division_equations; lia. Qed.

(** ** The image *)

Definition mk_disk (s : mk) (n : Z) : list Z := default block0 (mk_img s !! n).

(** The inode of a [struct dinode], as [ilock] reads it. *)
Definition view (d : dinode) : inode := of_dinode d inode0.

(** Every sector has been written; the blocks that are not handed out are zero. *)
Record raw (s : mk) : Prop := {
  rw_dom : forall n, 0 <= n < FSSIZE -> is_Some (mk_img s !! n);
  rw_len : forall n, length (mk_disk s n) = Z.to_nat BSIZE;
  rw_zero : forall n, mk_freeblock s <= n -> mk_disk s n = block0;
  rw_fb : nmeta <= mk_freeblock s <= FSSIZE;
}.

(** The file of [x] became that of [x']; blocks of other files are as before. *)
Record appended (s s' : mk) (x x' : inode) : Prop := {
  ap_inode : mk_freeinode s' = mk_freeinode s;
  ap_fb : mk_freeblock s <= mk_freeblock s';
  ap_blocks : forall t, is_slot t -> fblk (mk_disk s') x' t = fblk (mk_disk s) x t \/ mk_freeblock s <= fblk (mk_disk s') x' t;
  ap_frame : forall a, a < mk_freeblock s -> not_of (mk_disk s) x a -> mk_disk s' a = mk_disk s a;
}.

Lemma appended_refl s x : appended s s x x.
Proof. split; [done|done|by left|done]. Qed.

Lemma appended_not_of s s' x x' a :
  appended s s' x x' -> a < mk_freeblock s -> not_of (mk_disk s) x a -> not_of (mk_disk s') x' a.
Proof.
  intros [H1 H2 H3 H4] Ha Hn t Ht H0 E. destruct (H3 t Ht) as [Et|Et]; [|lia]. rewrite Et in *. by apply (Hn t).
Qed.

Lemma appended_trans s s1 s2 x x1 x2 : appended s s1 x x1 -> appended s1 s2 x1 x2 -> appended s s2 x x2.
Proof.
  intros Ha Hb. pose proof Ha as [A1 A2 A3 A4]. pose proof Hb as [B1 B2 B3 B4]. split.
  - congruence.
  - lia.
  - intros t Ht. destruct (B3 t Ht) as [->|H]; [by apply A3|right; lia].
  - intros a Hl Hn. rewrite B4; [by apply A4|lia|]. by apply (appended_not_of s s1 x x1).
Qed.

Definition put_sect (n : Z) (b : list Z) (s : mk) : mk := mkMk (<[n := b]> (mk_img s)) (mk_freeinode s) (mk_freeblock s).

Lemma mk_disk_put n b s a : mk_disk (put_sect n b s) a = zupd (mk_disk s) n b a.
Proof.
  unfold mk_disk, put_sect, zupd. simpl. case_decide as E; [subst; by rewrite lookup_insert_eq|by rewrite lookup_insert_ne].
Qed.

Lemma raw_put n b s : raw s -> 0 <= n < mk_freeblock s -> length b = Z.to_nat BSIZE -> raw (put_sect n b s).
Proof.
  intros [H1 H2 H3 H4] Hn Hb. split; [| | |done].
  - intros m Hm. unfold put_sect. simpl. destruct (decide (m = n)) as [->|Hne]; [rewrite lookup_insert_eq; eauto|].
    rewrite lookup_insert_ne by done. by apply H1.
  - intros m. rewrite mk_disk_put. unfold zupd. case_decide; [done|apply H2].
  - intros m Hm. rewrite mk_disk_put, zupd_ne by (simpl in Hm; lia). by apply H3.
Qed.

Lemma xint_small n : 0 <= n < 2 ^ 32 -> xint n = n.
Proof. intros H. unfold xint. rewrite le_val_bytes. by apply Z.mod_small. Qed.

(** A number for the file's next block. *)
Definition take_fb (s : mk) : mk := mkMk (mk_img s) (mk_freeinode s) (mk_freeblock s + 1).

Lemma take_fb_run s : raw s -> take_block s = Ret (mk_freeblock s) (take_fb s).
Proof.
  intros [_ _ _ Hf]. change nmeta with 46 in Hf. change FSSIZE with 1000 in Hf.
  unfold take_block, gets, modify, bind, ret. cbv beta iota. unfold take_fb. rewrite xint_small by lia. simpl.
  by rewrite u32_small by lia.
Qed.

Section run.
Context `{H : Host}.
Hypothesis Hhost : forall n, 0 <= n < FSSIZE -> host_ok n = true.

Lemma wsect_run n b s : 0 <= n < FSSIZE -> wsect n b s = Ret tt (put_sect n b s).
Proof. intros Hn. unfold wsect. by rewrite Hhost. Qed.

Lemma rsect_run n s : raw s -> 0 <= n < FSSIZE -> rsect n s = Ret (mk_disk s n) s.
Proof.
  intros Hr Hn. unfold rsect. rewrite Hhost by done. destruct (rw_dom _ Hr n Hn) as [b Hb].
  unfold gets, bind. simpl. unfold mk_disk. by rewrite Hb.
Qed.

(** *** The block of [iappend] *)

Lemma raw_take s : raw s -> mk_freeblock s + 1 <= FSSIZE -> raw (take_fb s).
Proof.
  intros [H1 H2 H3 H4] Hf. split; [done|done| |unfold take_fb; simpl; lia].
  intros n Hn. apply H3. unfold take_fb in Hn. simpl in Hn. lia.
Qed.

Lemma addr_of_fblk D din i : 0 <= i <= NDIRECT -> addr_of din i = fblk D (view din) (addr_slot i).
Proof. intros Hi. by rewrite fblk_addr. Qed.

Lemma fblk_set_addr D din i n s :
  length (d_addrs din) = Z.to_nat (NDIRECT + 1) -> 0 <= i < NDIRECT -> 0 <= s ->
  fblk D (view (set_addr din i n)) s = if decide (s = i) then n else fblk D (view din) s.
Proof.
  intros Hl Hi Hs. unfold fblk, ind. cbn. rewrite (list_lookup_insert_ne (d_addrs din) (Z.to_nat i) (Z.to_nat NDIRECT)) by lia.
  destruct (Z.ltb_spec s NDIRECT); case_decide as E; subst; try done; [|by rewrite list_lookup_insert_ne by lia|lia].
  rewrite list_lookup_insert_eq; [done|]. rewrite Hl. unfold NDIRECT in *. lia.
Qed.

Lemma ind_set_addr din n : length (d_addrs din) = Z.to_nat (NDIRECT + 1) -> ind (view (set_addr din NDIRECT n)) = n.
Proof. intros Hl. unfold ind. cbn. rewrite list_lookup_insert_eq; [done|]. rewrite Hl. unfold NDIRECT. lia. Qed.

Lemma fblk_set_ind D din n s :
  length (d_addrs din) = Z.to_nat (NDIRECT + 1) -> s < NDIRECT ->
  fblk D (view (set_addr din NDIRECT n)) s = fblk D (view din) s.
Proof.
  intros Hl Hs. unfold fblk. rewrite (proj2 (Z.ltb_lt s NDIRECT) Hs). cbn.
  destruct (decide (s < 0)) as [Hneg|]; [|by rewrite list_lookup_insert_ne by lia].
  rewrite list_lookup_insert_ne; [done|]. unfold NDIRECT. lia.
Qed.

Lemma get32_block0 i : get32 block0 i = 0.
Proof.
  unfold get32. assert (Forall (fun b => b = 0) (get_bytes block0 i 4)) as HF.
  { unfold get_bytes. apply Forall_take, Forall_drop, Forall_replicate. done. }
  revert HF. generalize (get_bytes block0 i 4). induction 1 as [|b l -> _ IH]; [done|]. simpl. by rewrite IH.
Qed.

Lemma fblk_ind_entry D x s : NDIRECT <= s < MAXFILE -> ind x <> 0 -> fblk D x s = get32 (D (ind x)) (4 * (s - NDIRECT)).
Proof.
  intros Hs Hi. unfold fblk. rewrite (proj2 (Z.ltb_ge s NDIRECT)), (proj2 (Z.eqb_neq s MAXFILE)) by lia.
  by rewrite (proj2 (Z.eqb_neq (ind x) 0)).
Qed.

(** The file as [iappend] sees it, in the middle of its loop. *)
Record open_image (s : mk) (din : dinode) (nb : Z) (bs : list Z) : Prop := {
  oi_raw : raw s;
  oi_held : held (mk_disk s) (view din) nmeta (mk_freeblock s) nb bs;
}.

Lemma slot_block s din nb bs t :
  open_image s din nb bs -> is_slot t -> fblk (mk_disk s) (view din) t <> 0 ->
  nmeta <= fblk (mk_disk s) (view din) t < FSSIZE /\ xint (fblk (mk_disk s) (view din) t) = fblk (mk_disk s) (view din) t.
Proof.
  intros [Hr Hh] Ht H0. pose proof (hd_range _ _ _ _ _ _ Hh t Ht H0) as Hg. pose proof (rw_fb _ Hr) as Hf.
  split; [lia|]. apply xint_small. change nmeta with 46 in *. change FSSIZE with 1000 in *. lia.
Qed.

Lemma file_block_old s din nb bs fbn :
  open_image s din nb bs -> 0 <= fbn < nb -> file_block din fbn s = Ret (din, fblk (mk_disk s) (view din) fbn) s.
Proof.
  intros Ho Hb. pose proof Ho as [Hr Hh]. pose proof (hd_nb _ _ _ _ _ _ Hh) as Hnb.
  assert (fblk (mk_disk s) (view din) fbn <> 0) as H0 by (apply (hd_slot _ _ _ _ _ _ Hh); lia).
  destruct (slot_block s din nb bs fbn Ho ltac:(split; lia) H0) as [Hg Ex]. unfold file_block, fill_addr.
  destruct (Z.ltb_spec fbn NDIRECT) as [Hd|Hd].
  - assert (addr_of din fbn = fblk (mk_disk s) (view din) fbn) as Ea.
    { rewrite (addr_of_fblk (mk_disk s)) by lia. f_equal. unfold addr_slot. by rewrite (proj2 (Z.eqb_neq fbn NDIRECT)) by lia. }
    rewrite Ea, Ex, (proj2 (Z.eqb_neq _ 0)), bind_ret_l by done. by rewrite Ea, Ex.
  - assert (ind (view din) <> 0) as Hi by (apply (hd_ind _ _ _ _ _ _ Hh); lia).
    destruct (slot_block s din nb bs MAXFILE Ho is_slot_ind Hi) as [Hgi Exi]. rewrite ind_slot in *.
    change (addr_of din NDIRECT) with (ind (view din)). rewrite Exi, (proj2 (Z.eqb_neq _ 0)), bind_ret_l by done.
    assert (get32 (mk_disk s (ind (view din))) (4 * (fbn - NDIRECT)) = fblk (mk_disk s) (view din) fbn) as Eg
      by (symmetry; apply fblk_ind_entry; [lia|done]).
    unfold indirect_block. rewrite bind_assoc.
    change (addr_of din NDIRECT) with (ind (view din)). rewrite Exi. change nmeta with 46 in *.
    rewrite (bind_Ret _ _ _ _ _ (rsect_run (ind (view din)) s Hr ltac:(lia))), Eg, (proj2 (Z.eqb_neq _ 0)), bind_assoc, bind_ret_l by done.
    by rewrite Eg, Ex.
Qed.

(** Entry [nb] of the indirect block [i] becomes [n]. *)
Lemma fblk_put_entry D x nb n s :
  length (D (ind x)) = Z.to_nat BSIZE -> NDIRECT <= nb < MAXFILE -> ind x <> 0 -> 0 <= n < 2 ^ 32 -> 0 <= s < MAXFILE ->
  fblk (zupd D (ind x) (put32 (D (ind x)) (4 * (nb - NDIRECT)) n)) x s = if decide (s = nb) then n else fblk D x s.
Proof.
  intros Hl Hn Hi Hr Hs. assert (MAXFILE * 4 = 4 * NDIRECT + BSIZE) as EM by done.
  destruct (decide (s < NDIRECT)) as [Hd|Hd].
  - rewrite decide_False by lia. unfold fblk. by rewrite (proj2 (Z.ltb_lt s NDIRECT)) by lia.
  - rewrite !fblk_ind_entry, zupd_eq by lia. case_decide as E.
    + subst. rewrite get_put32_eq by lia. by apply u32_small.
    + apply get_put32_ne; lia.
Qed.

(** What [file_block] does for the block after the last. *)
Definition new_block (s : mk) (din : dinode) (nb : Z) (bs : list Z) : Prop :=
  exists s' din', file_block din nb s = Ret (din', fblk (mk_disk s') (view din') nb) s' /\
    open_image s' din' (nb + 1) bs /\ appended s s' (view din) (view din') /\
    mk_freeblock s' = mk_freeblock s + with_ind (nb + 1) - with_ind nb /\ din' = set_d_addrs (d_addrs din') din.

Lemma direct_new s din nb bs :
  open_image s din nb bs -> nb < NDIRECT -> mk_freeblock s + 1 <= FSSIZE -> new_block s din nb bs.
Proof.
  intros Ho Hd Hf. pose proof Ho as [Hr Hh]. pose proof Hh as [H1 H2 H3 H4 H5 H6 H7 H8]. pose proof (rw_fb _ Hr) as Hfb.
  set (fb := mk_freeblock s) in *. set (din' := set_addr din nb fb). assert (NDIRECT < MAXFILE) as HM by done.
  assert (0 < nmeta) as Hm0 by done. change FSSIZE with 1000 in *.
  assert (forall t, 0 <= t -> fblk (mk_disk s) (view din') t = if decide (t = nb) then fb else fblk (mk_disk s) (view din) t) as Ef.
  { intros t Ht. by apply fblk_set_addr; [|lia|]. }
  assert (fblk (mk_disk s) (view din) nb = 0) as Ez.
  { destruct (decide (fblk (mk_disk s) (view din) nb = 0)) as [|E]; [done|]. apply H4 in E; lia. }
  assert (addr_of din nb = 0) as Ea.
  { rewrite (addr_of_fblk (mk_disk s)) by lia. rewrite <- Ez. f_equal. unfold addr_slot.
    by rewrite (proj2 (Z.eqb_neq nb NDIRECT)) by lia. }
  assert (ind (view din') = ind (view din)) as Ei by (rewrite <- !(ind_slot (mk_disk s)), Ef, decide_False by lia; done).
  exists (take_fb s), din'. change (mk_disk (take_fb s)) with (mk_disk s). split_and!.
  - unfold file_block, fill_addr. rewrite (proj2 (Z.ltb_lt nb NDIRECT) Hd), Ea, xint_small, Z.eqb_refl by lia.
    rewrite bind_assoc, (bind_Ret _ _ _ _ _ (take_fb_run s Hr)), bind_ret_l. fold fb din'.
    rewrite Ef, decide_True by lia. unfold ret. do 2 f_equal. unfold din', addr_of, set_addr. cbn.
    rewrite list_lookup_insert_eq by (cbn in H1; rewrite H1; unfold NDIRECT in *; lia). apply xint_small. simpl. lia.
  - split; [by apply raw_take|].
    apply (held_alloc (mk_disk s) (view din) _ _ _ fb (fb + 1) nb bs fb); try done; try lia.
    + by apply (rw_zero _ Hr).
    + cbn. rewrite length_insert. exact H1.
    + intros t Ht. apply Ef. lia.
  - split; [done|unfold take_fb; simpl; lia| |done]. intros t Ht. change (mk_disk (take_fb s)) with (mk_disk s).
    rewrite Ef by (unfold is_slot in Ht; lia). case_decide; [right; done|by left].
  - unfold with_ind. destruct (Z.ltb_spec NDIRECT (nb + 1)), (Z.ltb_spec NDIRECT nb); simpl; lia.
  - done.
Qed.

(** The new block goes into the indirect block of [x1]. *)
Section entry.
Context (s : mk) (din : dinode) (nb : Z) (bs : list Z) (s1 : mk) (din1 : dinode).
Hypothesis Ho : open_image s din nb bs.
Hypothesis Hr1 : raw s1.
Hypothesis Hnb : NDIRECT <= nb < MAXFILE.
Hypothesis Hf : mk_freeblock s1 + 1 <= FSSIZE.
Hypothesis Hfb : mk_freeblock s <= mk_freeblock s1.
Hypothesis Hfi : mk_freeinode s1 = mk_freeinode s.
Hypothesis Hdisk : forall a, mk_disk s1 a = mk_disk s a.
Hypothesis Hlen : length (d_addrs din1) = Z.to_nat (NDIRECT + 1).
Hypothesis Hind : nmeta <= ind (view din1) < mk_freeblock s1.
Hypothesis Hsame : ind (view din1) = ind (view din) \/ ind (view din) = 0 /\ mk_freeblock s <= ind (view din1).
Hypothesis Hslots : forall t, 0 <= t < MAXFILE -> fblk (mk_disk s1) (view din1) t = fblk (mk_disk s) (view din) t.

Definition entry_put : mk :=
  put_sect (ind (view din1)) (put32 (mk_disk s (ind (view din1))) (4 * (nb - NDIRECT)) (mk_freeblock s1)) (take_fb s1).

Lemma entry_fblk t :
  0 <= t < MAXFILE ->
  fblk (mk_disk entry_put) (view din1) t = if decide (t = nb) then mk_freeblock s1 else fblk (mk_disk s) (view din) t.
Proof.
  intros Ht. assert (0 < nmeta) as Hm0 by done. pose proof (rw_fb _ Hr1) as Hg. change FSSIZE with 1000 in Hg.
  rewrite <- Hslots by done. rewrite <- (fblk_put_entry (mk_disk s1) (view din1)) by (apply Hr1 || lia).
  apply fblk_frame. intros _. unfold entry_put. rewrite mk_disk_put, !zupd_eq. by rewrite Hdisk.
Qed.

Lemma entry_frame a : a <> ind (view din1) -> mk_disk entry_put a = mk_disk s a.
Proof. intros Ha. unfold entry_put. rewrite mk_disk_put, zupd_ne by done. apply Hdisk. Qed.

Lemma entry_open : open_image entry_put din1 (nb + 1) bs.
Proof.
  pose proof Ho as [Hr Hh]. pose proof (rw_fb _ Hr) as Hg. assert (0 < nmeta) as Hm0 by done. split.
  - unfold entry_put. apply raw_put; [by apply raw_take|unfold take_fb; simpl; lia|].
    rewrite length_put32; [apply (rw_len _ Hr)|lia|]. rewrite (rw_len _ Hr).
    assert (MAXFILE * 4 = 4 * NDIRECT + BSIZE) as EM by done. lia.
  - apply (held_alloc (mk_disk s) (view din) _ _ _ (mk_freeblock s) _ nb bs (mk_freeblock s1)); try done; try lia.
    + unfold entry_put, take_fb. simpl. lia.
    + rewrite entry_frame by lia. apply (rw_zero _ Hr). lia.
    + destruct Hsame as [|[E1 E2]]; [by left|right]. unfold entry_put, take_fb. simpl. lia.
    + apply entry_fblk.
    + intros a Ha Hne. apply entry_frame. destruct Hsame as [->|[E1 E2]]; [done|lia].
Qed.

Lemma entry_appended : appended s entry_put (view din) (view din1).
Proof.
  pose proof Ho as [Hr Hh]. assert (0 < nmeta) as Hm0 by done. split.
  - done.
  - unfold entry_put, take_fb. simpl. lia.
  - intros t Ht. destruct (decide (t = MAXFILE)) as [->|Hne].
    + rewrite !ind_slot. destruct Hsame as [|[E1 E2]]; [by left|by right].
    + unfold is_slot in Ht. rewrite entry_fblk by lia. case_decide; [by right|by left].
  - intros a Ha Hn. apply entry_frame. intros ->. destruct Hsame as [E|[E1 E2]]; [|lia].
    apply (Hn MAXFILE is_slot_ind); rewrite ind_slot; [lia|done].
Qed.

Lemma entry_run : indirect_block din1 nb s1 = Ret (fblk (mk_disk entry_put) (view din1) nb) entry_put.
Proof.
  assert (0 < NDIRECT) as HN by done. assert (0 < nmeta) as Hm0 by done. assert (FSSIZE < 2 ^ 32) as HFS by done.
  assert (MAXFILE * 4 = 4 * NDIRECT + BSIZE) as EM by done.
  pose proof Ho as [Hr Hh]. pose proof (rw_fb _ Hr1) as Hg. set (i := ind (view din1)) in *.
  assert (get32 (mk_disk s1 i) (4 * (nb - NDIRECT)) = 0) as Ez.
  { rewrite <- (fblk_ind_entry _ (view din1)), Hslots by lia.
    destruct (decide (fblk (mk_disk s) (view din) nb = 0)) as [|E]; [done|].
    apply (hd_slot _ _ _ _ _ _ Hh) in E; lia. }
  unfold indirect_block. change (addr_of din1 NDIRECT) with i. rewrite xint_small by lia.
  rewrite (bind_Ret _ _ _ _ _ (rsect_run i s1 Hr1 ltac:(lia))), Ez, Z.eqb_refl.
  rewrite bind_assoc, (bind_Ret _ _ _ _ _ (take_fb_run s1 Hr1)), bind_assoc.
  rewrite (bind_Ret _ _ _ _ _ (wsect_run i _ (take_fb s1) ltac:(lia))), bind_ret_l, Hdisk.
  change (put_sect i _ (take_fb s1)) with entry_put. unfold ret. f_equal.
  rewrite entry_fblk, decide_True by lia. rewrite get_put32_eq by (rewrite ?(rw_len _ Hr); lia).
  rewrite u32_small by lia. apply xint_small. lia.
Qed.
End entry.


Lemma indirect_new s din nb bs :
  open_image s din nb bs -> NDIRECT <= nb < MAXFILE -> mk_freeblock s + with_ind (nb + 1) - with_ind nb <= FSSIZE ->
  new_block s din nb bs.
Proof.
  intros Ho Hnb Hf. pose proof Ho as [Hr Hh]. pose proof Hh as [H1 H2 H3 H4 H5 H6 H7 H8]. pose proof (rw_fb _ Hr) as Hfb.
  assert (0 < nmeta) as Hm0 by done. assert (FSSIZE < 2 ^ 32) as HFS by done. assert (0 < NDIRECT) as HN by done.
  unfold new_block, file_block. rewrite (proj2 (Z.ltb_ge nb NDIRECT)) by lia.
  destruct (decide (nb = NDIRECT)) as [En|Hne].
  - assert (ind (view din) = 0) as Ei by lia. set (fb := mk_freeblock s) in *.
    assert (with_ind (nb + 1) = with_ind nb + 2) as Ew by (by rewrite En). rewrite Ew in *.
    set (din1 := set_addr din NDIRECT fb). set (s1 := take_fb s).
    assert (raw s1) as Hr1 by (apply raw_take; [done|lia]).
    assert (ind (view din1) = fb) as Ei1 by (by apply ind_set_addr).
    assert (fill_addr din NDIRECT s = Ret din1 s1) as E1.
    { unfold fill_addr. change (addr_of din NDIRECT) with (ind (view din)). rewrite Ei.
      exact (bind_Ret _ _ _ _ _ (take_fb_run s Hr)). }
    assert (forall t, 0 <= t < MAXFILE -> fblk (mk_disk s1) (view din1) t = fblk (mk_disk s) (view din) t) as Hslots.
    { intros t Ht. destruct (decide (t < NDIRECT)) as [Hd|Hd]; [by apply fblk_set_ind|].
      rewrite (fblk_ind_entry _ (view din1)) by lia. rewrite Ei1. change (mk_disk s1) with (mk_disk s).
      rewrite (rw_zero _ Hr fb), get32_block0 by done. destruct (decide (fblk (mk_disk s) (view din) t = 0)) as [|E]; [done|].
      apply H4 in E; lia. }
    assert (mk_freeblock s1 = fb + 1) as Ef1 by done.
    assert (nmeta <= ind (view din1) < mk_freeblock s1) as Hind by lia.
    assert (ind (view din1) = ind (view din) \/ ind (view din) = 0 /\ fb <= ind (view din1)) as Hsame by (right; lia).
    assert (length (d_addrs din1) = Z.to_nat (NDIRECT + 1)) as Hl1 by (cbn; rewrite length_insert; exact H1).
    exists (entry_put s nb s1 din1), din1. rewrite (bind_Ret _ _ _ _ _ E1). split_and!.
    + assert (indirect_block din1 nb s1 = Ret (fblk (mk_disk (entry_put s nb s1 din1)) (view din1) nb) (entry_put s nb s1 din1)) as E2
        by (apply (entry_run s din nb bs s1 din1); done || lia).
      by rewrite (bind_Ret _ _ _ _ _ E2).
    + apply (entry_open s din nb bs s1 din1); done || lia.
    + apply (entry_appended s din nb bs s1 din1); done || lia.
    + simpl. lia.
    + done.
  - assert (ind (view din) <> 0) as Hi by lia.
    destruct (slot_block s din nb bs MAXFILE Ho is_slot_ind Hi) as [Hg Ex]. rewrite ind_slot in Hg, Ex.
    assert (with_ind (nb + 1) = with_ind nb + 1) as Ew.
    { unfold with_ind. by rewrite !(proj2 (Z.ltb_lt NDIRECT _)) by lia. }
    rewrite Ew in *. pose proof (H6 MAXFILE is_slot_ind Hi) as Hin. rewrite ind_slot in Hin.
    assert (fill_addr din NDIRECT s = Ret din s) as E1.
    { unfold fill_addr. change (addr_of din NDIRECT) with (ind (view din)). by rewrite Ex, (proj2 (Z.eqb_neq _ 0)). }
    exists (entry_put s nb s din), din. rewrite (bind_Ret _ _ _ _ _ E1). split_and!.
    + assert (indirect_block din nb s = Ret (fblk (mk_disk (entry_put s nb s din)) (view din) nb) (entry_put s nb s din)) as E2.
      { apply (entry_run s din nb bs s din); try done; try lia. }
      by rewrite (bind_Ret _ _ _ _ _ E2).
    + apply (entry_open s din nb bs s din); try done; lia.
    + apply (entry_appended s din nb bs s din); try done; lia.
    + simpl. lia.
    + by destruct din.
Qed.

(** *** The loop of [iappend] *)

(** The file with [bs] has grown by [c] in the same number of steps as blocks. *)
Definition extends (s : mk) (din : dinode) (bs c : list Z) (s' : mk) (din' : dinode) : Prop :=
  open_image s' din' (nblk (Z.of_nat (length (bs ++ c)))) (bs ++ c) /\ appended s s' (view din) (view din') /\
  mk_freeblock s' = mk_freeblock s + with_ind (nblk (Z.of_nat (length (bs ++ c)))) - with_ind (nblk (Z.of_nat (length bs))) /\
  din' = set_d_addrs (d_addrs din') din.

(** The block that the loop writes to. *)
Lemma file_block_run s din bs :
  let off := Z.of_nat (length bs) in
  open_image s din (nblk off) bs -> off / BSIZE < MAXFILE ->
  mk_freeblock s + with_ind (off / BSIZE + 1) - with_ind (nblk off) <= FSSIZE ->
  exists s' din', file_block din (off / BSIZE) s = Ret (din', fblk (mk_disk s') (view din') (off / BSIZE)) s' /\
    open_image s' din' (off / BSIZE + 1) bs /\ appended s s' (view din) (view din') /\
    mk_freeblock s' = mk_freeblock s + with_ind (off / BSIZE + 1) - with_ind (nblk off) /\
    din' = set_d_addrs (d_addrs din') din.
Proof.
  intros off Ho Hlt Hf. pose proof (nblk_eq off) as En. assert (0 <= off / BSIZE) as H0 by (apply Z.div_pos; lia || done).
  destruct (Z.eqb_spec (off mod BSIZE) 0) as [Em|Em].
  - replace (nblk off) with (off / BSIZE) in * by lia. destruct (decide (off / BSIZE < NDIRECT)) as [Hd|Hd].
    + assert (with_ind (off / BSIZE + 1) = with_ind (off / BSIZE) + 1) as Ew.
      { unfold with_ind. rewrite !(proj2 (Z.ltb_ge NDIRECT _)) by lia. lia. }
      by apply direct_new; [| |lia].
    + by apply indirect_new; [|lia|].
  - rewrite En in *. exists s, din. split_and!; [|done|apply appended_refl|lia|by destruct din].
    by apply (file_block_old s din (off / BSIZE + 1) bs); [|lia].
Qed.

Lemma iappend_turn_run s din bs p :
  let off := Z.of_nat (length bs) in
  let n := Z.min (Z.of_nat (length p)) (BSIZE - off mod BSIZE) in
  let c := take (Z.to_nat n) p in
  open_image s din (nblk off) bs -> p <> [] -> off < MAXFILE * BSIZE ->
  mk_freeblock s + with_ind (nblk (Z.of_nat (length (bs ++ c)))) - with_ind (nblk off) <= FSSIZE ->
  exists s' din', iappend_turn (p, off, din) s = Ret (inl (drop (Z.to_nat n) p, Z.of_nat (length (bs ++ c)), din')) s' /\
    extends s din bs c s' din'.
Proof.
  intros off n c Ho Hp Hm Hf. assert (0 < BSIZE) as HB by done. assert (0 < nmeta) as Hm0 by done.
  pose proof (Z.mod_pos_bound off BSIZE HB) as Hmod. pose proof (Z.div_mod off BSIZE ltac:(lia)) as Edm.
  assert (0 < Z.of_nat (length p)) as Hpl by (destruct p; [done|simpl; lia]).
  assert (0 < n <= BSIZE - off mod BSIZE) as Hn by lia.
  assert (Z.of_nat (length c) = n) as Hc by (unfold c; rewrite length_take; lia).
  assert (Z.of_nat (length (bs ++ c)) = off + n) as El by (rewrite length_app; lia).
  assert (off / BSIZE < MAXFILE) as Hlt by (apply Z.div_lt_upper_bound; lia).
  unfold extends. rewrite El in *. rewrite nblk_add in * by lia.
  destruct (file_block_run s din bs Ho Hlt Hf) as (s1 & din1 & E1 & [Hr1 Hh1] & Ha1 & Ef1 & Ed1).
  fold off in E1, Ha1, Ef1, Hh1. set (a := fblk (mk_disk s1) (view din1) (off / BSIZE)) in *.
  assert (0 <= off / BSIZE) as Hd0 by (apply Z.div_pos; lia).
  assert (is_slot (off / BSIZE)) as Hsl by (split; lia).
  assert (a <> 0) as Ha0 by (apply (hd_slot _ _ _ _ _ _ Hh1); lia).
  pose proof (hd_range _ _ _ _ _ _ Hh1 _ Hsl Ha0) as Hra. fold a in Hra. pose proof (rw_fb _ Hr1) as Hfb1.
  set (b := put_bytes (mk_disk s1 a) (off mod BSIZE) c).
  assert (length b = Z.to_nat BSIZE) as Hb.
  { unfold b. rewrite length_put_bytes; rewrite ?(rw_len _ Hr1); lia. }
  exists (put_sect a b s1), din1. split_and!.
  - unfold iappend_turn. destruct p as [|q p]; [done|]. rewrite (proj2 (Z.ltb_lt _ _) Hlt). unfold mk_assert.
    rewrite bind_ret_l, (bind_Ret _ _ _ _ _ E1).
    replace ((off / BSIZE + 1) * BSIZE - off) with (BSIZE - off mod BSIZE) by lia. fold n.
    replace (off - off / BSIZE * BSIZE) with (off mod BSIZE) by lia.
    rewrite (bind_Ret _ _ _ _ _ (rsect_run a s1 Hr1 ltac:(lia))). fold c b.
    by rewrite (bind_Ret _ _ _ _ _ (wsect_run a b s1 ltac:(lia))).
  - split; [apply raw_put; [done|lia|done]|]. apply (held_ext (zupd (mk_disk s1) a b)); [apply mk_disk_put|].
    apply held_put; [done|done|lia|done|lia|apply Hr1].
  - eapply appended_trans; [exact Ha1|]. split; [done|done| |].
    + intros t Ht. left. apply fblk_frame. intros Hi. rewrite mk_disk_put, zupd_ne; [done|]. intros E.
      assert (off / BSIZE = MAXFILE); [|lia]. by apply (hd_inj _ _ _ _ _ _ Hh1); [|apply is_slot_ind| |].
    + intros m Hm1 Hn1. rewrite mk_disk_put, zupd_ne; [done|]. intros ->. by apply (Hn1 (off / BSIZE)).
  - exact Ef1.
  - done.
Qed.

Lemma extends_trans s din bs c s1 din1 d s2 din2 :
  extends s din bs c s1 din1 -> extends s1 din1 (bs ++ c) d s2 din2 -> extends s din bs (c ++ d) s2 din2.
Proof.
  intros (A1 & A2 & A3 & A4) (B1 & B2 & B3 & B4). unfold extends. rewrite app_assoc. split_and!.
  - done.
  - by eapply appended_trans.
  - lia.
  - rewrite B4, A4. by destruct din.
Qed.

Lemma blocks_mono n m : n <= m -> with_ind (nblk n) <= with_ind (nblk m).
Proof. intros H1. by apply with_ind_mono, nblk_mono. Qed.

Lemma iappend_loop fuel : forall p s din bs,
  (length p < fuel)%nat -> open_image s din (nblk (Z.of_nat (length bs))) bs ->
  Z.of_nat (length (bs ++ p)) <= MAXFILE * BSIZE ->
  mk_freeblock s + with_ind (nblk (Z.of_nat (length (bs ++ p)))) - with_ind (nblk (Z.of_nat (length bs))) <= FSSIZE ->
  exists s' din', while_ fuel iappend_turn (p, Z.of_nat (length bs), din) s = Ret (Z.of_nat (length (bs ++ p)), din') s' /\
    extends s din bs p s' din'.
Proof.
  induction fuel as [|fuel IH]; intros p s din bs Hp Ho Hm Hf; [lia|]. rewrite while_S.
  destruct p as [|q p'] eqn:Ep.
  - exists s, din. unfold extends. rewrite app_nil_r in *. split_and!; [done|done|apply appended_refl|lia|by destruct din].
  - rewrite <- Ep in *. assert (p <> []) as Hne by (by rewrite Ep). clear Ep p' q.
    set (n := Z.min (Z.of_nat (length p)) (BSIZE - Z.of_nat (length bs) mod BSIZE)). set (c := take (Z.to_nat n) p).
    set (d := drop (Z.to_nat n) p). assert (c ++ d = p) as Ecd by (apply take_drop).
    assert (bs ++ p = (bs ++ c) ++ d) as Eb by (by rewrite <- Ecd, app_assoc).
    assert (length (bs ++ p) = length (bs ++ c) + length d)%nat as El by (by rewrite Eb, length_app).
    pose proof (blocks_mono (Z.of_nat (length (bs ++ c))) (Z.of_nat (length (bs ++ p))) ltac:(lia)) as Hb.
    destruct (iappend_turn_run s din bs p Ho Hne) as (s1 & din1 & E1 & X1).
    { assert (0 < length p)%nat by (destruct p; [done|simpl; lia]). rewrite length_app in Hm. lia. }
    { fold n c. lia. }
    fold n c d in E1, X1. rewrite (bind_Ret _ _ _ _ _ E1). pose proof X1 as (O1 & A1 & F1 & D1).
    assert (length d < length p)%nat as Hd.
    { unfold d. rewrite length_drop. assert (0 < length p)%nat by (destruct p; [done|simpl; lia]).
      assert (0 < BSIZE) as HB by done. pose proof (Z.mod_pos_bound (Z.of_nat (length bs)) BSIZE HB). lia. }
    destruct (IH d s1 din1 (bs ++ c)) as (s2 & din2 & E2 & X2); [lia|done|by rewrite <- Eb|rewrite <- Eb; lia|].
    exists s2, din2. rewrite <- Eb in E2. split; [done|]. rewrite <- Ecd. by eapply extends_trans.
Qed.

(** A file does not grow past [MAXFILE] blocks: the assertion fails. *)
Lemma iappend_loop_over fuel : forall p s din bs,
  (length p < fuel)%nat -> open_image s din (nblk (Z.of_nat (length bs))) bs ->
  Z.of_nat (length bs) <= MAXFILE * BSIZE < Z.of_nat (length (bs ++ p)) ->
  mk_freeblock s + with_ind MAXFILE - with_ind (nblk (Z.of_nat (length bs))) <= FSSIZE ->
  while_ fuel iappend_turn (p, Z.of_nat (length bs), din) s = Panic "assert".
Proof.
  induction fuel as [|fuel IH]; intros p s din bs Hp Ho [Hm Hover] Hf; [lia|]. rewrite while_S.
  set (off := Z.of_nat (length bs)) in *. assert (0 < BSIZE) as HB by done. assert (p <> []) as Hne.
  { intros ->. rewrite app_nil_r in Hover. lia. }
  destruct (decide (off = MAXFILE * BSIZE)) as [E|Hlt].
  - rewrite E. unfold iappend_turn. destruct p as [|q p]; [done|]. by rewrite Z.div_mul by lia.
  - pose proof (Z.mod_pos_bound off BSIZE HB) as Hmod. pose proof (Z.div_mod off BSIZE ltac:(lia)) as Edm.
    set (n := Z.min (Z.of_nat (length p)) (BSIZE - off mod BSIZE)). set (c := take (Z.to_nat n) p).
    set (d := drop (Z.to_nat n) p). assert (bs ++ p = (bs ++ c) ++ d) as Eb by (by rewrite <- app_assoc; unfold c, d; rewrite take_drop).
    assert (0 < length p)%nat as Hpl by (destruct p; [done|simpl; lia]).
    assert (length c = Z.to_nat n /\ length d = length p - Z.to_nat n)%nat as [Hc Hd] by (unfold c, d; rewrite length_take, length_drop; lia).
    assert (off / BSIZE < MAXFILE) as Hq by (apply Z.div_lt_upper_bound; lia).
    assert ((off / BSIZE + 1) * BSIZE <= MAXFILE * BSIZE) as Hq2 by (apply Z.mul_le_mono_nonneg_r; lia).
    assert (Z.of_nat (length (bs ++ c)) <= MAXFILE * BSIZE) as Hle.
    { rewrite length_app, Hc, Nat2Z.inj_add, Z2Nat.id by lia. fold off. change MAXFILE with 268 in *. change BSIZE with 1024 in *. lia. }
    pose proof (blocks_mono _ _ Hle) as Hb. change (nblk (MAXFILE * BSIZE)) with MAXFILE in Hb.
    destruct (iappend_turn_run s din bs p Ho Hne ltac:(lia)) as (s1 & din1 & E1 & (O1 & A1 & F1 & D1)).
    { fold off n c. lia. }
    fold off n c d in E1, O1, F1. rewrite (bind_Ret _ _ _ _ _ E1). apply IH; [lia|done|rewrite <- Eb; lia|lia].
Qed.

(** *** Inodes *)

Definition inode_at (s : mk) (n : Z) : dinode := dinode_get (mk_disk s (IBLOCK n mk_sb)) (dinode_off n).

Definition set_inode (n : Z) (d : dinode) (s : mk) : mk :=
  put_sect (IBLOCK n mk_sb) (dinode_put (mk_disk s (IBLOCK n mk_sb)) (dinode_off n) d) s.

Lemma IBLOCK_range n : 0 <= n < NINODES -> IBLOCK n mk_sb = n / 16 + 32 /\ 32 <= IBLOCK n mk_sb < 45.
Proof.
  intros Hn. unfold IBLOCK. change (sb_inodestart mk_sb) with 32. change IPB with 16. unfold NINODES in Hn.
  assert (0 <= n / 16 < 13) as Hd by (split; [apply Z.div_pos; lia|apply Z.div_lt_upper_bound; lia]).
  rewrite u32_small by lia. lia.
Qed.

Lemma rinode_run n s : raw s -> 0 <= n < NINODES -> rinode n s = Ret (inode_at s n) s.
Proof.
  intros Hr Hn. destruct (IBLOCK_range n Hn) as [_ Hb]. unfold rinode. assert (FSSIZE = 1000) as EF by done.
  by rewrite (bind_Ret _ _ _ _ _ (rsect_run (IBLOCK n mk_sb) s Hr ltac:(lia))).
Qed.

Lemma winode_run n d s : raw s -> 0 <= n < NINODES -> winode n d s = Ret tt (set_inode n d s).
Proof.
  intros Hr Hn. destruct (IBLOCK_range n Hn) as [_ Hb]. unfold winode. assert (FSSIZE = 1000) as EF by done.
  rewrite (bind_Ret _ _ _ _ _ (rsect_run (IBLOCK n mk_sb) s Hr ltac:(lia))). apply wsect_run. lia.
Qed.

Lemma length_dinode_put s n d :
  raw s -> length (d_addrs d) = Z.to_nat (NDIRECT + 1) ->
  length (dinode_put (mk_disk s (IBLOCK n mk_sb)) (dinode_off n) d) = Z.to_nat BSIZE.
Proof.
  intros Hr Hl. pose proof (dinode_off_range n) as [R1 R2]. pose proof (rw_len _ Hr (IBLOCK n mk_sb)) as Hd.
  pose proof (dinode_bytes_length d Hl) as Hb. rewrite dinode_put_eq by (done || lia).
  rewrite length_put_bytes by lia. done.
Qed.

Lemma raw_set_inode n d s :
  raw s -> 0 <= n < NINODES -> length (d_addrs d) = Z.to_nat (NDIRECT + 1) -> raw (set_inode n d s).
Proof.
  intros Hr Hn Hl. destruct (IBLOCK_range n Hn) as [_ Hb]. pose proof (rw_fb _ Hr) as Hf. change nmeta with 46 in Hf.
  apply raw_put; [done|lia|]. by apply length_dinode_put.
Qed.

Lemma inode_set s n d m :
  raw s -> dinode_ok d -> 0 <= n < NINODES -> 0 <= m < NINODES ->
  inode_at (set_inode n d s) m = if decide (m = n) then d else inode_at s m.
Proof.
  intros Hr Hd Hn Hm. pose proof (dinode_off_range n) as [R1 R2]. pose proof (dinode_off_range m) as [R3 R4].
  pose proof (rw_len _ Hr (IBLOCK n mk_sb)) as Hl. unfold inode_at, set_inode. rewrite mk_disk_put. unfold zupd.
  destruct (IBLOCK_range n Hn) as [En _]. destruct (IBLOCK_range m Hm) as [Em _].
  case_decide as Eb; case_decide as E; subst; try done.
  - apply dinode_get_put; [done|done|lia].
  - rewrite Eb. apply dinode_get_put_ne; [apply Hd|done|lia|done|].
    assert (m mod IPB <> n mod IPB) as Hne.
    { change IPB with 16. intros E'. apply E. rewrite (Z.div_mod m 16), (Z.div_mod n 16) by lia. lia. }
    destruct (dinode_off_apart m n Hne); lia.
Qed.

Lemma disk_set_inode s n d a : 0 <= n < NINODES -> a < 32 \/ 45 <= a -> mk_disk (set_inode n d s) a = mk_disk s a.
Proof. intros Hn Ha. destruct (IBLOCK_range n Hn) as [_ Hb]. unfold set_inode. rewrite mk_disk_put. apply zupd_ne. lia. Qed.

(** *** The file system as a list of files *)

#[local] Abbreviation files := (list (Z * list Z)).
Definition blocks (bs : list Z) : Z := with_ind (nblk (Z.of_nat (length bs))).
Definition total (fs : files) : Z := foldr (fun f z => blocks (snd f) + z) 0 fs.

Record stored_file (s : mk) (n t : Z) (bs : list Z) : Prop := {
  sf_type : d_type (inode_at s n) = t;
  sf_major : d_major (inode_at s n) = 0;
  sf_minor : d_minor (inode_at s n) = 0;
  sf_nlink : d_nlink (inode_at s n) = 1;
  sf_size : d_size (inode_at s n) = Z.of_nat (length bs);
  sf_held : held (mk_disk s) (view (inode_at s n)) nmeta (mk_freeblock s) (nblk (Z.of_nat (length bs))) bs;
}.

Definition sb_block : list Z := put_bytes block0 0 (superblock_bytes mk_sb).

Record image (s : mk) (fs : files) : Prop := {
  im_raw : raw s;
  im_inodes : mk_freeinode s = 1 + Z.of_nat (length fs);
  im_max : 1 + Z.of_nat (length fs) <= NINODES;
  im_blocks : mk_freeblock s = nmeta + total fs;
  im_meta : forall a, 0 <= a < 32 -> mk_disk s a = if a =? 1 then sb_block else block0;
  im_types : Forall (fun f => 0 <= fst f < 2 ^ 15) fs;
  im_file : forall i t bs, fs !! i = Some (t, bs) -> stored_file s (1 + Z.of_nat i) t bs;
  im_apart : forall i j a b, (i < length fs)%nat -> (j < length fs)%nat -> i <> j -> is_slot a -> is_slot b ->
    fblk (mk_disk s) (view (inode_at s (1 + Z.of_nat i))) a <> 0 ->
    fblk (mk_disk s) (view (inode_at s (1 + Z.of_nat i))) a <> fblk (mk_disk s) (view (inode_at s (1 + Z.of_nat j))) b;
}.

Lemma total_files_app fs gs : total (fs ++ gs) = total fs + total gs.
Proof. unfold total. induction fs as [|f fs IH]; simpl; [done|]. rewrite IH. lia. Qed.

Lemma total_cons f fs : total (f :: fs) = blocks (snd f) + total fs.
Proof. reflexivity. Qed.

Lemma total_insert fs i f g : fs !! i = Some f -> total (<[i := g]> fs) = total fs + blocks (snd g) - blocks (snd f).
Proof.
  revert i. induction fs as [|h fs IH]; intros [|i] Hi; [done|done|injection Hi as ->; unfold total; simpl; lia|].
  pose proof (IH i Hi) as E. change (<[S i := g]> (h :: fs)) with (h :: <[i := g]> fs).
  rewrite !total_cons, E. lia.
Qed.

(** A stored inode. *)
Lemma held_dinode_ok s d nb bs :
  raw s -> held (mk_disk s) (view d) nmeta (mk_freeblock s) nb bs -> 0 <= d_type d < 2 ^ 15 -> d_major d = 0 ->
  d_minor d = 0 -> d_nlink d = 1 -> 0 <= d_size d < 2 ^ 32 -> dinode_ok d.
Proof.
  intros Hr Hh Ht Ha Hi Hn Hs. pose proof (rw_fb _ Hr) as Hf. change FSSIZE with 1000 in Hf.
  split; rewrite ?Ha, ?Hi, ?Hn; try lia; [apply Hh|].
  apply Forall_lookup. intros i a Hl. pose proof (lookup_lt_Some _ _ _ Hl) as Hlt.
  pose proof (hd_addrs _ _ _ _ _ _ Hh) as Hlen. change (i_addrs (view d)) with (d_addrs d) in Hlen. rewrite Hlen in Hlt.
  assert (0 <= Z.of_nat i <= NDIRECT) as Hi' by (unfold NDIRECT in *; lia).
  pose proof (fblk_addr (mk_disk s) (view d) (Z.of_nat i) Hi') as E. change (i_addrs (view d)) with (d_addrs d) in E.
  rewrite Nat2Z.id, Hl in E. simpl in E. destruct (decide (a = 0)) as [->|Hne]; [lia|].
  pose proof (hd_range _ _ _ _ _ _ Hh (addr_slot (Z.of_nat i)) (addr_slot_is _ Hi') ltac:(congruence)) as Hg.
  change nmeta with 46 in Hg. lia.
Qed.

(** Another file, when the blocks that it uses and its inode are as before. *)
Lemma stored_frame s s' n t bs :
  stored_file s n t bs -> mk_freeblock s <= mk_freeblock s' -> inode_at s' n = inode_at s n ->
  (forall a, is_slot a -> fblk (mk_disk s) (view (inode_at s n)) a <> 0 ->
     mk_disk s' (fblk (mk_disk s) (view (inode_at s n)) a) = mk_disk s (fblk (mk_disk s) (view (inode_at s n)) a)) ->
  stored_file s' n t bs /\ forall a, fblk (mk_disk s') (view (inode_at s' n)) a = fblk (mk_disk s) (view (inode_at s n)) a.
Proof.
  intros [H1 H2 H3 H4 H5 H6] Hle E Hd.
  destruct (held_frame _ (mk_disk s') _ _ _ (mk_freeblock s') _ _ H6 Hle Hd) as [Hh Ef].
  rewrite E. split; [|done]. split; rewrite ?E; done.
Qed.

Lemma image_inum s fs i : image s fs -> (i < length fs)%nat -> 0 <= 1 + Z.of_nat i < NINODES.
Proof. intros Hi Hl. pose proof (im_max _ _ Hi). lia. Qed.

(** File [i] got the inode [d] and the contents [bs']; the others' blocks are as before. *)
Lemma image_update s s' fs i t bs bs' d :
  image s fs -> fs !! i = Some (t, bs) -> raw s' -> mk_freeinode s' = mk_freeinode s ->
  mk_freeblock s' = mk_freeblock s + blocks bs' - blocks bs -> mk_freeblock s <= mk_freeblock s' ->
  (forall a, 0 <= a < 32 -> mk_disk s' a = mk_disk s a) -> stored_file s' (1 + Z.of_nat i) t bs' ->
  (forall n, 0 <= n < NINODES -> n <> 1 + Z.of_nat i -> inode_at s' n = inode_at s n) ->
  (forall a, nmeta <= a < mk_freeblock s -> not_of (mk_disk s) (view (inode_at s (1 + Z.of_nat i))) a -> mk_disk s' a = mk_disk s a) ->
  (forall a, is_slot a -> fblk (mk_disk s') (view (inode_at s' (1 + Z.of_nat i))) a = fblk (mk_disk s) (view (inode_at s (1 + Z.of_nat i))) a \/
     mk_freeblock s <= fblk (mk_disk s') (view (inode_at s' (1 + Z.of_nat i))) a) ->
  d = (t, bs') -> image s' (<[i := d]> fs).
Proof.
  intros Him Hi Hr Hfi Hfb Hle Hmeta Hsf Hinode Hframe Hblk ->. pose proof Him as [I1 I2 I3 I4 I5 I6 I7 I8].
  assert (0 < nmeta) as Hm0 by done. pose proof (rw_fb _ I1) as Hg.
  assert (forall j u c, fs !! j = Some (u, c) -> i <> j -> stored_file s' (1 + Z.of_nat j) u c /\
    forall a, fblk (mk_disk s') (view (inode_at s' (1 + Z.of_nat j))) a = fblk (mk_disk s) (view (inode_at s (1 + Z.of_nat j))) a) as Hoth.
  { intros j u c Hj Hne. pose proof (lookup_lt_Some _ _ _ Hj) as Hlj. pose proof (lookup_lt_Some _ _ _ Hi) as Hli.
    apply stored_frame; [by apply I7|done|apply Hinode; [by eapply image_inum|lia]|].
    intros a Ha H0. apply Hframe; [by apply (sf_held _ _ _ _ (I7 j u c Hj))|]. intros b Hb H0' E.
    by apply (I8 i j b a). }
  split.
  - done.
  - rewrite length_insert. lia.
  - by rewrite length_insert.
  - rewrite (total_insert _ _ _ _ Hi). simpl. lia.
  - intros a Ha. rewrite Hmeta by done. by apply I5.
  - apply Forall_insert; [done|]. exact (Forall_lookup_1 _ _ _ _ I6 Hi).
  - intros j u c Hj. destruct (decide (i = j)) as [<-|Hne].
    + rewrite list_lookup_insert_eq in Hj by (by eapply lookup_lt_Some). by simplify_eq.
    + rewrite list_lookup_insert_ne in Hj by done. by apply Hoth.
  - intros j k a b Hj Hk Hne Ha Hb. rewrite length_insert in Hj, Hk.
    destruct (lookup_lt_is_Some_2 fs j Hj) as [[u c] Ej]. destruct (lookup_lt_is_Some_2 fs k Hk) as [[v e] Ek].
    destruct (decide (i = j)) as [<-|Hij].
    + destruct (Hoth k v e Ek Hne) as [_ Ef]. rewrite Ef. intros H0. destruct (Hblk a Ha) as [E|E].
      * rewrite E in *. by apply I8.
      * intros E'. rewrite E' in *. pose proof (hd_range _ _ _ _ _ _ (sf_held _ _ _ _ (I7 k v e Ek)) b Hb H0). lia.
    + destruct (Hoth j u c Ej Hij) as [_ Ef]. rewrite Ef. intros H0. destruct (decide (i = k)) as [<-|Hik].
      * destruct (Hblk b Hb) as [E|E]; [rewrite E; by apply I8|].
        pose proof (hd_range _ _ _ _ _ _ (sf_held _ _ _ _ (I7 j u c Ej)) a Ha H0). lia.
      * destruct (Hoth k v e Ek Hik) as [_ Ef']. rewrite Ef'. by apply I8.
Qed.

(** Only the addresses of the inode matter. *)
Lemma fblk_same_addrs D x x' a : i_addrs x' = i_addrs x -> fblk D x' a = fblk D x a.
Proof. intros E. unfold fblk, ind. by rewrite E. Qed.

Lemma held_same_addrs D x x' lo fb nb bs : i_addrs x' = i_addrs x -> held D x lo fb nb bs -> held D x' lo fb nb bs.
Proof.
  intros E [H1 H2 H3 H4 H5 H6 H7 H8]. assert (forall a, fblk D x' a = fblk D x a) as Ef by (intros a; by apply fblk_same_addrs).
  split; try done.
  - by rewrite E.
  - intros a Ha. rewrite Ef. by apply H4.
  - rewrite <- (ind_slot D), Ef. exact H5.
  - intros a Ha. rewrite Ef. by apply H6.
  - intros a b Ha Hb. rewrite !Ef. by apply H7.
  - intros o Ho. unfold byte_at. rewrite Ef. by apply H8.
Qed.

(** [iappend] on file [i] of the image. *)
Lemma iappend_run s fs i t bs p :
  image s fs -> fs !! i = Some (t, bs) -> Z.of_nat (length (bs ++ p)) <= MAXFILE * BSIZE ->
  nmeta + total (<[i := (t, bs ++ p)]> fs) <= FSSIZE ->
  exists s', iappend (1 + Z.of_nat i) p s = Ret tt s' /\ image s' (<[i := (t, bs ++ p)]> fs).
Proof.
  intros Him Hi Hm Hf. pose proof (lookup_lt_Some _ _ _ Hi) as Hlt. pose proof (image_inum _ _ i Him Hlt) as Hn.
  set (n := 1 + Z.of_nat i) in *. pose proof (im_file _ _ Him i t bs Hi) as Hsf. fold n in Hsf. set (d := inode_at s n) in *.
  pose proof Hsf as [S1 S2 S3 S4 S5 S6]. fold d in S1, S2, S3, S4, S5, S6. pose proof (im_raw _ _ Him) as Hr.
  assert (MAXFILE * BSIZE < 2 ^ 32) as HM by done. rewrite length_app in Hm.
  rewrite (total_insert _ _ _ _ Hi) in Hf. cbn [snd] in Hf.
  assert (mk_freeblock s = nmeta + total fs) as Efb by apply Him.
  destruct (iappend_loop (S (length p)) p s d bs) as (s1 & d1 & E1 & [O1 O2] & A & F & Ed); [lia|by split|rewrite length_app; lia| |].
  { unfold blocks in Hf. lia. }
  set (off := Z.of_nat (length (bs ++ p))) in *. assert (0 <= off < 2 ^ 32) as Hoff by (unfold off; rewrite length_app; lia).
  set (d2 := set_d_size off d1). assert (i_addrs (view d2) = i_addrs (view d1)) as Ea by done.
  pose proof (held_same_addrs _ _ _ _ _ _ _ Ea O2) as O3.
  assert (d_type d1 = d_type d /\ d_major d1 = d_major d /\ d_minor d1 = d_minor d /\ d_nlink d1 = d_nlink d) as (Et1 & Et2 & Et3 & Et4)
    by (by rewrite Ed).
  assert (dinode_ok d2) as Hd2.
  { pose proof (Forall_lookup_1 _ _ _ _ (im_types _ _ Him) Hi) as Ht. simpl in Ht.
    apply (held_dinode_ok s1 d2 _ _ O1 O3); cbn; rewrite ?Et1, ?Et2, ?Et3, ?Et4; done || lia. }
  pose proof (rw_fb _ Hr) as Hg. pose proof (hd_range _ _ _ _ _ _ S6) as Hrange. change nmeta with 46 in Hg, Hrange.
  assert (forall a, a < 46 -> mk_disk s1 a = mk_disk s a) as Hlow.
  { intros a Ha. apply (ap_frame _ _ _ _ A); [lia|]. intros b Hb H0 E. specialize (Hrange b Hb H0). lia. }
  assert (forall m, 0 <= m < NINODES -> inode_at s1 m = inode_at s m) as Hin.
  { intros m Hmr. unfold inode_at. destruct (IBLOCK_range m Hmr) as [_ Hb]. by rewrite Hlow by lia. }
  assert (inode_at (set_inode n d2 s1) n = d2) as En by (by rewrite inode_set, decide_True).
  assert (forall a, 46 <= a -> mk_disk (set_inode n d2 s1) a = mk_disk s1 a) as Hhigh by (intros a Ha; apply disk_set_inode; [done|lia]).
  destruct (held_frame _ (mk_disk (set_inode n d2 s1)) _ _ _ (mk_freeblock s1) _ _ O3 ltac:(lia)) as [O4 Ef].
  { intros a Ha H0. apply Hhigh. by apply (hd_range _ _ _ _ _ _ O3). }
  exists (set_inode n d2 s1). split.
  - unfold iappend. rewrite (bind_Ret _ _ _ _ _ (rinode_run n s Hr Hn)). fold d. rewrite S5, xint_small by lia.
    rewrite (bind_Ret _ _ _ _ _ E1). fold off. rewrite xint_small by done. by apply winode_run.
  - apply (image_update s _ fs i t bs (bs ++ p)); try done; fold n.
    + by apply raw_set_inode; [..|apply Hd2].
    + apply A.
    + apply A.
    + intros a Ha. rewrite disk_set_inode by (done || lia). apply Hlow. lia.
    + split; rewrite En; try done; cbn; congruence.
    + intros m Hmr Hne. rewrite inode_set, decide_False by done. by apply Hin.
    + intros a Ha Hno. rewrite Hhigh by (change nmeta with 46 in Ha; lia). apply (ap_frame _ _ _ _ A); [lia|done].
    + intros a Ha. rewrite En, Ef, (fblk_same_addrs _ _ _ _ Ea). by apply (ap_blocks _ _ _ _ A).
Qed.

(** *** A new file *)

Definition new_dinode (type : Z) : dinode := mkDinode type 0 0 1 0 (replicate (Z.to_nat (NDIRECT + 1)) 0).

Lemma xshort_small n : 0 <= n < 2 ^ 16 -> xshort n = n.
Proof. intros Hn. unfold xshort. rewrite le_val_bytes. by apply Z.mod_small. Qed.

Lemma addrs0 t i : default 0 (d_addrs (new_dinode t) !! i) = 0.
Proof.
  unfold new_dinode. cbn [d_addrs]. destruct (replicate _ _ !! i) as [v|] eqn:E; [|done].
  by apply lookup_replicate in E as [-> _].
Qed.

Lemma fblk_new D t a : fblk D (view (new_dinode t)) a = 0.
Proof.
  assert (forall i, default 0 (i_addrs (view (new_dinode t)) !! i) = 0) as E by (intros i; apply addrs0).
  unfold fblk, ind. rewrite !E, Z.eqb_refl. by destruct (a <? NDIRECT), (a =? MAXFILE).
Qed.

Lemma held_new D t lo fb : held D (view (new_dinode t)) lo fb (nblk 0) [].
Proof.
  change (nblk 0) with 0. split; try done.
  - intros a Ha. rewrite fblk_new. lia.
  - intros a Ha. by rewrite fblk_new.
  - intros a b Ha Hb. by rewrite fblk_new.
  - intros o Ho. unfold byte_at. by rewrite fblk_new.
Qed.

Lemma mk_ialloc_run s fs t :
  image s fs -> 2 + Z.of_nat (length fs) <= NINODES -> 0 <= t < 2 ^ 15 ->
  exists s', mk_ialloc t s = Ret (1 + Z.of_nat (length fs)) s' /\ image s' (fs ++ [(t, [])]).
Proof.
  intros Him Hmax Ht. pose proof Him as [I1 I2 I3 I4 I5 I6 I7 I8]. set (n := 1 + Z.of_nat (length fs)) in *.
  assert (0 <= n < NINODES) as Hn by lia. assert (NINODES < 2 ^ 32) as HN by done.
  set (s1 := mkMk (mk_img s) (n + 1) (mk_freeblock s)).
  assert (raw s1) as Hr1 by (destruct I1; by split).
  assert (dinode_ok (new_dinode t)) as Hd.
  { apply (held_dinode_ok s1 _ _ _ Hr1 (held_new (mk_disk s1) t nmeta (mk_freeblock s1))); done || lia. }
  set (s2 := set_inode n (new_dinode t) s1).
  assert (inode_at s2 n = new_dinode t) as En by (unfold s2; by rewrite inode_set, decide_True).
  assert (forall j u c, fs !! j = Some (u, c) -> stored_file s2 (1 + Z.of_nat j) u c /\
    forall a, fblk (mk_disk s2) (view (inode_at s2 (1 + Z.of_nat j))) a = fblk (mk_disk s) (view (inode_at s (1 + Z.of_nat j))) a) as Hoth.
  { intros j u c Hj. pose proof (lookup_lt_Some _ _ _ Hj) as Hlj.
    apply stored_frame; [by apply I7|done| |].
    - unfold s2. rewrite inode_set, decide_False; [done|lia|done|done|done|lia].
    - intros a Ha H0. unfold s2. rewrite disk_set_inode; [done|done|].
      pose proof (hd_range _ _ _ _ _ _ (sf_held _ _ _ _ (I7 j u c Hj)) a Ha H0) as Hg. change nmeta with 46 in Hg. lia. }
  exists s2. split.
  - unfold mk_ialloc. rewrite bind_gets, bind_modify, I2, u32_small by lia. fold n s1.
    rewrite xshort_small, (xshort_small 1), (xint_small 0) by lia. fold (new_dinode t).
    by rewrite (bind_Ret _ _ _ _ _ (winode_run n (new_dinode t) s1 Hr1 Hn)).
  - split.
    + by apply raw_set_inode; [..|apply Hd].
    + rewrite length_app. simpl. lia.
    + rewrite length_app. simpl. lia.
    + rewrite total_files_app. change (total [(t, [])]) with 0. simpl. lia.
    + intros a Ha. unfold s2. rewrite disk_set_inode by (done || lia). by apply I5.
    + apply Forall_app. split; [done|]. by apply Forall_singleton.
    + intros j u c Hj. apply lookup_app_Some in Hj as [Hj|[Hge Hj]]; [by apply Hoth|].
      apply list_lookup_singleton_Some in Hj as [Ej [= <- <-]]. replace (1 + Z.of_nat j) with n by lia.
      split; rewrite En; try done. apply held_new.
    + intros j k a b. rewrite length_app. simpl. intros Hj Hk Hne Ha Hb.
      destruct (decide (j = length fs)) as [->|Hj']; [fold n; rewrite En, fblk_new; done|].
      destruct (lookup_lt_is_Some_2 fs j) as [[u c] Ej]; [lia|]. destruct (Hoth j u c Ej) as [_ ->].
      destruct (decide (k = length fs)) as [->|Hk']; [fold n; rewrite En, fblk_new; done|].
      destruct (lookup_lt_is_Some_2 fs k) as [[v e] Ek]; [lia|]. destruct (Hoth k v e Ek) as [_ ->].
      apply I8; lia || done.
Qed.

(** *** The files that are copied *)

(** The bytes that the reads of a file return. *)
Fixpoint read_all (reads : list (list Z)) : list Z :=
  match reads with
  | [] | [] :: _ => []
  | buf :: reads' => buf ++ read_all reads'
  end.

Definition contents (f : hostfile) : list Z := read_all (default [] (snd f)).
Definition short_name (f : hostfile) : list Z := strip_underscore (strip_user (fst f)).

(** The directory entry for the file that is number [i] of the arguments. *)
Definition file_entry (i : nat) (f : hostfile) : list Z := new_entry (2 + Z.of_nat i) (short_name f).

Definition dirents (hs : list hostfile) : list Z :=
  new_entry ROOTINO (cstr ".") ++ new_entry ROOTINO (cstr "..") ++ concat (imap file_entry hs).

(** The root directory and then the files. *)
Definition layout (hs : list hostfile) : files := (T_DIR, dirents hs) :: ((fun f => (T_FILE, contents f)) <$> hs).

(** A file that can be copied. *)
Record host_file_ok (f : hostfile) : Prop := {
  hf_name : chr "/" ∉ strip_user (fst f);
  hf_open : is_Some (snd f);
  hf_size : Z.of_nat (length (contents f)) <= MAXFILE * BSIZE;
}.

Lemma entry_length n name : length (new_entry n name) = 16%nat.
Proof. unfold new_entry, mk_dirent, strncpy. by rewrite length_app, length_le_bytes, length_strncpy_loop. Qed.

Lemma dirents_snoc hs f : dirents (hs ++ [f]) = dirents hs ++ file_entry (length hs) f.
Proof.
  unfold dirents. rewrite imap_app, concat_app. cbn [imap concat]. unfold compose.
  by rewrite Nat.add_0_r, app_nil_r, !app_assoc.
Qed.

Lemma length_entries i hs : length (concat (imap (fun j => file_entry (i + j)) hs)) = (16 * length hs)%nat.
Proof.
  revert i. induction hs as [|f hs IH]; intros i; [done|]. cbn [imap concat]. rewrite length_app. unfold file_entry at 1.
  rewrite entry_length. specialize (IH (S i)).
  assert (imap ((fun j => file_entry (i + j)) ∘ S) hs = imap (fun j => file_entry (S i + j)) hs) as ->.
  { apply imap_ext. intros j g Hj. unfold compose. f_equal. lia. }
  rewrite IH. cbn [length]. lia.
Qed.

Lemma length_dirents hs : Z.of_nat (length (dirents hs)) = 16 * (2 + Z.of_nat (length hs)).
Proof.
  unfold dirents. rewrite !length_app, !entry_length. pose proof (length_entries 0 hs) as E. cbn [Nat.add] in E.
  change (length (concat (imap file_entry hs)) = 16 * length hs)%nat in E. lia.
Qed.

Lemma length_layout hs : length (layout hs) = S (length hs).
Proof. unfold layout. cbn [length]. by rewrite length_fmap. Qed.

Lemma total_fmap (g : hostfile -> Z * list Z) hs f : total (g <$> (hs ++ [f])) = total (g <$> hs) + blocks (snd (g f)).
Proof. rewrite fmap_app, total_files_app. cbn [fmap list_fmap total foldr]. lia. Qed.

Lemma total_layout_snoc hs f :
  total (layout (hs ++ [f])) = total (layout hs) + blocks (dirents hs ++ file_entry (length hs) f) - blocks (dirents hs) + blocks (contents f).
Proof. unfold layout. rewrite !total_cons, total_fmap, dirents_snoc. cbn [snd]. lia. Qed.

Lemma blocks_app_le bs c : blocks bs <= blocks (bs ++ c).
Proof. apply blocks_mono. rewrite length_app. lia. Qed.

Lemma blocks_nonneg bs : 0 <= blocks bs.
Proof. change 0 with (blocks []). exact (blocks_app_le [] bs). Qed.

Lemma total_layout_app hs gs : total (layout hs) <= total (layout (hs ++ gs)).
Proof.
  revert hs. induction gs as [|g gs IH]; intros hs; [by rewrite app_nil_r|].
  specialize (IH (hs ++ [g])). rewrite <- app_assoc in IH. cbn [app] in IH. rewrite total_layout_snoc in IH.
  pose proof (blocks_app_le (dirents hs) (file_entry (length hs) g)). pose proof (blocks_nonneg (contents g)). lia.
Qed.

Lemma copy_file_run reads : forall s fs i t bs,
  image s fs -> fs !! i = Some (t, bs) -> Z.of_nat (length (bs ++ read_all reads)) <= MAXFILE * BSIZE ->
  nmeta + total (<[i := (t, bs ++ read_all reads)]> fs) <= FSSIZE ->
  exists s', copy_file (1 + Z.of_nat i) reads s = Ret tt s' /\ image s' (<[i := (t, bs ++ read_all reads)]> fs).
Proof.
  induction reads as [|buf reads IH]; intros s fs i t bs Him Hi Hm Hf; simpl copy_file.
  - simpl. rewrite app_nil_r, list_insert_id by done. by exists s.
  - destruct buf as [|c buf]; [simpl; rewrite app_nil_r, list_insert_id by done; by exists s|].
    rewrite (proj2 (Z.ltb_lt 0 _)) by (simpl; lia). set (b := c :: buf) in *.
    change (read_all (b :: reads)) with (b ++ read_all reads) in *. rewrite app_assoc in *.
    rewrite (total_insert _ _ _ _ Hi) in Hf. cbn [snd] in Hf. pose proof (blocks_app_le (bs ++ b) (read_all reads)) as Hle.
    destruct (iappend_run s fs i t bs b Him Hi) as (s1 & E1 & Him1).
    { rewrite length_app in Hm. lia. }
    { rewrite (total_insert _ _ _ _ Hi). cbn [snd]. lia. }
    pose proof (lookup_lt_Some _ _ _ Hi) as Hlt.
    destruct (IH s1 _ i t (bs ++ b) Him1) as (s2 & E2 & Him2).
    { by rewrite list_lookup_insert_eq. }
    { done. }
    { rewrite list_insert_insert_eq, (total_insert _ _ _ _ Hi). cbn [snd]. lia. }
    rewrite list_insert_insert_eq in Him2. exists s2. split; [|done]. by rewrite (bind_Ret _ _ _ _ _ E1).
Qed.

(** An entry more in the root directory. *)
Lemma root_append s fs bs n name :
  image s fs -> fs !! 0%nat = Some (T_DIR, bs) -> 0 <= n < NINODES -> Z.of_nat (length bs) <= 16 * NINODES ->
  nmeta + total (<[0%nat := (T_DIR, bs ++ new_entry n name)]> fs) <= FSSIZE ->
  exists s', iappend ROOTINO (mk_dirent (xshort n) (strncpy name DIRSIZ)) s = Ret tt s' /\
    image s' (<[0%nat := (T_DIR, bs ++ new_entry n name)]> fs).
Proof.
  intros Him Hi Hn Hl Hf. assert (NINODES < 2 ^ 16) as HN by done. assert (16 * NINODES + 16 <= MAXFILE * BSIZE) as HM by done.
  rewrite xshort_small by lia. apply (iappend_run s fs 0 T_DIR bs (new_entry n name) Him Hi); [|done].
  rewrite length_app, entry_length. lia.
Qed.

Lemma add_file_run s hs f :
  image s (layout hs) -> host_file_ok f -> 3 + Z.of_nat (length hs) <= NINODES ->
  nmeta + total (layout (hs ++ [f])) <= FSSIZE ->
  exists s', add_file ROOTINO f s = Ret tt s' /\ image s' (layout (hs ++ [f])).
Proof.
  intros Him [Hn [reads Hr] Hs] Hmax Hf. rewrite total_layout_snoc in Hf.
  pose proof (blocks_app_le (dirents hs) (file_entry (length hs) f)) as Hd. pose proof (blocks_nonneg (contents f)) as Hc.
  assert (Z.of_nat (length (layout hs)) = 1 + Z.of_nat (length hs)) as Hll by (rewrite length_layout; lia).
  destruct (mk_ialloc_run s (layout hs) T_FILE Him ltac:(lia) ltac:(done)) as (s1 & E1 & Him1). rewrite Hll in E1.
  replace (1 + (1 + Z.of_nat (length hs))) with (2 + Z.of_nat (length hs)) in E1 by lia.
  set (n := 2 + Z.of_nat (length hs)) in *.
  assert ((layout hs ++ [(T_FILE, [])]) !! 0%nat = Some (T_DIR, dirents hs)) as H0 by done.
  assert (total (layout hs ++ [(T_FILE, [])]) = total (layout hs)) as Et by (rewrite total_files_app; apply Z.add_0_r).
  destruct (root_append s1 _ _ n (short_name f) Him1 H0) as (s2 & E2 & Him2); [lia|rewrite length_dirents; lia| |].
  { rewrite (total_insert _ _ _ _ H0), Et. cbn [snd]. change (new_entry n (short_name f)) with (file_entry (length hs) f). lia. }
  change (new_entry n (short_name f)) with (file_entry (length hs) f) in Him2.
  rewrite <- dirents_snoc in Him2. set (fs2 := <[0%nat := _]> _) in Him2.
  assert (fs2 = ((T_DIR, dirents (hs ++ [f])) :: ((fun g => (T_FILE, contents g)) <$> hs)) ++ [(T_FILE, [])]) as Efs by done.
  assert (fs2 !! length (layout hs) = Some (T_FILE, [])) as Hi.
  { rewrite Efs, length_layout. cbn [app lookup list_lookup]. apply list_lookup_middle. by rewrite length_fmap. }
  assert (<[length (layout hs) := (T_FILE, contents f)]> fs2 = layout (hs ++ [f])) as El.
  { rewrite Efs, length_layout, insert_app_r_alt by (cbn [length]; rewrite length_fmap; lia). cbn [length].
    rewrite length_fmap, Nat.sub_diag. unfold layout. by rewrite fmap_app. }
  destruct (copy_file_run reads s2 fs2 _ T_FILE [] Him2 Hi) as (s3 & E3 & Him3); cbn [app] in *.
  { unfold contents in Hs. by rewrite Hr in Hs. }
  { change (read_all reads) with (read_all (default [] (Some reads))). rewrite <- Hr. fold (contents f).
    rewrite El, total_layout_snoc. lia. }
  change (read_all reads) with (read_all (default [] (Some reads))) in Him3. rewrite <- Hr in Him3. fold (contents f) in Him3.
  rewrite El in Him3. exists s3. split; [|done].
  unfold add_file, mk_assert. rewrite bool_decide_true, bind_ret_l, Hr by done.
  rewrite (bind_Ret _ _ _ _ _ E1). fold (short_name f). rewrite (bind_Ret _ _ _ _ _ E2).
  rewrite Hll in E3. replace (1 + (1 + Z.of_nat (length hs))) with n in E3 by lia. done.
Qed.

Lemma add_files_run gs : forall s hs,
  image s (layout hs) -> Forall host_file_ok gs -> 2 + Z.of_nat (length (hs ++ gs)) <= NINODES ->
  nmeta + total (layout (hs ++ gs)) <= FSSIZE ->
  exists s', add_files ROOTINO gs s = Ret tt s' /\ image s' (layout (hs ++ gs)).
Proof.
  induction gs as [|g gs IH]; intros s hs Him Hok Hmax Hf; cbn [add_files]; [rewrite app_nil_r; by exists s|].
  apply list.Forall_cons in Hok as [Hg Hok]. pose proof (total_layout_app (hs ++ [g]) gs) as Hle.
  rewrite <- app_assoc in Hle. cbn [app] in Hle.
  assert (hs ++ g :: gs = (hs ++ [g]) ++ gs) as Eg by (by rewrite <- app_assoc).
  destruct (add_file_run s hs g Him Hg) as (s1 & E1 & Him1).
  { rewrite length_app in Hmax. cbn [length] in Hmax. lia. }
  { lia. }
  rewrite Eg in *. destruct (IH s1 (hs ++ [g]) Him1 Hok Hmax Hf) as (s2 & E2 & Him2).
  exists s2. split; [|done]. by rewrite (bind_Ret _ _ _ _ _ E1).
Qed.

(** *** The empty image *)

Lemma wipe_run s :
  mk_freeblock s = nmeta -> mk_img s = ∅ ->
  exists s', wipe s = Ret tt s' /\ mk_freeblock s' = nmeta /\ mk_freeinode s' = mk_freeinode s /\
    (forall n, 0 <= n < FSSIZE -> mk_img s' !! n = Some block0) /\ forall n, mk_disk s' n = block0.
Proof.
  intros Hf Hi.
  destruct (for_all_runs (fun i s' => mk_freeblock s' = nmeta /\ mk_freeinode s' = mk_freeinode s /\
    (forall n, 0 <= n < i -> mk_img s' !! n = Some block0) /\ forall n, mk_disk s' n = block0)
    (fun i => wsect i block0) (Z.to_nat FSSIZE) 0 s) as ([] & s' & E & H1 & H2 & H3 & H4).
  - split_and!; [done|done|lia|]. intros n. unfold mk_disk. by rewrite Hi, lookup_empty.
  - intros j s' Hj (H1 & H2 & H3 & H4). exists tt, (put_sect j block0 s'). split; [apply wsect_run; lia|].
    split_and!; [done|done| |].
    + intros n Hn. unfold put_sect. cbn [mk_img]. destruct (decide (n = j)) as [->|Hne]; [by rewrite lookup_insert_eq|].
      rewrite lookup_insert_ne by done. apply H3. lia.
    + intros n. rewrite mk_disk_put. unfold zupd. by case_decide.
  - exists s'. split_and!; [exact E|done|done| |done]. intros n Hn. apply H3. lia.
Qed.

Lemma start_image s :
  mk_freeinode s = 1 -> mk_freeblock s = nmeta -> (forall n, 0 <= n < FSSIZE -> mk_img s !! n = Some block0) ->
  (forall n, mk_disk s n = block0) -> image (put_sect 1 sb_block s) [].
Proof.
  intros Hi Hf Hd Hz. assert (raw s) as Hr.
  { split; [intros n Hn; rewrite Hd by done; eauto|intros n; by rewrite Hz|done|by rewrite Hf]. }
  split; [|exact Hi|done|exact Hf| |by constructor|done|].
  - apply raw_put; [done|by rewrite Hf|by vm_compute].
  - intros a Ha. rewrite mk_disk_put. unfold zupd. rewrite Hz. case_decide as E; [by subst|].
    by rewrite (proj2 (Z.eqb_neq a 1)).
  - intros i j a b Hl. cbn in Hl. lia.
Qed.

(** The root directory before the first file. *)
Lemma root_run s :
  image s [] -> exists s1 s2 s3, mk_ialloc T_DIR s = Ret ROOTINO s1 /\
    iappend ROOTINO (mk_dirent (xshort ROOTINO) (strncpy (cstr ".") DIRSIZ)) s1 = Ret tt s2 /\
    iappend ROOTINO (mk_dirent (xshort ROOTINO) (strncpy (cstr "..") DIRSIZ)) s2 = Ret tt s3 /\ image s3 (layout []).
Proof.
  intros Him. destruct (mk_ialloc_run s [] T_DIR Him ltac:(done) ltac:(done)) as (s1 & E1 & Him1). cbn [app] in Him1.
  assert (forall bs, Z.of_nat (length bs) <= 32 -> nmeta + total [(T_DIR, bs)] <= FSSIZE) as Hfit.
  { intros bs Hl. rewrite total_cons. change (total []) with 0. cbn [snd]. unfold blocks.
    pose proof (blocks_mono (Z.of_nat (length bs)) 32 Hl) as Hb. change (with_ind (nblk 32)) with 1 in Hb.
    change nmeta with 46. change FSSIZE with 1000. lia. }
  destruct (root_append s1 _ [] ROOTINO (cstr ".") Him1) as (s2 & E2 & Him2); [done|done|done| |].
  { apply Hfit. cbn [app]. by rewrite entry_length. }
  cbn [app insert list_insert] in Him2.
  destruct (root_append s2 _ (new_entry ROOTINO (cstr ".")) ROOTINO (cstr "..") Him2) as (s3 & E3 & Him3); [done|done| | |].
  { by rewrite entry_length. }
  { apply Hfit. by rewrite length_app, !entry_length. }
  cbn [insert list_insert] in Him3. exists s1, s2, s3. split_and!; [exact E1|done|done|].
  unfold layout, dirents. cbn [imap concat fmap list_fmap]. by rewrite app_nil_r.
Qed.
End run.

(** ** The bound on the size of a file *)

(** C18: on an image that has room for the file to grow to [MAXFILE] blocks, and
    on a host whose calls succeed, [iappend] appends its bytes, with every other
    file as before, exactly when the file stays within [MAXFILE] blocks; otherwise
    its assertion stops the program. *)
Theorem iappend_bounded `{H : Host} s fs i t bs p :
  (forall n, 0 <= n < FSSIZE -> host_ok n = true) -> image s fs -> fs !! i = Some (t, bs) ->
  nmeta + total fs + with_ind MAXFILE - blocks bs <= FSSIZE ->
  if decide (Z.of_nat (length (bs ++ p)) <= MAXFILE * BSIZE)
  then exists s', iappend (1 + Z.of_nat i) p s = Ret tt s' /\ image s' (<[i := (t, bs ++ p)]> fs)
  else iappend (1 + Z.of_nat i) p s = Panic "assert".
Proof.
  intros Hhost Him Hi Hf. case_decide as Hm.
  - apply (iappend_run Hhost s fs i t bs p Him Hi Hm). rewrite (total_insert _ _ _ _ Hi). cbn [snd].
    pose proof (blocks_mono _ _ Hm) as Hb. change (nblk (MAXFILE * BSIZE)) with MAXFILE in Hb. unfold blocks in *. lia.
  - pose proof (im_file _ _ Him i t bs Hi) as [S1 S2 S3 S4 S5 S6]. pose proof (im_raw _ _ Him) as Hr.
    pose proof (image_inum _ _ i Him (lookup_lt_Some _ _ _ Hi)) as Hn. pose proof S6 as [_ N1 N2 _ _ _ _ _].
    assert (Z.of_nat (length bs) <= MAXFILE * BSIZE) as Hl.
    { assert (nblk (Z.of_nat (length bs)) * BSIZE <= MAXFILE * BSIZE) by (apply Z.mul_le_mono_nonneg_r; [done|lia]). lia. }
    assert (MAXFILE * BSIZE < 2 ^ 32) as HM by done. unfold iappend.
    rewrite (bind_Ret _ _ _ _ _ (rinode_run Hhost _ s Hr Hn)), S5, xint_small by lia. apply bind_Panic.
    apply (iappend_loop_over Hhost); [lia|by split|lia|]. rewrite (im_blocks _ _ Him). unfold blocks in Hf. lia.
Qed.

(** A host on which every call succeeds. *)
Definition good_host : Host := fun _ => true.

(** A file that is one byte too long. *)
Lemma iappend_bounded_witness :
  exists s, image s [(T_DIR, [])] /\
    iappend (H := good_host) (1 + Z.of_nat 0) (replicate (Z.to_nat (MAXFILE * BSIZE + 1)) 7) s = Panic "assert".
Proof.
  assert (forall n, 0 <= n < FSSIZE -> host_ok (Host := good_host) n = true) as Hh by done.
  destruct (wipe_run (H := good_host) Hh (mkMk ∅ 1 nmeta) eq_refl eq_refl) as (s1 & _ & F1 & I1 & D1 & Z1).
  destruct (mk_ialloc_run (H := good_host) Hh _ [] T_DIR (start_image s1 I1 F1 D1 Z1)) as (s2 & _ & Him2); [done|done|].
  exists s2. split; [exact Him2|].
  assert (forall p, MAXFILE * BSIZE < Z.of_nat (length p) -> iappend (H := good_host) (1 + Z.of_nat 0) p s2 = Panic "assert") as Hp.
  { intros p Hl. pose proof (iappend_bounded (H := good_host) s2 [(T_DIR, [])] 0 T_DIR [] p Hh Him2 eq_refl ltac:(by vm_compute)) as HB.
    rewrite decide_False in HB; [exact HB|cbn [app]; lia]. }
  apply Hp. rewrite length_replicate. lia.
Defined.
