(* ===== verification/Mkdisk.v ===== *)
(** * The finished disk image

    What [main] of mkfs.c leaves on the disk, in the terms of the kernel's
    layers: the superblock that [readsb] reads, the empty log that [initlog]
    finds, the bitmap of [balloc], and for each inode the conditions under
    which [readi], [writei] and [dirlookup] are correct. *)

From Stdlib Require Import ZArith Lia.
From stdpp Require Import base gmap list strings numbers.
From S2P Require Import Prelude Riscv State Klib Bio Log Fs Balloc Inode Dir Mkfs Mkimage.

(** ** The file system *)

Lemma used_bits_spec n : (n <= Z.to_nat (BSIZE * 8))%nat -> length (used_bits n) = Z.to_nat BSIZE /\
  forall b, 0 <= b -> bit_at (used_bits n) b = (b <? Z.of_nat n).
Proof.
  induction n as [|n IH]; intros Hn.
  - split; [done|]. intros b Hb. unfold bit_at, bitmap_byte. cbn [used_bits].
    destruct (block0 !! Z.to_nat (b / 8)) as [v|] eqn:E; [apply lookup_replicate in E as [-> _]|];
      symmetry; apply Z.ltb_ge; lia.
  - destruct IH as [Hl Hb]; [lia|]. cbn [used_bits]. split; [unfold bitmap_set; by rewrite length_insert|].
    intros b Hb0. assert (Z.of_nat n / 8 < Z.of_nat (length (used_bits n))) as Hlt.
    { rewrite Hl. change BSIZE with 1024 in *. apply Z.div_lt_upper_bound; lia. }
    rewrite bit_at_set, Hb by lia. destruct (Z.eqb_spec b (Z.of_nat n)), (Z.ltb_spec b (Z.of_nat n)), (Z.ltb_spec b (Z.of_nat (S n))); lia || done.
Qed.

(** The inode that [ilock] reads for inode number [n]. *)
Definition disk_inode (D : Z -> list Z) (n : Z) : inode :=
  set_i_inum n (view (dinode_get (D (IBLOCK n mk_sb)) (dinode_off n))).

(** The log of the kernel that is started on the image. *)
Definition image_log (lg : log) : Prop := l_start lg = sb_logstart mk_sb /\ l_size lg = sb_nlog mk_sb.

(** The file systems with the files [hs] in the root directory: the superblock,
    an empty log, the bitmap of the blocks in use, the files, the directory;
    every inode satisfies what the kernel's routines on files ask for, and no
    two inodes share a block. *)
Record made_fs (D : Z -> list Z) (hs : list hostfile) : Prop := {
  mf_super : superblock_of (D 1) = mk_sb;
  mf_log : log_empty (sb_logstart mk_sb) D;
  mf_used : forall b, 0 <= b < sb_size mk_sb -> in_use D mk_sb b = (b <? nmeta + total (layout hs));
  mf_file : forall i f, hs !! i = Some f -> let x := disk_inode D (2 + Z.of_nat i) in
    i_type x = T_FILE /\ i_nlink x = 1 /\ i_size x = Z.of_nat (length (contents f)) /\ full D x /\
    file_bytes D x 0 (i_size x) = contents f;
  mf_root : let x := disk_inode D ROOTINO in
    i_type x = T_DIR /\ i_nlink x = 1 /\ i_size x = (16 * (2 + Z.of_nat (length hs)) / BSIZE + 1) * BSIZE /\
    ((2 + length hs) mod 64 <> 0 -> dir_ok D x)%nat;
  mf_dots : entry D (disk_inode D ROOTINO) 0 = new_entry ROOTINO (cstr ".") /\
    entry D (disk_inode D ROOTINO) 1 = new_entry ROOTINO (cstr "..");
  mf_entry : forall i f, hs !! i = Some f -> entry D (disk_inode D ROOTINO) (2 + Z.of_nat i) = file_entry i f;
  mf_rest : forall i, 2 + Z.of_nat (length hs) <= i < nentries (disk_inode D ROOTINO) ->
    is_free (entry D (disk_inode D ROOTINO) i) = true;
  mf_ok : forall lg n, image_log lg -> 1 <= n <= 1 + Z.of_nat (length hs) ->
    file_ok mk_sb lg D [] (disk_inode D n) /\ inode_block mk_sb lg D [] (disk_inode D n);
  mf_apart : forall n m a b, 1 <= n <= 1 + Z.of_nat (length hs) -> 1 <= m <= 1 + Z.of_nat (length hs) -> n <> m ->
    is_slot a -> is_slot b -> fblk D (disk_inode D n) a <> 0 ->
    fblk D (disk_inode D n) a <> fblk D (disk_inode D m) b;
}.

(** The bytes of a file that [held] describes. *)
Lemma held_bytes D x lo fb nb bs off n :
  held D x lo fb nb bs -> 0 <= off -> 0 <= n -> off + n <= Z.of_nat (length bs) -> file_bytes D x off n = get_bytes bs off n.
Proof.
  intros [H1 H2 H3 H4 H5 H6 H7 H8] Ho Hn Hl. assert (0 < BSIZE) as HB by done.
  assert (nb * BSIZE <= MAXFILE * BSIZE) as Hm by (apply Z.mul_le_mono_nonneg_r; lia).
  apply list_eq. intros i. destruct (decide (Z.of_nat i < n)) as [Hi|Hi].
  - rewrite file_bytes_lookup, get_bytes_lookup, H8 by lia.
    replace (Z.to_nat (off + Z.of_nat i)) with (Z.to_nat off + i)%nat by lia.
    destruct (lookup_lt_is_Some_2 bs (Z.to_nat off + i)) as [v Hv]; [lia|]. by rewrite Hv.
  - pose proof (length_file_bytes D x off n Hn) as Hf. rewrite !lookup_ge_None_2; [done| |lia].
    unfold get_bytes. rewrite length_take. lia.
Qed.

Lemma get_bytes_all bs : get_bytes bs 0 (Z.of_nat (length bs)) = bs.
Proof. unfold get_bytes. rewrite Nat2Z.id. simpl. by rewrite take_ge. Qed.

Lemma held_full D x lo fb bs :
  held D x lo fb (nblk (Z.of_nat (length bs))) bs -> i_size x = Z.of_nat (length bs) -> full D x.
Proof.
  intros [H1 H2 H3 H4 H5 H6 H7 H8] Hs. assert (0 < BSIZE) as HB by done. split.
  - rewrite Hs. split; [lia|]. assert (nblk (Z.of_nat (length bs)) * BSIZE <= MAXFILE * BSIZE) by (apply Z.mul_le_mono_nonneg_r; lia). lia.
  - intros bn Hb Hlt. rewrite Hs in Hlt. assert (bn < nblk (Z.of_nat (length bs))) as Hn.
    { unfold nblk. change BSIZE with 1024 in *. Z.to_euclidean_division_equations; lia. }
    apply H4; lia.
Qed.

(** An entry of a list of directory entries. *)
Lemma concat_entry (ds : list (list Z)) i d :
  Forall (fun e => length e = 16%nat) ds -> ds !! i = Some d -> get_bytes (concat ds) (16 * Z.of_nat i) 16 = d.
Proof.
  revert i. induction ds as [|e ds IH]; intros i Hf Hi; [done|]. apply list.Forall_cons in Hf as [He Hf]. cbn [concat].
  unfold get_bytes in *. destruct i as [|i].
  - injection Hi as ->. change (Z.to_nat (16 * Z.of_nat 0)) with 0%nat. rewrite drop_0. by apply take_app_length'.
  - replace (Z.to_nat (16 * Z.of_nat (S i))) with (length e + Z.to_nat (16 * Z.of_nat i))%nat by lia.
    rewrite <- drop_drop, drop_app_length. by apply IH.
Qed.

(** ** The end of [main] *)

Section finish.
Context (s : mk) (hs : list hostfile).
Hypothesis Him : image s (layout hs).

(** The size of the root directory, rounded up. *)
Definition root_size : Z := (16 * (2 + Z.of_nat (length hs)) / BSIZE + 1) * BSIZE.

Definition sized : mk := set_inode ROOTINO (set_d_size root_size (inode_at s ROOTINO)) s.
Definition finished : mk := put_sect 45 (used_bits (Z.to_nat (mk_freeblock s))) sized.
Let D : Z -> list Z := mk_disk finished.

Lemma finish_max : 2 + Z.of_nat (length hs) <= NINODES.
Proof. pose proof (im_max _ _ Him) as H. rewrite length_layout in H. lia. Qed.

Lemma finish_fb : 46 <= mk_freeblock s <= 1000.
Proof. exact (rw_fb _ (im_raw _ _ Him)). Qed.

Lemma finish_total : mk_freeblock s = nmeta + total (layout hs).
Proof. exact (im_blocks _ _ Him). Qed.

Lemma finish_low a : 0 <= a < 32 -> D a = if a =? 1 then sb_block else block0.
Proof.
  intros Ha. unfold D, finished, sized. rewrite mk_disk_put, zupd_ne by lia. rewrite disk_set_inode by (done || lia).
  by apply (im_meta _ _ Him).
Qed.

Lemma finish_high a : 46 <= a -> D a = mk_disk s a.
Proof. intros Ha. unfold D, finished, sized. rewrite mk_disk_put, zupd_ne by lia. apply disk_set_inode; [done|lia]. Qed.

Lemma finish_bitmap : D 45 = used_bits (Z.to_nat (mk_freeblock s)).
Proof. unfold D, finished. by rewrite mk_disk_put, zupd_eq. Qed.

Lemma root_size_range : 0 <= root_size < 2 ^ 32 /\ root_size <= MAXFILE * BSIZE.
Proof.
  pose proof finish_max as Hm. unfold NINODES in Hm. change (MAXFILE * BSIZE) with 274432. unfold root_size. change BSIZE with 1024.
  Z.to_euclidean_division_equations; lia.
Qed.

Lemma root_stored : stored_file s ROOTINO T_DIR (dirents hs).
Proof. exact (im_file _ _ Him 0 T_DIR (dirents hs) eq_refl). Qed.

Lemma root_dinode_ok : dinode_ok (set_d_size root_size (inode_at s ROOTINO)).
Proof.
  destruct root_stored as [S1 S2 S3 S4 S5 S6]. pose proof root_size_range as [Hr _].
  apply (held_dinode_ok s _ (nblk (Z.of_nat (length (dirents hs)))) (dirents hs) (im_raw _ _ Him)); unfold set_d_size;
    cbn [d_type d_major d_minor d_nlink d_size]; try done.
  - by apply (held_same_addrs (mk_disk s) (view (inode_at s ROOTINO))).
  - by rewrite S1.
Qed.

Lemma finish_inode n :
  0 <= n < NINODES ->
  dinode_get (D (IBLOCK n mk_sb)) (dinode_off n) =
  if decide (n = ROOTINO) then set_d_size root_size (inode_at s ROOTINO) else inode_at s n.
Proof.
  intros Hn. destruct (IBLOCK_range n Hn) as [_ Hb]. unfold D, finished. rewrite mk_disk_put, zupd_ne by lia.
  exact (inode_set s ROOTINO _ n (im_raw _ _ Him) root_dinode_ok ltac:(done) Hn).
Qed.

(** The file with inode number [1 + i]. *)
Lemma finish_file i t bs :
  layout hs !! i = Some (t, bs) -> let x := disk_inode D (1 + Z.of_nat i) in
  held D x nmeta (mk_freeblock s) (nblk (Z.of_nat (length bs))) bs /\ i_type x = t /\ i_nlink x = 1 /\
  i_size x = (if decide (i = 0%nat) then root_size else Z.of_nat (length bs)) /\
  forall a, fblk D x a = fblk (mk_disk s) (view (inode_at s (1 + Z.of_nat i))) a.
Proof.
  intros Hi x. pose proof (im_file _ _ Him i t bs Hi) as [S1 S2 S3 S4 S5 S6]. set (n := 1 + Z.of_nat i) in *.
  pose proof (image_inum _ _ i Him (lookup_lt_Some _ _ _ Hi)) as Hn. fold n in Hn.
  assert (i_addrs x = i_addrs (view (inode_at s n)) /\ i_type x = d_type (inode_at s n) /\ i_nlink x = d_nlink (inode_at s n) /\
    i_size x = if decide (i = 0%nat) then root_size else d_size (inode_at s n)) as (Ea & Et & El & Es).
  { unfold x, disk_inode. rewrite finish_inode by done. destruct (decide (n = ROOTINO)) as [E|E].
    - rewrite decide_True by (unfold n, ROOTINO in E; lia). by rewrite E.
    - rewrite decide_False; [done|]. intros ->. by apply E. }
  pose proof (held_same_addrs _ _ x _ _ _ _ Ea S6) as Hh.
  destruct (held_frame _ D x _ _ (mk_freeblock s) _ _ Hh ltac:(lia)) as [Hh' Ef].
  { intros a Ha H0. apply finish_high. by apply (hd_range _ _ _ _ _ _ Hh). }
  split_and!; [done|congruence|congruence| |].
  - rewrite Es. by case_decide.
  - intros a. rewrite Ef. by apply fblk_same_addrs.
Qed.

(** The bitmap. *)
Lemma finish_bits : length (D 45) = Z.to_nat BSIZE /\ forall b, 0 <= b < sb_size mk_sb ->
  BBLOCK b mk_sb = 45 /\ in_use D mk_sb b = (b <? mk_freeblock s).
Proof.
  pose proof finish_fb as Hf. rewrite finish_bitmap. change (sb_size mk_sb) with 1000.
  destruct (used_bits_spec (Z.to_nat (mk_freeblock s))) as [Hl Hb]; [change BSIZE with 1024; lia|]. split; [done|].
  intros b Hr. assert (BBLOCK b mk_sb = 45) as E.
  { unfold BBLOCK. change BPB with 8192. rewrite Z.div_small by lia. done. }
  split; [done|]. unfold in_use. rewrite E, finish_bitmap, Hb by (apply Z.mod_pos_bound; done).
  change BPB with 8192. rewrite Z.mod_small by lia. f_equal. lia.
Qed.

Lemma finish_bitmap_ok lg : image_log lg -> bitmap_ok lg mk_sb D [].
Proof.
  intros [L1 L2]. change (sb_logstart mk_sb) with 2 in L1. change (sb_nlog mk_sb) with 30 in L2.
  destruct finish_bits as [Hl Hb]. pose proof finish_fb as Hf. split.
  - done.
  - done.
  - intros b Hr. destruct (Hb b Hr) as [-> _]. unfold in_log. lia.
  - intros b Hr. apply not_elem_of_nil.
  - intros b Hr. by destruct (Hb b Hr) as [-> _].
  - intros b Hr Hfree. destruct (Hb b Hr) as [_ E]. rewrite E in Hfree. apply Z.ltb_ge in Hfree. split_and!.
    + unfold in_log. lia.
    + apply not_elem_of_nil.
    + intros b' Hr'. destruct (Hb b' Hr') as [-> _]. lia.
Qed.

(** A block of the image that is neither in the log nor in the bitmap. *)
Lemma finish_block lg a : image_log lg -> 32 <= a < mk_freeblock s -> a <> 45 -> data_block mk_sb lg D [] a.
Proof.
  intros [L1 L2] Ha Hne. change (sb_logstart mk_sb) with 2 in L1. change (sb_nlog mk_sb) with 30 in L2.
  destruct finish_bits as [Hl Hb]. pose proof finish_fb as Hf. split.
  - change (sb_size mk_sb) with 1000. lia.
  - destruct (Hb a) as [_ ->]; [change (sb_size mk_sb) with 1000; lia|]. apply Z.ltb_lt. lia.
  - unfold in_log. lia.
  - intros b Hr. destruct (Hb b Hr) as [-> _]. congruence.
  - apply not_elem_of_nil.
  - unfold D, finished. rewrite mk_disk_put, zupd_ne by done.
    refine (rw_len _ (raw_set_inode _ _ _ (im_raw _ _ Him) _ (do_len _ root_dinode_ok)) a). done.
Qed.

Lemma finish_ok lg i t bs :
  image_log lg -> layout hs !! i = Some (t, bs) -> let x := disk_inode D (1 + Z.of_nat i) in
  file_ok mk_sb lg D [] x /\ inode_block mk_sb lg D [] x.
Proof.
  intros Hlg Hi x. destruct (finish_file i t bs Hi) as ([H1 H2 H3 H4 H5 H6 H7 H8] & _). fold x in H1, H4, H5, H6, H7, H8.
  pose proof (image_inum _ _ i Him (lookup_lt_Some _ _ _ Hi)) as Hn. destruct (IBLOCK_range _ Hn) as [_ Hb].
  pose proof finish_fb as Hf. change nmeta with 46 in H6. split; split.
  - by apply finish_bitmap_ok.
  - destruct finish_bits as [_ Hu]. destruct (Hu 0 ltac:(done)) as [_ ->]. apply Z.ltb_lt. lia.
  - done.
  - intros a Ha H0. specialize (H6 a Ha H0). apply finish_block; [done|lia|lia].
  - done.
  - change (i_inum x) with (1 + Z.of_nat i). apply finish_block; [done|lia|lia].
  - intros a Ha E. change (i_inum x) with (1 + Z.of_nat i) in E.
    destruct (decide (fblk D x a = 0)) as [E0|E0]; [lia|]. specialize (H6 a Ha E0). lia.
Qed.

(** *** The root directory *)

Definition entries : list (list Z) := new_entry ROOTINO (cstr ".") :: new_entry ROOTINO (cstr "..") :: imap file_entry hs.

Lemma entries_dirents : dirents hs = concat entries.
Proof. reflexivity. Qed.

Lemma entries_16 : Forall (fun e => length e = 16%nat) entries.
Proof.
  repeat constructor; try apply entry_length. apply Forall_lookup. intros i e Hi.
  rewrite list_lookup_imap in Hi. destruct (hs !! i); [|done]. injection Hi as <-. apply entry_length.
Qed.

Lemma root_file : let x := disk_inode D ROOTINO in
  held D x nmeta (mk_freeblock s) (nblk (Z.of_nat (length (dirents hs)))) (dirents hs) /\ i_type x = T_DIR /\ i_nlink x = 1 /\
  i_size x = root_size.
Proof. destruct (finish_file 0 T_DIR (dirents hs) eq_refl) as (H1 & H2 & H3 & H4 & _). done. Qed.

Lemma root_entry i d : entries !! i = Some d -> entry D (disk_inode D ROOTINO) (Z.of_nat i) = d.
Proof.
  intros Hi. destruct root_file as [Hh _]. pose proof (lookup_lt_Some _ _ _ Hi) as Hlt.
  unfold entries in Hlt. cbn [length] in Hlt. rewrite length_imap in Hlt. unfold entry. change sizeof_dirent with 16.
  rewrite (held_bytes _ _ _ _ _ _ _ _ Hh) by (rewrite ?length_dirents; lia).
  rewrite entries_dirents. apply concat_entry; [apply entries_16|done].
Qed.

Lemma root_rest i :
  2 + Z.of_nat (length hs) <= i < nentries (disk_inode D ROOTINO) -> is_free (entry D (disk_inode D ROOTINO) i) = true.
Proof.
  destruct root_file as ([H1 H2 H3 H4 H5 H6 H7 H8] & _ & _ & Hs). unfold nentries. rewrite Hs. change sizeof_dirent with 16.
  intros Hi. pose proof root_size_range as [_ Hm]. pose proof (length_dirents hs) as Hl.
  assert (16 * i + 16 <= root_size) as Hr by (pose proof (Z.mul_div_le root_size 16 ltac:(done)); lia).
  unfold is_free, dirent_inum. apply Z.eqb_eq.
  assert (forall j, (j < 16)%nat -> entry D (disk_inode D ROOTINO) i !! j = Some 0) as He.
  { intros j Hj. unfold entry. change sizeof_dirent with 16. rewrite file_bytes_lookup, H8 by lia.
    by rewrite lookup_ge_None_2 by lia. }
  destruct (entry D (disk_inode D ROOTINO) i) as [|a [|b e]] eqn:E.
  - by specialize (He 0%nat ltac:(lia)).
  - by specialize (He 1%nat ltac:(lia)).
  - pose proof (He 0%nat ltac:(lia)) as Ea. pose proof (He 1%nat ltac:(lia)) as Eb. cbn in Ea, Eb. by simplify_eq.
Qed.

Lemma root_dir_ok : ((2 + length hs) mod 64 <> 0)%nat -> dir_ok D (disk_inode D ROOTINO).
Proof.
  intros Hm. destruct root_file as ([H1 H2 H3 H4 H5 H6 H7 H8] & Ht & _ & Hs). pose proof root_size_range as [R1 R2].
  assert ((2 + Z.of_nat (length hs)) mod 64 <> 0) as Hz.
  { intros E. apply Hm. apply Nat2Z.inj. rewrite Nat2Z.inj_mod, Nat2Z.inj_add. exact E. }
  pose proof (length_dirents hs) as Hl. rewrite Hl in H4. split.
  - done.
  - split; [lia|]. rewrite Hs. intros bn Hb Hlt. assert (bn < nblk (16 * (2 + Z.of_nat (length hs)))) as Hbn.
    { revert Hlt. unfold root_size, nblk. change BSIZE with 1024. Z.to_euclidean_division_equations; lia. }
    apply H4; [|done]. change (MAXFILE * BSIZE) with (268 * 1024) in R2. change MAXFILE with 268. change BSIZE with 1024 in Hlt. lia.
  - rewrite Hs. unfold root_size. change BSIZE with (64 * 16). change sizeof_dirent with 16.
    rewrite Z.mul_assoc. apply Z.mod_mul. done.
Qed.

Lemma finish_made : made_fs D hs.
Proof.
  assert (forall i f, hs !! i = Some f -> layout hs !! S i = Some (T_FILE, contents f)) as Hlay.
  { intros i f Hi. change (((fun g => (T_FILE, contents g)) <$> hs) !! i = Some (T_FILE, contents f)). by rewrite list_lookup_fmap, Hi. }
  assert (forall n, 1 <= n <= 1 + Z.of_nat (length hs) -> exists i t bs, n = 1 + Z.of_nat i /\ layout hs !! i = Some (t, bs)) as Hnum.
  { intros n Hn. destruct (lookup_lt_is_Some_2 (layout hs) (Z.to_nat (n - 1))) as [[t bs] Hl]; [rewrite length_layout; lia|].
    exists (Z.to_nat (n - 1)), t, bs. split; [lia|done]. }
  split.
  - rewrite finish_low by lia. by vm_compute.
  - unfold log_empty. change (sb_logstart mk_sb) with 2. by rewrite finish_low by lia.
  - intros b Hb. destruct finish_bits as [_ Hu]. destruct (Hu b Hb) as [_ ->]. by rewrite finish_total.
  - intros i f Hi x. destruct (finish_file (S i) _ _ (Hlay i f Hi)) as (Hh & Ht & Hl & Hs & _).
    replace (1 + Z.of_nat (S i)) with (2 + Z.of_nat i) in * by lia. fold x in Hh, Ht, Hl, Hs. rewrite decide_False in Hs by done.
    split_and!; [done|done|done|by apply (held_full _ _ _ _ _ Hh)|].
    rewrite Hs, (held_bytes _ _ _ _ _ _ _ _ Hh) by lia. apply get_bytes_all.
  - intros x. destruct root_file as (_ & H2 & H3 & H4). split_and!; [done|done|exact H4|apply root_dir_ok].
  - split; [by apply (root_entry 0)|by apply (root_entry 1)].
  - intros i f Hi. replace (2 + Z.of_nat i) with (Z.of_nat (S (S i))) by lia. apply root_entry.
    change (imap file_entry hs !! i = Some (file_entry i f)). by rewrite list_lookup_imap, Hi.
  - apply root_rest.
  - intros lg n Hlg Hn. destruct (Hnum n Hn) as (i & t & bs & -> & Hi). by apply (finish_ok lg i t bs).
  - intros n m a b Hn Hm Hne Ha Hb. destruct (Hnum n Hn) as (i & t & bs & -> & Hi). destruct (Hnum m Hm) as (j & u & c & -> & Hj).
    destruct (finish_file i t bs Hi) as (_ & _ & _ & _ & Ei). destruct (finish_file j u c Hj) as (_ & _ & _ & _ & Ej).
    rewrite Ei, Ej. apply (im_apart _ _ Him); [by eapply lookup_lt_Some..|lia|done|done].
Qed.
End finish.

(** ** [main] *)

Lemma mkfs_main_made `{H : Host} (hs : list hostfile) :
  (forall n, 0 <= n < FSSIZE -> host_ok n = true) -> Forall host_file_ok hs ->
  2 + Z.of_nat (length hs) <= NINODES -> nmeta + total (layout hs) <= FSSIZE ->
  exists s, mkfs_main (Some true) hs mk_start = Ret tt s /\ made_fs (mk_disk s) hs.
Proof.
  intros Hhost Hok Hmax Hf.
  destruct (wipe_run Hhost (mkMk ∅ 1 nmeta) eq_refl eq_refl) as (s1 & E1 & F1 & I1 & D1 & Z1).
  pose proof (start_image s1 I1 F1 D1 Z1) as Him2. set (s2 := put_sect 1 sb_block s1) in *.
  destruct (root_run Hhost s2 Him2) as (s3 & s4 & s5 & E3 & E4 & E5 & Him5).
  destruct (add_files_run Hhost hs s5 [] Him5 Hok Hmax Hf) as (s6 & E6 & Him6). cbn [app] in Him6.
  pose proof (im_raw _ _ Him6) as Hr6. pose proof (root_stored s6 hs Him6) as [_ _ _ _ Hsz _]. rewrite length_dirents in Hsz.
  pose proof (root_size_range s6 hs Him6) as [[R0 R1] _]. pose proof (finish_fb s6 hs Him6) as Hfb.
  exists (finished s6 hs). split; [|by apply finish_made].
  unfold mkfs_main.
  change (mk_assert (BSIZE mod sizeof_dinode =? 0)) with (@ret mk unit tt).
  change (mk_assert (BSIZE mod sizeof_dirent =? 0)) with (@ret mk unit tt).
  rewrite !bind_ret_l, bind_modify. change (mkMk ∅ (mk_freeinode mk_start) nmeta) with (mkMk ∅ 1 nmeta).
  rewrite (bind_Ret _ _ _ _ _ E1), (bind_Ret _ _ _ _ _ (wsect_run Hhost 1 sb_block s1 ltac:(done))). fold s2.
  rewrite (bind_Ret _ _ _ _ _ E3). change (mk_assert (ROOTINO =? ROOTINO)) with (@ret mk unit tt). rewrite bind_ret_l.
  rewrite (bind_Ret _ _ _ _ _ E4), (bind_Ret _ _ _ _ _ E5), (bind_Ret _ _ _ _ _ E6).
  rewrite (bind_Ret _ _ _ _ _ (rinode_run Hhost ROOTINO s6 Hr6 ltac:(done))), Hsz.
  unfold NINODES in Hmax. rewrite (xint_small (16 * _)) by lia. fold (root_size hs). rewrite xint_small by done.
  rewrite (bind_Ret _ _ _ _ _ (winode_run Hhost ROOTINO _ s6 Hr6 ltac:(done))). fold (sized s6 hs).
  rewrite bind_gets. change (mk_freeblock (sized s6 hs)) with (mk_freeblock s6). unfold mk_balloc, mk_assert.
  rewrite (proj2 (Z.ltb_lt (mk_freeblock s6) (BSIZE * 8))) by (change BSIZE with 1024; lia). rewrite bind_ret_l.
  exact (wsect_run Hhost 45 _ (sized s6 hs) ltac:(done)).
Qed.

(** C4: when every sector can be written, the files can be opened and fit, and
    there is an inode for each of them, [mkfs] ends and leaves the file system
    with exactly these files: the superblock, an empty log, the bitmap with the
    blocks in use, each file's contents, and the entries of the root directory;
    no block is shared, and every inode is as the kernel requires. *)
Theorem mkfs_makes_file_system `{H : Host} (hs : list hostfile) :
  (forall n, 0 <= n < FSSIZE -> host_ok n = true) -> Forall host_file_ok hs ->
  2 + Z.of_nat (length hs) <= NINODES -> nmeta + total (layout hs) <= FSSIZE ->
  exists s, mkfs_main (Some true) hs mk_start = Ret tt s /\ made_fs (mk_disk s) hs.
Proof. apply mkfs_main_made. Qed.

(** A program in two blocks and a text file. *)
Definition sample_hostfiles : list hostfile :=
  [(cstr "user/_cat", Some [replicate 1024 7; replicate 3 9]); (cstr "README", Some [cstr "xv6"; []])].

Lemma mkfs_makes_file_system_witness :
  exists s, mkfs_main (H := good_host) (Some true) sample_hostfiles mk_start = Ret tt s /\ made_fs (mk_disk s) sample_hostfiles.
Proof.
  apply (mkfs_makes_file_system (H := good_host)); [done| |by vm_compute|by vm_compute].
  repeat constructor; try (by eexists); try (by vm_compute); by refine (bool_decide_unpack _ _).
Defined.
