(* ===== verification/Mount.v ===== *)
(** * Mounting the image and reading a file by its path

    The kernel on the disk that mkfs made: [fsinit] accepts the superblock and
    finds the empty log, [namei] goes from the root directory to the inode of
    a file, [ilock] reads it, and [readi] returns what the file held on the
    build host. *)

From Stdlib Require Import ZArith Lia.
From stdpp Require Import base gmap list strings numbers.
From S2P Require Import Prelude Riscv State Klib Sched Usercopy Bio Log Tx Fs Balloc Inode Dir Fileio.
From S2P Require Import Mkfs Mkimage Mkdisk.

#[local] Existing Instance steady.

(** ** [fsinit] *)

(** Nothing in the cache is referenced, and the cache agrees with the disk. *)
Definition quiet (p : nat) (pr : proc) (lg : log) (k : kernel) (D : Z -> list Z) : Prop :=
  st p pr lg k (fun _ => 0) (fun _ => 0) D D 0.

Lemma quiet_set_sb p pr lg k R Lk C D U sb : st p pr lg k R Lk C D U -> st p pr lg (set_k_sb sb k) R Lk C D U.
Proof. intros [Hc [l Hi] ? ? ? ? ? ? ?]. split; try done; [by destruct Hc|exists l; by destruct Hi]. Qed.

Lemma set_sb_holds pid k sb n b : holds pid k n b -> holds pid (set_k_sb sb k) n b.
Proof. intros []. by split. Qed.

Section fsinit.
Context (p : nat) (pr : proc) (e : list (kernel -> kernel)).

Lemma readsb_run lg k D :
  quiet p pr lg k D ->
  exists k', readsb ROOTDEV (W k e) = Ret tt (W k' e) /\ quiet p pr lg k' D /\ same_io (set_k_sb (superblock_of (D 1)) k) k'.
Proof.
  intros H0. unfold readsb. change (u32 ROOTDEV) with ROOTDEV.
  destruct (bread_st H0 1 e) as (b & k1 & E1 & H1 & Hb1 & _ & S1); [done|done|left; unfold HEAD; by apply Nat.ltb_lt|].
  rewrite (bind_Ret _ _ _ _ _ E1). destruct (held_data H1 1 b e Hb1) as (x & Ex & Dx).
  rewrite (bind_Ret _ _ _ _ _ Ex), bind_kmod, Dx. cbn [wk wenv].
  pose proof (quiet_set_sb _ _ _ _ _ _ _ _ _ (superblock_of (D 1)) H1) as H2.
  destruct (brelse_st H2 1 b e (set_sb_holds _ _ _ _ _ Hb1)) as (k3 & E3 & H3 & _ & S3); [zupd_cases|done|].
  exists k3. split; [exact E3|]. split.
  - unfold quiet. st_close H3.
  - destruct S1 as (b1 & p1 & l1 & d1 & W1 & ->). destruct S3 as (b3 & p3 & l3 & d3 & W3 & ->).
    exists b3, p3, l3, d3. split; [by etrans; [exact W1|exact W3]|]. by destruct k.
Qed.

Lemma read_head_empty lg k D :
  quiet p pr lg k D -> l_dev lg = ROOTDEV -> 0 <= l_start lg < 2 ^ 31 -> hdr_n (D (l_start lg)) = 0 ->
  exists k', read_head (W k e) = Ret tt (W k' e) /\ quiet p pr (set_l_n 0 lg) k' D /\ same_io k k'.
Proof.
  intros H0 Hd Hs Hn. set (s := l_start lg) in *. unfold read_head. rewrite bind_kget. cbn [wk].
  rewrite (st_log _ _ _ _ _ _ _ _ _ H0), Hd. fold s. rewrite (u32_small s) by lia. change (u32 ROOTDEV) with ROOTDEV.
  destruct (bread_st H0 s e) as (b & k1 & E1 & H1 & Hb1 & _ & S1); [done|done|left; unfold HEAD; by apply Nat.ltb_lt|].
  rewrite (bind_Ret _ _ _ _ _ E1). destruct (held_data H1 s b e Hb1) as (x & Ex & Dx).
  rewrite (bind_Ret _ _ _ _ _ Ex), Dx. fold (hdr_n (D s)). rewrite Hn.
  destruct (log_mod_st _ _ _ _ _ _ _ _ _ (set_l_n 0) e H1) as (k2 & E2 & H2 & S2). rewrite (bind_Ret _ _ _ _ _ E2).
  assert (holds (p_pid pr) k2 s b) as Hb2.
  { unfold log_mod, kmod in E2. injection E2 as <-. by apply set_log_holds. }
  rewrite (bind_Ret _ _ _ _ _ (eq_refl : for_all (Z.to_nat 0) 0 _ (W k2 e) = Ret tt (W k2 e))).
  destruct (brelse_st H2 s b e Hb2) as (k3 & E3 & H3 & _ & S3); [zupd_cases|done|].
  exists k3. split; [exact E3|]. split; [unfold quiet; st_close H3|by rewrite S1, S2, S3].
Qed.

(** The log record of a file system in use. *)
Definition mounted_log (sb : superblock) (lg : log) : log :=
  set_l_n 0 (set_l_n 0 (set_l_dev ROOTDEV (set_l_size (logsize sb) (set_l_start (logstart sb) lg)))).

Lemma initlog_empty k sb D :
  booted p pr k D -> 0 <= logstart sb -> 0 < logsize sb -> logstart sb + logsize sb < 2 ^ 31 -> log_empty (logstart sb) D ->
  l_outstanding (k_log k) = 0 -> l_committing (k_log k) = 0 ->
  exists k' D', initlog ROOTDEV sb (W k e) = Ret tt (W k' e) /\ idle p pr (mounted_log sb (k_log k)) k' D' /\ same_io k k' /\
    forall m, m <> logstart sb -> D' m = D m.
Proof.
  intros Hb Hs Hz Hz2 [He1 He2] Ho Hc. set (s := logstart sb) in *. set (lg := k_log k).
  assert (quiet p pr lg k D) as H0.
  { pose proof (booted_st p pr k D lg Hb) as H. assert (set_k_log lg k = k) as E by (by destruct k). by rewrite E in H. }
  unfold initlog. change (BSIZE <=? sizeof_logheader) with false. cbv iota.
  assert (initlock Llog (W k e) = Ret tt (W k e)) as E0.
  { unfold initlock, kmod. cbn [wk wenv]. rewrite filter_ne_notin by apply Hb. by destruct k. }
  rewrite (bind_Ret _ _ _ _ _ E0).
  destruct (log_mod_st _ _ _ _ _ _ _ _ _ (set_l_start (s32 (sb_logstart sb))) e H0) as (k1 & E1 & H1 & S1).
  destruct (log_mod_st _ _ _ _ _ _ _ _ _ (set_l_size (s32 (sb_nlog sb))) e H1) as (k2 & E2 & H2 & S2).
  destruct (log_mod_st _ _ _ _ _ _ _ _ _ (set_l_dev ROOTDEV) e H2) as (k3 & E3 & H3 & S3).
  rewrite (bind_Ret _ _ _ _ _ E1), (bind_Ret _ _ _ _ _ E2), (bind_Ret _ _ _ _ _ E3). unfold recover_from_log.
  destruct (read_head_empty _ k3 D H3) as (k4 & E4 & H4 & S4); [done|split; [exact Hs|change (s < 2 ^ 31); lia]|exact He2|].
  rewrite (bind_Ret _ _ _ _ _ E4).
  assert (install_trans true (W k4 e) = Ret tt (W k4 e)) as E5.
  { unfold install_trans. rewrite bind_kget. cbn [wk]. by rewrite (st_log _ _ _ _ _ _ _ _ _ H4). }
  rewrite (bind_Ret _ _ _ _ _ E5).
  destruct (log_mod_st _ _ _ _ _ _ _ _ _ (set_l_n 0) e H4) as (k6 & E6 & H6 & S6). rewrite (bind_Ret _ _ _ _ _ E6).
  change (set_l_n 0 (set_l_n 0 _)) with (mounted_log sb lg) in H6.
  assert (log_ok (mounted_log sb lg)) as Hok.
  { split; cbn; fold s; try done; try lia. apply (bt_len _ _ _ _ Hb). }
  pose proof (write_head_st Hok (fun _ _ => false) k6 _ _ _ 0 e H6 ltac:(unfold HEAD; by apply Nat.ltb_lt) eq_refl) as Hw.
  unfold wpc in Hw. fold steady in Hw. destruct (write_head (W k6 e)) as [[] w| | |w| |] eqn:E7; try done.
  2:{ by destruct Hw as (_ & ? & ? & ?). }
  destruct Hw as (k7 & -> & S7 & H7). change (l_start (mounted_log sb lg)) with s in H7. cbv zeta in H7.
  exists k7. eexists. split; [reflexivity|]. split; [split|split]; [exact H7|done|done|exact Ho|exact Hc| | |].
  - destruct (put_head_spec (mounted_log sb lg) (D s) He1 ltac:(done)) as (P1 & P2 & _).
    split; change (l_start (mounted_log sb lg)) with s; by rewrite zupd_eq.
  - by rewrite S1, S2, S3, S4, S6.
  - intros m Hm. by apply zupd_ne.
Qed.

Lemma fsinit_run k D :
  let sb := superblock_of (D 1) in
  booted p pr k D -> sb_magic sb = FSMAGIC -> 0 <= logstart sb -> 0 < logsize sb -> logstart sb + logsize sb < 2 ^ 31 ->
  log_empty (logstart sb) D -> l_outstanding (k_log k) = 0 -> l_committing (k_log k) = 0 ->
  exists k' D', fsinit ROOTDEV (W k e) = Ret tt (W k' e) /\ idle p pr (mounted_log sb (k_log k)) k' D' /\
    same_io (set_k_sb sb k) k' /\ forall m, m <> logstart sb -> D' m = D m.
Proof.
  intros sb Hb Hm Hs Hz Hz2 He Ho Hc.
  assert (quiet p pr (k_log k) k D) as H0.
  { pose proof (booted_st p pr k D (k_log k) Hb) as H. assert (set_k_log (k_log k) k = k) as E by (by destruct k). by rewrite E in H. }
  destruct (readsb_run _ k D H0) as (k1 & E1 & H1 & S1). fold sb in S1.
  assert (k_sb k1 = sb /\ k_held k1 = k_held k) as [Es Eh] by (by destruct S1 as (? & ? & ? & ? & _ & ->)).
  assert (k_log k1 = k_log k) as El by apply H1.
  assert (booted p pr k1 D) as Hb1.
  { destruct H1 as [Q1 Q2 Q3 Q4 Q5 Q6 Q7 Q8 Q9]. split; try done; [lia|]. rewrite El. apply Hb. }
  unfold fsinit. rewrite (bind_Ret _ _ _ _ _ E1), bind_kget. cbn [wk]. rewrite Es, Hm, Z.eqb_refl. cbn [negb].
  destruct (initlog_empty k1 sb D Hb1 Hs Hz Hz2 He ltac:(congruence) ltac:(congruence)) as (k2 & D2 & E2 & I2 & S2 & A2).
  rewrite El in I2. exists k2, D2. split_and!; [done|done|by rewrite S1|done].
Qed.
End fsinit.

(** ** The inode table *)

(** A table without the inode, whose first free slot is [i]. *)
Lemma iget_scan_free dev inum T : forall o i x,
  (forall j y, T !! j = Some y -> 0 < i_ref y -> i_inum y <> inum) -> T !! i = Some x -> i_ref x = 0 ->
  (forall j y, (j < i)%nat -> T !! j = Some y -> i_ref y <> 0) ->
  iget_scan T o dev inum None = inr (Some (o + i)%nat).
Proof.
  assert (forall T o b, (forall j y, T !! j = Some y -> 0 < i_ref y -> i_inum y <> inum) ->
    iget_scan T o dev inum (Some b) = inr (Some b)) as Hsome.
  { clear T. induction T as [|y T IH]; intros o b Hno; cbn [iget_scan]; [done|].
    assert ((0 <? i_ref y) && (i_dev y =? dev) && (i_inum y =? inum) = false) as ->.
    { pose proof (Hno 0%nat y eq_refl) as H. destruct (Z.ltb_spec 0 (i_ref y)); [|done]. specialize (H ltac:(done)).
      by rewrite (proj2 (Z.eqb_neq _ _) H), andb_false_r. }
    apply IH. intros j z Hj. exact (Hno (S j) z Hj). }
  induction T as [|y T IH]; intros o i x Hno Hi H0 Hlt; [done|]. cbn [iget_scan].
  assert ((0 <? i_ref y) && (i_dev y =? dev) && (i_inum y =? inum) = false) as ->.
  { pose proof (Hno 0%nat y eq_refl) as H. destruct (Z.ltb_spec 0 (i_ref y)); [|done]. specialize (H ltac:(done)).
    by rewrite (proj2 (Z.eqb_neq _ _) H), andb_false_r. }
  destruct i as [|i].
  - injection Hi as ->. rewrite H0, Z.eqb_refl, Nat.add_0_r. apply Hsome. intros j z Hj. exact (Hno (S j) z Hj).
  - pose proof (Hlt 0%nat y ltac:(lia) eq_refl) as Hy. rewrite (proj2 (Z.eqb_neq _ _) Hy).
    rewrite (IH (S o) i x); [f_equal; f_equal; lia| |done|done|].
    + intros j z Hj. exact (Hno (S j) z Hj).
    + intros j z Hj. apply (Hlt (S j)). lia.
Qed.

(** The entry [iget] makes, and the entry after [ilock] has read the inode. *)
Definition fresh_inode (inum : Z) (x : inode) : inode := set_i_valid 0 (set_i_ref 1 (set_i_inum inum (set_i_dev ROOTDEV x))).
Definition loaded (pr : proc) (d : dinode) (x : inode) : inode := set_i_valid 1 (of_dinode d (locked_by pr x)).

Lemma put_inode_put ip x y k : put_inode ip x (put_inode ip y k) = put_inode ip x k.
Proof. unfold put_inode. simpl. by rewrite list_insert_insert_eq. Qed.

Lemma same_fs_put ip x k k' : same_fs k k' -> same_fs (put_inode ip x k) (put_inode ip x k').
Proof. intros (b & ps & l & Hw & ->). by exists b, ps, l. Qed.

Section inodes.
Context (p : nat) (pr : proc) (e : list (kernel -> kernel)).

Lemma iget_new k inum i x :
  Litable ∉ k_held k -> (forall j y, k_itable k !! j = Some y -> 0 < i_ref y -> i_inum y <> inum) ->
  k_itable k !! i = Some x -> i_ref x = 0 -> (forall j y, (j < i)%nat -> k_itable k !! j = Some y -> i_ref y <> 0) ->
  iget ROOTDEV inum (W k e) = Ret i (W (put_inode i (fresh_inode inum x) k) e).
Proof.
  intros Hl Hno Hi H0 Hlt. unfold iget. k_acquire. rewrite bind_kget. cbn [wk lockk k_itable].
  change (k_itable (lockk Litable k)) with (k_itable k).
  rewrite (iget_scan_free ROOTDEV inum (k_itable k) 0 i x Hno Hi H0 Hlt). cbn [Nat.add].
  set (k1 := lockk Litable k). assert (k_itable k1 !! i = Some x) as H1 by done.
  rewrite (bind_Ret _ _ _ _ _ (inode_mod_eq _ _ _ _ _ H1)).
  rewrite (bind_Ret _ _ _ _ _ (inode_mod_eq _ _ _ _ _ (put_inode_lookup _ _ _ _ H1))), put_inode_put.
  rewrite (bind_Ret _ _ _ _ _ (inode_mod_eq _ _ _ _ _ (put_inode_lookup _ _ _ _ H1))), put_inode_put.
  rewrite (bind_Ret _ _ _ _ _ (inode_mod_eq _ _ _ _ _ (put_inode_lookup _ _ _ _ H1))), put_inode_put.
  fold (fresh_inode inum x). k_release. unfold k1, ret, put_inode. by destruct k.
Qed.

Lemma ilock_load sb lg k C D ip x :
  let d := dinode_get (C (IBLOCK (i_inum x) sb)) (dinode_off (i_inum x)) in
  tx p pr lg k C D [] -> k_sb k = sb -> k_itable k !! ip = Some x -> 1 <= i_ref x -> i_valid x = 0 -> i_dev x = ROOTDEV ->
  sl_locked (i_lock x) = 0 -> d_type d <> 0 -> (usage lg [] < HEAD)%nat ->
  C (IBLOCK (i_inum x) sb) = D (IBLOCK (i_inum x) sb) \/ logged lg (IBLOCK (i_inum x) sb) = true ->
  exists k', ilock ip (W k e) = Ret tt (W k' e) /\ tx p pr lg k' C D [] /\ same_fs (put_inode ip (loaded pr d x) k) k'.
Proof.
  intros d Ht Hsb Hx Hr Hv Hdev Hl Hty Hu Hcl. pose proof (st_calm _ _ _ _ _ _ _ _ _ (tx_st _ _ _ _ _ _ _ Ht)) as Hc.
  unfold ilock. rewrite (bind_Ret _ _ _ _ _ (inode_get_eq _ _ _ _ Hx)). rewrite (proj2 (Z.ltb_ge (i_ref x) 1)) by lia.
  erewrite (bind_Ret (acquiresleep _)).
  2:{ eapply acquiresleep_free; [simpl; by rewrite Hx|done|apply Hc..]. }
  assert (sl_put (SLinode ip) (mkSleeplock 1 (p_pid pr)) k = put_inode ip (locked_by pr x) k) as ->.
  { unfold put_inode. simpl. by rewrite (alter_insert _ _ _ x Hx). }
  set (k1 := put_inode ip (locked_by pr x) k).
  assert (k_itable k1 !! ip = Some (locked_by pr x)) as Hx1 by (by eapply put_inode_lookup).
  rewrite (bind_Ret _ _ _ _ _ (inode_get_eq _ _ _ _ Hx1)). change (i_valid (locked_by pr x)) with (i_valid x). rewrite Hv.
  cbn [when Z.eqb]. rewrite bind_kget. cbn [wk]. change (k_sb k1) with (k_sb k). rewrite Hsb.
  change (i_dev (locked_by pr x)) with (i_dev x). change (i_inum (locked_by pr x)) with (i_inum x). rewrite Hdev.
  set (ib := IBLOCK (i_inum x) sb) in *.
  destruct (tx_bread (tx_put_inode _ _ _ _ _ _ _ ip (locked_by pr x) Ht) ib e ltac:(apply not_elem_of_nil) Hu)
    as (b & k2 & E2 & T2 & S2). fold k1 in E2, S2.
  assert ((ib, b) ∈ [(ib, b)]) as Hin by apply list_elem_of_here.
  destruct (tx_get T2 ib b e Hin) as (y & Ey & Dy). rewrite (bind_Ret _ _ _ _ _ E2), (bind_Ret _ _ _ _ _ Ey), Dy. fold d.
  destruct (same_fs_itable _ _ S2) as [It2 _]. assert (k_itable k2 !! ip = Some (locked_by pr x)) as Hx2 by (by rewrite It2).
  rewrite (bind_Ret _ _ _ _ _ (inode_mod_eq _ _ _ _ _ Hx2)).
  destruct (tx_brelse _ _ _ _ _ _ _ ib b e (tx_put_inode _ _ _ _ _ _ _ ip (of_dinode d (locked_by pr x)) T2) Hcl) as (k3 & E3 & T3 & S3).
  rewrite (bind_Ret _ _ _ _ _ E3). destruct (same_fs_itable _ _ S3) as [It3 _].
  assert (k_itable k3 !! ip = Some (of_dinode d (locked_by pr x))) as Hx3 by (rewrite It3; by eapply put_inode_lookup).
  rewrite (bind_Ret _ _ _ _ _ (inode_mod_eq _ _ _ _ _ Hx3)). fold (loaded pr d x).
  rewrite (bind_Ret _ _ _ _ _ (inode_get_eq _ _ _ _ (put_inode_lookup _ (loaded pr d x) _ _ Hx3))).
  change (i_type (loaded pr d x)) with (d_type d). rewrite (proj2 (Z.eqb_neq _ _) Hty). cbn [when].
  exists (put_inode ip (loaded pr d x) k3). split_and!; [done|by apply tx_put_inode|].
  pose proof (same_fs_put ip (loaded pr d x) _ _ S2) as P2. pose proof (same_fs_put ip (loaded pr d x) _ _ S3) as P3.
  rewrite put_inode_put in P3. unfold k1 in P2. rewrite put_inode_put in P2. by rewrite P2.
Qed.

(** [iput] of an inode that stays on disk. *)
Lemma iput_keep k ip x :
  Litable ∉ k_held k -> k_itable k !! ip = Some x -> i_nlink x <> 0 ->
  iput ip (W k e) = Ret tt (W (put_inode ip (set_i_ref (i_ref x - 1) x) k) e).
Proof.
  intros Hl Hx Hn. unfold iput. k_acquire. set (k1 := lockk Litable k). assert (k_itable k1 !! ip = Some x) as H1 by done.
  rewrite (bind_Ret _ _ _ _ _ (inode_get_eq _ _ _ _ H1)), (proj2 (Z.eqb_neq _ _) Hn), andb_false_r. cbn [when].
  rewrite bind_ret_l, (bind_Ret _ _ _ _ _ (inode_mod_eq _ _ _ _ _ H1)). k_release. unfold k1, put_inode. by destruct k.
Qed.
End inodes.

(** ** Names and paths *)

(** The name of a file: no slash, no NUL. *)
Definition plain (name : list Z) : Prop := name <> [] /\ Forall (fun c => 0 < c < 256 /\ c <> chr "/") name.

#[export] Instance plain_dec name : Decision (plain name).
Proof. unfold plain. apply _. Defined.

(** The element of the path as [skipelem] stores it. *)
Definition elem (name : list Z) : list Z := if DIRSIZ <=? Z.of_nat (length name) then take (Z.to_nat DIRSIZ) name else name ++ [0].

Lemma c_string_whole name : Forall (fun c => 0 < c < 256 /\ c <> chr "/") name -> forall t, c_string (name ++ t) = name ++ c_string t.
Proof.
  intros Hf t. induction Hf as [|c name [Hc _] _ IH]; [done|]. cbn [app c_string].
  rewrite (proj2 (Z.eqb_neq c 0)) by lia. by rewrite IH.
Qed.

Lemma take_elem name : plain name -> take 14 (c_string (elem name)) = take 14 name.
Proof.
  intros [_ Hf]. unfold elem. change DIRSIZ with 14. destruct (Z.leb_spec 14 (Z.of_nat (length name))) as [Hl|Hl].
  - change (Z.to_nat 14) with 14%nat. rewrite <- (app_nil_r (take 14 name)) at 1.
    rewrite c_string_whole by (by apply Forall_take). cbn [c_string]. by rewrite app_nil_r, take_take.
  - rewrite c_string_whole by done. cbn [c_string]. by rewrite app_nil_r.
Qed.

Lemma elem_bytes name : plain name -> Forall (fun c => 0 <= c < 256) (elem name).
Proof.
  intros [_ Hf]. assert (Forall (fun c => 0 <= c < 256) name) as Hb by (eapply list.Forall_impl; [exact Hf|]; intros c [Hc _]; lia).
  unfold elem. destruct (_ <=? _); [by apply Forall_take|]. apply Forall_app. split; [done|]. by repeat constructor.
Qed.

Lemma strncpy_bytes n name : Forall (fun c => 0 <= c < 256) name -> Forall (fun c => 0 <= c < 256) (strncpy_loop n name).
Proof.
  intros Hf. revert name Hf. induction n as [|n IH]; intros name Hf; cbn [strncpy_loop]; [constructor|].
  destruct Hf as [|c name Hc Hf]; cbn [head tail default].
  - constructor; [lia|]. rewrite Z.eqb_refl. by apply Forall_replicate.
  - constructor; [done|]. unfold id. destruct (c =? 0); [by apply Forall_replicate|by apply IH].
Qed.

(** An entry has the name of the path's element when the first [DIRSIZ] bytes agree. *)
Lemma has_name_elem name inum other :
  plain name -> Forall (fun c => 0 < c < 256 /\ c <> chr "/") other -> 0 < inum < 2 ^ 16 ->
  has_name (elem name) (new_entry inum other) = bool_decide (take 14 name = take 14 other).
Proof.
  intros Hp Ho Hi. unfold has_name, is_free. rewrite new_entry_inum by lia. rewrite (proj2 (Z.eqb_neq inum 0)) by lia. cbn [negb andb].
  assert (dirent_name (new_entry inum other) = strncpy other DIRSIZ) as ->.
  { unfold dirent_name, new_entry, mk_dirent, get_bytes. change (Z.to_nat 2) with 2%nat. rewrite <- (length_le_bytes 2 inum) at 1.
    rewrite drop_app_length. apply take_ge. unfold strncpy. rewrite length_strncpy_loop. lia. }
  assert (Forall (fun c => 0 <= c < 256) other) as Hb by (eapply list.Forall_impl; [exact Ho|]; intros c [Hc _]; lia).
  pose proof (strncmp_loop_eq 14 (elem name) (strncpy_loop 14 other) (elem_bytes name Hp) (strncpy_bytes 14 other Hb)) as E.
  rewrite take_elem, c_string_strncpy in E by done. rewrite <- (app_nil_r other), c_string_whole in E by done.
  cbn [c_string] in E. rewrite app_nil_r, take_take, Nat.min_id in E.
  unfold namecmp, strncmp, strncpy. change (Z.to_nat (u32 DIRSIZ)) with 14%nat. change (Z.to_nat DIRSIZ) with 14%nat.
  destruct (Z.eqb_spec (strncmp_loop 14 (elem name) (strncpy_loop 14 other)) 0) as [E0|E0].
  - symmetry. apply bool_decide_true. by apply E.
  - symmetry. apply bool_decide_false. intros E'. by apply E0, E.
Qed.

Lemma skipelem_file name : plain name -> skipelem (chr "/" :: name) = Some ([], elem name).
Proof.
  intros [Hne Hf]. unfold skipelem. cbn [skip_slashes]. rewrite Z.eqb_refl.
  assert (skip_slashes name = name) as ->.
  { destruct Hf as [|c name [_ Hc] _]; [done|]. cbn [skip_slashes]. by rewrite (proj2 (Z.eqb_neq _ _) Hc). }
  assert (hd 0 name =? 0 = false) as ->.
  { destruct Hf as [|c name [Hc _] _]; [done|]. apply Z.eqb_neq. cbn. lia. }
  assert (path_elem name = (name, [])) as ->.
  { clear Hne. induction Hf as [|c name [Hc Hs] _ IH]; [done|]. cbn [path_elem].
    rewrite (proj2 (Z.eqb_neq _ _) Hs), (proj2 (Z.eqb_neq c 0)) by lia. cbn [orb]. by rewrite IH. }
  done.
Qed.

(** ** Files in memory *)

(** Only the addresses, the size and the type of an inode matter. *)
Lemma file_ok_same sb lg C H x x' : i_addrs x' = i_addrs x -> file_ok sb lg C H x -> file_ok sb lg C H x'.
Proof.
  intros E [O1 O2 O3 O4 O5]. assert (forall a, fblk C x' a = fblk C x a) as Ef by (intros a; by apply fblk_same_addrs).
  split; try done.
  - by rewrite E.
  - intros a Ha. rewrite Ef. by apply O4.
  - intros a b Ha Hb. rewrite !Ef. by apply O5.
Qed.

Lemma full_same C x x' : i_addrs x' = i_addrs x -> i_size x' = i_size x -> full C x -> full C x'.
Proof.
  intros E Es [F1 F2]. split; rewrite Es; [done|]. intros bn Hb Hl. rewrite (fblk_same_addrs C x x' bn E). by apply F2.
Qed.

Lemma bytes_same C C' x x' off n :
  i_addrs x' = i_addrs x -> (forall o, off <= o < off + n -> byte_at C' x o = byte_at C x o) ->
  file_bytes C' x' off n = file_bytes C x off n.
Proof.
  intros E Hb. apply list_fmap_ext. intros i j Hj. apply lookup_seq in Hj as [-> Hj]. cbn [Nat.add].
  rewrite <- Hb by lia. unfold byte_at. by rewrite (fblk_same_addrs C' x x' _ E).
Qed.

(** The names in the root directory, as far as directories compare them. *)
Record good_names (hs : list hostfile) : Prop := {
  gn_plain : forall f, f ∈ hs -> plain (short_name f);
  gn_dots : forall f, f ∈ hs -> take 14 (short_name f) <> cstr "." /\ take 14 (short_name f) <> cstr "..";
  gn_nodup : NoDup ((fun f => take 14 (short_name f)) <$> hs);
}.

(** A table of inodes of which none is in use. *)
Record free_table (k : kernel) : Prop := {
  ft_lock : Litable ∉ k_held k;
  ft_free : forall i x, k_itable k !! i = Some x -> i_ref x = 0 /\ sl_locked (i_lock x) = 0;
  ft_len : (2 <= length (k_itable k))%nat;
}.

Section mounted.
Context (p : nat) (pr : proc) (e : list (kernel -> kernel)) (lg : log) (D D1 : Z -> list Z) (hs : list hostfile).
Hypothesis Hmade : made_fs D hs.
Hypothesis Hlg : image_log lg.
Hypothesis Hag : forall m, ~ in_log lg m -> D1 m = D m.

(** The inode [n] as it is in memory after [ilock]. *)
Definition in_memory (n : Z) (x : inode) : inode := loaded pr (dinode_get (D1 (IBLOCK n mk_sb)) (dinode_off n)) (fresh_inode n x).

Lemma inode_agrees n :
  1 <= n <= 1 + Z.of_nat (length hs) -> dinode_get (D1 (IBLOCK n mk_sb)) (dinode_off n) = dinode_get (D (IBLOCK n mk_sb)) (dinode_off n).
Proof.
  intros Hn. destruct (mf_ok _ _ Hmade lg n Hlg Hn) as [_ [Hd _]]. f_equal. apply Hag. exact (db_log _ _ _ _ _ Hd).
Qed.

Lemma loaded_fields n x :
  1 <= n <= 1 + Z.of_nat (length hs) -> let y := in_memory n x in let z := disk_inode D n in
  i_addrs y = i_addrs z /\ i_size y = i_size z /\ i_type y = i_type z /\ i_nlink y = i_nlink z.
Proof. intros Hn. unfold in_memory. by rewrite inode_agrees. Qed.

(** The kernel works on inode [n], in slot [ip]. *)
Lemma loaded_on_file k ip n x :
  tx p pr lg k D1 D1 [] -> k_sb k = mk_sb -> k_itable k !! ip = Some (in_memory n x) ->
  1 <= n <= 1 + Z.of_nat (length hs) -> on_file mk_sb ip p pr lg k D1 D1 [] (in_memory n x).
Proof.
  intros Ht Hsb Hx Hn. destruct (loaded_fields n x Hn) as (Ea & _). destruct (mf_ok _ _ Hmade lg n Hlg Hn) as [Hf _].
  split; try done. apply (file_ok_same _ _ _ _ (disk_inode D n)); [done|]. by apply (agree_file Hag Hf).
Qed.

Lemma loaded_bytes n x off len :
  1 <= n <= 1 + Z.of_nat (length hs) -> 0 <= off -> off + len <= MAXFILE * BSIZE ->
  file_bytes D1 (in_memory n x) off len = file_bytes D (disk_inode D n) off len.
Proof.
  intros Hn Ho Hl. destruct (loaded_fields n x Hn) as (Ea & _). destruct (mf_ok _ _ Hmade lg n Hlg Hn) as [Hf _].
  apply bytes_same; [done|]. intros o Hor. apply (agree_byte Hag Hf). lia.
Qed.

Lemma loaded_full n x : 1 <= n <= 1 + Z.of_nat (length hs) -> full D (disk_inode D n) -> full D1 (in_memory n x).
Proof.
  intros Hn Hfu. destruct (loaded_fields n x Hn) as (Ea & Es & _). destruct (mf_ok _ _ Hmade lg n Hlg Hn) as [Hf _].
  apply (full_same _ (disk_inode D n)); [done|done|]. by apply (agree_full Hag Hf).
Qed.

Lemma root_loaded x : ((2 + length hs) mod 64 <> 0)%nat -> dir_ok D1 (in_memory ROOTINO x).
Proof.
  intros Hm. assert (1 <= ROOTINO <= 1 + Z.of_nat (length hs)) as Hn by (unfold ROOTINO; lia).
  destruct (mf_root _ _ Hmade) as (Ht & _ & _ & Hd). destruct (Hd Hm) as [D2 D3 D4].
  destruct (loaded_fields ROOTINO x Hn) as (Ea & Es & Et & _). split.
  - congruence.
  - by apply loaded_full.
  - congruence.
Qed.

(** Where the root directory has the name of file [i]. *)
Lemma root_index i f x :
  good_names hs -> hs !! i = Some f -> 2 + Z.of_nat (length hs) <= NINODES ->
  first_index (fun j => has_name (elem (short_name f)) (entry D1 (in_memory ROOTINO x) j)) 0
    (Z.to_nat (nentries (in_memory ROOTINO x))) = Some (2 + Z.of_nat i) /\
  dirent_inum (entry D1 (in_memory ROOTINO x) (2 + Z.of_nat i)) = 2 + Z.of_nat i.
Proof.
  intros Hg Hi Hmax. assert (1 <= ROOTINO <= 1 + Z.of_nat (length hs)) as Hn by (unfold ROOTINO; lia).
  pose proof (lookup_lt_Some _ _ _ Hi) as Hlt. unfold NINODES in Hmax.
  destruct (mf_root _ _ Hmade) as (_ & _ & Hs & _). destruct (loaded_fields ROOTINO x Hn) as (_ & Es & _).
  assert (forall j, 0 <= j < 2 + Z.of_nat (length hs) -> entry D1 (in_memory ROOTINO x) j = entry D (disk_inode D ROOTINO) j) as He.
  { intros j Hj. unfold entry. change sizeof_dirent with 16. apply loaded_bytes; [done|lia|].
    change (MAXFILE * BSIZE) with 274432. lia. }
  assert (2 + Z.of_nat (length hs) <= nentries (in_memory ROOTINO x)) as Hne.
  { unfold nentries. rewrite Es, Hs. change sizeof_dirent with 16. change BSIZE with 1024. Z.to_euclidean_division_equations; lia. }
  pose proof (gn_plain _ Hg f (list_elem_of_lookup_2 _ _ _ Hi)) as Hp.
  destruct (mf_dots _ _ Hmade) as [Hd1 Hd2]. destruct (gn_dots _ Hg f (list_elem_of_lookup_2 _ _ _ Hi)) as [Hx1 Hx2].
  pose proof (mf_entry _ _ Hmade i f Hi) as Hei. rewrite <- He in Hei by lia. unfold file_entry in Hei. split.
  - apply first_index_at; [lia| |].
    + rewrite Hei, has_name_elem by (done || apply Hp || lia). by apply bool_decide_true.
    + intros j Hj. rewrite He by lia. destruct (decide (j = 0)) as [->|Hj0]; [|destruct (decide (j = 1)) as [->|Hj1]].
      * rewrite Hd1, has_name_elem; [by apply bool_decide_false|done| |done]. by refine (bool_decide_unpack _ _).
      * rewrite Hd2, has_name_elem; [by apply bool_decide_false|done| |done]. by refine (bool_decide_unpack _ _).
      * destruct (lookup_lt_is_Some_2 hs (Z.to_nat (j - 2))) as [g Hj2]; [lia|].
        pose proof (mf_entry _ _ Hmade _ g Hj2) as Hej. replace (2 + Z.of_nat (Z.to_nat (j - 2))) with j in Hej by lia.
        rewrite Hej. unfold file_entry. rewrite has_name_elem; [|done|apply (gn_plain _ Hg g (list_elem_of_lookup_2 _ _ _ Hj2))|lia].
        apply bool_decide_false. intros E. assert (i = Z.to_nat (j - 2)); [|lia].
        apply (NoDup_lookup _ _ _ (take 14 (short_name f)) (gn_nodup _ Hg)); rewrite list_lookup_fmap; [by rewrite Hi|].
        rewrite Hj2. cbn. by rewrite E.
  - rewrite Hei. apply new_entry_inum. lia.
Qed.

Hypothesis Hempty : l_n lg = 0.

Lemma room : (usage lg [] < HEAD)%nat.
Proof. unfold usage. rewrite Hempty. unfold HEAD. by apply Nat.ltb_lt. Qed.

Lemma load_inode k ip n x :
  tx p pr lg k D1 D1 [] -> k_sb k = mk_sb -> k_itable k !! ip = Some (fresh_inode n x) -> sl_locked (i_lock x) = 0 ->
  1 <= n <= 1 + Z.of_nat (length hs) -> i_type (disk_inode D n) <> 0 ->
  exists k', ilock ip (W k e) = Ret tt (W k' e) /\ tx p pr lg k' D1 D1 [] /\ same_fs (put_inode ip (in_memory n x) k) k'.
Proof.
  intros Ht Hsb Hx Hl Hn Hty. destruct (loaded_fields n x Hn) as (_ & _ & Et & _). rewrite <- Et in Hty.
  by apply (ilock_load p pr e mk_sb lg k D1 D1 ip (fresh_inode n x)); [..|apply room|left].
Qed.

Lemma iunlockput_run k ip y :
  tx p pr lg k D1 D1 [] -> Litable ∉ k_held k -> k_itable k !! ip = Some y -> i_lock y = mkSleeplock 1 (p_pid pr) ->
  i_ref y = 1 -> i_nlink y <> 0 ->
  exists k', iunlockput ip (W k e) = Ret tt (W k' e) /\ tx p pr lg k' D1 D1 [] /\
    same_fs (put_inode ip (set_i_ref 0 (set_i_lock unlocked y)) k) k'.
Proof.
  intros Ht Hh Hy Hl Hr Hn. pose proof (st_calm _ _ _ _ _ _ _ _ _ (tx_st _ _ _ _ _ _ _ Ht)) as Hc. unfold iunlockput.
  rewrite (bind_Ret _ _ _ _ _ (iunlock_run p pr ip y k e Hc Hy ltac:(lia) Hl)).
  assert (k_itable (unlock_inode ip y k) !! ip = Some (set_i_lock unlocked y)) as H1 by (by eapply put_inode_lookup).
  rewrite (iput_keep e (unlock_inode ip y k) ip (set_i_lock unlocked y) Hh H1 Hn).
  change (i_ref (set_i_lock unlocked y)) with (i_ref y). rewrite Hr. eexists. split; [reflexivity|]. split.
  - apply tx_put_inode. unfold unlock_inode. change (k_cur k) with (k_cur (put_inode ip (set_i_lock unlocked y) k)).
    change (k_procs k) with (k_procs (put_inode ip (set_i_lock unlocked y) k)). by apply tx_wake, tx_put_inode.
  - rewrite <- (put_inode_put ip _ (set_i_lock unlocked y) k). change (1 - 1) with 0. apply same_fs_put.
    exists (k_bufs k), (wake (Csleep (SLinode ip)) (k_cur k) (k_procs k)), (k_log k). split; [apply woken_wake|done].
Qed.

(** [namei] finds the inode of a file in the root directory. *)
Lemma namei_run k i f :
  tx p pr lg k D1 D1 [] -> k_sb k = mk_sb -> free_table k -> good_names hs -> hs !! i = Some f ->
  2 + Z.of_nat (length hs) <= NINODES -> ((2 + length hs) mod 64 <> 0)%nat ->
  exists k' x, namei (chr "/" :: short_name f) (W k e) = Ret (Some 1%nat) (W k' e) /\ tx p pr lg k' D1 D1 [] /\ k_sb k' = mk_sb /\
    k_itable k' !! 1%nat = Some (fresh_inode (2 + Z.of_nat i) x) /\ sl_locked (i_lock x) = 0.
Proof.
  intros Ht Hsb [Hh Hfr Hlen] Hg Hi Hmax Hm.
  destruct (lookup_lt_is_Some_2 (k_itable k) 0) as [x0 H0]; [lia|]. destruct (lookup_lt_is_Some_2 (k_itable k) 1) as [x1 H1]; [lia|].
  destruct (Hfr _ _ H0) as [R0 L0]. destruct (Hfr _ _ H1) as [R1 L1]. pose proof (lookup_lt_Some _ _ _ Hi) as Hlt.
  assert (1 <= ROOTINO <= 1 + Z.of_nat (length hs)) as Hn by (unfold ROOTINO; lia).
  pose proof (gn_plain _ Hg f (list_elem_of_lookup_2 _ _ _ Hi)) as Hp. set (name := short_name f) in *.
  destruct (mf_root _ _ Hmade) as (Hty & Hnl & _ & _). destruct (loaded_fields ROOTINO x0 Hn) as (_ & _ & Et & El).
  (* the root *)
  assert (iget ROOTDEV ROOTINO (W k e) = Ret 0%nat (W (put_inode 0 (fresh_inode ROOTINO x0) k) e)) as E0.
  { apply (iget_new e); [done| |done|done|lia]. intros j y Hj Hr. destruct (Hfr j y Hj). lia. }
  set (k0 := put_inode 0 (fresh_inode ROOTINO x0) k) in *.
  assert (tx p pr lg k0 D1 D1 []) as T0 by (by apply tx_put_inode).
  destruct (load_inode k0 0 ROOTINO x0 T0 Hsb) as (k1 & E1 & T1 & S1); [by eapply put_inode_lookup|done|done|by rewrite Hty|].
  unfold k0 in S1. rewrite put_inode_put in S1. set (rt := in_memory ROOTINO x0) in *.
  destruct (same_fs_itable _ _ S1) as [It1 Sb1]. assert (k_held k1 = k_held k) as Hh1 by (by destruct S1 as (? & ? & ? & _ & ->)).
  assert (k_itable k1 !! 0%nat = Some rt) as Hx1 by (rewrite It1; by eapply put_inode_lookup).
  assert (on_file mk_sb 0 p pr lg k1 D1 D1 [] rt) as Hof by (by apply loaded_on_file; [|rewrite Sb1| |]).
  destruct (dirlookup_run mk_sb 0 p pr lg k1 D1 D1 [] rt (elem name) e Hof (root_loaded x0 Hm) room) as (k2 & E2 & [T2 _ Sb2 Hx2 _] & S2).
  destruct (root_index i f x0 Hg Hi Hmax) as [Eix Ein]. fold name rt in Eix, Ein. rewrite Eix, Ein in E2.
  destruct (same_fs_itable _ _ S2) as [It2 _]. assert (k_held k2 = k_held k) as Hh2 by (destruct S2 as (? & ? & ? & _ & ->); exact Hh1).
  assert (k_itable k2 = <[0%nat := rt]> (k_itable k)) as It by (by rewrite It2, It1).
  (* the file *)
  assert (iget ROOTDEV (2 + Z.of_nat i) (W k2 e) = Ret 1%nat (W (put_inode 1 (fresh_inode (2 + Z.of_nat i) x1) k2) e)) as E3.
  { apply (iget_new e); [by rewrite Hh2| | |done|].
    - intros j y. rewrite It. destruct (decide (j = 0%nat)) as [->|Hj].
      + rewrite list_lookup_insert_eq by lia. intros [= <-] _. change (i_inum rt) with ROOTINO. unfold ROOTINO. lia.
      + rewrite list_lookup_insert_ne by done. intros Hy Hr. destruct (Hfr j y Hy). lia.
    - by rewrite It, list_lookup_insert_ne by done.
    - intros j y Hj. assert (j = 0%nat) as -> by lia. rewrite It, list_lookup_insert_eq by lia. by intros [= <-]. }
  rewrite (bind_Ret _ _ _ _ _ E3) in E2. set (k3 := put_inode 1 _ k2) in *.
  assert (tx p pr lg k3 D1 D1 []) as T3 by (by apply tx_put_inode).
  assert (k_itable k3 !! 0%nat = Some rt) as Hx3.
  { change (<[1%nat := fresh_inode (2 + Z.of_nat i) x1]> (k_itable k2) !! 0%nat = Some rt). by rewrite list_lookup_insert_ne. }
  destruct (iunlockput_run k3 0 rt T3) as (k4 & E4 & T4 & S4); [by change (k_held k3) with (k_held k2); rewrite Hh2|done|done|done|by rewrite El, Hnl|].
  destruct (same_fs_itable _ _ S4) as [It4 Sb4]. exists k4, x1. split_and!; [|done|by rewrite Sb4| |done].
  - enough (namex (chr "/" :: name) false (W k e) = Ret (Some 1%nat, elem name) (W k4 e)) as E.
    { unfold namei. by rewrite (bind_Ret _ _ _ _ _ E). }
    unfold namex. cbn [hd]. rewrite Z.eqb_refl, (bind_Ret _ _ _ _ _ E0). cbn [length]. rewrite while_S, skipelem_file by done.
    rewrite bind_assoc, (bind_Ret _ _ _ _ _ E1), bind_assoc, (bind_Ret _ _ _ _ _ (inode_get_eq _ _ _ _ Hx1)), Et, Hty, Z.eqb_refl.
    cbn [negb andb]. rewrite bind_assoc, (bind_Ret _ _ _ _ _ E2), bind_assoc, (bind_Ret _ _ _ _ _ E4), bind_ret_l.
    by destruct name.
  - rewrite It4. change (<[0%nat := set_i_ref 0 (set_i_lock unlocked rt)]> (k_itable k3) !! 1%nat = Some (fresh_inode (2 + Z.of_nat i) x1)).
    rewrite list_lookup_insert_ne by done. apply list_lookup_insert_eq. rewrite It, length_insert. lia.
Qed.
End mounted.

(** ** From the files of the build host to the kernel *)

(** Mount the disk and read [n] bytes of a file: the calls of a process that
    opens the file first thing, as [exec] does. *)
Definition read_file (path : list Z) (n : Z) : K (option (Z * list Z)) :=
  fsinit ROOTDEV ;;;
  begin_op ;;;
  let* r := namei path in
  match r with
  | None => ret None
  | Some ip => ilock ip ;;; let* d := readi ip DLocal 0 n in ret (Some d)
  end.

Lemma read_file_run p pr e k D hs i f :
  made_fs D hs -> booted p pr k D -> free_table k -> l_outstanding (k_log k) = 0 -> l_committing (k_log k) = 0 ->
  good_names hs -> hs !! i = Some f -> 2 + Z.of_nat (length hs) <= NINODES -> ((2 + length hs) mod 64 <> 0)%nat ->
  let n := Z.of_nat (length (contents f)) in
  exists k', read_file (chr "/" :: short_name f) n (W k e) = Ret (Some (n, contents f)) (W k' e).
Proof.
  intros Hmade Hb [F1 F2 F3] Ho Hc Hg Hi Hmax Hm n.
  destruct (fsinit_run p pr e k D Hb) as (k1 & D1 & E1 & I1 & S1 & A1); rewrite ?(mf_super _ _ Hmade); try done.
  { exact (mf_log _ _ Hmade). }
  rewrite (mf_super _ _ Hmade) in I1, S1, A1. destruct (begin_op_idle p pr _ k1 D1 e I1) as [E2 T2].
  set (lg := set_l_outstanding 1 _) in *. set (k2 := set_k_log lg k1) in *.
  assert (image_log lg) as Hlg by done. assert (l_n lg = 0) as Hn0 by done.
  assert (forall m, ~ in_log lg m -> D1 m = D m) as Hag.
  { intros m Hnl. apply A1. intros ->. apply Hnl. unfold in_log. by vm_compute. }
  assert (k_sb k2 = mk_sb /\ k_itable k2 = k_itable k /\ k_held k2 = k_held k) as (Sb2 & It2 & Hh2)
    by (by destruct S1 as (? & ? & ? & ? & _ & ->)).
  assert (free_table k2) as Hft by (split; rewrite ?Hh2, ?It2; done).
  destruct (namei_run p pr e lg D D1 hs Hmade Hlg Hag Hn0 k2 i f T2 Sb2 Hft Hg Hi Hmax Hm) as (k3 & x & E3 & T3 & Sb3 & Hx3 & L3).
  pose proof (lookup_lt_Some _ _ _ Hi) as Hlt. destruct (mf_file _ _ Hmade i f Hi) as (Hty & _ & Hsz & Hfu & Hby).
  assert (1 <= 2 + Z.of_nat i <= 1 + Z.of_nat (length hs)) as Hr by lia.
  destruct (load_inode p pr e lg D D1 hs Hmade Hlg Hag Hn0 k3 1 _ x T3 Sb3 Hx3 L3 Hr) as (k4 & E4 & T4 & S4); [by rewrite Hty|].
  destruct (same_fs_itable _ _ S4) as [It4 Sb4]. set (y := in_memory pr D1 (2 + Z.of_nat i) x) in *.
  assert (on_file mk_sb 1 p pr lg k4 D1 D1 [] y) as Hof.
  { apply (loaded_on_file p pr lg D D1 hs Hmade Hlg Hag); [done|by rewrite Sb4| |done]. rewrite It4. by eapply put_inode_lookup. }
  destruct (loaded_fields pr lg D D1 hs Hmade Hlg Hag _ x Hr) as (_ & Es & _). fold y in Es. fold n in Hsz.
  pose proof Hfu as [Hsz2 _]. assert (MAXFILE * BSIZE < 2 ^ 32) as HM by done.
  destruct (readi_run mk_sb 1 p pr DLocal lg k4 D1 D1 [] y 0 n e Hof) as (k5 & E5 & _); try done; try lia.
  { by apply room. }
  { by apply (loaded_full pr lg D D1 hs Hmade Hlg Hag). }
  rewrite Es, Hsz, Z.sub_0_r, Z.min_id in E5. unfold y in E5.
  rewrite (loaded_bytes pr lg D D1 hs Hmade Hlg Hag) in E5 by (done || lia). rewrite <- Hsz, Hby, Hsz in E5.
  exists k5. unfold read_file. rewrite (bind_Ret _ _ _ _ _ E1), (bind_Ret _ _ _ _ _ E2), (bind_Ret _ _ _ _ _ E3).
  by rewrite (bind_Ret _ _ _ _ _ E4), (bind_Ret _ _ _ _ _ E5).
Qed.

(** C3: a kernel that has just booted from the image that mkfs made of the files
    [hs] mounts it, finds every one of them by its path, and reads the bytes
    the file had on the build host.  The directory must not end with a full
    block: mkfs would count one more block in its size than it has. *)
Theorem kernel_reads_image `{H : Host} (hs : list hostfile) i f p pr e :
  (forall n, 0 <= n < FSSIZE -> host_ok n = true) -> Forall host_file_ok hs ->
  2 + Z.of_nat (length hs) <= NINODES -> nmeta + total (layout hs) <= FSSIZE ->
  good_names hs -> ((2 + length hs) mod 64 <> 0)%nat -> hs !! i = Some f ->
  exists s, mkfs_main (Some true) hs mk_start = Ret tt s /\
    forall k, booted p pr k (mk_disk s) -> free_table k -> l_outstanding (k_log k) = 0 -> l_committing (k_log k) = 0 ->
    let n := Z.of_nat (length (contents f)) in
    exists k', read_file (chr "/" :: short_name f) n (W k e) = Ret (Some (n, contents f)) (W k' e).
Proof.
  intros Hhost Hok Hmax Hf Hg Hm Hi. destruct (mkfs_main_made hs Hhost Hok Hmax Hf) as (s & E & Hmade).
  exists s. split; [done|]. intros k Hb Hft Ho Hc. by apply (read_file_run p pr e k (mk_disk s) hs i f).
Qed.

Lemma kernel_reads_image_witness :
  exists s k k', mkfs_main (H := good_host) (Some true) sample_hostfiles mk_start = Ret tt s /\
    (forall n, disk_block k n = mk_disk s n) /\
    read_file (cstr "/cat") 1027 (W k []) = Ret (Some (1027, replicate 1024 7 ++ replicate 3 9)) (W k' []).
Proof.
  destruct (kernel_reads_image (H := good_host) sample_hostfiles 0 (cstr "user/_cat", Some [replicate 1024 7; replicate 3 9]) 1 sample_bproc [])
    as (s & E & Hk).
  - done.
  - repeat constructor; try (by eexists); try (by vm_compute); by refine (bool_decide_unpack _ _).
  - by vm_compute.
  - by vm_compute.
  - split; [apply list.Forall_forall..|]; by refine (bool_decide_unpack _ _).
  - done.
  - done.
  - destruct (binit_booted 1 sample_bproc (set_k_disk (mk_img s) sample_boot) []) as (bs & _ & Hb).
    { reflexivity. }
    { split; [reflexivity|reflexivity|reflexivity|intros; apply not_elem_of_nil..]. }
    { apply not_elem_of_nil. }
    { reflexivity. }
    set (k := set_k_bufs bs (set_k_disk (mk_img s) sample_boot)) in Hb.
    assert (forall n, disk_block k n = mk_disk s n) as Hd by (intros n; reflexivity).
    destruct (Hk k) as (k' & Er).
    + destruct Hb as [B1 B2 B3 B4 B5 B6 B7]. split; [exact B1|exact B2|exact B3|exact B4|exact B5|exact Hd|exact B7].
    + assert (k_itable k = replicate (Z.to_nat NINODE) inode0 /\ k_held k = []) as [Et Eh] by (split; reflexivity).
      split; rewrite ?Et, ?Eh; [apply not_elem_of_nil| |rewrite length_replicate; apply Nat.leb_le; reflexivity].
      intros i x Hx. apply lookup_replicate in Hx as [-> _]. split; reflexivity.
    + reflexivity.
    + reflexivity.
    + exists s, k, k'. split; [exact E|]. split; [exact Hd|exact Er].
Defined.
