(* ===== verification/Grind.v ===== *)
(** * grind.c: random system calls

    The generator of random numbers, against the recurrence it is meant to
    compute, and the program that calls the system with them.  [rand_next],
    which a process has of its own, is passed along; a loop that does not end
    takes the number of turns it may make. *)

From Stdlib Require Import ZArith Lia Znumtheory.
From stdpp Require Import base gmap list strings numbers.
From S2P Require Import Prelude Riscv State Klib Uart User Cmds.

(** ** The generator *)

(** A [long] holds the intermediate values; the result is an [int], and
    [*ctx] an [unsigned long]. *)
Definition do_rand (ctx : Z) : Z * Z :=
  let x := sx 64 (u64 (ctx mod 0x7ffffffe + 1)) in
  let hi := Z.quot x 127773 in
  let lo := Z.rem x 127773 in
  let x := sx 64 (16807 * lo - 2836 * hi) in
  let x := if x <? 0 then sx 64 (x + 0x7fffffff) else x in
  let x := sx 64 (x - 1) in
  (s32 x, u64 x).

Definition rand (rand_next : Z) : Z * Z := do_rand rand_next.

(** ** The program *)

(** The system calls that grind makes besides those of [Sys].  [wait] with a
    place for the status gives the status it stores, if it finds a child. *)
Class TestSys (St : Type) := {
  ts_sys :: Sys St;
  u_sbrk : Z -> M St Z;
  u_getpid : M St Z;
  u_sleep : Z -> M St Z;
  u_wait_status : M St (Z * option Z);
}.

(** The variables of [go] and the generator's. *)
Record grind_state : Type := mkGrind {
  g_next : Z;
  g_fd : Z;
  g_buf : list Z;
  g_iters : Z;
}.

Section grind.
Context {St : Type} `{T : TestSys St}.

#[local] Abbreviation O_CREATE_RDWR := (Z.lor O_CREATE O_RDWR).

Definition drop_result {A} (m : M St A) : M St unit := let* _ := m in ret tt.

(** [close(open(path, O_CREATE|O_RDWR))]. *)
Definition touch (path : list Z) : M St unit :=
  let* fd := u_open path O_CREATE_RDWR in drop_result (u_close fd).

(** [fork], with what the child does, and the parent's way on; the error message
    goes to [fd] and the status is [code]. *)
Definition forked (fd code : Z) (child : M St unit) (parent : Z -> M St unit) : M St unit :=
  let* pid := u_fork in
  if pid =? 0 then child else
  if pid <? 0 then u_fprintf fd (line "grind: fork failed") [] ;;; u_exit code else
  parent pid.

(** The cases 1 to 4: two files. *)
Definition go_files (what : Z) : M St unit :=
  if what =? 1 then touch (cstr "grindir/../a")
  else if what =? 2 then touch (cstr "grindir/../grindir/../b")
  else if what =? 3 then drop_result (u_unlink (cstr "grindir/../a"))
  else if what =? 4 then
    let* r := u_chdir (cstr "grindir") in
    when (negb (r =? 0)) (u_printf (line "grind: chdir grindir failed") [] ;;; u_exit 1) ;;;
    drop_result (u_unlink (cstr "../b")) ;;;
    drop_result (u_chdir (cstr "/"))
  else ret tt.

(** The cases 9 to 12: directories and links. *)
Definition go_dirs (what : Z) : M St unit :=
  if what =? 9 then
    drop_result (u_mkdir (cstr "grindir/../a")) ;;;
    touch (cstr "a/../a/./a") ;;;
    drop_result (u_unlink (cstr "a/a"))
  else if what =? 10 then
    drop_result (u_mkdir (cstr "/../b")) ;;;
    touch (cstr "grindir/../b/b") ;;;
    drop_result (u_unlink (cstr "b/b"))
  else if what =? 11 then
    drop_result (u_unlink (cstr "b")) ;;;
    drop_result (u_link (cstr "../grindir/./../a") (cstr "../b"))
  else if what =? 12 then
    drop_result (u_unlink (cstr "../grindir/../a")) ;;;
    drop_result (u_link (cstr ".././b") (cstr "/grindir/../a"))
  else ret tt.

(** The cases 13 to 20: processes and memory. *)
Definition go_procs (break0 what : Z) : M St unit :=
  if what =? 13 then
    forked 1 1 (u_exit 0) (fun _ => drop_result u_wait)
  else if what =? 14 then
    forked 1 1 (drop_result u_fork ;;; drop_result u_fork ;;; u_exit 0) (fun _ => drop_result u_wait)
  else if what =? 15 then drop_result (u_sbrk 6011)
  else if what =? 16 then
    let* a := u_sbrk 0 in
    when (break0 <? a) (let* b := u_sbrk 0 in drop_result (u_sbrk (s32 (- (b - break0)))))
  else if what =? 17 then
    forked 1 1 (touch (cstr "a") ;;; u_exit 0)
      (fun pid =>
         let* r := u_chdir (cstr "../grindir/..") in
         when (negb (r =? 0)) (u_printf (line "grind: chdir failed") [] ;;; u_exit 1) ;;;
         drop_result (u_kill pid) ;;;
         drop_result u_wait)
  else if what =? 18 then
    forked 1 1 (let* me := u_getpid in drop_result (u_kill me) ;;; u_exit 0) (fun _ => drop_result u_wait)
  else if what =? 19 then
    let* r := u_pipe in
    let '(rd, wr) := snd r in
    when (fst r <? 0) (u_printf (line "grind: pipe failed") [] ;;; u_exit 1) ;;;
    forked 1 1
      (drop_result u_fork ;;;
       drop_result u_fork ;;;
       let* n := u_write wr (cstr "x") in
       when (negb (n =? 1)) (u_printf (line "grind: pipe write failed") []) ;;;
       let* d := u_read rd 1 in
       when (negb (fst d =? 1)) (u_printf (line "grind: pipe read failed") []) ;;;
       u_exit 0)
      (fun _ =>
         drop_result (u_close rd) ;;;
         drop_result (u_close wr) ;;;
         drop_result u_wait)
  else if what =? 20 then
    forked 1 1
      (drop_result (u_unlink (cstr "a")) ;;;
       drop_result (u_mkdir (cstr "a")) ;;;
       drop_result (u_chdir (cstr "a")) ;;;
       drop_result (u_unlink (cstr "../a")) ;;;
       drop_result (u_open (cstr "x") O_CREATE_RDWR) ;;;
       drop_result (u_unlink (cstr "x")) ;;;
       u_exit 0)
      (fun _ => drop_result u_wait)
  else ret tt.

(** Case 21: a file can be created, written and removed.  In a [struct stat]
    the inode number is at 4 and the size at 16. *)
Definition go_create : M St unit :=
  drop_result (u_unlink (cstr "c")) ;;;
  let* fd1 := u_open (cstr "c") O_CREATE_RDWR in
  when (fd1 <? 0) (u_printf (line "grind: create c failed") [] ;;; u_exit 1) ;;;
  let* n := u_write fd1 (cstr "x") in
  when (negb (n =? 1)) (u_printf (line "grind: write c failed") [] ;;; u_exit 1) ;;;
  let* r := u_fstat fd1 in
  when (negb (fst r =? 0)) (u_printf (line "grind: fstat failed") [] ;;; u_exit 1) ;;;
  let size := le_val (get_bytes (snd r) 16 8) in
  let ino := get32 (snd r) 4 in
  when (negb (size =? 1)) (u_printf (line "grind: fstat reports wrong size %d") [PInt (s32 size)] ;;; u_exit 1) ;;;
  when (200 <? ino) (u_printf (line "grind: fstat reports crazy i-number %d") [PInt (s32 ino)] ;;; u_exit 1) ;;;
  drop_result (u_close fd1) ;;;
  drop_result (u_unlink (cstr "c")).

Definition close_all (fds : list Z) : M St unit :=
  fold_right (fun fd m => drop_result (u_close fd) ;;; m) (ret tt) fds.

(** [close(to); if(dup(fd) != to) ...; close(fd)]. *)
Definition move_fd (to fd code : Z) : M St unit :=
  drop_result (u_close to) ;;;
  let* r := u_dup fd in
  when (negb (r =? to)) (u_fprintf 2 (line "grind: dup failed") [] ;;; u_exit code) ;;;
  drop_result (u_close fd).

(** [wait(&st)] into a variable that has no value yet. *)
Definition wait_code : M St Z :=
  let* r := u_wait_status in
  match snd r with Some st => ret st | None => fault "uninitialised" end.

(** The first byte read, or the 0 that was there. *)
Definition read_byte (fd : Z) : M St Z :=
  let* d := u_read fd 1 in ret (default 0 (head (snd d))).

(** Case 22: [echo hi | cat]. *)
Definition go_pipeline : M St unit :=
  let* aa := u_pipe in
  when (fst aa <? 0) (u_fprintf 2 (line "grind: pipe failed") [] ;;; u_exit 1) ;;;
  let* bb := u_pipe in
  when (fst bb <? 0) (u_fprintf 2 (line "grind: pipe failed") [] ;;; u_exit 1) ;;;
  let '(aa0, aa1) := snd aa in
  let '(bb0, bb1) := snd bb in
  forked 2 3
    (close_all [bb0; bb1; aa0] ;;;
     move_fd 1 aa1 1 ;;;
     drop_result (u_exec (cstr "grindir/../echo") [cstr "echo"; cstr "hi"]) ;;;
     u_fprintf 2 (line "grind: echo: not found") [] ;;;
     u_exit 2)
    (fun _ =>
       forked 2 7
         (close_all [aa1; bb0] ;;;
          move_fd 0 aa0 4 ;;;
          move_fd 1 bb1 5 ;;;
          drop_result (u_exec (cstr "/cat") [cstr "cat"]) ;;;
          u_fprintf 2 (line "grind: cat: not found") [] ;;;
          u_exit 6)
         (fun _ =>
            close_all [aa0; aa1; bb1] ;;;
            let* b0 := read_byte bb0 in
            let* b1 := read_byte bb0 in
            let* b2 := read_byte bb0 in
            let buf := [b0; b1; b2; 0] in
            drop_result (u_close bb0) ;;;
            let* st1 := wait_code in
            let* st2 := wait_code in
            when (negb (st1 =? 0) || negb (st2 =? 0) || negb (u_strcmp buf (line "hi") =? 0))
              (u_printf (cstr "grind: exec pipeline failed %d %d " ++ [34] ++ cstr "%s" ++ [34; 10])
                 [PInt st1; PInt st2; PStr (Some (c_string buf))] ;;; u_exit 1))).

(** One turn of [go]'s loop. *)
Definition go_turn (which_child break0 : Z) (g : grind_state) : M St (grind_state + unit) :=
  let iters := u64 (g_iters g + 1) in
  when (iters mod 500 =? 0) (drop_result (u_write 1 (if negb (which_child =? 0) then cstr "B" else cstr "A"))) ;;;
  let '(r, next) := rand (g_next g) in
  let what := Z.rem r 23 in
  let g := mkGrind next (g_fd g) (g_buf g) iters in
  if what =? 5 then
    drop_result (u_close (g_fd g)) ;;;
    let* fd := u_open (cstr "/grindir/../a") O_CREATE_RDWR in
    ret (inl (mkGrind next fd (g_buf g) iters))
  else if what =? 6 then
    drop_result (u_close (g_fd g)) ;;;
    let* fd := u_open (cstr "/./grindir/./../b") O_CREATE_RDWR in
    ret (inl (mkGrind next fd (g_buf g) iters))
  else if what =? 7 then
    drop_result (u_write (g_fd g) (g_buf g)) ;;; ret (inl g)
  else if what =? 8 then
    let* d := u_read (g_fd g) 999 in
    ret (inl (mkGrind next (g_fd g) (put_bytes (g_buf g) 0 (snd d)) iters))
  else
    (if what <=? 4 then go_files what
     else if what <=? 12 then go_dirs what
     else if what <=? 20 then go_procs break0 what
     else if what =? 21 then go_create
     else if what =? 22 then go_pipeline
     else ret tt) ;;;
    ret (inl g).

Definition go (fuel : nat) (which_child rand_next : Z) : M St unit :=
  let* break0 := u_sbrk 0 in
  drop_result (u_mkdir (cstr "grindir")) ;;;
  let* r := u_chdir (cstr "grindir") in
  when (negb (r =? 0)) (u_printf (line "grind: chdir grindir failed") [] ;;; u_exit 1) ;;;
  drop_result (u_chdir (cstr "/")) ;;;
  while_ fuel (go_turn which_child break0) (mkGrind rand_next (-1) (replicate 999 0) 0).

(** A child of [iter]. *)
Definition grind_child (fuel : nat) (which_child seed : Z) : M St Z :=
  let* pid := u_fork in
  when (pid <? 0) (u_printf (line "grind: fork failed") [] ;;; u_exit 1) ;;;
  when (pid =? 0) (go fuel which_child seed ;;; u_exit 0) ;;;
  ret pid.

Definition iter (fuel : nat) : M St unit :=
  drop_result (u_unlink (cstr "a")) ;;;
  drop_result (u_unlink (cstr "b")) ;;;
  let* pid1 := grind_child fuel 0 31 in
  let* pid2 := grind_child fuel 1 7177 in
  let* r := u_wait_status in
  let st1 := default (-1) (snd r) in
  when (negb (st1 =? 0)) (drop_result (u_kill pid1) ;;; drop_result (u_kill pid2)) ;;;
  drop_result u_wait_status ;;;
  u_exit 0.

Definition grind_turn (fuel : nat) (_ : unit) : M St (unit + unit) :=
  let* pid := u_fork in
  when (pid =? 0) (iter fuel ;;; u_exit 0) ;;;
  when (0 <? pid) (drop_result u_wait) ;;;
  drop_result (u_sleep 20) ;;;
  ret (inl tt).

Definition grind_main (fuel : nat) : M St unit := while_ fuel (grind_turn fuel) tt.
End grind.

(** ** The recurrence *)

(** The generator of Park and Miller, modulo the prime [2^31 - 1]. *)
Definition park_miller (x : Z) : Z := 7 ^ 5 * x mod (2 ^ 31 - 1).

(** The intermediate value: congruent to the product, and small. *)
Lemma schrage x :
  0 < x < 2 ^ 31 - 1 ->
  let y := 16807 * (x mod 127773) - 2836 * (x / 127773) in
  - (2 ^ 31 - 1) < y < 2 ^ 31 - 1 /\ exists q, 16807 * x = (2 ^ 31 - 1) * q + y.
Proof.
  intros Hx y. pose proof (Z.div_mod x 127773 ltac:(lia)) as E. pose proof (Z.mod_pos_bound x 127773 ltac:(lia)) as Hm.
  assert (0 <= x / 127773 <= 16807) as Hd.
  { split; [apply Z.div_pos; lia|]. apply Z.lt_succ_r. apply Z.div_lt_upper_bound; lia. }
  split; [unfold y; lia|]. exists (x / 127773). unfold y. lia.
Qed.

(** The product is no multiple of the modulus. *)
Lemma park_miller_range x : 0 < x < 2 ^ 31 - 1 -> 0 < park_miller x < 2 ^ 31 - 1.
Proof.
  intros Hx. unfold park_miller. pose proof (Z.mod_pos_bound (7 ^ 5 * x) (2 ^ 31 - 1) ltac:(lia)) as Hm.
  assert ((7 ^ 5 * x) mod (2 ^ 31 - 1) <> 0) as H0; [|lia]. intros E. apply Z.mod_divide in E; [|lia].
  apply Gauss in E; [|apply Zgcd_1_rel_prime; by vm_compute]. apply Z.divide_pos_le in E; lia.
Qed.

(** C39: [do_rand] computes the next number of the sequence
    [x' = 7^5 * x mod (2^31 - 1)] without an intermediate value that overflows,
    from any seed; the result fits an [int] and is between 0 and 0x7ffffffd. *)
Theorem do_rand_correct ctx :
  0 <= ctx < 2 ^ 64 ->
  let r := park_miller (ctx mod 0x7ffffffe + 1) - 1 in
  do_rand ctx = (r, r) /\ 0 <= r <= 0x7ffffffd.
Proof.
  intros Hc r. pose proof (Z.mod_pos_bound ctx 0x7ffffffe ltac:(lia)) as Hm. set (x := ctx mod 0x7ffffffe + 1) in *.
  assert (0 < x < 2 ^ 31 - 1) as Hx by lia. destruct (schrage x Hx) as [Hy [q Eq]].
  pose proof (park_miller_range x Hx) as Hp. fold x in r. split; [|unfold r; lia]. unfold do_rand. fold x.
  assert (u64 x = x) as -> by (apply Z.mod_small; lia). rewrite (sx_small 64 x) by lia.
  rewrite Z.quot_div_nonneg, Z.rem_mod_nonneg by lia. set (y := 16807 * (x mod 127773) - 2836 * (x / 127773)) in *.
  rewrite (sx_small 64 y) by lia.
  assert ((if y <? 0 then sx 64 (y + 0x7fffffff) else y) = park_miller x) as ->.
  { unfold park_miller in *. change (7 ^ 5) with 16807 in *. destruct (Z.ltb_spec y 0) as [Hn|Hn].
    - rewrite sx_small by lia. apply (Z.mod_unique _ _ (q - 1)); lia.
    - apply (Z.mod_unique _ _ q); lia. }
  fold r. rewrite (sx_small 64 r) by (unfold r; lia). rewrite s32_small by (unfold r; lia). f_equal. apply Z.mod_small. unfold r. lia.
Qed.

Lemma do_rand_correct_witness : do_rand 31 = (537823, 537823).
Proof. destruct (do_rand_correct 31 ltac:(lia)) as [E _]. rewrite E. by vm_compute. Defined.
